(* ===== verification/_CoqProject ===== *)
-Q . S2P
Prelude.v
Domain.v
StateStore.v
MemoryStore.v
SqliteStore.v
StoreRefinement.v
Encoding.v
Json.v
Timestamp.v
Network.v
Commissioning.v
CommissioningRefinement.v
CommissioningProofs.v
Protocol.v
ProtocolProofs.v
HostAddresses.v
BootstrapService.v
Control.v
BootstrapProofs.v
ClaimWindows.v
Lifecycle.v
LifecycleProofs.v
RemovalIntents.v
RemovalLedger.v
RemovalWorkflow.v
Capability.v
RemovalProofs.v
RemovalLiveness.v
AuditIndex.v
AuditProofs.v
LocalApi.v
LocalApiProofs.v
Admission.v
AdmissionProofs.v
AdmissionLedger.v
Conversation.v
OperatorAdmission.v
Upstream.v
Clients.v
DeviceClients.v
Vouchers.v
ClientProofs.v
Management.v
ManagementProofs.v
Activity.v
Lanes.v
MissionViews.v
MissionControl.v
MissionProofs.v
MapProofs.v
NetworkManager.v
NetworkManagerProofs.v
DeviceAdmissions.v
OwnerDevices.v
OwnerDevicesProofs.v
ManagementBackend.v
ManagementViews.v
HostMachine.v
ManagementRoutes.v
Surface.v
ViewProofs.v
SurfaceProofs.v
HomeProofs.v
ViewContracts.v
PlaneViews.v
MemoryRelays.v
PlaneRoutes.v
PlaneWire.v
PlaneProofs.v
Loopback.v
IsoFormat.v
MissionText.v
MissionTurns.v
MissionActivities.v
MissionConsole.v
MissionStream.v
MissionConsoleProofs.v
