(* ===== verification/Prelude.v ===== *)
(** * The Eidolon Admin control plane, verified

    Eidolon Admin runs on a home Host. This library models the parts of it that
    decide who may act on the Host and that keep the record of it, from
    [src/server/eidolon_admin_server/] (paths below are relative to it), and
    proves what makes them correct.

    ** The parts and how they interact

    A Controller (a phone) commissions a Host over BLE or the LAN. A setup window,
    opened by a Setup code, admits a first claim; a claim gives the Controller a
    Grant bound to its key and to the reset epoch of the Host; a Grant authorizes
    network changes, further management over the LAN, and the removal of devices.
    The state of all this is kept by a store with two adapters; a network change
    is staged, confirmed or rolled back through a network port, with an adapter in
    memory and one over NetworkManager.

    A phone's further requests go to the Local API, which opens sessions for
    Controllers the Host vouches for and holds no credential of another authority.
    What it needs it asks of the Admin process over a loopback connection: the
    management plane (Companions, their personas, faces, conversations, the map of
    what is going on), the inventory of devices and the commands aimed at them. A
    removal alone it requests over a Unix socket from the lifecycle workflow
    daemon, which records the intent in a ledger of its own, asks Hub to revoke
    the claim through a capability broker in the Admin process, and watches the
    Kernel until the device is unmounted.

    A device is let in the other way round: a Controller's Decision is recorded in
    a ledger before Hub is asked, an operator's admission runs from Hub's approval
    to the Kernel's mount and assignment, and a voucher signs a device's key.
    Every question to another authority goes through a client that finds the
    authority in the System Directory. An index of the audit stream keeps what
    happened, and Mission Control reads every authority and says, for each lane of
    its map, how far it can be trusted.

    ** The files

    - Prelude.v: exceptions, the state-and-error monad [M] with its equations and
      triples ([hoare]), strings as UTF-8 bytes, JSON values, lists as SQL tables
      and as Python dictionaries.
    - Domain.v: [bootstrap/domain/model.py].
    - StateStore.v: the store protocol [bootstrap/ports/state_store.py] as a type
      class, and a store call as a value. MemoryStore.v and SqliteStore.v: its
      adapters in [bootstrap/adapters/persistence/]. StoreRefinement.v: the
      simulation between them.
    - Encoding.v, Json.v, Timestamp.v: the encodings of the wire and of the
      stores.
    - Network.v: [bootstrap/ports/network_provisioning.py] and its in-memory
      adapter. NetworkManager.v, NetworkManagerProofs.v: the adapter
      [bootstrap/adapters/network/network_manager.py] over the system bus.
    - Commissioning.v: [bootstrap/commissioning_service.py], over any store and
      any network adapter; CommissioningRefinement.v lifts the store refinement to
      it and CommissioningProofs.v holds its theorems.
    - Protocol.v, ProtocolProofs.v: [bootstrap/commissioning_protocol.py] and
      [bootstrap/controller_auth.py], one authenticated link.
    - HostAddresses.v: [bootstrap/host_addresses.py] and
      [bootstrap/endpoint_encoding.py].
    - BootstrapService.v, Control.v: [bootstrap/service.py], and the control
      socket and the start sequence of [bootstrap/control.py] and
      [bootstrap/daemon.py]; BootstrapProofs.v and ClaimWindows.v: their theorems.
    - Lifecycle.v, LifecycleProofs.v: frames, peer credentials and the gate of
      [lifecycle_workflow/].
    - RemovalIntents.v, RemovalLedger.v: the ledger of
      [app/control_plane/removal_intents.py], in memory and in SQLite.
    - RemovalWorkflow.v: [remove_controller_device] of
      [app/control_plane/service.py]. Capability.v: the broker and the client of
      [lifecycle_workflow/capability.py]. RemovalProofs.v and RemovalLiveness.v:
      their theorems.
    - AuditIndex.v, AuditProofs.v: [audit/], the index, its queries, the consumer
      and one turn of its loop.
    - LocalApi.v, LocalApiProofs.v: the sessions of [local_api/auth.py] and the
      authentication of [local_api/app.py], over the Host of Control.v.
    - Conversation.v: the log of what an operation asks and hears, and its
      triples.
    - Admission.v: the Decision ledger of [app/control_plane/admission_intents.py]
      and the Decision workflow of [app/control_plane/service.py], with the
      credentials of [hub_credentials.py]; AdmissionProofs.v and
      AdmissionLedger.v: their theorems.
    - OperatorAdmission.v: [admit_operator_device] and the assignments of the same
      service, with their theorems.
    - Upstream.v, Clients.v, DeviceClients.v: [app/control_plane/directory.py] and
      [app/control_plane/clients.py], call by call; ClientProofs.v: their
      theorems.
    - Vouchers.v: [app/control_plane/commissioning_vouchers.py] and the operations
      of the service that issue and withdraw.
    - Management.v, Activity.v, ManagementProofs.v: [app/management/], the life of
      a Companion and what it said and did.
    - Lanes.v: the ledger of [app/mission_control/lanes.py]. MissionViews.v: the
      models of [app/mission_control/schemas.py]. MissionControl.v: the reading of
      [app/mission_control/service.py], its projection for the Owner and the join
      of [local_api/management/mission_control.py]. MissionProofs.v and
      MapProofs.v: their theorems.
    - IsoFormat.v: [datetime.fromisoformat]. MissionText.v: the texts of
      [app/mission_control/service.py], redaction among them. MissionTurns.v: its
      turns, of the Agent and of the channel. MissionActivities.v: its jobs,
      events and activities. MissionConsole.v: its panels, the snapshot of the
      console and a page of history. MissionStream.v: the events of the console's
      stream and the blackboard, [router.py], [blackboard.py] and [replay.py] of
      [app/mission_control/]. MissionConsoleProofs.v: their theorems.
    - DeviceAdmissions.v: [local_api/device_admissions.py]. OwnerDevices.v:
      [local_api/devices.py] and the operations on devices of [local_api/app.py].
      OwnerDevicesProofs.v: their theorems, over the daemon of Lifecycle.v and the
      workflow of RemovalWorkflow.v.
    - ManagementBackend.v: [local_api/management/backend.py], with its theorem.
    - ManagementViews.v: the views of [local_api/management/router.py] as data,
      what pydantic checks when one is built, and what it is to be one
      ([conforms]). HostMachine.v: [local_api/host_services.py], with Python's
      numbers, and [local_api/host_release.py]. ManagementRoutes.v: every route of
      [local_api/management/router.py], over ports; Surface.v: the ports as
      [local_api/app.py] assembles them. SurfaceProofs.v and HomeProofs.v: their
      theorems. ViewProofs.v: when what a view function builds is a value of its
      view.
    - ViewContracts.v: when every value of one view is accepted by another, as a
      decision on the two views. PlaneViews.v: the models of the internal plane
      [app/management/router.py]. MemoryRelays.v: [app/management/memory.py],
      [recollecting.py], [forgetting.py] and [sessions.py]. PlaneRoutes.v: the
      credential of [app/service_auth.py], the handler of refusals
      [app/control_plane/failure_handler.py] and every route of the plane, from
      its parsed parameters to its answer; PlaneWire.v: its routes by method and
      path, when a body is decoded and the credential asked for, how parameters
      and bodies are read, and what leaves. PlaneProofs.v: their theorems.
      Loopback.v: the client of ManagementBackend.v against the plane of
      PlaneWire.v.

    ** How the code is modelled

    An operation that can raise and changes state is a function into [M S A]: from
    a state to a result, a value or an exception, and a state; the state at a
    raise is kept, and a transaction or an [except] is written where the code has
    one. An [await] during which another request can run cuts a handler in two
    (the staging of a network change); reads the code gathers run in order.
    Protocols of the code are type classes over the state of the adapter:
    [BootstrapStateStore], [NetworkProvisioning], [RemovalIntentStore],
    [AdmissionDecisionIntentStore], the readers and writers of Management.v,
    [AdminOwnerDevices], [AdminDeviceAdmission], and the ports of the management
    surface ([ManagementBackendPort], [OwnerDevicePort], [HostMachinePort],
    [ControllerDirectoryPort], [SurfaceAuthentication]). Code the repository does
    not hold is a parameter: SHA-1, SHA-256, ECDSA, DER, the SDK's identifiers
    ([DeviceReference], [HubRevocation], [DecisionResult], [HubConfirmation]),
    what pydantic coerces and the SDK's models ([Pydantic], [DeviceOutputs]), the
    HTTP library ([Http]), the system bus ([SystemBus]), the workflow's socket
    ([WorkflowSocket]), JetStream ([JetStream]), and what the other services
    answer ([RemovalAuthorities], [AdmissionHub], [KernelMounts],
    [OperatorAuthorities], [RuntimeAuthorities]); where a property needs something
    of such a parameter the property says so. Clocks and random sources are read
    from the world.

    ** The theorems

    Durable authority: C1, C2 and C3. Encodings: C4. Network changes and
    commissioning: C5, C6 and C7, the last on the in-memory network; over
    NetworkManager: C27. Authentication on a link and on the LAN: C8, C9, C10 and
    C11. The claim window over the life of a Host: C12, and what a start of the
    Host does to windows and operations C33. The removal of a device: the gate
    C13, the ledger C14, the workflow C15, C16, C17 and C18, what the broker
    withholds C19, and the whole way from the Local API and back C28. Decisions on
    Enrollments: C20 and C21; an operator's admission: C22. The clients, for the
    calls listed there: C23 and C31. The Local API: its sessions C24 and C25, and
    whom and what the commands of a session reach C29 and C30. Mission Control:
    its reading C26, and its console: which turns are shown C38, how many
    activities C39, and that a snapshot comes back C40. The management surface:
    whom it speaks for C32, and when a device is shown as connected C34. The
    internal plane behind it: who is let in C37, that the surface accepts whatever
    the plane answers C36, and that the calls for its documents cross the loopback
    unchanged, answer and refusal too C35.

    Beside these stand theorems that carry no number: the revocation of a
    Controller on the store, a reset during the staging of a network change, an
    expired checkpoint of NetworkManager, the draw of a Setup code, wrong codes
    and resets on the store, the order of timestamps and where the two stores part
    ways after a clock step, the network adapter's transactions, the scan, the
    addresses a Host publishes, broker markers, the agreement of the two Decision
    ledgers and what an answer of the Decision workflow is worth, the child
    identities of an admission, the cursor of the audit index and what a prune
    does to its numbers, that nothing is acknowledged before it is kept, that a
    client without its credential asks nobody, which refusals of a client cannot
    be answered, that a voucher ignores a refusal, what a staged network change
    records and how an error of the bus strands its operation, what a phone is
    told of a removal, what an inventory shows, the outcome of a lane, the events
    of the map, the bodies of a reading, the history of a Companion, what the rest
    of the management plane promises, that a change rolled back after it succeeded
    holds its operation for ever, that an accepted removal keeps its content, what
    a device beyond the first page of Claims costs, the order of putting a
    Companion away, what joining the inventory leaves alone, how the home counts
    devices, and that the cursor of the history reads back; the home without its
    parts and without its domain; what is left of a text on the console, which row
    of the Agent costs the whole map, what a running turn points at, that a job is
    shown once, that a stream of one Owner carries no frame of Hub, and whose the
    blackboard is that is read.

    ** Bounds and fuel

    [generate_setup_code] draws until a code is usable: thirteen distinct draws
    are enough. [strip_with] takes the length of its string, each turn shortening
    it. [poll_mount] takes a number of turns: with a clock that moves between two
    looks, as many turns as the observation timeout has units are enough (C17).
    The polling loops of NetworkManager.v take a number of turns too: with a clock
    that moves, the turns their timeout has room for are enough (waiting_ends in
    NetworkManagerProofs.v), and the safety theorems hold at any number.
    [words_with] (MissionText.v) takes the length of its text, each turn taking a
    character away. Every other recursion is structural.

    ** Not modelled

    Operating-system and third-party code: sockets, BlueZ, TLS, what FastAPI makes
    of a request, YAML and TOML, subprocesses, logging. The migration ladders of
    the SQLite adapters: both are modelled at the current schema. Writing a reply
    to a closing socket, which the code ignores. Two handlers interleave only
    where a handler is cut above. FastAPI and Starlette are what they document of
    the declared paths, parameters and bodies (PlaneWire.v): a declared body that
    says it is JSON is decoded first, then the router's dependency asks for the
    credential, then parameters and body are checked; which Content-Type says so
    is a parameter. Between the client and the plane the HTTP layer is a request
    and a response that arrive as sent, and the bytes of a face are relayed but
    outside C35. The line a refusal logs is described, not written. The routes of
    the operator's control plane, which call what is modelled; the request models
    of the management surface; the loops of the console's stream, which wait, and
    the bytes of its events; system health, tools and the configuration editor. *)

From Stdlib Require Export Strings.String Ascii.
From stdpp Require Export base gmap strings list sorting pretty.

Declare Scope py_scope.
Delimit Scope py_scope with py.
Open Scope py_scope.

Create HintDb eidolon.
Create Rewrite HintDb eidolon_rw.

(** ** Exceptions

    The Python exceptions the modelled code raises or names in an [except]
    clause.  Every constructor is one class; subclassing is the [catch_*]
    predicates below. *)

(** A bounded context refused, or could not answer. *)
Record authority_failure := mkAuthorityFailure {
  af_authority : string; af_kind : string; af_detail : string; af_status_code : Z;
  af_upstream_status : option Z; af_retryable : bool; af_code : option string }.
#[global] Instance authority_failure_eq_dec : EqDecision authority_failure.
Proof. solve_decision. Defined.

(** The public refusal of the SDK, as the Local API relays it. *)
Record public_refusal := mkRefusal {
  rf_kind : string; rf_reason : string; rf_code : option string; rf_retryable : bool }.
#[global] Instance public_refusal_eq_dec : EqDecision public_refusal.
Proof. solve_decision. Defined.

(** [HTTPReason] and [HTTPEnvelope] are [HTTPException]s whose detail is
    [{"reason": ...}] and a dumped refusal. *)
Inductive exn :=
| BootstrapStateConflict (msg : string)
| SQLiteBootstrapStoreError (msg : string)
| IntegrityError (msg : string)
| OperationalError (msg : string)
| NetworkProvisioningError (msg : string)
| CommissioningRequestRejected (code msg : string)
| BootstrapOperationRejected (msg : string)
| ControllerAuthenticationRejected (msg : string)
| ControllerSignatureError (msg : string)
| BootstrapControlError (msg : string)
| ControlClientError (code msg : string)
| HTTPException (status_code : Z) (detail : string)
| AuthorityFailure (f : authority_failure)
| AdmissionCredentialError (msg : string)
| HttpxTransportError (class_name : string)
| DeviceAdmissionError (msg : string) (status_code : Z) (reason : option string)
| DeviceInventoryError (msg : string) (status_code : Z)
| HostServiceControlError (msg : string) (status_code : Z)
| ManagementBackendError (msg : string) (status_code : Z) (refusal : public_refusal)
| HTTPReason (status_code : Z) (reason : string)
| HTTPEnvelope (status_code : Z) (refusal : public_refusal)
| UnregisteredSource (msg : string)
| ValidationError (msg : string)
| PermissionError (msg : string)
| RuntimeError (msg : string)
| ValueError (msg : string)
| TypeError (msg : string)
| KeyError (msg : string)
| AttributeError (msg : string)
| AssertionError
| JSONDecodeError (msg : string)
| OverflowError (msg : string)
| IncompleteReadError
| TimeoutError
| OSError (msg : string).

#[global] Instance exn_eq_dec : EqDecision exn.
Proof. solve_decision. Defined.

(** A refusal raised with the defaults. *)
Definition refuse (authority kind detail : string) (status_code : Z) (retryable : bool) : exn :=
  AuthorityFailure (mkAuthorityFailure authority kind detail status_code None retryable None).

(** ** The result and state monads

    [M S A] is a Python call that may mutate an object of type [S] and either
    returns an [A] or raises.  A raise keeps the mutations made before it:
    Python does not undo them. *)

Inductive result (A : Type) :=
| Ok (a : A)
| Raise (e : exn).
Arguments Ok {A} a.
Arguments Raise {A} e.

Definition M (S A : Type) : Type := S → result A * S.

#[global] Instance M_ret S : MRet (M S) := λ A a s, (Ok a, s).
#[global] Instance M_bind S : MBind (M S) := λ A B f c s,
  match c s with
  | (Ok a, s') => f a s'
  | (Raise e, s') => (Raise e, s')
  end.

Definition raise {S A} (e : exn) : M S A := λ s, (Raise e, s).
Definition gets {S A} (f : S → A) : M S A := λ s, (Ok (f s), s).
Definition modify {S} (f : S → S) : M S unit := λ s, (Ok tt, f s).
Definition lift {S A} (r : result A) : M S A := λ s, (r, s).
(** [assert b] *)
Definition assert_py {S} (b : bool) : M S unit :=
  if b then mret tt else raise AssertionError.
(** [if bad: raise e] *)
Definition guard_py {S} (bad : bool) (e : exn) : M S unit :=
  if bad then raise e else mret tt.
(** [try: c except <h>: ...], where [h e = None] lets [e] propagate. *)
Definition catch {S A} (c : M S A) (h : exn → option (M S A)) : M S A := λ s,
  match c s with
  | (Ok a, s') => (Ok a, s')
  | (Raise e, s') => match h e with Some k => k s' | None => (Raise e, s') end
  end.

#[global] Instance result_ret : MRet result := @Ok.
#[global] Instance result_bind : MBind result := λ A B f c,
  match c with Ok a => f a | Raise e => Raise e end.

(** A call on one field of a larger object. *)
Definition zoom {S T A} (get : S → T) (put : T → S → S) (c : M T A) : M S A := λ s,
  let '(r, t) := c (get s) in (r, put t s).

Lemma bind_ok {S A B} (c : M S A) (f : A → M S B) s a s' :
  c s = (Ok a, s') → (c ≫= f) s = f a s'.
Proof. unfold mbind, M_bind. by intros ->. Qed.

Lemma bind_ok_if {S A B} (c : M S A) (f : A → M S B) s r s' :
  c s = (r, s') → (c ≫= f) s = match r with Ok a => f a s' | Raise e => (Raise e, s') end.
Proof. unfold mbind, M_bind. by intros ->. Qed.

Lemma bind_raise {S A B} (c : M S A) (f : A → M S B) s e s' :
  c s = (Raise e, s') → (c ≫= f) s = (Raise e, s').
Proof. unfold mbind, M_bind. by intros ->. Qed.

Lemma bind_ok_inv {S A B} (c : M S A) (f : A → M S B) s b s' :
  (c ≫= f) s = (Ok b, s') → ∃ a s1, c s = (Ok a, s1) ∧ f a s1 = (Ok b, s').
Proof.
  unfold mbind, M_bind. destruct (c s) as [[a|e] s1] eqn:E; [|done]. eauto.
Qed.

Lemma bind_gets {S A B} (f : S → A) (k : A → M S B) s : (gets f ≫= k) s = k (f s) s.
Proof. reflexivity. Qed.
Lemma bind_modify {S B} (f : S → S) (k : unit → M S B) s : (modify f ≫= k) s = k tt (f s).
Proof. reflexivity. Qed.
Lemma bind_mret {S A B} (a : A) (k : A → M S B) s : (mret a ≫= k) s = k a s.
Proof. reflexivity. Qed.
Lemma bind_mret_lift {S A B} (a : A) (k : A → M S B) s : ((λ s, (Ok a, s)) ≫= k) s = k a s.
Proof. reflexivity. Qed.
Lemma bind_raise_l {S A B} e (k : A → M S B) s : (raise e ≫= k) s = (Raise e, s).
Proof. reflexivity. Qed.
Lemma bind_guard {S B} b e (k : unit → M S B) s :
  (guard_py b e ≫= k) s = if b then (Raise e, s) else k tt s.
Proof. by destruct b. Qed.
Lemma bind_assert {S B} b (k : unit → M S B) s :
  (assert_py b ≫= k) s = if b then k tt s else (Raise AssertionError, s).
Proof. by destruct b. Qed.
Lemma bind_assoc {S A B C} (c : M S A) (f : A → M S B) (g : B → M S C) s :
  ((c ≫= f) ≫= g) s = (c ≫= (λ a, f a ≫= g)) s.
Proof. unfold mbind, M_bind. by destruct (c s) as [[]]. Qed.

#[export] Hint Rewrite @bind_gets @bind_modify @bind_mret @bind_raise_l @bind_guard @bind_assert
  @bind_assoc : eidolon_rw.

(** Pushes a state through the monadic glue in front of it. *)
Ltac mnorm := rewrite ?bind_assoc, ?bind_gets, ?bind_modify, ?bind_mret, ?bind_raise_l,
  ?bind_guard, ?bind_assert.

(** Unfolds one layer of monadic glue. *)
Ltac mstep := cbn [mbind M_bind mret M_ret raise gets modify lift guard_py assert_py
  catch zoom result_bind result_ret fst snd].
Ltac mstep_in H := cbn [mbind M_bind mret M_ret raise gets modify lift guard_py assert_py
  catch zoom result_bind result_ret fst snd] in H.

(** Case analysis on the scrutinee of some match in the goal or in [H]. *)
Ltac case_goal := match goal with |- context [match ?x with _ => _ end] => destruct x eqn:? end.
Ltac case_hyp H := match type of H with context [match ?x with _ => _ end] => destruct x eqn:? end.

(** *** Triples over a state and exceptions *)

Definition hoare {S A} (P : S → Prop) (c : M S A) (Q : A → S → Prop) (E : exn → S → Prop) : Prop :=
  ∀ s, P s → match c s with (Ok a, s') => Q a s' | (Raise e, s') => E e s' end.

Section Triples.
Context {S : Type}.
Implicit Types (P : S → Prop) (E : exn → S → Prop).

Lemma hoare_bind {A B} P (c : M S A) Q (f : A → M S B) R E :
  hoare P c Q E → (∀ a, hoare (Q a) (f a) R E) → hoare P (c ≫= f) R E.
Proof.
  intros Hc Hf s Hs. specialize (Hc s Hs). unfold mbind, M_bind. destruct (c s) as [[a|e] s']; [|done].
  by apply Hf.
Qed.

Lemma hoare_catch {A} P (c : M S A) h Q E E' :
  hoare P c Q E' →
  (∀ e, match h e with Some k => hoare (E' e) k Q E | None => ∀ s, E' e s → E e s end) →
  hoare P (catch c h) Q E.
Proof.
  intros Hc Hh s Hs. specialize (Hc s Hs). unfold catch. destruct (c s) as [[a|e] s']; [done|].
  specialize (Hh e). destruct (h e) as [k|]; [by apply Hh|by apply Hh].
Qed.

Lemma hoare_catch_never {A} P (c : M S A) h Q :
  hoare P c Q (λ _ _, False) → hoare P (catch c h) Q (λ _ _, False).
Proof.
  intros Hc. apply (hoare_catch _ _ _ _ _ (λ _ _, False)); [done|]. intros e. destruct (h e); by intros s [].
Qed.

Lemma hoare_mono {A} P P' (c : M S A) Q Q' E E' :
  hoare P' c Q' E' → (∀ s, P s → P' s) → (∀ a s, Q' a s → Q a s) → (∀ e s, E' e s → E e s) → hoare P c Q E.
Proof.
  intros Hc HP HQ HE s Hs. specialize (Hc s (HP s Hs)). destruct (c s) as [[a|e] s']; auto.
Qed.

Lemma hoare_mret {A} (a : A) Q E : hoare (Q a) (mret a) Q E.
Proof. by intros s Hs. Qed.
Lemma hoare_raise {A} e (Q : A → S → Prop) E : hoare (E e) (raise e) Q E.
Proof. by intros s Hs. Qed.
Lemma hoare_lift {A} P (r : result A) (Q : A → S → Prop) E :
  (∀ a, r = Ok a → ∀ s, P s → Q a s) → (∀ e, r = Raise e → ∀ s, P s → E e s) → hoare P (lift r) Q E.
Proof. intros HQ HE s Hs. unfold lift. destruct r; eauto. Qed.
Lemma hoare_guard P b e Q E :
  (∀ s, b = true → P s → E e s) → (∀ s, b = false → P s → Q tt s) → hoare P (guard_py b e) Q E.
Proof. intros H1 H2 s Hs. destruct b; cbn; auto. Qed.
End Triples.

(** ** Strings

    A Python [str] is modelled as its UTF-8 bytes.  Byte-wise lexicographic
    order on UTF-8 is code-point order, so [str_ltb] and [str_leb] are the
    comparisons of the language; the number of code points is [str_len]. *)

Definition str_ltb (s t : string) : bool := String.ltb s t.
Definition str_leb (s t : string) : bool := String.leb s t.

Definition is_continuation (c : ascii) : bool :=
  let n := N_of_ascii c in (128 <=? n)%N && (n <? 192)%N.
(** [len(s)] *)
Fixpoint str_len (s : string) : nat :=
  match s with
  | EmptyString => 0
  | String c s' => (if is_continuation c then 0 else 1) + str_len s'
  end.
(** [s[:n]] *)
Fixpoint str_take (n : nat) (s : string) : string :=
  match s with
  | EmptyString => EmptyString
  | String c s' =>
      if is_continuation c then String c (str_take n s')
      else match n with 0 => EmptyString | S n' => String c (str_take n' s') end
  end.
(** [len(s.encode("utf-8"))] *)
Definition utf8_len (s : string) : nat := String.length s.

(** Decimal digits, lower-case hexadecimal digits. *)
Definition is_digit (c : ascii) : bool :=
  let n := N_of_ascii c in (48 <=? n)%N && (n <=? 57)%N.
Definition is_lower_hex (c : ascii) : bool :=
  let n := N_of_ascii c in is_digit c || ((97 <=? n)%N && (n <=? 102)%N).

Definition str_forallb (p : ascii → bool) (s : string) : bool :=
  forallb p (list_ascii_of_string s).

(** [str.strip()]: the white space of [str.isspace], as UTF-8 sequences. *)
Definition ws_sequences : list (list N) :=
  [ [9%N]; [10%N]; [11%N]; [12%N]; [13%N]; [28%N]; [29%N]; [30%N]; [31%N]; [32%N];
    [194%N; 133%N]; [194%N; 160%N]; [225%N; 154%N; 128%N]; [226%N; 128%N; 168%N];
    [226%N; 128%N; 169%N]; [226%N; 128%N; 175%N]; [226%N; 129%N; 159%N];
    [227%N; 128%N; 128%N] ]
  ++ ((λ k, [226%N; 128%N; k]) <$> [128%N; 129%N; 130%N; 131%N; 132%N; 133%N; 134%N; 135%N; 136%N; 137%N; 138%N]).

Fixpoint drop_prefix (p : list N) (l : list ascii) : option (list ascii) :=
  match p, l with
  | [], _ => Some l
  | n :: p', c :: l' => if (N_of_ascii c =? n)%N then drop_prefix p' l' else None
  | _ :: _, [] => None
  end.
Fixpoint drop_any (ps : list (list N)) (l : list ascii) : option (list ascii) :=
  match ps with
  | [] => None
  | p :: ps' => match drop_prefix p l with Some r => Some r | None => drop_any ps' l end
  end.
Fixpoint strip_with (fuel : nat) (ps : list (list N)) (l : list ascii) : list ascii :=
  match fuel with
  | 0 => l
  | S n => match drop_any ps l with Some r => strip_with n ps r | None => l end
  end.
Definition strip (s : string) : string :=
  let l := list_ascii_of_string s in
  let left := strip_with (length l) ws_sequences l in
  let right := strip_with (length left) (reverse <$> ws_sequences) (reverse left) in
  string_of_list_ascii (reverse right).

Example strip_ascii : strip "  a b  " = "a b"%string.
Proof. reflexivity. Qed.

Lemma str_ltb_leb s t : str_ltb s t = negb (str_leb t s).
Proof.
  unfold str_ltb, str_leb, String.ltb, String.leb.
  rewrite (String.compare_antisym t s). by destruct (String.compare s t).
Qed.

Lemma str_leb_refl s : str_leb s s = true.
Proof. unfold str_leb. by destruct (String.leb_total s s). Qed.

Lemma str_ltb_irrefl s : str_ltb s s = false.
Proof. by rewrite str_ltb_leb, str_leb_refl. Qed.

Lemma ascii_compare_lt_trans a b c :
  Ascii.compare a b = Lt → Ascii.compare b c = Lt → Ascii.compare a c = Lt.
Proof.
  unfold Ascii.compare. rewrite !N.compare_lt_iff. lia.
Qed.

Lemma ascii_compare_refl a : Ascii.compare a a = Eq.
Proof. unfold Ascii.compare. apply N.compare_refl. Qed.

Lemma str_compare_cons a b s t :
  String.compare (String a s) (String b t) =
  match Ascii.compare a b with Eq => String.compare s t | r => r end.
Proof. reflexivity. Qed.

Lemma str_compare_refl s : String.compare s s = Eq.
Proof. induction s as [|a s IH]; [done|]. by rewrite str_compare_cons, ascii_compare_refl. Qed.

Lemma str_compare_lt_trans s t u :
  String.compare s t = Lt → String.compare t u = Lt → String.compare s u = Lt.
Proof.
  revert t u. induction s as [|a s IH]; intros [|b t] [|c u]; try done.
  rewrite !str_compare_cons.
  destruct (Ascii.compare a b) eqn:Eab; try done;
  destruct (Ascii.compare b c) eqn:Ebc; try done; intros H1 H2.
  - apply Ascii.compare_eq_iff in Eab, Ebc. subst. rewrite ascii_compare_refl. eauto.
  - apply Ascii.compare_eq_iff in Eab. subst. by rewrite Ebc.
  - apply Ascii.compare_eq_iff in Ebc. subst. by rewrite Eab.
  - by rewrite (ascii_compare_lt_trans a b c).
Qed.

Lemma str_ltb_trans s t u : str_ltb s t = true → str_ltb t u = true → str_ltb s u = true.
Proof.
  unfold str_ltb, String.ltb.
  destruct (String.compare s t) eqn:E1; try done.
  destruct (String.compare t u) eqn:E2; try done.
  by rewrite (str_compare_lt_trans s t u).
Qed.

Lemma str_leb_cases s t : str_leb s t = true ↔ s = t ∨ str_ltb s t = true.
Proof.
  unfold str_leb, str_ltb, String.leb, String.ltb.
  destruct (String.compare s t) eqn:E; split; intros H; try done; try naive_solver.
  - left. by apply String.compare_eq_iff.
  - destruct H as [->|]; [|done]. by rewrite str_compare_refl in E.
Qed.

Lemma str_leb_trans s t u : str_leb s t = true → str_leb t u = true → str_leb s u = true.
Proof.
  rewrite !str_leb_cases. intros [->|H1] [->|H2]; eauto using str_ltb_trans.
Qed.

#[export] Hint Resolve str_leb_refl str_leb_trans str_ltb_trans : eidolon.

(** [str.split] on one character. *)
Fixpoint split_on (sep : ascii) (l : list ascii) : list (list ascii) :=
  match l with
  | [] => [[]]
  | c :: l' =>
      if bool_decide (c = sep) then [] :: split_on sep l'
      else match split_on sep l' with
           | x :: xs => (c :: x) :: xs
           | [] => [[c]]
           end
  end.

Lemma list_ascii_app s t :
  list_ascii_of_string (s ++ t)%string = list_ascii_of_string s ++ list_ascii_of_string t.
Proof. induction s as [|c s IH]; [done|]. simpl. by rewrite IH. Qed.

Lemma split_on_nonempty sep l : split_on sep l ≠ [].
Proof. destruct l as [|c l]; cbn; [done|]. case_bool_decide; [done|]. by destruct (split_on sep l). Qed.

Lemma split_on_prefix sep l k : sep ∉ l → split_on sep (l ++ sep :: k) = l :: split_on sep k.
Proof.
  induction l as [|c l IH]; intros Hn; cbn; [by rewrite bool_decide_eq_true_2|].
  apply not_elem_of_cons in Hn as [Hc Hl]. rewrite bool_decide_eq_false_2 by done. by rewrite IH.
Qed.

Definition separators (sep : ascii) (l : list ascii) : nat := length (List.filter (λ c, bool_decide (c = sep)) l).

Lemma split_on_count sep l : length (split_on sep l) = S (separators sep l).
Proof.
  unfold separators. induction l as [|c l IH]; cbn; [done|]. case_bool_decide; cbn; [by rewrite IH|].
  destruct (split_on sep l) eqn:E; [by apply split_on_nonempty in E|]. exact IH.
Qed.

Lemma separators_cut sep l k : separators sep (l ++ sep :: k) = separators sep l + S (separators sep k).
Proof. unfold separators. rewrite List.filter_app, length_app. cbn. by rewrite bool_decide_eq_true_2. Qed.

Lemma separators_pos sep l : sep ∈ l → 0 < separators sep l.
Proof. intros (l1 & l2 & ->)%list_elem_of_split. rewrite separators_cut. lia. Qed.

Lemma split_on_whole sep l : sep ∉ l → split_on sep l = [l].
Proof.
  induction l as [|c l IH]; intros Hn; cbn; [done|]. apply not_elem_of_cons in Hn as [Hc Hl].
  rewrite bool_decide_eq_false_2 by done. by rewrite IH.
Qed.

(** ** JSON

    [json] is what [json.loads] hands the code: floats are [m * 2^e];
    [JNaN] and [JInfinity] are what it accepts beyond the grammar.  [doc] is what the code
    builds and serializes itself, which never contains a float. *)

Inductive json :=
| JNull
| JBool (b : bool)
| JInt (z : Z)
| JFloat (m e : Z)
| JNaN
| JInfinity (negative : bool)
| JStr (s : string)
| JList (l : list json)
| JObj (kv : list (string * json)).

Abbreviation obj := (list (string * json)).

(** [d.get(k)], [d.get(k, default)] on a parsed object (keys are unique there). *)
Fixpoint obj_get (k : string) (d : obj) (default : json) : json :=
  match d with
  | [] => default
  | (k', v) :: d' => if bool_decide (k = k') then v else obj_get k d' default
  end.

(** [v == s] and [v == z]: Python compares bool, int and float by value. *)
Definition json_eq_str (v : json) (s : string) : bool :=
  match v with JStr t => bool_decide (t = s) | _ => false end.
Definition json_eq_int (v : json) (z : Z) : bool :=
  match v with
  | JInt n => (n =? z)%Z
  | JBool b => (Z.b2z b =? z)%Z
  | JFloat m e => if (0 <=? e)%Z then (m * 2 ^ e =? z)%Z else (m =? z * 2 ^ (- e))%Z
  | _ => false
  end.

Inductive doc :=
| DNull
| DBool (b : bool)
| DInt (z : Z)
| DStr (s : string)
| DList (l : list doc)
| DObj (kv : list (string * doc)).

Definition dopt (o : option string) : doc :=
  match o with Some s => DStr s | None => DNull end.

(** ** Lists

    A Python [dict] whose order matters, and a SQL table read without
    ORDER BY, are lists in insertion order. *)

Section Lists.
Context {A : Type}.
Implicit Types (p : A → bool) (l : list A).

(** [next((x for x in l if p(x)), None)] *)
Definition next_or_none p l : option A := head (List.filter p l).

(** [\[f(x) if p(x) else x for x in l\]], and [UPDATE ... SET f WHERE p]. *)
Definition update_where p (f : A → A) l : list A := (λ x, if p x then f x else x) <$> l.

Definition count_where p l : nat := length (List.filter p l).

(** [sorted(l, key=...)], stable. *)
Fixpoint insert_by (le : A → A → bool) (x : A) l : list A :=
  match l with
  | [] => [x]
  | y :: l' => if le x y then x :: y :: l' else y :: insert_by le x l'
  end.
Fixpoint sort_by (le : A → A → bool) l : list A :=
  match l with
  | [] => []
  | x :: l' => insert_by le x (sort_by le l')
  end.

Lemma insert_by_perm le x l : insert_by le x l ≡ₚ x :: l.
Proof.
  induction l as [|y l IH]; simpl; [done|]. case_match; [done|].
  rewrite IH. apply Permutation_swap.
Qed.

Lemma sort_by_perm le l : sort_by le l ≡ₚ l.
Proof. induction l as [|x l IH]; simpl; [done|]. by rewrite insert_by_perm, IH. Qed.

Lemma elem_of_insert_by le x y l : y ∈ insert_by le x l ↔ y = x ∨ y ∈ l.
Proof. by rewrite insert_by_perm, elem_of_cons. Qed.

Lemma sort_by_sorted le l :
  (∀ x y, le x y = true ∨ le y x = true) → (∀ x y z, le x y = true → le y z = true → le x z = true) →
  StronglySorted (λ x y, le x y = true) (sort_by le l).
Proof.
  intros Htot Htr. induction l as [|x l IH]; simpl; [constructor|].
  induction IH as [|y k Hk IHk Hy]; simpl; [repeat constructor|].
  destruct (le x y) eqn:E.
  - constructor; [by constructor|]. constructor; [done|]. rewrite Forall_forall in Hy |- *. eauto.
  - constructor; [done|]. rewrite Forall_forall in Hy |- *. intros z [->|Hz]%elem_of_insert_by; [|auto].
    destruct (Htot x y); congruence.
Qed.

Lemma strongly_sorted_impl (R R' : A → A → Prop) l :
  (∀ x y, R x y → R' x y) → StronglySorted R l → StronglySorted R' l.
Proof. intros HR. induction 1; constructor; eauto using Forall_impl. Qed.

Lemma filter_perm p l1 l2 : l1 ≡ₚ l2 → List.filter p l1 ≡ₚ List.filter p l2.
Proof.
  induction 1 as [|x l1 l2 H IH|x y l|l1 l2 l3 H1 IH1 H2 IH2]; simpl; [done| | |].
  - destruct (p x); [by f_equiv|done].
  - destruct (p x), (p y); try done. apply Permutation_swap.
  - by etrans.
Qed.

Lemma next_or_none_Some p l x : next_or_none p l = Some x → x ∈ l ∧ p x = true.
Proof.
  unfold next_or_none. induction l as [|y l IH]; simpl; [done|].
  destruct (p y) eqn:E; simpl.
  - intros [= ->]. split; [left|done].
  - intros H. destruct (IH H). split; [by right|done].
Qed.

Lemma next_or_none_None p l : next_or_none p l = None ↔ ∀ x, x ∈ l → p x = false.
Proof.
  unfold next_or_none. induction l as [|y l IH]; simpl.
  - split; [|done]. intros _ x Hx. by apply not_elem_of_nil in Hx.
  - destruct (p y) eqn:E; simpl.
    + split; [done|]. intros H. specialize (H y (list_elem_of_here _ _)). congruence.
    + rewrite IH. setoid_rewrite elem_of_cons. naive_solver.
Qed.

Lemma next_or_none_ext p q l : (∀ x, p x = q x) → next_or_none p l = next_or_none q l.
Proof. intros H. unfold next_or_none. f_equal. by apply filter_ext. Qed.

Lemma next_or_none_ext_in p q l : (∀ x, x ∈ l → p x = q x) → next_or_none p l = next_or_none q l.
Proof.
  unfold next_or_none. induction l as [|y l IH]; simpl; [done|]. intros H.
  rewrite (H y) by left. destruct (q y); [done|]. apply IH. intros x Hx. apply H. by right.
Qed.

Lemma next_or_none_app p l1 l2 :
  next_or_none p (l1 ++ l2) = match next_or_none p l1 with Some x => Some x | None => next_or_none p l2 end.
Proof. unfold next_or_none. rewrite List.filter_app. by destruct (List.filter p l1). Qed.

Lemma update_where_length p f l : length (update_where p f l) = length l.
Proof. unfold update_where. by rewrite length_fmap. Qed.

Lemma elem_of_update_where p f l x :
  x ∈ update_where p f l ↔ ∃ y, y ∈ l ∧ x = if p y then f y else y.
Proof. unfold update_where. rewrite list_elem_of_fmap. naive_solver. Qed.

Lemma update_where_none p f l : (∀ x, x ∈ l → p x = false) → update_where p f l = l.
Proof.
  unfold update_where. intros H. induction l as [|y l IH]; simpl; [done|].
  rewrite H by left. f_equal. apply IH. intros x Hx. apply H. by right.
Qed.

Lemma update_where_app p f l1 l2 :
  update_where p f (l1 ++ l2) = update_where p f l1 ++ update_where p f l2.
Proof. apply fmap_app. Qed.

Lemma fmap_update_where {B} (g : A → B) p f l :
  (∀ x, p x = true → g (f x) = g x) → g <$> update_where p f l = g <$> l.
Proof.
  intros H. unfold update_where. rewrite <- list_fmap_compose.
  apply list_fmap_ext. intros i x _. simpl. destruct (p x) eqn:E; auto.
Qed.

Lemma count_where_perm p l1 l2 : l1 ≡ₚ l2 → count_where p l1 = count_where p l2.
Proof. intros H. unfold count_where. by rewrite (filter_perm p _ _ H). Qed.

Lemma count_where_app p l1 l2 : count_where p (l1 ++ l2) = count_where p l1 + count_where p l2.
Proof. unfold count_where. by rewrite List.filter_app, length_app. Qed.

Lemma count_where_0 p l : count_where p l = 0 ↔ ∀ x, x ∈ l → p x = false.
Proof.
  unfold count_where. induction l as [|y l IH]; simpl.
  - split; [|done]. intros _ x Hx. by apply not_elem_of_nil in Hx.
  - setoid_rewrite elem_of_cons. destruct (p y) eqn:E; simpl.
    + split; [done|]. intros H. rewrite H in E; naive_solver.
    + rewrite IH. naive_solver.
Qed.

Lemma existsb_elem p l : existsb p l = true ↔ ∃ x, x ∈ l ∧ p x = true.
Proof.
  rewrite existsb_exists. setoid_rewrite list_elem_of_In. done.
Qed.

Lemma existsb_elem_false p l : existsb p l = false ↔ ∀ x, x ∈ l → p x = false.
Proof.
  rewrite <- not_true_iff_false, existsb_elem. setoid_rewrite <- not_true_iff_false. naive_solver.
Qed.
End Lists.

Lemma sort_by_fmap {A B} (g : A → B) (le : B → B → bool) (l : list A) :
  sort_by le (g <$> l) = g <$> sort_by (λ x y, le (g x) (g y)) l.
Proof.
  induction l as [|x l IH]; [done|]. rewrite fmap_cons. cbn [sort_by]. rewrite IH. clear IH.
  induction (sort_by _ l) as [|y k IH]; [done|]. rewrite fmap_cons. cbn [insert_by].
  destruct (le (g x) (g y)); [done|]. by rewrite IH, fmap_cons.
Qed.

(** A search with a unique hit does not depend on the order. *)
Lemma next_or_none_perm {A} (p : A → bool) (l1 l2 : list A) :
  l1 ≡ₚ l2 → (∀ x y, x ∈ l2 → y ∈ l2 → p x = true → p y = true → x = y) →
  next_or_none p l1 = next_or_none p l2.
Proof.
  intros Hp Hu. destruct (next_or_none p l1) as [x|] eqn:E1; destruct (next_or_none p l2) as [y|] eqn:E2; try done.
  - apply next_or_none_Some in E1 as [H1 P1], E2 as [H2 P2]. rewrite Hp in H1. f_equal. auto.
  - apply next_or_none_Some in E1 as [H1 P1]. rewrite Hp in H1.
    rewrite next_or_none_None in E2. by rewrite E2 in P1.
  - apply next_or_none_Some in E2 as [H2 P2]. rewrite <- Hp in H2.
    rewrite next_or_none_None in E1. by rewrite E1 in P2.
Qed.

Lemma existsb_fmap {A B} (g : A → B) (p : B → bool) (l : list A) :
  existsb p (g <$> l) = existsb (p ∘ g) l.
Proof. induction l as [|x l IH]; simpl; [done|]. f_equal. apply IH. Qed.

Lemma next_or_none_fmap {A B} (g : A → B) (p : B → bool) (l : list A) :
  next_or_none p (g <$> l) = g <$> next_or_none (p ∘ g) l.
Proof.
  unfold next_or_none. induction l as [|x l IH]; simpl; [done|].
  destruct (p (g x)); simpl; auto.
Qed.

#[export] Hint Rewrite @update_where_length @update_where_app : eidolon_rw.

(** ** Ordered dictionaries *)

Section Dict.
Context {K V : Type} `{EqDecision K}.
Implicit Types (d : list (K * V)).

(** [d.get(k)] *)
Fixpoint dict_get (k : K) d : option V :=
  match d with
  | [] => None
  | (k', v) :: d' => if bool_decide (k = k') then Some v else dict_get k d'
  end.

(** [d[k] = v]: in place when the key is there, at the end otherwise. *)
Fixpoint dict_set (k : K) (v : V) d : list (K * V) :=
  match d with
  | [] => [(k, v)]
  | (k', v') :: d' => if bool_decide (k = k') then (k, v) :: d' else (k', v') :: dict_set k v d'
  end.

(** [d.pop(k, None)], on unique keys. *)
Definition dict_del (k : K) d : list (K * V) := List.filter (λ kv, negb (bool_decide (kv.1 = k))) d.

Lemma dict_get_set k k' v d :
  dict_get k' (dict_set k v d) = if bool_decide (k' = k) then Some v else dict_get k' d.
Proof.
  induction d as [|[k1 v1] d IH]; simpl; [done|].
  destruct (decide (k = k1)) as [->|Hne].
  - rewrite !bool_decide_eq_true_2 by done. simpl. by destruct (bool_decide (k' = k1)).
  - rewrite (bool_decide_eq_false_2 (k = k1)) by done. simpl. rewrite IH.
    destruct (decide (k' = k1)) as [->|].
    + rewrite (bool_decide_eq_true_2 (k1 = k1)) by done. by rewrite bool_decide_eq_false_2.
    + by rewrite (bool_decide_eq_false_2 (k' = k1)).
Qed.

Lemma dict_set_set k v v' d : dict_set k v' (dict_set k v d) = dict_set k v' d.
Proof.
  induction d as [|[k1 v1] d IH]; cbn [dict_set]; [by rewrite bool_decide_eq_true_2|].
  case_bool_decide as E; cbn [dict_set].
  - by rewrite bool_decide_eq_true_2.
  - by rewrite bool_decide_eq_false_2, IH.
Qed.

Lemma existsb_dict_set (p : K * V → bool) k v d :
  p (k, v) = false → existsb p d = false → existsb p (dict_set k v d) = false.
Proof.
  intros Hp. induction d as [|[k1 v1] d IH]; cbn [dict_set existsb]; [by rewrite Hp|].
  rewrite orb_false_iff. intros [H1 H2]. case_bool_decide; cbn [existsb]; [by rewrite Hp|].
  by rewrite H1, IH.
Qed.

Lemma dict_get_elem k v d : dict_get k d = Some v → (k, v) ∈ d.
Proof.
  induction d as [|[k1 v1] d IH]; simpl; [done|]. case_bool_decide; [|right; auto].
  intros [= ->]. subst. left.
Qed.

Lemma dict_get_Some k v d : NoDup d.*1 → dict_get k d = Some v ↔ (k, v) ∈ d.
Proof.
  intros Hnd. split; [apply dict_get_elem|].
  induction d as [|[k1 v1] d IH]; simpl; [intros H; by apply not_elem_of_nil in H|].
  simpl in Hnd. apply NoDup_cons in Hnd as [Hni Hnd]. rewrite elem_of_cons. intros [[= -> ->]|Hin].
  - by rewrite bool_decide_eq_true_2.
  - rewrite bool_decide_eq_false_2; [by apply IH|]. intros ->. apply Hni.
    apply list_elem_of_fmap. by exists (k1, v).
Qed.

Lemma dict_get_None k d : dict_get k d = None ↔ k ∉ d.*1.
Proof.
  induction d as [|[k1 v1] d IH]; simpl; [split; [intros _; apply not_elem_of_nil|done]|].
  rewrite not_elem_of_cons. case_bool_decide; naive_solver.
Qed.

Lemma dict_set_fresh k v d : k ∉ d.*1 → dict_set k v d = d ++ [(k, v)].
Proof.
  induction d as [|[k1 v1] d IH]; simpl; [done|]. rewrite not_elem_of_cons. intros [Hne Hni].
  rewrite bool_decide_eq_false_2 by done. by rewrite IH.
Qed.

Lemma dict_set_keys k v d : k ∈ d.*1 → (dict_set k v d).*1 = d.*1.
Proof.
  induction d as [|[k1 v1] d IH]; simpl; [intros H; by apply not_elem_of_nil in H|].
  rewrite elem_of_cons. case_bool_decide; simpl; [by subst|]. intros [|]; [done|]. f_equal. by apply IH.
Qed.

Lemma dict_set_NoDup k v d : NoDup d.*1 → NoDup (dict_set k v d).*1.
Proof.
  intros Hnd. destruct (decide (k ∈ d.*1)).
  - by rewrite dict_set_keys.
  - rewrite dict_set_fresh, fmap_app by done. apply NoDup_app. split; [done|]. split.
    + intros x Hx ->%list_elem_of_singleton. done.
    + apply NoDup_singleton.
Qed.

Lemma elem_of_dict_set k v d kv :
  NoDup d.*1 → kv ∈ dict_set k v d ↔ kv = (k, v) ∨ (kv.1 ≠ k ∧ kv ∈ d).
Proof.
  intros Hnd. destruct kv as [k' v']. rewrite <- dict_get_Some by by apply dict_set_NoDup.
  rewrite dict_get_set. simpl. case_bool_decide as E.
  - subst. split; [intros [= ->]; by left|]. naive_solver.
  - rewrite dict_get_Some by done. naive_solver.
Qed.

Lemma dict_set_update_where k v d :
  NoDup d.*1 → k ∈ d.*1 →
  dict_set k v d = update_where (λ kv, bool_decide (kv.1 = k)) (λ _, (k, v)) d.
Proof.
  induction d as [|[k1 v1] d IH]; simpl; [intros _ H; by apply not_elem_of_nil in H|].
  intros [Hni Hnd]%NoDup_cons. rewrite elem_of_cons. intros Hin.
  destruct (decide (k = k1)) as [->|Hne].
  - rewrite !bool_decide_eq_true_2 by done. f_equal. symmetry. apply update_where_none.
    intros [k2 v2] H2. apply bool_decide_eq_false_2. simpl. intros ->. apply Hni.
    apply list_elem_of_fmap. by exists (k1, v2).
  - rewrite !bool_decide_eq_false_2 by done. f_equal. apply IH; [done|]. naive_solver.
Qed.

Lemma dict_del_keys k d : (dict_del k d).*1 = List.filter (λ k', negb (bool_decide (k' = k))) d.*1.
Proof.
  unfold dict_del. induction d as [|[k1 v1] d IH]; simpl; [done|].
  destruct (negb (bool_decide (k1 = k))); simpl; [f_equal|]; apply IH.
Qed.

Lemma dict_get_del k k' d :
  dict_get k' (dict_del k d) = if bool_decide (k' = k) then None else dict_get k' d.
Proof.
  unfold dict_del. induction d as [|[k1 v1] d IH]; simpl; [by case_bool_decide|].
  destruct (decide (k1 = k)) as [->|Hne].
  - rewrite (bool_decide_eq_true_2 (k = k)) by done. simpl. rewrite IH.
    destruct (bool_decide (k' = k)); done.
  - rewrite (bool_decide_eq_false_2 (k1 = k)) by done. simpl. rewrite IH.
    repeat case_bool_decide; naive_solver.
Qed.

Lemma dict_del_length k d : length (dict_del k d) ≤ length d.
Proof. apply List.filter_length_le. Qed.
End Dict.
