(* ===== verification/Domain.v ===== *)
(** * Stable Host-bootstrap facts

    [bootstrap/domain/model.py]: the enumerations, the records of durable
    authority, the predicate that says a setup window is open, and the Setup
    code rules.  [dataclasses.replace] is a [set_*] function per field that
    the adapters change. *)

From S2P Require Import Prelude.

(** ** Enumerations *)

Inductive ClaimState := UNCLAIMED | CLAIMED.
Inductive NetworkState := UNCONFIGURED | STAGING | CONNECTED | DEGRADED | ROLLING_BACK.
Inductive ControllerRole := HOST_ADMIN.
Inductive BootstrapOperationType := CHANGE_NETWORK.
Inductive BootstrapOperationState :=
| PENDING | RUNNING | WAITING_CONFIRMATION | SUCCEEDED | FAILED | COMPENSATING.

#[global] Instance ClaimState_eq_dec : EqDecision ClaimState.
Proof. solve_decision. Defined.
#[global] Instance NetworkState_eq_dec : EqDecision NetworkState.
Proof. solve_decision. Defined.
#[global] Instance ControllerRole_eq_dec : EqDecision ControllerRole.
Proof. solve_decision. Defined.
#[global] Instance BootstrapOperationType_eq_dec : EqDecision BootstrapOperationType.
Proof. solve_decision. Defined.
#[global] Instance BootstrapOperationState_eq_dec : EqDecision BootstrapOperationState.
Proof. solve_decision. Defined.

(** The [StrEnum] values and the constructor call [Enum(value)], which raises
    [ValueError] (here [None]) on an unknown value. *)
Definition ClaimState_value (c : ClaimState) : string :=
  match c with UNCLAIMED => "unclaimed" | CLAIMED => "claimed" end.
Definition ClaimState_of (s : string) : option ClaimState :=
  if bool_decide (s = "unclaimed") then Some UNCLAIMED
  else if bool_decide (s = "claimed") then Some CLAIMED else None.
Definition NetworkState_value (n : NetworkState) : string :=
  match n with
  | UNCONFIGURED => "unconfigured" | STAGING => "staging" | CONNECTED => "connected"
  | DEGRADED => "degraded" | ROLLING_BACK => "rolling_back"
  end.
Definition NetworkState_of (s : string) : option NetworkState :=
  if bool_decide (s = "unconfigured") then Some UNCONFIGURED
  else if bool_decide (s = "staging") then Some STAGING
  else if bool_decide (s = "connected") then Some CONNECTED
  else if bool_decide (s = "degraded") then Some DEGRADED
  else if bool_decide (s = "rolling_back") then Some ROLLING_BACK else None.
Definition ControllerRole_value (r : ControllerRole) : string := "host_admin".
Definition ControllerRole_of (s : string) : option ControllerRole :=
  if bool_decide (s = "host_admin") then Some HOST_ADMIN else None.
Definition BootstrapOperationType_value (t : BootstrapOperationType) : string := "change_network".
Definition BootstrapOperationType_of (s : string) : option BootstrapOperationType :=
  if bool_decide (s = "change_network") then Some CHANGE_NETWORK else None.
Definition BootstrapOperationState_value (s : BootstrapOperationState) : string :=
  match s with
  | PENDING => "pending" | RUNNING => "running"
  | WAITING_CONFIRMATION => "waiting_confirmation" | SUCCEEDED => "succeeded"
  | FAILED => "failed" | COMPENSATING => "compensating"
  end.
Definition BootstrapOperationState_of (s : string) : option BootstrapOperationState :=
  if bool_decide (s = "pending") then Some PENDING
  else if bool_decide (s = "running") then Some RUNNING
  else if bool_decide (s = "waiting_confirmation") then Some WAITING_CONFIRMATION
  else if bool_decide (s = "succeeded") then Some SUCCEEDED
  else if bool_decide (s = "failed") then Some FAILED
  else if bool_decide (s = "compensating") then Some COMPENSATING else None.

(** ** Records *)

Record HostIdentity := mkHostIdentity {
  host_id : string;
  host_public_key : string;
  host_public_key_fingerprint : string }.

Record BootstrapState := mkBootstrapState {
  reset_epoch : Z;
  claim_state : ClaimState;
  network_state : NetworkState;
  updated_at : string }.

Definition BootstrapState_to_dict (s : BootstrapState) : doc :=
  DObj [ ("reset_epoch", DInt s.(reset_epoch));
         ("claim_state", DStr (ClaimState_value s.(claim_state)));
         ("network_state", DStr (NetworkState_value s.(network_state)));
         ("updated_at", DStr s.(updated_at)) ].

Record CommissioningSessionMetadata := mkSession {
  session_id : string;
  s_created_at : string;
  s_expires_at : option string;
  s_consumed_at : option string;
  s_revoked_at : option string;
  failed_attempts : Z }.

Definition CommissioningSessionMetadata_to_dict (m : CommissioningSessionMetadata) : doc :=
  DObj [ ("session_id", DStr m.(session_id));
         ("created_at", DStr m.(s_created_at));
         ("expires_at", dopt m.(s_expires_at));
         ("consumed_at", dopt m.(s_consumed_at));
         ("revoked_at", dopt m.(s_revoked_at));
         ("failed_attempts", DInt m.(failed_attempts)) ].

Definition is_open (m : CommissioningSessionMetadata) (now : string) : bool :=
  if bool_decide (is_Some m.(s_consumed_at)) || bool_decide (is_Some m.(s_revoked_at)) then false
  else match m.(s_expires_at) with None => true | Some e => str_ltb now e end.

Record CommissioningSessionSeed := mkSeed {
  seed_session_id : string;
  seed_secret_hash : string;
  seed_expires_at : option string }.

Record ControllerGrant := mkGrant {
  controller_id : string;
  public_key : string;
  public_key_fingerprint : string;
  role : ControllerRole;
  display_name : string;
  platform : string;
  g_reset_epoch : Z;
  g_created_at : string;
  g_revoked_at : option string }.

Definition ControllerGrant_to_dict (g : ControllerGrant) : doc :=
  DObj [ ("controller_id", DStr g.(controller_id));
         ("public_key", DStr g.(public_key));
         ("public_key_fingerprint", DStr g.(public_key_fingerprint));
         ("role", DStr (ControllerRole_value g.(role)));
         ("display_name", DStr g.(display_name));
         ("platform", DStr g.(platform));
         ("reset_epoch", DInt g.(g_reset_epoch));
         ("created_at", DStr g.(g_created_at));
         ("revoked_at", dopt g.(g_revoked_at)) ].

Record BootstrapOperation := mkOperation {
  operation_id : string;
  operation_type : BootstrapOperationType;
  o_state : BootstrapOperationState;
  target : string;
  o_reset_epoch : Z;
  o_created_at : string;
  o_updated_at : string;
  error_code : option string }.

Definition BootstrapOperation_to_dict (o : BootstrapOperation) : doc :=
  DObj [ ("operation_id", DStr o.(operation_id));
         ("operation_type", DStr (BootstrapOperationType_value o.(operation_type)));
         ("state", DStr (BootstrapOperationState_value o.(o_state)));
         ("target", DStr o.(target));
         ("reset_epoch", DInt o.(o_reset_epoch));
         ("created_at", DStr o.(o_created_at));
         ("updated_at", DStr o.(o_updated_at));
         ("error_code", dopt o.(error_code)) ].

#[global] Instance BootstrapState_eq_dec : EqDecision BootstrapState.
Proof. solve_decision. Defined.
#[global] Instance Session_eq_dec : EqDecision CommissioningSessionMetadata.
Proof. solve_decision. Defined.
#[global] Instance ControllerGrant_eq_dec : EqDecision ControllerGrant.
Proof. solve_decision. Defined.
#[global] Instance BootstrapOperation_eq_dec : EqDecision BootstrapOperation.
Proof. solve_decision. Defined.

(** ** [dataclasses.replace] *)

Definition session_set_revoked (t : string) (m : CommissioningSessionMetadata) :=
  mkSession m.(session_id) m.(s_created_at) m.(s_expires_at) m.(s_consumed_at) (Some t)
    m.(failed_attempts).
Definition session_set_consumed (t : string) (m : CommissioningSessionMetadata) :=
  mkSession m.(session_id) m.(s_created_at) m.(s_expires_at) (Some t) m.(s_revoked_at)
    m.(failed_attempts).
Definition session_set_failed (n : Z) (m : CommissioningSessionMetadata) :=
  mkSession m.(session_id) m.(s_created_at) m.(s_expires_at) m.(s_consumed_at)
    m.(s_revoked_at) n.
(** A row no claim consumed and nothing superseded. *)
Definition unspent (m : CommissioningSessionMetadata) : bool :=
  bool_decide (m.(s_consumed_at) = None) && bool_decide (m.(s_revoked_at) = None).
Definition new_session (sid created : string) (expires : option string) :=
  mkSession sid created expires None None 0.

Definition grant_set_revoked (t : option string) (g : ControllerGrant) :=
  mkGrant g.(controller_id) g.(public_key) g.(public_key_fingerprint) g.(role)
    g.(display_name) g.(platform) g.(g_reset_epoch) g.(g_created_at) t.
Definition state_set_claim (c : ClaimState) (t : string) (s : BootstrapState) :=
  mkBootstrapState s.(reset_epoch) c s.(network_state) t.
Definition state_set_network (n : NetworkState) (t : string) (s : BootstrapState) :=
  mkBootstrapState s.(reset_epoch) s.(claim_state) n t.
Definition operation_set (st : BootstrapOperationState) (t : string) (err : option string)
    (o : BootstrapOperation) :=
  mkOperation o.(operation_id) o.(operation_type) st o.(target) o.(o_reset_epoch)
    o.(o_created_at) t err.

(** The [active_states] set the adapters spell out. *)
Definition active_state (s : BootstrapOperationState) : bool :=
  match s with
  | PENDING | RUNNING | WAITING_CONFIRMATION | COMPENSATING => true
  | SUCCEEDED | FAILED => false
  end.

(** ** Setup codes *)

Definition SETUP_CODE_DIGITS : nat := 8.

(** [re.compile(r"^[0-9]{8}$").fullmatch] *)
Definition setup_code_re (s : string) : bool :=
  (String.length s =? SETUP_CODE_DIGITS)%nat && str_forallb is_digit s.

Definition all_same (s : string) : bool :=
  match list_ascii_of_string s with
  | [] => false
  | c :: l => forallb (λ d, bool_decide (d = c)) l
  end.

Definition digit_char (n : nat) : ascii := ascii_of_nat (48 + n).
Definition ascending : string :=
  string_of_list_ascii ((λ d, digit_char (d mod 10)) <$> seq 0 SETUP_CODE_DIGITS).
Definition descending : string :=
  string_of_list_ascii (reverse (list_ascii_of_string ascending)).

(** [len(set(value)) == 1] is [all_same] on a non-empty string. *)
Definition is_usable_setup_code (value : string) : bool :=
  if negb (setup_code_re value) then false
  else if all_same value then false
  else negb (bool_decide (value = ascending) || bool_decide (value = descending)).

(** [f"{n:08d}"] for [0 <= n < 10**8]. *)
Fixpoint pad_digits (w : nat) (n : N) : list ascii :=
  match w with
  | 0 => []
  | S w' => pad_digits w' (n / 10) ++ [digit_char (N.to_nat (n mod 10))]
  end.
Definition format_code (n : N) : string := string_of_list_ascii (pad_digits SETUP_CODE_DIGITS n).

(** The [while True] loop, over the stream of [secrets.randbelow(10**8)]
    draws; [None] is a loop still running after [fuel] draws.  The second
    component is what remains of the stream. *)
Fixpoint generate_setup_code (fuel : nat) (draws : nat → N) (i : nat) : option (string * nat) :=
  match fuel with
  | 0 => None
  | S n =>
      let candidate := format_code (draws i mod 10 ^ 8) in
      if is_usable_setup_code candidate then Some (candidate, S i)
      else generate_setup_code n draws (S i)
  end.

#[global] Arguments unspent : simpl never.
#[global] Arguments is_open : simpl never.
#[global] Arguments digit_char : simpl never.
#[global] Arguments format_code : simpl never.
#[global] Arguments is_usable_setup_code : simpl never.
#[global] Arguments setup_code_re : simpl never.

(** ** Lemmas *)

Lemma is_open_spec m now :
  is_open m now = true ↔
  m.(s_consumed_at) = None ∧ m.(s_revoked_at) = None ∧
  (∀ e, m.(s_expires_at) = Some e → str_ltb now e = true).
Proof.
  unfold is_open. destruct (s_consumed_at m), (s_revoked_at m), (s_expires_at m); simpl;
    naive_solver.
Qed.

Lemma is_open_unspent m now : is_open m now = true → unspent m = true.
Proof.
  rewrite is_open_spec. intros (H1 & H2 & _). unfold unspent. by rewrite H1, H2.
Qed.

Lemma unspent_spec m : unspent m = true ↔ m.(s_consumed_at) = None ∧ m.(s_revoked_at) = None.
Proof. unfold unspent. rewrite andb_true_iff, !bool_decide_eq_true. done. Qed.

Lemma unspent_revoked t m : unspent (session_set_revoked t m) = false.
Proof. apply not_true_iff_false. rewrite unspent_spec. naive_solver. Qed.

Lemma unspent_consumed t m : unspent (session_set_consumed t m) = false.
Proof. apply not_true_iff_false. rewrite unspent_spec. naive_solver. Qed.

Lemma unspent_new sid c e : unspent (new_session sid c e) = true.
Proof. reflexivity. Qed.

Lemma is_open_set_failed n m now : is_open (session_set_failed n m) now = is_open m now.
Proof. reflexivity. Qed.

#[export] Hint Rewrite unspent_revoked unspent_consumed unspent_new : eidolon_rw.

(** The enumeration codecs lose nothing. *)
Lemma ClaimState_of_value c : ClaimState_of (ClaimState_value c) = Some c.
Proof. by destruct c. Qed.
Lemma NetworkState_of_value n : NetworkState_of (NetworkState_value n) = Some n.
Proof. by destruct n. Qed.
Lemma ControllerRole_of_value r : ControllerRole_of (ControllerRole_value r) = Some r.
Proof. by destruct r. Qed.
Lemma BootstrapOperationType_of_value t :
  BootstrapOperationType_of (BootstrapOperationType_value t) = Some t.
Proof. by destruct t. Qed.
Lemma BootstrapOperationState_of_value s :
  BootstrapOperationState_of (BootstrapOperationState_value s) = Some s.
Proof. by destruct s. Qed.

#[export] Hint Rewrite ClaimState_of_value NetworkState_of_value ControllerRole_of_value
  BootstrapOperationType_of_value BootstrapOperationState_of_value : eidolon_rw.

(** *** The codes a Host refuses *)

(** Ten repeated digits and the two plain runs. *)
Definition weak_codes : list string :=
  [ "00000000"; "11111111"; "22222222"; "33333333"; "44444444"; "55555555";
    "66666666"; "77777777"; "88888888"; "99999999"; "01234567"; "76543210" ].

Lemma is_digit_cases c : is_digit c = true → c ∈ digit_char <$> seq 0 10.
Proof.
  unfold is_digit. rewrite andb_true_iff, !N.leb_le. intros [H1 H2].
  rewrite <- (ascii_N_embedding c). rewrite list_elem_of_fmap.
  exists (N.to_nat (N_of_ascii c) - 48). rewrite elem_of_seq. split; [|lia].
  unfold digit_char, ascii_of_nat. f_equal. lia.
Qed.

Lemma all_same_replicate (c : ascii) (l : list ascii) :
  forallb (λ d, bool_decide (d = c)) l = true → l = replicate (length l) c.
Proof.
  induction l as [|d l IH]; simpl; [done|]. rewrite andb_true_iff, bool_decide_eq_true.
  intros [-> H]. f_equal. auto.
Qed.

Lemma string_length_list l : String.length (string_of_list_ascii l) = length l.
Proof. induction l as [|a k IH]; simpl; [done|]. by rewrite IH. Qed.

Lemma all_same_weak v : setup_code_re v = true → all_same v = true → v ∈ weak_codes.
Proof.
  unfold setup_code_re, all_same, str_forallb. rewrite andb_true_iff, Nat.eqb_eq.
  intros [Hlen Hdig].
  pose proof (string_of_list_ascii_of_string v) as Ev.
  destruct (list_ascii_of_string v) as [|c l]; [done|]. subst v. intros Hall.
  simpl in Hdig. apply andb_true_iff in Hdig as [Hc _].
  apply all_same_replicate in Hall. rewrite string_length_list in Hlen.
  injection Hlen as Hlen. rewrite Hlen in Hall. subst l. apply is_digit_cases in Hc.
  unfold weak_codes.
  repeat (apply elem_of_cons in Hc as [->|Hc]; [vm_compute; repeat constructor|]).
  by apply not_elem_of_nil in Hc.
Qed.

Lemma weak_codes_unusable v : v ∈ weak_codes → is_usable_setup_code v = false.
Proof.
  unfold weak_codes. intros H.
  repeat (apply elem_of_cons in H as [->|H]; [reflexivity|]). by apply not_elem_of_nil in H.
Qed.

Lemma is_usable_spec v :
  is_usable_setup_code v = true ↔ setup_code_re v = true ∧ v ∉ weak_codes.
Proof.
  split.
  - intros H. split.
    + unfold is_usable_setup_code in H. by destruct (setup_code_re v).
    + intros Hw. apply weak_codes_unusable in Hw. congruence.
  - intros [Hre Hw]. unfold is_usable_setup_code. rewrite Hre. simpl.
    destruct (all_same v) eqn:Hs; [by destruct Hw; apply all_same_weak|].
    rewrite negb_true_iff, orb_false_iff, !bool_decide_eq_false.
    split; intros ->; apply Hw; vm_compute; repeat constructor.
Qed.

(** *** The draw loop *)

Definition digits_value (l : list ascii) : N :=
  fold_left (λ a c, 10 * a + (N_of_ascii c - 48))%N l 0%N.

Lemma digits_value_snoc l c : digits_value (l ++ [c]) = (10 * digits_value l + (N_of_ascii c - 48))%N.
Proof. unfold digits_value. by rewrite fold_left_app. Qed.

Lemma digit_char_value n : (n < 10)%nat → (N_of_ascii (digit_char n) - 48 = N.of_nat n)%N.
Proof. intros H. do 10 (destruct n as [|n]; [reflexivity|]). lia. Qed.

Lemma pad_digits_value w n : (n < 10 ^ N.of_nat w)%N → digits_value (pad_digits w n) = n.
Proof.
  revert n. induction w as [|w IH]; intros n Hn; simpl.
  - unfold digits_value. simpl. simpl in Hn. lia.
  - rewrite digits_value_snoc.
    rewrite digit_char_value by (pose proof (N.mod_lt n 10); lia).
    rewrite IH.
    + rewrite N2Nat.id. rewrite <- N.div_mod; [done|lia].
    + rewrite Nat2N.inj_succ, N.pow_succ_r' in Hn. apply N.Div0.div_lt_upper_bound. lia.
Qed.

Lemma format_code_inj a b : (a < 10 ^ 8)%N → (b < 10 ^ 8)%N → format_code a = format_code b → a = b.
Proof.
  intros Ha Hb E. unfold format_code in E.
  apply (f_equal list_ascii_of_string) in E. rewrite !list_ascii_of_string_of_list_ascii in E.
  apply (f_equal digits_value) in E. by rewrite !pad_digits_value in E.
Qed.

Lemma pad_digits_length w n : length (pad_digits w n) = w.
Proof.
  revert n. induction w as [|w IH]; intros n; cbn [pad_digits]; [done|].
  rewrite length_app, IH. cbn [length]. lia.
Qed.

Lemma digit_char_is_digit n : (n < 10)%nat → is_digit (digit_char n) = true.
Proof. intros H. do 10 (destruct n as [|n]; [reflexivity|]). lia. Qed.

Lemma pad_digits_digits w n : forallb is_digit (pad_digits w n) = true.
Proof.
  revert n. induction w as [|w IH]; intros n; cbn [pad_digits]; [done|].
  rewrite forallb_app, IH. cbn [forallb andb]. rewrite digit_char_is_digit; [done|].
  pose proof (N.mod_lt n 10). lia.
Qed.

Lemma format_code_re n : setup_code_re (format_code n) = true.
Proof.
  unfold setup_code_re, format_code, str_forallb.
  by rewrite string_length_list, pad_digits_length, list_ascii_of_string_of_list_ascii,
    pad_digits_digits.
Qed.

Lemma generate_usable fuel draws i code j :
  generate_setup_code fuel draws i = Some (code, j) → is_usable_setup_code code = true.
Proof.
  revert i. induction fuel as [|n IH]; intros i; cbn [generate_setup_code]; [done|].
  case_match eqn:E; [|apply IH]. intros [= <- <-]. done.
Qed.

Lemma generate_none fuel draws i :
  generate_setup_code fuel draws i = None →
  ∀ k, (k < fuel)%nat → is_usable_setup_code (format_code (draws (i + k)%nat mod 10 ^ 8)) = false.
Proof.
  revert i. induction fuel as [|n IH]; intros i; cbn [generate_setup_code]; [lia|].
  case_match eqn:E; [done|]. intros H [|k] Hk.
  - by rewrite Nat.add_0_r.
  - specialize (IH _ H k). replace (i + S k)%nat with (S i + k)%nat by lia. apply IH. lia.
Qed.

(** *** Properties *)

(** A Setup code the Host accepts is exactly an eight-digit string that is
    none of the twelve guessable ones (a repeated digit or a plain run), and
    the draw loop, given enough distinct draws, returns one: thirteen distinct
    draws always suffice, because only twelve codes are refused. *)
Theorem setup_code_generation draws i :
  (∀ v, is_usable_setup_code v = true ↔ setup_code_re v = true ∧ v ∉ weak_codes) ∧
  (NoDup ((λ k, draws (i + k)%nat mod 10 ^ 8)%N <$> seq 0 13) →
   ∃ code j, generate_setup_code 13 draws i = Some (code, j) ∧
             is_usable_setup_code code = true).
Proof.
  split; [apply is_usable_spec|]. intros Hnd.
  destruct (generate_setup_code 13 draws i) as [[code j]|] eqn:E.
  { exists code, j. split; [done|]. by eapply generate_usable. }
  exfalso. pose proof (generate_none _ _ _ E) as Hall.
  set (codes := (λ k, format_code (draws (i + k)%nat mod 10 ^ 8)) <$> seq 0 13).
  assert (NoDup codes) as Hc.
  { unfold codes. change (λ k, format_code (draws (i + k)%nat mod 10 ^ 8))
      with (format_code ∘ (λ k, draws (i + k)%nat mod 10 ^ 8)%N).
    rewrite list_fmap_compose. apply NoDup_fmap_2_strong; [|done].
    intros x y (a & -> & _)%list_elem_of_fmap (b & -> & _)%list_elem_of_fmap.
    apply format_code_inj; apply N.mod_lt; lia. }
  assert (codes ⊆ weak_codes) as Hsub.
  { intros v (k & -> & Hk)%list_elem_of_fmap. apply elem_of_seq in Hk.
    specialize (Hall k ltac:(lia)).
    destruct (decide (format_code (draws (i + k)%nat mod 10 ^ 8) ∈ weak_codes)) as [|Hn]; [done|].
    exfalso. assert (is_usable_setup_code (format_code (draws (i + k)%nat mod 10 ^ 8)) = true) as Ht.
    { apply is_usable_spec. split; [apply format_code_re|done]. }
    congruence. }
  pose proof (submseteq_length codes weak_codes (NoDup_submseteq _ _ Hc Hsub)) as Hlen.
  unfold codes in Hlen. rewrite length_fmap in Hlen. simpl in Hlen. lia.
Qed.

Lemma setup_code_generation_witness :
  ∃ code j, generate_setup_code 13 (λ k, N.of_nat k) 0 = Some (code, j) ∧
            is_usable_setup_code code = true.
Proof.
  apply (setup_code_generation (λ k, N.of_nat k) 0).
  apply (bool_decide_unpack _). vm_compute. exact I.
Defined.
