(* ===== verification/StateStore.v ===== *)
(** * The durable-authority port

    [bootstrap/ports/state_store.py]: the [BootstrapStateStore] protocol as a
    type class over the adapter's state, and a store call as a value, so that
    histories of calls can be quantified over and compared between adapters. *)

From S2P Require Import Prelude Domain.

Class BootstrapStateStore (S : Type) := {
  store_open : M S unit;
  store_initialize : string → M S unit;
  store_get_state : M S BootstrapState;
  store_issue_commissioning_session :
    string → string → string → option string → M S unit;
  store_latest_commissioning_session : M S (option CommissioningSessionMetadata);
  store_authorize_commissioning_session :
    string → string → string → M S CommissioningSessionMetadata;
  store_claim_controller : string → string → ControllerGrant → string → M S ControllerGrant;
  store_get_controller : string → M S (option ControllerGrant);
  store_list_controllers : M S (list ControllerGrant);
  store_revoke_controller : string → string → M S ControllerGrant;
  store_create_operation : BootstrapOperation → M S BootstrapOperation;
  store_get_operation : string → M S (option BootstrapOperation);
  store_update_operation :
    string → BootstrapOperationState → NetworkState → string → option string →
    M S BootstrapOperation;
  store_fail_interrupted_operations : string → M S nat;
  store_reconcile_network_state : NetworkState → string → M S unit;
  store_reset_authority :
    NetworkState → string → option CommissioningSessionSeed → M S BootstrapState;
  store_close : M S unit }.

(** One call on the port that can change durable state. *)
Inductive store_call :=
| CIssue (sid hash created : string) (expires : option string)
| CAuthorize (sid hash now : string)
| CClaim (sid hash : string) (g : ControllerGrant) (now : string)
| CRevoke (cid now : string)
| CCreateOperation (o : BootstrapOperation)
| CUpdateOperation (oid : string) (st : BootstrapOperationState) (ns : NetworkState)
    (now : string) (err : option string)
| CFailInterrupted (now : string)
| CReconcile (ns : NetworkState) (now : string)
| CReset (ns : NetworkState) (now : string) (seed : option CommissioningSessionSeed).

(** What a call answers, with the payload of every operation kept. *)
Inductive store_reply :=
| RUnit
| RSession (m : CommissioningSessionMetadata)
| RGrant (g : ControllerGrant)
| ROperation (o : BootstrapOperation)
| RCount (n : nat)
| RState (s : BootstrapState).

Section Calls.
Context {S : Type} `{BootstrapStateStore S}.

Definition run_call (c : store_call) : M S store_reply :=
  match c with
  | CIssue sid h t e => store_issue_commissioning_session sid h t e ;; mret RUnit
  | CAuthorize sid h t => m ← store_authorize_commissioning_session sid h t; mret (RSession m)
  | CClaim sid h g t => g' ← store_claim_controller sid h g t; mret (RGrant g')
  | CRevoke cid t => g ← store_revoke_controller cid t; mret (RGrant g)
  | CCreateOperation o => o' ← store_create_operation o; mret (ROperation o')
  | CUpdateOperation oid st ns t err =>
      o ← store_update_operation oid st ns t err; mret (ROperation o)
  | CFailInterrupted t => n ← store_fail_interrupted_operations t; mret (RCount n)
  | CReconcile ns t => store_reconcile_network_state ns t ;; mret RUnit
  | CReset ns t seed => st ← store_reset_authority ns t seed; mret (RState st)
  end.

(** A history of calls, each answered or refused; a refusal does not stop the
    next caller. *)
Fixpoint run_calls (cs : list store_call) (s : S) : list (result store_reply) * S :=
  match cs with
  | [] => ([], s)
  | c :: cs' => let '(r, s1) := run_call c s in
                let '(rs, s2) := run_calls cs' s1 in (r :: rs, s2)
  end.
End Calls.

(** A Grant that grants: what [_controller_grant] builds, and all that any
    caller ever hands [claim_controller]. *)
Definition call_grants_unrevoked (c : store_call) : Prop :=
  match c with CClaim _ _ g _ => g.(g_revoked_at) = None | _ => True end.
