(* ===== verification/MemoryStore.v ===== *)
(** * The in-memory state adapter

    [bootstrap/adapters/persistence/memory.py], operation by operation.
    [_sessions] is a list in issue order, [_controllers] and [_operations] are
    dictionaries in insertion order, [_session_controller_ids] is a map that
    is only ever read by key. *)

From S2P Require Import Prelude Domain StateStore.

Record MemoryStore := mkMemory {
  m_opened : bool;
  m_state : option BootstrapState;
  m_sessions : list (CommissioningSessionMetadata * string);
  m_session_controller_ids : gmap string string;
  m_controllers : list ((Z * string) * ControllerGrant);
  m_operations : list (string * BootstrapOperation) }.

Definition mem_init : MemoryStore := mkMemory false None [] ∅ [] [].

Definition set_opened (b : bool) (s : MemoryStore) :=
  mkMemory b s.(m_state) s.(m_sessions) s.(m_session_controller_ids) s.(m_controllers)
    s.(m_operations).
Definition set_state (x : option BootstrapState) (s : MemoryStore) :=
  mkMemory s.(m_opened) x s.(m_sessions) s.(m_session_controller_ids) s.(m_controllers)
    s.(m_operations).
Definition set_sessions (x : list (CommissioningSessionMetadata * string)) (s : MemoryStore) :=
  mkMemory s.(m_opened) s.(m_state) x s.(m_session_controller_ids) s.(m_controllers)
    s.(m_operations).
Definition set_session_controller_ids (x : gmap string string) (s : MemoryStore) :=
  mkMemory s.(m_opened) s.(m_state) s.(m_sessions) x s.(m_controllers) s.(m_operations).
Definition set_controllers (x : list ((Z * string) * ControllerGrant)) (s : MemoryStore) :=
  mkMemory s.(m_opened) s.(m_state) s.(m_sessions) s.(m_session_controller_ids) x
    s.(m_operations).
Definition set_operations (x : list (string * BootstrapOperation)) (s : MemoryStore) :=
  mkMemory s.(m_opened) s.(m_state) s.(m_sessions) s.(m_session_controller_ids)
    s.(m_controllers) x.

Definition unavailable : exn := BootstrapStateConflict "commissioning session is unavailable".

Definition mem_require_open : M MemoryStore unit := λ s,
  if s.(m_opened) then (Ok tt, s)
  else (Raise (RuntimeError "in-memory bootstrap state store is not open"), s).

Definition mem_open : M MemoryStore unit := modify (set_opened true).

Definition mem_initialize (now : string) : M MemoryStore unit :=
  mem_require_open ;;
  st ← gets m_state;
  match st with
  | None => modify (set_state (Some (mkBootstrapState 0 UNCLAIMED UNCONFIGURED now)))
  | Some _ => mret tt
  end.

Definition mem_get_state : M MemoryStore BootstrapState :=
  mem_require_open ;;
  st ← gets m_state;
  match st with
  | None => raise (RuntimeError "in-memory bootstrap state store is not initialized")
  | Some st => mret st
  end.

(** The comprehension that [issue_commissioning_session] and [reset_authority]
    both apply to every row. *)
Definition revoke_unspent (t : string) (l : list (CommissioningSessionMetadata * string)) :=
  (λ '(m, h), (if unspent m then session_set_revoked t m else m, h)) <$> l.

Definition mem_issue_commissioning_session (sid hash created : string)
    (expires : option string) : M MemoryStore unit :=
  mem_require_open ;;
  ss ← gets m_sessions;
  modify (set_sessions (revoke_unspent created ss ++ [(new_session sid created expires, hash)])).

Definition mem_latest_commissioning_session
    : M MemoryStore (option CommissioningSessionMetadata) :=
  mem_require_open ;;
  ss ← gets m_sessions;
  mret (fst <$> last ss).

(** The [for] loop: [Some] of the matching open session with the right hash,
    and the list with the attempt counted otherwise. *)
Fixpoint authorize_loop (sid hash now : string)
    (l : list (CommissioningSessionMetadata * string))
    : option CommissioningSessionMetadata * list (CommissioningSessionMetadata * string) :=
  match l with
  | [] => (None, [])
  | (m, h) :: l' =>
      if negb (bool_decide (m.(session_id) = sid)) then
        let '(r, l'') := authorize_loop sid hash now l' in (r, (m, h) :: l'')
      else if negb (is_open m now) then (None, (m, h) :: l')
      else if bool_decide (h = hash) then (Some m, (m, h) :: l')
      else (None, (session_set_failed (m.(failed_attempts) + 1) m, h) :: l')
  end.

Definition mem_authorize_commissioning_session (sid hash now : string)
    : M MemoryStore CommissioningSessionMetadata :=
  mem_require_open ;;
  ss ← gets m_sessions;
  let '(r, ss') := authorize_loop sid hash now ss in
  modify (set_sessions ss') ;;
  match r with Some m => mret m | None => raise unavailable end.

Definition mem_get_controller (cid : string) : M MemoryStore (option ControllerGrant) :=
  mem_require_open ;;
  st ← mem_get_state;
  cs ← gets m_controllers;
  mret (dict_get (st.(reset_epoch), cid) cs).

Definition consume_row (sid now : string) (p : CommissioningSessionMetadata * string) :=
  (if bool_decide (p.1.(session_id) = sid) then session_set_consumed now p.1 else p.1, p.2).

Definition mem_consume_session (sid cid now : string) : M MemoryStore unit :=
  ids ← gets m_session_controller_ids;
  modify (set_session_controller_ids (<[sid := cid]> ids)) ;;
  ss ← gets m_sessions;
  modify (set_sessions (consume_row sid now <$> ss)).

Definition mem_grant_in_epoch (grant : ControllerGrant) (epoch : Z)
    : M MemoryStore (option ControllerGrant) :=
  cs ← gets m_controllers;
  let held :=
    match dict_get (epoch, grant.(controller_id)) cs with
    | Some g => Some g
    | None =>
        snd <$> next_or_none (λ '((e, _), c), bool_decide (e = epoch) &&
          bool_decide (c.(public_key_fingerprint) = grant.(public_key_fingerprint))) cs
    end in
  match held with
  | None => mret None
  | Some g =>
      if negb (bool_decide (g.(public_key) = grant.(public_key))) then
        raise (BootstrapStateConflict "another Controller already holds this identity on this Host")
      else mret (if bool_decide (g.(g_revoked_at) = None) then Some g else None)
  end.

(** The retry of a claim whose reply was lost. *)
Definition claim_replay_ok (sid hash claimed : string) (grant existing : ControllerGrant)
    (ss : list (CommissioningSessionMetadata * string)) : bool :=
  bool_decide (claimed = grant.(controller_id)) &&
  bool_decide (existing.(public_key) = grant.(public_key)) &&
  bool_decide (existing.(g_revoked_at) = None) &&
  existsb (λ '(m, h), bool_decide (m.(session_id) = sid) && bool_decide (h = hash) &&
    match m.(s_consumed_at) with
    | Some c => str_leb existing.(g_created_at) c
    | None => false
    end) ss.

Definition mem_claim_controller (sid hash : string) (grant : ControllerGrant) (now : string)
    : M MemoryStore ControllerGrant :=
  mem_require_open ;;
  ids ← gets m_session_controller_ids;
  match ids !! sid with
  | Some claimed =>
      existing ← mem_get_controller claimed;
      ss ← gets m_sessions;
      match existing with
      | Some g => if claim_replay_ok sid hash claimed grant g ss then mret g else raise unavailable
      | None => raise unavailable
      end
  | None =>
      mem_authorize_commissioning_session sid hash now ;;
      st ← mem_get_state;
      guard_py (negb (grant.(g_reset_epoch) =? st.(reset_epoch))%Z)
        (BootstrapStateConflict "controller reset epoch does not match host") ;;
      held ← mem_grant_in_epoch grant st.(reset_epoch);
      match held with
      | Some g => mem_consume_session sid g.(controller_id) now ;; mret g
      | None =>
          cs ← gets m_controllers;
          modify (set_controllers (dict_set (st.(reset_epoch), grant.(controller_id)) grant cs)) ;;
          mem_consume_session sid grant.(controller_id) now ;;
          cur ← gets m_state;
          assert_py (bool_decide (is_Some cur)) ;;
          modify (set_state (state_set_claim CLAIMED now <$> cur)) ;;
          mret grant
      end
  end.

(** [key=lambda grant: (grant.created_at, grant.reset_epoch, grant.controller_id)] *)
Definition grant_le (a b : ControllerGrant) : bool :=
  if negb (bool_decide (a.(g_created_at) = b.(g_created_at))) then
    str_leb a.(g_created_at) b.(g_created_at)
  else if negb (a.(g_reset_epoch) =? b.(g_reset_epoch))%Z then
    (a.(g_reset_epoch) <=? b.(g_reset_epoch))%Z
  else str_leb a.(controller_id) b.(controller_id).

Definition mem_list_controllers : M MemoryStore (list ControllerGrant) :=
  mem_require_open ;;
  cs ← gets m_controllers;
  mret (sort_by grant_le cs.*2).

(** A Grant that carries authority now. *)
Definition grant_active (epoch : Z) (g : ControllerGrant) : bool :=
  bool_decide (g.(g_revoked_at) = None) && (g.(g_reset_epoch) =? epoch)%Z.

Definition mem_revoke_controller (cid now : string) : M MemoryStore ControllerGrant :=
  st ← mem_get_state;
  all ← mem_list_controllers;
  let active := List.filter (grant_active st.(reset_epoch)) all in
  match next_or_none (λ g, bool_decide (g.(controller_id) = cid)) active with
  | None => raise (BootstrapStateConflict "controller is not authorized for this Host")
  | Some g =>
      guard_py (length active =? 1)%nat
        (BootstrapStateConflict "the last Controller cannot be revoked; use controller-reset") ;;
      let revoked := grant_set_revoked (Some now) g in
      cs ← gets m_controllers;
      modify (set_controllers (dict_set (st.(reset_epoch), cid) revoked cs)) ;;
      mret revoked
  end.

Definition same_operation (a b : BootstrapOperation) : bool :=
  bool_decide (a.(operation_type) = b.(operation_type)) &&
  bool_decide (a.(target) = b.(target)) && (a.(o_reset_epoch) =? b.(o_reset_epoch))%Z.

Definition mem_create_operation (o : BootstrapOperation) : M MemoryStore BootstrapOperation :=
  mem_require_open ;;
  ops ← gets m_operations;
  match dict_get o.(operation_id) ops with
  | Some current =>
      if same_operation current o then mret current
      else raise (BootstrapStateConflict "operation_id is already in use")
  | None =>
      st ← mem_get_state;
      guard_py (negb (o.(o_reset_epoch) =? st.(reset_epoch))%Z)
        (BootstrapStateConflict "operation reset epoch does not match host") ;;
      guard_py (existsb (λ kv, active_state kv.2.(o_state)) ops)
        (BootstrapStateConflict "another bootstrap operation is active") ;;
      modify (set_operations (dict_set o.(operation_id) o ops)) ;;
      mret o
  end.

Definition mem_get_operation (oid : string) : M MemoryStore (option BootstrapOperation) :=
  mem_require_open ;;
  ops ← gets m_operations;
  mret (dict_get oid ops).

Definition mem_update_operation (oid : string) (st : BootstrapOperationState) (ns : NetworkState)
    (now : string) (err : option string) : M MemoryStore BootstrapOperation :=
  mem_require_open ;;
  ops ← gets m_operations;
  match dict_get oid ops with
  | None => raise (BootstrapStateConflict "bootstrap operation does not exist")
  | Some current =>
      let updated := operation_set st now err current in
      modify (set_operations (dict_set oid updated ops)) ;;
      cur ← gets m_state;
      assert_py (bool_decide (is_Some cur)) ;;
      modify (set_state (state_set_network ns now <$> cur)) ;;
      mret updated
  end.

(** Every unfinished operation is failed with one reason. *)
Definition fail_active (now reason : string) (ops : list (string * BootstrapOperation)) :=
  (λ '(k, o), (k, if active_state o.(o_state) then operation_set FAILED now (Some reason) o else o))
    <$> ops.

Definition mem_fail_interrupted_operations (now : string) : M MemoryStore nat :=
  mem_require_open ;;
  ops ← gets m_operations;
  let interrupted := count_where (λ kv, active_state kv.2.(o_state)) ops in
  modify (set_operations (fail_active now "daemon_restarted" ops)) ;;
  if (interrupted =? 0)%nat then mret 0
  else
    cur ← gets m_state;
    assert_py (bool_decide (is_Some cur)) ;;
    modify (set_state (state_set_network DEGRADED now <$> cur)) ;;
    mret interrupted.

Definition transitional (ns : NetworkState) : bool :=
  match ns with STAGING | ROLLING_BACK => true | _ => false end.

Definition mem_reconcile_network_state (ns : NetworkState) (now : string) : M MemoryStore unit :=
  mem_require_open ;;
  guard_py (transitional ns)
    (BootstrapStateConflict "cannot reconcile an active network transition at startup") ;;
  cur ← gets m_state;
  assert_py (bool_decide (is_Some cur)) ;;
  modify (set_state (state_set_network ns now <$> cur)).

Definition revoke_grants (now : string) (cs : list ((Z * string) * ControllerGrant)) :=
  (λ '(k, g), (k, if bool_decide (g.(g_revoked_at) = None) then grant_set_revoked (Some now) g else g))
    <$> cs.

Definition mem_reset_authority (ns : NetworkState) (now : string)
    (recovery : option CommissioningSessionSeed) : M MemoryStore BootstrapState :=
  mem_require_open ;;
  ss ← gets m_sessions;
  modify (set_sessions (revoke_unspent now ss)) ;;
  cs ← gets m_controllers;
  modify (set_controllers (revoke_grants now cs)) ;;
  ops ← gets m_operations;
  modify (set_operations (fail_active now "authority_reset" ops)) ;;
  st ← mem_get_state;
  let st' := mkBootstrapState (st.(reset_epoch) + 1) UNCLAIMED ns now in
  modify (set_state (Some st')) ;;
  match recovery with
  | Some seed =>
      ss ← gets m_sessions;
      modify (set_sessions (ss ++
        [(new_session seed.(seed_session_id) now seed.(seed_expires_at), seed.(seed_secret_hash))])) ;;
      mret st'
  | None => mret st'
  end.

Definition mem_close : M MemoryStore unit := modify (set_opened false).

#[global] Instance memory_store : BootstrapStateStore MemoryStore := {
  store_open := mem_open;
  store_initialize := mem_initialize;
  store_get_state := mem_get_state;
  store_issue_commissioning_session := mem_issue_commissioning_session;
  store_latest_commissioning_session := mem_latest_commissioning_session;
  store_authorize_commissioning_session := mem_authorize_commissioning_session;
  store_claim_controller := mem_claim_controller;
  store_get_controller := mem_get_controller;
  store_list_controllers := mem_list_controllers;
  store_revoke_controller := mem_revoke_controller;
  store_create_operation := mem_create_operation;
  store_get_operation := mem_get_operation;
  store_update_operation := mem_update_operation;
  store_fail_interrupted_operations := mem_fail_interrupted_operations;
  store_reconcile_network_state := mem_reconcile_network_state;
  store_reset_authority := mem_reset_authority;
  store_close := mem_close }.

(** ** Running the adapter

    [ready s st] is an opened, initialized adapter; every operation below
    evaluates from it. *)

Definition ready (s : MemoryStore) (st : BootstrapState) : Prop :=
  s.(m_opened) = true ∧ s.(m_state) = Some st.

(** Exposes the fields of a ready store, so that the operations compute. *)
Ltac open_store s H :=
  destruct s as [op x ss ids cs ops]; destruct H as [Hop Hst]; simpl in Hop, Hst; subst op x.
Ltac mrun := unfold mbind, M_bind, mret, M_ret, raise, gets, modify, lift, guard_py, assert_py; simpl.

Lemma authorize_loop_some sid hash now l m l' :
  authorize_loop sid hash now l = (Some m, l') →
  l' = l ∧ (m, hash) ∈ l ∧ m.(session_id) = sid ∧ is_open m now = true.
Proof.
  revert l'. induction l as [|[m0 h0] l IH]; intros l'; simpl; [done|].
  case_bool_decide as Hid; simpl.
  - destruct (is_open m0 now) eqn:Ho; simpl; [|done].
    case_bool_decide as Hh; [|done]. intros [= -> <-]. subst. repeat split; [by left|done].
  - destruct (authorize_loop sid hash now l) as [r l1] eqn:E. intros [= -> <-].
    destruct (IH l1 eq_refl) as (-> & Hin & ? & ?). repeat split; [by right|done|done].
Qed.

(** A refused code leaves every row as it was, up to the evidence counter. *)
Definition erase_failed (p : CommissioningSessionMetadata * string) :=
  (session_set_failed 0 p.1, p.2).

Lemma authorize_loop_erase sid hash now l r l' :
  authorize_loop sid hash now l = (r, l') → erase_failed <$> l' = erase_failed <$> l.
Proof.
  revert r l'. induction l as [|[m0 h0] l IH]; intros r l'; simpl; [by intros [= <- <-]|].
  case_bool_decide; simpl.
  - destruct (is_open m0 now); simpl; [|by intros [= <- <-]].
    case_bool_decide; intros [= <- <-]; done.
  - destruct (authorize_loop sid hash now l) as [r1 l1] eqn:E. intros [= <- <-]. simpl.
    f_equal. eauto.
Qed.

Definition p_unspent (p : CommissioningSessionMetadata * string) : bool := unspent p.1.

Lemma count_where_erase (l l' : list (CommissioningSessionMetadata * string)) :
  erase_failed <$> l' = erase_failed <$> l →
  count_where p_unspent l' = count_where p_unspent l.
Proof.
  revert l'. induction l as [|[m h] l IH]; intros [|[m' h'] l']; simpl; try done.
  intros [= H1 H2 H3 H4 H5 H6 H]. unfold count_where in *. simpl.
  assert (p_unspent (m', h') = p_unspent (m, h)) as ->.
  { unfold p_unspent, unspent. simpl. by rewrite H4, H5. }
  destruct (p_unspent (m, h)); simpl; [f_equal|]; by apply IH.
Qed.

Lemma revoke_unspent_count t l : count_where p_unspent (revoke_unspent t l) = 0.
Proof.
  apply count_where_0. unfold revoke_unspent. intros x (y & -> & _)%list_elem_of_fmap.
  destruct y as [m h]. unfold p_unspent. simpl. destruct (unspent m) eqn:E; [|done].
  apply unspent_revoked.
Qed.

Lemma consume_count sid now l :
  count_where p_unspent (consume_row sid now <$> l) ≤ count_where p_unspent l.
Proof.
  induction l as [|[m h] l IH]; [done|]. unfold count_where in *. rewrite fmap_cons.
  cbn [List.filter]. change (p_unspent (m, h)) with (unspent m). unfold consume_row at 1.
  cbn [fst snd]. case_bool_decide; unfold p_unspent at 1; cbn [fst].
  - rewrite unspent_consumed. destruct (unspent m); cbn [length]; lia.
  - destruct (unspent m); cbn [length]; lia.
Qed.

(** What [authorize_commissioning_session] answers and leaves behind. *)
Lemma mem_authorize_run sid hash now s st r l' :
  ready s st → authorize_loop sid hash now s.(m_sessions) = (r, l') →
  mem_authorize_commissioning_session sid hash now s =
    (match r with Some m => Ok m | None => Raise unavailable end, set_sessions l' s).
Proof.
  intros Hr Hl. open_store s Hr. unfold mem_authorize_commissioning_session, mem_require_open.
  mrun. simpl in Hl. rewrite Hl. by destruct r.
Qed.

(** *** The invariant *)

Definition controllers_wf (epoch : Z) (cs : list ((Z * string) * ControllerGrant)) : Prop :=
  NoDup cs.*1 ∧
  ∀ k g, (k, g) ∈ cs →
    k = (g.(g_reset_epoch), g.(controller_id)) ∧ (g.(g_reset_epoch) ≤ epoch)%Z ∧
    (g.(g_reset_epoch) ≠ epoch → g.(g_revoked_at) ≠ None).

Definition some_active (epoch : Z) (cs : list ((Z * string) * ControllerGrant)) : Prop :=
  ∃ k g, (k, g) ∈ cs ∧ grant_active epoch g = true.

Record mem_inv (s : MemoryStore) : Prop := {
  inv_open : s.(m_opened) = true;
  inv_state : is_Some s.(m_state);
  inv_window : count_where p_unspent s.(m_sessions) ≤ 1;
  inv_controllers : ∀ st, s.(m_state) = Some st → controllers_wf st.(reset_epoch) s.(m_controllers);
  inv_claim : ∀ st, s.(m_state) = Some st →
    (st.(claim_state) = CLAIMED ↔ some_active st.(reset_epoch) s.(m_controllers)) }.

Lemma inv_ready s : mem_inv s → ∃ st, ready s st.
Proof. intros [H [st Hst] _ _ _]. by exists st. Qed.

Lemma grant_active_spec epoch g :
  grant_active epoch g = true ↔ g.(g_revoked_at) = None ∧ g.(g_reset_epoch) = epoch.
Proof. unfold grant_active. by rewrite andb_true_iff, bool_decide_eq_true, Z.eqb_eq. Qed.

Lemma revoke_grants_fst now cs : (revoke_grants now cs).*1 = cs.*1.
Proof.
  unfold revoke_grants. rewrite <- list_fmap_compose. apply list_fmap_ext. by intros i [k g] _.
Qed.

Lemma elem_of_revoke_grants now cs k g :
  (k, g) ∈ revoke_grants now cs →
  ∃ g0, (k, g0) ∈ cs ∧ g.(g_revoked_at) ≠ None ∧ g.(g_reset_epoch) = g0.(g_reset_epoch) ∧
        g.(controller_id) = g0.(controller_id).
Proof.
  unfold revoke_grants. intros ([k0 g0] & [= -> ->] & Hin)%list_elem_of_fmap.
  exists g0. case_bool_decide; simpl; repeat split; done.
Qed.

Lemma controllers_wf_set epoch cs cid g :
  controllers_wf epoch cs → g.(g_reset_epoch) = epoch → g.(controller_id) = cid →
  controllers_wf epoch (dict_set (epoch, cid) g cs).
Proof.
  intros [Hnd Hall] He Hc. split; [by apply dict_set_NoDup|].
  intros k g' Hin. apply elem_of_dict_set in Hin as [[= -> ->]|[_ Hin]]; [|by apply Hall|done].
  subst. repeat split; [lia|done].
Qed.

Lemma controllers_wf_active_key epoch cs k g :
  controllers_wf epoch cs → (k, g) ∈ cs → g.(g_reset_epoch) = epoch →
  dict_get (epoch, g.(controller_id)) cs = Some g.
Proof.
  intros [Hnd Hall] Hin He. apply dict_get_Some; [done|].
  destruct (Hall _ _ Hin) as [-> _]. by rewrite He in Hin.
Qed.

(** Two active Grants: withdrawing one leaves another. *)
Lemma other_active epoch cs cid g now :
  controllers_wf epoch cs → (epoch, cid, g) ∈ cs →
  length (List.filter (grant_active epoch) cs.*2) ≠ 1 →
  grant_active epoch g = true →
  some_active epoch (dict_set (epoch, cid) (grant_set_revoked now g) cs).
Proof.
  intros Hwf Hin Hlen Hact.
  assert (∃ k g', (k, g') ∈ cs ∧ grant_active epoch g' = true ∧ k ≠ (epoch, cid)) as (k & g' & Hin' & Ha & Hk).
  { destruct Hwf as [Hnd Hall].
    apply list_elem_of_split in Hin as (l1 & l2 & ->).
    rewrite fmap_app, fmap_cons, List.filter_app, length_app in Hlen. simpl in Hlen. rewrite Hact in Hlen.
    simpl in Hlen.
    assert (∃ k g', (k, g') ∈ l1 ++ l2 ∧ grant_active epoch g' = true) as (k & g' & Hin' & Ha).
    { destruct (List.filter (grant_active epoch) (l1 ++ l2).*2) as [|g' l] eqn:E.
      - rewrite fmap_app, List.filter_app in E. apply app_eq_nil in E as [E1 E2].
        rewrite E1, E2 in Hlen. simpl in Hlen. lia.
      - assert (g' ∈ List.filter (grant_active epoch) (l1 ++ l2).*2) as Hg by (rewrite E; left).
        apply list_elem_of_In, List.filter_In in Hg as [Hg Ha].
        apply list_elem_of_In, list_elem_of_fmap in Hg as ([k g''] & -> & Hg). by exists k, g''. }
    exists k, g'. split; [|split; [done|]].
    { apply elem_of_app in Hin' as [|]; apply elem_of_app; [by left|right; by right]. }
    intros ->. rewrite fmap_app, fmap_cons in Hnd.
    assert (NoDup ((epoch, cid) :: (l1 ++ l2).*1)) as Hnd'.
    { rewrite fmap_app. eapply NoDup_Permutation_proper; [|exact Hnd]. simpl.
      by rewrite <- Permutation_middle. }
    apply NoDup_cons in Hnd' as [Hni _]. apply Hni. apply list_elem_of_fmap.
    by exists (epoch, cid, g'). }
  exists k, g'. split; [|done]. apply elem_of_dict_set; [by destruct Hwf|]. right. done.
Qed.

(** *** Every operation preserves it *)

Definition preserves {A} (c : M MemoryStore A) : Prop := ∀ s, mem_inv s → mem_inv (c s).2.

Lemma mem_inv_sessions s l :
  mem_inv s → count_where p_unspent l ≤ 1 → mem_inv (set_sessions l s).
Proof. intros [] ?. by constructor. Qed.

Lemma mem_inv_operations s l : mem_inv s → mem_inv (set_operations l s).
Proof. intros []. by constructor. Qed.

Lemma mem_inv_network s ns now :
  mem_inv s → mem_inv (set_state (state_set_network ns now <$> s.(m_state)) s).
Proof.
  intros [Ho [st Hst] Hw Hc Hcl]. constructor; simpl; rewrite ?Hst; simpl; [done|by eauto|done| |].
  - intros ? [= <-]. simpl. auto.
  - intros ? [= <-]. simpl. auto.
Qed.

(** Consuming a session touches sessions and their owners only. *)
Lemma mem_consume_run sid cid now s :
  mem_consume_session sid cid now s =
    (Ok tt, mkMemory s.(m_opened) s.(m_state)
      (consume_row sid now <$> s.(m_sessions))
      (<[sid := cid]> s.(m_session_controller_ids)) s.(m_controllers) s.(m_operations)).
Proof. by destruct s. Qed.

Lemma mem_inv_consume sid cid now s : mem_inv s → mem_inv (mem_consume_session sid cid now s).2.
Proof.
  intros [Ho Hst Hw Hc Hcl]. rewrite mem_consume_run. constructor; simpl; try done.
  etrans; [apply consume_count|done].
Qed.

(** [_grant_in_epoch] reads only; what it returns is an unrevoked Grant of
    this epoch holding the claimant's key. *)
Lemma mem_grant_in_epoch_pure g epoch s : (mem_grant_in_epoch g epoch s).2 = s.
Proof.
  unfold mem_grant_in_epoch. mrun. repeat case_match; done.
Qed.

Lemma mem_grant_in_epoch_some g epoch s h s' :
  controllers_wf epoch s.(m_controllers) →
  mem_grant_in_epoch g epoch s = (Ok (Some h), s') →
  h.(g_revoked_at) = None ∧ h.(public_key) = g.(public_key) ∧ h.(g_reset_epoch) = epoch ∧
  (epoch, h.(controller_id), h) ∈ s.(m_controllers).
Proof.
  intros [Hnd Hall]. unfold mem_grant_in_epoch. mrun.
  destruct (dict_get (epoch, controller_id g) (m_controllers s)) as [g0|] eqn:E.
  - repeat case_bool_decide; simpl; try done. intros [= <- <-]. apply dict_get_elem in E.
    destruct (Hall _ _ E) as [[= He Hc] _]. split_and!; [done|done|by rewrite He|].
    by rewrite <- Hc.
  - destruct (next_or_none _ _) as [[[e0 c0] g0]|] eqn:En; simpl; [|done].
    repeat case_bool_decide; simpl; try done. intros [= <- <-].
    apply next_or_none_Some in En as [Hin Hp].
    apply andb_true_iff in Hp as [He%bool_decide_eq_true _]. subst e0.
    destruct (Hall _ _ Hin) as [[= He Hc] _]. split_and!; [done|done|by rewrite He|].
    by rewrite Hc in Hin.
Qed.

Lemma mem_inv_insert_grant s st g now :
  mem_inv s → ready s st → g.(g_reset_epoch) = st.(reset_epoch) → g.(g_revoked_at) = None →
  mem_inv (mkMemory true (Some (state_set_claim CLAIMED now st)) s.(m_sessions)
    s.(m_session_controller_ids)
    (dict_set (st.(reset_epoch), g.(controller_id)) g s.(m_controllers)) s.(m_operations)).
Proof.
  intros [Ho Hst Hw Hc Hcl] [_ Hs] He Hr. specialize (Hc _ Hs).
  constructor; simpl; [done|by eauto|done| |].
  - intros ? [= <-]. simpl. by apply controllers_wf_set.
  - intros ? [= <-]. simpl. split; [intros _|done].
    exists (st.(reset_epoch), g.(controller_id)), g. split; [|by apply grant_active_spec].
    apply elem_of_dict_set; [by destruct Hc|]. by left.
Qed.

Lemma preserves_authorize sid hash now : preserves (mem_authorize_commissioning_session sid hash now).
Proof.
  intros s Hi. destruct (inv_ready _ Hi) as [st Hr].
  destruct (authorize_loop sid hash now (m_sessions s)) as [r l'] eqn:E.
  rewrite (mem_authorize_run _ _ _ _ _ _ _ Hr E). simpl. apply mem_inv_sessions; [done|].
  rewrite (count_where_erase _ _ (authorize_loop_erase _ _ _ _ _ _ E)). by apply inv_window.
Qed.

Lemma mem_list_run s st : ready s st → mem_list_controllers s = (Ok (sort_by grant_le s.(m_controllers).*2), s).
Proof. intros Hr. open_store s Hr. reflexivity. Qed.

Lemma mem_get_state_run s st : ready s st → mem_get_state s = (Ok st, s).
Proof. intros Hr. open_store s Hr. reflexivity. Qed.

Lemma mem_require_open_run s st : ready s st → mem_require_open s = (Ok tt, s).
Proof. intros Hr. open_store s Hr. reflexivity. Qed.

Lemma mem_get_controller_run cid s st :
  ready s st → mem_get_controller cid s = (Ok (dict_get (st.(reset_epoch), cid) s.(m_controllers)), s).
Proof. intros Hr. open_store s Hr. reflexivity. Qed.

(** [claim_controller] on a session nothing has consumed. *)
Definition claim_fresh (sid : string) (grant : ControllerGrant) (now : string) (st : BootstrapState)
    (s : MemoryStore) : result ControllerGrant * MemoryStore :=
  if negb (grant.(g_reset_epoch) =? st.(reset_epoch))%Z
  then (Raise (BootstrapStateConflict "controller reset epoch does not match host"), s)
  else match (mem_grant_in_epoch grant st.(reset_epoch) s).1 with
  | Raise e => (Raise e, s)
  | Ok (Some g) => (Ok g, (mem_consume_session sid g.(controller_id) now s).2)
  | Ok None =>
      (Ok grant, (mem_consume_session sid grant.(controller_id) now
        (mkMemory true (Some (state_set_claim CLAIMED now st)) s.(m_sessions)
          s.(m_session_controller_ids)
          (dict_set (st.(reset_epoch), grant.(controller_id)) grant s.(m_controllers))
          s.(m_operations))).2)
  end.

Lemma mem_claim_run sid hash g now s st :
  ready s st →
  mem_claim_controller sid hash g now s =
  match s.(m_session_controller_ids) !! sid with
  | Some claimed =>
      (match dict_get (st.(reset_epoch), claimed) s.(m_controllers) with
       | Some g' => if claim_replay_ok sid hash claimed g g' s.(m_sessions) then Ok g' else Raise unavailable
       | None => Raise unavailable
       end, s)
  | None =>
      match authorize_loop sid hash now s.(m_sessions) with
      | (None, l') => (Raise unavailable, set_sessions l' s)
      | (Some _, _) => claim_fresh sid g now st s
      end
  end.
Proof.
  intros Hr. unfold mem_claim_controller.
  rewrite (bind_ok _ _ _ _ _ (mem_require_open_run _ _ Hr)). mnorm.
  destruct (m_session_controller_ids s !! sid) as [claimed|].
  { rewrite (bind_ok _ _ _ _ _ (mem_get_controller_run _ _ _ Hr)). mnorm. by repeat case_match. }
  destruct (authorize_loop sid hash now (m_sessions s)) as [[m|] l'] eqn:E;
    pose proof (mem_authorize_run _ _ _ _ _ _ _ Hr E) as Ha.
  2: by rewrite (bind_raise _ _ _ _ _ Ha).
  rewrite (bind_ok _ _ _ _ _ Ha). destruct (authorize_loop_some _ _ _ _ _ _ E) as [-> _].
  replace (set_sessions (m_sessions s) s) with s by by destruct s.
  rewrite (bind_ok _ _ _ _ _ (mem_get_state_run _ _ Hr)). mnorm. unfold claim_fresh.
  destruct (negb _); [done|].
  pose proof (mem_grant_in_epoch_pure g st.(reset_epoch) s) as Hpure.
  destruct (mem_grant_in_epoch g st.(reset_epoch) s) as [[held|e] s2] eqn:Eh; simpl in Hpure; subst s2.
  2: by rewrite (bind_raise _ _ _ _ _ Eh).
  rewrite (bind_ok _ _ _ _ _ Eh). destruct held as [h|].
  - rewrite (bind_ok _ _ _ _ _ (mem_consume_run _ _ _ _)). by rewrite mem_consume_run.
  - mnorm. rewrite (bind_ok _ _ _ _ _ (mem_consume_run _ _ _ _)), mem_consume_run. mnorm.
    open_store s Hr. reflexivity.
Qed.

Lemma claim_fresh_inv sid g now st s :
  mem_inv s → ready s st → g.(g_revoked_at) = None → mem_inv (claim_fresh sid g now st s).2.
Proof.
  intros Hi Hr Hrev. unfold claim_fresh. destruct (negb _) eqn:Hep; [done|].
  apply negb_false_iff, Z.eqb_eq in Hep.
  destruct (mem_grant_in_epoch g st.(reset_epoch) s).1 as [[h|]|e]; cbn [snd]; [| |done].
  - by apply mem_inv_consume.
  - apply mem_inv_consume. by apply mem_inv_insert_grant.
Qed.

Lemma preserves_claim sid hash g now :
  g.(g_revoked_at) = None → preserves (mem_claim_controller sid hash g now).
Proof.
  intros Hrev s Hi. destruct (inv_ready _ Hi) as [st Hr]. rewrite (mem_claim_run _ _ _ _ _ _ Hr).
  destruct (m_session_controller_ids s !! sid); [done|].
  pose proof (preserves_authorize sid hash now s Hi) as Ha.
  destruct (authorize_loop sid hash now (m_sessions s)) as [[m|] l'] eqn:E.
  - by apply claim_fresh_inv.
  - by rewrite (mem_authorize_run _ _ _ _ _ _ _ Hr E) in Ha.
Qed.

(** The outcomes of [revoke_controller]. *)
Lemma mem_revoke_run cid now s st :
  ready s st → controllers_wf st.(reset_epoch) s.(m_controllers) →
  (∃ e, mem_revoke_controller cid now s = (Raise e, s)) ∨
  ∃ g, (st.(reset_epoch), cid, g) ∈ s.(m_controllers) ∧ g.(controller_id) = cid ∧
    grant_active st.(reset_epoch) g = true ∧
    length (List.filter (grant_active st.(reset_epoch)) s.(m_controllers).*2) ≠ 1 ∧
    mem_revoke_controller cid now s = (Ok (grant_set_revoked (Some now) g),
      set_controllers (dict_set (st.(reset_epoch), cid) (grant_set_revoked (Some now) g) s.(m_controllers)) s).
Proof.
  intros Hr [Hnd Hall]. unfold mem_revoke_controller.
  rewrite (bind_ok _ _ _ _ _ (mem_get_state_run _ _ Hr)), (bind_ok _ _ _ _ _ (mem_list_run _ _ Hr)).
  destruct (next_or_none _ _) as [g|] eqn:En; [|by left; eexists].
  assert (length (List.filter (grant_active (reset_epoch st)) (sort_by grant_le (m_controllers s).*2))
    = length (List.filter (grant_active (reset_epoch st)) (m_controllers s).*2)) as Hlen.
  { apply (count_where_perm _ _ _ (sort_by_perm grant_le (m_controllers s).*2)). }
  rewrite Hlen. mrun. destruct (_ =? 1) eqn:E1; [by left; eexists|]. right. exists g.
  apply next_or_none_Some in En as [Hin Hc%bool_decide_eq_true].
  apply list_elem_of_In, List.filter_In in Hin as [Hin Hact].
  apply list_elem_of_In in Hin. rewrite (sort_by_perm grant_le) in Hin.
  apply list_elem_of_fmap in Hin as ([k g'] & -> & Hin). simpl in *.
  apply Nat.eqb_neq in E1. apply grant_active_spec in Hact as Hact'. destruct Hact' as [_ He].
  destruct (Hall _ _ Hin) as [-> _]. rewrite He, Hc in Hin. split_and!; try done.
Qed.

Lemma mem_revoke_sessions cid now s st :
  ready s st → m_sessions (mem_revoke_controller cid now s).2 = m_sessions s.
Proof.
  intros Hr. unfold mem_revoke_controller.
  rewrite (bind_ok _ _ _ _ _ (mem_get_state_run _ _ Hr)), (bind_ok _ _ _ _ _ (mem_list_run _ _ Hr)).
  cbv zeta. destruct (next_or_none _ _); [|done]. rewrite bind_guard. by destruct (_ =? 1)%nat.
Qed.

Lemma preserves_revoke cid now : preserves (mem_revoke_controller cid now).
Proof.
  intros s Hi. destruct (inv_ready _ Hi) as [st Hr].
  pose proof (inv_controllers _ Hi st (proj2 Hr)) as Hwf.
  destruct (mem_revoke_run cid now s st Hr Hwf) as [[e ->]|(g & Hin & Hc & Hact & Hlen & ->)]; [done|].
  simpl. apply grant_active_spec in Hact as Hact'. destruct Hact' as [_ He].
  pose proof (inv_claim _ Hi st (proj2 Hr)) as Hcl. destruct Hr as [Ho Hst].
  constructor; simpl; [done|by rewrite Hst|by apply inv_window| |].
  - intros st' Hst'. simplify_eq. by apply controllers_wf_set.
  - intros st' Hst'. simplify_eq. rewrite Hcl. split; intros _; [by apply other_active|].
    eexists _, g. done.
Qed.

Lemma preserves_reset ns now seed : preserves (mem_reset_authority ns now seed).
Proof.
  intros s Hi. destruct (inv_ready _ Hi) as [st Hr].
  pose proof (inv_controllers _ Hi st (proj2 Hr)) as [Hnd Hall]. open_store s Hr. simpl in *.
  assert (mem_inv (mkMemory true (Some (mkBootstrapState (reset_epoch st + 1) UNCLAIMED ns now))
    (revoke_unspent now ss) ids (revoke_grants now cs) (fail_active now "authority_reset" ops))) as H.
  { constructor; simpl; [done|by eauto|by rewrite revoke_unspent_count; lia| |].
    - intros ? [= <-]. simpl. split; [by rewrite revoke_grants_fst|].
      intros k g (g0 & Hin & Hr & He & Hc)%elem_of_revoke_grants.
      destruct (Hall _ _ Hin) as (-> & Hle & _). rewrite He, Hc. split_and!; [done|lia|done].
    - intros ? [= <-]. simpl. split; [done|]. intros (k & g & Hin & Ha).
      apply elem_of_revoke_grants in Hin as (g0 & _ & Hr & _).
      apply grant_active_spec in Ha as [? _]. done. }
  unfold mem_reset_authority, mem_get_state, mem_require_open. mrun.
  destruct seed as [seed|]; simpl; [|done].
  refine (mem_inv_sessions _ _ H _). rewrite count_where_app, revoke_unspent_count. done.
Qed.

Lemma mem_issue_run sid h t e s st :
  ready s st → mem_issue_commissioning_session sid h t e s =
    (Ok tt, set_sessions (revoke_unspent t s.(m_sessions) ++ [(new_session sid t e, h)]) s).
Proof. intros Hr. open_store s Hr. reflexivity. Qed.

Lemma mem_create_run o s st :
  ready s st → mem_create_operation o s =
  match dict_get o.(operation_id) s.(m_operations) with
  | Some cur => (if same_operation cur o then Ok cur
                 else Raise (BootstrapStateConflict "operation_id is already in use"), s)
  | None =>
      if negb (o.(o_reset_epoch) =? st.(reset_epoch))%Z
      then (Raise (BootstrapStateConflict "operation reset epoch does not match host"), s)
      else if existsb (λ kv, active_state kv.2.(o_state)) s.(m_operations)
      then (Raise (BootstrapStateConflict "another bootstrap operation is active"), s)
      else (Ok o, set_operations (dict_set o.(operation_id) o s.(m_operations)) s)
  end.
Proof.
  intros Hr. unfold mem_create_operation.
  rewrite (bind_ok _ _ _ _ _ (mem_require_open_run _ _ Hr)). mnorm.
  destruct (dict_get _ _) as [cur|]; [by destruct (same_operation cur o)|].
  rewrite (bind_ok _ _ _ _ _ (mem_get_state_run _ _ Hr)). mnorm.
  destruct (negb _); [done|]. mnorm. by destruct (existsb _ _).
Qed.

Lemma mem_update_run oid os ns t err s st :
  ready s st → mem_update_operation oid os ns t err s =
  match dict_get oid s.(m_operations) with
  | None => (Raise (BootstrapStateConflict "bootstrap operation does not exist"), s)
  | Some cur =>
      (Ok (operation_set os t err cur),
       set_state (Some (state_set_network ns t st))
         (set_operations (dict_set oid (operation_set os t err cur) s.(m_operations)) s))
  end.
Proof.
  intros Hr. unfold mem_update_operation.
  rewrite (bind_ok _ _ _ _ _ (mem_require_open_run _ _ Hr)). mnorm.
  destruct (dict_get _ _) as [cur|]; [|done]. mnorm. open_store s Hr. reflexivity.
Qed.

Lemma mem_fail_run t s st :
  ready s st → mem_fail_interrupted_operations t s =
  let n := count_where (λ kv, active_state kv.2.(o_state)) s.(m_operations) in
  (Ok n,
   (if (n =? 0)%nat then id else set_state (Some (state_set_network DEGRADED t st)))
     (set_operations (fail_active t "daemon_restarted" s.(m_operations)) s)).
Proof.
  intros Hr. unfold mem_fail_interrupted_operations.
  rewrite (bind_ok _ _ _ _ _ (mem_require_open_run _ _ Hr)). mnorm. cbv zeta.
  destruct (_ =? 0)%nat eqn:E; mnorm.
  - apply Nat.eqb_eq in E. by rewrite E.
  - open_store s Hr. reflexivity.
Qed.

Lemma mem_reconcile_run ns t s st :
  ready s st → mem_reconcile_network_state ns t s =
  if transitional ns
  then (Raise (BootstrapStateConflict "cannot reconcile an active network transition at startup"), s)
  else (Ok tt, set_state (Some (state_set_network ns t st)) s).
Proof.
  intros Hr. unfold mem_reconcile_network_state.
  rewrite (bind_ok _ _ _ _ _ (mem_require_open_run _ _ Hr)). mnorm.
  destruct (transitional ns); [done|]. mnorm. open_store s Hr. reflexivity.
Qed.

Lemma mem_reset_run ns t seed s st :
  ready s st → mem_reset_authority ns t seed s =
  let st' := mkBootstrapState (st.(reset_epoch) + 1) UNCLAIMED ns t in
  (Ok st', mkMemory true (Some st')
    (revoke_unspent t s.(m_sessions) ++
      match seed with
      | Some sd => [(new_session sd.(seed_session_id) t sd.(seed_expires_at), sd.(seed_secret_hash))]
      | None => []
      end)
    s.(m_session_controller_ids) (revoke_grants t s.(m_controllers))
    (fail_active t "authority_reset" s.(m_operations))).
Proof.
  intros Hr. open_store s Hr. destruct seed as [sd|]; [done|].
  unfold mem_reset_authority. cbv zeta. simpl. by rewrite app_nil_r.
Qed.

Lemma preserves_call c : call_grants_unrevoked c → preserves (run_call c).
Proof.
  intros Hc s Hi. destruct (inv_ready _ Hi) as [st Hr]. pose proof (proj2 Hr) as Hst.
  destruct c; simpl in *; unfold mbind, M_bind, mret, M_ret.
  - rewrite (mem_issue_run _ _ _ _ _ _ Hr). refine (mem_inv_sessions _ _ Hi _).
    rewrite count_where_app, revoke_unspent_count. done.
  - pose proof (preserves_authorize sid hash now s Hi).
    by destruct (mem_authorize_commissioning_session _ _ _ _) as [[] ?].
  - pose proof (preserves_claim sid hash g now Hc s Hi).
    by destruct (mem_claim_controller _ _ _ _ _) as [[] ?].
  - pose proof (preserves_revoke cid now s Hi). by destruct (mem_revoke_controller _ _ _) as [[] ?].
  - rewrite (mem_create_run _ _ _ Hr). repeat case_match; simplify_eq; try done;
      by apply mem_inv_operations.
  - rewrite (mem_update_run _ _ _ _ _ _ _ Hr). destruct (dict_get _ _) as [cur|]; [|done].
    pose proof (mem_inv_network _ ns now (mem_inv_operations _
      (dict_set oid (operation_set st0 now err cur) s.(m_operations)) Hi)) as H.
    simpl in H. by rewrite Hst in H.
  - rewrite (mem_fail_run _ _ _ Hr). cbv zeta. destruct (_ =? 0)%nat.
    + by apply mem_inv_operations.
    + pose proof (mem_inv_network _ DEGRADED now (mem_inv_operations _
        (fail_active now "daemon_restarted" s.(m_operations)) Hi)) as H.
      simpl in H. by rewrite Hst in H.
  - rewrite (mem_reconcile_run _ _ _ _ Hr). destruct (transitional ns); [done|].
    pose proof (mem_inv_network _ ns now Hi) as H. by rewrite Hst in H.
  - pose proof (preserves_reset ns now seed s Hi). by destruct (mem_reset_authority _ _ _ _) as [[] ?].
Qed.

Lemma run_calls_preserve cs s :
  Forall call_grants_unrevoked cs → mem_inv s → mem_inv (run_calls cs s).2.
Proof.
  intros Hcs. revert s. induction Hcs as [|c cs Hc Hcs IH]; intros s Hi; [done|]. simpl.
  pose proof (preserves_call c Hc s Hi) as Hi1. destruct (run_call c s) as [r s1]. simpl in Hi1.
  specialize (IH s1 Hi1). by destruct (run_calls cs s1).
Qed.

(** A freshly initialized adapter. *)
Definition mem_start (now : string) : MemoryStore := (mem_initialize now (mem_open mem_init).2).2.

Lemma mem_start_inv now : mem_inv (mem_start now).
Proof.
  constructor; simpl; [done|by eauto|unfold count_where; simpl; lia| |].
  - intros ? [= <-]. split; [constructor|]. intros k g H. by apply not_elem_of_nil in H.
  - intros ? [= <-]. simpl. split; [done|]. intros (k & g & H & _). by apply not_elem_of_nil in H.
Qed.

(** *** Lemmas for the properties *)

Lemma authorize_loop_at sid hash now l1 m h l2 :
  Forall (λ p, (p : CommissioningSessionMetadata * string).1.(session_id) ≠ sid) l1 →
  m.(session_id) = sid → is_open m now = true →
  authorize_loop sid hash now (l1 ++ (m, h) :: l2) =
    if bool_decide (h = hash) then (Some m, l1 ++ (m, h) :: l2)
    else (None, l1 ++ (session_set_failed (m.(failed_attempts) + 1) m, h) :: l2).
Proof.
  intros Hl1 Hid Ho. induction Hl1 as [|[m1 h1] l1 Hne Hl1 IH]; simpl.
  - rewrite bool_decide_eq_true_2 by done. rewrite Ho. done.
  - simpl in Hne. rewrite bool_decide_eq_false_2 by done. simpl. rewrite IH. by case_bool_decide.
Qed.

(** A session that nothing unspent matches is never authorized. *)
Lemma authorize_loop_spent sid hash now l :
  (∀ m h, (m, h) ∈ l → m.(session_id) = sid → is_open m now = false) →
  (authorize_loop sid hash now l).1 = None.
Proof.
  intros H. destruct (authorize_loop sid hash now l) as [[m|] l'] eqn:E; [|done].
  destruct (authorize_loop_some _ _ _ _ _ _ E) as (_ & Hin & Hid & Ho).
  rewrite (H _ _ Hin Hid) in Ho. done.
Qed.

Lemma revoke_unspent_closed t l m h now : (m, h) ∈ revoke_unspent t l → is_open m now = false.
Proof.
  unfold revoke_unspent. intros ([m0 h0] & [= -> ->] & _)%list_elem_of_fmap.
  apply not_true_iff_false. intros Ho%is_open_unspent. destruct (unspent m0) eqn:E.
  - by rewrite unspent_revoked in Ho.
  - congruence.
Qed.

Lemma fail_active_inactive now reason ops : Forall (λ kv, active_state kv.2.(o_state) = false) (fail_active now reason ops).
Proof.
  unfold fail_active. apply Forall_fmap. apply Forall_true. intros [k o]. simpl.
  destruct (active_state (o_state o)) eqn:E; [done|]. done.
Qed.

(** [run_calls] over a run of wrong codes. *)
Definition guesses (sid : string) (l : list (string * string)) : list store_call :=
  (λ '(h, t), CAuthorize sid h t) <$> l.

Lemma run_guesses sid l1 m h l2 gs s st :
  ready s st → s.(m_sessions) = l1 ++ (m, h) :: l2 →
  Forall (λ p, (p : CommissioningSessionMetadata * string).1.(session_id) ≠ sid) l1 →
  m.(session_id) = sid →
  Forall (λ '(h', t), h' ≠ h ∧ is_open m t = true) gs →
  run_calls (guesses sid gs) s =
    ((λ _, Raise unavailable) <$> gs,
     set_sessions (l1 ++ (session_set_failed (m.(failed_attempts) + Z.of_nat (length gs)) m, h) :: l2) s).
Proof.
  intros Hr Hs Hl1 Hid Hgs. revert s m Hr Hs Hid Hgs.
  induction gs as [|[h' t] gs IH]; intros s m Hr Hs Hid Hgs; simpl.
  - f_equal. destruct s. simpl in *. subst. f_equal. f_equal. destruct m. simpl.
    unfold session_set_failed. simpl. by rewrite Z.add_0_r.
  - apply Forall_cons in Hgs as [[Hne Ho] Hgs].
    assert (authorize_loop sid h' t (m_sessions s) =
      (None, l1 ++ (session_set_failed (failed_attempts m + 1) m, h) :: l2)) as E.
    { rewrite Hs, (authorize_loop_at _ _ _ _ _ _ _ Hl1 Hid Ho). by rewrite bool_decide_eq_false_2. }
    unfold mbind, M_bind. rewrite (mem_authorize_run _ _ _ _ _ _ _ Hr E).
    rewrite (IH (set_sessions (l1 ++ (session_set_failed (failed_attempts m + 1) m, h) :: l2) s)
      (session_set_failed (failed_attempts m + 1) m)); try done.
    simpl. f_equal. unfold set_sessions. simpl. do 4 f_equal.
    unfold session_set_failed. simpl. f_equal. lia.
Qed.

(** ** Properties *)

(** C1: over every history of calls on the adapter, refused calls included, at
    most one setup window is unspent, the Host says [claimed] exactly when some
    Grant of its current reset epoch is unrevoked, and every Grant of an
    earlier epoch is revoked. *)
Theorem memory_authority_invariant now calls :
  Forall call_grants_unrevoked calls →
  let s := (run_calls calls (mem_start now)).2 in
  ∃ st, ready s st ∧
    count_where p_unspent s.(m_sessions) ≤ 1 ∧
    (st.(claim_state) = CLAIMED ↔
      ∃ k g, (k, g) ∈ s.(m_controllers) ∧ g.(g_revoked_at) = None ∧
             g.(g_reset_epoch) = st.(reset_epoch)) ∧
    (∀ k g, (k, g) ∈ s.(m_controllers) → g.(g_reset_epoch) ≠ st.(reset_epoch) →
      g.(g_revoked_at) ≠ None).
Proof.
  intros Hc s. pose proof (run_calls_preserve calls _ Hc (mem_start_inv now)) as Hi. fold s in Hi.
  destruct (inv_ready _ Hi) as [st Hr]. exists st. split; [done|]. split; [by apply inv_window|].
  pose proof (inv_claim _ Hi st (proj2 Hr)) as Hcl.
  pose proof (inv_controllers _ Hi st (proj2 Hr)) as [_ Hall]. split.
  - rewrite Hcl. unfold some_active. setoid_rewrite grant_active_spec. naive_solver.
  - intros k g Hin. by apply (Hall k g Hin).
Qed.

Definition sample_grant : ControllerGrant :=
  mkGrant "ectrl-0" "key" "sha256:0" HOST_ADMIN "phone" "ios" 0 "t1" None.

Lemma memory_authority_invariant_witness :
  let s := (run_calls [CIssue "s" "h" "t0" None; CClaim "s" "h" sample_grant "t1"] (mem_start "t")).2 in
  ∃ st, ready s st ∧
    count_where p_unspent s.(m_sessions) ≤ 1 ∧
    (st.(claim_state) = CLAIMED ↔
      ∃ k g, (k, g) ∈ s.(m_controllers) ∧ g.(g_revoked_at) = None ∧
             g.(g_reset_epoch) = st.(reset_epoch)) ∧
    (∀ k g, (k, g) ∈ s.(m_controllers) → g.(g_reset_epoch) ≠ st.(reset_epoch) →
      g.(g_revoked_at) ≠ None).
Proof. apply memory_authority_invariant. repeat constructor. Defined.

(** Wrong codes never close a window.  However many wrong codes are
    presented to an open session, each is refused, and the session then still
    accepts the right code; the attempts are only counted. *)
Theorem wrong_codes_never_close_window sid l1 m h l2 guessed t s st :
  ready s st → s.(m_sessions) = l1 ++ (m, h) :: l2 →
  Forall (λ p, (p : CommissioningSessionMetadata * string).1.(session_id) ≠ sid) l1 →
  m.(session_id) = sid →
  Forall (λ '(h', t'), h' ≠ h ∧ is_open m t' = true) guessed → is_open m t = true →
  let '(replies, s') := run_calls (guesses sid guessed) s in
  replies = (λ _, Raise unavailable) <$> guessed ∧
  mem_authorize_commissioning_session sid h t s' =
    (Ok (session_set_failed (m.(failed_attempts) + Z.of_nat (length guessed)) m), s').
Proof.
  intros Hr Hs Hl1 Hid Hg Ho. rewrite (run_guesses _ _ _ _ _ _ _ _ Hr Hs Hl1 Hid Hg).
  split; [done|]. set (m' := session_set_failed _ m).
  rewrite (mem_authorize_run sid h t (set_sessions (l1 ++ (m', h) :: l2) s) st (Some m') (l1 ++ (m', h) :: l2)).
  - done.
  - by destruct Hr.
  - simpl. rewrite authorize_loop_at by done. by rewrite bool_decide_eq_true_2.
Qed.

Lemma wrong_codes_never_close_window_witness :
  let s := (run_calls [CIssue "s" "h" "t0" None] (mem_start "t")).2 in
  let '(replies, s') := run_calls (guesses "s" (replicate 6 ("bad", "t1"))) s in
  replies = (λ _, Raise unavailable) <$> replicate 6 ("bad", "t1") ∧
  mem_authorize_commissioning_session "s" "h" "t2" s' =
    (Ok (session_set_failed 6 (new_session "s" "t0" None)), s').
Proof.
  apply (wrong_codes_never_close_window "s" [] (new_session "s" "t0" None) "h" []
    (replicate 6 ("bad", "t1")) "t2" _ (mkBootstrapState 0 UNCLAIMED UNCONFIGURED "t"));
    try done; repeat constructor; try done.
Defined.

(** After a reset only the recovery seed, if any, authorizes a code. *)
Lemma reset_only_seed ns now seed s st s' sid hash t m s'' :
  s' = mkMemory true (Some (mkBootstrapState (st.(reset_epoch) + 1) UNCLAIMED ns now))
    (revoke_unspent now s.(m_sessions) ++
      match seed with
      | Some sd => [(new_session sd.(seed_session_id) now sd.(seed_expires_at), sd.(seed_secret_hash))]
      | None => []
      end)
    s.(m_session_controller_ids) (revoke_grants now s.(m_controllers))
    (fail_active now "authority_reset" s.(m_operations)) →
  mem_authorize_commissioning_session sid hash t s' = (Ok m, s'') →
  ∃ sd, seed = Some sd ∧ sid = sd.(seed_session_id) ∧ hash = sd.(seed_secret_hash) ∧
        (∀ e, sd.(seed_expires_at) = Some e → str_ltb t e = true).
Proof.
  intros -> Ha. set (s1 := mkMemory _ _ _ _ _ _) in Ha.
  destruct (authorize_loop sid hash t (m_sessions s1)) as [r l'] eqn:E.
  rewrite (mem_authorize_run _ _ _ s1 _ _ _ (conj eq_refl eq_refl) E) in Ha.
  destruct r as [m'|]; [|done].
  destruct (authorize_loop_some _ _ _ _ _ _ E) as (_ & Hin & Hid & Ho). simpl in Hin.
  apply elem_of_app in Hin as [Hin|Hin].
  { by rewrite (revoke_unspent_closed _ _ _ _ _ Hin) in Ho. }
  destruct seed as [sd|]; [|by apply not_elem_of_nil in Hin].
  apply list_elem_of_singleton in Hin as [= -> ->]. exists sd.
  apply is_open_spec in Ho as (_ & _ & He). split_and!; done.
Qed.

(** [reset_authority] withdraws everything at once.  It advances the epoch
    by one; afterwards no Controller answers in the new epoch, every Grant ever
    issued is revoked, no network operation is left unfinished, and no session
    issued before authorizes any code; the recovery window passed with it, if
    any, is the one way in. *)
Theorem reset_authority_withdraws ns now seed s st :
  mem_inv s → ready s st →
  let '(r, s') := mem_reset_authority ns now seed s in
  r = Ok (mkBootstrapState (st.(reset_epoch) + 1) UNCLAIMED ns now) ∧
  (∀ cid, mem_get_controller cid s' = (Ok None, s')) ∧
  (∀ k g, (k, g) ∈ s'.(m_controllers) → g.(g_revoked_at) ≠ None) ∧
  (∀ k o, (k, o) ∈ s'.(m_operations) → active_state o.(o_state) = false) ∧
  (∀ sid hash t m s'', mem_authorize_commissioning_session sid hash t s' = (Ok m, s'') →
    ∃ sd, seed = Some sd ∧ sid = sd.(seed_session_id) ∧ hash = sd.(seed_secret_hash) ∧
          (∀ e, sd.(seed_expires_at) = Some e → str_ltb t e = true)).
Proof.
  intros Hi Hr. pose proof (inv_controllers _ Hi st (proj2 Hr)) as [Hnd Hall].
  rewrite (mem_reset_run _ _ _ _ _ Hr). cbv zeta. split_and!; [done| | | |].
  - intros cid.
    assert (dict_get ((reset_epoch st + 1)%Z, cid) (revoke_grants now (m_controllers s)) = None) as E.
    { apply dict_get_None. rewrite revoke_grants_fst. intros ([k g] & Hk & Hin)%list_elem_of_fmap.
      destruct (Hall _ _ Hin) as (-> & Hle & _). injection Hk. lia. }
    erewrite mem_get_controller_run by (split; reflexivity).
    cbn [reset_epoch m_controllers]. by rewrite E.
  - intros k g (g0 & _ & ? & _)%elem_of_revoke_grants. done.
  - intros k o Hin. pose proof (fail_active_inactive now "authority_reset" (m_operations s)) as H.
    rewrite Forall_forall in H. by apply (H (k, o)).
  - intros sid hash t m s''. exact (reset_only_seed ns now seed s st _ sid hash t m s'' eq_refl).
Qed.

Lemma reset_authority_withdraws_witness :
  let s := (run_calls [CIssue "s" "h" "t0" None; CClaim "s" "h" sample_grant "t1"] (mem_start "t")).2 in
  let '(r, s') := mem_reset_authority CONNECTED "t9" (Some (mkSeed "rec" "rh" (Some "u"))) s in
  r = Ok (mkBootstrapState 1 UNCLAIMED CONNECTED "t9") ∧
  (∀ cid, mem_get_controller cid s' = (Ok None, s')) ∧
  (∀ k g, (k, g) ∈ s'.(m_controllers) → g.(g_revoked_at) ≠ None) ∧
  (∀ k o, (k, o) ∈ s'.(m_operations) → active_state o.(o_state) = false) ∧
  (∀ sid hash t m s'', mem_authorize_commissioning_session sid hash t s' = (Ok m, s'') →
    ∃ sd, Some (mkSeed "rec" "rh" (Some "u")) = Some sd ∧ sid = sd.(seed_session_id) ∧
          hash = sd.(seed_secret_hash) ∧
          (∀ e, sd.(seed_expires_at) = Some e → str_ltb t e = true)).
Proof.
  apply (reset_authority_withdraws CONNECTED "t9" (Some (mkSeed "rec" "rh" (Some "u"))) _
    (mkBootstrapState 0 CLAIMED UNCONFIGURED "t1")).
  - apply run_calls_preserve; [repeat constructor|apply mem_start_inv].
  - split; reflexivity.
Defined.

(** [revoke_controller] withdraws exactly one Grant and never the last.
    It succeeds if and only if the target is active in this epoch and is not
    the only active Controller; on success that Grant is revoked, every other
    is untouched and the Host still has an active Controller; a refusal
    changes nothing. *)
Theorem revoke_controller_correct cid now s st :
  mem_inv s → ready s st →
  let '(r, s') := mem_revoke_controller cid now s in
  let active := List.filter (grant_active st.(reset_epoch)) s.(m_controllers).*2 in
  ((∃ g, r = Ok g) ↔
    (∃ g, (st.(reset_epoch), cid, g) ∈ s.(m_controllers) ∧ g.(g_revoked_at) = None) ∧
    2 ≤ length active) ∧
  (∀ g, r = Ok g →
    dict_get (st.(reset_epoch), cid) s'.(m_controllers) = Some g ∧ g.(g_revoked_at) = Some now ∧
    (∀ k, k ≠ (st.(reset_epoch), cid) → dict_get k s'.(m_controllers) = dict_get k s.(m_controllers)) ∧
    some_active st.(reset_epoch) s'.(m_controllers)) ∧
  (∀ e, r = Raise e → s' = s).
Proof.
  intros Hi Hr. pose proof (inv_controllers _ Hi st (proj2 Hr)) as Hwf.
  destruct (mem_revoke_run cid now s st Hr Hwf) as [[e He]|(g & Hin & Hc & Hact & Hlen & ->)].
  - rewrite He. split_and!; [|done|done]. split; [by intros [? ?]|].
    intros [(g & Hin & Hrev) Hlen]. exfalso. revert He. unfold mem_revoke_controller.
    rewrite (bind_ok _ _ _ _ _ (mem_get_state_run _ _ Hr)), (bind_ok _ _ _ _ _ (mem_list_run _ _ Hr)).
    rewrite <- (filter_perm _ _ _ (sort_by_perm grant_le (m_controllers s).*2)) in Hlen.
    destruct (proj2 Hwf _ _ Hin) as ([= He Hcid] & _).
    destruct (next_or_none _ _) as [g'|] eqn:En.
    + mnorm. destruct (Nat.eqb_spec (length (List.filter (grant_active (reset_epoch st))
        (sort_by grant_le (m_controllers s).*2))) 1); [lia|done].
    + intros _. eapply next_or_none_None in En.
      * rewrite <- Hcid in En. by rewrite bool_decide_eq_true_2 in En.
      * apply list_elem_of_In, List.filter_In. split.
        -- apply list_elem_of_In. rewrite (sort_by_perm grant_le). apply list_elem_of_fmap.
           exists (st.(reset_epoch), cid, g). done.
        -- apply grant_active_spec. done.
  - cbn [fst snd]. apply grant_active_spec in Hact as Hact'. destruct Hact' as [Hrev Hep].
    split_and!; [| |done].
    + split; [intros _|by eauto]. split; [by eauto|].
      assert (g ∈ List.filter (grant_active (reset_epoch st)) (m_controllers s).*2) as Hg.
      { apply list_elem_of_In, List.filter_In. split; [|done]. apply list_elem_of_In.
        apply list_elem_of_fmap. exists (st.(reset_epoch), cid, g). done. }
      destruct (List.filter _ _) as [|? [|]]; simpl in *; [by apply not_elem_of_nil in Hg|lia|lia].
    + intros g' [= <-]. simpl. split_and!; [|done| |by apply other_active].
      * rewrite dict_get_set. by rewrite bool_decide_eq_true_2.
      * intros k Hk. rewrite dict_get_set. by rewrite bool_decide_eq_false_2.
Qed.

Definition second_grant : ControllerGrant :=
  mkGrant "ectrl-1" "key1" "sha256:1" HOST_ADMIN "tablet" "android" 0 "t3" None.
Definition two_controllers : MemoryStore :=
  (run_calls [CIssue "s" "h" "t0" None; CClaim "s" "h" sample_grant "t1";
              CIssue "s2" "h2" "t2" None; CClaim "s2" "h2" second_grant "t3"] (mem_start "t")).2.

Lemma revoke_controller_correct_witness :
  let '(r, s') := mem_revoke_controller "ectrl-1" "t4" two_controllers in
  let active := List.filter (grant_active 0) two_controllers.(m_controllers).*2 in
  ((∃ g, r = Ok g) ↔
    (∃ g, (0%Z, "ectrl-1", g) ∈ two_controllers.(m_controllers) ∧ g.(g_revoked_at) = None) ∧
    2 ≤ length active) ∧
  (∀ g, r = Ok g →
    dict_get (0%Z, "ectrl-1") s'.(m_controllers) = Some g ∧ g.(g_revoked_at) = Some "t4" ∧
    (∀ k, k ≠ (0%Z, "ectrl-1") → dict_get k s'.(m_controllers) = dict_get k two_controllers.(m_controllers)) ∧
    some_active 0 s'.(m_controllers)) ∧
  (∀ e, r = Raise e → s' = two_controllers).
Proof.
  apply (revoke_controller_correct "ectrl-1" "t4" two_controllers (mkBootstrapState 0 CLAIMED UNCONFIGURED "t3")).
  - apply run_calls_preserve; [repeat constructor|apply mem_start_inv].
  - split; reflexivity.
Defined.

(** What a first claim through a session leaves behind. *)
Lemma claim_first_spec sid hash g now s st g' s1 :
  mem_inv s → ready s st → g.(g_revoked_at) = None →
  s.(m_session_controller_ids) !! sid = None →
  mem_claim_controller sid hash g now s = (Ok g', s1) →
  (∃ st1, ready s1 st1 ∧ st1.(reset_epoch) = st.(reset_epoch)) ∧
  s1.(m_session_controller_ids) !! sid = Some g'.(controller_id) ∧
  dict_get (st.(reset_epoch), g'.(controller_id)) s1.(m_controllers) = Some g' ∧
  g'.(g_revoked_at) = None ∧ g'.(public_key) = g.(public_key) ∧
  (∃ m, (session_set_consumed now m, hash) ∈ s1.(m_sessions) ∧ m.(session_id) = sid) ∧
  (∀ m h, (m, h) ∈ s1.(m_sessions) → m.(session_id) = sid → m.(s_consumed_at) ≠ None).
Proof.
  intros Hi Hr Hrev Hids. rewrite (mem_claim_run _ _ _ _ _ _ Hr), Hids.
  pose proof (inv_controllers _ Hi st (proj2 Hr)) as Hwf.
  destruct (authorize_loop sid hash now (m_sessions s)) as [[m|] l'] eqn:E; [|done].
  destruct (authorize_loop_some _ _ _ _ _ _ E) as (_ & Hin & Hid & _). unfold claim_fresh.
  destruct (negb _) eqn:Hep; [done|]. apply negb_false_iff, Z.eqb_eq in Hep.
  set (f := consume_row sid now).
  assert (∃ m0, (session_set_consumed now m0, hash) ∈ f <$> m_sessions s ∧ session_id m0 = sid) as Hex.
  { exists m. split; [|done]. apply list_elem_of_fmap. exists (m, hash). split; [|done].
    unfold f, consume_row. simpl. by rewrite bool_decide_eq_true_2. }
  assert (∀ m0 h, (m0, h) ∈ f <$> m_sessions s → session_id m0 = sid → s_consumed_at m0 ≠ None) as Hall.
  { intros m0 h ([m1 h1] & [= -> ->] & _)%list_elem_of_fmap. by case_bool_decide. }
  destruct (mem_grant_in_epoch g st.(reset_epoch) s) as [[[held|]|e] s2] eqn:Eh; cbn [fst snd];
    [| |done]; intros [= <- <-]; simpl.
  - destruct (mem_grant_in_epoch_some _ _ _ _ _ Hwf Eh) as (Hh1 & Hh2 & Hh3 & Hh4).
    split_and!; try done; [by exists st|by rewrite lookup_insert_eq|].
    apply dict_get_Some; [by destruct Hwf|done].
  - split_and!; try done.
    + eexists (state_set_claim CLAIMED now st). split; [by split|done].
    + by rewrite lookup_insert_eq.
    + rewrite dict_get_set. by rewrite bool_decide_eq_true_2.
Qed.

(** C2: a window admits one Controller, once, and the phone that lost the reply
    may ask again.  After a first successful claim the session authorizes no
    code at any time, a claim of it under any other Controller id is refused
    without effect, and the same claim repeated returns the same Grant without
    changing anything. *)
Theorem claim_is_one_time sid hash g now s st g' s1 :
  mem_inv s → ready s st → g.(g_revoked_at) = None →
  s.(m_session_controller_ids) !! sid = None →
  mem_claim_controller sid hash g now s = (Ok g', s1) →
  g'.(controller_id) = g.(controller_id) → str_leb g'.(g_created_at) now = true →
  (∀ h t, (mem_authorize_commissioning_session sid h t s1).1 = Raise unavailable) ∧
  (∀ h g2 t, g2.(controller_id) ≠ g'.(controller_id) →
    mem_claim_controller sid h g2 t s1 = (Raise unavailable, s1)) ∧
  (∀ t, mem_claim_controller sid hash g t s1 = (Ok g', s1)).
Proof.
  intros Hi Hr Hrev Hids Hcl Hcid Hle.
  destruct (claim_first_spec _ _ _ _ _ _ _ _ Hi Hr Hrev Hids Hcl)
    as ((st1 & Hr1 & He) & Hid1 & Hget & Hr' & Hpk & (m & Hm & Hmid) & Hall).
  rewrite <- He in Hget. split_and!.
  - intros h t. destruct (authorize_loop sid h t (m_sessions s1)) as [r l'] eqn:E.
    rewrite (mem_authorize_run _ _ _ _ _ _ _ Hr1 E).
    pose proof (authorize_loop_spent sid h t (m_sessions s1)) as Hsp. rewrite E in Hsp.
    simpl in Hsp. rewrite Hsp; [done|]. intros m0 h0 Hin Hid0.
    apply not_true_iff_false. rewrite is_open_spec. intros [Hc _]. by apply (Hall m0 h0).
  - intros h g2 t Hne. rewrite (mem_claim_run _ _ _ _ _ _ Hr1), Hid1, Hget.
    unfold claim_replay_ok. by rewrite bool_decide_eq_false_2.
  - intros t. rewrite (mem_claim_run _ _ _ _ _ _ Hr1), Hid1, Hget.
    unfold claim_replay_ok. rewrite !bool_decide_eq_true_2 by done. simpl.
    replace (existsb _ (m_sessions s1)) with true; [done|]. symmetry. apply existsb_elem.
    exists (session_set_consumed now m, hash). split; [done|]. simpl.
    by rewrite !bool_decide_eq_true_2.
Qed.

Definition one_window : MemoryStore := (run_calls [CIssue "s" "h" "t0" None] (mem_start "t")).2.
Definition one_claimed : MemoryStore := (mem_claim_controller "s" "h" sample_grant "t1" one_window).2.

Lemma claim_is_one_time_witness :
  (∀ h t, (mem_authorize_commissioning_session "s" h t one_claimed).1 = Raise unavailable) ∧
  (∀ h g2 t, g2.(controller_id) ≠ "ectrl-0" →
    mem_claim_controller "s" h g2 t one_claimed = (Raise unavailable, one_claimed)) ∧
  (∀ t, mem_claim_controller "s" "h" sample_grant t one_claimed = (Ok sample_grant, one_claimed)).
Proof.
  apply (claim_is_one_time "s" "h" sample_grant "t1" one_window
    (mkBootstrapState 0 UNCLAIMED UNCONFIGURED "t") sample_grant one_claimed); try reflexivity.
  - apply run_calls_preserve; [repeat constructor|apply mem_start_inv].
  - split; reflexivity.
Defined.
