(* ===== verification/SqliteStore.v ===== *)
(** * The SQLite state adapter

    [bootstrap/adapters/persistence/sqlite.py], statement by statement.  A
    table is its rows in rowid order (nothing is ever deleted), with enum
    columns as the text SQLite stores.  The connection keeps what is committed
    apart from what the open transaction has written, because [with
    self.connection] commits or rolls back everything written so far, nested
    blocks included. *)

From S2P Require Import Prelude Domain StateStore MemoryStore.

(** ** Rows *)

Record state_row := mkStateRow {
  st_reset_epoch : Z; st_claim_state : string; st_network_state : string; st_updated_at : string }.

Record session_row := mkSessionRow {
  sr_session_id : string; sr_secret_hash : string; sr_created_at : string;
  sr_expires_at : option string; sr_consumed_at : option string; sr_revoked_at : option string;
  sr_claimed_controller_id : option string; sr_failed_attempts : Z }.

Record grant_row := mkGrantRow {
  gr_controller_id : string; gr_public_key : string; gr_public_key_fingerprint : string;
  gr_role : string; gr_display_name : string; gr_platform : string; gr_reset_epoch : Z;
  gr_created_at : string; gr_revoked_at : option string }.

Record operation_row := mkOperationRow {
  or_operation_id : string; or_operation_type : string; or_state : string; or_target : string;
  or_reset_epoch : Z; or_created_at : string; or_updated_at : string; or_error_code : option string }.

(** [PRAGMA user_version] of the file: never initialized, at the current
    schema, or written by a newer release.  Files at versions 1 to 9 are
    brought to [CurrentSchema] by the ladder of SqliteSchema.v. *)
Inductive file_version := FreshFile | CurrentSchema | NewerSchema (v : Z).

Record db := mkDb {
  user_version : file_version;
  t_state : option state_row;
  t_sessions : list session_row;
  t_grants : list grant_row;
  t_operations : list operation_row }.

Record SqliteStore := mkSqlite { sq_connected : bool; sq_committed : db; sq_working : db }.

Definition set_t_state (x : option state_row) (d : db) :=
  mkDb d.(user_version) x d.(t_sessions) d.(t_grants) d.(t_operations).
Definition set_t_sessions (x : list session_row) (d : db) :=
  mkDb d.(user_version) d.(t_state) x d.(t_grants) d.(t_operations).
Definition set_t_grants (x : list grant_row) (d : db) :=
  mkDb d.(user_version) d.(t_state) d.(t_sessions) x d.(t_operations).
Definition set_t_operations (x : list operation_row) (d : db) :=
  mkDb d.(user_version) d.(t_state) d.(t_sessions) d.(t_grants) x.

(** ** The connection *)

Definition not_open : exn := SQLiteBootstrapStoreError "bootstrap store is not open".

(** A SELECT: the [connection] property, then a read of what is visible. *)
Definition sql_query {A} (f : db → A) : M SqliteStore A := λ s,
  if s.(sq_connected) then (Ok (f s.(sq_working)), s) else (Raise not_open, s).

(** An INSERT or UPDATE inside the open transaction. *)
Definition sql_execute (f : db → result db) : M SqliteStore unit := λ s,
  if s.(sq_connected) then
    match f s.(sq_working) with
    | Ok d => (Ok tt, mkSqlite true s.(sq_committed) d)
    | Raise e => (Raise e, s)
    end
  else (Raise not_open, s).

Definition sql_update (f : db → db) : M SqliteStore unit := sql_execute (λ d, Ok (f d)).

(** [with self.connection: c] *)
Definition with_connection {A} (c : M SqliteStore A) : M SqliteStore A := λ s,
  if s.(sq_connected) then
    match c s with
    | (Ok a, s') => (Ok a, mkSqlite s'.(sq_connected) s'.(sq_working) s'.(sq_working))
    | (Raise e, s') => (Raise e, mkSqlite s'.(sq_connected) s'.(sq_committed) s'.(sq_committed))
    end
  else (Raise not_open, s).

(** [connection.commit()] *)
Definition sql_commit : M SqliteStore unit := with_connection (mret tt).

(** ** Row codecs *)

Definition session_of (r : session_row) : CommissioningSessionMetadata :=
  mkSession r.(sr_session_id) r.(sr_created_at) r.(sr_expires_at) r.(sr_consumed_at)
    r.(sr_revoked_at) r.(sr_failed_attempts).

Definition state_from_row (r : state_row) : result BootstrapState :=
  match ClaimState_of r.(st_claim_state), NetworkState_of r.(st_network_state) with
  | Some c, Some n => Ok (mkBootstrapState r.(st_reset_epoch) c n r.(st_updated_at))
  | _, _ => Raise (SQLiteBootstrapStoreError "bootstrap state contains an unknown enum")
  end.

Definition controller_from_row (r : grant_row) : result ControllerGrant :=
  match ControllerRole_of r.(gr_role) with
  | Some ro => Ok (mkGrant r.(gr_controller_id) r.(gr_public_key) r.(gr_public_key_fingerprint) ro
      r.(gr_display_name) r.(gr_platform) r.(gr_reset_epoch) r.(gr_created_at) r.(gr_revoked_at))
  | None => Raise (SQLiteBootstrapStoreError "controller grant contains an unknown enum")
  end.

Definition operation_from_row (r : operation_row) : result BootstrapOperation :=
  match BootstrapOperationType_of r.(or_operation_type), BootstrapOperationState_of r.(or_state) with
  | Some t, Some st => Ok (mkOperation r.(or_operation_id) t st r.(or_target) r.(or_reset_epoch)
      r.(or_created_at) r.(or_updated_at) r.(or_error_code))
  | _, _ => Raise (SQLiteBootstrapStoreError "bootstrap operation contains an unknown enum")
  end.

(** The VALUES tuples of the INSERT statements. *)
Definition row_of_grant (g : ControllerGrant) : grant_row :=
  mkGrantRow g.(controller_id) g.(public_key) g.(public_key_fingerprint) (ControllerRole_value g.(role))
    g.(display_name) g.(platform) g.(g_reset_epoch) g.(g_created_at) g.(g_revoked_at).
Definition row_of_operation (o : BootstrapOperation) : operation_row :=
  mkOperationRow o.(operation_id) (BootstrapOperationType_value o.(operation_type))
    (BootstrapOperationState_value o.(o_state)) o.(target) o.(o_reset_epoch) o.(o_created_at)
    o.(o_updated_at) o.(error_code).
Definition new_session_row (sid hash created : string) (expires : option string) : session_row :=
  mkSessionRow sid hash created expires None None None 0.

(** The SET clauses of the UPDATE statements. *)
Definition srow_set_revoked (t : string) (r : session_row) :=
  mkSessionRow r.(sr_session_id) r.(sr_secret_hash) r.(sr_created_at) r.(sr_expires_at)
    r.(sr_consumed_at) (Some t) r.(sr_claimed_controller_id) r.(sr_failed_attempts).
Definition srow_add_failed (r : session_row) :=
  mkSessionRow r.(sr_session_id) r.(sr_secret_hash) r.(sr_created_at) r.(sr_expires_at)
    r.(sr_consumed_at) r.(sr_revoked_at) r.(sr_claimed_controller_id) (r.(sr_failed_attempts) + 1).
Definition srow_set_consumed (t cid : string) (r : session_row) :=
  mkSessionRow r.(sr_session_id) r.(sr_secret_hash) r.(sr_created_at) r.(sr_expires_at)
    (Some t) r.(sr_revoked_at) (Some cid) r.(sr_failed_attempts).
Definition grow_set_revoked (t : string) (r : grant_row) :=
  mkGrantRow r.(gr_controller_id) r.(gr_public_key) r.(gr_public_key_fingerprint) r.(gr_role)
    r.(gr_display_name) r.(gr_platform) r.(gr_reset_epoch) r.(gr_created_at) (Some t).
Definition orow_set (st t : string) (err : option string) (r : operation_row) :=
  mkOperationRow r.(or_operation_id) r.(or_operation_type) st r.(or_target) r.(or_reset_epoch)
    r.(or_created_at) t err.
Definition strow_set_network (n t : string) (r : state_row) :=
  mkStateRow r.(st_reset_epoch) r.(st_claim_state) n t.
Definition strow_set_claim (c t : string) (r : state_row) :=
  mkStateRow r.(st_reset_epoch) c r.(st_network_state) t.

(** [WHERE consumed_at IS NULL AND revoked_at IS NULL] *)
Definition srow_unspent (r : session_row) : bool :=
  bool_decide (r.(sr_consumed_at) = None) && bool_decide (r.(sr_revoked_at) = None).

(** [WHERE state IN (?, ?, ?, ?)] *)
Definition orow_active (r : operation_row) : bool :=
  bool_decide (r.(or_state) ∈ BootstrapOperationState_value <$>
    [PENDING; RUNNING; WAITING_CONFIRMATION; COMPENSATING]).

(** ** Operations *)

Definition sql_open : M SqliteStore unit := λ s,
  (Ok tt, mkSqlite true s.(sq_committed) s.(sq_committed)).

Definition create_at_current_schema (now : string) : db :=
  mkDb CurrentSchema
    (Some (mkStateRow 0 (ClaimState_value UNCLAIMED) (NetworkState_value UNCONFIGURED) now)) [] [] [].

Definition sql_initialize (now : string) : M SqliteStore unit :=
  version ← sql_query user_version;
  match version with
  | NewerSchema v => raise (SQLiteBootstrapStoreError "unsupported bootstrap schema version")
  | FreshFile =>
      sql_update (λ _, create_at_current_schema now) ;;
      sql_commit
  | CurrentSchema => sql_commit
  end.

Definition sql_get_state : M SqliteStore BootstrapState :=
  row ← sql_query t_state;
  match row with
  | None => raise (SQLiteBootstrapStoreError "bootstrap state singleton is missing")
  | Some r => lift (state_from_row r)
  end.

(** [INSERT INTO commissioning_sessions], PRIMARY KEY session_id. *)
Definition insert_session (r : session_row) (d : db) : result db :=
  if existsb (λ x, bool_decide (x.(sr_session_id) = r.(sr_session_id))) d.(t_sessions)
  then Raise (IntegrityError "UNIQUE constraint failed: commissioning_sessions.session_id")
  else Ok (set_t_sessions (d.(t_sessions) ++ [r]) d).

Definition revoke_unspent_rows (t : string) (d : db) : db :=
  set_t_sessions (update_where srow_unspent (srow_set_revoked t) d.(t_sessions)) d.

Definition sql_issue_commissioning_session (sid hash created : string) (expires : option string)
    : M SqliteStore unit :=
  with_connection (
    sql_update (revoke_unspent_rows created) ;;
    sql_execute (insert_session (new_session_row sid hash created expires))).

(** [ORDER BY created_at DESC, session_id DESC] *)
Definition session_desc (a b : session_row) : bool :=
  if bool_decide (a.(sr_created_at) = b.(sr_created_at))
  then str_leb b.(sr_session_id) a.(sr_session_id)
  else str_leb b.(sr_created_at) a.(sr_created_at).

Definition sql_latest_commissioning_session
    : M SqliteStore (option CommissioningSessionMetadata) :=
  rows ← sql_query (λ d, sort_by session_desc d.(t_sessions));
  mret (session_of <$> head rows).

Definition select_session (sid : string) (d : db) : option session_row :=
  next_or_none (λ r, bool_decide (r.(sr_session_id) = sid)) d.(t_sessions).

Definition sql_authorize_commissioning_session (sid hash now : string)
    : M SqliteStore CommissioningSessionMetadata :=
  row ← sql_query (select_session sid);
  match row with
  | None => raise unavailable
  | Some r =>
      if negb (is_open (session_of r) now) then raise unavailable
      else if negb (bool_decide (r.(sr_secret_hash) = hash)) then
        with_connection (sql_update (λ d, set_t_sessions
          (update_where (λ x, bool_decide (x.(sr_session_id) = sid)) srow_add_failed d.(t_sessions)) d)) ;;
        raise unavailable
      else mret (session_of r)
  end.

Definition sql_get_controller (cid : string) : M SqliteStore (option ControllerGrant) :=
  st ← sql_get_state;
  row ← sql_query (λ d, next_or_none (λ r, bool_decide (r.(gr_controller_id) = cid) &&
    (r.(gr_reset_epoch) =? st.(reset_epoch))%Z) d.(t_grants));
  match row with
  | None => mret None
  | Some r => g ← lift (controller_from_row r); mret (Some g)
  end.

(** [fetchone] of the [OR] query; the first match in table order. *)
Definition sql_grant_in_epoch (grant : ControllerGrant) (epoch : Z)
    : M SqliteStore (option ControllerGrant) :=
  row ← sql_query (λ d, next_or_none (λ r, (r.(gr_reset_epoch) =? epoch)%Z &&
    (bool_decide (r.(gr_controller_id) = grant.(controller_id)) ||
     bool_decide (r.(gr_public_key_fingerprint) = grant.(public_key_fingerprint)))) d.(t_grants));
  match row with
  | None => mret None
  | Some r =>
      held ← lift (controller_from_row r);
      guard_py (negb (bool_decide (held.(public_key) = grant.(public_key))))
        (BootstrapStateConflict "another Controller already holds this identity on this Host") ;;
      mret (if bool_decide (held.(g_revoked_at) = None) then Some held else None)
  end.

(** [INSERT ... ON CONFLICT(controller_id, reset_epoch) DO UPDATE]: the
    conflict target is tried first, then UNIQUE (fingerprint, reset_epoch). *)
Definition upsert_grant (g : ControllerGrant) (d : db) : result db :=
  let same_key (r : grant_row) := bool_decide (r.(gr_controller_id) = g.(controller_id)) &&
    (r.(gr_reset_epoch) =? g.(g_reset_epoch))%Z in
  let same_fp (r : grant_row) :=
    bool_decide (r.(gr_public_key_fingerprint) = g.(public_key_fingerprint)) &&
    (r.(gr_reset_epoch) =? g.(g_reset_epoch))%Z in
  if existsb same_key d.(t_grants) then
    Ok (set_t_grants (update_where same_key (λ r,
      mkGrantRow r.(gr_controller_id) r.(gr_public_key) r.(gr_public_key_fingerprint) r.(gr_role)
        g.(display_name) g.(platform) r.(gr_reset_epoch) g.(g_created_at) None) d.(t_grants)) d)
  else if existsb same_fp d.(t_grants) then
    Raise (IntegrityError "UNIQUE constraint failed: controller_grants.public_key_fingerprint, controller_grants.reset_epoch")
  else Ok (set_t_grants (d.(t_grants) ++ [row_of_grant g]) d).

Definition consume_session_row (now cid sid : string) (d : db) : db :=
  set_t_sessions (update_where (λ x, bool_decide (x.(sr_session_id) = sid))
    (srow_set_consumed now cid) d.(t_sessions)) d.

Definition sql_claim_controller (sid hash : string) (grant : ControllerGrant) (now : string)
    : M SqliteStore ControllerGrant :=
  with_connection (
    session ← sql_query (select_session sid);
    match r ← session; c ← r.(sr_consumed_at); Some (r, c) with
    | Some (r, consumed) =>
        if bool_decide (r.(sr_claimed_controller_id) = Some grant.(controller_id)) then
          existing ← sql_get_controller grant.(controller_id);
          match existing with
          | Some g =>
              if bool_decide (g.(public_key) = grant.(public_key)) &&
                 bool_decide (g.(g_revoked_at) = None) && bool_decide (r.(sr_secret_hash) = hash) &&
                 str_leb g.(g_created_at) consumed
              then mret g else raise unavailable
          | None => raise unavailable
          end
        else raise unavailable
    | None =>
        sql_authorize_commissioning_session sid hash now ;;
        st ← sql_get_state;
        guard_py (negb (grant.(g_reset_epoch) =? st.(reset_epoch))%Z)
          (BootstrapStateConflict "controller reset epoch does not match host") ;;
        held ← sql_grant_in_epoch grant st.(reset_epoch);
        match held with
        | Some g => sql_update (consume_session_row now g.(controller_id) sid) ;; mret g
        | None =>
            sql_execute (upsert_grant grant) ;;
            sql_update (consume_session_row now grant.(controller_id) sid) ;;
            sql_update (λ d, set_t_state
              (strow_set_claim (ClaimState_value CLAIMED) now <$> d.(t_state)) d) ;;
            mret grant
        end
    end).

(** [ORDER BY created_at, controller_id] *)
Definition grant_row_le (a b : grant_row) : bool :=
  if bool_decide (a.(gr_created_at) = b.(gr_created_at))
  then str_leb a.(gr_controller_id) b.(gr_controller_id)
  else str_leb a.(gr_created_at) b.(gr_created_at).

Fixpoint decode_grants (l : list grant_row) : result (list ControllerGrant) :=
  match l with
  | [] => Ok []
  | r :: l' => g ← controller_from_row r; gs ← decode_grants l'; Ok (g :: gs)
  end.

Definition sql_list_controllers : M SqliteStore (list ControllerGrant) :=
  rows ← sql_query (λ d, sort_by grant_row_le d.(t_grants));
  lift (decode_grants rows).

Definition sql_revoke_controller (cid now : string) : M SqliteStore ControllerGrant :=
  with_connection (
    st ← sql_get_state;
    all ← sql_list_controllers;
    let active := List.filter (grant_active st.(reset_epoch)) all in
    match next_or_none (λ g, bool_decide (g.(controller_id) = cid)) active with
    | None => raise (BootstrapStateConflict "controller is not authorized for this Host")
    | Some _ =>
        guard_py (length active =? 1)%nat
          (BootstrapStateConflict "the last Controller cannot be revoked; use controller-reset") ;;
        sql_update (λ d, set_t_grants (update_where (λ r, bool_decide (r.(gr_controller_id) = cid) &&
          (r.(gr_reset_epoch) =? st.(reset_epoch))%Z) (grow_set_revoked now) d.(t_grants)) d)
    end) ;;
  result ← sql_get_controller cid;
  match result with
  | None => raise (SQLiteBootstrapStoreError "revoked controller grant disappeared")
  | Some g => mret g
  end.

Definition sql_get_operation (oid : string) : M SqliteStore (option BootstrapOperation) :=
  row ← sql_query (λ d, next_or_none (λ r, bool_decide (r.(or_operation_id) = oid)) d.(t_operations));
  match row with
  | None => mret None
  | Some r => o ← lift (operation_from_row r); mret (Some o)
  end.

(** [INSERT INTO bootstrap_operations], PRIMARY KEY operation_id. *)
Definition insert_operation (o : BootstrapOperation) (d : db) : result db :=
  if existsb (λ x, bool_decide (x.(or_operation_id) = o.(operation_id))) d.(t_operations)
  then Raise (IntegrityError "UNIQUE constraint failed: bootstrap_operations.operation_id")
  else Ok (set_t_operations (d.(t_operations) ++ [row_of_operation o]) d).

Definition sql_create_operation (o : BootstrapOperation) : M SqliteStore BootstrapOperation :=
  current ← sql_get_operation o.(operation_id);
  match current with
  | Some c =>
      if same_operation c o then mret c
      else raise (BootstrapStateConflict "operation_id is already in use")
  | None =>
      st ← sql_get_state;
      guard_py (negb (o.(o_reset_epoch) =? st.(reset_epoch))%Z)
        (BootstrapStateConflict "operation reset epoch does not match host") ;;
      with_connection (
        active ← sql_query (λ d, existsb orow_active d.(t_operations));
        guard_py active (BootstrapStateConflict "another bootstrap operation is active") ;;
        sql_execute (insert_operation o)) ;;
      mret o
  end.

Definition sql_update_operation (oid : string) (st : BootstrapOperationState) (ns : NetworkState)
    (now : string) (err : option string) : M SqliteStore BootstrapOperation :=
  with_connection (
    current ← sql_get_operation oid;
    match current with
    | None => raise (BootstrapStateConflict "bootstrap operation does not exist")
    | Some _ =>
        sql_update (λ d, set_t_operations (update_where (λ r, bool_decide (r.(or_operation_id) = oid))
          (orow_set (BootstrapOperationState_value st) now err) d.(t_operations)) d) ;;
        sql_update (λ d, set_t_state
          (strow_set_network (NetworkState_value ns) now <$> d.(t_state)) d)
    end) ;;
  result ← sql_get_operation oid;
  match result with Some o => mret o | None => raise AssertionError end.

Definition fail_active_rows (now reason : string) (d : db) : db :=
  set_t_operations (update_where orow_active
    (orow_set (BootstrapOperationState_value FAILED) now (Some reason)) d.(t_operations)) d.

Definition sql_fail_interrupted_operations (now : string) : M SqliteStore nat :=
  with_connection (
    interrupted ← sql_query (λ d, count_where orow_active d.(t_operations));
    sql_update (fail_active_rows now "daemon_restarted") ;;
    if (interrupted =? 0)%nat then mret interrupted
    else
      sql_update (λ d, set_t_state
        (strow_set_network (NetworkState_value DEGRADED) now <$> d.(t_state)) d) ;;
      mret interrupted).

Definition sql_reconcile_network_state (ns : NetworkState) (now : string) : M SqliteStore unit :=
  guard_py (transitional ns)
    (BootstrapStateConflict "cannot reconcile an active network transition at startup") ;;
  with_connection (sql_update (λ d, set_t_state
    (strow_set_network (NetworkState_value ns) now <$> d.(t_state)) d)).

Definition sql_reset_authority (ns : NetworkState) (now : string)
    (recovery : option CommissioningSessionSeed) : M SqliteStore BootstrapState :=
  st ← sql_get_state;
  with_connection (
    sql_update (revoke_unspent_rows now) ;;
    sql_update (λ d, set_t_grants (update_where (λ r, bool_decide (r.(gr_revoked_at) = None))
      (grow_set_revoked now) d.(t_grants)) d) ;;
    sql_update (fail_active_rows now "authority_reset") ;;
    sql_update (λ d, set_t_state ((λ _, mkStateRow (st.(reset_epoch) + 1)
      (ClaimState_value UNCLAIMED) (NetworkState_value ns) now) <$> d.(t_state)) d) ;;
    match recovery with
    | None => mret tt
    | Some seed => sql_execute (insert_session (new_session_row seed.(seed_session_id)
        seed.(seed_secret_hash) now seed.(seed_expires_at)))
    end) ;;
  sql_get_state.

Definition sql_close : M SqliteStore unit := λ s,
  (Ok tt, mkSqlite false s.(sq_committed) s.(sq_committed)).

#[global] Instance sqlite_store : BootstrapStateStore SqliteStore := {
  store_open := sql_open;
  store_initialize := sql_initialize;
  store_get_state := sql_get_state;
  store_issue_commissioning_session := sql_issue_commissioning_session;
  store_latest_commissioning_session := sql_latest_commissioning_session;
  store_authorize_commissioning_session := sql_authorize_commissioning_session;
  store_claim_controller := sql_claim_controller;
  store_get_controller := sql_get_controller;
  store_list_controllers := sql_list_controllers;
  store_revoke_controller := sql_revoke_controller;
  store_create_operation := sql_create_operation;
  store_get_operation := sql_get_operation;
  store_update_operation := sql_update_operation;
  store_fail_interrupted_operations := sql_fail_interrupted_operations;
  store_reconcile_network_state := sql_reconcile_network_state;
  store_reset_authority := sql_reset_authority;
  store_close := sql_close }.

(** A database file that has never been opened. *)
Definition sql_init : SqliteStore :=
  mkSqlite false (mkDb FreshFile None [] [] []) (mkDb FreshFile None [] [] []).
Definition sql_start (now : string) : SqliteStore := (sql_initialize now (sql_open sql_init).2).2.
