(* ===== verification/StoreRefinement.v ===== *)
(** * The SQLite adapter refines the in-memory one

    [sim m q] relates the two adapters between calls; every operation of the
    port answers the same on both and keeps them related.  Clients written
    against the port therefore behave the same over either. *)

From S2P Require Import Prelude Domain StateStore MemoryStore SqliteStore.

Definition session_pair (r : session_row) : CommissioningSessionMetadata * string :=
  (session_of r, r.(sr_secret_hash)).
Definition grant_key (g : ControllerGrant) : Z * string := (g.(g_reset_epoch), g.(controller_id)).
Definition row_of_state (s : BootstrapState) : state_row :=
  mkStateRow s.(reset_epoch) (ClaimState_value s.(claim_state)) (NetworkState_value s.(network_state))
    s.(updated_at).

Section Refinement.
(** How a fingerprint follows from a public key and a Controller id from a
    fingerprint: [_controller_grant] derives both from one digest. *)
Context (fingerprint_of id_of : string → string).

Definition derived_grant (g : ControllerGrant) : Prop :=
  g.(public_key_fingerprint) = fingerprint_of g.(public_key) ∧
  g.(controller_id) = id_of g.(public_key_fingerprint).

Record db_sim (m : MemoryStore) (d : db) : Prop := {
  sim_state : t_state d = row_of_state <$> m.(m_state);
  sim_has_state : is_Some m.(m_state);
  sim_sessions : m.(m_sessions) = session_pair <$> d.(t_sessions);
  sim_session_ids : NoDup (sr_session_id <$> d.(t_sessions));
  sim_claimed : ∀ sid, m.(m_session_controller_ids) !! sid =
    (select_session sid d ≫= sr_claimed_controller_id);
  sim_consumed : Forall (λ r, is_Some r.(sr_consumed_at) ↔ is_Some r.(sr_claimed_controller_id)) d.(t_sessions);
  sim_grants : d.(t_grants) = row_of_grant <$> m.(m_controllers).*2;
  sim_grant_keys : m.(m_controllers).*1 = grant_key <$> m.(m_controllers).*2;
  sim_grant_nodup : NoDup m.(m_controllers).*1;
  sim_derived : Forall derived_grant m.(m_controllers).*2;
  sim_operations : d.(t_operations) = row_of_operation <$> m.(m_operations).*2;
  sim_operation_keys : m.(m_operations).*1 = operation_id <$> m.(m_operations).*2;
  sim_operation_nodup : NoDup m.(m_operations).*1 }.

Definition sim (m : MemoryStore) (q : SqliteStore) : Prop :=
  m.(m_opened) = true ∧ q.(sq_connected) = true ∧ q.(sq_committed) = q.(sq_working) ∧
  db_sim m q.(sq_working).

(** Two implementations of one call agree on its answer and stay related. *)
Definition agree {A} (c1 : M MemoryStore A) (c2 : M SqliteStore A) (m : MemoryStore) (q : SqliteStore) : Prop :=
  (c1 m).1 = (c2 q).1 ∧ sim (c1 m).2 (c2 q).2.

Lemma sim_ready m q : sim m q → ∃ st, ready m st.
Proof. intros (Ho & _ & _ & H). destruct (sim_has_state _ _ H) as [st Hst]. by exists st. Qed.

(** ** Running the SQLite side *)

Lemma state_row_roundtrip st : state_from_row (row_of_state st) = Ok st.
Proof. by destruct st as [? [] [] ?]. Qed.

Lemma grant_row_roundtrip g : controller_from_row (row_of_grant g) = Ok g.
Proof. by destruct g as [? ? ? [] ? ? ? ? ?]. Qed.

Lemma operation_row_roundtrip o : operation_from_row (row_of_operation o) = Ok o.
Proof. by destruct o as [? [] [] ? ? ? ? ?]. Qed.

Lemma orow_active_spec o : orow_active (row_of_operation o) = active_state o.(o_state).
Proof. unfold orow_active. by destruct o as [? ? [] ? ? ? ? ?]. Qed.

Lemma orow_set_spec st t err o :
  orow_set (BootstrapOperationState_value st) t err (row_of_operation o) =
  row_of_operation (operation_set st t err o).
Proof. reflexivity. Qed.

Lemma srow_unspent_spec r : srow_unspent r = unspent (session_of r).
Proof. reflexivity. Qed.

Lemma sql_query_run {A} (f : db → A) c d :
  sql_query f (mkSqlite true c d) = (Ok (f d), mkSqlite true c d).
Proof. reflexivity. Qed.

Lemma sql_get_state_run m c d st :
  db_sim m d → m.(m_state) = Some st → sql_get_state (mkSqlite true c d) = (Ok st, mkSqlite true c d).
Proof.
  intros H Hst. unfold sql_get_state. rewrite (bind_ok _ _ _ _ _ (sql_query_run _ _ _)).
  rewrite (sim_state _ _ H), Hst. simpl. unfold lift. by rewrite state_row_roundtrip.
Qed.

Lemma next_row_of_grant (p : grant_row → bool) (gs : list ControllerGrant) :
  next_or_none p (row_of_grant <$> gs) = row_of_grant <$> next_or_none (p ∘ row_of_grant) gs.
Proof. apply next_or_none_fmap. Qed.

(** Looking a Grant up by id in the current epoch is the dictionary lookup. *)
Lemma grants_lookup (cs : list ((Z * string) * ControllerGrant)) epoch cid :
  cs.*1 = grant_key <$> cs.*2 →
  next_or_none (λ g, bool_decide (g.(controller_id) = cid) && (g.(g_reset_epoch) =? epoch)%Z) cs.*2
    = dict_get (epoch, cid) cs.
Proof.
  induction cs as [|[k g] cs IH]; simpl; [done|]. intros [= -> Hk]. unfold next_or_none in *. simpl.
  unfold grant_key at 1. specialize (IH Hk).
  destruct (decide (controller_id g = cid)) as [Hc|Hc];
    destruct (Z.eqb_spec (g_reset_epoch g) epoch) as [He|He]; simpl;
    rewrite ?(bool_decide_eq_true_2 (controller_id g = cid)),
            ?(bool_decide_eq_false_2 (controller_id g = cid)) by done; simpl.
  - rewrite bool_decide_eq_true_2; [done|]. by rewrite Hc, He.
  - rewrite bool_decide_eq_false_2; [done|]. intros [= ? ?]. congruence.
  - rewrite bool_decide_eq_false_2; [done|]. intros [= ? ?]. congruence.
  - rewrite bool_decide_eq_false_2; [done|]. intros [= ? ?]. congruence.
Qed.

Lemma sql_get_controller_run m c d st cid :
  db_sim m d → m.(m_state) = Some st →
  sql_get_controller cid (mkSqlite true c d) =
    (Ok (dict_get (st.(reset_epoch), cid) m.(m_controllers)), mkSqlite true c d).
Proof.
  intros H Hst. unfold sql_get_controller.
  rewrite (bind_ok _ _ _ _ _ (sql_get_state_run _ _ _ _ H Hst)).
  rewrite (bind_ok _ _ _ _ _ (sql_query_run _ _ _)). rewrite (sim_grants _ _ H), next_row_of_grant.
  change (_ ∘ row_of_grant) with (λ g, bool_decide (controller_id g = cid) && (g_reset_epoch g =? reset_epoch st)%Z).
  rewrite grants_lookup by apply (sim_grant_keys _ _ H).
  destruct (dict_get _ _) as [g|]; simpl; [|done]. unfold lift, mbind, M_bind.
  by rewrite grant_row_roundtrip.
Qed.

Lemma operations_lookup (os : list (string * BootstrapOperation)) oid :
  os.*1 = operation_id <$> os.*2 →
  next_or_none (λ o, bool_decide (o.(operation_id) = oid)) os.*2 = dict_get oid os.
Proof.
  induction os as [|[k o] os IH]; simpl; [done|]. intros [= -> Hk]. unfold next_or_none in *. simpl.
  specialize (IH Hk). destruct (decide (operation_id o = oid)) as [Ho|Ho].
  - rewrite !bool_decide_eq_true_2 by done. done.
  - rewrite !bool_decide_eq_false_2 by done. done.
Qed.

Lemma sql_get_operation_run m c d oid :
  db_sim m d → sql_get_operation oid (mkSqlite true c d) =
    (Ok (dict_get oid m.(m_operations)), mkSqlite true c d).
Proof.
  intros H. unfold sql_get_operation. rewrite (bind_ok _ _ _ _ _ (sql_query_run _ _ _)).
  rewrite (sim_operations _ _ H), next_or_none_fmap.
  change (_ ∘ row_of_operation) with (λ o, bool_decide (operation_id o = oid)).
  rewrite operations_lookup by apply (sim_operation_keys _ _ H).
  destruct (dict_get _ _) as [o|]; simpl; [|done]. unfold lift, mbind, M_bind.
  by rewrite operation_row_roundtrip.
Qed.

(** ** Sessions *)

Definition by_id (sid : string) (r : session_row) : bool := bool_decide (r.(sr_session_id) = sid).

Lemma select_session_by_id sid d : select_session sid d = next_or_none (by_id sid) d.(t_sessions).
Proof. reflexivity. Qed.

(** Updating rows in place keeps every id, so the row an id selects is the
    updated one. *)
Lemma select_update sid p f (l : list session_row) :
  (∀ r, sr_session_id (f r) = sr_session_id r) →
  next_or_none (by_id sid) (update_where p f l) =
  (λ r, if p r then f r else r) <$> next_or_none (by_id sid) l.
Proof.
  intros Hf. unfold update_where. rewrite next_or_none_fmap. f_equal. apply next_or_none_ext.
  intros r. unfold by_id. simpl. destruct (p r); by rewrite ?Hf.
Qed.

Lemma nodup_update p f (l : list session_row) :
  (∀ r, sr_session_id (f r) = sr_session_id r) →
  NoDup (sr_session_id <$> l) → NoDup (sr_session_id <$> update_where p f l).
Proof. intros Hf. rewrite fmap_update_where; auto. Qed.

Lemma authorize_rows sid hash now l :
  NoDup (sr_session_id <$> l) →
  authorize_loop sid hash now (session_pair <$> l) =
  match next_or_none (by_id sid) l with
  | None => (None, session_pair <$> l)
  | Some r =>
      if negb (is_open (session_of r) now) then (None, session_pair <$> l)
      else if bool_decide (r.(sr_secret_hash) = hash) then (Some (session_of r), session_pair <$> l)
      else (None, session_pair <$> update_where (by_id sid) srow_add_failed l)
  end.
Proof.
  induction l as [|r l IH]; [done|]. rewrite !fmap_cons. intros [Hni Hnd]%NoDup_cons.
  specialize (IH Hnd). unfold next_or_none in *. cbn [authorize_loop List.filter session_pair].
  change (session_id (session_of r)) with (sr_session_id r).
  unfold update_where. cbn [fmap list_fmap]. unfold by_id at 1 2 4.
  destruct (decide (sr_session_id r = sid)) as [Hid|Hid].
  - rewrite !(bool_decide_eq_true_2 (sr_session_id r = sid)) by done. cbn [negb head].
    destruct (is_open (session_of r) now); cbn [negb]; [|done].
    case_bool_decide; [done|]. f_equal. f_equal.
    change (session_pair <$> l = session_pair <$> update_where (by_id sid) srow_add_failed l).
    rewrite update_where_none; [done|]. intros x Hx. apply bool_decide_eq_false_2. intros Hx'.
    apply Hni. rewrite Hid, <- Hx'. apply list_elem_of_fmap. eauto.
  - rewrite !(bool_decide_eq_false_2 (sr_session_id r = sid)) by done. cbn [negb]. rewrite IH.
    fold (update_where (by_id sid) srow_add_failed l).
    destruct (head _) as [r'|]; [|done]. destruct (is_open _ _); [|done]. cbn [negb].
    by case_bool_decide.
Qed.

(** Replacing the sessions of both adapters by related ones. *)
Lemma db_sim_sessions m d l idmap :
  db_sim m d → NoDup (sr_session_id <$> l) →
  (∀ sid, idmap !! sid = (next_or_none (by_id sid) l ≫= sr_claimed_controller_id)) →
  Forall (λ r, is_Some r.(sr_consumed_at) ↔ is_Some r.(sr_claimed_controller_id)) l →
  db_sim (set_session_controller_ids idmap (set_sessions (session_pair <$> l) m)) (set_t_sessions l d).
Proof. intros [] Hnd Hcl Hco. by constructor. Qed.

Lemma set_ids_id m : set_session_controller_ids m.(m_session_controller_ids) m = m.
Proof. by destruct m. Qed.

(** In-place updates that do not touch the claim columns. *)
Lemma db_sim_update_sessions m d p f :
  db_sim m d → (∀ r, sr_session_id (f r) = sr_session_id r) →
  (∀ r, sr_claimed_controller_id (f r) = sr_claimed_controller_id r) →
  (∀ r, sr_consumed_at (f r) = sr_consumed_at r) →
  db_sim (set_sessions (session_pair <$> update_where p f d.(t_sessions)) m)
         (set_t_sessions (update_where p f d.(t_sessions)) d).
Proof.
  intros H Hid Hcl Hco.
  rewrite <- (set_ids_id (set_sessions (session_pair <$> update_where p f (t_sessions d)) m)).
  refine (db_sim_sessions m d _ m.(m_session_controller_ids) H _ _ _).
  - apply nodup_update; [done|by apply (sim_session_ids _ _ H)].
  - intros sid. rewrite select_update by done. rewrite (sim_claimed _ _ H), select_session_by_id.
    destruct (next_or_none _ _) as [r|]; simpl; [|done]. destruct (p r); by rewrite ?Hcl.
  - pose proof (sim_consumed _ _ H) as Hf. rewrite Forall_forall in Hf |- *.
    intros x (r & Hr & ->)%elem_of_update_where. destruct (p r); rewrite ?Hcl, ?Hco; auto.
Qed.

Lemma revoke_unspent_rows_spec t l :
  revoke_unspent t (session_pair <$> l) = session_pair <$> update_where srow_unspent (srow_set_revoked t) l.
Proof.
  unfold revoke_unspent, update_where. rewrite <- !list_fmap_compose. apply list_fmap_ext.
  intros i r _. simpl. rewrite srow_unspent_spec. destruct (unspent (session_of r)); done.
Qed.

Lemma consume_rows_spec now cid sid l :
  consume_row sid now <$> (session_pair <$> l) =
  session_pair <$> update_where (by_id sid) (srow_set_consumed now cid) l.
Proof.
  unfold update_where. rewrite <- !list_fmap_compose. apply list_fmap_ext.
  intros i r _. unfold consume_row, session_pair, by_id. simpl. by destruct (bool_decide _).
Qed.

(** Appending a freshly issued session. *)
Lemma db_sim_append m d sid hash t e :
  db_sim m d → sid ∉ sr_session_id <$> d.(t_sessions) →
  db_sim (set_sessions (m.(m_sessions) ++ [(new_session sid t e, hash)]) m)
         (set_t_sessions (d.(t_sessions) ++ [new_session_row sid hash t e]) d).
Proof.
  intros H Hni. rewrite (sim_sessions _ _ H).
  change [(new_session sid t e, hash)] with (session_pair <$> [new_session_row sid hash t e]).
  rewrite <- fmap_app. rewrite <- (set_ids_id (set_sessions _ m)).
  refine (db_sim_sessions m d _ m.(m_session_controller_ids) H _ _ _).
  - rewrite fmap_app. apply NoDup_app. split; [apply (sim_session_ids _ _ H)|]. split.
    + intros x Hx ->%list_elem_of_singleton. done.
    + apply NoDup_singleton.
  - intros sid'. rewrite next_or_none_app, (sim_claimed _ _ H), select_session_by_id.
    destruct (next_or_none _ _); [done|]. unfold next_or_none. simpl. by destruct (by_id _ _).
  - apply Forall_app. split; [apply (sim_consumed _ _ H)|]. repeat constructor; by intros [? ?].
Qed.

Lemma insert_session_fresh r d :
  sr_session_id r ∉ sr_session_id <$> d.(t_sessions) →
  insert_session r d = Ok (set_t_sessions (d.(t_sessions) ++ [r]) d).
Proof.
  intros Hni. unfold insert_session. replace (existsb _ _) with false; [done|]. symmetry.
  apply existsb_elem_false. intros x Hx. apply bool_decide_eq_false_2. intros E. apply Hni.
  apply list_elem_of_fmap. eauto.
Qed.

(** ** Grants *)

Lemma derived_same_id (cs : list ((Z * string) * ControllerGrant)) g g0 :
  Forall derived_grant cs.*2 → derived_grant g → g0 ∈ cs.*2 →
  g0.(public_key_fingerprint) = g.(public_key_fingerprint) → g0.(controller_id) = g.(controller_id).
Proof.
  rewrite Forall_forall. intros Hall [_ Hg] Hin E. destruct (Hall _ Hin) as [_ H0]. congruence.
Qed.

(** Under either name, the Grant a key holds is the one filed under its id. *)
Lemma held_lookup (cs : list ((Z * string) * ControllerGrant)) g epoch :
  cs.*1 = grant_key <$> cs.*2 → Forall derived_grant cs.*2 → derived_grant g →
  next_or_none (λ g0, (g0.(g_reset_epoch) =? epoch)%Z &&
    (bool_decide (g0.(controller_id) = g.(controller_id)) ||
     bool_decide (g0.(public_key_fingerprint) = g.(public_key_fingerprint)))) cs.*2
  = dict_get (epoch, g.(controller_id)) cs.
Proof.
  intros Hk Hall Hg. rewrite <- grants_lookup by done. apply next_or_none_ext_in. intros g0 Hin.
  destruct (decide (controller_id g0 = controller_id g)) as [E|E].
  - rewrite !bool_decide_eq_true_2 by done. by rewrite andb_comm.
  - rewrite !(bool_decide_eq_false_2 (controller_id g0 = controller_id g)) by done. simpl.
    rewrite bool_decide_eq_false_2; [by rewrite andb_false_r|]. intros E'. apply E.
    by eapply derived_same_id.
Qed.

Lemma held_by_fingerprint (cs : list ((Z * string) * ControllerGrant)) g epoch :
  cs.*1 = grant_key <$> cs.*2 → Forall derived_grant cs.*2 → derived_grant g →
  dict_get (epoch, g.(controller_id)) cs = None →
  next_or_none (λ '((e, _), c), bool_decide (e = epoch) &&
    bool_decide (c.(public_key_fingerprint) = g.(public_key_fingerprint))) cs = None.
Proof.
  intros Hk Hall Hg Hn. apply next_or_none_None. intros [[e c] g0] Hin.
  apply not_true_iff_false. rewrite andb_true_iff, !bool_decide_eq_true. intros [-> Hf].
  assert (g0 ∈ cs.*2) as Hin2 by (apply list_elem_of_fmap; by exists (epoch, c, g0)).
  pose proof (derived_same_id _ _ _ Hall Hg Hin2 Hf) as Hid.
  apply dict_get_None in Hn. apply Hn. apply list_elem_of_fmap. exists (epoch, c, g0). split; [|done].
  simpl. f_equal. rewrite <- Hid.
  clear - Hk Hin. revert Hk Hin. induction cs as [|[k1 g1] cs IH]; [intros _ H; by apply not_elem_of_nil in H|].
  simpl. intros [= -> Hk]. rewrite elem_of_cons. intros [[= ? ? ->]|Hin]; [done|auto].
Qed.

Lemma grant_in_epoch_agree m c d g epoch :
  db_sim m d → derived_grant g →
  sql_grant_in_epoch g epoch (mkSqlite true c d) = ((mem_grant_in_epoch g epoch m).1, mkSqlite true c d).
Proof.
  intros H Hg. unfold sql_grant_in_epoch, mem_grant_in_epoch.
  rewrite (bind_ok _ _ _ _ _ (sql_query_run _ _ _)), bind_gets.
  rewrite (sim_grants _ _ H), next_row_of_grant. cbv zeta.
  change (_ ∘ row_of_grant) with (λ g0, (g0.(g_reset_epoch) =? epoch)%Z &&
    (bool_decide (g0.(controller_id) = g.(controller_id)) ||
     bool_decide (g0.(public_key_fingerprint) = g.(public_key_fingerprint)))).
  pose proof (sim_grant_keys _ _ H) as Hk. pose proof (sim_derived _ _ H) as Hd.
  rewrite held_lookup by done.
  destruct (dict_get _ _) as [g0|] eqn:E.
  - simpl. unfold lift. unfold mbind at 1, M_bind at 1. rewrite grant_row_roundtrip. mnorm.
    by destruct (negb _).
  - by rewrite held_by_fingerprint by done.
Qed.

Lemma keys_dict_set (cs : list ((Z * string) * ControllerGrant)) g :
  cs.*1 = grant_key <$> cs.*2 →
  (dict_set (grant_key g) g cs).*1 = grant_key <$> (dict_set (grant_key g) g cs).*2.
Proof.
  induction cs as [|[k1 g1] cs IH]; simpl; [done|]. intros [= -> Hk].
  case_bool_decide as E; simpl; f_equal; auto.
Qed.

Lemma snd_dict_set_present (cs : list ((Z * string) * ControllerGrant)) g :
  cs.*1 = grant_key <$> cs.*2 → NoDup cs.*1 → grant_key g ∈ cs.*1 →
  (dict_set (grant_key g) g cs).*2 =
    update_where (λ g0, bool_decide (grant_key g0 = grant_key g)) (λ _, g) cs.*2.
Proof.
  intros Hk Hnd Hin. rewrite dict_set_update_where by done. unfold update_where.
  rewrite <- !list_fmap_compose. clear Hnd Hin. revert Hk.
  induction cs as [|[k1 g1] cs IH]; simpl; [done|]. intros [= -> Hk]. f_equal; [|auto].
  by case_bool_decide.
Qed.

Lemma keyed_lookup (cs : list ((Z * string) * ControllerGrant)) g0 :
  cs.*1 = grant_key <$> cs.*2 → NoDup cs.*1 → g0 ∈ cs.*2 → dict_get (grant_key g0) cs = Some g0.
Proof.
  intros Hk Hnd ([k g] & -> & Hin)%list_elem_of_fmap. apply dict_get_Some; [done|]. simpl.
  clear Hnd. revert Hk Hin. induction cs as [|[k1 g1] cs IH]; [intros _ H; by apply not_elem_of_nil in H|].
  simpl. intros [= -> Hk]. rewrite !elem_of_cons. intros [[= -> ->]|Hin]; [by left|right; auto].
Qed.

Definition same_grant_key (g g0 : ControllerGrant) : bool :=
  bool_decide (g0.(controller_id) = g.(controller_id)) && (g0.(g_reset_epoch) =? g.(g_reset_epoch))%Z.

Lemma same_grant_key_spec g g0 : same_grant_key g g0 = bool_decide (grant_key g0 = grant_key g).
Proof.
  unfold same_grant_key, grant_key. destruct (Z.eqb_spec (g_reset_epoch g0) (g_reset_epoch g)) as [->|E].
  - rewrite andb_true_r. apply bool_decide_ext. split; [by intros ->|by intros [= ->]].
  - rewrite andb_false_r. symmetry. apply bool_decide_eq_false_2. by intros [= ? ?].
Qed.

(** Writing a Grant of this epoch: an upsert on one side, a dictionary
    assignment on the other. *)
Lemma upsert_grant_agree m d g :
  db_sim m d → derived_grant g → g.(g_revoked_at) = None →
  (∀ g0, dict_get (grant_key g) m.(m_controllers) = Some g0 → g0.(public_key) = g.(public_key)) →
  upsert_grant g d = Ok (set_t_grants (row_of_grant <$> (dict_set (grant_key g) g m.(m_controllers)).*2) d).
Proof.
  intros H Hg Hr Hpk. pose proof (sim_grant_keys _ _ H) as Hk. pose proof (sim_derived _ _ H) as Hd.
  pose proof (sim_grant_nodup _ _ H) as Hnd. unfold upsert_grant. cbv zeta.
  rewrite (sim_grants _ _ H), !(existsb_fmap row_of_grant).
  change (existsb ((λ r, bool_decide (gr_controller_id r = controller_id g) &&
    (gr_reset_epoch r =? g_reset_epoch g)%Z) ∘ row_of_grant) (m_controllers m).*2)
    with (existsb (same_grant_key g) (m_controllers m).*2).
  destruct (decide (grant_key g ∈ (m_controllers m).*1)) as [Hin|Hni].
  - replace (existsb _ _) with true.
    2: { symmetry. apply existsb_elem. rewrite Hk in Hin.
         apply list_elem_of_fmap in Hin as (g0 & E & Hin0). exists g0. split; [done|].
         rewrite same_grant_key_spec. by apply bool_decide_eq_true_2. }
    f_equal. f_equal. rewrite snd_dict_set_present by done. unfold update_where.
    set (gs := (m_controllers m).*2) in *. rewrite <- !list_fmap_compose. apply list_fmap_ext. intros i g0 Hi.
    apply list_elem_of_lookup_2 in Hi. simpl.
    change (bool_decide (controller_id g0 = controller_id g) && (g_reset_epoch g0 =? g_reset_epoch g)%Z)
      with (same_grant_key g g0). rewrite same_grant_key_spec.
    case_bool_decide as E; [|done]. pose proof (keyed_lookup _ _ Hk Hnd Hi) as Hget. rewrite E in Hget.
    specialize (Hpk _ Hget). rewrite Forall_forall in Hd. destruct (Hd _ Hi) as [Hf _].
    destruct Hg as [Hgf _]. injection E as E1 E2. unfold row_of_grant. rewrite Hr, E1, E2, Hf, Hgf, Hpk.
    by destruct (role g0), (role g).
  - replace (existsb (same_grant_key g) _) with false.
    2: { symmetry. apply existsb_elem_false. intros g0 Hin0. rewrite same_grant_key_spec.
         apply bool_decide_eq_false_2. intros E. apply Hni. rewrite <- E, Hk. apply list_elem_of_fmap. eauto. }
    replace (existsb _ _) with false.
    2: { symmetry. apply existsb_elem_false. intros g0 Hin0. apply not_true_iff_false. simpl.
         rewrite andb_true_iff, bool_decide_eq_true, Z.eqb_eq. intros [Hf He]. apply Hni. rewrite Hk.
         apply list_elem_of_fmap. exists g0. split; [|done]. unfold grant_key.
         by rewrite He, (derived_same_id _ _ _ Hd Hg Hin0 Hf). }
    f_equal. rewrite dict_set_fresh by done. by rewrite !fmap_app.
Qed.

Lemma db_sim_grants m d g :
  db_sim m d → derived_grant g →
  db_sim (set_controllers (dict_set (grant_key g) g m.(m_controllers)) m)
    (set_t_grants (row_of_grant <$> (dict_set (grant_key g) g m.(m_controllers)).*2) d).
Proof.
  intros H Hg. pose proof (sim_grant_keys _ _ H) as Hk. pose proof (sim_grant_nodup _ _ H) as Hnd.
  pose proof (sim_derived _ _ H) as Hd. destruct H. constructor; simpl; try done.
  - by apply keys_dict_set.
  - by apply dict_set_NoDup.
  - rewrite Forall_forall in Hd |- *. intros g0 ([k g1] & -> & Hin)%list_elem_of_fmap.
    apply elem_of_dict_set in Hin as [[= -> ->]|[_ Hin]]; [done| |done].
    apply Hd. apply list_elem_of_fmap. by exists (k, g1).
Qed.

(** ** Each operation of the port *)

Ltac open_sim m q H :=
  let Hop := fresh "Hop" in let Hcon := fresh "Hcon" in let Hcm := fresh "Hcm" in
  let Hd := fresh "Hd" in
  destruct H as (Hop & Hcon & Hcm & Hd); destruct q as [? ? d]; simpl in Hcon, Hcm, Hd; subst;
  let st := fresh "st" in let Hst := fresh "Hst" in
  destruct (sim_has_state _ _ Hd) as [st Hst];
  assert (ready m st) as Hr by (split; assumption).

(** Committing after a successful body, rolling back after a refusal. *)
Lemma with_connection_ok {A} (c : M SqliteStore A) d a c' d' :
  c (mkSqlite true d d) = (Ok a, mkSqlite true c' d') →
  with_connection c (mkSqlite true d d) = (Ok a, mkSqlite true d' d').
Proof. intros H. unfold with_connection. simpl. by rewrite H. Qed.

Lemma with_connection_raise {A} (c : M SqliteStore A) d e c' d' :
  c (mkSqlite true d d) = (Raise e, mkSqlite true c' d') →
  with_connection c (mkSqlite true d d) = (Raise e, mkSqlite true c' c').
Proof. intros H. unfold with_connection. simpl. by rewrite H. Qed.

Lemma sql_update_run f c d : sql_update f (mkSqlite true c d) = (Ok tt, mkSqlite true c (f d)).
Proof. reflexivity. Qed.

Lemma sql_execute_run f c d d' :
  f d = Ok d' → sql_execute f (mkSqlite true c d) = (Ok tt, mkSqlite true c d').
Proof. intros H. unfold sql_execute. simpl. by rewrite H. Qed.

Lemma sim_intro m d : m.(m_opened) = true → db_sim m d → sim m (mkSqlite true d d).
Proof. by split. Qed.

Lemma session_ids_update p f (l : list session_row) :
  (∀ r, sr_session_id (f r) = sr_session_id r) →
  sr_session_id <$> update_where p f l = sr_session_id <$> l.
Proof. intros Hf. apply fmap_update_where. auto. Qed.

Lemma agree_issue sid hash t e m q :
  sim m q → sid ∉ sr_session_id <$> q.(sq_working).(t_sessions) →
  agree (mem_issue_commissioning_session sid hash t e) (sql_issue_commissioning_session sid hash t e) m q.
Proof.
  intros H Hni. open_sim m q H. simpl in Hni. unfold agree. rewrite (mem_issue_run _ _ _ _ _ _ Hr).
  assert (db_sim (set_sessions (revoke_unspent t (m_sessions m)) m) (revoke_unspent_rows t d)) as H1.
  { rewrite (sim_sessions _ _ Hd), revoke_unspent_rows_spec.
    by apply (db_sim_update_sessions m d srow_unspent (srow_set_revoked t)). }
  assert (sid ∉ sr_session_id <$> t_sessions (revoke_unspent_rows t d)) as Hni1.
  { simpl. by rewrite session_ids_update. }
  unfold sql_issue_commissioning_session.
  erewrite with_connection_ok.
  2: { rewrite (bind_ok _ _ _ _ _ (sql_update_run _ _ _)).
       apply sql_execute_run. by apply insert_session_fresh. }
  split; [done|]. apply sim_intro; [done|]. exact (db_sim_append _ _ sid hash t e H1 Hni1).
Qed.

(** The outcome of an authorization on both sides. *)
Lemma sql_authorize_run m d sid hash now :
  db_sim m d →
  ∃ d', sql_authorize_commissioning_session sid hash now (mkSqlite true d d) =
    (match (authorize_loop sid hash now m.(m_sessions)).1 with
     | Some s => Ok s | None => Raise unavailable end, mkSqlite true d' d') ∧
    db_sim (set_sessions (authorize_loop sid hash now m.(m_sessions)).2 m) d' ∧
    ((authorize_loop sid hash now m.(m_sessions)).1 ≠ None → d' = d).
Proof.
  intros H. unfold sql_authorize_commissioning_session.
  rewrite (bind_ok _ _ _ _ _ (sql_query_run _ _ _)), select_session_by_id.
  assert (db_sim (set_sessions (session_pair <$> t_sessions d) m) d) as Hsame.
  { rewrite <- (sim_sessions _ _ H). by destruct m. }
  rewrite (sim_sessions _ _ H), authorize_rows by apply (sim_session_ids _ _ H).
  destruct (next_or_none _ _) as [r|]; [|by exists d].
  destruct (is_open (session_of r) now); cbn [negb]; [|by exists d].
  destruct (bool_decide (sr_secret_hash r = hash)); cbn [negb]; [by exists d|].
  eexists. split; [by rewrite (bind_ok _ _ _ _ _ (with_connection_ok _ _ _ _ _ (sql_update_run _ _ _)))|].
  split; [|done]. by apply db_sim_update_sessions.
Qed.

Lemma agree_authorize sid hash now m q :
  sim m q →
  agree (mem_authorize_commissioning_session sid hash now) (sql_authorize_commissioning_session sid hash now) m q.
Proof.
  intros H. open_sim m q H. unfold agree.
  destruct (sql_authorize_run m d sid hash now Hd) as (d' & -> & Hd' & _).
  destruct (authorize_loop sid hash now (m_sessions m)) as [r l'] eqn:E.
  rewrite (mem_authorize_run _ _ _ _ _ _ _ Hr E). split; [done|]. by apply sim_intro.
Qed.

Lemma db_sim_consume m d sid cid now :
  db_sim m d →
  db_sim (mem_consume_session sid cid now m).2 (consume_session_row now cid sid d) ∨
  sid ∉ sr_session_id <$> d.(t_sessions).
Proof.
  intros H. destruct (decide (sid ∈ sr_session_id <$> t_sessions d)) as [Hin|]; [left|by right].
  rewrite mem_consume_run. cbn [snd]. rewrite (sim_sessions _ _ H), (consume_rows_spec now cid).
  change (mkMemory _ _ _ _ _ _) with (set_session_controller_ids (<[sid := cid]> (m_session_controller_ids m))
    (set_sessions (session_pair <$> update_where (by_id sid) (srow_set_consumed now cid) (t_sessions d)) m)).
  refine (db_sim_sessions m d _ _ H _ _ _).
  - apply nodup_update; [done|]. apply (sim_session_ids _ _ H).
  - intros sid'. rewrite select_update by done.
    destruct (decide (sid' = sid)) as [->|Hne].
    + rewrite lookup_insert_eq. apply list_elem_of_fmap in Hin as (r & Er & Hin).
      destruct (next_or_none (by_id sid) (t_sessions d)) as [r'|] eqn:En.
      * apply next_or_none_Some in En as [_ Hb]. simpl. by rewrite Hb.
      * rewrite next_or_none_None in En. specialize (En _ Hin). unfold by_id in En.
        by rewrite bool_decide_eq_true_2 in En.
    + rewrite lookup_insert_ne by done. rewrite (sim_claimed _ _ H), select_session_by_id.
      destruct (next_or_none (by_id sid') (t_sessions d)) as [r'|] eqn:En; [|done]. simpl.
      apply next_or_none_Some in En as [_ Hb%bool_decide_eq_true]. unfold by_id.
      rewrite bool_decide_eq_false_2; [done|]. congruence.
  - pose proof (sim_consumed _ _ H) as Hf. rewrite Forall_forall in Hf |- *.
    intros x (r & Hx & ->)%elem_of_update_where. destruct (by_id sid r); [|auto]. simpl. naive_solver.
Qed.

Lemma replay_row sid hash created r c l :
  NoDup (sr_session_id <$> l) → next_or_none (by_id sid) l = Some r → r.(sr_consumed_at) = Some c →
  existsb (λ '(m, h), bool_decide (session_id m = sid) && bool_decide (h = hash) &&
    match s_consumed_at m with Some c => str_leb created c | None => false end) (session_pair <$> l)
  = bool_decide (sr_secret_hash r = hash) && str_leb created c.
Proof.
  intros Hnd. induction l as [|x l IH]; [done|]. rewrite fmap_cons in Hnd.
  apply NoDup_cons in Hnd as [Hni Hnd]. unfold next_or_none. cbn [List.filter]. unfold by_id at 1.
  rewrite fmap_cons. cbn [existsb session_pair session_of session_id s_consumed_at].
  destruct (decide (sr_session_id x = sid)) as [Hx|Hx].
  - rewrite !(bool_decide_eq_true_2 (sr_session_id x = sid)) by done. cbn [head].
    intros [= ->] ->. cbn [andb]. replace (existsb _ _) with false; [by rewrite orb_false_r|].
    symmetry. apply existsb_elem_false. intros y (z & -> & Hz)%list_elem_of_fmap.
    cbn [session_pair session_of session_id]. rewrite bool_decide_eq_false_2; [done|].
    intros Hz'. apply Hni. rewrite Hx, <- Hz'. apply list_elem_of_fmap. eauto.
  - rewrite !(bool_decide_eq_false_2 (sr_session_id x = sid)) by done. intros Hn Hc. by apply IH.
Qed.

(** A claim retried on a consumed session. *)
Lemma agree_claim_replay sid hash g now m d st r c :
  db_sim m d → ready m st → select_session sid d = Some r → r.(sr_consumed_at) = Some c →
  agree (mem_claim_controller sid hash g now) (sql_claim_controller sid hash g now) m (mkSqlite true d d).
Proof.
  intros Hd Hr Es Ec. pose proof (sim_intro m d (proj1 Hr) Hd) as Hsame.
  assert (is_Some (sr_claimed_controller_id r)) as [claimed Hcl].
  { pose proof (sim_consumed _ _ Hd) as Hf. rewrite Forall_forall in Hf. apply (Hf r).
    - rewrite select_session_by_id in Es. by apply next_or_none_Some in Es as [? _].
    - by rewrite Ec. }
  unfold agree. rewrite (mem_claim_run _ _ _ _ _ _ Hr), (sim_claimed _ _ Hd sid), Es. simpl. rewrite Hcl.
  unfold sql_claim_controller. set (body := sql_query _ ≫= _).
  set (answer := match dict_get (reset_epoch st, claimed) (m_controllers m) with
    | Some g' => if claim_replay_ok sid hash claimed g g' (m_sessions m) then Ok g' else Raise unavailable
    | None => Raise unavailable end).
  assert (body (mkSqlite true d d) = (answer, mkSqlite true d d)) as Hb.
  { unfold body, answer. rewrite (bind_ok _ _ _ _ _ (sql_query_run _ _ _)), Es. simpl. rewrite Ec. simpl.
    rewrite Hcl. unfold claim_replay_ok. rewrite (sim_sessions _ _ Hd).
    destruct (decide (claimed = controller_id g)) as [->|Hne].
    - rewrite (bool_decide_eq_true_2 (Some _ = Some _)) by done.
      rewrite (bind_ok _ _ _ _ _ (sql_get_controller_run _ _ _ _ _ Hd (proj2 Hr))).
      destruct (dict_get _ _) as [g'|]; [|done].
      rewrite (replay_row sid hash (g_created_at g') r c) by (done || apply (sim_session_ids _ _ Hd)).
      rewrite (bool_decide_eq_true_2 (controller_id g = controller_id g)) by done. cbn [andb].
      rewrite andb_assoc. by destruct (_ && _).
    - rewrite bool_decide_eq_false_2 by congruence.
      rewrite (bool_decide_eq_false_2 (claimed = _)) by done. simpl. by destruct (dict_get _ _). }
  destruct answer as [g'|e].
  - by rewrite (with_connection_ok _ _ _ _ _ Hb).
  - by rewrite (with_connection_raise _ _ _ _ _ Hb).
Qed.

(** What the body of [claim_controller] does once the code was accepted. *)
Definition sql_claim_accepted (sid : string) (grant : ControllerGrant) (now : string)
    : M SqliteStore ControllerGrant :=
  st ← sql_get_state;
  guard_py (negb (grant.(g_reset_epoch) =? st.(reset_epoch))%Z)
    (BootstrapStateConflict "controller reset epoch does not match host") ;;
  held ← sql_grant_in_epoch grant st.(reset_epoch);
  match held with
  | Some g => sql_update (consume_session_row now g.(controller_id) sid) ;; mret g
  | None =>
      sql_execute (upsert_grant grant) ;;
      sql_update (consume_session_row now grant.(controller_id) sid) ;;
      sql_update (λ d, set_t_state
        (strow_set_claim (ClaimState_value CLAIMED) now <$> d.(t_state)) d) ;;
      mret grant
  end.

Lemma db_sim_claimed_state m d st now :
  db_sim m d → m.(m_state) = Some st →
  db_sim (set_state (Some (state_set_claim CLAIMED now st)) m)
    (set_t_state (strow_set_claim (ClaimState_value CLAIMED) now <$> d.(t_state)) d).
Proof.
  intros H Hst. pose proof (sim_state _ _ H) as Hs. rewrite Hst in Hs. destruct H.
  constructor; simpl; try done. by rewrite Hs.
Qed.

(** A new Grant written on both sides when nothing conflicts. *)
Lemma mem_grant_in_epoch_none g epoch m m' :
  mem_grant_in_epoch g epoch m = (Ok None, m') →
  ∀ g0, dict_get (epoch, g.(controller_id)) m.(m_controllers) = Some g0 → g0.(public_key) = g.(public_key).
Proof.
  unfold mem_grant_in_epoch. rewrite bind_gets. cbv zeta. intros H g0 E. rewrite E in H.
  case_bool_decide; [done|]. simpl in H. done.
Qed.

Lemma claim_accepted_agree sid g now m d st :
  db_sim m d → ready m st → derived_grant g → g.(g_revoked_at) = None →
  sid ∈ sr_session_id <$> d.(t_sessions) →
  ∃ d', sql_claim_accepted sid g now (mkSqlite true d d) = ((claim_fresh sid g now st m).1, mkSqlite true d d') ∧
    (∀ g', (claim_fresh sid g now st m).1 = Ok g' → db_sim (claim_fresh sid g now st m).2 d') ∧
    (∀ e, (claim_fresh sid g now st m).1 = Raise e → (claim_fresh sid g now st m).2 = m).
Proof.
  intros Hd Hr Hg Hrev Hsid. unfold sql_claim_accepted, claim_fresh.
  rewrite (bind_ok _ _ _ _ _ (sql_get_state_run _ _ _ _ Hd (proj2 Hr))), bind_guard.
  destruct (negb _) eqn:Hep; [by eexists|]. apply negb_false_iff, Z.eqb_eq in Hep.
  pose proof (grant_in_epoch_agree m d d g (reset_epoch st) Hd Hg) as Hga.
  pose proof (mem_grant_in_epoch_pure g (reset_epoch st) m) as Hpure.
  destruct (mem_grant_in_epoch g (reset_epoch st) m) as [[[h|]|e] m'] eqn:Em; simpl in Hpure, Hga; subst m';
    cbn [fst snd].
  - rewrite (bind_ok _ _ _ _ _ Hga), (bind_ok _ _ _ _ _ (sql_update_run _ _ _)). eexists.
    split; [done|]. split; [|done]. intros _ _.
    destruct (db_sim_consume m d sid (controller_id h) now Hd) as [|]; done.
  - rewrite (bind_ok _ _ _ _ _ Hga). assert (grant_key g = (reset_epoch st, controller_id g)) as Hk.
    { unfold grant_key. by rewrite Hep. }
    pose proof (mem_grant_in_epoch_none _ _ _ _ Em) as Hpk. rewrite <- Hk in Hpk |- *.
    rewrite (bind_ok _ _ _ _ _ (sql_execute_run _ _ _ _ (upsert_grant_agree m d g Hd Hg Hrev Hpk))).
    rewrite (bind_ok _ _ _ _ _ (sql_update_run _ _ _)), (bind_ok _ _ _ _ _ (sql_update_run _ _ _)).
    eexists. split; [done|]. split; [|done]. intros _ _.
    pose proof (db_sim_grants m d g Hd Hg) as H1.
    destruct (db_sim_consume _ _ sid (controller_id g) now H1) as [H2|]; [|done].
    rewrite mem_consume_run in H2 |- *.
    pose proof (db_sim_claimed_state _ _ st now H2 (proj2 Hr)) as H3.
    destruct m, Hr as [Ho Hs]. simpl in *. subst. exact H3.
  - rewrite (bind_raise _ _ _ _ _ Hga). by eexists.
Qed.

Lemma agree_claim sid hash g now m q :
  sim m q → derived_grant g → g.(g_revoked_at) = None →
  agree (mem_claim_controller sid hash g now) (sql_claim_controller sid hash g now) m q.
Proof.
  intros H Hg Hrev. open_sim m q H.
  destruct (select_session sid d ≫= sr_consumed_at) as [c|] eqn:Ec.
  { destruct (select_session sid d) as [r|] eqn:Es; [|done]. by eapply agree_claim_replay. }
  unfold agree. rewrite (mem_claim_run _ _ _ _ _ _ Hr), (sim_claimed _ _ Hd sid).
  assert ((select_session sid d ≫= sr_claimed_controller_id) = None) as ->.
  { destruct (select_session sid d) as [r|] eqn:Es; [|done]. simpl in *.
    pose proof (sim_consumed _ _ Hd) as Hf. rewrite Forall_forall in Hf.
    rewrite select_session_by_id in Es. apply next_or_none_Some in Es as [Hin _].
    specialize (Hf r Hin). rewrite Ec in Hf. destruct (sr_claimed_controller_id r); [|done].
    destruct Hf as [_ Hf]. destruct Hf as [? ?]; [by eauto|done]. }
  unfold sql_claim_controller. set (body := sql_query _ ≫= _).
  assert (body (mkSqlite true d d) =
    (sql_authorize_commissioning_session sid hash now ;; sql_claim_accepted sid g now) (mkSqlite true d d)) as Hb.
  { unfold body. rewrite (bind_ok _ _ _ _ _ (sql_query_run _ _ _)).
    destruct (select_session sid d) as [r|]; [|done]. simpl in *. by rewrite Ec. }
  destruct (sql_authorize_run m d sid hash now Hd) as (d' & Ha & Hd' & Hsame).
  destruct (authorize_loop sid hash now (m_sessions m)) as [[s|] l'] eqn:E; cbn [fst snd] in *.
  - rewrite Hsame in Ha by done. rewrite (bind_ok _ _ _ _ _ Ha) in Hb.
    assert (sid ∈ sr_session_id <$> t_sessions d) as Hsid.
    { destruct (authorize_loop_some _ _ _ _ _ _ E) as (_ & Hin & Hid & _).
      rewrite (sim_sessions _ _ Hd) in Hin. apply list_elem_of_fmap in Hin as (r & [= -> _] & Hin).
      apply list_elem_of_fmap. by exists r. }
    destruct (claim_accepted_agree sid g now m d st Hd Hr Hg Hrev Hsid) as (d2 & Hca & Hok & Hbad).
    rewrite Hca in Hb. assert (m_opened (claim_fresh sid g now st m).2 = true) as Hop'.
    { unfold claim_fresh. repeat case_match; rewrite ?mem_consume_run; done. }
    destruct (claim_fresh sid g now st m) as [[g'|e] m'] eqn:Ecf; cbn [fst snd] in *.
    + rewrite (with_connection_ok _ _ _ _ _ Hb). split; [done|]. apply sim_intro; eauto.
    + rewrite (with_connection_raise _ _ _ _ _ Hb). split; [done|]. rewrite (Hbad e eq_refl).
      by apply sim_intro.
  - rewrite (bind_raise _ _ _ _ _ Ha) in Hb. rewrite (with_connection_raise _ _ _ _ _ Hb).
    split; [done|]. by apply sim_intro.
Qed.

Lemma decode_grants_rows gs : decode_grants (row_of_grant <$> gs) = Ok gs.
Proof.
  induction gs as [|g gs IH]; [done|]. rewrite fmap_cons. cbn [decode_grants].
  rewrite grant_row_roundtrip. simpl. by rewrite IH.
Qed.

(** [list_controllers] on both sides lists the same Grants. *)
Lemma sql_list_run m c d :
  db_sim m d → sql_list_controllers (mkSqlite true c d) =
    (Ok (sort_by (λ a b, grant_row_le (row_of_grant a) (row_of_grant b)) m.(m_controllers).*2), mkSqlite true c d).
Proof.
  intros H. unfold sql_list_controllers. rewrite (bind_ok _ _ _ _ _ (sql_query_run _ _ _)).
  rewrite (sim_grants _ _ H), (sort_by_fmap row_of_grant). unfold lift. by rewrite decode_grants_rows.
Qed.

Lemma revoke_target_agree (cs : list ((Z * string) * ControllerGrant)) l1 l2 epoch cid :
  cs.*1 = grant_key <$> cs.*2 → NoDup cs.*1 → l1 ≡ₚ cs.*2 → l2 ≡ₚ cs.*2 →
  next_or_none (λ g, bool_decide (controller_id g = cid)) (List.filter (grant_active epoch) l1) =
  next_or_none (λ g, bool_decide (controller_id g = cid)) (List.filter (grant_active epoch) l2).
Proof.
  intros Hk Hnd H1 H2. apply next_or_none_perm.
  - apply filter_perm. by rewrite H1, H2.
  - intros x y Hx Hy Px%bool_decide_eq_true Py%bool_decide_eq_true.
    assert (∀ z, z ∈ List.filter (grant_active epoch) l2 → controller_id z = cid →
      dict_get (epoch, cid) cs = Some z) as Hu.
    { intros z Hz <-. apply list_elem_of_In, List.filter_In in Hz as [Hz Ha].
      apply list_elem_of_In in Hz. rewrite H2 in Hz. apply grant_active_spec in Ha as [_ <-].
      by apply (keyed_lookup cs z). }
    assert (Some x = Some y) as [=]; [|done]. by rewrite <- (Hu x), <- (Hu y).
Qed.

Lemma revoke_rows_agree m d g now :
  db_sim m d → g ∈ m.(m_controllers).*2 →
  update_where (λ r, bool_decide (r.(gr_controller_id) = g.(controller_id)) &&
      (r.(gr_reset_epoch) =? g.(g_reset_epoch))%Z) (grow_set_revoked now) d.(t_grants) =
  row_of_grant <$> (dict_set (grant_key g) (grant_set_revoked (Some now) g) m.(m_controllers)).*2.
Proof.
  intros H Hin. pose proof (sim_grant_keys _ _ H) as Hk. pose proof (sim_grant_nodup _ _ H) as Hnd.
  rewrite (sim_grants _ _ H).
  change (grant_key g) with (grant_key (grant_set_revoked (Some now) g)).
  rewrite snd_dict_set_present; [|done|done|].
  2: { rewrite Hk. apply list_elem_of_fmap. by exists g. }
  set (gs := (m_controllers m).*2) in *. unfold update_where. rewrite <- !list_fmap_compose.
  apply list_fmap_ext. intros i g0 Hi%list_elem_of_lookup_2. simpl.
  change (bool_decide (controller_id g0 = controller_id g) && (g_reset_epoch g0 =? g_reset_epoch g)%Z)
    with (same_grant_key g g0). rewrite same_grant_key_spec.
  change (grant_key (grant_set_revoked (Some now) g)) with (grant_key g).
  case_bool_decide as E; [|done].
  assert (g0 = g) as ->; [|done].
  pose proof (keyed_lookup _ _ Hk Hnd Hi) as H0. pose proof (keyed_lookup _ _ Hk Hnd Hin) as H1.
  rewrite E in H0. congruence.
Qed.

Lemma agree_revoke cid now m q :
  sim m q → agree (mem_revoke_controller cid now) (sql_revoke_controller cid now) m q.
Proof.
  intros H. open_sim m q H. unfold agree, mem_revoke_controller, sql_revoke_controller.
  pose proof (sim_grant_keys _ _ Hd) as Hk. pose proof (sim_grant_nodup _ _ Hd) as Hnd.
  rewrite (bind_ok _ _ _ _ _ (mem_get_state_run _ _ Hr)), (bind_ok _ _ _ _ _ (mem_list_run _ _ Hr)).
  set (body := sql_get_state ≫= _). set (l2 := sort_by (λ a b, grant_row_le (row_of_grant a) (row_of_grant b)) (m_controllers m).*2).
  assert (l2 ≡ₚ (m_controllers m).*2) as Hl2 by apply sort_by_perm.
  pose proof (sort_by_perm grant_le (m_controllers m).*2) as Hl1.
  cbv zeta. rewrite (revoke_target_agree _ _ l2 _ _ Hk Hnd Hl1 Hl2).
  assert (length (List.filter (grant_active (reset_epoch st)) (sort_by grant_le (m_controllers m).*2)) =
    length (List.filter (grant_active (reset_epoch st)) l2)) as ->.
  { apply Permutation_length, filter_perm. by rewrite Hl1, Hl2. }
  assert (body (mkSqlite true d d) = match next_or_none (λ g, bool_decide (controller_id g = cid))
      (List.filter (grant_active (reset_epoch st)) l2) with
    | None => (Raise (BootstrapStateConflict "controller is not authorized for this Host"), mkSqlite true d d)
    | Some _ => if (length (List.filter (grant_active (reset_epoch st)) l2) =? 1)%nat
        then (Raise (BootstrapStateConflict "the last Controller cannot be revoked; use controller-reset"), mkSqlite true d d)
        else (Ok tt, mkSqlite true d (set_t_grants (update_where (λ r, bool_decide (r.(gr_controller_id) = cid) &&
          (r.(gr_reset_epoch) =? st.(reset_epoch))%Z) (grow_set_revoked now) d.(t_grants)) d)) end) as Hb.
  { unfold body. rewrite (bind_ok _ _ _ _ _ (sql_get_state_run _ _ _ _ Hd Hst)),
      (bind_ok _ _ _ _ _ (sql_list_run _ _ _ Hd)). fold l2. cbv zeta.
    destruct (next_or_none _ _); [|done]. rewrite bind_guard. by destruct (_ =? 1)%nat. }
  destruct (next_or_none _ _) as [g|] eqn:En.
  2: { rewrite (bind_raise _ _ _ _ _ (with_connection_raise _ _ _ _ _ Hb)). split; [done|]. by apply sim_intro. }
  rewrite bind_guard. destruct (_ =? 1)%nat.
  { rewrite (bind_raise _ _ _ _ _ (with_connection_raise _ _ _ _ _ Hb)). split; [done|]. by apply sim_intro. }
  rewrite (bind_ok _ _ _ _ _ (with_connection_ok _ _ _ _ _ Hb)), bind_gets, bind_modify.
  apply next_or_none_Some in En as [Hin Hc%bool_decide_eq_true].
  apply list_elem_of_In, List.filter_In in Hin as [Hin Ha]. apply list_elem_of_In in Hin. rewrite Hl2 in Hin.
  apply grant_active_spec in Ha as [_ He]. subst cid. rewrite <- He, (revoke_rows_agree m d g now Hd Hin).
  assert (derived_grant (grant_set_revoked (Some now) g)) as Hg.
  { pose proof (sim_derived _ _ Hd) as Hall. rewrite Forall_forall in Hall. by destruct (Hall _ Hin). }
  pose proof (db_sim_grants m d _ Hd Hg) as H'.
  change (grant_key (grant_set_revoked (Some now) g)) with (grant_key g) in H'.
  rewrite He. rewrite (bind_ok _ _ _ _ _ (sql_get_controller_run _ _ _ st (controller_id g) H' Hst)).
  assert ((reset_epoch st, controller_id g) = grant_key g) as Hkey by (unfold grant_key; congruence).
  rewrite Hkey. cbn [m_controllers set_controllers]. rewrite dict_get_set, bool_decide_eq_true_2 by done.
  split; [done|]. by apply sim_intro.
Qed.

(** ** Operations of the network journal *)

Lemma keys_op_set (os : list (string * BootstrapOperation)) o :
  os.*1 = operation_id <$> os.*2 →
  (dict_set o.(operation_id) o os).*1 = operation_id <$> (dict_set o.(operation_id) o os).*2.
Proof.
  induction os as [|[k1 o1] os IH]; simpl; [done|]. intros [= -> Hk].
  case_bool_decide as E; simpl; f_equal; auto.
Qed.

Lemma snd_op_set_present (os : list (string * BootstrapOperation)) o :
  os.*1 = operation_id <$> os.*2 → NoDup os.*1 → o.(operation_id) ∈ os.*1 →
  (dict_set o.(operation_id) o os).*2 =
    update_where (λ o0, bool_decide (o0.(operation_id) = o.(operation_id))) (λ _, o) os.*2.
Proof.
  intros Hk Hnd Hin. rewrite dict_set_update_where by done. unfold update_where.
  rewrite <- !list_fmap_compose. clear Hnd Hin. revert Hk.
  induction os as [|[k1 o1] os IH]; simpl; [done|]. intros [= -> Hk]. f_equal; [|auto].
  by case_bool_decide.
Qed.

Lemma keyed_operation (os : list (string * BootstrapOperation)) o :
  os.*1 = operation_id <$> os.*2 → NoDup os.*1 → o ∈ os.*2 → dict_get o.(operation_id) os = Some o.
Proof.
  intros Hk Hnd ([k g] & -> & Hin)%list_elem_of_fmap. apply dict_get_Some; [done|]. simpl.
  clear Hnd. revert Hk Hin. induction os as [|[k1 g1] os IH]; [intros _ H; by apply not_elem_of_nil in H|].
  simpl. intros [= -> Hk]. rewrite !elem_of_cons. intros [[= -> ->]|Hin]; [by left|right; auto].
Qed.

Lemma db_sim_operations m d os :
  db_sim m d → os.*1 = operation_id <$> os.*2 → NoDup os.*1 →
  db_sim (set_operations os m) (set_t_operations (row_of_operation <$> os.*2) d).
Proof. intros [] Hk Hnd. by constructor. Qed.

Lemma db_sim_network m d st ns now :
  db_sim m d → m.(m_state) = Some st →
  db_sim (set_state (Some (state_set_network ns now st)) m)
    (set_t_state (strow_set_network (NetworkState_value ns) now <$> d.(t_state)) d).
Proof.
  intros H Hst. pose proof (sim_state _ _ H) as Hs. rewrite Hst in Hs. destruct H.
  constructor; simpl; try done. by rewrite Hs.
Qed.

Lemma active_rows_agree m d :
  db_sim m d →
  existsb orow_active d.(t_operations) = existsb (λ kv, active_state kv.2.(o_state)) m.(m_operations) ∧
  count_where orow_active d.(t_operations) = count_where (λ kv, active_state kv.2.(o_state)) m.(m_operations).
Proof.
  intros H. rewrite (sim_operations _ _ H). clear H. unfold count_where.
  induction (m_operations m) as [|[k o] os [IH1 IH2]]; [done|].
  cbn [fmap list_fmap existsb List.filter snd]. rewrite orow_active_spec. split.
  - by f_equal.
  - destruct (active_state _); cbn [length]; auto.
Qed.

Lemma fail_rows_agree m d now reason :
  db_sim m d →
  db_sim (set_operations (fail_active now reason m.(m_operations)) m) (fail_active_rows now reason d).
Proof.
  intros H. unfold fail_active_rows. rewrite (sim_operations _ _ H).
  replace (update_where orow_active _ _) with (row_of_operation <$> (fail_active now reason (m_operations m)).*2).
  - apply db_sim_operations; [done| |].
    + pose proof (sim_operation_keys _ _ H) as Hk. revert Hk. unfold fail_active.
      induction (m_operations m) as [|[k o] os IH]; [done|]. cbn [fmap list_fmap fst snd]. intros [= -> Hk].
      f_equal; [by case_match|]. by apply IH.
    + replace ((fail_active now reason (m_operations m)).*1) with ((m_operations m).*1).
      { apply (sim_operation_nodup _ _ H). }
      unfold fail_active. rewrite <- list_fmap_compose. apply list_fmap_ext. by intros i [k o] _.
  - unfold fail_active, update_where. clear H.
    induction (m_operations m) as [|[k o] os IH]; [done|]. cbn [fmap list_fmap fst snd]. f_equal; [|apply IH].
    rewrite orow_active_spec. by destruct (active_state _).
Qed.

Lemma agree_create o m q :
  sim m q → agree (mem_create_operation o) (sql_create_operation o) m q.
Proof.
  intros H. open_sim m q H. unfold agree, sql_create_operation. rewrite (mem_create_run _ _ _ Hr).
  rewrite (bind_ok _ _ _ _ _ (sql_get_operation_run _ _ _ _ Hd)).
  destruct (dict_get _ _) as [cur|] eqn:E.
  { destruct (same_operation _ _); (split; [done|]; by apply sim_intro). }
  rewrite (bind_ok _ _ _ _ _ (sql_get_state_run _ _ _ _ Hd Hst)), bind_guard.
  destruct (negb _); [split; [done|]; by apply sim_intro|].
  destruct (active_rows_agree m d Hd) as [Hex _]. rewrite <- Hex.
  set (body := sql_query _ ≫= _).
  destruct (existsb orow_active _) eqn:Ea.
  { assert (body (mkSqlite true d d) = (Raise (BootstrapStateConflict "another bootstrap operation is active"), mkSqlite true d d)) as Hb.
    { unfold body. by rewrite (bind_ok _ _ _ _ _ (sql_query_run _ _ _)), bind_guard, Ea. }
    rewrite (bind_raise _ _ _ _ _ (with_connection_raise _ _ _ _ _ Hb)). split; [done|]. by apply sim_intro. }
  pose proof (sim_operation_keys _ _ Hd) as Hk. pose proof (sim_operation_nodup _ _ Hd) as Hnd.
  apply dict_get_None in E as Hni.
  assert (insert_operation o d = Ok (set_t_operations (row_of_operation <$> (dict_set (operation_id o) o (m_operations m)).*2) d)) as Hins.
  { unfold insert_operation. rewrite (sim_operations _ _ Hd). replace (existsb _ _) with false.
    - rewrite dict_set_fresh by done. by rewrite !fmap_app.
    - symmetry. apply existsb_elem_false. intros r (o1 & -> & Hin)%list_elem_of_fmap.
      apply bool_decide_eq_false_2. intros Eo. apply Hni. rewrite Hk. apply list_elem_of_fmap. exists o1. by split. }
  assert (body (mkSqlite true d d) = (Ok tt, mkSqlite true d
    (set_t_operations (row_of_operation <$> (dict_set (operation_id o) o (m_operations m)).*2) d))) as Hb.
  { unfold body. rewrite (bind_ok _ _ _ _ _ (sql_query_run _ _ _)), bind_guard, Ea.
    by apply sql_execute_run. }
  rewrite (bind_ok _ _ _ _ _ (with_connection_ok _ _ _ _ _ Hb)). split; [done|]. apply sim_intro; [done|].
  apply db_sim_operations; [done|by apply keys_op_set|by apply dict_set_NoDup].
Qed.

Lemma agree_update oid os ns now err m q :
  sim m q → agree (mem_update_operation oid os ns now err) (sql_update_operation oid os ns now err) m q.
Proof.
  intros H. open_sim m q H. unfold agree, sql_update_operation. rewrite (mem_update_run _ _ _ _ _ _ _ Hr).
  pose proof (sim_operation_keys _ _ Hd) as Hk. pose proof (sim_operation_nodup _ _ Hd) as Hnd.
  match goal with |- context [with_connection ?c] => set (body := c) end.
  destruct (dict_get oid (m_operations m)) as [cur|] eqn:E.
  2: { assert (body (mkSqlite true d d) = (Raise (BootstrapStateConflict "bootstrap operation does not exist"), mkSqlite true d d)) as Hb.
       { unfold body. by rewrite (bind_ok _ _ _ _ _ (sql_get_operation_run _ _ _ _ Hd)), E. }
       rewrite (bind_raise _ _ _ _ _ (with_connection_raise _ _ _ _ _ Hb)). split; [done|]. by apply sim_intro. }
  assert (operation_id cur = oid ∧ cur ∈ (m_operations m).*2) as [Hid Hcur].
  { apply dict_get_elem in E. split; [|apply list_elem_of_fmap; by exists (oid, cur)].
    clear - E Hk. revert E Hk. induction (m_operations m) as [|[k1 o1] l IH]; [intros H; by apply not_elem_of_nil in H|].
    simpl. rewrite elem_of_cons. intros [[= <- <-]|Hin] [= -> Hk]; [done|auto]. }
  set (o := operation_set os now err cur). set (l := dict_set oid o (m_operations m)).
  assert (update_where (λ r, bool_decide (r.(or_operation_id) = oid))
    (orow_set (BootstrapOperationState_value os) now err) d.(t_operations) = row_of_operation <$> l.*2) as Hrows.
  { unfold l. rewrite <- Hid. change (operation_id cur) with (operation_id o).
    rewrite snd_op_set_present; [|done|done|].
    2: { rewrite Hk. apply list_elem_of_fmap. by exists cur. }
    rewrite (sim_operations _ _ Hd). unfold update_where. set (ops := (m_operations m).*2) in *.
    rewrite <- !list_fmap_compose.
    apply list_fmap_ext. intros i o0 Hi%list_elem_of_lookup_2. simpl. case_bool_decide as E0; [|done].
    assert (o0 = cur) as ->; [|done]. pose proof (keyed_operation _ _ Hk Hnd Hi) as H0. congruence. }
  assert (db_sim (set_operations l m) (set_t_operations (row_of_operation <$> l.*2) d)) as H1.
  { apply db_sim_operations; [done| |].
    - unfold l. rewrite <- Hid. change (operation_id cur) with (operation_id o). by apply keys_op_set.
    - by apply dict_set_NoDup. }
  assert (m_state (set_operations l m) = Some st) as Hst1 by done.
  pose proof (db_sim_network _ _ st ns now H1 Hst1) as H2.
  match type of H2 with db_sim _ ?d2 => assert (body (mkSqlite true d d) = (Ok tt, mkSqlite true d d2)) as Hb end.
  { unfold body. rewrite (bind_ok _ _ _ _ _ (sql_get_operation_run _ _ _ _ Hd)), E.
    rewrite (bind_ok _ _ _ _ _ (sql_update_run _ _ _)), sql_update_run, Hrows. done. }
  rewrite (bind_ok _ _ _ _ _ (with_connection_ok _ _ _ _ _ Hb)).
  rewrite (bind_ok _ _ _ _ _ (sql_get_operation_run _ _ _ _ H2)).
  cbn [m_operations set_state set_operations].
  assert (dict_get oid l = Some o) as -> by (unfold l; by rewrite dict_get_set, bool_decide_eq_true_2).
  split; [done|]. by apply sim_intro.
Qed.

Lemma agree_fail now m q :
  sim m q → agree (mem_fail_interrupted_operations now) (sql_fail_interrupted_operations now) m q.
Proof.
  intros H. open_sim m q H. unfold agree, sql_fail_interrupted_operations. rewrite (mem_fail_run _ _ _ Hr).
  cbv zeta. destruct (active_rows_agree m d Hd) as [_ Hn]. rewrite <- Hn.
  set (n := count_where orow_active (t_operations d)).
  pose proof (fail_rows_agree m d now "daemon_restarted" Hd) as H1.
  set (body := sql_query _ ≫= _). cbn [fst snd].
  destruct (n =? 0)%nat eqn:En.
  - assert (body (mkSqlite true d d) = (Ok n, mkSqlite true d (fail_active_rows now "daemon_restarted" d))) as Hb.
    { unfold body. rewrite (bind_ok _ _ _ _ _ (sql_query_run _ _ _)), (bind_ok _ _ _ _ _ (sql_update_run _ _ _)).
      fold n. by rewrite En. }
    rewrite (with_connection_ok _ _ _ _ _ Hb). split; [done|]. by apply sim_intro.
  - pose proof (db_sim_network _ _ st DEGRADED now H1 Hst) as H2.
    match type of H2 with db_sim _ ?d2 => assert (body (mkSqlite true d d) = (Ok n, mkSqlite true d d2)) as Hb end.
    { unfold body. rewrite (bind_ok _ _ _ _ _ (sql_query_run _ _ _)), (bind_ok _ _ _ _ _ (sql_update_run _ _ _)).
      fold n. by rewrite En, (bind_ok _ _ _ _ _ (sql_update_run _ _ _)). }
    rewrite (with_connection_ok _ _ _ _ _ Hb). split; [done|]. by apply sim_intro.
Qed.

Lemma agree_reconcile ns now m q :
  sim m q → agree (mem_reconcile_network_state ns now) (sql_reconcile_network_state ns now) m q.
Proof.
  intros H. open_sim m q H. unfold agree, sql_reconcile_network_state. rewrite (mem_reconcile_run _ _ _ _ Hr), bind_guard.
  destruct (transitional ns); [split; [done|]; by apply sim_intro|].
  rewrite (with_connection_ok _ _ _ _ _ (sql_update_run _ _ _)). split; [done|]. apply sim_intro; [done|].
  by apply db_sim_network.
Qed.

Lemma db_sim_revoke_all m d now :
  db_sim m d →
  db_sim (set_controllers (revoke_grants now m.(m_controllers)) m)
    (set_t_grants (update_where (λ r, bool_decide (r.(gr_revoked_at) = None))
      (grow_set_revoked now) d.(t_grants)) d).
Proof.
  intros H. pose proof (sim_grant_keys _ _ H) as Hk. pose proof (sim_grant_nodup _ _ H) as Hnd.
  pose proof (sim_derived _ _ H) as Hd. pose proof (sim_grants _ _ H) as Hg.
  destruct H. constructor; simpl; try done.
  - rewrite Hg. unfold update_where, revoke_grants. clear.
    induction (m_controllers m) as [|[k g] cs IH]; [done|]. cbn [fmap list_fmap fst snd]. f_equal; [|apply IH].
    simpl. by case_bool_decide.
  - revert Hk. unfold revoke_grants. clear.
    induction (m_controllers m) as [|[k g] cs IH]; [done|]. cbn [fmap list_fmap fst snd]. intros [= -> Hk].
    f_equal; [by case_bool_decide|]. by apply IH.
  - by rewrite revoke_grants_fst.
  - rewrite Forall_forall in Hd |- *. intros g ([k g1] & -> & Hin)%list_elem_of_fmap.
    unfold revoke_grants in Hin. apply list_elem_of_fmap in Hin as ([k0 g0] & [= -> ->] & Hin).
    assert (derived_grant g0) by (apply Hd, list_elem_of_fmap; by exists (k0, g0)).
    simpl. by case_bool_decide.
Qed.

Lemma db_sim_withdrawn m d now :
  db_sim m d →
  db_sim (set_sessions (revoke_unspent now m.(m_sessions)) m) (revoke_unspent_rows now d).
Proof.
  intros H. rewrite (sim_sessions _ _ H), revoke_unspent_rows_spec.
  by apply (db_sim_update_sessions m d srow_unspent (srow_set_revoked now)).
Qed.

Lemma db_sim_new_state m d st c n t :
  db_sim m d →
  db_sim (set_state (Some (mkBootstrapState (reset_epoch st + 1) c n t)) m)
    (set_t_state ((λ _, mkStateRow (reset_epoch st + 1) (ClaimState_value c) (NetworkState_value n) t) <$> d.(t_state)) d).
Proof.
  intros H. pose proof (sim_state _ _ H) as Hs. pose proof (sim_has_state _ _ H) as [x Hx]. rewrite Hx in Hs.
  destruct H. constructor; simpl; try done. by rewrite Hs.
Qed.

Definition seed_id (seed : option CommissioningSessionSeed) : list string :=
  match seed with Some sd => [sd.(seed_session_id)] | None => [] end.

Lemma agree_reset ns now seed m q :
  sim m q → Forall (λ sid, sid ∉ sr_session_id <$> q.(sq_working).(t_sessions)) (seed_id seed) →
  agree (mem_reset_authority ns now seed) (sql_reset_authority ns now seed) m q.
Proof.
  intros H Hseed. open_sim m q H. simpl in Hseed. unfold agree, sql_reset_authority.
  rewrite (mem_reset_run _ _ _ _ _ Hr). cbv zeta.
  rewrite (bind_ok _ _ _ _ _ (sql_get_state_run _ _ _ _ Hd Hst)).
  pose proof (db_sim_new_state _ _ st UNCLAIMED ns now
    (fail_rows_agree _ _ now "authority_reset" (db_sim_revoke_all _ _ now (db_sim_withdrawn m d now Hd)))) as H1.
  set (st' := mkBootstrapState (reset_epoch st + 1) UNCLAIMED ns now) in *.
  match type of H1 with db_sim ?m1 ?d1 => set (m' := m1) in H1; set (d' := d1) in H1 end.
  match goal with |- context [with_connection ?c] => set (body := c) end.
  assert (∃ d2, body (mkSqlite true d d) = (Ok tt, mkSqlite true d d2) ∧
    db_sim (set_sessions (m_sessions m' ++ match seed with
      | Some sd => [(new_session sd.(seed_session_id) now sd.(seed_expires_at), sd.(seed_secret_hash))]
      | None => [] end) m') d2) as (d2 & Hb & H2).
  { unfold body. do 4 rewrite (bind_ok _ _ _ _ _ (sql_update_run _ _ _)).
    match goal with |- context [mkSqlite true d ?x] => change x with d' end.
    destruct seed as [sd|].
    - exists (set_t_sessions (t_sessions d' ++ [new_session_row (seed_session_id sd) (seed_secret_hash sd) now (seed_expires_at sd)]) d').
      assert (seed_session_id sd ∉ sr_session_id <$> t_sessions d') as Hni.
      { change (t_sessions d') with (update_where srow_unspent (srow_set_revoked now) (t_sessions d)).
        rewrite session_ids_update by done. by inversion Hseed. }
      split; [by apply sql_execute_run, insert_session_fresh|]. by apply db_sim_append.
    - exists d'. split; [done|]. rewrite app_nil_r. by destruct m'. }
  rewrite (bind_ok _ _ _ _ _ (with_connection_ok _ _ _ _ _ Hb)).
  assert (m_state (set_sessions (m_sessions m' ++ match seed with
      | Some sd => [(new_session sd.(seed_session_id) now sd.(seed_expires_at), sd.(seed_secret_hash))]
      | None => [] end) m') = Some st') as Hst2 by done.
  rewrite (sql_get_state_run _ _ _ _ H2 Hst2). split; [done|]. apply sim_intro; [done|].
  unfold m' in H2. simpl in H2. destruct m. simpl in Hop. subst. exact H2.
Qed.

(** ** Histories *)

(** The session ids a call mints. *)
Definition minted (c : store_call) : list string :=
  match c with
  | CIssue sid _ _ _ => [sid]
  | CReset _ _ seed => seed_id seed
  | _ => []
  end.

(** What the clients of the port guarantee: a Grant is built by
    [_controller_grant] and is not born revoked. *)
Definition call_ok (c : store_call) : Prop :=
  match c with CClaim _ _ g _ => derived_grant g ∧ g.(g_revoked_at) = None | _ => True end.

Definition mem_session_ids (m : MemoryStore) : list string := (λ p, session_id p.1) <$> m.(m_sessions).

Lemma sim_mem_session_ids m d : db_sim m d → mem_session_ids m = sr_session_id <$> d.(t_sessions).
Proof.
  intros H. unfold mem_session_ids. rewrite (sim_sessions _ _ H), <- list_fmap_compose. done.
Qed.

Lemma authorize_ids sid hash now l :
  (λ p, session_id p.1) <$> (authorize_loop sid hash now l).2 = (λ p, session_id p.1) <$> l.
Proof.
  induction l as [|[s h] l IH]; [done|]. cbn [authorize_loop].
  destruct (negb _).
  - destruct (authorize_loop _ _ _ _) as [r l'] eqn:E. cbn [snd fmap list_fmap] in *. by f_equal.
  - destruct (negb _); [done|]. by case_bool_decide.
Qed.

Lemma run_call_ids c m st :
  ready m st → mem_session_ids (run_call c m).2 ⊆ mem_session_ids m ++ minted c.
Proof.
  intros Hr. unfold mem_session_ids.
  assert (∀ t l, (λ p : CommissioningSessionMetadata * string, session_id p.1) <$> revoke_unspent t l =
    (λ p, session_id p.1) <$> l) as Hrev.
  { intros t l. unfold revoke_unspent. rewrite <- list_fmap_compose. apply list_fmap_ext.
    intros i [s h] _. simpl. by destruct (unspent s). }
  destruct c; cbn [run_call minted store_issue_commissioning_session store_authorize_commissioning_session
    store_claim_controller store_revoke_controller store_create_operation store_update_operation
    store_fail_interrupted_operations store_reconcile_network_state store_reset_authority memory_store];
    rewrite ?app_nil_r.
  - rewrite (bind_ok _ _ _ _ _ (mem_issue_run _ _ _ _ _ _ Hr)). cbn [mret M_ret snd set_sessions m_sessions].
    rewrite fmap_app, Hrev. done.
  - destruct (authorize_loop sid hash now (m_sessions m)) as [r l'] eqn:E.
    pose proof (authorize_ids sid hash now (m_sessions m)) as Hid. rewrite E in Hid. cbn [snd] in Hid.
    pose proof (mem_authorize_run _ _ _ _ _ _ _ Hr E) as Ha. unfold mbind, M_bind. rewrite Ha.
    destruct r; cbn [snd mret M_ret set_sessions m_sessions]; by rewrite Hid.
  - unfold mbind, M_bind. rewrite (mem_claim_run _ _ _ _ _ _ Hr).
    assert (∀ s1 hh cc, (λ p : CommissioningSessionMetadata * string, session_id p.1) <$> m_sessions (mem_consume_session hh cc now s1).2
      = (λ p, session_id p.1) <$> m_sessions s1) as Hco.
    { intros. rewrite mem_consume_run. cbn [snd m_sessions set_sessions set_session_controller_ids].
      rewrite <- list_fmap_compose. apply list_fmap_ext. intros i [s h] _. unfold consume_row. simpl.
      by case_bool_decide. }
    destruct (_ !! sid); [by repeat case_match; simplify_eq|].
    destruct (authorize_loop sid hash now (m_sessions m)) as [[r|] l'] eqn:E.
    + unfold claim_fresh. pose proof (mem_grant_in_epoch_pure g (reset_epoch st) m) as Hp.
      destruct (negb _); [done|]. destruct (mem_grant_in_epoch _ _ _) as [[[h|]|e] m2]; cbn [fst snd] in *; subst;
        cbn [fst snd mret M_ret set_state m_sessions]; rewrite ?Hco; done.
    + pose proof (authorize_ids sid hash now (m_sessions m)) as Hid. rewrite E in Hid. simpl in Hid |- *.
      by rewrite Hid.
  - unfold mbind, M_bind. pose proof (mem_revoke_sessions cid now m st Hr) as Hs.
    destruct (mem_revoke_controller _ _ _) as [[] ?]; simpl in *; by rewrite Hs.
  - unfold mbind, M_bind. rewrite (mem_create_run _ _ _ Hr). by repeat case_match; simplify_eq.
  - unfold mbind, M_bind. rewrite (mem_update_run _ _ _ _ _ _ _ Hr). by repeat case_match; simplify_eq.
  - unfold mbind, M_bind. rewrite (mem_fail_run _ _ _ Hr). cbv zeta. by destruct (_ =? 0)%nat.
  - unfold mbind, M_bind. rewrite (mem_reconcile_run _ _ _ _ Hr). by destruct (transitional ns).
  - unfold mbind, M_bind. rewrite (mem_reset_run _ _ _ _ _ Hr). cbv zeta. cbn [snd mret M_ret m_sessions].
    rewrite fmap_app, Hrev. by destruct seed.
Qed.

Lemma agree_bind {A B} (c1 : M MemoryStore A) (c2 : M SqliteStore A) (f : A → B) m q :
  agree c1 c2 m q → agree (x ← c1; mret (f x)) (x ← c2; mret (f x)) m q.
Proof.
  unfold agree, mbind, M_bind. destruct (c1 m) as [r1 m1], (c2 q) as [r2 q1]. cbn [fst snd].
  intros [-> H]. by destruct r2.
Qed.

Lemma agree_call c m q :
  sim m q → call_ok c → Forall (λ sid, sid ∉ sr_session_id <$> q.(sq_working).(t_sessions)) (minted c) →
  agree (run_call c) (run_call c) m q.
Proof.
  intros H Hc Hf. destruct c; cbn [run_call]; try apply agree_bind; simpl in Hc, Hf.
  - apply agree_issue; [done|]. by inversion Hf.
  - by apply agree_authorize.
  - apply agree_claim; naive_solver.
  - by apply agree_revoke.
  - by apply agree_create.
  - by apply agree_update.
  - by apply agree_fail.
  - by apply agree_reconcile.
  - by apply agree_reset.
Qed.

Lemma agree_history cs m q :
  sim m q → Forall call_ok cs → NoDup (mem_session_ids m ++ (cs ≫= minted)) →
  (run_calls cs m).1 = (run_calls cs q).1 ∧ sim (run_calls cs m).2 (run_calls cs q).2.
Proof.
  intros H Hcs. revert m q H. induction Hcs as [|c cs Hc Hcs IH]; intros m q H Hnd; [done|].
  destruct (sim_ready _ _ H) as [st Hr]. rewrite bind_cons, app_assoc in Hnd.
  assert (Forall (λ sid, sid ∉ sr_session_id <$> q.(sq_working).(t_sessions)) (minted c)) as Hf.
  { apply Forall_forall. intros sid Hin. rewrite <- (sim_mem_session_ids m) by apply H.
    apply NoDup_app in Hnd as [Hnd _]. apply NoDup_app in Hnd as (_ & Hnd & _). intros Hin'. by apply (Hnd sid). }
  destruct (agree_call c m q H Hc Hf) as [Heq Hs]. cbn [run_calls].
  pose proof (run_call_ids c m st Hr) as Hids.
  destruct (run_call c m) as [r1 m1], (run_call c q) as [r2 q1]. cbn [fst snd] in *. subst r2.
  destruct (IH m1 q1 Hs) as [Heq2 Hs2].
  { apply NoDup_app. apply NoDup_app in Hnd as (_ & Hx & Hy). split_and!; [|set_solver|done].
    rewrite (sim_mem_session_ids m1 (sq_working q1)) by apply Hs. destruct Hs as (_ & _ & _ & Hs). by apply (sim_session_ids _ _ Hs). }
  destruct (run_calls cs m1), (run_calls cs q1). cbn [fst snd] in *. by rewrite Heq2.
Qed.

Lemma sim_start now : sim (mem_start now) (sql_start now).
Proof.
  split_and!; try done. constructor; simpl; try done; by constructor || apply NoDup_nil_2 || eauto.
Qed.

(** ** The session the status page names *)

Definition newest_first (l : list session_row) : Prop :=
  match reverse l with
  | [] => True
  | r :: older => Forall (λ x, str_ltb x.(sr_created_at) r.(sr_created_at) = true) older
  end.

Lemma insert_head (le : session_row → session_row → bool) x l :
  Forall (λ y, le x y = true) l → head (insert_by le x l) = Some x.
Proof. destruct l as [|y l]; [done|]. intros Hl. inversion Hl as [|? ? Hy]; subst. simpl. by rewrite Hy. Qed.

Lemma sort_head_max (l : list session_row) r :
  Forall (λ x, str_ltb x.(sr_created_at) r.(sr_created_at) = true) l →
  head (sort_by session_desc (l ++ [r])) = Some r.
Proof.
  induction 1 as [|x l Hx Hl IH]; [done|]. cbn [app sort_by].
  destruct (sort_by _ _) as [|y k]; [done|]. simpl in IH. injection IH as ->. cbn [insert_by].
  unfold session_desc at 1. rewrite bool_decide_eq_false_2.
  - assert (str_leb (sr_created_at r) (sr_created_at x) = false) as ->; [|done].
    rewrite str_ltb_leb in Hx. by apply negb_true_iff in Hx.
  - intros E. rewrite E in Hx. by rewrite str_ltb_irrefl in Hx.
Qed.

Lemma agree_latest m q :
  sim m q → newest_first q.(sq_working).(t_sessions) →
  agree mem_latest_commissioning_session sql_latest_commissioning_session m q.
Proof.
  intros H Hn. open_sim m q H. simpl in Hn. unfold agree, sql_latest_commissioning_session.
  rewrite (bind_ok _ _ _ _ _ (sql_query_run _ _ _)).
  unfold mem_latest_commissioning_session. rewrite (bind_ok _ _ _ _ _ (mem_require_open_run _ _ Hr)), bind_gets.
  split; [|by apply sim_intro]. cbn [mret M_ret fst]. f_equal. rewrite (sim_sessions _ _ Hd).
  clear - Hn. induction (t_sessions d) as [|r l _] using rev_ind; [done|].
  unfold newest_first in Hn. rewrite reverse_app in Hn. simpl in Hn.
  rewrite fmap_app. change (session_pair <$> [r]) with [session_pair r]. rewrite last_snoc. simpl. rewrite sort_head_max; [done|].
  rewrite Forall_forall in Hn |- *. intros x Hx. apply Hn. by apply elem_of_reverse.
Qed.
Lemma agree_reads m q :
  sim m q →
  (mem_get_state m).1 = (sql_get_state q).1 ∧
  (∀ cid, (mem_get_controller cid m).1 = (sql_get_controller cid q).1) ∧
  (∀ oid, (mem_get_operation oid m).1 = (sql_get_operation oid q).1) ∧
  (∃ l l', (mem_list_controllers m).1 = Ok l ∧ (sql_list_controllers q).1 = Ok l' ∧ l ≡ₚ l') ∧
  (newest_first q.(sq_working).(t_sessions) →
    (mem_latest_commissioning_session m).1 = (sql_latest_commissioning_session q).1).
Proof.
  intros Hs. pose proof Hs as Hsim. open_sim m q Hs.
  rewrite (mem_get_state_run _ _ Hr), (sql_get_state_run _ _ _ _ Hd Hst). split; [done|].
  split; [|split; [|split]].
  - intros cid. by rewrite (mem_get_controller_run _ _ _ Hr), (sql_get_controller_run _ _ _ _ _ Hd Hst).
  - intros oid. rewrite (sql_get_operation_run _ _ _ _ Hd). unfold mem_get_operation.
    by rewrite (bind_ok _ _ _ _ _ (mem_require_open_run _ _ Hr)), bind_gets.
  - rewrite (mem_list_run _ _ Hr), (sql_list_run _ _ _ Hd). do 2 eexists. split_and!; [done|done|].
    by rewrite !sort_by_perm.
  - intros Hn. by destruct (agree_latest _ _ Hsim Hn).
Qed.
End Refinement.

(** C3: the SQLite adapter refines the in-memory one.  Started fresh, the two
    answer alike, refusals included, any history of calls whose Grants are derived
    from their key and not born revoked and that mints no session id twice.
    Afterwards they agree on the state, on each Controller, on each operation,
    and on which Controllers are listed, though not in which order; and on the
    latest session when it was created after all others.  (When it was not, they
    differ: latest_session_after_clock_step below.) *)
Theorem sqlite_refines_memory fingerprint_of id_of now calls :
  Forall (call_ok fingerprint_of id_of) calls → NoDup (calls ≫= minted) →
  let '(answers, m) := run_calls calls (mem_start now) in
  let '(answers', q) := run_calls calls (sql_start now) in
  answers = answers' ∧
  (mem_get_state m).1 = (sql_get_state q).1 ∧
  (∀ cid, (mem_get_controller cid m).1 = (sql_get_controller cid q).1) ∧
  (∀ oid, (mem_get_operation oid m).1 = (sql_get_operation oid q).1) ∧
  (∃ l l', (mem_list_controllers m).1 = Ok l ∧ (sql_list_controllers q).1 = Ok l' ∧ l ≡ₚ l') ∧
  (newest_first q.(sq_working).(t_sessions) →
    (mem_latest_commissioning_session m).1 = (sql_latest_commissioning_session q).1).
Proof.
  intros Hc Hnd. pose proof (agree_history fingerprint_of id_of calls _ _ (sim_start _ _ now) Hc Hnd) as [Ha Hs].
  destruct (run_calls calls (mem_start now)) as [r1 m], (run_calls calls (sql_start now)) as [r2 q].
  cbn [fst snd] in *. split; [done|]. by apply (agree_reads fingerprint_of id_of).
Qed.

Definition lifecycle_calls : list store_call :=
  [CIssue "s" "h" "t0" None; CAuthorize "s" "bad" "t1"; CClaim "s" "h" sample_grant "t1";
   CClaim "s" "h" sample_grant "t1"; CIssue "s2" "h2" "t2" None; CClaim "s2" "h2" second_grant "t3";
   CCreateOperation (mkOperation "op" CHANGE_NETWORK PENDING "ssid" 0 "t4" "t4" None);
   CUpdateOperation "op" WAITING_CONFIRMATION STAGING "t5" None;
   CFailInterrupted "t6"; CRevoke "ectrl-1" "t7"; CRevoke "ectrl-0" "t8";
   CReset UNCONFIGURED "t9" (Some (mkSeed "rec" "rh" (Some "u")))].

Lemma sqlite_refines_memory_witness :
  let fp k := if bool_decide (k = "key") then "sha256:0" else "sha256:1" in
  let cid f := if bool_decide (f = "sha256:0") then "ectrl-0" else "ectrl-1" in
  Forall (call_ok fp cid) lifecycle_calls ∧
  (run_calls lifecycle_calls (mem_start "t")).1 = (run_calls lifecycle_calls (sql_start "t")).1.
Proof.
  cbv zeta. assert (Forall (call_ok (λ k, if bool_decide (k = "key") then "sha256:0" else "sha256:1")
    (λ f, if bool_decide (f = "sha256:0") then "ectrl-0" else "ectrl-1")) lifecycle_calls) as Hc.
  { repeat constructor. }
  split; [exact Hc|].
  assert (NoDup (lifecycle_calls ≫= minted)) as Hn.
  { apply (bool_decide_unpack _). vm_compute. exact I. }
  pose proof (sqlite_refines_memory _ _ "t" lifecycle_calls Hc Hn) as H.
  destruct (run_calls lifecycle_calls (mem_start "t")), (run_calls lifecycle_calls (sql_start "t")).
  apply H.
Defined.

(** The Host clock stepped back between two windows (a Host without a battery
    clock before time synchronisation): the first window was stamped later. *)
Definition clock_stepped_back : list store_call :=
  [CIssue "first" "h1" "2026-05-02T00:00:00+00:00" None;
   CIssue "second" "h2" "1970-01-01T00:01:00+00:00" None].

(** After the clock steps back the adapters part ways.  SQLite's
    [ORDER BY created_at DESC] names the first, revoked window as the latest,
    although the second is open and authorizes its code on both adapters. *)
Theorem latest_session_after_clock_step :
  let m := (run_calls clock_stepped_back (mem_start "t")).2 in
  let q := (run_calls clock_stepped_back (sql_start "t")).2 in
  (∃ s, (mem_latest_commissioning_session m).1 = Ok (Some s) ∧ s.(session_id) = "second" ∧
        unspent s = true) ∧
  (∃ s, (sql_latest_commissioning_session q).1 = Ok (Some s) ∧ s.(session_id) = "first" ∧
        s.(s_revoked_at) ≠ None) ∧
  (∃ s, (sql_authorize_commissioning_session "second" "h2" "1970-01-01T00:02:00+00:00" q).1 = Ok s).
Proof.
  cbv zeta. split_and!.
  - eexists. split; [vm_compute; reflexivity|]. done.
  - eexists. split; [vm_compute; reflexivity|]. done.
  - eexists. vm_compute. reflexivity.
Qed.
