(* ===== verification/Encoding.v ===== *)
(** * Wire encodings

    Canonical unpadded base64url ([_decode_base64url] of
    [bootstrap/commissioning_service.py] and [bootstrap/controller_auth.py],
    the challenge check of [BootstrapService.prove_host]) and canonical UUIDs
    ([_operation_id], [_validate_request_id]), over the standard library's
    lenient parsers.  Bytes are [ascii]s. *)

From S2P Require Import Prelude.

Abbreviation bytes := (list ascii).

(** ** base64 *)

(** The URL-safe alphabet. *)
Definition b64_char (n : N) : ascii :=
  ascii_of_N (if n <? 26 then 65 + n else if n <? 52 then 71 + n else if n <? 62 then n - 4
              else if n =? 62 then 45 else 95)%N.

(** [table_a2b_base64] after [urlsafe_b64decode]'s translation, which maps
    ['-'] and ['_'] and leaves ['+'] and ['/'] valid. *)
Definition b64_value (c : ascii) : option N :=
  let n := N_of_ascii c in
  if (65 <=? n)%N && (n <=? 90)%N then Some (n - 65)%N
  else if (97 <=? n)%N && (n <=? 122)%N then Some (n - 71)%N
  else if (48 <=? n)%N && (n <=? 57)%N then Some (n + 4)%N
  else if (n =? 45)%N || (n =? 43)%N then Some 62%N
  else if (n =? 95)%N || (n =? 47)%N then Some 63%N
  else None.

(** [base64.urlsafe_b64encode(b).rstrip(b"=")] *)
Fixpoint b64url_encode (b : bytes) : list ascii :=
  match b with
  | [] => []
  | [x] => let x := N_of_ascii x in [b64_char (x / 4); b64_char (x mod 4 * 16)]
  | [x; y] =>
      let x := N_of_ascii x in let y := N_of_ascii y in
      [b64_char (x / 4); b64_char (x mod 4 * 16 + y / 16); b64_char (y mod 16 * 4)]
  | x :: y :: z :: b' =>
      let x := N_of_ascii x in let y := N_of_ascii y in let z := N_of_ascii z in
      b64_char (x / 4) :: b64_char (x mod 4 * 16 + y / 16) :: b64_char (y mod 16 * 4 + z / 64)
        :: b64_char (z mod 64) :: b64url_encode b'
  end.

Definition binascii_error : exn := ValueError "Incorrect padding".

(** [binascii.a2b_base64] in its default, lenient mode: characters outside the
    alphabet are skipped, a complete pad sequence ends the input. *)
Fixpoint a2b_base64 (l : list ascii) (quad : nat) (left : N) (pads : nat) : result bytes :=
  match l with
  | [] => if (quad =? 0)%nat then Ok [] else Raise binascii_error
  | c :: l' =>
      if bool_decide (c = "="%char) then
        if (2 <=? quad)%nat then
          if (4 <=? quad + S pads)%nat then Ok [] else a2b_base64 l' quad left (S pads)
        else a2b_base64 l' quad left pads
      else
        match b64_value c with
        | None => a2b_base64 l' quad left pads
        | Some v =>
            match quad with
            | 0 => a2b_base64 l' 1 v 0
            | 1 => r ← a2b_base64 l' 2 (v mod 16)%N 0; Ok (ascii_of_N (left * 4 + v / 16) :: r)
            | 2 => r ← a2b_base64 l' 3 (v mod 4)%N 0; Ok (ascii_of_N (left * 16 + v / 4) :: r)
            | _ => r ← a2b_base64 l' 0 0%N 0; Ok (ascii_of_N (left * 64 + v) :: r)
            end
        end
  end.

Definition is_ascii (c : ascii) : bool := (N_of_ascii c <? 128)%N.

(** [base64.urlsafe_b64decode(s)] of a [str] *)
Definition urlsafe_b64decode (s : list ascii) : result bytes :=
  if forallb is_ascii s then a2b_base64 s 0 0%N 0
  else Raise (ValueError "string argument should contain only ASCII characters").

(** ["=" * (-len(value) % 4)] *)
Definition b64_padding (value : string) : list ascii :=
  replicate ((4 - str_len value mod 4) mod 4) "="%char.

(** The three refusals of [_decode_base64url], in order: the value is missing,
    not decodable, not canonical. *)
Definition decode_base64url (missing undecodable noncanonical : exn) (value : json) : result bytes :=
  match value with
  | JStr v =>
      if bool_decide (v = ""%string) then Raise missing
      else
        match urlsafe_b64decode (list_ascii_of_string v ++ b64_padding v) with
        | Raise _ => Raise undecodable
        | Ok decoded =>
            if bool_decide (string_of_list_ascii (b64url_encode decoded) = v) then Ok decoded
            else Raise noncanonical
        end
  | _ => Raise missing
  end.

(** ** Round trip *)

Ltac Zify.zify_post_hook ::= Z.to_euclidean_division_equations.

Lemma b64_char_value n : (n < 64)%N →
  b64_value (b64_char n) = Some n ∧ b64_char n ≠ "="%char ∧ is_ascii (b64_char n) = true.
Proof.
  intros Hn.
  assert (Forall (λ n, b64_value (b64_char n) = Some n ∧ b64_char n ≠ "="%char ∧
    is_ascii (b64_char n) = true) (N.of_nat <$> seq 0 64)) as H.
  { apply (bool_decide_unpack _). vm_compute. exact I. }
  rewrite Forall_forall in H. apply H. apply list_elem_of_fmap. exists (N.to_nat n).
  split; [lia|]. apply elem_of_seq. lia.
Qed.

Lemma ascii_bound (c : ascii) : (N_of_ascii c < 256)%N.
Proof. apply N_ascii_bounded. Qed.

Lemma ascii_back (c : ascii) n : n = N_of_ascii c → ascii_of_N n = c.
Proof. intros ->. apply ascii_N_embedding. Qed.

(** One data character of the encoder, read back. *)
Lemma a2b_step n l quad left pads :
  (n < 64)%N → a2b_base64 (b64_char n :: l) quad left pads =
  match quad with
  | 0 => a2b_base64 l 1 n 0
  | 1 => r ← a2b_base64 l 2 (n mod 16)%N 0; Ok (ascii_of_N (left * 4 + n / 16) :: r)
  | 2 => r ← a2b_base64 l 3 (n mod 4)%N 0; Ok (ascii_of_N (left * 16 + n / 4) :: r)
  | _ => r ← a2b_base64 l 0 0%N 0; Ok (ascii_of_N (left * 64 + n) :: r)
  end.
Proof.
  intros Hn. destruct (b64_char_value n Hn) as (Hv & Hne & _). cbn [a2b_base64].
  by rewrite bool_decide_eq_false_2, Hv.
Qed.

Definition pad_of (b : bytes) : nat := (3 - length b mod 3) mod 3.

Lemma a2b_encode b : a2b_base64 (b64url_encode b ++ replicate (pad_of b) "="%char) 0 0%N 0 = Ok b.
Proof.
  induction b as [b IH] using (induction_ltof1 _ (@length ascii)); unfold ltof in IH.
  destruct b as [|x [|y [|z b]]]; [done| | |]; cbn [b64url_encode app];
    pose proof (ascii_bound x); try pose proof (ascii_bound y); try pose proof (ascii_bound z).
  - rewrite !a2b_step by lia. simpl. do 2 f_equal. apply ascii_back. lia.
  - rewrite !a2b_step by lia. simpl. do 2 f_equal; [|f_equal]; apply ascii_back; lia.
  - rewrite !a2b_step by lia.
    replace (pad_of (x :: y :: z :: b)) with (pad_of b) 
      by (unfold pad_of; cbn [length]; replace (S (S (S (length b)))) with (length b + 1 * 3) by lia;
          by rewrite Nat.Div0.mod_add).
    rewrite IH by (simpl; lia). simpl. f_equal. f_equal; [|f_equal; [|f_equal]]; apply ascii_back; lia.
Qed.

Lemma encode_length b : length (b64url_encode b) = length b / 3 * 4 + match length b mod 3 with 0 => 0 | n => S n end.
Proof.
  induction b as [b IH] using (induction_ltof1 _ (@length ascii)); unfold ltof in IH.
  destruct b as [|x [|y [|z b]]]; [done..|]. cbn [b64url_encode length].
  rewrite IH by (simpl; lia). replace (S (S (S (length b)))) with (length b + 1 * 3) by lia.
  rewrite Nat.div_add, Nat.Div0.mod_add by lia. lia.
Qed.

Lemma encode_ascii b : forallb is_ascii (b64url_encode b) = true.
Proof.
  induction b as [b IH] using (induction_ltof1 _ (@length ascii)); unfold ltof in IH.
  assert (∀ n, (n < 64)%N → is_ascii (b64_char n) = true) as Hc by (intros n Hn; by apply b64_char_value).
  destruct b as [|x [|y [|z b]]]; [done| | |]; cbn [b64url_encode forallb];
    pose proof (ascii_bound x); try pose proof (ascii_bound y); try pose proof (ascii_bound z);
    rewrite !Hc by lia; [done|done|]. rewrite IH by (simpl; lia). done.
Qed.

Lemma ascii_not_continuation c : is_ascii c = true → is_continuation c = false.
Proof.
  unfold is_ascii, is_continuation. intros Hc%N.ltb_lt. apply andb_false_iff. left. by apply N.leb_gt.
Qed.

Lemma str_len_ascii l : forallb is_ascii l = true → str_len (string_of_list_ascii l) = length l.
Proof.
  induction l as [|c l IH]; [done|]. simpl. intros [Hc Hl]%andb_true_iff.
  rewrite ascii_not_continuation by done. by rewrite IH.
Qed.

Lemma padding_encode b : b64_padding (string_of_list_ascii (b64url_encode b)) = replicate (pad_of b) "="%char.
Proof.
  unfold b64_padding, pad_of. rewrite str_len_ascii by apply encode_ascii. rewrite encode_length.
  rewrite Nat.add_comm, Nat.Div0.mod_add. pose proof (Nat.mod_upper_bound (length b) 3).
  destruct (length b mod 3) as [|[|[|n]]]; [done..|lia].
Qed.

Lemma urlsafe_b64decode_encode b :
  urlsafe_b64decode (b64url_encode b ++ replicate (pad_of b) "="%char) = Ok b.
Proof.
  unfold urlsafe_b64decode. rewrite forallb_app, encode_ascii.
  assert (forallb is_ascii (replicate (pad_of b) "="%char) = true) as ->.
  { induction (pad_of b); [done|]. simpl. done. }
  apply a2b_encode.
Qed.

(** The decoder accepts exactly the encoder's image. *)
Lemma decode_base64url_ok e1 e2 e3 v b :
  decode_base64url e1 e2 e3 (JStr v) = Ok b ↔ v ≠ ""%string ∧ v = string_of_list_ascii (b64url_encode b).
Proof.
  unfold decode_base64url. case_bool_decide as Hv; [naive_solver|]. split.
  - destruct (urlsafe_b64decode _) as [d|]; [|done]. case_bool_decide; [|done]. naive_solver.
  - intros [_ ->]. rewrite list_ascii_of_string_of_list_ascii, padding_encode, urlsafe_b64decode_encode.
    by rewrite bool_decide_eq_true_2.
Qed.

(** The helper of [bootstrap/commissioning_service.py], and the one of
    [bootstrap/controller_auth.py]. *)
Definition request_base64url (field : string) : json → result bytes :=
  decode_base64url (CommissioningRequestRejected "invalid_request" (field ++ " is required"))
    (CommissioningRequestRejected "invalid_request" (field ++ " must be unpadded base64url"))
    (CommissioningRequestRejected "invalid_request" (field ++ " must use canonical base64url")).
Definition signature_base64url : json → result bytes :=
  decode_base64url (ControllerSignatureError "Controller signature is required")
    (ControllerSignatureError "Controller value is not base64url")
    (ControllerSignatureError "Controller value is not canonical base64url").

(** ** UUIDs *)

(** [s.replace(pat, "")] for a non-empty [pat] *)
Fixpoint remove_all (fuel : nat) (pat l : list ascii) : list ascii :=
  match fuel, l with
  | S n, c :: l' =>
      match drop_prefix (N_of_ascii <$> pat) l with
      | Some r => remove_all n pat r
      | None => c :: remove_all n pat l'
      end
  | _, _ => l
  end.

(** [s.strip(chars)] *)
Fixpoint lstrip_chars (p : ascii → bool) (l : list ascii) : list ascii :=
  match l with c :: l' => if p c then lstrip_chars p l' else l | [] => [] end.
Definition strip_chars (p : ascii → bool) (l : list ascii) : list ascii :=
  reverse (lstrip_chars p (reverse (lstrip_chars p l))).

Definition hex_value (c : ascii) : option N :=
  let n := N_of_ascii c in
  if (48 <=? n)%N && (n <=? 57)%N then Some (n - 48)%N
  else if (97 <=? n)%N && (n <=? 102)%N then Some (n - 87)%N
  else if (65 <=? n)%N && (n <=? 70)%N then Some (n - 55)%N
  else None.

(** The digits of [int(s, 16)]: single underscores between digits. *)
Fixpoint hex_digits (l : list ascii) (need_digit : bool) (acc : N) : option N :=
  match l with
  | [] => if need_digit then None else Some acc
  | c :: l' =>
      if bool_decide (c = "_"%char) then
        if need_digit then None else hex_digits l' true acc
      else match hex_value c with Some d => hex_digits l' false (acc * 16 + d)%N | None => None end
  end.

Definition drop_sign (l : list ascii) : Z * list ascii :=
  match l with
  | c :: b => if bool_decide (c = "-"%char) then ((-1)%Z, b)
              else if bool_decide (c = "+"%char) then (1%Z, b) else (1%Z, l)
  | [] => (1%Z, l)
  end.
(** A [0x] prefix and the underscore allowed after it. *)
Definition drop_0x (l : list ascii) : list ascii :=
  match l with
  | c :: x :: b =>
      if bool_decide (c = "0"%char) && (bool_decide (x = "x"%char) || bool_decide (x = "X"%char))
      then match b with
           | u :: b' => if bool_decide (u = "_"%char) then b' else b
           | [] => b
           end
      else l
  | _ => l
  end.
(** [int(s, 16)] on ASCII text: white space around, a sign, a [0x] prefix.
    (Other scripts' decimal digits, which [int] reads too, are refused here;
    [UUID] then refuses with its other message.) *)
Definition int16 (l : list ascii) : option Z :=
  let '(sign, body) := drop_sign (list_ascii_of_string (strip (string_of_list_ascii l))) in
  (λ n, sign * Z.of_N n)%Z <$> hex_digits (drop_0x body) true 0.

(** [uuid.UUID(value).int]; [None] is its [ValueError]. *)
Definition uuid_int (value : string) : option Z :=
  let l := list_ascii_of_string value in
  let l := remove_all (length l) (list_ascii_of_string "urn:") l in
  let l := remove_all (length l) (list_ascii_of_string "uuid:") l in
  let l := strip_chars (λ c, bool_decide (c = "{"%char) || bool_decide (c = "}"%char)) l in
  let l := List.filter (λ c, negb (bool_decide (c = "-"%char))) l in
  if negb (str_len (string_of_list_ascii l) =? 32)%nat then None
  else
    match int16 l with
    | Some n => if (0 <=? n)%Z && (n <? 2 ^ 128)%Z then Some n else None
    | None => None
    end.

Definition hex_char (n : N) : ascii := ascii_of_N (if n <? 10 then 48 + n else 87 + n)%N.
(** [f"{n:0{w}x}"] for [n < 16 ** w] *)
Fixpoint hex_pad (w : nat) (n : N) : list ascii :=
  match w with 0 => [] | S w' => hex_pad w' (n / 16) ++ [hex_char (n mod 16)] end.
Definition uuid_dashes (h : list ascii) : list ascii :=
  take 8 h ++ ["-"%char] ++ take 4 (drop 8 h) ++ ["-"%char] ++ take 4 (drop 12 h) ++ ["-"%char] ++
  take 4 (drop 16 h) ++ ["-"%char] ++ drop 20 h.
(** [str(UUID(int=n))] *)
Definition uuid_str (n : Z) : string :=
  string_of_list_ascii (uuid_dashes (hex_pad 32 (Z.to_N n))).

(** The check shared by [_operation_id] and [_validate_request_id], with the
    name of the field they report. *)
Definition canonical_uuid (missing field : string) (value : json) : result string :=
  match value with
  | JStr v =>
      match uuid_int v with
      | None => Raise (CommissioningRequestRejected "invalid_request" (field ++ " must be a UUID"))
      | Some n =>
          if bool_decide (uuid_str n = v) then Ok v
          else Raise (CommissioningRequestRejected "invalid_request"
                        (field ++ " must use canonical UUID encoding"))
      end
  | _ => Raise (CommissioningRequestRejected "invalid_request" (field ++ missing))
  end.

Example uuid_sample : uuid_int "12345678-1234-5678-1234-567812345678" = Some 0x12345678123456781234567812345678%Z.
Proof. vm_compute. reflexivity. Qed.
Example uuid_lenient : uuid_int "urn:uuid:{12345678-12345678-1234-567812345678}" = Some 0x12345678123456781234567812345678%Z.
Proof. vm_compute. reflexivity. Qed.

(** *** The canonical form *)

Lemma hex_char_lower n : (n < 16)%N → is_lower_hex (hex_char n) = true ∧ hex_value (hex_char n) = Some n.
Proof.
  intros Hn.
  assert (Forall (λ n, is_lower_hex (hex_char n) = true ∧ hex_value (hex_char n) = Some n) (N.of_nat <$> seq 0 16)) as H.
  { apply (bool_decide_unpack _). vm_compute. exact I. }
  rewrite Forall_forall in H. apply H. apply list_elem_of_fmap. exists (N.to_nat n).
  split; [lia|]. apply elem_of_seq. lia.
Qed.

Lemma lower_hex_cases c : is_lower_hex c = true → c ∈ hex_char <$> (N.of_nat <$> seq 0 16).
Proof.
  intros Hc. assert (Forall (λ c, is_lower_hex c = true → c ∈ hex_char <$> (N.of_nat <$> seq 0 16))
    (ascii_of_nat <$> seq 0 256)) as H.
  { apply (bool_decide_unpack _). vm_compute. exact I. }
  rewrite Forall_forall in H. apply H; [|done]. apply list_elem_of_fmap. exists (nat_of_ascii c).
  split; [by rewrite ascii_nat_embedding|]. apply elem_of_seq. pose proof (nat_ascii_bounded c). lia.
Qed.

(** A decidable fact about every lower-case hexadecimal digit. *)
Lemma lower_hex_all (P : ascii → Prop) `{∀ c, Decision (P c)} c :
  bool_decide (Forall P (hex_char <$> (N.of_nat <$> seq 0 16))) = true → is_lower_hex c = true → P c.
Proof.
  intros HP%bool_decide_eq_true Hc%lower_hex_cases. rewrite Forall_forall in HP. auto.
Qed.

Lemma hex_pad_length w n : length (hex_pad w n) = w.
Proof. revert n. induction w as [|w IH]; intros n; simpl; [done|]. rewrite length_app, IH. simpl. lia. Qed.

Lemma hex_pad_lower w n : forallb is_lower_hex (hex_pad w n) = true.
Proof.
  revert n. induction w as [|w IH]; intros n; [done|]. cbn [hex_pad]. rewrite forallb_app, IH. cbn [forallb andb].
  destruct (hex_char_lower (n mod 16)) as [-> _]; [lia|done].
Qed.

Definition hex_fold (l : list ascii) (a : N) : N :=
  fold_left (λ a c, a * 16 + default 0 (hex_value c))%N l a.

Lemma hex_digits_lower l l2 b a :
  forallb is_lower_hex l = true → (l ≠ [] ∨ b = false) →
  hex_digits (l ++ l2) b a = hex_digits l2 false (hex_fold l a).
Proof.
  revert b a. induction l as [|c l IH]; intros b a Hl Hb; [by destruct Hb as [?| ->]|].
  apply andb_true_iff in Hl as [Hc Hl]. cbn [app hex_digits hex_fold fold_left].
  rewrite bool_decide_eq_false_2 by by apply (lower_hex_all (λ c, c ≠ "_"%char) c).
  destruct (hex_value c) as [d|] eqn:E; [rewrite IH by auto; done|].
  pose proof (lower_hex_all (λ c, hex_value c ≠ None) c) as H. by destruct H.
Qed.

Lemma hex_pad_fold l : forallb is_lower_hex l = true → hex_pad (length l) (hex_fold l 0) = l.
Proof.
  induction l as [|c l IH] using rev_ind; [done|]. rewrite forallb_app. cbn [forallb].
  intros [Hl Hc]%andb_true_iff. rewrite andb_true_r in Hc.
  rewrite length_app, Nat.add_comm. cbn [length Nat.add hex_pad].
  unfold hex_fold. rewrite fold_left_app. fold (hex_fold l 0). cbn [fold_left].
  assert (∃ d, (d < 16)%N ∧ c = hex_char d) as (d & Hd & ->).
  { apply lower_hex_cases, list_elem_of_fmap in Hc as (d & -> & (n & -> & Hn)%list_elem_of_fmap).
    apply elem_of_seq in Hn. exists (N.of_nat n). split; [lia|done]. }
  destruct (hex_char_lower d Hd) as [_ ->]. cbn [default]. change (id d) with d.
  replace ((hex_fold l 0 * 16 + d) / 16)%N with (hex_fold l 0) by lia.
  replace ((hex_fold l 0 * 16 + d) mod 16)%N with d by lia. by rewrite IH.
Qed.

Lemma hex_fold_bound l a : forallb is_lower_hex l = true → (hex_fold l a < (a + 1) * 16 ^ N.of_nat (length l))%N.
Proof.
  induction l as [|c l IH] using rev_ind; [simpl; lia|]. rewrite forallb_app. cbn [forallb].
  intros [Hl Hc]%andb_true_iff. rewrite andb_true_r in Hc. unfold hex_fold. rewrite fold_left_app.
  fold (hex_fold l a). cbn [fold_left]. specialize (IH Hl).
  assert (default 0 (hex_value c) < 16)%N as Hd.
  { by apply (lower_hex_all (λ c, default 0 (hex_value c) < 16)%N c). }
  rewrite length_app, Nat.add_comm. cbn [length Nat.add]. rewrite Nat2N.inj_succ, N.pow_succ_r'. nia.
Qed.

Definition hexdash (c : ascii) : bool := is_lower_hex c || bool_decide (c = "-"%char).

Lemma hexdash_all (P : ascii → Prop) `{∀ c, Decision (P c)} c :
  bool_decide (Forall P ("-"%char :: (hex_char <$> (N.of_nat <$> seq 0 16)))) = true → hexdash c = true → P c.
Proof.
  intros HP%bool_decide_eq_true Hc. apply Forall_cons in HP as [H0 H1].
  unfold hexdash in Hc. apply orb_true_iff in Hc as [Hc|Hc]; [|apply bool_decide_eq_true in Hc; by subst].
  apply lower_hex_cases in Hc. rewrite Forall_forall in H1. auto.
Qed.

(** [replace] finds nothing when the pattern's first character is absent. *)
Lemma remove_all_absent n p pat l :
  forallb (λ c, negb (bool_decide (c = p))) l = true → remove_all n (p :: pat) l = l.
Proof.
  revert l. induction n as [|n IH]; intros l Hl; [done|]. destruct l as [|c l]; [done|].
  cbn [remove_all fmap list_fmap drop_prefix]. apply andb_true_iff in Hl as [Hc Hl].
  destruct (N.eqb_spec (N_of_ascii c) (N_of_ascii p)) as [E|E].
  - apply (f_equal ascii_of_N) in E. rewrite !ascii_N_embedding in E. subst.
    by rewrite bool_decide_eq_true_2 in Hc.
  - by rewrite IH.
Qed.

Lemma lstrip_chars_head p l : (∀ c l', l = c :: l' → p c = false) → lstrip_chars p l = l.
Proof. destruct l as [|c l]; [done|]. intros H. simpl. by rewrite (H c l). Qed.

Lemma forallb_elem (p : ascii → bool) l c : forallb p l = true → c ∈ l → p c = true.
Proof. rewrite forallb_forall. intros H Hc%list_elem_of_In. auto. Qed.

Lemma strip_chars_none p l : forallb (λ c, negb (p c)) l = true → strip_chars p l = l.
Proof.
  intros Hl. unfold strip_chars. rewrite (lstrip_chars_head p l).
  - rewrite lstrip_chars_head; [apply reverse_involutive|]. intros c l' E.
    apply negb_true_iff, (forallb_elem _ _ _ Hl). apply elem_of_reverse. rewrite E. left.
  - intros c l' ->. simpl in Hl. apply andb_true_iff in Hl as [Hl _]. by apply negb_true_iff.
Qed.

Lemma forallb_impl (p q : ascii → bool) l :
  (∀ c, p c = true → q c = true) → forallb p l = true → forallb q l = true.
Proof. rewrite !forallb_forall. auto. Qed.

Lemma no_white_space c l : hexdash c = true → drop_any ws_sequences (c :: l) = None ∧ drop_any (reverse <$> ws_sequences) (c :: l) = None.
Proof.
  intros Hc. unfold ws_sequences.
  assert (∀ n : N, n ∈ (9 :: 10 :: 11 :: 12 :: 13 :: 28 :: 29 :: 30 :: 31 :: 32 :: 194 :: 225 :: 226 :: 227 :: 133 :: 160
     :: (N.of_nat <$> seq 128 48))%N → (N_of_ascii c =? n)%N = false) as H.
  { intros n Hn. apply N.eqb_neq.
    apply (hexdash_all (λ c, N_of_ascii c ≠ n) c); [|done].
    revert n Hn. apply Forall_forall. apply (bool_decide_unpack _). vm_compute. exact I. }
  split; cbn -[N.eqb]; rewrite !H by (apply (bool_decide_unpack _); vm_compute; exact I); done.
Qed.

Lemma strip_hex l : forallb hexdash l = true → strip (string_of_list_ascii l) = string_of_list_ascii l.
Proof.
  intros Hl. unfold strip. rewrite list_ascii_of_string_of_list_ascii.
  assert (∀ l', (∀ c r, l' = c :: r → hexdash c = true) →
    (∀ n, strip_with n ws_sequences l' = l') ∧ (∀ n, strip_with n (reverse <$> ws_sequences) l' = l')) as Hs.
  { intros [|c l'] H; [split; by intros [|]|]. destruct (no_white_space c l' (H c l' eq_refl)) as [H1 H2].
    split; intros [|n]; cbn [strip_with]; rewrite ?H1, ?H2; done. }
  destruct (Hs l) as [-> _].
  { intros c r ->. simpl in Hl. by apply andb_true_iff in Hl as [? _]. }
  destruct (Hs (reverse l)) as [_ ->].
  { intros c r E. apply (forallb_elem _ _ _ Hl). apply elem_of_reverse. rewrite E. left. }
  by rewrite reverse_involutive.
Qed.

Lemma filter_all (p : ascii → bool) l : forallb p l = true → List.filter p l = l.
Proof. induction l as [|c l IH]; [done|]. simpl. intros [-> Hl]%andb_true_iff. by rewrite IH. Qed.

Lemma forallb_take p n (l : list ascii) : forallb p l = true → forallb p (take n l) = true.
Proof. rewrite !forallb_forall. intros H x Hx%list_elem_of_In%elem_of_take. apply H, list_elem_of_In. naive_solver eauto using list_elem_of_lookup_2. Qed.
Lemma forallb_drop p n (l : list ascii) : forallb p l = true → forallb p (drop n l) = true.
Proof. revert l. induction n as [|n IH]; intros [|c l]; try done. simpl. intros [_ H]%andb_true_iff. auto. Qed.

Lemma dashes_chars h : forallb is_lower_hex h = true → forallb hexdash (uuid_dashes h) = true.
Proof.
  intros Hh. assert (forallb hexdash h = true) as Hd.
  { revert Hh. apply forallb_impl. intros c Hc. unfold hexdash. by rewrite Hc. }
  unfold uuid_dashes. rewrite !forallb_app. simpl (forallb hexdash ["-"%char]).
  rewrite !forallb_take, forallb_drop by auto using forallb_drop. done.
Qed.

Lemma dashes_filter h : forallb is_lower_hex h = true → 
  List.filter (λ c, negb (bool_decide (c = "-"%char))) (uuid_dashes h) = h.
Proof.
  intros Hh. assert (forallb (λ c, negb (bool_decide (c = "-"%char))) h = true) as Hd.
  { revert Hh. apply forallb_impl. intros c Hc.
    by apply (lower_hex_all (λ c, negb (bool_decide (c = "-"%char)) = true) c). }
  unfold uuid_dashes. rewrite !List.filter_app. cbn [List.filter].
  rewrite (bool_decide_eq_true_2 ("-"%char = "-"%char)) by done. cbn [negb app].
  rewrite !filter_all by auto using forallb_take, forallb_drop.
  assert (∀ a b, take a (drop b h) ++ drop (b + a) h = drop b h) as Hj.
  { intros a b. rewrite <- drop_drop. apply take_drop. }
  change 20 with (16 + 4). rewrite Hj. change 16 with (12 + 4). rewrite Hj.
  change 12 with (8 + 4). rewrite Hj. apply take_drop.
Qed.

Lemma int16_hex h : length h = 32 → forallb is_lower_hex h = true → int16 h = Some (Z.of_N (hex_fold h 0)).
Proof.
  intros Hlen Hh. unfold int16. rewrite strip_hex.
  2: { revert Hh. apply forallb_impl. intros c Hc. unfold hexdash. by rewrite Hc. }
  rewrite list_ascii_of_string_of_list_ascii. destruct h as [|c1 [|c2 h]]; [done..|].
  pose proof Hh as (H1 & (H2 & _)%andb_true_iff)%andb_true_iff.
  cbn [drop_sign].
  rewrite !bool_decide_eq_false_2 by (by apply (lower_hex_all (λ c, c ≠ "-"%char) c1) || by apply (lower_hex_all (λ c, c ≠ "+"%char) c1)).
  cbn [drop_0x]. rewrite (bool_decide_eq_false_2 (c2 = "x"%char)), (bool_decide_eq_false_2 (c2 = "X"%char)), andb_false_r
    by (by apply (lower_hex_all (λ c, c ≠ "x"%char) c2) || by apply (lower_hex_all (λ c, c ≠ "X"%char) c2)).
  pose proof (hex_digits_lower (c1 :: c2 :: h) [] true 0 Hh) as Hd. rewrite app_nil_r in Hd.
  rewrite Hd by by left. cbn [hex_digits fmap option_fmap option_map]. f_equal. lia.
Qed.

Lemma uuid_int_dashes h :
  length h = 32 → forallb is_lower_hex h = true →
  uuid_int (string_of_list_ascii (uuid_dashes h)) = Some (Z.of_N (hex_fold h 0)).
Proof.
  intros Hlen Hh. pose proof (dashes_chars h Hh) as Hd. unfold uuid_int.
  rewrite list_ascii_of_string_of_list_ascii. simpl (list_ascii_of_string _).
  assert (∀ n pat, remove_all n ("u"%char :: pat) (uuid_dashes h) = uuid_dashes h) as Hr.
  { intros n pat. apply remove_all_absent. revert Hd. apply forallb_impl. intros c Hc.
    by apply (hexdash_all (λ c, negb (bool_decide (c = "u"%char)) = true) c). }
  rewrite !Hr.
  rewrite strip_chars_none.
  2: { revert Hd; apply forallb_impl; intros c Hc.
    by apply (hexdash_all (λ c, negb (bool_decide (c = "{"%char) || bool_decide (c = "}"%char)) = true) c). }
  rewrite dashes_filter, int16_hex by done. rewrite str_len_ascii, Hlen.
  2: { revert Hh; apply forallb_impl; intros c Hc. by apply (lower_hex_all (λ c, is_ascii c = true) c). }
  pose proof (hex_fold_bound h 0 Hh) as Hb. rewrite Hlen in Hb.
  cbn [negb Nat.eqb]. replace ((0 <=? _) && (_ <? _))%Z with true; [done|]. symmetry.
  apply andb_true_iff. split; [lia|]. apply Z.ltb_lt. change (2 ^ 128)%Z with (Z.of_N (16 ^ 32)).
  change (N.of_nat 32) with 32%N in Hb. lia.
Qed.

(** A canonical UUID is 32 lower-case hexadecimal digits, dashed 8-4-4-4-12. *)
Definition canonical (v : string) : Prop :=
  ∃ h, length h = 32 ∧ forallb is_lower_hex h = true ∧ v = string_of_list_ascii (uuid_dashes h).

Lemma canonical_uuid_ok missing field v s :
  canonical_uuid missing field (JStr v) = Ok s ↔ s = v ∧ canonical v.
Proof.
  unfold canonical_uuid. split.
  - destruct (uuid_int v) as [n|]; [|done]. case_bool_decide as E; [|done]. intros [= <-]. split; [done|].
    exists (hex_pad 32 (Z.to_N n)). split_and!; [apply hex_pad_length|apply hex_pad_lower|by rewrite <- E].
  - intros [-> (h & Hlen & Hh & ->)]. rewrite uuid_int_dashes by done. unfold uuid_str. rewrite N2Z.id.
    pose proof (hex_pad_fold h Hh) as Hp. rewrite Hlen in Hp. rewrite Hp. by rewrite bool_decide_eq_true_2.
Qed.

(** C4: the wire encodings are canonical.  The request and the signature
    decoder accept a value exactly when it is the non-empty base64url spelling
    of some bytes, and return those bytes; the identifier check accepts a
    value exactly when it is a UUID in lower-case 8-4-4-4-12 form.  So no two
    accepted spellings denote one value. *)
Theorem wire_encodings_canonical field v :
  (∀ b, request_base64url field (JStr v) = Ok b ↔ v ≠ ""%string ∧ v = string_of_list_ascii (b64url_encode b)) ∧
  (∀ b, signature_base64url (JStr v) = Ok b ↔ v ≠ ""%string ∧ v = string_of_list_ascii (b64url_encode b)) ∧
  (∀ missing s, canonical_uuid missing field (JStr v) = Ok s ↔ s = v ∧ canonical v).
Proof.
  split_and!; intros.
  - apply decode_base64url_ok.
  - apply decode_base64url_ok.
  - apply canonical_uuid_ok.
Qed.
