(* ===== verification/Json.v ===== *)
(** * JSON as the Host writes it

    [json.dumps(value, sort_keys=True, separators=(",", ":"), ensure_ascii=...)]
    over the documents the code builds: the bytes that are signed
    ([bootstrap/controller_auth.py], [HostIdentityManager.sign_mapping] of
    [bootstrap/identity.py]) and measured ([bootstrap/endpoint_encoding.py]). *)

From Stdlib Require Import ZifyBool ZifyN.
From S2P Require Import Prelude Encoding.

(** ** Strings *)

Definition quote_char : ascii := ascii_of_N 34.
Definition backslash : ascii := ascii_of_N 92.
Definition hex4 (n : N) : list ascii := backslash :: "u"%char :: hex_pad 4 n.

(** The escapes both modes share. *)
Definition escape_common (n : N) : option (list ascii) :=
  if (n =? 34)%N then Some [backslash; quote_char]
  else if (n =? 92)%N then Some [backslash; backslash]
  else if (n =? 10)%N then Some [backslash; "n"%char]
  else if (n =? 13)%N then Some [backslash; "r"%char]
  else if (n =? 9)%N then Some [backslash; "t"%char]
  else if (n =? 8)%N then Some [backslash; "b"%char]
  else if (n =? 12)%N then Some [backslash; "f"%char]
  else if (n <? 32)%N then Some (hex4 n)
  else None.

(** [ensure_ascii=False]: UTF-8 bytes above 127 stand for themselves. *)
Definition escape_utf8 (l : list ascii) : list ascii :=
  l ≫= λ c, default [c] (escape_common (N_of_ascii c)).

(** The code points of a UTF-8 string. *)
Fixpoint utf8_decode (l : list ascii) : list N :=
  match l with
  | [] => []
  | a :: l1 =>
      let n := N_of_ascii a in
      if (n <? 128)%N then n :: utf8_decode l1
      else match l1 with
      | b :: l2 =>
          let cont c := (N_of_ascii c mod 64)%N in
          if (n <? 224)%N then (n mod 32 * 64 + cont b)%N :: utf8_decode l2
          else match l2 with
          | c :: l3 =>
              if (n <? 240)%N then (n mod 16 * 4096 + cont b * 64 + cont c)%N :: utf8_decode l3
              else match l3 with
              | d :: l4 => (n mod 8 * 262144 + cont b * 4096 + cont c * 64 + cont d)%N :: utf8_decode l4
              | [] => []
              end
          | [] => []
          end
      | [] => []
      end
  end.

(** [ensure_ascii=True]: everything outside [' '..'~'], by surrogates above the
    basic plane. *)
Definition escape_code_point (n : N) : list ascii :=
  match escape_common n with
  | Some e => e
  | None =>
      if (n <? 127)%N then [ascii_of_N n]
      else if (n <? 65536)%N then hex4 n
      else let v := (n - 65536)%N in
           hex4 (55296 + v / 1024)%N ++ hex4 (56320 + v mod 1024)%N
  end.
Definition escape_ascii (l : list ascii) : list ascii := utf8_decode l ≫= escape_code_point.

Definition json_string (ensure_ascii : bool) (s : string) : list ascii :=
  let l := list_ascii_of_string s in
  quote_char :: (if ensure_ascii then escape_ascii l else escape_utf8 l) ++ [quote_char].

(** ** Documents *)

Fixpoint join_comma (l : list (list ascii)) : list ascii :=
  match l with
  | [] => []
  | [x] => x
  | x :: l' => x ++ ","%char :: join_comma l'
  end.

Definition key_le (a b : string * list ascii) : bool := str_leb a.1 b.1.

(** Members are sorted by key at every level. *)
Fixpoint dumps (ensure_ascii : bool) (d : doc) : list ascii :=
  match d with
  | DNull => list_ascii_of_string "null"
  | DBool true => list_ascii_of_string "true"
  | DBool false => list_ascii_of_string "false"
  | DInt z => list_ascii_of_string (pretty z)
  | DStr s => json_string ensure_ascii s
  | DList l => "["%char :: join_comma (dumps ensure_ascii <$> l) ++ ["]"%char]
  | DObj kv =>
      "{"%char :: join_comma ((λ m, json_string ensure_ascii m.1 ++ ":"%char :: m.2) <$>
        sort_by key_le ((λ m, (m.1, dumps ensure_ascii m.2)) <$> kv)) ++ ["}"%char]
  end.

Example dumps_sample :
  string_of_list_ascii (dumps true (DObj [("b", DInt (-3)); ("a", DList [DNull; DBool true])])) =
  string_of_list_ascii (map ascii_of_nat
    [123; 34; 97; 34; 58; 91; 110; 117; 108; 108; 44; 116; 114; 117; 101; 93; 44; 34; 98; 34; 58; 45; 51; 125])%nat.
Proof. vm_compute. reflexivity. Qed.

(** ** Plain strings

    Printable ASCII without quote and backslash is written as it is, and a
    quoted plain string cannot be a proper prefix of another. *)

Definition plain_char (c : ascii) : bool :=
  let n := N_of_ascii c in (32 <=? n)%N && (n <? 127)%N && negb (n =? 34)%N && negb (n =? 92)%N.
Definition plain (s : string) : Prop := str_forallb plain_char s = true.

Lemma plain_escape l : forallb plain_char l = true → escape_ascii l = l.
Proof.
  unfold escape_ascii. induction l as [|c l IH]; [done|]. cbn [forallb]. intros [Hc Hl]%andb_true_iff.
  unfold plain_char in Hc. cbv zeta in Hc. cbn [utf8_decode].
  assert ((N_of_ascii c <? 128)%N = true) as -> by lia. cbn [mbind list_bind]. rewrite (IH Hl).
  unfold escape_code_point, escape_common.
  assert ((N_of_ascii c =? 34)%N = false ∧ (N_of_ascii c =? 92)%N = false ∧ (N_of_ascii c =? 10)%N = false ∧
    (N_of_ascii c =? 13)%N = false ∧ (N_of_ascii c =? 9)%N = false ∧ (N_of_ascii c =? 8)%N = false ∧
    (N_of_ascii c =? 12)%N = false ∧ (N_of_ascii c <? 32)%N = false ∧ (N_of_ascii c <? 127)%N = true)
    as (-> & -> & -> & -> & -> & -> & -> & -> & ->) by lia.
  by rewrite ascii_N_embedding.
Qed.

Lemma plain_escape_utf8 l : forallb plain_char l = true → escape_utf8 l = l.
Proof.
  unfold escape_utf8. induction l as [|c l IH]; [done|]. cbn [forallb]. intros [Hc Hl]%andb_true_iff.
  cbn [mbind list_bind]. rewrite (IH Hl). unfold plain_char in Hc. cbv zeta in Hc. unfold escape_common.
  assert ((N_of_ascii c =? 34)%N = false ∧ (N_of_ascii c =? 92)%N = false ∧ (N_of_ascii c =? 10)%N = false ∧
    (N_of_ascii c =? 13)%N = false ∧ (N_of_ascii c =? 9)%N = false ∧ (N_of_ascii c =? 8)%N = false ∧
    (N_of_ascii c =? 12)%N = false ∧ (N_of_ascii c <? 32)%N = false)
    as (-> & -> & -> & -> & -> & -> & -> & ->) by lia. done.
Qed.

Lemma json_string_mode s : plain s → json_string false s = json_string true s.
Proof. intros Hs. unfold json_string. by rewrite plain_escape, plain_escape_utf8. Qed.

Lemma plain_no_quote l : forallb plain_char l = true → quote_char ∉ l.
Proof.
  intros Hl Hq. pose proof (forallb_elem _ _ _ Hl Hq) as H. by vm_compute in H.
Qed.

Lemma quote_split (l1 l2 r1 r2 : list ascii) :
  quote_char ∉ l1 → quote_char ∉ l2 → l1 ++ quote_char :: r1 = l2 ++ quote_char :: r2 → l1 = l2 ∧ r1 = r2.
Proof.
  revert l2. induction l1 as [|c l1 IH]; intros [|d l2] H1 H2 E; simpl in E.
  - by injection E.
  - injection E as E _. exfalso. apply H2. rewrite E. left.
  - injection E as E _. exfalso. apply H1. rewrite <- E. left.
  - injection E as -> E. apply not_elem_of_cons in H1 as [_ H1], H2 as [_ H2].
    by destruct (IH l2 H1 H2 E) as [-> ->].
Qed.

Lemma json_string_plain s t r1 r2 :
  plain s → plain t → json_string true s ++ r1 = json_string true t ++ r2 → s = t ∧ r1 = r2.
Proof.
  unfold plain, str_forallb. intros Hs Ht E. unfold json_string in E. rewrite !plain_escape in E by done.
  cbn [app] in E. injection E as E. rewrite <- !app_assoc in E. cbn [app] in E.
  apply quote_split in E as [E1 E2]; [|by apply plain_no_quote..]. split; [|done].
  by rewrite <- (string_of_list_ascii_of_string s), <- (string_of_list_ascii_of_string t), E1.
Qed.
