(* ===== verification/Timestamp.v ===== *)
(** * Timestamps

    [_timestamp] of the bootstrap modules, [value.isoformat().replace("+00:00",
    "Z")] on an aware UTC datetime.  A datetime is its microseconds since
    0001-01-01T00:00:00Z; the calendar is the standard library's [_ord2ymd].
    The stores compare these strings to decide expiry and order. *)

From S2P Require Import Prelude.
#[local] Open Scope Z_scope.

(** ** The calendar *)

Definition MAX_DATETIME : Z := 3652059 * 86400000000.

Definition days_before_month (m : Z) : Z :=
  match m with
  | 1 => 0 | 2 => 31 | 3 => 59 | 4 => 90 | 5 => 120 | 6 => 151
  | 7 => 181 | 8 => 212 | 9 => 243 | 10 => 273 | 11 => 304 | 12 => 334 | _ => 365
  end.
Definition days_in_month (m : Z) : Z := days_before_month (m + 1) - days_before_month m.

(** Month and day of the zero-based day [n] of a year. *)
Definition month_day (leap : bool) (n : Z) : Z * Z :=
  let month := Z.shiftr (n + 50) 5 in
  let preceding := days_before_month month + Z.b2z ((2 <? month) && leap) in
  let '(month, preceding) :=
    if n <? preceding then
      (month - 1, preceding - (days_in_month (month - 1) + Z.b2z ((month - 1 =? 2) && leap)))
    else (month, preceding) in
  (month, n - preceding + 1).

(** [_ord2ymd] *)
Definition ord2ymd (n : Z) : Z * Z * Z :=
  let n := n - 1 in
  let '(n400, n) := (n / 146097, n mod 146097) in
  let '(n100, n) := (n / 36524, n mod 36524) in
  let '(n4, n) := (n / 1461, n mod 1461) in
  let '(n1, n) := (n / 365, n mod 365) in
  let year := n400 * 400 + 1 + n100 * 100 + n4 * 4 + n1 in
  if (n1 =? 4) || (n100 =? 4) then (year - 1, 12, 31)
  else
    let leap := (n1 =? 3) && (negb (n4 =? 24) || (n100 =? 3)) in
    let '(m, d) := month_day leap n in (year, m, d).

Record civil := mkCivil { year : Z; month : Z; day : Z; hour : Z; minute : Z; second : Z; microsecond : Z }.

Definition civil_of (t : Z) : civil :=
  let '(y, m, d) := ord2ymd (t / 86400000000 + 1) in
  let s := t mod 86400000000 / 1000000 in
  mkCivil y m d (s / 3600) (s mod 3600 / 60) (s mod 60) (t mod 1000000).

(** ** [isoformat] *)

Fixpoint pad_dec (w : nat) (n : Z) : list ascii :=
  match w with
  | O => []
  | S w' => pad_dec w' (n / 10) ++ [ascii_of_N (48 + Z.to_N (n mod 10))]
  end.

Definition iso_seconds (c : civil) : list ascii :=
  pad_dec 4 c.(year) ++ "-"%char :: pad_dec 2 c.(month) ++ "-"%char :: pad_dec 2 c.(day) ++
  "T"%char :: pad_dec 2 c.(hour) ++ ":"%char :: pad_dec 2 c.(minute) ++ ":"%char :: pad_dec 2 c.(second).

(** The fraction is left out when it is zero. *)
Definition iso_fraction (us : Z) : list ascii :=
  if us =? 0 then [] else "."%char :: pad_dec 6 us.

Definition timestamp (t : Z) : string :=
  let c := civil_of t in
  string_of_list_ascii (iso_seconds c ++ iso_fraction c.(microsecond) ++ ["Z"%char]).

Example timestamp_2026 : timestamp (739737 * 86400000000 + 43200000001) = "2026-05-02T12:00:00.000001Z"%string.
Proof. vm_compute. reflexivity. Qed.

(** [now + timedelta(seconds=s)] *)
Definition plus_seconds (t s : Z) : Z := t + s * 1000000.

#[global] Arguments timestamp : simpl never.

(** ** Order *)

Definition days_before_year (y : Z) : Z :=
  (y - 1) * 365 + (y - 1) / 4 - (y - 1) / 100 + (y - 1) / 400.
Definition is_leap (y : Z) : bool := (y mod 4 =? 0) && (negb (y mod 100 =? 0) || (y mod 400 =? 0)).
Definition ymd2ord (y m d : Z) : Z :=
  days_before_year y + days_before_month m + Z.b2z ((2 <? m) && is_leap y) + d.
Definition month_length (y m : Z) : Z := days_in_month m + Z.b2z ((m =? 2) && is_leap y).

Lemma month_day_spec leap n :
  0 <= n < 365 + Z.b2z leap →
  let '(m, d) := month_day leap n in
  1 <= m <= 12 ∧ 1 <= d <= days_in_month m + Z.b2z ((m =? 2) && leap) ∧
  days_before_month m + Z.b2z ((2 <? m) && leap) + d = n + 1.
Proof.
  intros Hn.
  assert (Forall (λ n, (λ leap, 0 <= n < 365 + Z.b2z leap → let '(m, d) := month_day leap n in
    1 <= m <= 12 ∧ 1 <= d <= days_in_month m + Z.b2z ((m =? 2) && leap) ∧
    days_before_month m + Z.b2z ((2 <? m) && leap) + d = n + 1) leap) (Z.of_nat <$> seq 0 366)) as H.
  { apply Forall_forall. intros k (i & -> & Hi)%list_elem_of_fmap.
    assert (forallb (λ leap, forallb (λ i, let n := Z.of_nat i in let '(m, d) := month_day leap n in
      (1 <=? m) && (m <=? 12) && (1 <=? d) && (d <=? days_in_month m + Z.b2z ((m =? 2) && leap)) &&
      (days_before_month m + Z.b2z ((2 <? m) && leap) + d =? n + 1) || (365 + Z.b2z leap <=? n)) (seq 0 366))
      [true; false] = true) as Hc by (vm_compute; reflexivity).
    rewrite forallb_forall in Hc. specialize (Hc leap). rewrite forallb_forall in Hc.
    intros Hb. assert (In leap [true; false]) as Hl by (destruct leap; simpl; auto).
    specialize (Hc Hl i). cbv zeta in Hc. destruct (month_day leap (Z.of_nat i)) as [m d].
    rewrite list_elem_of_In in Hi. specialize (Hc Hi). lia. }
  rewrite Forall_forall in H. apply (H n); [|done]. apply list_elem_of_fmap. exists (Z.to_nat n).
  split; [lia|]. apply elem_of_seq. destruct leap; simpl in Hn; lia.
Qed.

Ltac Zify.zify_post_hook ::= Z.to_euclidean_division_equations.

Lemma year_split a b c e :
  0 <= a → 0 <= b <= 3 → 0 <= c <= 24 → 0 <= e <= 3 →
  let y := 400 * a + 100 * b + 4 * c + e + 1 in
  days_before_year y = 146097 * a + 36524 * b + 1461 * c + 365 * e ∧
  is_leap y = (e =? 3) && (negb (c =? 24) || (b =? 3)).
Proof.
  intros Ha Hb Hc He y. unfold days_before_year, is_leap.
  assert ((y - 1) / 4 = 100 * a + 25 * b + c) as -> by (unfold y; lia).
  assert ((y - 1) / 100 = 4 * a + b) as -> by (unfold y; lia).
  assert ((y - 1) / 400 = a) as -> by (unfold y; lia). split; [unfold y; lia|].
  assert (y mod 4 = (e + 1) mod 4) as -> by (unfold y; lia).
  assert (y mod 100 = (4 * c + e + 1) mod 100) as -> by (unfold y; lia).
  assert (y mod 400 = (100 * b + 4 * c + e + 1) mod 400) as -> by (unfold y; lia).
  clear y. lia.
Qed.

Lemma ord2ymd_spec n :
  1 <= n → let '(y, m, d) := ord2ymd n in
  1 <= y ∧ 1 <= m <= 12 ∧ 1 <= d <= month_length y m ∧ ymd2ord y m d = n.
Proof.
  intros Hn. unfold ord2ymd. set (k := n - 1).
  set (a := k / 146097). set (r1 := k mod 146097). set (b := r1 / 36524). set (r2 := r1 mod 36524).
  set (c := r2 / 1461). set (r3 := r2 mod 1461). set (e := r3 / 365). set (r := r3 mod 365).
  assert (0 <= a ∧ 0 <= r1 < 146097 ∧ k = 146097 * a + r1) as (? & ? & ?) by (unfold a, r1, k; lia).
  assert (0 <= b <= 4 ∧ 0 <= r2 < 36524 ∧ r1 = 36524 * b + r2) as (? & ? & ?) by (unfold b, r2; lia).
  assert (0 <= c <= 24 ∧ 0 <= r3 < 1461 ∧ r2 = 1461 * c + r3) as (? & ? & ?) by (unfold c, r3; lia).
  assert (0 <= e <= 4 ∧ 0 <= r < 365 ∧ r3 = 365 * e + r) as (? & ? & ?) by (unfold e, r; lia).
  assert (n = k + 1) as Hk by (unfold k; lia).
  clearbody a r1 b r2 c r3 e r k. subst n.
  destruct ((e =? 4) || (b =? 4)) eqn:E.
  - assert (∃ b' c', 0 <= b' <= 3 ∧ 0 <= c' <= 24 ∧ 400 * a + 1 + 100 * b + 4 * c + e - 1 = 400 * a + 100 * b' + 4 * c' + 3 + 1
      ∧ k = 146097 * a + 36524 * b' + 1461 * c' + 1460 ∧ (c' = 24 → b' = 3)) as (b' & c' & Hb' & Hc' & Hy & Hk & Hl).
    { apply orb_true_iff in E. destruct (Z.eqb_spec b 4) as [->|].
      - exists 3, 24. lia.
      - exists b, c. lia. }
    replace (a * 400 + 1 + b * 100 + c * 4 + e - 1) with (400 * a + 100 * b' + 4 * c' + 3 + 1) by lia.
    destruct (year_split a b' c' 3) as [Hd Hlp]; [lia..|]. unfold month_length, ymd2ord. rewrite Hd, Hlp.
    replace ((3 =? 3) && (negb (c' =? 24) || (b' =? 3))) with true
      by (destruct (Z.eqb_spec c' 24), (Z.eqb_spec b' 3); (reflexivity || lia)).
    cbn. change (days_in_month 12) with 31. lia.
  - apply orb_false_iff in E as [E1 E2].
    replace (a * 400 + 1 + b * 100 + c * 4 + e) with (400 * a + 100 * b + 4 * c + e + 1) by lia.
    destruct (year_split a b c e) as [Hd Hlp]; [lia..|]. rewrite <- Hlp.
    pose proof (month_day_spec (is_leap (400 * a + 100 * b + 4 * c + e + 1)) r) as Hm.
    destruct (month_day _ r) as [m d]. destruct Hm as (Hm & Hdd & Hs).
    { destruct (is_leap _); simpl; lia. }
    unfold month_length, ymd2ord. rewrite Hd. split_and!; lia.
Qed.

(** Field-wise order is order of days. *)
Lemma days_before_year_mono y1 y2 : y1 < y2 → days_before_year y1 + 365 + Z.b2z (is_leap y1) <= days_before_year y2.
Proof.
  intros Hy. assert (∀ y, days_before_year (y + 1) = days_before_year y + 365 + Z.b2z (is_leap y)) as Hs.
  { intros y. unfold days_before_year, is_leap. replace (y + 1 - 1) with y by lia.
    destruct (Z.eqb_spec (y mod 4) 0), (Z.eqb_spec (y mod 100) 0), (Z.eqb_spec (y mod 400) 0); cbn; lia. }
  replace y2 with (y1 + 1 + Z.of_nat (Z.to_nat (y2 - y1 - 1))) by lia.
  induction (Z.to_nat (y2 - y1 - 1)) as [|n IH]; [rewrite Z.add_0_r, Hs; lia|].
  replace (y1 + 1 + Z.of_nat (S n)) with (y1 + 1 + Z.of_nat n + 1) by lia. rewrite Hs.
  destruct (is_leap (y1 + 1 + Z.of_nat n)); simpl; lia.
Qed.

Lemma month_mono y m1 m2 : 1 <= m1 → m1 < m2 → m2 <= 12 →
  days_before_month m1 + Z.b2z ((2 <? m1) && is_leap y) + month_length y m1 <=
  days_before_month m2 + Z.b2z ((2 <? m2) && is_leap y).
Proof.
  intros H1 H12 H2. unfold month_length.
  assert (forallb (λ leap, forallb (λ i, forallb (λ j, let m1 := Z.of_nat i in let m2 := Z.of_nat j in
    (m2 <=? m1) || (days_before_month m1 + Z.b2z ((2 <? m1) && leap) + (days_in_month m1 + Z.b2z ((m1 =? 2) && leap)) <=?
      days_before_month m2 + Z.b2z ((2 <? m2) && leap))) (seq 1 12)) (seq 1 12)) [true; false] = true) as H
    by (vm_compute; reflexivity).
  rewrite forallb_forall in H. specialize (H (is_leap y)). rewrite forallb_forall in H.
  assert (In (is_leap y) [true; false]) as Hl by (destruct (is_leap y); simpl; auto).
  specialize (H Hl (Z.to_nat m1)). rewrite forallb_forall in H.
  specialize (H ltac:(apply in_seq; lia) (Z.to_nat m2) ltac:(apply in_seq; lia)). cbv zeta in H.
  rewrite !Z2Nat.id in H by lia. lia.
Qed.

Lemma civil_bounds t :
  0 <= t → let c := civil_of t in
  1 <= c.(year) ∧ 1 <= c.(month) <= 12 ∧ 1 <= c.(day) <= month_length c.(year) c.(month) ∧
  ymd2ord c.(year) c.(month) c.(day) = t / 86400000000 + 1 ∧
  0 <= c.(hour) < 24 ∧ 0 <= c.(minute) < 60 ∧ 0 <= c.(second) < 60 ∧
  c.(hour) * 3600 + c.(minute) * 60 + c.(second) = t mod 86400000000 / 1000000 ∧
  c.(microsecond) = t mod 1000000.
Proof.
  intros Ht. unfold civil_of. pose proof (ord2ymd_spec (t / 86400000000 + 1)) as H.
  destruct (ord2ymd _) as [[y m] d]. cbn [year month day hour minute second microsecond].
  destruct H as (? & ? & ? & ?); [lia|].
  set (s := t mod 86400000000 / 1000000). assert (0 <= s < 86400) by (unfold s; lia). clearbody s.
  split_and!; try done; lia.
Qed.

Lemma month_length_bound y m : 1 <= m <= 12 → month_length y m <= 31.
Proof.
  intros Hm. unfold month_length.
  assert (m = 1 ∨ m = 2 ∨ m = 3 ∨ m = 4 ∨ m = 5 ∨ m = 6 ∨ m = 7 ∨ m = 8 ∨ m = 9 ∨ m = 10 ∨ m = 11 ∨ m = 12) as Hc by lia.
  destruct_or! Hc; subst; destruct (is_leap y); apply Z.leb_le; reflexivity.
Qed.

Definition cmp_then (a b : comparison) : comparison := match a with Eq => b | r => r end.

(** Lexicographic order of the six fields. *)
Definition fields_compare (c1 c2 : civil) : comparison :=
  cmp_then (c1.(year) ?= c2.(year)) (cmp_then (c1.(month) ?= c2.(month)) (cmp_then (c1.(day) ?= c2.(day))
    (cmp_then (c1.(hour) ?= c2.(hour)) (cmp_then (c1.(minute) ?= c2.(minute)) (c1.(second) ?= c2.(second)))))).

Lemma fields_lt t1 t2 :
  0 <= t1 → t1 / 1000000 < t2 / 1000000 → fields_compare (civil_of t1) (civil_of t2) = Lt.
Proof.
  intros H1 H12. pose proof (civil_bounds t1 H1) as B1. pose proof (civil_bounds t2) as B2.
  cbv zeta in *. destruct (civil_of t1) as [y1 m1 d1 h1 i1 s1 u1], (civil_of t2) as [y2 m2 d2 h2 i2 s2 u2].
  cbn [year month day hour minute second microsecond] in *. destruct B1 as (? & ? & ? & O1 & ? & ? & ? & S1 & _).
  destruct B2 as (? & ? & ? & O2 & ? & ? & ? & S2 & _); [lia|].
  set (n1 := t1 / 86400000000) in *. set (n2 := t2 / 86400000000) in *.
  assert (n1 < n2 ∨ n1 = n2 ∧ t1 mod 86400000000 / 1000000 < t2 mod 86400000000 / 1000000) as Hn by (unfold n1, n2; lia).
  rewrite <- S1, <- S2 in Hn. clear S1 S2 H12. clearbody n1 n2. unfold fields_compare. simpl. unfold ymd2ord in *.
  destruct (Z.compare_spec y1 y2) as [->|Hy|Hy]; [|done|].
  - destruct (Z.compare_spec m1 m2) as [->|Hm|Hm]; [|done|].
    + destruct (Z.compare_spec d1 d2) as [->|Hd|Hd]; [|done|lia]. simpl.
      destruct (Z.compare_spec h1 h2), (Z.compare_spec i1 i2), (Z.compare_spec s1 s2); simpl; (done || lia).
    + pose proof (month_mono y2 m2 m1). lia.
  - pose proof (days_before_year_mono y2 y1 Hy). pose proof (days_before_year_mono y2 (y2 + 1)).
    assert (days_before_month m2 + Z.b2z ((2 <? m2) && is_leap y2) + month_length y2 m2 <= 365 + Z.b2z (is_leap y2)) as Hend.
    { pose proof (month_mono y2 m2 12). destruct (decide (m2 = 12)) as [->|]; [|].
      - unfold month_length. change (days_in_month 12) with 31. change (days_before_month 12) with 334.
        destruct (is_leap y2); simpl; lia.
      - assert (days_before_month 12 = 334) as E by done. rewrite E in *. destruct (is_leap y2); simpl in *; lia. }
    assert (0 <= days_before_month m1).
    { unfold days_before_month. repeat case_match; lia. }
    destruct ((2 <? m1) && is_leap y1); simpl in *; lia.
Qed.

Lemma fields_eq t1 t2 :
  t1 / 1000000 = t2 / 1000000 → iso_seconds (civil_of t1) = iso_seconds (civil_of t2).
Proof.
  intros E. unfold civil_of.
  assert (t1 / 86400000000 = t2 / 86400000000) as -> by lia.
  assert (t1 mod 86400000000 / 1000000 = t2 mod 86400000000 / 1000000) as -> by lia.
  by destruct (ord2ymd _) as [[? ?] ?].
Qed.

(** ** Strings *)

Abbreviation scmp a b := (String.compare (string_of_list_ascii a) (string_of_list_ascii b)).

Lemma scmp_app a b x y : length a = length b → scmp (a ++ x) (b ++ y) = cmp_then (scmp a b) (scmp x y).
Proof.
  revert b. induction a as [|c a IH]; intros [|d b]; try done. intros [= Hl].
  cbn [app string_of_list_ascii]. rewrite !str_compare_cons, IH by done. by destruct (Ascii.compare c d).
Qed.

Lemma scmp_refl a : scmp a a = Eq.
Proof. apply str_compare_refl. Qed.

Lemma scmp_sep c x y : scmp (c :: x) (c :: y) = scmp x y.
Proof. cbn [string_of_list_ascii]. by rewrite str_compare_cons, ascii_compare_refl. Qed.

Lemma pad_dec_length w n : length (pad_dec w n) = w.
Proof. revert n. induction w as [|w IH]; intros n; [done|]. simpl. rewrite length_app, IH. simpl. lia. Qed.

Lemma pad_dec_compare w a b :
  0 <= a < 10 ^ Z.of_nat w → 0 <= b < 10 ^ Z.of_nat w → scmp (pad_dec w a) (pad_dec w b) = (a ?= b).
Proof.
  revert a b. induction w as [|w IH]; intros a b Ha Hb.
  { simpl in *. replace a with b by lia. by rewrite Z.compare_refl. }
  rewrite Nat2Z.inj_succ, Z.pow_succ_r in Ha, Hb by lia. set (p := 10 ^ Z.of_nat w) in *.
  cbn [pad_dec]. rewrite scmp_app by by rewrite !pad_dec_length. rewrite IH by lia.
  cbn [string_of_list_ascii]. rewrite str_compare_cons. unfold Ascii.compare.
  rewrite !N_ascii_embedding by lia.
  destruct (Z.compare_spec (a / 10) (b / 10)) as [E|E|E]; simpl.
  - destruct (N.compare_spec (48 + Z.to_N (a mod 10)) (48 + Z.to_N (b mod 10))); symmetry; simpl.
    + apply Z.compare_eq_iff. lia.
    + apply Z.compare_lt_iff. lia.
    + apply Z.compare_gt_iff. lia.
  - symmetry. apply Z.compare_lt_iff. lia.
  - symmetry. apply Z.compare_gt_iff. lia.
Qed.

Lemma iso_seconds_length c : length (iso_seconds c) = 19%nat.
Proof. unfold iso_seconds. repeat (rewrite length_app || cbn [length]). rewrite !pad_dec_length. done. Qed.

Lemma year_of_day y m d : 1 <= d → ymd2ord y m d <= 3652059 → y <= 9999.
Proof.
  intros Hd Ho. destruct (Z.le_gt_cases y 9999) as [|Hy]; [done|].
  pose proof (days_before_year_mono 9999 y Hy) as Hm.
  assert (days_before_year 9999 + 365 + Z.b2z (is_leap 9999) = 3652059) as E by (vm_compute; reflexivity).
  rewrite E in Hm. unfold ymd2ord in Ho.
  assert (0 <= days_before_month m) by (unfold days_before_month; repeat case_match; lia).
  assert (0 <= Z.b2z ((2 <? m) && is_leap y)) by (destruct (_ && _); simpl; lia). lia.
Qed.

Lemma year_bound t : 0 <= t < MAX_DATETIME → year (civil_of t) <= 9999.
Proof.
  intros Ht. destruct (civil_bounds t) as (_ & _ & H3 & H4 & _); [lia|].
  apply (year_of_day _ (month (civil_of t)) (day (civil_of t))); [lia|]. rewrite H4. unfold MAX_DATETIME in Ht. lia.
Qed.

Lemma iso_seconds_compare t1 t2 :
  0 <= t1 < MAX_DATETIME → 0 <= t2 < MAX_DATETIME →
  scmp (iso_seconds (civil_of t1)) (iso_seconds (civil_of t2)) = fields_compare (civil_of t1) (civil_of t2).
Proof.
  intros H1 H2. pose proof (year_bound _ H1). pose proof (year_bound _ H2).
  pose proof (civil_bounds t1) as B1. pose proof (civil_bounds t2) as B2. cbv zeta in *.
  destruct B1 as (? & ? & ? & _ & ? & ? & ? & _); [lia|]. destruct B2 as (? & ? & ? & _ & ? & ? & ? & _); [lia|].
  pose proof (month_length_bound (year (civil_of t1)) (month (civil_of t1))).
  pose proof (month_length_bound (year (civil_of t2)) (month (civil_of t2))).
  unfold iso_seconds, fields_compare.
  repeat first [rewrite scmp_app by (by rewrite !pad_dec_length) | rewrite scmp_sep].
  rewrite !pad_dec_compare by (simpl Z.of_nat; lia). done.
Qed.

Lemma fraction_compare u1 u2 :
  0 <= u1 < u2 → u2 < 1000000 →
  scmp (iso_fraction u1 ++ ["Z"%char]) (iso_fraction u2 ++ ["Z"%char]) = if u1 =? 0 then Gt else Lt.
Proof.
  intros H1 H2. unfold iso_fraction. destruct (Z.eqb_spec u2 0); [lia|].
  destruct (Z.eqb_spec u1 0); [done|]. cbn [app]. rewrite scmp_sep, scmp_app by by rewrite !pad_dec_length.
  rewrite pad_dec_compare by (simpl; lia). by rewrite (proj2 (Z.compare_lt_iff u1 u2)) by lia.
Qed.

(** Timestamps order instants, except inside one second.  Of two
    instants in datetime range the earlier has the smaller string, unless it
    falls on a whole second and the later one is in the same second: [isoformat]
    then leaves its fraction out, and the strings compare the other way
    round.  So an expiry comparison is off by less than a second. *)
Theorem timestamp_order t1 t2 :
  0 <= t1 < t2 → t2 < MAX_DATETIME →
  let inverted := (t1 / 1000000 =? t2 / 1000000) && (t1 mod 1000000 =? 0) in
  str_ltb (timestamp t1) (timestamp t2) = negb inverted ∧
  str_ltb (timestamp t2) (timestamp t1) = inverted.
Proof.
  intros H1 H2. cbv zeta. rewrite (str_ltb_leb (timestamp t2)).
  unfold str_ltb, str_leb, String.ltb, String.leb.
  assert (String.compare (timestamp t1) (timestamp t2) =
    if (t1 / 1000000 =? t2 / 1000000) && (t1 mod 1000000 =? 0) then Gt else Lt) as ->.
  { unfold timestamp. rewrite scmp_app by by rewrite !iso_seconds_length.
    destruct (Z.eqb_spec (t1 / 1000000) (t2 / 1000000)) as [E|E].
    - rewrite (fields_eq t1 t2 E), scmp_refl. cbn [cmp_then andb].
      destruct (civil_bounds t1) as (_ & _ & _ & _ & _ & _ & _ & _ & ->); [lia|].
      destruct (civil_bounds t2) as (_ & _ & _ & _ & _ & _ & _ & _ & ->); [lia|].
      apply fraction_compare; lia.
    - rewrite iso_seconds_compare, fields_lt by lia. done. }
  by destruct ((_ =? _) && _).
Qed.

Lemma timestamp_order_witness :
  let t1 := 739737 * 86400000000 in
  str_ltb (timestamp t1) (timestamp (t1 + 5)) = negb true ∧
  str_ltb (timestamp (t1 + 5)) (timestamp t1) = true.
Proof. apply (timestamp_order (739737 * 86400000000) (739737 * 86400000000 + 5)); unfold MAX_DATETIME; lia. Defined.
