(* ===== verification/Network.v ===== *)
(** * The network-change port and its in-memory adapter

    [bootstrap/ports/network_provisioning.py] as a type class over the
    adapter's state, and [bootstrap/adapters/network/memory.py]. *)

From S2P Require Import Prelude Domain.

Record NetworkChangeRequest := mkChange {
  nc_operation_id : string; nc_ssid : string; nc_passphrase : option string; nc_hidden : bool }.
Record WifiAccessPoint := mkAccessPoint { ap_ssid : string; ap_signal : Z; ap_secured : bool }.
Record NetworkProvisioningSnapshot := mkSnapshot {
  sn_state : NetworkState; sn_active_operation_id : option string;
  sn_current_ssid : option string; sn_staged_ssid : option string }.

Class NetworkProvisioning (N : Type) := {
  observes_host_network : bool;
  net_recover_interrupted : M N NetworkProvisioningSnapshot;
  net_scan : M N (list WifiAccessPoint);
  net_get_state : M N NetworkProvisioningSnapshot;
  net_begin_change : NetworkChangeRequest → M N NetworkProvisioningSnapshot;
  net_confirm : string → M N NetworkProvisioningSnapshot;
  net_rollback : string → M N NetworkProvisioningSnapshot;
  net_forget_all_wifi_profiles : M N NetworkProvisioningSnapshot }.

(** ** [InMemoryNetworkProvisioning] *)

Record InMemoryNetwork := mkNet {
  n_current_ssid : option string; n_previous_ssid : option string; n_staged_ssid : option string;
  n_active_operation_id : option string; n_state : NetworkState;
  n_access_points : list WifiAccessPoint }.

Definition net_init (current : option string) (aps : list WifiAccessPoint) : InMemoryNetwork :=
  mkNet current None None None
    (match current with Some _ => CONNECTED | None => UNCONFIGURED end) aps.

Definition net_snapshot (n : InMemoryNetwork) : NetworkProvisioningSnapshot :=
  mkSnapshot n.(n_state) n.(n_active_operation_id) n.(n_current_ssid) n.(n_staged_ssid).

Definition clear_operation (n : InMemoryNetwork) : InMemoryNetwork :=
  mkNet n.(n_current_ssid) None None None n.(n_state) n.(n_access_points).
Definition set_current (x : option string) (n : InMemoryNetwork) : InMemoryNetwork :=
  mkNet x n.(n_previous_ssid) n.(n_staged_ssid) n.(n_active_operation_id) n.(n_state) n.(n_access_points).
Definition set_n_state (st : NetworkState) (n : InMemoryNetwork) : InMemoryNetwork :=
  mkNet n.(n_current_ssid) n.(n_previous_ssid) n.(n_staged_ssid) n.(n_active_operation_id) st
    n.(n_access_points).
Definition state_of_ssid (x : option string) : NetworkState :=
  match x with Some _ => CONNECTED | None => UNCONFIGURED end.

(** Back to the previous network, as [rollback] and [recover_interrupted] do. *)
Definition restore_previous (n : InMemoryNetwork) : InMemoryNetwork :=
  let n := clear_operation (set_current n.(n_previous_ssid) n) in
  set_n_state (state_of_ssid n.(n_current_ssid)) n.

Definition mnet_recover_interrupted : M InMemoryNetwork NetworkProvisioningSnapshot :=
  active ← gets n_active_operation_id;
  match active with
  | Some _ => modify restore_previous
  | None => mret tt
  end ;;
  gets net_snapshot.

Definition mnet_scan : M InMemoryNetwork (list WifiAccessPoint) := gets n_access_points.
Definition mnet_get_state : M InMemoryNetwork NetworkProvisioningSnapshot := gets net_snapshot.

Definition mnet_begin_change (r : NetworkChangeRequest) : M InMemoryNetwork NetworkProvisioningSnapshot :=
  let operation_id := strip r.(nc_operation_id) in
  let ssid := strip r.(nc_ssid) in
  guard_py (bool_decide (operation_id = "")) (NetworkProvisioningError "operation_id is required") ;;
  guard_py (bool_decide (ssid = "")) (NetworkProvisioningError "ssid is required") ;;
  active ← gets n_active_operation_id;
  guard_py (bool_decide (is_Some active)) (NetworkProvisioningError "another network change is active") ;;
  modify (λ n, mkNet n.(n_current_ssid) n.(n_current_ssid) (Some ssid) (Some operation_id) STAGING
                 n.(n_access_points)) ;;
  gets net_snapshot.

Definition mnet_require_operation (operation_id : string) : M InMemoryNetwork unit :=
  active ← gets n_active_operation_id;
  guard_py (bool_decide (operation_id = "") || negb (bool_decide (active = Some operation_id)))
    (NetworkProvisioningError "network operation does not match").

Definition mnet_confirm (operation_id : string) : M InMemoryNetwork NetworkProvisioningSnapshot :=
  mnet_require_operation operation_id ;;
  modify (λ n, set_n_state CONNECTED (clear_operation (set_current n.(n_staged_ssid) n))) ;;
  gets net_snapshot.

Definition mnet_rollback (operation_id : string) : M InMemoryNetwork NetworkProvisioningSnapshot :=
  mnet_require_operation operation_id ;;
  modify restore_previous ;;
  gets net_snapshot.

Definition mnet_forget_all_wifi_profiles : M InMemoryNetwork NetworkProvisioningSnapshot :=
  modify (λ n, set_n_state UNCONFIGURED (clear_operation (set_current None n))) ;;
  gets net_snapshot.

#[global] Instance memory_network : NetworkProvisioning InMemoryNetwork := {
  observes_host_network := false;
  net_recover_interrupted := mnet_recover_interrupted;
  net_scan := mnet_scan;
  net_get_state := mnet_get_state;
  net_begin_change := mnet_begin_change;
  net_confirm := mnet_confirm;
  net_rollback := mnet_rollback;
  net_forget_all_wifi_profiles := mnet_forget_all_wifi_profiles }.

(** ** Laws *)

(** The link the adapter reports, and the change it holds, are consistent. *)
Definition net_wf (n : InMemoryNetwork) : Prop :=
  match n.(n_active_operation_id) with
  | Some _ => n.(n_state) = STAGING ∧ is_Some n.(n_staged_ssid)
  | None => n.(n_staged_ssid) = None ∧ n.(n_previous_ssid) = None ∧
            n.(n_state) = state_of_ssid n.(n_current_ssid)
  end.

Lemma net_init_wf current aps : net_wf (net_init current aps).
Proof. by destruct current. Qed.

Lemma restore_previous_wf n : net_wf (restore_previous n).
Proof. by destruct n. Qed.

Inductive net_call :=
| NBegin (r : NetworkChangeRequest) | NConfirm (oid : string) | NRollback (oid : string)
| NRecover | NForget.

Definition run_net_call (c : net_call) : M InMemoryNetwork NetworkProvisioningSnapshot :=
  match c with
  | NBegin r => mnet_begin_change r
  | NConfirm oid => mnet_confirm oid
  | NRollback oid => mnet_rollback oid
  | NRecover => mnet_recover_interrupted
  | NForget => mnet_forget_all_wifi_profiles
  end.

Lemma net_call_wf c n : net_wf n → net_wf (run_net_call c n).2.
Proof.
  intros Hn. destruct c; cbn [run_net_call].
  - unfold mnet_begin_change. cbv zeta. rewrite !bind_guard. do 2 (case_bool_decide; [done|]).
    mnorm. case_bool_decide; [done|]. split; [done|]. by eexists.
  - unfold mnet_confirm, mnet_require_operation. mnorm.
    destruct (bool_decide (oid = "")); [done|]. destruct (bool_decide (n_active_operation_id n = Some oid)) eqn:E; [|done].
    apply bool_decide_eq_true in E. unfold net_wf in Hn. rewrite E in Hn. destruct Hn as [_ [x Hx]].
    destruct n. cbn in *. by subst.
  - unfold mnet_rollback, mnet_require_operation. mnorm.
    destruct (_ || _); [done|]. apply restore_previous_wf.
  - unfold mnet_recover_interrupted. mnorm. destruct (n_active_operation_id n); mnorm; [apply restore_previous_wf|done].
  - done.
Qed.

Lemma net_history_wf history n :
  net_wf n → net_wf (foldl (λ n c, (run_net_call c n).2) n history).
Proof. revert n. induction history as [|c cs IH]; [done|]. intros n Hn. by apply IH, net_call_wf. Qed.

(** A successful stage followed by rollback or recovery restores the link; by
    confirmation, moves it. *)
Lemma stage_spec r n s n1 :
  net_wf n → mnet_begin_change r n = (Ok s, n1) →
  n.(n_active_operation_id) = None ∧ n1.(n_active_operation_id) = Some (strip r.(nc_operation_id)) ∧
  n1.(n_previous_ssid) = n.(n_current_ssid) ∧ n1.(n_staged_ssid) = Some (strip r.(nc_ssid)) ∧
  strip r.(nc_operation_id) ≠ "" ∧ restore_previous n1 = n.
Proof.
  intros Hn. unfold mnet_begin_change. cbv zeta. rewrite !bind_guard.
  do 2 (case_bool_decide; [done|]). mnorm. case_bool_decide as Ha; [done|]. intros [= <- <-].
  destruct n as [cur prev st act state aps]. cbn in *. destruct act; [by destruct Ha|].
  destruct Hn as (H1 & H2 & H3). cbn in *. subst. split_and!; try done.
Qed.

(** The network adapter is transactional.  After any history of calls, a
    stage that succeeds is undone exactly by [rollback] or by
    [recover_interrupted] (the link, the state and every field are as before),
    and completed by [confirm], which moves the link to the staged network;
    while it is pending no other change and no other operation's confirm or
    rollback has any effect. *)
Theorem network_change_transactional current aps history r s n1 :
  let n := foldl (λ n c, (run_net_call c n).2) (net_init current aps) history in
  mnet_begin_change r n = (Ok s, n1) →
  let oid := strip r.(nc_operation_id) in
  (mnet_rollback oid n1).2 = n ∧ (mnet_recover_interrupted n1).2 = n ∧
  (mnet_rollback oid n1).1 = Ok (net_snapshot n) ∧
  (∃ n2, mnet_confirm oid n1 = (Ok (net_snapshot n2), n2) ∧
    n2.(n_current_ssid) = Some (strip r.(nc_ssid)) ∧ n2.(n_state) = CONNECTED ∧
    n2.(n_active_operation_id) = None) ∧
  (∀ r', (mnet_begin_change r' n1).2 = n1) ∧
  (∀ oid', oid' ≠ oid → (mnet_confirm oid' n1).2 = n1 ∧ (mnet_rollback oid' n1).2 = n1).
Proof.
  intros n Hb oid.
  assert (net_wf n) as Hn.
  { apply net_history_wf, net_init_wf. }
  destruct (stage_spec _ _ _ _ Hn Hb) as (H0 & H1 & H2 & H3 & H4 & H5). fold oid in H1, H4.
  assert (∀ o, mnet_require_operation o n1 = if bool_decide (o = oid) then (Ok tt, n1)
    else (Raise (NetworkProvisioningError "network operation does not match"), n1)) as Hreq.
  { intros o. unfold mnet_require_operation. mnorm. rewrite H1. unfold guard_py. destruct (decide (o = oid)) as [->|Hne].
    - rewrite (bool_decide_eq_true_2 (Some oid = Some oid)), (bool_decide_eq_true_2 (oid = oid)) by done.
      by rewrite bool_decide_eq_false_2.
    - rewrite (bool_decide_eq_false_2 (o = oid)) by done. rewrite (bool_decide_eq_false_2 (Some oid = Some o)) by congruence.
      by rewrite orb_true_r. }
  assert (mnet_require_operation oid n1 = (Ok tt, n1)) as Hok by by rewrite Hreq, bool_decide_eq_true_2.
  unfold mnet_rollback, mnet_confirm, mnet_recover_interrupted. split_and!.
  - rewrite (bind_ok _ _ _ _ _ Hok). mnorm. done.
  - mnorm. by rewrite H1.
  - rewrite (bind_ok _ _ _ _ _ Hok). mnorm. unfold gets. by rewrite H5.
  - eexists. rewrite (bind_ok _ _ _ _ _ Hok). mnorm. split; [reflexivity|]. cbn. by rewrite H3.
  - intros r'. unfold mnet_begin_change. cbv zeta. rewrite !bind_guard. do 2 (case_bool_decide; [done|]).
    mnorm. by rewrite bool_decide_eq_true_2 by by rewrite H1.
  - intros o Ho. rewrite !(bind_raise _ _ n1 (NetworkProvisioningError "network operation does not match") n1);
      [done|..]; by rewrite Hreq, bool_decide_eq_false_2.
Qed.

Lemma network_change_transactional_witness :
  let n := net_init (Some "home") [] in
  let n1 := (mnet_begin_change (mkChange "op" " cafe " None false) n).2 in
  (mnet_rollback "op" n1).2 = n ∧ (mnet_recover_interrupted n1).2 = n ∧
  (mnet_rollback "op" n1).1 = Ok (net_snapshot n) ∧
  (∃ n2, mnet_confirm "op" n1 = (Ok (net_snapshot n2), n2) ∧
    n2.(n_current_ssid) = Some "cafe" ∧ n2.(n_state) = CONNECTED ∧ n2.(n_active_operation_id) = None) ∧
  (∀ r', (mnet_begin_change r' n1).2 = n1) ∧
  (∀ oid', oid' ≠ "op" → (mnet_confirm oid' n1).2 = n1 ∧ (mnet_rollback oid' n1).2 = n1).
Proof.
  apply (network_change_transactional (Some "home") [] [] (mkChange "op" " cafe " None false)
    (mkSnapshot STAGING (Some "op") (Some "home") (Some "cafe"))). reflexivity.
Defined.
