(* ===== verification/Commissioning.v ===== *)
(** * The commissioning state machine

    [bootstrap/commissioning_service.py]: what an authenticated setup session
    may do, over any state store and any network adapter.  [world] is
    everything a handler can touch: the store, the network, the clocks and the
    random sources of the Host.  Handlers that [await] the network are cut at
    that point, because another request may run there. *)

From S2P Require Import Prelude Domain StateStore Encoding Timestamp Network.

(** ** The world of a handler *)

(** What the operating system hands out, one reading per step: wall clock
    (microseconds), monotonic clock (microseconds), UUID4s, [randbelow]
    draws, [token_bytes]. *)
Record oracle := mkOracle {
  or_wall : nat → Z; or_mono : nat → Z; or_uuid : nat → string; or_draw : nat → N;
  or_token : nat → list ascii }.

Record world (S N : Type) := mkWorld { w_store : S; w_net : N; w_oracle : oracle; w_step : nat }.
Arguments mkWorld {S N}.
Arguments w_store {S N}.
Arguments w_net {S N}.
Arguments w_oracle {S N}.
Arguments w_step {S N}.

Section World.
Context {S N : Type}.
Definition put_store (s : S) (w : world S N) : world S N := mkWorld s w.(w_net) w.(w_oracle) w.(w_step).
Definition put_net (n : N) (w : world S N) : world S N := mkWorld w.(w_store) n w.(w_oracle) w.(w_step).
Definition put_step (i : nat) (w : world S N) : world S N := mkWorld w.(w_store) w.(w_net) w.(w_oracle) i.

Definition on_store {A} (c : M S A) : M (world S N) A := zoom w_store put_store c.
Definition on_net {A} (c : M N A) : M (world S N) A := zoom w_net put_net c.
Definition draw {A} (f : oracle → nat → A) : M (world S N) A := λ w,
  (Ok (f w.(w_oracle) w.(w_step)), put_step (w.(w_step) + 1) w).
(** [_timestamp(self._clock())] *)
Definition now_ts : M (world S N) string := t ← draw or_wall; mret (timestamp t).
End World.

(** ** Authorizations *)

Record CommissioningAuthorization := mkAuthorization { a_session_id : string; a_secret_hash : string }.
Inductive CommissioningAccess :=
| SetupAccess (a : CommissioningAuthorization)
| ControllerAccess (g : ControllerGrant).

(** [^ectrl-[0-9a-f]{20}$] *)
Definition is_controller_id (s : string) : bool :=
  let l := list_ascii_of_string s in
  bool_decide (take 6 l = list_ascii_of_string "ectrl-") && (length l =? 26)%nat &&
  forallb is_lower_hex (drop 6 l).

Definition rejected (code msg : string) : exn := CommissioningRequestRejected code msg.
Definition commissioning_denied : exn :=
  rejected "commissioning_denied" "Commissioning session is unavailable".
Definition controller_denied : exn :=
  rejected "controller_denied" "Controller is not authorized for this Host".

(** What [load_der_public_key] finds in DER bytes. *)
Inductive key_kind := P256 | OtherKey.

Definition str_take (n : nat) (s : string) : string :=
  string_of_list_ascii (take n (list_ascii_of_string s)).

Section Service.
Context {S N : Type} `{!BootstrapStateStore S} `{!NetworkProvisioning N}.
(** [hashlib.sha256(b).hexdigest()] and [load_der_public_key], which are not
    code of the repository. *)
Context (sha256_hex : list ascii → string) (load_der_public_key : list ascii → result key_kind).
(** The callback run after a committed claim. *)
Context (on_claimed : option (M (world S N) unit)).

Abbreviation W := (world S N).

Definition secret_hash (secret : string) : string := sha256_hex (list_ascii_of_string secret).

Definition check_supplied_id (v : json) (controller_id : string) : result unit :=
  match v with
  | JNull => Ok tt
  | JStr s =>
      if is_controller_id s && bool_decide (s = controller_id) then Ok tt
      else Raise (rejected "invalid_controller_key" "Controller ID does not match its public key")
  | _ => Raise (rejected "invalid_controller_key" "Controller ID does not match its public key")
  end.

Definition check_display_name (v : json) : result string :=
  match v with
  | JStr s =>
      let name := strip s in
      if bool_decide (name = "") then
        Raise (rejected "invalid_request" "Controller display_name is required")
      else if (80 <? str_len name)%nat then
        Raise (rejected "invalid_request" "Controller display_name is too long")
      else Ok name
  | _ => Raise (rejected "invalid_request" "Controller display_name is required")
  end.

(** [platform not in {"android", "ios"}]; an unhashable value raises. *)
Definition check_platform (v : json) : result string :=
  match v with
  | JList _ | JObj _ => Raise (TypeError "unhashable type")
  | JStr s =>
      if bool_decide (s = "android") || bool_decide (s = "ios") then Ok s
      else Raise (rejected "invalid_request" "Controller platform is unsupported")
  | _ => Raise (rejected "invalid_request" "Controller platform is unsupported")
  end.

Definition load_p256 (der : list ascii) : result unit :=
  match load_der_public_key der with
  | Ok P256 => Ok tt
  | Ok OtherKey => Raise (rejected "invalid_controller_key" "Controller key must be P-256")
  | Raise (ValueError _) =>
      Raise (rejected "invalid_controller_key" "Controller public key is not valid DER")
  | Raise e => Raise e
  end.

Definition controller_grant (payload : obj) (reset_epoch : Z) (created_at : string)
    : result ControllerGrant :=
  let encoded_key := obj_get "public_key" payload JNull in
  der ← request_base64url "public_key" encoded_key;
  _ ← load_p256 der;
  let digest := sha256_hex der in
  let controller_id := ("ectrl-" ++ str_take 20 digest)%string in
  _ ← check_supplied_id (obj_get "controller_id" payload JNull) controller_id;
  name ← check_display_name (obj_get "display_name" payload JNull);
  plat ← check_platform (obj_get "platform" payload JNull);
  Ok (mkGrant controller_id (match encoded_key with JStr k => k | _ => "" end)
        ("sha256:" ++ digest)%string HOST_ADMIN name plat reset_epoch created_at None).

Definition on_conflict {A} (e' : exn) (c : M W A) : M W A :=
  catch c (λ e, match e with BootstrapStateConflict _ => Some (raise e') | _ => None end).

Definition authorize (session_id secret : json) : M W CommissioningAuthorization :=
  match session_id, secret with
  | JStr sid, JStr code =>
      guard_py (bool_decide (sid = "")) commissioning_denied ;;
      guard_py (negb (is_usable_setup_code code)) commissioning_denied ;;
      t ← now_ts;
      on_conflict commissioning_denied
        (on_store (store_authorize_commissioning_session sid (secret_hash code) t) ;; mret tt) ;;
      mret (mkAuthorization sid (secret_hash code))
  | _, _ => raise commissioning_denied
  end.

Definition authorize_controller (controller_id : json) : M W ControllerGrant :=
  match controller_id with
  | JStr cid =>
      guard_py (negb (is_controller_id cid)) controller_denied ;;
      grant ← on_store (store_get_controller cid);
      st ← on_store store_get_state;
      match grant with
      | Some g =>
          guard_py (bool_decide (is_Some g.(g_revoked_at)) ||
                    negb (g.(g_reset_epoch) =? st.(reset_epoch))%Z ||
                    negb (bool_decide (g.(role) = HOST_ADMIN))) controller_denied ;;
          mret g
      | None => raise controller_denied
      end
  | _ => raise controller_denied
  end.

Definition require_authorized (a : CommissioningAccess) : M W unit :=
  match a with
  | ControllerAccess grant =>
      current ← on_store (store_get_controller grant.(controller_id));
      st ← on_store store_get_state;
      match current with
      | Some c =>
          guard_py (bool_decide (is_Some c.(g_revoked_at)) ||
                    negb (bool_decide (c.(public_key) = grant.(public_key))) ||
                    negb (c.(g_reset_epoch) =? st.(reset_epoch))%Z) controller_denied
      | None => raise controller_denied
      end
  | SetupAccess a =>
      t ← now_ts;
      on_conflict commissioning_denied
        (on_store (store_authorize_commissioning_session a.(a_session_id) a.(a_secret_hash) t) ;;
         mret tt)
  end.

Definition require_controller (a : CommissioningAccess) : M W unit :=
  match a with
  | ControllerAccess _ => mret tt
  | SetupAccess _ => raise (rejected "controller_denied" "Host Admin authorization is required")
  end.

Definition status (a : CommissioningAccess) : M W doc :=
  require_authorized a ;;
  st ← on_store store_get_state;
  mret (DObj [("state", BootstrapState_to_dict st)]).

(** The [unique] dictionary, in insertion order. *)
Definition unique_access_points (aps : list WifiAccessPoint) : list (string * WifiAccessPoint) :=
  foldl (λ d item,
    match dict_get item.(ap_ssid) d with
    | None => dict_set item.(ap_ssid) item d
    | Some previous =>
        if (previous.(ap_signal) <? item.(ap_signal))%Z then dict_set item.(ap_ssid) item d else d
    end) [] aps.

(** [key=lambda item: (-item.signal, item.ssid)] *)
Definition access_point_le (a b : WifiAccessPoint) : bool :=
  if (a.(ap_signal) =? b.(ap_signal))%Z then str_leb a.(ap_ssid) b.(ap_ssid)
  else (b.(ap_signal) <? a.(ap_signal))%Z.

Definition ordered_access_points (aps : list WifiAccessPoint) : list WifiAccessPoint :=
  sort_by access_point_le (unique_access_points aps).*2.

Definition access_point_to_dict (a : WifiAccessPoint) : doc :=
  DObj [("ssid", DStr a.(ap_ssid)); ("signal", DInt a.(ap_signal)); ("secured", DBool a.(ap_secured))].

Definition scan_networks (a : CommissioningAccess) : M W doc :=
  require_authorized a ;;
  current ← on_net net_get_state;
  access_points ← on_net net_scan;
  mret (DObj [("current_network", DObj [("state", DStr (NetworkState_value current.(sn_state)));
                                        ("ssid", dopt current.(sn_current_ssid))]);
              ("networks", DList (access_point_to_dict <$> ordered_access_points access_points))]).

(** [_operation_id] and [_ssid] *)
Definition operation_id_of (v : json) : result string := canonical_uuid " is required" "operation_id" v.
Definition ssid_of (v : json) : result string :=
  match v with
  | JStr s =>
      if bool_decide (s = "") then Raise (rejected "invalid_network" "SSID is required")
      else if negb ((1 <=? utf8_len s)%nat && (utf8_len s <=? 32)%nat) then
        Raise (rejected "invalid_network" "SSID must contain 1 to 32 UTF-8 bytes")
      else Ok s
  | _ => Raise (rejected "invalid_network" "SSID is required")
  end.

Definition passphrase_of (v : json) : result (option string) :=
  match v with
  | JNull => Ok None
  | JStr p =>
      if (8 <=? str_len p)%nat && (str_len p <=? 63)%nat then Ok (Some p)
      else Raise (rejected "invalid_network" "Wi-Fi passphrase must contain 8 to 63 characters")
  | _ => Raise (rejected "invalid_network" "Wi-Fi passphrase must be a string")
  end.

Definition hidden_of (v : json) : result bool :=
  match v with
  | JBool b => Ok b
  | _ => Raise (rejected "invalid_network" "hidden must be a boolean")
  end.

Definition operation_doc (o : BootstrapOperation) : doc :=
  DObj [("operation", BootstrapOperation_to_dict o)].

(** The [except] clause of [configure_network]. *)
Definition stage_failed {A} (created : bool) (oid : string) (previous : NetworkState) (e : exn)
    : option (M W A) :=
  let fail code msg : M W A :=
    (if created then
       t ← now_ts;
       on_store (store_update_operation oid FAILED
         (if bool_decide (previous = CONNECTED) then CONNECTED else DEGRADED) t (Some code)) ;;
       mret tt
     else mret tt) ;;
    raise (rejected code msg) in
  match e with
  | BootstrapStateConflict msg => Some (fail "operation_conflict" msg)
  | NetworkProvisioningError msg => Some (fail "network_stage_failed" msg)
  | _ => None
  end.

(** Up to the [await]: an answer at once, or the change to stage. *)
Definition configure_prepare (a : CommissioningAccess) (payload : obj)
    : M W (doc + (NetworkChangeRequest * NetworkState)) :=
  require_authorized a ;;
  require_controller a ;;
  oid ← lift (operation_id_of (obj_get "operation_id" payload JNull));
  ssid ← lift (ssid_of (obj_get "ssid" payload JNull));
  passphrase ← lift (passphrase_of (obj_get "passphrase" payload JNull));
  hidden ← lift (hidden_of (obj_get "hidden" payload (JBool false)));
  existing ← on_store (store_get_operation oid);
  match existing with
  | Some o =>
      guard_py (negb (bool_decide (o.(target) = ssid)))
        (rejected "operation_conflict" "operation_id is already in use") ;;
      mret (inl (operation_doc o))
  | None =>
      st ← on_store store_get_state;
      t ← now_ts;
      let operation := mkOperation oid CHANGE_NETWORK PENDING ssid st.(reset_epoch) t t None in
      catch (on_store (store_create_operation operation) ;; mret tt)
        (stage_failed false oid st.(network_state)) ;;
      catch (on_store (store_update_operation oid RUNNING STAGING t None) ;; mret tt)
        (stage_failed true oid st.(network_state)) ;;
      mret (inr (mkChange oid ssid passphrase hidden, st.(network_state)))
  end.

(** After it: the outcome of [begin_change] recorded. *)
Definition configure_finish (oid : string) (previous : NetworkState)
    (staged : result NetworkProvisioningSnapshot) : M W doc :=
  o ← catch (_ ← lift staged; t ← now_ts;
             on_store (store_update_operation oid WAITING_CONFIRMATION STAGING t None))
        (stage_failed true oid previous);
  mret (operation_doc o).

(** [try_net c] runs the awaited call and hands its outcome on. *)
Definition try_net {A} (c : M N A) : M W (result A) := λ w,
  let '(r, w') := on_net c w in (Ok r, w').

Definition configure_network (a : CommissioningAccess) (payload : obj) : M W doc :=
  p ← configure_prepare a payload;
  match p with
  | inl d => mret d
  | inr (r, previous) =>
      staged ← try_net (net_begin_change r);
      configure_finish r.(nc_operation_id) previous staged
  end.

(** The checks [confirm_network] and [rollback_network] share. *)
Definition find_operation (a : CommissioningAccess) (operation_id : json)
    : M W (string * BootstrapOperation) :=
  require_authorized a ;;
  require_controller a ;;
  oid ← lift (operation_id_of operation_id);
  o ← on_store (store_get_operation oid);
  match o with
  | None => raise (rejected "operation_not_found" "Network operation does not exist")
  | Some o => mret (oid, o)
  end.

Definition confirm_network (a : CommissioningAccess) (operation_id : json) : M W doc :=
  '(oid, o) ← find_operation a operation_id;
  match o.(o_state) with
  | SUCCEEDED => mret (operation_doc o)
  | WAITING_CONFIRMATION =>
      catch (on_net (net_confirm oid) ;; mret tt)
        (λ e, match e with
              | NetworkProvisioningError _ => Some (raise
                  (rejected "network_confirm_failed" "The staged Wi-Fi network is not connected"))
              | _ => None
              end) ;;
      t ← now_ts;
      o ← on_store (store_update_operation oid SUCCEEDED CONNECTED t None);
      mret (operation_doc o)
  | _ => raise (rejected "operation_conflict" "Network operation cannot be confirmed")
  end.

Definition rollback_network (a : CommissioningAccess) (operation_id : json) : M W doc :=
  '(oid, o) ← find_operation a operation_id;
  if bool_decide (o.(o_state) = FAILED) then mret (operation_doc o)
  else
    snapshot ← catch (t ← now_ts;
                      on_store (store_update_operation oid COMPENSATING ROLLING_BACK t None) ;;
                      on_net (net_rollback oid))
      (λ e, match e with
            | BootstrapStateConflict _ | NetworkProvisioningError _ => Some (raise
                (rejected "network_rollback_failed" "The Wi-Fi rollback did not complete"))
            | _ => None
            end);
    t ← now_ts;
    o ← on_store (store_update_operation oid FAILED snapshot.(sn_state) t (Some "cancelled"));
    mret (operation_doc o).

Definition claim_error (e : exn) : option exn :=
  match e with
  | BootstrapStateConflict reason =>
      Some (rejected (if bool_decide (reason = "commissioning session is unavailable")
                      then "commissioning_denied" else "operation_conflict") reason)
  | _ => None
  end.

Definition claim_controller (a : CommissioningAuthorization) (payload : obj) : M W doc :=
  st ← on_store store_get_state;
  t ← now_ts;
  grant ← lift (controller_grant payload st.(reset_epoch) t);
  grant ← catch (on_store (store_claim_controller a.(a_session_id) a.(a_secret_hash) grant t))
            (λ e, raise <$> claim_error e);
  match on_claimed with
  | Some reopen => catch reopen (λ _, Some (mret tt))
  | None => mret tt
  end ;;
  st ← on_store store_get_state;
  mret (DObj [("controller", ControllerGrant_to_dict grant); ("state", BootstrapState_to_dict st)]).
End Service.
