(* ===== verification/CommissioningRefinement.v ===== *)
(** * The commissioning service over either store

    Every handler of Commissioning.v is built from port calls, so the
    refinement of StoreRefinement.v lifts to it: a service on SQLite answers
    any sequence of requests as a service on the in-memory store does.  The
    proviso of that refinement about Grants is discharged here, because
    [_controller_grant] derives both names of a Grant from its key. *)

From S2P Require Import Prelude Domain StateStore MemoryStore SqliteStore StoreRefinement.
From S2P Require Import Encoding Timestamp Network Commissioning.

(** ** Requests *)

Inductive setup_request :=
| QAuthorize (session_id secret : json)
| QAuthorizeController (controller_id : json)
| QStatus (a : CommissioningAccess)
| QScan (a : CommissioningAccess)
| QConfigure (a : CommissioningAccess) (payload : obj)
| QConfirm (a : CommissioningAccess) (operation_id : json)
| QRollback (a : CommissioningAccess) (operation_id : json)
| QClaim (a : CommissioningAuthorization) (payload : obj).

Inductive setup_reply :=
| PAuthorization (a : CommissioningAuthorization)
| PGrant (g : ControllerGrant)
| PDoc (d : doc).

Section Requests.
Context {S N : Type} `{!BootstrapStateStore S} `{!NetworkProvisioning N}.
Context (sha256_hex : list ascii → string) (load_der : list ascii → result key_kind).

Definition run_setup (r : setup_request) : M (world S N) setup_reply :=
  match r with
  | QAuthorize sid secret => a ← authorize sha256_hex sid secret; mret (PAuthorization a)
  | QAuthorizeController cid => g ← authorize_controller cid; mret (PGrant g)
  | QStatus a => d ← status a; mret (PDoc d)
  | QScan a => d ← scan_networks a; mret (PDoc d)
  | QConfigure a p => d ← configure_network a p; mret (PDoc d)
  | QConfirm a v => d ← confirm_network a v; mret (PDoc d)
  | QRollback a v => d ← rollback_network a v; mret (PDoc d)
  | QClaim a p => d ← claim_controller sha256_hex load_der None a p; mret (PDoc d)
  end.

Fixpoint run_setups (rs : list setup_request) (w : world S N) : list (result setup_reply) * world S N :=
  match rs with
  | [] => ([], w)
  | r :: rs' => let '(x, w1) := run_setup r w in
                let '(xs, w2) := run_setups rs' w1 in (x :: xs, w2)
  end.
End Requests.

(** ** The names of a Grant *)

Section Names.
Context (sha256_hex : list ascii → string).

Definition fingerprint_of_key (k : string) : string :=
  match request_base64url "public_key" (JStr k) with
  | Ok der => ("sha256:" ++ sha256_hex der)%string
  | Raise _ => ""
  end.
Definition id_of_fingerprint (f : string) : string :=
  ("ectrl-" ++ string_of_list_ascii (take 20 (drop 7 (list_ascii_of_string f))))%string.

Lemma controller_grant_spec load_der payload epoch t g :
  controller_grant sha256_hex load_der payload epoch t = Ok g →
  derived_grant fingerprint_of_key id_of_fingerprint g ∧ g.(g_revoked_at) = None ∧
  g.(g_reset_epoch) = epoch ∧ g.(g_created_at) = t ∧ g.(role) = HOST_ADMIN.
Proof.
  unfold controller_grant. destruct (request_base64url _ _) as [der|] eqn:E; [|done].
  cbn [mbind result_bind].
  destruct (load_p256 _ _); [|done]. destruct (check_supplied_id _ _); [|done].
  destruct (check_display_name _); [|done]. destruct (check_platform _); [|done].
  destruct (obj_get "public_key" payload JNull) as [| | | | | |k| |] eqn:Ek; try done.
  cbn [mbind result_bind]. intros [= <-]. unfold derived_grant.
  cbn [public_key_fingerprint public_key controller_id g_revoked_at g_reset_epoch g_created_at role].
  split_and!; try done. unfold fingerprint_of_key. by rewrite E.
Qed.
End Names.

(** ** Lifting the simulation to worlds *)

Section Lifting.
Context {N : Type} `{!NetworkProvisioning N} (fp id : string → string).

Definition wrel (w1 : world MemoryStore N) (w2 : world SqliteStore N) : Prop :=
  sim fp id w1.(w_store) w2.(w_store) ∧ w1.(w_net) = w2.(w_net) ∧
  w1.(w_oracle) = w2.(w_oracle) ∧ w1.(w_step) = w2.(w_step).

Definition rel {A} (c1 : M (world MemoryStore N) A) (c2 : M (world SqliteStore N) A) : Prop :=
  ∀ w1 w2, wrel w1 w2 → (c1 w1).1 = (c2 w2).1 ∧ wrel (c1 w1).2 (c2 w2).2.

Lemma rel_ret {A} (a : A) : rel (mret a) (mret a).
Proof. by intros w1 w2 H. Qed.
Lemma rel_raise {A} e : rel (@raise _ A e) (raise e).
Proof. by intros w1 w2 H. Qed.
Lemma rel_lift {A} (r : result A) : rel (lift r) (lift r).
Proof. by intros w1 w2 H. Qed.
Lemma rel_guard b e : rel (guard_py b e) (guard_py b e).
Proof. by destruct b. Qed.
Lemma rel_bind {A B} c1 c2 (k1 : A → M _ B) k2 :
  rel c1 c2 → (∀ a, rel (k1 a) (k2 a)) → rel (c1 ≫= k1) (c2 ≫= k2).
Proof.
  intros Hc Hk w1 w2 H. destruct (Hc w1 w2 H) as [He Hw]. unfold mbind, M_bind.
  destruct (c1 w1) as [r1 w1'], (c2 w2) as [r2 w2']. cbn [fst snd] in *. subst. destruct r2; [by apply Hk|done].
Qed.
Lemma rel_catch {A} (c1 : M _ A) c2 h1 h2 :
  rel c1 c2 → (∀ e, match h1 e, h2 e with Some k1, Some k2 => rel k1 k2 | None, None => True | _, _ => False end) →
  rel (catch c1 h1) (catch c2 h2).
Proof.
  intros Hc Hh w1 w2 H. destruct (Hc w1 w2 H) as [He Hw]. unfold catch.
  destruct (c1 w1) as [r1 w1'], (c2 w2) as [r2 w2']. cbn [fst snd] in *. subst. destruct r2 as [a|e]; [done|].
  specialize (Hh e). destruct (h1 e), (h2 e); try done. by apply Hh.
Qed.
Lemma rel_store {A} (c1 : M MemoryStore A) (c2 : M SqliteStore A) :
  (∀ m q, sim fp id m q → agree fp id c1 c2 m q) → rel (on_store c1) (on_store c2).
Proof.
  intros Hc w1 w2 (Hs & Hn & Ho & Hi). destruct (Hc _ _ Hs) as [He Hs']. unfold on_store, zoom.
  destruct (c1 _), (c2 _). cbn [fst snd] in *. split; [done|]. by split_and!.
Qed.
Lemma rel_lift_bind {A B} (r : result A) (k1 : A → M _ B) k2 :
  (∀ a, r = Ok a → rel (k1 a) (k2 a)) → rel (lift r ≫= k1) (lift r ≫= k2).
Proof. intros Hk. destruct r as [a|e]; [by apply Hk|by intros w1 w2 H]. Qed.
Lemma rel_net {A} (c : M N A) : rel (on_net c) (on_net c).
Proof.
  intros w1 w2 (Hs & Hn & Ho & Hi). unfold on_net, zoom. rewrite Hn. by destruct (c _).
Qed.
Lemma rel_try_net {A} (c : M N A) : rel (try_net c) (try_net c).
Proof.
  intros w1 w2 H. destruct (rel_net c w1 w2 H) as [He Hw]. unfold try_net.
  destruct (on_net c w1), (on_net c w2). cbn [fst snd] in *. by subst.
Qed.
Lemma rel_draw {A} (f : oracle → nat → A) : rel (draw f) (draw f).
Proof. intros w1 w2 (Hs & Hn & Ho & Hi). unfold draw. rewrite Ho, Hi. split; [done|]. split_and!; simpl; congruence. Qed.
Lemma rel_now : rel now_ts now_ts.
Proof. apply rel_bind; [apply rel_draw|intros; apply rel_ret]. Qed.

(** The reads of the port. *)
Lemma agree_get_state m q : sim fp id m q → agree fp id mem_get_state sql_get_state m q.
Proof.
  intros H. pose proof H as (Ho & Hc & Hcm & Hd). destruct (sim_has_state _ _ _ _ Hd) as [st Hst]. destruct q; simpl in *; subst.
  unfold agree. by rewrite (mem_get_state_run _ _ (conj Ho Hst)), (sql_get_state_run _ _ _ _ _ _ Hd Hst).
Qed.
Lemma agree_get_controller cid m q :
  sim fp id m q → agree fp id (mem_get_controller cid) (sql_get_controller cid) m q.
Proof.
  intros H. pose proof H as (Ho & Hc & Hcm & Hd). destruct (sim_has_state _ _ _ _ Hd) as [st Hst]. destruct q; simpl in *; subst.
  unfold agree. by rewrite (mem_get_controller_run _ _ _ (conj Ho Hst)), (sql_get_controller_run _ _ _ _ _ _ _ Hd Hst).
Qed.
Lemma agree_get_operation oid m q :
  sim fp id m q → agree fp id (mem_get_operation oid) (sql_get_operation oid) m q.
Proof.
  intros H. pose proof H as (Ho & Hc & Hcm & Hd). destruct (sim_has_state _ _ _ _ Hd) as [st Hst]. destruct q; simpl in *; subst.
  unfold agree, mem_get_operation. rewrite (sql_get_operation_run _ _ _ _ _ _ Hd).
  by rewrite (bind_ok _ _ _ _ _ (mem_require_open_run _ _ (conj Ho Hst))), bind_gets.
Qed.
End Lifting.

Create HintDb rel.
#[export] Hint Resolve rel_ret rel_raise rel_lift rel_guard rel_net rel_try_net rel_draw rel_now : rel.

(** Walks two instances of one handler in step. *)
Ltac rel_step :=
  match goal with
  | |- rel _ _ (_ ≫= _) (_ ≫= _) => apply rel_bind; [|intros ?]
  | |- rel _ _ (catch _ _) (catch _ _) => apply rel_catch; [|intros []; try exact I]
  | |- rel _ _ (on_store _) (on_store _) => apply rel_store; intros ? ? ?
  | |- rel _ _ (if ?b then _ else _) _ => destruct b
  | |- rel _ _ (match ?x with _ => _ end) _ => destruct x
  | |- agree _ _ (store_get_state) _ _ _ => by apply agree_get_state
  | |- agree _ _ (store_get_controller _) _ _ _ => by apply agree_get_controller
  | |- agree _ _ (store_get_operation _) _ _ _ => by apply agree_get_operation
  | |- agree _ _ (store_create_operation _) _ _ _ => by apply agree_create
  | |- agree _ _ (store_update_operation _ _ _ _ _) _ _ _ => by apply agree_update
  | |- agree _ _ (store_authorize_commissioning_session _ _ _) _ _ _ => by apply agree_authorize
  end.
Ltac rel_auto := repeat (rel_step || solve [eauto with rel]).

Section Handlers.
Context {N : Type} `{!NetworkProvisioning N}.
Context (sha256_hex : list ascii → string) (load_der : list ascii → result key_kind).

Abbreviation srel := (rel (N := N) (fingerprint_of_key sha256_hex) id_of_fingerprint).

Lemma rel_require a : srel (require_authorized a) (require_authorized a).
Proof. destruct a; unfold require_authorized, on_conflict; rel_auto. Qed.

Lemma rel_stage_failed {A} created oid previous e :
  match @stage_failed MemoryStore N _ A created oid previous e, stage_failed created oid previous e with
  | Some k1, Some k2 => srel k1 k2 | None, None => True | _, _ => False end.
Proof. destruct e; try exact I; unfold stage_failed; rel_auto. Qed.

Ltac rel_handler := pose proof rel_require; unfold require_controller;
  repeat first
    [ match goal with
      | |- rel _ _ (catch _ (stage_failed _ _ _)) _ =>
          apply rel_catch; [|intros e; apply rel_stage_failed]
      end
    | rel_step | solve [eauto with rel] ].

Lemma rel_find a v : srel (find_operation a v) (find_operation a v).
Proof. unfold find_operation. rel_handler. Qed.

Lemma rel_configure a p : srel (configure_network a p) (configure_network a p).
Proof. unfold configure_network, configure_prepare, configure_finish. rel_handler. Qed.

Lemma rel_confirm a v : srel (confirm_network a v) (confirm_network a v).
Proof. unfold confirm_network. pose proof rel_find. rel_handler. Qed.

Lemma rel_rollback a v : srel (rollback_network a v) (rollback_network a v).
Proof. unfold rollback_network. pose proof rel_find. rel_handler. Qed.

Lemma rel_claim a p :
  srel (claim_controller sha256_hex load_der None a p) (claim_controller sha256_hex load_der None a p).
Proof.
  unfold claim_controller. apply rel_bind; [rel_handler|intros st]. apply rel_bind; [rel_handler|intros t].
  apply rel_lift_bind. intros g Eg. destruct (controller_grant_spec _ _ _ _ _ _ Eg) as (Hg & Hr & _).
  apply rel_bind; [|intros ?; rel_handler]. apply rel_catch.
  - apply rel_store. intros m q Hs. by apply agree_claim.
  - intros []; try exact I. apply rel_raise.
Qed.

Lemma rel_setup r : srel (run_setup sha256_hex load_der r) (run_setup sha256_hex load_der r).
Proof.
  pose proof rel_require. pose proof rel_configure. pose proof rel_confirm. pose proof rel_rollback.
  pose proof rel_claim. destruct r; cbn [run_setup]; (apply rel_bind; [|intros ?; rel_handler]).
  - unfold authorize, on_conflict. rel_handler.
  - unfold authorize_controller. rel_handler.
  - unfold status. rel_handler.
  - unfold scan_networks. rel_handler.
  - eauto with rel.
  - eauto with rel.
  - eauto with rel.
  - eauto with rel.
Qed.

Lemma rel_setups rs w1 w2 :
  wrel (fingerprint_of_key sha256_hex) id_of_fingerprint w1 w2 →
  (run_setups sha256_hex load_der rs w1).1 = (run_setups sha256_hex load_der rs w2).1 ∧
  wrel (fingerprint_of_key sha256_hex) id_of_fingerprint
    (run_setups sha256_hex load_der rs w1).2 (run_setups sha256_hex load_der rs w2).2.
Proof.
  revert w1 w2. induction rs as [|r rs IH]; intros w1 w2 H; [done|]. cbn [run_setups].
  destruct (rel_setup r w1 w2 H) as [He Hw].
  destruct (run_setup _ _ r w1) as [x1 w1'], (run_setup _ _ r w2) as [x2 w2']. cbn [fst snd] in *. subst.
  destruct (IH _ _ Hw) as [He2 Hw2].
  destruct (run_setups _ _ rs w1'), (run_setups _ _ rs w2'). cbn [fst snd] in *. by subst.
Qed.
End Handlers.

(** C5: the commissioning service behaves alike over either store.  A Host
    started fresh whose factory window was issued answers any sequence of
    setup requests (authorizations, scans, network changes, confirmations,
    rollbacks, claims, each with any payload) on SQLite exactly as on the
    in-memory store, over any network adapter, any clock and any hash. *)
Theorem service_store_independent {N} `{!NetworkProvisioning N} sha256_hex load_der
    now sid code created expires (net : N) o step requests :
  let window {S} `{BootstrapStateStore S} (s : S) :=
    (store_issue_commissioning_session sid (secret_hash sha256_hex code) created expires s).2 in
  (run_setups sha256_hex load_der requests (mkWorld (window (mem_start now)) net o step)).1 =
  (run_setups sha256_hex load_der requests (mkWorld (window (sql_start now)) net o step)).1.
Proof.
  cbv zeta. apply rel_setups. split; [|done]. cbn [w_store].
  refine (proj2 (agree_issue _ _ sid (secret_hash sha256_hex code) created expires _ _ (sim_start _ _ now) _)).
  apply not_elem_of_nil.
Qed.
