(* ===== verification/CommissioningProofs.v ===== *)
(** * What the commissioning service guarantees

    Theorems about Commissioning.v over the in-memory adapters (for the SQLite
    store they follow by CommissioningRefinement.v): the scan list, the
    withdrawal of access by a reset, the flow of a network change, and two
    ways in which a change and the rest of the Host come apart. *)

From S2P Require Import Prelude Domain StateStore MemoryStore.
From S2P Require Import Encoding Timestamp Network Commissioning CommissioningRefinement.

(** ** The scan list *)

Lemma access_point_le_total a b : access_point_le a b = true ∨ access_point_le b a = true.
Proof.
  unfold access_point_le. rewrite (Z.eqb_sym (ap_signal b)). destruct (Z.eqb_spec (ap_signal a) (ap_signal b)).
  - rewrite !str_leb_cases. unfold str_ltb. destruct (String.ltb (ap_ssid a) (ap_ssid b)) eqn:E; [by left; right|].
    fold (str_ltb (ap_ssid a) (ap_ssid b)) in E. rewrite str_ltb_leb in E. apply negb_false_iff in E.
    apply str_leb_cases in E as [->|E]; [by left; left|right; by right].
  - destruct (Z.ltb_spec (ap_signal a) (ap_signal b)), (Z.ltb_spec (ap_signal b) (ap_signal a)); lia || auto.
Qed.

Lemma access_point_le_trans a b c :
  access_point_le a b = true → access_point_le b c = true → access_point_le a c = true.
Proof.
  unfold access_point_le.
  destruct (Z.eqb_spec (ap_signal a) (ap_signal b)) as [E1|E1], (Z.eqb_spec (ap_signal b) (ap_signal c)) as [E2|E2],
    (Z.eqb_spec (ap_signal a) (ap_signal c)) as [E3|E3]; rewrite ?Z.ltb_lt; eauto with eidolon; lia.
Qed.

Definition strongest (aps : list WifiAccessPoint) (a : WifiAccessPoint) : Prop :=
  a ∈ aps ∧ ∀ b, b ∈ aps → b.(ap_ssid) = a.(ap_ssid) → (b.(ap_signal) <= a.(ap_signal))%Z.

Lemma unique_access_points_spec aps :
  let d := unique_access_points aps in
  NoDup d.*1 ∧ (∀ k a, (k, a) ∈ d → k = a.(ap_ssid) ∧ strongest aps a) ∧
  (∀ a, a ∈ aps → a.(ap_ssid) ∈ d.*1).
Proof.
  induction aps as [|x aps IH] using rev_ind.
  { cbv zeta. cbn. split_and!; [constructor| |]; intros; by match goal with H : _ ∈ [] |- _ => apply not_elem_of_nil in H end. }
  cbv zeta. unfold unique_access_points in *. rewrite foldl_snoc. set (d := foldl _ [] aps) in *.
  destruct IH as (Hnd & Hd & Hin). unfold strongest in *.
  assert (NoDup (dict_set (ap_ssid x) x d).*1) as Hnd' by by apply dict_set_NoDup.
  assert (∀ a, a ∈ aps ++ [x] → ap_ssid a ∈ (dict_set (ap_ssid x) x d).*1) as Hin'.
  { intros a [Ha| ->%list_elem_of_singleton]%elem_of_app.
    - apply Hin, list_elem_of_fmap in Ha as ([k a'] & Ek & Ha). apply list_elem_of_fmap. simpl in Ek.
      destruct (decide (k = ap_ssid x)) as [->|Hne].
      + exists (ap_ssid x, x). split; [done|]. apply elem_of_dict_set; [done|by left].
      + exists (k, a'). split; [done|]. apply elem_of_dict_set; [done|by right].
    - apply list_elem_of_fmap. exists (ap_ssid x, x). split; [done|]. apply elem_of_dict_set; [done|by left]. }
  assert ((∀ k a, (k, a) ∈ d → k = ap_ssid x → (a.(ap_signal) <= x.(ap_signal))%Z) →
    ∀ k a, (k, a) ∈ dict_set (ap_ssid x) x d → k = ap_ssid a ∧ a ∈ aps ++ [x] ∧
      (∀ b, b ∈ aps ++ [x] → ap_ssid b = ap_ssid a → (ap_signal b <= ap_signal a)%Z)) as Hset.
  { intros Hle k a [[= -> ->]|[Hne Ha]]%elem_of_dict_set; [| |done].
    - split_and!; [done|apply elem_of_app; right; by apply list_elem_of_singleton|].
      intros b [Hb| ->%list_elem_of_singleton]%elem_of_app E; [|done].
      pose proof (Hin b Hb) as Hkb. rewrite E in Hkb. apply list_elem_of_fmap in Hkb as ([k' a'] & Ek & Ha').
      simpl in Ek. destruct (Hd _ _ Ha') as (Hk' & _ & Hmax). rewrite <- Ek in *. specialize (Hle _ _ Ha' eq_refl).
      specialize (Hmax b Hb). rewrite <- Hk' in Hmax. specialize (Hmax E). lia.
    - simpl in Hne. destruct (Hd _ _ Ha) as (-> & Ha1 & Ha2). split_and!; [done|apply elem_of_app; by left|].
      intros b [Hb| ->%list_elem_of_singleton]%elem_of_app E; [by apply Ha2|congruence]. }
  destruct (dict_get (ap_ssid x) d) as [prev|] eqn:Eg.
  - apply dict_get_Some in Eg; [|done]. destruct (Z.ltb_spec (ap_signal prev) (ap_signal x)) as [Hlt|Hle].
    + split_and!; [done| |done]. apply Hset. intros k a Ha ->.
      assert (a = prev) as ->; [|lia]. apply (dict_get_Some _ _ _ Hnd) in Ha, Eg. congruence.
    + split_and!; [done| |].
      * intros k a Ha. destruct (Hd _ _ Ha) as (-> & Ha1 & Ha2). split_and!; [done|apply elem_of_app; by left|].
        intros b [Hb| ->%list_elem_of_singleton]%elem_of_app E; [by apply Ha2|].
        assert (a = prev) as ->; [|lia]. rewrite E in Eg. apply (dict_get_Some _ _ _ Hnd) in Ha, Eg. congruence.
      * intros a [Ha| ->%list_elem_of_singleton]%elem_of_app; [auto|]. apply list_elem_of_fmap. by exists (ap_ssid x, prev).
  - split_and!; [done| |done]. apply Hset. intros k a Ha ->. apply (dict_get_Some _ _ _ Hnd) in Ha. congruence.
Qed.

(** The scan shows each network once, at its best.  Whatever the adapter
    reports, the list holds exactly the SSIDs reported, each once and with the
    strongest signal reported for it, ordered by falling signal and then by
    SSID. *)
Theorem scan_lists_strongest aps :
  let l := ordered_access_points aps in
  NoDup (ap_ssid <$> l) ∧
  (∀ a, a ∈ l → strongest aps a) ∧
  (∀ a, a ∈ aps → ∃ b, b ∈ l ∧ b.(ap_ssid) = a.(ap_ssid)) ∧
  StronglySorted (λ a b, (b.(ap_signal) < a.(ap_signal))%Z ∨
    a.(ap_signal) = b.(ap_signal) ∧ str_leb a.(ap_ssid) b.(ap_ssid) = true) l.
Proof.
  destruct (unique_access_points_spec aps) as (Hnd & Hd & Hin). cbv zeta. unfold ordered_access_points.
  pose proof (sort_by_perm access_point_le (unique_access_points aps).*2) as Hp. split_and!.
  - rewrite Hp. replace (ap_ssid <$> _) with (unique_access_points aps).*1; [done|].
    rewrite <- list_fmap_compose. apply list_fmap_ext. intros i [k a] Ha%list_elem_of_lookup_2. by destruct (Hd _ _ Ha).
  - intros a Ha. rewrite Hp in Ha. apply list_elem_of_fmap in Ha as ([k a'] & -> & Ha). by destruct (Hd _ _ Ha).
  - intros a Ha. apply Hin, list_elem_of_fmap in Ha as ([k a'] & Ek & Ha'). exists a'.
    split; [|by destruct (Hd _ _ Ha') as [<- _]]. rewrite Hp. apply list_elem_of_fmap. by exists (k, a').
  - eapply strongly_sorted_impl; [|apply sort_by_sorted; [apply access_point_le_total|apply access_point_le_trans]].
    intros a b. unfold access_point_le. destruct (Z.eqb_spec (ap_signal a) (ap_signal b)); [auto|].
    rewrite Z.ltb_lt. auto.
Qed.

(** ** Running handlers *)

Section Run.
Context (sha256_hex : list ascii → string) (load_der : list ascii → result key_kind).
Abbreviation HW := (world MemoryStore InMemoryNetwork).

Lemma put_store_id (w : HW) : put_store (w_store w) w = w.
Proof. by destruct w. Qed.

Lemma on_store_run {A} (c : M MemoryStore A) (w : HW) r s :
  c (w_store w) = (r, s) → on_store c w = (r, put_store s w).
Proof. intros H. unfold on_store, zoom. by rewrite H. Qed.

Lemma on_store_read {A} (c : M MemoryStore A) (w : HW) r :
  c (w_store w) = (r, w_store w) → on_store c w = (r, w).
Proof. intros H. by rewrite (on_store_run _ _ _ _ H), put_store_id. Qed.

Lemma now_ts_run (w : HW) :
  now_ts w = (Ok (timestamp (or_wall (w_oracle w) (w_step w))), put_step (w_step w + 1) w).
Proof. reflexivity. Qed.

Lemma mem_get_operation_run oid s st : ready s st → mem_get_operation oid s = (Ok (dict_get oid s.(m_operations)), s).
Proof. intros Hr. unfold mem_get_operation. by rewrite (bind_ok _ _ _ _ _ (mem_require_open_run _ _ Hr)), bind_gets. Qed.

(** The Grant an authorization was made from still stands. *)
Definition holds_grant (g : ControllerGrant) (st : BootstrapState) (m : MemoryStore) : bool :=
  match dict_get (st.(reset_epoch), g.(controller_id)) m.(m_controllers) with
  | Some c => negb (bool_decide (is_Some c.(g_revoked_at)) ||
                    negb (bool_decide (c.(public_key) = g.(public_key))) ||
                    negb (c.(g_reset_epoch) =? st.(reset_epoch))%Z)
  | None => false
  end.

Lemma require_controller_run g (w : HW) st :
  ready (w_store w) st →
  require_authorized (ControllerAccess g) w =
    (if holds_grant g st (w_store w) then Ok tt else Raise controller_denied, w).
Proof.
  intros Hr. unfold require_authorized, holds_grant.
  rewrite (bind_ok _ _ _ _ _ (on_store_read _ _ _ (mem_get_controller_run _ _ _ Hr))).
  rewrite (bind_ok _ _ _ _ _ (on_store_read _ _ _ (mem_get_state_run _ _ Hr))).
  destruct (dict_get _ _) as [c|]; [|done]. by destruct (_ || _).
Qed.

Lemma require_setup_run b (w : HW) st :
  ready (w_store w) st →
  let '(r, l) := authorize_loop b.(a_session_id) b.(a_secret_hash)
    (timestamp (or_wall (w_oracle w) (w_step w))) (w_store w).(m_sessions) in
  require_authorized (SetupAccess b) w =
    (match r with Some _ => Ok tt | None => Raise commissioning_denied end,
     put_store (set_sessions l (w_store w)) (put_step (w_step w + 1) w)).
Proof.
  intros Hr. destruct (authorize_loop _ _ _ _) as [r l] eqn:E.
  pose proof (mem_authorize_run _ _ _ _ _ _ _ Hr E) as Ha.
  unfold require_authorized. rewrite (bind_ok _ _ _ _ _ (now_ts_run w)). unfold on_conflict, catch.
  set (w' := put_step _ w). change (w_store w) with (w_store w') in Ha.
  pose proof (on_store_run _ _ _ _ Ha) as Hs. destruct r as [s|].
  - by rewrite (bind_ok _ _ _ _ _ Hs).
  - by rewrite (bind_raise _ _ _ _ _ Hs).
Qed.

(** Checking an authorization leaves everything but attempt counts alone. *)
Lemma require_frame a (w : HW) st :
  ready (w_store w) st →
  let '(r, w') := require_authorized a w in
  w_net w' = w_net w ∧ ready (w_store w') st ∧
  (w_store w').(m_operations) = (w_store w).(m_operations) ∧
  (w_store w').(m_controllers) = (w_store w).(m_controllers) ∧
  (∀ e, r = Raise e → e = match a with SetupAccess _ => commissioning_denied | ControllerAccess _ => controller_denied end).
Proof.
  intros Hr. destruct a as [b|g].
  - pose proof (require_setup_run b w st Hr) as H. destruct (authorize_loop _ _ _ _) as [x l]. rewrite H.
    split_and!; try done. intros e. destruct x; [done|]. by intros [= <-].
  - rewrite (require_controller_run g w st Hr). split_and!; try done.
    intros e. destruct (holds_grant _ _ _); [done|]. by intros [= <-].
Qed.

(** Five of the six handlers that take an authorization: those that check it
    with [require_authorized].  The sixth, [claim_controller], hands it to the
    store. *)
Definition access_handlers (a : CommissioningAccess) (payload : obj) (v : json) : list (M HW doc) :=
  [status a; scan_networks a; configure_network a payload; confirm_network a v; rollback_network a v].

Lemma handlers_require a payload v (w : HW) e w' c :
  require_authorized a w = (Raise e, w') → c ∈ access_handlers a payload v → c w = (Raise e, w').
Proof.
  intros H. unfold access_handlers.
  assert (find_operation a v w = (Raise e, w')) as Hf.
  { unfold find_operation. by rewrite (bind_raise _ _ _ _ _ H). }
  rewrite !elem_of_cons, elem_of_nil. intros Hc. destruct_or! Hc; try done; subst.
  - unfold status. by rewrite (bind_raise _ _ _ _ _ H).
  - unfold scan_networks. by rewrite (bind_raise _ _ _ _ _ H).
  - unfold configure_network, configure_prepare. by rewrite (bind_raise _ _ _ _ _ (bind_raise _ _ _ _ _ H)).
  - unfold confirm_network. by rewrite (bind_raise _ _ _ _ _ Hf).
  - unfold rollback_network. by rewrite (bind_raise _ _ _ _ _ Hf).
Qed.
End Run.

(** After a reset no Controller is on record in the new epoch. *)
Lemma reset_no_controller now s st cid :
  mem_inv s → ready s st → dict_get ((reset_epoch st + 1)%Z, cid) (revoke_grants now s.(m_controllers)) = None.
Proof.
  intros Hi Hr. pose proof (inv_controllers _ Hi st (proj2 Hr)) as [_ Hall].
  apply dict_get_None. rewrite revoke_grants_fst. intros ([k g] & Hk & Hin)%list_elem_of_fmap.
  destruct (Hall _ _ Hin) as (-> & Hle & _). injection Hk. lia.
Qed.

(** A claim under a session the reset left closed: whether the session was
    spent before the reset or not, the store finds it unavailable and keeps its
    Grants, its operations and its state. *)
Lemma claim_after_reset ns now seed s st sid hash g t :
  mem_inv s → ready s st →
  (∀ sd, seed = Some sd → sid = seed_session_id sd → hash ≠ seed_secret_hash sd) →
  let s' := (mem_reset_authority ns now seed s).2 in
  ∃ l, mem_claim_controller sid hash g t s' = (Raise unavailable, set_sessions l s').
Proof.
  intros Hi Hr Ha s'. pose proof (mem_reset_run ns now seed s st Hr) as Hreset. cbv zeta in Hreset.
  set (st' := mkBootstrapState _ _ _ _) in Hreset.
  assert (ready s' st') as Hr' by (unfold s'; rewrite Hreset; done).
  rewrite (mem_claim_run _ _ _ _ _ _ Hr').
  destruct (m_session_controller_ids s' !! sid) as [claimed|].
  - exists s'.(m_sessions). replace (dict_get _ _) with (@None ControllerGrant); [by destruct s'|].
    unfold s'. rewrite Hreset. symmetry. by apply reset_no_controller.
  - destruct (authorize_loop sid hash t (m_sessions s')) as [[m|] l] eqn:El; [|by exists l]. exfalso.
    pose proof (mem_authorize_run _ _ _ _ _ _ _ Hr' El) as Hm. unfold s' in Hm. rewrite Hreset in Hm. simpl in Hm.
    destruct (reset_only_seed ns now seed s st _ _ _ _ _ _ eq_refl Hm) as (sd & Hsd & H1 & H2 & _).
    by apply (Ha sd).
Qed.



(** ** A network change, end to end *)

(** What the Host durably says of an operation, and of its network. *)
Definition journal (w : world MemoryStore InMemoryNetwork) (oid : string)
    : option (BootstrapOperationState * option string) :=
  (λ o, (o.(o_state), o.(error_code))) <$> dict_get oid (w_store w).(m_operations).
Definition host_network (w : world MemoryStore InMemoryNetwork) : option NetworkState :=
  network_state <$> (w_store w).(m_state).

(** The four fields of a [wifi.configure] payload. *)
Definition change_request (payload : obj) : result NetworkChangeRequest :=
  oid ← operation_id_of (obj_get "operation_id" payload JNull);
  ssid ← ssid_of (obj_get "ssid" payload JNull);
  passphrase ← passphrase_of (obj_get "passphrase" payload JNull);
  hidden ← hidden_of (obj_get "hidden" payload (JBool false));
  Ok (mkChange oid ssid passphrase hidden).

Definition no_active_operation (m : MemoryStore) : Prop :=
  existsb (λ kv, active_state kv.2.(o_state)) m.(m_operations) = false.

Section Flow.
Abbreviation HW := (world MemoryStore InMemoryNetwork).

(** The store after one [update_operation]. *)
Definition updated (oid : string) (o : BootstrapOperation) (st : BootstrapState) (ns : NetworkState)
    (t : string) (m : MemoryStore) : MemoryStore :=
  set_state (Some (state_set_network ns t st)) (set_operations (dict_set oid o m.(m_operations)) m).

Lemma update_step oid os ns t err (w : HW) st cur :
  ready (w_store w) st → dict_get oid (w_store w).(m_operations) = Some cur →
  on_store (store_update_operation oid os ns t err) w =
    (Ok (operation_set os t err cur), put_store (updated oid (operation_set os t err cur) st ns t (w_store w)) w).
Proof.
  intros Hr Hc. apply on_store_run. cbn [store_update_operation memory_store].
  rewrite (mem_update_run _ _ _ _ _ _ _ Hr), Hc. done.
Qed.

Lemma updated_ready oid o st ns t m : ready m st → ready (updated oid o st ns t m) (state_set_network ns t st).
Proof. by intros []. Qed.

Lemma updated_get oid o st ns t m : dict_get oid (updated oid o st ns t m).(m_operations) = Some o.
Proof. simpl. by rewrite dict_get_set, bool_decide_eq_true_2. Qed.

Lemma holds_updated g oid o st ns t m :
  holds_grant g (state_set_network ns t st) (updated oid o st ns t m) = holds_grant g st m.
Proof. reflexivity. Qed.

Lemma change_request_ok payload r :
  change_request payload = Ok r →
  operation_id_of (obj_get "operation_id" payload JNull) = Ok r.(nc_operation_id) ∧
  ssid_of (obj_get "ssid" payload JNull) = Ok r.(nc_ssid) ∧
  passphrase_of (obj_get "passphrase" payload JNull) = Ok r.(nc_passphrase) ∧
  hidden_of (obj_get "hidden" payload (JBool false)) = Ok r.(nc_hidden) ∧
  canonical r.(nc_operation_id).
Proof.
  unfold change_request. destruct (operation_id_of _) as [oid|] eqn:E1; [|done].
  destruct (ssid_of _) as [ssid|] eqn:E2; [|done]. cbn [mbind result_bind].
  destruct (passphrase_of _) as [p|]; [|done]. cbn [mbind result_bind].
  destruct (hidden_of _) as [h|]; [|done]. intros [= <-]. split_and!; try done. cbn.
  destruct (obj_get "operation_id" payload JNull) as [| | | | | |v| |]; try done.
  unfold operation_id_of in E1. by apply canonical_uuid_ok in E1 as [-> ?].
Qed.

Lemma canonical_strip v : canonical v → strip v = v ∧ v ≠ "".
Proof.
  intros (h & Hlen & Hh & ->). split; [by apply strip_hex, dashes_chars|].
  destruct h; [done|]. by unfold uuid_dashes.
Qed.

Lemma operation_id_of_canonical v : canonical v → operation_id_of (JStr v) = Ok v.
Proof. intros Hv. by apply canonical_uuid_ok. Qed.

Lemma require_controller_ok g (w : HW) : require_controller (ControllerAccess g) w = (Ok tt, w).
Proof. reflexivity. Qed.

Lemma require_holds g (w : HW) st :
  ready (w_store w) st → holds_grant g st (w_store w) = true → require_authorized (ControllerAccess g) w = (Ok tt, w).
Proof. intros Hr Hg. by rewrite (require_controller_run g w st Hr), Hg. Qed.

(** A fresh operation, journalled up to the [await]. *)
Lemma prepare_run g payload r (w : HW) st :
  ready (w_store w) st → holds_grant g st (w_store w) = true → change_request payload = Ok r →
  dict_get r.(nc_operation_id) (w_store w).(m_operations) = None → no_active_operation (w_store w) →
  ∃ o t i, configure_prepare (ControllerAccess g) payload w =
    (Ok (inr (r, st.(network_state))),
     put_store (updated r.(nc_operation_id) (operation_set RUNNING t None o) st STAGING t
       (set_operations (dict_set r.(nc_operation_id) o (w_store w).(m_operations)) (w_store w))) (put_step i w)) ∧
    o.(o_reset_epoch) = st.(reset_epoch) ∧ o.(target) = r.(nc_ssid).
Proof.
  intros Hr Hg Hp Hn Ha. destruct (change_request_ok _ _ Hp) as (E1 & E2 & E3 & E4 & _).
  destruct r as [oid ssid pass hid]. cbn [nc_operation_id nc_ssid nc_passphrase nc_hidden] in *.
  set (t := timestamp (or_wall (w_oracle w) (w_step w))).
  exists (mkOperation oid CHANGE_NETWORK PENDING ssid st.(reset_epoch) t t None), t, (w_step w + 1).
  split; [|done]. set (o := mkOperation _ _ _ _ _ _ _ _).
  unfold configure_prepare. rewrite (bind_ok _ _ _ _ _ (require_holds g w st Hr Hg)).
  rewrite (bind_ok _ _ _ _ _ (require_controller_ok g w)). rewrite E1, E2, E3, E4.
  unfold lift. do 4 (rewrite bind_mret_lift).
  rewrite (bind_ok _ _ _ _ _ (on_store_read _ _ _ (mem_get_operation_run oid _ _ Hr))), Hn.
  rewrite (bind_ok _ _ _ _ _ (on_store_read _ _ _ (mem_get_state_run _ _ Hr))).
  rewrite (bind_ok _ _ _ _ _ (now_ts_run w)). fold t. cbv zeta. fold o.
  set (w1 := put_step (w_step w + 1) w). set (s1 := set_operations (dict_set oid o (m_operations (w_store w))) (w_store w)).
  assert (on_store (store_create_operation o) w1 = (Ok o, put_store s1 w1)) as Hc.
  { apply on_store_run. cbn [store_create_operation memory_store]. rewrite (mem_create_run o (w_store w1) st Hr).
    unfold w1. cbn [w_store put_step]. change (operation_id o) with oid. rewrite Hn.
    change (o_reset_epoch o) with (reset_epoch st). rewrite Z.eqb_refl. cbn [negb]. by rewrite Ha. }
  erewrite (bind_ok (catch _ _)); [|unfold catch; by rewrite (bind_ok _ _ _ _ _ Hc)].
  assert (dict_get oid (m_operations (w_store (put_store s1 w1))) = Some o) as Hg1.
  { simpl. by rewrite dict_get_set, bool_decide_eq_true_2. }
  assert (ready (w_store (put_store s1 w1)) st) as Hr1 by by destruct Hr.
  pose proof (update_step oid RUNNING STAGING t None _ st o Hr1 Hg1) as Hu.
  erewrite (bind_ok (catch _ _)); [|unfold catch; by rewrite (bind_ok _ _ _ _ _ Hu)]. done.
Qed.

(** The outcome of the [await] recorded. *)
Lemma finish_ok oid prev snap (w : HW) st cur :
  ready (w_store w) st → dict_get oid (w_store w).(m_operations) = Some cur →
  ∃ t i, configure_finish oid prev (Ok snap) w =
    (Ok (operation_doc (operation_set WAITING_CONFIRMATION t None cur)),
     put_store (updated oid (operation_set WAITING_CONFIRMATION t None cur) st STAGING t (w_store w)) (put_step i w)).
Proof.
  intros Hr Hc. set (t := timestamp (or_wall (w_oracle w) (w_step w))). exists t, (w_step w + 1).
  unfold configure_finish. pose proof (update_step oid WAITING_CONFIRMATION STAGING t None (put_step (w_step w + 1) w) st cur Hr Hc) as Hu.
  erewrite bind_ok; [reflexivity|]. unfold catch, lift. rewrite bind_mret_lift.
  rewrite (bind_ok _ _ _ _ _ (now_ts_run w)). fold t. by rewrite Hu.
Qed.

Lemma finish_failed oid prev msg (w : HW) st cur :
  ready (w_store w) st → dict_get oid (w_store w).(m_operations) = Some cur →
  let ns := if bool_decide (prev = CONNECTED) then CONNECTED else DEGRADED in
  ∃ t i, configure_finish oid prev (Raise (NetworkProvisioningError msg)) w =
    (Raise (rejected "network_stage_failed" msg),
     put_store (updated oid (operation_set FAILED t (Some "network_stage_failed") cur) st ns t (w_store w)) (put_step i w)).
Proof.
  intros Hr Hc ns. set (t := timestamp (or_wall (w_oracle w) (w_step w))). exists t, (w_step w + 1).
  unfold configure_finish.
  pose proof (update_step oid FAILED ns t (Some "network_stage_failed") (put_step (w_step w + 1) w) st cur Hr Hc) as Hu.
  erewrite bind_raise; [reflexivity|]. unfold catch, lift, stage_failed.
  rewrite (bind_raise (λ s, (Raise (NetworkProvisioningError msg), s)) _ w _ w) by done. cbv beta iota zeta. rewrite bind_assoc.
  rewrite (bind_ok _ _ _ _ _ (now_ts_run w)). fold t. fold ns. rewrite bind_assoc.
  by rewrite (bind_ok _ _ _ _ _ Hu).
Qed.

Lemma find_run g oid (w : HW) st o :
  ready (w_store w) st → holds_grant g st (w_store w) = true → canonical oid →
  dict_get oid (w_store w).(m_operations) = Some o →
  find_operation (ControllerAccess g) (JStr oid) w = (Ok (oid, o), w).
Proof.
  intros Hr Hg Hc Ho. unfold find_operation. rewrite (bind_ok _ _ _ _ _ (require_holds g w st Hr Hg)).
  rewrite (bind_ok _ _ _ _ _ (require_controller_ok g w)), (operation_id_of_canonical oid Hc).
  unfold lift. rewrite bind_mret_lift.
  by rewrite (bind_ok _ _ _ _ _ (on_store_read _ _ _ (mem_get_operation_run oid _ _ Hr))), Ho.
Qed.

Lemma on_net_run {A} (c : M InMemoryNetwork A) (w : HW) r n :
  c (w_net w) = (r, n) → on_net c w = (r, put_net n w).
Proof. intros H. unfold on_net, zoom. by rewrite H. Qed.

Lemma confirm_run g oid (w : HW) st o snap n :
  ready (w_store w) st → holds_grant g st (w_store w) = true → canonical oid →
  dict_get oid (w_store w).(m_operations) = Some o → o.(o_state) = WAITING_CONFIRMATION →
  mnet_confirm oid (w_net w) = (Ok snap, n) →
  ∃ t i, confirm_network (ControllerAccess g) (JStr oid) w =
    (Ok (operation_doc (operation_set SUCCEEDED t None o)),
     put_store (updated oid (operation_set SUCCEEDED t None o) st CONNECTED t (w_store w)) (put_step i (put_net n w))).
Proof.
  intros Hr Hg Hc Ho Hs Hn. unfold confirm_network.
  rewrite (bind_ok _ _ _ _ _ (find_run g oid w st o Hr Hg Hc Ho)). cbv beta iota. rewrite Hs.
  pose proof (on_net_run (net_confirm oid) w _ _ Hn) as Hnet.
  erewrite (bind_ok (catch _ _)); [|unfold catch; by rewrite (bind_ok _ _ _ _ _ Hnet)].
  set (w1 := put_net n w). rewrite (bind_ok _ _ _ _ _ (now_ts_run w1)).
  set (t := timestamp _). exists t, (w_step w1 + 1).
  by rewrite (bind_ok _ _ _ _ _ (update_step oid SUCCEEDED CONNECTED t None (put_step (w_step w1 + 1) w1) st o Hr Ho)).
Qed.

Lemma rollback_run g oid (w : HW) st o r n :
  ready (w_store w) st → holds_grant g st (w_store w) = true → canonical oid →
  dict_get oid (w_store w).(m_operations) = Some o → o.(o_state) ≠ FAILED →
  mnet_rollback oid (w_net w) = (r, n) →
  ∃ t i, let o1 := operation_set COMPENSATING t None o in
  let m1 := updated oid o1 st ROLLING_BACK t (w_store w) in
  match r with
  | Ok snap => ∃ t' i', rollback_network (ControllerAccess g) (JStr oid) w =
      (Ok (operation_doc (operation_set FAILED t' (Some "cancelled") o1)),
       put_store (updated oid (operation_set FAILED t' (Some "cancelled") o1)
         (state_set_network ROLLING_BACK t st) snap.(sn_state) t' m1) (put_step i' (put_net n w)))
  | Raise (NetworkProvisioningError msg) => rollback_network (ControllerAccess g) (JStr oid) w =
      (Raise (rejected "network_rollback_failed" "The Wi-Fi rollback did not complete"),
       put_store m1 (put_step i (put_net n w)))
  | Raise _ => True
  end.
Proof.
  intros Hr Hg Hc Ho Hs Hn. set (w0 := put_step (w_step w + 1) w).
  set (t := timestamp (or_wall (w_oracle w) (w_step w))). exists t, (w_step w + 1). cbv zeta.
  set (o1 := operation_set COMPENSATING t None o). set (m1 := updated oid o1 st ROLLING_BACK t (w_store w)).
  pose proof (update_step oid COMPENSATING ROLLING_BACK t None w0 st o Hr Ho) as Hu.
  fold o1 in Hu. change (updated oid o1 st ROLLING_BACK t (w_store w0)) with m1 in Hu.
  pose proof (on_net_run (net_rollback oid) (put_store m1 w0) _ _ Hn) as Hnet.
  unfold rollback_network. rewrite !(bind_ok _ _ _ _ _ (find_run g oid w st o Hr Hg Hc Ho)). cbv beta iota.
  rewrite (bool_decide_eq_false_2 (o_state o = FAILED)) by done.
  match goal with |- context [catch ?c ?h] => set (body := c); set (handler := h) end.
  assert (body w = on_net (net_rollback oid) (put_store m1 w0)) as Hb.
  { unfold body. rewrite (bind_ok _ _ _ _ _ (now_ts_run w)). fold t w0. by rewrite (bind_ok _ _ _ _ _ Hu). }
  rewrite Hnet in Hb. destruct r as [snap|[]]; try exact I.
  - set (w2 := put_net n (put_store m1 w0)). set (t' := timestamp (or_wall (w_oracle w2) (w_step w2))).
    exists t', (w_step w2 + 1).
    erewrite (bind_ok (catch _ _)); [|unfold catch; by rewrite Hb].
    rewrite (bind_ok _ _ _ _ _ (now_ts_run w2)). fold t'.
    assert (ready (w_store (put_step (w_step w2 + 1) w2)) (state_set_network ROLLING_BACK t st)) as Hr2.
    { unfold w2. simpl. apply updated_ready. apply Hr. }
    assert (dict_get oid (m_operations (w_store (put_step (w_step w2 + 1) w2))) = Some o1) as Hg2.
    { unfold w2. simpl. by rewrite dict_get_set, bool_decide_eq_true_2. }
    by rewrite (bind_ok _ _ _ _ _ (update_step oid FAILED snap.(sn_state) t' (Some "cancelled") _ _ o1 Hr2 Hg2)).
  - erewrite (bind_raise (catch _ _)); [reflexivity|]. unfold catch. by rewrite Hb.
Qed.
End Flow.

(** [begin_change] of a valid request, on an idle adapter and otherwise. *)
Lemma begin_change_cases r n :
  canonical r.(nc_operation_id) →
  if bool_decide (strip r.(nc_ssid) ≠ "") && bool_decide (n.(n_active_operation_id) = None)
  then ∃ snap n1, mnet_begin_change r n = (Ok snap, n1)
  else ∃ msg, mnet_begin_change r n = (Raise (NetworkProvisioningError msg), n).
Proof.
  intros Hc. destruct (canonical_strip _ Hc) as [Hs Hne]. unfold mnet_begin_change. cbv zeta.
  rewrite Hs, !bind_guard, (bool_decide_eq_false_2 (nc_operation_id r = "")) by done.
  destruct (decide (strip (nc_ssid r) = "")) as [E|E].
  - rewrite (bool_decide_eq_true_2 (strip (nc_ssid r) = "")), (bool_decide_eq_false_2 (strip (nc_ssid r) ≠ "")) by auto.
    by eexists.
  - rewrite (bool_decide_eq_false_2 (strip (nc_ssid r) = "")), (bool_decide_eq_true_2 (strip (nc_ssid r) ≠ "")) by done.
    mnorm. destruct (n_active_operation_id n) as [a|]; [by eexists|]. by eexists _, _.
Qed.

Lemma settled_inactive (k : string) (o : BootstrapOperation) ops :
  active_state o.(o_state) = false →
  existsb (λ kv : string * BootstrapOperation, active_state kv.2.(o_state)) ops = false →
  existsb (λ kv : string * BootstrapOperation, active_state kv.2.(o_state)) (dict_set k o ops) = false.
Proof. intros Ho. by apply existsb_dict_set. Qed.

(** C7: over the in-memory network adapter, a network change goes through, or
    leaves the Host as it was.  A Host Admin's valid request with a fresh operation id, while no operation is
    active, is staged when the adapter is idle and the SSID is not blank: the
    operation then waits for confirmation.  [confirm_network] completes it, on
    the new network; [rollback_network] cancels it, and the adapter is exactly
    as before.  When staging fails the request is refused, the operation is
    recorded as failed, the adapter is untouched, and the durable network
    state falls back to [connected] or [degraded].  The store is the in-memory
    one, and any other by CommissioningRefinement.v.  Of the network this adapter
    alone is meant: what NetworkManager makes of a change, which an error of the
    bus can leave half done, is in NetworkManagerProofs.v. *)
Theorem network_change_flow g payload r w st :
  ready (w_store w) st → holds_grant g st (w_store w) = true → net_wf (w_net w) →
  change_request payload = Ok r → dict_get r.(nc_operation_id) (w_store w).(m_operations) = None →
  no_active_operation (w_store w) →
  let oid := r.(nc_operation_id) in
  let '(reply, w1) := configure_network (ControllerAccess g) payload w in
  if bool_decide (strip r.(nc_ssid) ≠ "") && bool_decide ((w_net w).(n_active_operation_id) = None) then
    (∃ o, reply = Ok (operation_doc o)) ∧ journal w1 oid = Some (WAITING_CONFIRMATION, None) ∧
    host_network w1 = Some STAGING ∧
    (let '(reply2, w2) := confirm_network (ControllerAccess g) (JStr oid) w1 in
     (∃ o, reply2 = Ok (operation_doc o)) ∧ journal w2 oid = Some (SUCCEEDED, None) ∧
     host_network w2 = Some CONNECTED ∧ (w_net w2).(n_current_ssid) = Some (strip r.(nc_ssid)) ∧
     no_active_operation (w_store w2)) ∧
    (let '(reply2, w2) := rollback_network (ControllerAccess g) (JStr oid) w1 in
     (∃ o, reply2 = Ok (operation_doc o)) ∧ journal w2 oid = Some (FAILED, Some "cancelled") ∧
     host_network w2 = Some (w_net w).(n_state) ∧ w_net w2 = w_net w ∧ no_active_operation (w_store w2))
  else
    (∃ msg, reply = Raise (rejected "network_stage_failed" msg)) ∧
    journal w1 oid = Some (FAILED, Some "network_stage_failed") ∧ w_net w1 = w_net w ∧
    host_network w1 = Some (if bool_decide (st.(network_state) = CONNECTED) then CONNECTED else DEGRADED) ∧
    no_active_operation (w_store w1).
Proof.
  intros Hr Hg Hn Hp Hf Ha oid. unfold no_active_operation in *. destruct (change_request_ok _ _ Hp) as (_ & _ & _ & _ & Hc).
  fold oid in Hf, Hc.
  destruct (prepare_run g payload r w st Hr Hg Hp Hf Ha) as (o & t & i & Hprep & Ho & _). fold oid in Hprep.
  unfold configure_network. rewrite (bind_ok _ _ _ _ _ Hprep). cbv beta iota. fold oid.
  set (w0 := put_store _ (put_step i w)). set (o0 := operation_set RUNNING t None o) in *.
  assert (ready (w_store w0) (state_set_network STAGING t st)) as Hr0 by by destruct Hr.
  assert (dict_get oid (m_operations (w_store w0)) = Some o0) as Ho0.
  { apply updated_get. }
  assert (m_operations (w_store w0) = dict_set oid o0 (m_operations (w_store w))) as Hops0.
  { unfold w0. simpl. apply dict_set_set. }
  assert (holds_grant g (state_set_network STAGING t st) (w_store w0) = true) as Hg0 by done.
  pose proof (begin_change_cases r (w_net w) Hc) as Hb.
  destruct (bool_decide (strip (nc_ssid r) ≠ "") && bool_decide (n_active_operation_id (w_net w) = None)).
  - destruct Hb as (snap & n1 & Hb).
    destruct (stage_spec _ _ _ _ Hn Hb) as (H0 & H1 & H2 & H3 & H4 & H5).
    destruct (canonical_strip _ Hc) as [Hstrip _]. fold oid in H1. rewrite Hstrip in H1.
    set (w1 := put_net n1 w0). assert (try_net (net_begin_change r) w0 = (Ok (Ok snap), w1)) as Ht.
    { unfold try_net. erewrite (on_net_run (net_begin_change r)); [reflexivity|]. rewrite <- Hb. reflexivity. }
    rewrite (bind_ok _ _ _ _ _ Ht).
    destruct (finish_ok oid (network_state st) snap w1 _ o0 Hr0 Ho0) as (t1 & i1 & ->).
    set (o1 := operation_set WAITING_CONFIRMATION t1 None o0). set (w2 := put_store _ (put_step i1 w1)).
    assert (journal w2 oid = Some (WAITING_CONFIRMATION, None)) as Hj.
    { unfold journal. unfold w2 at 1. cbn [w_store put_store]. by rewrite updated_get. }
    split; [by eexists|]. split; [done|]. split; [done|].
    set (st2 := state_set_network STAGING t1 (state_set_network STAGING t st)).
    assert (ready (w_store w2) st2) as Hr2 by by destruct Hr.
    assert (dict_get oid (m_operations (w_store w2)) = Some o1) as Ho1 by apply updated_get.
    assert (holds_grant g st2 (w_store w2) = true) as Hg2 by done.
    assert (m_operations (w_store w2) = dict_set oid o1 (m_operations (w_store w))) as Hops2.
    { unfold w2. cbn [w_store put_store updated set_state set_operations m_operations].
      change (w_store w1) with (w_store w0). by rewrite Hops0, dict_set_set. }
    assert (mnet_require_operation oid n1 = (Ok tt, n1)) as Hreq.
    { unfold mnet_require_operation. mnorm. rewrite H1, (bool_decide_eq_true_2 (Some oid = Some oid)) by done.
      rewrite bool_decide_eq_false_2; [done|]. by apply canonical_strip. }
    split.
    + assert (∃ snap' n2, mnet_confirm oid (w_net w2) = (Ok snap', n2) ∧ n_current_ssid n2 = n_staged_ssid n1) as (snap' & n2 & Hcf & Hcur).
      { unfold mnet_confirm. change (w_net w2) with n1. rewrite (bind_ok _ _ _ _ _ Hreq). mnorm. by eexists _, _. }
      destruct (confirm_run g oid w2 st2 o1 snap' n2 Hr2 Hg2 Hc Ho1 eq_refl Hcf) as (t2 & i2 & ->).
      split; [by eexists|]. split.
      { unfold journal. cbn [w_store put_store]. by rewrite updated_get. }
      split; [done|]. split; [cbn; by rewrite Hcur, H3|].
      cbn [w_store put_store updated set_state set_operations m_operations].
      rewrite Hops2, dict_set_set. by apply settled_inactive.
    + assert (mnet_rollback oid (w_net w2) = (Ok (net_snapshot (w_net w)), w_net w)) as Hrb.
      { unfold mnet_rollback. change (w_net w2) with n1. rewrite (bind_ok _ _ _ _ _ Hreq). mnorm. unfold gets.
        by rewrite H5. }
      destruct (rollback_run g oid w2 st2 o1 _ _ Hr2 Hg2 Hc Ho1 ltac:(done) Hrb) as (t2 & i2 & t3 & i3 & ->).
      split; [by eexists|]. split.
      { unfold journal. cbn [w_store put_store]. by rewrite updated_get. }
      split; [done|]. split; [done|].
      cbn [w_store put_store updated set_state set_operations m_operations].
      rewrite Hops2, !dict_set_set. by apply settled_inactive.
  - destruct Hb as (msg & Hb).
    assert (try_net (net_begin_change r) w0 = (Ok (Raise (NetworkProvisioningError msg)), put_net (w_net w) w0)) as Ht.
    { unfold try_net. erewrite (on_net_run (net_begin_change r)); [reflexivity|]. rewrite <- Hb. reflexivity. }
    rewrite (bind_ok _ _ _ _ _ Ht). set (w1 := put_net (w_net w) w0).
    destruct (finish_failed oid (network_state st) msg w1 _ o0 Hr0 Ho0) as (t1 & i1 & ->).
    split; [by eexists|]. split.
    { unfold journal. cbn [w_store put_store]. by rewrite updated_get. }
    split; [done|]. split; [done|].
    cbn [w_store put_store updated set_state set_operations m_operations].
    change (w_store w1) with (w_store w0). rewrite Hops0, dict_set_set. by apply settled_inactive.
Qed.

Definition sample_oracle : oracle :=
  mkOracle (λ i, Z.of_nat i * 1000000)%Z (λ i, Z.of_nat i * 1000000)%Z (λ _, "u"%string) (λ _, 0%N) (λ _, []).
Definition sample_world : world MemoryStore InMemoryNetwork :=
  mkWorld (run_calls [CIssue "s" "h" "t0" None; CClaim "s" "h" sample_grant "t1"] (mem_start "t")).2
    (net_init (Some "home") []) sample_oracle 0.
Definition sample_oid : string := "12345678-1234-5678-1234-567812345678".
Definition sample_payload : obj := [("operation_id", JStr sample_oid); ("ssid", JStr "cafe")].

Lemma network_change_flow_witness :
  change_request sample_payload = Ok (mkChange sample_oid "cafe" None false) ∧
  (let w1 := (configure_network (ControllerAccess sample_grant) sample_payload sample_world).2 in
   let w2 := (confirm_network (ControllerAccess sample_grant) (JStr sample_oid) w1).2 in
   let w3 := (rollback_network (ControllerAccess sample_grant) (JStr sample_oid) w1).2 in
   journal w1 sample_oid = Some (WAITING_CONFIRMATION, None) ∧
   journal w2 sample_oid = Some (SUCCEEDED, None) ∧ w_net w3 = w_net sample_world).
Proof.
  assert (change_request sample_payload = Ok (mkChange sample_oid "cafe" None false)) as Hp by (vm_compute; reflexivity).
  split; [exact Hp|].
  pose proof (network_change_flow sample_grant sample_payload (mkChange sample_oid "cafe" None false) sample_world
    (mkBootstrapState 0 CLAIMED UNCONFIGURED "t1") ltac:(split; vm_compute; reflexivity) ltac:(vm_compute; reflexivity)
    ltac:(vm_compute; auto) Hp ltac:(vm_compute; reflexivity) ltac:(vm_compute; reflexivity)) as H.
  cbv zeta in H |- *. cbn [nc_operation_id] in H.
  destruct (configure_network _ _ _) as [r1 w1]. cbn [snd].
  destruct (confirm_network _ _ w1) as [r2 w2], (rollback_network _ _ w1) as [r3 w3]. cbn [snd].
  match type of H with if ?b then _ else _ => replace b with true in H by (vm_compute; reflexivity) end.
  destruct H as (_ & H1 & _ & (_ & H2 & _) & (_ & _ & _ & H3 & _)). auto.
Defined.

(** ** Two ways to come apart *)

(** An operation is being compensated and the adapter holds no change. *)
Definition wedged (w : world MemoryStore InMemoryNetwork) : Prop :=
  (∃ st, ready (w_store w) st) ∧ (w_net w).(n_active_operation_id) = None ∧
  ∃ oid o, dict_get oid (w_store w).(m_operations) = Some o ∧ o.(o_state) = COMPENSATING.

Section Wedge.
Abbreviation HW := (world MemoryStore InMemoryNetwork).
Context (sha256_hex : list ascii → string) (load_der : list ascii → result key_kind).

Definition keeps_wedged {A} (c : M HW A) : Prop := ∀ w, wedged w → wedged (c w).2.

Lemma wedged_idle w oid : wedged w → 
  mnet_confirm oid (w_net w) = (Raise (NetworkProvisioningError "network operation does not match"), w_net w) ∧
  mnet_rollback oid (w_net w) = (Raise (NetworkProvisioningError "network operation does not match"), w_net w).
Proof.
  intros (_ & Hn & _). unfold mnet_confirm, mnet_rollback.
  assert (mnet_require_operation oid (w_net w) = (Raise (NetworkProvisioningError "network operation does not match"), w_net w)) as Hreq.
  { unfold mnet_require_operation. mnorm. rewrite Hn, (bool_decide_eq_false_2 (None = Some oid)) by done.
    by rewrite orb_true_r. }
  split; by rewrite (bind_raise _ _ _ _ _ Hreq).
Qed.

Definition mismatch : exn := NetworkProvisioningError "network operation does not match".

Lemma wedged_on_net w oid : wedged w →
  on_net (net_confirm oid) w = (Raise mismatch, w) ∧ on_net (net_rollback oid) w = (Raise mismatch, w).
Proof.
  intros Hw. destruct (wedged_idle w oid Hw) as [H1 H2]. unfold on_net, zoom.
  change (net_confirm oid (w_net w)) with (mnet_confirm oid (w_net w)).
  change (net_rollback oid (w_net w)) with (mnet_rollback oid (w_net w)). rewrite H1, H2. by destruct w.
Qed.

Lemma wedged_active w : wedged w → existsb (λ kv, active_state kv.2.(o_state)) (w_store w).(m_operations) = true.
Proof.
  intros (_ & _ & oid & o & Ho & Hs). apply existsb_elem. exists (oid, o). split; [by apply dict_get_elem|].
  simpl. by rewrite Hs.
Qed.

Lemma wedged_frame (w w' : HW) :
  wedged w → w_net w' = w_net w → (∃ st, ready (w_store w') st) →
  (w_store w').(m_operations) = (w_store w).(m_operations) → wedged w'.
Proof. intros (_ & Hn & Hw) Hnet Hr Hops. unfold wedged. by rewrite Hnet, Hops. Qed.

Lemma keeps_require a : keeps_wedged (require_authorized a).
Proof.
  intros w Hw. destruct (proj1 Hw) as [st Hr]. pose proof (require_frame a w st Hr) as H.
  destruct (require_authorized a w) as [r w']. destruct H as (Hn & Hr' & Ho & _). by eapply wedged_frame; eauto.
Qed.

Lemma require_controller_frame a (w : HW) : (require_controller a w).2 = w.
Proof. by destruct a. Qed.

Lemma find_frame a v (w : HW) :
  wedged w → let '(r, w') := find_operation a v w in
  wedged w' ∧ ∀ oid o, r = Ok (oid, o) → dict_get oid (w_store w').(m_operations) = Some o.
Proof.
  intros Hw. unfold find_operation. pose proof (keeps_require a w Hw) as H1.
  destruct (require_authorized a w) as [[[]|e] w1] eqn:E1; cbn [snd] in H1.
  2: { by rewrite (bind_raise _ _ _ _ _ E1). }
  rewrite (bind_ok _ _ _ _ _ E1). pose proof (require_controller_frame a w1) as H2.
  destruct (require_controller a w1) as [[[]|e] w2] eqn:E2; cbn [snd] in H2; subst w2.
  2: { by rewrite (bind_raise _ _ _ _ _ E2). }
  rewrite (bind_ok _ _ _ _ _ E2). destruct (operation_id_of v) as [oid|e]; [|done].
  unfold lift. rewrite bind_mret_lift. destruct (proj1 H1) as [st Hr].
  rewrite (bind_ok _ _ _ _ _ (on_store_read _ _ _ (mem_get_operation_run oid _ _ Hr))).
  destruct (dict_get oid _) as [o|] eqn:Eo; [|done]. split; [done|]. by intros ? ? [= -> ->].
Qed.

Lemma wedged_confirm a v : keeps_wedged (confirm_network a v).
Proof.
  intros w Hw. unfold confirm_network. pose proof (find_frame a v w Hw) as Hf.
  destruct (find_operation a v w) as [[[oid o]|e] w1] eqn:E1; destruct Hf as [Hw1 _].
  2: { by rewrite (bind_raise _ _ _ _ _ E1). }
  rewrite (bind_ok _ _ _ _ _ E1). destruct (wedged_on_net w1 oid Hw1) as [Hc _].
  destruct (o_state o); try done. erewrite (bind_raise (catch _ _)); [exact Hw1|].
  unfold catch. by rewrite (bind_raise _ _ _ _ _ Hc).
Qed.

Lemma wedged_updated oid o (w : HW) st t :
  wedged w → ready (w_store w) st → o.(o_state) = COMPENSATING →
  ∀ i, wedged (put_store (updated oid o st ROLLING_BACK t (w_store w)) (put_step i w)).
Proof.
  intros (_ & Hn & oid' & o' & Hg & Hs) Hr Ho i. split; [by eexists; apply updated_ready|]. split; [done|].
  destruct (decide (oid' = oid)) as [->|Hne].
  - exists oid, o. split; [apply updated_get|done].
  - exists oid', o'. split; [|done]. simpl. by rewrite dict_get_set, bool_decide_eq_false_2.
Qed.

Lemma wedged_rollback a v : keeps_wedged (rollback_network a v).
Proof.
  intros w Hw. unfold rollback_network. pose proof (find_frame a v w Hw) as Hf.
  destruct (find_operation a v w) as [[[oid o]|e] w1] eqn:E1; destruct Hf as [Hw1 Ho].
  2: { by rewrite (bind_raise _ _ _ _ _ E1). }
  rewrite (bind_ok _ _ _ _ _ E1). case_bool_decide; [done|]. specialize (Ho _ _ eq_refl).
  destruct (proj1 Hw1) as [st Hr]. set (w2 := put_step (w_step w1 + 1) w1).
  set (t := timestamp (or_wall (w_oracle w1) (w_step w1))).
  pose proof (update_step oid COMPENSATING ROLLING_BACK t None w2 st o Hr Ho) as Hu.
  set (w3 := put_store _ w2) in Hu.
  assert (wedged w3) as Hw3 by (by apply (wedged_updated oid (operation_set COMPENSATING t None o) w1)).
  destruct (wedged_on_net w3 oid Hw3) as [_ Hrb].
  erewrite (bind_raise (catch _ _)); [exact Hw3|].
  unfold catch. rewrite (bind_ok _ _ _ _ _ (now_ts_run w1)). fold t w2. rewrite (bind_ok _ _ _ _ _ Hu).
  by rewrite Hrb.
Qed.

(** In a wedged Host no fresh operation can begin. *)
Lemma wedged_configure a payload (w : HW) :
  wedged w →
  let '(r, w') := configure_network a payload w in
  wedged w' ∧ ∀ d, r = Ok d → ∃ oid o, operation_id_of (obj_get "operation_id" payload JNull) = Ok oid ∧
    dict_get oid (w_store w).(m_operations) = Some o.
Proof.
  intros Hw. unfold configure_network, configure_prepare.
  destruct (proj1 Hw) as [st0 Hr0]. pose proof (require_frame a w st0 Hr0) as Hfr.
  pose proof (keeps_require a w Hw) as H1.
  destruct (require_authorized a w) as [[[]|e] w1] eqn:E1; cbn [snd] in H1; destruct Hfr as (_ & Hr & Hops & _).
  2: { by rewrite (bind_raise _ _ _ _ _ (bind_raise _ _ _ _ _ E1)). }
  rewrite bind_assoc, (bind_ok _ _ _ _ _ E1). pose proof (require_controller_frame a w1) as H2.
  destruct (require_controller a w1) as [[[]|e] w2] eqn:E2; cbn [snd] in H2; subst w2.
  2: { by rewrite (bind_raise _ _ _ _ _ (bind_raise _ _ _ _ _ E2)). }
  rewrite bind_assoc, (bind_ok _ _ _ _ _ E2).
  destruct (operation_id_of _) as [oid|e]; [|done]. unfold lift. rewrite bind_assoc, bind_mret_lift.
  destruct (ssid_of _) as [ssid|e]; [|done]. rewrite bind_assoc, bind_mret_lift.
  destruct (passphrase_of _) as [pass|e]; [|done]. rewrite bind_assoc, bind_mret_lift.
  destruct (hidden_of _) as [hid|e]; [|done]. rewrite bind_assoc, bind_mret_lift, bind_assoc.
  rewrite (bind_ok _ _ _ _ _ (on_store_read _ _ _ (mem_get_operation_run oid _ _ Hr))), Hops.
  destruct (dict_get oid _) as [o|] eqn:Eo.
  - rewrite bind_assoc, bind_guard. destruct (negb _); [done|]. rewrite bind_mret. split; [done|].
    intros _ _. by exists oid, o.
  - rewrite bind_assoc, (bind_ok _ _ _ _ _ (on_store_read _ _ _ (mem_get_state_run _ _ Hr))).
    rewrite bind_assoc, (bind_ok _ _ _ _ _ (now_ts_run w1)). cbv zeta.
    set (op := mkOperation _ _ _ _ _ _ _ _). set (w2 := put_step (w_step w1 + 1) w1).
    assert (on_store (store_create_operation op) w2 =
      (Raise (BootstrapStateConflict "another bootstrap operation is active"), w2)) as Hc.
    { rewrite (on_store_run (store_create_operation op) w2
        (Raise (BootstrapStateConflict "another bootstrap operation is active")) (w_store w2)).
      - by destruct w2.
      - cbn [store_create_operation memory_store]. rewrite (mem_create_run op (w_store w2) st0 Hr).
        change (w_store w2) with (w_store w1). rewrite Hops. change (operation_id op) with oid. rewrite Eo.
        change (o_reset_epoch op) with (reset_epoch st0). rewrite Z.eqb_refl. cbn [negb].
        by rewrite (wedged_active w Hw). }
    rewrite bind_assoc. erewrite (bind_raise (catch _ _)).
    2: { unfold catch. rewrite (bind_raise _ _ _ _ _ Hc). reflexivity. }
    split; [|done]. apply (wedged_frame w1); done || by exists st0.
Qed.

(** Handlers that never touch the journal or the adapter's change. *)
Definition journal_frame {A} (c : M MemoryStore A) : Prop :=
  ∀ s st, ready s st → (∃ st', ready (c s).2 st') ∧ (c s).2.(m_operations) = s.(m_operations).

Lemma keeps_ret {A} (x : A) : keeps_wedged (mret x).
Proof. by intros w. Qed.
Lemma keeps_raise {A} e : keeps_wedged (@raise _ A e).
Proof. by intros w. Qed.
Lemma keeps_lift {A} (r : result A) : keeps_wedged (lift r).
Proof. by intros w. Qed.
Lemma keeps_guard b e : keeps_wedged (guard_py b e).
Proof. intros w Hw. by destruct b. Qed.
Lemma keeps_bind {A B} (c : M HW A) (k : A → M HW B) :
  keeps_wedged c → (∀ x, keeps_wedged (k x)) → keeps_wedged (c ≫= k).
Proof.
  intros Hc Hk w Hw. unfold mbind, M_bind. specialize (Hc w Hw). destruct (c w) as [[x|e] w1]; [by apply Hk|done].
Qed.
Lemma keeps_catch {A} (c : M HW A) h :
  keeps_wedged c → (∀ e k, h e = Some k → keeps_wedged k) → keeps_wedged (catch c h).
Proof.
  intros Hc Hh w Hw. unfold catch. specialize (Hc w Hw). destruct (c w) as [[x|e] w1]; [done|].
  destruct (h e) as [k|] eqn:E; [by apply (Hh e k)|done].
Qed.
Lemma keeps_store {A} (c : M MemoryStore A) : journal_frame c → keeps_wedged (on_store c).
Proof.
  intros Hc w Hw. destruct (proj1 Hw) as [st Hr]. destruct (Hc _ _ Hr) as [Hr' Ho]. unfold on_store, zoom.
  destruct (c (w_store w)) as [r s']. by apply (wedged_frame w).
Qed.
Lemma keeps_now : keeps_wedged now_ts.
Proof. intros w Hw. by apply (wedged_frame w); try apply Hw. Qed.

Lemma frame_get_state : journal_frame mem_get_state.
Proof. intros s st Hr. rewrite (mem_get_state_run _ _ Hr). by split; [exists st|]. Qed.
Lemma frame_get_controller cid : journal_frame (mem_get_controller cid).
Proof. intros s st Hr. rewrite (mem_get_controller_run _ _ _ Hr). by split; [exists st|]. Qed.
Lemma frame_authorize sid hash t : journal_frame (mem_authorize_commissioning_session sid hash t).
Proof.
  intros s st Hr. destruct (authorize_loop sid hash t (m_sessions s)) as [r l] eqn:E.
  rewrite (mem_authorize_run _ _ _ _ _ _ _ Hr E). by split; [exists st|].
Qed.
Lemma frame_claim sid hash g t : journal_frame (mem_claim_controller sid hash g t).
Proof.
  intros s st Hr. rewrite (mem_claim_run _ _ _ _ _ _ Hr).
  destruct (_ !! sid); [repeat case_match; simplify_eq; (split; [by exists st|done])|].
  destruct (authorize_loop _ _ _ _) as [[m|] l]; [|by split; [exists st|]].
  unfold claim_fresh. pose proof (mem_grant_in_epoch_pure g (reset_epoch st) s) as Hp.
  destruct (negb _); [by split; [exists st|]|].
  destruct (mem_grant_in_epoch _ _ _) as [[[h|]|e] s2]; cbn [fst snd] in *; subst; [|by split; [eexists|]|by split; [exists st|]].
  by split; [exists st|].
Qed.

Lemma wedged_setup r : keeps_wedged (run_setup sha256_hex load_der r).
Proof.
  pose proof keeps_require. pose proof wedged_confirm. pose proof wedged_rollback.
  pose proof frame_get_state. pose proof frame_get_controller. pose proof frame_authorize. pose proof frame_claim.
  destruct r; cbn [run_setup]; (apply keeps_bind; [|intros; apply keeps_ret]); auto.
  - unfold authorize, on_conflict. destruct session_id, secret; try apply keeps_raise.
    repeat (apply keeps_bind; [first [apply keeps_guard|apply keeps_now|idtac]|intros]); [|apply keeps_ret].
    apply keeps_catch; [apply keeps_bind; [apply keeps_store, frame_authorize|intros; apply keeps_ret]|].
    intros [] k; intros [= <-]. apply keeps_raise.
  - unfold authorize_controller. destruct controller_id; try apply keeps_raise.
    apply keeps_bind; [apply keeps_guard|intros]. apply keeps_bind; [by apply keeps_store|intros [g|]];
      (apply keeps_bind; [by apply keeps_store|intros]); [|apply keeps_raise].
    apply keeps_bind; [apply keeps_guard|intros]. apply keeps_ret.
  - unfold status. apply keeps_bind; [auto|intros]. apply keeps_bind; [by apply keeps_store|intros; apply keeps_ret].
  - unfold scan_networks. apply keeps_bind; [auto|intros].
    do 2 (apply keeps_bind; [intros w Hw; by apply (wedged_frame w); try apply Hw|intros]). apply keeps_ret.
  - intros w Hw. pose proof (wedged_configure a payload w Hw) as Hc. destruct (configure_network _ _ _). apply Hc.
  - unfold claim_controller. apply keeps_bind; [by apply keeps_store|intros]. apply keeps_bind; [apply keeps_now|intros].
    apply keeps_bind; [apply keeps_lift|intros]. apply keeps_bind.
    { apply keeps_catch; [apply keeps_store, frame_claim|]. intros e k. destruct (claim_error e); [|done].
      intros [= <-]. apply keeps_raise. }
    intros. apply keeps_bind; [apply keeps_ret|intros]. apply keeps_bind; [by apply keeps_store|intros; apply keeps_ret].
Qed.

Lemma wedged_setups rs w : wedged w → wedged (run_setups sha256_hex load_der rs w).2.
Proof.
  revert w. induction rs as [|r rs IH]; intros w Hw; [done|]. cbn [run_setups].
  pose proof (wedged_setup r w Hw) as H1. destruct (run_setup _ _ r w) as [x w1].
  specialize (IH w1 H1). by destruct (run_setups _ _ rs w1).
Qed.
End Wedge.

(** Rolling back a change that already succeeded wedges the Host.
    [rollback_network] refuses only failed operations, so it moves a succeeded
    one to [compensating] and the Host to [rolling_back]; the adapter then
    refuses, because it holds no change.  From there no sequence of setup
    requests leaves that state, and no new network change can begin: only a
    restart of the daemon fails the operation. *)
Theorem rollback_after_success_wedges sha256_hex load_der g oid w st o requests :
  ready (w_store w) st → holds_grant g st (w_store w) = true → canonical oid →
  dict_get oid (w_store w).(m_operations) = Some o → o.(o_state) = SUCCEEDED →
  (w_net w).(n_active_operation_id) = None →
  let '(reply, w1) := rollback_network (ControllerAccess g) (JStr oid) w in
  reply = Raise (rejected "network_rollback_failed" "The Wi-Fi rollback did not complete") ∧
  journal w1 oid = Some (COMPENSATING, None) ∧ host_network w1 = Some ROLLING_BACK ∧
  let w2 := (run_setups sha256_hex load_der requests w1).2 in
  (∃ oid' o', dict_get oid' (w_store w2).(m_operations) = Some o' ∧ o'.(o_state) = COMPENSATING) ∧
  (∀ a payload new, operation_id_of (obj_get "operation_id" payload JNull) = Ok new →
    dict_get new (w_store w2).(m_operations) = None →
    ∃ e, (configure_network a payload w2).1 = Raise e).
Proof.
  intros Hr Hg Hc Ho Hs Hn.
  assert (mnet_rollback oid (w_net w) = (Raise mismatch, w_net w)) as Hrb.
  { unfold mnet_rollback. apply bind_raise. unfold mnet_require_operation. mnorm.
    rewrite Hn, (bool_decide_eq_false_2 (None = Some oid)) by done. by rewrite orb_true_r. }
  destruct (rollback_run g oid w st o _ _ Hr Hg Hc Ho ltac:(by rewrite Hs) Hrb) as (t & i & Hrun).
  cbv zeta in Hrun. rewrite Hrun. set (w1 := put_store _ _).
  assert (wedged w1) as Hw1.
  { split; [by eexists; apply updated_ready|]. split; [done|]. eexists oid, _. split; [apply updated_get|done]. }
  split; [done|]. split.
  { unfold journal. unfold w1. cbn [w_store put_store]. by rewrite updated_get. }
  split; [done|]. pose proof (wedged_setups sha256_hex load_der requests w1 Hw1) as Hw2.
  cbv zeta. set (w2 := snd _) in *. split; [apply Hw2|].
  intros a payload new Hnew Hfresh. pose proof (wedged_configure a payload w2 Hw2) as Hcf.
  destruct (configure_network a payload w2) as [[d|e] w3]; [|by exists e].
  destruct Hcf as [_ Hcf]. destruct (Hcf d eq_refl) as (oid' & o' & H1 & H2). rewrite Hnew in H1. congruence.
Qed.

(** The Host after a completed change. *)
Definition changed_world : world MemoryStore InMemoryNetwork :=
  (confirm_network (ControllerAccess sample_grant) (JStr sample_oid)
    (configure_network (ControllerAccess sample_grant) sample_payload sample_world).2).2.

Lemma rollback_after_success_wedges_witness :
  let '(reply, w1) := rollback_network (ControllerAccess sample_grant) (JStr sample_oid) changed_world in
  reply = Raise (rejected "network_rollback_failed" "The Wi-Fi rollback did not complete") ∧
  journal w1 sample_oid = Some (COMPENSATING, None) ∧ host_network w1 = Some ROLLING_BACK ∧
  let w2 := (run_setups (λ _, ""%string) (λ _, Ok P256) [] w1).2 in
  (∃ oid' o', dict_get oid' (w_store w2).(m_operations) = Some o' ∧ o'.(o_state) = COMPENSATING) ∧
  (∀ a payload new, operation_id_of (obj_get "operation_id" payload JNull) = Ok new →
    dict_get new (w_store w2).(m_operations) = None →
    ∃ e, (configure_network a payload w2).1 = Raise e).
Proof.
  apply (rollback_after_success_wedges (λ _, ""%string) (λ _, Ok P256) sample_grant sample_oid changed_world
    (mkBootstrapState 0 CLAIMED CONNECTED "0001-01-01T00:00:02Z")
    (mkOperation sample_oid CHANGE_NETWORK SUCCEEDED "cafe" 0 "0001-01-01T00:00:00Z" "0001-01-01T00:00:02Z" None) []).
  - split; vm_compute; reflexivity.
  - vm_compute. reflexivity.
  - exists (list_ascii_of_string "12345678123456781234567812345678"). vm_compute. auto.
  - vm_compute. reflexivity.
  - reflexivity.
  - vm_compute. reflexivity.
Defined.

Lemma dict_get_fail_active oid now reason ops :
  dict_get oid (fail_active now reason ops) =
  (λ o, if active_state o.(o_state) then operation_set FAILED now (Some reason) o else o) <$> dict_get oid ops.
Proof.
  induction ops as [|[k o] ops IH]; [done|]. cbn [fail_active fmap list_fmap dict_get].
  case_bool_decide; [done|]. apply IH.
Qed.

(** A reset that lands while a change is being staged does not stick.
    [configure_network] awaits the adapter; if [reset_authority] runs there it
    fails the operation, but when the adapter answers the handler records it
    as waiting for confirmation all the same.  The new epoch then starts with
    an active operation of the old one: the Host reads [staging], and no
    operation of the new epoch can be created. *)
Theorem reset_during_staging_undone ns now seed oid prev snap s st cur net o step :
  ready s st → dict_get oid s.(m_operations) = Some cur → active_state cur.(o_state) = true →
  let w := mkWorld (mem_reset_authority ns now seed s).2 net o step in
  let '(reply, w') := configure_finish oid prev (Ok snap) w in
  journal w oid = Some (FAILED, Some "authority_reset") ∧
  (∃ d, reply = Ok d) ∧ journal w' oid = Some (WAITING_CONFIRMATION, None) ∧
  host_network w' = Some STAGING ∧
  (∃ st', (w_store w').(m_state) = Some st' ∧ st'.(reset_epoch) = (st.(reset_epoch) + 1)%Z) ∧
  (∀ op, dict_get op.(operation_id) (w_store w').(m_operations) = None →
    ∃ e, mem_create_operation op (w_store w') = (Raise e, w_store w')).
Proof.
  intros Hr Hcur Hact w. pose proof (mem_reset_run ns now seed s st Hr) as Hreset. cbv zeta in Hreset.
  set (st' := mkBootstrapState _ _ _ _) in Hreset.
  assert (ready (w_store w) st') as Hr' by (unfold w; simpl; rewrite Hreset; done).
  assert (dict_get oid (w_store w).(m_operations) = Some (operation_set FAILED now (Some "authority_reset") cur)) as Hc.
  { unfold w. simpl. rewrite Hreset. simpl. rewrite dict_get_fail_active, Hcur. simpl. by rewrite Hact. }
  destruct (finish_ok oid prev snap w st' _ Hr' Hc) as (t & i & ->).
  split; [unfold journal; by rewrite Hc|]. split; [by eexists|]. split.
  { unfold journal. cbn [w_store put_store]. by rewrite updated_get. }
  split; [done|]. split; [by eexists|].
  intros op Hop. set (s2 := w_store (put_store _ _)) in *.
  assert (ready s2 (state_set_network STAGING t st')) as Hr2 by (by apply updated_ready).
  rewrite (mem_create_run op s2 _ Hr2), Hop. destruct (negb _); [by eexists|].
  replace (existsb _ _) with true; [by eexists|]. symmetry. apply existsb_elem.
  exists (oid, operation_set WAITING_CONFIRMATION t None (operation_set FAILED now (Some "authority_reset") cur)).
  split; [|done]. apply dict_get_elem, updated_get.
Qed.

Definition staging_world : world MemoryStore InMemoryNetwork :=
  (configure_prepare (ControllerAccess sample_grant) sample_payload sample_world).2.

Lemma reset_during_staging_undone_witness :
  let w := mkWorld (mem_reset_authority UNCONFIGURED "t9" None (w_store staging_world)).2
             (w_net staging_world) sample_oracle 9 in
  let '(reply, w') := configure_finish sample_oid UNCONFIGURED (Ok (net_snapshot (w_net w))) w in
  journal w sample_oid = Some (FAILED, Some "authority_reset") ∧
  (∃ d, reply = Ok d) ∧ journal w' sample_oid = Some (WAITING_CONFIRMATION, None) ∧
  host_network w' = Some STAGING ∧
  (∃ st', (w_store w').(m_state) = Some st' ∧ st'.(reset_epoch) = 1%Z) ∧
  (∀ op, dict_get op.(operation_id) (w_store w').(m_operations) = None →
    ∃ e, mem_create_operation op (w_store w') = (Raise e, w_store w')).
Proof.
  apply (reset_during_staging_undone UNCONFIGURED "t9" None sample_oid UNCONFIGURED _ (w_store staging_world)
    (mkBootstrapState 0 CLAIMED STAGING "0001-01-01T00:00:00Z")
    (mkOperation sample_oid CHANGE_NETWORK RUNNING "cafe" 0 "0001-01-01T00:00:00Z" "0001-01-01T00:00:00Z" None)).
  - split; vm_compute; reflexivity.
  - vm_compute. reflexivity.
  - reflexivity.
Defined.
