(* ===== verification/Protocol.v ===== *)
(** * The setup protocol and Controller authentication

    [bootstrap/controller_auth.py] and [bootstrap/commissioning_protocol.py]:
    the request dispatcher of one authenticated link.  A session object is the
    authorization it holds and the challenge it last issued. *)

From S2P Require Import Prelude Domain StateStore Encoding Json Timestamp Network Commissioning.

Definition BLE_CONTROLLER_AUTH_PURPOSE : string := "eidolon-controller-ble-auth-v1".
Definition LOCAL_API_CONTROLLER_AUTH_PURPOSE : string := "eidolon-controller-local-auth-v1".

(** ** [verify_controller_signature] *)

(** The bytes a Controller signs. *)
Definition controller_auth_message (controller_id challenge purpose : string) (reset_epoch : Z)
    : list ascii :=
  dumps true (DObj [("challenge", DStr challenge); ("contract_version", DStr "1");
    ("controller_id", DStr controller_id); ("purpose", DStr purpose);
    ("reset_epoch", DInt reset_epoch)]).

Definition invalid_signature : exn := ControllerSignatureError "Controller signature is invalid".

Section Signature.
(** ECDSA over P-256 with SHA-256: key, signature, message. *)
Context (load_der_public_key : list ascii → result key_kind)
        (ecdsa_verify : list ascii → list ascii → list ascii → bool).

Definition verify_controller_signature (g : ControllerGrant) (challenge purpose : string)
    (reset_epoch : Z) (signature_value : json) : result unit :=
  signature ← signature_base64url signature_value;
  public_der ← signature_base64url (JStr g.(public_key));
  match load_der_public_key public_der with
  | Raise (ValueError _) | Raise (TypeError _) => Raise invalid_signature
  | Raise e => Raise e
  | Ok OtherKey => Raise (ControllerSignatureError "Controller key must be P-256")
  | Ok P256 =>
      if ecdsa_verify public_der signature
           (controller_auth_message g.(controller_id) challenge purpose reset_epoch)
      then Ok tt else Raise invalid_signature
  end.
End Signature.

(** ** The session *)

Record protocol_session := mkProtocol {
  p_authorization : option CommissioningAccess;
  p_challenge : option (string * string * Z * Z) }.

Definition protocol_start : protocol_session := mkProtocol None None.

(** [_RETRYABLE_CODES] *)
Definition retryable (code : string) : bool :=
  bool_decide (code ∈ ["bootstrap_unavailable"; "internal_error"; "network_confirm_failed";
                       "network_rollback_failed"; "network_stage_failed"]).

Section Protocol.
Context {S N : Type} `{!BootstrapStateStore S} `{!NetworkProvisioning N}.
Context (sha256_hex : list ascii → string) (load_der_public_key : list ascii → result key_kind)
        (ecdsa_verify : list ascii → list ascii → list ascii → bool)
        (on_claimed : option (M (world S N) unit)).

Abbreviation P := (protocol_session * world S N)%type.

Definition in_world {A} (c : M (world S N) A) : M P A := zoom snd (λ w p, (p.1, w)) c.
Definition set_authorization (a : CommissioningAccess) : M P unit :=
  modify (λ p, (mkProtocol (Some a) p.1.(p_challenge), p.2)).
Definition set_challenge (c : option (string * string * Z * Z)) : M P unit :=
  modify (λ p, (mkProtocol p.1.(p_authorization) c, p.2)).

(** [base64.urlsafe_b64encode(secrets.token_bytes(32)).rstrip(b"=")] *)
Definition fresh_challenge : M (world S N) string :=
  b ← draw or_token; mret (string_of_list_ascii (b64url_encode b)).

Definition denied (msg : string) : exn := rejected "controller_denied" msg.

Definition authenticate_controller (payload : obj) : M P CommissioningAccess :=
  challenge_state ← gets (λ p, p.1.(p_challenge));
  set_challenge None ;;
  now ← match challenge_state with Some _ => in_world (draw or_mono) | None => mret 0%Z end;
  match challenge_state with
  | Some (controller_id, challenge, reset_epoch, deadline) =>
      guard_py (deadline <=? now)%Z (denied "Controller challenge is missing or expired") ;;
      guard_py (negb (json_eq_str (obj_get "controller_id" payload JNull) controller_id) ||
                negb (json_eq_str (obj_get "challenge" payload JNull) challenge) ||
                negb (json_eq_int (obj_get "reset_epoch" payload JNull) reset_epoch))
        (denied "Controller challenge does not match") ;;
      grant ← in_world (authorize_controller (JStr controller_id));
      match verify_controller_signature load_der_public_key ecdsa_verify grant challenge
              BLE_CONTROLLER_AUTH_PURPOSE reset_epoch (obj_get "signature" payload JNull) with
      | Ok _ => mret (ControllerAccess grant)
      | Raise (ControllerSignatureError _) => raise (denied "Controller signature is invalid")
      | Raise e => raise e
      end
  | None => raise (denied "Controller challenge is missing or expired")
  end.

Definition issue_challenge (payload : obj) : M P doc :=
  let controller_id := obj_get "controller_id" payload JNull in
  grant ← in_world (authorize_controller controller_id);
  challenge ← in_world fresh_challenge;
  t ← in_world (draw or_mono);
  let cid := match controller_id with JStr s => s | _ => "" end in
  set_challenge (Some (cid, challenge, grant.(g_reset_epoch), (t + 60000000)%Z)) ;;
  mret (DObj [("contract_version", DStr "1"); ("purpose", DStr BLE_CONTROLLER_AUTH_PURPOSE);
              ("controller_id", DStr cid); ("challenge", DStr challenge);
              ("reset_epoch", DInt grant.(g_reset_epoch))]).

(** The operations that need an authorization. *)
Definition dispatch_authorized (operation : json) (a : CommissioningAccess) (payload : obj) : M P doc :=
  if json_eq_str operation "setup.status" then in_world (status a)
  else if json_eq_str operation "wifi.scan" then in_world (scan_networks a)
  else if json_eq_str operation "wifi.configure" then in_world (configure_network a payload)
  else if json_eq_str operation "wifi.confirm" then
    in_world (confirm_network a (obj_get "operation_id" payload JNull))
  else if json_eq_str operation "wifi.rollback" then
    in_world (rollback_network a (obj_get "operation_id" payload JNull))
  else if json_eq_str operation "claim.complete" then
    match a with
    | SetupAccess b => in_world (claim_controller sha256_hex load_der_public_key on_claimed b payload)
    | ControllerAccess _ => raise (denied "Initial credential is required to claim")
    end
  else raise (rejected "unknown_operation" "Unknown commissioning operation").

(** The body of the [try]. *)
Definition handle_request (request : obj) : M P doc :=
  let operation := obj_get "operation" request JNull in
  lift (canonical_uuid " must be a UUID" "request_id" (obj_get "request_id" request JNull)) ;;
  guard_py (negb (json_eq_str (obj_get "contract_version" request JNull) "1"))
    (rejected "unsupported_contract" "Unsupported commissioning contract") ;;
  match obj_get "payload" request (JObj []) with
  | JObj payload =>
      if json_eq_str operation "session.authenticate" then
        held ← gets (λ p, p.1.(p_authorization));
        guard_py (bool_decide (is_Some held))
          (rejected "operation_conflict" "Session is already authenticated") ;;
        a ← in_world (authorize sha256_hex (obj_get "commissioning_id" payload JNull)
                        (obj_get "setup_code" payload JNull));
        set_authorization (SetupAccess a) ;;
        in_world (status (SetupAccess a))
      else if json_eq_str operation "controller.challenge" then issue_challenge payload
      else if json_eq_str operation "controller.authenticate" then
        a ← authenticate_controller payload;
        set_authorization a ;;
        in_world (status a)
      else
        held ← gets (λ p, p.1.(p_authorization));
        match held with
        | None => raise (rejected "commissioning_denied" "Authenticate this session first")
        | Some a => dispatch_authorized operation a payload
        end
  | _ => raise (rejected "invalid_request" "payload must be an object")
  end.

Definition request_id_doc (v : json) : doc := match v with JStr s => DStr s | _ => DNull end.

Definition error_reply (request_id : json) (code msg : string) (retry : bool) : doc :=
  DObj [("contract_version", DStr "1"); ("request_id", request_id_doc request_id);
        ("ok", DBool false);
        ("error", DObj [("code", DStr code); ("message", DStr msg); ("retryable", DBool retry)])].

(** [handle], which answers every request. *)
Definition handle (request : obj) (p : P) : doc * P :=
  let request_id := obj_get "request_id" request JNull in
  match handle_request request p with
  | (Ok result, p') =>
      (DObj [("contract_version", DStr "1"); ("request_id", request_id_doc request_id);
             ("ok", DBool true); ("result", result)], p')
  | (Raise (CommissioningRequestRejected code msg), p') =>
      (error_reply request_id code msg (retryable code), p')
  | (Raise _, p') =>
      (error_reply request_id "internal_error" "The Host could not complete this Setup request" true, p')
  end.
End Protocol.
