(* ===== verification/ProtocolProofs.v ===== *)
(** * What the setup protocol guarantees

    Theorems about Protocol.v: a Controller signature binds every field of the
    proof, an accepted proof answers the one live challenge of its session and
    a Grant that stands now, and a session may do nothing before it
    authenticates. *)

From S2P Require Import Prelude Domain StateStore MemoryStore.
From S2P Require Import Encoding Json Timestamp Network.
From S2P Require Import Commissioning CommissioningRefinement CommissioningProofs Protocol.

(** ** The signed bytes *)

Lemma b64_char_plain n : (n < 64)%N → plain_char (b64_char n) = true.
Proof.
  intros Hn. assert (Forall (λ n, plain_char (b64_char n) = true) (N.of_nat <$> seq 0 64)) as H.
  { apply (bool_decide_unpack _). vm_compute. exact I. }
  rewrite Forall_forall in H. apply H. apply list_elem_of_fmap. exists (N.to_nat n).
  split; [lia|]. apply elem_of_seq. lia.
Qed.

Lemma encode_plain b : plain (string_of_list_ascii (b64url_encode b)).
Proof.
  unfold plain, str_forallb. rewrite list_ascii_of_string_of_list_ascii.
  induction b as [b IH] using (induction_ltof1 _ (@length ascii)); unfold ltof in IH.
  destruct b as [|x [|y [|z b]]]; [done| | |]; cbn [b64url_encode forallb];
    pose proof (ascii_bound x); try pose proof (ascii_bound y); try pose proof (ascii_bound z);
    rewrite !b64_char_plain by lia; [done|done|]. rewrite IH by (simpl; lia). done.
Qed.

Lemma controller_id_plain s : is_controller_id s = true → plain s.
Proof.
  unfold is_controller_id, plain, str_forallb. rewrite !andb_true_iff, bool_decide_eq_true. intros [[Hp _] Hh].
  rewrite <- (take_drop 6 (list_ascii_of_string s)), forallb_app, Hp. simpl (forallb _ (list_ascii_of_string _)).
  revert Hh. apply forallb_impl. intros c Hc. by apply (lower_hex_all (λ c, plain_char c = true) c).
Qed.

Lemma app_split_length (a b x y : list ascii) : length a = length b → a ++ x = b ++ y → a = b ∧ x = y.
Proof. intros Hl. by apply app_inj_1. Qed.

(** The text around the four values. *)
Definition msg_key (k : string) : list ascii := json_string true k ++ [":"%char].
Definition msg_0 : list ascii := "{"%char :: msg_key "challenge".
Definition msg_1 : list ascii :=
  ","%char :: msg_key "contract_version" ++ json_string true "1" ++ ","%char :: msg_key "controller_id".
Definition msg_2 : list ascii := ","%char :: msg_key "purpose".
Definition msg_3 : list ascii := ","%char :: msg_key "reset_epoch".

Lemma message_unfold cid ch pu ep :
  controller_auth_message cid ch pu ep =
  msg_0 ++ json_string true ch ++ msg_1 ++ json_string true cid ++ msg_2 ++ json_string true pu ++
  msg_3 ++ list_ascii_of_string (pretty ep) ++ ["}"%char].
Proof.
  unfold controller_auth_message. cbn [dumps fmap list_fmap fst snd].
  match goal with |- context [sort_by key_le ?l] => change (sort_by key_le l) with l end.
  cbn [fmap list_fmap fst snd]. unfold msg_0, msg_1, msg_2, msg_3, msg_key.
  cbn [join_comma fst snd]. repeat first [rewrite <- app_assoc | rewrite <- app_comm_cons]. done.
Qed.

Lemma message_inj c1 h1 p1 e1 c2 h2 p2 e2 :
  plain c1 → plain h1 → plain p1 → plain c2 → plain h2 → plain p2 →
  controller_auth_message c1 h1 p1 e1 = controller_auth_message c2 h2 p2 e2 →
  c1 = c2 ∧ h1 = h2 ∧ p1 = p2 ∧ e1 = e2.
Proof.
  intros Hc1 Hh1 Hp1 Hc2 Hh2 Hp2. rewrite !message_unfold.
  generalize msg_0 msg_1 msg_2 msg_3. intros m0 m1 m2 m3 E.
  apply app_inv_head in E. apply json_string_plain in E as [-> E]; [|done..].
  apply app_inv_head in E. apply json_string_plain in E as [-> E]; [|done..].
  apply app_inv_head in E. apply json_string_plain in E as [-> E]; [|done..].
  apply app_inv_head in E. apply app_inv_tail in E. apply (f_equal string_of_list_ascii) in E.
  rewrite !string_of_list_ascii_of_string in E. by apply (inj pretty) in E.
Qed.

(** C8: a Controller's signature binds what it signs.  For Controller ids of
    the accepted form, challenges as this Host mints them and the two purposes
    it uses, the signed bytes determine the Controller, the challenge, the
    purpose and the reset epoch.  So a proof made over BLE is not one for the
    Local API, nor one for another challenge, Host epoch or Controller. *)
Theorem signature_binds_proof c1 b1 p1 e1 c2 b2 p2 e2 :
  is_controller_id c1 = true → is_controller_id c2 = true →
  p1 ∈ [BLE_CONTROLLER_AUTH_PURPOSE; LOCAL_API_CONTROLLER_AUTH_PURPOSE] →
  p2 ∈ [BLE_CONTROLLER_AUTH_PURPOSE; LOCAL_API_CONTROLLER_AUTH_PURPOSE] →
  let challenge b := string_of_list_ascii (b64url_encode b) in
  controller_auth_message c1 (challenge b1) p1 e1 = controller_auth_message c2 (challenge b2) p2 e2 ↔
  c1 = c2 ∧ b1 = b2 ∧ p1 = p2 ∧ e1 = e2.
Proof.
  intros Hc1 Hc2 Hp1 Hp2 challenge. split; [|by intros (-> & -> & -> & ->)].
  assert (∀ p, p ∈ [BLE_CONTROLLER_AUTH_PURPOSE; LOCAL_API_CONTROLLER_AUTH_PURPOSE] → plain p) as Hplain.
  { intros p. rewrite !elem_of_cons, elem_of_nil. intros [->|[->|[]]]; reflexivity. }
  intros E. apply message_inj in E as (-> & E & -> & ->); try (by apply controller_id_plain); auto; try apply encode_plain.
  split_and!; try done. apply (f_equal list_ascii_of_string) in E. unfold challenge in E.
  rewrite !list_ascii_of_string_of_list_ascii in E.
  pose proof (a2b_encode b1) as H1. pose proof (a2b_encode b2) as H2.
  apply (f_equal length) in E as El. 
  pose proof (padding_encode b1) as P1. pose proof (padding_encode b2) as P2. rewrite E in P1, H1.
  rewrite P1 in P2. rewrite P2 in H1. congruence.
Qed.

Lemma signature_binds_proof_witness :
  let cid := "ectrl-00112233445566778899"%string in
  let challenge b := string_of_list_ascii (b64url_encode b) in
  controller_auth_message cid (challenge []) BLE_CONTROLLER_AUTH_PURPOSE 0 =
  controller_auth_message cid (challenge []) LOCAL_API_CONTROLLER_AUTH_PURPOSE 0 ↔
  cid = cid ∧ @nil ascii = [] ∧ BLE_CONTROLLER_AUTH_PURPOSE = LOCAL_API_CONTROLLER_AUTH_PURPOSE ∧ 0%Z = 0%Z.
Proof.
  apply (signature_binds_proof "ectrl-00112233445566778899" [] BLE_CONTROLLER_AUTH_PURPOSE 0
    "ectrl-00112233445566778899" [] LOCAL_API_CONTROLLER_AUTH_PURPOSE 0); try reflexivity.
  - left.
  - right. left.
Defined.

(** ** Sessions *)

Section Sessions.
Context (sha256_hex : list ascii → string) (load_der : list ascii → result key_kind)
        (ecdsa_verify : list ascii → list ascii → list ascii → bool)
        (on_claimed : option (M (world MemoryStore InMemoryNetwork) unit)).
Abbreviation HP := (protocol_session * world MemoryStore InMemoryNetwork)%type.

Lemma in_world_run {A} (c : M (world MemoryStore InMemoryNetwork) A) (p : HP) r w :
  c p.2 = (r, w) → in_world c p = (r, (p.1, w)).
Proof. intros H. unfold in_world, zoom. by rewrite H. Qed.

Lemma in_world_session {A} (c : M (world MemoryStore InMemoryNetwork) A) (p : HP) : (in_world c p).2.1 = p.1.
Proof. unfold in_world, zoom. by destruct (c p.2). Qed.

Lemma authorize_controller_run cid (w : world MemoryStore InMemoryNetwork) st :
  ready (w_store w) st →
  authorize_controller (JStr cid) w =
    (match dict_get (st.(reset_epoch), cid) (w_store w).(m_controllers) with
     | Some g => if is_controller_id cid && negb (bool_decide (is_Some g.(g_revoked_at))) &&
                    (g.(g_reset_epoch) =? st.(reset_epoch))%Z
                 then Ok g else Raise controller_denied
     | None => Raise controller_denied
     end, w).
Proof.
  intros Hr. unfold authorize_controller. rewrite bind_guard.
  destruct (is_controller_id cid); cbn [negb].
  2: { by destruct (dict_get _ _). }
  rewrite (bind_ok _ _ _ _ _ (on_store_read _ _ _ (mem_get_controller_run _ _ _ Hr))).
  rewrite (bind_ok _ _ _ _ _ (on_store_read _ _ _ (mem_get_state_run _ _ Hr))).
  destruct (dict_get _ _) as [g|]; [|done]. rewrite bind_guard.
  replace (bool_decide (role g = HOST_ADMIN)) with true by by destruct (role g).
  destruct (bool_decide (is_Some _)), (_ =? _)%Z; done.
Qed.

(** What an accepted Controller proof establishes. *)
Definition proof_accepted (payload : obj) (p : HP) (st : BootstrapState) (g : ControllerGrant) : Prop :=
  ∃ challenge epoch deadline der signature,
    p.1.(p_challenge) = Some (g.(controller_id), challenge, epoch, deadline) ∧
    (or_mono (w_oracle p.2) (w_step p.2) < deadline)%Z ∧
    json_eq_str (obj_get "challenge" payload JNull) challenge = true ∧
    dict_get (st.(reset_epoch), g.(controller_id)) (w_store p.2).(m_controllers) = Some g ∧
    g.(g_revoked_at) = None ∧ g.(g_reset_epoch) = st.(reset_epoch) ∧
    signature_base64url (JStr g.(public_key)) = Ok der ∧ load_der der = Ok P256 ∧
    signature_base64url (obj_get "signature" payload JNull) = Ok signature ∧
    ecdsa_verify der signature
      (controller_auth_message g.(controller_id) challenge BLE_CONTROLLER_AUTH_PURPOSE epoch) = true.

Lemma verify_ok g challenge purpose epoch v u :
  verify_controller_signature load_der ecdsa_verify g challenge purpose epoch v = Ok u →
  ∃ der signature, signature_base64url (JStr g.(public_key)) = Ok der ∧ load_der der = Ok P256 ∧
    signature_base64url v = Ok signature ∧
    ecdsa_verify der signature (controller_auth_message g.(controller_id) challenge purpose epoch) = true.
Proof.
  unfold verify_controller_signature. destruct (signature_base64url v) as [s|]; [|done].
  destruct (signature_base64url (JStr _)) as [der|]; [|done]. cbn [mbind result_bind].
  destruct (load_der der) as [[]|[]] eqn:El; try done. destruct (ecdsa_verify _ _ _) eqn:E; [|done].
  intros _. by exists der, s.
Qed.

Lemma authenticate_sound payload (p : HP) st a p' :
  mem_inv (w_store p.2) → ready (w_store p.2) st →
  authenticate_controller load_der ecdsa_verify payload p = (Ok a, p') →
  ∃ g, a = ControllerAccess g ∧ proof_accepted payload p st g.
Proof.
  intros Hi Hr. unfold authenticate_controller. rewrite bind_gets.
  destruct p as [[auth ch] w]. cbn [fst snd p_challenge] in *.
  unfold set_challenge. rewrite bind_modify. cbn [fst snd p_authorization].
  destruct ch as [[[[cid chal] epoch] dl]|]; [|done].
  rewrite (bind_ok _ _ _ _ _ (in_world_run (draw or_mono) (mkProtocol auth None, w) _ _ eq_refl)), bind_guard.
  cbn [fst snd]. destruct (Z.leb_spec dl (or_mono (w_oracle w) (w_step w))); [done|]. rewrite bind_guard.
  destruct (json_eq_str (obj_get "controller_id" payload JNull) cid) eqn:E1; [|done].
  destruct (json_eq_str (obj_get "challenge" payload JNull) chal) eqn:E2; [|done].
  destruct (json_eq_int _ _); [|done]. cbn [negb orb].
  set (w1 := put_step _ w). assert (ready (w_store w1) st) as Hr1 by done.
  rewrite (bind_ok_if (in_world _) _ _ _ _ (in_world_run _ (mkProtocol auth None, w1) _ _ (authorize_controller_run cid w1 st Hr1))).
  change (w_store w1) with (w_store w).
  destruct (dict_get (reset_epoch st, cid) _) as [g|] eqn:Eg; [|done].
  destruct (is_controller_id cid && _ && _) eqn:Ea; [|done].
  apply andb_true_iff in Ea as [[_ Hrev]%andb_true_iff Hep%Z.eqb_eq].
  destruct (verify_controller_signature _ _ g chal _ epoch _) as [u|e] eqn:Ev; [|by destruct e].
  intros [= <- <-]. exists g. split; [done|].
  apply verify_ok in Ev as (der & sig & H1 & H2 & H3 & H4).
  assert (controller_id g = cid) as Hcid.
  { apply dict_get_elem in Eg. pose proof (inv_controllers _ Hi st (proj2 Hr)) as [_ Hall].
    destruct (Hall _ _ Eg) as ([= _ Hc] & _). done. }
  exists chal, epoch, dl, der, sig. rewrite Hcid in *. cbn [fst snd p_challenge]. split_and!; try done.
  apply negb_true_iff, bool_decide_eq_false in Hrev. by destruct (g_revoked_at g); [destruct Hrev|].
Qed.

Lemma authenticate_clears payload (p : HP) :
  (authenticate_controller load_der ecdsa_verify payload p).2.1 = mkProtocol p.1.(p_authorization) None.
Proof.
  unfold authenticate_controller. rewrite bind_gets. unfold set_challenge. rewrite bind_modify.
  destruct (p_challenge p.1) as [[[[cid chal] epoch] dl]|]; [|done].
  match goal with |- context [(in_world (draw or_mono) ≫= ?k) ?q] =>
    rewrite (bind_ok _ k _ _ _ (in_world_run (draw or_mono) q _ _ eq_refl)) end.
  rewrite bind_guard. destruct (_ <=? _)%Z; [done|]. rewrite bind_guard. destruct (_ || _); [done|].
  match goal with |- context [(in_world ?c ≫= ?k) ?q] => pose proof (in_world_session c q) as Hs;
    unfold mbind, M_bind; destruct (in_world c q) as [[g|e] q'] end; [|done].
  cbn [fst snd] in Hs. destruct (verify_controller_signature _ _ _ _ _ _ _) as [|[]]; done.
Qed.

(** The parts of a request every operation passes first. *)
Lemma handle_request_prefix request (p : HP) :
  (∃ e, handle_request sha256_hex load_der ecdsa_verify on_claimed request p = (Raise e, p)) ∨
  ∃ payload, obj_get "payload" request (JObj []) = JObj payload ∧
    handle_request sha256_hex load_der ecdsa_verify on_claimed request p =
    (let operation := obj_get "operation" request JNull in
     if json_eq_str operation "session.authenticate" then
        held ← gets (λ p : HP, p.1.(p_authorization));
        guard_py (bool_decide (is_Some held))
          (rejected "operation_conflict" "Session is already authenticated") ;;
        a ← in_world (authorize sha256_hex (obj_get "commissioning_id" payload JNull)
                        (obj_get "setup_code" payload JNull));
        set_authorization (SetupAccess a) ;;
        in_world (status (SetupAccess a))
      else if json_eq_str operation "controller.challenge" then issue_challenge payload
      else if json_eq_str operation "controller.authenticate" then
        a ← authenticate_controller load_der ecdsa_verify payload;
        set_authorization a ;;
        in_world (status a)
      else
        held ← gets (λ p : HP, p.1.(p_authorization));
        match held with
        | None => raise (rejected "commissioning_denied" "Authenticate this session first")
        | Some a => dispatch_authorized sha256_hex load_der on_claimed operation a payload
        end) p.
Proof.
  unfold handle_request. cbv zeta. destruct (canonical_uuid _ _ _) as [u|e]; [|left; by eexists].
  unfold lift. rewrite bind_mret_lift, bind_guard. destruct (negb _); [left; by eexists|].
  destruct (obj_get "payload" request (JObj [])) as [| | | | | | | |payload]; try (left; by eexists).
  right. by exists payload.
Qed.

Lemma handle_state request (p : HP) :
  (handle sha256_hex load_der ecdsa_verify on_claimed request p).2 =
  (handle_request sha256_hex load_der ecdsa_verify on_claimed request p).2.
Proof. unfold handle. destruct (handle_request _ _ _ _ _ _) as [[r|[]] p']; done. Qed.

Lemma handle_refused request e (p p' : HP) :
  handle_request sha256_hex load_der ecdsa_verify on_claimed request p = (Raise e, p') →
  ∃ code msg retry, handle sha256_hex load_der ecdsa_verify on_claimed request p =
    (error_reply (obj_get "request_id" request JNull) code msg retry, p').
Proof. intros H. unfold handle. rewrite H. destruct e; by do 3 eexists. Qed.
End Sessions.

(** Decides the comparisons of literal operation names. *)
Ltac decide_names :=
  repeat match goal with |- context [json_eq_str (JStr ?a) ?b] =>
    let v := eval vm_compute in (json_eq_str (JStr a) b) in change (json_eq_str (JStr a) b) with v end;
  cbv iota.

(** A setup authorization reaches no network handler's effects. *)
Lemma setup_cannot_change b payload v (w : world MemoryStore InMemoryNetwork) st c :
  ready (w_store w) st →
  c ∈ [configure_network (SetupAccess b) payload; confirm_network (SetupAccess b) v;
       rollback_network (SetupAccess b) v] →
  ∃ e w', c w = (Raise e, w') ∧ w_net w' = w_net w ∧ (w_store w').(m_operations) = (w_store w).(m_operations).
Proof.
  intros Hr Hc. pose proof (require_frame (SetupAccess b) w st Hr) as Hf.
  destruct (require_authorized (SetupAccess b) w) as [r w'] eqn:E. destruct Hf as (Hn & _ & Ho & _ & _).
  assert (∃ e, configure_network (SetupAccess b) payload w = (Raise e, w') ∧
    find_operation (SetupAccess b) v w = (Raise e, w')) as (e & H1 & H2).
  { destruct r as [[]|e].
    - eexists. split.
      + unfold configure_network, configure_prepare. by rewrite bind_assoc, (bind_ok _ _ _ _ _ E).
      + unfold find_operation. by rewrite (bind_ok _ _ _ _ _ E).
    - exists e. split.
      + unfold configure_network, configure_prepare. by rewrite (bind_raise _ _ _ _ _ (bind_raise _ _ _ _ _ E)).
      + unfold find_operation. by rewrite (bind_raise _ _ _ _ _ E). }
  exists e, w'. split; [|done]. rewrite !elem_of_cons, elem_of_nil in Hc. destruct_or! Hc; try done; subst.
  - done.
  - unfold confirm_network. by rewrite (bind_raise _ _ _ _ _ H2).
  - unfold rollback_network. by rewrite (bind_raise _ _ _ _ _ H2).
Qed.

(** C9: a Controller proof is accepted only for what it is.  If a
    [controller.authenticate] request changes the session's authorization,
    then to a Grant that is registered, unrevoked and of the current epoch,
    whose key verifies the signature over the challenge this session last
    issued to that Controller, before its deadline.  The challenge is spent:
    presenting any proof again without a new challenge is refused. *)
Theorem controller_authentication_sound sha256_hex load_der ecdsa_verify on_claimed request p st :
  mem_inv (w_store p.2) → ready (w_store p.2) st →
  json_eq_str (obj_get "operation" request JNull) "controller.authenticate" = true →
  let p' := (handle sha256_hex load_der ecdsa_verify on_claimed request p).2 in
  p'.1.(p_authorization) ≠ p.1.(p_authorization) →
  (∃ payload g, obj_get "payload" request (JObj []) = JObj payload ∧
    p'.1.(p_authorization) = Some (ControllerAccess g) ∧ proof_accepted load_der ecdsa_verify payload p st g) ∧
  p'.1.(p_challenge) = None ∧
  (∀ payload', (authenticate_controller load_der ecdsa_verify payload' p').1 =
    Raise (rejected "controller_denied" "Controller challenge is missing or expired")).
Proof.
  intros Hi Hr Hop p'. unfold p'. rewrite handle_state.
  destruct (handle_request_prefix sha256_hex load_der ecdsa_verify on_claimed request p) as [[e ->]|(payload & Hp & ->)]; [done|].
  cbv zeta. assert (obj_get "operation" request JNull = JStr "controller.authenticate") as ->.
  { destruct (obj_get "operation" request JNull); try done. simpl in Hop. by apply bool_decide_eq_true in Hop as ->. }
  change (json_eq_str (JStr "controller.authenticate") "session.authenticate") with false.
  change (json_eq_str (JStr "controller.authenticate") "controller.challenge") with false.
  change (json_eq_str (JStr "controller.authenticate") "controller.authenticate") with true. cbv iota.
  pose proof (authenticate_clears load_der ecdsa_verify payload p) as Hc.
  destruct (authenticate_controller _ _ payload p) as [[a|e] p1] eqn:Ea; cbn [snd] in Hc.
  2: { rewrite (bind_raise _ _ _ _ _ Ea). cbn [snd]. rewrite Hc. done. }
  rewrite (bind_ok _ _ _ _ _ Ea). unfold set_authorization. rewrite bind_modify.
  rewrite in_world_session. cbn [fst p_authorization p_challenge]. intros _. split; [|split].
  - destruct (authenticate_sound _ _ _ _ _ _ _ Hi Hr Ea) as (g & -> & Hg). by exists payload, g.
  - by rewrite Hc.
  - intros payload'. unfold authenticate_controller. rewrite bind_gets, in_world_session.
    cbn [fst p_challenge]. rewrite Hc. done.
Qed.

(** C10: nothing happens before authentication, and a setup code alone changes
    no network.  A session that holds no authorization refuses every
    operation but the three that can give it one, without any effect.  One
    that holds a setup authorization is refused each network change, its
    confirmation and its rollback, and neither the adapter nor the operation
    journal moves. *)
Theorem session_gate sha256_hex load_der ecdsa_verify on_claimed request p st :
  ready (w_store p.2) st →
  let operation := obj_get "operation" request JNull in
  let '(reply, p') := handle sha256_hex load_der ecdsa_verify on_claimed request p in
  (p.1.(p_authorization) = None →
    json_eq_str operation "session.authenticate" = false →
    json_eq_str operation "controller.challenge" = false →
    json_eq_str operation "controller.authenticate" = false →
    p' = p ∧ ∃ code msg retry, reply = error_reply (obj_get "request_id" request JNull) code msg retry) ∧
  (∀ b, p.1.(p_authorization) = Some (SetupAccess b) →
    operation ∈ [JStr "wifi.configure"; JStr "wifi.confirm"; JStr "wifi.rollback"] →
    w_net p'.2 = w_net p.2 ∧ (w_store p'.2).(m_operations) = (w_store p.2).(m_operations) ∧
    ∃ code msg retry, reply = error_reply (obj_get "request_id" request JNull) code msg retry).
Proof.
  intros Hr operation. destruct (handle _ _ _ _ _ _) as [reply p'] eqn:Eh.
  destruct (handle_request_prefix sha256_hex load_der ecdsa_verify on_claimed request p) as [[e He]|(payload & Hp & He)].
  { apply handle_refused in He as (code & msg & retry & He). rewrite He in Eh. injection Eh as <- <-.
    split; intros; split_and?; try done; by do 3 eexists. }
  cbv zeta in He. fold operation in He. split.
  - intros Ha H1 H2 H3. rewrite H1, H2, H3, bind_gets, Ha in He.
    apply handle_refused in He as (code & msg & retry & He). rewrite He in Eh. injection Eh as <- <-.
    split; [done|]. by do 3 eexists.
  - intros b Ha Hop.
    assert (∃ c : M (world MemoryStore InMemoryNetwork) doc,
      handle_request sha256_hex load_der ecdsa_verify on_claimed request p = in_world c p ∧
      c ∈ [configure_network (SetupAccess b) payload;
           confirm_network (SetupAccess b) (obj_get "operation_id" payload JNull);
           rollback_network (SetupAccess b) (obj_get "operation_id" payload JNull)]) as (c & Hc & Hin).
    { rewrite !elem_of_cons, elem_of_nil in Hop. rewrite He.
      destruct_or! Hop; try done; rewrite Hop; decide_names; rewrite bind_gets, Ha;
        unfold dispatch_authorized; decide_names; (eexists; split; [reflexivity|]); set_solver. }
    destruct (setup_cannot_change b payload (obj_get "operation_id" payload JNull) p.2 st c Hr Hin)
      as (e & w' & Hrun & Hnet & Hops).
    rewrite (in_world_run c p _ _ Hrun) in Hc. apply handle_refused in Hc as (code & msg & retry & Hc).
    rewrite Hc in Eh. injection Eh as <- <-. split_and!; [done|done|]. by do 3 eexists.
Qed.

Definition phone_grant : ControllerGrant :=
  mkGrant "ectrl-00112233445566778899" "AAAA" "sha256:0" HOST_ADMIN "phone" "ios" 0 "t1" None.
Definition phone_link : protocol_session * world MemoryStore InMemoryNetwork :=
  (mkProtocol None (Some ("ectrl-00112233445566778899"%string, "c"%string, 0%Z, 60%Z)),
   mkWorld (run_calls [CIssue "s" "h" "t0" None; CClaim "s" "h" phone_grant "t1"] (mem_start "t")).2
     (net_init None []) sample_oracle 0).
Definition phone_proof : obj :=
  [("request_id", JStr sample_oid); ("contract_version", JStr "1"); ("operation", JStr "controller.authenticate");
   ("payload", JObj [("controller_id", JStr "ectrl-00112233445566778899"); ("challenge", JStr "c");
                     ("reset_epoch", JInt 0); ("signature", JStr "AAAA")])].

Lemma controller_authentication_sound_witness :
  let p' := (handle (λ _, ""%string) (λ _, Ok P256) (λ _ _ _, true) None phone_proof phone_link).2 in
  (∃ payload g, obj_get "payload" phone_proof (JObj []) = JObj payload ∧
    p'.1.(p_authorization) = Some (ControllerAccess g) ∧
    proof_accepted (λ _, Ok P256) (λ _ _ _, true) payload phone_link
      (mkBootstrapState 0 CLAIMED UNCONFIGURED "t1") g) ∧
  p'.1.(p_challenge) = None ∧
  (∀ payload', (authenticate_controller (λ _, Ok P256) (λ _ _ _, true) payload' p').1 =
    Raise (rejected "controller_denied" "Controller challenge is missing or expired")).
Proof.
  apply (controller_authentication_sound (λ _, ""%string) (λ _, Ok P256) (λ _ _ _, true) None phone_proof phone_link
    (mkBootstrapState 0 CLAIMED UNCONFIGURED "t1")).
  - apply run_calls_preserve; [repeat constructor|apply mem_start_inv].
  - split; vm_compute; reflexivity.
  - reflexivity.
  - vm_compute. discriminate.
Defined.

Lemma session_gate_witness :
  let '(reply, p') := handle (λ _, ""%string) (λ _, Ok P256) (λ _ _ _, true) None
    [("request_id", JStr sample_oid); ("contract_version", JStr "1"); ("operation", JStr "setup.status")] phone_link in
  p' = phone_link ∧ ∃ code msg retry, reply = error_reply (JStr sample_oid) code msg retry.
Proof.
  pose proof (session_gate (λ _, ""%string) (λ _, Ok P256) (λ _ _ _, true) None
    [("request_id", JStr sample_oid); ("contract_version", JStr "1"); ("operation", JStr "setup.status")] phone_link
    (mkBootstrapState 0 CLAIMED UNCONFIGURED "t1") ltac:(split; vm_compute; reflexivity)) as H.
  cbv zeta in H. destruct (handle _ _ _ _ _ _) as [reply p']. destruct H as [H _].
  apply H; reflexivity.
Defined.
