(* ===== verification/HostAddresses.v ===== *)
(** * The addresses and the size of the commissioning endpoint

    [bootstrap/host_addresses.py] and [bootstrap/endpoint_encoding.py].  What
    [psutil] reports is an argument; whether a link belongs to the product is
    the SDK's [on_product_link], a parameter. *)

From S2P Require Import Prelude Encoding Json.

(** ** [ipaddress.IPv4Address] *)

(** Decimal value of ASCII digits. *)
Definition dec_value (l : list ascii) : N :=
  fold_left (λ a c, 10 * a + (N_of_ascii c - 48))%N l 0%N.

(** [_parse_octet] *)
Definition parse_octet (l : list ascii) : option N :=
  if bool_decide (l = []) || negb (forallb is_digit l) || (3 <? length l)%nat then None
  else if negb (bool_decide (l = ["0"%char])) && bool_decide (head l = Some "0"%char) then None
  else let n := dec_value l in if (255 <? n)%N then None else Some n.

Definition IPv4Address (s : string) : option N :=
  match parse_octet <$> split_on "."%char (list_ascii_of_string s) with
  | [Some a; Some b; Some c; Some d] => Some (((a * 256 + b) * 256 + c) * 256 + d)%N
  | _ => None
  end.

Definition is_loopback (a : N) : bool := (a / 2 ^ 24 =? 127)%N.
Definition is_multicast (a : N) : bool := (a / 2 ^ 28 =? 14)%N.
Definition is_unspecified (a : N) : bool := (a =? 0)%N.
Definition is_link_local (a : N) : bool := (a / 2 ^ 16 =? 169 * 256 + 254)%N.

(** ** The list a Host publishes *)

Section Addresses.
Context (on_product_link : N → bool).

Definition publishable (raw : string) : bool :=
  match IPv4Address raw with
  | None => false
  | Some a => negb (is_loopback a || is_multicast a || is_unspecified a) && on_product_link a
  end.

(** The loop over what the kernel reports, without repetition. *)
Definition collect_addresses (reported : list string) : list string :=
  foldl (λ addresses raw,
    if publishable raw && negb (bool_decide (raw ∈ addresses)) then addresses ++ [raw]
    else addresses) [] reported.

Definition link_local_str (s : string) : bool :=
  match IPv4Address s with Some a => is_link_local a | None => false end.

(** [key=lambda value: IPv4Address(value).is_link_local], stable. *)
Definition routable_le (x y : string) : bool :=
  implb (link_local_str x) (link_local_str y).

Definition reachable_ipv4_addresses (reported : list string) : list string :=
  sort_by routable_le (collect_addresses reported).

Definition local_api_base_urls (port : Z) (reported : list string) : list string :=
  (λ a, ("https://" ++ a ++ ":" ++ pretty port)%string) <$> reachable_ipv4_addresses reported.
End Addresses.

Example reachable_sample :
  reachable_ipv4_addresses (λ a, negb (a =? 167772161)%N)
    ["127.0.0.1"; "169.254.3.4"; "10.0.0.1"; "192.168.1.7"; "192.168.1.7"; "fe80::1"; "010.1.1.1"] =
  ["192.168.1.7"; "169.254.3.4"]%string.
Proof. vm_compute. reflexivity. Qed.

(** ** The endpoint *)

Definition GATT_MAX_ATTRIBUTE_BYTES : nat := 512.
Definition encode_endpoint (endpoint : list (string * doc)) : list ascii := dumps false (DObj endpoint).
Definition endpoint_size (endpoint : list (string * doc)) : nat := length (encode_endpoint endpoint).

Section Fit.
(** [HostIdentityManager.sign_mapping], over the Host's Ed25519 key. *)
Context (sign_mapping : list (string * doc) → string).

Definition with_urls (unsigned : list (string * doc)) (urls : list string) : list (string * doc) :=
  dict_set "local_api_base_urls" (DList (DStr <$> urls)) unsigned.
Definition signed (unsigned : list (string * doc)) : list (string * doc) :=
  dict_set "signature" (DStr (sign_mapping unsigned)) unsigned.

Definition fits (unsigned : list (string * doc)) (candidate : list string) : bool :=
  negb (GATT_MAX_ATTRIBUTE_BYTES <? endpoint_size (signed (with_urls unsigned candidate)))%nat.

(** The loop of [_addresses_that_fit], which stops at the first that does not. *)
Fixpoint admit_addresses (unsigned : list (string * doc)) (admitted addresses : list string)
    : list string :=
  match addresses with
  | [] => admitted
  | a :: rest =>
      let candidate := admitted ++ [a] in
      if fits unsigned candidate then admit_addresses unsigned candidate rest else admitted
  end.
Definition addresses_that_fit (unsigned : list (string * doc)) (addresses : list string) : list string :=
  admit_addresses unsigned [] addresses.

(** The result is a prefix each of whose prefixes fits, and one more address
    would not. *)
Lemma admit_spec unsigned admitted addresses :
  ∃ n, admit_addresses unsigned admitted addresses = admitted ++ take n addresses ∧
    n ≤ length addresses ∧
    (∀ k, 0 < k ≤ n → fits unsigned (admitted ++ take k addresses) = true) ∧
    (n < length addresses → fits unsigned (admitted ++ take (S n) addresses) = false).
Proof.
  revert admitted. induction addresses as [|a rest IH]; intros admitted; cbn [admit_addresses].
  - exists 0. rewrite app_nil_r. split_and!; simpl; try done; lia.
  - cbv zeta. destruct (fits unsigned (admitted ++ [a])) eqn:E.
    + destruct (IH (admitted ++ [a])) as (n & -> & Hn & Hk & Hs). exists (S n).
      rewrite <- app_assoc. split_and!; [done|simpl; lia| |].
      * intros [|k] Hk'; [lia|]. destruct k as [|k]; [done|].
        specialize (Hk (S k) ltac:(lia)). by rewrite <- app_assoc in Hk.
      * intros Hl. simpl in Hl. specialize (Hs ltac:(lia)). by rewrite <- app_assoc in Hs.
    + exists 0. rewrite app_nil_r. split_and!; [done|simpl; lia|lia|]. intros _. done.
Qed.
End Fit.

(** ** The size of a document *)

Definition total (l : list nat) : nat := foldr Nat.add 0 l.

Lemma total_perm l1 l2 : l1 ≡ₚ l2 → total l1 = total l2.
Proof. induction 1; simpl; lia. Qed.

Lemma total_cons x l : total (x :: l) = x + total l.
Proof. done. Qed.

Lemma total_app l1 l2 : total (l1 ++ l2) = total l1 + total l2.
Proof. induction l1; simpl; lia. Qed.

Lemma join_comma_length l : length (join_comma l) = total (length <$> l) + (length l - 1).
Proof.
  induction l as [|x l IH]; [done|]. destruct l as [|y l]; [simpl; lia|].
  change (join_comma (x :: y :: l)) with (x ++ ","%char :: join_comma (y :: l)).
  rewrite length_app. cbn [length]. rewrite IH. simpl. lia.
Qed.

(** One member of an object, its comma included. *)
Definition member_size (m : string * doc) : nat :=
  length (json_string false m.1) + 2 + length (dumps false m.2).

Lemma endpoint_size_spec kv :
  endpoint_size kv = 2 + total (member_size <$> kv) + (length kv - 1) - length kv.
Proof.
  unfold endpoint_size, encode_endpoint. cbn [dumps]. cbn [length]. rewrite length_app, join_comma_length, length_fmap.
  set (l := (λ m : string * doc, (m.1, dumps false m.2)) <$> kv).
  assert (total (length <$> ((λ m : string * list ascii, json_string false m.1 ++ ":"%char :: m.2) <$> sort_by key_le l)) =
          total ((λ m : string * list ascii, length (json_string false m.1) + 1 + length m.2) <$> l)) as ->.
  { rewrite <- list_fmap_compose. erewrite (total_perm _ _ (fmap_Permutation _ _ _ (sort_by_perm key_le l))).
    f_equal. apply list_fmap_ext. intros i x _. unfold compose. rewrite length_app. cbn [length]. lia. }
  assert (length (sort_by key_le l) = length kv) as ->.
  { rewrite (Permutation_length (sort_by_perm key_le l)). unfold l. by rewrite length_fmap. }
  unfold l. rewrite <- list_fmap_compose.
  assert (total (member_size <$> kv) = total (((λ m : string * list ascii, length (json_string false m.1) + 1 + length m.2)
    ∘ (λ m : string * doc, (m.1, dumps false m.2))) <$> kv) + length kv) as ->.
  { clear. induction kv as [|m kv IH]; [done|]. rewrite !fmap_cons, !total_cons, IH. unfold member_size, compose. simpl. lia. }
  cbn [length]. lia.
Qed.

Lemma member_total_set k d kv :
  NoDup kv.*1 →
  total (member_size <$> dict_set k d kv) + total (member_size <$> List.filter (λ m, bool_decide (m.1 = k)) kv) =
  total (member_size <$> kv) + member_size (k, d).
Proof.
  induction kv as [|[k1 d1] kv IH]; intros Hnd.
  - cbn. lia.
  - cbn [fmap list_fmap fst] in Hnd. apply NoDup_cons in Hnd as [Hni Hnd]. specialize (IH Hnd).
    cbn [dict_set List.filter fst]. destruct (decide (k = k1)) as [->|Hne].
    + rewrite !(bool_decide_eq_true_2 (k1 = k1)) by done.
      assert (List.filter (λ m : string * doc, bool_decide (m.1 = k1)) kv = []) as ->.
      { destruct (List.filter _ kv) as [|m r] eqn:E; [done|]. exfalso.
        assert (In m (List.filter (λ m : string * doc, bool_decide (m.1 = k1)) kv)) as [Hm Hk]%filter_In by (rewrite E; by left).
        apply bool_decide_eq_true in Hk. apply Hni. apply list_elem_of_fmap. exists m. split; [done|].
        by apply list_elem_of_In. }
      cbn. lia.
    + rewrite (bool_decide_eq_false_2 (k = k1)), (bool_decide_eq_false_2 (k1 = k)) by done.
      rewrite !fmap_cons, !total_cons. lia.
Qed.

Lemma dict_set_length_same {V} (k : string) (v v' : V) (kv : list (string * V)) :
  length (dict_set k v kv) = length (dict_set k v' kv).
Proof. induction kv as [|[k1 d1] kv IH]; cbn [dict_set]; [done|]. case_bool_decide; cbn [length]; auto. Qed.

(** Replacing a member by a longer one makes the document longer. *)
Lemma endpoint_size_mono k d d' kv :
  NoDup kv.*1 → length (dumps false d) ≤ length (dumps false d') →
  endpoint_size (dict_set k d kv) ≤ endpoint_size (dict_set k d' kv).
Proof.
  intros Hnd Hd. rewrite !endpoint_size_spec.
  pose proof (member_total_set k d kv Hnd). pose proof (member_total_set k d' kv Hnd).
  rewrite (dict_set_length_same k d d').
  assert (member_size (k, d) ≤ member_size (k, d')) by (unfold member_size; simpl; lia). lia.
Qed.

Lemma endpoint_size_fresh k d kv :
  k ∉ kv.*1 → kv ≠ [] →
  endpoint_size (dict_set k d kv) = endpoint_size kv + member_size (k, d).
Proof.
  intros Hk Hne. rewrite dict_set_fresh, !endpoint_size_spec by done.
  rewrite fmap_app, total_app, length_app. cbn [fmap list_fmap]. rewrite total_cons. cbn [total foldr length].
  destruct kv as [|m kv]; [done|]. rewrite fmap_cons, total_cons. cbn [length].
  assert (∀ l : list (string * doc), length l ≤ total (member_size <$> l)) as Hl.
  { clear. induction l as [|m l IH]; [done|]. rewrite fmap_cons, total_cons. cbn [length]. unfold member_size at 1. lia. }
  specialize (Hl kv). assert (2 ≤ member_size m) by (unfold member_size; lia).
  lia.
Qed.

Lemma dumps_list_mono l1 l2 : length (dumps false (DList l1)) ≤ length (dumps false (DList (l1 ++ l2))).
Proof.
  cbn [dumps length]. rewrite !length_app, !join_comma_length, fmap_app, fmap_app, total_app, !length_app, !length_fmap. lia.
Qed.

Lemma dict_set_nonempty {V} (k : string) (v : V) kv : dict_set k v kv ≠ [].
Proof. destruct kv as [|[]]; simpl; [done|]. by case_bool_decide. Qed.

Lemma dict_set_keys_in {V} (k : string) k' (v : V) kv : k ∈ (dict_set k' v kv).*1 → k = k' ∨ k ∈ kv.*1.
Proof.
  induction kv as [|[k1 v1] kv IH]; cbn [dict_set].
  - intros ->%list_elem_of_singleton. by left.
  - case_bool_decide as E; cbn [fmap list_fmap fst]; rewrite !elem_of_cons; subst; naive_solver.
Qed.

(** Each listed address makes the signed endpoint longer, when all signatures
    have one length. *)
Lemma signed_size_mono sign_mapping L unsigned l1 l2 :
  NoDup unsigned.*1 → "signature" ∉ unsigned.*1 →
  (∀ u, length (dumps false (DStr (sign_mapping u))) = L) →
  endpoint_size (signed sign_mapping (with_urls unsigned l1)) ≤
  endpoint_size (signed sign_mapping (with_urls unsigned (l1 ++ l2))).
Proof.
  intros Hnd Hs HL. unfold signed.
  assert (∀ l, "signature" ∉ (with_urls unsigned l).*1) as Hf.
  { intros l [H|H]%dict_set_keys_in; done. }
  rewrite !endpoint_size_fresh by (first [apply Hf|apply dict_set_nonempty]).
  unfold member_size. cbn [fst snd]. rewrite !HL. apply Nat.add_le_mono_r. unfold with_urls. apply endpoint_size_mono; [done|].
  rewrite fmap_app. apply dumps_list_mono.
Qed.

(** ** The published list *)

Lemma collect_spec on_product_link reported acc :
  NoDup acc →
  let r := foldl (λ addresses raw,
    if publishable on_product_link raw && negb (bool_decide (raw ∈ addresses)) then addresses ++ [raw]
    else addresses) acc reported in
  NoDup r ∧ ∀ x, x ∈ r ↔ x ∈ acc ∨ (x ∈ reported ∧ publishable on_product_link x = true).
Proof.
  cbv zeta. revert acc. induction reported as [|raw l IH]; intros acc Hnd; cbn [foldl].
  - split; [done|]. intros x. split; [by left|]. intros [|[H _]]; [done|]. by apply not_elem_of_nil in H.
  - destruct (publishable on_product_link raw) eqn:Hp; cbn [andb].
    + case_bool_decide as Hin; cbn [negb].
      * destruct (IH acc Hnd) as [H1 H2]. split; [done|]. intros x. rewrite H2, elem_of_cons. naive_solver.
      * destruct (IH (acc ++ [raw])) as [H1 H2].
        { apply NoDup_app. split_and!; [done| |apply NoDup_singleton].
          intros x Hx ->%list_elem_of_singleton. done. }
        split; [done|]. intros x. rewrite H2, elem_of_app, list_elem_of_singleton, elem_of_cons. naive_solver.
    + destruct (IH acc Hnd) as [H1 H2]. split; [done|]. intros x. rewrite H2, elem_of_cons.
      split; [naive_solver|]. intros [|[[->|] ?]]; [by left|congruence|by right].
Qed.

Lemma collect_sublist on_product_link reported : collect_addresses on_product_link reported `sublist_of` reported.
Proof.
  change reported with ([] ++ reported) at 2. unfold collect_addresses. set (f := λ _ _, _).
  generalize (@nil string) as acc. unfold f. clear f.
  induction reported as [|raw l IH]; intros acc; cbn [foldl]; [by rewrite app_nil_r|].
  case_match.
  - rewrite IH. by rewrite <- app_assoc.
  - rewrite IH. apply sublist_app; [done|]. by apply sublist_cons.
Qed.

(** A stable sort on a flag is a partition. *)
Lemma sort_routable c :
  sort_by routable_le c = List.filter (λ x, negb (link_local_str x)) c ++ List.filter link_local_str c.
Proof.
  induction c as [|x c IH]; [done|]. cbn [sort_by List.filter]. rewrite IH. clear IH.
  destruct (link_local_str x) eqn:Ex; cbn [negb].
  - assert (∀ l2 l1, Forall (λ y, link_local_str y = false) l1 → Forall (λ y, link_local_str y = true) l2 →
      insert_by routable_le x (l1 ++ l2) = l1 ++ x :: l2) as H.
    { intros l2 l1 H1 H2. induction H1 as [|y l1 Hy H1 IH]; cbn [app insert_by].
      - destruct H2 as [|y l2 Hy H2]; [done|]. cbn [insert_by]. unfold routable_le. by rewrite Ex, Hy.
      - unfold routable_le at 1. by rewrite Ex, Hy, IH. }
    apply H; apply Forall_forall; intros y [_ Hy]%list_elem_of_In%filter_In; [by apply negb_true_iff|done].
  - cbn [app]. destruct (_ ++ _) as [|y l] eqn:E; [done|]. cbn [insert_by]. unfold routable_le at 1. by rewrite Ex.
Qed.

(** *** Properties *)

(** The commissioning endpoint carries the longest prefix of the Host's
    addresses that a 512-byte attribute holds.  What is admitted is a prefix;
    with any address in it the signed document fits; and, signatures all
    having one length, no longer prefix would. *)
Theorem endpoint_addresses_fit sign_mapping L unsigned addresses :
  NoDup unsigned.*1 → "signature" ∉ unsigned.*1 →
  (∀ u, length (dumps false (DStr (sign_mapping u))) = L) →
  ∃ n, addresses_that_fit sign_mapping unsigned addresses = take n addresses ∧ n ≤ length addresses ∧
    (0 < n → endpoint_size (signed sign_mapping (with_urls unsigned (take n addresses))) ≤ 512) ∧
    (∀ k, n < k ≤ length addresses →
      512 < endpoint_size (signed sign_mapping (with_urls unsigned (take k addresses)))).
Proof.
  intros Hnd Hs HL. destruct (admit_spec sign_mapping unsigned [] addresses) as (n & E & Hn & Hk & Hnext).
  exists n. unfold addresses_that_fit. rewrite E. unfold fits, GATT_MAX_ATTRIBUTE_BYTES in Hk, Hnext.
  split_and!; [done|done| |].
  - intros H0. specialize (Hk n ltac:(lia)). by apply negb_true_iff, Nat.ltb_ge in Hk.
  - intros k [Hk1 Hk2]. specialize (Hnext ltac:(lia)). apply negb_false_iff, Nat.ltb_lt in Hnext.
    eapply Nat.lt_le_trans; [exact Hnext|]. cbn [app].
    replace (take k addresses) with (take (S n) addresses ++ drop (S n) (take k addresses)).
    + by eapply signed_size_mono.
    + rewrite <- (take_drop (S n) (take k addresses)) at 2. f_equal. rewrite take_take. f_equal. lia.
Qed.

Lemma endpoint_addresses_fit_witness :
  let sign (_ : list (string * doc)) : string := "c2ln" in
  let unsigned := [("contract_version", DStr "1"); ("local_api_base_urls", DList [])] in
  let addresses := (λ n, ("https://10.0.0." ++ pretty (Z.of_nat n) ++ ":9002")%string) <$> seq 100 40 in
  addresses_that_fit sign unsigned addresses = take 17 addresses ∧
  ∃ n, addresses_that_fit sign unsigned addresses = take n addresses ∧ n ≤ length addresses ∧
    (0 < n → endpoint_size (signed sign (with_urls unsigned (take n addresses))) ≤ 512) ∧
    (∀ k, n < k ≤ length addresses →
      512 < endpoint_size (signed sign (with_urls unsigned (take k addresses)))).
Proof.
  cbv zeta. split; [vm_compute; reflexivity|].
  apply (endpoint_addresses_fit _ 6).
  - apply (bool_decide_unpack _). vm_compute. exact I.
  - apply (bool_decide_unpack _). vm_compute. exact I.
  - intros u. reflexivity.
Defined.

(** A Host publishes each of its usable IPv4 addresses once, in the order
    the system reports them except that link-local ones come last; loopback,
    multicast, unspecified and management-link addresses never appear. *)
Theorem published_addresses on_product_link reported :
  let l := reachable_ipv4_addresses on_product_link reported in
  NoDup l ∧
  (∀ x, x ∈ l ↔ x ∈ reported ∧ ∃ a, IPv4Address x = Some a ∧ on_product_link a = true ∧
    is_loopback a = false ∧ is_multicast a = false ∧ is_unspecified a = false) ∧
  (∃ c, c `sublist_of` reported ∧
    l = List.filter (λ x, negb (link_local_str x)) c ++ List.filter link_local_str c).
Proof.
  cbv zeta. unfold reachable_ipv4_addresses.
  destruct (collect_spec on_product_link reported [] (NoDup_nil_2)) as [Hnd Hin].
  fold (collect_addresses on_product_link reported) in Hnd, Hin.
  set (c := collect_addresses on_product_link reported) in *. pose proof (sort_by_perm routable_le c) as Hp.
  split_and!.
  - by rewrite Hp.
  - intros x. rewrite Hp, Hin. unfold publishable. split.
    + intros [H|[H1 H2]]; [by apply not_elem_of_nil in H|]. split; [done|].
      destruct (IPv4Address x) as [a|]; [|done]. exists a. apply andb_true_iff in H2 as [H2 H3].
      apply negb_true_iff in H2. rewrite !orb_false_iff in H2. naive_solver.
    + intros [H1 (a & -> & H2 & H3 & H4 & H5)]. right. split; [done|]. by rewrite H2, H3, H4, H5.
  - exists c. split; [apply collect_sublist|apply sort_routable].
Qed.
