(* ===== verification/BootstrapService.v ===== *)
(** * The bootstrap application service

    [bootstrap/service.py]: what the Host's control socket and the two
    commissioning transports drive.  The state is the service object beside
    the [world] of Commissioning.v; the Host's identity, its signing key, its
    TLS fingerprint, its settings and the factory file are arguments. *)

From S2P Require Import Prelude Domain StateStore Encoding Json Timestamp Network.
From S2P Require Import Commissioning Protocol HostAddresses.

(** ** Settings *)

Inductive BootstrapMode := DEVELOPMENT | PRODUCTION.
Inductive ClaimWindowPolicy := ON_DEMAND | ALWAYS_OPEN.
Inductive CommissioningAdapter := DISABLED | BLUEZ.

#[global] Instance BootstrapMode_eq_dec : EqDecision BootstrapMode.
Proof. solve_decision. Defined.
#[global] Instance ClaimWindowPolicy_eq_dec : EqDecision ClaimWindowPolicy.
Proof. solve_decision. Defined.

Definition BootstrapMode_value (m : BootstrapMode) : string :=
  match m with DEVELOPMENT => "development" | PRODUCTION => "production" end.
Definition ClaimWindowPolicy_value (p : ClaimWindowPolicy) : string :=
  match p with ON_DEMAND => "on_demand" | ALWAYS_OPEN => "always_open" end.
Definition CommissioningAdapter_value (a : CommissioningAdapter) : string :=
  match a with DISABLED => "disabled" | BLUEZ => "bluez" end.

Record BootstrapSettings := mkSettings {
  mode : BootstrapMode; ble_service_uuid : string; commissioning_adapter : CommissioningAdapter;
  local_api_port : Z; claim_window : ClaimWindowPolicy }.

(** ** The service object *)

(** A pending LAN challenge: Controller, epoch, deadline. *)
Definition pending_challenge : Type := (string * Z * Z)%type.

Record bootstrap_service := mkService {
  controller_challenges : list (string * pending_challenge);
  run_id : option string;
  started_at : option string;
  commissioning_status : string }.

Definition service_init (settings : BootstrapSettings) : bootstrap_service :=
  mkService [] None None
    (match settings.(commissioning_adapter) with DISABLED => "disabled" | BLUEZ => "starting" end).

Definition set_controller_challenges (l : list (string * pending_challenge)) (b : bootstrap_service) :=
  mkService l b.(run_id) b.(started_at) b.(commissioning_status).
Definition set_run (r s : option string) (b : bootstrap_service) :=
  mkService b.(controller_challenges) r s b.(commissioning_status).
Definition set_status (s : string) (b : bootstrap_service) :=
  mkService b.(controller_challenges) b.(run_id) b.(started_at) s.

Definition RECOVERY_WINDOW_TTL_SECONDS : Z := 900.
Definition HOST_PROOF_PURPOSE : string := "eidolon-local-api-host-proof-v1".
Definition ENDPOINT_PURPOSE : string := "eidolon-ble-commissioning-endpoint-v1".

(** [^[A-Za-z0-9_-]{43}$], full match *)
Definition is_b64url_char (c : ascii) : bool :=
  let n := N_of_ascii c in
  is_digit c || ((65 <=? n)%N && (n <=? 90)%N) || ((97 <=? n)%N && (n <=? 122)%N) ||
  (n =? 95)%N || (n =? 45)%N.
Definition is_challenge (s : string) : bool :=
  (String.length s =? 43)%nat && str_forallb is_b64url_char s.

Definition auth_rejected (msg : string) : exn := ControllerAuthenticationRejected msg.
Definition not_authorized : exn := auth_rejected "Controller is not authorized for this Host".

(** The challenges not yet expired. *)
Definition live_challenges (now : Z) (l : list (string * pending_challenge)) :=
  List.filter (λ c, negb (c.2.2 <=? now)%Z) l.

(** [min(d, key=lambda c: d[c][2])]: the first with the least deadline. *)
Fixpoint oldest (l : list (string * pending_challenge)) : option (string * pending_challenge) :=
  match l with
  | [] => None
  | c :: l' =>
      match oldest l' with
      | Some d => if (d.2.2 <? c.2.2)%Z then Some d else Some c
      | None => Some c
      end
  end.

Definition evict_oldest (l : list (string * pending_challenge)) : list (string * pending_challenge) :=
  if (256 <=? length l)%nat then
    match oldest l with Some c => dict_del c.1 l | None => l end
  else l.

(** [int(v)] and the [isinstance(v, int)] test of a parsed value. *)
Definition json_is_int (v : json) : bool := match v with JInt _ | JBool _ => true | _ => false end.

Section Service.
Context {S N : Type} `{!BootstrapStateStore S} `{!NetworkProvisioning N}.
Context (sha256_hex : list ascii → string) (load_der_public_key : list ascii → result key_kind)
        (ecdsa_verify : list ascii → list ascii → list ascii → bool).
(** The Ed25519 key of the Host over the canonical bytes of a mapping. *)
Context (sign_mapping : list (string * doc) → string) (identity : HostIdentity)
        (tls_spki_fingerprint : string).
Context (settings : BootstrapSettings) (with_network : bool).
(** What [read_text] of the factory Setup code file answers; a missing file is
    an [OSError]. *)
Context (factory_file : result string).
(** The addresses the kernel reports, and the SDK's judgement of a link. *)
Context (reported_addresses : list string) (on_product_link : N.t → bool).
(** Draws granted to the loop that picks a Setup code. *)
Context (draw_fuel : nat) (pid : Z).

Abbreviation W := (world S N).
Abbreviation B := (bootstrap_service * world S N)%type.

Definition in_host {A} (c : M W A) : M B A := zoom snd (λ w p, (p.1, w)) c.
Definition update_service (f : bootstrap_service → bootstrap_service) : M B unit :=
  modify (λ p, (f p.1, p.2)).

Definition draw_setup_code : M W string := λ w,
  match generate_setup_code draw_fuel w.(w_oracle).(or_draw) w.(w_step) with
  | Some (code, j) => (Ok code, put_step j w)
  | None => (Raise (RuntimeError "still drawing"), w)
  end.

(** *** Claim windows *)

(** [_read_factory_setup_code] *)
Definition read_factory_setup_code : result (option string) :=
  match factory_file with
  | Ok text => let code := strip text in
               Ok (if is_usable_setup_code code then Some code else None)
  | Raise (OSError _) => Ok None
  | Raise e => Raise e
  end.

(** [_issue_setup_code], which every minted window without a deadline goes
    through. *)
Definition mint_setup_code (setup_code : string) : M W doc :=
  now ← draw or_wall;
  session_id ← draw or_uuid;
  on_store (store_issue_commissioning_session session_id (secret_hash sha256_hex setup_code)
              (timestamp now) None) ;;
  mret (DObj [("host_id", DStr identity.(host_id)); ("commissioning_id", DStr session_id);
              ("setup_code", DStr setup_code); ("issued_at", DStr (timestamp now));
              ("expires_at", DNull)]).

Definition window_open (session : option CommissioningSessionMetadata) (now : string) : bool :=
  match session with Some m => is_open m now | None => false end.

Definition open_factory_window (now : string) : M W unit :=
  code ← lift read_factory_setup_code;
  match code with
  | None => mret tt
  | Some code =>
      claimed ← (if bool_decide (settings.(claim_window) = ALWAYS_OPEN) then mret false
                 else st ← on_store store_get_state;
                      mret (negb (bool_decide (st.(claim_state) = UNCLAIMED))));
      if (claimed : bool) then mret tt
      else
        session ← on_store store_latest_commissioning_session;
        if window_open session now then mret tt
        else mint_setup_code code ;; mret tt
  end.

Definition reopen_standing_claim_window : M W unit :=
  if negb (bool_decide (settings.(claim_window) = ALWAYS_OPEN)) then mret tt
  else
    now ← now_ts;
    session ← on_store store_latest_commissioning_session;
    if window_open session now then mret tt
    else
      code ← lift read_factory_setup_code;
      match code with
      | None => mret tt
      | Some code => mint_setup_code code ;; mret tt
      end.

Definition issue_setup_code (setup_code : option string) : M W doc :=
  match setup_code with
  | None => code ← draw_setup_code; mint_setup_code code
  | Some code =>
      guard_py (negb (is_usable_setup_code code))
        (BootstrapOperationRejected "setup_code must be a usable 8-digit Setup code: digits only, not all the same, and not the plain run up or down") ;;
      mint_setup_code code
  end.

Definition setup_session_status : M W doc :=
  session ← on_store store_latest_commissioning_session;
  mret (DObj [("current", match session with
                          | None => DNull
                          | Some m => CommissioningSessionMetadata_to_dict m
                          end)]).

Definition active_setup_session : M W doc :=
  session ← on_store store_latest_commissioning_session;
  match session with
  | None => mret DNull
  | Some m =>
      now ← now_ts;
      mret (if is_open m now then
              DObj [("commissioning_id", DStr m.(session_id)); ("expires_at", dopt m.(s_expires_at))]
            else DNull)
  end.

(** *** Life cycle *)

Definition initialize : M B unit :=
  now ← in_host now_ts;
  in_host (on_store store_open) ;;
  in_host (on_store (store_initialize now)) ;;
  in_host (on_store (store_fail_interrupted_operations now)) ;;
  in_host (open_factory_window now) ;;
  id ← in_host (draw or_uuid);
  update_service (set_run (Some id) (Some now)).

Definition shutdown : M B unit :=
  in_host (on_store store_close) ;;
  update_service (λ b, set_run None b.(started_at) (set_controller_challenges [] b)).

Definition set_commissioning_status (status : string) : M B unit :=
  guard_py (negb (bool_decide (status ∈ ["disabled"; "starting"; "ready"; "degraded"; "stopping"])))
    (ValueError "unknown commissioning runtime status") ;;
  update_service (set_status status).

Definition reconcile_network_state (ns : NetworkState) : M W unit :=
  now ← now_ts; on_store (store_reconcile_network_state ns now).

Definition public_descriptor : doc :=
  DObj [("contract_version", DStr "1"); ("host_id", DStr identity.(host_id));
        ("host_public_key", DStr identity.(host_public_key));
        ("host_public_key_fingerprint", DStr identity.(host_public_key_fingerprint));
        ("ble_service_uuid", DStr settings.(ble_service_uuid))].

Definition health : M B doc :=
  b ← gets fst;
  st ← in_host (on_store store_get_state);
  mret (DObj [("status", DStr "running"); ("mode", DStr (BootstrapMode_value settings.(mode)));
    ("claim_window", DStr (ClaimWindowPolicy_value settings.(claim_window))); ("pid", DInt pid);
    ("run_id", dopt b.(run_id)); ("started_at", dopt b.(started_at));
    ("commissioning", DObj [("adapter", DStr (CommissioningAdapter_value settings.(commissioning_adapter)));
                            ("status", DStr b.(commissioning_status))]);
    ("descriptor", public_descriptor); ("state", BootstrapState_to_dict st)]).

(** *** The Host's proof of itself *)

Definition host_proof_rejected (msg : string) : exn := BootstrapOperationRejected msg.

(** The mapping a Host signs about itself. *)
Definition host_proof_document (challenge : string) : list (string * doc) :=
  [("contract_version", DStr "1"); ("purpose", DStr HOST_PROOF_PURPOSE);
   ("host_id", DStr identity.(host_id)); ("challenge", DStr challenge)].

Definition prove_host (challenge : json) : result doc :=
  match challenge with
  | JStr c =>
      if negb (is_challenge c) then
        Raise (host_proof_rejected "host proof challenge must be 32 unpadded base64url bytes")
      else
        match urlsafe_b64decode (list_ascii_of_string c ++ ["="%char]) with
        | Raise (ValueError _) => Raise (host_proof_rejected "host proof challenge is not valid base64url")
        | Raise e => Raise e
        | Ok decoded =>
            if negb (length decoded =? 32)%nat then
              Raise (host_proof_rejected "host proof challenge must decode to 32 bytes")
            else if negb (bool_decide (string_of_list_ascii (b64url_encode decoded) = c)) then
              Raise (host_proof_rejected "host proof challenge must use canonical base64url encoding")
            else
              Ok (DObj (signed sign_mapping (host_proof_document c)))
        end
  | _ => Raise (host_proof_rejected "host proof challenge must be 32 unpadded base64url bytes")
  end.

(** *** Controllers on the LAN *)

Definition active_controller (controller_id : json) : M W ControllerGrant :=
  match controller_id with
  | JStr cid =>
      guard_py (negb (is_controller_id cid)) not_authorized ;;
      grant ← on_store (store_get_controller cid);
      st ← on_store store_get_state;
      match grant with
      | Some g =>
          guard_py (bool_decide (is_Some g.(g_revoked_at)) ||
                    negb (g.(g_reset_epoch) =? st.(reset_epoch))%Z ||
                    negb (bool_decide (g.(role) = HOST_ADMIN))) not_authorized ;;
          mret g
      | None => raise not_authorized
      end
  | _ => raise not_authorized
  end.

Definition controller_principal (g : ControllerGrant) : doc :=
  DObj [("contract_version", DStr "1"); ("controller_id", DStr g.(controller_id));
        ("role", DStr (ControllerRole_value g.(role))); ("display_name", DStr g.(display_name));
        ("platform", DStr g.(platform)); ("reset_epoch", DInt g.(g_reset_epoch))].

(** [_purge_controller_challenges] *)
Definition purge_challenges (now : Z) : M B unit :=
  update_service (λ b, set_controller_challenges (live_challenges now b.(controller_challenges)) b).

Definition issue_controller_challenge (cid : json) : M B doc :=
  grant ← in_host (active_controller cid);
  now ← in_host (draw or_mono);
  purge_challenges now ;;
  update_service (λ b, set_controller_challenges (evict_oldest b.(controller_challenges)) b) ;;
  challenge ← in_host fresh_challenge;
  update_service (λ b, set_controller_challenges
    (dict_set challenge (grant.(controller_id), grant.(g_reset_epoch), (now + 60000000)%Z)
       b.(controller_challenges)) b) ;;
  mret (DObj [("contract_version", DStr "1"); ("purpose", DStr LOCAL_API_CONTROLLER_AUTH_PURPOSE);
              ("controller_id", DStr grant.(controller_id)); ("challenge", DStr challenge);
              ("reset_epoch", DInt grant.(g_reset_epoch))]).

(** [self._controller_challenges.pop(challenge, None)] *)
Definition pop_challenge (challenge : string) : M B (option pending_challenge) :=
  l ← gets (λ p : B, p.1.(controller_challenges));
  update_service (set_controller_challenges (dict_del challenge l)) ;;
  mret (dict_get challenge l).

Definition authenticate_controller (payload : json) : M B doc :=
  match payload with
  | JObj payload =>
      match obj_get "challenge" payload JNull with
      | JStr challenge =>
          now ← in_host (draw or_mono);
          purge_challenges now ;;
          record ← pop_challenge challenge;
          match record with
          | None => raise (auth_rejected "Controller challenge is missing or expired")
          | Some (controller_id, reset_epoch, deadline) =>
              guard_py (deadline <=? now)%Z
                (auth_rejected "Controller challenge is missing or expired") ;;
              guard_py (negb (json_eq_str (obj_get "contract_version" payload JNull) "1") ||
                        negb (json_eq_str (obj_get "purpose" payload JNull) LOCAL_API_CONTROLLER_AUTH_PURPOSE) ||
                        negb (json_eq_str (obj_get "controller_id" payload JNull) controller_id) ||
                        negb (json_eq_int (obj_get "reset_epoch" payload JNull) reset_epoch))
                (auth_rejected "Controller challenge does not match") ;;
              grant ← in_host (active_controller (JStr controller_id));
              match verify_controller_signature load_der_public_key ecdsa_verify grant challenge
                      LOCAL_API_CONTROLLER_AUTH_PURPOSE reset_epoch (obj_get "signature" payload JNull) with
              | Ok _ => mret (controller_principal grant)
              | Raise (ControllerSignatureError _) => raise (auth_rejected "Controller signature is invalid")
              | Raise e => raise e
              end
          end
      | _ => raise (auth_rejected "Controller proof is invalid")
      end
  | _ => raise (auth_rejected "Controller proof is invalid")
  end.

Definition validate_controller (controller_id reset_epoch : json) : M W doc :=
  grant ← active_controller controller_id;
  guard_py (negb (json_is_int reset_epoch) || negb (json_eq_int reset_epoch grant.(g_reset_epoch)))
    (auth_rejected "Controller session is no longer authorized") ;;
  mret (controller_principal grant).

(** The Grants [list_controllers] and [open_controller_recovery_window] pick. *)
Definition current_grants (epoch : Z) (l : list ControllerGrant) : list ControllerGrant :=
  List.filter (λ g, bool_decide (g.(g_revoked_at) = None) && (g.(g_reset_epoch) =? epoch)%Z) l.

Definition list_controllers (controller_id : json) : M W doc :=
  active_controller controller_id ;;
  st ← on_store store_get_state;
  l ← on_store store_list_controllers;
  mret (DObj [("controllers", DList (ControllerGrant_to_dict <$> current_grants st.(reset_epoch) l))]).

(** Both adapters compare [target_id] with the identifiers of active Grants; a
    value that is no string equals none of them. *)
Definition revoke_controller (controller_id target_id : json) : M W doc :=
  active_controller controller_id ;;
  now ← now_ts;
  revoked ← catch
    (match target_id with
     | JStr target => on_store (store_revoke_controller target now)
     | _ => raise (BootstrapStateConflict "controller is not authorized for this Host")
     end)
    (λ e, match e with BootstrapStateConflict m => Some (raise (BootstrapOperationRejected m)) | _ => None end);
  mret (DObj [("controller", ControllerGrant_to_dict revoked)]).

(** *** The commissioning endpoint *)

Definition unsigned_endpoint (epoch : Z) (setup : doc) : list (string * doc) :=
  [("contract_version", DStr "1"); ("purpose", DStr ENDPOINT_PURPOSE);
   ("host_public_key", DStr identity.(host_public_key)); ("reset_epoch", DInt epoch);
   ("tls_spki_fingerprint", DStr tls_spki_fingerprint); ("setup_session", setup);
   ("local_api_base_urls", DList [])].

Definition commissioning_endpoint : M W doc :=
  st ← on_store store_get_state;
  setup ← active_setup_session;
  let unsigned := unsigned_endpoint st.(reset_epoch) setup in
  let addresses := local_api_base_urls on_product_link settings.(local_api_port) reported_addresses in
  let unsigned := with_urls unsigned (addresses_that_fit sign_mapping unsigned addresses) in
  mret (DObj (signed sign_mapping unsigned)).

Definition lan_commissioning_endpoint : M W doc := commissioning_endpoint.

(** [self._commissioning], whose claim runs the reopening callback. *)
Definition claim_lan_controller (commissioning_id setup_code : json) (controller : obj) : M W doc :=
  guard_py (negb with_network) (BootstrapOperationRejected "LAN commissioning requires a network adapter") ;;
  authorization ← authorize sha256_hex commissioning_id setup_code;
  result ← claim_controller sha256_hex load_der_public_key (Some reopen_standing_claim_window)
             authorization controller;
  mret (match result with
        | DObj kv => DObj ([("contract_version", DStr "1");
                            ("operation", DStr "local.lan-commissioning-claim");
                            ("host_id", DStr identity.(host_id))] ++ kv)
        | d => d
        end).

(** *** Resets *)

(** [ttl_seconds or RECOVERY_WINDOW_TTL_SECONDS] *)
Definition recovery_ttl (ttl_seconds : option Z) : Z :=
  match ttl_seconds with
  | Some t => if (t =? 0)%Z then RECOVERY_WINDOW_TTL_SECONDS else t
  | None => RECOVERY_WINDOW_TTL_SECONDS
  end.

Definition open_controller_recovery_window (ttl_seconds : option Z) : M W doc :=
  let ttl := recovery_ttl ttl_seconds in
  guard_py (negb ((60 <=? ttl)%Z && (ttl <=? 86400)%Z))
    (BootstrapOperationRejected "ttl_seconds must be between 60 and 86400") ;;
  before ← on_store store_get_state;
  l ← on_store store_list_controllers;
  let revoked := controller_id <$> current_grants before.(reset_epoch) l in
  now ← draw or_wall;
  setup_code ← draw_setup_code;
  id ← draw or_uuid;
  let issued_at := timestamp now in
  let expires_at := timestamp (plus_seconds now ttl) in
  after ← on_store (store_reset_authority before.(network_state) issued_at
            (Some (mkSeed id (secret_hash sha256_hex setup_code) (Some expires_at))));
  mret (DObj [("host_id", DStr identity.(host_id)); ("before", BootstrapState_to_dict before);
    ("after", BootstrapState_to_dict after); ("revoked_controllers", DList (DStr <$> revoked));
    ("setup_session", DObj [("host_id", DStr identity.(host_id)); ("commissioning_id", DStr id);
       ("setup_code", DStr setup_code); ("issued_at", DStr issued_at); ("expires_at", DStr expires_at)]);
    ("preserved", DList [DStr "host_identity"; DStr "network_profiles"; DStr "component_data"])]).

Definition on_network_error {A} (e' : exn) (c : M W A) : M W A :=
  catch c (λ e, match e with NetworkProvisioningError _ => Some (raise e') | _ => None end).

(** The best effort of [reset_development_state] after a failed forget. *)
Definition reconcile_observed : M W unit :=
  catch (current ← on_net net_get_state; reconcile_network_state current.(sn_state))
    (λ e, match e with NetworkProvisioningError _ => Some (mret tt) | _ => None end).

Definition reset_development_state (forget_wifi_profiles : bool) : M W doc :=
  guard_py (negb (bool_decide (settings.(mode) = DEVELOPMENT)))
    (BootstrapOperationRejected "development reset is disabled in production") ;;
  guard_py (negb with_network)
    (BootstrapOperationRejected "development reset requires a network provisioning adapter") ;;
  network ← on_network_error
    (BootstrapOperationRejected "development reset could not read the current network state")
    (on_net net_get_state);
  before ← on_store store_get_state;
  now ← now_ts;
  after ← on_store (store_reset_authority network.(sn_state) now None);
  after ← (if forget_wifi_profiles then
             network ← catch (on_net net_forget_all_wifi_profiles)
               (λ e, match e with
                     | NetworkProvisioningError _ =>
                         Some (reconcile_observed ;; raise (BootstrapOperationRejected
                           "claim reset completed, but saved Wi-Fi profiles could not be cleared"))
                     | _ => None
                     end);
             reconcile_network_state network.(sn_state) ;;
             on_store store_get_state
           else mret after);
  setup ← active_setup_session;
  mret (DObj [("host_id", DStr identity.(host_id)); ("before", BootstrapState_to_dict before);
              ("after", BootstrapState_to_dict after); ("forgot_wifi_profiles", DBool forget_wifi_profiles);
              ("setup_session", setup)]).
End Service.
