(* ===== verification/Control.v ===== *)
(** * The control socket and the start of the daemon

    [bootstrap/control.py]: the dispatcher behind the Host's local Unix socket
    and the answer to one request line; [run_daemon] of [bootstrap/daemon.py]
    up to the moment the socket accepts requests. *)

From S2P Require Import Prelude Domain StateStore Encoding Json Timestamp Network.
From S2P Require Import Commissioning Protocol HostAddresses BootstrapService.

Definition MAX_REQUEST_BYTES : nat := 64 * 1024.

(** ** [int(v)] of a parsed value *)

(** Decimal digits with single underscores between them. *)
Fixpoint int_digits (l : list ascii) (acc : Z) (after_digit : bool) : option Z :=
  match l with
  | [] => if after_digit then Some acc else None
  | c :: l' =>
      if is_digit c then int_digits l' (acc * 10 + Z.of_N (N_of_ascii c - 48))%Z true
      else if bool_decide (c = "_"%char) && after_digit then int_digits l' acc false
      else None
  end.

Definition bad_int : exn := ValueError "invalid literal for int() with base 10".

(** [int(s)] on ASCII text: surrounding white space, a sign, at most 4300
    digits. *)
Definition int_of_str (s : string) : result Z :=
  let r := match list_ascii_of_string (strip s) with
           | c :: l =>
               if bool_decide (c = "-"%char) then Z.opp <$> int_digits l 0 false
               else if bool_decide (c = "+"%char) then int_digits l 0 false
               else int_digits (c :: l) 0 false
           | [] => None
           end in
  match r with
  | Some z => if (4300 <? length (List.filter is_digit (list_ascii_of_string s)))%nat
              then Raise (ValueError "Exceeds the limit (4300 digits) for integer string conversion")
              else Ok z
  | None => Raise bad_int
  end.

Definition int_of (v : json) : result Z :=
  match v with
  | JInt z => Ok z
  | JBool b => Ok (Z.b2z b)
  | JFloat m e => Ok (if (0 <=? e)%Z then m * 2 ^ e else Z.quot m (2 ^ (- e)))%Z
  | JNaN => Raise (ValueError "cannot convert float NaN to integer")
  | JInfinity _ => Raise (OverflowError "cannot convert float infinity to integer")
  | JStr s => int_of_str s
  | JNull | JList _ | JObj _ => Raise (TypeError "int() argument must be a string, a bytes-like object or a real number")
  end.

(** [None if raw_ttl is None else int(raw_ttl)] *)
Definition ttl_of (v : json) : result (option Z) :=
  match v with JNull => Ok None | _ => z ← int_of v; Ok (Some z) end.

Example int_of_samples :
  int_of (JStr " -1_000 ") = Ok (-1000)%Z ∧ int_of (JStr "1__0") = Raise bad_int ∧
  int_of (JFloat (-7) (-1)) = Ok (-3)%Z.
Proof. split_and!; reflexivity. Qed.

(** The classes [_handle_client] names in its second [except], and the names
    it answers. *)
Definition structured_error (e : exn) : option (string * string) :=
  match e with
  | BootstrapControlError m => Some ("BootstrapControlError", m)
  | BootstrapOperationRejected m => Some ("BootstrapOperationRejected", m)
  | ControllerAuthenticationRejected m => Some ("ControllerAuthenticationRejected", m)
  | JSONDecodeError m => Some ("JSONDecodeError", m)
  | TypeError m => Some ("TypeError", m)
  | ValueError m => Some ("ValueError", m)
  | _ => None
  end.

Definition ok_response (result : doc) : doc := DObj [("ok", DBool true); ("result", result)].
Definition error_response (code message : string) : doc :=
  DObj [("ok", DBool false); ("error", DObj [("code", DStr code); ("message", DStr message)])].

Section Control.
Context {S N : Type} `{!BootstrapStateStore S} `{!NetworkProvisioning N}.
Context (sha256_hex : list ascii → string) (load_der_public_key : list ascii → result key_kind)
        (ecdsa_verify : list ascii → list ascii → list ascii → bool).
Context (sign_mapping : list (string * doc) → string) (identity : HostIdentity)
        (tls_spki_fingerprint : string).
Context (settings : BootstrapSettings) (with_network : bool) (factory_file : result string).
Context (reported_addresses : list string) (on_product_link : N.t → bool).
Context (draw_fuel : nat) (pid : Z).
(** [json.loads] of a request line, and the [repr] of the unknown operation,
    which only enters the text of its refusal. *)
Context (loads : list ascii → result json) (repr : json → string).

Abbreviation B := (bootstrap_service * world S N)%type.

Definition dispatch (request : obj) : M B doc :=
  let operation := obj_get "op" request JNull in
  let get k := obj_get k request JNull in
  if json_eq_str operation "health" then health identity settings pid
  else if json_eq_str operation "descriptor" then mret (public_descriptor identity settings)
  else if json_eq_str operation "host.prove" then lift (prove_host sign_mapping identity (get "challenge"))
  else if json_eq_str operation "controller.challenge" then issue_controller_challenge (get "controller_id")
  else if json_eq_str operation "controller.authenticate" then
    BootstrapService.authenticate_controller load_der_public_key ecdsa_verify (get "proof")
  else if json_eq_str operation "controller.validate" then
    in_host (validate_controller (get "controller_id") (get "reset_epoch"))
  else if json_eq_str operation "controller.list" then in_host (list_controllers (get "controller_id"))
  else if json_eq_str operation "controller.revoke" then
    in_host (revoke_controller (get "controller_id") (get "target_id"))
  else if json_eq_str operation "commissioning.endpoint" then
    in_host (commissioning_endpoint sign_mapping identity tls_spki_fingerprint settings
               reported_addresses on_product_link)
  else if json_eq_str operation "commissioning.lan.endpoint" then
    in_host (lan_commissioning_endpoint sign_mapping identity tls_spki_fingerprint settings
               reported_addresses on_product_link)
  else if json_eq_str operation "commissioning.lan.claim" then
    match get "controller" with
    | JObj controller =>
        in_host (claim_lan_controller sha256_hex load_der_public_key identity settings with_network
                   factory_file (get "commissioning_id") (get "setup_code") controller)
    | _ => raise (BootstrapControlError "controller must be an object")
    end
  else if json_eq_str operation "controller.reset" then
    ttl ← lift (ttl_of (get "ttl_seconds"));
    in_host (open_controller_recovery_window sha256_hex identity draw_fuel ttl)
  else if json_eq_str operation "commissioning.code" then
    lift (ttl_of (get "ttl_seconds")) ;;
    match get "setup_code" with
    | JNull => in_host (issue_setup_code sha256_hex identity draw_fuel None)
    | JStr code => in_host (issue_setup_code sha256_hex identity draw_fuel (Some code))
    | _ => raise (BootstrapControlError "setup_code must be a string")
    end
  else if json_eq_str operation "commissioning.status" then in_host setup_session_status
  else if json_eq_str operation "dev.reset" then
    match obj_get "forget_wifi_profiles" request (JBool false) with
    | JBool forget => in_host (reset_development_state identity settings with_network forget)
    | _ => raise (BootstrapControlError "forget_wifi_profiles must be a boolean")
    end
  else raise (BootstrapControlError ("unknown control operation: " ++ repr operation)).

(** The body of the [try], from the line that was read. *)
Definition control_request (raw : result (list ascii)) : M B doc :=
  raw ← lift raw;
  guard_py (bool_decide (raw = []) || (MAX_REQUEST_BYTES <=? length raw)%nat)
    (BootstrapControlError "control request is empty or too large") ;;
  request ← lift (loads raw);
  match request with
  | JObj request => dispatch request
  | _ => raise (BootstrapControlError "control request must be a JSON object")
  end.

(** [_handle_client]: every line is answered. *)
Definition handle_client (raw : result (list ascii)) (p : B) : doc * B :=
  match control_request raw p with
  | (Ok result, p') => (ok_response result, p')
  | (Raise (CommissioningRequestRejected code msg), p') => (error_response code msg, p')
  | (Raise e, p') =>
      (match structured_error e with
       | Some (code, msg) => error_response code msg
       | None => error_response "internal_error" "bootstrap control operation failed"
       end, p')
  end.

(** A history of lines, one client after another. *)
Definition serve (lines : list (result (list ascii))) (p : B) : B :=
  foldl (λ p l, (handle_client l p).2) p lines.

(** [run_daemon] up to [control.start()]: recovery always runs, and what it
    found is kept only from an adapter that observes the Host's network. *)
Definition start_daemon : M B unit :=
  initialize sha256_hex identity settings factory_file ;;
  catch (recovered ← in_host (on_net net_recover_interrupted);
         if observes_host_network then in_host (reconcile_network_state recovered.(sn_state)) else mret tt)
    (λ _, Some (mret tt)).
End Control.
