(* ===== verification/BootstrapProofs.v ===== *)
(** * Correctness of the bootstrap service

    The LAN challenge table over whole histories of the control socket, the
    proofs a Host and a Controller give, and the life of the claim window:
    the factory window, the recovery window and the standing one. *)

From S2P Require Import Prelude Domain StateStore MemoryStore Encoding Json Timestamp Network.
From S2P Require Import Commissioning CommissioningRefinement CommissioningProofs Protocol ProtocolProofs.
From S2P Require Import HostAddresses BootstrapService Control.

Definition is_ok {A} (r : result A) : bool := match r with Ok _ => true | Raise _ => false end.

(** ** The challenge table *)

Definition table_ok (n : nat) (l : list (string * pending_challenge)) : Prop :=
  length l ≤ n ∧ NoDup l.*1.

Lemma NoDup_keys_filter {V} (p : string * V → bool) l : NoDup l.*1 → NoDup (List.filter p l).*1.
Proof.
  induction l as [|[k v] l IH]; [done|]. cbn [List.filter fmap list_fmap fst]. intros [Hni Hnd]%NoDup_cons.
  destruct (p (k, v)); [|by apply IH]. cbn [fmap list_fmap fst]. apply NoDup_cons. split; [|by apply IH].
  intros ([k' v'] & -> & Hin)%list_elem_of_fmap. apply Hni. apply list_elem_of_In, filter_In in Hin as [Hin _].
  apply list_elem_of_fmap. exists (k', v'). split; [done|]. by apply list_elem_of_In.
Qed.

Lemma table_filter n p l : table_ok n l → table_ok n (List.filter p l).
Proof.
  intros [Hl Hn]. split; [|by apply NoDup_keys_filter]. etrans; [apply List.filter_length_le|done].
Qed.

Lemma oldest_elem l c : oldest l = Some c → c ∈ l.
Proof.
  revert c. induction l as [|d l IH]; intros c; cbn [oldest]; [done|].
  destruct (oldest l) as [x|].
  - case_match; intros [= <-]; [right; by apply IH|left].
  - intros [= <-]. left.
Qed.

Lemma oldest_none l : oldest l = None → l = [].
Proof. destruct l; [done|]. cbn [oldest]. case_match; [case_match|]; done. Qed.

Lemma dict_del_shorter {V} k v (l : list (string * V)) : (k, v) ∈ l → length (dict_del k l) < length l.
Proof.
  induction l as [|[k1 v1] l IH]; [by intros ?%not_elem_of_nil|].
  unfold dict_del in *. cbn [List.filter fst]. intros [[= -> ->]|Hin]%elem_of_cons.
  - rewrite bool_decide_eq_true_2 by done. cbn [negb length]. apply Nat.lt_succ_r, List.filter_length_le.
  - specialize (IH Hin). destruct (negb _); cbn [length]; lia.
Qed.

Lemma table_evict l : table_ok 256 l → table_ok 255 (evict_oldest l).
Proof.
  intros [Hl Hn]. unfold evict_oldest. destruct (256 <=? length l)%nat eqn:E.
  - destruct (oldest l) as [[k v]|] eqn:Eo.
    + apply oldest_elem in Eo. pose proof (dict_del_shorter _ _ _ Eo) as Hs. cbn [fst]. split; [lia|].
      by apply NoDup_keys_filter.
    + apply oldest_none in Eo as ->. split; [simpl; lia|constructor].
  - apply Nat.leb_gt in E. split; [lia|done].
Qed.

Lemma dict_set_length {V} (k : string) (v : V) l : length (dict_set k v l) ≤ S (length l).
Proof. induction l as [|[k1 v1] l IH]; cbn [dict_set]; [done|]. case_bool_decide; cbn [length]; lia. Qed.

Lemma table_set k v l : table_ok 255 l → table_ok 256 (dict_set k v l).
Proof.
  intros [Hl Hn]. split; [|by apply dict_set_NoDup]. pose proof (dict_set_length k v l). lia.
Qed.

Lemma table_weaken n m l : n ≤ m → table_ok n l → table_ok m l.
Proof. intros H [H1 H2]. split; [lia|done]. Qed.

(** *** Triples on the table *)

Section Table.
Context {S N : Type} `{!BootstrapStateStore S} `{!NetworkProvisioning N}.
Abbreviation B := (bootstrap_service * world S N)%type.
Implicit Types (P Q R : list (string * pending_challenge) → Prop).

Definition table_triple {A} P (c : M B A) Q : Prop :=
  ∀ p, P p.1.(controller_challenges) → Q (c p).2.1.(controller_challenges).

Lemma triple_bind {A X} P Q R (c : M B A) (f : A → M B X) :
  table_triple P c Q → (∀ a, table_triple Q (f a) R) → (∀ l, Q l → R l) → table_triple P (c ≫= f) R.
Proof.
  intros Hc Hf HQ p Hp. unfold mbind, M_bind. pose proof (Hc p Hp) as H.
  destruct (c p) as [[a|e] p1]; simpl in *; [by apply Hf|by apply HQ].
Qed.

Lemma triple_bind_same {A X} P (c : M B A) (f : A → M B X) :
  table_triple P c P → (∀ a, table_triple P (f a) P) → table_triple P (c ≫= f) P.
Proof. intros Hc Hf. eapply triple_bind; eauto. Qed.

Lemma triple_ret {A} P (a : A) : table_triple P (mret a) P.
Proof. by intros p. Qed.
Lemma triple_raise {A} P e : table_triple P (raise e : M B A) P.
Proof. by intros p. Qed.
Lemma triple_lift {A} P (r : result A) : table_triple P (lift r) P.
Proof. by intros p. Qed.
Lemma triple_gets {A} P (f : B → A) : table_triple P (gets f) P.
Proof. by intros p. Qed.
Lemma triple_guard P b e : table_triple P (guard_py b e) P.
Proof. intros p. by destruct b. Qed.
Lemma triple_host {A} P (c : M (world S N) A) : table_triple P (in_host c) P.
Proof. intros p. unfold in_host, zoom. by destruct (c p.2). Qed.
Lemma triple_update P Q f :
  (∀ b, P b.(controller_challenges) → Q (f b).(controller_challenges)) → table_triple P (update_service f) Q.
Proof. intros H p Hp. by apply H. Qed.
End Table.

#[export] Hint Resolve triple_ret triple_raise triple_lift triple_gets triple_guard triple_host : eidolon.

(** Walks a handler that leaves the table alone. *)
Ltac table_steps := repeat first
  [ solve [auto with eidolon] | apply triple_bind_same; [|intros ?] | case_match ].

Section Socket.
Context {S N : Type} `{!BootstrapStateStore S} `{!NetworkProvisioning N}.
Context (sha256_hex : list ascii → string) (load_der : list ascii → result key_kind)
        (ecdsa_verify : list ascii → list ascii → list ascii → bool)
        (sign_mapping : list (string * doc) → string) (identity : HostIdentity) (tls : string)
        (settings : BootstrapSettings) (with_network : bool) (factory_file : result string)
        (reported : list string) (on_product_link : N.t → bool) (fuel : nat) (pid : Z)
        (loads : list ascii → result json) (repr : json → string).
Abbreviation B := (bootstrap_service * world S N)%type.
Abbreviation ok := (table_ok 256).

Lemma triple_purge now : table_triple ok (purge_challenges now : M B unit) ok.
Proof. apply triple_update. intros b Hb. by apply table_filter. Qed.

Lemma triple_issue cid : table_triple ok (issue_controller_challenge cid : M B doc) ok.
Proof.
  unfold issue_controller_challenge. apply triple_bind_same; [apply triple_host|intros g].
  apply triple_bind_same; [apply triple_host|intros now]. apply triple_bind_same; [apply triple_purge|intros _].
  eapply (triple_bind _ (table_ok 255)).
  - apply triple_update. intros b. apply table_evict.
  - intros _. eapply (triple_bind _ (table_ok 255)); [apply triple_host| |].
    + intros c. eapply triple_bind; [|intros _; apply triple_ret|done].
      apply triple_update. intros b. apply table_set.
    + intros l. by apply table_weaken; lia.
  - intros l. by apply table_weaken; lia.
Qed.

Lemma triple_pop c : table_triple ok (pop_challenge c : M B _) ok.
Proof. intros p Hp. unfold pop_challenge. mnorm. by apply table_filter. Qed.

Lemma triple_authenticate v :
  table_triple ok (BootstrapService.authenticate_controller load_der ecdsa_verify v : M B doc) ok.
Proof.
  unfold BootstrapService.authenticate_controller. destruct v; try apply triple_raise.
  destruct (obj_get _ _ _); try apply triple_raise.
  apply triple_bind_same; [apply triple_host|intros now]. apply triple_bind_same; [apply triple_purge|intros _].
  apply triple_bind_same; [apply triple_pop|intros [[[cid epoch] deadline]|]]; [|apply triple_raise].
  table_steps.
Qed.

Lemma triple_request raw :
  table_triple ok (control_request sha256_hex load_der ecdsa_verify sign_mapping identity tls settings
    with_network factory_file reported on_product_link fuel pid loads repr raw : M B doc) ok.
Proof.
  unfold control_request. do 3 (apply triple_bind_same; [auto with eidolon|intros ?]).
  case_match; try apply triple_raise. unfold dispatch, health.
  repeat first [apply triple_issue | apply triple_authenticate | solve [auto with eidolon]
               | apply triple_bind_same; [|intros ?] | case_match].
Qed.
End Socket.

(** ** Controller proofs on the LAN *)

Section Lan.
Context (sha256_hex : list ascii → string) (load_der : list ascii → result key_kind)
        (ecdsa_verify : list ascii → list ascii → list ascii → bool).
Abbreviation HW := (world MemoryStore InMemoryNetwork).
Abbreviation HB := (bootstrap_service * HW)%type.

Lemma in_host_run {A} (c : M HW A) (p : HB) r w : c p.2 = (r, w) → in_host c p = (r, (p.1, w)).
Proof. intros H. unfold in_host, zoom. by rewrite H. Qed.

(** The active Grant of an identifier, as every LAN handler looks it up. *)
Definition active_grant (cid : string) (st : BootstrapState) (m : MemoryStore) : option ControllerGrant :=
  match dict_get (st.(reset_epoch), cid) m.(m_controllers) with
  | Some g => if is_controller_id cid && grant_active st.(reset_epoch) g then Some g else None
  | None => None
  end.

Lemma active_controller_run v (w : HW) st :
  ready (w_store w) st →
  active_controller v w =
    (match v with
     | JStr cid => match active_grant cid st (w_store w) with Some g => Ok g | None => Raise not_authorized end
     | _ => Raise not_authorized
     end, w).
Proof.
  intros Hr. destruct v as [| | | | | |cid| |]; try done. unfold active_controller, active_grant.
  rewrite bind_guard. destruct (is_controller_id cid); cbn [negb andb].
  2: { by destruct (dict_get _ _). }
  rewrite (bind_ok _ _ _ _ _ (on_store_read _ _ _ (mem_get_controller_run _ _ _ Hr))).
  rewrite (bind_ok _ _ _ _ _ (on_store_read _ _ _ (mem_get_state_run _ _ Hr))).
  destruct (dict_get _ _) as [g|]; [|done]. rewrite bind_guard. unfold grant_active.
  replace (bool_decide (role g = HOST_ADMIN)) with true by by destruct (role g).
  destruct (g_revoked_at g), (_ =? _)%Z; done.
Qed.

Lemma active_grant_spec cid st m g :
  controllers_wf st.(reset_epoch) m.(m_controllers) →
  active_grant cid st m = Some g →
  dict_get (st.(reset_epoch), cid) m.(m_controllers) = Some g ∧ g.(controller_id) = cid ∧
  g.(g_revoked_at) = None ∧ g.(g_reset_epoch) = st.(reset_epoch).
Proof.
  unfold active_grant. intros [_ Hwf]. destruct (dict_get _ _) as [g0|] eqn:E; [|done].
  destruct (is_controller_id cid && _) eqn:Ha; [|done]. intros [= ->].
  apply andb_true_iff in Ha as [_ Ha]. apply grant_active_spec in Ha.
  destruct (Hwf _ _ (dict_get_elem _ _ _ E)) as ([= E1 E2] & _). naive_solver.
Qed.

(** What follows the lookup of the challenge. *)
Definition finish_authentication (payload : obj) (challenge : string) (now : Z)
    (record : option pending_challenge) : M HB doc :=
  match record with
  | None => raise (auth_rejected "Controller challenge is missing or expired")
  | Some (controller_id, reset_epoch, deadline) =>
      guard_py (deadline <=? now)%Z
        (auth_rejected "Controller challenge is missing or expired") ;;
      guard_py (negb (json_eq_str (obj_get "contract_version" payload JNull) "1") ||
                negb (json_eq_str (obj_get "purpose" payload JNull) LOCAL_API_CONTROLLER_AUTH_PURPOSE) ||
                negb (json_eq_str (obj_get "controller_id" payload JNull) controller_id) ||
                negb (json_eq_int (obj_get "reset_epoch" payload JNull) reset_epoch))
        (auth_rejected "Controller challenge does not match") ;;
      grant ← in_host (active_controller (JStr controller_id));
      match verify_controller_signature load_der ecdsa_verify grant challenge
              LOCAL_API_CONTROLLER_AUTH_PURPOSE reset_epoch (obj_get "signature" payload JNull) with
      | Ok _ => mret (controller_principal grant)
      | Raise (ControllerSignatureError _) => raise (auth_rejected "Controller signature is invalid")
      | Raise e => raise e
      end
  end.

Definition mono_now (p : HB) : Z := or_mono (w_oracle p.2) (w_step p.2).

(** The challenge is taken out before anything about it is checked. *)
Definition after_pop (challenge : string) (p : HB) : HB :=
  (set_controller_challenges
     (dict_del challenge (live_challenges (mono_now p) p.1.(controller_challenges))) p.1,
   put_step (w_step p.2 + 1) p.2).

Lemma authenticate_run payload challenge (p : HB) :
  obj_get "challenge" payload JNull = JStr challenge →
  BootstrapService.authenticate_controller load_der ecdsa_verify (JObj payload) p =
    finish_authentication payload challenge (mono_now p)
      (dict_get challenge (live_challenges (mono_now p) p.1.(controller_challenges))) (after_pop challenge p).
Proof.
  intros H. unfold BootstrapService.authenticate_controller. rewrite H. done.
Qed.

Lemma finish_accepts payload challenge now cid epoch deadline (p : HB) d p' st :
  finish_authentication payload challenge now (Some (cid, epoch, deadline)) p = (Ok d, p') →
  ready (w_store p.2) st →
  ∃ g der signature, d = controller_principal g ∧ active_grant cid st (w_store p.2) = Some g ∧ p' = p ∧
    signature_base64url (JStr g.(public_key)) = Ok der ∧ load_der der = Ok P256 ∧
    signature_base64url (obj_get "signature" payload JNull) = Ok signature ∧
    ecdsa_verify der signature (controller_auth_message g.(controller_id) challenge
      LOCAL_API_CONTROLLER_AUTH_PURPOSE epoch) = true.
Proof.
  intros E Hr. unfold finish_authentication in E. rewrite !bind_guard in E.
  destruct (deadline <=? now)%Z; [done|]. destruct (_ || _); [done|].
  pose proof (in_host_run _ p _ _ (active_controller_run (JStr cid) p.2 st Hr)) as Hh.
  destruct (active_grant cid st (w_store p.2)) as [g|]; [|by rewrite (bind_raise _ _ _ _ _ Hh) in E].
  rewrite (bind_ok _ _ _ _ _ Hh) in E. destruct p as [b w].
  destruct (verify_controller_signature _ _ _ _ _ _ _) as [u|x] eqn:Ev; [|by destruct x].
  destruct (verify_ok _ _ _ _ _ _ _ _ Ev) as (der & sg & H1 & H2 & H3 & H4).
  injection E as <- <-. exists g, der, sg. split_and!; done.
Qed.

Lemma finish_table payload challenge now r (p : HB) :
  (finish_authentication payload challenge now r p).2.1 = p.1.
Proof.
  destruct r as [[[cid epoch] deadline]|]; [|done]. unfold finish_authentication. rewrite !bind_guard.
  do 2 (case_match; [done|]). unfold mbind, M_bind. rewrite (surjective_pairing (in_host _ p)).
  assert ((in_host (active_controller (JStr cid)) p).2.1 = p.1) as Hp.
  { unfold in_host, zoom. by destruct (active_controller _ _). }
  destruct (in_host _ p) as [[g|e] p1]; simpl in *; [|done]. by repeat case_match.
Qed.

Lemma popped challenge (p : HB) t : dict_get challenge (live_challenges t (after_pop challenge p).1.(controller_challenges)) = None.
Proof.
  apply dict_get_None. cbn. intros ([k v] & -> & Hin)%list_elem_of_fmap. cbn in Hin.
  apply list_elem_of_In in Hin. unfold live_challenges, dict_del in Hin. rewrite !filter_In in Hin. cbn [fst] in Hin.
  destruct Hin as [[_ Hk] _]. by rewrite bool_decide_eq_true_2 in Hk.
Qed.

Lemma live_get challenge now l v :
  NoDup l.*1 → dict_get challenge (live_challenges now l) = Some v →
  dict_get challenge l = Some v ∧ (now < v.2)%Z.
Proof.
  intros Hnd Hg. apply dict_get_elem in Hg. apply list_elem_of_In in Hg. unfold live_challenges in Hg.
  apply filter_In in Hg as [Hin Hlt]. split; [apply dict_get_Some; [done|by apply list_elem_of_In]|].
  cbn [fst snd] in Hlt. apply negb_true_iff, Z.leb_gt in Hlt. done.
Qed.

End Lan.

(** ** The Host's proof of itself *)

Lemma b64_char_url n : (n < 64)%N → is_b64url_char (b64_char n) = true.
Proof.
  intros Hn. assert (Forall (λ n, is_b64url_char (b64_char n) = true) (N.of_nat <$> seq 0 64)) as H.
  { apply (bool_decide_unpack _). vm_compute. exact I. }
  rewrite Forall_forall in H. apply H. apply list_elem_of_fmap. exists (N.to_nat n).
  split; [lia|]. apply elem_of_seq. lia.
Qed.

Lemma encode_url_chars b : forallb is_b64url_char (b64url_encode b) = true.
Proof.
  induction b as [b IH] using (induction_ltof1 _ (@length ascii)); unfold ltof in IH.
  destruct b as [|x [|y [|z b]]]; [done| | |]; cbn [b64url_encode forallb];
    pose proof (ascii_bound x); try pose proof (ascii_bound y); try pose proof (ascii_bound z);
    rewrite !b64_char_url by lia; [done|done|]. rewrite IH by (simpl; lia). done.
Qed.

Lemma encode_32 b : length b = 32 →
  is_challenge (string_of_list_ascii (b64url_encode b)) = true ∧
  urlsafe_b64decode (b64url_encode b ++ ["="%char]) = Ok b.
Proof.
  intros Hl. split.
  - unfold is_challenge, str_forallb. rewrite string_length_list, encode_length, Hl,
      list_ascii_of_string_of_list_ascii, encode_url_chars. done.
  - pose proof (urlsafe_b64decode_encode b) as H. unfold pad_of in H. by rewrite Hl in H.
Qed.

(** The bytes that are signed, up to the first value that varies. *)
Lemma object_bytes kv k v l :
  sort_by key_le ((λ m, (m.1, dumps false m.2)) <$> kv) = (k, v) :: l →
  ∃ rest, dumps false (DObj kv) = "{"%char :: json_string false k ++ ":"%char :: v ++ rest.
Proof.
  intros E. cbn [dumps]. rewrite E. rewrite fmap_cons. cbn [fst snd].
  destruct ((λ m : string * list ascii, json_string false m.1 ++ ":"%char :: m.2) <$> l) as [|x r].
  - exists ["}"%char]. cbn [join_comma]. rewrite <- app_assoc. by rewrite <- app_comm_cons.
  - eexists. change (join_comma (?y :: x :: r)) with (y ++ ","%char :: join_comma (x :: r)).
    repeat first [rewrite <- app_assoc | rewrite <- app_comm_cons]. reflexivity.
Qed.

Lemma host_proof_bytes identity c : plain c →
  ∃ rest, dumps false (DObj (host_proof_document identity c)) = msg_0 ++ json_string true c ++ rest.
Proof.
  intros Hc. destruct (object_bytes (host_proof_document identity c) "challenge" (json_string false c)
    [("contract_version", dumps false (DStr "1")); ("host_id", dumps false (DStr identity.(host_id)));
     ("purpose", dumps false (DStr HOST_PROOF_PURPOSE))] eq_refl) as [rest E].
  exists rest. rewrite E, (json_string_mode c Hc). reflexivity.
Qed.

Lemma endpoint_bytes identity tls epoch setup urls :
  ∃ rest, dumps false (DObj (with_urls (unsigned_endpoint identity tls epoch setup) urls)) =
    "{"%char :: json_string true "contract_version" ++ rest.
Proof.
  edestruct (object_bytes (with_urls (unsigned_endpoint identity tls epoch setup) urls)) as [rest E].
  { reflexivity. }
  eexists. rewrite E. reflexivity.
Qed.

(** *** Properties *)

(** LAN authentication state is bounded.  Whatever lines the control
    socket serves, over any store, network and clock, a service never holds
    more than 256 pending challenges, one entry each. *)
Theorem lan_challenges_bounded {S N : Type} `{!BootstrapStateStore S} `{!NetworkProvisioning N}
    sha256_hex load_der ecdsa_verify sign_mapping identity tls settings with_network factory_file
    reported on_product_link fuel pid loads repr lines (w : world S N) :
  let l := (serve sha256_hex load_der ecdsa_verify sign_mapping identity tls settings with_network
              factory_file reported on_product_link fuel pid loads repr lines
              (service_init settings, w)).1.(controller_challenges) in
  length l ≤ 256 ∧ NoDup l.*1.
Proof.
  cbv zeta. set (p := (service_init settings, w)).
  assert (table_ok 256 p.1.(controller_challenges)) as Hp by (split; [simpl; lia|constructor]).
  revert Hp. generalize p. clear p. induction lines as [|l lines IH]; intros p Hp; [done|].
  cbn [serve foldl]. apply IH. unfold handle_client.
  pose proof (triple_request sha256_hex load_der ecdsa_verify sign_mapping identity tls settings with_network
    factory_file reported on_product_link fuel pid loads repr l p Hp) as H.
  destruct (control_request _ _ _ _ _ _ _ _ _ _ _ _ _ _ _ l p) as [[d|e] p1]; [done|]. by destruct e.
Qed.

(** C11: a LAN proof is accepted only once and only for standing authority.  An
    accepted proof names a pending challenge that has not expired, for an
    active Grant whose P-256 key verifies the signature over exactly that
    Controller, challenge, purpose and the epoch of the challenge; the durable
    authority is unchanged.  Accepted or not, a presented challenge is spent:
    every later proof that names it is refused as missing. *)
Theorem lan_authentication_sound load_der ecdsa_verify payload challenge p st :
  mem_inv (w_store p.2) → ready (w_store p.2) st → NoDup p.1.(controller_challenges).*1 →
  obj_get "challenge" payload JNull = JStr challenge →
  let '(r, p') := BootstrapService.authenticate_controller load_der ecdsa_verify (JObj payload) p in
  (∀ d, r = Ok d → w_store p'.2 = w_store p.2 ∧
    ∃ g epoch deadline der signature, d = controller_principal g ∧
    dict_get challenge p.1.(controller_challenges) = Some (g.(controller_id), epoch, deadline) ∧
    (mono_now p < deadline)%Z ∧
    dict_get (st.(reset_epoch), g.(controller_id)) (w_store p.2).(m_controllers) = Some g ∧
    g.(g_revoked_at) = None ∧
    signature_base64url (JStr g.(public_key)) = Ok der ∧ load_der der = Ok P256 ∧
    signature_base64url (obj_get "signature" payload JNull) = Ok signature ∧
    ecdsa_verify der signature (controller_auth_message g.(controller_id) challenge
      LOCAL_API_CONTROLLER_AUTH_PURPOSE epoch) = true) ∧
  (∀ payload', obj_get "challenge" payload' JNull = JStr challenge →
    (BootstrapService.authenticate_controller load_der ecdsa_verify (JObj payload') p').1 =
      Raise (auth_rejected "Controller challenge is missing or expired")).
Proof.
  intros Hi Hr Hnd Hch. rewrite (authenticate_run _ _ _ _ _ Hch).
  set (rec := dict_get challenge (live_challenges (mono_now p) p.1.(controller_challenges))).
  pose proof (finish_table load_der ecdsa_verify payload challenge (mono_now p) rec (after_pop challenge p)) as Ht.
  destruct (finish_authentication _ _ _ _ _ _ _) as [r p'] eqn:E. simpl in Ht. split.
  - intros d ->. destruct rec as [[[cid epoch] deadline]|] eqn:Er; [|done].
    destruct (finish_accepts _ _ _ _ _ _ _ _ _ _ _ st E) as (g & der & sg & Hd & Hg & Hw & H1 & H2 & H3 & H4); [done|].
    destruct (live_get _ _ _ _ Hnd Er) as [Hget Hlt].
    destruct (active_grant_spec _ _ _ _ (inv_controllers _ Hi st (proj2 Hr)) Hg) as (G1 & <- & G2 & G3).
    split; [by rewrite Hw|]. exists g, epoch, deadline, der, sg. split_and!; done.
  - intros payload' Hch'. rewrite (authenticate_run _ _ _ _ _ Hch').
    assert (dict_get challenge (live_challenges (mono_now p') p'.1.(controller_challenges)) = None) as ->; [|done].
    rewrite Ht. apply (popped challenge p).
Qed.

Definition lan_world : bootstrap_service * world MemoryStore InMemoryNetwork :=
  (mkService [("AAAA", ("ectrl-00112233445566778899", 0%Z, 5%Z))] None None "ready",
   mkWorld (run_calls [CIssue "s" "h" "t0" None;
     CClaim "s" "h" (mkGrant "ectrl-00112233445566778899" "AAAA" "f" HOST_ADMIN "n" "ios" 0 "t0" None) "t1"]
     (mem_start "t")).2 (net_init None []) sample_oracle 0).
Definition lan_proof : obj :=
  [("contract_version", JStr "1"); ("purpose", JStr LOCAL_API_CONTROLLER_AUTH_PURPOSE);
   ("controller_id", JStr "ectrl-00112233445566778899"); ("reset_epoch", JInt 0);
   ("challenge", JStr "AAAA"); ("signature", JStr "AAAA")].

Lemma lan_authentication_sound_witness :
  let load_der (_ : list ascii) := Ok P256 in
  let verify (_ _ _ : list ascii) := true in
  let '(r, p') := BootstrapService.authenticate_controller load_der verify (JObj lan_proof) lan_world in
  is_ok r = true ∧
  (∀ payload', obj_get "challenge" payload' JNull = JStr "AAAA" →
    (BootstrapService.authenticate_controller load_der verify (JObj payload') p').1 =
      Raise (auth_rejected "Controller challenge is missing or expired")).
Proof.
  pose proof (lan_authentication_sound (λ _, Ok P256) (λ _ _ _, true) lan_proof "AAAA" lan_world
    (mkBootstrapState 0 CLAIMED UNCONFIGURED "t1")) as H.
  cbv zeta. destruct (BootstrapService.authenticate_controller _ _ _ lan_world) as [r p'] eqn:E.
  split.
  - change (is_ok (r, p').1 = true). rewrite <- E. vm_compute. reflexivity.
  - apply H.
    + apply run_calls_preserve; [repeat constructor|apply mem_start_inv].
    + split; reflexivity.
    + apply NoDup_singleton.
    + reflexivity.
Defined.

(** The Host proves itself to a fresh nonce and signs nothing else.  A
    challenge is answered exactly when it is the canonical base64url of 32
    bytes; the signed bytes determine the challenge, and are never the bytes of
    a commissioning endpoint, so neither signature can stand for the other. *)
Theorem host_proof_exact sign_mapping identity c :
  (∀ d, prove_host sign_mapping identity (JStr c) = Ok d ↔
    ∃ b, length b = 32 ∧ c = string_of_list_ascii (b64url_encode b) ∧
         d = DObj (signed sign_mapping (host_proof_document identity c))) ∧
  (∀ b b' identity',
    dumps false (DObj (host_proof_document identity (string_of_list_ascii (b64url_encode b)))) =
    dumps false (DObj (host_proof_document identity' (string_of_list_ascii (b64url_encode b')))) →
    b64url_encode b = b64url_encode b') ∧
  (∀ b identity' tls epoch setup urls,
    dumps false (DObj (host_proof_document identity (string_of_list_ascii (b64url_encode b)))) ≠
    dumps false (DObj (with_urls (unsigned_endpoint identity' tls epoch setup) urls))).
Proof.
  split_and!.
  - intros d. unfold prove_host. split.
    + destruct (is_challenge c); cbn [negb]; [|done]. destruct (urlsafe_b64decode _) as [b|e]; [|by destruct e].
      destruct (length b =? 32)%nat eqn:El; cbn [negb]; [|done]. case_bool_decide as Ec; cbn [negb]; [|done].
      intros [= <-]. exists b. by apply Nat.eqb_eq in El.
    + intros (b & Hl & -> & ->). destruct (encode_32 b Hl) as [-> Hd]. cbn [negb].
      rewrite list_ascii_of_string_of_list_ascii, Hd, Hl. cbn [Nat.eqb negb]. by rewrite bool_decide_eq_true_2.
  - intros b b' identity' E.
    destruct (host_proof_bytes identity _ (encode_plain b)) as [r1 E1].
    destruct (host_proof_bytes identity' _ (encode_plain b')) as [r2 E2].
    rewrite E1, E2 in E. apply app_inv_head in E.
    apply json_string_plain in E as [E _]; [|apply encode_plain..].
    apply (f_equal list_ascii_of_string) in E. by rewrite !list_ascii_of_string_of_list_ascii in E.
  - intros b identity' tls epoch setup urls E.
    destruct (host_proof_bytes identity _ (encode_plain b)) as [r1 E1].
    destruct (endpoint_bytes identity' tls epoch setup urls) as [r2 E2].
    rewrite E1, E2 in E. apply (f_equal (λ l, nth_error l 3)) in E.
    clear E1 E2. generalize dependent r1. generalize dependent r2. intros r2 r1 E. lazy in E. done.
Qed.
