(* ===== verification/ClaimWindows.v ===== *)
(** * The life of the claim window

    When a Host that starts stands a factory window, what the recovery window
    withdraws and admits, and what follows a claim over the LAN
    ([bootstrap/service.py]), over the in-memory store. *)

From S2P Require Import Prelude Domain StateStore MemoryStore Timestamp Network.
From S2P Require Import Commissioning CommissioningRefinement CommissioningProofs.
From S2P Require Import HostAddresses BootstrapService BootstrapProofs.

Section Windows.
Context (sha256_hex : list ascii → string) (load_der : list ascii → result key_kind)
        (identity : HostIdentity) (settings : BootstrapSettings) (factory_file : result string).
Abbreviation HW := (world MemoryStore InMemoryNetwork).
Abbreviation HB := (bootstrap_service * HW)%type.
Abbreviation sessions := (list (CommissioningSessionMetadata * string)).

Definition wall (w : HW) : Z := or_wall (w_oracle w) (w_step w).
Definition open_row (now : string) (p : CommissioningSessionMetadata * string) : bool := is_open p.1 now.

Lemma mem_latest_run s st : ready s st →
  mem_latest_commissioning_session s = (Ok (fst <$> last s.(m_sessions)), s).
Proof.
  intros Hr. unfold mem_latest_commissioning_session. by rewrite (bind_ok _ _ _ _ _ (mem_require_open_run _ _ Hr)).
Qed.

(** The session list after minting a window for [code]. *)
Definition minted (code : string) (t id : string) (l : sessions) : sessions :=
  revoke_unspent t l ++ [(new_session id t None, secret_hash sha256_hex code)].

Definition mint_world (code : string) (w : HW) : HW :=
  put_store (set_sessions (minted code (timestamp (wall w)) (or_uuid (w_oracle w) (w_step w + 1))
      (w_store w).(m_sessions)) (w_store w)) (put_step (w_step w + 2) w).

Lemma mint_run code (w : HW) st :
  ready (w_store w) st →
  ∃ d, mint_setup_code sha256_hex identity code w = (Ok d, mint_world code w).
Proof.
  intros Hr. eexists. unfold mint_setup_code.
  set (w1 := put_step (w_step w + 1) w). set (w2 := put_step (w_step w1 + 1) w1).
  change (draw or_wall w) with (Ok (wall w), w1).
  erewrite (bind_ok (draw or_wall) _ w (wall w) w1) by done.
  erewrite (bind_ok (draw or_uuid) _ w1 (or_uuid (w_oracle w) (w_step w + 1)) w2) by done.
  pose proof (mem_issue_run (or_uuid (w_oracle w) (w_step w + 1)) (secret_hash sha256_hex code)
    (timestamp (wall w)) None (w_store w2) st Hr) as Hi.
  rewrite (bind_ok _ _ _ _ _ (on_store_run _ _ _ _ Hi)). cbn [mret M_ret].
  unfold mret, M_ret, mint_world, minted. do 2 f_equal. unfold w2, w1. destruct w. cbn.
  by rewrite <- Nat.add_assoc.
Qed.

(** A minted window is the only open one, at every time. *)
Lemma minted_open code t id l now :
  window_open (fst <$> last (minted code t id l)) now = true ∧
  (∀ p, p ∈ minted code t id l → open_row now p = true →
    p = (new_session id t None, secret_hash sha256_hex code)).
Proof.
  unfold minted. rewrite last_snoc. split; [done|]. intros [m h] [H|H]%elem_of_app Ho.
  - unfold open_row in Ho. by rewrite (revoke_unspent_closed _ _ _ _ _ H) in Ho.
  - by apply list_elem_of_singleton in H.
Qed.

(** Whether a Host of these settings stands a window by itself. *)
Definition stands_window (st : BootstrapState) : bool :=
  bool_decide (settings.(claim_window) = ALWAYS_OPEN) || bool_decide (st.(claim_state) = UNCLAIMED).

(** The code a start mints a window for. *)
Definition startup_code (st : BootstrapState) (l : sessions) (now : string) : option string :=
  match read_factory_setup_code factory_file with
  | Ok (Some code) => if stands_window st && negb (window_open (fst <$> last l) now) then Some code else None
  | _ => None
  end.

Lemma factory_window_run now (w : HW) st :
  ready (w_store w) st → is_ok (read_factory_setup_code factory_file) = true →
  open_factory_window sha256_hex identity settings factory_file now w =
    (Ok tt, match startup_code st (w_store w).(m_sessions) now with
            | Some code => mint_world code w
            | None => w
            end).
Proof.
  intros Hr Hok. unfold open_factory_window, startup_code, stands_window, lift.
  destruct (read_factory_setup_code factory_file) as [[code|]|]; [| done|done].
  rewrite bind_mret_lift.
  set (c := if bool_decide _ then _ else _).
  assert (c w = (Ok (negb (bool_decide (claim_window settings = ALWAYS_OPEN) || bool_decide (claim_state st = UNCLAIMED))), w)) as Hc.
  { unfold c. destruct (bool_decide (claim_window settings = _)); [done|].
    by rewrite (bind_ok _ _ _ _ _ (on_store_read _ _ _ (mem_get_state_run _ _ Hr))). }
  rewrite (bind_ok _ _ _ _ _ Hc). destruct (_ || _); cbn [negb andb]; [|done].
  rewrite (bind_ok _ _ _ _ _ (on_store_read _ _ _ (mem_latest_run _ _ Hr))).
  destruct (window_open _ _); cbn [negb]; [done|].
  destruct (mint_run code w st Hr) as [d Hd]. by rewrite (bind_ok _ _ _ _ _ Hd).
Qed.

(** The store a start finds, interrupted operations failed. *)
Definition restarted (t : string) (s : MemoryStore) (st : BootstrapState) : MemoryStore :=
  (if (count_where (λ kv, active_state kv.2.(o_state)) s.(m_operations) =? 0)%nat then id
   else set_state (Some (state_set_network DEGRADED t st)))
    (set_operations (fail_active t "daemon_restarted" s.(m_operations)) s).

Lemma restarted_ready t s st : ready s st →
  ∃ st', ready (restarted t s st) st' ∧ st'.(reset_epoch) = st.(reset_epoch) ∧ st'.(claim_state) = st.(claim_state).
Proof.
  intros Hr. unfold restarted. destruct (_ =? 0)%nat.
  - exists st. done.
  - exists (state_set_network DEGRADED t st). destruct Hr. split_and!; done.
Qed.

Lemma restarted_fields t s st :
  (restarted t s st).(m_sessions) = s.(m_sessions) ∧ (restarted t s st).(m_controllers) = s.(m_controllers) ∧
  (restarted t s st).(m_operations) = fail_active t "daemon_restarted" s.(m_operations).
Proof. unfold restarted. by destruct (_ =? 0)%nat. Qed.

Definition start_time (p : HB) : string := timestamp (wall p.2).
Definition start_world (w : HW) (st : BootstrapState) : HW :=
  put_store (restarted (timestamp (wall w)) (w_store w) st) (put_step (w_step w + 1) w).

Lemma initialize_run (p : HB) st :
  ready (w_store p.2) st → is_ok (read_factory_setup_code factory_file) = true →
  ∃ p', initialize sha256_hex identity settings factory_file p = (Ok tt, p') ∧
    w_store p'.2 = w_store match startup_code st (w_store p.2).(m_sessions) (start_time p) with
                           | Some code => mint_world code (start_world p.2 st)
                           | None => start_world p.2 st
                           end.
Proof.
  intros Hr Hok. destruct p as [b w]. cbn [fst snd] in *.
  destruct (restarted_ready (timestamp (wall w)) _ _ Hr) as (st1 & Hr1 & _ & Hcl).
  pose proof (factory_window_run (timestamp (wall w)) (start_world w st) st1 Hr1 Hok) as Hf.
  assert (startup_code st1 (w_store (start_world w st)).(m_sessions) (timestamp (wall w)) =
          startup_code st (w_store w).(m_sessions) (timestamp (wall w))) as Hc.
  { unfold startup_code, stands_window. rewrite Hcl. cbn [start_world w_store put_store].
    by rewrite (proj1 (restarted_fields _ _ _)). }
  rewrite Hc in Hf. clear Hc. unfold initialize.
  rewrite (bind_ok _ _ _ _ _ (in_host_run _ (b, w) _ _ (now_ts_run w))). cbn [fst].
  change (timestamp (or_wall (w_oracle w) (w_step w))) with (timestamp (wall w)).
  set (w1 := put_step (w_step w + 1) w). change (ready (w_store w1) st) in Hr.
  assert (mem_open (w_store w1) = (Ok tt, w_store w1)) as Ho.
  { unfold mem_open, modify. f_equal. destruct Hr as [H _]. destruct (w_store w1). cbn in *. by subst. }
  rewrite (bind_ok _ _ _ _ _ (in_host_run _ (b, w1) _ _ (on_store_read _ _ _ Ho))).
  assert (mem_initialize (timestamp (wall w)) (w_store w1) = (Ok tt, w_store w1)) as Hi.
  { unfold mem_initialize. rewrite (bind_ok _ _ _ _ _ (mem_require_open_run _ _ Hr)), bind_gets.
    by rewrite (proj2 Hr). }
  rewrite (bind_ok _ _ _ _ _ (in_host_run _ (b, w1) _ _ (on_store_read _ _ _ Hi))).
  rewrite (bind_ok _ _ _ _ _ (in_host_run _ (b, w1) _ _ (on_store_run _ _ _ _ (mem_fail_run _ _ _ Hr)))). cbn [fst].
  rewrite (bind_ok _ _ _ _ _ (in_host_run _ (b, _) _ _ Hf)). cbn [fst].
  eexists. split; [reflexivity|]. cbn [snd]. done.
Qed.
End Windows.

(** *** Properties *)


Definition bench : BootstrapSettings := mkSettings DEVELOPMENT "u" DISABLED 9002 ALWAYS_OPEN.
Definition sample_host : HostIdentity := mkHostIdentity "ehost-0" "pk" "fp".
Definition factory_code : string := "84150627".


(** *** The recovery window *)

Section Recovery.
Context (sha256_hex : list ascii → string) (identity : HostIdentity) (fuel : nat).
Abbreviation HW := (world MemoryStore InMemoryNetwork).

(** The code a reset draws, and the step after the draw. *)
Definition drawn_code (w : HW) : option (string * nat) :=
  generate_setup_code fuel (or_draw (w_oracle w)) (w_step w + 1).

Definition recovery_seed (ttl : option Z) (code id : string) (w : HW) : CommissioningSessionSeed :=
  mkSeed id (secret_hash sha256_hex code) (Some (timestamp (plus_seconds (wall w) (recovery_ttl ttl)))).

Definition ttl_ok (ttl : option Z) : bool := (60 <=? recovery_ttl ttl)%Z && (recovery_ttl ttl <=? 86400)%Z.

Lemma recovery_run ttl (w : HW) st :
  ready (w_store w) st →
  let '(r, w') := open_controller_recovery_window sha256_hex identity fuel ttl w in
  w_net w' = w_net w ∧
  match r with
  | Raise _ => w_store w' = w_store w ∧ (ttl_ok ttl = false ∨ drawn_code w = None)
  | Ok _ => ∃ code j, drawn_code w = Some (code, j) ∧ ttl_ok ttl = true ∧
      w_store w' = (mem_reset_authority st.(network_state) (timestamp (wall w))
        (Some (recovery_seed ttl code (or_uuid (w_oracle w) j) w)) (w_store w)).2
  end.
Proof.
  intros Hr. unfold open_controller_recovery_window. cbv zeta. rewrite bind_guard.
  change ((60 <=? recovery_ttl ttl)%Z && (recovery_ttl ttl <=? 86400)%Z) with (ttl_ok ttl).
  destruct (ttl_ok ttl); cbn [negb]; [|split; [done|split; [done|by left]]].
  rewrite (bind_ok _ _ _ _ _ (on_store_read _ _ _ (mem_get_state_run _ _ Hr))).
  rewrite (bind_ok _ _ _ _ _ (on_store_read _ _ _ (mem_list_run _ _ Hr))).
  set (w1 := put_step (w_step w + 1) w).
  erewrite (bind_ok (draw or_wall) _ w (wall w) w1) by done.
  unfold draw_setup_code at 1. unfold mbind at 1, M_bind at 1.
  change (generate_setup_code fuel (or_draw (w_oracle w1)) (w_step w1)) with (drawn_code w).
  destruct (drawn_code w) as [[code j]|] eqn:Ed; [|split; [done|split; [done|by right]]].
  set (w2 := put_step j w1). set (w3 := put_step (j + 1) w2).
  erewrite (bind_ok (draw or_uuid) _ w2 (or_uuid (w_oracle w) j) w3) by done.
  assert (ready (w_store w3) st) as Hr3 by done.
  pose proof (mem_reset_run st.(network_state) (timestamp (wall w))
    (Some (recovery_seed ttl code (or_uuid (w_oracle w) j) w)) _ _ Hr3) as Hreset. cbv zeta in Hreset.
  unfold recovery_seed in Hreset.
  rewrite (bind_ok _ _ _ _ _ (on_store_run _ _ _ _ Hreset)). cbn [mret M_ret].
  split; [done|]. exists code, j. split_and!; [done|done|]. unfold recovery_seed.
  change (w_store w3) with (w_store w) in Hreset. by rewrite Hreset.
Qed.

Lemma authorize_code_run sid c (w : HW) st :
  ready (w_store w) st →
  authorize sha256_hex (JStr sid) (JStr c) w =
    if bool_decide (sid = "") || negb (is_usable_setup_code c) then (Raise commissioning_denied, w)
    else
      let '(r, l) := authorize_loop sid (secret_hash sha256_hex c) (timestamp (wall w)) (w_store w).(m_sessions) in
      (match r with
       | Some _ => Ok (mkAuthorization sid (secret_hash sha256_hex c))
       | None => Raise commissioning_denied
       end, put_store (set_sessions l (w_store w)) (put_step (w_step w + 1) w)).
Proof.
  intros Hr. unfold authorize. rewrite !bind_guard. destruct (bool_decide (sid = "")); [done|].
  destruct (negb _); [done|]. cbn [orb]. rewrite (bind_ok _ _ _ _ _ (now_ts_run w)).
  set (w1 := put_step (w_step w + 1) w).
  destruct (authorize_loop _ _ _ _) as [r l] eqn:E.
  assert (ready (w_store w1) st) as Hr1 by done.
  pose proof (on_store_run _ _ _ _ (mem_authorize_run _ _ _ (w_store w1) _ _ _ Hr1 E)) as Ha.
  unfold on_conflict, catch. unfold mbind at 1, M_bind at 1. change (or_wall (w_oracle w) (w_step w)) with (wall w).
  destruct r as [m|].
  - by rewrite (bind_ok _ _ _ _ _ Ha).
  - by rewrite (bind_raise _ _ _ _ _ Ha).
Qed.

(** After a reset with a seed, exactly the seed's code opens the Host. *)
Lemma reset_seed_authorize ns t ttl code id (w0 w : HW) st sid c :
  ready (w_store w0) st →
  w_store w = (mem_reset_authority ns t (Some (recovery_seed ttl code id w0)) (w_store w0)).2 →
  (∀ a, (authorize sha256_hex (JStr sid) (JStr c) w).1 = Ok a →
    sid = id ∧ secret_hash sha256_hex c = secret_hash sha256_hex code ∧
    str_ltb (timestamp (wall w)) (timestamp (plus_seconds (wall w0) (recovery_ttl ttl))) = true) ∧
  (is_usable_setup_code code = true → id ≠ "" → Forall (λ p, p.1.(session_id) ≠ id) (w_store w0).(m_sessions) →
    str_ltb (timestamp (wall w)) (timestamp (plus_seconds (wall w0) (recovery_ttl ttl))) = true →
    is_ok (authorize sha256_hex (JStr id) (JStr code) w).1 = true).
Proof.
  intros Hr Hw. rewrite (mem_reset_run _ _ _ _ _ Hr) in Hw. cbv zeta in Hw. cbn [snd] in Hw.
  assert (ready (w_store w) (mkBootstrapState (st.(reset_epoch) + 1) UNCLAIMED ns t)) as Hr1 by by rewrite Hw.
  split.
  - intros a. rewrite (authorize_code_run _ _ _ _ Hr1). destruct (_ || _); [done|].
    destruct (authorize_loop _ _ _ _) as [r l] eqn:E. cbn [fst].
    pose proof (mem_authorize_run _ _ _ _ _ _ _ Hr1 E) as Ha. destruct r as [m|]; [|done]. intros _.
    destruct (reset_only_seed ns t (Some (recovery_seed ttl code id w0)) (w_store w0) st (w_store w)
      sid _ _ _ _ Hw Ha) as (sd & [= <-] & -> & -> & He).
    split_and!; [done|done|]. by apply He.
  - intros Hu Hid Hfresh Hlt. rewrite (authorize_code_run _ _ _ _ Hr1), Hu, bool_decide_eq_false_2 by done.
    cbn [orb negb].
    pose proof (authorize_loop_at id (secret_hash sha256_hex code) (timestamp (wall w))
      (revoke_unspent t (w_store w0).(m_sessions))
      (new_session id t (Some (timestamp (plus_seconds (wall w0) (recovery_ttl ttl))))) (secret_hash sha256_hex code) [])
      as Hat.
    rewrite bool_decide_eq_true_2 in Hat by done.
    replace (m_sessions (w_store w)) with (revoke_unspent t (m_sessions (w_store w0)) ++
      [(new_session id t (Some (timestamp (plus_seconds (wall w0) (recovery_ttl ttl)))), secret_hash sha256_hex code)])
      by by rewrite Hw.
    rewrite Hat; [done| |done|].
    + rewrite Forall_forall in Hfresh |- *. unfold revoke_unspent.
      intros x ([m h] & -> & Hin)%list_elem_of_fmap. specialize (Hfresh _ Hin). cbn [fst] in *. by destruct (unspent m).
    + apply is_open_spec. cbn. split_and!; [done|done|]. by intros e [= <-].
Qed.
End Recovery.

(** C12: a recovery window is the only way back in.  The operation succeeds
    exactly when its bounded lifetime is within a minute and a day and a usable
    code was drawn; a refusal changes nothing.  After it no Controller holds
    authority, a Setup code is accepted only if it hashes as the one drawn,
    names the new session and comes before the deadline; and the drawn code is
    accepted there until then. *)
Theorem recovery_window_only_way_in sha256_hex identity fuel ttl w st :
  mem_inv (w_store w) → ready (w_store w) st →
  let '(r, w') := open_controller_recovery_window sha256_hex identity fuel ttl w in
  (is_ok r = true ↔ ttl_ok ttl = true ∧ is_Some (drawn_code fuel w)) ∧
  (is_ok r = false → w_store w' = w_store w) ∧
  (is_ok r = true → ∃ code id, is_usable_setup_code code = true ∧
    let expires := timestamp (plus_seconds (wall w) (recovery_ttl ttl)) in
    (∀ v o n, (active_controller v (mkWorld (w_store w') (w_net w') o n)).1 = Raise not_authorized) ∧
    (∀ sid c o n a, let w2 := mkWorld (w_store w') (w_net w') o n in
      (authorize sha256_hex (JStr sid) (JStr c) w2).1 = Ok a →
      sid = id ∧ secret_hash sha256_hex c = secret_hash sha256_hex code ∧
      str_ltb (timestamp (wall w2)) expires = true) ∧
    (Forall (λ p, p.1.(session_id) ≠ id) (w_store w).(m_sessions) → id ≠ "" →
     ∀ o n, let w2 := mkWorld (w_store w') (w_net w') o n in
      str_ltb (timestamp (wall w2)) expires = true →
      is_ok (authorize sha256_hex (JStr id) (JStr code) w2).1 = true)).
Proof.
  intros Hi Hr. pose proof (recovery_run sha256_hex identity fuel ttl w st Hr) as Hrun.
  destruct (open_controller_recovery_window _ _ _ _ _) as [[d|e] w']; destruct Hrun as [Hn Hrun]; cbn [is_ok].
  2: { destruct Hrun as [Hs Hbad]. split_and!; [|done|done]. split; [done|]. intros [H1 [x H2]].
       destruct Hbad; congruence. }
  destruct Hrun as (code & j & Hd & Hok & Hw). split_and!; [by rewrite Hok, Hd|done|]. intros _.
  exists code, (or_uuid (w_oracle w) j). split; [by eapply generate_usable|]. cbv zeta.
  pose proof (reset_authority_withdraws st.(network_state) (timestamp (wall w))
    (Some (recovery_seed sha256_hex ttl code (or_uuid (w_oracle w) j) w)) _ _ Hi Hr) as Hreset.
  destruct (mem_reset_authority _ _ _ _) as [r s'] eqn:Er. cbn [snd] in Hw. destruct Hreset as (-> & Hget & _).
  split_and!.
  - intros v o n. set (w2 := mkWorld _ _ o n).
    assert (ready (w_store w2) (mkBootstrapState (st.(reset_epoch) + 1) UNCLAIMED st.(network_state) (timestamp (wall w)))) as Hr2.
    { rewrite (mem_reset_run _ _ _ _ _ Hr) in Er. cbv zeta in Er. injection Er as <-. cbn. by rewrite Hw. }
    rewrite (active_controller_run v w2 _ Hr2). destruct v as [| | | | | |cid| |]; try done. unfold active_grant.
    specialize (Hget cid). rewrite <- Hw in Hget.
    rewrite (mem_get_controller_run cid (w_store w') _ Hr2) in Hget. injection Hget as Hget.
    change (w_store w2) with (w_store w').
    cbn [reset_epoch] in Hget |- *. by rewrite Hget.
  - intros sid c o n a. eapply (reset_seed_authorize _ st.(network_state) (timestamp (wall w))); [done|].
    cbn [w_store]. by rewrite Hw, Er.
  - intros Hf Hid o n Hlt.
    refine (proj2 (reset_seed_authorize _ st.(network_state) (timestamp (wall w)) ttl code _ w _ st "" "" Hr _) _ Hid Hf Hlt).
    + cbn [w_store]. by rewrite Hw, Er.
    + by eapply generate_usable.
Qed.

Definition drawing_world : world MemoryStore InMemoryNetwork :=
  mkWorld (w_store sample_world) (w_net sample_world)
    (mkOracle (λ i, Z.of_nat i * 1000000)%Z (λ i, Z.of_nat i * 1000000)%Z (λ _, "u"%string)
       (λ i, N.of_nat i) (λ _, [])) 0.

Lemma recovery_window_only_way_in_witness :
  let '(r, w') := open_controller_recovery_window string_of_list_ascii sample_host 13 (Some 600%Z) drawing_world in
  is_ok r = true ∧ (∀ v o n, (active_controller v (mkWorld (w_store w') (w_net w') o n)).1 = Raise not_authorized).
Proof.
  pose proof (recovery_window_only_way_in string_of_list_ascii sample_host 13 (Some 600%Z) drawing_world
    (mkBootstrapState 0 CLAIMED UNCONFIGURED "t1")) as H.
  assert (is_ok (open_controller_recovery_window string_of_list_ascii sample_host 13 (Some 600%Z) drawing_world).1 = true) as Hok
    by (vm_compute; reflexivity).
  destruct (open_controller_recovery_window _ _ _ _ drawing_world) as [r w'].
  split; [exact Hok|]. destruct H as (_ & _ & H).
  - apply run_calls_preserve; [repeat constructor|apply mem_start_inv].
  - split; reflexivity.
  - destruct (H Hok) as (code & id & _ & Hall & _). exact Hall.
Defined.

(** *** Claims over the LAN *)

Section LanClaim.
Context (sha256_hex : list ascii → string) (load_der : list ascii → result key_kind)
        (identity : HostIdentity) (settings : BootstrapSettings) (factory_file : result string).
Abbreviation HW := (world MemoryStore InMemoryNetwork).

Lemma count_unspent_one (l : list (CommissioningSessionMetadata * string)) p q :
  count_where p_unspent l ≤ 1 → p ∈ l → q ∈ l → p_unspent p = true → p_unspent q = true → p = q.
Proof.
  intros Hc Hp Hq Up Uq. apply list_elem_of_split in Hp as (l1 & l2 & ->).
  unfold count_where in Hc. rewrite List.filter_app, length_app in Hc. cbn [List.filter] in Hc. rewrite Up in Hc.
  cbn [length] in Hc.
  assert (∀ l', q ∈ l' → 1 ≤ length (List.filter p_unspent l')) as Hpos.
  { intros l' Hin. apply list_elem_of_In in Hin. destruct (List.filter p_unspent l') as [|x r] eqn:E; [|simpl; lia].
    exfalso. assert (In q (List.filter p_unspent l')) as Hf by (by apply filter_In). by rewrite E in Hf. }
  apply elem_of_app in Hq as [Hq|[->|Hq]%elem_of_cons]; [|done|].
  - specialize (Hpos _ Hq). lia.
  - specialize (Hpos _ Hq). lia.
Qed.

(** Consuming the open session leaves none open. *)
Lemma consume_closes sid now l m h t :
  count_where p_unspent l ≤ 1 → (m, h) ∈ l → m.(session_id) = sid → is_open m t = true →
  Forall (λ p, unspent p.1 = false) (consume_row sid now <$> l).
Proof.
  intros Hc Hin Hid Ho. apply Forall_fmap, Forall_forall. intros q Hq. cbn [compose].
  unfold consume_row. cbn [fst]. case_bool_decide as Hs; [apply unspent_consumed|].
  apply not_true_iff_false. intros Hu.
  assert ((m, h) = q) as <-; [|done].
  eapply count_unspent_one; eauto. unfold p_unspent. by eapply is_open_unspent.
Qed.

(** The callback after a claim, when nothing is open. *)
Lemma reopen_run (w : HW) st :
  ready (w_store w) st → Forall (λ p, unspent p.1 = false) (w_store w).(m_sessions) →
  let '(r, w') := reopen_standing_claim_window sha256_hex identity settings factory_file w in
  match (if bool_decide (settings.(claim_window) = ALWAYS_OPEN)
         then read_factory_setup_code factory_file else Ok None) with
  | Ok (Some code) => ∃ t id, w_store w' = set_sessions (minted sha256_hex code t id (w_store w).(m_sessions)) (w_store w)
  | _ => w_store w' = w_store w
  end.
Proof.
  intros Hr Hcl. unfold reopen_standing_claim_window.
  destruct (bool_decide (claim_window settings = ALWAYS_OPEN)); cbn [negb]; [|done].
  rewrite (bind_ok _ _ _ _ _ (now_ts_run w)). set (w1 := put_step (w_step w + 1) w).
  assert (ready (w_store w1) st) as Hr1 by done.
  rewrite (bind_ok _ _ _ _ _ (on_store_read _ _ _ (mem_latest_run _ _ Hr1))).
  assert (window_open (fst <$> last (w_store w1).(m_sessions)) (timestamp (or_wall (w_oracle w) (w_step w))) = false) as ->.
  { change (w_store w1) with (w_store w). destruct (last (m_sessions (w_store w))) as [p|] eqn:E; [|done]. cbn.
    apply last_Some_elem_of in E. rewrite Forall_forall in Hcl. apply not_true_iff_false. intros Ho%is_open_unspent.
    by rewrite (Hcl _ E) in Ho. }
  unfold lift. destruct (read_factory_setup_code factory_file) as [[code|]|e]; [|done|done].
  rewrite bind_mret_lift. destruct (mint_run sha256_hex identity code w1 st Hr1) as [d Hd].
  rewrite (bind_ok _ _ _ _ _ Hd). cbn. eauto.
Qed.

Lemma claim_sessions sid hash g now s st g' s1 :
  ready s st → s.(m_session_controller_ids) !! sid = None →
  mem_claim_controller sid hash g now s = (Ok g', s1) →
  ∃ m, (m, hash) ∈ s.(m_sessions) ∧ m.(session_id) = sid ∧ is_open m now = true ∧
    s1.(m_sessions) = consume_row sid now <$> s.(m_sessions).
Proof.
  intros Hr Hids. rewrite (mem_claim_run _ _ _ _ _ _ Hr), Hids.
  destruct (authorize_loop sid hash now (m_sessions s)) as [[m|] l'] eqn:E; [|done].
  destruct (authorize_loop_some _ _ _ _ _ _ E) as (_ & Hin & Hid & Ho). intros Hc. exists m. split_and!; try done.
  revert Hc. unfold claim_fresh. destruct (negb _); [done|].
  destruct (mem_grant_in_epoch g st.(reset_epoch) s).1 as [[h|]|e]; [| |done]; intros [= <- <-]; by rewrite ?mem_consume_run.
Qed.

(** The code of the window a claim leaves standing, if any. *)
Definition standing_code : option string :=
  if bool_decide (settings.(claim_window) = ALWAYS_OPEN) then
    match read_factory_setup_code factory_file with Ok o => o | Raise _ => None end
  else None.

Lemma claim_controller_run sid hash payload (w : HW) st d w' :
  mem_inv (w_store w) → ready (w_store w) st → (w_store w).(m_session_controller_ids) !! sid = None →
  claim_controller sha256_hex load_der (Some (reopen_standing_claim_window sha256_hex identity settings factory_file))
    (mkAuthorization sid hash) payload w = (Ok d, w') →
  ∃ g s1, dict_get (st.(reset_epoch), g.(controller_id)) s1.(m_controllers) = Some g ∧ g.(g_revoked_at) = None ∧
    Forall (λ p, unspent p.1 = false) s1.(m_sessions) ∧
    match standing_code with
    | Some code => ∃ t id, w_store w' = set_sessions (minted sha256_hex code t id s1.(m_sessions)) s1
    | None => w_store w' = s1
    end.
Proof.
  intros Hi Hr Hids. unfold claim_controller. cbn [a_session_id a_secret_hash].
  rewrite (bind_ok _ _ _ _ _ (on_store_read _ _ _ (mem_get_state_run _ _ Hr))).
  rewrite (bind_ok _ _ _ _ _ (now_ts_run w)). set (w1 := put_step (w_step w + 1) w).
  set (t := timestamp _). unfold lift at 1.
  destruct (controller_grant sha256_hex load_der payload st.(reset_epoch) t) as [g|e] eqn:Eg; [|done].
  rewrite bind_mret_lift. destruct (controller_grant_spec _ _ _ _ _ _ Eg) as (_ & Hrev & _).
  change (on_store (store_claim_controller sid hash g t)) with (@on_store _ InMemoryNetwork _ (mem_claim_controller sid hash g t)).
  pose proof (on_store_run (mem_claim_controller sid hash g t) w1) as Hcatch. change (w_store w1) with (w_store w) in Hcatch.
  destruct (mem_claim_controller sid hash g t (w_store w)) as [[g'|e] s1] eqn:Ec; specialize (Hcatch _ _ eq_refl).
  2: { unfold mbind at 1, M_bind at 1, catch at 1. rewrite Hcatch. by destruct (claim_error e). }
  erewrite (bind_ok (catch _ _)) by (unfold catch; rewrite Hcatch; reflexivity).
  destruct (claim_first_spec _ _ _ _ _ _ _ _ Hi Hr Hrev Hids Ec) as ((st1 & Hr1 & He) & _ & Hget & Hrev' & _).
  destruct (claim_sessions _ _ _ _ _ _ _ _ Hr Hids Ec) as (m & Hin & Hid & Ho & Hss).
  assert (Forall (λ p, unspent p.1 = false) s1.(m_sessions)) as Hcl.
  { rewrite Hss. eapply consume_closes; [apply (inv_window _ Hi)|exact Hin|exact Hid|exact Ho]. }
  set (w2 := put_store s1 w1).
  pose proof (reopen_run w2 st1 Hr1 Hcl) as Hre.
  destruct (reopen_standing_claim_window _ _ _ _ w2) as [x w3] eqn:Ereopen.
  erewrite (bind_ok (catch _ _) _ w2 tt w3) by (unfold catch; rewrite Ereopen; by destruct x as [[]|]).
  intros Hd. exists g', s1. split_and!; [done|done|done|].
  assert (∃ st3, ready (w_store w3) st3) as [st3 Hr3].
  { destruct (if bool_decide _ then _ else _) as [[code|]|].
    - destruct Hre as (? & ? & ->). by exists st1.
    - rewrite Hre. by exists st1.
    - rewrite Hre. by exists st1. }
  rewrite (bind_ok _ _ _ _ _ (on_store_read _ _ _ (mem_get_state_run _ _ Hr3))) in Hd.
  injection Hd as _ <-.
  unfold standing_code. destruct (bool_decide _); [|exact Hre]. by destruct (read_factory_setup_code factory_file) as [[]|].
Qed.
End LanClaim.

(** What a claim over the LAN leaves open.  A claim that succeeds through
    a fresh session records an active Grant and spends every window: on a Host
    of the on-demand policy, or without a usable factory code, no session of
    the Host accepts a code at any time afterwards.  On an always-open Host
    with a factory code exactly one window is open again, for that code and
    without a deadline. *)
Theorem lan_claim_window sha256_hex load_der identity settings factory_file sid code controller (w : world MemoryStore InMemoryNetwork) st d w' :
  mem_inv (w_store w) → ready (w_store w) st → (w_store w).(m_session_controller_ids) !! sid = None →
  claim_lan_controller sha256_hex load_der identity settings true factory_file
    (JStr sid) (JStr code) controller w = (Ok d, w') →
  let s' := w_store w' in
  (∃ g, dict_get (st.(reset_epoch), g.(controller_id)) s'.(m_controllers) = Some g ∧ g.(g_revoked_at) = None) ∧
  match standing_code settings factory_file with
  | None => ∀ m h now, (m, h) ∈ s'.(m_sessions) → is_open m now = false
  | Some factory =>
      (∀ now, window_open (fst <$> last s'.(m_sessions)) now = true) ∧
      (∀ m h now, (m, h) ∈ s'.(m_sessions) → is_open m now = true →
        h = secret_hash sha256_hex factory ∧ m.(s_expires_at) = None)
  end.
Proof.
  intros Hi Hr Hids. unfold claim_lan_controller. rewrite bind_guard. cbn [negb].
  pose proof (authorize_code_run sha256_hex sid code w st Hr) as Ha.
  destruct (_ || _); [by rewrite (bind_raise _ _ _ _ _ Ha)|].
  destruct (authorize_loop _ _ _ _) as [[m|] l] eqn:E; [|by rewrite (bind_raise _ _ _ _ _ Ha)].
  rewrite (bind_ok _ _ _ _ _ Ha). destruct (authorize_loop_some _ _ _ _ _ _ E) as (-> & _).
  set (w1 := put_store _ _). assert (w_store w1 = w_store w) as Ew by by (cbn; destruct (w_store w)).
  intros Hc. apply bind_ok_inv in Hc as (d0 & w2 & Hc & Hd). injection Hd as _ <-.
  destruct (claim_controller_run sha256_hex load_der identity settings factory_file sid
    (secret_hash sha256_hex code) controller w1 st d0 w2) as (g & s1 & Hg & Hrev & Hcl & Hs); [by rewrite Ew..|done|].
  assert ((w_store w2).(m_controllers) = s1.(m_controllers)) as Ec.
  { destruct (standing_code _ _); [|by rewrite Hs]. destruct Hs as (? & ? & ->). done. }
  cbv zeta. split; [exists g; by rewrite Ec|]. destruct (standing_code _ _) as [factory|].
  - destruct Hs as (t & id & ->). cbn [m_sessions set_sessions]. split.
    + intros now. apply minted_open.
    + intros m0 h now Hin Ho. destruct (minted_open sha256_hex factory t id (m_sessions s1) now) as [_ Honly].
      specialize (Honly (m0, h) Hin Ho). by injection Honly as -> ->.
  - rewrite Hs. intros m0 h now Hin. rewrite Forall_forall in Hcl. specialize (Hcl _ Hin). cbn in Hcl.
    apply not_true_iff_false. intros Ho%is_open_unspent. congruence.
Qed.

Definition claimable : world MemoryStore InMemoryNetwork :=
  mkWorld (run_calls [CIssue "s" "84150627" "t0" None] (mem_start "t")).2 (net_init None []) sample_oracle 0.
Definition claiming_phone : obj :=
  [("public_key", JStr "AAAA"); ("display_name", JStr "Phone"); ("platform", JStr "ios")].

Lemma lan_claim_window_witness :
  let claim settings := claim_lan_controller string_of_list_ascii (λ _, Ok P256) sample_host settings true
    (Ok factory_code) (JStr "s") (JStr factory_code) claiming_phone claimable in
  let on_demand := mkSettings DEVELOPMENT "u" DISABLED 9002 ON_DEMAND in
  is_ok (claim bench).1 = true ∧ is_ok (claim on_demand).1 = true ∧
  (∀ now, window_open (fst <$> last (w_store (claim bench).2).(m_sessions)) now = true) ∧
  (∀ m h now, (m, h) ∈ (w_store (claim on_demand).2).(m_sessions) → is_open m now = false).
Proof.
  pose proof (λ settings, lan_claim_window string_of_list_ascii (λ _, Ok P256) sample_host settings
    (Ok factory_code) "s" factory_code claiming_phone claimable (mkBootstrapState 0 UNCLAIMED UNCONFIGURED "t")) as H.
  cbv zeta. set (on_demand := mkSettings DEVELOPMENT "u" DISABLED 9002 ON_DEMAND).
  split; [vm_compute; reflexivity|]. split; [vm_compute; reflexivity|].
  assert (mem_inv (w_store claimable)) as Hi by (apply run_calls_preserve; [repeat constructor|apply mem_start_inv]).
  assert (ready (w_store claimable) (mkBootstrapState 0 UNCLAIMED UNCONFIGURED "t")) as Hr by (split; reflexivity).
  split.
  - assert (is_ok (claim_lan_controller string_of_list_ascii (λ _, Ok P256) sample_host bench true
      (Ok factory_code) (JStr "s") (JStr factory_code) claiming_phone claimable).1 = true) as Hok by (vm_compute; reflexivity).
    specialize (H bench). destruct (claim_lan_controller _ _ _ bench _ _ _ _ _ _) as [[d|] w']; [|done].
    destruct (H d w' Hi Hr eq_refl eq_refl) as [_ Hst]. exact (proj1 Hst).
  - assert (is_ok (claim_lan_controller string_of_list_ascii (λ _, Ok P256) sample_host on_demand true
      (Ok factory_code) (JStr "s") (JStr factory_code) claiming_phone claimable).1 = true) as Hok by (vm_compute; reflexivity).
    specialize (H on_demand). destruct (claim_lan_controller _ _ _ on_demand _ _ _ _ _ _) as [[d|] w']; [|done].
    destruct (H d w' Hi Hr eq_refl eq_refl) as [_ Hst]. exact Hst.
Defined.
