(* ===== verification/Lifecycle.v ===== *)
(** * The lifecycle workflow's wire and its gate

    [lifecycle_workflow/protocol.py], [lifecycle_workflow/peercred.py] and the
    connection handler of [lifecycle_workflow/daemon.py]: length-prefixed
    frames, the kernel's peer credential, the identity of a removal intent,
    and the check of a delegation before the workflow runs.  The SDK's
    [DeviceRef] and authorization context are not code of the repository: a
    reference is any type of class [DeviceReference], and a context is the
    record of what the code reads of it. *)

From S2P Require Import Prelude Encoding Json.

(** ** Frames *)

Definition MAX_FRAME_BYTES : N := 256 * 1024.
Definition HEADER_SIZE : nat := 4.

(** [struct.Struct("!I")] *)
Definition pack_u32 (n : N) : bytes :=
  [ascii_of_N (n / 2 ^ 24 mod 256); ascii_of_N (n / 2 ^ 16 mod 256);
   ascii_of_N (n / 2 ^ 8 mod 256); ascii_of_N (n mod 256)]%N.
Definition unpack_u32 (l : bytes) : N :=
  fold_left (λ a c, a * 256 + N_of_ascii c)%N l 0%N.

Definition frame_size_invalid : exn := ValueError "workflow frame size is invalid".

(** [encode_frame], over the bytes of [model_dump_json]. *)
Definition encode_frame (body : bytes) : result bytes :=
  if bool_decide (body = []) || (MAX_FRAME_BYTES <? N.of_nat (length body))%N
  then Raise frame_size_invalid
  else Ok (pack_u32 (N.of_nat (length body)) ++ body).

(** [reader.readexactly(n)] on the bytes the peer has sent before it closes. *)
Definition readexactly (n : nat) : M bytes bytes := λ s,
  if (length s <? n)%nat then (Raise IncompleteReadError, []) else (Ok (take n s), drop n s).

Section Frames.
(** [json.loads] of the body. *)
Context (loads : bytes → result json).

Definition read_frame : M bytes obj :=
  header ← readexactly HEADER_SIZE;
  let size := unpack_u32 header in
  guard_py (negb ((0 <? size)%N && (size <=? MAX_FRAME_BYTES)%N)) frame_size_invalid ;;
  body ← readexactly (N.to_nat size);
  value ← lift (match loads body with
                | Raise (JSONDecodeError _) => Raise (ValueError "workflow frame is not valid JSON")
                | r => r
                end);
  match value with
  | JObj o => mret o
  | _ => raise (ValueError "workflow frame must contain an object")
  end.
End Frames.

(** ** Peer credentials *)

Record UnixPeerCredential := mkPeer { peer_pid : Z; peer_uid : Z; peer_gid : Z }.
Record AuthenticatedWorkload := mkWorkload { principal_id : string; credential : UnixPeerCredential }.

(** A native [int] of the little-endian hosts the daemon runs on. *)
Definition unpack_i32 (l : bytes) : Z :=
  let n := Z.of_N (fold_right (λ c a, N_of_ascii c + 256 * a)%N 0%N l) in
  (if n <? 2 ^ 31 then n else n - 2 ^ 32)%Z.

(** [LinuxSoPeerCredentialAdapter.read], from what [getsockopt] answers. *)
Definition linux_peer_credential (raw : option bytes) : result UnixPeerCredential :=
  match raw with
  | None => Raise (RuntimeError "Linux SO_PEERCRED is unavailable")
  | Some raw =>
      if negb (length raw =? 12)%nat then
        Raise (RuntimeError "Linux SO_PEERCRED returned an invalid value")
      else
        let pid := unpack_i32 (take 4 raw) in
        let uid := unpack_i32 (take 4 (drop 4 raw)) in
        let gid := unpack_i32 (drop 8 raw) in
        if ((pid <=? 0) || (uid <? 0) || (gid <? 0))%Z then
          Raise (RuntimeError "Linux SO_PEERCRED returned invalid credentials")
        else Ok (mkPeer pid uid gid)
  end.

(** [ExactUidWorkloadAuthorizer.authorize] *)
Definition authorize_peer (expected_uid : Z) (principal : string) (c : UnixPeerCredential)
    : result AuthenticatedWorkload :=
  if negb (c.(peer_uid) =? expected_uid)%Z then Raise (PermissionError "Unix peer UID is not authorized")
  else Ok (mkWorkload principal c).

(** ** Identities *)

(** What the code reads of the SDK's [DeviceRef]. *)
Class DeviceReference (D : Type) := {
  dref_eq_dec :: EqDecision D;
  device_instance_id : D → string;
  owner_domain_id : D → string;
  owner_domain_generation : D → Z;
  claim_generation : D → Z;
  trust_epoch : D → Z }.

Section Identity.
(** [hashlib.sha1], twenty bytes. *)
Context (sha1 : bytes → bytes).

Definition hex_bytes (l : bytes) : list ascii := l ≫= λ c, hex_pad 2 (N_of_ascii c).

(** [uuid5(namespace, name).hex]: sixteen bytes of the digest with the version
    and the variant set. *)
Definition uuid5_hex (namespace : bytes) (name : string) : list ascii :=
  let d := take 16 (sha1 (namespace ++ list_ascii_of_string name)) in
  let set i f := alter (λ c, ascii_of_N (f (N_of_ascii c))) i in
  hex_bytes (set 8 (λ b, N.lor (N.land b 63) 128) (set 6 (λ b, N.lor (N.land b 15) 80) d)).

(** 2c33cc48-d0ac-5f51-a685-b3d299aeb5cd *)
Definition INTENT_NAMESPACE : bytes :=
  ascii_of_N <$> [44; 51; 204; 72; 208; 172; 95; 81; 166; 133; 179; 210; 153; 174; 181; 205]%N.

Definition removal_intent_id (ingress_request_id owner_domain_id : string) : string :=
  "removal-intent-" ++ string_of_list_ascii (uuid5_hex INTENT_NAMESPACE
    ("eidolon-removal-intent-v1:" ++ owner_domain_id ++ ":" ++ ingress_request_id)).
End Identity.

(** ** The call *)

Record ControllerDeviceRemovalRequest := mkRemovalRequest {
  rq_request_id : string; rq_owner_id : string; rq_controller_id : string;
  rq_device_id : string; rq_reason : string }.

(** What the code reads of the SDK's [OwnerAuthorizationContext]. *)
Record OwnerAuthorizationContext (D : Type) := mkOwnerContext {
  oc_workload_principal_id : string; oc_audience : string; oc_scopes : list string;
  oc_actor_id : string; oc_actor_type : string; oc_owner_domain_id : string;
  oc_intent_id : string; oc_target : D; oc_issued_at : Z; oc_expires_at : Z }.
Arguments mkOwnerContext {D}.
Arguments oc_workload_principal_id {D}.
Arguments oc_audience {D}.
Arguments oc_scopes {D}.
Arguments oc_actor_id {D}.
Arguments oc_actor_type {D}.
Arguments oc_owner_domain_id {D}.
Arguments oc_intent_id {D}.
Arguments oc_target {D}.
Arguments oc_issued_at {D}.
Arguments oc_expires_at {D}.

Record RemovalOwnerAuthorizationContext (D : Type) := mkRemovalContext {
  rc_issuer : string; rc_presenter : string;
  controller_grant_generation : Z; rc_reset_epoch : Z;
  owner_authorization_context : OwnerAuthorizationContext D }.
Arguments mkRemovalContext {D}.
Arguments rc_issuer {D}.
Arguments rc_presenter {D}.
Arguments controller_grant_generation {D}.
Arguments rc_reset_epoch {D}.
Arguments owner_authorization_context {D}.

Record LifecycleRemovalCall (D : Type) := mkRemovalCall {
  call_payload : ControllerDeviceRemovalRequest;
  call_context : RemovalOwnerAuthorizationContext D }.
Arguments mkRemovalCall {D}.
Arguments call_payload {D}.
Arguments call_context {D}.

Record LifecycleWorkflowProblem := mkProblem {
  problem_code : string; problem_detail : string; problem_status : Z }.

Inductive LifecycleWorkflowReply (R : Type) :=
| WorkflowResult (r : R)
| WorkflowProblem (p : LifecycleWorkflowProblem).
Arguments WorkflowResult {R}.
Arguments WorkflowProblem {R}.

Section Daemon.
Context {D R S : Type} `{!DeviceReference D}.
Context (sha1 : bytes → bytes).
(** [LifecycleRemovalCall.model_validate] (pydantic), and the workflow. *)
Context (validate_call : obj → result (LifecycleRemovalCall D))
        (remove_controller_device : ControllerDeviceRemovalRequest → string →
           RemovalOwnerAuthorizationContext D → M S R).

Definition same_scopes (l k : list string) : bool :=
  forallb (λ x, bool_decide (x ∈ k)) l && forallb (λ x, bool_decide (x ∈ l)) k.

(** The disjunction of [_handle_connection]: a mismatch of the delegation. *)
Definition delegation_mismatch (workload : string) (call : LifecycleRemovalCall D) : bool :=
  let context := call.(call_context) in
  let owner := context.(owner_authorization_context) in
  let payload := call.(call_payload) in
  negb (bool_decide (context.(rc_issuer) = workload)) ||
  negb (bool_decide (context.(rc_presenter) = "eidolon-lifecycle-workflow")) ||
  negb (bool_decide (owner.(oc_workload_principal_id) = context.(rc_presenter))) ||
  negb (bool_decide (owner.(oc_audience) = "eidolon-admission")) ||
  negb (same_scopes owner.(oc_scopes) ["device.read"; "device.claim.revoke"]) ||
  negb (bool_decide (owner.(oc_actor_id) = payload.(rq_controller_id))) ||
  negb (bool_decide (owner.(oc_actor_type) = "controller")) ||
  negb (bool_decide (device_instance_id owner.(oc_target) = payload.(rq_device_id))) ||
  negb (bool_decide (owner.(oc_intent_id) =
    removal_intent_id sha1 payload.(rq_request_id) owner.(oc_owner_domain_id))) ||
  negb (context.(controller_grant_generation) =? context.(rc_reset_epoch))%Z.

(** The body of the second [try], from the frame that was read. *)
Definition serve_call (workload : AuthenticatedWorkload) (document : result obj) (now : Z) : M S R :=
  document ← lift document;
  call ← lift (validate_call document);
  guard_py (call.(call_context).(owner_authorization_context).(oc_expires_at) <=? now)%Z
    (PermissionError "Controller delegation expired") ;;
  guard_py (negb (bool_decide (workload.(principal_id) = "eidolon-local-api")))
    (PermissionError "Local workload principal is not authorized") ;;
  guard_py (delegation_mismatch workload.(principal_id) call)
    (PermissionError "Removal delegation does not match its request") ;;
  remove_controller_device call.(call_payload) workload.(principal_id) call.(call_context).

Definition call_problem (e : exn) : LifecycleWorkflowProblem :=
  match e with
  | PermissionError _ => mkProblem "AUTHZ_DENIED" "Removal delegation is not authorized" 403
  | ValidationError _ | ValueError _ | JSONDecodeError _ | IncompleteReadError | TimeoutError =>
      mkProblem "INVALID_REQUEST" "Lifecycle Workflow request is invalid" 422
  | AuthorityFailure f => mkProblem "WORKFLOW_FAILURE" f.(af_detail) f.(af_status_code)
  | _ => mkProblem "WORKFLOW_UNAVAILABLE" "Lifecycle Workflow is unavailable" 503
  end.

(** What [LifecycleWorkflowProblem] takes. *)
Definition problem_fits (p : LifecycleWorkflowProblem) : bool :=
  (1 <=? str_len p.(problem_detail)) && (str_len p.(problem_detail) <=? 512) &&
  (400 <=? p.(problem_status))%Z && (p.(problem_status) <=? 599)%Z.
(** [_reply_problem]: a problem its model refuses is no reply. *)
Definition reply_problem (p : LifecycleWorkflowProblem) : option (LifecycleWorkflowReply R) :=
  if problem_fits p then Some (WorkflowProblem p) else None.

(** The classes of the first [except]; [PermissionError] and [TimeoutError]
    are [OSError]s. *)
Definition os_or_runtime (e : exn) : bool :=
  match e with
  | OSError _ | RuntimeError _ | PermissionError _ | TimeoutError => true
  | _ => false
  end.

(** [_handle_connection]; [None] is a connection closed without an answer: after
    an exception the first [try] does not name, or for a problem that is none. *)
Definition handle_connection (expected_uid : Z) (peer : result UnixPeerCredential)
    (document : result obj) (now : Z) : M S (option (LifecycleWorkflowReply R)) := λ s,
  match (c ← peer; authorize_peer expected_uid "eidolon-local-api" c) with
  | Raise e =>
      (Ok (if os_or_runtime e
           then reply_problem (mkProblem "AUTHN_INVALID" "Local workload authentication failed" 401)
           else None), s)
  | Ok workload =>
      match serve_call workload document now s with
      | (Ok r, s') => (Ok (Some (WorkflowResult r)), s')
      | (Raise e, s') => (Ok (reply_problem (call_problem e)), s')
      end
  end.
End Daemon.
