(* ===== verification/LifecycleProofs.v ===== *)
(** * The lifecycle wire and its gate, proved

    Frames of [lifecycle_workflow/protocol.py] are self-delimiting, and the
    connection handler runs the workflow for exactly the delegations it should. *)

From S2P Require Import Prelude Encoding Json Lifecycle.

(** ** Frames *)

Lemma unpack_pack n : (n < 2 ^ 32)%N → unpack_u32 (pack_u32 n) = n.
Proof.
  intros Hn. unfold unpack_u32, pack_u32. cbn [fold_left].
  rewrite !N_ascii_embedding by (apply N.mod_lt; lia).
  change (2 ^ 24)%N with 16777216%N. change (2 ^ 16)%N with 65536%N. change (2 ^ 8)%N with 256%N.
  change (2 ^ 32)%N with 4294967296%N in Hn. lia.
Qed.

Lemma pack_unpack l : length l = 4 → pack_u32 (unpack_u32 l) = l ∧ (unpack_u32 l < 2 ^ 32)%N.
Proof.
  destruct l as [|a [|b [|c [|d [|]]]]]; try done. intros _. unfold unpack_u32, pack_u32. cbn [fold_left].
  pose proof (ascii_bound a). pose proof (ascii_bound b). pose proof (ascii_bound c). pose proof (ascii_bound d).
  change (2 ^ 24)%N with 16777216%N. change (2 ^ 16)%N with 65536%N. change (2 ^ 8)%N with 256%N.
  change (2 ^ 32)%N with 4294967296%N. split; [|lia].
  f_equal; [apply ascii_back; lia|]. f_equal; [apply ascii_back; lia|]. f_equal; [apply ascii_back; lia|].
  f_equal. apply ascii_back; lia.
Qed.

Lemma encode_frame_ok body f :
  encode_frame body = Ok f →
  body ≠ [] ∧ (N.of_nat (length body) <= MAX_FRAME_BYTES)%N ∧ f = pack_u32 (N.of_nat (length body)) ++ body.
Proof.
  unfold encode_frame. case_bool_decide; [done|]. cbn [orb].
  destruct (N.ltb_spec (MAX_FRAME_BYTES) (N.of_nat (length body))); [done|]. by intros [= <-].
Qed.

Lemma max_frame_small : (MAX_FRAME_BYTES < 2 ^ 32)%N.
Proof. by vm_compute. Qed.

Lemma size_nonzero (body : bytes) : body ≠ [] → (0 <? N.of_nat (length body))%N = true.
Proof. destruct body; [done|]. intros _. apply N.ltb_lt. simpl. lia. Qed.

Lemma readexactly_app (a b : bytes) n : length a = n → readexactly n (a ++ b) = (Ok a, b).
Proof.
  intros <-. unfold readexactly. rewrite length_app.
  destruct (Nat.ltb_spec (length a + length b) (length a)); [lia|].
  by rewrite take_app_length, drop_app_length.
Qed.

Lemma readexactly_inv n s b r : readexactly n s = (Ok b, r) → s = b ++ r ∧ length b = n.
Proof.
  unfold readexactly. destruct (Nat.ltb_spec (length s) n); [done|]. intros [= <- <-].
  by rewrite take_drop, length_take_le.
Qed.

Section Frames.
Context (loads : bytes → result json).

Lemma read_frame_encoded body f rest :
  encode_frame body = Ok f →
  read_frame loads (f ++ rest) =
    (match loads body with
     | Ok (JObj o) => Ok o
     | Ok _ => Raise (ValueError "workflow frame must contain an object")
     | Raise (JSONDecodeError _) => Raise (ValueError "workflow frame is not valid JSON")
     | Raise e => Raise e
     end, rest).
Proof.
  intros (Hne & Hmax & ->)%encode_frame_ok. unfold read_frame. rewrite <- app_assoc.
  rewrite (bind_ok _ _ _ _ _ (readexactly_app (pack_u32 _) (body ++ rest) HEADER_SIZE eq_refl)).
  cbv zeta. pose proof max_frame_small. rewrite unpack_pack by lia. rewrite bind_guard.
  rewrite (size_nonzero body Hne). cbn [andb].
  destruct (N.leb_spec (N.of_nat (length body)) (MAX_FRAME_BYTES)); [|lia]. cbn [negb].
  rewrite Nat2N.id, (bind_ok _ _ _ _ _ (readexactly_app body rest _ eq_refl)). unfold lift.
  destruct (loads body) as [v|e]; [|by destruct e]. rewrite bind_mret_lift. by destruct v.
Qed.

Lemma read_frame_inv s o rest :
  read_frame loads s = (Ok o, rest) →
  ∃ body, encode_frame body = Ok (take (HEADER_SIZE + length body) s) ∧
    s = take (HEADER_SIZE + length body) s ++ rest ∧ loads body = Ok (JObj o).
Proof.
  unfold read_frame. intros (h & s1 & Hh & H)%bind_ok_inv. cbv zeta in H. rewrite bind_guard in H.
  destruct ((0 <? unpack_u32 h)%N && _) eqn:Eg; [|done]. cbn [negb] in H.
  apply bind_ok_inv in H as (body & s2 & Hb & H). apply bind_ok_inv in H as (v & s3 & Hv & H).
  unfold lift in Hv. injection Hv as Hv <-. destruct v as [| | | | | | | |v]; try done. injection H as <- <-.
  apply readexactly_inv in Hh as [-> Hl]. apply readexactly_inv in Hb as [-> Hlb].
  apply andb_true_iff in Eg as [H0%N.ltb_lt H1%N.leb_le].
  destruct (pack_unpack h Hl) as [Hp _].
  assert (unpack_u32 h = N.of_nat (length body)) as Hu by (rewrite Hlb; lia).
  exists body. assert (take (HEADER_SIZE + length body) (h ++ body ++ s2) = h ++ body) as Ht.
  { rewrite app_assoc. apply take_app_length'. rewrite length_app, Hl. done. }
  rewrite Ht. split_and!.
  - unfold encode_frame. rewrite bool_decide_eq_false_2 by (intros ->; simpl in Hu; lia).
    destruct (N.ltb_spec MAX_FRAME_BYTES (N.of_nat (length body))); [lia|]. cbn [orb].
    do 2 f_equal. by rewrite <- Hu.
  - by rewrite app_assoc.
  - destruct (loads body) as [x|e]; [by injection Hv as ->|by destruct e].
Qed.

(** A reader that is cut off inside a frame notices. *)
Lemma read_frame_truncated body f k :
  encode_frame body = Ok f → k < length f →
  (read_frame loads (take k f)).1 = Raise IncompleteReadError.
Proof.
  intros (Hne & Hmax & ->)%encode_frame_ok. rewrite length_app. intros Hk. unfold read_frame.
  destruct (decide (k < 4)) as [Hlt|Hge].
  - rewrite (bind_raise _ _ _ IncompleteReadError []); [done|]. unfold readexactly.
    destruct (Nat.ltb_spec (length (take k (pack_u32 (N.of_nat (length body)) ++ body))) HEADER_SIZE); [done|].
    rewrite length_take in *. unfold HEADER_SIZE in *. lia.
  - assert (take k (pack_u32 (N.of_nat (length body)) ++ body) =
      pack_u32 (N.of_nat (length body)) ++ take (k - 4) body) as ->.
    { rewrite take_app. f_equal. rewrite take_ge; [done|]. simpl. lia. }
    rewrite (bind_ok _ _ _ _ _ (readexactly_app (pack_u32 _) _ HEADER_SIZE eq_refl)).
    cbv zeta. pose proof max_frame_small. rewrite unpack_pack by lia. rewrite bind_guard, (size_nonzero body Hne). cbn [andb].
    destruct (N.leb_spec (N.of_nat (length body)) (MAX_FRAME_BYTES)); [|lia]. cbn [negb].
    rewrite Nat2N.id, (bind_raise _ _ _ IncompleteReadError []); [done|]. unfold readexactly.
    simpl in Hk. destruct (Nat.ltb_spec (length (take (k - 4) body)) (length body)); [done|].
    rewrite length_take in *. lia.
Qed.

(** As many frames as the list has. *)
Fixpoint read_frames (n : nat) (s : bytes) : option (list obj * bytes) :=
  match n with
  | 0 => Some ([], s)
  | S n' =>
      match read_frame loads s with
      | (Ok o, s') => (λ '(os, r), (o :: os, r)) <$> read_frames n' s'
      | _ => None
      end
  end.
End Frames.

(** Frames delimit themselves.  Whatever the peer writes frame by frame is
    read back frame by frame, in order, and leaves what follows untouched; a
    read that succeeds consumed exactly one frame of between one byte and 256
    KiB holding a JSON object; a stream cut off inside a frame is reported as
    incomplete, never as a shorter message. *)
Theorem frames_roundtrip loads :
  (∀ bodies frames objects rest,
    Forall2 (λ b f, encode_frame b = Ok f) bodies frames →
    Forall2 (λ b o, loads b = Ok (JObj o)) bodies objects →
    read_frames loads (length frames) (concat frames ++ rest) = Some (objects, rest)) ∧
  (∀ s o rest, read_frame loads s = (Ok o, rest) →
    ∃ body, encode_frame body = Ok (take (4 + length body) s) ∧ 0 < length body ∧
      (N.of_nat (length body) <= 262144)%N ∧
      s = take (4 + length body) s ++ rest ∧ loads body = Ok (JObj o)) ∧
  (∀ body f k, encode_frame body = Ok f → k < length f →
    (read_frame loads (take k f)).1 = Raise IncompleteReadError).
Proof.
  split_and!.
  - intros bodies frames objects rest Hf. revert objects rest.
    induction Hf as [|b f bodies frames Hb Hf IH]; intros objects rest Ho.
    + by apply Forall2_nil_inv_l in Ho as ->.
    + apply Forall2_cons_inv_l in Ho as (o & os & Hbo & Hos & ->). cbn [concat length read_frames].
      rewrite <- app_assoc, (read_frame_encoded loads _ _ _ Hb), Hbo. by rewrite (IH os rest Hos).
  - intros s o rest H. destruct (read_frame_inv loads s o rest H) as (body & He & Hs & Hl). exists body.
    destruct (encode_frame_ok _ _ He) as (Hne & Hmax & _). split_and!; try done.
    + destruct body; [done|simpl; lia].
  - intros body f k. apply read_frame_truncated.
Qed.

(** ** The gate *)

(** What a delegation must be for this request. *)
Record delegated {D} `{!DeviceReference D} (sha1 : bytes → bytes) (now : Z) (call : LifecycleRemovalCall D) : Prop := {
  dl_live : (now < call.(call_context).(owner_authorization_context).(oc_expires_at))%Z;
  dl_issuer : call.(call_context).(rc_issuer) = "eidolon-local-api";
  dl_presenter : call.(call_context).(rc_presenter) = "eidolon-lifecycle-workflow" ∧
    call.(call_context).(owner_authorization_context).(oc_workload_principal_id) = "eidolon-lifecycle-workflow";
  dl_audience : call.(call_context).(owner_authorization_context).(oc_audience) = "eidolon-admission";
  dl_scopes : ∀ x, x ∈ call.(call_context).(owner_authorization_context).(oc_scopes) ↔
    x = "device.read" ∨ x = "device.claim.revoke";
  dl_actor : call.(call_context).(owner_authorization_context).(oc_actor_id) = call.(call_payload).(rq_controller_id) ∧
    call.(call_context).(owner_authorization_context).(oc_actor_type) = "controller";
  dl_target : device_instance_id call.(call_context).(owner_authorization_context).(oc_target) =
    call.(call_payload).(rq_device_id);
  dl_intent : call.(call_context).(owner_authorization_context).(oc_intent_id) =
    removal_intent_id sha1 call.(call_payload).(rq_request_id)
      call.(call_context).(owner_authorization_context).(oc_owner_domain_id);
  dl_epoch : call.(call_context).(controller_grant_generation) = call.(call_context).(rc_reset_epoch) }.

Lemma same_scopes_spec l :
  same_scopes l ["device.read"; "device.claim.revoke"] = true ↔
  ∀ x, x ∈ l ↔ x = "device.read" ∨ x = "device.claim.revoke".
Proof.
  unfold same_scopes. rewrite andb_true_iff, !forallb_forall. split.
  - intros [H1 H2] x. split.
    + intros Hx%list_elem_of_In. specialize (H1 _ Hx). apply bool_decide_eq_true in H1.
      rewrite !elem_of_cons, elem_of_nil in H1. naive_solver.
    + intros Hx. assert (In x ["device.read"; "device.claim.revoke"]) as Hi by (destruct Hx as [->| ->]; simpl; auto).
      specialize (H2 _ Hi). by apply bool_decide_eq_true in H2.
  - intros H. split.
    + intros x Hx%list_elem_of_In. apply bool_decide_eq_true. rewrite !elem_of_cons, elem_of_nil. apply H in Hx. naive_solver.
    + intros x Hx. apply bool_decide_eq_true, H. destruct Hx as [<-|[<-|[]]]; auto.
Qed.

Section Gate.
Context {D R S : Type} `{!DeviceReference D}.
Context (sha1 : bytes → bytes) (validate_call : obj → result (LifecycleRemovalCall D))
        (remove : ControllerDeviceRemovalRequest → string → RemovalOwnerAuthorizationContext D → M S R).

Lemma delegation_ok now call :
  ((oc_expires_at call.(call_context).(owner_authorization_context) <=? now)%Z = false ∧
   delegation_mismatch sha1 "eidolon-local-api" call = false) ↔ delegated sha1 now call.
Proof.
  unfold delegation_mismatch. cbv zeta.
  rewrite !orb_false_iff, !negb_false_iff, !bool_decide_eq_true, Z.leb_gt, Z.eqb_eq, same_scopes_spec. split.
  - intros (H0 & (((((((((H1 & H2) & H3) & H4) & H5) & H6) & H7) & H8) & H9) & H10)).
    split; try done. split; [done|]. by rewrite H3.
  - intros [H0 H1 [H2 H2'] H3 H4 [H5 H5'] H6 H7 H8]. split_and!; try done. by rewrite H2.
Qed.

(** A call is served as soon as the peer is the expected workload. *)
Lemma serve_run workload document now s :
  workload.(principal_id) = "eidolon-local-api" →
  serve_call sha1 validate_call remove workload document now s =
    match (o ← document; validate_call o) with
    | Raise e => (Raise e, s)
    | Ok call =>
        if (oc_expires_at call.(call_context).(owner_authorization_context) <=? now)%Z
        then (Raise (PermissionError "Controller delegation expired"), s)
        else if delegation_mismatch sha1 "eidolon-local-api" call
        then (Raise (PermissionError "Removal delegation does not match its request"), s)
        else remove call.(call_payload) "eidolon-local-api" call.(call_context) s
    end.
Proof.
  intros Hw. unfold serve_call. unfold lift. destruct document as [o|e]; [|done]. rewrite bind_mret_lift.
  cbn [mbind result_bind]. destruct (validate_call o) as [call|e]; [|done]. rewrite bind_mret_lift, !bind_guard.
  rewrite Hw. destruct (_ <=? now)%Z; [done|]. rewrite bool_decide_eq_true_2 by done. cbn [negb].
  by destruct (delegation_mismatch _ _ _).
Qed.
End Gate.

(** A failure of the frame or of its model: not another authority's. *)
Definition plain {A} (r : result A) : Prop := ∀ f, r ≠ Raise (AuthorityFailure f).
Lemma call_problem_fits e : (∀ f, e ≠ AuthorityFailure f) → problem_fits (call_problem e) = true.
Proof. intros He. destruct e; try reflexivity. by destruct (He f). Qed.
(** The peer is the Local API, and the frame holds a call it delegated. *)
Definition admitted {D} `{!DeviceReference D} sha1 (validate_call : obj → result (LifecycleRemovalCall D)) expected_uid
    (raw : option bytes) (document : result obj) now : Prop :=
  ∃ b o call, raw = Some b ∧ length b = 12 ∧ unpack_i32 (take 4 (drop 4 b)) = expected_uid ∧
    document = Ok o ∧ validate_call o = Ok call ∧ delegated sha1 now call.

(** C13: the workflow runs for exactly the removals it was asked for.  Over
    the bytes the kernel reports for the peer: if the answer is a workflow
    result, or anything changed, then the peer's UID is the Local API's, the
    frame held a valid call, and its delegation is live, was issued by the
    Local API to this workload for admission, names the requesting Controller,
    the requested device, this request's intent and the two removal scopes.
    Conversely such a call gets the workflow's own outcome: its result, or the
    problem for its exception when that is a problem the wire can carry.  Every
    other connection is answered by a problem and changes nothing, as long as
    reading and checking the frame fail with errors of their own. *)
Theorem removal_gate {D R S : Type} `{!DeviceReference D} sha1 validate_call
    (remove : ControllerDeviceRemovalRequest → string → RemovalOwnerAuthorizationContext D → M S R)
    expected_uid raw document now s :
  let '(reply, s') := handle_connection sha1 validate_call remove expected_uid
                        (linux_peer_credential raw) document now s in
  ((∃ r, reply = Ok (Some (WorkflowResult r))) ∨ s' ≠ s → admitted sha1 validate_call expected_uid raw document now) ∧
  (∀ c o call, linux_peer_credential raw = Ok c → c.(peer_uid) = expected_uid →
    document = Ok o → validate_call o = Ok call → delegated sha1 now call →
    (reply, s') =
      let '(r, s1) := remove call.(call_payload) "eidolon-local-api" call.(call_context) s in
      (Ok (match r with Ok x => Some (WorkflowResult x) | Raise e => reply_problem (call_problem e) end), s1)) ∧
  (plain document → (∀ o, plain (validate_call o)) → ¬ admitted sha1 validate_call expected_uid raw document now →
    ∃ p, reply = Ok (Some (WorkflowProblem p)) ∧ s' = s).
Proof.
  unfold handle_connection.
  assert (∀ c w, linux_peer_credential raw = Ok c → authorize_peer expected_uid "eidolon-local-api" c = Ok w →
    w.(principal_id) = "eidolon-local-api" ∧ ∃ b, raw = Some b ∧ length b = 12 ∧
      unpack_i32 (take 4 (drop 4 b)) = expected_uid) as Hpeer.
  { intros c w Hc Hw. unfold linux_peer_credential in Hc. destruct raw as [b|]; [|done].
    destruct (length b =? 12)%nat eqn:El; [|done]. cbn [negb] in Hc. destruct (_ || _); [done|].
    injection Hc as <-. unfold authorize_peer in Hw. cbn [peer_uid] in Hw.
    destruct (_ =? expected_uid)%Z eqn:Eu; [|done]. cbn [negb] in Hw. injection Hw as <-.
    split; [done|]. exists b. apply Nat.eqb_eq in El. apply Z.eqb_eq in Eu. done. }
  assert (∀ e, (∀ f, e ≠ AuthorityFailure f) → reply_problem (R := R) (call_problem e) = Some (WorkflowProblem (call_problem e)))
    as Hfit by (intros e He; unfold reply_problem; by rewrite call_problem_fits).
  assert (∀ e r, reply_problem (R := R) e ≠ Some (WorkflowResult r)) as Hnot by (intros e r; unfold reply_problem; by destruct (problem_fits e)).
  assert (∀ e, (linux_peer_credential raw = Raise e ∨ ∃ c, authorize_peer expected_uid "eidolon-local-api" c = Raise e) →
    os_or_runtime e = true) as Hnamed.
  { intros e [He|[c He]].
    - unfold linux_peer_credential in He. repeat case_match; simplify_eq; done.
    - unfold authorize_peer in He. case_match; by simplify_eq. }
  destruct (linux_peer_credential raw) as [c|e] eqn:Ec; cbn [mbind result_bind].
  2: { rewrite (Hnamed e) by auto. split_and!; [by intros [[r Hr]|Hs]|done|by eexists]. }
  destruct (authorize_peer expected_uid "eidolon-local-api" c) as [w|e] eqn:Ew.
  2: { rewrite (Hnamed e) by eauto. split_and!; [by intros [[r Hr]|Hs]| |by eexists].
       intros c' o call [= <-] Hu. unfold authorize_peer in Ew. rewrite Hu, Z.eqb_refl in Ew. done. }
  destruct (Hpeer c w eq_refl Ew) as (Hw & b & Hb). rewrite (serve_run _ _ _ _ _ _ _ Hw).
  destruct document as [o|e]; cbn [mbind result_bind].
  2: { split_and!; [|done|].
       - intros [[r Hr]|Hs]; [|done]. injection Hr as Hr. by apply Hnot in Hr.
       - intros Hp _ _. rewrite Hfit by (intros f ->; by apply (Hp f)). by eexists. }
  destruct (validate_call o) as [call|e] eqn:Ev.
  2: { split_and!.
       - intros [[r Hr]|Hs]; [|done]. injection Hr as Hr. by apply Hnot in Hr.
       - intros c' o' call _ _ [= <-]. by rewrite Ev.
       - intros _ Hv _. rewrite Hfit by (intros f ->; by apply (Hv o f)). by eexists. }
  pose proof (delegation_ok sha1 now call) as Hd.
  destruct (oc_expires_at _ <=? now)%Z.
  { split_and!; [by intros [[r Hr]|Hs]| |by eexists]. intros c' o' call' _ _ [= <-]. rewrite Ev. intros [= <-] Hdel.
    by destruct (proj2 Hd Hdel). }
  destruct (delegation_mismatch sha1 "eidolon-local-api" call).
  { split_and!; [by intros [[r Hr]|Hs]| |by eexists]. intros c' o' call' _ _ [= <-]. rewrite Ev. intros [= <-] Hdel.
    by destruct (proj2 Hd Hdel). }
  assert (admitted sha1 validate_call expected_uid raw (Ok o) now) as Hadm
    by (exists b, o, call; destruct Hb as (? & ? & ?); split_and!; try done; by apply Hd).
  destruct (remove (call_payload call) "eidolon-local-api" (call_context call) s) as [r s1] eqn:Er.
  destruct r as [x|e]; (split_and!; [done| |done]);
    intros c' o' call' _ _ [= <-]; rewrite Ev; intros [= <-] _; by rewrite Er.
Qed.
