(* ===== verification/RemovalIntents.v ===== *)
(** * The ledger of removal intents

    [app/control_plane/removal_intents.py]: a durable record of what an Owner
    asked to remove and what Hub answered, in memory and in SQLite.  The SDK's
    revocation result is any type of class [HubRevocation]; the JSON columns go
    through a codec. *)

From S2P Require Import Prelude Encoding Lifecycle.

(** What the code reads of the SDK's [HubClaimRevocationResult]. *)
Class HubRevocation (H : Type) := {
  hub_eq_dec :: EqDecision H;
  hub_outcome : H → string;
  hub_command_id_of : H → string;
  hub_event_id : H → option string }.

Record RemovalIntent (D H : Type) := mkIntent {
  intent_id : string; ingress_request_id : string; i_owner_domain_id : string; i_device_ref : D;
  actor_controller_id : string; workload_principal_id : string; controller_reset_epoch : Z;
  authorization_context_json : string; authorization_context_sha256 : string;
  reason : string; hub_command_id : string; i_state : string;
  i_created_at : Z; i_updated_at : Z; hub_result : option H }.
Arguments mkIntent {D H}.
Arguments intent_id {D H}.
Arguments ingress_request_id {D H}.
Arguments i_owner_domain_id {D H}.
Arguments i_device_ref {D H}.
Arguments actor_controller_id {D H}.
Arguments workload_principal_id {D H}.
Arguments controller_reset_epoch {D H}.
Arguments authorization_context_json {D H}.
Arguments authorization_context_sha256 {D H}.
Arguments reason {D H}.
Arguments hub_command_id {D H}.
Arguments i_state {D H}.
Arguments i_created_at {D H}.
Arguments i_updated_at {D H}.
Arguments hub_result {D H}.

(** The keyword arguments of [get_or_create]. *)
Record intent_values (D : Type) := mkValues {
  v_ingress_request_id : string; v_owner_domain_id : string; v_device_ref : D;
  v_actor_controller_id : string; v_workload_principal_id : string; v_controller_reset_epoch : Z;
  v_context_json : string; v_context_sha256 : string; v_reason : string; v_now : Z }.
Arguments mkValues {D}.
Arguments v_ingress_request_id {D}.
Arguments v_owner_domain_id {D}.
Arguments v_device_ref {D}.
Arguments v_actor_controller_id {D}.
Arguments v_workload_principal_id {D}.
Arguments v_controller_reset_epoch {D}.
Arguments v_context_json {D}.
Arguments v_context_sha256 {D}.
Arguments v_reason {D}.
Arguments v_now {D}.

(** The protocol, which the workflow is written against. *)
Class RemovalIntentStore (D H L : Type) := {
  get_or_create : intent_values D → M L (RemovalIntent D H);
  mark_hub_committed : string → H → Z → M L (RemovalIntent D H) }.

(** [dataclasses.replace] of a commit. *)
Definition commit {D H} (r : H) (now : Z) (i : RemovalIntent D H) : RemovalIntent D H :=
  mkIntent i.(intent_id) i.(ingress_request_id) i.(i_owner_domain_id) i.(i_device_ref)
    i.(actor_controller_id) i.(workload_principal_id) i.(controller_reset_epoch)
    i.(authorization_context_json) i.(authorization_context_sha256) i.(reason) i.(hub_command_id)
    "hub-revoked" i.(i_created_at) now (Some r).

Section Ledger.
Context {D H : Type} `{!DeviceReference D} `{!HubRevocation H}.
Context (sha1 : bytes → bytes) (sha256_hex : bytes → string).

(** [_hub_command_id]: one command per intent and target generation. *)
Definition make_hub_command_id (intent : string) (d : D) : string :=
  "revoke-claim-" ++ string_of_list_ascii (uuid5_hex sha1 INTENT_NAMESPACE
    ("eidolon-revoke-claim-v1:" ++ intent ++ ":" ++ device_instance_id d ++ ":" ++
     pretty (owner_domain_generation d) ++ ":" ++ pretty (claim_generation d) ++ ":" ++
     pretty (trust_epoch d))).

Definition hash_mismatch : exn := ValueError "authorization context bytes do not match their hash".
Definition reused : exn := ValueError "request_id was reused with different removal content".
Definition result_changed : exn := ValueError "Hub result changed for an existing RemovalIntent".

Definition hash_ok (v : intent_values D) : bool :=
  bool_decide (sha256_hex (list_ascii_of_string v.(v_context_json)) = v.(v_context_sha256)).

(** A retry that asks for what was recorded. *)
Definition same_content (i : RemovalIntent D H) (v : intent_values D) : bool :=
  bool_decide (i.(i_device_ref) = v.(v_device_ref)) && bool_decide (i.(reason) = v.(v_reason)) &&
  bool_decide (i.(actor_controller_id) = v.(v_actor_controller_id)) &&
  bool_decide (i.(workload_principal_id) = v.(v_workload_principal_id)) &&
  (i.(controller_reset_epoch) =? v.(v_controller_reset_epoch))%Z &&
  bool_decide (i.(authorization_context_sha256) = v.(v_context_sha256)) &&
  bool_decide (i.(authorization_context_json) = v.(v_context_json)).

Definition values_intent_id (v : intent_values D) : string :=
  removal_intent_id sha1 v.(v_ingress_request_id) v.(v_owner_domain_id).

Definition new_intent (v : intent_values D) : RemovalIntent D H :=
  mkIntent (values_intent_id v) v.(v_ingress_request_id) v.(v_owner_domain_id) v.(v_device_ref)
    v.(v_actor_controller_id) v.(v_workload_principal_id) v.(v_controller_reset_epoch)
    v.(v_context_json) v.(v_context_sha256) v.(v_reason)
    (make_hub_command_id (values_intent_id v) v.(v_device_ref)) "accepted" v.(v_now) v.(v_now) None.

(** The check both adapters make before a commit. *)
Definition result_conflicts (i : RemovalIntent D H) (r : H) : bool :=
  match i.(hub_result) with Some r0 => negb (bool_decide (r0 = r)) | None => false end.

(** ** [InMemoryRemovalIntentStore] *)

Definition MemoryLedger : Type := list (string * RemovalIntent D H).

Definition mled_get_or_create (v : intent_values D) : M MemoryLedger (RemovalIntent D H) :=
  guard_py (negb (hash_ok v)) hash_mismatch ;;
  values ← gets id;
  match dict_get (values_intent_id v) values with
  | Some current => guard_py (negb (same_content current v)) reused ;; mret current
  | None => modify (dict_set (values_intent_id v) (new_intent v)) ;; mret (new_intent v)
  end.

Definition mled_mark_hub_committed (id : string) (r : H) (now : Z) : M MemoryLedger (RemovalIntent D H) :=
  values ← gets (λ l, l);
  match dict_get id values with
  | None => raise (KeyError id)
  | Some current =>
      guard_py (result_conflicts current r) result_changed ;;
      modify (dict_set id (commit r now current)) ;; mret (commit r now current)
  end.

Definition memory_ledger : RemovalIntentStore D H MemoryLedger :=
  {| get_or_create := mled_get_or_create; mark_hub_committed := mled_mark_hub_committed |}.

(** ** [SqliteRemovalIntentStore] *)

(** [model_dump_json] and [model_validate_json] of the two SDK models. *)
Context (ref_json : D → string) (parse_ref : string → result D)
        (result_json : H → string) (parse_result : string → result H).

(** A row; the two timestamp columns, which the ledger only stores and reads
    back, are kept as the instants they encode. *)
Record intent_row := mkRow {
  c_intent_id : string; c_ingress_request_id : string; c_owner_domain_id : string;
  c_device_id : string; c_owner_domain_generation : Z; c_claim_generation : Z; c_trust_epoch : Z;
  c_device_ref_json : string; c_actor_controller_id : string; c_workload_principal_id : string;
  c_controller_reset_epoch : Z; c_context_json : string; c_context_sha256 : string;
  c_reason : string; c_hub_command_id : string; c_state : string; c_hub_result_json : option string;
  c_created_at : Z; c_updated_at : Z }.

Definition decode_row (r : intent_row) : result (RemovalIntent D H) :=
  ref ← parse_ref r.(c_device_ref_json);
  res ← match r.(c_hub_result_json) with
        | None => Ok None
        | Some j => x ← parse_result j; Ok (Some x)
        end;
  Ok (mkIntent r.(c_intent_id) r.(c_ingress_request_id) r.(c_owner_domain_id) ref
        r.(c_actor_controller_id) r.(c_workload_principal_id) r.(c_controller_reset_epoch)
        r.(c_context_json) r.(c_context_sha256) r.(c_reason) r.(c_hub_command_id) r.(c_state)
        r.(c_created_at) r.(c_updated_at) res).

Definition new_row (v : intent_values D) : intent_row :=
  mkRow (values_intent_id v) v.(v_ingress_request_id) v.(v_owner_domain_id)
    (device_instance_id v.(v_device_ref)) (owner_domain_generation v.(v_device_ref))
    (claim_generation v.(v_device_ref)) (trust_epoch v.(v_device_ref)) (ref_json v.(v_device_ref))
    v.(v_actor_controller_id) v.(v_workload_principal_id) v.(v_controller_reset_epoch)
    v.(v_context_json) v.(v_context_sha256) v.(v_reason)
    (make_hub_command_id (values_intent_id v) v.(v_device_ref)) "accepted" None v.(v_now) v.(v_now).

(** The constraints of the table: the primary key, two UNIQUE, one CHECK. *)
Definition row_conflict (n r : intent_row) : bool :=
  bool_decide (r.(c_intent_id) = n.(c_intent_id)) ||
  bool_decide (r.(c_hub_command_id) = n.(c_hub_command_id)) ||
  (bool_decide (r.(c_owner_domain_id) = n.(c_owner_domain_id)) &&
   bool_decide (r.(c_ingress_request_id) = n.(c_ingress_request_id))).
Definition insert_row (n : intent_row) : M (list intent_row) unit :=
  rows ← gets id;
  guard_py (existsb (row_conflict n) rows || (n.(c_controller_reset_epoch) <? 0)%Z)
    (IntegrityError "constraint failed") ;;
  modify (λ l, l ++ [n]).

(** [BEGIN IMMEDIATE] ... [COMMIT], with [ROLLBACK] on any exception. *)
Definition transaction {A} (c : M (list intent_row) A) : M (list intent_row) A := λ s,
  match c s with (Ok a, s') => (Ok a, s') | (Raise e, _) => (Raise e, s) end.

Definition sled_get_or_create (v : intent_values D) : M (list intent_row) (RemovalIntent D H) :=
  guard_py (negb (hash_ok v)) hash_mismatch ;;
  transaction
    (rows ← gets id;
     match next_or_none (λ r, bool_decide (r.(c_owner_domain_id) = v.(v_owner_domain_id)) &&
                              bool_decide (r.(c_ingress_request_id) = v.(v_ingress_request_id))) rows with
     | Some row =>
         current ← lift (decode_row row);
         guard_py (negb (same_content current v)) reused ;; mret current
     | None => insert_row (new_row v) ;; mret (new_intent v)
     end).

Definition commit_row (r : H) (now : Z) (c : intent_row) : intent_row :=
  mkRow c.(c_intent_id) c.(c_ingress_request_id) c.(c_owner_domain_id) c.(c_device_id)
    c.(c_owner_domain_generation) c.(c_claim_generation) c.(c_trust_epoch) c.(c_device_ref_json)
    c.(c_actor_controller_id) c.(c_workload_principal_id) c.(c_controller_reset_epoch)
    c.(c_context_json) c.(c_context_sha256) c.(c_reason) c.(c_hub_command_id) "hub-revoked"
    (Some (result_json r)) c.(c_created_at) now.

Definition sled_mark_hub_committed (id : string) (r : H) (now : Z)
    : M (list intent_row) (RemovalIntent D H) :=
  transaction
    (rows ← gets (λ l, l);
     match next_or_none (λ r, bool_decide (r.(c_intent_id) = id)) rows with
     | None => raise (KeyError id)
     | Some row =>
         current ← lift (decode_row row);
         guard_py (result_conflicts current r) result_changed ;;
         modify (update_where (λ r, bool_decide (r.(c_intent_id) = id)) (commit_row r now)) ;;
         mret (commit r now current)
     end).

Definition sqlite_ledger : RemovalIntentStore D H (list intent_row) :=
  {| get_or_create := sled_get_or_create; mark_hub_committed := sled_mark_hub_committed |}.

(** ** Histories *)

Inductive ledger_call :=
| LCreate (v : intent_values D)
| LCommit (id : string) (r : H) (now : Z).

Definition run_ledger_call {L} `{!RemovalIntentStore D H L} (c : ledger_call) : M L (RemovalIntent D H) :=
  match c with
  | LCreate v => get_or_create v
  | LCommit id r now => mark_hub_committed id r now
  end.

Fixpoint run_ledger {L} `{!RemovalIntentStore D H L} (cs : list ledger_call) (l : L)
    : list (result (RemovalIntent D H)) * L :=
  match cs with
  | [] => ([], l)
  | c :: cs' => let '(r, l1) := run_ledger_call c l in
                let '(rs, l2) := run_ledger cs' l1 in (r :: rs, l2)
  end.
End Ledger.
