(* ===== verification/RemovalLedger.v ===== *)
(** * The removal ledger, proved

    The SQLite ledger of [app/control_plane/removal_intents.py] answers as the
    in-memory one, an intent once recorded is frozen, and a Hub result once
    recorded never changes. *)

From S2P Require Import Prelude Encoding Lifecycle RemovalIntents.

Lemma dict_get_next {K V} `{EqDecision K} (k : K) (p : V → bool) (d : list (K * V)) :
  (∀ k' v, (k', v) ∈ d → p v = bool_decide (k = k')) → next_or_none p d.*2 = dict_get k d.
Proof.
  unfold next_or_none. induction d as [|[k1 v1] d IH]; [done|]. intros Hp. cbn [fmap list_fmap List.filter snd dict_get].
  rewrite (Hp k1 v1) by left. case_bool_decide; [done|]. apply IH. intros k' v Hin. apply Hp. by right.
Qed.

Section Ledger.
Context {D H : Type} `{!DeviceReference D} `{!HubRevocation H}.
Context (sha1 : bytes → bytes) (sha256_hex : bytes → string).
Abbreviation intent := (RemovalIntent D H).
Abbreviation ledger := (list (string * RemovalIntent D H)).

(** *** What every in-memory ledger satisfies *)

(** The key of an entry is its identity, and identity and command are those of
    the recorded request. *)
Definition entry_wf (k : string) (i : intent) : Prop :=
  k = i.(intent_id) ∧ i.(intent_id) = removal_intent_id sha1 i.(ingress_request_id) i.(i_owner_domain_id) ∧
  i.(hub_command_id) = make_hub_command_id sha1 i.(intent_id) i.(i_device_ref).
Definition ledger_wf (l : ledger) : Prop := NoDup l.*1 ∧ ∀ k i, (k, i) ∈ l → entry_wf k i.

(** Two calls ask for the same removal. *)
Definition same_request (v w : intent_values D) : Prop :=
  w.(v_device_ref) = v.(v_device_ref) ∧ w.(v_reason) = v.(v_reason) ∧
  w.(v_actor_controller_id) = v.(v_actor_controller_id) ∧
  w.(v_workload_principal_id) = v.(v_workload_principal_id) ∧
  w.(v_controller_reset_epoch) = v.(v_controller_reset_epoch) ∧
  w.(v_context_sha256) = v.(v_context_sha256) ∧ w.(v_context_json) = v.(v_context_json).

(** What no later call changes. *)
Definition frozen (i j : intent) : Prop :=
  i.(intent_id) = j.(intent_id) ∧ i.(ingress_request_id) = j.(ingress_request_id) ∧
  i.(i_owner_domain_id) = j.(i_owner_domain_id) ∧ i.(i_device_ref) = j.(i_device_ref) ∧
  i.(actor_controller_id) = j.(actor_controller_id) ∧
  i.(workload_principal_id) = j.(workload_principal_id) ∧
  i.(controller_reset_epoch) = j.(controller_reset_epoch) ∧
  i.(authorization_context_json) = j.(authorization_context_json) ∧
  i.(authorization_context_sha256) = j.(authorization_context_sha256) ∧
  i.(reason) = j.(reason) ∧ i.(hub_command_id) = j.(hub_command_id) ∧
  (∀ r, i.(hub_result) = Some r → j.(hub_result) = Some r).

Lemma frozen_refl i : frozen i i.
Proof. by repeat split. Qed.

Lemma frozen_trans i j k : frozen i j → frozen j k → frozen i k.
Proof. unfold frozen. intros H1 H2. destruct_and!. split_and!; try congruence. eauto. Qed.

Definition grows (l l' : ledger) : Prop :=
  ∀ k i, dict_get k l = Some i → ∃ j, dict_get k l' = Some j ∧ frozen i j.

Lemma grows_refl l : grows l l.
Proof. intros k i Hk. exists i. split; [done|apply frozen_refl]. Qed.

Lemma grows_trans l1 l2 l3 : grows l1 l2 → grows l2 l3 → grows l1 l3.
Proof.
  intros H1 H2 k i Hk. destruct (H1 k i Hk) as (j & Hj & Hf). destruct (H2 k j Hj) as (x & Hx & Hg).
  exists x. split; [done|]. by eapply frozen_trans.
Qed.

Abbreviation create := (mled_get_or_create (H := H) sha1 sha256_hex).
Abbreviation mark := (mled_mark_hub_committed (D := D) (H := H)).

Lemma new_intent_wf v : entry_wf (values_intent_id sha1 v) (new_intent (H := H) sha1 v).
Proof. done. Qed.

Lemma commit_frozen i r now : result_conflicts i r = false → frozen i (commit r now i).
Proof.
  unfold result_conflicts. intros Hc. repeat split. cbn. intros r0 E. rewrite E in Hc.
  apply negb_false_iff, bool_decide_eq_true in Hc. by subst.
Qed.

(** Both calls, on a ledger. *)
Lemma create_run v l :
  create v l =
    if hash_ok sha256_hex v then
      match dict_get (values_intent_id sha1 v) l with
      | Some i => if same_content i v then (Ok i, l) else (Raise reused, l)
      | None => (Ok (new_intent sha1 v), dict_set (values_intent_id sha1 v) (new_intent sha1 v) l)
      end
    else (Raise hash_mismatch, l).
Proof.
  unfold mled_get_or_create. rewrite bind_guard. destruct (hash_ok _ _); [|done]. cbn [negb]. mnorm. unfold id.
  destruct (dict_get _ l) as [i|]; [|done]. rewrite bind_guard. by destruct (same_content i v).
Qed.

Lemma mark_run k r now l :
  mark k r now l =
    match dict_get k l with
    | None => (Raise (KeyError k), l)
    | Some i => if result_conflicts i r then (Raise result_changed, l)
                else (Ok (commit r now i), dict_set k (commit r now i) l)
    end.
Proof.
  unfold mled_mark_hub_committed. mnorm. destruct (dict_get k l) as [i|]; [|done]. rewrite bind_guard.
  by destruct (result_conflicts i r).
Qed.

Lemma dict_set_wf k i l : ledger_wf l → entry_wf k i → ledger_wf (dict_set k i l).
Proof.
  intros [Hnd Hw] Hi. split; [by apply dict_set_NoDup|]. intros k' j Hin.
  apply (elem_of_dict_set k i l (k', j) Hnd) in Hin as [[= -> ->]|[_ Hin]]; [done|by apply Hw].
Qed.

Lemma create_keeps v l : ledger_wf l → ledger_wf (create v l).2 ∧ grows l (create v l).2.
Proof.
  intros Hw. rewrite create_run. destruct (hash_ok _ _); [|by split; [|apply grows_refl]].
  destruct (dict_get _ l) as [i|] eqn:E.
  { destruct (same_content i v); (split; [done|apply grows_refl]). }
  split; [by apply dict_set_wf|]. intros k i Hk. exists i. split; [|apply frozen_refl].
  cbn [snd]. rewrite dict_get_set. case_bool_decide as Ek; [|done]. subst. congruence.
Qed.

Lemma mark_keeps k r now l : ledger_wf l → ledger_wf (mark k r now l).2 ∧ grows l (mark k r now l).2.
Proof.
  intros Hw. rewrite mark_run. destruct (dict_get k l) as [i|] eqn:E; [|by split; [|apply grows_refl]].
  destruct (result_conflicts i r) eqn:Ec; [by split; [|apply grows_refl]|]. cbn [snd]. split.
  - apply dict_set_wf; [done|]. exact (proj2 Hw k i (dict_get_elem _ _ _ E)).
  - intros k' j Hk. destruct (decide (k' = k)) as [->|Hne].
    + exists (commit r now i). rewrite dict_get_set, bool_decide_eq_true_2 by done. split; [done|].
      rewrite E in Hk. injection Hk as <-. by apply commit_frozen.
    + exists j. rewrite dict_get_set, bool_decide_eq_false_2 by done. split; [done|apply frozen_refl].
Qed.

(** The same request again, later. *)
Lemma create_again v i l l' w :
  (create v l).1 = Ok i → grows (create v l).2 l' →
  values_intent_id sha1 w = values_intent_id sha1 v →
  (create w l').2 = l' ∧ (∀ j, (create w l').1 = Ok j → frozen i j) ∧
  ((∃ j, (create w l').1 = Ok j) ↔ hash_ok sha256_hex w = true ∧ same_request v w).
Proof.
  intros Hi Hg Hid.
  assert (dict_get (values_intent_id sha1 v) (create v l).2 = Some i ∧ same_content i v = true) as [Hget Hsame].
  { rewrite create_run in Hi |- *. destruct (hash_ok sha256_hex v); [|done].
    destruct (dict_get _ l) as [x|] eqn:E.
    - destruct (same_content x v) eqn:Es; [|done]. by injection Hi as ->.
    - injection Hi as <-. cbn [snd]. rewrite dict_get_set, bool_decide_eq_true_2 by done. split; [done|].
      unfold same_content. cbn. by rewrite !bool_decide_eq_true_2, Z.eqb_refl. }
  destruct (Hg _ _ Hget) as (j & Hj & Hf). rewrite <- Hid in Hj. rewrite create_run, Hj.
  assert (same_content j w = true ↔ same_request v w) as Hjw.
  { revert Hsame. unfold same_content, same_request. rewrite !andb_true_iff, !bool_decide_eq_true, !Z.eqb_eq.
    unfold frozen in Hf. destruct_and!. intros. destruct_and!. split; intros; destruct_and!; split_and!; congruence. }
  destruct (hash_ok sha256_hex w).
  - destruct (same_content j w) eqn:Es; (split; [done|]); cbn [fst].
    + split; [by intros x [= <-]|]. split; [intros _; split; [done|by apply Hjw]|by eexists].
    + split; [done|]. split; [by intros [? ?]|]. intros [_ H2]. apply Hjw in H2. congruence.
  - split; [done|]. split; [done|]. split; [by intros [? ?]|]. by intros [? _].
Qed.

Definition memory : RemovalIntentStore D H ledger := memory_ledger sha1 sha256_hex.

Lemma call_keeps c l : ledger_wf l →
  ledger_wf (run_ledger_call (RemovalIntentStore0 := memory) c l).2 ∧
  grows l (run_ledger_call (RemovalIntentStore0 := memory) c l).2.
Proof. destruct c as [v|k r now]; [apply create_keeps|apply mark_keeps]. Qed.

Lemma history_keeps cs l : ledger_wf l →
  ledger_wf (run_ledger (RemovalIntentStore0 := memory) cs l).2 ∧
  grows l (run_ledger (RemovalIntentStore0 := memory) cs l).2.
Proof.
  revert l. induction cs as [|c cs IH]; intros l Hw; [split; [done|apply grows_refl]|]. cbn [run_ledger].
  destruct (call_keeps c l Hw) as [H1 H2]. destruct (run_ledger_call c l) as [r l1]. cbn [snd] in *.
  destruct (IH l1 H1) as [H3 H4]. destruct (run_ledger cs l1) as [rs l2]. cbn [snd] in *.
  split; [done|]. by eapply grows_trans.
Qed.

(** *** SQLite *)

Section Sqlite.
Context (ref_json : D → string) (parse_ref : string → result D)
        (result_json : H → string) (parse_result : string → result H).
Context (parse_ref_json : ∀ d, parse_ref (ref_json d) = Ok d)
        (parse_result_json : ∀ r, parse_result (result_json r) = Ok r).

Definition sqlite : RemovalIntentStore D H (list intent_row) :=
  sqlite_ledger sha1 sha256_hex ref_json parse_ref result_json parse_result.

(** The row an intent is stored as. *)
Definition row_of (i : intent) : intent_row :=
  mkRow i.(intent_id) i.(ingress_request_id) i.(i_owner_domain_id)
    (device_instance_id i.(i_device_ref)) (owner_domain_generation i.(i_device_ref))
    (claim_generation i.(i_device_ref)) (trust_epoch i.(i_device_ref)) (ref_json i.(i_device_ref))
    i.(actor_controller_id) i.(workload_principal_id) i.(controller_reset_epoch)
    i.(authorization_context_json) i.(authorization_context_sha256) i.(reason) i.(hub_command_id)
    i.(i_state) (result_json <$> i.(hub_result)) i.(i_created_at) i.(i_updated_at).

Lemma decode_row_of i : decode_row parse_ref parse_result (row_of i) = Ok i.
Proof.
  unfold decode_row, row_of. cbn [c_device_ref_json c_hub_result_json]. rewrite parse_ref_json. cbn [mbind result_bind].
  destruct i as [? ? ? ? ? ? ? ? ? ? ? ? ? ? [r|]]; cbn; [|done]. by rewrite parse_result_json.
Qed.

(** Requests of a history whose identifiers do not collide. *)
Definition collision_free (vs : list (intent_values D)) : Prop :=
  ∀ v w, v ∈ vs → w ∈ vs →
    (0 ≤ v.(v_controller_reset_epoch))%Z ∧
    (values_intent_id sha1 v = values_intent_id sha1 w →
      v.(v_owner_domain_id) = w.(v_owner_domain_id) ∧ v.(v_ingress_request_id) = w.(v_ingress_request_id)) ∧
    (make_hub_command_id sha1 (values_intent_id sha1 v) v.(v_device_ref) =
     make_hub_command_id sha1 (values_intent_id sha1 w) w.(v_device_ref) →
      values_intent_id sha1 v = values_intent_id sha1 w).

Definition from_history (vs : list (intent_values D)) (l : ledger) : Prop :=
  ∀ k i, (k, i) ∈ l → ∃ v, v ∈ vs ∧ i.(ingress_request_id) = v.(v_ingress_request_id) ∧
    i.(i_owner_domain_id) = v.(v_owner_domain_id) ∧ i.(i_device_ref) = v.(v_device_ref).

Definition lsim (vs : list (intent_values D)) (l : ledger) (rows : list intent_row) : Prop :=
  rows = row_of <$> l.*2 ∧ ledger_wf l ∧ from_history vs l.

Lemma entry_intent_id l k i (v : intent_values D) : ledger_wf l → (k, i) ∈ l →
  i.(ingress_request_id) = v.(v_ingress_request_id) → i.(i_owner_domain_id) = v.(v_owner_domain_id) →
  k = values_intent_id sha1 v ∧ i.(intent_id) = values_intent_id sha1 v.
Proof.
  intros [_ Hw] Hin E1 E2. destruct (Hw k i Hin) as (-> & Hid & _). split; rewrite Hid; unfold values_intent_id; by rewrite E1, E2.
Qed.

(** The pair of the UNIQUE constraint selects what the identity selects. *)
Lemma find_pair vs l v : collision_free vs → ledger_wf l → from_history vs l → v ∈ vs →
  next_or_none (λ r, bool_decide (r.(c_owner_domain_id) = v.(v_owner_domain_id)) &&
                     bool_decide (r.(c_ingress_request_id) = v.(v_ingress_request_id))) (row_of <$> l.*2) =
  row_of <$> dict_get (values_intent_id sha1 v) l.
Proof.
  intros Hc Hw Hf Hv. rewrite next_or_none_fmap. f_equal. apply dict_get_next.
  intros k i Hin. cbn. destruct (Hf k i Hin) as (w & Hwin & E1 & E2 & _).
  destruct (entry_intent_id l k i w Hw Hin E1 E2) as [-> _].
  destruct (Hc v w Hv Hwin) as (_ & Hinj & _). rewrite E1, E2.
  destruct (decide (values_intent_id sha1 v = values_intent_id sha1 w)) as [E|E].
  - destruct (Hinj E) as [-> ->]. by rewrite !bool_decide_eq_true_2.
  - rewrite (bool_decide_eq_false_2 (values_intent_id sha1 v = _)) by done. apply andb_false_iff.
    rewrite !bool_decide_eq_false. destruct (decide (w.(v_owner_domain_id) = v.(v_owner_domain_id))); [|by left].
    right. intros E'. apply E. unfold values_intent_id. congruence.
Qed.

Lemma no_conflict vs l v : collision_free vs → ledger_wf l → from_history vs l → v ∈ vs →
  dict_get (values_intent_id sha1 v) l = None →
  existsb (row_conflict (new_row sha1 ref_json v)) (row_of <$> l.*2) = false.
Proof.
  intros Hc Hw Hf Hv Hn. apply existsb_elem_false. intros x (i & -> & ([k i'] & -> & Hin)%list_elem_of_fmap)%list_elem_of_fmap.
  cbn [snd]. destruct (Hf k i' Hin) as (w & Hwin & E1 & E2 & E3).
  destruct (entry_intent_id l k i' w Hw Hin E1 E2) as [-> Ei].
  assert (values_intent_id sha1 v ≠ values_intent_id sha1 w) as Hne.
  { intros E. apply dict_get_None in Hn. apply Hn. rewrite E. apply list_elem_of_fmap. by exists (values_intent_id sha1 w, i'). }
  destruct (Hc v w Hv Hwin) as (_ & Hinj & Hcmd). unfold row_conflict, row_of, new_row. cbn.
  rewrite Ei, E1, E2. destruct (proj2 Hw _ _ Hin) as (_ & _ & ->). rewrite Ei, E3.
  rewrite (bool_decide_eq_false_2 (values_intent_id sha1 w = _)) by congruence.
  rewrite (bool_decide_eq_false_2 (make_hub_command_id _ _ _ = _)) by (intros E; apply Hne, Hcmd; by rewrite E).
  cbn [orb]. apply andb_false_iff. rewrite !bool_decide_eq_false.
  destruct (decide (w.(v_owner_domain_id) = v.(v_owner_domain_id))); [|by left].
  right. intros E'. apply Hne. unfold values_intent_id. congruence.
Qed.

Lemma lsim_create vs l rows v : collision_free vs → v ∈ vs → lsim vs l rows →
  let '(r, l') := create v l in
  ∃ rows', sled_get_or_create sha1 sha256_hex ref_json parse_ref parse_result v rows = (r, rows') ∧ lsim vs l' rows'.
Proof.
  intros Hc Hv (-> & Hw & Hf). pose proof (create_keeps v l Hw) as [Hw' _]. rewrite create_run in *.
  unfold sled_get_or_create. rewrite bind_guard. destruct (hash_ok _ _); cbn [negb]; [|by eexists].
  unfold transaction. rewrite bind_gets. unfold id. rewrite (find_pair vs l v Hc Hw Hf Hv).
  destruct (dict_get (values_intent_id sha1 v) l) as [i|] eqn:E; cbn [fmap option_fmap option_map].
  - unfold lift. rewrite decode_row_of, bind_mret_lift, bind_guard.
    destruct (same_content i v); cbn [negb]; by eexists.
  - unfold insert_row. rewrite bind_assoc, bind_gets, bind_assoc, bind_guard. unfold id.
    rewrite (no_conflict vs l v Hc Hw Hf Hv E). destruct (Hc v v Hv Hv) as (He & _).
    assert ((c_controller_reset_epoch (new_row sha1 ref_json v) <? 0)%Z = false) as -> by (apply Z.ltb_ge; exact He).
    cbn [orb]. rewrite bind_modify. eexists. split; [reflexivity|]. cbn [snd] in Hw'.
    apply dict_get_None in E. split_and!; [|done|].
    + by rewrite dict_set_fresh, !fmap_app.
    + intros k i. rewrite dict_set_fresh by done. intros [Hin|Hin]%elem_of_app; [exact (Hf _ _ Hin)|].
      apply list_elem_of_singleton in Hin as [= -> ->]. by exists v.
Qed.

Lemma lsim_mark vs l rows k r now : lsim vs l rows →
  let '(x, l') := mark k r now l in
  ∃ rows', sled_mark_hub_committed parse_ref result_json parse_result k r now rows = (x, rows') ∧ lsim vs l' rows'.
Proof.
  intros (-> & Hw & Hf). pose proof (mark_keeps k r now l Hw) as [Hw' _]. rewrite mark_run in *.
  unfold sled_mark_hub_committed, transaction. rewrite bind_gets.
  assert (next_or_none (λ x, bool_decide (x.(c_intent_id) = k)) (row_of <$> l.*2) = row_of <$> dict_get k l) as ->.
  { rewrite next_or_none_fmap. f_equal. apply dict_get_next. intros k' i Hin.
    destruct (proj2 Hw k' i Hin) as (-> & _). cbn. by apply bool_decide_ext. }
  destruct (dict_get k l) as [i|] eqn:E; cbn [fmap option_fmap option_map]; [|by eexists].
  unfold lift. rewrite decode_row_of, bind_mret_lift, bind_guard. destruct (result_conflicts i r); [by eexists|].
  rewrite bind_modify. eexists. split; [reflexivity|]. split_and!; [|done|].
  - assert (k ∈ l.*1) as Hk.
    { apply dict_get_elem in E. apply list_elem_of_fmap. by exists (k, i). }
    rewrite dict_set_update_where by (try exact (proj1 Hw); done). unfold update_where.
    rewrite <- !list_fmap_compose. apply list_fmap_ext. intros n [k' j] Hn%list_elem_of_lookup_2. cbn.
    destruct (proj2 Hw k' j Hn) as (Ek & _). rewrite <- Ek. destruct (decide (k' = k)) as [->|Hne].
    + rewrite !bool_decide_eq_true_2 by done. cbn.
      apply (dict_get_Some k j l (proj1 Hw)) in Hn. assert (i = j) as <- by congruence. done.
    + by rewrite !bool_decide_eq_false_2.
  - intros k' j Hin. apply (elem_of_dict_set k _ l (k', j) (proj1 Hw)) in Hin as [[= -> ->]|[_ Hin]]; [|exact (Hf _ _ Hin)].
    destruct (Hf k i (dict_get_elem _ _ _ E)) as (v & Hv & H1 & H2 & H3). by exists v.
Qed.
End Sqlite.
End Ledger.

(** The requests a history creates intents for. *)
Definition creates {D H} (c : ledger_call (D := D) (H := H)) : list (intent_values D) :=
  match c with LCreate v => [v] | LCommit _ _ _ => [] end.

(** *** Properties *)

(** C14: the SQLite ledger refines the in-memory one.  Over any history of
    calls whose identifiers do not collide, each call is answered by both with
    the same intent or the same error; the codec of the JSON columns is only
    assumed to read back what it wrote. *)
Theorem sqlite_ledger_refines_memory {D H} `{!DeviceReference D} `{!HubRevocation H}
    sha1 sha256_hex (ref_json : D → string) parse_ref (result_json : H → string) parse_result calls :
  (∀ d, parse_ref (ref_json d) = Ok d) → (∀ r, parse_result (result_json r) = Ok r) →
  collision_free sha1 (calls ≫= creates) →
  (run_ledger (RemovalIntentStore0 := memory sha1 sha256_hex) calls []).1 =
  (run_ledger (RemovalIntentStore0 := sqlite sha1 sha256_hex ref_json parse_ref result_json parse_result) calls []).1.
Proof.
  intros Hpr Hph Hc. set (vs := calls ≫= creates) in Hc.
  assert (∀ cs l rows, (∀ v, v ∈ cs ≫= creates → v ∈ vs) → lsim sha1 ref_json result_json vs l rows →
    (run_ledger (RemovalIntentStore0 := memory sha1 sha256_hex) cs l).1 =
    (run_ledger (RemovalIntentStore0 := sqlite sha1 sha256_hex ref_json parse_ref result_json parse_result) cs rows).1) as Hind.
  { induction cs as [|c cs IH]; intros l rows Hin Hs; [done|]. cbn [run_ledger].
    assert (∃ rows', run_ledger_call (RemovalIntentStore0 := sqlite sha1 sha256_hex ref_json parse_ref result_json parse_result) c rows =
        ((run_ledger_call (RemovalIntentStore0 := memory sha1 sha256_hex) c l).1, rows') ∧
      lsim sha1 ref_json result_json vs (run_ledger_call (RemovalIntentStore0 := memory sha1 sha256_hex) c l).2 rows')
      as (rows' & E & Hs').
    { destruct c as [v|k r now].
      - assert (v ∈ vs) as Hv by (apply Hin; rewrite bind_cons; apply elem_of_app; left; by left).
        pose proof (lsim_create sha1 sha256_hex ref_json parse_ref result_json parse_result Hpr Hph vs l rows v Hc Hv Hs) as Hx.
        cbn [run_ledger_call get_or_create memory memory_ledger].
        by destruct (mled_get_or_create sha1 sha256_hex v l).
      - pose proof (lsim_mark sha1 ref_json parse_ref result_json parse_result Hpr Hph vs l rows k r now Hs) as Hx.
        cbn [run_ledger_call mark_hub_committed memory memory_ledger].
        by destruct (mled_mark_hub_committed k r now l). }
    rewrite E. destruct (run_ledger_call c l) as [x l'] eqn:El. cbn [fst snd] in *.
    assert (∀ v, v ∈ cs ≫= creates → v ∈ vs) as Hin'.
    { intros v Hv. apply Hin. rewrite bind_cons. apply elem_of_app. by right. }
    specialize (IH l' rows' Hin' Hs').
    destruct (run_ledger cs l') as [xs l2], (run_ledger cs rows') as [ys r2]. cbn [fst] in *. by f_equal. }
  apply Hind; [done|]. split_and!; [done|split; [constructor|]|]; intros k i Hki; by apply not_elem_of_nil in Hki.
Qed.

(** Plain references and results, for the witnesses. *)
Definition plain_ref : DeviceReference string := {|
  device_instance_id := id; owner_domain_id := λ _, "owner-1"; owner_domain_generation := λ _, 1%Z;
  claim_generation := λ _, 3%Z; trust_epoch := λ _, 4%Z |}.
Definition plain_result : HubRevocation string := {|
  hub_outcome := id; hub_command_id_of := id; hub_event_id := λ _, Some "event" |}.
#[local] Existing Instance plain_ref.
#[local] Existing Instance plain_result.

Definition sample_values (request : string) (t : Z) : intent_values string :=
  mkValues request "owner-1" "device-1" "ectrl-0" "eidolon-local-api" 0 "ctx" "ctx" "owner-removed" t.
(** A stand-in for SHA-1: a polynomial of the bytes, in twenty bytes. *)
Definition poly_digest (l : bytes) : bytes :=
  let h := fold_left (λ a c, N.land (a * 5 + N_of_ascii c) 65535)%N l 7%N in
  concat (replicate 10 [ascii_of_N (N.shiftr h 8); ascii_of_N (N.land h 255)]).
Definition sample_ledger_calls : list (ledger_call (D := string) (H := string)) :=
  [LCreate (sample_values "r1" 5); LCreate (sample_values "r2" 6);
   LCommit (values_intent_id poly_digest (sample_values "r1" 5)) "revoked" 7;
   LCreate (sample_values "r1" 8); LCommit "none" "revoked" 9].

Lemma sqlite_ledger_refines_memory_witness :
  let answers store := (run_ledger (RemovalIntentStore0 := store) sample_ledger_calls []).1 in
  answers (memory poly_digest string_of_list_ascii) =
  (run_ledger (RemovalIntentStore0 := sqlite poly_digest string_of_list_ascii id Ok id Ok) sample_ledger_calls []).1.
Proof.
  apply sqlite_ledger_refines_memory; [done|done|].
  assert (Forall (λ v, Forall (λ w, (0 ≤ v.(v_controller_reset_epoch))%Z ∧
    (values_intent_id poly_digest v = values_intent_id poly_digest w →
      v.(v_owner_domain_id) = w.(v_owner_domain_id) ∧ v.(v_ingress_request_id) = w.(v_ingress_request_id)) ∧
    (make_hub_command_id poly_digest (values_intent_id poly_digest v) v.(v_device_ref) =
     make_hub_command_id poly_digest (values_intent_id poly_digest w) w.(v_device_ref) →
      values_intent_id poly_digest v = values_intent_id poly_digest w))
    (sample_ledger_calls ≫= creates)) (sample_ledger_calls ≫= creates)) as Hall.
  { apply (bool_decide_unpack _). vm_compute. exact I. }
  intros v w Hv Hw. rewrite Forall_forall in Hall. specialize (Hall v Hv). rewrite Forall_forall in Hall. auto.
Defined.

(** A removal request means one thing for ever.  Once a request of an
    Owner was accepted, then after any further history a call with the same
    identity either returns an intent with the same target, Controller,
    context, reason and Hub command, and with the Hub result recorded since, or
    is refused; it leaves the ledger as it was.  The same content is always
    accepted again; content that differs anywhere, the bytes of the
    authorization context included, never is. *)
Theorem removal_request_frozen {D H} `{!DeviceReference D} `{!HubRevocation H}
    sha1 sha256_hex (calls calls' : list (ledger_call (D := D) (H := H))) v w i :
  let create := mled_get_or_create (H := H) sha1 sha256_hex in
  let run cs l := (run_ledger (RemovalIntentStore0 := memory sha1 sha256_hex) cs l).2 in
  (create v (run calls [])).1 = Ok i →
  values_intent_id sha1 w = values_intent_id sha1 v →
  let l' := run calls' (create v (run calls [])).2 in
  (create w l').2 = l' ∧ (∀ j, (create w l').1 = Ok j → frozen i j) ∧
  ((∃ j, (create w l').1 = Ok j) ↔ hash_ok sha256_hex w = true ∧ same_request v w).
Proof.
  intros create run Hi Hid l'. apply (create_again sha1 sha256_hex v i (run calls [])); [done| |done].
  assert (ledger_wf sha1 (run calls [])) as Hw.
  { apply history_keeps. split; [constructor|]. intros k x Hx. by apply not_elem_of_nil in Hx. }
  apply history_keeps. by apply create_keeps.
Qed.

Lemma removal_request_frozen_witness :
  let create := mled_get_or_create (H := string) poly_digest string_of_list_ascii in
  let v := sample_values "r1" 5 in
  let l' := (run_ledger (RemovalIntentStore0 := memory poly_digest string_of_list_ascii)
    [LCommit (values_intent_id poly_digest v) "revoked" 7] (create v []).2).2 in
  (∃ j, (create (sample_values "r1" 9) l').1 = Ok j) ∧
  (∀ w, values_intent_id poly_digest w = values_intent_id poly_digest v →
    w.(v_context_json) ≠ v.(v_context_json) → ¬ ∃ j, (create w l').1 = Ok j).
Proof.
  assert ((mled_get_or_create (H := string) poly_digest string_of_list_ascii (sample_values "r1" 5) []).1 =
    Ok (new_intent poly_digest (sample_values "r1" 5))) as Hc by (vm_compute; reflexivity).
  assert (values_intent_id poly_digest (sample_values "r1" 9) = values_intent_id poly_digest (sample_values "r1" 5))
    as Hid by (vm_compute; reflexivity).
  cbv zeta. split.
  - apply (removal_request_frozen (D := string) (H := string) poly_digest string_of_list_ascii []
      [LCommit (values_intent_id poly_digest (sample_values "r1" 5)) "revoked" 7] _ _ _ Hc Hid).
    split; [vm_compute; reflexivity|]. by repeat split.
  - intros w Hw Hne Hex.
    apply (removal_request_frozen (D := string) (H := string) poly_digest string_of_list_ascii []
      [LCommit (values_intent_id poly_digest (sample_values "r1" 5)) "revoked" 7] _ _ _ Hc Hw) in Hex
      as (_ & _ & _ & _ & _ & _ & _ & He). exact (Hne He).
Defined.
