(* ===== verification/RemovalWorkflow.v ===== *)
(** * The device removal workflow

    [ControlPlaneService.remove_controller_device] of
    [app/control_plane/service.py] and its helpers, against the ledger of
    RemovalIntents.v and the authorities it observes: Hub, which revokes, the
    Kernel, which mounts, and the clocks.  The workflow is cut into the three
    phases the source separates by its [try] blocks. *)

From S2P Require Import Prelude Encoding Json Lifecycle RemovalIntents.

(** What the code reads of a Kernel mount and of the SDK's erase status. *)
Record Mount := mkMount { mount_device_id : string; mount_active : bool; mount_revision : Z }.
Record EraseStatus := mkErase {
  erase_state_of : string; terminal_result : option string; erase_operation_id : string }.

(** The Kernel's listing, which more than one workflow reads. *)
Class KernelMounts (X : Type) := { kernel_list_mounts : string → M X (list Mount) }.

(** [_owner_mount] *)
Definition owner_mount {X} `{!KernelMounts X} (owner device : string) (active_only : bool) : M X (option Mount) :=
  mounts ← kernel_list_mounts owner;
  mret (next_or_none (λ m, bool_decide (m.(mount_device_id) = device) &&
                           (m.(mount_active) || negb active_only)) mounts).

(** The bounded contexts the workflow calls, over a state of their own. *)
Class RemovalAuthorities (D H X : Type) := {
  hub_revoke : D → string → string → string → string → M X H;
  hub_get_operation : D → string → string → M X EraseStatus;
  removal_mounts :: KernelMounts X;
  wall_clock : M X Z;
  monotonic_clock : M X Z }.

(** ** Results *)

Record WorkflowFailure := mkFailure {
  wf_authority : string; wf_kind : string; wf_detail : string; wf_code : option string;
  wf_upstream_status : option Z; wf_retryable : bool; wf_refusal_kind : string }.
Record WorkflowStep := mkStep {
  step_name : string; step_state : string; step_request_id : option string; step_revision : option Z;
  step_failure : option WorkflowFailure }.
Record RemovalCondition := mkCondition {
  cond_name : string; cond_state : string; cond_authority : string; cond_ref : option string;
  observed_at : Z }.
Record DeviceRemovalResult (D H : Type) := mkRemovalResult {
  res_request_id : string; res_intent_id : string; res_device_ref : D;
  outcome : string; completed_stage : string; recovery : string;
  steps : list WorkflowStep; res_hub : option H; conditions : list RemovalCondition }.
Arguments mkRemovalResult {D H}.
Arguments res_request_id {D H}.
Arguments res_intent_id {D H}.
Arguments res_device_ref {D H}.
Arguments outcome {D H}.
Arguments completed_stage {D H}.
Arguments recovery {D H}.
Arguments steps {D H}.
Arguments res_hub {D H}.
Arguments conditions {D H}.

(** [PUBLIC_REFUSAL_KIND] *)
Definition PUBLIC_REFUSAL_KIND : list (string * string) :=
  [("unauthorized", "denied"); ("forbidden", "denied"); ("not_found", "not_found");
   ("conflict", "conflict"); ("invalid_request", "invalid"); ("unavailable", "not_running");
   ("runtime_missing", "not_running"); ("upstream_failure", "upstream");
   ("contract_violation", "upstream"); ("configuration", "not_configured")].

(** [AuthorityFailure.to_wire], with the kind of [to_refusal], whose other
    members repeat these. *)
Definition to_wire (f : authority_failure) : result WorkflowFailure :=
  match dict_get f.(af_kind) PUBLIC_REFUSAL_KIND with
  | Some refusal => Ok (mkFailure f.(af_authority) f.(af_kind) f.(af_detail) f.(af_code) f.(af_upstream_status)
                          f.(af_retryable) refusal)
  | None => Raise (KeyError f.(af_kind))
  end.

Section Workflow.
Context {D H L X : Type} `{!DeviceReference D} `{!HubRevocation H}
        `{!RemovalIntentStore D H L} `{!RemovalAuthorities D H X}.
Context (sha256_hex : bytes → string).
(** [model_dump(mode="json")] of the delegation. *)
Context (dump_context : RemovalOwnerAuthorizationContext D → doc).
(** [hub_credentials.issue_removal_intent], when configured: Controller,
    intent, target, business Owner. *)
Context (hub_credentials : option (string → string → D → string → result string)).
Context (observation_timeout : Z) (fuel : nat).

Abbreviation W := (L * X)%type.
Definition in_ledger {A} (c : M L A) : M W A := zoom fst (λ l w, (l, w.2)) c.
Definition in_authorities {A} (c : M X A) : M W A := zoom snd (λ x w, (w.1, x)) c.

Definition context_json (c : RemovalOwnerAuthorizationContext D) : string :=
  string_of_list_ascii (dumps false (dump_context c)).

(** *** Recording the intent *)

Definition conflict (msg : string) : exn := refuse "hub" "conflict" msg 409 false.

(** What [get_or_create] is called with. *)
Definition removal_values (payload : ControllerDeviceRemovalRequest) (workload : string)
    (context : RemovalOwnerAuthorizationContext D) (now : Z) : intent_values D :=
  let target := context.(owner_authorization_context).(oc_target) in
  mkValues payload.(rq_request_id) (owner_domain_id target) target payload.(rq_controller_id)
    workload context.(rc_reset_epoch) (context_json context)
    (sha256_hex (list_ascii_of_string (context_json context))) payload.(rq_reason) now.

Definition record_intent (payload : ControllerDeviceRemovalRequest) (workload : string)
    (context : RemovalOwnerAuthorizationContext D) : M W (RemovalIntent D H) :=
  now ← in_authorities wall_clock;
  intent ← catch (in_ledger (get_or_create (removal_values payload workload context now)))
    (λ e, match e with
          | ValueError msg | ValidationError msg | JSONDecodeError msg => Some (raise (conflict msg))
          | _ => None
          end);
  guard_py (negb (bool_decide
      (intent.(intent_id) = context.(owner_authorization_context).(oc_intent_id))))
    (conflict "Removal intent identity changed") ;;
  mret intent.

(** *** The revocation *)

(** The body of the first [try]: the intent as committed. *)
Definition commit_revocation (authorization : string) (intent : RemovalIntent D H)
    : M W (RemovalIntent D H * H) :=
  match intent.(hub_result) with
  | Some hub => mret (intent, hub)
  | None =>
      hub ← in_authorities (hub_revoke intent.(i_device_ref) intent.(reason) intent.(hub_command_id)
                              intent.(intent_id) authorization);
      now ← in_authorities wall_clock;
      intent ← in_ledger (mark_hub_committed intent.(intent_id) hub now);
      mret (intent, hub)
  end.

(** Its [except]: Hub did not revoke. *)
Definition revocation_failed (payload : ControllerDeviceRemovalRequest) (intent : RemovalIntent D H)
    (failure : WorkflowFailure) : M W (DeviceRemovalResult D H) :=
  t1 ← in_authorities wall_clock;
  t2 ← in_authorities wall_clock;
  t3 ← in_authorities wall_clock;
  mret (mkRemovalResult payload.(rq_request_id) intent.(intent_id) intent.(i_device_ref)
    (if failure.(wf_retryable) then "accepted" else "blocked") "received"
    (if failure.(wf_retryable) then "retry-forward-same-request-id" else "operator-action-required")
    [mkStep "hub_revocation" "failed" (Some intent.(hub_command_id)) None (Some failure)] None
    [mkCondition "platform_access_revoked" "false" "hub" (Some intent.(hub_command_id)) t1;
     mkCondition "mount_removed" "unknown" "kernel" None t2;
     mkCondition "device_erase_acknowledged" "unknown" "device-control" None t3]).

(** *** Observation *)

Definition still_mounted (m : option Mount) : bool :=
  match m with Some m => m.(mount_active) | None => false end.

(** [_wait_for_mount_removal]: one read of the Kernel per turn. *)
Fixpoint poll_mount (n : nat) (owner device : string) (deadline : Z) : M X (option Mount) :=
  match n with
  | 0 => raise (RuntimeError "still waiting")
  | S n' =>
      mount ← owner_mount owner device false;
      if still_mounted mount then
        now ← monotonic_clock;
        if (deadline <=? now)%Z then mret mount else poll_mount n' owner device deadline
      else mret mount
  end.
Definition wait_for_mount_removal (owner device : string) : M X (option Mount) :=
  now ← monotonic_clock; poll_mount fuel owner device (now + observation_timeout)%Z.

Definition observe_device_erase (intent : RemovalIntent D H) (hub : H) (authorization : string)
    : M X (string * option string) :=
  match hub_event_id hub with
  | None => mret ("unknown", None)
  | Some event_id =>
      catch
        (operation ← hub_get_operation intent.(i_device_ref) event_id authorization;
         mret (if bool_decide (operation.(erase_state_of) = "acknowledged") &&
                  bool_decide (operation.(terminal_result) = Some "erased") then "true" else "false",
               Some operation.(erase_operation_id)))
        (λ e, match e with AuthorityFailure _ => Some (mret ("unknown", Some event_id)) | _ => None end)
  end.

(** [_removal_conditions] *)
Definition removal_conditions (hub : H) (mount_state erase_state : string) (erase_ref : option string)
    (now : Z) : list RemovalCondition :=
  [mkCondition "platform_access_revoked" "true" "hub"
     (Some (match hub_event_id hub with
            | Some e => if bool_decide (e = "") then hub_command_id_of hub else e
            | None => hub_command_id_of hub
            end)) now;
   mkCondition "mount_removed" mount_state "kernel" None now;
   mkCondition "device_erase_acknowledged" erase_state "device-control" erase_ref now].

Definition observe_removal (payload : ControllerDeviceRemovalRequest) (authorization : string)
    (intent : RemovalIntent D H) (hub : H) : M X (DeviceRemovalResult D H) :=
  let steps := [mkStep "hub_revocation" (hub_outcome hub) (Some intent.(hub_command_id)) None None] in
  let result outcome stage recovery conditions :=
    mkRemovalResult payload.(rq_request_id) intent.(intent_id) intent.(i_device_ref)
      outcome stage recovery steps (Some hub) conditions in
  mount ← catch (m ← wait_for_mount_removal payload.(rq_owner_id) payload.(rq_device_id); mret (Some m))
    (λ e, match e with AuthorityFailure _ => Some (mret None) | _ => None end);
  match mount with
  | None =>
      t ← wall_clock;
      mret (result "accepted" "claim_revoked" "retry-forward-same-request-id"
              (removal_conditions hub "unknown" "unknown" None t))
  | Some mount =>
      let removed := negb (still_mounted mount) in
      '(erase_state, erase_ref) ← observe_device_erase intent hub authorization;
      t ← wall_clock;
      mret (result (if removed then "completed" else "accepted")
              (if removed then "converged" else "claim_revoked")
              (if removed then "none" else "retry-forward-same-request-id")
              (removal_conditions hub (if removed then "true" else "false") erase_state erase_ref t))
  end.

(** *** The workflow *)

Definition remove_controller_device (payload : ControllerDeviceRemovalRequest) (workload : string)
    (context : RemovalOwnerAuthorizationContext D) : M W (DeviceRemovalResult D H) :=
  match hub_credentials with
  | None => raise (refuse "hub" "configuration" "Hub Owner credential issuer is unavailable" 503 false)
  | Some issue_removal_intent =>
      intent ← record_intent payload workload context;
      authorization ← lift (issue_removal_intent payload.(rq_controller_id) intent.(intent_id)
                              intent.(i_device_ref) payload.(rq_owner_id));
      committed ← catch (r ← commit_revocation authorization intent; mret (inl r))
        (λ e, match e with
              | AuthorityFailure f => Some (f ← lift (to_wire f); mret (inr f))
              | _ => None
              end);
      match committed with
      | inr failure => revocation_failed payload intent failure
      | inl (intent, hub) => in_authorities (observe_removal payload authorization intent hub)
      end
  end.
End Workflow.
