(* ===== verification/Capability.v ===== *)
(** * The removal capability broker

    [lifecycle_workflow/capability.py]: the two Hub operations the workflow may
    ask the Admin process for, the broker that answers them over an
    authenticated socket, and the Hub client and credential issuer the workflow
    uses in their place. *)

From S2P Require Import Prelude Encoding Lifecycle RemovalIntents RemovalWorkflow.

Inductive capability_call (D : Type) :=
| RemovalCapabilityReady
| RevokeRemovalTarget (controller_id intent_id : string) (device_ref : D)
    (business_owner_id reason command_id : string)
| ObserveRemovalDelivery (controller_id intent_id : string) (device_ref : D)
    (source_claim_event_id : string).
Arguments RemovalCapabilityReady {D}.
Arguments RevokeRemovalTarget {D}.
Arguments ObserveRemovalDelivery {D}.

Record RemovalCapabilityProblem := mkCapabilityProblem {
  cp_kind : string; cp_detail : string; cp_status : Z }.
(** A reply carries exactly one of its four members. *)
Inductive capability_reply (H : Type) :=
| CReady
| CRevocation (r : H)
| CDelivery (o : EraseStatus)
| CProblem (p : RemovalCapabilityProblem).
Arguments CReady {H}.
Arguments CRevocation {H}.
Arguments CDelivery {H}.
Arguments CProblem {H}.

(** ** The marker that stands for a credential *)

(** [BrokerMarkerIssuer.issue_removal_intent] *)
Definition broker_marker (controller_id intent_id business_owner_id : string) : string :=
  "broker:" ++ controller_id ++ ":" ++ intent_id ++ ":" ++ business_owner_id.

Definition marker_invalid : exn :=
  refuse "hub" "configuration" "Broker marker is invalid" 503 false.

(** [_broker_marker] *)
Definition parse_broker_marker (marker : string) : result (string * string * string) :=
  match string_of_list_ascii <$> split_on ":"%char (list_ascii_of_string marker) with
  | [b; c; i; o] => if bool_decide (b = "broker") then Ok (c, i, o) else Raise marker_invalid
  | _ => Raise marker_invalid
  end.

Section Broker.
Context {D H X : Type} `{!DeviceReference D} `{!HubRevocation H} `{!RemovalAuthorities D H X}.
(** The Admin service's issuer, when configured, and the SDK's
    [BusinessOwnerId]. *)
Context (hub_credentials : option (string → string → D → string → result string))
        (BusinessOwnerId : string → result string).

(** [call.business_owner_id], which only the revocation call declares. *)
Definition business_owner_id_of (call : capability_call D) : result string :=
  match call with
  | RevokeRemovalTarget _ _ _ o _ _ => Ok o
  | _ => Raise (AttributeError "object has no attribute 'business_owner_id'")
  end.

(** [_dispatch] *)
Definition dispatch_capability (call : capability_call D) : M X (capability_reply H) :=
  match call with
  | RemovalCapabilityReady => mret CReady
  | RevokeRemovalTarget controller intent device _ _ _ | ObserveRemovalDelivery controller intent device _ =>
      match hub_credentials with
      | None => raise (refuse "hub" "configuration" "Hub issuer unavailable" 503 false)
      | Some issue =>
          owner ← lift (o ← business_owner_id_of call; BusinessOwnerId o);
          authorization ← lift (issue controller intent device owner);
          match call with
          | RevokeRemovalTarget _ _ _ _ reason command =>
              r ← hub_revoke device reason command intent authorization; mret (CRevocation r)
          | ObserveRemovalDelivery _ _ _ event =>
              o ← hub_get_operation device event authorization; mret (CDelivery o)
          | RemovalCapabilityReady => mret CReady
          end
      end
  end.

(** The [except] clauses of [_handle], in order. *)
Definition broker_problem (e : exn) : RemovalCapabilityProblem :=
  if os_or_runtime e then
    mkCapabilityProblem "unauthorized" "Lifecycle Workflow authentication failed" 401
  else
    match e with
    | ValidationError _ | ValueError _ | JSONDecodeError _ | IncompleteReadError =>
        mkCapabilityProblem "invalid_request" "Removal capability request is invalid" 422
    | AuthorityFailure f => mkCapabilityProblem f.(af_kind) f.(af_detail) f.(af_status_code)
    | _ => mkCapabilityProblem "unavailable" "Removal capability broker is unavailable" 503
    end.

(** What [RemovalCapabilityProblem] takes. *)
Definition capability_problem_fits (p : RemovalCapabilityProblem) : bool :=
  (1 <=? str_len p.(cp_kind)) && (str_len p.(cp_kind) <=? 64) &&
  (1 <=? str_len p.(cp_detail)) && (str_len p.(cp_detail) <=? 512) &&
  (400 <=? p.(cp_status))%Z && (p.(cp_status) <=? 599)%Z.

(** [_handle], from the peer the kernel names and the call the frame holds; a
    problem its model refuses is raised by the clause that builds it, and the
    connection closes without an answer. *)
Definition handle_capability (workflow_uid : Z) (peer : result UnixPeerCredential)
    (call : result (capability_call D)) (x : X) : option (capability_reply H) * X :=
  match (w ← lift (c ← peer; authorize_peer workflow_uid "eidolon-lifecycle-workflow" c);
         guard_py (negb (bool_decide (w.(principal_id) = "eidolon-lifecycle-workflow")))
           (PermissionError "workflow principal is not authorized") ;;
         call ← lift call;
         dispatch_capability call) x with
  | (Ok r, x') => (Some r, x')
  | (Raise e, x') =>
      (let p := broker_problem e in if capability_problem_fits p then Some (CProblem p) else None, x')
  end.
End Broker.

(** ** [BrokeredRemovalHubClient] *)

Section Client.
Context {D H X : Type}.
(** One exchange on the socket: what the broker answers, or how the transport
    failed. *)
Context (transport : capability_call D → M X (capability_reply H)).

Definition broker_unavailable : exn :=
  refuse "hub" "unavailable" "Removal capability broker is unavailable" 503 false.

Definition exchange (call : capability_call D) : M X (capability_reply H) :=
  reply ← catch (transport call)
    (λ e, match e with
          | OSError _ | PermissionError _ | TimeoutError | ValueError _ | ValidationError _
          | JSONDecodeError _ | IncompleteReadError => Some (raise broker_unavailable)
          | _ => None
          end);
  match reply with
  | CProblem p => raise (refuse "hub" p.(cp_kind) p.(cp_detail) p.(cp_status) false)
  | r => mret r
  end.

Definition client_ready : M X unit :=
  reply ← exchange RemovalCapabilityReady;
  match reply with
  | CReady => mret tt
  | _ => raise (refuse "hub" "unavailable" "Removal capability broker is not ready" 503 false)
  end.

Definition client_revoke (device : D) (reason command correlation authorization : string) : M X H :=
  '(controller, _, owner) ← lift (parse_broker_marker authorization);
  reply ← exchange (RevokeRemovalTarget controller correlation device owner reason command);
  match reply with CRevocation r => mret r | _ => raise AssertionError end.

Definition client_get_operation (device : D) (event authorization : string) : M X EraseStatus :=
  '(controller, intent, _) ← lift (parse_broker_marker authorization);
  reply ← exchange (ObserveRemovalDelivery controller intent device event);
  match reply with CDelivery o => mret o | _ => raise AssertionError end.
End Client.

(** The workflow daemon's authorities: Hub through the broker, the rest as
    they are. *)
Definition brokered {D H X : Type} `{!DeviceReference D} `{!HubRevocation H}
    (admin : RemovalAuthorities D H X)
    (hub_credentials : option (string → string → D → string → result string))
    (BusinessOwnerId : string → result string) (workflow_uid : Z) (peer : result UnixPeerCredential)
    : RemovalAuthorities D H X :=
  let transport call : M X (capability_reply H) := λ x,
    let '(r, x') := handle_capability hub_credentials BusinessOwnerId workflow_uid peer (Ok call) x in
    (match r with Some r => Ok r | None => Raise IncompleteReadError end, x') in
  {| hub_revoke := client_revoke transport;
     hub_get_operation := client_get_operation transport;
     removal_mounts := removal_mounts (RemovalAuthorities := admin);
     wall_clock := wall_clock (RemovalAuthorities := admin);
     monotonic_clock := monotonic_clock (RemovalAuthorities := admin) |}.
