(* ===== verification/RemovalProofs.v ===== *)
(** * The device removal workflow, proved

    What Hub is asked, what a reported outcome rests on, that a removal always
    returns, and what the workflow daemon loses by reaching Hub through the
    capability broker. *)

From S2P Require Import Prelude Encoding Json Lifecycle.
From S2P Require Import RemovalIntents RemovalLedger RemovalWorkflow Capability.

(** ** The conversation with the authorities *)

Inductive event (D : Type) :=
| Revoked (device : D) (reason command correlation : string)
| Listed (owner : string) (mounts : list Mount).
Arguments Revoked {D}.
Arguments Listed {D}.

(** Any authorities, with what is asked of Hub and what the Kernel answers kept
    in order.  They may raise anything at any call, which is also how a crash
    between two calls looks to the ledger. *)
Definition watched {D H X} (auth : RemovalAuthorities D H X) : RemovalAuthorities D H (list (event D) * X) :=
  {| hub_revoke := λ d r c k a s,
       let '(res, x) := hub_revoke d r c k a s.2 in (res, (s.1 ++ [Revoked d r c k], x));
     hub_get_operation := λ d e a, zoom snd (λ x s, (s.1, x)) (hub_get_operation d e a);
     removal_mounts := {| kernel_list_mounts := λ o s,
       let '(res, x) := kernel_list_mounts o s.2 in
       (res, (match res with Ok ms => s.1 ++ [Listed o ms] | Raise _ => s.1 end, x)) |};
     wall_clock := zoom snd (λ x s, (s.1, x)) wall_clock;
     monotonic_clock := zoom snd (λ x s, (s.1, x)) monotonic_clock |}.

(** The first mount the Kernel listed for the device, if any, is inactive. *)
Definition unmounted (device : string) (mounts : list Mount) : Prop :=
  still_mounted (next_or_none (λ m, bool_decide (m.(mount_device_id) = device)) mounts) = false.

Section Attempts.
Context {D H X : Type} `{!DeviceReference D} `{!HubRevocation H}.
Context (sha1 : bytes → bytes) (sha256_hex : bytes → string).
Context (dump_context : RemovalOwnerAuthorizationContext D → doc)
        (hub_credentials : option (string → string → D → string → result string))
        (observation_timeout : Z) (fuel : nat) (auth : RemovalAuthorities D H X).

Abbreviation ledger := (list (string * RemovalIntent D H)).
Abbreviation watch := (list (event D) * X)%type.
#[local] Instance the_ledger : RemovalIntentStore D H ledger := memory sha1 sha256_hex.
#[local] Instance the_watch : RemovalAuthorities D H watch := watched auth.

Definition attempt : Type :=
  ControllerDeviceRemovalRequest * string * RemovalOwnerAuthorizationContext D.
Definition run_attempt (a : attempt) : M (ledger * watch) (DeviceRemovalResult D H) :=
  remove_controller_device sha256_hex dump_context hub_credentials observation_timeout fuel a.1.1 a.1.2 a.2.
Fixpoint run_attempts (l : list attempt) (w : ledger * watch) : ledger * watch :=
  match l with
  | [] => w
  | a :: l' => run_attempts l' (run_attempt a w).2
  end.

(** What the ledger and the conversation keep to one another. *)
Class Kept (I : ledger → list (event D) → Prop) := {
  kept_wf : ∀ l ev, I l ev → ledger_wf sha1 l;
  kept_create : ∀ v l ev, I l ev → I (mled_get_or_create sha1 sha256_hex v l).2 ev;
  kept_mark : ∀ k r now l ev, I l ev → I (mled_mark_hub_committed k r now l).2 ev;
  kept_list : ∀ l ev o ms, I l ev → I l (ev ++ [Listed o ms]);
  kept_revoke : ∀ l ev i, I l ev → dict_get i.(intent_id) l = Some i → i.(hub_result) = None →
    I l (ev ++ [Revoked i.(i_device_ref) i.(reason) i.(hub_command_id) i.(intent_id)]) }.

Section Invariant.
Context (I : ledger → list (event D) → Prop) `{!Kept I}.

Definition held (w : ledger * watch) : Prop := I w.1 w.2.1.
Abbreviation failed := (λ (_ : exn) w, held w).

Lemma hoare_authority {A} (P : ledger * watch → Prop) (c : M X A) (E : exn → ledger * watch → Prop) :
  (∀ l ev x x', P (l, (ev, x)) → P (l, (ev, x'))) → (∀ e w, P w → E e w) →
  hoare P (in_authorities (zoom snd (λ x s, (s.1, x)) c)) (λ _, P) E.
Proof.
  intros HP HE [l [ev x]] Hs. unfold in_authorities, zoom. cbn [fst snd]. destruct (c x) as [[a|e] x'].
  - cbn. by eapply HP.
  - cbn. apply HE. by eapply HP.
Qed.

Definition recorded (i : RemovalIntent D H) (w : ledger * watch) : Prop :=
  held w ∧ dict_get i.(intent_id) w.1 = Some i.

Lemma hoare_record payload workload context :
  hoare held (record_intent sha256_hex dump_context payload workload context) recorded failed.
Proof.
  unfold record_intent. eapply hoare_bind; [apply hoare_authority; [done|done]|]. intros now.
  apply (hoare_bind _ _ recorded).
  - apply (hoare_catch _ _ _ _ _ (λ _, held)).
    + intros [l [ev x]] Hl. unfold in_ledger, zoom. cbn [fst snd].
      change (get_or_create ?v) with (mled_get_or_create (H := H) sha1 sha256_hex v).
      set (v := removal_values _ _ _ _ _ _). pose proof (kept_create v l ev Hl) as Hk.
      pose proof (kept_wf _ _ Hl) as Hw. rewrite create_run in *.
      destruct (hash_ok sha256_hex v); [|done]. destruct (dict_get _ l) as [i|] eqn:Ei.
      * destruct (same_content i v); [|done]. split; [done|]. cbn.
        destruct (proj2 Hw _ _ (dict_get_elem _ _ _ Ei)) as [<- _]. done.
      * split; [done|]. cbn. by rewrite dict_get_set, bool_decide_eq_true_2.
    + intros []; cbn; try done; intros s Hs; exact Hs.
  - intros i. eapply hoare_bind; [apply (hoare_guard _ _ _ (λ _, recorded i))|intros []; apply hoare_mret].
    + by intros s _ [? _].
    + done.
Qed.

(** A revocation that got through: its result is in the ledger. *)
Definition revoked (ih : RemovalIntent D H * H) (w : ledger * watch) : Prop :=
  held w ∧ dict_get ih.1.(intent_id) w.1 = Some ih.1 ∧ ih.1.(hub_result) = Some ih.2.
Definition unrevoked (i : RemovalIntent D H) (w : ledger * watch) : Prop :=
  held w ∧ dict_get i.(intent_id) w.1 = Some i ∧ i.(hub_result) = None.
Definition refused (e : exn) (i : RemovalIntent D H) (w : ledger * watch) : Prop :=
  held w ∧ (∀ f, e = AuthorityFailure f → unrevoked i w).

Lemma hoare_commit authorization i :
  hoare (recorded i) (commit_revocation authorization i)
    (λ ih w, revoked ih w ∧ ih.1.(intent_id) = i.(intent_id) ∧ ih.1.(i_device_ref) = i.(i_device_ref))
    (λ e w, refused e i w).
Proof.
  unfold commit_revocation. destruct (hub_result i) as [r|] eqn:Er.
  { intros w Hw. destruct Hw. cbn. by repeat split. }
  apply (hoare_bind _ _ (λ _, unrevoked i)).
  - intros [l [ev x]] [Hl Hd]. unfold in_authorities, zoom. cbn [fst snd hub_revoke the_watch watched].
    destruct (hub_revoke _ _ _ _ _ x) as [[h|e] x'].
    + split; [|done]. by apply kept_revoke.
    + assert (unrevoked i (l, (ev ++ [Revoked (i_device_ref i) (reason i) (hub_command_id i) (intent_id i)], x')))
        by (split; [by apply kept_revoke|done]). by split; [apply H0|].
  - intros h. eapply hoare_bind; [apply (hoare_authority (unrevoked i)); [done|]|].
    { intros e w Hw. split; [apply Hw|done]. }
    intros now [l [ev x]] (Hl & Hd & _). cbn [fst snd] in *. unfold mbind, M_bind, in_ledger, zoom. cbn [fst snd].
    change (mark_hub_committed ?a ?b ?c) with (mled_mark_hub_committed (D := D) (H := H) a b c).
    pose proof (kept_mark (intent_id i) h now l ev Hl) as Hk. pose proof (kept_wf _ _ Hl) as Hw.
    rewrite mark_run, Hd in *. unfold result_conflicts in *. rewrite Er in *. cbn.
    split; [|done]. split; [done|]. cbn. by rewrite dict_get_set, bool_decide_eq_true_2.
Qed.

(** *** What an observation reports *)

Lemma owner_mount_watch owner device ev x :
  match (owner_mount owner device false : M watch _) (ev, x) with
  | (Ok m, s) => ∃ ms, s.1 = ev ++ [Listed owner ms] ∧
      (still_mounted m = false → unmounted device ms)
  | (Raise _, s) => s.1 = ev
  end.
Proof.
  unfold owner_mount, mbind, M_bind. cbn [kernel_list_mounts removal_mounts the_watch watched snd fst].
  destruct (kernel_list_mounts owner x) as [[ms|e] x']; [|done]. cbn. exists ms. split; [done|].
  unfold unmounted. intros <-. f_equal. apply next_or_none_ext. intros m. by rewrite orb_true_r, andb_true_r.
Qed.

(** The conversation after an observation, started at [ev0]: only answers of
    the Kernel are added. *)
Definition listened (ev0 ev : list (event D)) : Prop :=
  ∃ l, ev = ev0 ++ l ∧ ∀ e, e ∈ l → ∃ o ms, e = Listed o ms.

Lemma listened_refl ev : listened ev ev.
Proof. exists []. rewrite app_nil_r. split; [done|]. by intros e ?%not_elem_of_nil. Qed.

Lemma listened_one ev0 ev o ms : listened ev0 ev → listened ev0 (ev ++ [Listed o ms]).
Proof.
  intros (l & -> & Hl). exists (l ++ [Listed o ms]). rewrite app_assoc. split; [done|].
  intros e [He|He%list_elem_of_singleton]%elem_of_app; eauto.
Qed.

Definition last_listing (owner device : string) (ev : list (event D)) : Prop :=
  ∃ ev' ms, ev = ev' ++ [Listed owner ms] ∧ unmounted device ms.

(** A call that leaves the conversation alone. *)
Lemma hoare_quiet {A} (c : M X A) (P Q : watch → Prop) (E : exn → watch → Prop) :
  (∀ s, P s → Q s) → (∀ ev x x', Q (ev, x) → Q (ev, x')) → (∀ e s, Q s → E e s) →
  hoare P (zoom snd (λ x s, (s.1, x)) c) (λ _, Q) E.
Proof.
  intros HP HQ HE [ev x] Hs%HP. unfold zoom. cbn [fst snd]. destruct (c x) as [[a|e] x']; cbn.
  - by eapply HQ.
  - apply HE. by eapply HQ.
Qed.

Definition heard (owner device : string) (ev0 : list (event D)) (m : option Mount) (s : watch) : Prop :=
  listened ev0 s.1 ∧ (still_mounted m = false → last_listing owner device s.1).

Lemma hoare_poll n owner device deadline ev0 :
  hoare (λ s : watch, listened ev0 s.1) (poll_mount n owner device deadline)
    (heard owner device ev0) (λ _ s, listened ev0 s.1).
Proof.
  induction n as [|n IH]; [by intros s|]. cbn [poll_mount].
  apply (hoare_bind _ _ (heard owner device ev0)).
  - intros [ev x] Hev. pose proof (owner_mount_watch owner device ev x) as Ho.
    destruct (owner_mount owner device false (ev, x)) as [[m|e] s]; [|by rewrite Ho].
    destruct Ho as (ms & Hs & Hu). unfold heard. rewrite Hs. split; [by apply listened_one|].
    intros Hm. by exists ev, ms; auto.
  - intros m. destruct (still_mounted m) eqn:Em; [|apply hoare_mret].
    apply (hoare_bind _ _ (λ _, heard owner device ev0 m)).
    + apply hoare_quiet; [done|done|]. by intros e s [? _].
    + intros now. destruct (_ <=? _)%Z; [apply hoare_mret|].
      eapply hoare_mono; [apply IH| |done|done]. by intros s [? _].
Qed.

Lemma hoare_wait owner device ev0 :
  hoare (λ s : watch, listened ev0 s.1) (wait_for_mount_removal observation_timeout fuel owner device)
    (heard owner device ev0) (λ _ s, listened ev0 s.1).
Proof.
  unfold wait_for_mount_removal. apply (hoare_bind _ _ (λ _ s, listened ev0 s.1)); [by apply hoare_quiet|].
  intros now. apply hoare_poll.
Qed.

Lemma hoare_erase i hub authorization (P Q : watch → Prop) (E : exn → watch → Prop) :
  (∀ s, P s → Q s) → (∀ ev x x', Q (ev, x) → Q (ev, x')) → (∀ e s, Q s → E e s) →
  hoare P (observe_device_erase i hub authorization) (λ _, Q) E.
Proof.
  intros HP HQ HE. unfold observe_device_erase. destruct (hub_event_id hub) as [e|]; [|by intros s Hs%HP].
  apply (hoare_catch _ _ _ _ _ (λ _, Q)).
  - apply (hoare_bind _ _ (λ _, Q)); [by apply hoare_quiet|]. by intros a s Hs.
  - intros []; cbn; first [exact (HE _) | by intros s Hs].
Qed.

(** What a result says is what was heard and recorded. *)
Definition reported (payload : ControllerDeviceRemovalRequest) (r : DeviceRemovalResult D H)
    (l : ledger) (ev : list (event D)) : Prop :=
  ∃ i, dict_get r.(res_intent_id) l = Some i ∧ i.(i_device_ref) = r.(res_device_ref) ∧
  i.(hub_result) = r.(res_hub) ∧
  match r.(res_hub) with
  | None => r.(completed_stage) = "received" ∧ (r.(outcome) = "accepted" ∨ r.(outcome) = "blocked")
  | Some _ =>
      (r.(outcome) = "completed" ∧ r.(completed_stage) = "converged" ∧ r.(recovery) = "none" ∧
        last_listing payload.(rq_owner_id) payload.(rq_device_id) ev) ∨
      (r.(outcome) = "accepted" ∧ r.(completed_stage) = "claim_revoked" ∧
        r.(recovery) = "retry-forward-same-request-id")
  end.

Definition observed (payload : ControllerDeviceRemovalRequest) (i : RemovalIntent D H) (hub : H)
    (ev0 : list (event D)) (r : DeviceRemovalResult D H) (s : watch) : Prop :=
  listened ev0 s.1 ∧ r.(res_intent_id) = i.(intent_id) ∧ r.(res_device_ref) = i.(i_device_ref) ∧
  r.(res_hub) = Some hub ∧
  ((r.(outcome) = "completed" ∧ r.(completed_stage) = "converged" ∧ r.(recovery) = "none" ∧
    last_listing payload.(rq_owner_id) payload.(rq_device_id) s.1) ∨
   (r.(outcome) = "accepted" ∧ r.(completed_stage) = "claim_revoked" ∧
    r.(recovery) = "retry-forward-same-request-id")).

Lemma hoare_observe payload authorization i hub ev0 :
  hoare (λ s : watch, s.1 = ev0)
    (observe_removal observation_timeout fuel payload authorization i hub : M watch _)
    (observed payload i hub ev0) (λ _ s, listened ev0 s.1).
Proof.
  unfold observe_removal. set (owner := rq_owner_id payload). set (device := rq_device_id payload).
  apply (hoare_bind _ _ (λ m s, listened ev0 s.1 ∧
    match m with None => True | Some m => heard owner device ev0 m s end)).
  - apply (hoare_catch _ _ _ _ _ (λ _ s, listened ev0 s.1)).
    + eapply hoare_bind; [eapply hoare_mono; [apply (hoare_wait owner device ev0)| |done|done]|].
      * intros s <-. apply listened_refl.
      * intros m. intros s Hs. split; [apply Hs|done].
    + by intros [].
  - intros [m|]; cycle 1.
    { apply (hoare_bind _ _ (λ _ s, listened ev0 s.1)); [apply hoare_quiet; [by intros s [? _]|done|done]|].
      intros t s Hs. split; [done|]. cbn. auto 10. }
    apply (hoare_bind _ _ (λ _, heard owner device ev0 m)).
    { apply hoare_erase; [by intros s [_ ?]|done|]. by intros e s [? _]. }
    intros [es er]. apply (hoare_bind _ _ (λ _, heard owner device ev0 m)).
    { apply hoare_quiet; [done|done|]. by intros e s [? _]. }
    intros t s [Hl Hm]. split; [done|]. cbn. split_and!; [done..|].
    destruct (still_mounted m); cbn; [by right|]. left. auto.
Qed.

Lemma kept_listened l ev0 ev : I l ev0 → listened ev0 ev → I l ev.
Proof.
  intros HI (es & -> & He). revert ev0 HI. induction es as [|e es IH]; intros ev0 HI; [by rewrite app_nil_r|].
  destruct (He e) as (o & ms & ->); [left|]. replace (ev0 ++ Listed o ms :: es) with ((ev0 ++ [Listed o ms]) ++ es) by by rewrite <- app_assoc. apply IH.
  - intros e' He'. apply He. by right.
  - by apply kept_list.
Qed.

Lemma hoare_attempt (a : attempt) :
  hoare held (run_attempt a) (λ r w, held w ∧ reported a.1.1 r w.1 w.2.1) failed.
Proof.
  destruct a as [[payload workload] context]. unfold run_attempt, remove_controller_device. cbn [fst snd].
  destruct hub_credentials as [issue|]; [|by apply (hoare_raise _ _ failed)].
  eapply hoare_bind; [apply hoare_record|]. intros i.
  apply (hoare_bind _ _ (λ _, recorded i)).
  { apply hoare_lift; [done|]. by intros e _ s [? _]. }
  intros authorization.
  apply (hoare_bind _ _ (λ c w, match c with
    | inr _ => unrevoked i w
    | inl (j, hub) => revoked (j, hub) w ∧ j.(intent_id) = i.(intent_id) ∧ j.(i_device_ref) = i.(i_device_ref)
    end)).
  - apply (hoare_catch _ _ _ _ _ (λ e w, refused e i w)).
    + eapply hoare_bind; [apply hoare_commit|]. by intros [j hub] s Hs.
    + intros []; cbn; try (intros s [? _]; done). intros s [Hs Hu]. specialize (Hu _ eq_refl).
      unfold to_wire. by destruct (dict_get _ _).
  - intros [[j hub]|failure].
    + intros [l [ev x]] [(Hl & Hd & Hr) [Hi Hdev]]. cbn [fst snd] in *. unfold in_authorities, zoom. cbn [fst snd].
      pose proof (hoare_observe payload authorization j hub ev (ev, x) eq_refl) as Ho.
      destruct (observe_removal _ _ _ _ _ _ _) as [[r|e] [ev' x']]; cbn in *.
      * destruct Ho as (Hls & H1 & H2 & H3 & H4). split; [by eapply kept_listened|].
        exists j. rewrite H1, H2, H3. by repeat split.
      * by eapply kept_listened.
    + unfold revocation_failed. do 3 (apply (hoare_bind _ _ (λ _, unrevoked i));
        [apply hoare_authority; [done|by intros e w [? _]]|intros ?]).
      intros w (Hw & Hd & Hr). split; [done|]. exists i. cbn. split_and!; try done. by destruct (wf_retryable _); auto.
Qed.

Lemma attempts_keep (l : list attempt) w : held w → held (run_attempts l w).
Proof.
  revert w. induction l as [|a l IH]; intros w Hw; [done|]. cbn [run_attempts]. apply IH.
  pose proof (hoare_attempt a w Hw) as Ha. destruct (run_attempt a w) as [[r|e] w']; cbn; [apply Ha|done].
Qed.
End Invariant.

(** *** The two invariants *)

(** Every revocation Hub was asked for is the one recorded under its identity. *)
Definition one_command (l : ledger) (ev : list (event D)) : Prop :=
  ledger_wf sha1 l ∧ ∀ d r c k, Revoked d r c k ∈ ev →
    ∃ i, dict_get k l = Some i ∧ i.(i_device_ref) = d ∧ i.(reason) = r ∧ i.(hub_command_id) = c.

Lemma one_command_grows l l' ev : one_command l ev → ledger_wf sha1 l' → grows l l' → one_command l' ev.
Proof.
  intros [_ Ho] Hw Hg. split; [done|]. intros d r c k Hin. destruct (Ho d r c k Hin) as (i & Hi & <- & <- & <-).
  destruct (Hg k i Hi) as (j & Hj & Hf). exists j. unfold frozen in Hf. destruct_and!. by split_and!.
Qed.

#[export] Instance one_command_kept : Kept one_command.
Proof.
  split.
  - by intros l ev [? _].
  - intros v l ev Ho. destruct (create_keeps (H := H) sha1 sha256_hex v l (proj1 Ho)). by eapply one_command_grows.
  - intros k r now l ev Ho. destruct (mark_keeps sha1 k r now l (proj1 Ho)). by eapply one_command_grows.
  - intros l ev o ms [Hw Ho]. split; [done|]. intros d r c k [Hin|Hin%list_elem_of_singleton]%elem_of_app; [eauto|done].
  - intros l ev i [Hw Ho] Hi _. split; [done|].
    intros d r c k [Hin|Hin%list_elem_of_singleton]%elem_of_app; [eauto|]. injection Hin as -> -> -> ->. by exists i.
Qed.

(** The revocations Hub was asked for under one identity. *)
Definition asks (k : string) (e : event D) : bool :=
  match e with Revoked _ _ _ k' => bool_decide (k' = k) | Listed _ _ => false end.
Definition asked (k : string) (ev : list (event D)) : list (event D) := List.filter (asks k) ev.

Lemma asked_app k ev ev' : asked k (ev ++ ev') = asked k ev ++ asked k ev'.
Proof. apply List.filter_app. Qed.

Definition settled (k : string) (r : H) (sent : list (event D)) (l : ledger) (ev : list (event D)) : Prop :=
  ledger_wf sha1 l ∧ (∃ i, dict_get k l = Some i ∧ i.(hub_result) = Some r) ∧ asked k ev = sent.

Lemma settled_grows k r sent l l' ev :
  settled k r sent l ev → ledger_wf sha1 l' → grows l l' → settled k r sent l' ev.
Proof.
  intros (_ & (i & Hi & Hr) & Hs) Hw Hg. destruct (Hg k i Hi) as (j & Hj & Hf). split_and!; [done| |done].
  exists j. split; [done|]. unfold frozen in Hf. destruct_and!. eauto.
Qed.

#[export] Instance settled_kept k r sent : Kept (settled k r sent).
Proof.
  split.
  - by intros l ev [? _].
  - intros v l ev Ho. destruct (create_keeps (H := H) sha1 sha256_hex v l (proj1 Ho)). by eapply settled_grows.
  - intros k' r' now l ev Ho. destruct (mark_keeps sha1 k' r' now l (proj1 Ho)). by eapply settled_grows.
  - intros l ev o ms (Hw & Hi & Hs). split_and!; [done..|]. by rewrite asked_app, app_nil_r.
  - intros l ev i (Hw & (j & Hj & Hr) & Hs) Hi Hn. split_and!; [done|by exists j|]. rewrite asked_app. cbn.
    rewrite bool_decide_eq_false_2; [by rewrite app_nil_r|]. intros <-. congruence.
Qed.
End Attempts.

(** *** A small world, for the witnesses *)

#[local] Existing Instance plain_ref.
#[local] Existing Instance plain_result.

Definition sample_request : ControllerDeviceRemovalRequest :=
  mkRemovalRequest "r1" "owner" "ectrl-0" "device-1" "owner-removed".
(** A delegation issued at some instant. *)
Definition sample_delegation (issued_at : Z) : RemovalOwnerAuthorizationContext string :=
  mkRemovalContext "eidolon-local-api" "eidolon-lifecycle-workflow" 0 0
    (mkOwnerContext "eidolon-lifecycle-workflow" "eidolon-admission" ["device.read"; "device.claim.revoke"]
       "ectrl-0" "controller" "owner-1" (removal_intent_id poly_digest "r1" "owner-1") "device-1"
       issued_at (issued_at + 300)).
Definition dump_sample (c : RemovalOwnerAuthorizationContext string) : doc :=
  DObj [("reset_epoch", DInt c.(rc_reset_epoch));
        ("issued_at", DInt c.(owner_authorization_context).(oc_issued_at))].
Definition sample_issuer : option (string → string → string → string → result string) :=
  Some (λ c i _ o, Ok (broker_marker c i o)).

(** What Hub answers next, and how often the device is still listed as
    mounted; the clock reads one more at every look. *)
Record sample_world := mkWorld { hub_answers : list (result string); mounted_for : nat; ticks : Z }.
Definition sample_authorities : RemovalAuthorities string string sample_world :=
  {| hub_revoke := λ _ _ _ _ _ x,
       match x.(hub_answers) with
       | [] => (Ok "revoked", x)
       | r :: l => (r, mkWorld l x.(mounted_for) x.(ticks))
       end;
     hub_get_operation := λ _ e _, mret (mkErase "acknowledged" (Some "erased") e);
     removal_mounts := {| kernel_list_mounts := λ _ x,
       (Ok [mkMount "device-1" (0 <? x.(mounted_for))%nat 1],
        mkWorld x.(hub_answers) (pred x.(mounted_for)) x.(ticks)) |};
     wall_clock := λ x, (Ok x.(ticks), mkWorld x.(hub_answers) x.(mounted_for) (x.(ticks) + 1));
     monotonic_clock := λ x, (Ok x.(ticks), mkWorld x.(hub_answers) x.(mounted_for) (x.(ticks) + 1)) |}.
Definition sample_run :=
  run_attempts poly_digest string_of_list_ascii dump_sample sample_issuer 3 10 sample_authorities.
(** A crash while Hub revokes, a refusal, then two retries. *)
Definition sample_attempts : list (attempt (D := string)) :=
  replicate 4 (sample_request, "eidolon-local-api", sample_delegation 5).
Definition sample_start : list (string * RemovalIntent string string) * (list (event string) * sample_world) :=
  ([], ([], mkWorld [Raise (RuntimeError "crash");
                     Raise (refuse "hub" "unavailable" "down" 503 true)] 1 0)).

(** *** Properties *)

(** C15: a removal asks Hub for one thing.  Over any attempts, with authorities
    that answer or fail in any way at any call, every revocation Hub was asked
    for under one intent names the same target, the same reason and the same
    command identity, the one derived from intent and target; and once Hub's
    result is recorded, no later attempt asks again. *)
Theorem one_command_per_intent {D H X} `{!DeviceReference D} `{!HubRevocation H}
    sha1 sha256_hex dump_context hub_credentials timeout fuel (auth : RemovalAuthorities D H X)
    (attempts : list attempt) (x : X) :
  let run := run_attempts sha1 sha256_hex dump_context hub_credentials timeout fuel auth in
  let w := run attempts ([], ([], x)) in
  (∀ d r c k d' r' c', Revoked d r c k ∈ w.2.1 → Revoked d' r' c' k ∈ w.2.1 → d = d' ∧ r = r' ∧ c = c') ∧
  (∀ d r c k, Revoked d r c k ∈ w.2.1 → c = make_hub_command_id sha1 k d) ∧
  (∀ k i hub more, dict_get k w.1 = Some i → i.(hub_result) = Some hub →
    asked k (run more w).2.1 = asked k w.2.1).
Proof.
  intros run w.
  assert (one_command sha1 w.1 w.2.1) as [Hw Ho].
  { apply (attempts_keep (X := X) sha1 sha256_hex dump_context hub_credentials timeout fuel auth (one_command sha1)).
    split; [split; [constructor|]; by intros k i ?%not_elem_of_nil|]. by intros d r c k ?%not_elem_of_nil. }
  split_and!.
  - intros d r c k d' r' c' H1 H2. destruct (Ho _ _ _ _ H1) as (i & Hi & <- & <- & <-).
    destruct (Ho _ _ _ _ H2) as (j & Hj & <- & <- & <-). assert (i = j) as <- by congruence. done.
  - intros d r c k H1. destruct (Ho _ _ _ _ H1) as (i & Hi & <- & _ & <-).
    destruct (proj2 Hw _ _ (dict_get_elem _ _ _ Hi)) as (-> & _ & ->). done.
  - intros k i hub more Hi Hr.
    assert (settled sha1 k hub (asked k w.2.1) (run more w).1 (run more w).2.1) as (_ & _ & Hs); [|done].
    apply (attempts_keep (X := X) sha1 sha256_hex dump_context hub_credentials timeout fuel auth
      (settled sha1 k hub (asked k w.2.1))). split_and!; [done|by exists i|done].
Qed.

Lemma one_command_per_intent_witness :
  let w := sample_run sample_attempts sample_start in
  length (asked (removal_intent_id poly_digest "r1" "owner-1") w.2.1) = 3 ∧
  asked (removal_intent_id poly_digest "r1" "owner-1") (sample_run sample_attempts w).2.1 =
  asked (removal_intent_id poly_digest "r1" "owner-1") w.2.1.
Proof.
  assert (length (asked (removal_intent_id poly_digest "r1" "owner-1") (sample_run sample_attempts sample_start).2.1) = 3 ∧
    ∃ i hub, dict_get (removal_intent_id poly_digest "r1" "owner-1") (sample_run sample_attempts sample_start).1 = Some i ∧
    i.(hub_result) = Some hub) as [Hl (i & hub & Hi & Hr)].
  { split; [vm_compute; reflexivity|]. eexists _, _. split; vm_compute; reflexivity. }
  split; [exact Hl|].
  exact (proj2 (proj2 (one_command_per_intent poly_digest string_of_list_ascii dump_sample sample_issuer 3 10
    sample_authorities sample_attempts _)) _ i hub sample_attempts Hi Hr).
Defined.

(** C16: a reported outcome rests on what was recorded and heard.  Whatever an
    attempt reports, from a ledger that earlier attempts left, the intent it
    names is in the ledger with the target it names and with exactly the Hub
    result it reports; without one the removal was received and nothing more,
    and a removal is "completed" only if the Kernel's last answer lists the
    device as unmounted. *)
Theorem removal_report_sound {D H X} `{!DeviceReference D} `{!HubRevocation H}
    sha1 sha256_hex dump_context hub_credentials timeout fuel (auth : RemovalAuthorities D H X)
    (attempts : list attempt) (a : attempt) (x : X) r w' :
  run_attempt sha1 sha256_hex dump_context hub_credentials timeout fuel auth a
    (run_attempts sha1 sha256_hex dump_context hub_credentials timeout fuel auth attempts ([], ([], x))) =
    (Ok r, w') →
  reported a.1.1 r w'.1 w'.2.1.
Proof.
  intros Hr. pose proof (hoare_attempt sha1 sha256_hex dump_context hub_credentials timeout fuel auth
    (one_command sha1) a) as Ht.
  match type of Hr with _ ?w = _ => specialize (Ht w); rewrite Hr in Ht end. apply Ht.
  apply (attempts_keep (X := X) sha1 sha256_hex dump_context hub_credentials timeout fuel auth (one_command sha1)).
  split; [split; [constructor|]; by intros k i ?%not_elem_of_nil|]. by intros d r' c k ?%not_elem_of_nil.
Qed.

Lemma removal_report_sound_witness :
  ∃ r w', run_attempt poly_digest string_of_list_ascii dump_sample sample_issuer 3 10 sample_authorities
    (sample_request, "eidolon-local-api", sample_delegation 5)
    (run_attempts poly_digest string_of_list_ascii dump_sample sample_issuer 3 10 sample_authorities
      (take 2 sample_attempts) sample_start) = (Ok r, w') ∧
  r.(outcome) = "completed" ∧ reported sample_request r w'.1 w'.2.1.
Proof.
  assert (∃ r w', run_attempt poly_digest string_of_list_ascii dump_sample sample_issuer 3 10 sample_authorities
    (sample_request, "eidolon-local-api", sample_delegation 5)
    (run_attempts poly_digest string_of_list_ascii dump_sample sample_issuer 3 10 sample_authorities
      (take 2 sample_attempts) sample_start) = (Ok r, w') ∧ r.(outcome) = "completed") as (r & w' & Hr & Ho).
  { eexists _, _. split; vm_compute; reflexivity. }
  exists r, w'. split; [exact Hr|]. split; [exact Ho|].
  exact (removal_report_sound poly_digest string_of_list_ascii dump_sample sample_issuer 3 10 sample_authorities
    (take 2 sample_attempts) _ _ r w' Hr).
Defined.
