(* ===== verification/RemovalLiveness.v ===== *)
(** * A removal always returns, resumes, and what the broker takes from it

    Termination of the removal workflow when the authorities answer, the exact
    condition under which a retry resumes, and the daemon's view of Hub through
    the capability broker. *)

From S2P Require Import Prelude Encoding Json Lifecycle RemovalIntents.
From S2P Require Import RemovalLedger RemovalWorkflow Capability RemovalProofs.

(** ** Returning *)

(** A failure the public surface has a word for. *)
Definition civil (e : exn) : Prop :=
  match e with AuthorityFailure f => f.(af_kind) ∈ PUBLIC_REFUSAL_KIND.*1 | _ => False end.

(** Authorities that answer or refuse, with clocks that answer and a monotonic
    clock that moves between two looks at it ([asyncio.sleep(0.1)] lies between
    them).  [now] is the time of a world. *)
Class Responsive {D H X} (auth : RemovalAuthorities D H X) (now : X → Z) := {
  revoke_answers : ∀ d r c k a, hoare (λ _, True) (hub_revoke d r c k a) (λ (_ : H) _, True) (λ e _, civil e);
  status_answers : ∀ d e a x, hoare (λ y, y = x) (hub_get_operation (H := H) d e a)
    (λ _ _, True) (λ e _, civil e);
  list_answers : ∀ o x, hoare (λ y, y = x) (kernel_list_mounts (KernelMounts := removal_mounts (D := D) (H := H)) o)
    (λ _ y, now x ≤ now y)%Z (λ e y, civil e);
  wall_answers : ∀ x, hoare (λ y, y = x) (wall_clock (H := H) (D := D)) (λ _ _, True) (λ _ _, False);
  monotonic_answers : ∀ x, hoare (λ y, y = x) (monotonic_clock (H := H) (D := D))
    (λ t y, now x ≤ t ∧ t < now y)%Z (λ _ _, False) }.

Section Returning.
Context {D H X : Type} `{!DeviceReference D} `{!HubRevocation H}.
Context (sha1 : bytes → bytes) (sha256_hex : bytes → string).
Context (dump_context : RemovalOwnerAuthorizationContext D → doc)
        (observation_timeout : Z) (fuel : nat) (auth : RemovalAuthorities D H X) (now : X → Z)
        `{!Responsive auth now}.
Abbreviation ledger := (list (string * RemovalIntent D H)).
#[local] Instance the_ledger : RemovalIntentStore D H ledger := memory sha1 sha256_hex.
Abbreviation civilly := (λ e _, civil e).

Lemma poll_returns n owner device deadline :
  hoare (λ x, 1 ≤ Z.of_nat n ∧ deadline - now x + 1 ≤ Z.of_nat n)%Z
    (poll_mount n owner device deadline : M X _) (λ _ _, True) civilly.
Proof.
  induction n as [|n IH]; [intros x [? _]; lia|]. intros x [_ Hn]. revert x Hn. cbn [poll_mount]. intros x Hn.
  eapply (hoare_bind (λ y, y = x) _ (λ _ y, now x ≤ now y)%Z); [|intros m|done].
  - unfold owner_mount. eapply hoare_bind; [apply (list_answers owner x)|]. intros ms y Hy. exact Hy.
  - destruct (still_mounted m); [|done]. intros y Hy.
    eapply (hoare_bind (λ z, z = y) _ (λ t z, now y ≤ t ∧ t < now z)%Z); [| |done].
    + eapply hoare_mono; [apply (monotonic_answers y)|done|done|done].
    + intros t z Hz. destruct (Z.leb_spec deadline t); [done|]. apply IH. lia.
Qed.

Lemma wait_returns owner device : (1 ≤ Z.of_nat fuel)%Z → (observation_timeout ≤ Z.of_nat fuel)%Z →
  hoare (λ _, True) (wait_for_mount_removal observation_timeout fuel owner device : M X _) (λ _ _, True) civilly.
Proof.
  intros H1 H2 x _. unfold wait_for_mount_removal.
  eapply (hoare_bind (λ z, z = x) _ (λ t z, now x ≤ t ∧ t < now z)%Z); [| |done].
  - eapply hoare_mono; [apply (monotonic_answers x)|done|done|done].
  - intros t. eapply hoare_mono; [apply poll_returns| |done|done]. intros z Hz. cbn. lia.
Qed.

Lemma wall_returns : hoare (λ _, True) (wall_clock : M X Z) (λ _ _, True) (λ _ _, False).
Proof. intros x _. by apply (wall_answers x). Qed.

Lemma erase_returns i hub authorization :
  hoare (λ _, True) (observe_device_erase i hub authorization : M X _) (λ _ _, True) civilly.
Proof.
  unfold observe_device_erase. destruct (hub_event_id hub) as [e|]; [|done].
  apply (hoare_catch _ _ _ _ _ civilly).
  - eapply hoare_bind; [|done]. intros x _. by apply (status_answers (i_device_ref i) e authorization x).
  - by intros [].
Qed.

Lemma observation_returns payload authorization i hub :
  (1 ≤ Z.of_nat fuel)%Z → (observation_timeout ≤ Z.of_nat fuel)%Z →
  hoare (λ _, True) (observe_removal observation_timeout fuel payload authorization i hub : M X _)
    (λ (_ : DeviceRemovalResult D H) _, True) civilly.
Proof.
  intros H1 H2. unfold observe_removal. apply (hoare_bind _ _ (λ _ _, True)).
  - apply (hoare_catch _ _ _ _ _ civilly); [|by intros []].
    eapply hoare_bind; [by apply wait_returns|done].
  - intros [m|].
    + eapply hoare_bind; [apply erase_returns|]. intros [es er].
      eapply hoare_bind; [|done]. by eapply hoare_mono; [apply wall_returns| | |].
    + eapply hoare_bind; [|done]. by eapply hoare_mono; [apply wall_returns| | |].
Qed.

Lemma hoare_world {A} (P : ledger → Prop) (c : M X A) (E : exn → ledger * X → Prop) :
  hoare (λ _, True) c (λ _ _, True) (λ e _, ∀ w, E e w) →
  hoare (λ w, P w.1) (in_authorities c : M (ledger * X) A) (λ _ w, P w.1) E.
Proof.
  intros Hc [l x] Hl. specialize (Hc x I). unfold in_authorities, zoom. cbn [fst snd].
  destruct (c x) as [[a|e] x']; [done|]. apply Hc.
Qed.

Lemma hoare_now (P : ledger → Prop) (E : exn → ledger * X → Prop) :
  hoare (λ w, P w.1) (in_authorities wall_clock : M (ledger * X) Z) (λ _ w, P w.1) E.
Proof. apply hoare_world. by eapply hoare_mono; [apply wall_returns| | |]. Qed.

(** What a recorded intent is found under. *)
Definition findable (i : RemovalIntent D H) (l : ledger) : Prop :=
  ledger_wf sha1 l ∧ dict_get i.(intent_id) l = Some i.

Lemma record_returns payload workload context :
  hoare (λ w : ledger * X, ledger_wf sha1 w.1) (record_intent sha256_hex dump_context payload workload context)
    (λ i w, findable i w.1) civilly.
Proof.
  unfold record_intent. eapply hoare_bind; [apply (hoare_now (ledger_wf sha1))|]. intros t.
  apply (hoare_bind _ _ (λ i w, findable i w.1)).
  - apply (hoare_catch _ _ _ _ _ (λ e _, e = reused)).
    2: { unfold reused. intros []; cbn; intros s Hs; try discriminate Hs; cbn; set_solver. }
    intros [l x] Hl. unfold in_ledger, zoom. cbn [fst snd].
    change (get_or_create ?v) with (mled_get_or_create (H := H) sha1 sha256_hex v).
    set (v := removal_values _ _ _ _ _ _). pose proof (proj1 (create_keeps (H := H) sha1 sha256_hex v l Hl)) as Hw.
    rewrite create_run in *. assert (hash_ok sha256_hex v = true) as Hh by (by apply bool_decide_eq_true_2).
    rewrite Hh in *. destruct (dict_get _ l) as [i|] eqn:Ei.
    + destruct (same_content i v); [|done]. split; [done|]. cbn.
      destruct (proj2 Hl _ _ (dict_get_elem _ _ _ Ei)) as [<- _]. done.
    + split; [done|]. cbn. by rewrite dict_get_set, bool_decide_eq_true_2.
  - intros i. apply (hoare_bind _ _ (λ _ w, findable i w.1)); [|by intros [] w Hw].
    apply hoare_guard; [|done]. intros w _ _. cbn. set_solver.
Qed.

Lemma commit_returns authorization i :
  hoare (λ w : ledger * X, findable i w.1) (commit_revocation authorization i) (λ _ _, True) civilly.
Proof.
  unfold commit_revocation. destruct (hub_result i) as [r|] eqn:Er; [done|].
  apply (hoare_bind _ _ (λ _ w, findable i w.1)).
  { apply (hoare_world (findable i)). eapply hoare_mono; [apply revoke_answers|done|done|done]. }
  intros h. apply (hoare_bind _ _ (λ _ w, findable i w.1)).
  { apply (hoare_now (findable i)). }
  intros t [l x] [Hw Hd]. cbn [fst snd] in *. unfold mbind, M_bind, in_ledger, zoom. cbn [fst snd].
  change (mark_hub_committed ?a ?b ?c) with (mled_mark_hub_committed (D := D) (H := H) a b c).
  rewrite mark_run, Hd. unfold result_conflicts. by rewrite Er.
Qed.

Lemma wire_returns e f : civil e → e = AuthorityFailure f → ∃ w, to_wire f = Ok w.
Proof.
  intros He ->. cbn in He. unfold to_wire. destruct (dict_get f.(af_kind) PUBLIC_REFUSAL_KIND) as [k|] eqn:E; [eauto|].
  apply dict_get_None in E. contradiction.
Qed.

(** The whole workflow: a result, or a refusal the public surface has a word for. *)
Lemma removal_civil credentials payload workload context :
  (1 ≤ Z.of_nat fuel)%Z → (observation_timeout ≤ Z.of_nat fuel)%Z →
  (∀ issue, credentials = Some issue → ∀ c i d o e, issue c i d o = Raise e → civil e) →
  hoare (λ w : ledger * X, ledger_wf sha1 w.1)
    (remove_controller_device sha256_hex dump_context credentials observation_timeout fuel payload workload context)
    (λ _ _, True) civilly.
Proof.
  intros H1 H2 Hi. unfold remove_controller_device. destruct credentials as [issue|].
  2: { intros w _. cbn. set_solver. }
  eapply hoare_bind; [apply record_returns|]. intros i.
  apply (hoare_bind _ _ (λ _ w, findable i w.1)); [apply hoare_lift; [done|eauto]|]. intros authorization.
  apply (hoare_bind _ _ (λ _ _, True)).
  - apply (hoare_catch _ _ _ _ _ civilly).
    + eapply hoare_bind; [apply commit_returns|done].
    + intros e. destruct e; try done. intros s Hs. destruct (wire_returns _ _ Hs eq_refl) as [w Hf].
      unfold mbind, M_bind, lift. by rewrite Hf.
  - intros [[j hub]|f].
    + intros [l x] _. unfold in_authorities, zoom. cbn [fst snd].
      pose proof (observation_returns payload authorization j hub H1 H2 x I) as Ho.
      by destruct (observe_removal _ _ _ _ _ _ x) as [[r|e] x'].
    + unfold revocation_failed. do 3 (eapply hoare_bind; [apply (hoare_now (λ _, True))|intros ?]). done.
Qed.
End Returning.

Section Conflict.
Context {D H X : Type} `{!DeviceReference D} `{!HubRevocation H}.
Context (sha1 : bytes → bytes) (sha256_hex : bytes → string)
        (dump_context : RemovalOwnerAuthorizationContext D → doc) (auth : RemovalAuthorities D H X).

(** Another content under a recorded identity. *)
Lemma record_conflict payload workload context l (x : X) t x' (i : RemovalIntent D H) :
  let values := removal_values sha256_hex dump_context payload workload context t in
  dict_get (values_intent_id sha1 values) l = Some i → same_content i values = false →
  wall_clock x = (Ok t, x') →
  record_intent (RemovalIntentStore0 := memory sha1 sha256_hex) sha256_hex dump_context payload workload context (l, x) =
  (Raise (conflict "request_id was reused with different removal content"), (l, x')).
Proof.
  intros values Hd Hs Hx. unfold record_intent. rewrite (bind_ok _ _ _ t (l, x')).
  2: { unfold in_authorities, zoom. cbn [fst snd]. by rewrite Hx. }
  apply bind_raise. unfold catch, in_ledger, zoom. cbn [fst snd].
  change (get_or_create ?v) with (mled_get_or_create (H := H) sha1 sha256_hex v).
  rewrite create_run. fold values. rewrite Hd, Hs.
  assert (hash_ok sha256_hex values = true) as -> by (by apply bool_decide_eq_true_2). done.
Qed.
End Conflict.

(** ** Converging *)

(** A world in which Hub revokes, the clocks run and the Kernel does not list
    the device as mounted, and stays so. *)
Class Healthy {D H X} (auth : RemovalAuthorities D H X) (good : X → Prop) (device : string) := {
  good_revoke : ∀ d r c k a, hoare good (hub_revoke d r c k a) (λ (_ : H) x, good x) (λ _ _, False);
  good_status : ∀ d e a, hoare good (hub_get_operation (H := H) d e a) (λ _ x, good x)
    (λ e x, civil e ∧ good x);
  good_list : ∀ o, hoare good (kernel_list_mounts (KernelMounts := removal_mounts (D := D) (H := H)) o) (λ ms x, unmounted device ms ∧ good x)
    (λ _ _, False);
  good_wall : hoare good (wall_clock (H := H) (D := D)) (λ _ x, good x) (λ _ _, False);
  good_monotonic : hoare good (monotonic_clock (H := H) (D := D)) (λ _ x, good x) (λ _ _, False) }.

Section Converging.
Context {D H X : Type} `{!DeviceReference D} `{!HubRevocation H}.
Context (sha1 : bytes → bytes) (sha256_hex : bytes → string).
Context (dump_context : RemovalOwnerAuthorizationContext D → doc)
        (observation_timeout : Z) (fuel : nat) (auth : RemovalAuthorities D H X) (good : X → Prop).
Abbreviation ledger := (list (string * RemovalIntent D H)).
#[local] Instance a_ledger : RemovalIntentStore D H ledger := memory sha1 sha256_hex.
Abbreviation never := (λ _ _, False).

(** A hoare on the world, next to a fact about the ledger. *)
Lemma hoare_beside {A} (P : ledger → Prop) (c : M X A) Q :
  hoare good c Q never → (∀ a x, Q a x → good x) →
  hoare (λ w, P w.1 ∧ good w.2) (in_authorities c : M (ledger * X) A) (λ a w, P w.1 ∧ Q a w.2) never.
Proof.
  intros Hc HQ [l x] [Hl Hx]. specialize (Hc x Hx). unfold in_authorities, zoom. cbn [fst snd] in *.
  by destruct (c x) as [[a|e] x'].
Qed.

Context (payload : ControllerDeviceRemovalRequest) (workload : string)
        (context : RemovalOwnerAuthorizationContext D) `{!Healthy auth good payload.(rq_device_id)}.
Abbreviation values := (removal_values sha256_hex dump_context payload workload context).

(** The ledger holds nothing under the identity of the request, or what it asks
    for. *)
Definition open_or_same (l : ledger) : Prop :=
  ledger_wf sha1 l ∧
  ∀ i t, dict_get (values_intent_id sha1 (values t)) l = Some i → same_content i (values t) = true.

Lemma record_converges :
  context.(owner_authorization_context).(oc_intent_id) = values_intent_id sha1 (values 0) →
  hoare (λ w : ledger * X, open_or_same w.1 ∧ good w.2)
    (record_intent sha256_hex dump_context payload workload context)
    (λ i w, findable sha1 i w.1 ∧ good w.2) never.
Proof.
  intros Hid. unfold record_intent.
  eapply hoare_bind; [apply (hoare_beside open_or_same _ (λ _ x, good x)); [apply good_wall|done]|]. intros t.
  apply (hoare_bind _ _ (λ i w, findable sha1 i w.1 ∧ good w.2 ∧ i.(intent_id) = values_intent_id sha1 (values 0))).
  - apply hoare_catch_never.
    intros [l x] [[Hl Hs] Hx]. unfold in_ledger, zoom. cbn [fst snd].
    change (get_or_create ?v) with (mled_get_or_create (H := H) sha1 sha256_hex v).
    pose proof (proj1 (create_keeps (H := H) sha1 sha256_hex (values t) l Hl)) as Hw. specialize (Hs).
    rewrite create_run in *. assert (hash_ok sha256_hex (values t) = true) as Hh by (by apply bool_decide_eq_true_2).
    rewrite Hh in *. destruct (dict_get _ l) as [i|] eqn:Ei.
    + rewrite (Hs i t Ei). destruct (proj2 Hl _ _ (dict_get_elem _ _ _ Ei)) as [Hk _].
      split; [|by split]. split; [done|]. cbn. by rewrite <- Hk.
    + split; [|done]. split; [done|]. cbn. by rewrite dict_get_set, bool_decide_eq_true_2.
  - intros i. apply (hoare_bind _ _ (λ _ w, findable sha1 i w.1 ∧ good w.2)); [|by intros [] w Hw].
    apply hoare_guard; [|by intros w _ (? & ? & _)]. intros w Hb (_ & _ & Hi).
    apply negb_true_iff, bool_decide_eq_false in Hb. congruence.
Qed.

Lemma commit_converges authorization i :
  hoare (λ w : ledger * X, findable sha1 i w.1 ∧ good w.2) (commit_revocation authorization i)
    (λ _ w, good w.2) never.
Proof.
  unfold commit_revocation. destruct (hub_result i) as [r|] eqn:Er; [by intros w [_ ?]|].
  eapply hoare_bind; [apply (hoare_beside (findable sha1 i)); [apply good_revoke|done]|]. intros h.
  eapply hoare_bind; [apply (hoare_beside (findable sha1 i)); [apply good_wall|done]|].
  intros t [l x] [[Hw Hd] Hx]. cbn [fst snd] in *. unfold mbind, M_bind, in_ledger, zoom. cbn [fst snd].
  change (mark_hub_committed ?a ?b ?c) with (mled_mark_hub_committed (D := D) (H := H) a b c).
  rewrite mark_run, Hd. unfold result_conflicts. by rewrite Er.
Qed.

Lemma wait_converges owner : 0 < fuel →
  hoare good (wait_for_mount_removal observation_timeout fuel owner payload.(rq_device_id) : M X _)
    (λ m x, still_mounted m = false ∧ good x) never.
Proof.
  intros Hf. unfold wait_for_mount_removal. eapply hoare_bind; [apply good_monotonic|]. intros t.
  destruct fuel as [|n]; [lia|]. cbn [poll_mount]. intros x Hx.
  unfold owner_mount, mbind, M_bind. pose proof (good_list owner x Hx) as Hl.
  destruct (kernel_list_mounts owner x) as [[ms|e] x']; [|done]. destruct Hl as [Hu Hx']. cbn.
  rewrite (next_or_none_ext _ (λ m, bool_decide (m.(mount_device_id) = payload.(rq_device_id))))
    by (intros m; by rewrite orb_true_r, andb_true_r).
  unfold unmounted in Hu. rewrite Hu. done.
Qed.

Lemma erase_converges i hub authorization :
  hoare good (observe_device_erase i hub authorization : M X _) (λ _ x, good x) never.
Proof.
  unfold observe_device_erase. destruct (hub_event_id hub) as [e|]; [|by intros x Hx].
  apply (hoare_catch _ _ _ _ _ (λ e x, civil e ∧ good x)).
  - eapply hoare_bind; [apply good_status|]. by intros o x Hx.
  - intros []; cbn; try (by intros s [? _]). by intros s [_ ?].
Qed.

Lemma observation_converges authorization i hub : 0 < fuel →
  hoare good (observe_removal observation_timeout fuel payload authorization i hub : M X _)
    (λ (r : DeviceRemovalResult D H) _, r.(outcome) = "completed") never.
Proof.
  intros Hf. unfold observe_removal.
  apply (hoare_bind _ _ (λ m x, good x ∧ ∃ m', m = Some m' ∧ still_mounted m' = false)).
  - apply hoare_catch_never.
    eapply hoare_bind; [by apply wait_converges|]. intros m x [Hm Hx]. split; [done|]. by exists m.
  - intros [m|]; [|by intros x (_ & ? & ? & _)].
    apply (hoare_bind _ _ (λ _ x, good x ∧ still_mounted m = false)).
    + intros x (Hx & m' & [= <-] & Hm). pose proof (erase_converges i hub authorization x Hx) as He.
      by destruct (observe_device_erase _ _ _ x) as [[a|e] x'].
    + intros [es er]. apply (hoare_bind _ _ (λ _ x, good x ∧ still_mounted m = false)).
      * intros x [Hx Hm]. pose proof (good_wall x Hx) as Hw. by destruct (wall_clock x) as [[a|e] x'].
      * intros t x [Hx Hm]. cbn. by rewrite Hm.
Qed.

Lemma removal_converges issue :
  context.(owner_authorization_context).(oc_intent_id) = values_intent_id sha1 (values 0) →
  (∀ c i d o, ∃ authorization, issue c i d o = Ok authorization) → 0 < fuel →
  hoare (λ w : ledger * X, open_or_same w.1 ∧ good w.2)
    (remove_controller_device sha256_hex dump_context (Some issue) observation_timeout fuel payload workload context)
    (λ r _, r.(outcome) = "completed") never.
Proof.
  intros Hid Hi Hf. unfold remove_controller_device. eapply hoare_bind; [by apply record_converges|]. intros i.
  apply (hoare_bind _ _ (λ _ w, findable sha1 i w.1 ∧ good w.2)).
  { apply hoare_lift; [done|]. intros e He.
    destruct (Hi payload.(rq_controller_id) i.(intent_id) i.(i_device_ref) payload.(rq_owner_id)). congruence. }
  intros authorization. apply (hoare_bind _ _ (λ c w, good w.2 ∧ ∃ r, c = inl r)).
  - apply hoare_catch_never.
    eapply hoare_bind; [apply commit_converges|]. intros r w Hw. split; [done|]. by exists r.
  - intros [[j hub]|f]; [|by intros w (_ & ? & ?)].
    intros [l x] [Hx _]. unfold in_authorities, zoom. cbn [fst snd] in *.
    pose proof (observation_converges authorization j hub Hf x Hx) as Ho.
    by destruct (observe_removal _ _ _ _ _ _ x) as [[r|e] x'].
Qed.
End Converging.

(** ** What the broker leaves of Hub *)

(** A failure nothing says to retry. *)
Definition final (e : exn) : Prop := ∀ f, e = AuthorityFailure f → f.(af_retryable) = false.

Section Brokered.
Context {D H X : Type} `{!DeviceReference D} `{!HubRevocation H}.
Context (admin : RemovalAuthorities D H X)
        (admin_credentials : option (string → string → D → string → result string))
        (BusinessOwnerId : string → result string) (workflow_uid : Z) (peer : result UnixPeerCredential).
Abbreviation transport := (λ (call : capability_call D) (x : X),
  let '(r, x') := handle_capability (H := H) admin_credentials BusinessOwnerId workflow_uid peer (Ok call) x in
  (match r with Some r => Ok r | None => Raise IncompleteReadError end, x')).

Lemma hoare_exchange call :
  hoare (λ _ : X, True) (exchange transport call) (λ r _, ∀ p, r ≠ CProblem p) (λ e _, final e).
Proof.
  unfold exchange. apply (hoare_bind _ _ (λ _ _, True)).
  - intros x _. unfold catch. destruct (handle_capability _ _ _ _ _ x) as [[r|] x']; [done|]. by intros f [= <-].
  - intros r x _. destruct r; cbn; try done. by intros f [= <-].
Qed.

Lemma final_marker marker e : parse_broker_marker marker = Raise e → final e.
Proof.
  unfold parse_broker_marker, marker_invalid, refuse. intros He f ->.
  repeat case_match; simplify_eq; done.
Qed.

Lemma brokered_revoke d reason command correlation authorization :
  hoare (λ _ : X, True) (client_revoke transport d reason command correlation authorization)
    (λ (_ : H) _, True) (λ e _, final e).
Proof.
  unfold client_revoke. apply (hoare_bind _ _ (λ _ _, True)).
  { apply hoare_lift; [done|]. intros e He s _. by eapply final_marker. }
  intros [[c i] o]. eapply hoare_bind; [apply hoare_exchange|]. intros r x Hr. destruct r; done.
Qed.

(** The broker has no answer to an observation but a problem, if any. *)
Lemma observation_is_problem c i d e x :
  ∃ r x', handle_capability (H := H) admin_credentials BusinessOwnerId workflow_uid peer
    (Ok (ObserveRemovalDelivery c i d e)) x = (r, x') ∧ (r = None ∨ ∃ p, r = Some (CProblem p)).
Proof.
  assert (∀ p, let r := if capability_problem_fits p then Some (CProblem p) else None in
    r = None ∨ ∃ q, r = Some (CProblem (H := H) q)) as Hp by (intros p; cbn; destruct (capability_problem_fits p); eauto).
  unfold handle_capability. destruct peer as [cred|]; [|eexists _, _; split; [reflexivity|apply Hp]]. unfold authorize_peer.
  cbn [mbind result_bind]. destruct (negb _); [eexists _, _; split; [reflexivity|apply Hp]|]. cbn.
  destruct admin_credentials; (eexists _, _; split; [reflexivity|apply Hp]).
Qed.

Lemma brokered_status d e authorization :
  hoare (λ _ : X, True) (client_get_operation transport d e authorization) (λ _ _, False)
    (λ e _, ∃ k m s, e = refuse "hub" k m s false).
Proof.
  unfold client_get_operation. apply (hoare_bind _ _ (λ _ _, True)).
  { apply hoare_lift; [done|]. intros e' He s _. unfold parse_broker_marker, marker_invalid in He.
    repeat case_match; simplify_eq; eauto. }
  intros [[c i] o] x _. unfold exchange, mbind, M_bind, catch.
  destruct (observation_is_problem c i d e x) as (r & x' & -> & [->|[p ->]]); cbn; unfold broker_unavailable; eauto.
Qed.

#[local] Instance the_broker : RemovalAuthorities D H X :=
  brokered admin admin_credentials BusinessOwnerId workflow_uid peer.

Lemma brokered_erase i hub authorization :
  hoare (λ _ : X, True) (observe_device_erase i hub authorization) (λ s _, s.1 = "unknown") (λ _ _, False).
Proof.
  unfold observe_device_erase. destruct (hub_event_id hub) as [e|]; [|done].
  apply (hoare_catch _ _ _ _ _ (λ e _, ∃ k m s, e = refuse "hub" k m s false)).
  - apply (hoare_bind _ _ (λ _ _, False)); [apply brokered_status|by intros o s []].
  - intros []; intros s (? & ? & ? & ?); done.
Qed.

Lemma brokered_observation timeout fuel payload authorization i hub :
  hoare (λ _ : X, True) (observe_removal timeout fuel payload authorization i hub)
    (λ (r : DeviceRemovalResult D H) _, r.(res_hub) = Some hub ∧
      ∀ c, c ∈ r.(conditions) → c.(cond_name) = "device_erase_acknowledged" → c.(cond_state) = "unknown")
    (λ _ _, True).
Proof.
  assert (∀ ms es er now (c : RemovalCondition), es = "unknown" → c ∈ removal_conditions hub ms es er now →
    c.(cond_name) = "device_erase_acknowledged" → c.(cond_state) = "unknown") as Hc.
  { intros ms es er now c ->. unfold removal_conditions.
    intros [->|[->|[->|?%not_elem_of_nil]%elem_of_cons]%elem_of_cons]%elem_of_cons; done. }
  assert (∀ A (c : M X A), hoare (λ _, True) c (λ _ _, True) (λ _ _, True)) as Hany.
  { intros A c x _. by destruct (c x) as [[a|e] x']. }
  unfold observe_removal. eapply hoare_bind; [apply Hany|]. intros [m|].
  - apply (hoare_bind _ _ (λ s _, s.1 = "unknown")).
    { eapply hoare_mono; [apply brokered_erase|done|done|done]. }
    intros [es er]. apply (hoare_bind _ _ (λ _ _, es = "unknown")).
    { intros x He. by destruct (wall_clock x) as [[t|e] x']. }
    intros t x He. split; [done|]. cbn [conditions]. intros c Hin. by apply (Hc _ _ _ _ c He Hin).
  - eapply hoare_bind; [apply Hany|]. intros t x _. split; [done|]. cbn [conditions]. intros c Hin.
    by apply (Hc _ _ _ _ c eq_refl Hin).
Qed.

Context (sha1 : bytes → bytes) (sha256_hex : bytes → string).
Abbreviation ledger := (list (string * RemovalIntent D H)).
#[local] Instance broker_ledger : RemovalIntentStore D H ledger := memory sha1 sha256_hex.

Lemma brokered_commit authorization i :
  (∀ x, ∃ t x', wall_clock x = (Ok t, x')) →
  hoare (λ _ : ledger * X, True) (commit_revocation authorization i) (λ _ _, True) (λ e _, final e).
Proof.
  intros Hclock. unfold commit_revocation. destruct (hub_result i); [done|].
  apply (hoare_bind _ _ (λ _ _, True)).
  { intros [l x] _. unfold in_authorities, zoom. cbn [fst snd].
    pose proof (brokered_revoke i.(i_device_ref) i.(reason) i.(hub_command_id) i.(intent_id) authorization x I) as Hr.
    cbn [hub_revoke the_broker brokered]. by destruct (client_revoke _ _ _ _ _ _ x) as [[h|e] x']. }
  intros h. apply (hoare_bind _ _ (λ _ _, True)).
  { intros [l x] _. unfold in_authorities, zoom. cbn [fst snd]. by destruct (Hclock x) as (t & x' & ->). }
  intros t [l x] _. unfold mbind, M_bind, in_ledger, zoom. cbn [fst snd].
  change (mark_hub_committed ?a ?b ?c) with (mled_mark_hub_committed (D := D) (H := H) a b c).
  rewrite mark_run. destruct (dict_get _ l) as [j|]; [destruct (result_conflicts j h)|]; done.
Qed.
End Brokered.

(** *** Properties *)

(** C17: a removal request is always answered.  With authorities that answer
    or refuse, clocks that answer and a monotonic clock that moves, and as many
    turns as the observation timeout has units, the workflow returns a result
    or refuses with a kind the public surface can express: the Kernel is not
    polled for ever, and no other error leaves the workflow. *)
Theorem removal_returns {D H X} `{!DeviceReference D} `{!HubRevocation H} sha1 sha256_hex dump_context
    credentials timeout fuel (auth : RemovalAuthorities D H X) now `{!Responsive auth now}
    calls payload workload context (x : X) :
  (1 ≤ Z.of_nat fuel)%Z → (timeout ≤ Z.of_nat fuel)%Z →
  (∀ issue, credentials = Some issue → ∀ c i d o e, issue c i d o = Raise e → civil e) →
  let l := (run_ledger (RemovalIntentStore0 := memory sha1 sha256_hex) calls []).2 in
  match (remove_controller_device (RemovalIntentStore0 := memory sha1 sha256_hex)
           sha256_hex dump_context credentials timeout fuel payload workload context (l, x)).1 with
  | Ok _ => True
  | Raise e => civil e
  end.
Proof.
  intros H1 H2 Hi l.
  pose proof (removal_civil sha1 sha256_hex dump_context timeout fuel auth now credentials payload workload context
    H1 H2 Hi (l, x)) as Hr.
  assert (ledger_wf sha1 l) as Hl.
  { apply history_keeps. split; [constructor|]. by intros k i ?%not_elem_of_nil. }
  specialize (Hr Hl). by destruct (remove_controller_device _ _ _ _ _ _ _ _ _) as [[r|e] w].
Qed.

(** Authorities that answer, with a device listed as mounted for some turns. *)
Definition patient_authorities : RemovalAuthorities string string sample_world :=
  {| hub_revoke := λ _ _ _ _ _ x, (Ok "revoked", x);
     hub_get_operation := hub_get_operation (RemovalAuthorities := sample_authorities);
     removal_mounts := removal_mounts (RemovalAuthorities := sample_authorities);
     wall_clock := wall_clock (RemovalAuthorities := sample_authorities);
     monotonic_clock := monotonic_clock (RemovalAuthorities := sample_authorities) |}.
#[local] Existing Instance plain_ref.
#[local] Existing Instance plain_result.

Lemma patient_responsive : Responsive patient_authorities ticks.
Proof.
  split; [done|done| | |]; intros; intros y ->; cbn; try done; lia.
Defined.

Lemma removal_returns_witness :
  match (remove_controller_device (RemovalIntentStore0 := memory poly_digest string_of_list_ascii)
           (RemovalAuthorities0 := patient_authorities) string_of_list_ascii dump_sample sample_issuer 5 5
           sample_request "eidolon-local-api" (sample_delegation 5) ([], mkWorld [] 9 0)).1 with
  | Ok _ => True
  | Raise e => civil e
  end.
Proof.
  apply (removal_returns (D := string) (H := string) poly_digest string_of_list_ascii dump_sample sample_issuer 5 5
    patient_authorities ticks (Responsive0 := patient_responsive) []); [lia|lia|].
  by intros issue [= <-] c i d o e.
Defined.

(** C18: a retry goes forward, or changes nothing.  From any ledger, in a
    healthy world, a request whose intent is not recorded yet, or is recorded
    with what the request asks for, completes, whatever happened to earlier
    attempts; one recorded with anything else, be it another byte in the
    delegation, is refused as a conflict, leaves the ledger alone and asks
    neither Hub nor the Kernel. *)
Theorem removal_retry {D H X} `{!DeviceReference D} `{!HubRevocation H} sha1 sha256_hex dump_context
    issue timeout fuel (auth : RemovalAuthorities D H X) (good : X → Prop) payload workload context
    `{!Healthy auth good payload.(rq_device_id)} calls (x : X) :
  let values := removal_values sha256_hex dump_context payload workload context 0 in
  let l := (run_ledger (RemovalIntentStore0 := memory sha1 sha256_hex) calls []).2 in
  let remove := remove_controller_device (RemovalIntentStore0 := memory sha1 sha256_hex)
    sha256_hex dump_context (Some issue) timeout fuel payload workload context in
  good x → 0 < fuel →
  context.(owner_authorization_context).(oc_intent_id) = values_intent_id sha1 values →
  (∀ c i d o, ∃ authorization, issue c i d o = Ok authorization) →
  let same := match dict_get (values_intent_id sha1 values) l with
              | Some i => same_content i values
              | None => true
              end in
  (same = true → ∃ r w, remove (l, x) = (Ok r, w) ∧ r.(outcome) = "completed") ∧
  (same = false → remove (l, x) =
     (Raise (conflict "request_id was reused with different removal content"), (l, (wall_clock x).2))).
Proof.
  intros values l remove Hx Hf Hid Hi same.
  assert (ledger_wf sha1 l) as Hl.
  { apply history_keeps. split; [constructor|]. by intros k i ?%not_elem_of_nil. }
  split; intros Hs.
  - pose proof (removal_converges sha1 sha256_hex dump_context timeout fuel auth good payload workload context issue
      Hid Hi Hf (l, x)) as Hr.
    assert (open_or_same sha1 sha256_hex dump_context payload workload context l) as Ho.
    { split; [done|]. intros i t Hd. change (dict_get (values_intent_id sha1 values) l = Some i) in Hd.
      subst same. by rewrite Hd in Hs. }
    specialize (Hr (conj Ho Hx)). unfold remove.
    destruct (remove_controller_device _ _ _ _ _ _ _ _ _) as [[r|e] w]; [|done]. by exists r, w.
  - subst same. destruct (dict_get _ l) as [i|] eqn:Hd; [|done]. unfold remove, remove_controller_device.
    pose proof (good_wall (Healthy := Healthy0) x Hx) as Hw. destruct (wall_clock x) as [[t|e] x'] eqn:Ew; [|done].
    apply bind_raise. by apply (record_conflict sha1 sha256_hex dump_context auth _ _ _ l x t x' i).
Qed.

Definition calm (x : sample_world) : Prop := x.(mounted_for) = 0.
Lemma patient_healthy : Healthy patient_authorities calm "device-1".
Proof.
  split; intros; intros [answers n t] Hx; unfold calm in Hx; cbn in Hx; subst n; done.
Defined.

Definition recorded_calls : list (ledger_call (D := string) (H := string)) :=
  [LCreate (removal_values string_of_list_ascii dump_sample sample_request "eidolon-local-api"
     (sample_delegation 5) 0)].
Definition sample_retry (issued_at : Z) :=
  remove_controller_device (RemovalIntentStore0 := memory poly_digest string_of_list_ascii)
    (RemovalAuthorities0 := patient_authorities) string_of_list_ascii dump_sample sample_issuer 5 5
    sample_request "eidolon-local-api" (sample_delegation issued_at)
    ((run_ledger (RemovalIntentStore0 := memory poly_digest string_of_list_ascii) recorded_calls []).2,
     mkWorld [] 0 0).

(** A minute later the delegation is another one. *)
Lemma removal_retry_witness :
  (∃ r w, sample_retry 5 = (Ok r, w) ∧ r.(outcome) = "completed") ∧
  (sample_retry 65).1 = Raise (conflict "request_id was reused with different removal content").
Proof.
  assert (removal_intent_id poly_digest "r1" "owner-1" = values_intent_id poly_digest
    (removal_values string_of_list_ascii dump_sample sample_request "eidolon-local-api" (sample_delegation 5) 0))
    as H5 by (vm_compute; reflexivity).
  assert (removal_intent_id poly_digest "r1" "owner-1" = values_intent_id poly_digest
    (removal_values string_of_list_ascii dump_sample sample_request "eidolon-local-api" (sample_delegation 65) 0))
    as H65 by (vm_compute; reflexivity).
  assert (∀ c i (d : string) o, ∃ a, (λ c i (_ : string) o, Ok (broker_marker c i o)) c i d o = Ok a) as Hi by eauto.
  split.
  - apply (removal_retry poly_digest string_of_list_ascii dump_sample _ 5 5 patient_authorities calm sample_request
      "eidolon-local-api" (sample_delegation 5) (Healthy0 := patient_healthy) recorded_calls (mkWorld [] 0 0)
      eq_refl ltac:(lia) H5 Hi). vm_compute. reflexivity.
  - refine (f_equal fst (proj2 (removal_retry poly_digest string_of_list_ascii dump_sample _ 5 5 patient_authorities
      calm sample_request "eidolon-local-api" (sample_delegation 65) (Healthy0 := patient_healthy) recorded_calls
      (mkWorld [] 0 0) eq_refl ltac:(lia) H65 Hi) _)). vm_compute. reflexivity.
Defined.

(** C19: what the workflow daemon cannot report.  Behind the capability broker,
    whatever Hub and the Admin process answer, a removal Hub did not take is
    always "blocked" for an operator, never to be retried, and no result ever
    acknowledges that the device was erased. *)
Theorem broker_hides_hub {D H X} `{!DeviceReference D} `{!HubRevocation H} sha1 sha256_hex dump_context
    credentials timeout fuel (admin : RemovalAuthorities D H X) admin_credentials owner_id_of uid peer
    payload workload context (w w' : list (string * RemovalIntent D H) * X) r :
  (∀ x, ∃ t x', wall_clock x = (Ok t, x')) →
  remove_controller_device (RemovalIntentStore0 := memory sha1 sha256_hex)
    (RemovalAuthorities0 := brokered admin admin_credentials owner_id_of uid peer)
    sha256_hex dump_context credentials timeout fuel payload workload context w = (Ok r, w') →
  (r.(res_hub) = None → r.(outcome) = "blocked" ∧ r.(recovery) = "operator-action-required") ∧
  (∀ c, c ∈ r.(conditions) → c.(cond_name) = "device_erase_acknowledged" → c.(cond_state) = "unknown").
Proof.
  intros Hclock. revert w w' r.
  set (Q := λ (r : DeviceRemovalResult D H) (_ : list (string * RemovalIntent D H) * X),
    (r.(res_hub) = None → r.(outcome) = "blocked" ∧ r.(recovery) = "operator-action-required") ∧
    (∀ c, c ∈ r.(conditions) → c.(cond_name) = "device_erase_acknowledged" → c.(cond_state) = "unknown")).
  set (broker := brokered admin admin_credentials owner_id_of uid peer).
  enough (hoare (λ _, True) (remove_controller_device (RemovalIntentStore0 := memory sha1 sha256_hex)
    (RemovalAuthorities0 := broker) sha256_hex dump_context credentials timeout fuel payload workload context)
    Q (λ _ _, True)) as Ht.
  { intros w w' r Hr. specialize (Ht w I). rewrite Hr in Ht. exact Ht. }
  assert (∀ S A (c : M S A), hoare (λ _, True) c (λ _ _, True) (λ _ _, True)) as Hany.
  { intros S A c s _. by destruct (c s) as [[a|e] s']. }
  unfold remove_controller_device. destruct credentials as [issue|]; [|done].
  eapply hoare_bind; [apply Hany|]. intros i. eapply hoare_bind; [apply Hany|]. intros authorization.
  apply (hoare_bind _ _ (λ c _, match c with inr f => f.(wf_retryable) = false | inl _ => True end)).
  - apply (hoare_catch _ _ _ _ _ (λ e _, final e)).
    + eapply hoare_bind; [by apply brokered_commit|done].
    + intros []; try done. intros s Hs. specialize (Hs _ eq_refl). unfold lift, mbind, M_bind.
      destruct (to_wire f) as [w|e] eqn:E; [|done]. cbn. revert E. unfold to_wire. case_match; [|done]. by intros [= <-].
  - intros [[j hub]|f].
    + intros [l x] _. unfold in_authorities, zoom. cbn [fst snd].
      pose proof (brokered_observation admin admin_credentials owner_id_of uid peer timeout fuel payload
        authorization j hub x I) as Ho.
      fold broker in Ho. destruct (observe_removal _ _ _ _ _ _ x) as [[r|e] x']; [|done].
      destruct Ho as [Hh Hc]. split; [congruence|done].
    + intros w Hf. unfold revocation_failed. revert w Hf.
      do 3 (apply (hoare_bind _ _ (λ _ _, f.(wf_retryable) = false));
        [intros w Hf; by destruct (in_authorities _ w) as [[?|?] ?]|intros ?]).
      intros w Hf. cbn. unfold Q. cbn. rewrite Hf. split; [done|].
      intros c [->|[->|[->|?%not_elem_of_nil]%elem_of_cons]%elem_of_cons]%elem_of_cons; done.
Qed.

(** Hub refuses, and says to retry. *)
Definition refusing_authorities : RemovalAuthorities string string sample_world :=
  {| hub_revoke := λ _ _ _ _ _, raise (refuse "hub" "unavailable" "down" 503 true);
     hub_get_operation := hub_get_operation (RemovalAuthorities := sample_authorities);
     removal_mounts := removal_mounts (RemovalAuthorities := sample_authorities);
     wall_clock := wall_clock (RemovalAuthorities := sample_authorities);
     monotonic_clock := monotonic_clock (RemovalAuthorities := sample_authorities) |}.
Definition behind_broker (admin : RemovalAuthorities string string sample_world) :=
  remove_controller_device (RemovalIntentStore0 := memory poly_digest string_of_list_ascii)
    (RemovalAuthorities0 := brokered admin sample_issuer Ok 7 (Ok (mkPeer 1 7 7)))
    string_of_list_ascii dump_sample sample_issuer 5 5 sample_request "eidolon-local-api" (sample_delegation 5)
    ([], mkWorld [] 0 0).

Lemma broker_hides_hub_witness :
  (∃ r w, behind_broker refusing_authorities = (Ok r, w) ∧ r.(res_hub) = None ∧ r.(outcome) = "blocked") ∧
  (∃ r w, behind_broker patient_authorities = (Ok r, w) ∧ r.(outcome) = "completed" ∧
    ∀ c, c ∈ r.(conditions) → c.(cond_name) = "device_erase_acknowledged" → c.(cond_state) = "unknown").
Proof.
  assert (∀ x, ∃ t x', wall_clock (RemovalAuthorities := refusing_authorities) x = (Ok t, x')) as Hr
    by (intros x; eexists _, _; reflexivity).
  assert (∀ x, ∃ t x', wall_clock (RemovalAuthorities := patient_authorities) x = (Ok t, x')) as Hp
    by (intros x; eexists _, _; reflexivity).
  split.
  - assert (∃ r w, behind_broker refusing_authorities = (Ok r, w) ∧ r.(res_hub) = None) as (r & w & E & Hn)
      by (eexists _, _; split; vm_compute; reflexivity).
    exists r, w. split; [exact E|]. split; [exact Hn|].
    exact (proj1 (proj1 (broker_hides_hub (D := string) (H := string) poly_digest string_of_list_ascii dump_sample sample_issuer 5 5
      refusing_authorities sample_issuer Ok 7 (Ok (mkPeer 1 7 7)) _ _ _ _ _ r Hr E) Hn)).
  - assert (∃ r w, behind_broker patient_authorities = (Ok r, w) ∧ r.(outcome) = "completed") as (r & w & E & Ho)
      by (eexists _, _; split; vm_compute; reflexivity).
    exists r, w. split; [exact E|]. split; [exact Ho|].
    exact (proj2 (broker_hides_hub (D := string) (H := string) poly_digest string_of_list_ascii dump_sample sample_issuer 5 5
      patient_authorities sample_issuer Ok 7 (Ok (mkPeer 1 7 7)) _ _ _ _ _ r Hp E)).
Defined.

(** *** The marker *)

Definition plain (s : string) : Prop := ":"%char ∉ list_ascii_of_string s.

(** A marker carries its Controller, intent and Owner through exactly when
    none of them holds a colon; otherwise it is refused, never misread. *)
Theorem broker_marker_roundtrip controller intent owner :
  (plain controller ∧ plain intent ∧ plain owner →
    parse_broker_marker (broker_marker controller intent owner) = Ok (controller, intent, owner)) ∧
  (¬ (plain controller ∧ plain intent ∧ plain owner) →
    parse_broker_marker (broker_marker controller intent owner) = Raise marker_invalid).
Proof.
  unfold parse_broker_marker, broker_marker, plain. rewrite !list_ascii_app. cbn [list_ascii_of_string].
  set (c := list_ascii_of_string controller). set (i := list_ascii_of_string intent).
  set (o := list_ascii_of_string owner). set (b := ["b"; "r"; "o"; "k"; "e"; "r"]%char).
  change (_ ++ c ++ _) with (b ++ ":"%char :: (c ++ ":"%char :: (i ++ ":"%char :: o))). split.
  - intros (Hc & Hi & Ho). rewrite (split_on_prefix _ b) by (subst b; set_solver).
    rewrite !split_on_prefix, split_on_whole by done. subst c i o b.
    cbn -[string_of_list_ascii]. by rewrite !string_of_list_ascii_of_string.
  - intros Hn.
    match goal with |- match _ <$> ?l with _ => _ end = _ => assert (4 < length l) as Hlen end.
    { rewrite split_on_count, !separators_cut. pose proof (separators_pos ":"%char c).
      pose proof (separators_pos ":"%char i). pose proof (separators_pos ":"%char o).
      destruct (decide (":"%char ∈ c)), (decide (":"%char ∈ i)), (decide (":"%char ∈ o)); naive_solver lia. }
    destruct (split_on _ _) as [|x1 [|x2 [|x3 [|x4 [|x5 l]]]]]; cbn in Hlen |- *; try lia. done.
Qed.
