(* ===== verification/AuditIndex.v ===== *)
(** * The audit index

    [audit/index.py]: the SQLite projection of the audit stream, query by query;
    [consume_once] of [audit/jetstream.py], which fills it; and one turn of the
    loop of [audit/runner.py].  The table is its rows in the order of the
    primary key.  An instant is a number; the column's text has a fixed width,
    so the two order alike.  JetStream is a parameter. *)

From S2P Require Import Prelude Encoding.

(** The SDK's [AuditEnvelope], field by field as [ingest] and [_index_envelope]
    copy it. *)
Record AuditEnvelope := mkEnvelope {
  event_id : string; producer : string; producer_seq : Z; category : string;
  owner_id : option string; subject_type : string; subject_id : string; action : string;
  audit_outcome : string; severity : string; audit_reason : option string; trace_id : option string;
  data_classification : string; schema_version : Z; payload : obj; occurred_at : Z }.

(** A row is the index's own number beside the envelope's columns. *)
Record IndexedAuditEvent := mkIndexed { ingest_seq : Z; envelope : AuditEnvelope }.
Definition audit_rows : Type := list IndexedAuditEvent.

(** ** The store *)

(** [INTEGER PRIMARY KEY] without the AUTOINCREMENT keyword: SQLite gives the
    next row one more than the largest key in the table, and one in an empty
    table. *)
Definition next_seq (rows : audit_rows) : Z := 1 + foldr Z.max 0%Z (ingest_seq <$> rows).

Definition known (id : string) (rows : audit_rows) : bool :=
  existsb (λ r, bool_decide (r.(envelope).(event_id) = id)) rows.

(** [INSERT ... ON CONFLICT(event_id) DO NOTHING], one row after another. *)
Definition insert_event (rows : audit_rows) (e : AuditEnvelope) : audit_rows :=
  if known e.(event_id) rows then rows else rows ++ [mkIndexed (next_seq rows) e].
Definition insert_events (rows : audit_rows) (es : list AuditEnvelope) : audit_rows :=
  foldl insert_event rows es.

Section Store.
Context (read_only : bool).

Definition ingest (events : list AuditEnvelope) : M audit_rows nat :=
  guard_py read_only (RuntimeError "read-only audit index clients cannot ingest") ;;
  if bool_decide (events = []) then mret 0
  else
    rows ← gets id;
    modify (λ rows, insert_events rows events) ;;
    mret (length (insert_events rows events) - length rows).

(** The key of the oldest row a prune keeps: the newest at an offset. *)
Definition prune_floor (max_rows : Z) (rows : audit_rows) : option Z :=
  reverse (ingest_seq <$> rows) !! Z.to_nat (max_rows - 1).

Definition prune (before max_rows : Z) : M audit_rows nat :=
  guard_py read_only (RuntimeError "read-only audit index clients cannot prune") ;;
  rows ← gets id;
  let young := List.filter (λ r, before <=? r.(envelope).(occurred_at))%Z rows in
  let kept := match prune_floor max_rows young with
              | Some floor => List.filter (λ r, floor <=? r.(ingest_seq))%Z young
              | None => young
              end in
  modify (λ _, kept) ;;
  mret (length rows - length kept).

Definition of_owner (owner : string) (rows : audit_rows) : audit_rows :=
  List.filter (λ r, bool_decide (r.(envelope).(owner_id) = Some owner)) rows.

Definition tail_for_owner (owner : string) (after_seq : option Z) (limit : nat) (rows : audit_rows) : audit_rows :=
  match after_seq with
  | Some after => take limit (List.filter (λ r, after <? r.(ingest_seq))%Z (of_owner owner rows))
  | None => reverse (take limit (reverse (of_owner owner rows)))
  end.

(** [ORDER BY occurred_at, ingest_seq] *)
Definition occurred_le (a b : IndexedAuditEvent) : bool :=
  (a.(envelope).(occurred_at) <? b.(envelope).(occurred_at))%Z ||
  ((a.(envelope).(occurred_at) =? b.(envelope).(occurred_at))%Z && (a.(ingest_seq) <=? b.(ingest_seq))%Z).

Definition list_for_owner (owner : string) (limit : nat) (rows : audit_rows) : list AuditEnvelope :=
  envelope <$> take limit (reverse (sort_by occurred_le (of_owner owner rows))).

Definition list_for_owner_since (owner : string) (after : Z) (limit : nat) (rows : audit_rows) : list AuditEnvelope :=
  envelope <$> take limit (sort_by occurred_le
    (List.filter (λ r, after <=? r.(envelope).(occurred_at))%Z (of_owner owner rows))).
End Store.

(** ** The consumer *)

(** A JetStream pull subscription over a state of its own: [fetch] hands out
    messages, [ack] and [term] settle one. *)
Class JetStream (Msg X : Type) := {
  fetch : nat → M X (list Msg);
  ack : Msg → M X unit;
  term : Msg → M X unit;
  reopen : M X unit;
  disconnect : M X unit }.

Section Consumer.
Context {Msg X : Type} `{!JetStream Msg X}.
(** [AuditEnvelope.model_validate_json(message.data)] *)
Context (decode : Msg → result AuditEnvelope) (fetch_batch : nat).

Abbreviation W := (audit_rows * X)%type.
Definition in_index {A} (c : M audit_rows A) : M W A := zoom fst (λ t w, (t, w.2)) c.
Definition in_stream {A} (c : M X A) : M W A := zoom snd (λ x w, (w.1, x)) c.

(** The loop over the fetched messages: what cannot be read is terminated. *)
Fixpoint read_messages (ms : list Msg) : M W (list (Msg * AuditEnvelope)) :=
  match ms with
  | [] => mret []
  | m :: ms' =>
      match decode m with
      | Raise _ => in_stream (term m) ;; read_messages ms'
      | Ok e => rest ← read_messages ms'; mret ((m, e) :: rest)
      end
  end.

(** [asyncio.gather] of the acknowledgements: all are run, the first failure is
    raised. *)
Fixpoint gather_acks (ms : list Msg) : M W unit :=
  match ms with
  | [] => mret tt
  | m :: ms' => λ w,
      let '(r, w1) := in_stream (ack m) w in
      let '(rs, w2) := gather_acks ms' w1 in
      (match r with Ok _ => rs | Raise e => Raise e end, w2)
  end.

Definition consume_once : M W nat :=
  in_stream reopen ;;
  fetched ← catch (ms ← in_stream (fetch fetch_batch); mret (Some ms))
    (λ e, match e with TimeoutError => Some (mret None) | _ => None end);
  match fetched with
  | None => mret 0
  | Some messages =>
      valid ← read_messages messages;
      if bool_decide (valid = []) then mret 0
      else
        in_index (ingest false valid.*2) ;;
        gather_acks valid.*1 ;;
        mret (length valid)
  end.

(** ** One turn of [run_audit_indexer] *)

Record AuditIndexerHealth := mkHealth { health_ok : bool; health_detail : string }.
Definition health_init : AuditIndexerHealth :=
  mkHealth false "审计索引还没有开始消费：事件流未建立".

Record indexer := mkIndexer {
  ix_health : AuditIndexerHealth; ix_next_prune : Z; ix_world : W }.

Definition PRUNE_INTERVAL : Z := 60 * 60.
Definition INDEX_MAX_ROWS : Z := 200000.

(** [type(error).__name__] and [str(error)]; the SDK's retention; the loop's
    clock and the wall clock at this turn; whether the VACUUM of [reclaim] goes
    through. *)
Context (describe : exn → string) (retention now wall : Z) (reclaim : result unit).

(** [_prune_once] *)
Definition prune_once : M W unit :=
  removed ← in_index (prune false (wall - retention)%Z INDEX_MAX_ROWS);
  if (0 <? removed)%nat then lift reclaim else mret tt.

Definition observed (i : indexer) : indexer := mkIndexer (mkHealth true "") i.(ix_next_prune) i.(ix_world).
Definition failed (e : exn) (i : indexer) : indexer :=
  mkIndexer (mkHealth false (describe e)) i.(ix_next_prune) i.(ix_world).

(** The body of the [while]: consume, say so, prune when it is due; or record
    the failure and drop the connection. *)
Definition indexer_turn (i : indexer) : indexer :=
  let '(r, w) := consume_once i.(ix_world) in
  let drop_connection i := mkIndexer i.(ix_health) i.(ix_next_prune) (in_stream disconnect i.(ix_world)).2 in
  match r with
  | Raise e => drop_connection (failed e (mkIndexer i.(ix_health) i.(ix_next_prune) w))
  | Ok _ =>
      let i1 := observed (mkIndexer i.(ix_health) i.(ix_next_prune) w) in
      if (i1.(ix_next_prune) <=? now)%Z then
        match prune_once i1.(ix_world) with
        | (Ok _, w') => mkIndexer i1.(ix_health) (now + PRUNE_INTERVAL)%Z w'
        | (Raise e, w') => drop_connection (failed e (mkIndexer i1.(ix_health) i1.(ix_next_prune) w'))
        end
      else i1
  end.
End Consumer.
