(* ===== verification/AuditProofs.v ===== *)
(** * The audit index, proved

    The numbering of [audit/index.py] over any history of ingests and prunes,
    what a resumed reader sees, what a prune keeps and what it breaks, and the
    order of commit and acknowledgement in [audit/jetstream.py]. *)

From S2P Require Import Prelude Encoding AuditIndex.

(** ** Numbers *)

Definition seqs (rows : audit_rows) : list Z := ingest_seq <$> rows.
Definition index_ok (rows : audit_rows) : Prop :=
  StronglySorted Z.lt (seqs rows) ∧ Forall (Z.lt 0) (seqs rows) ∧
  NoDup ((λ r, r.(envelope).(event_id)) <$> rows).

Lemma max_ge l x : x ∈ l → (x ≤ foldr Z.max 0 l)%Z.
Proof. induction 1 as [|y l x Hx IH]; cbn; lia. Qed.
Lemma max_nonneg l : (0 ≤ foldr Z.max 0 l)%Z.
Proof. induction l; cbn; lia. Qed.

Lemma next_above rows r : r ∈ rows → (r.(ingest_seq) < next_seq rows)%Z.
Proof.
  intros Hr. unfold next_seq. assert (r.(ingest_seq) ∈ ingest_seq <$> rows) as Hm by (apply list_elem_of_fmap; eauto).
  apply max_ge in Hm. lia.
Qed.
Lemma next_positive rows : (0 < next_seq rows)%Z.
Proof. unfold next_seq. pose proof (max_nonneg (ingest_seq <$> rows)). lia. Qed.

Lemma known_spec id rows : known id rows = true ↔ ∃ r, r ∈ rows ∧ r.(envelope).(event_id) = id.
Proof. unfold known. rewrite existsb_elem. by setoid_rewrite bool_decide_eq_true. Qed.

Lemma insert_event_ok rows e : index_ok rows → index_ok (insert_event rows e).
Proof.
  intros (Hs & Hp & Hn). unfold insert_event. destruct (known _ rows) eqn:Ek; [done|].
  unfold index_ok, seqs. rewrite !fmap_app. split_and!.
  - apply StronglySorted_app_2; [|done|repeat constructor].
    intros y x (r & -> & Hr)%list_elem_of_fmap ->%list_elem_of_singleton. by apply next_above.
  - apply Forall_app. split; [done|]. constructor; [apply next_positive|constructor].
  - apply NoDup_app. split_and!; [done| |apply NoDup_singleton].
    intros id (r & -> & Hr)%list_elem_of_fmap Hid%list_elem_of_singleton.
    assert (known e.(event_id) rows = true); [|congruence]. apply known_spec. eauto.
Qed.

Lemma insert_events_ok rows es : index_ok rows → index_ok (insert_events rows es).
Proof. revert rows. induction es as [|e es IH]; intros rows Hr; [done|]. by apply IH, insert_event_ok. Qed.

Lemma insert_event_prefix rows e : rows `prefix_of` insert_event rows e.
Proof. unfold insert_event. destruct (known _ _); [done|]. by apply prefix_app_r. Qed.
Lemma insert_events_prefix rows es : rows `prefix_of` insert_events rows es.
Proof.
  revert rows. induction es as [|e es IH]; intros rows; [done|]. cbn. etrans; [apply insert_event_prefix|apply IH].
Qed.

Lemma known_mono id rows rows' : rows `prefix_of` rows' → known id rows = true → known id rows' = true.
Proof. intros [k ->]. unfold known. rewrite existsb_app. by intros ->. Qed.

Lemma insert_event_known rows e : known e.(event_id) (insert_event rows e) = true.
Proof.
  unfold insert_event. destruct (known _ rows) eqn:Ek; [done|]. apply known_spec.
  eexists. split; [apply elem_of_app; right; by left|done].
Qed.

Lemma insert_events_known rows es e : e ∈ es → known e.(event_id) (insert_events rows es) = true.
Proof.
  intros He. revert rows. induction He as [e es|e x es He IH]; intros rows; cbn.
  - eapply known_mono; [apply insert_events_prefix|apply insert_event_known].
  - apply IH.
Qed.

Lemma insert_events_idle rows es : (∀ e, e ∈ es → known e.(event_id) rows = true) → insert_events rows es = rows.
Proof.
  revert rows. induction es as [|e es IH]; intros rows Hk; [done|]. cbn. unfold insert_event at 2.
  rewrite (Hk e) by left. apply IH. intros e' He. apply Hk. by right.
Qed.

(** A selection of the rows in order. *)
Lemma filter_elem {A} (p : A → bool) l x : x ∈ List.filter p l ↔ x ∈ l ∧ p x = true.
Proof. by rewrite !list_elem_of_In, filter_In. Qed.
Lemma sorted_filter {A} (R : A → A → Prop) (p : A → bool) l : StronglySorted R l → StronglySorted R (List.filter p l).
Proof.
  induction 1 as [|x l Hs IH Hx]; cbn; [constructor|]. destruct (p x); [|done]. constructor; [done|].
  rewrite Forall_forall in Hx |- *. intros y Hy. apply Hx. by apply filter_elem in Hy as [Hy _].
Qed.
Lemma filter_fmap_sorted p rows : StronglySorted Z.lt (seqs rows) → StronglySorted Z.lt (seqs (List.filter p rows)).
Proof.
  unfold seqs. induction rows as [|r rows IH]; [done|]. cbn. intros [Hs Hr]%StronglySorted_inv.
  destruct (p r); [|by apply IH]. cbn. constructor; [by apply IH|]. rewrite Forall_forall in Hr |- *.
  intros y (x & -> & Hx)%list_elem_of_fmap. apply Hr, list_elem_of_fmap. exists x. split; [done|]. by apply filter_elem in Hx as [Hx _].
Qed.
Lemma filter_NoDup {A B} (f : A → B) (p : A → bool) l : NoDup (f <$> l) → NoDup (f <$> List.filter p l).
Proof.
  induction l as [|x l IH]; cbn; [done|]. intros [Hx Hl]%NoDup_cons. destruct (p x); cbn; [|by apply IH].
  apply NoDup_cons. split; [|by apply IH]. intros (y & E & Hy)%list_elem_of_fmap. apply Hx.
  apply filter_elem in Hy as [Hy _]. rewrite E. apply list_elem_of_fmap. eauto.
Qed.

Lemma filter_ok p rows : index_ok rows → index_ok (List.filter p rows).
Proof.
  intros (Hs & Hp & Hn). split_and!; [by apply filter_fmap_sorted| |].
  - unfold seqs in *. rewrite Forall_forall in Hp |- *. intros y (x & -> & Hx)%list_elem_of_fmap.
    apply Hp, list_elem_of_fmap. exists x. split; [done|]. by apply filter_elem in Hx as [Hx _].
  - by apply filter_NoDup.
Qed.

(** ** Histories *)

Inductive index_call :=
| Ingest (events : list AuditEnvelope)
| Prune (before max_rows : Z).
Definition run_index_call (c : index_call) : M audit_rows nat :=
  match c with Ingest es => ingest false es | Prune b m => prune false b m end.
Fixpoint run_index (cs : list index_call) (rows : audit_rows) : audit_rows :=
  match cs with [] => rows | c :: cs' => run_index cs' (run_index_call c rows).2 end.

Lemma ingest_run es rows : ingest false es rows =
  (Ok (if bool_decide (es = []) then 0 else length (insert_events rows es) - length rows), insert_events rows es).
Proof. unfold ingest. rewrite bind_guard. case_bool_decide; [by subst|done]. Qed.

(** What a prune keeps. *)
Definition survivors (before max_rows : Z) (rows : audit_rows) : audit_rows :=
  let young := List.filter (λ r, before <=? r.(envelope).(occurred_at))%Z rows in
  match prune_floor max_rows young with
  | Some floor => List.filter (λ r, floor <=? r.(ingest_seq))%Z young
  | None => young
  end.
Lemma prune_run before max_rows rows : prune false before max_rows rows =
  (Ok (length rows - length (survivors before max_rows rows)), survivors before max_rows rows).
Proof. done. Qed.

Lemma survivors_ok before max_rows rows : index_ok rows → index_ok (survivors before max_rows rows).
Proof. intros Hr. unfold survivors. destruct (prune_floor _ _); by repeat apply filter_ok. Qed.

Lemma run_index_ok cs rows : index_ok rows → index_ok (run_index cs rows).
Proof.
  revert rows. induction cs as [|c cs IH]; intros rows Hr; [done|]. cbn [run_index]. apply IH.
  destruct c as [es|b m]; cbn [run_index_call].
  - rewrite ingest_run. by apply insert_events_ok.
  - by apply survivors_ok.
Qed.
Lemma index_ok_nil : index_ok [].
Proof. split_and!; constructor. Qed.

(** In a table in key order, the rows from some row on. *)
Lemma filter_from rows i r : StronglySorted Z.lt (seqs rows) → rows !! i = Some r →
  List.filter (λ x, r.(ingest_seq) <=? x.(ingest_seq))%Z rows = drop i rows.
Proof.
  revert i. induction rows as [|x rows IH]; intros i; [done|]. cbn. intros [Hs Hx]%StronglySorted_inv.
  rewrite Forall_forall in Hx. destruct i as [|i]; cbn.
  - intros [= ->]. rewrite Z.leb_refl. f_equal. clear IH Hs.
    assert (∀ y, y ∈ rows → (r.(ingest_seq) <=? y.(ingest_seq))%Z = true) as Hall.
    { intros y Hy. apply Z.leb_le, Z.lt_le_incl, Hx, list_elem_of_fmap. eauto. }
    clear Hx. induction rows as [|y rows IH]; cbn; [done|]. rewrite Hall by left. f_equal. apply IH.
    intros z Hz. apply Hall. by right.
  - intros Hi. assert (x.(ingest_seq) < r.(ingest_seq))%Z as Hlt.
    { apply Hx, list_elem_of_fmap. exists r. split; [done|]. by apply list_elem_of_lookup_2 in Hi. }
    destruct (Z.leb_spec r.(ingest_seq) x.(ingest_seq)); [lia|]. by apply IH.
Qed.

(** A prune keeps the newest [max_rows] of the rows that are young enough. *)
Lemma survivors_newest before max_rows rows : index_ok rows → (1 ≤ max_rows)%Z →
  let young := List.filter (λ r, before <=? r.(envelope).(occurred_at))%Z rows in
  survivors before max_rows rows = drop (length young - Z.to_nat max_rows) young.
Proof.
  intros Hr Hm young. unfold survivors. fold young.
  assert (index_ok young) as (Hs & _) by (by apply filter_ok).
  unfold prune_floor. destruct (reverse (ingest_seq <$> young) !! Z.to_nat (max_rows - 1)) as [floor|] eqn:Ef.
  - pose proof (lookup_lt_Some _ _ _ Ef) as Hl. rewrite length_reverse, length_fmap in Hl.
    rewrite reverse_lookup in Ef by (rewrite length_fmap; lia). rewrite length_fmap in Ef.
    rewrite list_lookup_fmap in Ef. destruct (young !! _) as [r|] eqn:Er; [|done]. injection Ef as <-.
    rewrite (filter_from young _ r Hs Er). f_equal. lia.
  - apply lookup_ge_None in Ef. rewrite length_reverse, length_fmap in Ef.
    replace (length young - Z.to_nat max_rows) with 0 by lia. by rewrite drop_0.
Qed.

(** ** A resumed reader *)

(** The number a reader of a page resumes from. *)
Definition cursor_after (cursor : Z) (page : audit_rows) : Z :=
  match last page with Some r => r.(ingest_seq) | None => cursor end.

(** Reads one page after another, each from the index as it is by then, and
    resumes from the last number it saw. *)
Fixpoint follow (owner : string) (limit : nat) (cursor : Z) (snapshots : list audit_rows) : audit_rows * Z :=
  match snapshots with
  | [] => ([], cursor)
  | rows :: snapshots' =>
      let page := tail_for_owner owner (Some cursor) limit rows in
      let cursor' := cursor_after cursor page in
      let '(pages, c) := follow owner limit cursor' snapshots' in (page ++ pages, c)
  end.
Definition beyond (owner : string) (cursor : Z) (rows : audit_rows) : audit_rows :=
  List.filter (λ r, cursor <? r.(ingest_seq))%Z (of_owner owner rows).

Lemma beyond_sorted owner cursor rows : index_ok rows → StronglySorted Z.lt (seqs (beyond owner cursor rows)).
Proof. intros (Hs & _). by repeat apply filter_fmap_sorted. Qed.

Lemma beyond_app owner cursor rows more : beyond owner cursor (rows ++ more) = beyond owner cursor rows ++ beyond owner cursor more.
Proof. unfold beyond, of_owner. by rewrite !List.filter_app. Qed.

(** What lies beyond the end of a page is the rest of what lay beyond its start. *)
Lemma filter_after (l : audit_rows) n c : StronglySorted Z.lt (seqs l) → (∀ r, r ∈ l → (c < r.(ingest_seq))%Z) →
  List.filter (λ r, cursor_after c (take n l) <? r.(ingest_seq))%Z l = drop n l.
Proof.
  intros Hs. revert n c. induction l as [|x l IH]; intros n c Hc; [by destruct n|].
  cbn in Hs. apply StronglySorted_inv in Hs as [Hs Hx]. rewrite Forall_forall in Hx.
  destruct n as [|n]; cbn [take drop].
  - unfold cursor_after. cbn [last].
    assert (∀ k, (∀ r, r ∈ k → (c < r.(ingest_seq))%Z) → List.filter (λ r, c <? r.(ingest_seq))%Z k = k) as Hall.
    { induction k as [|y k IHk]; intros Hk; [done|]. cbn. rewrite (proj2 (Z.ltb_lt _ _)) by (apply Hk; left).
      f_equal. apply IHk. intros r Hr. apply Hk. by right. }
    by apply (Hall (x :: l)).
  - assert (cursor_after c (x :: take n l) = cursor_after x.(ingest_seq) (take n l)) as ->
      by (unfold cursor_after; rewrite last_cons; by destruct (last (take n l))).
    rewrite <- (IH Hs n x.(ingest_seq)).
    2: { intros r Hr. apply Hx, list_elem_of_fmap. eauto. }
    cbn [List.filter]. assert (x.(ingest_seq) ≤ cursor_after x.(ingest_seq) (take n l))%Z as Hle.
    { unfold cursor_after. destruct (last (take n l)) as [y|] eqn:El; [|lia]. apply Z.lt_le_incl, Hx, list_elem_of_fmap.
      exists y. split; [done|]. apply last_Some_elem_of in El. by apply elem_of_take in El as (? & ?%list_elem_of_lookup_2 & _). }
    destruct (Z.ltb_spec (cursor_after x.(ingest_seq) (take n l)) x.(ingest_seq)); [lia|done].
Qed.

Lemma beyond_further owner c c' rows : (c ≤ c')%Z →
  beyond owner c' rows = List.filter (λ r, c' <? r.(ingest_seq))%Z (beyond owner c rows).
Proof.
  intros Hc. unfold beyond. induction (of_owner owner rows) as [|r l IH]; [done|]. cbn.
  destruct (Z.ltb_spec c r.(ingest_seq)); cbn; destruct (Z.ltb_spec c' r.(ingest_seq)); try lia; rewrite IH; done.
Qed.

Lemma beyond_elem owner c rows r : r ∈ beyond owner c rows → (c < r.(ingest_seq))%Z.
Proof. intros [_ Hr]%filter_elem. by apply Z.ltb_lt. Qed.

Lemma cursor_after_le c (page : audit_rows) : (∀ r, r ∈ page → (c < r.(ingest_seq))%Z) → (c ≤ cursor_after c page)%Z.
Proof.
  intros Hp. unfold cursor_after. destruct (last page) as [r|] eqn:E; [|lia]. apply last_Some_elem_of in E.
  apply Z.lt_le_incl. by apply Hp.
Qed.

(** One page, then everything beyond it. *)
Lemma page_then_rest owner limit c rows final : index_ok final → rows `prefix_of` final →
  let page := tail_for_owner owner (Some c) limit rows in
  beyond owner c final = page ++ beyond owner (cursor_after c page) final.
Proof.
  intros Hok [more ->]. cbn zeta. unfold tail_for_owner. fold (beyond owner c rows).
  set (l := beyond owner c (rows ++ more)). set (n := limit `min` length (beyond owner c rows)).
  assert (take limit (beyond owner c rows) = take n l) as ->.
  { unfold l. rewrite beyond_app. rewrite take_app_le by (subst n; lia). subst n.
    destruct (Nat.le_ge_cases limit (length (beyond owner c rows))) as [H|H].
    - by rewrite Nat.min_l.
    - rewrite Nat.min_r by done. by rewrite !take_ge by done. }
  assert (∀ r, r ∈ take n l → (c < r.(ingest_seq))%Z) as Hp.
  { intros r (i & Hi%list_elem_of_lookup_2 & _)%elem_of_take. by eapply beyond_elem. }
  rewrite (beyond_further owner c) by (by apply cursor_after_le). fold l.
  rewrite filter_after.
  - by rewrite take_drop.
  - by apply beyond_sorted.
  - intros r Hr. by eapply beyond_elem.
Qed.

Lemma follow_exact owner limit c snapshots final : index_ok final → Forall (λ rows, rows `prefix_of` final) snapshots →
  let '(pages, c') := follow owner limit c snapshots in
  beyond owner c final = pages ++ beyond owner c' final.
Proof.
  intros Hok. revert c. induction snapshots as [|rows snaps IH]; intros c Hp; [done|]. cbn [follow].
  apply Forall_cons in Hp as [Hr Hp]. specialize (IH (cursor_after c (tail_for_owner owner (Some c) limit rows)) Hp).
  destruct (follow owner limit _ snaps) as [pages c']. rewrite (page_then_rest owner limit c rows final Hok Hr), IH.
  by rewrite app_assoc.
Qed.

Lemma follow_complete owner limit c rows n : index_ok rows → length (beyond owner c rows) ≤ n * limit →
  (follow owner limit c (replicate n rows)).1 = beyond owner c rows.
Proof.
  intros Hok. revert c. induction n as [|n IH]; intros c Hl.
  { cbn. by destruct (beyond owner c rows); [|cbn in Hl; lia]. }
  cbn [replicate follow]. pose proof (page_then_rest owner limit c rows rows Hok ltac:(done)) as Hp. cbn zeta in Hp.
  set (page := tail_for_owner owner (Some c) limit rows) in *.
  specialize (IH (cursor_after c page)). rewrite Hp at 1.
  assert (length page = limit `min` length (beyond owner c rows)) as Hlen by (subst page; cbn; by rewrite length_take).
  rewrite Hp, length_app in Hl. rewrite Hp, length_app in Hlen.
  destruct (follow owner limit (cursor_after c page) (replicate n rows)) as [pages c']. cbn [fst] in *.
  rewrite IH by lia. done.
Qed.

(** *** Properties *)

Definition sample_event (id : string) (at_ : Z) : AuditEnvelope :=
  mkEnvelope id "hub" 1 "domain" (Some "owner-1") "device" "d1" "claimed" "success" "info" None None
    "internal" 1 [] at_.

(** The index is a projection.  Over any history of ingests and prunes the
    rows are numbered upwards from a positive number and no event stands
    twice; an ingest only appends, contains every event it was given afterwards,
    keeps the first version of each, and given again, whole or in part and in
    any order, changes nothing. *)
Theorem audit_index_projection calls events :
  let rows := run_index calls [] in
  let rows' := (ingest false events rows).2 in
  index_ok rows ∧ rows `prefix_of` rows' ∧
  (∀ e, e ∈ events → known e.(event_id) rows' = true) ∧
  (∀ again, (∀ e, e ∈ again → known e.(event_id) rows' = true) → ingest false again rows' = (Ok 0, rows')).
Proof.
  intros rows rows'. assert (rows' = insert_events rows events) as E by (unfold rows'; by rewrite ingest_run).
  split_and!.
  - apply run_index_ok, index_ok_nil.
  - rewrite E. apply insert_events_prefix.
  - intros e He. rewrite E. by apply insert_events_known.
  - intros again Ha. rewrite ingest_run, insert_events_idle by done. f_equal. rewrite Nat.sub_diag. by case_bool_decide.
Qed.

(** A cursor reads everything once.  A reader that resumes from the last
    number it saw, while the index only grows between its reads, gets exactly
    the Owner's events beyond its cursor, in order, none twice and none
    skipped: its pages followed by what lies beyond its last cursor are what
    lies beyond its first; and as many pages as hold them get them all. *)
Theorem cursor_reads_once owner limit cursor calls snapshots growth :
  let rows := run_index calls [] in
  let final := insert_events rows growth in
  Forall (λ s, s `prefix_of` final) snapshots →
  (let '(pages, cursor') := follow owner limit cursor snapshots in
   beyond owner cursor final = pages ++ beyond owner cursor' final ∧ StronglySorted Z.lt (seqs pages)) ∧
  (∀ n, length (beyond owner cursor final) ≤ n * limit →
    (follow owner limit cursor (replicate n final)).1 = beyond owner cursor final).
Proof.
  intros rows final Hs. assert (index_ok final) as Hok by apply insert_events_ok, run_index_ok, index_ok_nil. split.
  - pose proof (follow_exact owner limit cursor snapshots final Hok Hs) as Hf.
    destruct (follow owner limit cursor snapshots) as [pages c']. split; [done|].
    pose proof (beyond_sorted owner cursor final Hok) as Hb. rewrite Hf in Hb. unfold seqs in *. rewrite fmap_app in Hb.
    by apply StronglySorted_app_1_l in Hb.
  - intros n Hn. by apply follow_complete.
Qed.

Lemma cursor_reads_once_witness :
  let rows := run_index [Ingest [sample_event "a" 1; sample_event "b" 2]] [] in
  let final := insert_events rows [sample_event "b" 2; sample_event "c" 3] in
  (let '(pages, cursor') := follow "owner-1" 1 0 [rows; rows; final] in
   beyond "owner-1" 0 final = pages ++ beyond "owner-1" cursor' final ∧ StronglySorted Z.lt (seqs pages)) ∧
  (follow "owner-1" 1 0 (replicate 3 final)).1 = beyond "owner-1" 0 final.
Proof.
  destruct (cursor_reads_once "owner-1" 1 0 [Ingest [sample_event "a" 1; sample_event "b" 2]]
    [run_index [Ingest [sample_event "a" 1; sample_event "b" 2]] [];
     run_index [Ingest [sample_event "a" 1; sample_event "b" 2]] [];
     insert_events (run_index [Ingest [sample_event "a" 1; sample_event "b" 2]] [])
       [sample_event "b" 2; sample_event "c" 3]]
    [sample_event "b" 2; sample_event "c" 3]) as [Hf Hn].
  - do 2 (apply Forall_cons; split; [apply insert_events_prefix|]). by apply Forall_singleton.
  - split; [exact Hf|]. apply (Hn 3). vm_compute. lia.
Defined.

Lemma next_seq_last rows r : index_ok rows → last rows = Some r → next_seq rows = (r.(ingest_seq) + 1)%Z.
Proof.
  intros (Hs & Hp & _) (l & ->)%last_Some. unfold next_seq, seqs in *. rewrite fmap_app in *. cbn in *.
  assert (∀ k, (∀ y, y ∈ k → (y ≤ r.(ingest_seq))%Z) → (0 < r.(ingest_seq))%Z →
    foldr Z.max 0%Z (k ++ [r.(ingest_seq)]) = r.(ingest_seq)) as Hmax.
  { induction k as [|y k IH]; intros Hk H0; cbn; [lia|]. rewrite IH.
    - specialize (Hk y ltac:(by left)). lia.
    - intros z Hz. apply Hk. by right.
    - done. }
  rewrite Hmax; [lia| |].
  - intros y Hy. apply Z.lt_le_incl.
    apply (StronglySorted_app_1_elem_of _ _ _ _ _ Hs); [done|by left].
  - rewrite Forall_app in Hp. destruct Hp as [_ Hp]. by apply Forall_inv in Hp.
Qed.

Lemma last_survives before max_rows rows r : index_ok rows → (1 ≤ max_rows)%Z → last rows = Some r →
  (before ≤ r.(envelope).(occurred_at))%Z → last (survivors before max_rows rows) = Some r.
Proof.
  intros Hok Hm (l & ->)%last_Some Hr. rewrite survivors_newest by done. rewrite List.filter_app. cbn [List.filter].
  rewrite (proj2 (Z.leb_le _ _)) by done. set (k := List.filter _ l). rewrite length_app. cbn.
  rewrite drop_app_le by lia. apply last_snoc.
Qed.

Lemma survivors_all_old before max_rows rows :
  (∀ r, r ∈ rows → (r.(envelope).(occurred_at) < before)%Z) → survivors before max_rows rows = [].
Proof.
  intros Hold. unfold survivors.
  assert (List.filter (λ r, before <=? r.(envelope).(occurred_at))%Z rows = []) as ->.
  { destruct (List.filter _ rows) as [|x l] eqn:E; [done|]. exfalso.
    assert (x ∈ List.filter (λ r, before <=? r.(envelope).(occurred_at))%Z rows) as Hx by (rewrite E; left).
    apply filter_elem in Hx as [Hx Hb]. specialize (Hold x Hx). apply Z.leb_le in Hb. lia. }
  by destruct (prune_floor _ _).
Qed.

(** What a prune keeps, and what it does to the numbers.  A prune keeps
    exactly the newest [max_rows] of the rows that are young enough, in their
    order.  While the newest row is young enough the numbering goes on; when
    every row is too old the next event is number one again, and a reader that
    resumes from any number it was given does not see it. *)
Theorem prune_exact calls before max_rows e owner limit cursor :
  (1 ≤ max_rows)%Z →
  let rows := run_index calls [] in
  let young := List.filter (λ r, before <=? r.(envelope).(occurred_at))%Z rows in
  let '(r, kept) := prune false before max_rows rows in
  r = Ok (length rows - length kept) ∧
  kept = drop (length young - Z.to_nat max_rows) young ∧ index_ok kept ∧
  (∀ newest, last rows = Some newest → (before ≤ newest.(envelope).(occurred_at))%Z → next_seq kept = next_seq rows) ∧
  ((∀ r, r ∈ rows → (r.(envelope).(occurred_at) < before)%Z) →
    insert_event kept e = [mkIndexed 1 e] ∧
    ((1 ≤ cursor)%Z → tail_for_owner owner (Some cursor) limit (insert_event kept e) = [])).
Proof.
  intros Hm rows young. assert (index_ok rows) as Hok by apply run_index_ok, index_ok_nil.
  rewrite prune_run. split_and!; [done|by apply survivors_newest|by apply survivors_ok| |].
  - intros newest Hl Hb. rewrite (next_seq_last _ newest Hok Hl).
    rewrite (next_seq_last (survivors before max_rows rows) newest); [done|by apply survivors_ok|].
    by apply last_survives.
  - intros Hold. rewrite survivors_all_old by done. split; [done|]. intros Hc.
    assert (insert_event [] e = [mkIndexed 1 e]) as -> by done. unfold tail_for_owner, of_owner. cbn [List.filter ingest_seq].
    assert ((cursor <? 1)%Z = false) as Hlt by (apply Z.ltb_ge; lia).
    destruct (bool_decide _); cbn [List.filter ingest_seq]; rewrite ?Hlt; by destruct limit.
Qed.

Lemma prune_exact_witness :
  let '(r, kept) := prune false 2 1 (run_index [Ingest [sample_event "a" 1; sample_event "b" 2; sample_event "c" 3]] []) in
  r = Ok 2 ∧ next_seq kept = 4%Z.
Proof.
  pose proof (prune_exact [Ingest [sample_event "a" 1; sample_event "b" 2; sample_event "c" 3]] 2 1
    (sample_event "d" 4) "owner-1" 10 3 ltac:(lia)) as H.
  cbv zeta in H. destruct (prune false 2 1 _) as [r kept] eqn:E. vm_compute in E. injection E as <- <-.
  destruct H as (_ & _ & _ & Hn & _). split; [reflexivity|].
  rewrite (Hn (mkIndexed 3 (sample_event "c" 3))); [reflexivity|reflexivity|vm_compute; discriminate].
Defined.

(** ** Commit, then acknowledge *)

Inductive settled (Msg : Type) := Acked (m : Msg) | Termed (m : Msg).
Arguments Acked {Msg}.
Arguments Termed {Msg}.

(** Any stream, with what was settled kept in order; a settlement that fails is
    kept too, for the server may have seen it. *)
Definition settling {Msg X} (js : JetStream Msg X) : JetStream Msg (list (settled Msg) * X) :=
  let note (f : Msg → settled Msg) (c : Msg → M X unit) (m : Msg) : M (list (settled Msg) * X) unit :=
    λ s, let '(r, x) := c m s.2 in (r, (s.1 ++ [f m], x)) in
  {| fetch := λ n, zoom snd (λ x s, (s.1, x)) (fetch n);
     ack := note Acked ack; term := note Termed term;
     reopen := zoom snd (λ x s, (s.1, x)) reopen; disconnect := zoom snd (λ x s, (s.1, x)) disconnect |}.

Section Consuming.
Context {Msg X : Type} (js : JetStream Msg X) (decode : Msg → result AuditEnvelope) (fetch_batch : nat).
#[local] Instance the_stream : JetStream Msg (list (settled Msg) * X) := settling js.
Abbreviation W := (audit_rows * (list (settled Msg) * X))%type.
Implicit Types (w : W).

Definition justified (rows : audit_rows) (log : list (settled Msg)) : Prop :=
  (∀ m, Acked m ∈ log → ∃ e, decode m = Ok e ∧ known e.(event_id) rows = true) ∧
  (∀ m, Termed m ∈ log → ∃ x, decode m = Raise x).
Definition settled_ok (rows0 : audit_rows) w : Prop :=
  rows0 `prefix_of` w.1 ∧ index_ok w.1 ∧ justified w.1 w.2.1.
Abbreviation failing rows0 := (λ (_ : exn) w, settled_ok rows0 w).

Lemma justified_mono rows rows' log : rows `prefix_of` rows' → justified rows log → justified rows' log.
Proof.
  intros Hp [Ha Ht]. split; [|done]. intros m Hm. destruct (Ha m Hm) as (e & He & Hk). exists e.
  split; [done|]. by eapply known_mono.
Qed.

Lemma hoare_still {A} rows0 (c : M X A) :
  hoare (settled_ok rows0) (in_stream (zoom snd (λ x s, (s.1, x)) c)) (λ _, settled_ok rows0) (failing rows0).
Proof. intros [rows [log x]] H. unfold in_stream, zoom. cbn [fst snd]. by destruct (c x) as [[a|e] x']. Qed.

(** Settling one message that may be settled so. *)
Lemma hoare_settle rows0 (f : settled Msg) (c : M X unit) :
  hoare (λ w, settled_ok rows0 w ∧ justified w.1 [f])
    (in_stream (λ s : list (settled Msg) * X, let '(r, x) := c s.2 in (r, (s.1 ++ [f], x))))
    (λ _, settled_ok rows0) (failing rows0).
Proof.
  intros [rows [log x]] ((Hp & Hok & Ha & Ht) & Hfa & Hft). unfold in_stream, zoom. cbn [fst snd].
  assert (settled_ok rows0 (rows, (log ++ [f], x))) as Hw.
  { split_and!; [done|done|]. split; intros m [Hm|Hm]%elem_of_app; auto. }
  destruct (c x) as [[a|e] x']; exact Hw.
Qed.

Definition decoded (v : list (Msg * AuditEnvelope)) : Prop := ∀ m e, (m, e) ∈ v → decode m = Ok e.

Lemma hoare_read rows0 ms :
  hoare (settled_ok rows0) (read_messages decode ms) (λ v w, settled_ok rows0 w ∧ decoded v) (failing rows0).
Proof.
  induction ms as [|m ms IH]; cbn [read_messages]; [by intros w Hw; split; [|intros ? ? ?%not_elem_of_nil]|].
  destruct (decode m) as [e|x] eqn:Em.
  - eapply hoare_bind; [apply IH|]. intros v w [Hw Hv]. split; [done|].
    intros m' e' [[= -> ->]|Hin]%elem_of_cons; [done|by apply Hv].
  - apply (hoare_bind _ _ (λ _, settled_ok rows0)); [|intros _; apply IH].
    eapply hoare_mono; [apply (hoare_settle rows0 (Termed m))| |done|done]. intros w Hw. split; [done|].
    split; intros m' Hm%list_elem_of_singleton; [done|]. injection Hm as ->. by exists x.
Qed.

Definition acknowledged (ms : list Msg) (rows : audit_rows) : Prop :=
  ∀ m, m ∈ ms → ∃ e, decode m = Ok e ∧ known e.(event_id) rows = true.

Lemma hoare_acks rows0 ms rows :
  hoare (λ w, settled_ok rows0 w ∧ w.1 = rows ∧ acknowledged ms rows) (gather_acks ms)
    (λ _ w, settled_ok rows0 w) (failing rows0).
Proof.
  induction ms as [|m ms IH]; [by intros w [Hw _]|]. intros w (Hw & Hr & Ha). cbn [gather_acks].
  pose proof (hoare_settle rows0 (Acked m) (ack m) w) as Hs. cbn [ack the_stream settling].
  assert (settled_ok rows0 w ∧ justified w.1 [Acked m]) as Hpre.
  { split; [done|]. split; intros m' Hm%list_elem_of_singleton; [|done]. injection Hm as ->. rewrite Hr. apply Ha. left. }
  specialize (Hs Hpre).
  assert ((in_stream (λ s : list (settled Msg) * X, let '(r, x) := ack m s.2 in (r, (s.1 ++ [Acked m], x))) w).2.1 = w.1) as Hsame.
  { unfold in_stream, zoom. cbn. by destruct (ack m _) as [r x]. }
  destruct (in_stream _ w) as [r w1]. cbn [snd] in Hsame.
  assert (settled_ok rows0 w1) as Hw1 by (by destruct r).
  assert (acknowledged ms rows) as Ha' by (intros m' Hm'; apply Ha; by right).
  specialize (IH w1 (conj Hw1 (conj (eq_trans Hsame Hr) Ha'))).
  destruct (gather_acks ms w1) as [rs w2]. by destruct r, rs.
Qed.

Lemma hoare_ingest rows0 (v : list (Msg * AuditEnvelope)) :
  hoare (λ w, settled_ok rows0 w ∧ decoded v) (in_index (ingest false v.*2))
    (λ _ w, settled_ok rows0 w ∧ acknowledged v.*1 w.1) (failing rows0).
Proof.
  intros [rows [log x]] [(Hp & Hok & Hj) Hv]. unfold in_index, zoom. cbn [fst snd] in *. rewrite ingest_run.
  split.
  - split_and!; cbn [fst snd].
    + etrans; [exact Hp|apply insert_events_prefix].
    + by apply insert_events_ok.
    + eapply justified_mono; [apply insert_events_prefix|done].
  - intros m ([m' e] & -> & Hin)%list_elem_of_fmap. cbn. exists e. split; [by apply Hv|].
    apply insert_events_known, list_elem_of_fmap. by exists (m', e).
Qed.

Lemma hoare_consume rows0 : hoare (settled_ok rows0) (consume_once decode fetch_batch) (λ _, settled_ok rows0) (failing rows0).
Proof.
  unfold consume_once. eapply hoare_bind; [apply hoare_still|]. intros [].
  apply (hoare_bind _ _ (λ _, settled_ok rows0)).
  { apply (hoare_catch _ _ _ _ _ (failing rows0)).
    - eapply hoare_bind; [apply hoare_still|]. by intros ms w Hw.
    - intros []; by intros w Hw. }
  intros [ms|]; [|by intros w Hw]. eapply hoare_bind; [apply hoare_read|]. intros v. case_bool_decide.
  { by intros w [Hw _]. }
  eapply hoare_bind; [apply hoare_ingest|]. intros n.
  apply (hoare_bind _ _ (λ _, settled_ok rows0)); [|by intros _ w Hw].
  intros w [Hw Ha]. by apply (hoare_acks rows0 v.*1 w.1).
Qed.

Fixpoint consume_many (n : nat) (w : W) : W :=
  match n with 0 => w | S n' => consume_many n' (consume_once decode fetch_batch w).2 end.

Lemma consume_many_ok rows0 n w : settled_ok rows0 w → settled_ok rows0 (consume_many n w).
Proof.
  revert w. induction n as [|n IH]; intros w Hw; [done|]. cbn. apply IH.
  pose proof (hoare_consume rows0 w Hw) as Hc. by destruct (consume_once _ _ w) as [[r|e] w'].
Qed.
End Consuming.

(** Nothing is acknowledged before it is kept.  Over any number of rounds
    of the consumer, from any index, with a stream that delivers anything any
    number of times and may fail at any call: a message is acknowledged only
    if it holds an event and the index holds that event, is discarded only if
    it holds none, and no row an earlier round left is lost or doubled. *)
Theorem acknowledged_is_kept {Msg X} (js : JetStream Msg X) decode batch calls rounds (x : X) :
  let rows := run_index calls [] in
  let w := consume_many js decode batch rounds (rows, ([], x)) in
  rows `prefix_of` w.1 ∧ index_ok w.1 ∧
  (∀ m, Acked m ∈ w.2.1 → ∃ e, decode m = Ok e ∧ known e.(event_id) w.1 = true) ∧
  (∀ m, Termed m ∈ w.2.1 → ∃ e, decode m = Raise e).
Proof.
  intros rows w. apply (consume_many_ok js decode batch rows rounds (rows, ([], x))).
  split_and!; [done|apply run_index_ok, index_ok_nil|]. split; by intros m ?%not_elem_of_nil.
Qed.
