(* ===== verification/LocalApi.v ===== *)
(** * Sessions of the Local API

    [local_api/auth.py], the bearer authentication and the owner scope of
    [local_api/app.py], and the client half of the control socket in
    [bootstrap/control.py].  The Local API is a process of its own: its state is
    the session store, beside the Host it asks over the socket. *)

From S2P Require Import Prelude Domain StateStore Encoding Json Timestamp Network.
From S2P Require Import Commissioning Protocol HostAddresses BootstrapService Control.

(** ** [LocalControllerSessionStore] *)

Record LocalControllerSession := mkSession {
  token_hash : string; s_controller_id : string; s_reset_epoch : Z; principal : doc;
  s_expires_at : Z; s_owner_id : option string; owner_resolved : bool }.

(** [self._sessions]: a dictionary in insertion order; the callers hold the
    same objects, so a change to one is a change to its entry. *)
Definition session_table : Type := list (string * LocalControllerSession).

Definition doc_get (k : string) (d : doc) : doc :=
  match d with
  | DObj kv => default DNull (dict_get k kv)
  | _ => DNull
  end.
(** [isinstance(v, int)]: a [bool] is one. *)
Definition doc_int (d : doc) : option Z :=
  match d with DInt z => Some z | DBool b => Some (Z.b2z b) | _ => None end.

Definition remember_owner (owner : option string) (s : LocalControllerSession) : LocalControllerSession :=
  mkSession s.(token_hash) s.(s_controller_id) s.(s_reset_epoch) s.(principal) s.(s_expires_at) owner true.
Definition forget_owner (s : LocalControllerSession) : LocalControllerSession :=
  mkSession s.(token_hash) s.(s_controller_id) s.(s_reset_epoch) s.(principal) s.(s_expires_at) None false.

Section Sessions.
(** [hashlib.sha256(...).hexdigest()], and [ttl_seconds] in microseconds. *)
Context (sha256_hex : bytes → string) (ttl : Z).

(** [_hash], with [token.encode("ascii")] in front. *)
Definition hash_token (token : string) : result string :=
  if str_forallb (λ c, N_of_ascii c <? 128)%N token
  then Ok (sha256_hex (list_ascii_of_string token))
  else Raise (ValueError "'ascii' codec can't encode characters").

(** [min(self._sessions, key=...)]: the first of the entries that expire
    soonest. *)
Fixpoint soonest (l : session_table) : option (string * LocalControllerSession) :=
  match l with
  | [] => None
  | e :: l' =>
      match soonest l' with
      | Some e' => Some (if (e'.2.(s_expires_at) <? e.2.(s_expires_at))%Z then e' else e)
      | None => Some e
      end
  end.
Definition evict_soonest (l : session_table) : session_table :=
  if (1024 <=? length l)%nat then
    match soonest l with Some e => dict_del e.1 l | None => l end
  else l.

(** [issue], with the clock's reading and the 32 random bytes. *)
Definition issue (principal : doc) (now : Z) (random : bytes) : M session_table (string * LocalControllerSession) :=
  match doc_get "controller_id" principal, doc_int (doc_get "reset_epoch" principal) with
  | DStr controller_id, Some reset_epoch =>
      modify (List.filter (λ e, now <? e.2.(s_expires_at))%Z) ;;
      modify evict_soonest ;;
      let token := string_of_list_ascii (b64url_encode random) in
      h ← lift (hash_token token);
      let session := mkSession h controller_id reset_epoch principal (now + ttl)%Z None false in
      modify (dict_set h session) ;;
      mret (token, session)
  | _, _ => raise (ValueError "Bootstrap returned an invalid Controller principal")
  end.

Definition get_session (token : string) (now : Z) : M session_table (option LocalControllerSession) :=
  if negb (str_len token =? 43)%nat then mret None
  else
    h ← lift (hash_token token);
    l ← gets id;
    match dict_get h l with
    | None => mret None
    | Some s =>
        if (s.(s_expires_at) <=? now)%Z then modify (dict_del h) ;; mret None else mret (Some s)
    end.

Definition revoke_session (s : LocalControllerSession) : M session_table unit :=
  modify (dict_del s.(token_hash)).

(** A change to a session a caller holds. *)
Definition update_session (f : LocalControllerSession → LocalControllerSession) (s : LocalControllerSession)
    : M session_table unit :=
  modify (λ l, match dict_get s.(token_hash) l with
               | Some held => dict_set s.(token_hash) (f held) l
               | None => l
               end).
End Sessions.

(** ** [_bearer_token] *)

Definition lower_ascii (c : ascii) : ascii :=
  let n := N_of_ascii c in if ((65 <=? n) && (n <=? 90))%N then ascii_of_N (n + 32) else c.
(** [value.partition(" ")] *)
Fixpoint partition_space (l : list ascii) : option (list ascii * list ascii) :=
  match l with
  | [] => None
  | c :: l' =>
      if bool_decide (c = " "%char) then Some ([], l')
      else match partition_space l' with Some (a, b) => Some (c :: a, b) | None => None end
  end.
Definition bearer_token (value : option string) : string :=
  match value with
  | None => ""
  | Some v =>
      match partition_space (list_ascii_of_string v) with
      | Some (scheme, token) =>
          if bool_decide (string_of_list_ascii (lower_ascii <$> scheme) = "bearer")
          then string_of_list_ascii token else ""
      | None => ""
      end
  end.

Example bearer_samples :
  bearer_token (Some "BeaRer a b") = "a b" ∧ bearer_token (Some "Bearer") = "" ∧ bearer_token (Some "Basic x") = "".
Proof. by vm_compute. Qed.

(** ** Asking the Host *)

Section Api.
Context {S N : Type} `{!BootstrapStateStore S} `{!NetworkProvisioning N}.
Abbreviation B := (bootstrap_service * world S N)%type.
(** [_handle_client] of Control.v on one line, and [json.dumps] of a request. *)
Context (serve_line : list ascii → B → doc * B) (encode : obj → list ascii).
Context (sha256_hex : bytes → string) (ttl : Z).

(** [BootstrapControlClient.request], over a response that is read back as it
    was written. *)
Definition client_request (operation : string) (parameters : obj) : M B doc := λ p,
  let '(response, p') := serve_line (encode (("op", JStr operation) :: parameters) ++ [ascii_of_N 10]) p in
  (match doc_get "ok" response with
   | DBool true =>
       match doc_get "result" response with
       | DObj result => Ok (DObj result)
       | _ => Raise (ControlClientError "BootstrapControlError" "bootstrap control response is malformed")
       end
   | _ =>
       match doc_get "code" (doc_get "error" response), doc_get "message" (doc_get "error" response) with
       | DStr code, DStr message => Raise (ControlClientError code message)
       | _, _ => Raise (ControlClientError "BootstrapControlError" "bootstrap control request failed")
       end
   end, p').

Definition bootstrap_unavailable : exn := HTTPException 503 "bootstrap control plane unavailable".

(** [request_bootstrap] without its LAN branch. *)
Definition request_bootstrap (authentication : bool) (operation : string) (parameters : obj) : M B doc :=
  catch (client_request operation parameters)
    (λ e, match e with
          | ControlClientError code _ =>
              Some (raise (if authentication && bool_decide (code = "ControllerAuthenticationRejected")
                           then HTTPException 401 "Controller authentication failed"
                           else bootstrap_unavailable))
          | OSError _ | TimeoutError => Some (raise bootstrap_unavailable)
          | _ => None
          end).

(** The commissioning claim and endpoint keep the Host's own word. *)
Definition lan_status (code : string) : Z :=
  default 503%Z (dict_get code [("commissioning_denied", 401%Z); ("operation_conflict", 409%Z);
    ("invalid_controller_key", 422%Z); ("invalid_request", 422%Z); ("BootstrapOperationRejected", 404%Z)]).
Definition request_lan (operation : string) (parameters : obj) : M B doc :=
  catch (client_request operation parameters)
    (λ e, match e with
          | ControlClientError code message => Some (raise (HTTPException (lan_status code) message))
          | OSError _ | TimeoutError => Some (raise bootstrap_unavailable)
          | _ => None
          end).

(** ** The routes *)

Abbreviation A := (session_table * B)%type.
Definition in_sessions {R} (c : M session_table R) : M A R := zoom fst (λ l w, (l, w.2)) c.
Definition in_bootstrap {R} (c : M B R) : M A R := zoom snd (λ b w, (w.1, b)) c.

(** [POST /api/local/v1/auth/sessions] *)
Definition controller_session (proof : json) (now : Z) (random : bytes) : M A (string * LocalControllerSession) :=
  principal ← in_bootstrap (request_bootstrap true "controller.authenticate" [("proof", proof)]);
  in_sessions (issue sha256_hex ttl principal now random).

Definition missing_session : exn := HTTPException 401 "Controller session is missing or expired".

Definition authenticated_controller (authorization : option string) (now : Z)
    : M A (doc * LocalControllerSession) :=
  session ← in_sessions (get_session sha256_hex (bearer_token authorization) now);
  match session with
  | None => raise missing_session
  | Some session =>
      catch (principal ← in_bootstrap (request_bootstrap true "controller.validate"
               [("controller_id", JStr session.(s_controller_id)); ("reset_epoch", JInt session.(s_reset_epoch))]);
             mret (principal, session))
        (λ e, match e with
              | HTTPException status _ =>
                  Some ((if (status =? 401)%Z then in_sessions (revoke_session session) else mret tt) ;; raise e)
              | _ => None
              end)
  end.

(** The Data plane's answer to whose Workspace the Host holds. *)
Context (host_owner_id : M A (option string)).

Definition owner_scope (session : LocalControllerSession) : M A (option string) :=
  if session.(owner_resolved) then mret session.(s_owner_id)
  else
    owner ← host_owner_id;
    in_sessions (update_session (remember_owner owner) session) ;;
    mret owner.

Definition owner_and_controller (principal : doc) (session : LocalControllerSession) : M A (string * string) :=
  match doc_get "controller_id" principal with
  | DStr controller_id =>
      guard_py (bool_decide (controller_id = "")) (HTTPException 401 "Controller identity is unavailable") ;;
      owner ← owner_scope session;
      match owner with
      | Some owner =>
          guard_py (bool_decide (owner = "")) (HTTPException 409 "Host Workspace is not initialized") ;;
          mret (owner, controller_id)
      | None => raise (HTTPException 409 "Host Workspace is not initialized")
      end
  | _ => raise (HTTPException 401 "Controller identity is unavailable")
  end.

(** [_owned_companion], over the runtime's answer to whose Companion it is. *)
Context (get_companion_owner : string → M A string).
Definition owned_companion (companion_id : string) (authorization : option string) (now : Z) : M A string :=
  '(principal, session) ← authenticated_controller authorization now;
  '(owner, _) ← owner_and_controller principal session;
  existing ← get_companion_owner companion_id;
  guard_py (negb (bool_decide (existing = owner))) (HTTPException 404 "Companion does not exist") ;;
  mret owner.

(** One of the requests the Local API serves: a sign-in, or any request that
    authenticates and resolves its owner. *)
Inductive api_request :=
| SignIn (proof : json) (now : Z) (random : bytes)
| Owned (authorization : option string) (now : Z).
Definition run_api (r : api_request) : M A unit :=
  match r with
  | SignIn proof now random => controller_session proof now random ;; mret tt
  | Owned authorization now =>
      '(principal, session) ← authenticated_controller authorization now;
      owner_and_controller principal session ;; mret tt
  end.
Fixpoint run_apis (rs : list api_request) (w : A) : A :=
  match rs with [] => w | r :: rs' => run_apis rs' (run_api r w).2 end.
End Api.
