(* ===== verification/LocalApiProofs.v ===== *)
(** * Who the Local API lets in

    The session table of [local_api/auth.py] over any history of requests, and
    the exact answer of the bearer authentication of [local_api/app.py] when it
    asks the bootstrap daemon of Control.v. *)

From S2P Require Import Prelude Domain StateStore MemoryStore Encoding Json Timestamp Network.
From S2P Require Import Commissioning CommissioningProofs Protocol HostAddresses BootstrapService Control.
From S2P Require Import BootstrapProofs LocalApi.

(** ** The table *)

Section Table.
Context (sha256_hex : bytes → string) (ttl : Z).
(** Where a session may come from. *)
Context (sourced : doc → Prop).

Definition session_wf (k : string) (s : LocalControllerSession) : Prop :=
  k = s.(token_hash) ∧ sourced s.(principal) ∧ doc_get "controller_id" s.(principal) = DStr s.(s_controller_id) ∧
  doc_int (doc_get "reset_epoch" s.(principal)) = Some s.(s_reset_epoch).
Definition sessions_ok (l : session_table) : Prop :=
  length l ≤ 1024 ∧ NoDup l.*1 ∧ ∀ k s, (k, s) ∈ l → session_wf k s.

Lemma sessions_filter p l : sessions_ok l → sessions_ok (List.filter p l).
Proof.
  intros (Hl & Hn & Hs). split_and!.
  - etrans; [apply List.filter_length_le|done].
  - by apply NoDup_keys_filter.
  - intros k s Hin. apply Hs. apply list_elem_of_In, filter_In in Hin as [Hin _]. by apply list_elem_of_In.
Qed.

Lemma soonest_elem l e : soonest l = Some e → e ∈ l ∧ ∀ e', e' ∈ l → (e.2.(s_expires_at) ≤ e'.2.(s_expires_at))%Z.
Proof.
  revert e. induction l as [|x l IH]; intros e; cbn [soonest]; [done|].
  destruct (soonest l) as [y|] eqn:Ey.
  - destruct (IH y eq_refl) as [Hy Hmin]. destruct (Z.ltb_spec y.2.(s_expires_at) x.2.(s_expires_at)); intros [= <-].
    + split; [by right|]. intros e' [->|He]%elem_of_cons; [lia|auto].
    + split; [left|]. intros e' [->|He]%elem_of_cons; [lia|]. specialize (Hmin e' He). lia.
  - intros [= <-]. destruct l; [|cbn in Ey; by destruct (soonest l) as [?|]; [case_match|]].
    split; [left|]. intros e' ->%list_elem_of_singleton. lia.
Qed.

Lemma soonest_none l : soonest l = None → l = [].
Proof. destruct l as [|x l]; [done|]. cbn. by destruct (soonest l). Qed.

Lemma evict_ok l : sessions_ok l → sessions_ok (evict_soonest l) ∧ length (evict_soonest l) ≤ 1023.
Proof.
  intros (Hl & Hn & Hs). unfold evict_soonest. destruct (Nat.leb_spec 1024 (length l)) as [H|H].
  - destruct (soonest l) as [[k s]|] eqn:Es; [|apply soonest_none in Es as ->; cbn in H; lia].
    apply soonest_elem in Es as [Hin _]. pose proof (dict_del_shorter _ _ _ Hin) as Hlt.
    split; [|cbn; lia]. by apply sessions_filter.
  - split; [done|lia].
Qed.

Lemma sessions_set k s l : sessions_ok l → length l ≤ 1023 → session_wf k s → sessions_ok (dict_set k s l).
Proof.
  intros (_ & Hn & Hs) Hlen Hw. split_and!.
  - pose proof (dict_set_length k s l). lia.
  - by apply dict_set_NoDup.
  - intros k' s' Hin. apply (elem_of_dict_set _ _ _ _ Hn) in Hin as [[= -> ->]|[_ Hin]]; [done|by apply Hs].
Qed.

(** A call on the table keeps it, whatever it answers. *)
Definition keeps {A} (c : M session_table A) : Prop := ∀ l, sessions_ok l → sessions_ok (c l).2.

Lemma issue_keeps d now random : sourced d → keeps (issue sha256_hex ttl d now random).
Proof.
  intros Hd l Hl. unfold issue. destruct (doc_get _ d) as [| | |cid| |] eqn:Ec; try done.
  destruct (doc_int _) as [epoch|] eqn:Ei; [|done]. mnorm.
  set (l1 := List.filter _ l). assert (sessions_ok l1) as H1 by by apply sessions_filter.
  destruct (evict_ok l1 H1) as [H2 H3]. unfold mbind at 1, M_bind at 1, lift.
  destruct (hash_token _ _) as [h|e]; [|done]. cbn. apply sessions_set; [done|done|]. by split_and!.
Qed.

Lemma get_keeps token now : keeps (get_session sha256_hex token now).
Proof.
  intros l Hl. unfold get_session. destruct (_ =? 43)%nat; [|done]. cbn [negb].
  unfold mbind at 1, M_bind at 1, lift. destruct (hash_token _ _) as [h|e]; [|done]. mnorm. unfold id.
  destruct (dict_get h l) as [s|]; [|done]. destruct (_ <=? _)%Z; [|done]. by apply sessions_filter.
Qed.

Lemma revoke_keeps s : keeps (revoke_session s).
Proof. intros l Hl. by apply sessions_filter. Qed.

Lemma update_keeps owner s : keeps (update_session (remember_owner owner) s).
Proof.
  intros l (Hl & Hn & Hs). unfold update_session. cbn. destruct (dict_get _ l) as [held|] eqn:Eh; [|done].
  apply dict_get_elem in Eh. assert (token_hash s ∈ l.*1) as Hk by (apply list_elem_of_fmap; eexists (_, _); done).
  split_and!.
  - rewrite <- (length_fmap fst). by rewrite dict_set_keys, length_fmap.
  - by apply dict_set_NoDup.
  - intros k' s' Hin. apply (elem_of_dict_set _ _ _ _ Hn) in Hin as [[= -> ->]|[_ Hin]]; [|by apply Hs].
    exact (Hs _ _ Eh).
Qed.
End Table.

(** ** Requests *)

Section Sources.
Context {S N : Type} `{!BootstrapStateStore S} `{!NetworkProvisioning N}.
Abbreviation B := (bootstrap_service * world S N)%type.
Abbreviation A := (session_table * B)%type.
Context (serve_line : list ascii → B → doc * B) (encode : obj → list ascii).
Context (sha256_hex : bytes → string) (ttl : Z).
Context (host_owner_id : M A (option string)).

(** The Host answered a proof with this principal, at some time. *)
Definition vouched (d : doc) : Prop := ∃ proof b, (client_request serve_line encode "controller.authenticate" [("proof", proof)] b).1 = Ok d.
(** The Data plane has no hand in the sessions. *)
Definition leaves_sessions {R} (c : M A R) : Prop := ∀ w, (c w).2.1 = w.1.

Abbreviation ok := (λ w : A, sessions_ok vouched w.1).

Lemma in_sessions_hoare {R} (c : M session_table R) :
  keeps vouched c → hoare ok (in_sessions c) (λ _, ok) (λ _, ok).
Proof.
  intros H w Hw. unfold in_sessions, zoom. specialize (H w.1 Hw). destruct (c w.1) as [[r|e] l]; exact H.
Qed.

Lemma in_bootstrap_hoare {R} (c : M B R) : hoare ok (in_bootstrap c) (λ _, ok) (λ _, ok).
Proof. intros w Hw. unfold in_bootstrap, zoom. by destruct (c w.2) as [[r|e] b]. Qed.

Lemma owner_hoare s :
  leaves_sessions host_owner_id → hoare ok (owner_scope host_owner_id s) (λ _, ok) (λ _, ok).
Proof.
  intros Hown. unfold owner_scope. destruct (owner_resolved s); [by intros w Hw|].
  apply (hoare_bind _ _ (λ _, ok)).
  - intros w Hw. specialize (Hown w). cbn. destruct (host_owner_id w) as [[r|e] w']; cbn in *; by rewrite Hown.
  - intros o. apply (hoare_bind _ _ (λ _, ok)); [apply in_sessions_hoare, update_keeps|by intros [] w Hw].
Qed.

Lemma sign_in_hoare proof now random :
  hoare ok (controller_session serve_line encode sha256_hex ttl proof now random) (λ _, ok) (λ _, ok).
Proof.
  apply (hoare_bind _ _ (λ d w, vouched d ∧ ok w)).
  - intros w Hw. unfold in_bootstrap, zoom, request_bootstrap, catch.
    destruct (client_request _ _ _ _ _) as [[d|e] b] eqn:E.
    + split; [|done]. exists proof, w.2. by rewrite E.
    + by destruct e.
  - intros d w [Hd Hw]. by apply (in_sessions_hoare _ (issue_keeps sha256_hex ttl vouched d now random Hd)).
Qed.

Lemma authenticated_hoare authorization now :
  hoare ok (authenticated_controller serve_line encode sha256_hex authorization now) (λ _, ok) (λ _, ok).
Proof.
  apply (hoare_bind _ _ (λ _, ok)); [apply in_sessions_hoare, get_keeps|].
  intros [s|]; [|by intros w Hw]. apply (hoare_catch _ _ _ _ _ (λ _, ok)).
  - apply (hoare_bind _ _ (λ _, ok)); [apply in_bootstrap_hoare|by intros d w Hw].
  - intros e. destruct e as [| | | | | | | | | | |status detail| | | | | | | | | | | | | | | | | | | | | | |]; try done.
    apply (hoare_bind _ _ (λ _, ok)); [|by intros [] w Hw].
    destruct (status =? 401)%Z; [apply in_sessions_hoare, revoke_keeps|by intros w Hw].
Qed.

Lemma run_apis_ok rs w :
  leaves_sessions host_owner_id → ok w →
  ok (run_apis serve_line encode sha256_hex ttl host_owner_id rs w).
Proof.
  intros Hown. revert w. induction rs as [|r rs IH]; intros w Hw; [done|]. cbn [run_apis]. apply IH.
  enough (hoare ok (run_api serve_line encode sha256_hex ttl host_owner_id r) (λ _, ok) (λ _, ok)) as H.
  { specialize (H w Hw). by destruct (run_api _ _ _ _ _ _ _) as [[?|?] ?]. }
  destruct r as [proof now random|authorization now]; cbn [run_api].
  - apply (hoare_bind _ _ (λ _, ok)); [apply sign_in_hoare|by intros ? w' Hw'].
  - apply (hoare_bind _ _ (λ _, ok)); [apply authenticated_hoare|]. intros [d s].
    apply (hoare_bind _ _ (λ _, ok)); [|by intros ? w' Hw'].
    unfold owner_and_controller. destruct (doc_get _ d); try (by intros w' Hw').
    apply (hoare_bind _ _ (λ _, ok)); [by apply hoare_guard|intros _].
    apply (hoare_bind _ _ (λ _, ok)); [by apply owner_hoare|].
    intros [o|]; [|by intros w' Hw']. by apply (hoare_bind _ _ (λ _, ok)); [apply hoare_guard|intros ? w' Hw'].
Qed.
End Sources.

(** C24: the Local API holds a bounded set of sessions the Host itself answered
    for.  Whatever requests arrive, over any Host, clock and randomness, there
    are never more than 1024 sessions, one for each token, each kept under its
    own hash, and each one carries the identity and the reset epoch of a
    principal that the Host returned to a [controller.authenticate]. *)
Theorem local_sessions_bounded {S N : Type} `{!BootstrapStateStore S} `{!NetworkProvisioning N}
    (serve_line : list ascii → bootstrap_service * world S N → doc * (bootstrap_service * world S N))
    encode sha256_hex ttl host_owner_id (rs : list api_request) b
    (Howner : leaves_sessions host_owner_id) :
  let l := (run_apis serve_line encode sha256_hex ttl host_owner_id rs ([], b)).1 in
  length l ≤ 1024 ∧ NoDup l.*1 ∧
  ∀ k s, (k, s) ∈ l → k = s.(token_hash) ∧
    (∃ proof b', (client_request serve_line encode "controller.authenticate" [("proof", proof)] b').1
                   = Ok s.(principal)) ∧
    doc_get "controller_id" s.(principal) = DStr s.(s_controller_id) ∧
    doc_int (doc_get "reset_epoch" s.(principal)) = Some s.(s_reset_epoch).
Proof.
  apply (run_apis_ok serve_line encode sha256_hex ttl host_owner_id rs ([], b) Howner).
  split_and!; [simpl; lia|constructor|by intros k s ?%not_elem_of_nil].
Qed.

Lemma local_sessions_bounded_witness :
  let principal := DObj [("controller_id", DStr "c"); ("reset_epoch", DInt 0)] in
  let serve_line (_ : list ascii) (b : bootstrap_service * world MemoryStore InMemoryNetwork) :=
    (ok_response principal, b) in
  let rs := [SignIn JNull 0 (replicate 32 (ascii_of_nat 7)); SignIn JNull 1 (replicate 32 (ascii_of_nat 9))] in
  let l := (run_apis serve_line (λ _, []) string_of_list_ascii 60 (mret None) rs ([], lan_world)).1 in
  length l = 2 ∧ NoDup l.*1.
Proof.
  cbv zeta. split; [vm_compute; reflexivity|]. apply local_sessions_bounded. by intros w.
Defined.

(** ** The bearer token and the Host behind it *)

(** The session a token still opens. *)
Definition live_session (sha256_hex : bytes → string) (l : session_table) (token : string) (now : Z)
    : option LocalControllerSession :=
  if (str_len token =? 43)%nat then
    match hash_token sha256_hex token with
    | Ok h => match dict_get h l with
              | Some s => if (s.(s_expires_at) <=? now)%Z then None else Some s
              | None => None
              end
    | Raise _ => None
    end
  else None.

Definition validate_request (s : LocalControllerSession) : obj :=
  [("op", JStr "controller.validate"); ("controller_id", JStr s.(s_controller_id));
   ("reset_epoch", JInt s.(s_reset_epoch))].

Section Bearer.
Context (sha256_hex : list ascii → string) (load_der : list ascii → result key_kind)
        (ecdsa_verify : list ascii → list ascii → list ascii → bool)
        (sign_mapping : list (string * doc) → string) (identity : HostIdentity) (tls : string)
        (settings : BootstrapSettings) (with_network : bool) (factory_file : result string)
        (reported : list string) (on_product_link : N.t → bool) (fuel : nat) (pid : Z)
        (loads : list ascii → result json) (repr : json → string) (encode : obj → list ascii).
Abbreviation HB := (bootstrap_service * world MemoryStore InMemoryNetwork)%type.

Definition host_line (raw : list ascii) (p : HB) : doc * HB :=
  handle_client sha256_hex load_der ecdsa_verify sign_mapping identity tls settings with_network factory_file
    reported on_product_link fuel pid loads repr (Ok raw) p.

(** What reading a request line back relies on. *)
Definition readable (o : obj) : Prop :=
  loads (encode o ++ [ascii_of_N 10]) = Ok (JObj o) ∧ length (encode o ++ [ascii_of_N 10]) < MAX_REQUEST_BYTES.

Lemma host_line_run o (p : HB) :
  readable o →
  host_line (encode o ++ [ascii_of_N 10]) p =
    match dispatch sha256_hex load_der ecdsa_verify sign_mapping identity tls settings with_network factory_file
            reported on_product_link fuel pid repr o p with
    | (Ok result, p') => (ok_response result, p')
    | (Raise (CommissioningRequestRejected code msg), p') => (error_response code msg, p')
    | (Raise e, p') =>
        (match structured_error e with
         | Some (code, msg) => error_response code msg
         | None => error_response "internal_error" "bootstrap control operation failed"
         end, p')
    end.
Proof.
  intros [Hl Hlen]. unfold host_line, handle_client, control_request.
  set (raw := encode o ++ [ascii_of_N 10]) in *. rewrite (bind_ok (lift (Ok raw)) _ p raw p eq_refl), bind_guard.
  rewrite bool_decide_eq_false_2 by (subst raw; by destruct (encode o)). apply Nat.leb_gt in Hlen. rewrite Hlen.
  cbn [orb]. rewrite Hl. done.
Qed.

(** The Host's word on a session. *)
Definition vouched_grant (s : LocalControllerSession) (st : BootstrapState) (m : MemoryStore) : option ControllerGrant :=
  match active_grant s.(s_controller_id) st m with
  | Some g => if (g.(g_reset_epoch) =? s.(s_reset_epoch))%Z then Some g else None
  | None => None
  end.

Lemma validate_run s (p : HB) st :
  readable (validate_request s) → ready (w_store p.2) st →
  request_bootstrap host_line encode true "controller.validate"
    [("controller_id", JStr s.(s_controller_id)); ("reset_epoch", JInt s.(s_reset_epoch))] p =
    (match vouched_grant s st (w_store p.2) with
     | Some g => Ok (controller_principal g)
     | None => Raise (HTTPException 401 "Controller authentication failed")
     end, p).
Proof.
  intros Hread Hr. unfold request_bootstrap, catch, client_request. 
  change (("op", JStr "controller.validate") :: _) with (validate_request s).
  rewrite (host_line_run _ _ Hread).
  change (dispatch _ _ _ _ _ _ _ _ _ _ _ _ _ _ (validate_request s))
    with (in_host (validate_controller (S := MemoryStore) (N := InMemoryNetwork)
            (JStr s.(s_controller_id)) (JInt s.(s_reset_epoch)))).
  assert (validate_controller (JStr s.(s_controller_id)) (JInt s.(s_reset_epoch)) p.2 =
    (match vouched_grant s st (w_store p.2) with
     | Some g => Ok (controller_principal g)
     | None => Raise match active_grant s.(s_controller_id) st (w_store p.2) with
                     | Some _ => auth_rejected "Controller session is no longer authorized"
                     | None => not_authorized end
     end, p.2)) as Hv.
  { unfold validate_controller, vouched_grant. pose proof (active_controller_run (JStr s.(s_controller_id)) _ _ Hr) as Ha.
    cbn beta iota in Ha. revert Ha. destruct (active_grant _ _ _) as [g|]; intros Ha.
    - rewrite (bind_ok _ _ _ _ _ Ha), bind_guard. cbn [json_is_int negb orb json_eq_int].
      rewrite Z.eqb_sym. by destruct (_ =? _)%Z.
    - by rewrite (bind_raise _ _ _ _ _ Ha). }
  rewrite (in_host_run _ _ _ _ Hv). destruct p as [b w]. cbn [fst snd].
  destruct (vouched_grant _ _ _); [done|]. by destruct (active_grant _ _ _).
Qed.

(** A vouched session is one of an unrevoked Grant of the current epoch. *)
Lemma vouched_grant_spec s st m g :
  controllers_wf st.(reset_epoch) m.(m_controllers) →
  vouched_grant s st m = Some g ↔
  is_controller_id s.(s_controller_id) = true ∧ s.(s_reset_epoch) = st.(reset_epoch) ∧
  dict_get (st.(reset_epoch), s.(s_controller_id)) m.(m_controllers) = Some g ∧ g.(g_revoked_at) = None.
Proof.
  intros Hwf. unfold vouched_grant. split.
  - destruct (active_grant _ _ _) as [g'|] eqn:E; [|done]. destruct (Z.eqb_spec g'.(g_reset_epoch) s.(s_reset_epoch)); [|done].
    intros [= ->]. destruct (active_grant_spec _ _ _ _ Hwf E) as (H1 & H2 & H3 & H4). split_and!; [|congruence|done..].
    unfold active_grant in E. rewrite H1 in E. by destruct (is_controller_id _).
  - intros (Hid & He & Hg & Hr). destruct Hwf as [_ Hwf].
    destruct (Hwf _ _ (dict_get_elem _ _ _ Hg)) as ([= E1 E2] & _).
    unfold active_grant, grant_active. rewrite Hg, Hid, <- E1, Z.eqb_refl. rewrite bool_decide_eq_true_2 by done.
    cbn [andb]. by rewrite He, <- E1, Z.eqb_refl.
Qed.

Abbreviation authenticated := (authenticated_controller host_line encode sha256_hex).

Lemma get_session_live l token now s :
  live_session sha256_hex l token now = Some s → get_session sha256_hex token now l = (Ok (Some s), l).
Proof.
  unfold live_session, get_session. destruct (_ =? 43)%nat; [|done]. cbn [negb].
  destruct (hash_token _ _) as [h|e]; [|done]. unfold mbind, M_bind, lift, gets, id.
  destruct (dict_get h l) as [s'|]; [|done]. destruct (_ <=? _)%Z; [done|]. by intros [= ->].
Qed.

Lemma get_session_dead l token now :
  live_session sha256_hex l token now = None →
  ∃ r l', get_session sha256_hex token now l = (r, l') ∧
    (r = Ok None ∨ ((∃ e, r = Raise e) ∧ str_forallb (λ c, N_of_ascii c <? 128)%N token = false)).
Proof.
  unfold live_session, get_session. destruct (_ =? 43)%nat; cbn [negb]; [|by intros; eexists _, _; split; [|left]].
  unfold mbind, M_bind, lift, gets, id, hash_token. destruct (str_forallb _ _); [|eexists _, _; split; [done|right; eauto]].
  destruct (dict_get _ l) as [s'|]; [|eexists _, _; by split; [|left]].
  destruct (_ <=? _)%Z; [|done]. intros _. eexists _, _. by split; [|left].
Qed.

Lemma in_sessions_run {R} (c : M session_table R) (w : session_table * HB) r l :
  c w.1 = (r, l) → in_sessions c w = (r, (l, w.2)).
Proof. intros H. unfold in_sessions, zoom. by rewrite H. Qed.
Lemma in_bootstrap_run {R} (c : M HB R) (w : session_table * HB) r b :
  c w.2 = (r, b) → in_bootstrap c w = (r, (w.1, b)).
Proof. intros H. unfold in_bootstrap, zoom. by rewrite H. Qed.

Lemma dead_refused authorization now (w : session_table * HB) :
  live_session sha256_hex w.1 (bearer_token authorization) now = None →
  ∃ e l, authenticated authorization now w = (Raise e, (l, w.2)) ∧
    (str_forallb (λ c, N_of_ascii c <? 128)%N (bearer_token authorization) = true → e = missing_session).
Proof.
  intros (r & l & Hg & Hr)%get_session_dead. pose proof (in_sessions_run _ w _ _ Hg) as Hs.
  unfold authenticated_controller. destruct Hr as [->|[[e ->] Ha]].
  - rewrite (bind_ok _ _ _ _ _ Hs). by eexists _, l.
  - rewrite (bind_raise _ _ _ _ _ Hs). eexists e, l. split; [done|]. by rewrite Ha.
Qed.

Lemma live_authenticated authorization now (w : session_table * HB) s st :
  live_session sha256_hex w.1 (bearer_token authorization) now = Some s →
  readable (validate_request s) → ready (w_store w.2.2) st →
  authenticated authorization now w =
    match vouched_grant s st (w_store w.2.2) with
    | Some g => (Ok (controller_principal g, s), w)
    | None => (Raise (HTTPException 401 "Controller authentication failed"),
               (dict_del s.(token_hash) w.1, w.2))
    end.
Proof.
  intros Hl Hread Hr. unfold authenticated_controller.
  rewrite (bind_ok _ _ _ _ _ (in_sessions_run _ w _ _ (get_session_live _ _ _ _ Hl))).
  destruct w as [l b]. pose proof (in_bootstrap_run _ (l, b) _ _ (validate_run s b st Hread Hr)) as Hv.
  unfold catch. cbn [fst snd] in *. destruct (vouched_grant _ _ _) as [g|].
  - by rewrite (bind_ok _ _ _ _ _ Hv).
  - by rewrite (bind_raise _ _ _ _ _ Hv).
Qed.

(** C25: a bearer token opens exactly what the Host still grants.  A request is
    answered with a session and a principal exactly when its token opens a
    session that has not expired and the Host holds, in its current reset
    epoch, an unrevoked Grant of that Controller and the session is of that
    epoch; the principal is the Host's, as of now.  A session the Host no
    longer vouches for is refused with a 401 and dropped: its token opens
    nothing at any later time.  Asking never changes the Host. *)
Theorem bearer_authentication_exact authorization now (w : session_table * HB) st
    (Htable : ∀ k s, (k, s) ∈ w.1 → k = s.(token_hash))
    (Hread : ∀ k s, (k, s) ∈ w.1 → readable (validate_request s))
    (Hinv : mem_inv (w_store w.2.2)) (Hready : ready (w_store w.2.2) st) :
  let '(r, w') := authenticated authorization now w in
  let granted s g :=
    is_controller_id s.(s_controller_id) = true ∧ s.(s_reset_epoch) = st.(reset_epoch) ∧
    dict_get (st.(reset_epoch), s.(s_controller_id)) (w_store w.2.2).(m_controllers) = Some g ∧
    g.(g_revoked_at) = None in
  let session := live_session sha256_hex w.1 (bearer_token authorization) now in
  w'.2 = w.2 ∧
  (∀ d s, r = Ok (d, s) ↔ session = Some s ∧ ∃ g, granted s g ∧ d = controller_principal g) ∧
  (∀ s, session = Some s → (∀ g, ¬ granted s g) →
     r = Raise (HTTPException 401 "Controller authentication failed") ∧
     ∀ now', (authenticated authorization now' w').1 = Raise missing_session) ∧
  (session = None → str_forallb (λ c, N_of_ascii c <? 128)%N (bearer_token authorization) = true →
     r = Raise missing_session).
Proof.
  pose proof (λ s g, vouched_grant_spec s st (w_store w.2.2) g (inv_controllers _ Hinv st (proj2 Hready))) as Hspec.
  destruct (live_session _ _ _ _) as [s|] eqn:Hl.
  - assert ((token_hash s, s) ∈ w.1 ∧ hash_token sha256_hex (bearer_token authorization) = Ok (token_hash s)) as [Hin Hh].
    { unfold live_session in Hl. destruct (_ =? 43)%nat; [|done]. destruct (hash_token _ _) as [h|]; [|done].
      destruct (dict_get h w.1) as [s'|] eqn:Ed; [|done]. destruct (_ <=? _)%Z; [done|]. injection Hl as ->.
      apply dict_get_elem in Ed. by rewrite <- (Htable _ _ Ed). }
    rewrite (live_authenticated _ _ _ _ _ Hl (Hread _ _ Hin) Hready).
    destruct (vouched_grant _ _ _) as [g|] eqn:Hv; cbn beta iota zeta; (split_and!; [done| | |done]).
    + apply Hspec in Hv. intros d s'. split; [intros [= <- <-]; eauto|].
      intros ([= <-] & g' & (H1 & H2 & H3 & H4) & ->). destruct Hv as (_ & _ & Hg & _). congruence.
    + intros ? [= <-] Hno. destruct (Hno g). by apply Hspec.
    + intros d s'. split; [done|]. intros ([= <-] & g & Hg & _). apply Hspec in Hg. congruence.
    + intros ? [= <-] _. split; [done|]. intros now'.
      edestruct (dead_refused authorization now' (dict_del (token_hash s) w.1, w.2)) as (e & l & He & Hm).
      { unfold live_session. destruct (_ =? 43)%nat; [|done]. cbn [fst]. by rewrite Hh, dict_get_del, bool_decide_eq_true_2. }
      rewrite He, Hm; [done|]. unfold hash_token in Hh. by destruct (str_forallb _ _).
  - destruct (dead_refused _ _ _ Hl) as (e & l & -> & Hm). cbn beta iota zeta. split_and!; [done| |done|].
    + intros d s. split; [done|]. by intros [? _].
    + intros _ Ha. by rewrite Hm.
Qed.
End Bearer.

Definition sample_session : LocalControllerSession :=
  mkSession "AAAAAAAAAAAAAAAAAAAAAAAAAAAAAAAAAAAAAAAAAAA" "ectrl-00112233445566778899" 0 DNull 60 None false.
Definition sample_api : session_table * (bootstrap_service * world MemoryStore InMemoryNetwork) :=
  ([(sample_session.(token_hash), sample_session)], lan_world).
Definition sample_settings : BootstrapSettings := mkSettings PRODUCTION "u" DISABLED 9002 ON_DEMAND.

Lemma bearer_authentication_exact_witness :
  let p := authenticated_controller
    (host_line (λ _, "") (λ _, Ok P256) (λ _ _ _, true) (λ _, "") (mkHostIdentity "" "" "") "" sample_settings
       false (Ok "") [] (λ _, true) 0 0 (λ _, Ok (JObj (validate_request sample_session))) (λ _, ""))
    (λ _, []) string_of_list_ascii (Some ("Bearer " +:+ sample_session.(token_hash))) 5 sample_api in
  is_ok p.1 = true ∧ p.2.2 = lan_world.
Proof.
  cbv zeta. pose proof (bearer_authentication_exact string_of_list_ascii (λ _, Ok P256) (λ _ _ _, true) (λ _, "")
    (mkHostIdentity "" "" "") "" sample_settings false (Ok "") [] (λ _, true) 0 0
    (λ _, Ok (JObj (validate_request sample_session))) (λ _, "") (λ _, [])
    (Some ("Bearer " +:+ sample_session.(token_hash))) 5 sample_api
    (mkBootstrapState 0 CLAIMED UNCONFIGURED "t1")) as H.
  destruct (authenticated_controller _ _ _ _ _ _) as [r w'] eqn:E. split.
  - change (is_ok (r, w').1 = true). rewrite <- E. vm_compute. reflexivity.
  - apply H.
    + by intros k s [= -> ->]%list_elem_of_singleton.
    + intros k s [= -> ->]%list_elem_of_singleton. split; [done|]. apply Nat.ltb_lt. vm_compute. reflexivity.
    + apply run_calls_preserve; [repeat constructor|apply mem_start_inv].
    + split; reflexivity.
Defined.
