(* ===== verification/Admission.v ===== *)
(** * Enrollment decisions

    [app/control_plane/admission_intents.py], the ledger of what a Controller
    asked Hub to decide, in memory and in SQLite, and the workflow over it:
    [decide_controller_enrollment] and the reads beside it in
    [app/control_plane/service.py].  The SDK's models are records of what the
    code reads of them, over any type of manifest references. *)

From S2P Require Import Prelude Encoding Json Lifecycle.

(** ** What is read of the SDK *)

Record ControllerActorRef := mkActor {
  actor_principal_id : string; principal_type : string; actor_owner_domain_id : string;
  granted_scopes : list string; authentication_strength : string }.
#[global] Instance ControllerActorRef_eq_dec : EqDecision ControllerActorRef.
Proof. solve_decision. Defined.

Inductive EnrollmentProposalState :=
| PENDING_REVIEW | APPROVED_AWAITING_HANDOFF | GRANT_DELIVERED | GRANT_ACKNOWLEDGED
| TERMINAL (value : string).
#[global] Instance EnrollmentProposalState_eq_dec : EqDecision EnrollmentProposalState.
Proof. solve_decision. Defined.

Record DecideEnrollment (F : Type) := mkDecide {
  d_enrollment_id : string; d_expected_proposal_revision : Z; d_decision : string;
  d_target_owner_domain_id : string; d_target_business_owner_id : string; d_target_space_id : option string;
  d_reviewed_manifest_ref : F; d_initial_assignment_intent : option doc;
  d_initial_capability_policy_refs : list string }.
Arguments mkDecide {F}.
Arguments d_enrollment_id {F}.
Arguments d_expected_proposal_revision {F}.
Arguments d_decision {F}.
Arguments d_target_owner_domain_id {F}.
Arguments d_target_business_owner_id {F}.
Arguments d_target_space_id {F}.
Arguments d_reviewed_manifest_ref {F}.
Arguments d_initial_assignment_intent {F}.
Arguments d_initial_capability_policy_refs {F}.

(** What is read of a [DecideEnrollmentResult]. *)
Class DecisionResult (R : Type) := {
  decided_eq_dec :: EqDecision R;
  decision_id : R → string;
  decided_by : R → ControllerActorRef;
  decided : R → string }.

Record EnrollmentProposal (F : Type) := mkProposal {
  p_enrollment_id : string; p_proposal_revision : Z; p_requested_owner_domain_id : string;
  p_manifest_ref : F; p_device_instance_candidate_id : string; p_state : EnrollmentProposalState }.
Arguments mkProposal {F}.
Arguments p_enrollment_id {F}.
Arguments p_proposal_revision {F}.
Arguments p_requested_owner_domain_id {F}.
Arguments p_manifest_ref {F}.
Arguments p_device_instance_candidate_id {F}.
Arguments p_state {F}.

(** A Decision as Hub holds it. *)
Record ApprovalDecision (F : Type) := mkApproval {
  a_decision_id : string; a_actor : ControllerActorRef; a_command : DecideEnrollment F }.
Arguments mkApproval {F}.
Arguments a_decision_id {F}.
Arguments a_actor {F}.
Arguments a_command {F}.

Record EnrollmentRecovery (F : Type) := mkRecovery {
  proposal : EnrollmentProposal F; approval_decision : option (ApprovalDecision F) }.
Arguments mkRecovery {F}.
Arguments proposal {F}.
Arguments approval_decision {F}.

(** [ControllerEnrollmentDecisionIntent] *)
Record DecisionRequest (F : Type) := mkDecisionRequest {
  dr_request_id : string; dr_actor : ControllerActorRef; dr_decision : DecideEnrollment F }.
Arguments mkDecisionRequest {F}.
Arguments dr_request_id {F}.
Arguments dr_actor {F}.
Arguments dr_decision {F}.

(** [ControllerCommand._authority]: what every such command is checked for when
    it is built. *)
Definition controller_command (name required_scope target_owner_domain_id : string) (actor : ControllerActorRef)
    : result unit :=
  if negb (bool_decide (actor.(actor_owner_domain_id) = target_owner_domain_id)) then
    Raise (ValueError (name +:+ " actor and target Owner Domain do not match"))
  else if negb (bool_decide (required_scope ∈ actor.(granted_scopes))) then
    Raise (ValueError (name +:+ " actor lacks " +:+ required_scope))
  else Ok tt.

(** ** The intent *)

Record AdmissionDecisionIntent (R : Type) := mkDecisionIntent {
  ad_intent_id : string; ad_ingress_request_id : string; ad_command_id : string; ad_correlation_id : string;
  ad_owner_domain_id : string; ad_business_owner_id : string; ad_enrollment_id : string;
  ad_actor_json : string; ad_actor_sha256 : string; ad_decision_json : string; ad_decision_sha256 : string;
  ad_checkpoint : string; ad_result : option R; ad_created_at : Z; ad_updated_at : Z }.
Arguments mkDecisionIntent {R}.
Arguments ad_intent_id {R}.
Arguments ad_ingress_request_id {R}.
Arguments ad_command_id {R}.
Arguments ad_correlation_id {R}.
Arguments ad_owner_domain_id {R}.
Arguments ad_business_owner_id {R}.
Arguments ad_enrollment_id {R}.
Arguments ad_actor_json {R}.
Arguments ad_actor_sha256 {R}.
Arguments ad_decision_json {R}.
Arguments ad_decision_sha256 {R}.
Arguments ad_checkpoint {R}.
Arguments ad_result {R}.
Arguments ad_created_at {R}.
Arguments ad_updated_at {R}.

(** The keyword arguments of [get_or_create]. *)
Record decision_values (F : Type) := mkDecisionValues {
  dv_ingress_request_id : string; dv_owner_domain_id : string; dv_business_owner_id : string;
  dv_actor : ControllerActorRef; dv_decision : DecideEnrollment F; dv_now : Z }.
Arguments mkDecisionValues {F}.
Arguments dv_ingress_request_id {F}.
Arguments dv_owner_domain_id {F}.
Arguments dv_business_owner_id {F}.
Arguments dv_actor {F}.
Arguments dv_decision {F}.
Arguments dv_now {F}.

(** The protocol of the two stores. *)
Class AdmissionDecisionIntentStore (F R L : Type) := {
  decision_get_or_create : decision_values F → M L (AdmissionDecisionIntent R);
  mark_decision_committed : string → R → Z → M L (AdmissionDecisionIntent R) }.

(** [_committed] *)
Definition committed {R} (r : R) (now : Z) (i : AdmissionDecisionIntent R)
    : AdmissionDecisionIntent R :=
  mkDecisionIntent i.(ad_intent_id) i.(ad_ingress_request_id) i.(ad_command_id) i.(ad_correlation_id)
    i.(ad_owner_domain_id) i.(ad_business_owner_id) i.(ad_enrollment_id) i.(ad_actor_json) i.(ad_actor_sha256)
    i.(ad_decision_json) i.(ad_decision_sha256) "decision_committed" (Some r) i.(ad_created_at) now.

Section DecisionLedger.
Context {F R : Type} `{!DecisionResult R}.
Context (sha1 : bytes → bytes) (sha256_hex : bytes → string).
(** [model_dump(mode="json")] of the two SDK models. *)
Context (dump_actor : ControllerActorRef → doc) (dump_decision : DecideEnrollment F → doc).

(** [_canonical] and [_digest] *)
Definition canonical (d : doc) : string := string_of_list_ascii (dumps false d).
Definition digest (s : string) : string := "sha256:" +:+ sha256_hex (list_ascii_of_string s).

(** af670012-0805-51bb-b089-3a666e8a70b4 *)
Definition DECISION_NAMESPACE : bytes :=
  ascii_of_N <$> [175; 103; 0; 18; 8; 5; 81; 187; 176; 137; 58; 102; 110; 138; 112; 180]%N.
Definition decision_intent_id (owner_domain_id request_id : string) : string :=
  "admission-intent-" +:+ string_of_list_ascii (uuid5_hex sha1 DECISION_NAMESPACE
    ("eidolon-admission-decision-intent-v1:" +:+ owner_domain_id +:+ ":" +:+ request_id)).
Definition decision_command_id (intent enrollment : string) : string :=
  "decide-enrollment-" +:+ string_of_list_ascii (uuid5_hex sha1 DECISION_NAMESPACE
    ("eidolon-admission-decision-command-v1:" +:+ intent +:+ ":" +:+ enrollment)).

(** [_new_intent] *)
Definition new_decision_intent (v : decision_values F) : AdmissionDecisionIntent R :=
  let intent := decision_intent_id v.(dv_owner_domain_id) v.(dv_ingress_request_id) in
  let actor := canonical (dump_actor v.(dv_actor)) in
  let decision := canonical (dump_decision v.(dv_decision)) in
  mkDecisionIntent intent v.(dv_ingress_request_id)
    (decision_command_id intent v.(dv_decision).(d_enrollment_id)) intent
    v.(dv_owner_domain_id) v.(dv_business_owner_id) v.(dv_decision).(d_enrollment_id)
    actor (digest actor) decision (digest decision) "intent_recorded" None v.(dv_now) v.(dv_now).

Definition context_reused : exn := ValueError "Admission Decision request id was reused with different context".
Definition decision_changed : exn := ValueError "Hub Decision result changed for an existing intent".

(** [_assert_same_intent] *)
Definition same_intent (existing candidate : AdmissionDecisionIntent R) : bool :=
  bool_decide (existing.(ad_business_owner_id) = candidate.(ad_business_owner_id)) &&
  bool_decide (existing.(ad_enrollment_id) = candidate.(ad_enrollment_id)) &&
  bool_decide (existing.(ad_actor_sha256) = candidate.(ad_actor_sha256)) &&
  bool_decide (existing.(ad_decision_sha256) = candidate.(ad_decision_sha256)) &&
  bool_decide (existing.(ad_command_id) = candidate.(ad_command_id)).

Definition decision_conflicts (i : AdmissionDecisionIntent R) (r : R) : bool :=
  match i.(ad_result) with Some r0 => negb (bool_decide (r0 = r)) | None => false end.

(** ** [InMemoryAdmissionDecisionIntentStore] *)

Definition DecisionLedger : Type := list (string * AdmissionDecisionIntent R).

Definition mdec_get_or_create (v : decision_values F) : M DecisionLedger (AdmissionDecisionIntent R) :=
  let candidate := new_decision_intent v in
  values ← gets id;
  match dict_get candidate.(ad_intent_id) values with
  | Some existing => guard_py (negb (same_intent existing candidate)) context_reused ;; mret existing
  | None => modify (dict_set candidate.(ad_intent_id) candidate) ;; mret candidate
  end.

Definition mdec_mark_decision_committed (intent : string) (r : R) (now : Z)
    : M DecisionLedger (AdmissionDecisionIntent R) :=
  values ← gets id;
  match dict_get intent values with
  | None => raise (KeyError intent)
  | Some i =>
      guard_py (decision_conflicts i r) decision_changed ;;
      modify (dict_set intent (committed r now i)) ;; mret (committed r now i)
  end.

Definition memory_decisions : AdmissionDecisionIntentStore F R DecisionLedger :=
  {| decision_get_or_create := mdec_get_or_create; mark_decision_committed := mdec_mark_decision_committed |}.

(** ** [SqliteAdmissionDecisionIntentStore] *)

(** [_canonical] of a result and [model_validate_json]. *)
Context (result_json : R → string) (parse_result : string → result R).

(** A row; the timestamp columns are kept as the instants they encode. *)
Record decision_row := mkDecisionRow {
  dc_intent_id : string; dc_ingress_request_id : string; dc_command_id : string; dc_correlation_id : string;
  dc_owner_domain_id : string; dc_business_owner_id : string; dc_enrollment_id : string;
  dc_actor_json : string; dc_actor_sha256 : string; dc_decision_json : string; dc_decision_sha256 : string;
  dc_checkpoint : string; dc_result_json : option string; dc_created_at : Z; dc_updated_at : Z }.

(** [_decode] *)
Definition decode_decision (r : decision_row) : result (AdmissionDecisionIntent R) :=
  res ← match r.(dc_result_json) with
        | None => Ok None
        | Some j => x ← parse_result j; Ok (Some x)
        end;
  Ok (mkDecisionIntent r.(dc_intent_id) r.(dc_ingress_request_id) r.(dc_command_id) r.(dc_correlation_id)
        r.(dc_owner_domain_id) r.(dc_business_owner_id) r.(dc_enrollment_id) r.(dc_actor_json)
        r.(dc_actor_sha256) r.(dc_decision_json) r.(dc_decision_sha256) r.(dc_checkpoint) res
        r.(dc_created_at) r.(dc_updated_at)).

(** The columns of the INSERT: [result_json] starts as NULL. *)
Definition row_of_intent (i : AdmissionDecisionIntent R) : decision_row :=
  mkDecisionRow i.(ad_intent_id) i.(ad_ingress_request_id) i.(ad_command_id) i.(ad_correlation_id)
    i.(ad_owner_domain_id) i.(ad_business_owner_id) i.(ad_enrollment_id) i.(ad_actor_json) i.(ad_actor_sha256)
    i.(ad_decision_json) i.(ad_decision_sha256) i.(ad_checkpoint) None i.(ad_created_at) i.(ad_updated_at).

(** The primary key and the two UNIQUE constraints. *)
Definition decision_row_conflict (n r : decision_row) : bool :=
  bool_decide (r.(dc_intent_id) = n.(dc_intent_id)) ||
  bool_decide (r.(dc_command_id) = n.(dc_command_id)) ||
  (bool_decide (r.(dc_owner_domain_id) = n.(dc_owner_domain_id)) &&
   bool_decide (r.(dc_ingress_request_id) = n.(dc_ingress_request_id))).
Definition insert_decision (n : decision_row) : M (list decision_row) unit :=
  rows ← gets id;
  guard_py (existsb (decision_row_conflict n) rows) (IntegrityError "UNIQUE constraint failed") ;;
  modify (λ l, l ++ [n]).

(** [with self._connection]: committed, or rolled back on any exception. *)
Definition with_connection {A} (c : M (list decision_row) A) : M (list decision_row) A := λ s,
  match c s with (Ok a, s') => (Ok a, s') | (Raise e, _) => (Raise e, s) end.

Definition sdec_get_or_create (v : decision_values F) : M (list decision_row) (AdmissionDecisionIntent R) :=
  let candidate := new_decision_intent v in
  with_connection
    (rows ← gets id;
     match next_or_none (λ r, bool_decide (r.(dc_owner_domain_id) = candidate.(ad_owner_domain_id)) &&
                              bool_decide (r.(dc_ingress_request_id) = candidate.(ad_ingress_request_id))) rows with
     | Some row =>
         existing ← lift (decode_decision row);
         guard_py (negb (same_intent existing candidate)) context_reused ;; mret existing
     | None => insert_decision (row_of_intent candidate) ;; mret candidate
     end).

Definition commit_decision_row (r : R) (now : Z) (c : decision_row) : decision_row :=
  mkDecisionRow c.(dc_intent_id) c.(dc_ingress_request_id) c.(dc_command_id) c.(dc_correlation_id)
    c.(dc_owner_domain_id) c.(dc_business_owner_id) c.(dc_enrollment_id) c.(dc_actor_json) c.(dc_actor_sha256)
    c.(dc_decision_json) c.(dc_decision_sha256) "decision_committed" (Some (result_json r)) c.(dc_created_at) now.

Definition sdec_mark_decision_committed (intent : string) (r : R) (now : Z)
    : M (list decision_row) (AdmissionDecisionIntent R) :=
  with_connection
    (rows ← gets id;
     match next_or_none (λ c, bool_decide (c.(dc_intent_id) = intent)) rows with
     | None => raise (ValueError "Admission Decision intent does not exist")
     | Some row =>
         i ← lift (decode_decision row);
         guard_py (decision_conflicts i r) decision_changed ;;
         modify (update_where (λ c, bool_decide (c.(dc_intent_id) = intent)) (commit_decision_row r now)) ;;
         mret (committed r now i)
     end).

Definition sqlite_decisions : AdmissionDecisionIntentStore F R (list decision_row) :=
  {| decision_get_or_create := sdec_get_or_create; mark_decision_committed := sdec_mark_decision_committed |}.

(** ** Histories *)

Inductive decision_call :=
| DCreate (v : decision_values F)
| DCommit (intent : string) (r : R) (now : Z).
Definition run_decision_call {L} `{!AdmissionDecisionIntentStore F R L} (c : decision_call)
    : M L (AdmissionDecisionIntent R) :=
  match c with
  | DCreate v => decision_get_or_create v
  | DCommit intent r now => mark_decision_committed intent r now
  end.
Fixpoint run_decisions {L} `{!AdmissionDecisionIntentStore F R L} (cs : list decision_call) (l : L)
    : list (result (AdmissionDecisionIntent R)) * L :=
  match cs with
  | [] => ([], l)
  | c :: cs' => let '(r, l1) := run_decision_call c l in
                let '(rs, l2) := run_decisions cs' l1 in (r :: rs, l2)
  end.
End DecisionLedger.

(** ** [HubAdminCredentialIssuer] *)

(** The claims of the SDK's credential. *)
Record AdmissionCredential (D : Type) := mkCredential {
  cr_subject : string; cr_actor : ControllerActorRef; cr_owner_domain_id : string; cr_business_owner_id : string;
  cr_scopes : list string; cr_intent_id : option string; cr_target_device_ref : option D }.
Arguments mkCredential {D}.
Arguments cr_subject {D}.
Arguments cr_actor {D}.
Arguments cr_owner_domain_id {D}.
Arguments cr_business_owner_id {D}.
Arguments cr_scopes {D}.
Arguments cr_intent_id {D}.
Arguments cr_target_device_ref {D}.

Section Credentials.
Context {D : Type} `{!DeviceReference D}.
(** [issue_admission_credential] of the SDK, with the secret and the lifetime
    of the issuer. *)
Context (issue_admission_credential : AdmissionCredential D → result string).

Definition issue_admission_context (actor : ControllerActorRef) (business_owner_id : string)
    (intent_id : option string) (target_device_ref : option D) : result string :=
  match issue_admission_credential
          (mkCredential "eidolon-admin/admission-consumer" actor actor.(actor_owner_domain_id) business_owner_id
             actor.(granted_scopes) intent_id target_device_ref) with
  | Raise (AdmissionCredentialError _) =>
      Raise (refuse "hub" "configuration" "Hub Owner credential issuer is not configured" 503 false)
  | r => r
  end.

Definition issue_removal_intent (controller_id intent_id : string) (device_ref : D) (business_owner_id : string)
    : result string :=
  issue_admission_context
    (mkActor controller_id "controller" (owner_domain_id device_ref) ["device.claim.revoke"] "software")
    business_owner_id (Some intent_id) (Some device_ref).
End Credentials.

(** ** The workflow *)

(** What the workflow asks of Hub and of the clock. *)
Class AdmissionHub (F R X : Type) := {
  hub_get_enrollment_recovery : string → string → M X (EnrollmentRecovery F);
  hub_decide_enrollment : DecideEnrollment F → string → string → string → M X R;
  decision_clock : M X Z }.

(** [AdmissionDecisionWorkflowResult] *)
Record DecisionWorkflowResult (F R : Type) := mkDecisionWorkflowResult {
  wr_request_id : string; wr_intent_id : string; wr_command_id : string; wr_checkpoint : string;
  wr_decision_result : option R; wr_recovery : EnrollmentRecovery F }.
Arguments mkDecisionWorkflowResult {F R}.
Arguments wr_request_id {F R}.
Arguments wr_intent_id {F R}.
Arguments wr_command_id {F R}.
Arguments wr_checkpoint {F R}.
Arguments wr_decision_result {F R}.
Arguments wr_recovery {F R}.

Definition hub_conflict (msg : string) : exn := refuse "hub" "conflict" msg 409 false.
Definition hub_violation (msg : string) : exn := refuse "hub" "contract_violation" msg 502 false.

Section DecisionWorkflow.
Context {F R D L X : Type} `{!EqDecision F} `{!DecisionResult R} `{!AdmissionDecisionIntentStore F R L}
        `{!AdmissionHub F R X}.
(** [hub_credentials], when configured. *)
Context (hub_credentials : option (AdmissionCredential D → result string)).

Abbreviation W := (L * X)%type.
Definition in_decisions {A} (c : M L A) : M W A := zoom fst (λ l w, (l, w.2)) c.
Definition in_hub {A} (c : M X A) : M W A := zoom snd (λ x w, (w.1, x)) c.

(** [_admission_issuer] *)
Definition admission_issuer {S} : M S (AdmissionCredential D → result string) :=
  match hub_credentials with
  | Some issue => mret issue
  | None => raise (refuse "hub" "configuration" "Hub Admission credential issuer is unavailable" 503 false)
  end.

(** [except ValueError]: the ledger's refusals are conflicts. *)
Definition or_conflict {A} (c : M W A) : M W A :=
  catch c (λ e, match e with
                | ValueError msg | ValidationError msg | JSONDecodeError msg => Some (raise (hub_conflict msg))
                | _ => None
                end).

(** The Decision Hub holds is the one this request makes. *)
Definition same_decision (payload : DecisionRequest F) (a : ApprovalDecision F) : bool :=
  let d := payload.(dr_decision) in let c := a.(a_command) in
  bool_decide (c.(d_enrollment_id) = d.(d_enrollment_id)) &&
  bool_decide (a.(a_actor) = payload.(dr_actor)) &&
  bool_decide (c.(d_decision) = d.(d_decision)) &&
  bool_decide (c.(d_target_owner_domain_id) = d.(d_target_owner_domain_id)) &&
  bool_decide (c.(d_target_business_owner_id) = d.(d_target_business_owner_id)) &&
  bool_decide (c.(d_reviewed_manifest_ref) = d.(d_reviewed_manifest_ref)) &&
  (c.(d_expected_proposal_revision) =? d.(d_expected_proposal_revision))%Z.

(** [_validate_decision_target] *)
Definition validate_decision_target (payload : DecisionRequest F) (recovery : EnrollmentRecovery F) : result unit :=
  let p := recovery.(proposal) in
  let d := payload.(dr_decision) in
  if negb (bool_decide (p.(p_requested_owner_domain_id) = d.(d_target_owner_domain_id))) ||
     negb (bool_decide (p.(p_manifest_ref) = d.(d_reviewed_manifest_ref))) then
    Raise (hub_conflict "Hub Proposal no longer matches the explicit Decision")
  else if bool_decide (p.(p_state) = PENDING_REVIEW) then
    if negb (p.(p_proposal_revision) =? d.(d_expected_proposal_revision))%Z then
      Raise (hub_conflict "Hub Proposal revision changed")
    else Ok tt
  else
    match p.(p_state), recovery.(approval_decision) with
    | (APPROVED_AWAITING_HANDOFF | GRANT_DELIVERED), Some committed =>
        if same_decision payload committed then Ok tt
        else Raise (hub_conflict "Hub Proposal is not decision-recoverable")
    | _, _ => Raise (hub_conflict "Hub Proposal is not decision-recoverable")
    end.

(** [_validate_committed_decision] *)
Definition validate_committed_decision (payload : DecisionRequest F) (result : option R)
    (recovery : EnrollmentRecovery F) : Prelude.result unit :=
  match result, recovery.(approval_decision) with
  | Some result, Some decision =>
      let d := payload.(dr_decision) in
      if negb (bool_decide (decision.(a_decision_id) = decision_id result)) ||
         negb (bool_decide (decided_by result = payload.(dr_actor))) ||
         negb (bool_decide (decided result = d.(d_decision))) ||
         negb (bool_decide (decision.(a_actor) = payload.(dr_actor))) ||
         negb (bool_decide (decision.(a_command).(d_decision) = d.(d_decision))) ||
         negb (bool_decide (decision.(a_command).(d_target_business_owner_id) = d.(d_target_business_owner_id))) ||
         negb (bool_decide (decision.(a_command).(d_target_owner_domain_id) = d.(d_target_owner_domain_id)))
      then Raise (hub_violation "Hub recovery Decision changed identity or scope")
      else Ok tt
  | _, _ => Raise (hub_violation "Hub omitted the committed Decision")
  end.

(** What [get_or_create] is called with. *)
Definition values_of_request (payload : DecisionRequest F) (now : Z) : decision_values F :=
  mkDecisionValues payload.(dr_request_id) payload.(dr_decision).(d_target_owner_domain_id)
    payload.(dr_decision).(d_target_business_owner_id) payload.(dr_actor) payload.(dr_decision) now.

(** [if intent.result is None: ...] *)
Definition submit_decision (payload : DecisionRequest F) (intent : AdmissionDecisionIntent R)
    (authorization : string) : M W (AdmissionDecisionIntent R) :=
  match intent.(ad_result) with
  | Some _ => mret intent
  | None =>
      result ← in_hub (hub_decide_enrollment payload.(dr_decision) intent.(ad_command_id)
                         intent.(ad_correlation_id) authorization);
      now ← in_hub decision_clock;
      or_conflict (in_decisions (mark_decision_committed intent.(ad_intent_id) result now))
  end.

(** The model's [_coherent]. *)
Definition coherent_result (r : DecisionWorkflowResult F R) : result (DecisionWorkflowResult F R) :=
  if negb (Bool.eqb (bool_decide (r.(wr_checkpoint) = "decision_committed")) (bool_decide (is_Some r.(wr_decision_result))))
  then Raise (ValidationError "Decision checkpoint and result disagree")
  else Ok r.

(** From the validated target to the answer. *)
Definition conclude_decision (payload : DecisionRequest F) (intent : AdmissionDecisionIntent R)
    (authorization : string) : M W (DecisionWorkflowResult F R) :=
  intent ← submit_decision payload intent authorization;
  recovery ← in_hub (hub_get_enrollment_recovery payload.(dr_decision).(d_enrollment_id) authorization);
  lift (validate_committed_decision payload intent.(ad_result) recovery) ;;
  lift (coherent_result (mkDecisionWorkflowResult payload.(dr_request_id) intent.(ad_intent_id)
          intent.(ad_command_id) intent.(ad_checkpoint) intent.(ad_result) recovery)).

Definition decide_controller_enrollment (payload : DecisionRequest F) : M W (DecisionWorkflowResult F R) :=
  issue ← admission_issuer;
  now ← in_hub decision_clock;
  intent ← or_conflict (in_decisions (decision_get_or_create (values_of_request payload now)));
  authorization ← lift (issue_admission_context issue payload.(dr_actor)
                          payload.(dr_decision).(d_target_business_owner_id) (Some intent.(ad_intent_id)) None);
  recovery ← in_hub (hub_get_enrollment_recovery payload.(dr_decision).(d_enrollment_id) authorization);
  lift (validate_decision_target payload recovery) ;;
  conclude_decision payload intent authorization.

(** [get_enrollment_recovery]: the projection, and nothing decided. *)
Definition get_enrollment_recovery (actor : ControllerActorRef) (business_owner_id owner_domain_id enrollment_id : string)
    : M X (EnrollmentRecovery F) :=
  issue ← admission_issuer;
  authorization ← lift (issue_admission_context issue actor business_owner_id None None);
  projection ← hub_get_enrollment_recovery enrollment_id authorization;
  guard_py (negb (bool_decide (projection.(proposal).(p_requested_owner_domain_id) = owner_domain_id)))
    (hub_violation "Hub Enrollment recovery crossed its requested Owner Domain") ;;
  mret projection.
End DecisionWorkflow.
