(* ===== verification/AdmissionProofs.v ===== *)
(** * Enrollment decisions, proved

    The decision ledger in SQLite answers as the one in memory; over any
    attempts Hub is asked for one Decision under one command; what an attempt
    returns was recorded by Hub; and what becomes of a retry. *)

From S2P Require Import Prelude Encoding Json Lifecycle RemovalLedger Admission.

(** ** The conversation with Hub *)

Inductive hub_event (F R : Type) :=
| Submitted (d : DecideEnrollment F) (command correlation : string)
| Projected (enrollment : string) (r : EnrollmentRecovery F).
Arguments Submitted {F R}.
Arguments Projected {F R}.

(** Any Hub and clock, with what was submitted and what was read in order. *)
Definition observed_hub {F R X} (hub : AdmissionHub F R X) : AdmissionHub F R (list (hub_event F R) * X) :=
  {| hub_get_enrollment_recovery := λ e a s,
       let '(res, x) := hub_get_enrollment_recovery e a s.2 in
       (res, (match res with Ok r => s.1 ++ [Projected e r] | Raise _ => s.1 end, x));
     hub_decide_enrollment := λ d c k a s,
       let '(res, x) := hub_decide_enrollment d c k a s.2 in (res, (s.1 ++ [Submitted d c k], x));
     decision_clock := zoom snd (λ x s, (s.1, x)) decision_clock |}.

Section Decisions.
Context {F R D X : Type} `{!EqDecision F} `{!DecisionResult R}.
Context (sha1 : bytes → bytes) (sha256_hex : bytes → string).
Context (dump_actor : ControllerActorRef → doc) (dump_decision : DecideEnrollment F → doc).
Context (hub_credentials : option (AdmissionCredential D → result string)) (hub : AdmissionHub F R X).

Abbreviation intent := (AdmissionDecisionIntent R).
Abbreviation ledger := (list (string * AdmissionDecisionIntent R)).
Abbreviation watch := (list (hub_event F R) * X)%type.
Abbreviation fresh := (new_decision_intent (R := R) sha1 sha256_hex dump_actor dump_decision).
Abbreviation create := (mdec_get_or_create (R := R) sha1 sha256_hex dump_actor dump_decision).
Abbreviation mark := (mdec_mark_decision_committed (R := R)).

Definition decisions_in_memory : AdmissionDecisionIntentStore F R ledger :=
  memory_decisions sha1 sha256_hex dump_actor dump_decision.
#[local] Existing Instance decisions_in_memory.
#[local] Instance the_hub : AdmissionHub F R watch := observed_hub hub.

(** *** The ledger *)

Definition decision_digest (d : DecideEnrollment F) : string := digest sha256_hex (canonical (dump_decision d)).

Definition decision_wf (k : string) (i : intent) : Prop :=
  k = i.(ad_intent_id) ∧ i.(ad_correlation_id) = i.(ad_intent_id) ∧
  i.(ad_intent_id) = decision_intent_id sha1 i.(ad_owner_domain_id) i.(ad_ingress_request_id) ∧
  i.(ad_command_id) = decision_command_id sha1 i.(ad_intent_id) i.(ad_enrollment_id) ∧
  i.(ad_checkpoint) = (if i.(ad_result) is Some _ then "decision_committed" else "intent_recorded").
Definition decisions_wf (l : ledger) : Prop := NoDup l.*1 ∧ ∀ k i, (k, i) ∈ l → decision_wf k i.

(** What no later call changes. *)
Definition kept (i j : intent) : Prop :=
  i.(ad_intent_id) = j.(ad_intent_id) ∧ i.(ad_command_id) = j.(ad_command_id) ∧
  i.(ad_enrollment_id) = j.(ad_enrollment_id) ∧ i.(ad_business_owner_id) = j.(ad_business_owner_id) ∧
  i.(ad_actor_sha256) = j.(ad_actor_sha256) ∧ i.(ad_decision_sha256) = j.(ad_decision_sha256) ∧
  (∀ r, i.(ad_result) = Some r → j.(ad_result) = Some r).
Definition extends (l l' : ledger) : Prop :=
  ∀ k i, dict_get k l = Some i → ∃ j, dict_get k l' = Some j ∧ kept i j.

Lemma kept_refl i : kept i i.
Proof. by repeat split. Qed.
Lemma extends_refl l : extends l l.
Proof. intros k i Hk. exists i. split; [done|apply kept_refl]. Qed.
Lemma extends_trans l1 l2 l3 : extends l1 l2 → extends l2 l3 → extends l1 l3.
Proof.
  intros H1 H2 k i Hk. destruct (H1 k i Hk) as (j & Hj & Hf). destruct (H2 k j Hj) as (x & Hx & Hg).
  exists x. split; [done|]. unfold kept in *. destruct_and!. split_and!; try congruence. eauto.
Qed.

Lemma decision_create_run v l :
  create v l =
    match dict_get (ad_intent_id (fresh v)) l with
    | Some i => if same_intent i (fresh v) then (Ok i, l) else (Raise context_reused, l)
    | None => (Ok (fresh v), dict_set (ad_intent_id (fresh v)) (fresh v) l)
    end.
Proof.
  unfold mdec_get_or_create. mnorm. unfold id. destruct (dict_get _ l) as [i|]; [|done]. rewrite bind_guard.
  by destruct (same_intent i _).
Qed.

Lemma decision_mark_run k r now l :
  mark k r now l =
    match dict_get k l with
    | None => (Raise (KeyError k), l)
    | Some i => if decision_conflicts i r then (Raise decision_changed, l)
                else (Ok (committed r now i), dict_set k (committed r now i) l)
    end.
Proof.
  unfold mdec_mark_decision_committed. mnorm. unfold id. destruct (dict_get k l) as [i|]; [|done].
  rewrite bind_guard. by destruct (decision_conflicts i r).
Qed.

Lemma set_wf k i l : decisions_wf l → decision_wf k i → decisions_wf (dict_set k i l).
Proof.
  intros [Hnd Hw] Hi. split; [by apply dict_set_NoDup|]. intros k' j Hin.
  apply (elem_of_dict_set k i l (k', j) Hnd) in Hin as [[= -> ->]|[_ Hin]]; [done|by apply Hw].
Qed.

Lemma committed_wf k i r now : decision_wf k i → decision_wf k (committed r now i).
Proof. intros (H1 & H2 & H3 & H4 & _). by split_and!. Qed.

Lemma committed_kept i r now : decision_conflicts i r = false → kept i (committed r now i).
Proof.
  unfold decision_conflicts. intros Hc. repeat split. cbn. intros r0 E. rewrite E in Hc.
  apply negb_false_iff, bool_decide_eq_true in Hc. by subst.
Qed.

Lemma set_extends k i l : (∀ j, dict_get k l = Some j → kept j i) → extends l (dict_set k i l).
Proof.
  intros Hk k' j Hj. rewrite dict_get_set. case_bool_decide as E; [subst; eauto|]. exists j. split; [done|apply kept_refl].
Qed.

(** The two calls, on a ledger of this shape. *)
Lemma create_spec v l : decisions_wf l →
  match create v l with
  | (Ok i, l') => decisions_wf l' ∧ extends l l' ∧ dict_get i.(ad_intent_id) l' = Some i ∧
      i.(ad_intent_id) = ad_intent_id (fresh v) ∧ same_intent i (fresh v) = true
  | (Raise _, l') => l' = l
  end.
Proof.
  intros Hw. rewrite decision_create_run. destruct (dict_get _ l) as [i|] eqn:E.
  - destruct (same_intent i _) eqn:Es; [|done]. destruct (proj2 Hw _ _ (dict_get_elem _ _ _ E)) as (<- & _).
    split_and!; [done|apply extends_refl|done..].
  - split_and!; [by apply set_wf|apply set_extends; congruence| |done|].
    + by rewrite dict_get_set, bool_decide_eq_true_2.
    + unfold same_intent. by rewrite !bool_decide_eq_true_2.
Qed.

Lemma mark_spec i r now l : decisions_wf l → dict_get i.(ad_intent_id) l = Some i → i.(ad_result) = None →
  mark i.(ad_intent_id) r now l = (Ok (committed r now i), dict_set i.(ad_intent_id) (committed r now i) l) ∧
  decisions_wf (dict_set i.(ad_intent_id) (committed r now i) l) ∧
  extends l (dict_set i.(ad_intent_id) (committed r now i) l).
Proof.
  intros Hw Hi Hn. rewrite decision_mark_run, Hi. assert (decision_conflicts i r = false) as Hc by (unfold decision_conflicts; by rewrite Hn).
  rewrite Hc. split_and!; [done| |].
  - apply set_wf; [done|]. apply committed_wf. exact (proj2 Hw _ _ (dict_get_elem _ _ _ Hi)).
  - apply set_extends. intros j Hj. assert (i = j) as <- by congruence. by apply committed_kept.
Qed.
(** *** One attempt *)

Abbreviation W := (ledger * watch)%type.
Abbreviation decide := (decide_controller_enrollment hub_credentials : DecisionRequest F → M W _).

(** A submission is the one recorded under its identity. *)
Definition recorded_as (l : ledger) (d : DecideEnrollment F) (c k : string) : Prop :=
  ∃ i, dict_get k l = Some i ∧ i.(ad_command_id) = c ∧ i.(ad_decision_sha256) = decision_digest d ∧
    i.(ad_enrollment_id) = d.(d_enrollment_id).

(** What may have happened since: the ledger grew, and what Hub was asked to
    decide is recorded and had no result before. *)
Definition since (w0 w : W) : Prop :=
  decisions_wf w.1 ∧ extends w0.1 w.1 ∧ ∃ new, w.2.1 = w0.2.1 ++ new ∧
  ∀ d c k, Submitted d c k ∈ new →
    recorded_as w.1 d c k ∧ (∀ i, dict_get k w0.1 = Some i → i.(ad_result) = None).

Lemma recorded_extends l l' d c k : extends l l' → recorded_as l d c k → recorded_as l' d c k.
Proof.
  intros He (i & Hi & H1 & H2 & H3). destruct (He k i Hi) as (j & Hj & Hk). exists j. unfold kept in Hk.
  destruct_and!. split_and!; congruence.
Qed.

Lemma since_refl w : decisions_wf w.1 → since w w.
Proof.
  intros Hw. split_and!; [done|apply extends_refl|]. exists []. rewrite app_nil_r. split; [done|].
  by intros d c k ?%not_elem_of_nil.
Qed.

Lemma since_trans w0 w1 w2 : since w0 w1 → since w1 w2 → since w0 w2.
Proof.
  intros (_ & He1 & n1 & Hn1 & H1) (Hw & He2 & n2 & Hn2 & H2). split_and!; [done|by eapply extends_trans|].
  exists (n1 ++ n2). rewrite app_assoc, <- Hn1. split; [done|].
  intros d c k [Hin|Hin]%elem_of_app.
  - destruct (H1 d c k Hin) as [Hr Hn]. split; [by eapply recorded_extends|done].
  - destruct (H2 d c k Hin) as [Hr Hn]. split; [done|]. intros i Hi. destruct (He1 k i Hi) as (j & Hj & Hk).
    specialize (Hn j Hj). destruct (ad_result i) as [r|] eqn:E; [|done]. unfold kept in Hk. destruct_and!.
    assert (ad_result j = Some r) by auto. congruence.
Qed.

Lemma since_ledger w0 l l' (s : watch) : since w0 (l, s) → decisions_wf l' → extends l l' → since w0 (l', s).
Proof.
  intros H Hw He. eapply since_trans; [exact H|]. split_and!; [done|done|]. exists []. rewrite app_nil_r. split; [done|].
  by intros d c k ?%not_elem_of_nil.
Qed.

Lemma since_project w0 l ev x x' e r : since w0 (l, (ev, x)) → since w0 (l, (ev ++ [Projected e r], x')).
Proof.
  intros H. eapply since_trans; [exact H|]. destruct H as (Hw & _). split_and!; [done|apply extends_refl|].
  exists [Projected e r]. split; [done|]. by intros d c k ?%list_elem_of_singleton.
Qed.

Lemma since_world w0 l ev x x' : since w0 (l, (ev, x)) → since w0 (l, (ev, x')).
Proof. done. Qed.

(** The intent of a request, in the ledger. *)
Definition holds (w0 : W) (payload : DecisionRequest F) (i : intent) (w : W) : Prop :=
  since w0 w ∧ dict_get i.(ad_intent_id) w.1 = Some i ∧
  i.(ad_decision_sha256) = decision_digest payload.(dr_decision) ∧
  i.(ad_enrollment_id) = payload.(dr_decision).(d_enrollment_id).
Abbreviation failed w0 := (λ (_ : exn) w, since w0 w).

Lemma hoare_clock w0 (P : W → Prop) :
  (∀ w, P w → since w0 w) → (∀ l ev x x', P (l, (ev, x)) → P (l, (ev, x'))) →
  hoare P (in_hub decision_clock) (λ _, P) (failed w0).
Proof.
  intros HP HQ [l [ev x]] Hw. unfold in_hub, zoom. cbn [fst snd decision_clock the_hub observed_hub].
  unfold zoom. cbn [fst snd]. destruct (decision_clock x) as [[t|e] x']; cbn; [|apply HP]; by eapply HQ.
Qed.

Lemma hoare_project w0 (P : W → Prop) e a :
  (∀ w, P w → since w0 w) →
  (∀ l ev x x' r, P (l, (ev, x)) → P (l, (ev ++ [Projected e r], x'))) →
  hoare P (in_hub (hub_get_enrollment_recovery e a))
    (λ r w, P w ∧ ∃ ev, w.2.1 = ev ++ [Projected e r]) (failed w0).
Proof.
  intros HP HQ [l [ev x]] Hw. unfold in_hub, zoom. cbn [fst snd hub_get_enrollment_recovery the_hub observed_hub].
  destruct (hub_get_enrollment_recovery e a x) as [[r|ex] x']; cbn.
  - split; [by eapply HQ|by eexists].
  - by apply HP in Hw.
Qed.

Lemma holds_since w0 payload i w : holds w0 payload i w → since w0 w.
Proof. by intros [? _]. Qed.

Lemma hoare_create w0 payload now :
  hoare (since w0) (or_conflict (in_decisions (decision_get_or_create (values_of_request payload now))))
    (holds w0 payload) (failed w0).
Proof.
  apply (hoare_catch _ _ _ _ _ (failed w0)); [|intros []; cbn; intros s Hs; exact Hs].
  intros [l s] Hs. unfold in_decisions, zoom. cbn [fst snd].
  change (decision_get_or_create ?v) with (create v). set (v := values_of_request payload now).
  pose proof (create_spec v l (proj1 Hs)) as Hc. destruct (create v l) as [[i|e] l']; cbn in *; [|by subst].
  destruct Hc as (Hw & He & Hg & _ & Hsame). split_and!; [by eapply since_ledger|done|..].
  all: unfold same_intent in Hsame; repeat (apply andb_true_iff in Hsame as [Hsame ?]);
    rewrite !bool_decide_eq_true in *; done.
Qed.

Lemma hoare_submit w0 payload i authorization :
  hoare (holds w0 payload i) (submit_decision payload i authorization)
    (λ j w, holds w0 payload j w ∧ is_Some j.(ad_result)) (failed w0).
Proof.
  unfold submit_decision. destruct (ad_result i) as [r|] eqn:Er; [by intros w Hw; cbn; rewrite Er|].
  apply (hoare_bind _ _ (λ _, holds w0 payload i)).
  - intros [l [ev x]] (Hs & Hg & Hd & Hen). unfold in_hub, zoom. cbn [fst snd hub_decide_enrollment the_hub observed_hub] in *.
    assert (since w0 (l, (ev ++ [Submitted payload.(dr_decision) i.(ad_command_id) i.(ad_correlation_id)], x))) as Hs'.
    { eapply since_trans; [exact Hs|]. destruct Hs as (Hw & _). split_and!; [done|apply extends_refl|].
      eexists. split; [reflexivity|]. intros d c k Hin%list_elem_of_singleton. injection Hin as -> -> ->.
      destruct (proj2 Hw _ _ (dict_get_elem _ _ _ Hg)) as (_ & Hc & _). rewrite Hc.
      split; [by exists i|]. cbn [fst]. intros j Hj. congruence. }
    destruct (hub_decide_enrollment _ _ _ _ x) as [[r|e] x']; [by split_and!|exact Hs'].
  - intros r. apply (hoare_bind _ _ (λ _, holds w0 payload i)).
    { apply hoare_clock; [apply holds_since|done]. }
    intros now. apply (hoare_catch _ _ _ _ _ (failed w0)); [|intros []; cbn; intros s Hs; exact Hs].
    intros [l s] (Hs & Hg & Hd & Hen). unfold in_decisions, zoom. cbn [fst snd] in *.
    change (mark_decision_committed ?a ?b ?c) with (mark a b c).
    destruct (mark_spec i r now l (proj1 Hs) Hg Er) as (-> & Hw & He). split; [|by eexists]. cbn.
    split_and!; [by eapply since_ledger| |done|done]. cbn. by rewrite dict_get_set, bool_decide_eq_true_2.
Qed.

(** What an answer says is recorded and was read. *)
Definition answered (payload : DecisionRequest F) (r : DecisionWorkflowResult F R) (w : W) : Prop :=
  ∃ i x a ev, dict_get r.(wr_intent_id) w.1 = Some i ∧ i.(ad_result) = Some x ∧
    i.(ad_decision_sha256) = decision_digest payload.(dr_decision) ∧
    r.(wr_request_id) = payload.(dr_request_id) ∧ r.(wr_command_id) = i.(ad_command_id) ∧
    r.(wr_checkpoint) = "decision_committed" ∧ r.(wr_decision_result) = Some x ∧
    decided_by x = payload.(dr_actor) ∧ decided x = payload.(dr_decision).(d_decision) ∧
    w.2.1 = ev ++ [Projected payload.(dr_decision).(d_enrollment_id) r.(wr_recovery)] ∧
    r.(wr_recovery).(approval_decision) = Some a ∧ a.(a_decision_id) = decision_id x ∧
    a.(a_actor) = payload.(dr_actor) ∧ a.(a_command).(d_decision) = payload.(dr_decision).(d_decision) ∧
    a.(a_command).(d_target_business_owner_id) = payload.(dr_decision).(d_target_business_owner_id) ∧
    a.(a_command).(d_target_owner_domain_id) = payload.(dr_decision).(d_target_owner_domain_id).

Lemma committed_decision_ok payload (res : option R) (recovery : EnrollmentRecovery F) :
  validate_committed_decision payload res recovery = Ok tt →
  ∃ x a, res = Some x ∧ recovery.(approval_decision) = Some a ∧
    a.(a_decision_id) = decision_id x ∧ decided_by x = payload.(dr_actor) ∧
    decided x = payload.(dr_decision).(d_decision) ∧ a.(a_actor) = payload.(dr_actor) ∧
    a.(a_command).(d_decision) = payload.(dr_decision).(d_decision) ∧
    a.(a_command).(d_target_business_owner_id) = payload.(dr_decision).(d_target_business_owner_id) ∧
    a.(a_command).(d_target_owner_domain_id) = payload.(dr_decision).(d_target_owner_domain_id).
Proof.
  unfold validate_committed_decision. destruct res as [x|]; [|done]. destruct (approval_decision recovery) as [a|]; [|done].
  case_match eqn:Hc; [done|]. rewrite !orb_false_iff, !negb_false_iff, !bool_decide_eq_true in Hc.
  intros _. destruct_and!. exists x, a. by split_and!.
Qed.

Lemma hoare_decide w0 payload :
  hoare (since w0) (decide payload) (λ r w, since w0 w ∧ answered payload r w) (failed w0).
Proof.
  unfold decide_controller_enrollment, conclude_decision, admission_issuer. apply (hoare_bind _ _ (λ _, since w0)).
  { destruct hub_credentials as [issue|]; [by intros w Hw|by intros w Hw]. }
  intros issue. apply (hoare_bind _ _ (λ _, since w0)); [by apply hoare_clock|]. intros now.
  eapply hoare_bind; [apply hoare_create|]. intros i.
  apply (hoare_bind _ _ (λ _, holds w0 payload i)); [apply hoare_lift; [done|intros e _; apply holds_since]|].
  intros authorization. apply (hoare_bind _ _ (λ _, holds w0 payload i)).
  { eapply hoare_mono; [apply (hoare_project w0 (holds w0 payload i)); [apply holds_since|]|done|by intros r s [? _]|done].
    intros l ev x x' r (Hs & Hrest). split; [by eapply since_project|done]. }
  intros recovery. apply (hoare_bind _ _ (λ _, holds w0 payload i)); [apply hoare_lift; [done|intros e _; apply holds_since]|].
  intros []. eapply hoare_bind; [apply hoare_submit|]. clear i. intros i.
  set (P := λ w, holds w0 payload i w ∧ is_Some (ad_result i)).
  assert (∀ w, P w → since w0 w) as HP by by intros w [? _]%(λ H, conj (holds_since _ _ _ _ (proj1 H)) I).
  eapply hoare_bind; [apply (hoare_project w0 P); [done|]|].
  { intros l ev x x' r [(Hs & Hrest) ?]. split; [|done]. split; [by eapply since_project|done]. }
  clear recovery. intros recovery.
  apply (hoare_bind _ _ (λ _ w, (P w ∧ ∃ ev, w.2.1 = ev ++ [Projected payload.(dr_decision).(d_enrollment_id) recovery]) ∧
    validate_committed_decision payload i.(ad_result) recovery = Ok tt)).
  { apply hoare_lift; [by intros [] Hv w Hw|by intros e _ w [Hw%HP _]]. }
  intros [] w [[[Hh Hsome] [ev Hev]] Hv]. destruct (committed_decision_ok _ _ _ Hv) as (x & a & Hx & Ha & Hfacts).
  destruct Hh as (Hs & Hg & Hd & Hen). destruct (proj2 (proj1 Hs) _ _ (dict_get_elem _ _ _ Hg)) as (_ & _ & _ & _ & Hcp).
  rewrite Hx in Hcp. unfold coherent_result, lift. cbn [wr_checkpoint wr_decision_result]. rewrite Hcp, Hx. cbn.
  split; [done|]. destruct_and!. exists i, x, a, ev. cbn. rewrite <- Hcp. by split_and!.
Qed.

(** *** Many attempts *)

Fixpoint decide_all (l : list (DecisionRequest F)) (w : W) : W :=
  match l with [] => w | p :: l' => decide_all l' (decide p w).2 end.

Lemma decide_all_since l w : decisions_wf w.1 → since w (decide_all l w).
Proof.
  revert w. induction l as [|p l IH]; intros w Hw; [by apply since_refl|]. cbn [decide_all].
  assert (since w (decide p w).2) as Hs.
  { pose proof (hoare_decide w p w (since_refl w Hw)) as H. by destruct (decide p w) as [[r|e] w']; [destruct H|]. }
  eapply since_trans; [exact Hs|]. apply IH, Hs.
Qed.
End Decisions.

(** ** Properties *)

(** C20: Hub is asked to decide one thing for one request.  Over any attempts,
    with a Hub and a clock that answer or fail in any way at any call, every
    Decision submitted under one intent carries the same command identity and
    Enrollment and a Decision of the same digest; the command is the one
    derived from intent and Enrollment; and once Hub's result is recorded, no
    later attempt submits anything under that intent. *)
Theorem one_decision_per_intent {F R D X} `{!EqDecision F} `{!DecisionResult R} sha1 sha256_hex dump_actor dump_decision
    (hub_credentials : option (AdmissionCredential D → result string)) (hub : AdmissionHub F R X)
    (attempts more : list (DecisionRequest F)) (x : X) :
  let run := decide_all sha1 sha256_hex dump_actor dump_decision hub_credentials hub in
  let w := run attempts ([], ([], x)) in
  (∀ d c d' c' k, Submitted d c k ∈ w.2.1 → Submitted d' c' k ∈ w.2.1 →
     c = c' ∧ d.(d_enrollment_id) = d'.(d_enrollment_id) ∧
     decision_digest sha256_hex dump_decision d = decision_digest sha256_hex dump_decision d') ∧
  (∀ d c k, Submitted d c k ∈ w.2.1 → c = decision_command_id sha1 k d.(d_enrollment_id)) ∧
  ∃ new, (run more w).2.1 = w.2.1 ++ new ∧
    ∀ k i, dict_get k w.1 = Some i → is_Some i.(ad_result) → ∀ d c, Submitted d c k ∉ new.
Proof.
  intros run w. pose (start := ([], ([], x)) : list (string * AdmissionDecisionIntent R) * (list (hub_event F R) * X)).
  assert (decisions_wf sha1 start.1) as Hw0 by (split; [constructor|]; by intros k i ?%not_elem_of_nil).
  pose proof (decide_all_since sha1 sha256_hex dump_actor dump_decision hub_credentials hub attempts start Hw0)
    as (Hw & He & new & Hnew & Hs).
  fold run w in Hw, He, Hnew, Hs. cbn in Hnew. subst new. split_and!.
  - intros d c d' c' k H1 H2. destruct (Hs _ _ _ H1) as [(i & Hi & <- & Hd & Hen) _].
    destruct (Hs _ _ _ H2) as [(j & Hj & <- & Hd' & Hen') _]. assert (i = j) as <- by congruence.
    split_and!; congruence.
  - intros d c k H1. destruct (Hs _ _ _ H1) as [(i & Hi & <- & _ & <-) _].
    by destruct (proj2 Hw _ _ (dict_get_elem _ _ _ Hi)) as (-> & _ & _ & -> & _).
  - destruct (decide_all_since sha1 sha256_hex dump_actor dump_decision hub_credentials hub more w Hw)
      as (_ & _ & new & Hnew & Hs'). exists new. split; [done|]. intros k i Hi Hr d c Hin.
    destruct (Hs' _ _ _ Hin) as [_ Hno]. rewrite (Hno i Hi) in Hr. by destruct Hr.
Qed.

(** An answered Decision is Hub's.  Whatever an attempt answers, after any
    attempts before it, is recorded: the intent it names holds exactly the
    result it reports, for a Decision with the digest of the one requested.
    The result was decided by the requesting Controller with the requested
    decision, and the projection it carries is the last thing Hub said about
    the Enrollment, with that very Decision, Controller, Owner and domain. *)
Theorem decision_answer_sound {F R D X} `{!EqDecision F} `{!DecisionResult R} sha1 sha256_hex dump_actor dump_decision
    (hub_credentials : option (AdmissionCredential D → result string)) (hub : AdmissionHub F R X)
    (attempts : list (DecisionRequest F)) payload (x : X) :
  let w := decide_all sha1 sha256_hex dump_actor dump_decision hub_credentials hub attempts ([], ([], x)) in
  match decide_controller_enrollment (AdmissionDecisionIntentStore0 := decisions_in_memory sha1 sha256_hex dump_actor dump_decision)
          (AdmissionHub0 := observed_hub hub) hub_credentials payload w with
  | (Ok r, w') => answered sha256_hex dump_decision payload r w'
  | (Raise _, w') => extends w.1 w'.1
  end.
Proof.
  intros w. assert (decisions_wf sha1 w.1) as Hw.
  { apply (decide_all_since (D := D) sha1 sha256_hex dump_actor dump_decision hub_credentials hub attempts).
    split; [constructor|]. by intros k i ?%not_elem_of_nil. }
  pose proof (hoare_decide sha1 sha256_hex dump_actor dump_decision hub_credentials hub w payload w (since_refl _ _ _ w Hw)) as H.
  destruct (decide_controller_enrollment _ _ _) as [[r|e] w']; apply H.
Qed.

(** Hub's projection bears the recorded result out. *)
Definition bears_out {F R} `{!EqDecision F} `{!DecisionResult R} (payload : DecisionRequest F) (x : R)
    (recovery : EnrollmentRecovery F) : Prop :=
  recovery.(proposal).(p_requested_owner_domain_id) = payload.(dr_decision).(d_target_owner_domain_id) ∧
  recovery.(proposal).(p_manifest_ref) = payload.(dr_decision).(d_reviewed_manifest_ref) ∧
  (∃ a, recovery.(approval_decision) = Some a ∧ same_decision payload a = true ∧ a.(a_decision_id) = decision_id x) ∧
  decided_by x = payload.(dr_actor) ∧ decided x = payload.(dr_decision).(d_decision).

Lemma bears_out_committed {F R} `{!EqDecision F} `{!DecisionResult R} payload (x : R) (recovery : EnrollmentRecovery F) :
  bears_out payload x recovery → validate_committed_decision payload (Some x) recovery = Ok tt.
Proof.
  intros (_ & _ & (a & Ha & Hsame & Hid) & H1 & H2). unfold validate_committed_decision. rewrite Ha.
  unfold same_decision in Hsame. rewrite !andb_true_iff, !bool_decide_eq_true in Hsame. destruct_and!.
  by rewrite !bool_decide_eq_true_2 by done.
Qed.

Lemma conclude_recorded {F R X} `{!EqDecision F} `{!DecisionResult R} sha1 sha256_hex dump_actor dump_decision
    (hub : AdmissionHub F R X) payload i (x : R) recovery token (l : list (string * AdmissionDecisionIntent R)) x0 :
  i.(ad_result) = Some x → i.(ad_checkpoint) = "decision_committed" → bears_out payload x recovery →
  (∀ e a s, hub_get_enrollment_recovery e a s = (Ok recovery, s)) →
  conclude_decision (AdmissionDecisionIntentStore0 := decisions_in_memory sha1 sha256_hex dump_actor dump_decision)
    payload i token (l, x0) =
  (Ok (mkDecisionWorkflowResult payload.(dr_request_id) i.(ad_intent_id) i.(ad_command_id) "decision_committed"
         (Some x) recovery), (l, x0)).
Proof.
  intros Hx Hcp Hb Hget. unfold conclude_decision, submit_decision. rewrite Hx.
  rewrite (bind_ok (mret i) _ (l, x0) i (l, x0) eq_refl).
  rewrite (bind_ok (in_hub _) _ (l, x0) recovery (l, x0)) by (unfold in_hub, zoom; by rewrite Hget).
  rewrite Hx, (bears_out_committed _ _ _ Hb), (bind_ok (lift (Ok tt)) _ (l, x0) tt (l, x0) eq_refl).
  unfold coherent_result. cbn [wr_checkpoint wr_decision_result]. by rewrite Hcp.
Qed.

(** C21: a recorded Decision can be fetched again until the device takes its
    grant.  Asked again for a Decision whose result is recorded, with the same
    content and a Hub whose projection bears that result out, the workflow
    submits nothing and changes nothing; it answers the recorded result while
    the grant waits or is being delivered, and refuses with a conflict from
    the moment the device acknowledged it or the Proposal reached any other
    end.  Other content under the same request is always refused. *)
Theorem decision_retry {F R D X} `{!EqDecision F} `{!DecisionResult R} sha1 sha256_hex dump_actor dump_decision
    issue (hub : AdmissionHub F R X) (payload : DecisionRequest F) (l : list (string * AdmissionDecisionIntent R)) (x0 : X)
    i x recovery token t :
  let candidate now := new_decision_intent sha1 sha256_hex dump_actor dump_decision (values_of_request payload now) in
  decisions_wf sha1 l → dict_get (ad_intent_id (candidate 0%Z)) l = Some i → i.(ad_result) = Some x →
  bears_out payload x recovery →
  (∀ s, decision_clock s = (Ok t, s)) → (∀ e a s, hub_get_enrollment_recovery e a s = (Ok recovery, s)) →
  (∀ c : AdmissionCredential D, issue c = Ok token) →
  decide_controller_enrollment (AdmissionDecisionIntentStore0 := decisions_in_memory sha1 sha256_hex dump_actor dump_decision)
    (Some issue) payload (l, x0) =
  (if same_intent i (candidate 0%Z) then
     match recovery.(proposal).(p_state) with
     | APPROVED_AWAITING_HANDOFF | GRANT_DELIVERED =>
         Ok (mkDecisionWorkflowResult payload.(dr_request_id) i.(ad_intent_id) i.(ad_command_id) "decision_committed"
               (Some x) recovery)
     | PENDING_REVIEW =>
         if (recovery.(proposal).(p_proposal_revision) =? payload.(dr_decision).(d_expected_proposal_revision))%Z then
           Ok (mkDecisionWorkflowResult payload.(dr_request_id) i.(ad_intent_id) i.(ad_command_id) "decision_committed"
                 (Some x) recovery)
         else Raise (hub_conflict "Hub Proposal revision changed")
     | GRANT_ACKNOWLEDGED | TERMINAL _ => Raise (hub_conflict "Hub Proposal is not decision-recoverable")
     end
   else Raise (hub_conflict "Admission Decision request id was reused with different context"), (l, x0)).
Proof.
  intros candidate Hw Hi Hx Hb Hclock Hget Hissue.
  destruct (proj2 Hw _ _ (dict_get_elem _ _ _ Hi)) as (_ & _ & _ & _ & Hcp). rewrite Hx in Hcp.
  unfold decide_controller_enrollment, admission_issuer. rewrite (bind_ok (mret issue) _ (l, x0) issue (l, x0) eq_refl).
  assert (in_hub (L := list (string * AdmissionDecisionIntent R)) decision_clock (l, x0) = (Ok t, (l, x0))) as Hc
    by (unfold in_hub, zoom; by rewrite Hclock).
  rewrite (bind_ok _ _ _ _ _ Hc).
  assert (∀ e a, in_hub (L := list (string * AdmissionDecisionIntent R)) (hub_get_enrollment_recovery e a) (l, x0) =
    (Ok recovery, (l, x0))) as Hg by (intros e a; unfold in_hub, zoom; by rewrite Hget).
  assert (or_conflict (X := X) (in_decisions (decision_get_or_create (AdmissionDecisionIntentStore := decisions_in_memory sha1 sha256_hex dump_actor dump_decision)
      (values_of_request payload t))) (l, x0) =
    (if same_intent i (candidate 0%Z) then Ok i
     else Raise (hub_conflict "Admission Decision request id was reused with different context"), (l, x0))) as Hcr.
  { unfold or_conflict, catch, in_decisions, zoom. cbn [fst snd].
    change (decision_get_or_create ?v) with (mdec_get_or_create (R := R) sha1 sha256_hex dump_actor dump_decision v).
    rewrite decision_create_run. change (ad_intent_id (new_decision_intent _ _ _ _ _)) with (ad_intent_id (candidate 0%Z)).
    rewrite Hi. change (same_intent i (new_decision_intent _ _ _ _ _)) with (same_intent i (candidate 0%Z)).
    by destruct (same_intent i _). }
  destruct (same_intent i (candidate 0%Z)); [|by rewrite (bind_raise _ _ _ _ _ Hcr)].
  rewrite (bind_ok _ _ _ _ _ Hcr). unfold issue_admission_context. rewrite Hissue.
  rewrite (bind_ok (lift (Ok token)) _ (l, x0) token (l, x0) eq_refl), (bind_ok _ _ _ _ _ (Hg _ _)).
  unfold validate_decision_target. pose proof Hb as (H1 & H2 & (a & Ha & Hsame & _) & _).
  rewrite H1, H2, Ha, Hsame, !(bool_decide_eq_true_2 (_ = _)) by done. cbn [negb orb].
  pose proof (conclude_recorded sha1 sha256_hex dump_actor dump_decision hub payload i x recovery token l x0 Hx Hcp Hb Hget) as Hend.
  destruct (p_state _); cbn [bool_decide]; try done.
  by destruct (_ =? _)%Z.
Qed.

(** *** A sample, for the witnesses *)

Definition sample_actor : ControllerActorRef :=
  mkActor "ectrl-0" "controller" "owner-1" ["device.claim.approve"] "software".
Definition plain_decided : DecisionResult string :=
  {| decision_id := id; decided_by := λ _, sample_actor; decided := λ _, "approve" |}.
#[local] Existing Instance plain_decided.
Definition sample_decision : DecideEnrollment string :=
  mkDecide "enr-1" 3 "approve" "owner-1" "owner_1" None "manifest" None [].
Definition sample_decision_request : DecisionRequest string := mkDecisionRequest "r1" sample_actor sample_decision.
Definition dump_enrollment (d : DecideEnrollment string) : doc := DStr (d_enrollment_id d).
Definition sample_projection (st : EnrollmentProposalState) : EnrollmentRecovery string :=
  mkRecovery (mkProposal "enr-1" 4 "owner-1" "manifest" "device-1" st)
    (Some (mkApproval "decision-1" sample_actor sample_decision)).
Definition steady_hub (st : EnrollmentProposalState) : AdmissionHub string string unit :=
  {| hub_get_enrollment_recovery := λ _ _, mret (sample_projection st);
     hub_decide_enrollment := λ _ _ _ _, mret "decision-1"; decision_clock := mret 5%Z |}.
Definition sample_recorded : AdmissionDecisionIntent string :=
  committed "decision-1" 7 (new_decision_intent poly_digest string_of_list_ascii (λ _, DNull) dump_enrollment
    (values_of_request sample_decision_request 0)).

Lemma decision_retry_witness :
  let retry st := (decide_controller_enrollment (AdmissionHub0 := steady_hub st)
    (AdmissionDecisionIntentStore0 := decisions_in_memory poly_digest string_of_list_ascii (λ _, DNull) dump_enrollment)
    (Some (λ _ : AdmissionCredential string, Ok "token")) sample_decision_request
    ([(sample_recorded.(ad_intent_id), sample_recorded)], tt)).1 in
  (∃ r, retry GRANT_DELIVERED = Ok r ∧ r.(wr_decision_result) = Some "decision-1") ∧
  retry GRANT_ACKNOWLEDGED = Raise (hub_conflict "Hub Proposal is not decision-recoverable").
Proof.
  pose (l := [(sample_recorded.(ad_intent_id), sample_recorded)]).
  assert (decisions_wf poly_digest l) as Hw.
  { split; [apply NoDup_singleton|]. intros k i [= -> ->]%list_elem_of_singleton. by split_and!. }
  assert (∀ st, bears_out sample_decision_request "decision-1" (sample_projection st)) as Hb.
  { intros st. split_and!; try done. eexists. split; [reflexivity|]. split; [by vm_compute|done]. }
  pose proof (λ st, decision_retry poly_digest string_of_list_ascii (λ _, DNull) dump_enrollment
    (λ _ : AdmissionCredential string, Ok "token") (steady_hub st) sample_decision_request l tt sample_recorded
    "decision-1" (sample_projection st) "token" 5 Hw eq_refl eq_refl (Hb st)
    (λ _, eq_refl) (λ _ _ _, eq_refl) (λ _, eq_refl)) as Hr.
  split; [eexists; split; [etransitivity; [exact (f_equal fst (Hr GRANT_DELIVERED))|vm_compute; reflexivity]|done]|].
  etransitivity; [exact (f_equal fst (Hr GRANT_ACKNOWLEDGED))|vm_compute; reflexivity].
Defined.
