(* ===== verification/AdmissionLedger.v ===== *)
(** * The decision ledger in SQLite

    [SqliteAdmissionDecisionIntentStore] answers as the in-memory store; only a
    commit of an unknown intent is refused under another name. *)

From S2P Require Import Prelude Encoding Json Lifecycle RemovalLedger Admission AdmissionProofs.

Section Sqlite.
Context {F R : Type} `{!DecisionResult R}.
Context (sha1 : bytes → bytes) (sha256_hex : bytes → string).
Context (dump_actor : ControllerActorRef → doc) (dump_decision : DecideEnrollment F → doc).
Context (result_json : R → string) (parse_result : string → result R).
Context (parse_result_json : ∀ r, parse_result (result_json r) = Ok r).

Abbreviation intent := (AdmissionDecisionIntent R).
Abbreviation ledger := (list (string * AdmissionDecisionIntent R)).
Abbreviation fresh := (new_decision_intent (R := R) sha1 sha256_hex dump_actor dump_decision).
Abbreviation create := (mdec_get_or_create (R := R) sha1 sha256_hex dump_actor dump_decision).
Abbreviation mark := (mdec_mark_decision_committed (R := R)).
Abbreviation sql_create :=
  (sdec_get_or_create sha1 sha256_hex dump_actor dump_decision parse_result).
Abbreviation sql_mark := (sdec_mark_decision_committed result_json parse_result).

(** The row an intent is stored as. *)
Definition stored (i : intent) : decision_row :=
  mkDecisionRow i.(ad_intent_id) i.(ad_ingress_request_id) i.(ad_command_id) i.(ad_correlation_id)
    i.(ad_owner_domain_id) i.(ad_business_owner_id) i.(ad_enrollment_id) i.(ad_actor_json) i.(ad_actor_sha256)
    i.(ad_decision_json) i.(ad_decision_sha256) i.(ad_checkpoint) (result_json <$> i.(ad_result))
    i.(ad_created_at) i.(ad_updated_at).

Lemma decode_stored i : decode_decision parse_result (stored i) = Ok i.
Proof.
  unfold decode_decision, stored. cbn [dc_result_json]. destruct i as [? ? ? ? ? ? ? ? ? ? ? ? [r|] ? ?]; cbn; [|done].
  by rewrite parse_result_json.
Qed.

(** Two requests whose identifiers are the same are the same request. *)
Definition distinct_requests (vs : list (decision_values F)) : Prop :=
  ∀ v w, v ∈ vs → w ∈ vs →
    (ad_intent_id (fresh v) = ad_intent_id (fresh w) →
      v.(dv_owner_domain_id) = w.(dv_owner_domain_id) ∧ v.(dv_ingress_request_id) = w.(dv_ingress_request_id)) ∧
    (ad_command_id (fresh v) = ad_command_id (fresh w) → ad_intent_id (fresh v) = ad_intent_id (fresh w)).

(** The intent was created for one of the requests. *)
Definition created_by (v : decision_values F) (i : intent) : Prop :=
  i.(ad_intent_id) = ad_intent_id (fresh v) ∧ i.(ad_command_id) = ad_command_id (fresh v) ∧
  i.(ad_owner_domain_id) = v.(dv_owner_domain_id) ∧ i.(ad_ingress_request_id) = v.(dv_ingress_request_id).

Definition dsim (vs : list (decision_values F)) (l : ledger) (rows : list decision_row) : Prop :=
  rows = stored <$> l.*2 ∧ NoDup l.*1 ∧
  ∀ k i, (k, i) ∈ l → k = i.(ad_intent_id) ∧ ∃ v, v ∈ vs ∧ created_by v i.

Lemma same_pair vs v w : distinct_requests vs → v ∈ vs → w ∈ vs →
  bool_decide (w.(dv_owner_domain_id) = v.(dv_owner_domain_id)) &&
  bool_decide (w.(dv_ingress_request_id) = v.(dv_ingress_request_id)) =
  bool_decide (ad_intent_id (fresh v) = ad_intent_id (fresh w)).
Proof.
  intros Hd Hv Hw. destruct (Hd v w Hv Hw) as [Hinj _]. apply eq_true_iff_eq.
  rewrite andb_true_iff, !bool_decide_eq_true. split; [|intros E; by destruct (Hinj E)].
  intros [E1 E2]. cbn. by rewrite E1, E2.
Qed.

(** The UNIQUE pair selects what the identity selects. *)
Lemma select_pair vs l v : distinct_requests vs → dsim vs l (stored <$> l.*2) → v ∈ vs →
  next_or_none (λ r, bool_decide (r.(dc_owner_domain_id) = (fresh v).(ad_owner_domain_id)) &&
                     bool_decide (r.(dc_ingress_request_id) = (fresh v).(ad_ingress_request_id))) (stored <$> l.*2) =
  stored <$> dict_get (ad_intent_id (fresh v)) l.
Proof.
  intros Hd (_ & _ & Hf) Hv. rewrite next_or_none_fmap. f_equal. apply dict_get_next. intros k i Hin.
  destruct (Hf k i Hin) as (-> & w & Hw & -> & _ & E1 & E2). cbn [compose stored dc_owner_domain_id dc_ingress_request_id].
  rewrite E1, E2. by apply (same_pair vs).
Qed.

Lemma insert_free vs l v : distinct_requests vs → dsim vs l (stored <$> l.*2) → v ∈ vs →
  dict_get (ad_intent_id (fresh v)) l = None →
  existsb (decision_row_conflict (row_of_intent (fresh v))) (stored <$> l.*2) = false.
Proof.
  intros Hd (_ & _ & Hf) Hv Hn. apply existsb_elem_false.
  intros x (i & -> & ([k i'] & -> & Hin)%list_elem_of_fmap)%list_elem_of_fmap. cbn [snd].
  destruct (Hf k i' Hin) as (-> & w & Hw & E & Ec & E1 & E2).
  assert (ad_intent_id (fresh v) ≠ ad_intent_id (fresh w)) as Hne.
  { intros E'. apply dict_get_None in Hn. apply Hn. rewrite E', <- E. apply list_elem_of_fmap. by exists (ad_intent_id i', i'). }
  unfold decision_row_conflict.
  cbn [stored row_of_intent dc_intent_id dc_command_id dc_owner_domain_id dc_ingress_request_id].
  rewrite E, Ec, E1, E2. change (ad_owner_domain_id (fresh v)) with v.(dv_owner_domain_id).
  change (ad_ingress_request_id (fresh v)) with v.(dv_ingress_request_id).
  rewrite (same_pair vs v w Hd Hv Hw), !bool_decide_eq_false_2; [done|done| |by intros E'; apply Hne].
  intros E'. apply Hne. by apply (Hd v w Hv Hw).
Qed.

Lemma dsim_create vs l rows v : distinct_requests vs → v ∈ vs → dsim vs l rows →
  ∃ rows', sql_create v rows = ((create v l).1, rows') ∧ dsim vs (create v l).2 rows'.
Proof.
  intros Hd Hv Hs. pose proof Hs as (-> & Hnd & Hf). rewrite decision_create_run. unfold sdec_get_or_create, with_connection.
  rewrite bind_gets. unfold id. rewrite (select_pair vs l v Hd Hs Hv).
  destruct (dict_get (ad_intent_id (fresh v)) l) as [i|] eqn:E; cbn [fmap option_fmap option_map].
  - unfold lift. rewrite decode_stored, bind_mret_lift, bind_guard.
    destruct (same_intent i _); cbn [negb]; by eexists.
  - unfold insert_decision. rewrite bind_assoc, bind_gets, bind_assoc, bind_guard. unfold id.
    rewrite (insert_free vs l v Hd Hs Hv E), bind_modify. eexists. split; [reflexivity|].
    apply dict_get_None in E. cbn [snd]. split_and!.
    + by rewrite dict_set_fresh, !fmap_app.
    + by apply dict_set_NoDup.
    + intros k i. rewrite dict_set_fresh by done. intros [Hin|Hin]%elem_of_app; [by apply Hf|].
      apply list_elem_of_singleton in Hin as [= -> ->]. split; [done|]. by exists v.
Qed.

(** The one answer that differs: an intent nobody recorded. *)
Definition same_answer (r r' : result intent) : Prop :=
  r' = r ∨ ∃ k, r = Raise (KeyError k) ∧ r' = Raise (ValueError "Admission Decision intent does not exist").

Lemma dsim_mark vs l rows k r now : dsim vs l rows →
  ∃ x rows', sql_mark k r now rows = (x, rows') ∧ same_answer (mark k r now l).1 x ∧ dsim vs (mark k r now l).2 rows'.
Proof.
  intros Hs. pose proof Hs as (-> & Hnd & Hf). rewrite decision_mark_run. unfold sdec_mark_decision_committed, with_connection.
  rewrite bind_gets. unfold id.
  assert (next_or_none (λ c, bool_decide (c.(dc_intent_id) = k)) (stored <$> l.*2) = stored <$> dict_get k l) as ->.
  { rewrite next_or_none_fmap. f_equal. apply dict_get_next. intros k' i Hin.
    destruct (Hf k' i Hin) as (-> & _). cbn. by apply bool_decide_ext. }
  destruct (dict_get k l) as [i|] eqn:E; cbn [fmap option_fmap option_map]; [|by eexists _, _; split; [|split; [right; eauto|]]].
  unfold lift. rewrite decode_stored, bind_mret_lift, bind_guard.
  destruct (decision_conflicts i r); [by eexists _, _; split; [|split; [left|]]|].
  rewrite bind_modify. eexists _, _. split; [reflexivity|]. split; [by left|]. cbn [snd].
  pose proof (dict_get_elem _ _ _ E) as Hin. split_and!.
  - rewrite dict_set_update_where by (try exact Hnd; apply list_elem_of_fmap; by exists (k, i)). unfold update_where.
    rewrite <- !list_fmap_compose. apply list_fmap_ext. intros n [k' j] Hn%list_elem_of_lookup_2. cbn.
    destruct (Hf k' j Hn) as (Ek & _). rewrite <- Ek. destruct (decide (k' = k)) as [->|Hne].
    + rewrite !bool_decide_eq_true_2 by done. cbn.
      apply (dict_get_Some k j l Hnd) in Hn. assert (i = j) as <- by congruence. done.
    + by rewrite !bool_decide_eq_false_2.
  - by apply dict_set_NoDup.
  - intros k' j Hk. apply (elem_of_dict_set k _ l (k', j) Hnd) in Hk as [[= -> ->]|[_ Hk]]; [exact (Hf _ _ Hin)|exact (Hf _ _ Hk)].
Qed.
End Sqlite.

Definition requests_of {F R} (c : decision_call (F := F) (R := R)) : list (decision_values F) :=
  match c with DCreate v => [v] | DCommit _ _ _ => [] end.

(** Both decision ledgers answer alike.  Over any history of calls whose
    identifiers do not collide, the SQLite ledger and the in-memory one answer
    each call with the same intent or the same refusal; only a commit of an
    intent nobody recorded is a [ValueError] in the one, which the workflow
    turns into a conflict, and a [KeyError] in the other, which nothing
    catches.  The codec of the result column is only assumed to read back what
    it wrote. *)
Theorem decision_ledgers_agree {F R} `{!DecisionResult R} sha1 sha256_hex dump_actor
    (dump_decision : DecideEnrollment F → doc) (result_json : R → string) parse_result calls :
  (∀ r, parse_result (result_json r) = Ok r) →
  distinct_requests (R := R) sha1 sha256_hex dump_actor dump_decision (calls ≫= requests_of) →
  Forall2 same_answer
    (run_decisions (AdmissionDecisionIntentStore0 := memory_decisions sha1 sha256_hex dump_actor dump_decision) calls []).1
    (run_decisions (AdmissionDecisionIntentStore0 :=
       sqlite_decisions sha1 sha256_hex dump_actor dump_decision result_json parse_result) calls []).1.
Proof.
  intros Hp Hd. set (vs := calls ≫= requests_of) in Hd.
  assert (dsim sha1 sha256_hex dump_actor dump_decision result_json vs [] []) as Hs
    by (split_and!; [done|constructor|by intros k i ?%not_elem_of_nil]).
  assert (∀ v, v ∈ calls ≫= requests_of → v ∈ vs) as Hin by done. revert Hs Hin. generalize (@nil decision_row).
  generalize (@nil (string * AdmissionDecisionIntent R)). clearbody vs.
  induction calls as [|c calls IH]; intros l rows Hs Hin; [constructor|]. cbn [run_decisions].
  assert (∃ x rows', run_decision_call (AdmissionDecisionIntentStore0 :=
       sqlite_decisions sha1 sha256_hex dump_actor dump_decision result_json parse_result) c rows = (x, rows') ∧
    same_answer (run_decision_call (AdmissionDecisionIntentStore0 := memory_decisions sha1 sha256_hex dump_actor dump_decision) c l).1 x ∧
    dsim sha1 sha256_hex dump_actor dump_decision result_json vs
      (run_decision_call (AdmissionDecisionIntentStore0 := memory_decisions sha1 sha256_hex dump_actor dump_decision) c l).2 rows')
    as (x & rows' & E & Ha & Hs').
  { destruct c as [v|k r now]; [|by apply dsim_mark].
    assert (v ∈ vs) as Hv by (apply Hin; rewrite bind_cons; apply elem_of_app; left; by left).
    destruct (dsim_create sha1 sha256_hex dump_actor dump_decision result_json parse_result Hp vs l rows v Hd Hv Hs)
      as (rows' & E & Hs'). eexists _, rows'. split; [exact E|]. split; [by left|exact Hs']. }
  rewrite E. destruct (run_decision_call (AdmissionDecisionIntentStore0 := memory_decisions _ _ _ _) c l) as [y l']. cbn [fst snd] in *.
  assert (∀ v, v ∈ calls ≫= requests_of → v ∈ vs) as Hin'.
  { intros v Hv. apply Hin. rewrite bind_cons. apply elem_of_app. by right. }
  specialize (IH l' rows' Hs' Hin').
  revert IH. destruct (run_decisions (AdmissionDecisionIntentStore0 := memory_decisions _ _ _ _) calls l') as [ys l2].
  destruct (run_decisions (AdmissionDecisionIntentStore0 := sqlite_decisions _ _ _ _ _ _) calls rows') as [zs r2].
  by constructor.
Qed.

#[local] Existing Instance plain_decided.
Definition sample_decision_values (request : string) (t : Z) : decision_values string :=
  mkDecisionValues request "owner-1" "owner_1" sample_actor sample_decision t.
Definition sample_decision_calls : list (decision_call (F := string) (R := string)) :=
  [DCreate (sample_decision_values "r1" 5); DCreate (sample_decision_values "r2" 6);
   DCommit (decision_intent_id poly_digest "owner-1" "r1") "decision-1" 7;
   DCreate (sample_decision_values "r1" 8); DCommit "none" "decision-1" 9].

Lemma decision_ledgers_agree_witness :
  Forall2 same_answer
    (run_decisions (AdmissionDecisionIntentStore0 :=
       memory_decisions poly_digest string_of_list_ascii (λ _, DNull) dump_enrollment) sample_decision_calls []).1
    (run_decisions (AdmissionDecisionIntentStore0 :=
       sqlite_decisions poly_digest string_of_list_ascii (λ _, DNull) dump_enrollment id Ok) sample_decision_calls []).1.
Proof.
  apply decision_ledgers_agree; [done|].
  assert (Forall (λ v, Forall (λ w,
    (ad_intent_id (new_decision_intent (R := string) poly_digest string_of_list_ascii (λ _, DNull) dump_enrollment v) =
     ad_intent_id (new_decision_intent (R := string) poly_digest string_of_list_ascii (λ _, DNull) dump_enrollment w) →
      v.(dv_owner_domain_id) = w.(dv_owner_domain_id) ∧ v.(dv_ingress_request_id) = w.(dv_ingress_request_id)) ∧
    (ad_command_id (new_decision_intent (R := string) poly_digest string_of_list_ascii (λ _, DNull) dump_enrollment v) =
     ad_command_id (new_decision_intent (R := string) poly_digest string_of_list_ascii (λ _, DNull) dump_enrollment w) →
     ad_intent_id (new_decision_intent (R := string) poly_digest string_of_list_ascii (λ _, DNull) dump_enrollment v) =
     ad_intent_id (new_decision_intent (R := string) poly_digest string_of_list_ascii (λ _, DNull) dump_enrollment w)))
    (sample_decision_calls ≫= requests_of)) (sample_decision_calls ≫= requests_of)) as Hall.
  { apply (bool_decide_unpack _). vm_compute. exact I. }
  intros v w Hv Hw. rewrite Forall_forall in Hall. specialize (Hall v Hv). rewrite Forall_forall in Hall. auto.
Defined.
