(* ===== verification/Conversation.v ===== *)
(** * Conversations with other authorities

    A call over a state of its own can be noted: a log beside the state holds
    what was asked, or what was answered, in order.  What a workflow says to the
    authorities it calls is then a property of the log. *)

From S2P Require Import Prelude.

Section Conversation.
Context {E X : Type}.

(** A call that is noted when it is made, one that is noted when it is
    answered, and one that is not noted. *)
Definition asking {A} (e : E) (c : M X A) : M (list E * X) A := λ s,
  let '(r, x) := c s.2 in (r, (s.1 ++ [e], x)).
Definition hearing {A} (e : A → E) (c : M X A) : M (list E * X) A := λ s,
  let '(r, x) := c s.2 in (r, (match r with Ok a => s.1 ++ [e a] | Raise _ => s.1 end, x)).
Definition quiet {A} (c : M X A) : M (list E * X) A := zoom snd (λ x s, (s.1, x)) c.

(** One that is noted when it is made, and again when it is answered. *)
Definition exchanging {A} (e : E) (f : A → E) (c : M X A) : M (list E * X) A := λ s,
  let '(r, x) := c s.2 in (r, (match r with Ok a => (s.1 ++ [e]) ++ [f a] | Raise _ => s.1 ++ [e] end, x)).

(** The log so far. *)
Definition said (ev : list E) (s : list E * X) : Prop := s.1 = ev.

Lemma hoare_noted {A} e (c : M X A) ev :
  hoare (said ev) (asking e c) (λ _, said (ev ++ [e])) (λ _, said (ev ++ [e])).
Proof. intros [l x] Hs. unfold said in *. cbn in Hs. subst. unfold asking. cbn. by destruct (c x) as [[a|ex] x']. Qed.
Lemma hoare_answer {A} e (c : M X A) ev :
  hoare (said ev) (hearing e c) (λ a, said (ev ++ [e a])) (λ _, said ev).
Proof. intros [l x] Hs. unfold said in *. cbn in Hs. subst. unfold hearing. cbn. by destruct (c x) as [[a|ex] x']. Qed.
Lemma hoare_unseen {A} (c : M X A) ev : hoare (said ev) (quiet c) (λ _, said ev) (λ _, said ev).
Proof. intros [l x] Hs. unfold said, quiet, zoom in *. cbn in *. by destruct (c x) as [[a|ex] x']. Qed.
End Conversation.

(** ** What may be said

    A log in which every event is one that may be said after what was said
    before it, and calls that keep to that. *)

Section Spoken.
Context {E X : Type} (may : list E → E → Prop).
Abbreviation W := (list E * X)%type.

Inductive spoken : list E → Prop :=
| spoken_nil : spoken []
| spoken_snoc log e : spoken log → may log e → spoken (log ++ [e]).

(** What was heard stays heard. *)
Definition kept (F : list E → Prop) : Prop := ∀ log e, F log → F (log ++ [e]).
Definition with_log (F : list E → Prop) (w : W) : Prop := spoken w.1 ∧ F w.1.
Definition any_log (_ : list E) : Prop := True.

Lemma hoare_asking {A} F (c : M X A) (e : E) :
  kept F → (∀ log, F log → may log e) → hoare (with_log F) (asking e c) (λ _, with_log F) (λ _, with_log any_log).
Proof.
  intros Hk He [l x] [H1 H2]. unfold asking. cbn [fst snd] in *. assert (with_log F (l ++ [e], (c x).2)) as Hw.
  { split; cbn; [by constructor; auto|by apply Hk]. }
  destruct (c x) as [[a|ex] x']; [done|]. by split; [apply Hw|].
Qed.
Lemma hoare_hearing {A} F (G : A → list E → Prop) (c : M X A) (e : A → E) :
  kept F → (∀ a log, F log → may log (e a)) → (∀ a log, F log → G a (log ++ [e a])) →
  hoare (with_log F) (hearing e c) (λ a, with_log (G a)) (λ _, with_log any_log).
Proof.
  intros Hk He HG [l x] [H1 H2]. unfold hearing. cbn [fst snd] in *.
  destruct (c x) as [[a|ex] x']; split; cbn; [by constructor; auto|by apply HG|done|done].
Qed.
Lemma hoare_pure {A} F (r : result A) :
  hoare (with_log F) (lift r) (λ a w, with_log F w ∧ r = Ok a) (λ _, with_log any_log).
Proof. intros w Hw. unfold lift. destruct r; [done|]. by split; [apply Hw|]. Qed.
(** A value computed before the rest, whose outcome the rest may use. *)
Lemma hoare_given {A C} F (r : result A) (f : A → M W C) Q :
  (∀ a, r = Ok a → hoare (with_log F) (f a) Q (λ _, with_log any_log)) →
  hoare (with_log F) (lift r ≫= f) Q (λ _, with_log any_log).
Proof.
  intros Hf. eapply hoare_bind; [apply hoare_pure|]. intros a w [Hw Hr]. by apply (Hf a Hr).
Qed.
Lemma spoken_any F w : with_log F w → with_log any_log w.
Proof. by intros [? _]. Qed.

(** A call through which what was heard is kept, however it ends. *)
Definition loud {A} F (c : M W A) : Prop := hoare (with_log F) c (λ _, with_log F) (λ _, with_log F).
Lemma loud_bind {A B} F (c : M W A) (f : A → M W B) : loud F c → (∀ a, loud F (f a)) → loud F (c ≫= f).
Proof. intros Hc Hf. by eapply hoare_bind. Qed.
Lemma loud_lift {A} F (r : result A) : loud F (lift r).
Proof. intros w Hw. unfold lift. by destruct r. Qed.
Lemma loud_ret {A} F (a : A) : loud F (mret a).
Proof. intros w Hw. exact Hw. Qed.
Lemma loud_raise {A} F e : loud F (raise e : M W A).
Proof. intros w Hw. exact Hw. Qed.
Lemma loud_catch {A} F (c : M W A) h : loud F c → (∀ e k, h e = Some k → loud F k) → loud F (catch c h).
Proof.
  intros Hc Hh. eapply (hoare_catch _ _ _ _ _ (λ _, with_log F)); [exact Hc|]. intros e.
  destruct (h e) as [k|] eqn:Ek; [by apply (Hh e)|]. intros w Hw. exact Hw.
Qed.
Lemma loud_quiet {A} F (c : M X A) : loud F (quiet c).
Proof. intros [l x] Hw. unfold quiet, zoom. cbn. by destruct (c x) as [[?|?] ?]. Qed.
Lemma loud_asking {A} F (c : M X A) e : kept F → (∀ log, F log → may log e) → loud F (asking e c).
Proof.
  intros Hk He [l x] [H1 H2]. unfold asking. cbn [fst snd] in *. assert (with_log F (l ++ [e], (c x).2)) as Hw.
  { split; cbn; [by constructor; auto|by apply Hk]. }
  by destruct (c x) as [[a|ex] x'].
Qed.
(** A call whose answer the rest may use. *)
Definition tells {A} F (c : M W A) (G : A → list E → Prop) : Prop :=
  hoare (with_log F) c (λ a, with_log (G a)) (λ _, with_log F).
Lemma tells_bind {A B} F (G : A → list E → Prop) (c : M W A) (f : A → M W B) :
  tells F c G → (∀ a log, G a log → F log) → (∀ a, loud (G a) (f a)) → loud F (c ≫= f).
Proof.
  intros Hc HG Hf. eapply hoare_bind; [exact Hc|]. intros a. eapply hoare_mono; [apply Hf|done|..]; intros ? w [H1 H2];
    (split; [done|by eapply HG]).
Qed.
Lemma tells_hearing {A} F (G : A → list E → Prop) (c : M X A) e :
  (∀ a log, F log → may log (e a)) → (∀ a log, F log → G a (log ++ [e a])) → tells F (hearing e c) G.
Proof.
  intros He HG [l x] [H1 H2]. unfold hearing. cbn [fst snd] in *. destruct (c x) as [[a|ex] x']; [|done].
  split; cbn; [by constructor; auto|by apply HG].
Qed.
Lemma tells_exchanging {A} F (G : A → list E → Prop) (c : M X A) e f :
  kept F → (∀ log, F log → may log e) → (∀ a log, F log → may log (f a)) → (∀ a log, F log → G a (log ++ [f a])) →
  tells F (exchanging e f c) G.
Proof.
  intros Hk He Hf HG [l x] [H1 H2]. unfold exchanging. cbn [fst snd] in *.
  assert (spoken (l ++ [e]) ∧ F (l ++ [e])) as [H3 H4] by (split; [by constructor; auto|by apply Hk]).
  destruct (c x) as [[a|ex] x']; [|done]. split; cbn; [by constructor; auto|by apply HG].
Qed.
Lemma tells_catch {A} F (G : A → list E → Prop) (c : M W A) h :
  tells F c G → (∀ e k, h e = Some k → tells F k G) → tells F (catch c h) G.
Proof.
  intros Hc Hh. eapply (hoare_catch _ _ _ _ _ (λ _, with_log F)); [exact Hc|]. intros e.
  destruct (h e) as [k|] eqn:Ek; [by apply (Hh e)|]. intros w Hw. exact Hw.
Qed.
End Spoken.
#[export] Hint Constructors spoken : core.
