(* ===== verification/OperatorAdmission.v ===== *)
(** * Admission by an operator

    [admit_operator_device] of [app/control_plane/service.py]: approve through
    Hub, then mount and assign through the Kernel, resuming forward under child
    identities of one request.  The workflow is cut where the source awaits. *)

From S2P Require Import Prelude Conversation Encoding Json Lifecycle RemovalIntents RemovalWorkflow Admission.

(** What is read of the SDK's body endpoint. *)
Record BodyAssignment := mkAssignment { ba_companion_id : option string; ba_revision : Z }.
Record KernelBodyEndpoint := mkEndpoint { be_device_id : string; be_assignment : option BodyAssignment }.
(** [assignment_revision_of] *)
Definition assignment_revision_of (e : KernelBodyEndpoint) : Z :=
  match e.(be_assignment) with None => 0 | Some a => a.(ba_revision) end.

Record OperatorDeviceAdmissionRequest := mkOperatorRequest {
  or_request_id : string; or_owner_id : string; or_device_id : string; or_companion_id : option string;
  or_expected_mount_revision : Z; or_replace_existing_mount : bool }.

Record OperatorDeviceAdmissionResult := mkOperatorResult {
  oa_request_id : string; oa_outcome : string; oa_completed_stage : string; oa_recovery : string;
  oa_steps : list WorkflowStep; oa_mount : option Mount }.

(** What is asked beside [AdmissionHub] and [KernelMounts]. *)
Class OperatorAuthorities (F X : Type) := {
  hub_list_authorized_enrollments : list string → string → M X (list (EnrollmentRecovery F));
  kernel_mount : string → string → string → Z → bool → M X (Mount * bool);
  kernel_list_body_endpoints : string → M X (list KernelBodyEndpoint);
  (** owner, device, Companion, request, expected revision, origin, reason *)
  kernel_replace_assignment :
    string → string → option string → string → Z → string → option string → M X KernelBodyEndpoint }.

(** [_OPERATOR_ENROLLMENT_STATES] *)
Definition OPERATOR_ENROLLMENT_STATES : list string :=
  ["pending_review"; "approved_awaiting_handoff"; "grant_delivered"; "grant_acknowledged"; "rejected"; "expired";
   "canceled"; "claim_revoked"].

(** [_operator_child_request_id] *)
Definition operator_child_request_id (request_id step : string) : string :=
  "admin:" +:+ request_id +:+ ":" +:+ step.

Definition live_state (s : EnrollmentProposalState) : bool :=
  match s with TERMINAL _ => false | _ => true end.

Section Operator.
Context {F R X : Type} `{!DecisionResult R} `{!AdmissionHub F R X} `{!KernelMounts X} `{!OperatorAuthorities F X}.

Definition list_owner_body_endpoints (owner : string) : M X (list KernelBodyEndpoint) := kernel_list_body_endpoints owner.

(** [_owner_body_endpoint] *)
Definition owner_body_endpoint (owner device : string) : M X (option KernelBodyEndpoint) :=
  endpoints ← kernel_list_body_endpoints owner;
  mret (next_or_none (λ e, bool_decide (e.(be_device_id) = device)) endpoints).

(** The one live Enrollment of the device. *)
Definition live_enrollment (payload : OperatorDeviceAdmissionRequest) (hub_authorization : string)
    : M X (EnrollmentRecovery F) :=
  page ← hub_list_authorized_enrollments OPERATOR_ENROLLMENT_STATES hub_authorization;
  let matches := List.filter
    (λ r, bool_decide (r.(proposal).(p_device_instance_candidate_id) = payload.(or_device_id))) page in
  guard_py (bool_decide (matches = []))
    (refuse "hub" "not_found" "Hub has no Enrollment for this device" 404 false) ;;
  match List.filter (λ r : EnrollmentRecovery F, live_state r.(proposal).(p_state)) matches with
  | [recovery] => mret recovery
  | _ => raise (hub_conflict "Hub Enrollment is terminal or ambiguous for this device")
  end.
Context `{!EqDecision F}.

(** Approves a Proposal under review; the projection read afterwards, and how
    the step is reported. *)
Definition approve_enrollment (payload : OperatorDeviceAdmissionRequest) (hub_authorization : string)
    (recovery : EnrollmentRecovery F) : M X (EnrollmentRecovery F * string) :=
  let p := recovery.(proposal) in
  if bool_decide (p.(p_state) = PENDING_REVIEW) then
    hub_decide_enrollment
      (mkDecide p.(p_enrollment_id) p.(p_proposal_revision) "approve" p.(p_requested_owner_domain_id)
         payload.(or_owner_id) None p.(p_manifest_ref) None [])
      (operator_child_request_id payload.(or_request_id) "hub-approve") payload.(or_request_id) hub_authorization ;;
    recovery ← hub_get_enrollment_recovery p.(p_enrollment_id) hub_authorization;
    mret (recovery, "committed")
  else mret (recovery, "replayed").

Definition approved_for (owner : string) (recovery : EnrollmentRecovery F) : bool :=
  match recovery.(approval_decision) with
  | Some d => bool_decide (d.(a_command).(d_decision) = "approve") &&
              bool_decide (d.(a_command).(d_target_business_owner_id) = owner)
  | None => false
  end.

Definition mount_id (payload : OperatorDeviceAdmissionRequest) : string :=
  operator_child_request_id payload.(or_request_id) "kernel-mount".
Definition assign_id (payload : OperatorDeviceAdmissionRequest) : string :=
  operator_child_request_id payload.(or_request_id) "kernel-assign".

(** The [except] around the mount: Hub has approved and the Kernel has not. *)
Definition mount_failed (payload : OperatorDeviceAdmissionRequest) (steps : list WorkflowStep)
    (exc : authority_failure) : result OperatorDeviceAdmissionResult :=
  let retry := exc.(af_retryable) || bool_decide (exc.(af_kind) ∈ ["not_found"; "unavailable"; "upstream_failure"]) in
  failure ← to_wire (if bool_decide (exc.(af_kind) = "not_found") then
    mkAuthorityFailure "kernel" "unavailable"
      "Hub has approved the Enrollment; waiting for the device to acknowledge its Claim" 503
      exc.(af_upstream_status) true None
    else exc);
  Ok (mkOperatorResult payload.(or_request_id) (if retry then "retry_required" else "blocked") "hub_approved"
        (if retry then "retry-forward-same-request-id" else "operator-action-required")
        (steps ++ [mkStep "kernel_mount" "failed" (Some (mount_id payload)) None (Some failure);
                   mkStep "body_assignment"
                     (if payload.(or_companion_id) is Some _ then "not_attempted" else "not_requested")
                     (if payload.(or_companion_id) is Some _ then Some (assign_id payload) else None) None None])
        None).

(** Mounts the device unless it is; the mount and its step, or the result to
    stop with. *)
Definition mount_device (payload : OperatorDeviceAdmissionRequest) (steps : list WorkflowStep)
    : M X (Mount * WorkflowStep + OperatorDeviceAdmissionResult) :=
  mounted ← owner_mount payload.(or_owner_id) payload.(or_device_id) false;
  match mounted with
  | Some ({| mount_active := true |} as m) =>
      mret (inl (m, mkStep "kernel_mount" "replayed" None (Some m.(mount_revision)) None))
  | _ =>
      catch
        ('(m, replayed) ← kernel_mount payload.(or_owner_id) payload.(or_device_id) (mount_id payload)
                            payload.(or_expected_mount_revision) payload.(or_replace_existing_mount);
         mret (inl (m, mkStep "kernel_mount" (if (replayed : bool) then "replayed" else "committed")
                         (Some (mount_id payload)) (Some m.(mount_revision)) None)))
        (λ e, match e with
              | AuthorityFailure f => Some (x ← lift (mount_failed payload steps f); mret (inr x))
              | _ => None
              end)
  end.

(** Points the mounted Body at the Companion. *)
Definition assign_device (payload : OperatorDeviceAdmissionRequest) (companion : string) (mounted : Mount)
    (steps : list WorkflowStep) : M X OperatorDeviceAdmissionResult :=
  endpoint ← owner_body_endpoint payload.(or_owner_id) payload.(or_device_id);
  let revision := match endpoint with None => 0%Z | Some e => assignment_revision_of e end in
  catch
    (assigned ← kernel_replace_assignment payload.(or_owner_id) payload.(or_device_id) (Some companion)
                  (assign_id payload) revision "owner" None;
     mret (mkOperatorResult payload.(or_request_id) "completed" "body_assigned" "none"
       (steps ++ [mkStep "body_assignment" "committed" (Some (assign_id payload))
                    (Some (assignment_revision_of assigned)) None]) (Some mounted)))
    (λ e, match e with
          | AuthorityFailure exc => Some
              (failure ← lift (to_wire exc);
               mret (mkOperatorResult payload.(or_request_id)
                 (if exc.(af_retryable) then "retry_required" else "blocked") "kernel_mounted"
                 (if exc.(af_retryable) then "retry-forward-same-request-id" else "operator-action-required")
                 (steps ++ [mkStep "body_assignment" "failed" (Some (assign_id payload))
                              (Some mounted.(mount_revision)) (Some failure)]) (Some mounted)))
          | _ => None
          end).

Definition admit_operator_device (payload : OperatorDeviceAdmissionRequest) (hub_authorization : string)
    : M X OperatorDeviceAdmissionResult :=
  recovery ← live_enrollment payload hub_authorization;
  '(recovery, hub_step) ← approve_enrollment payload hub_authorization recovery;
  guard_py (negb (approved_for payload.(or_owner_id) recovery))
    (hub_conflict "Hub Enrollment was not approved for this Owner") ;;
  let steps := [mkStep "hub_approval" hub_step
                  (Some (operator_child_request_id payload.(or_request_id) "hub-approve")) None None] in
  mounted ← mount_device payload steps;
  match mounted with
  | inr result => mret result
  | inl (mounted, step) =>
      match payload.(or_companion_id) with
      | None =>
          mret (mkOperatorResult payload.(or_request_id) "completed" "kernel_mounted" "none"
                  (steps ++ [step; mkStep "body_assignment" "not_requested" None None None]) (Some mounted))
      | Some companion => assign_device payload companion mounted (steps ++ [step])
      end
  end.

(** [set_device_companion] and [release_device]: the same replacement, under the
    act it is part of. *)
Definition set_device_companion (owner device : string) (companion : option string) (request_id : string)
    (revision : Z) (origin : string) (change_reason : option string) : M X KernelBodyEndpoint :=
  kernel_replace_assignment owner device companion request_id revision origin change_reason.
Definition release_device (owner device request_id : string) (revision : Z) (change_reason : string) : M X unit :=
  kernel_replace_assignment owner device None request_id revision "companion-lifecycle" (Some change_reason) ;; mret tt.
End Operator.

(** ** The conversation with Hub and the Kernel *)

Inductive operator_event (F : Type) :=
| Listed (page : list (EnrollmentRecovery F))
| Approving (d : DecideEnrollment F) (command : string)
| Saw (r : EnrollmentRecovery F)
| Mounts (page : list Mount)
| Mounting (owner device request : string)
| Assigning (owner device : string) (companion : option string) (request origin : string).
Arguments Listed {F}.
Arguments Approving {F}.
Arguments Saw {F}.
Arguments Mounts {F}.
Arguments Mounting {F}.
Arguments Assigning {F}.

Section Proofs.
Context {F R X : Type} `{!EqDecision F} `{!DecisionResult R}.
Context (hub : AdmissionHub F R X) (mounts : KernelMounts X) (others : OperatorAuthorities F X).
Abbreviation log := (list (operator_event F)).
Abbreviation S := (log * X)%type.

#[local] Instance logged_hub : AdmissionHub F R S :=
  {| hub_get_enrollment_recovery := λ e a, hearing Saw (hub_get_enrollment_recovery e a);
     hub_decide_enrollment := λ d c k a, asking (Approving d c) (hub_decide_enrollment d c k a);
     decision_clock := quiet decision_clock |}.
#[local] Instance logged_mounts : KernelMounts S := {| kernel_list_mounts := λ o, hearing Mounts (kernel_list_mounts o) |}.
#[local] Instance logged_others : OperatorAuthorities F S :=
  {| hub_list_authorized_enrollments := λ st a, hearing Listed (hub_list_authorized_enrollments st a);
     kernel_mount := λ o d r e b, asking (Mounting o d r) (kernel_mount o d r e b);
     kernel_list_body_endpoints := λ o, quiet (kernel_list_body_endpoints o);
     kernel_replace_assignment := λ o d c r e g w, asking (Assigning o d c r g) (kernel_replace_assignment o d c r e g w) |}.

Context (payload : OperatorDeviceAdmissionRequest) (authorization : string).

Definition about_device (r : EnrollmentRecovery F) : Prop :=
  r.(proposal).(p_device_instance_candidate_id) = payload.(or_device_id) ∧ live_state r.(proposal).(p_state) = true.
(** What is submitted for a Proposal under review. *)
Definition approval_of (r : EnrollmentRecovery F) : operator_event F :=
  Approving (mkDecide r.(proposal).(p_enrollment_id) r.(proposal).(p_proposal_revision) "approve"
    r.(proposal).(p_requested_owner_domain_id) payload.(or_owner_id) None r.(proposal).(p_manifest_ref) None [])
    (operator_child_request_id payload.(or_request_id) "hub-approve").
Definition mounting : operator_event F := Mounting payload.(or_owner_id) payload.(or_device_id) (mount_id payload).
Definition assigning (companion : string) : operator_event F :=
  Assigning payload.(or_owner_id) payload.(or_device_id) (Some companion) (assign_id payload) "owner".

(** Hub holds a Decision to approve, for this Owner. *)
Definition approves (r : EnrollmentRecovery F) : Prop := ∃ d, r.(approval_decision) = Some d ∧
  d.(a_command).(d_decision) = "approve" ∧ d.(a_command).(d_target_business_owner_id) = payload.(or_owner_id).
Lemma approved_for_spec r : approved_for payload.(or_owner_id) r = true → approves r.
Proof.
  unfold approved_for, approves. destruct (approval_decision r) as [d|]; [|done].
  rewrite andb_true_iff, !bool_decide_eq_true. intros [H1 H2]. by exists d.
Qed.

(** The conversation up to a projection that approves the device for the Owner. *)
Definition approved_by (ev : log) : Prop := ∃ page r,
  r ∈ page ∧ about_device r ∧
  ((r.(proposal).(p_state) ≠ PENDING_REVIEW ∧ approves r ∧ ev = [Listed page]) ∨
   (∃ r', r.(proposal).(p_state) = PENDING_REVIEW ∧ approves r' ∧
      ev = [Listed page; approval_of r; Saw r'])).
(** The conversation of an attempt that was stopped before. *)
Definition unapproved (ev : log) : Prop := ev = [] ∨ ∃ page, ev = [Listed page] ∨
  ∃ r, r ∈ page ∧ about_device r ∧ r.(proposal).(p_state) = PENDING_REVIEW ∧
    (ev = [Listed page; approval_of r] ∨ ∃ r', ev = [Listed page; approval_of r; Saw r']).

(** The conversation with the Kernel: it lists the device as mounted, or is
    asked to mount it. *)
Definition asked_to_mount (mounted : log) : Prop := ∃ page, mounted = [Mounts page; mounting].
Definition at_kernel (mounted : log) : Prop :=
  asked_to_mount mounted ∨ ∃ page m, mounted = [Mounts page] ∧ m ∈ page ∧
    m.(mount_device_id) = payload.(or_device_id) ∧ m.(mount_active) = true.

(** What follows an approval, by the result. *)
Definition concluded (r : OperatorDeviceAdmissionResult) (ev : log) : Prop := ∃ before mounted,
  approved_by before ∧ at_kernel mounted ∧
  ((r.(oa_completed_stage) = "hub_approved" ∧ r.(oa_outcome) ≠ "completed" ∧ asked_to_mount mounted ∧
      ev = before ++ mounted) ∨
   (r.(oa_completed_stage) = "kernel_mounted" ∧ r.(oa_outcome) = "completed" ∧ payload.(or_companion_id) = None ∧
      is_Some r.(oa_mount) ∧ ev = before ++ mounted) ∨
   (∃ companion, payload.(or_companion_id) = Some companion ∧ is_Some r.(oa_mount) ∧
      ev = before ++ mounted ++ [assigning companion] ∧
      ((r.(oa_completed_stage) = "body_assigned" ∧ r.(oa_outcome) = "completed") ∨
       (r.(oa_completed_stage) = "kernel_mounted" ∧ r.(oa_outcome) ≠ "completed")))).
(** What an attempt that raised may have said. *)
Definition broken_off (ev : log) : Prop := unapproved ev ∨ ∃ before mounted assigned,
  approved_by before ∧ (at_kernel mounted ∨ assigned = [] ∧ (mounted = [] ∨ ∃ page, mounted = [Mounts page])) ∧
  (assigned = [] ∨ ∃ companion, payload.(or_companion_id) = Some companion ∧ assigned = [assigning companion]) ∧
  ev = before ++ mounted ++ assigned.

Abbreviation broken := (λ (_ : exn) (s : S), broken_off s.1).

Lemma unapproved_broken ev : unapproved ev → broken_off ev.
Proof. by left. Qed.
Lemma approved_broken ev mounted :
  approved_by ev → at_kernel mounted ∨ mounted = [] ∨ (∃ page, mounted = [Mounts page]) → broken_off (ev ++ mounted).
Proof.
  intros H Hm. right. exists ev, mounted, []. split_and!; [done| |by left|by rewrite app_nil_r].
  destruct Hm; [by left|by right].
Qed.

Lemma hoare_live :
  hoare (λ s : S, s.1 = []) (live_enrollment payload authorization)
    (λ r s, ∃ page, s.1 = [Listed page] ∧ r ∈ page ∧ about_device r) broken.
Proof.
  unfold live_enrollment. eapply hoare_bind.
  { eapply hoare_mono; [apply (hoare_answer Listed _ [])|done|by intros a s Hs; exact Hs|].
    intros e s Hs. apply unapproved_broken. by left. }
  intros page. assert (∀ s : S, s.1 = [Listed page] → broken_off s.1) as Hb.
  { intros s Hs. apply unapproved_broken. right. exists page. by left. }
  apply (hoare_bind _ _ (λ _ s, s.1 = [Listed page])); [by apply hoare_guard; auto|]. intros [].
  case_match eqn:E; [by intros s Hs; apply Hb|]. case_match; [|by intros s Hs; apply Hb].
  intros s Hs. exists page. split; [done|].
  assert (e ∈ List.filter (λ r : EnrollmentRecovery F, live_state r.(proposal).(p_state))
    (List.filter (λ r, bool_decide (r.(proposal).(p_device_instance_candidate_id) = payload.(or_device_id))) page)) as Hin
    by (rewrite E; left).
  rewrite !list_elem_of_In, !filter_In, bool_decide_eq_true, <- list_elem_of_In in Hin.
  unfold about_device. tauto.
Qed.

Lemma hoare_approve r page :
  r ∈ page → about_device r →
  hoare (λ s : S, s.1 = [Listed page])
    ('(recovery, step) ← approve_enrollment payload authorization r;
     guard_py (negb (approved_for payload.(or_owner_id) recovery))
       (hub_conflict "Hub Enrollment was not approved for this Owner") ;;
     mret (recovery, step))
    (λ _ s, approved_by s.1) broken.
Proof.
  intros Hr Hd. unfold approve_enrollment. case_bool_decide as Hp.
  - assert (∀ ev, ev = [Listed page; approval_of r] ∨ (∃ r', ev = [Listed page; approval_of r; Saw r']) → broken_off ev) as Hb.
    { intros ev H. apply unapproved_broken. right. exists page. right. by exists r. }
    apply (hoare_bind _ _ (λ a s, s.1 = [Listed page; approval_of r; Saw a.1])).
    + apply (hoare_bind _ _ (λ _ s, s.1 = [Listed page; approval_of r])).
      { eapply hoare_mono; [apply (hoare_noted (approval_of r) _ [Listed page])|done|done|].
        intros e s Hs. apply Hb. by left. }
      intros x. apply (hoare_bind _ _ (λ a s, s.1 = [Listed page; approval_of r; Saw a])); [|by intros a s Hs].
      eapply hoare_mono; [apply (hoare_answer Saw _ [Listed page; approval_of r])|done|done|].
      intros e s Hs. apply Hb. by left.
    + intros [r' step]. apply (hoare_bind _ _ (λ _ s, s.1 = [Listed page; approval_of r; Saw r'] ∧ approves r')).
      * apply hoare_guard; [intros s _ Hs; apply Hb; eauto|]. intros s Ha%negb_false_iff Hs. split; [done|]. by apply approved_for_spec.
      * intros [] s [Hs Ha]. exists page, r. split_and!; [done|done|]. right. by exists r'.
  - apply (hoare_bind _ _ (λ a s, s.1 = [Listed page] ∧ a.1 = r)); [by intros s Hs|]. intros [r' step].
    apply (hoare_bind _ _ (λ _ s, s.1 = [Listed page] ∧ r' = r ∧ approves r')).
    + apply hoare_guard; [|intros s Ha%negb_false_iff [Hs Hr']; cbn in Hr'; split_and!; [done|done|by apply approved_for_spec]]. intros s _ [Hs _]. apply unapproved_broken. right. exists page. by left.
    + intros [] s (Hs & -> & Ha). exists page, r. split_and!; [done|done|]. by left.
Qed.

Lemma mount_failed_spec steps exc x :
  mount_failed payload steps exc = Ok x → x.(oa_completed_stage) = "hub_approved" ∧ x.(oa_outcome) ≠ "completed".
Proof.
  unfold mount_failed. destruct (to_wire _) as [f|e]; cbn; [|done]. intros [= <-]. cbn.
  split; [done|]. by destruct (_ || _).
Qed.

(** Mounted, or stopped at the Kernel. *)
Abbreviation mounted_or_stopped before := (λ (m : Mount * WorkflowStep + OperatorDeviceAdmissionResult) (s : S),
  match m with
  | inl _ => ∃ mounted, at_kernel mounted ∧ s.1 = before ++ mounted
  | inr r => concluded r s.1
  end).
Lemma hoare_listing before :
  approved_by before →
  hoare (λ s : S, s.1 = before) (owner_mount payload.(or_owner_id) payload.(or_device_id) false)
    (λ o s, ∃ page, s.1 = before ++ [Mounts page] ∧
       ∀ m, o = Some m → m ∈ page ∧ m.(mount_device_id) = payload.(or_device_id)) broken.
Proof.
  intros Ha. unfold owner_mount. apply (hoare_bind _ _ (λ page s, s.1 = before ++ [Mounts page])).
  - eapply hoare_mono; [apply (hoare_answer Mounts _ before)|done|done|]. intros e s Hs. rewrite Hs, <- (app_nil_r before).
    apply approved_broken; auto.
  - intros page s Hs. exists page. split; [done|]. intros m [Hm Hp]%next_or_none_Some.
    apply andb_true_iff in Hp as [Hp%bool_decide_eq_true _]. done.
Qed.

Lemma hoare_asked steps before page :
  approved_by before →
  hoare (λ s : S, s.1 = before ++ [Mounts page])
    (catch
      ('(m, replayed) ← kernel_mount payload.(or_owner_id) payload.(or_device_id) (mount_id payload)
                            payload.(or_expected_mount_revision) payload.(or_replace_existing_mount);
       mret (inl (m, mkStep "kernel_mount" (if (replayed : bool) then "replayed" else "committed")
                         (Some (mount_id payload)) (Some m.(mount_revision)) None)))
      (λ e, match e with
            | AuthorityFailure f => Some (x ← lift (mount_failed payload steps f); mret (inr x))
            | _ => None
            end))
    (mounted_or_stopped before) broken.
Proof.
  intros Ha. assert (at_kernel [Mounts page; mounting]) as Hk by (left; by exists page).
  apply (hoare_catch _ _ _ _ _ (λ _ s, s.1 = before ++ [Mounts page; mounting])).
  - apply (hoare_bind _ _ (λ _ s, s.1 = before ++ [Mounts page; mounting])).
    { eapply hoare_mono; [apply (hoare_noted mounting _ (before ++ [Mounts page]))|done| |];
        intros ? s Hs; cbn in *; by rewrite Hs, <- app_assoc. }
    intros [m replayed] s Hs. by exists [Mounts page; mounting].
  - assert (∀ s : S, s.1 = before ++ [Mounts page; mounting] → broken_off s.1) as Hb
      by (intros s ->; apply approved_broken; auto).
    intros e. destruct e; cbn; try exact Hb.
    intros s Hs. destruct (mount_failed _ _ _) as [r|ex] eqn:E; [|by apply Hb].
    apply mount_failed_spec in E as [E1 E2]. exists before, [Mounts page; mounting]. split_and!; [done|done|].
    left. split_and!; [done|done|by exists page|done].
Qed.

Lemma hoare_mount steps before :
  approved_by before →
  hoare (λ s : S, s.1 = before) (mount_device payload steps) (mounted_or_stopped before) broken.
Proof.
  intros Ha. unfold mount_device. eapply hoare_bind; [by apply hoare_listing|].
  intros mounted s (page & Hs & Hm). pose proof (hoare_asked steps before page Ha s Hs) as Hasked.
  destruct mounted as [[d [] v]|]; [|exact Hasked..]. exists [Mounts page]. split; [|done]. right.
  destruct (Hm _ eq_refl) as [Hin Hd]. by exists page, (mkMount d true v).
Qed.

Lemma hoare_assign companion m steps before mounted :
  approved_by before → at_kernel mounted → payload.(or_companion_id) = Some companion →
  hoare (λ s : S, s.1 = before ++ mounted) (assign_device payload companion m steps) (λ r s, concluded r s.1) broken.
Proof.
  intros Ha Hm Hc. unfold assign_device. apply (hoare_bind _ _ (λ _ s, s.1 = before ++ mounted)).
  { unfold owner_body_endpoint. apply (hoare_bind _ _ (λ _ s, s.1 = before ++ mounted)); [|by intros a s Hs].
    eapply hoare_mono; [apply (hoare_unseen _ (before ++ mounted))|done|done|]. intros e s Hs. rewrite Hs. apply approved_broken; auto. }
  intros endpoint.
  assert (∀ s : S, s.1 = (before ++ mounted) ++ [assigning companion] → broken_off s.1) as Hb.
  { intros s ->. right. exists before, mounted, [assigning companion]. rewrite <- app_assoc. split_and!; [done|by left| |done].
    right. by exists companion. }
  apply (hoare_catch _ _ _ _ _ (λ _ s, s.1 = (before ++ mounted) ++ [assigning companion])).
  - apply (hoare_bind _ _ (λ _ s, s.1 = (before ++ mounted) ++ [assigning companion])); [apply hoare_noted|].
    intros e s Hs. exists before, mounted. split_and!; [done|done|]. right; right. exists companion.
    rewrite Hs, <- app_assoc. cbn. split_and!; [done|by eexists|done|by left].
  - intros e. destruct e; cbn; try exact Hb. intros s Hs. unfold lift.
    destruct (to_wire _) as [w|ex]; [|by apply Hb]. exists before, mounted. split_and!; [done|done|].
    right; right. exists companion. cbn. rewrite Hs, <- app_assoc. split_and!; [done|by eexists|done|]. right.
    by destruct (af_retryable f).
Qed.

Lemma hoare_admit :
  hoare (λ s : S, s.1 = []) (admit_operator_device payload authorization) (λ r s, concluded r s.1) broken.
Proof.
  unfold admit_operator_device. eapply hoare_bind; [apply hoare_live|]. intros r [ev x] (page & Hev & Hr & Hd).
  cbn in Hev. subst ev. pose proof (hoare_approve r page Hr Hd ([Listed page], x) eq_refl) as Ha. revert Ha.
  unfold mbind, M_bind. destruct (approve_enrollment _ _ _ _) as [[[r' hub_step]|e] s]; [|done].
  unfold guard_py. destruct (negb _); [done|]. cbn [mret M_ret]. intros Ha. set (steps := [_]).
  pose proof (hoare_mount steps s.1 Ha s eq_refl) as Hm. destruct (mount_device _ _ _) as [[[[m step]|res]|e] s']; [|done..].
  destruct Hm as (mounted & Hm & Hs'). destruct (or_companion_id payload) as [companion|] eqn:Hc.
  - by apply (hoare_assign companion m (steps ++ [step]) s.1 mounted).
  - exists s.1, mounted. split_and!; [done|done|]. right; left. split_and!; [done|done|done|by eexists|done].
Qed.
End Proofs.

(** ** Properties *)

(** C22: an operator's admission follows Hub.  With a Hub and a Kernel that
    answer or fail in any way, an attempt lists the Enrollments, submits at
    most one approval, of a Proposal under review for the device and for the
    request's Owner, and asks the Kernel to mount at most once and to assign at
    most once, each for the request's Owner and device and under the child
    identity of its step, and only after Hub showed an approval for that Owner.
    Without that request to mount, the Kernel listed the device as mounted.  A
    result is "completed" exactly when everything requested was confirmed: with
    a Companion, after the assignment. *)
Theorem operator_admission_sound {F R X} `{!EqDecision F} `{!DecisionResult R} (hub : AdmissionHub F R X)
    (mounts : KernelMounts X) (others : OperatorAuthorities F X) payload authorization (x : X) :
  match admit_operator_device (AdmissionHub0 := logged_hub hub) (KernelMounts0 := logged_mounts mounts)
          (OperatorAuthorities0 := logged_others others) payload authorization ([], x) with
  | (Ok r, (ev, _)) => concluded payload r ev
  | (Raise _, (ev, _)) => broken_off payload ev
  end.
Proof.
  pose proof (hoare_admit hub mounts others payload authorization ([], x) eq_refl) as H.
  destruct (admit_operator_device _ _ _) as [[r|e] [ev x']]; exact H.
Qed.

Lemma length_append s t : String.length (s +:+ t) = String.length s + String.length t.
Proof. induction s as [|c s IH]; [done|]. exact (f_equal S IH). Qed.

Definition OPERATOR_STEPS : list string := ["hub-approve"; "kernel-mount"; "kernel-assign"].

(** A step of an admission has one identity.  The child identities of two
    steps coincide only for the same step of the same request, so a retry
    replays what it started and never another request's step; a request
    identity of at most 64 characters gives one the Kernel accepts, of at most
    96. *)
Theorem child_identities r r' s s' :
  s ∈ OPERATOR_STEPS → s' ∈ OPERATOR_STEPS →
  (operator_child_request_id r s = operator_child_request_id r' s' → r = r' ∧ s = s') ∧
  (String.length r ≤ 64 → String.length (operator_child_request_id r s) ≤ 96).
Proof.
  intros Hs Hs'. unfold operator_child_request_id. split.
  - intros E%(f_equal list_ascii_of_string). rewrite !list_ascii_app in E. apply app_inv_head in E.
    assert (s = s') as <-.
    { apply (f_equal last) in E. rewrite !last_app in E. unfold OPERATOR_STEPS in *.
      repeat (apply elem_of_cons in Hs as [->|Hs]); try (by apply not_elem_of_nil in Hs);
      repeat (apply elem_of_cons in Hs' as [->|Hs']); try (by apply not_elem_of_nil in Hs'); done. }
    apply app_inv_tail in E. apply (f_equal string_of_list_ascii) in E. by rewrite !string_of_list_ascii_of_string in E.
  - intros Hl. rewrite !length_append. unfold OPERATOR_STEPS in *.
    repeat (apply elem_of_cons in Hs as [->|Hs]); try (by apply not_elem_of_nil in Hs); cbn; lia.
Qed.

Lemma child_identities_witness :
  operator_child_request_id "a:kernel-mount" "kernel-assign" ≠ operator_child_request_id "a" "kernel-mount" ∧
  String.length (operator_child_request_id "r1" "kernel-mount") ≤ 96.
Proof.
  assert ("kernel-mount" ∈ OPERATOR_STEPS) as H1 by by right; left.
  assert ("kernel-assign" ∈ OPERATOR_STEPS) as H2 by by right; right; left.
  split; [by intros [? ?]%(child_identities _ _ _ _ H2 H1)|]. apply (child_identities "r1" "r1" _ _ H1 H1). cbn. lia.
Defined.
