(* ===== verification/Upstream.v ===== *)
(** * Asking another authority over HTTP

    What every client of [app/control_plane/clients.py] is built from: URLs and
    quoting, the request, the reading of a refusal and of an answer, and the
    System Directory of [app/control_plane/directory.py].  The HTTP library is
    what [send] does; pydantic is a validator that is given the model's name
    and answers the members of the validated value. *)

From S2P Require Import Prelude Encoding.

(** ** URLs *)

Definition is_unreserved (c : ascii) : bool :=
  let n := N_of_ascii c in
  is_digit c || ((65 <=? n) && (n <=? 90))%N || ((97 <=? n) && (n <=? 122))%N ||
  (n =? 95)%N || (n =? 46)%N || (n =? 45)%N || (n =? 126)%N.
Definition upper_hex (n : N) : ascii := if (n <? 10)%N then ascii_of_N (48 + n) else ascii_of_N (55 + n).
Definition quote_char (c : ascii) : list ascii :=
  if is_unreserved c then [c]
  else ["%"%char; upper_hex (N_of_ascii c / 16); upper_hex (N_of_ascii c mod 16)].
(** [urllib.parse.quote(value, safe="")] *)
Definition quote (value : string) : string :=
  string_of_list_ascii (list_ascii_of_string value ≫= quote_char).

(** [value.rstrip("/")] *)
Fixpoint drop_slashes (l : list ascii) : list ascii :=
  match l with c :: l' => if bool_decide (c = "/"%char) then drop_slashes l' else l | [] => [] end.
Definition rstrip_slash (s : string) : string :=
  string_of_list_ascii (rev (drop_slashes (rev (list_ascii_of_string s)))).

(** The part of [urlparse] the code reads: an address with the scheme "http" or
    "https" and a network location.  White space the parser drops is part of
    the address here, which then is not one. *)
Definition lower_char (c : ascii) : ascii :=
  let n := N_of_ascii c in if ((65 <=? n) && (n <=? 90))%N then ascii_of_N (n + 32) else c.
Definition starts_location (c : ascii) : bool :=
  negb (bool_decide (c = "/"%char) || bool_decide (c = "?"%char) || bool_decide (c = "#"%char)).
Definition after_scheme (scheme : string) (l : list ascii) : option (list ascii) :=
  let n := String.length scheme in
  if bool_decide (lower_char <$> take n l = list_ascii_of_string scheme) then Some (drop n l) else None.
Definition is_http_url (s : string) : bool :=
  let l := list_ascii_of_string s in
  match after_scheme "http://" l, after_scheme "https://" l with
  | Some (c :: _), _ | _, Some (c :: _) => starts_location c
  | _, _ => false
  end.

Example is_http_url_samples :
  is_http_url "HTTPS://hub:80/x" = true ∧ is_http_url "http:///x" = false ∧ is_http_url "unix:/run/x" = false.
Proof. by vm_compute. Qed.

(** ** Requests and responses *)

Record http_request := mkHttpRequest {
  hr_method : string; hr_url : string; hr_timeout : Z; hr_headers : list (string * string);
  hr_params : option (list (string * string)); hr_json : option doc; hr_content : option bytes;
  hr_replay_safe : bool }.
Record http_response := mkHttpResponse { status_code : Z; content : bytes }.

(** The client library, which raises its own exceptions. *)
Class Http (X : Type) := { send : http_request → M X http_response }.

Definition mk_get (timeout : Z) (headers : list (string * string)) (params : option (list (string * string)))
    (url : string) : http_request := mkHttpRequest "GET" url timeout headers params None None false.
Definition mk_json (method : string) (timeout : Z) (headers : list (string * string)) (body : doc) (url : string)
    : http_request := mkHttpRequest method url timeout headers None (Some body) None false.
Definition mk_plain (method : string) (timeout : Z) (headers : list (string * string))
    (params : option (list (string * string))) (url : string) : http_request :=
  mkHttpRequest method url timeout headers params None None false.
(** Headers of a bearer credential. *)
Definition bearer (token : string) : list (string * string) := [("Authorization", "Bearer " +:+ token)].

Definition contract_violation (authority detail : string) : exn :=
  refuse authority "contract_violation" detail 502 false.

Section Upstream.
Context {X : Type} `{!Http X}.
(** [response.json()], [str] of a JSON value that is not a string, and
    [model_validate_json]: the model's name, the bytes, its members. *)
Context (loads : bytes → result json) (py_str : json → string) (validate : string → bytes → result obj).

Definition json_truthy (v : json) : bool :=
  match v with
  | JNull | JBool false => false
  | JInt z => negb (z =? 0)%Z
  | JFloat m _ => negb (m =? 0)%Z
  | JStr s => negb (bool_decide (s = ""))
  | JList l => negb (bool_decide (length l = 0))
  | JObj kv => negb (bool_decide (length kv = 0))
  | JBool true | JNaN | JInfinity _ => true
  end.
Definition str_of (v : json) : string := match v with JStr s => s | _ => py_str v end.
Definition upstream_returned (status : Z) : string := "upstream returned HTTP " +:+ pretty status.

(** [_response_detail]: the sentence, and the code when there is one. *)
Definition response_detail (r : http_response) : string * option string :=
  let returned := upstream_returned r.(status_code) in
  match loads r.(content) with
  | Ok (JObj value) =>
      match obj_get "detail" value JNull with
      | JObj detail =>
          let code := obj_get "code" detail JNull in
          let message := obj_get "message" detail JNull in
          (str_take 500 (if json_truthy message then str_of message else returned),
           if json_truthy code then Some (str_take 64 (str_of code)) else None)
      | detail => (if json_truthy detail then str_take 500 (str_of detail) else returned, None)
      end
  | _ => (returned, None)
  end.

(** [_raise_status] *)
Definition raise_status (authority : string) (r : http_response) : exn :=
  let status := r.(status_code) in
  let '(detail, code) := response_detail r in
  let failure kind answer retryable :=
    AuthorityFailure (mkAuthorityFailure authority kind detail answer (Some status) retryable code) in
  if (status =? 401)%Z then failure "unauthorized" 401%Z false
  else if (status =? 403)%Z then failure "forbidden" 403%Z false
  else if (status =? 404)%Z then failure "not_found" 404%Z false
  else if (status =? 409)%Z || (status =? 412)%Z then failure "conflict" 409%Z false
  else if (status =? 400)%Z then failure "invalid_request" 422%Z false
  else if (status =? 422)%Z then failure "invalid_request" 422%Z false
  else if (500 <=? status)%Z then failure "upstream_failure" 502%Z true
  else failure "upstream_failure" 502%Z false.

Definition is_success (r : http_response) : bool := ((200 <=? r.(status_code)) && (r.(status_code) <? 300))%Z.

(** [_parse] *)
Definition parse (authority model : string) (r : http_response) : result obj :=
  if negb (is_success r) then Raise (raise_status authority r)
  else match validate model r.(content) with
       | Raise (ValueError _ | ValidationError _ | JSONDecodeError _) =>
           Raise (contract_violation authority (authority +:+ " response violated the consumed contract"))
       | v => v
       end.

(** [_request] *)
Definition request (authority : string) (r : http_request) : M X http_response :=
  catch (send r)
    (λ e, match e with
          | HttpxTransportError _ =>
              Some (raise (refuse authority "unavailable" (authority +:+ " authority is unreachable") 503 true))
          | _ => None
          end).

(** Ask, read, and check what the answer is about. *)
Definition ask (authority model : string) (r : http_request) (checks : list ((obj → bool) * string)) : M X obj :=
  response ← request authority r;
  v ← lift (parse authority model response);
  match next_or_none (λ c, negb (c.1 v)) checks with
  | Some (_, wrong) => raise (contract_violation authority wrong)
  | None => mret v
  end.

Definition field (k : string) (v : obj) : json := obj_get k v JNull.
Definition says (k s : string) (v : obj) : bool := json_eq_str (field k v) s.

(** ** [SystemDirectoryClient.resolve] *)

Context (base_url : string) (directory_timeout : Z).

Definition directory_failure (kind detail : string) (status : Z) (upstream : option Z) (retryable : bool) : exn :=
  AuthorityFailure (mkAuthorityFailure "directory" kind detail status upstream retryable None).
Definition directory_violation (detail : string) : exn := directory_failure "contract_violation" detail 502 None false.

(** The checks on the endpoint the directory answers with. *)
Definition check_endpoint (service_id endpoint_id required_contract : string) (e : obj) : result string :=
  if negb (says "service_id" service_id e) || negb (says "endpoint_id" endpoint_id e) then
    Raise (directory_violation "System Service Directory returned a different endpoint identity")
  else if negb (says "protocol" "http" e) then Raise (directory_violation "resolved endpoint is not HTTP")
  else
    let address := match field "address" e with JStr a => a | _ => "" end in
    if negb (is_http_url address) then
      Raise (directory_violation "resolved endpoint address is not a valid HTTP URL")
    else if negb (says "contract" required_contract e) then
      Raise (directory_violation ("endpoint contract mismatch for " +:+ service_id +:+ "/" +:+ endpoint_id))
    else Ok address.

Definition resolve (service_id endpoint_id required_contract : string) : M X string :=
  let url := rstrip_slash base_url +:+ "/api/system/v1/services/" +:+ quote service_id +:+ "/endpoints/" +:+ quote endpoint_id in
  response ← catch (send (mk_get directory_timeout [] None url))
    (λ e, match e with
          | HttpxTransportError _ =>
              Some (raise (directory_failure "unavailable" "System Service Directory is unreachable" 503 None true))
          | _ => None
          end);
  let status := response.(status_code) in
  if (status =? 404)%Z || (status =? 503)%Z then
    raise (directory_failure "unavailable" ("service endpoint is not ready: " +:+ service_id +:+ "/" +:+ endpoint_id)
             503 (Some status) true)
  else if negb (status =? 200)%Z then
    raise (directory_failure "upstream_failure" ("unexpected System Service Directory status " +:+ pretty status)
             502 (Some status) (500 <=? status)%Z)
  else
    match validate "ServiceEndpoint" response.(content) with
    | Raise (ValueError _ | ValidationError _ | JSONDecodeError _) =>
        raise (directory_violation "System Service Directory response violated the consumed contract")
    | Raise e => raise e
    | Ok e => lift (check_endpoint service_id endpoint_id required_contract e)
    end.
End Upstream.
