(* ===== verification/Clients.v ===== *)
(** * The clients of the authorities

    [app/control_plane/clients.py]: every call Admin makes of Data, Memory, the
    Agent, Hub and the Kernel.  A value the SDK dumps into a request is the
    document it dumps; an answer is the members of its validated model. *)

From S2P Require Import Prelude Encoding Json Lifecycle Upstream.

Definition DATA_CONTRACT : string := "https://eidolon.dev/data/contracts/v1/companion/identity.schema.json".
Definition DATA_RUNTIME_CONTRACT : string :=
  "https://eidolon.dev/data/contracts/v1/companion/runtime-snapshot.schema.json".
Definition DATA_WORKSPACE_CONTRACT : string :=
  "https://eidolon.live/contracts/system-data/workspace/onboarding-operation-v1.schema.json".
Definition HUB_CONTRACT : string := "eidolon.hub.device-directory.v1".
Definition KERNEL_CONTRACT : string := "eidolon.kernel.device-mount.v1".

(** Optional query parameters and members. *)
Definition given (k : string) (v : option string) : list (string * string) :=
  match v with Some s => [(k, s)] | None => [] end.
Definition given_nonempty (k : string) (v : option string) : list (string * string) :=
  match v with Some s => if bool_decide (s = "") then [] else [(k, s)] | None => [] end.
Definition given_doc (k : string) (v : option doc) : list (string * doc) :=
  match v with Some d => [(k, d)] | None => [] end.
(** [params or None] *)
Definition or_none (l : list (string * string)) : option (list (string * string)) :=
  match l with [] => None | _ => Some l end.

(** [WorkspaceInitializeRequest], its parts as they are dumped. *)
Record WorkspaceInitializeRequest := mkWorkspaceRequest {
  owner_display_name : string; companion_display_name : string; persona : option doc; preferences : option doc;
  source_preset_id : option string; source_preset_revision : option string }.
(** [exclude_none], at every level. *)
Fixpoint exclude_none (d : doc) : doc :=
  match d with
  | DList l => DList (exclude_none <$> l)
  | DObj kv =>
      DObj ((fix members kv := match kv with
             | [] => []
             | (_, DNull) :: kv' => members kv'
             | (k, v) :: kv' => (k, exclude_none v) :: members kv'
             end) kv)
  | d => d
  end.
(** [model_dump(mode="json")] without the optional parts that are absent. *)
Definition workspace_document (p : WorkspaceInitializeRequest) : list (string * doc) :=
  [("owner_display_name", DStr p.(owner_display_name)); ("companion_display_name", DStr p.(companion_display_name))] ++
  given_doc "persona" p.(persona) ++ given_doc "preferences" p.(preferences) ++
  given_doc "source_preset_id" (DStr <$> p.(source_preset_id)) ++
  given_doc "source_preset_revision" (DStr <$> p.(source_preset_revision)).
Definition workspace_request_fingerprint (sha256_hex : bytes → string) (p : WorkspaceInitializeRequest) : string :=
  "sha256:" +:+ sha256_hex (dumps false (DObj (workspace_document p))).

Section Clients.
Context {X : Type} `{!Http X}.
Context (loads : bytes → result json) (py_str : json → string) (validate : string → bytes → result obj).
Context (base_url : string) (directory_timeout timeout : Z).
Abbreviation ask := (Upstream.ask loads py_str validate).
Abbreviation resolve := (Upstream.resolve validate base_url directory_timeout).
Abbreviation parse := (Upstream.parse loads py_str validate).

Definition needs_credential (authority token detail : string) : M X unit :=
  guard_py (bool_decide (token = "")) (refuse authority "configuration" detail 503 false).

(** ** [DataAuthorityClient], with its stripped credential *)

Section Data.
Context (token : string).

Definition data_endpoint (endpoint_id contract : string) : M X string :=
  needs_credential "data" token "Admin Data authority credential is not configured" ;;
  address ← resolve "data" endpoint_id contract;
  mret (rstrip_slash address).
Definition companion_authority : M X string :=
  root ← data_endpoint "companion-authority.http" DATA_CONTRACT;
  mret (root +:+ "/api/companion-authority/v1").

Definition get_companion (companion_id : string) : M X obj :=
  api ← companion_authority;
  ask "data" "CompanionIdentity" (mk_get timeout (bearer token) None (api +:+ "/companions/" +:+ quote companion_id))
    [(says "companion_id" companion_id, "Data returned a different companion identity")].

Definition list_owner_companions (owner_id : string) (cursor : option string) (limit : option Z) : M X obj :=
  api ← companion_authority;
  ask "data" "CompanionRosterPage"
    (mk_get timeout (bearer token) (or_none (given "cursor" cursor ++ given "limit" (pretty <$> limit)))
       (api +:+ "/owners/" +:+ quote owner_id +:+ "/companions"))
    [(says "owner_id" owner_id, "Data returned a roster for a different Owner")].

Definition get_owner_companion (owner_id companion_id : string) : M X obj :=
  api ← companion_authority;
  ask "data" "CompanionIdentity"
    (mk_get timeout (bearer token) None
       (api +:+ "/owners/" +:+ quote owner_id +:+ "/companions/" +:+ quote companion_id))
    [((λ v, says "companion_id" companion_id v && says "owner_id" owner_id v),
      "Data returned a different Companion than was asked for")].

Definition rename_companion (companion_id display_name : string) : M X obj :=
  api ← companion_authority;
  ask "data" "CompanionIdentity"
    (mk_json "PATCH" timeout (bearer token) (DObj [("display_name", DStr display_name)])
       (api +:+ "/companions/" +:+ quote companion_id))
    [(says "companion_id" companion_id, "Data returned a different companion identity")].

(** [_companion_call], with the part of the path after the Companion. *)
Definition companion_call (method companion_id tail model : string) (json : option doc) : M X obj :=
  api ← companion_authority;
  ask "data" model
    (mkHttpRequest method (api +:+ "/companions/" +:+ quote companion_id +:+ "/" +:+ tail) timeout (bearer token)
       None json None false) [].
Definition get_persona_timeline (companion_id : string) : M X obj :=
  companion_call "GET" companion_id "persona-timeline" "PersonaTimeline" None.
Definition restore_persona (companion_id genome_id change_summary : string) : M X obj :=
  companion_call "POST" companion_id "persona-restorations" "PersonaChapter"
    (Some (DObj [("genome_id", DStr genome_id); ("change_summary", DStr change_summary)])).
Definition get_persona (companion_id : string) : M X obj :=
  companion_call "GET" companion_id "persona" "PersonaEditSnapshot" None.
Definition author_persona (companion_id : string) (persona : doc) : M X obj :=
  companion_call "PUT" companion_id "persona" "PersonaEditSnapshot" (Some persona).
Definition get_companion_face_state (companion_id : string) : M X obj :=
  companion_call "GET" companion_id "face-state" "CompanionFace" None.

(** [persona_authoring_template] and [persona_presets] *)
Definition companion_document (leaf model : string) : M X obj :=
  api ← companion_authority;
  ask "data" model (mk_get timeout (bearer token) None (api +:+ leaf)) [].
Definition persona_authoring_template : M X obj := companion_document "/persona-authoring-template" "PersonaAuthoring".
Definition persona_presets : M X obj := companion_document "/persona-presets" "PersonaPresetCatalog".

Definition face_request (method companion_id : string) (content : option bytes) (headers : list (string * string))
    : M X http_response :=
  api ← companion_authority;
  request "data"
    (mkHttpRequest method (api +:+ "/companions/" +:+ quote companion_id +:+ "/face") timeout
       (bearer token ++ headers) None None content false).
Definition get_companion_face (companion_id : string) : M X (option bytes) :=
  response ← face_request "GET" companion_id None [];
  let status := response.(status_code) in
  if (status =? 204)%Z then mret None
  else if (status =? 404)%Z then raise (refuse "data" "not_found" "companion not found" 404 false)
  else if negb (status =? 200)%Z then raise (contract_violation "data" "Data did not serve the Companion face")
  else mret (Some response.(content)).
Definition set_companion_face (companion_id : string) (face : bytes) : M X obj :=
  response ← face_request "PUT" companion_id (Some face) [("Content-Type", "image/jpeg")];
  let status := response.(status_code) in
  guard_py ((status =? 413) || (status =? 415) || (status =? 422))%Z
    (refuse "data" "rejected" "companion face was refused" status false) ;;
  lift (parse "data" "CompanionFace" response).
Definition clear_companion_face (companion_id : string) : M X obj :=
  response ← face_request "DELETE" companion_id None [];
  lift (parse "data" "CompanionFace" response).

Definition get_owner_default_runtime (owner_id : string) : M X obj :=
  root ← data_endpoint "companion-runtime-authority.http" DATA_RUNTIME_CONTRACT;
  ask "data" "CompanionRuntimeSnapshot"
    (mk_get timeout (bearer token) None
       (root +:+ "/api/companion-authority/v1/owners/" +:+ quote owner_id +:+ "/default-runtime-snapshot"))
    [(says "owner_id" owner_id, "Data returned a different Owner runtime snapshot")].
End Data.

(** ** [DataWorkspaceAuthorityClient] *)

Section Workspace.
Context (token : string).
Context (sha256_hex : bytes → string).

Definition workspace_authority : M X string :=
  needs_credential "data" token "Admin Data workspace authority credential is not configured" ;;
  address ← resolve "data-workspace" "workspace-authority.http" DATA_WORKSPACE_CONTRACT;
  mret (rstrip_slash address +:+ "/api/workspace-authority/v1").

Definition smarthome_registry (owner_id method resource : string) (payload : option doc)
    (expected_revision : option Z) : M X obj :=
  api ← workspace_authority;
  ask "data" "Registry"
    (mkHttpRequest method (api +:+ "/owners/" +:+ quote owner_id +:+ "/smarthome/" +:+ resource) timeout (bearer token)
       (match expected_revision with Some n => Some [("expected_revision", pretty n)] | None => None end)
       payload None false) [].

Definition same_operation_id (operation_id detail : string) : (obj → bool) * string :=
  (says "operation_id" operation_id, detail).
Definition initialize_workspace (operation_id : string) (payload : WorkspaceInitializeRequest) : M X obj :=
  api ← workspace_authority;
  ask "data" "WorkspaceOperation"
    (mk_json "PUT" timeout (bearer token) (exclude_none (DObj (workspace_document payload))) (api +:+ "/operations/" +:+ quote operation_id))
    [same_operation_id operation_id "Data returned a different workspace operation";
     (says "request_fingerprint" (workspace_request_fingerprint sha256_hex payload),
      "Data returned a workspace operation for different setup input")].
Definition get_workspace_operation (operation_id : string) : M X obj :=
  api ← workspace_authority;
  ask "data" "WorkspaceOperation" (mk_get timeout (bearer token) None (api +:+ "/operations/" +:+ quote operation_id))
    [same_operation_id operation_id "Data returned a different workspace operation"].

Definition owner_call (method owner_id : string) (json : option doc) : M X obj :=
  api ← workspace_authority;
  ask "data" "OwnerIdentity"
    (mkHttpRequest method (api +:+ "/owners/" +:+ quote owner_id) timeout (bearer token) None json None false)
    [(says "owner_id" owner_id, "Data returned a different Owner identity")].
Definition get_owner (owner_id : string) : M X obj := owner_call "GET" owner_id None.
Definition rename_owner (owner_id display_name : string) : M X obj :=
  owner_call "PATCH" owner_id (Some (DObj [("display_name", DStr display_name)])).

Definition provision_companion (owner_id operation_id companion_display_name kind : string)
    (persona preferences : option doc) (source_preset_id source_preset_revision : option string) : M X obj :=
  api ← workspace_authority;
  ask "data" "CompanionProvision"
    (mk_json "PUT" timeout (bearer token)
       (DObj ([("companion_display_name", DStr companion_display_name); ("kind", DStr kind)] ++
              given_doc "preferences" preferences ++
              match source_preset_id with
              | None => []
              | Some preset => [("source_preset_id", DStr preset); ("source_preset_revision", dopt source_preset_revision)]
              end ++ given_doc "persona" persona))
       (api +:+ "/owners/" +:+ quote owner_id +:+ "/companion-provisions/" +:+ quote operation_id))
    [same_operation_id operation_id "Data returned a different provision operation"].

Definition set_default_companion (owner_id companion_id : string) (expected_revision : Z) : M X obj :=
  api ← workspace_authority;
  ask "data" "OwnerIdentity"
    (mk_json "PUT" timeout (bearer token)
       (DObj [("companion_id", DStr companion_id); ("expected_revision", DInt expected_revision)])
       (api +:+ "/owners/" +:+ quote owner_id +:+ "/default-companion"))
    [(says "owner_id" owner_id, "Data returned a different Owner identity");
     (says "default_companion_id" companion_id, "Data accepted the default change without applying it")].

Definition list_governance_events (owner_id : string) (limit before : option Z) : M X obj :=
  api ← workspace_authority;
  ask "data" "OwnerGovernanceEvents"
    (mk_get timeout (bearer token) (or_none (given "limit" (pretty <$> limit) ++ given "before" (pretty <$> before)))
       (api +:+ "/owners/" +:+ quote owner_id +:+ "/governance-events"))
    [(says "owner_id" owner_id, "Data returned another Owner's governance events")].

Definition set_companion_lifecycle (owner_id companion_id lifecycle_state : string)
    (expected_revision : option Z) (replacement_companion_id : option string) : M X obj :=
  api ← workspace_authority;
  ask "data" "CompanionLifecycleResult"
    (mk_json "PUT" timeout (bearer token)
       (DObj ([("owner_id", DStr owner_id); ("lifecycle_state", DStr lifecycle_state)] ++
              given_doc "expected_revision" (DInt <$> expected_revision) ++
              given_doc "replacement_companion_id" (DStr <$> replacement_companion_id)))
       (api +:+ "/companions/" +:+ quote companion_id +:+ "/lifecycle"))
    [(says "companion_id" companion_id, "Data returned a different companion lifecycle result");
     (says "lifecycle_state" lifecycle_state, "Data accepted the lifecycle change without applying it")].
End Workspace.

(** ** [MemorySupervisorClient] *)

Section Supervisor.
Context (supervisor_url : string).

(** A bool and never an exception of the transport. *)
Definition request_reconcile : M X bool :=
  catch (response ← send (mk_plain "POST" timeout [] None (rstrip_slash supervisor_url +:+ "/api/admin/reconcile"));
         mret (response.(status_code) =? 200)%Z)
    (λ e, match e with HttpxTransportError _ => Some (mret false) | _ => None end).

Definition list_realms : M X obj :=
  response ← send (mk_get timeout [] None (rstrip_slash supervisor_url +:+ "/api/admin/realms"));
  let status := response.(status_code) in
  guard_py (400 <=? status)%Z
    (refuse "memory" "runtime_unavailable" ("Memory Supervisor returned HTTP " +:+ pretty status) status false) ;;
  match validate "MemoryRealmRuntimePage" response.(content) with
  | Raise (ValueError m | ValidationError m | JSONDecodeError m) =>
      raise (contract_violation "memory" ("invalid realm runtime page: " +:+ m))
  | r => lift r
  end.
End Supervisor.

(** ** [MemoryRecollectionsClient] *)

Section Memory.
Context (discovery_url service_token : string).

(** [published_url.rpartition("/api/memory/v1/")], then the sibling route. *)
Definition REALM_PREFIX : list ascii := list_ascii_of_string "/api/memory/v1/".
Fixpoint last_prefix (l : list ascii) : option (list ascii) :=
  match l with
  | [] => None
  | c :: l' =>
      match last_prefix l' with
      | Some p => Some (c :: p)
      | None => if bool_decide (take (length REALM_PREFIX) l = REALM_PREFIX) then Some [] else None
      end
  end.
Definition realm_path (published_url leaf : string) : result string :=
  match last_prefix (list_ascii_of_string published_url) with
  | Some prefix => Ok (string_of_list_ascii (prefix ++ REALM_PREFIX) +:+ leaf)
  | None => Raise (contract_violation "memory" "memory discovery published a read surface outside the contract")
  end.

(** [_realm_name] *)
Definition realm_name (realm : obj) : string :=
  match field "memory_realm_id" realm, field "memory_space_id" realm with
  | JStr a, b => if bool_decide (a = "") then match b with JStr b => if bool_decide (b = "") then "unidentified" else b | _ => "unidentified" end else a
  | _, JStr b => if bool_decide (b = "") then "unidentified" else b
  | _, _ => "unidentified"
  end.
Definition owned_realms (owner_id : string) (realms : list json) : list obj :=
  realms ≫= λ r, match r with JObj o => if says "owner_id" owner_id o then [o] else [] | _ => [] end.
(** [", ".join(l)] *)
Fixpoint comma_join (l : list string) : string :=
  match l with [] => "" | [s] => s | s :: l' => s +:+ ", " +:+ comma_join l' end.

(** What the only Realm of the Owner answers with. *)
Definition realm_url (realm : obj) : result string :=
  match field "recollections_url" realm with
  | JStr url =>
      if bool_decide (url = "") then Raise (contract_violation "memory" "this memory space serves no read surface")
      else if negb (json_truthy (obj_get "enabled" realm (JBool true))) ||
              match field "agent_reachable" realm with JBool false => true | _ => false end then
        Raise (refuse "memory" "runtime_missing"
                 ("this Owner's memory space (" +:+ realm_name realm +:+ ") is not running") 503 true)
      else Ok url
  | _ => Raise (contract_violation "memory" "this memory space serves no read surface")
  end.

(** The choice of [_space_for] among what discovery lists. *)
Definition choose_space (owner_id : string) (realms : json) : result string :=
  match realms with
  | JList realms =>
      match owned_realms owner_id realms with
      | [] => Raise (refuse "memory" "not_found" "this Owner has no memory space" 404 false)
      | [realm] => realm_url realm
      | owned =>
          Raise (refuse "memory" "conflict"
                   ("this Owner has more than one memory space (" +:+
                    comma_join (sort_by str_leb (realm_name <$> owned)) +:+
                    "); one Owner is one Realm, so which of these answers cannot be decided here") 409 false)
      end
  | _ => Raise (contract_violation "memory" "memory discovery answered outside its contract")
  end.
Definition space_for (owner_id : string) : M X string :=
  response ← request "memory" (mk_get timeout [] None (rstrip_slash discovery_url +:+ "/api/discovery/agent-routing"));
  guard_py (negb (response.(status_code) =? 200)%Z)
    (refuse "memory" "unavailable" "memory discovery is unavailable" 503 true) ;;
  match loads response.(content) with
  | Ok (JObj o) =>
      match obj_get "memory_realms" o JNull, bool_decide ("memory_realms" ∈ o.*1) with
      | realms, true => lift (choose_space owner_id realms)
      | _, false => raise (contract_violation "memory" "memory discovery answered outside its contract")
      end
  | _ => raise (contract_violation "memory" "memory discovery answered outside its contract")
  end.

Definition realm_call (owner_id leaf method : string) (params : option (list (string * string))) : M X http_response :=
  needs_credential "memory" service_token "Admin memory service credential is not configured" ;;
  space ← space_for owner_id;
  url ← lift (realm_path space leaf);
  request "memory" (mk_plain method timeout (bearer service_token) params url).
Definition realm_read (owner_id leaf method model : string) (params : option (list (string * string))) : M X obj :=
  response ← realm_call owner_id leaf method params;
  lift (parse "memory" model response).

Definition recollections (owner_id query : string) (limit : Z) (companion_id : option string) : M X obj :=
  realm_read owner_id "recollections" "GET" "MemoryRecollections"
    (Some ([("q", query); ("limit", pretty limit)] ++ given_nonempty "companion_id" companion_id)).
Definition browse (owner_id : string) (companion_id : option string) : M X obj :=
  realm_read owner_id "browse" "GET" "MemoryBrowse" (or_none (given_nonempty "companion_id" companion_id)).
Definition memory_status (owner_id : string) (companion_id : option string) : M X obj :=
  realm_read owner_id "status" "GET" "MemoryStatus" (or_none (given_nonempty "companion_id" companion_id)).
Definition graph (owner_id : string) (companion_id cursor : option string) (history : bool) : M X obj :=
  realm_read owner_id "graph" "GET" "MemoryGraph"
    (Some ([("history", if history then "true" else "false")] ++ given_nonempty "companion_id" companion_id ++
           given_nonempty "cursor" cursor)).
Definition entries (owner_id since : string) (limit : option Z) (companion_id cursor : option string) : M X obj :=
  realm_read owner_id "entries" "GET" "MemoryEntries"
    (Some ([("since", since)] ++ given_nonempty "cursor" cursor ++ given "limit" (pretty <$> limit) ++
           given_nonempty "companion_id" companion_id)).
Definition export (owner_id : string) (companion_id wing room : option string) : M X obj :=
  realm_read owner_id "export" "GET" "MemoryExport"
    (Some (given "companion_id" companion_id ++ given "wing" wing ++ given "room" room)).
Definition forget_preview (owner_id target : string) : M X obj :=
  realm_read owner_id "forget/preview" "POST" "OwnerForgetPreview" (Some [("target", target)]).
Definition forget_confirm (owner_id confirmation_token : string) : M X obj :=
  realm_read owner_id "forget/confirm" "POST" "OwnerForgetOutcome" (Some [("confirmation_token", confirmation_token)]).
Definition forget_status (owner_id request_id : string) : M X obj :=
  realm_read owner_id "forget/status" "GET" "OwnerForgetProgress" (Some [("request_id", request_id)]).
End Memory.
End Clients.
