(* ===== verification/DeviceClients.v ===== *)
(** * The clients of the Agent, Hub and the Kernel

    The second half of [app/control_plane/clients.py]. *)

From S2P Require Import Prelude Encoding Json Lifecycle Upstream Clients.

(** 35 seconds, in the microseconds of the other timeouts. *)
Definition LONG_TIMEOUT : Z := 35000000.

(** [",".join(l)] *)
Fixpoint joined (l : list string) : string :=
  match l with [] => "" | [s] => s | s :: l' => s +:+ "," +:+ joined l' end.

(** What a page query asks for: states, limit, the cursor's sort key and
    resource. *)
Record page_query := mkPageQuery {
  pq_owner_domain_id : string; pq_states : list string; pq_limit : Z; pq_cursor : option (string * string) }.
Definition page_params (states : list string) (limit : Z) (cursor : option (string * string)) : list (string * string) :=
  [("states", joined states); ("limit", pretty limit)] ++
  match cursor with
  | Some (sort_key, resource_id) => [("after_sort_key", sort_key); ("after_resource_id", resource_id)]
  | None => []
  end.

Section Clients.
Context {X : Type} `{!Http X}.
Context (loads : bytes → result json) (py_str : json → string) (validate : string → bytes → result obj).
Context (base_url : string) (directory_timeout timeout : Z).
Abbreviation ask := (Upstream.ask loads py_str validate).
Abbreviation resolve := (Upstream.resolve validate base_url directory_timeout).
Abbreviation parse := (Upstream.parse loads py_str validate).

(** ** [AgentActivityClient] *)

Section Agent.
Context (agent_url service_token : string).

Definition agent_call (method leaf : string) (params : option (list (string * string))) (json : option doc)
    : M X http_response :=
  needs_credential "agent" service_token "Admin Agent service credential is not configured" ;;
  request "agent"
    (mkHttpRequest method (rstrip_slash agent_url +:+ "/api/admin" +:+ leaf)
       (if bool_decide (leaf = "/persona/preview") then Z.max timeout LONG_TIMEOUT else timeout)
       (bearer service_token) params json None false).
Definition agent_read (method leaf model : string) (params : option (list (string * string))) (json : option doc)
    : M X obj :=
  response ← agent_call method leaf params json;
  lift (parse "agent" model response).
Definition companion_scope (owner_id companion_id : string) (limit : Z) : list (string * string) :=
  [("owner_id", owner_id); ("companion_id", companion_id); ("limit", pretty limit)].

Definition list_conversations (owner_id companion_id : string) (limit : Z) (before : option string) : M X obj :=
  agent_read "GET" "/conversations" "ConversationRows"
    (Some (companion_scope owner_id companion_id limit ++ given_nonempty "before" before)) None.
Definition list_transcript (owner_id companion_id conversation_id : string) (limit : Z) (before : option string) : M X obj :=
  agent_read "GET" ("/conversations/" +:+ quote conversation_id +:+ "/turns") "TranscriptRows"
    (Some (companion_scope owner_id companion_id limit ++ given_nonempty "before" before)) None.
Definition list_tasks (owner_id companion_id : string) (limit : Z) (status before : option string) : M X obj :=
  agent_read "GET" "/long-tasks" "TaskRows"
    (Some (companion_scope owner_id companion_id limit ++ given_nonempty "status" status ++
           given_nonempty "before" before)) None.
Definition get_task (owner_id task_id : string) : M X obj :=
  row ← agent_read "GET" ("/long-tasks/" +:+ quote task_id) "TaskRow" None None;
  guard_py (negb (says "owner_id" owner_id row)) (refuse "agent" "not_found" "task not found" 404 false) ;;
  mret row.
Definition cancel_task (owner_id task_id : string) : M X obj :=
  agent_read "POST" ("/long-tasks/" +:+ quote task_id +:+ "/cancel") "TaskRow" (Some [("owner_id", owner_id)]) None.
Definition retry_task (owner_id task_id : string) : M X obj :=
  agent_read "POST" ("/long-tasks/" +:+ quote task_id +:+ "/retry") "TaskRow" (Some [("owner_id", owner_id)]) None.
Definition companion_activity (owner_id : string) : M X obj :=
  agent_read "GET" ("/owners/" +:+ quote owner_id +:+ "/companion-activity") "OwnerCompanionActivity" None None.
Definition revoke_runtime_sessions (owner_id : string) : M X obj :=
  agent_read "POST" ("/owners/" +:+ quote owner_id +:+ "/revoke-sessions") "RuntimeSessionRevocation" None None.
Definition preview_persona (payload : doc) (owner_id : string) : M X obj :=
  agent_read "POST" "/persona/preview" "PersonaPreviewResponse" (Some [("owner_id", owner_id)]) (Some payload).
End Agent.

(** ** [HubManagementClient] *)

Section Hub.
Context {D : Type} `{!DeviceReference D}.
(** What a reference is dumped as, and the reference a validated answer holds. *)
Context (dump_ref : D → doc) (device_ref_of : obj → D).

Definition hub_base : M X string :=
  address ← resolve "hub" "device-authority.http" HUB_CONTRACT;
  mret (rstrip_slash address).
(** [_headers] *)
Definition hub_headers (authorization : string) : result (list (string * string)) :=
  if bool_decide (strip authorization = "") then
    Raise (refuse "hub" "unauthorized" "Bearer Hub management credential required" 401 false)
  else Ok [("Authorization", authorization)].
Definition hub_ask (authorization model : string) (r : string → list (string * string) → http_request)
    (checks : list ((obj → bool) * string)) : M X obj :=
  base ← hub_base;
  headers ← lift (hub_headers authorization);
  ask "hub" model (r base headers) checks.

Definition hub_decide (enrollment_id : string) (expected_proposal_revision : Z) (command : list (string * doc))
    (command_id correlation_id authorization : string) : M X obj :=
  hub_ask authorization "DecideEnrollmentResult"
    (λ base headers, mk_json "POST" timeout headers
       (DObj ([("command_id", DStr command_id); ("correlation_id", DStr correlation_id)] ++ command))
       (base +:+ "/api/admission/v1/enrollments/" +:+ quote enrollment_id +:+ "/decisions"))
    [((λ v, json_eq_int (field "proposal_revision" v) expected_proposal_revision),
      "Hub Decision response changed the reviewed Proposal content revision")].

(** [_conversation_command], for the model of the resource; a command's session
    is given beside it. *)
Definition conversation_command (resource model action : string) (command : doc) (session_id authorization : string)
    : M X obj :=
  guard_py (negb (bool_decide (action ∈ ["open"; "status"; "close"])))
    (ValueError "invalid device conversation action") ;;
  base ← hub_base;
  headers ← lift (hub_headers authorization);
  response ← request "hub" (mk_json "POST" LONG_TIMEOUT headers command
    (base +:+ "/api/device-control/v1/" +:+ resource +:+ "/" +:+ action));
  guard_py (negb (is_success response)) (raise_status loads py_str "hub" response) ;;
  match validate model response.(content) with
  | Ok v =>
      guard_py (negb (says "session_id" session_id v)) (contract_violation "hub" "invalid device conversation response") ;;
      mret v
  | Raise (ValueError _ | ValidationError _ | JSONDecodeError _) =>
      raise (contract_violation "hub" "invalid device conversation response")
  | Raise e => raise e
  end.
Definition device_conversation := conversation_command "device-conversations" "DeviceConversationStatus".
Definition role_group := conversation_command "role-groups" "RoleGroupStatus".

Definition shared_session (action : string) (command : doc) (session_id authorization : string) : M X obj :=
  guard_py (negb (bool_decide (action ∈ ["open"; "close"]))) (ValueError "invalid shared session action") ;;
  base ← hub_base;
  headers ← lift (hub_headers authorization);
  response ← request "hub" (mk_json "POST" LONG_TIMEOUT headers command
    (base +:+ "/api/device-control/v1/shared-sessions/" +:+ action));
  guard_py (negb (is_success response)) (raise_status loads py_str "hub" response) ;;
  match loads response.(content) with
  | Ok (JObj v) =>
      guard_py (negb (says "session_id" session_id v) ||
                negb (says "state" (if bool_decide (action = "open") then "transport_ready" else "closed") v))
        (contract_violation "hub" "invalid shared session response") ;;
      mret v
  | _ => raise (contract_violation "hub" "invalid shared session response")
  end.

Definition read_device_output_configuration (query : doc) (device_ref : D) (authorization : string) : M X obj :=
  hub_ask authorization "DeviceOutputConfiguration"
    (λ base headers, mkHttpRequest "POST" (base +:+ "/api/device-control/v1/output-policy-queries") timeout headers
       None (Some query) None true)
    [((λ v, bool_decide (device_ref_of v = device_ref)), "Hub output configuration answered about another device")].
(** [allowed], as the SDK compares it. *)
Definition set_device_output_policy (command : doc) (same_allowed : obj → bool) (authorization : string) : M X obj :=
  hub_ask authorization "DeviceOutputPolicy"
    (λ base headers, mk_json "PUT" timeout headers command (base +:+ "/api/device-control/v1/output-policy"))
    [(same_allowed, "Hub stored an output policy other than the one decided")].

Definition enrollment_of (v : obj) : obj := match field "proposal" v with JObj p => p | _ => [] end.
Definition hub_enrollment_recovery (enrollment_id authorization : string) : M X obj :=
  hub_ask authorization "EnrollmentRecoveryProjection"
    (λ base headers, mk_get timeout headers None (base +:+ "/api/admission/v1/enrollments/" +:+ quote enrollment_id))
    [((λ v, says "enrollment_id" enrollment_id (enrollment_of v)), "Hub recovery query returned another Enrollment")].
Definition list_enrollment_recovery (q : page_query) (authorization : string) : M X obj :=
  hub_ask authorization "EnrollmentProposalPage"
    (λ base headers, mk_get timeout headers (Some (page_params q.(pq_states) q.(pq_limit) q.(pq_cursor)))
       (base +:+ "/api/admission/v1/enrollments"))
    [(says "owner_domain_id" q.(pq_owner_domain_id), "Hub Enrollment page crossed its requested Owner Domain")].
Definition list_claims (q : page_query) (authorization : string) : M X obj :=
  hub_ask authorization "ClaimPage"
    (λ base headers, mk_get timeout headers (Some (page_params q.(pq_states) q.(pq_limit) q.(pq_cursor)))
       (base +:+ "/api/admission/v1/claims"))
    [(says "owner_domain_id" q.(pq_owner_domain_id), "Hub Claim page crossed its requested Owner Domain")].
Definition list_authorized_enrollments (authorization : string) (states : list string) (limit : Z) : M X obj :=
  hub_ask authorization "EnrollmentProposalPage"
    (λ base headers, mk_get timeout headers (Some (page_params states limit None))
       (base +:+ "/api/admission/v1/enrollments")) [].
Definition list_authorized_claims (authorization : string) (states : list string) (limit : Z) : M X obj :=
  hub_ask authorization "ClaimPage"
    (λ base headers, mk_get timeout headers (Some (page_params states limit None)) (base +:+ "/api/admission/v1/claims")) [].

(** The three calls that return [response.json()] as it comes, whatever the
    status. *)
Definition hub_json (authorization : string) (r : string → list (string * string) → http_request) : M X json :=
  base ← hub_base;
  headers ← lift (hub_headers authorization);
  response ← request "hub" (r base headers);
  lift (loads response.(content)).
Definition base_identity_for_key (authorization operational_key_id : string) : M X json :=
  hub_json authorization (λ base headers, mk_get timeout headers (Some [("operational_key_id", operational_key_id)])
    (base +:+ "/api/admission/v1/base-identities")).
Definition record_commissioning_standing (authorization jti operational_key_id : string) : M X json :=
  hub_json authorization (λ base headers, mk_json "POST" timeout headers
    (DObj [("contract_version", DStr "1"); ("jti", DStr jti); ("operational_key_id", DStr operational_key_id)])
    (base +:+ "/api/admission/v1/commissioning-standings")).
Definition withdraw_controller (authorization principal_id : string) : M X json :=
  hub_json authorization (λ base headers, mk_json "POST" timeout headers
    (DObj [("contract_version", DStr "1"); ("principal_id", DStr principal_id)])
    (base +:+ "/api/admission/v1/controller-withdrawals")).

Definition revoke (device_ref : D) (reason command_id correlation_id authorization : string) : M X obj :=
  hub_ask authorization "HubClaimRevocationResult"
    (λ base headers, mk_json "POST" timeout headers
       (DObj [("operation", DStr "device.claim-revocation"); ("command_id", DStr command_id);
              ("correlation_id", DStr correlation_id); ("device_ref", dump_ref device_ref); ("reason", DStr reason)])
       (base +:+ "/api/admission/v1/claims/" +:+ quote (device_instance_id device_ref) +:+ ":revoke"))
    [((λ v, says "command_id" command_id v && bool_decide (device_ref_of v = device_ref) &&
            says "lifecycle_state" "revoked" v),
      "Hub revocation response did not confirm the requested Claim")].
Definition get_device_control_operation (device_ref : D) (source_claim_event_id authorization : string) : M X obj :=
  hub_ask authorization "DeviceLocalEraseOperationStatus"
    (λ base headers, mk_get timeout headers
       (Some [("source_claim_event_id", source_claim_event_id);
              ("owner_domain_generation", pretty (owner_domain_generation device_ref));
              ("claim_generation", pretty (claim_generation device_ref)); ("trust_epoch", pretty (trust_epoch device_ref))])
       (base +:+ "/api/device-control/v1/owners/" +:+ quote (owner_domain_id device_ref) +:+ "/devices/" +:+
        quote (device_instance_id device_ref) +:+ "/erase-operations"))
    [((λ v, bool_decide (device_ref_of v = device_ref)), "Device Control status crossed its requested Claim scope")].

(** ** [HubSmartHomeClient.call] *)

Definition smarthome_call (token owner_id path : string) (body : list (string * doc)) : M X obj :=
  guard_py (bool_decide (token = "")) (refuse "hub" "unauthorized" "Hub smart-home credential was not configured" 503 false) ;;
  base ← hub_base;
  response ← request "hub" (mk_json "POST" timeout (bearer token)
    (DObj (foldl (λ o m, dict_set m.1 m.2 o) [("owner_id", DStr owner_id)] body)) (base +:+ "/api/smarthome/v1/" +:+ path));
  guard_py (negb (is_success response)) (raise_status loads py_str "hub" response) ;;
  match loads response.(content) with
  | Ok (JObj v) => mret v
  | Ok _ => raise (contract_violation "hub" "Hub smart-home answer was not an object")
  | Raise _ => raise (contract_violation "hub" "Hub smart-home answer was not JSON")
  end.
End Hub.

(** ** [KernelMountClient] *)

Definition kernel_base : M X string :=
  address ← resolve "kernel" "device-mount.http" KERNEL_CONTRACT;
  mret (rstrip_slash address).
Definition kernel_ask (owner_id model : string) (r : string → list (string * string) → http_request)
    (checks : list ((obj → bool) * string)) : M X obj :=
  base ← kernel_base;
  ask "kernel" model (r base [("X-Eidolon-Owner", owner_id)]) checks.

Definition member (k : string) (v : obj) : obj := match field k v with JObj o => o | _ => [] end.
Definition members (k : string) (v : obj) : list obj :=
  match field k v with JList l => l ≫= λ x, match x with JObj o => [o] | _ => [] end | _ => [] end.
Definition all_owned (k owner_id : string) (v : obj) : bool := forallb (says "owner_id" owner_id) (members k v).

Definition client_mount (owner_id device_id request_id : string) (expected_revision : Z) (replace_existing : bool) : M X obj :=
  kernel_ask owner_id "KernelMutationResult"
    (λ base headers, mk_json "POST" timeout headers
       (DObj [("operation", DStr "device.mount"); ("request_id", DStr request_id); ("device_id", DStr device_id);
              ("expected_revision", DInt expected_revision); ("replace_existing", DBool replace_existing)])
       (base +:+ "/api/kernel/v1/device-mounts"))
    [((λ v, let m := member "mount" v in says "device_id" device_id m && says "owner_id" owner_id m &&
                                         json_truthy (field "active" m)),
      "Kernel Mount response did not confirm the requested owner/device")].

(** The Companion an endpoint answers as. *)
Definition assigned_companion (v : obj) : option json :=
  match field "assignment" v with JObj a => Some (field "companion_id" a) | _ => None end.
Definition answers_as (companion_id : option string) (v : obj) : bool :=
  match assigned_companion v, companion_id with
  | Some (JStr c), Some c' => bool_decide (c = c')
  | Some JNull, None | None, None => true
  | _, _ => false
  end.
Definition client_replace_assignment (owner_id device_id : string) (companion_id : option string) (request_id : string)
    (expected_assignment_revision : Z) (origin : string) (change_reason : option string) : M X obj :=
  let body_endpoint_id := device_id +:+ ":body" in
  kernel_ask owner_id "KernelBodyEndpoint"
    (λ base headers, mk_json "PUT" timeout headers
       (DObj ([("operation", DStr "body.replace-assignment"); ("request_id", DStr request_id);
               ("expected_assignment_revision", DInt expected_assignment_revision);
               ("companion_id", dopt companion_id); ("origin", DStr origin)] ++
              given_doc "change_reason" (DStr <$> change_reason)))
       (base +:+ "/api/kernel/v1/body-endpoints/" +:+ quote body_endpoint_id +:+ "/assignment"))
    [((λ v, says "device_id" device_id v && says "owner_id" owner_id v &&
            says "body_endpoint_id" body_endpoint_id v && answers_as companion_id v),
      "Kernel Body assignment response did not confirm the requested identities")].
Definition client_list_body_endpoints (owner_id : string) : M X obj :=
  kernel_ask owner_id "KernelBodyEndpointPage"
    (λ base headers, mk_get timeout headers None (base +:+ "/api/kernel/v1/body-endpoints"))
    [(all_owned "endpoints" owner_id, "Kernel Body endpoint page crossed the requested owner scope")].
Definition client_list_mounts (owner_id : string) (limit : Z) : M X obj :=
  kernel_ask owner_id "KernelMountPage"
    (λ base headers, mk_get timeout headers None
       (base +:+ "/api/kernel/v1/device-mounts?active_only=false&limit=" +:+ pretty limit))
    [(all_owned "mounts" owner_id, "Kernel Mount page crossed the requested owner scope")].
End Clients.
