(* ===== verification/Vouchers.v ===== *)
(** * Commissioning vouchers

    [app/control_plane/commissioning_vouchers.py], [issue_commissioning_voucher]
    and [withdraw_controller] of [app/control_plane/service.py]: the Host signs
    the standing a device needs, after telling Hub who admits its key. *)

From S2P Require Import Prelude Encoding Json Lifecycle Upstream Clients DeviceClients Admission.

Record CommissioningVoucher := mkVoucher {
  voucher : string; jti : string; v_device_base_id : json; v_expires_at : Z }.

(** [DEFAULT_TTL], in microseconds. *)
Definition VOUCHER_TTL : Z := 24 * 3600 * 1000000.

(** [new_jti], from sixteen random bytes. *)
Definition new_jti (random : bytes) : string := "jti-" +:+ string_of_list_ascii (hex_bytes random).

Section Issuer.
(** [sign_commissioning_voucher] over [commissioning_voucher_claims], with the
    derived key: base identity, Owner Domain, operational key, name, expiry in
    seconds, provenance. *)
Context (sign : json → string → string → string → Z → string → result string).

(** [CommissioningVoucherIssuer.issue]: an identity is minted from 32 random
    bytes when none is given. *)
Definition base_identity (given : json) (random : bytes) : json :=
  if json_truthy given then given else JStr ("device-base-" +:+ string_of_list_ascii (hex_bytes random)).
Definition issue_voucher (owner_domain_id operational_spki_sha256 : string) (device_base_id : json)
    (provenance jti : string) (now : Z) (random : bytes) : result CommissioningVoucher :=
  let expires_at := (now + VOUCHER_TTL)%Z in
  let base_id := base_identity device_base_id random in
  signed ← sign base_id owner_domain_id operational_spki_sha256 jti (expires_at / 1000000)%Z provenance;
  Ok (mkVoucher signed jti base_id expires_at).
End Issuer.

Section Service.
Context {X D : Type} `{!Http X}.
Context (loads : bytes → result json) (validate : string → bytes → result obj).
Context (base_url : string) (directory_timeout timeout : Z).
(** [model_validate] of a parsed value. *)
Context (model_validate : string → json → result obj).
Context (hub_credentials : option (AdmissionCredential D → result string)).
(** [commissioning_vouchers], when configured. *)
Context (vouchers : option (json → string → string → string → Z → string → result string)).

(** [ControllerCommissioningVoucherRequest] *)
Record VoucherRequest := mkVoucherRequest {
  vr_actor : ControllerActorRef; vr_business_owner_id : string; vr_owner_domain_id : string;
  vr_operational_spki_sha256 : string }.

(** [_commissioning_vouchers] *)
Definition voucher_issuer : M X (json → string → string → string → Z → string → result string) :=
  match vouchers with
  | Some sign => mret sign
  | None => raise (refuse "hub" "configuration" "commissioning voucher signing key is unavailable" 503 false)
  end.

(** [answered.get(...)] of whatever Hub's answer parses to. *)
Definition dict_member (k : string) (v : json) : result json :=
  match v with JObj o => Ok (obj_get k o JNull) | _ => Raise (AttributeError "object has no attribute 'get'") end.

(** [issue_commissioning_voucher], with what it draws and reads. *)
Definition issue_commissioning_voucher (payload : VoucherRequest) (random16 random32 : bytes) (now : Z)
    : M X CommissioningVoucher :=
  issue ← admission_issuer hub_credentials;
  sign ← voucher_issuer;
  let jti := new_jti random16 in
  authorization ← lift (issue_admission_context issue payload.(vr_actor) payload.(vr_business_owner_id) None None);
  answered ← record_commissioning_standing loads validate base_url directory_timeout timeout authorization jti
               payload.(vr_operational_spki_sha256);
  device_base_id ← lift (dict_member "device_base_id" answered);
  v ← lift (issue_voucher sign payload.(vr_owner_domain_id) payload.(vr_operational_spki_sha256) device_base_id
              "minted" jti now random32);
  match v.(v_device_base_id) with
  | JStr _ => mret v
  | _ => raise (ValidationError "device_base_id")
  end.

(** [withdraw_controller] *)
Definition service_withdraw_controller (actor : ControllerActorRef) (business_owner_id principal_id : string) : M X obj :=
  issue ← admission_issuer hub_credentials;
  authorization ← lift (issue_admission_context issue actor business_owner_id None None);
  answered ← withdraw_controller loads validate base_url directory_timeout timeout authorization principal_id;
  lift (model_validate "ControllerWithdrawn" answered).
End Service.

(** ** What Hub's refusal is worth *)

(** A voucher is signed whatever Hub answers.  Once Hub is reached, the
    status of its answer is not looked at: for any status, a refusal included,
    whose body is an object that names no identity, the Host signs a voucher
    for the key, under the name it told Hub and for a fresh identity; an object
    that names an identity has that identity signed. *)
Theorem voucher_ignores_refusal {X D} `{!Http X} loads validate base_url directory_timeout timeout
    (issue : AdmissionCredential D → result string) sign payload random16 random32 now authorization base token
    status body answer (s s1 s2 : X) :
  issue_admission_context issue payload.(vr_actor) payload.(vr_business_owner_id) None None = Ok authorization →
  strip authorization ≠ "" →
  hub_base validate base_url directory_timeout s = (Ok base, s1) →
  send (mk_json "POST" timeout [("Authorization", authorization)]
          (DObj [("contract_version", DStr "1"); ("jti", DStr (new_jti random16));
                 ("operational_key_id", DStr payload.(vr_operational_spki_sha256))])
          (base +:+ "/api/admission/v1/commissioning-standings")) s1 = (Ok (mkHttpResponse status body), s2) →
  loads body = Ok (JObj answer) →
  (∀ b o k j t p, sign b o k j t p = Ok token) →
  let issue_it := issue_commissioning_voucher loads validate base_url directory_timeout timeout (Some issue) (Some sign)
                    payload random16 random32 now in
  (obj_get "device_base_id" answer JNull = JNull →
     issue_it s = (Ok (mkVoucher token (new_jti random16)
       (JStr ("device-base-" +:+ string_of_list_ascii (hex_bytes random32))) (now + VOUCHER_TTL)%Z), s2)) ∧
  (∀ id, obj_get "device_base_id" answer JNull = JStr id → id ≠ "" →
     issue_it s = (Ok (mkVoucher token (new_jti random16) (JStr id) (now + VOUCHER_TTL)%Z), s2)).
Proof.
  intros Hcred Hblank Hbase Hsend Hloads Hsign issue_it.
  assert (record_commissioning_standing loads validate base_url directory_timeout timeout authorization (new_jti random16)
    payload.(vr_operational_spki_sha256) s = (Ok (JObj answer), s2)) as Hstanding.
  { unfold record_commissioning_standing, hub_json. rewrite (bind_ok _ _ _ _ _ Hbase).
    unfold hub_headers. rewrite bool_decide_eq_false_2 by done.
    rewrite (bind_ok (lift (Ok _)) _ s1 _ s1 eq_refl). unfold request, catch, mbind, M_bind. rewrite Hsend.
    unfold lift. cbn. by rewrite Hloads. }
  assert (∀ b, obj_get "device_base_id" answer JNull = b → issue_it s =
    (match base_identity b random32 with
     | JStr i => Ok (mkVoucher token (new_jti random16) (JStr i) (now + VOUCHER_TTL)%Z)
     | _ => Raise (ValidationError "device_base_id")
     end, s2)) as Hrun.
  { intros b Hb. unfold issue_it, issue_commissioning_voucher, admission_issuer, voucher_issuer.
    rewrite (bind_ok (mret issue) _ s issue s eq_refl), (bind_ok (mret sign) _ s sign s eq_refl), Hcred.
    rewrite (bind_ok (lift (Ok authorization)) _ s _ s eq_refl), (bind_ok _ _ _ _ _ Hstanding).
    unfold dict_member. rewrite Hb, (bind_ok (lift (Ok b)) _ s2 b s2 eq_refl). unfold issue_voucher. rewrite Hsign. cbn.
    by destruct (base_identity b random32). }
  split; [intros Hb|intros i Hi Hne]; rewrite (Hrun _ ltac:(eassumption)); [done|].
  unfold base_identity. cbn [json_truthy]. by rewrite bool_decide_eq_false_2.
Qed.

(** A Hub that refuses every standing, behind a directory that knows it. *)
Definition refusing_hub : Http unit := {| send := λ r, mret
  (if bool_decide (r.(hr_method) = "GET") then mkHttpResponse 200 [] else mkHttpResponse 403 []) |}.
#[local] Existing Instance refusing_hub.
Definition hub_endpoint (_ : string) (_ : bytes) : result obj :=
  Ok [("service_id", JStr "hub"); ("endpoint_id", JStr "device-authority.http"); ("protocol", JStr "http");
      ("address", JStr "http://hub"); ("contract", JStr HUB_CONTRACT)].
Definition refusal_body (_ : bytes) : result json := Ok (JObj [("detail", JStr "Controller may not admit devices")]).

Lemma voucher_ignores_refusal_witness :
  ∃ v, (issue_commissioning_voucher refusal_body hub_endpoint "http://directory" 1 1
          (Some (λ _ : AdmissionCredential string, Ok "token")) (Some (λ _ _ _ _ _ _, Ok "signed"))
          (mkVoucherRequest (mkActor "ectrl-0" "controller" "owner-1" ["device.claim.approve"] "software") "owner_1" "owner-1" "sha256:0")
          [] [] 0 tt).1 = Ok v ∧ v.(voucher) = "signed".
Proof.
  pose proof (voucher_ignores_refusal refusal_body hub_endpoint "http://directory" 1 1
    (λ _ : AdmissionCredential string, Ok "token") (λ _ _ _ _ _ _, Ok "signed")
    (mkVoucherRequest (mkActor "ectrl-0" "controller" "owner-1" ["device.claim.approve"] "software") "owner_1" "owner-1" "sha256:0")
    [] [] 0 "token" "http://hub" "signed" 403 [] [("detail", JStr "Controller may not admit devices")] tt tt tt) as H.
  eexists. split; [|shelve].
  refine (f_equal fst (proj1 (H _ _ _ _ _ _) _)); [done|by vm_compute|by vm_compute|done|done|done|done].
  Unshelve. done.
Defined.
