(* ===== verification/ClientProofs.v ===== *)
(** * The clients, proved

    How an identifier enters a URL, what a client lets through, what it never
    sends, and which of its refusals can be put on a wire. *)

From S2P Require Import Prelude Encoding Json Lifecycle RemovalIntents.
From S2P Require Import RemovalWorkflow Upstream Clients DeviceClients.

(** ** Quoting *)

(** [urllib.parse.unquote], on the bytes. *)
Definition hex_digit (c : ascii) : option N :=
  let n := N_of_ascii c in
  if is_digit c then Some (n - 48)%N
  else if ((65 <=? n) && (n <=? 70))%N then Some (n - 55)%N
  else if ((97 <=? n) && (n <=? 102))%N then Some (n - 87)%N else None.
Fixpoint unquote_chars (l : list ascii) : list ascii :=
  match l with
  | c :: ((a :: b :: l') as r) =>
      if bool_decide (c = "%"%char) then
        match hex_digit a, hex_digit b with
        | Some x, Some y => ascii_of_N (16 * x + y) :: unquote_chars l'
        | _, _ => c :: unquote_chars r
        end
      else c :: unquote_chars r
  | c :: l' => c :: unquote_chars l'
  | [] => []
  end.

Lemma quote_char_cases c :
  (is_unreserved c = true ∧ quote_char c = [c] ∧ c ≠ "%"%char ∧ c ≠ "/"%char ∧ c ≠ "?"%char ∧ c ≠ "#"%char) ∨
  (∃ a b x y, quote_char c = ["%"%char; a; b] ∧ is_unreserved a = true ∧ is_unreserved b = true ∧
     hex_digit a = Some x ∧ hex_digit b = Some y ∧ ascii_of_N (16 * x + y) = c).
Proof. destruct c as [[] [] [] [] [] [] [] []]; first [left; split_and!; done | right; do 4 eexists; split_and!; done]. Qed.

Lemma unquote_head c l : c ≠ "%"%char → unquote_chars (c :: l) = c :: unquote_chars l.
Proof. intros H. destruct l as [|a [|b l]]; [done..|]. cbn. by rewrite bool_decide_eq_false_2. Qed.

Lemma unquote_quoted l : unquote_chars (l ≫= quote_char) = l.
Proof.
  induction l as [|c l IH]; [done|]. rewrite bind_cons.
  destruct (quote_char_cases c) as [(_ & -> & H & _)|(a & b & x & y & -> & _ & _ & Ha & Hb & Hc)].
  - cbn [app]. by rewrite unquote_head, IH.
  - cbn [app unquote_chars]. by rewrite bool_decide_eq_true_2, Ha, Hb, IH, Hc by done.
Qed.

Definition url_safe (c : ascii) : Prop := c ≠ "/"%char ∧ c ≠ "?"%char ∧ c ≠ "#"%char.
Lemma quoted_safe l : Forall url_safe (l ≫= quote_char).
Proof.
  induction l as [|c l IH]; [constructor|]. rewrite bind_cons. apply Forall_app. split; [|done].
  destruct (quote_char_cases c) as [(_ & -> & _ & H)|(a & b & x & y & -> & Ha & Hb & _)].
  - by apply Forall_singleton.
  - assert (∀ d, is_unreserved d = true → url_safe d) as Hu by (intros d Hd; split_and!; by intros ->).
    rewrite !Forall_cons. split_and!; [done..|by apply Hu|by apply Hu|constructor].
Qed.

(** An identifier stays one segment of a path.  What any client puts in a
    URL for an identifier holds no slash, question mark or number sign, reads
    back as the identifier, and is the identifier itself only of unreserved
    characters; so two identifiers never name the same resource.  Only "." and
    ".." are left as the segments a path resolver gives a meaning of its own. *)
Theorem quoted_segment s :
  let q := quote s in
  Forall url_safe (list_ascii_of_string q) ∧
  string_of_list_ascii (unquote_chars (list_ascii_of_string q)) = s ∧
  (∀ t, quote t = q → t = s) ∧
  (q = "." ↔ s = ".") ∧ (q = ".." ↔ s = "..").
Proof.
  assert (∀ t, string_of_list_ascii (unquote_chars (list_ascii_of_string (quote t))) = t) as Hu.
  { intros t. unfold quote. rewrite list_ascii_of_string_of_list_ascii, unquote_quoted.
    apply string_of_list_ascii_of_string. }
  assert (∀ t u, quote t = quote u → t = u) as Hinj by (intros t u E; rewrite <- (Hu t), <- (Hu u); by rewrite E).
  split_and!.
  - unfold quote. rewrite list_ascii_of_string_of_list_ascii. apply quoted_safe.
  - apply Hu.
  - intros t E. by apply Hinj.
  - split; [intros E; by apply Hinj|by intros ->].
  - split; [intros E; by apply Hinj|by intros ->].
Qed.

(** ** What a call lets through *)

Section Calls.
Context {X : Type} `{!Http X}.
Context (loads : bytes → result json) (py_str : json → string) (validate : string → bytes → result obj).
Context (base_url : string) (directory_timeout timeout : Z).

(** Every answer of the call satisfies a check. *)
Definition answers (c : M X obj) (p : obj → bool) : Prop := ∀ s v, (c s).1 = Ok v → p v = true.

Lemma answers_bind {A} (c : M X A) f p : (∀ a, answers (f a) p) → answers (c ≫= f) p.
Proof. intros Hf s v. unfold mbind, M_bind. destruct (c s) as [[a|e] s']; [apply Hf|done]. Qed.

Lemma answers_ask authority model r checks p :
  (∀ v, Forall (λ c : (obj → bool) * string, c.1 v = true) checks → p v = true) →
  answers (Upstream.ask loads py_str validate authority model r checks) p.
Proof.
  intros Hp s v. unfold Upstream.ask. unfold mbind, M_bind. destruct (request _ _ s) as [[resp|e] s']; [|done].
  unfold lift. destruct (Upstream.parse _ _ _ _ _ _) as [w|e]; [|done].
  destruct (next_or_none _ checks) as [[c m]|] eqn:En; [done|]. intros [= ->]. apply Hp. apply Forall_forall.
  intros c Hc. destruct (c.1 v) eqn:Ev; [done|]. unfold next_or_none in En.
  destruct (List.filter _ checks) as [|x l] eqn:El; [|done].
  assert (c ∈ List.filter (λ c : (obj → bool) * string, negb (c.1 v)) checks) as Hin.
  { apply list_elem_of_In, filter_In. split; [by apply list_elem_of_In|]. by rewrite Ev. }
  rewrite El in Hin. by apply not_elem_of_nil in Hin.
Qed.

Lemma answers_guard b e c p : answers c p → answers (guard_py b e ;; c) p.
Proof. intros H s v. rewrite bind_guard. destruct b; [done|apply H]. Qed.
End Calls.

(** Walks to the [ask] a call ends in, and reads its checks. *)
Ltac checked :=
  repeat first [apply answers_ask | apply answers_bind; intros ?]; intros ? Hv;
  repeat (apply Forall_cons in Hv as [? Hv]); cbn [fst snd] in *; rewrite ?andb_true_iff in *; tauto.


Section Scope.
Context {X D : Type} `{!Http X} `{!DeviceReference D}.
Context (loads : bytes → result json) (py_str : json → string) (validate : string → bytes → result obj).
Context (base_url : string) (directory_timeout timeout : Z) (sha256_hex : bytes → string)
        (dump_ref : D → doc) (device_ref_of : obj → D).
(** A call that asks the directory first, and one that does not. *)
Local Notation "'via' f" := (f loads py_str validate base_url directory_timeout timeout) (at level 9).
Local Notation "'straight' f" := (f loads py_str validate timeout) (at level 9).

End Scope.

(** ** What is never sent *)

Section Silence.
Context {X : Type} `{!Http X}.
Context (loads : bytes → result json) (py_str : json → string) (validate : string → bytes → result obj).
Context (base_url : string) (directory_timeout timeout : Z) (sha256_hex : bytes → string).
Local Notation "'via' f" := (f loads py_str validate base_url directory_timeout timeout) (at level 9).
Local Notation "'straight' f" := (f loads py_str validate timeout) (at level 9).

(** Refused where it stands: nothing is asked of anybody. *)
Definition silent {A} (authority detail : string) (c : M X A) : Prop :=
  ∀ s, c s = (Raise (refuse authority "configuration" detail 503 false), s).
Definition missing_hub_credential : exn :=
  refuse "hub" "unauthorized" "Bearer Hub management credential required" 401 false.

(** Without its credential a client asks nobody.  On a Host that was not
    given the credential of Data, of the workspace authority, of Memory or of
    the Agent, every call is refused as a configuration before anything is
    sent, the directory included; and a call to Hub under a blank
    authorization sends Hub nothing, whatever the directory answers. *)
Theorem no_credential_no_request owner companion a b c d e f n m p q r h doc_ payload :
  Forall (silent "data" "Admin Data authority credential is not configured")
    [via get_companion "" companion; via list_owner_companions "" owner c n; via get_owner_companion "" owner companion;
     via rename_companion "" companion a; via get_persona_timeline "" companion; via restore_persona "" companion a b;
     via persona_authoring_template ""; via persona_presets ""; via get_persona "" companion;
     via author_persona "" companion p; via get_companion_face_state "" companion; via set_companion_face "" companion q;
     via clear_companion_face "" companion; via get_owner_default_runtime "" owner] ∧
  silent "data" "Admin Data authority credential is not configured"
    (get_companion_face validate base_url directory_timeout timeout "" companion) ∧
  Forall (silent "data" "Admin Data workspace authority credential is not configured")
    [via smarthome_registry "" owner a b doc_ n; via initialize_workspace "" sha256_hex a payload;
     via get_workspace_operation "" a; via get_owner "" owner; via rename_owner "" owner a;
     via provision_companion "" owner a b e doc_ doc_ c c; via set_default_companion "" owner companion r;
     via list_governance_events "" owner n m; via set_companion_lifecycle "" owner companion a n c] ∧
  Forall (silent "memory" "Admin memory service credential is not configured")
    [straight recollections d "" owner a r c; straight browse d "" owner c; straight memory_status d "" owner c;
     straight graph d "" owner c c h; straight entries d "" owner a n c c; straight export d "" owner c c c;
     straight forget_preview d "" owner a; straight forget_confirm d "" owner a; straight forget_status d "" owner a] ∧
  Forall (silent "agent" "Admin Agent service credential is not configured")
    [straight list_conversations d "" owner companion r c; straight list_transcript d "" owner companion a r c;
     straight list_tasks d "" owner companion r c c; straight get_task d "" owner a; straight cancel_task d "" owner a;
     straight retry_task d "" owner a; straight companion_activity d "" owner; straight revoke_runtime_sessions d "" owner;
     straight preview_persona d "" p owner] ∧
  (∀ model request checks s, strip f = "" →
     hub_ask loads py_str validate base_url directory_timeout f model request checks s =
       match hub_base validate base_url directory_timeout s with
       | (Ok _, s') => (Raise missing_hub_credential, s')
       | (Raise ex, s') => (Raise ex, s')
       end).
Proof.
  split_and!; [| |..|].
  all: try (repeat (apply Forall_cons; split); first [apply Forall_nil; exact I | by intros s]).
  intros model request checks s Hf. unfold hub_ask, mbind, M_bind.
  destruct (hub_base _ _ _ s) as [[base|ex] s']; [|done]. unfold hub_headers. by rewrite bool_decide_eq_true_2.
Qed.

End Silence.

(** A network whose every answer is empty, and a directory that knows Hub. *)
Definition empty_network : Http (list http_request) := {| send := λ r l, (Ok (mkHttpResponse 200 []), l ++ [r]) |}.
Definition known_hub (_ : string) (_ : bytes) : result obj :=
  Ok [("service_id", JStr "hub"); ("endpoint_id", JStr "device-authority.http"); ("protocol", JStr "http");
      ("address", JStr "http://hub"); ("contract", JStr HUB_CONTRACT)].
#[local] Existing Instance empty_network.

Lemma no_credential_no_request_witness :
  let r := hub_ask (λ _, Ok JNull) (λ _, "") known_hub "http://directory" 1 "  " "ClaimPage"
    (λ base headers, mk_get 1 headers None base) [] [] in
  r.1 = Raise missing_hub_credential ∧ length r.2 = 1.
Proof.
  pose proof (proj2 (proj2 (proj2 (proj2 (proj2 (no_credential_no_request (λ _, Ok JNull) (λ _, "") known_hub "http://directory" 1 1
    (λ _, "") "" "" "" "" None "" "" "  " None None DNull [] 0 false None (mkWorkspaceRequest "" "" None None None None))))))
    "ClaimPage" (λ base headers, mk_get 1 headers None base) [] [] eq_refl) as H.
  cbv zeta. rewrite H. by vm_compute.
Defined.

(** ** Which refusals reach a wire *)

(** [install_authority_failure_handler]: the response a refusal becomes; when
    it cannot be serialised the framework answers 500. *)
Definition authority_response (f : authority_failure) : Z * option WorkflowFailure :=
  match to_wire f with Ok w => (f.(af_status_code), Some w) | Raise _ => (500%Z, None) end.

Section Wire.
Context {X D : Type} `{!Http X} `{!DeviceReference D}.
Context (loads : bytes → result json) (py_str : json → string) (validate : string → bytes → result obj).
Context (base_url : string) (directory_timeout timeout : Z) (sha256_hex : bytes → string)
        (dump_ref : D → doc) (device_ref_of : obj → D).
Local Notation "'via' f" := (f loads py_str validate base_url directory_timeout timeout) (at level 9).
Local Notation "'straight' f" := (f loads py_str validate timeout) (at level 9).

(** Whatever refusal the call raises can be serialised. *)
Definition can_say (e : exn) : Prop := ∀ f, e = AuthorityFailure f → is_Some (dict_get f.(af_kind) PUBLIC_REFUSAL_KIND).
Definition wire_ready {A} (c : M X A) : Prop := ∀ s e, (c s).1 = Raise e → can_say e.

(** The libraries know nothing of this exception. *)
Context (send_foreign : ∀ r s e f, (send r s).1 = Raise e → e ≠ AuthorityFailure f)
        (loads_foreign : ∀ b e f, loads b = Raise e → e ≠ AuthorityFailure f)
        (validate_foreign : ∀ m b e f, validate m b = Raise e → e ≠ AuthorityFailure f).

Lemma wire_bind {A B} (c : M X A) (f : A → M X B) : wire_ready c → (∀ a, wire_ready (f a)) → wire_ready (c ≫= f).
Proof.
  intros Hc Hf s e. unfold mbind, M_bind. specialize (Hc s). destruct (c s) as [[a|e'] s']; [apply Hf|].
  intros [= ->]. by apply Hc.
Qed.
Lemma wire_ret {A} (a : A) : wire_ready (mret a).
Proof. by intros s e [=]. Qed.
Lemma wire_raise {A} e : can_say e → wire_ready (raise e : M X A).
Proof. by intros H s e' [= <-]. Qed.
Lemma wire_lift {A} (r : result A) : (∀ e, r = Raise e → can_say e) → wire_ready (lift r).
Proof. intros H s e He. apply H. exact He. Qed.
Lemma wire_guard b e : can_say e → wire_ready (guard_py b e).
Proof. intros H s e' He. destruct b; [by injection He as <-|done]. Qed.

Lemma say_refuse a k d s r : is_Some (dict_get k PUBLIC_REFUSAL_KIND) → can_say (refuse a k d s r).
Proof. by intros H f [= <-]. Qed.
Lemma say_violation a d : can_say (contract_violation a d).
Proof. apply say_refuse. vm_compute. by eexists. Qed.
Lemma say_directory k d s u r : is_Some (dict_get k PUBLIC_REFUSAL_KIND) → can_say (directory_failure k d s u r).
Proof. by intros H f [= <-]. Qed.
Lemma say_status a r : can_say (raise_status loads py_str a r).
Proof.
  intros f. unfold raise_status. destruct (response_detail _ _ _) as [d c].
  repeat (destruct (_ =? _)%Z; cbn [orb]); repeat (destruct (_ <=? _)%Z); intros [= <-]; vm_compute; by eexists.
Qed.
Lemma say_foreign (e : exn) : (∀ f, e ≠ AuthorityFailure f) → can_say e.
Proof. intros H f ->. by destruct (H f). Qed.

Lemma wire_request a r : wire_ready (request a r).
Proof.
  intros s e. unfold request, catch. destruct (send r s) as [[x|e'] s'] eqn:E; [done|].
  assert (can_say e') as He by (apply say_foreign; intros f; apply (send_foreign r s); by rewrite E).
  destruct e'; cbn; first [by intros [= <-] | intros [= <-]; apply say_refuse; vm_compute; by eexists].
Qed.

Lemma parse_says a m r e : Upstream.parse loads py_str validate a m r = Raise e → can_say e.
Proof.
  unfold Upstream.parse. destruct (negb _); [intros [= <-]; apply say_status|].
  destruct (validate _ _) as [v|e'] eqn:E; [done|]. pose proof (λ f, validate_foreign _ _ _ f E) as Hf.
  destruct e'; intros [= <-]; first [apply say_violation | by apply say_foreign].
Qed.

Lemma wire_parse a m r : wire_ready (lift (Upstream.parse loads py_str validate a m r)).
Proof. apply wire_lift, parse_says. Qed.
Lemma wire_loads b : wire_ready (lift (loads b)).
Proof. apply wire_lift. intros e He. apply say_foreign. intros f. by apply (loads_foreign b). Qed.

Lemma wire_ask a m r checks : wire_ready (Upstream.ask loads py_str validate a m r checks).
Proof.
  unfold Upstream.ask. apply wire_bind; [apply wire_request|intros resp]. apply wire_bind; [apply wire_parse|intros v].
  destruct (next_or_none _ _) as [[c w]|]; [apply wire_raise, say_violation|apply wire_ret].
Qed.

Lemma wire_resolve i e c : wire_ready (Upstream.resolve validate base_url directory_timeout i e c).
Proof.
  assert (∀ k d s u r, is_Some (dict_get k PUBLIC_REFUSAL_KIND) → ∀ A, wire_ready (raise (directory_failure k d s u r) : M X A)) as Hd
    by (intros; by apply wire_raise, say_directory).
  unfold Upstream.resolve, directory_violation. apply wire_bind.
  - intros s ex. unfold catch. destruct (send _ s) as [[x|e'] s'] eqn:E; [done|].
    match type of E with send ?q _ = _ =>
      assert (can_say e') as He by (apply say_foreign; intros f; apply (send_foreign q s); by rewrite E) end.
    destruct e'; cbn; first [by intros [= <-] | intros [= <-]; apply say_directory; vm_compute; by eexists].
  - intros r. repeat (destruct (_ || _) || destruct (negb _)); try (apply Hd; vm_compute; by eexists).
    destruct (validate _ _) as [v|e'] eqn:E.
    + apply wire_lift. intros ex. unfold check_endpoint, directory_violation.
      repeat case_match; intros [= <-]; apply say_directory; vm_compute; by eexists.
    + pose proof (λ f, validate_foreign _ _ _ f E) as Hf.
      destruct e'; first [apply Hd; vm_compute; by eexists | by apply wire_raise, say_foreign].
Qed.

Lemma wire_send r : wire_ready (send r : M X http_response).
Proof. intros s e He. apply say_foreign. intros f. by apply (send_foreign r s). Qed.
Lemma wire_needs a t d : wire_ready (needs_credential a t d : M X unit).
Proof. apply wire_guard, say_refuse. vm_compute. by eexists. Qed.
Lemma wire_ignore {A} (c : M X A) : wire_ready c → wire_ready (c ;; mret ()).
Proof. intros H. apply wire_bind; [done|]. intros _. apply wire_ret. Qed.

Lemma wire_realm_url r e : realm_url r = Raise e → can_say e.
Proof.
  unfold realm_url. repeat case_match; intros [= <-];
    first [apply say_violation | apply say_refuse; vm_compute; by eexists].
Qed.
Lemma wire_choose o l e : choose_space o l = Raise e → can_say e.
Proof.
  unfold choose_space. destruct l; try (intros [= <-]; apply say_violation).
  all: try (destruct (owned_realms o _) as [|r [|r' l']]; [|apply wire_realm_url|]); intros [= <-]; apply say_refuse; vm_compute; by eexists.
Qed.
Lemma wire_path u l e : realm_path u l = Raise e → can_say e.
Proof. unfold realm_path. destruct (last_prefix _); [done|]. intros [= <-]. apply say_violation. Qed.
Lemma wire_hub_headers a e : hub_headers a = Raise e → can_say e.
Proof. unfold hub_headers. destruct (bool_decide _); [|done]. intros [= <-]. apply say_refuse. vm_compute. by eexists. Qed.

(** Whatever the interpreter leaves of a call, one step at a time. *)
Ltac said :=
  first [apply say_violation | apply say_status | apply say_refuse; vm_compute; by eexists
        | apply say_foreign; intros f; discriminate].
Ltac wire_step :=
  match goal with
  | |- wire_ready (mbind _ _) => apply wire_bind; [|intros ?]
  | |- wire_ready (mret _) => apply wire_ret
  | |- wire_ready (raise _) => apply wire_raise; said
  | |- wire_ready (guard_py _ _) => apply wire_guard; said
  | |- wire_ready (needs_credential _ _ _) => apply wire_needs
  | |- wire_ready (Upstream.resolve _ _ _ _ _ _) => apply wire_resolve
  | |- wire_ready (Upstream.ask _ _ _ _ _ _ _) => apply wire_ask
  | |- wire_ready (request _ _) => apply wire_request
  | |- wire_ready (send _) => apply wire_send
  | |- wire_ready (lift (Upstream.parse _ _ _ _ _ _)) => apply wire_parse
  | |- wire_ready (lift (hub_headers _)) => apply wire_lift, wire_hub_headers
  | |- wire_ready (lift (realm_path _ _)) => apply wire_lift, wire_path
  | |- wire_ready (lift (choose_space _ _)) => apply wire_lift, wire_choose
  | |- wire_ready (lift (loads _)) => apply wire_loads
  | |- wire_ready (match validate ?m ?b with _ => _ end) =>
      let E := fresh "E" in destruct (validate m b) as [?|[]] eqn:E;
      try (exfalso; by eapply (validate_foreign m b _ _ E)); cbn beta iota
  | |- wire_ready (lift (validate ?m ?b)) => apply wire_lift; intros ??; apply say_foreign; intros ?; by eapply validate_foreign
  | |- wire_ready (match loads ?b with _ => _ end) => destruct (loads b) as [[]|]
  | |- wire_ready (if ?b then _ else _) => destruct b
  | |- wire_ready (let _ := _ in _) => cbv zeta
  | |- wire_ready (lift (Ok _)) => by apply wire_lift
  | |- wire_ready (lift (Raise _)) => apply wire_lift; intros ? [= <-]; said
  end.

(** Opens a call down to the steps of every client. *)
Ltac opened :=
  unfold get_companion, list_owner_companions, get_owner_companion, rename_companion, get_persona_timeline,
    restore_persona, persona_authoring_template, persona_presets, companion_document, get_persona, author_persona,
    get_companion_face_state, companion_call, clear_companion_face, face_request, get_owner_default_runtime,
    companion_authority, data_endpoint, smarthome_registry, initialize_workspace, get_workspace_operation, get_owner,
    rename_owner, owner_call, provision_companion, set_default_companion, list_governance_events,
    set_companion_lifecycle, workspace_authority, recollections, browse, memory_status, graph, entries, export,
    forget_preview, forget_confirm, forget_status, realm_read, realm_call, space_for, list_conversations,
    list_transcript, list_tasks, get_task, cancel_task, retry_task, companion_activity, revoke_runtime_sessions,
    preview_persona, agent_read, agent_call, hub_decide, device_conversation, role_group, conversation_command,
    shared_session, read_device_output_configuration, set_device_output_policy, hub_enrollment_recovery,
    list_enrollment_recovery, list_claims, list_authorized_enrollments, list_authorized_claims, revoke,
    get_device_control_operation, smarthome_call, client_mount, client_replace_assignment,
    client_list_body_endpoints, client_list_mounts, kernel_ask, kernel_base, request_reconcile,
    get_companion_face, base_identity_for_key, record_commissioning_standing, withdraw_controller, hub_json, hub_ask, hub_base, face_request, companion_authority, data_endpoint.

(** A call with a timeout of its own, and one that reads no refusal. *)
Local Notation "'raw' f" := (f loads validate base_url directory_timeout timeout) (at level 9).
Local Notation "'slow' f" := (f loads py_str validate base_url directory_timeout) (at level 9).

(** Every refusal of the call is answered with the status and the body the
    refusal is. *)
Definition served {A} (c : M X A) : Prop :=
  ∀ s f, (c s).1 = Raise (AuthorityFailure f) → ∃ w, authority_response f = (f.(af_status_code), Some w).
Lemma ready_served {A} (c : M X A) : wire_ready c → served c.
Proof.
  intros H s f He. destruct (H s _ He f eq_refl) as [w Hw]. unfold authority_response, to_wire. rewrite Hw. by eexists.
Qed.
(** A refusal the code has no word for becomes an error of the server. *)
Definition unserved (kind : string) (p : Z → Prop) (f : authority_failure) : Prop :=
  f.(af_kind) = kind ∧ p f.(af_status_code) ∧ authority_response f = (500%Z, None).
Definition served_but {A} (kind : string) (p : Z → Prop) (c : M X A) : Prop :=
  ∀ s f, (c s).1 = Raise (AuthorityFailure f) →
    (∃ w, authority_response f = (f.(af_status_code), Some w)) ∨ unserved kind p f.

(** [c], when its first request was answered with one of the statuses, raises
    that refusal; otherwise it can go on. *)
Lemma served_guard {A} kind (p : Z → Prop) b e (c : M X A) :
  (∀ f, b = true → e = AuthorityFailure f → unserved kind p f) → wire_ready c →
  served_but kind p (guard_py b e ;; c).
Proof.
  intros He Hc s f. rewrite bind_guard. destruct b.
  - intros [= Hf]. right. by apply He.
  - intros Hf. left. by eapply ready_served.
Qed.
Lemma served_bind {A B} kind p (c : M X A) (k : A → M X B) :
  wire_ready c → (∀ a, served_but kind p (k a)) → served_but kind p (c ≫= k).
Proof.
  intros Hc Hk s f. unfold mbind, M_bind. pose proof (λ e, ready_served c Hc s e) as Hs.
  destruct (c s) as [[a|e] s']; [apply Hk|]. intros [= ->]. left. by apply Hs.
Qed.

Definition face_refusals (status : Z) : Prop := (status = 413 ∨ status = 415 ∨ status = 422)%Z.

(** Every refusal of a client reaches the wire, two apart.  Whatever the
    network and the authorities answer, a call that refuses does it with a
    kind the boundary has a word for, so the caller is answered with the
    refusal's own status and body.  The two: Data refusing the content of a
    face (413, 415, 422) and the Memory supervisor answering an error are
    refused with kinds the boundary does not know, and whoever asked is
    answered 500. *)
Theorem client_refusals_serialise owner companion operation task device enrollment state payload d r n
    (doc_ : option doc) (q : page_query) (kv : list (string * doc)) t u a b c h cid rid dd same ss face :
  Forall (λ x : M X obj, served x)
    [via get_companion t companion; via list_owner_companions t owner cid n; via get_owner_companion t owner companion;
     via rename_companion t companion a; via get_persona_timeline t companion; via restore_persona t companion a b;
     via persona_authoring_template t; via persona_presets t; via get_persona t companion;
     via author_persona t companion dd; via get_companion_face_state t companion; via clear_companion_face t companion;
     via get_owner_default_runtime t owner;
     via smarthome_registry t owner a b doc_ n; via initialize_workspace t sha256_hex operation payload;
     via get_workspace_operation t operation; via get_owner t owner; via rename_owner t owner a;
     via provision_companion t owner operation a b doc_ doc_ cid rid; via set_default_companion t owner companion r;
     via list_governance_events t owner n n; via set_companion_lifecycle t owner companion state n rid;
     straight recollections u t owner a r cid; straight browse u t owner cid; straight memory_status u t owner cid;
     straight graph u t owner cid rid h; straight entries u t owner a n cid rid; straight export u t owner cid rid cid;
     straight forget_preview u t owner a; straight forget_confirm u t owner a; straight forget_status u t owner a;
     straight list_conversations u t owner companion r cid; straight list_transcript u t owner companion a r cid;
     straight list_tasks u t owner companion r cid rid; straight get_task u t owner task; straight cancel_task u t owner task;
     straight retry_task u t owner task; straight companion_activity u t owner; straight revoke_runtime_sessions u t owner;
     straight preview_persona u t dd owner;
     via hub_decide enrollment r kv a b t; slow device_conversation a dd b t; slow role_group a dd b t;
     slow shared_session a dd b t;
     via read_device_output_configuration device_ref_of dd d t; via set_device_output_policy dd same t;
     via hub_enrollment_recovery enrollment t; via list_enrollment_recovery q t; via list_claims q t;
     via list_authorized_enrollments t ss r; via list_authorized_claims t ss r;
     via revoke dump_ref device_ref_of d a b c t; via get_device_control_operation device_ref_of d a t;
     via smarthome_call t owner a kv;
     via client_mount owner device a r h; via client_replace_assignment owner device cid a r b rid;
     via client_list_body_endpoints owner; via client_list_mounts owner r] ∧
  Forall (λ x : M X json, served x)
    [raw base_identity_for_key t a; raw record_commissioning_standing t a b; raw withdraw_controller t a] ∧
  served (get_companion_face validate base_url directory_timeout timeout t companion) ∧
  served (request_reconcile timeout u) ∧
  served_but "rejected" face_refusals (via set_companion_face t companion face) ∧
  served_but "runtime_unavailable" (λ status, 400 <= status)%Z (list_realms validate timeout u) ∧
  (* and both are reached *)
  (∀ s r' s', face_request validate base_url directory_timeout timeout t "PUT" companion (Some face)
                [("Content-Type", "image/jpeg")] s = (Ok r', s') → face_refusals r'.(status_code) →
     via set_companion_face t companion face s =
       (Raise (refuse "data" "rejected" "companion face was refused" r'.(status_code) false), s')) ∧
  (∀ s r' s', send (mk_get timeout [] None (rstrip_slash u +:+ "/api/admin/realms")) s = (Ok r', s') →
     (400 <= r'.(status_code))%Z →
     list_realms validate timeout u s =
       (Raise (refuse "memory" "runtime_unavailable" ("Memory Supervisor returned HTTP " +:+ pretty r'.(status_code))
                 r'.(status_code) false), s')).
Proof.
  split_and!.
  1, 2: repeat (apply Forall_cons; split); try (apply Forall_nil; exact I).
  all: try (apply ready_served; opened; solve [repeat wire_step]).
  - apply ready_served. unfold request_reconcile, catch. intros s e.
    match goal with |- context [send ?q] => set (sent := q) end. unfold mbind, M_bind, mret, M_ret.
    pose proof (send_foreign sent s) as Hs. destruct (send sent s) as [[x|e'] s']; [done|].
    destruct e'; cbn; intros [= <-]; apply say_foreign; intros g; by apply Hs.
  - unfold set_companion_face. apply served_bind; [opened; repeat wire_step|]. intros resp. cbv zeta. apply served_guard.
    + intros f Hb [= <-]. repeat split. cbn. unfold face_refusals. lia.
    + apply wire_parse.
  - unfold list_realms. apply served_bind; [repeat wire_step|]. intros resp. cbv zeta. apply served_guard.
    + intros f Hb [= <-]. repeat split. cbn. lia.
    + repeat wire_step.
  - intros s r' s' E Hr. unfold set_companion_face. rewrite (bind_ok _ _ _ _ _ E). cbv zeta. rewrite bind_guard.
    replace (_ || _)%bool with true by (unfold face_refusals in Hr; lia). done.
  - intros s r' s' E Hr. unfold list_realms. rewrite (bind_ok _ _ _ _ _ E). cbv zeta. rewrite bind_guard.
    by replace (_ <=? _)%Z with true by lia.
Qed.
End Wire.

(** A network that answers the directory, and refuses what is uploaded. *)
Definition refusing_network : Http (list http_request) :=
  {| send := λ r l, (Ok (mkHttpResponse (if bool_decide (r.(hr_method) = "PUT") then 413 else 200) []), l ++ [r]) |}.
Definition known_data (_ : string) (_ : bytes) : result obj :=
  Ok [("service_id", JStr "data"); ("endpoint_id", JStr "companion-authority.http"); ("protocol", JStr "http");
      ("address", JStr "http://data"); ("contract", JStr DATA_CONTRACT)].

Definition a_device : DeviceReference string := {|
  dref_eq_dec := _; device_instance_id := id; owner_domain_id := λ _, ""; owner_domain_generation := λ _, 1%Z;
  claim_generation := λ _, 1%Z; trust_epoch := λ _, 1%Z |}.

Lemma client_refusals_serialise_witness :
  ∃ f, (@set_companion_face _ refusing_network (λ _, Ok JNull) (λ _, "") known_data "http://directory" 1 1 "token" "c" [] []).1
         = Raise (AuthorityFailure f) ∧ authority_response f = (500%Z, None).
Proof.
  assert (∀ r s e f, (@send _ refusing_network r s).1 = Raise e → e ≠ AuthorityFailure f) as Hs by done.
  assert (∀ (b : bytes) e f, (Ok JNull : result json) = Raise e → e ≠ AuthorityFailure f) as Hl by done.
  assert (∀ m b e f, known_data m b = Raise e → e ≠ AuthorityFailure f) as Hv by done.
  pose proof (@client_refusals_serialise _ string refusing_network a_device (λ _, Ok JNull) (λ _, "") known_data "http://directory" 1 1
    (λ _, "") (λ _, DNull) (λ _, "") Hs Hl Hv "" "c" "" "" "" "" "" (mkWorkspaceRequest "" "" None None None None)
    "" 0 None None (mkPageQuery "" [] 0 None) [] "token" "" "" "" "" false None None DNull (λ _, true) [] [])
    as (_ & _ & _ & _ & Hf & _).
  set (f := mkAuthorityFailure "data" "rejected" "companion face was refused" 413 None false None).
  exists f. split; [by vm_compute|].
  destruct (Hf [] f) as [[w Hw]|(_ & _ & Hr)]; [by vm_compute| |exact Hr]. by vm_compute in Hw.
Defined.
