(* ===== verification/Management.v ===== *)
(** * The management plane: a Companion's life

    [app/management/]: what a management client is told first (context.py), and
    what it can do to a Companion: create, name, portray, author, archive and
    restore (creation.py, naming.py, faces.py, persona.py, lifecycle.py,
    roster.py).  Every protocol of these modules is a type class; a module's
    parameters of that protocol are its instances. *)

From S2P Require Import Prelude Encoding RemovalWorkflow OperatorAdmission.

(** ** What the authorities answer *)

Record OwnerIdentity := mkOwner {
  oi_owner_id : string; oi_display_name : string; oi_revision : Z; oi_default_companion_id : option string }.
Record CompanionIdentity := mkCompanion {
  ci_companion_id : string; ci_display_name : string; ci_kind : string; ci_lifecycle_state : string; ci_revision : Z }.

(** ** context.py *)

Class OwnerReader (X : Type) := { authority_get_owner : string → M X OwnerIdentity }.

Record ManagementContext := mkContext {
  mc_owner_id : string; mc_owner_display_name : string; mc_owner_revision : Z;
  mc_default_companion_id : option string; capabilities : list (string * bool);
  unavailable : list (string * string); limits : list (string * option Z) }.

Definition CAPABILITIES : list string :=
  ["home.read"; "companion.read"; "companion.create"; "companion.rename"; "owner.rename"; "companion.set_default";
   "companion.face"; "companion.archive"; "companion.restore"; "persona.read"; "persona.govern"; "persona.author";
   "memory.read"; "memory.govern"; "memory.export"; "device.read"; "device.manage"; "device.identify"; "body.assign";
   "activity.read"; "conversation.read"; "task.read"; "task.manage"; "host.read"; "host.operate";
   "controller.manage"; "session.revoke"].
Definition ENABLED : list string :=
  ["companion.read"; "companion.create"; "companion.set_default"; "home.read"; "memory.read"; "memory.govern";
   "persona.read"; "persona.govern"; "persona.author"; "memory.export"; "companion.archive"; "companion.restore";
   "companion.rename"; "owner.rename"; "companion.face"; "controller.manage"; "host.read"; "host.operate";
   "device.read"; "device.manage"; "body.assign"; "activity.read"; "conversation.read"; "task.read"; "task.manage";
   "session.revoke"].
Definition CAPABILITY_AUTHORITIES : list (string * list string) :=
  [("memory.read", ["memory"]); ("memory.govern", ["memory"]); ("memory.export", ["memory"]);
   ("conversation.read", ["agent"]); ("task.read", ["agent"]); ("task.manage", ["agent"]); ("session.revoke", ["agent"])].
Definition WITHHELD_NOT_BUILT : string := "not_built".
Definition WITHHELD_HOST_NOT_CONFIGURED : string := "host_not_configured".

(** Why a capability is withheld from a Host that holds these credentials. *)
Definition withheld (held : list string) (name : string) : option string :=
  if negb (bool_decide (name ∈ ENABLED)) then Some WITHHELD_NOT_BUILT
  else if negb (forallb (λ a, bool_decide (a ∈ held)) (default [] (dict_get name CAPABILITY_AUTHORITIES)))
       then Some WITHHELD_HOST_NOT_CONFIGURED
       else None.
Definition unavailable_of (held : list string) : list (string * string) :=
  foldl (λ d name, match withheld held name with Some why => dict_set name why d | None => d end) [] CAPABILITIES.
(** [name not in unavailable], for every name. *)
Definition capabilities_of (unavailable : list (string * string)) : list (string * bool) :=
  foldl (λ d name, dict_set name (negb (bool_decide (name ∈ unavailable.*1))) d) [] CAPABILITIES.

Definition read_context {X} `{!OwnerReader X} (owner_id : string) (held : list string) : M X ManagementContext :=
  owner ← authority_get_owner owner_id;
  let unavailable := unavailable_of held in
  mret (mkContext owner.(oi_owner_id) owner.(oi_display_name) owner.(oi_revision) owner.(oi_default_companion_id)
          (capabilities_of unavailable) unavailable [("max_active_companions", None)]).

(** ** lifecycle.py *)

Record CompanionLifecycleResult := mkLifecycle {
  lr_companion_id : string; lr_lifecycle_state : string; lr_revision : Z; lr_default_companion_id : option string }.
Class CompanionLifecycleWriter (X : Type) := {
  (** Owner, Companion, state, expected revision, replacement *)
  authority_set_lifecycle : string → string → string → option Z → option string → M X CompanionLifecycleResult }.
Class CompanionBodyRegistrar (X : Type) := {
  registrar_endpoints : string → M X (list KernelBodyEndpoint);
  (** Owner, device, request, expected revision, reason *)
  registrar_release : string → string → string → Z → string → M X unit }.

(** What a running Admin passes: its control-plane service. *)
Definition service_bodies {F X} `{!OperatorAuthorities F X} : CompanionBodyRegistrar X :=
  {| registrar_endpoints := list_owner_body_endpoints; registrar_release := release_device |}.

Record CompanionLifecycleView := mkLifecycleView {
  lv_companion_id : string; lv_lifecycle_state : string; lv_revision : Z; lv_default_companion_id : option string;
  released_devices : list string }.
Definition lifecycle_view (r : CompanionLifecycleResult) : CompanionLifecycleView :=
  mkLifecycleView r.(lr_companion_id) r.(lr_lifecycle_state) r.(lr_revision) r.(lr_default_companion_id) [].

Section Lifecycle.
(** [hashlib.sha256(...).hexdigest()] *)
Context (sha256_hex : bytes → string).
(** The SDK's words for the two states. *)
Context (LIFECYCLE_ACTIVE LIFECYCLE_ARCHIVED : string).

Definition release_preimage (companion device : string) : bytes :=
  list_ascii_of_string companion ++ [Ascii.zero] ++ list_ascii_of_string device.
Definition release_request_id (companion device : string) : string :=
  "companion-archive-" +:+ sha256_hex (release_preimage companion device).

Context {X : Type} `{!CompanionLifecycleWriter X} `{!CompanionBodyRegistrar X}.

(** The loop of [_release_bodies] over the listed endpoints. *)
Fixpoint release_each (owner companion : string) (endpoints : list KernelBodyEndpoint) : M X (list string) :=
  match endpoints with
  | [] => mret []
  | e :: rest =>
      match e.(be_assignment) with
      | Some a =>
          if bool_decide (a.(ba_companion_id) = Some companion) then
            registrar_release owner e.(be_device_id) (release_request_id companion e.(be_device_id))
              a.(ba_revision) "companion-archived" ;;
            released ← release_each owner companion rest;
            mret (e.(be_device_id) :: released)
          else release_each owner companion rest
      | None => release_each owner companion rest
      end
  end.
Definition release_bodies (owner companion : string) : M X (list string) :=
  endpoints ← registrar_endpoints owner;
  release_each owner companion endpoints.

Definition put_away (owner companion : string) (replacement : option string) (expected_revision : option Z)
    : M X CompanionLifecycleView :=
  released ← release_bodies owner companion;
  result ← authority_set_lifecycle owner companion LIFECYCLE_ARCHIVED expected_revision replacement;
  let view := lifecycle_view result in
  mret (mkLifecycleView view.(lv_companion_id) view.(lv_lifecycle_state) view.(lv_revision)
          view.(lv_default_companion_id) released).

Definition bring_back (owner companion : string) (expected_revision : option Z) : M X CompanionLifecycleView :=
  result ← authority_set_lifecycle owner companion LIFECYCLE_ACTIVE expected_revision None;
  mret (lifecycle_view result).
End Lifecycle.

(** ** creation.py *)

Record CompanionProvision := mkProvision { cp_companion : CompanionIdentity; memory_realm_created : bool; cp_replayed : bool }.
(** A request to provision, its optional parts as they are passed on. *)
Record provision_request := mkProvisionRequest {
  pr_operation_id : string; pr_display_name : string; pr_kind : string; pr_persona : option doc;
  pr_preferences : option doc; pr_source_preset_id : option string; pr_source_preset_revision : option string }.
Class CompanionProvisioner (X : Type) := { authority_provision : string → provision_request → M X CompanionProvision }.

Record CreatedCompanion := mkCreated {
  cc_companion_id : string; cc_display_name : string; cc_kind : string; cc_lifecycle_state : string;
  cc_revision : Z; created : bool; memory_ready : bool }.

(** [request_reconcile] of the supervisor's client, when there is one.  A preset
    revision without a preset is not passed on. *)
Definition create_companion {X} `{!CompanionProvisioner X} (reconcile : option (M X bool)) (owner : string)
    (r : provision_request) : M X CreatedCompanion :=
  provision ← authority_provision owner
    (mkProvisionRequest r.(pr_operation_id) r.(pr_display_name) r.(pr_kind) r.(pr_persona) r.(pr_preferences)
       r.(pr_source_preset_id)
       (if r.(pr_source_preset_id) is Some _ then r.(pr_source_preset_revision) else None));
  ready ← (if provision.(memory_realm_created)
           then match reconcile with Some ask => ask | None => mret false end
           else mret true);
  let c := provision.(cp_companion) in
  mret (mkCreated c.(ci_companion_id) c.(ci_display_name) c.(ci_kind) c.(ci_lifecycle_state) c.(ci_revision)
          (negb provision.(cp_replayed)) ready).

(** ** roster.py *)

Record CompanionSummary := mkSummary {
  cs_companion_id : string; cs_display_name : string; cs_kind : string; cs_lifecycle_state : string; cs_revision : Z;
  cs_created_at : string; cs_updated_at : string; cs_artwork_id : option string; cs_genome_id : option string;
  cs_memory_realm_id : option string }.
Record CompanionRosterPage := mkRosterPage {
  rp_owner_id : string; rp_default_companion_id : option string; rp_companions : list CompanionSummary;
  rp_next_cursor : option string }.
Class RosterReader (X : Type) := {
  authority_list_companions : string → option string → M X CompanionRosterPage;
  authority_get_companion : string → string → M X CompanionIdentity }.
(** When each Companion was last spoken to, by Companion. *)
Class ActivityReader (X : Type) := { runtime_companion_activity : string → M X (list (string * string)) }.

Record CompanionRow := mkRow { row_of : CompanionSummary; last_active_at : string }.
Record Roster := mkRoster {
  ro_owner_id : string; ro_default_companion_id : option string; ro_companions : list CompanionRow;
  ro_next_cursor : option string; activity_unavailable : string }.

(** [_activity_unavailable]: [getattr(error, "upstream_status", None) or
    getattr(error, "status_code", None)]. *)
Definition activity_unavailable_word (e : exn) : string :=
  let status := match e with
                | AuthorityFailure f =>
                    match f.(af_upstream_status) with
                    | Some n => if (n =? 0)%Z then Some f.(af_status_code) else Some n
                    | None => Some f.(af_status_code)
                    end
                | HTTPException n _ => Some n
                | _ => None
                end in
  if bool_decide (status = Some 503%Z) then "runtime_starting" else "runtime_unreachable".

Definition dict_of {A} (l : list (string * A)) : list (string * A) := foldl (λ d kv, dict_set kv.1 kv.2 d) [] l.

(** [read_roster], with the reader of the activity when there is one. *)
Definition read_roster {X} `{!RosterReader X} (activity : option (ActivityReader X)) (owner : string)
    (cursor : option string) : M X Roster :=
  page ← authority_list_companions owner cursor;
  '(last_spoken, unavailable) ←
    match activity with
    | None => mret ([], "runtime_not_configured")
    | Some reader =>
        catch (rows ← runtime_companion_activity owner; mret (dict_of rows, ""))
          (λ e, Some (mret ([], activity_unavailable_word e)))
    end;
  mret (mkRoster page.(rp_owner_id) page.(rp_default_companion_id)
          ((λ row, mkRow row (default "" (dict_get row.(cs_companion_id) last_spoken))) <$> page.(rp_companions))
          page.(rp_next_cursor) unavailable).

Record CompanionDetail := mkDetail { detail_of : CompanionIdentity; is_default : bool }.
Definition read_companion {X} `{!RosterReader X} `{!OwnerReader X} (owner companion : string) : M X CompanionDetail :=
  identity ← authority_get_companion owner companion;
  o ← authority_get_owner owner;
  mret (mkDetail identity (bool_decide (o.(oi_default_companion_id) = Some identity.(ci_companion_id)))).

Class DefaultCompanionWriter (X : Type) := { authority_set_default : string → string → Z → M X OwnerIdentity }.
Definition move_default_companion {X} `{!DefaultCompanionWriter X} (owner companion : string) (expected_revision : Z)
    : M X (option string) :=
  identity ← authority_set_default owner companion expected_revision;
  mret identity.(oi_default_companion_id).

(** ** naming.py *)

Class CompanionNamer (X : Type) := { authority_rename_companion : string → string → M X CompanionIdentity }.
Definition give_companion_name {X} `{!RosterReader X} `{!CompanionNamer X} (owner companion display_name : string)
    : M X CompanionIdentity :=
  authority_get_companion owner companion ;;
  authority_rename_companion companion display_name.
Class OwnerNamer (X : Type) := { authority_rename_owner : string → string → M X OwnerIdentity }.
Definition give_owner_name {X} `{!OwnerNamer X} (owner display_name : string) : M X OwnerIdentity :=
  authority_rename_owner owner display_name.

(** ** persona.py *)

Record PersonaChapter := mkChapter {
  ch_genome_id : string; ch_created_at : string; ch_change_summary : string; ch_restored_from_version : option Z;
  ch_is_current : bool; ch_lifecycle_state : string }.
Record PersonaTimeline := mkTimeline { tl_companion_id : string; tl_chapters : list PersonaChapter }.
(** [P] is what the SDK calls an edit request, [Q] the snapshot it answers. *)
Class PersonaHistorian (P Q X : Type) := {
  authority_persona_timeline : string → M X PersonaTimeline;
  authority_restore_persona : string → string → string → M X PersonaChapter;
  authority_get_persona : string → M X Q;
  authority_author_persona : string → P → string → M X Q }.

Record PersonaChapterView := mkChapterView {
  chapter_id : string; changed_at : string; what_changed : string; restored_from : option Z; is_current : bool }.
Record PersonaHistory := mkHistory { ph_companion_id : string; chapters : list PersonaChapterView }.

Definition current_chapter_id (h : PersonaHistory) : option string :=
  chapter_id <$> next_or_none is_current h.(chapters).
(** [_history] *)
Definition history_of (t : PersonaTimeline) : PersonaHistory :=
  mkHistory t.(tl_companion_id)
    ((λ c, mkChapterView c.(ch_genome_id) c.(ch_created_at) c.(ch_change_summary) c.(ch_restored_from_version)
             c.(ch_is_current)) <$>
     List.filter (λ c, bool_decide (c.(ch_lifecycle_state) = "committed")) t.(tl_chapters)).

(** "回到了那时候的样子" and "你改了它是谁", in UTF-8. *)
Definition OWNER_RESTORE_SUMMARY : string := "回到了那时候的样子".
Definition OWNER_AUTHORED_SUMMARY : string := "你改了它是谁".

Section Persona.
Context {P Q X : Type} `{!RosterReader X} `{!PersonaHistorian P Q X}.
Definition read_history (owner companion : string) : M X PersonaHistory :=
  authority_get_companion owner companion ;;
  t ← authority_persona_timeline companion;
  mret (history_of t).
Definition restore_chapter (owner companion chapter : string) : M X PersonaHistory :=
  authority_get_companion owner companion ;;
  t ← authority_persona_timeline companion;
  let before := history_of t in
  if bool_decide (current_chapter_id before = Some chapter) then mret before
  else
    authority_restore_persona companion chapter OWNER_RESTORE_SUMMARY ;;
    t ← authority_persona_timeline companion;
    mret (history_of t).
Definition read_persona (owner companion : string) : M X Q :=
  authority_get_companion owner companion ;;
  authority_get_persona companion.
Definition write_persona (owner companion : string) (authored : P) : M X Q :=
  authority_get_companion owner companion ;;
  authority_author_persona companion authored OWNER_AUTHORED_SUMMARY.
End Persona.

(** ** faces.py *)

Record CompanionFace := mkFace { fc_companion_id : string; has_face : bool; fc_sha256 : option string; fc_updated_at : option string }.
Class CompanionFaceKeeper (X : Type) := {
  authority_face_state : string → M X CompanionFace;
  authority_face : string → M X (option bytes);
  authority_set_face : string → bytes → M X CompanionFace;
  authority_clear_face : string → M X CompanionFace }.
Record FaceBytes := mkFaceBytes { fb_content : option bytes; fb_sha256 : option string; unchanged : bool }.

Section Faces.
Context (sha256_hex : bytes → string).
Context {X : Type} `{!RosterReader X} `{!CompanionFaceKeeper X}.
Definition read_face (owner companion : string) (known_sha256 : option string) : M X FaceBytes :=
  authority_get_companion owner companion ;;
  face ← authority_face companion;
  match face with
  | None => mret (mkFaceBytes None None false)
  | Some face =>
      let digest := sha256_hex face in
      let known := match known_sha256 with
                   | Some k => negb (bool_decide (k = "")) && bool_decide (k = digest)
                   | None => false
                   end in
      mret (if known then mkFaceBytes None (Some digest) true else mkFaceBytes (Some face) (Some digest) false)
  end.
(** [_view] copies the four members: a [FaceView] is a [CompanionFace]. *)
Definition read_face_state (owner companion : string) : M X CompanionFace :=
  authority_get_companion owner companion ;; authority_face_state companion.
Definition set_face (owner companion : string) (face : bytes) : M X CompanionFace :=
  authority_get_companion owner companion ;; authority_set_face companion face.
Definition clear_face (owner companion : string) : M X CompanionFace :=
  authority_get_companion owner companion ;; authority_clear_face companion.
End Faces.
