(* ===== verification/ManagementProofs.v ===== *)
(** * The management plane, proved

    What a client is told it can do, in what order a Companion is archived,
    whose Companion it has to be, and what a failing neighbour costs. *)

From S2P Require Import Prelude Conversation Encoding RemovalWorkflow OperatorAdmission Management.

(** ** The context *)

(** A dictionary filled name by name. *)
Definition fill {A} (f : string → option A) (l : list string) : list (string * A) :=
  foldl (λ d n, match f n with Some a => dict_set n a d | None => d end) [] l.

Lemma dict_set_new {A} (k : string) (v : A) d : k ∉ d.*1 → dict_set k v d = d ++ [(k, v)].
Proof.
  induction d as [|[k' v'] d IH]; intros Hk; [done|]. cbn in *. apply not_elem_of_cons in Hk as [Hk Hd].
  rewrite bool_decide_eq_false_2 by done. by rewrite IH.
Qed.

Lemma fill_list {A} (f : string → option A) l : NoDup l →
  fill f l = omap (λ n, (λ a, (n, a)) <$> f n) l.
Proof.
  intros Hn. unfold fill.
  assert (∀ d, (∀ n, n ∈ l → n ∉ d.*1) →
    foldl (λ d n, match f n with Some a => dict_set n a d | None => d end) d l = d ++ omap (λ n, (λ a, (n, a)) <$> f n) l) as H.
  { induction l as [|n l IH]; intros d Hd; [by rewrite app_nil_r|]. apply NoDup_cons in Hn as [Hnl Hn]. cbn.
    assert (∀ m, m ∈ l → m ∉ d.*1) as Hd' by (intros m Hm; apply Hd; by right).
    destruct (f n) as [a|]; cbn; [|by apply IH].
    rewrite dict_set_new by (apply Hd; by left). rewrite IH; [by rewrite <- app_assoc|done|].
    intros m Hm. rewrite fmap_app, elem_of_app. intros [H|H]; [by apply (Hd' m)|]. apply list_elem_of_singleton in H.
    cbn in H. by subst. }
  apply (H []). intros n _. apply not_elem_of_nil.
Qed.

Lemma omap_get {A} (f : string → option A) l n : NoDup l →
  dict_get n (omap (λ n, (λ a, (n, a)) <$> f n) l) = if bool_decide (n ∈ l) then f n else None.
Proof.
  intros Hl. induction l as [|m l IH]; [by rewrite bool_decide_eq_false_2 by apply not_elem_of_nil|].
  apply NoDup_cons in Hl as [Hm Hl]. specialize (IH Hl).
  assert (dict_get n (omap (λ n, (λ a, (n, a)) <$> f n) (m :: l)) =
          if bool_decide (n = m) then match f m with Some a => Some a | None => dict_get n (omap (λ n, (λ a, (n, a)) <$> f n) l) end
          else dict_get n (omap (λ n, (λ a, (n, a)) <$> f n) l)) as ->.
  { cbn. destruct (f m) as [a|]; cbn; [done|]. by destruct (bool_decide (n = m)). }
  rewrite IH. destruct (decide (n = m)) as [->|E].
  - rewrite (bool_decide_eq_true_2 (m = m)), (bool_decide_eq_true_2 (m ∈ m :: l)), (bool_decide_eq_false_2 (m ∈ l)) by first [done | left].
    by destruct (f m).
  - rewrite (bool_decide_eq_false_2 (n = m)) by done. do 2 case_bool_decide; try done; set_solver.
Qed.
Lemma fill_get {A} (f : string → option A) l n : NoDup l → n ∈ l → dict_get n (fill f l) = f n.
Proof. intros Hl Hn. by rewrite fill_list, omap_get, bool_decide_eq_true_2 by done. Qed.
Lemma fill_names {A} (f : string → option A) l : NoDup l → (fill f l).*1 = List.filter (λ n, bool_decide (is_Some (f n))) l.
Proof.
  intros Hl. rewrite fill_list by done. clear Hl. induction l as [|n l IH]; [done|]. cbn.
  destruct (f n) as [a|]; cbn; [by f_equal|done].
Qed.

Lemma capabilities_NoDup : NoDup CAPABILITIES.
Proof. by apply (bool_decide_unpack _). Qed.

Lemma enabled_capabilities n : n ∈ ENABLED → n ∈ CAPABILITIES.
Proof. revert n. apply Forall_forall. by apply (bool_decide_unpack _). Qed.

(** The authorities a capability needs a credential of. *)
Definition needs (name authority : string) : Prop := authority ∈ default [] (dict_get name CAPABILITY_AUTHORITIES).
Definition can (held : list string) (name : string) : Prop := name ∈ ENABLED ∧ ∀ a, needs name a → a ∈ held.

Lemma withheld_spec held name :
  (withheld held name = None ↔ can held name) ∧
  (withheld held name = Some WITHHELD_NOT_BUILT ↔ name ∉ ENABLED) ∧
  (withheld held name = Some WITHHELD_HOST_NOT_CONFIGURED ↔ name ∈ ENABLED ∧ ¬ can held name).
Proof.
  unfold withheld, can, needs. destruct (decide (name ∈ ENABLED)) as [Hn|Hn].
  - rewrite bool_decide_eq_true_2 by done. cbn [negb].
    destruct (forallb _ _) eqn:E; cbn [negb].
    + rewrite forallb_forall in E. assert (∀ a, a ∈ default [] (dict_get name CAPABILITY_AUTHORITIES) → a ∈ held) as H.
      { intros a Ha%list_elem_of_In%E. by apply bool_decide_eq_true in Ha. }
      split_and!; split; try done; intros [_ Hc]; by destruct Hc.
    + assert (¬ ∀ a, a ∈ default [] (dict_get name CAPABILITY_AUTHORITIES) → a ∈ held) as H.
      { intros H. apply not_true_iff_false in E. apply E, forallb_forall. intros a Ha%list_elem_of_In. by apply bool_decide_eq_true_2, H. }
      split_and!; split; try done; tauto.
  - rewrite bool_decide_eq_false_2 by done. split_and!; split; try done; tauto.
Qed.

Lemma unavailable_fill held : unavailable_of held = fill (withheld held) CAPABILITIES.
Proof. unfold unavailable_of, fill. reflexivity. Qed.
Lemma capabilities_fill u : capabilities_of u = fill (λ n, Some (negb (bool_decide (n ∈ u.*1)))) CAPABILITIES.
Proof. unfold capabilities_of, fill. reflexivity. Qed.
#[global] Opaque fill unavailable_of capabilities_of.

(** A capability is offered exactly when it can be used.  The context a
    client opens with names every capability once, in one order; it offers one
    exactly when its slice is closed and the Host holds a credential of every
    authority it needs; each one it withholds has exactly one reason, and the
    reason is the Host's configuration only for a slice that is closed.  The
    Owner's own members are the authority's. *)
Theorem capabilities_exact {X} `{!OwnerReader X} owner held (s s' : X) ctx :
  read_context owner held s = (Ok ctx, s') →
  ctx.(capabilities).*1 = CAPABILITIES ∧ NoDup CAPABILITIES ∧ (∀ n, n ∈ ENABLED → n ∈ CAPABILITIES) ∧
  (∀ n, n ∈ CAPABILITIES →
     (dict_get n ctx.(capabilities) = Some true ↔ can held n) ∧
     (dict_get n ctx.(capabilities) = Some false ↔ n ∈ ctx.(unavailable).*1) ∧
     (dict_get n ctx.(unavailable) = None ↔ can held n) ∧
     (dict_get n ctx.(unavailable) = Some WITHHELD_NOT_BUILT ↔ n ∉ ENABLED) ∧
     (dict_get n ctx.(unavailable) = Some WITHHELD_HOST_NOT_CONFIGURED ↔ n ∈ ENABLED ∧ ¬ can held n)) ∧
  ∃ o, authority_get_owner owner s = (Ok o, s') ∧
    (ctx.(mc_owner_id), ctx.(mc_owner_display_name), ctx.(mc_owner_revision), ctx.(mc_default_companion_id)) =
    (o.(oi_owner_id), o.(oi_display_name), o.(oi_revision), o.(oi_default_companion_id)).
Proof.
  unfold read_context, mbind, M_bind. destruct (authority_get_owner owner s) as [[o|e] s1] eqn:E; [|done].
  assert (∀ (a b : ManagementContext) (x y : X), (Ok a, x) = (Ok b, y) → a = b ∧ x = y) as Hinj by (intros; by simplify_eq).
  intros [<- <-]%Hinj. clear Hinj. cbn [capabilities unavailable mc_owner_id mc_owner_display_name mc_owner_revision mc_default_companion_id].
  pose proof capabilities_NoDup as Hn.
  rewrite capabilities_fill, unavailable_fill.
  set (u := fill (withheld held) CAPABILITIES).
  assert (∀ n, n ∈ CAPABILITIES → (n ∈ u.*1 ↔ is_Some (withheld held n))) as Hu.
  { intros n Hc. unfold u. rewrite fill_names by done. rewrite list_elem_of_In, filter_In, bool_decide_eq_true, <- list_elem_of_In.
    tauto. }
  assert (∀ n, n ∈ CAPABILITIES → dict_get n u = withheld held n) as Hg by (intros; unfold u; by rewrite fill_get).
  clearbody u. split_and!; [|done|exact enabled_capabilities|..].
  - rewrite fill_names by done. rewrite (filter_ext _ (λ _, true)); [|intros n; by rewrite bool_decide_eq_true_2].
    generalize CAPABILITIES. intros l. induction l as [|n l IH]; [done|]. cbn. by f_equal.
  - intros n Hc. destruct (withheld_spec held n) as (H1 & H2 & H3). specialize (Hu n Hc).
    rewrite fill_get, Hg by done. split_and!; [| |done..].
    + split; [intros [= Hb%negb_true_iff]|intros Hw].
      * apply bool_decide_eq_false in Hb. apply H1. destruct (withheld held n) eqn:Ew; [|done]. destruct Hb. apply Hu. by eexists.
      * apply H1 in Hw. rewrite bool_decide_eq_false_2; [done|]. rewrite Hu, Hw. by intros [].
    + split; [intros [= Hb%negb_false_iff]; by apply bool_decide_eq_true in Hb|intros Hb; by rewrite bool_decide_eq_true_2].
  - by exists o.
Qed.

(** A Host with no credential. *)
#[local] Instance one_owner : OwnerReader unit := {| authority_get_owner := λ o, mret (mkOwner o "Ann" 3 None) |}.
Lemma capabilities_exact_witness :
  match (read_context "owner-1" ["agent"] tt).1 with
  | Ok ctx => dict_get "memory.read" ctx.(unavailable) = Some WITHHELD_HOST_NOT_CONFIGURED ∧
              dict_get "task.read" ctx.(capabilities) = Some true
  | Raise _ => False
  end.
Proof.
  destruct (read_context "owner-1" ["agent"] tt) as [[ctx|e] s] eqn:E; [|by vm_compute in E].
  destruct (capabilities_exact "owner-1" ["agent"] tt s ctx E) as (_ & _ & _ & H & _). cbn [fst]. split.
  - apply H; [by apply (bool_decide_unpack _)|]. split; [by apply (bool_decide_unpack _)|].
    intros [_ Hc]. assert ("memory" ∈ ["agent"]) as Hm by (apply Hc; unfold needs; by left).
    by apply list_elem_of_singleton in Hm.
  - apply H; [by apply (bool_decide_unpack _)|]. split; [by apply (bool_decide_unpack _)|].
    intros a Ha. unfold needs in Ha. vm_compute in Ha. exact Ha.
Defined.

(** ** Archiving *)

Inductive body_event :=
| ListedBodies (endpoints : list KernelBodyEndpoint)
| Released (owner device request : string) (revision : Z) (reason : string)
| SettingLifecycle (owner companion state : string) (revision : option Z) (replacement : option string).

Section PutAway.
Context {X : Type} (writer : CompanionLifecycleWriter X) (bodies : CompanionBodyRegistrar X).
Context (sha256_hex : bytes → string) (ARCHIVED : string).

(** A release is noted when it is answered, the change of state when it is
    asked for. *)
#[local] Instance logged_bodies : CompanionBodyRegistrar (list body_event * X) :=
  {| registrar_endpoints := λ o, hearing ListedBodies (registrar_endpoints o);
     registrar_release := λ o d r v w, hearing (λ _, Released o d r v w) (registrar_release o d r v w) |}.
#[local] Instance logged_writer : CompanionLifecycleWriter (list body_event * X) :=
  {| authority_set_lifecycle := λ o c st v r, asking (SettingLifecycle o c st v r) (authority_set_lifecycle o c st v r) |}.

Definition answers_as (companion : string) (e : KernelBodyEndpoint) : bool :=
  match e.(be_assignment) with Some a => bool_decide (a.(ba_companion_id) = Some companion) | None => false end.
Definition bodies_of (companion : string) (eps : list KernelBodyEndpoint) : list KernelBodyEndpoint :=
  List.filter (answers_as companion) eps.
Definition release_of (owner companion : string) (e : KernelBodyEndpoint) : body_event :=
  Released owner e.(be_device_id) (release_request_id sha256_hex companion e.(be_device_id)) (assignment_revision_of e)
    "companion-archived".
Definition releases (owner companion : string) (eps : list KernelBodyEndpoint) : list body_event :=
  release_of owner companion <$> bodies_of companion eps.

Lemma hoare_release owner companion ev eps :
  hoare (said ev) (release_each sha256_hex owner companion eps)
    (λ l s, said (ev ++ releases owner companion eps) s ∧ l = be_device_id <$> bodies_of companion eps)
    (λ _ s, ∃ some, some `prefix_of` releases owner companion eps ∧ said (ev ++ some) s).
Proof.
  revert ev. induction eps as [|e eps IH]; intros ev; [intros s Hs; cbn; by rewrite app_nil_r|].
  cbn [release_each]. unfold releases, bodies_of. cbn [List.filter].
  assert (answers_as companion e = false →
    hoare (said ev) (release_each sha256_hex owner companion eps)
      (λ l s, said (ev ++ (release_of owner companion <$> (if answers_as companion e then e :: List.filter (answers_as companion) eps
                                                           else List.filter (answers_as companion) eps))) s ∧
              l = be_device_id <$> (if answers_as companion e then e :: List.filter (answers_as companion) eps
                                    else List.filter (answers_as companion) eps))
      (λ _ s, ∃ some, some `prefix_of` release_of owner companion <$> (if answers_as companion e
         then e :: List.filter (answers_as companion) eps else List.filter (answers_as companion) eps) ∧ said (ev ++ some) s)) as Hskip
    by (intros ->; apply IH).
  unfold answers_as in Hskip at 1. destruct (be_assignment e) as [a|] eqn:Ea; [|by apply Hskip].
  case_bool_decide as Hc; [|by apply Hskip]. clear Hskip.
  assert (answers_as companion e = true) as -> by (unfold answers_as; rewrite Ea; by apply bool_decide_eq_true_2).
  set (r := Released owner e.(be_device_id) (release_request_id sha256_hex companion e.(be_device_id)) a.(ba_revision)
              "companion-archived").
  assert (release_of owner companion e = r) as Hr by (unfold release_of, assignment_revision_of; by rewrite Ea).
  apply (hoare_bind _ _ (λ _, said (ev ++ [r]))).
  - eapply hoare_mono; [apply (hoare_answer (λ _ : unit, r) _ ev)|done| |].
    + intros [] s Hs. exact Hs.
    + intros ex s Hs. exists []. split; [apply prefix_nil|]. by rewrite app_nil_r.
  - intros []. eapply hoare_bind.
    + eapply hoare_mono; [apply IH|done|intros l s Hs; exact Hs|]. intros ex s (some & Hp & Hs).
      exists (r :: some). cbn [fmap list_fmap]. rewrite Hr. split; [by apply prefix_cons|]. by rewrite <- app_assoc in Hs.
    + intros l s [Hs ->]. unfold mret, M_ret. cbn [fmap list_fmap]. rewrite Hr. split; [|done]. by rewrite <- app_assoc in Hs.
Qed.

Lemma hoare_put_away owner companion replacement revision :
  let asked := SettingLifecycle owner companion ARCHIVED revision replacement in
  hoare (said []) (put_away sha256_hex ARCHIVED owner companion replacement revision)
    (λ v s, ∃ eps, said (ListedBodies eps :: releases owner companion eps ++ [asked]) s ∧
       v.(released_devices) = be_device_id <$> bodies_of companion eps)
    (λ _ s, said [] s ∨ ∃ eps some, some `prefix_of` releases owner companion eps ++ [asked] ∧
       said (ListedBodies eps :: some) s).
Proof.
  intros asked. unfold put_away.
  apply (hoare_bind _ _ (λ l s, ∃ eps, said (ListedBodies eps :: releases owner companion eps) s ∧
    l = be_device_id <$> bodies_of companion eps)).
  - unfold release_bodies. apply (hoare_bind _ _ (λ eps, said [ListedBodies eps])).
    + eapply hoare_mono; [apply (hoare_answer ListedBodies _ [])|done|done|]. intros e s Hs. by left.
    + intros eps. eapply hoare_mono; [apply (hoare_release owner companion [ListedBodies eps] eps)|done| |].
      * intros l s [Hs Hl]. exists eps. by split.
      * intros e s (some & Hp & Hs). right. exists eps, some. split; [|done]. by apply prefix_app_r.
  - intros l s (eps & Hs & ->). revert s Hs.
    change (hoare (said (ListedBodies eps :: releases owner companion eps))
      (result ← authority_set_lifecycle owner companion ARCHIVED revision replacement;
       mret (mkLifecycleView (lr_companion_id result) (lr_lifecycle_state result) (lr_revision result)
               (lr_default_companion_id result) (be_device_id <$> bodies_of companion eps)))
      (λ v s, ∃ eps, said (ListedBodies eps :: releases owner companion eps ++ [asked]) s ∧
         v.(released_devices) = be_device_id <$> bodies_of companion eps)
      (λ _ s, said [] s ∨ ∃ eps some, some `prefix_of` releases owner companion eps ++ [asked] ∧
         said (ListedBodies eps :: some) s)).
    apply (hoare_bind _ _ (λ _, said ((ListedBodies eps :: releases owner companion eps) ++ [asked]))).
    + eapply hoare_mono; [apply (hoare_noted asked)|done|done|]. intros e s Hs. right.
      exists eps, (releases owner companion eps ++ [asked]). by split.
    + intros r s Hs. exists eps. by split.
Qed.
End PutAway.

(** A Companion lets go of its Bodies before it is archived.  With a Kernel
    and a Data authority that answer or fail in any way, an archive lists the
    Owner's Bodies and releases, in that order and each at the revision it was
    listed with and under the identity of Companion and device, the ones that
    answer as the Companion and no others; the change of state is asked for
    only after every one of them was released, once, for that Companion.  An
    archive that succeeds names exactly the devices it released; one that
    fails stopped somewhere along that order. *)
Theorem put_away_order {X} (writer : CompanionLifecycleWriter X) (bodies : CompanionBodyRegistrar X) sha256_hex ARCHIVED
    owner companion replacement revision (x : X) :
  let asked := SettingLifecycle owner companion ARCHIVED revision replacement in
  match put_away (CompanionLifecycleWriter0 := logged_writer writer) (CompanionBodyRegistrar0 := logged_bodies bodies)
          sha256_hex ARCHIVED owner companion replacement revision ([], x) with
  | (Ok v, (ev, _)) => ∃ eps, ev = ListedBodies eps :: releases sha256_hex owner companion eps ++ [asked] ∧
      v.(released_devices) = be_device_id <$> bodies_of companion eps
  | (Raise _, (ev, _)) => ev = [] ∨ ∃ eps some,
      some `prefix_of` releases sha256_hex owner companion eps ++ [asked] ∧ ev = ListedBodies eps :: some
  end.
Proof.
  intros asked. pose proof (hoare_put_away writer bodies sha256_hex ARCHIVED owner companion replacement revision ([], x) eq_refl) as H.
  destruct (put_away _ _ _ _ _ _ _) as [[v|e] [ev x']]; exact H.
Qed.

(** ** Whose Companion it is *)

Section Scope.
Context {P Q X : Type} `{!RosterReader X} `{!PersonaHistorian P Q X} `{!CompanionFaceKeeper X} `{!CompanionNamer X}.
Context (sha256_hex : bytes → string).

(** [c] is [k] behind the Owner's claim to the Companion: when the authority
    refuses that, the refusal is the answer and nothing else was asked. *)
Definition behind {A} (owner companion : string) (c k : M X A) : Prop := ∀ s,
  c s = match authority_get_companion owner companion s with
        | (Ok _, s') => k s'
        | (Raise e, s') => (Raise e, s')
        end.

Definition told_history (companion : string) : M X PersonaHistory :=
  t ← authority_persona_timeline companion; mret (history_of t).

(** What is done to a Companion is done behind its Owner.  Every read and
    write of a Companion's history, persona, face and name first asks for it in
    the Owner's scope; refused, the refusal is the answer and nothing else was
    asked; allowed, what follows is the authority's call about that very
    Companion.  Going back to a chapter restores it exactly when it is not the
    current one already, and answers the history read afterwards.  A history
    holds the committed chapters, in their order, and no proposal. *)
Theorem companion_scope owner companion chapter name (face : bytes) known (authored : P) :
  behind owner companion (read_history owner companion) (told_history companion) ∧
  behind owner companion (read_persona owner companion) (authority_get_persona companion) ∧
  behind owner companion (write_persona owner companion authored)
    (authority_author_persona companion authored OWNER_AUTHORED_SUMMARY) ∧
  behind owner companion (read_face_state owner companion) (authority_face_state companion) ∧
  behind owner companion (set_face owner companion face) (authority_set_face companion face) ∧
  behind owner companion (clear_face owner companion) (authority_clear_face companion) ∧
  behind owner companion (give_companion_name owner companion name) (authority_rename_companion companion name) ∧
  behind owner companion (read_face sha256_hex owner companion known)
    (face ← authority_face companion;
     mret match face with
          | None => mkFaceBytes None None false
          | Some f => if bool_decide (known = Some (sha256_hex f) ∧ sha256_hex f ≠ "")
                      then mkFaceBytes None (Some (sha256_hex f)) true else mkFaceBytes (Some f) (Some (sha256_hex f)) false
          end) ∧
  behind owner companion (restore_chapter owner companion chapter)
    (h ← told_history companion;
     if bool_decide (current_chapter_id h = Some chapter) then mret h
     else authority_restore_persona companion chapter OWNER_RESTORE_SUMMARY ;; told_history companion) ∧
  (∀ t, chapter_id <$> (history_of t).(chapters) =
        ch_genome_id <$> List.filter (λ c, bool_decide (c.(ch_lifecycle_state) = "committed")) t.(tl_chapters)).
Proof.
  unfold behind. split_and!; try (by intros s).
  - intros s. unfold read_face, mbind, M_bind. destruct (authority_get_companion owner companion s) as [[i|e] s1]; [|done].
    destruct (authority_face companion s1) as [[[f|]|e] s2]; [|done..]. unfold mret, M_ret. do 2 f_equal.
    destruct known as [k|]; [|by rewrite bool_decide_eq_false_2 by (intros [[=] _])].
    destruct (decide (k = sha256_hex f)) as [->|Hne]; [destruct (decide (sha256_hex f = "")) as [He|He]|].
    + rewrite He. by rewrite (bool_decide_eq_false_2 (_ ∧ _)) by (by intros [_ []]).
    + by rewrite (bool_decide_eq_false_2 (sha256_hex f = "")), !bool_decide_eq_true_2 by done.
    + rewrite (bool_decide_eq_false_2 (k = sha256_hex f)), andb_false_r by done.
      by rewrite bool_decide_eq_false_2 by (intros [[= ->] _]; done).
  - intros s. unfold restore_chapter, told_history, mbind, M_bind.
    destruct (authority_get_companion owner companion s) as [[i|e] s1]; [|done].
    by destruct (authority_persona_timeline companion s1) as [[t|e] s2].
  - intros t. unfold history_of. cbn [chapters]. by rewrite <- list_fmap_compose.
Qed.
End Scope.

(** ** What a neighbour costs *)

(** A roster survives the process that keeps the conversations.  The roster is
    the authority's page, row by row, whatever the runtime answers, raises or
    is missing; when it could not say, one word tells why and no row carries a
    time; when it could, each row carries what it said of that Companion. *)
Theorem roster_survives {X} `{!RosterReader X} (activity : option (ActivityReader X)) owner cursor (s : X) :
  match authority_list_companions owner cursor s with
  | (Raise e, s') => read_roster activity owner cursor s = (Raise e, s')
  | (Ok page, s') => ∃ r s'', read_roster activity owner cursor s = (Ok r, s'') ∧
      row_of <$> r.(ro_companions) = page.(rp_companions) ∧
      r.(ro_default_companion_id) = page.(rp_default_companion_id) ∧ r.(ro_next_cursor) = page.(rp_next_cursor) ∧
      (r.(activity_unavailable) ≠ "" → Forall (λ row, row.(last_active_at) = "") r.(ro_companions)) ∧
      (r.(activity_unavailable) = "" → ∃ reader rows, activity = Some reader ∧
         runtime_companion_activity owner s' = (Ok rows, s'') ∧
         Forall (λ row, row.(last_active_at) = default "" (dict_get row.(row_of).(cs_companion_id) (dict_of rows))) r.(ro_companions))
  end.
Proof.
  unfold read_roster, mbind, M_bind. destruct (authority_list_companions owner cursor s) as [[page|e] s1]; [|done].
  assert (∀ (f : CompanionSummary → string) l, row_of <$> ((λ row, mkRow row (f row)) <$> l) = l) as Hrows
    by (intros f l; rewrite <- list_fmap_compose; apply list_fmap_id).
  assert (∀ (f : CompanionSummary → string) l, Forall (λ row, row.(last_active_at) = f row.(row_of)) ((λ row, mkRow row (f row)) <$> l)) as Hat
    by (intros f l; apply Forall_fmap, Forall_forall; done).
  destruct activity as [reader|]; cbn.
  - unfold catch. destruct (runtime_companion_activity owner s1) as [[rows|e] s2] eqn:E; cbn.
    + eexists _, s2. split; [done|]. cbn. split_and!; [apply Hrows|done..|]. intros _. exists reader, rows. split_and!; [done|done|].
      apply (Hat (λ row, default "" (dict_get row.(cs_companion_id) (dict_of rows)))).
    + eexists _, s2. split; [done|]. cbn. split_and!; [apply Hrows|done|done|..].
      * intros _. apply (Hat (λ _, "")).
      * intros H. unfold activity_unavailable_word in H. by destruct (bool_decide _).
  - eexists _, s1. split; [done|]. cbn. split_and!; [apply Hrows|done|done|intros _; apply (Hat (λ _, ""))|done].
Qed.

(** A Companion that was created is reported as created.  Nothing but the
    provision itself, or the supervisor's client raising, fails a create; the
    supervisor is asked exactly when a Realm was created, and its answer is
    only whether memory is ready. *)
Theorem create_reports {X} `{!CompanionProvisioner X} (reconcile : option (M X bool)) owner r (s : X) :
  let passed := mkProvisionRequest r.(pr_operation_id) r.(pr_display_name) r.(pr_kind) r.(pr_persona) r.(pr_preferences)
                  r.(pr_source_preset_id) (r.(pr_source_preset_id) ≫= λ _, r.(pr_source_preset_revision)) in
  create_companion reconcile owner r s =
    match authority_provision owner passed s with
    | (Raise e, s') => (Raise e, s')
    | (Ok p, s') =>
        let made ready := mkCreated p.(cp_companion).(ci_companion_id) p.(cp_companion).(ci_display_name)
          p.(cp_companion).(ci_kind) p.(cp_companion).(ci_lifecycle_state) p.(cp_companion).(ci_revision)
          (negb p.(cp_replayed)) ready in
        match memory_realm_created p, reconcile with
        | false, _ => (Ok (made true), s')
        | true, None => (Ok (made false), s')
        | true, Some ask => match ask s' with (Ok b, s'') => (Ok (made b), s'') | (Raise e, s'') => (Raise e, s'') end
        end
    end.
Proof.
  intros passed. unfold create_companion, mbind, M_bind.
  assert ((if r.(pr_source_preset_id) is Some _ then r.(pr_source_preset_revision) else None) =
          (r.(pr_source_preset_id) ≫= λ _, r.(pr_source_preset_revision))) as -> by (by destruct (pr_source_preset_id r)).
  fold passed. destruct (authority_provision owner passed s) as [[p|e] s']; [|done].
  destruct (memory_realm_created p); [|done]. destruct reconcile as [ask|]; [|done]. by destruct (ask s') as [[b|e] s''].
Qed.
