(* ===== verification/Activity.v ===== *)
(** * The management plane: what happened

    [app/management/activity.py], conversations, transcripts and tasks as a
    person reads them, and [app/management/activity_feed.py], the Owner's
    history with names filled in; and what both promise. *)

From S2P Require Import Prelude Conversation Encoding Json RemovalWorkflow OperatorAdmission Management.

(** ** activity.py *)

Record ConversationRow := mkConversationRow {
  cv_owner_id : string; cv_companion_id : string; cv_conversation_id : string;
  cv_started_at : option string; cv_updated_at : option string; cv_ended_at : option string }.
Record MessageRow := mkMessage { ms_role : string; ms_content : string; ms_tool_name : option string }.
Record TranscriptTurnRow := mkTurnRow {
  tu_turn_id : string; tu_started_at : option string; tu_finished_at : option string; tu_status : string;
  tu_messages : list MessageRow }.
Record TranscriptRows := mkTranscriptRows {
  tr_owner_id : string; tr_companion_id : string; tr_conversation_id : string; tr_turns : list TranscriptTurnRow;
  tr_next_before : option string }.
Record TaskRow := mkTaskRow {
  tk_task_id : string; tk_status : string; tk_task : string; tk_task_type : string; tk_urgency : string;
  tk_expected_output : option string; tk_progress_summary : option string; tk_result_text : option string;
  tk_error_code : option string; tk_error_message : option string; tk_created_at : option string;
  tk_updated_at : option string; tk_completed_at : option string }.

Class CompanionActivityReader (X : Type) := {
  (** Owner, Companion, limit, before *)
  agent_conversations : string → string → Z → option string → M X (list ConversationRow * option string);
  (** Owner, Companion, limit, status, before *)
  agent_tasks : string → string → Z → option string → option string → M X (list TaskRow * option string);
  (** Owner, Companion, conversation, limit, before *)
  agent_transcript : string → string → string → Z → option string → M X TranscriptRows;
  agent_task : string → string → M X TaskRow;
  agent_cancel_task : string → string → M X TaskRow;
  agent_retry_task : string → string → M X TaskRow }.

Record ConversationView := mkConversationView {
  conversation_id : string; started_at : string; updated_at : string; ended_at : option string }.
Record SpokenMessage := mkSpoken { role : string; text : string }.
Record TranscriptTurn := mkTurn {
  turn_id : string; turn_started_at : string; turn_finished_at : option string; turn_status : string;
  turn_messages : list SpokenMessage }.
Record Transcript := mkTranscript {
  transcript_conversation_id : string; turns : list TranscriptTurn; transcript_next_cursor : option string }.
Record TaskView := mkTaskView {
  task_id : string; task_status : string; asked : string; task_kind : string; urgency : string;
  expected_output : string; progress : string; task_result : string; error_code : string; error_message : string;
  task_created_at : string; task_updated_at : string; completed_at : option string }.

Definition SPOKEN_ROLES : list string := ["user"; "assistant"].
Definition DEFAULT_PAGE : Z := 20.
Definition MAXIMUM_PAGE : Z := 100.
(** [_page] *)
Definition page_size (limit : option Z) : Z :=
  match limit with None => DEFAULT_PAGE | Some n => Z.max 1 (Z.min n MAXIMUM_PAGE) end.

Definition agent_violation (detail : string) : exn := refuse "agent" "contract_violation" detail 502 false.
Definition conversation_view (r : ConversationRow) : ConversationView :=
  mkConversationView r.(cv_conversation_id) (default "" r.(cv_started_at)) (default "" r.(cv_updated_at)) r.(cv_ended_at).
Definition spoken (m : MessageRow) : bool :=
  bool_decide (m.(ms_role) ∈ SPOKEN_ROLES) && bool_decide (m.(ms_tool_name) = None).
Definition turn_view (t : TranscriptTurnRow) : TranscriptTurn :=
  mkTurn t.(tu_turn_id) (default "" t.(tu_started_at)) t.(tu_finished_at) t.(tu_status)
    ((λ m, mkSpoken m.(ms_role) m.(ms_content)) <$> List.filter spoken t.(tu_messages)).
(** [_task] *)
Definition task_view (r : TaskRow) : TaskView :=
  mkTaskView r.(tk_task_id) r.(tk_status) r.(tk_task) r.(tk_task_type) r.(tk_urgency) (default "" r.(tk_expected_output))
    (default "" r.(tk_progress_summary)) (default "" r.(tk_result_text)) (default "" r.(tk_error_code))
    (default "" r.(tk_error_message)) (default "" r.(tk_created_at)) (default "" r.(tk_updated_at)) r.(tk_completed_at).

Section Activity.
Context {X : Type} `{!CompanionActivityReader X}.

Definition read_conversations (owner companion : string) (limit : option Z) (cursor : option string)
    : M X (list ConversationView * option string) :=
  '(rows, next) ← agent_conversations owner companion (page_size limit) cursor;
  guard_py (existsb (λ r, negb (bool_decide (r.(cv_owner_id) = owner)) ||
                          negb (bool_decide (r.(cv_companion_id) = companion))) rows)
    (agent_violation "agent returned a conversation outside the requested scope") ;;
  mret (conversation_view <$> rows, next).

Definition read_transcript (owner companion conversation : string) (limit : option Z) (cursor : option string)
    : M X Transcript :=
  page ← agent_transcript owner companion conversation (page_size limit) cursor;
  guard_py (negb (bool_decide (page.(tr_owner_id) = owner)) || negb (bool_decide (page.(tr_companion_id) = companion)) ||
            negb (bool_decide (page.(tr_conversation_id) = conversation)))
    (agent_violation "agent returned a transcript outside the requested scope") ;;
  mret (mkTranscript page.(tr_conversation_id) (turn_view <$> page.(tr_turns)) page.(tr_next_before)).

Definition read_tasks (owner companion : string) (limit : option Z) (status cursor : option string)
    : M X (list TaskView * option string) :=
  '(rows, next) ← agent_tasks owner companion (page_size limit) status cursor;
  mret (task_view <$> rows, next).
Definition read_task (owner task : string) : M X TaskView := row ← agent_task owner task; mret (task_view row).
Definition stop_task (owner task : string) : M X TaskView := row ← agent_cancel_task owner task; mret (task_view row).
Definition repeat_task (owner task : string) : M X TaskView := row ← agent_retry_task owner task; mret (task_view row).
End Activity.

(** ** activity_feed.py *)

Record GovernanceEvent := mkGovernanceEvent {
  ge_event_id : string; ge_action : string; ge_subject_type : string; ge_subject_id : string;
  ge_occurred_at : string; ge_outcome : string; ge_payload : obj }.
Class GovernanceHistorian (X : Type) := {
  (** Owner, limit, before *)
  authority_governance_events : string → option Z → option Z → M X (list GovernanceEvent * option Z) }.

Record ActivityMoment := mkMoment {
  am_event_id : string; am_action : string; am_subject_type : string; am_subject_id : string; subject_name : string;
  am_occurred_at : string; am_outcome : string; am_detail : list (string * string) }.
Record ActivityFeed := mkFeed { moments : list ActivityMoment; feed_next_cursor : option Z }.

Definition DETAIL_FIELDS : list (string * list string) :=
  [("companion.retirement_begun", ["replacement_companion_id"]);
   ("owner.default_companion_changed", ["companion_id"; "previous_companion_id"; "reason"])].
Definition detail_fields (action : string) : list string := default [] (dict_get action DETAIL_FIELDS).
(** [field.endswith("companion_id")] *)
Definition ends_companion_id (s : string) : bool :=
  let suffix := list_ascii_of_string "companion_id" in
  bool_decide (take (length suffix) (rev (list_ascii_of_string s)) = rev suffix).
Definition names_a_companion (e : GovernanceEvent) : bool :=
  bool_decide (e.(ge_subject_type) = "companion") || existsb ends_companion_id (detail_fields e.(ge_action)).

Section Feed.
(** [str] of a JSON value that is not a string. *)
Context (py_str : json → string).
Definition payload_text (v : json) : string := match v with JStr s => s | _ => py_str v end.

(** One turn of the loop of [_detail]. *)
Definition add_detail (names : list (string * string)) (payload : obj) (d : list (string * string)) (field : string)
    : list (string * string) :=
  match obj_get field payload JNull with
  | JNull => d
  | v =>
      let d := dict_set field (payload_text v) d in
      if ends_companion_id field then
        match dict_get (payload_text v) names with
        | Some name => if bool_decide (name = "") then d else dict_set (field +:+ "_name") name d
        | None => d
        end
      else d
  end.
(** [_detail] *)
Definition detail_of_event (action : string) (payload : obj) (names : list (string * string)) : list (string * string) :=
  foldl (add_detail names payload) [] (detail_fields action).
Definition moment_of (names : list (string * string)) (e : GovernanceEvent) : ActivityMoment :=
  mkMoment e.(ge_event_id) e.(ge_action) e.(ge_subject_type) e.(ge_subject_id)
    (default "" (dict_get e.(ge_subject_id) names)) e.(ge_occurred_at) e.(ge_outcome)
    (detail_of_event e.(ge_action) e.(ge_payload) names).

Context {X : Type} `{!GovernanceHistorian X} `{!RosterReader X}.
(** [_companion_names] *)
Definition companion_names (owner : string) : M X (list (string * string)) :=
  page ← authority_list_companions owner None;
  mret (dict_of ((λ r, (r.(cs_companion_id), r.(cs_display_name))) <$> page.(rp_companions))).
Definition read_activity (owner : string) (limit before : option Z) : M X ActivityFeed :=
  '(events, next) ← authority_governance_events owner limit before;
  names ← (if existsb names_a_companion events then companion_names owner else mret []);
  mret (mkFeed (moment_of names <$> events) next).
End Feed.

(** ** Properties *)

Lemma page_size_bounds limit : (1 ≤ page_size limit ≤ 100)%Z.
Proof. destruct limit as [n|]; unfold page_size, DEFAULT_PAGE, MAXIMUM_PAGE; lia. Qed.

(** A transcript is the conversation that was asked for, and what was said in
    it.  Whatever the Agent answers, at most a hundred and at least one row is
    asked for; conversations and transcripts of another Owner, Companion or
    conversation are refused as a breach of contract; and what is answered is
    every turn in its order, with exactly the messages of a person or a
    Companion that no tool produced, word for word. *)
Theorem transcript_speaks {X} `{!CompanionActivityReader X} owner companion conversation limit cursor (s : X) :
  (1 ≤ page_size limit ≤ 100)%Z ∧
  (match read_transcript owner companion conversation limit cursor s with
   | (Ok t, s') => ∃ page,
       agent_transcript owner companion conversation (page_size limit) cursor s = (Ok page, s') ∧
       (page.(tr_owner_id), page.(tr_companion_id), page.(tr_conversation_id)) = (owner, companion, conversation) ∧
       t.(transcript_conversation_id) = conversation ∧ t.(transcript_next_cursor) = page.(tr_next_before) ∧
       Forall2 (λ v r, v.(turn_id) = r.(tu_turn_id) ∧
         (∀ m, m ∈ v.(turn_messages) → m.(role) = "user" ∨ m.(role) = "assistant") ∧
         v.(turn_messages) = (λ m, mkSpoken m.(ms_role) m.(ms_content)) <$>
           List.filter (λ m, bool_decide ((m.(ms_role) = "user" ∨ m.(ms_role) = "assistant") ∧ m.(ms_tool_name) = None)) r.(tu_messages))
         t.(turns) page.(tr_turns)
   | (Raise e, s') =>
       agent_transcript owner companion conversation (page_size limit) cursor s = (Raise e, s') ∨
       ∃ page, agent_transcript owner companion conversation (page_size limit) cursor s = (Ok page, s') ∧
         e = agent_violation "agent returned a transcript outside the requested scope" ∧
         (page.(tr_owner_id), page.(tr_companion_id), page.(tr_conversation_id)) ≠ (owner, companion, conversation)
   end) ∧
  (∀ rows next s', read_conversations owner companion limit cursor s = (Ok (rows, next), s') →
     ∃ found, agent_conversations owner companion (page_size limit) cursor s = (Ok (found, next), s') ∧
       rows = conversation_view <$> found ∧
       Forall (λ r, r.(cv_owner_id) = owner ∧ r.(cv_companion_id) = companion) found).
Proof.
  assert (∀ m, spoken m = bool_decide ((m.(ms_role) = "user" ∨ m.(ms_role) = "assistant") ∧ m.(ms_tool_name) = None)) as Hs.
  { intros m. apply eq_bool_prop_intro. unfold spoken, SPOKEN_ROLES. rewrite andb_True, !bool_decide_spec. set_solver. }
  split; [apply page_size_bounds|]. split.
  - unfold read_transcript, mbind, M_bind. destruct (agent_transcript _ _ _ _ _ s) as [[page|e] s1]; [|by left].
    unfold guard_py. destruct (_ || _) eqn:E; cbn.
    + right. exists page. split_and!; [done..|]. intros [= H1 H2 H3]. by rewrite H1, H2, H3, !bool_decide_eq_true_2 in E.
    + rewrite !orb_false_iff, !negb_false_iff, !bool_decide_eq_true in E. destruct E as [[E1 E2] E3].
      exists page. split_and!; [done|by rewrite E1, E2, E3|done|done|]. cbn. apply Forall2_fmap_l, Forall_Forall2_diag, Forall_forall. intros t _. cbn.
      rewrite (filter_ext _ _ Hs). split_and!; [done| |done]. intros m (m' & -> & Hm)%list_elem_of_fmap.
      apply list_elem_of_In, filter_In in Hm as [_ Hm]. by apply bool_decide_eq_true in Hm as [Hr _].
  - intros rows next s'. unfold read_conversations, mbind, M_bind.
    destruct (agent_conversations _ _ _ _ s) as [[[found n]|e] s1]; [|done]. unfold guard_py.
    destruct (existsb _ _) eqn:E; [done|]. intros [= <- <- <-]. exists found. split_and!; [done..|].
    apply Forall_forall. intros r Hr%list_elem_of_In. apply not_true_iff_false in E.
    destruct (decide (r.(cv_owner_id) = owner)), (decide (r.(cv_companion_id) = companion)); [done|..];
      destruct E; apply existsb_exists; exists r; (split; [done|]);
      rewrite orb_true_iff, !negb_true_iff, !bool_decide_eq_false; tauto.
Qed.

(** *** The history *)

Inductive feed_event := HeardEvents (events : list GovernanceEvent) | AskedRoster (owner : string).

Section FeedProofs.
Context {X : Type} (history : GovernanceHistorian X) (roster : RosterReader X) (py_str : json → string).
#[local] Instance logged_history : GovernanceHistorian (list feed_event * X) :=
  {| authority_governance_events := λ o l b, hearing (λ r, HeardEvents r.1) (authority_governance_events o l b) |}.
#[local] Instance logged_roster : RosterReader (list feed_event * X) :=
  {| authority_list_companions := λ o c, asking (AskedRoster o) (authority_list_companions o c);
     authority_get_companion := λ o c, quiet (authority_get_companion o c) |}.

(** What a detail may be called. *)
Definition allowed (action key : string) : Prop := ∃ f, f ∈ detail_fields action ∧ (key = f ∨ key = f +:+ "_name").

Lemma add_detail_keys names payload d f key :
  key ∈ (add_detail py_str names payload d f).*1 → key ∈ d.*1 ∨ key = f ∨ key = f +:+ "_name".
Proof.
  assert (∀ (k v : string) d', key ∈ (dict_set k v d').*1 → key = k ∨ key ∈ d'.*1) as Hset.
  { intros k v d'. induction d' as [|[k' v'] d' IH]; cbn; [by intros ->%list_elem_of_singleton; left|].
    destruct (bool_decide _) eqn:Eb; cbn; rewrite !elem_of_cons; [|by intros [->|?%IH]; tauto].
    apply bool_decide_eq_true in Eb as ->. tauto. }
  unfold add_detail. destruct (obj_get f payload JNull) eqn:Ep; [by left|..];
    (destruct (ends_companion_id f); [destruct (dict_get _ names) as [n|]; [destruct (bool_decide (n = ""))|]|]);
    intros Hk; repeat (apply Hset in Hk as [->|Hk]); tauto.
Qed.

Lemma detail_keys action payload names key :
  key ∈ (detail_of_event py_str action payload names).*1 → allowed action key.
Proof.
  unfold detail_of_event, allowed. intros Hk.
  assert (∀ fs d, key ∈ (foldl (add_detail py_str names payload) d fs).*1 →
    key ∈ d.*1 ∨ ∃ f, f ∈ fs ∧ (key = f ∨ key = f +:+ "_name")) as H.
  { induction fs as [|f fs IH]; intros d; [by left|]. cbn. intros [Hd|(g & Hg & Hk')]%IH.
    - apply add_detail_keys in Hd as [Hd|Hd]; [by left|]. right. exists f. split; [by left|done].
    - right. exists g. split; [by right|done]. }
  apply H in Hk as [Hk|Hk]; [by apply not_elem_of_nil in Hk|done].
Qed.

(** The history has no holes.  The feed is the authority's page, event by
    event and in its order, actions nobody here has heard of included; the
    roster is asked once, and only when some event of the page names a
    Companion; and beside the event's own members a row carries only the
    details its action is allowed and the names that go with them. *)
Theorem feed_complete owner limit before (x : X) :
  match read_activity (GovernanceHistorian0 := logged_history) (RosterReader0 := logged_roster) py_str owner limit before ([], x) with
  | (Ok feed, (ev, _)) => ∃ events,
      ev = HeardEvents events :: (if existsb names_a_companion events then [AskedRoster owner] else []) ∧
      Forall2 (λ m e, m.(am_event_id) = e.(ge_event_id) ∧ m.(am_action) = e.(ge_action) ∧
        m.(am_subject_id) = e.(ge_subject_id) ∧ m.(am_occurred_at) = e.(ge_occurred_at) ∧ m.(am_outcome) = e.(ge_outcome) ∧
        ∀ key, key ∈ m.(am_detail).*1 → allowed e.(ge_action) key) feed.(moments) events ∧
      (existsb names_a_companion events = false → Forall (λ m, m.(subject_name) = "") feed.(moments))
  | (Raise _, (ev, _)) => ev = [] ∨ ∃ events, existsb names_a_companion events = true ∧
      ev = [HeardEvents events; AskedRoster owner]
  end.
Proof.
  assert (∀ names events, Forall2 (λ m e, m.(am_event_id) = e.(ge_event_id) ∧ m.(am_action) = e.(ge_action) ∧
        m.(am_subject_id) = e.(ge_subject_id) ∧ m.(am_occurred_at) = e.(ge_occurred_at) ∧ m.(am_outcome) = e.(ge_outcome) ∧
        ∀ key, key ∈ m.(am_detail).*1 → allowed e.(ge_action) key) (moment_of py_str names <$> events) events) as Hm.
  { intros names events. apply Forall2_fmap_l, Forall_Forall2_diag, Forall_forall. intros e _. split_and!; [done..|].
    apply detail_keys. }
  unfold read_activity, mbind, M_bind. unfold authority_governance_events at 1, logged_history, hearing. cbn [fst snd].
  destruct (authority_governance_events owner limit before x) as [[[events next]|e] x1]; [|by left]. cbn [fst app].
  destruct (existsb names_a_companion events) eqn:E.
  - unfold companion_names, mbind, M_bind, authority_list_companions at 1, logged_roster, asking. cbn [fst snd app].
    destruct (authority_list_companions owner None x1) as [[page|e] x2]; cbn.
    + exists events. rewrite E. split_and!; [done|apply Hm|done].
    + right. by exists events.
  - cbn. exists events. rewrite E. split_and!; [done|apply Hm|]. intros _. by apply Forall_fmap, Forall_forall.
Qed.
End FeedProofs.
