(* ===== verification/Lanes.v ===== *)
(** * Mission Control: what each lane can say about itself

    [app/mission_control/lanes.py]: the ledger every read of a composition
    reports to, and the outcome it derives for each lane of the Owner's map.
    The monotonic clock reads in microseconds; a latency is a number of tenths
    of a millisecond. *)

From S2P Require Import Prelude.

Record SourceStatus := mkStatus {
  ss_source : string; ss_ok : bool; ss_detail : string; ss_latency_ms : option Z }.

Definition LANES : list string :=
  ["devices"; "services"; "activities"; "turns"; "jobs"; "memory"; "events"].

Definition SOURCE_LANES : list (string * list string) :=
  [("control-plane", LANES); ("data.owners", []); ("data.companions", []);
   ("runtime.blackboard", ["devices"]); ("channel.presence", ["devices"]);
   ("hub.device_page", []); ("hub.event_feed", []); ("data.guard_bindings", []);
   ("host.services", ["services"]);
   ("agent.turns", ["turns"; "activities"]); ("data.conversations", ["turns"]);
   ("agent.long_tasks", ["jobs"; "activities"]); ("data.jobs", ["jobs"]);
   ("memory.roster", ["memory"]); ("memory.runtime", ["memory"]);
   ("audit.index", ["events"]); ("audit.indexer", ["events"])].

Record LaneOutcome := mkOutcome {
  lo_state : string; lo_detail : string; lo_observed_at : option Z; lo_latency_ms : option Z; lo_truncated : bool }.
Definition readable (o : LaneOutcome) : bool := negb (bool_decide (o.(lo_state) = "unavailable")).

Record LaneLedger := mkLedger {
  ll_rows : list SourceStatus;
  ll_outcomes : list (string * list (string * SourceStatus));
  ll_truncated : list string }.
Definition new_ledger : LaneLedger := mkLedger [] [] [].

(** [round(seconds * 1000, 1)] of a span in microseconds: the nearest tenth, the
    even one of two. *)
Definition tenths_of_ms (span : Z) : Z :=
  let q := (span / 100)%Z in
  let r := (span mod 100)%Z in
  if (50 <? r)%Z || ((r =? 50)%Z && Z.odd q) then (q + 1)%Z else q.

(** [self._outcomes.setdefault(lane, {})\[source\] = status] *)
Definition file_under (st : SourceStatus) (o : list (string * list (string * SourceStatus))) (lane : string) :
    list (string * list (string * SourceStatus)) :=
  dict_set lane (dict_set st.(ss_source) st (default [] (dict_get lane o))) o.

Class Clock (X : Type) := { perf_counter : X → Z * X }.

(** [f"{x!r}"] of a string, and [datetime.now(UTC)]. *)
Section Ledger.
Context {X : Type} `{!Clock X} (py_repr : string → string).
Abbreviation W := (LaneLedger * X)%type.

Definition record (source : string) (ok : bool) (detail : string) (started latency_ms : option Z) :
    M W SourceStatus := λ w,
  match dict_get source SOURCE_LANES with
  | None =>
      (Raise (UnregisteredSource (py_repr source +:+
         " decides no lane. Add it to SOURCE_LANES in app/mission_control/lanes.py, naming the lanes its answer decides — an empty tuple if it genuinely decides none.")), w)
  | Some lanes =>
      let '(latency, x) :=
        match latency_ms, started with
        | None, Some t => let '(now, x) := perf_counter w.2 in (Some (tenths_of_ms (now - t)), x)
        | l, _ => (l, w.2)
        end in
      let status := mkStatus source ok detail latency in
      (Ok status, (mkLedger (w.1.(ll_rows) ++ [status]) (foldl (file_under status) w.1.(ll_outcomes) lanes)
                     w.1.(ll_truncated), x))
  end.

Definition truncate (lane detail : string) : M W unit := λ w,
  if negb (bool_decide (lane ∈ LANES)) then (Raise (UnregisteredSource (py_repr lane +:+ " is not a lane")), w)
  else
    let o := w.1.(ll_outcomes) in
    (Ok tt,
     (mkLedger
        (w.1.(ll_rows) ++ (if bool_decide (detail = "") then [] else [mkStatus (lane +:+ ".truncated") true detail None]))
        (match dict_get lane o with Some _ => o | None => dict_set lane [] o end)
        (if bool_decide (lane ∈ w.1.(ll_truncated)) then w.1.(ll_truncated) else w.1.(ll_truncated) ++ [lane]), w.2)).

(** The latest row of each source, where the source first stood. *)
Definition latest (rows : list SourceStatus) : list (string * SourceStatus) :=
  foldl (λ d st, dict_set st.(ss_source) st d) [] rows.
Definition statuses (l : LaneLedger) : list SourceStatus := (latest l.(ll_rows)).*2.

Definition reason_of (row : SourceStatus) : string :=
  if bool_decide (row.(ss_detail) = "") then row.(ss_source) else row.(ss_source) +:+ ": " +:+ row.(ss_detail).
(** [max(seen) if seen else None] *)
Definition slowest (rows : list SourceStatus) : option Z :=
  match omap ss_latency_ms rows with
  | [] => None
  | l :: ls => Some (foldl Z.max l ls)
  end.
(** [sep.join(parts)] *)
Fixpoint join_with (sep : string) (parts : list string) : string :=
  match parts with
  | [] => ""
  | [p] => p
  | p :: ps => p +:+ sep +:+ join_with sep ps
  end.

Definition outcome (lane : string) (observed_at : option Z) (now : Z) (l : LaneLedger) : result LaneOutcome :=
  if negb (bool_decide (lane ∈ LANES)) then Raise (UnregisteredSource (py_repr lane +:+ " is not a lane"))
  else
    let when := Some (default now observed_at) in
    let rows := (default [] (dict_get lane l.(ll_outcomes))).*2 in
    let failures := List.filter (λ r, negb r.(ss_ok)) rows in
    let answers := List.filter ss_ok rows in
    let cut := bool_decide (lane ∈ l.(ll_truncated)) in
    match failures, answers with
    | _ :: _, _ =>
        Ok (mkOutcome (match answers with [] => "unavailable" | _ => "degraded" end)
              (join_with "；" (reason_of <$> failures)) when (slowest (failures ++ answers)) cut)
    | [], [] =>
        Ok (mkOutcome "unavailable" ("这台 Host 没有读取 " +:+ lane +:+ " 的来源") when None false)
    | [], _ => Ok (mkOutcome (if cut then "degraded" else "ok") "" when (slowest answers) cut)
    end.

Definition outcomes (observed_at : option Z) (now : Z) (l : LaneLedger) : result (list (string * LaneOutcome)) :=
  mapM (λ lane, o ← outcome lane observed_at now l; Ok (lane, o)) LANES.
End Ledger.
