(* ===== verification/MissionViews.v ===== *)
(** * Mission Control: what is shown

    [app/mission_control/schemas.py]: the parts of a snapshot as records.  A
    time is UTC microseconds since the year 1; a document keeps its members in
    order.  [RuntimeEvent] alone has fields pydantic can refuse. *)

From S2P Require Import Prelude Lanes.

(** ** Vocabulary *)

Definition RuntimeSource : list string := ["hub"; "channel"; "agent"; "memory"; "data"; "admin"; "mission_control"].
Definition RuntimeSeverity : list string := ["info"; "warn"; "error"].
Definition RuntimeOutcome : list string := ["success"; "failure"; "denied"; "deferred"].
Definition EventOrigin : list string := ["live"; "polling"; "replay"; "mock"].

(** ** The blackboard, raw *)

Record RuntimeBlackboardEntry := mkBlackboardEntry {
  be_key : string; be_owner_id : option string; be_snapshot : option obj; be_error : string }.
Record RuntimeBlackboardResponse := mkBlackboardResponse {
  br_generated_at : Z; br_bucket : string; br_owner_filter : option string; br_entries : list RuntimeBlackboardEntry }.

(** ** Events *)

Record RuntimeEvent := mkEvent {
  ev_event_id : string; ev_ts : Z; ev_source : string; ev_type : string; ev_severity : string; ev_outcome : string;
  ev_event_origin : string; ev_trace_id : option string; ev_owner_id : option string; ev_companion_id : option string;
  ev_device_id : option string; ev_conversation_id : option string; ev_turn_id : option string;
  ev_job_id : option string; ev_summary : string; ev_payload : obj }.
(** Construction checks the vocabulary. *)
Definition checked_event (e : RuntimeEvent) : result RuntimeEvent :=
  if bool_decide (e.(ev_source) ∈ RuntimeSource) && bool_decide (e.(ev_severity) ∈ RuntimeSeverity) &&
     bool_decide (e.(ev_outcome) ∈ RuntimeOutcome) && bool_decide (e.(ev_event_origin) ∈ EventOrigin)
  then Ok e else Raise (ValidationError "RuntimeEvent").

(** ** The Owner, Companions and bodies *)

Record RuntimeOwner := mkRuntimeOwner { ro_owner : string; ro_display_name : string; ro_kind : string; ro_status : string }.
Record RuntimeCompanion := mkRuntimeCompanion {
  rc_companion_id : string; rc_display_name : string; rc_kind : string; rc_lifecycle_state : string;
  rc_genome_id : option string; rc_memory_realm_id : option string }.
(** [en_is_online] is the lease-aware verdict of [is_online()]. *)
Record RuntimeDeviceEntry := mkEntry {
  en_device_id : string; en_name : string; en_is_online : bool; en_last_seen_at : option Z;
  en_capabilities : list string; en_provider_companion_id : option string; en_room_name : string;
  en_participant_sid : string; en_registration_id : string; en_manifest_revision : string;
  en_presence_revision : string }.
Record RuntimeDeviceBlackboard := mkBlackboard {
  bb_health : string; bb_available : bool; bb_detail : string; bb_snapshot : option (list RuntimeDeviceEntry) }.
Definition no_blackboard : RuntimeDeviceBlackboard := mkBlackboard "empty" false "No current runtime device snapshot" None.
Record RuntimeDevice := mkDevice {
  rd_device_id : string; rd_name : string; rd_role : string; rd_role_kind : string; rd_kind : string;
  rd_status : string; rd_online : bool; rd_approved : bool; rd_owner_id : option string;
  rd_companion_id : option string; rd_interaction_mode : option string; rd_room_name : string;
  rd_participant_sid : string; rd_last_seen_at : option Z; rd_capabilities : list string; rd_signals : obj }.

(** ** Turns, activities and jobs *)

Record RuntimeTurn := mkTurn {
  rt_turn_id : string; rt_trace_id : option string; rt_channel_turn_id : option string; rt_agent_turn_id : option string;
  rt_conversation_id : string; rt_runtime_session_id : option string; rt_owner_id : string; rt_companion_id : string;
  rt_device_id : option string; rt_status : string; rt_trigger : string; rt_started_at : option Z;
  rt_finished_at : option Z; rt_latency_ms : option Z; rt_memory_hits : Z; rt_tool_names : list string;
  rt_privacy_mode : option string; rt_phase : string; rt_outcome : string; rt_terminal_reason : string;
  rt_event_ids : list string; rt_missing_milestones : list string; rt_stages : list obj; rt_breakdown : list obj }.
Record RuntimeRouteHop := mkHop {
  hp_hop_id : string; hp_node_type : string; hp_node_id : string; hp_label : string; hp_stage : string;
  hp_status : string; hp_direction : string; hp_ts : option Z; hp_latency_ms : option Z }.
Record RuntimeActivity := mkActivity {
  av_activity_id : string; av_kind : string; av_owner_id : string; av_companion_id : option string;
  av_trace_id : option string; av_turn_id : option string; av_job_id : option string;
  av_origin_device_id : option string; av_target_device_ids : list string; av_status : string;
  av_outcome : string; av_summary : string; av_current_hop_id : option string; av_started_at : option Z;
  av_updated_at : option Z; av_finished_at : option Z; av_event_ids : list string; av_route : list RuntimeRouteHop }.
Record RuntimeJob := mkJob {
  rj_job_id : string; rj_owner_id : string; rj_companion_id : option string; rj_conversation_id : option string;
  rj_turn_id : option string; rj_provider : string; rj_kind : string; rj_status : string; rj_summary : string;
  rj_progress : obj; rj_result_summary : string; rj_created_at : option Z; rj_updated_at : option Z;
  rj_completed_at : option Z }.

(** ** Memory and services *)

Record RuntimeMemory := mkMemory {
  me_realms_total : Z; me_active_realm_id : string; me_runners_total : Z; me_runners_online : Z;
  me_audience_scope : string; me_data_readable : bool; me_materialization_state : string;
  me_projection_pending : Z; me_last_materialized_at : option string; me_degraded_reason : string;
  me_last_recall_hits : Z; me_last_write_disposition : option string; me_fanout_allowed : bool;
  me_privacy_mode : option string; me_summary : string }.
Definition no_memory : RuntimeMemory := mkMemory 0 "" 0 0 "" false "unavailable" 0 None "" 0 None false None "".
Record RuntimeService := mkRuntimeService {
  rs_service_id : string; rs_name : string; rs_online : bool; rs_checked : bool; rs_latency_ms : option Z;
  rs_detail : string }.

(** ** The console *)

Record RuntimeStoryStep := mkStoryStep {
  sy_key : string; sy_title : string; sy_detail : string; sy_status : string; sy_source : string; sy_ts : option Z }.
Record RuntimeLaneItem := mkLaneItem { li_label : string; li_value : string; li_status : string; li_detail : string }.
Record RuntimeLane := mkLane {
  la_key : string; la_title : string; la_headline : string; la_detail : string; la_status : string;
  la_items : list RuntimeLaneItem }.
Record RuntimeCapabilityCard := mkCard {
  ca_key : string; ca_title : string; ca_status : string; ca_metric : string; ca_detail : string }.
Record RuntimeExperience := mkExperience {
  xp_headline : string; xp_subheadline : string; xp_plain_summary : string; xp_system_state : string;
  xp_completion : Z; xp_storyline : list RuntimeStoryStep; xp_lanes : list RuntimeLane;
  xp_capability_cards : list RuntimeCapabilityCard; xp_next_best_action : string }.
Definition no_experience : RuntimeExperience :=
  mkExperience "Eidolon 正在等待一次交互" "同一个 companion 可以通过多个身体、记忆和工具协同工作。"
    "选择一个 owner 后，Mission Control 会展示身份、身体、记忆、任务和权限如何一起运转。" "standby" 0 [] [] []
    "和任意已绑定设备说一句话，观察这条链路如何被点亮。".
Record RuntimeTraceSpan := mkSpan {
  sp_span_id : string; sp_turn_id : string; sp_name : string; sp_kind : string; sp_status : string;
  sp_latency_ms : option Z; sp_detail : string }.
Record EvidenceStep := mkStep { es_key : string; es_label : string; es_done : bool; es_detail : string }.
Record EvidenceChain := mkChain {
  ec_key : string; ec_title : string; ec_claim : string; ec_status : string; ec_confidence : Z;
  ec_steps : list EvidenceStep }.
Record PermissionLedgerItem := mkPermission {
  pm_ts : option Z; pm_kind : string; pm_device_id : option string; pm_status : string; pm_privacy_level : string;
  pm_raw_retention : string; pm_summary : string }.

(** ** The snapshot *)

Record RuntimeSnapshot := mkSnapshot {
  sn_generated_at : Z; sn_owner : option RuntimeOwner; sn_companion : option RuntimeCompanion;
  sn_companions : list RuntimeCompanion; sn_default_companion_id : option string; sn_devices : list RuntimeDevice;
  sn_services : list RuntimeService; sn_activities : list RuntimeActivity; sn_recent_turns : list RuntimeTurn;
  sn_memory : RuntimeMemory; sn_jobs : list RuntimeJob; sn_recent_events : list RuntimeEvent;
  sn_source_status : list SourceStatus; sn_runtime_blackboard : RuntimeDeviceBlackboard;
  sn_experience : RuntimeExperience; sn_trace_spans : list RuntimeTraceSpan;
  sn_evidence_chains : list EvidenceChain; sn_permission_ledger : list PermissionLedgerItem; sn_demo_mode : string }.
(** A snapshot of nothing but what its sources said. *)
Definition empty_snapshot (generated_at : Z) (source_status : list SourceStatus) : RuntimeSnapshot :=
  mkSnapshot generated_at None None [] None [] [] [] [] no_memory [] [] source_status no_blackboard no_experience [] [] []
    "live".
