(* ===== verification/MissionControl.v ===== *)
(** * Mission Control: one reading, and the Owner's map

    [app/mission_control/service.py] as far as it reads: every source of
    [compose_runtime], in order, with the ledger it reports to, and the bodies it
    merges; [app/management/mission_control.py] and its router, the projection
    for the Owner with the audit tail; and the join with the Owner's inventory
    of [local_api/management/mission_control.py].  The authorities are
    interfaces; what becomes of turns, tasks and bodies afterwards is in
    MissionTurns.v, MissionActivities.v and MissionConsole.v. *)

From stdpp Require Import pretty.
From S2P Require Import Prelude Encoding Json Timestamp AuditIndex Upstream Lanes MissionViews.

(** ** Bodies *)

(** What an inventory, Hub's list and the blackboard say of one body, as far as
    the merge reads it. *)
Record DataDevice := mkDataDevice {
  dd_device_id : string; dd_name : string; dd_kind : string; dd_last_seen_at : option Z;
  dd_bound_companion_id : option string; dd_approved_at : option Z; dd_owner_id : option string;
  dd_interaction_mode : option string }.
Record HubDevice := mkHubDevice {
  hd_device_id : string; hd_name : string; hd_kind : string; hd_status : string; hd_last_seen : option Z;
  hd_approved : bool; hd_owner_id : option string; hd_room_name : string; hd_participant_sid : string;
  hd_missed_probes : Z; hd_paired : bool }.
(** A Companion as its runtime snapshot names it; an attribute it does not have
    reads as empty. *)
Record CompanionRef := mkRef {
  cr_companion_id : string; cr_kind : string; cr_display_name : string; cr_lifecycle_state : string;
  cr_current_genome_id : option string; cr_default_memory_realm_id : option string }.

(** What the channel said of a body: not asked, or asked and answered. *)
Inductive channel_answer := NotAsked | Said (on_channel : option bool).

Definition lower (s : string) : string :=
  string_of_list_ascii ((λ c, let n := N_of_ascii c in
    if (65 <=? n)%N && (n <=? 90)%N then ascii_of_N (n + 32) else c) <$> list_ascii_of_string s).

Definition device_presence (runtime : option RuntimeDeviceEntry) (hub : option HubDevice) (on_channel : channel_answer) :
    string * bool * string :=
  match runtime with
  | Some r => (if r.(en_is_online) then "online" else "offline", r.(en_is_online), "runtime_blackboard")
  | None =>
      match on_channel with
      | Said (Some true) => ("online", true, "channel")
      | Said (Some false) => ("offline", false, "channel")
      | Said None => ("unknown", false, "channel")
      | NotAsked =>
          match hub with
          | Some h =>
              let status := lower (strip h.(hd_status)) in
              let status := if bool_decide (status ∈ ["online"; "degraded"; "offline"; "unknown"]) then status
                            else "offline" in
              (status, bool_decide (status = "online"), "hub")
          | None => ("offline", false, "data")
          end
      end
  end.

Definition is_guard_companion (c : option CompanionRef) : bool :=
  match c with Some c => bool_decide (c.(cr_kind) = "guard") | None => false end.
Definition device_role (bound : option CompanionRef) (is_guard : bool) : string * string :=
  if is_guard then ("守护哨兵", "guard")
  else match bound with Some _ => ("对话身体", "persona") | None => ("未绑定", "unbound") end.

Definition GUARD_BINDING_TERMINAL_STATES : list string := ["revoked"; "replaced"].
Record GuardBinding := mkGuardBinding {
  gb_device_id : string; gb_revoked_at : option Z; gb_state : string; gb_guard_companion_id : string }.
Definition active_guard_bindings (bindings : list GuardBinding) : list (string * string) :=
  foldl (λ d b,
    if bool_decide (b.(gb_device_id) = "") || (if b.(gb_revoked_at) is Some _ then true else false) ||
       bool_decide (b.(gb_state) ∈ GUARD_BINDING_TERMINAL_STATES)
    then d else dict_set b.(gb_device_id) b.(gb_guard_companion_id) d) [] bindings.

(** One row of [by_id]: what each authority holds of the body. *)
Record parts := mkParts { pt_data : option DataDevice; pt_hub : option HubDevice; pt_runtime : option RuntimeDeviceEntry }.
Definition no_parts : parts := mkParts None None None.
Definition parts_of (id : string) (by_id : list (string * parts)) : parts := default no_parts (dict_get id by_id).

Definition gather (owner : string) (data : list DataDevice) (presence : list (string * option bool))
    (runtime : list RuntimeDeviceEntry) (hub : list HubDevice) : list (string * parts) :=
  let d := foldl (λ d r, dict_set r.(dd_device_id) (mkParts (Some r) None None) d) [] data in
  let d := foldl (λ d p, match dict_get p.1 d with Some _ => d | None => dict_set p.1 no_parts d end) d presence in
  let d := foldl (λ d r, let p := parts_of r.(en_device_id) d in
                         dict_set r.(en_device_id) (mkParts p.(pt_data) p.(pt_hub) (Some r)) d) d runtime in
  foldl (λ d r,
    match dict_get r.(hd_device_id) d, bool_decide (r.(hd_owner_id) = Some owner) with
    | None, false => d
    | _, _ => let p := parts_of r.(hd_device_id) d in
              dict_set r.(hd_device_id) (mkParts p.(pt_data) (Some r) p.(pt_runtime)) d
    end) d hub.

(** [a or b] on strings and on optional values. *)
Definition or_str (a b : string) : string := if bool_decide (a = "") then b else a.
Definition or_some {A} (a b : option A) : option A := match a with Some _ => a | None => b end.
(** An optional id that is empty counts as none in [a or b]. *)
Definition or_id (a b : option string) : option string :=
  match a with Some s => if bool_decide (s = "") then b else a | None => b end.
Definition from {A} {B} (f : A → B) (none : B) (o : option A) : B := match o with Some a => f a | None => none end.

Section Merge.
Context (owner_id : string) (companions : list CompanionRef) (guard_device_ids : list string)
  (blackboard : RuntimeDeviceBlackboard) (presence : list (string * option bool)).

Definition companion_by_id (id : option string) : option CompanionRef :=
  match id with
  | Some i => if bool_decide (i = "") then None
              else dict_get i (foldl (λ d c, if bool_decide (c.(cr_companion_id) = "") then d
                                             else dict_set c.(cr_companion_id) c d) [] companions)
  | None => None
  end.

Definition merged_device (device_id : string) (p : parts) : RuntimeDevice :=
  let '(data, hub, runtime) := (p.(pt_data), p.(pt_hub), p.(pt_runtime)) in
  let asked := match dict_get device_id presence with Some a => Said a | None => NotAsked end in
  let '(status, online, presence_source) := device_presence runtime hub asked in
  let companion_id := or_id (from en_provider_companion_id None runtime) (from dd_bound_companion_id None data) in
  let bound := companion_by_id companion_id in
  let is_guard := bool_decide (device_id ∈ guard_device_ids) || is_guard_companion bound in
  let '(role, role_kind) := device_role bound is_guard in
  mkDevice device_id
    (or_str (from en_name "" runtime) (or_str (from dd_name "" data) (or_str (from hd_name "" hub) device_id)))
    role role_kind
    (or_str (from dd_kind "" data) (or_str (from hd_kind "" hub) "unknown"))
    status online
    (from hd_approved false hub || from (λ d, if d.(dd_approved_at) is Some _ then true else false) false data)
    (or_id (from dd_owner_id None data) (or_id (from hd_owner_id None hub) (from (λ _, Some owner_id) None runtime)))
    companion_id
    (from dd_interaction_mode None data)
    (or_str (from en_room_name "" runtime) (from hd_room_name "" hub))
    (or_str (from en_participant_sid "" runtime) (from hd_participant_sid "" hub))
    (or_some (from en_last_seen_at None runtime) (or_some (from hd_last_seen None hub) (from dd_last_seen_at None data)))
    (match runtime with Some r => if online then sort_by str_leb r.(en_capabilities) else [] | None => [] end)
    [("missed_probes", JInt (from hd_missed_probes 0%Z hub)); ("paired", JBool (from hd_paired false hub));
     ("source", JStr (match runtime, hub, data with
                      | Some _, _, _ => "runtime_blackboard"
                      | None, Some _, Some _ => "hub+data"
                      | _, _, _ => presence_source
                      end));
     ("presence_source", JStr presence_source); ("blackboard_health", JStr blackboard.(bb_health));
     ("blackboard_available", JBool blackboard.(bb_available)); ("blackboard_detail", JStr blackboard.(bb_detail));
     ("registration_id", JStr (from en_registration_id "" runtime));
     ("manifest_revision", JStr (from en_manifest_revision "" runtime));
     ("presence_revision", JStr (from en_presence_revision "" runtime))].

(** [(not item.online, item.role_kind, item.device_id)] *)
Definition device_le (a b : RuntimeDevice) : bool :=
  if Bool.eqb a.(rd_online) b.(rd_online) then
    if bool_decide (a.(rd_role_kind) = b.(rd_role_kind)) then str_leb a.(rd_device_id) b.(rd_device_id)
    else str_leb a.(rd_role_kind) b.(rd_role_kind)
  else a.(rd_online).

Definition merge_devices (data : list DataDevice) (hub : list HubDevice) : list RuntimeDevice :=
  let rows := if blackboard.(bb_available) then default [] blackboard.(bb_snapshot) else [] in
  sort_by device_le ((λ kv, merged_device kv.1 kv.2) <$> gather owner_id data presence rows hub).
End Merge.

(** ** The reading *)

Record OwnerRecord := mkOwnerRecord {
  ow_owner_id : string; ow_display_name : string; ow_lifecycle_state : string; ow_default_companion_id : option string }.
Record MemoryStatus := mkMemoryStatus {
  mm_ready : bool; mm_degraded_reason : string; mm_materialization_state : string; mm_audience_scope : string;
  mm_data_readable : bool; mm_projection_pending : Z; mm_last_materialized_at : option string }.
Record HostService := mkHostService { hs_service_id : string; hs_runtime_state : string; hs_detail : option string }.
Record HostServicePage := mkServicePage { sp_driver : string; sp_services : list HostService }.
Record MemoryRealm := mkRealm { rl_spec : obj; rl_health : obj }.

Definition runtime_service (s : HostService) : RuntimeService :=
  mkRuntimeService s.(hs_service_id) s.(hs_service_id) (bool_decide (s.(hs_runtime_state) = "ready")) true None
    (or_str (default "" s.(hs_detail)) s.(hs_runtime_state)).

(** The clients of the composition.  A companion snapshot is read for its
    companion. *)
Class RuntimeAuthorities (X : Type) := {
  ra_get_owner : string → M X OwnerRecord;
  ra_default_runtime : string → M X CompanionRef;
  (** no Memory Supervisor client is a refusal of its own *)
  ra_supervisor : bool;
  ra_list_realms : M X (list MemoryRealm);
  ra_memory_status : string → option string → M X MemoryStatus;
  ra_host_services : bool;
  ra_list_services : M X HostServicePage }.

Record ServiceConfig := mkServiceConfig {
  sc_base_url : string; sc_upstream_prefix : option string; sc_auth_type : string; sc_token_env : option string }.

Definition starts_with_slash (s : string) : bool :=
  match list_ascii_of_string s with c :: _ => bool_decide (c = "/"%char) | [] => false end.

Record Readings := mkReadings {
  rg_owner : option OwnerRecord; rg_companions : list CompanionRef; rg_default_companion : option CompanionRef;
  rg_devices : list RuntimeDevice; rg_services : list RuntimeService; rg_realms : list MemoryRealm;
  rg_memory_status : option MemoryStatus; rg_turns : list obj; rg_tasks : list obj;
  rg_blackboard : RuntimeDeviceBlackboard }.
Definition no_readings : Readings := mkReadings None [] None [] [] [] None [] [] no_blackboard.

Section Reading.
Context {X : Type} `{!Clock X} `{!RuntimeAuthorities X} `{!Http X}.
(** [repr], [type(error).__name__], [str(error)], [str] of a JSON value;
    [response.json()]; the configured services and the environment. *)
Context (py_repr : string → string) (class_name exn_str : exn → string) (py_str : json → string)
  (loads : bytes → result json) (registry : string → option ServiceConfig) (environ : string → option string).
Abbreviation W := (LaneLedger * X)%type.
Abbreviation record := (Lanes.record py_repr).

Definition out {A} (c : M X A) : M W A := zoom snd (λ x w, (w.1, x)) c.
Definition started_at : M W Z := λ w, let '(t, x) := perf_counter w.2 in (Ok t, (w.1, x)).
(** [except Exception] *)
Definition attempt {A} (c : M W A) (h : exn → M W A) : M W A := catch c (λ e, Some (h e)).
Definition describe (e : exn) : string := class_name e +:+ ": " +:+ exn_str e.

Definition safe {A} (label : string) (call : M X A) : M W (option A) :=
  started ← started_at;
  attempt (result ← out call; record label true "" (Some started) None ;; mret (Some result))
    (λ e, record label false (describe e) None None ;; mret None).
Definition unexposed (label reason : string) : M W unit :=
  record label false reason None None ;; mret tt.

(** [str(v or "")] *)
Definition str_or_empty (v : json) : string := if json_truthy v then Upstream.str_of py_str v else "".

Definition upstream_auth_headers (s : ServiceConfig) : list (string * string) :=
  if bool_decide (s.(sc_auth_type) = "bearer") then
    match s.(sc_token_env) with
    | Some env => if bool_decide (env = "") then [] else
        match environ env with
        | Some token => if bool_decide (token = "") then [] else [("Authorization", "Bearer " +:+ token)]
        | None => []
        end
    | None => []
    end
  else [].

Definition service_json (service_id path : string) (params : option (list (string * string))) (timeout : Z) : M X json :=
  match registry service_id with
  | None => raise (RuntimeError ("service " +:+ py_repr service_id +:+ " is not proxied"))
  | Some s =>
      if bool_decide (s.(sc_base_url) = "") then
        raise (RuntimeError ("service " +:+ py_repr service_id +:+ " is not proxied"))
      else
        let prefix := rstrip_slash (default "" s.(sc_upstream_prefix)) in
        let suffix := if starts_with_slash path then path else "/" +:+ path in
        resp ← send (mkHttpRequest "GET" (rstrip_slash s.(sc_base_url) +:+ prefix +:+ suffix) timeout
                       (("Connection", "close") :: upstream_auth_headers s) params None None false);
        guard_py (negb ((200 <=? resp.(status_code)) && (resp.(status_code) <? 300))%Z) (HttpxTransportError "HTTPStatusError") ;;
        lift (loads resp.(content))
  end.

Definition select_owner (owner_id : option string) : M W (option OwnerRecord) :=
  match owner_id with
  | Some o =>
      if bool_decide (o = "") then unexposed "data.owners" "no authority publishes an Owner list over HTTP; ask for one Owner by id" ;; mret None
      else attempt (w ← out (ra_get_owner o); mret (Some w))
             (λ e, record "data.owners" false (exn_str e) None None ;; mret None)
  | None => unexposed "data.owners" "no authority publishes an Owner list over HTTP; ask for one Owner by id" ;; mret None
  end.

Definition runtime_blackboard : M W RuntimeDeviceBlackboard :=
  unexposed "runtime.blackboard"
    "这台 Host 没有在观测设备在场：Admin 的 NATS KV 客户端随 9a5880f 一起移除，至今没有权威通过 HTTP 发布逐设备在场" ;;
  mret (mkBlackboard "unexposed" false "Admin 不再直接读运行黑板" None).

Definition presence_rows (owner_id : string) (rows : list json) : list (string * option bool) :=
  foldl (λ d row,
    match row with
    | JObj o =>
        let device_id := str_or_empty (obj_get "device_id" o JNull) in
        if bool_decide (device_id = "") || negb (bool_decide (str_or_empty (obj_get "owner_id" o JNull) = owner_id)) then d
        else dict_set device_id (match obj_get "on_channel" o JNull with JBool b => Some b | _ => None end) d
    | _ => d
    end) [] rows.

Definition channel_presence (owner_id : string) : M W (list (string * option bool)) :=
  started ← started_at;
  body ← attempt (v ← out (service_json "channel-provider" "/v1/device-channels/presence" None 2); mret (Some v))
           (λ e, record "channel.presence" false (exn_str e) None None ;; mret None);
  match body with
  | None => mret []
  | Some (JObj o) =>
      match obj_get "bodies" o JNull with
      | JList rows =>
          let presence := presence_rows owner_id rows in
          if negb (bool_decide (rows = [])) && bool_decide (presence = []) then
            record "channel.presence" false
              ("the channel granted " +:+ pretty (Z.of_nat (length rows)) +:+ " channel(s) and none of them are this Owner's — presence and the Owner's bodies may not be named the same way")
              (Some started) None ;; mret []
          else
            record "channel.presence" true (pretty (Z.of_nat (length presence)) +:+ " bodies on channels") (Some started) None ;;
            mret presence
      | _ => record "channel.presence" false "channel provider answered without a bodies list" (Some started) None ;; mret []
      end
  | Some _ => record "channel.presence" false "channel provider answered without a bodies list" (Some started) None ;; mret []
  end.

(** The list at [key] of an object, or an empty one; then its objects. *)
Definition rows_at (key : string) (body : json) : list json :=
  match body with
  | JObj o => match obj_get key o JNull with JList l => l | _ => [] end
  | _ => []
  end.
Definition objects (l : list json) : list obj := omap (λ v, match v with JObj o => Some o | _ => None end) l.

Definition agent_rows (label path key what : string) (params : list (string * string)) : M W (list obj) :=
  started ← started_at;
  attempt
    (body ← out (service_json "agent" path (Some params) 2);
     let rows := rows_at key body in
     record label true (pretty (Z.of_nat (length rows)) +:+ what) (Some started) None ;; mret (objects rows))
    (λ e, record label false (exn_str e) None None ;; mret []).
Definition agent_turns (owner_id : string) (limit : Z) (before : option string) : M W (list obj) :=
  agent_rows "agent.turns" "/conversations/turns" "turns" " turns"
    ([("owner_id", owner_id); ("limit", pretty limit)] ++
     match before with Some b => if bool_decide (b = "") then [] else [("before", b)] | None => [] end).
Definition agent_long_tasks (owner_id : string) : M W (list obj) :=
  agent_rows "agent.long_tasks" "/long-tasks" "tasks" " tasks" [("owner_id", owner_id); ("limit", pretty 20%Z)].

Definition memory_runtime_page : M X (list MemoryRealm) :=
  if ra_supervisor then ra_list_realms else raise (RuntimeError "Memory Supervisor client is not configured").

Definition services : M W (list RuntimeService) :=
  if ra_host_services then
    started ← started_at;
    page ← attempt (p ← out ra_list_services; mret (Some p))
             (λ e, record "host.services" false (describe e) None None ;; mret None);
    match page with
    | None => mret []
    | Some page =>
        let rows := runtime_service <$> page.(sp_services) in
        record "host.services" true
          (pretty (Z.of_nat (length (List.filter rs_online rows))) +:+ "/" +:+ pretty (Z.of_nat (length rows)) +:+
           " online（" +:+ page.(sp_driver) +:+ "）") (Some started) None ;;
        mret rows
    end
  else record "host.services" false "这台 Admin 没有配置 Host 服务控制面" None None ;; mret [].

(** [_companions_from_snapshot], [_default_companion] *)
Definition companions_from_snapshot (s : option CompanionRef) : list CompanionRef :=
  match s with Some c => if bool_decide (c.(cr_companion_id) = "") then [] else [c] | None => [] end.
Definition default_companion (companions : list CompanionRef) (id : option string) : option CompanionRef :=
  match id with
  | Some i => if bool_decide (i = "") then None else next_or_none (λ c, bool_decide (c.(cr_companion_id) = i)) companions
  | None => None
  end.

(** [compose_runtime] as far as it reads.  What it then makes of the readings,
    which can raise, is [composition] of MissionConsole.v. *)
Definition compose_readings (control_plane : bool) (owner_id : option string) : M W Readings :=
  if negb control_plane then
    record "control-plane" false "Admin has no control-plane clients configured" None None ;; mret no_readings
  else
  owner ← select_owner owner_id;
  match owner with
  | None => mret no_readings
  | Some owner =>
      let owner_id := owner.(ow_owner_id) in
      snapshot ← safe "data.companions" (ra_default_runtime owner_id);
      unexposed "hub.device_page" "Hub 的管理客户端不再发布 owner 设备清单；这条 lane 由运行黑板与 Hub 列表支撑" ;;
      unexposed "hub.event_feed" "Hub 的管理客户端不再发布事件流；Owner 的事件来自审计索引" ;;
      let companions := companions_from_snapshot snapshot in
      match snapshot, companions with
      | Some _, [] => unexposed "data.companions" "only the primary Companion is published; the full roster is not"
      | _, _ => mret tt
      end ;;
      unexposed "data.conversations" "Data publishes no conversation history over HTTP" ;;
      realms ← safe "memory.roster" memory_runtime_page;
      unexposed "data.jobs" "Data publishes no job list over HTTP" ;;
      unexposed "data.guard_bindings" "the Guard runtime does not exist yet, so nothing binds a face to a device" ;;
      let default_companion_id := owner.(ow_default_companion_id) in
      status ← safe "memory.runtime" (ra_memory_status owner_id default_companion_id);
      match status with
      | Some m =>
          if m.(mm_ready) then mret tt
          else unexposed "memory.runtime" (or_str m.(mm_degraded_reason) m.(mm_materialization_state))
      | None => mret tt
      end ;;
      blackboard ← runtime_blackboard;
      presence ← channel_presence owner_id;
      let devices := merge_devices owner_id companions ((active_guard_bindings []).*1) blackboard presence [] [] in
      floor ← services;
      turns ← agent_turns owner_id 20 None;
      tasks ← agent_long_tasks owner_id;
      mret (mkReadings (Some owner) companions (default_companion companions default_companion_id) devices floor
              (List.filter (λ r, bool_decide (str_or_empty (obj_get "owner_id" r.(rl_spec) JNull) = owner_id)) (default [] realms))
              status turns tasks blackboard)
  end.

(** Why a page of the history came back empty, as [owner_activity_page] says it. *)
Definition activity_page_failure (l : LaneLedger) : string :=
  from ss_detail "" (next_or_none (λ s, negb s.(ss_ok)) (statuses l)).
End Reading.

(** ** The Owner's map *)

(** The vocabulary of [eidolon_sdk.biz.contracts.mission_control]. *)
Class MissionContract := {
  CONTRACT_VERSION : json; SNAPSHOT_COVERAGE : json; CURSOR_FIELD : string;
  PRESENCE_SOURCES : list string; PRESENCE_SOURCE_NONE : string; PRESENCE_STATES : list string;
  PRESENCE_ONLINE : string; PRESENCE_UNKNOWN : string; ROLE_KINDS : list string }.

Definition LANE_LIMITS : list (string * nat) :=
  [("devices", 64); ("activities", 24); ("turns", 24); ("jobs", 24); ("services", 32); ("events", 120)].

Definition jopt (o : option string) : json := from JStr JNull o.
Definition jint (o : option Z) : json := from JInt JNull o.
Definition stamp (o : option Z) : json := from (λ t, JStr (timestamp t)) JNull o.
Definition strs (l : list string) : json := JList (JStr <$> l).

Definition head_of (o : LaneOutcome) : obj :=
  [("state", JStr o.(lo_state)); ("detail", JStr o.(lo_detail)); ("observed_at", stamp o.(lo_observed_at));
   ("latency_ms", jint o.(lo_latency_ms))].
Definition envelope_of (o : LaneOutcome) (items : list obj) (truncated : bool) : obj :=
  head_of o ++ [("truncated", JBool truncated); ("items", JList (JObj <$> items))].
Definition items_lane (o : LaneOutcome) (items : list obj) (lane : string) : obj :=
  if negb (readable o) then envelope_of o [] o.(lo_truncated)
  else match dict_get lane LANE_LIMITS with
       | Some limit =>
           if limit <? length items then envelope_of o (take limit items) true
           else envelope_of o items o.(lo_truncated)
       | None => envelope_of o items o.(lo_truncated)
       end.
Definition memory_lane (o : LaneOutcome) (m : RuntimeMemory) : obj :=
  head_of o ++ [("value",
    if negb (readable o) then JNull
    else JObj [("realms_total", JInt m.(me_realms_total)); ("active_realm_id", JStr m.(me_active_realm_id));
               ("audience_scope", JStr m.(me_audience_scope)); ("data_readable", JBool m.(me_data_readable));
               ("materialization_state", JStr m.(me_materialization_state));
               ("projection_pending", JInt m.(me_projection_pending));
               ("last_materialized_at", jopt m.(me_last_materialized_at));
               ("degraded_reason", JStr m.(me_degraded_reason));
               ("last_write_disposition", JStr (default "" m.(me_last_write_disposition)))])].

Section Projection.
Context `{!MissionContract} (py_str : json → string).

(** Python's [str] of a member, as [_stage] and [_breakdown] read it. *)
Definition member_str (key : string) (o : obj) : json := JStr (Upstream.str_of py_str (obj_get key o (JStr ""))).

(** The presence a body is shown with: its state and its source. *)
Definition presence_of (row : RuntimeDevice) : string * string :=
  let source := match obj_get "presence_source" row.(rd_signals) JNull with
                | JStr s => if bool_decide (s = "") then PRESENCE_SOURCE_NONE else s
                | _ => PRESENCE_SOURCE_NONE
                end in
  let source := if bool_decide (source ∈ PRESENCE_SOURCES) then source else PRESENCE_SOURCE_NONE in
  let state := if bool_decide (row.(rd_status) ∈ PRESENCE_STATES) then row.(rd_status)
               else if row.(rd_online) then PRESENCE_ONLINE else PRESENCE_UNKNOWN in
  (if bool_decide (source = PRESENCE_SOURCE_NONE) then PRESENCE_UNKNOWN else state, source).
Definition map_device (row : RuntimeDevice) : obj :=
  let '(state, source) := presence_of row in
  [("device_id", JStr row.(rd_device_id)); ("display_name", JStr row.(rd_name)); ("device_kind", JStr row.(rd_kind));
   ("role", JStr row.(rd_role));
   ("role_kind", JStr (if bool_decide (row.(rd_role_kind) ∈ ROLE_KINDS) then row.(rd_role_kind) else "unbound"));
   ("companion_id", jopt row.(rd_companion_id)); ("capabilities", strs row.(rd_capabilities));
   ("presence", JObj [("state", JStr state); ("source", JStr source); ("observed_at", stamp row.(rd_last_seen_at))])].

Definition map_hop (h : RuntimeRouteHop) : json :=
  JObj [("hop_id", JStr h.(hp_hop_id)); ("node_type", JStr h.(hp_node_type)); ("node_id", JStr h.(hp_node_id));
        ("label", JStr h.(hp_label)); ("stage", JStr h.(hp_stage)); ("status", JStr h.(hp_status));
        ("direction", JStr h.(hp_direction)); ("ts", stamp h.(hp_ts)); ("latency_ms", jint h.(hp_latency_ms))].
Definition map_activity (a : RuntimeActivity) : obj :=
  [("activity_id", JStr a.(av_activity_id)); ("kind", JStr a.(av_kind)); ("companion_id", jopt a.(av_companion_id));
   ("status", JStr a.(av_status)); ("outcome", JStr a.(av_outcome)); ("summary", JStr a.(av_summary));
   ("turn_id", jopt a.(av_turn_id)); ("origin_device_id", jopt a.(av_origin_device_id));
   ("target_device_ids", strs a.(av_target_device_ids)); ("current_hop_id", jopt a.(av_current_hop_id));
   ("started_at", stamp a.(av_started_at)); ("updated_at", stamp a.(av_updated_at));
   ("finished_at", stamp a.(av_finished_at)); ("route", JList (map_hop <$> a.(av_route)))].
Definition map_stage (raw : obj) : json :=
  JObj [("key", member_str "key" raw); ("label", member_str "label" raw); ("status", member_str "status" raw);
        ("latency_ms", obj_get "latency_ms" raw JNull)].
Definition map_breakdown (raw : obj) : json :=
  JObj [("key", member_str "key" raw); ("label", member_str "label" raw); ("latency_ms", obj_get "latency_ms" raw JNull)].
Definition map_turn (t : RuntimeTurn) : obj :=
  [("turn_id", JStr t.(rt_turn_id)); ("companion_id", JStr t.(rt_companion_id)); ("device_id", jopt t.(rt_device_id));
   ("runtime_session_id", jopt t.(rt_runtime_session_id)); ("status", JStr t.(rt_status)); ("trigger", JStr t.(rt_trigger));
   ("latency_ms", jint t.(rt_latency_ms)); ("memory_hits", JInt t.(rt_memory_hits)); ("tool_names", strs t.(rt_tool_names));
   ("stages", JList (map_stage <$> t.(rt_stages))); ("breakdown", JList (map_breakdown <$> t.(rt_breakdown)))].
Definition map_job (j : RuntimeJob) : obj :=
  [("job_id", JStr j.(rj_job_id)); ("companion_id", jopt j.(rj_companion_id)); ("kind", JStr j.(rj_kind));
   ("status", JStr j.(rj_status)); ("summary", JStr j.(rj_summary))].
Definition map_service (s : RuntimeService) : obj :=
  [("service_id", JStr s.(rs_service_id)); ("display_name", JStr s.(rs_name)); ("code", JStr s.(rs_service_id));
   ("mode", JStr ""); ("tier", JStr "service"); ("online", JBool s.(rs_online)); ("checked", JBool s.(rs_checked));
   ("latency_ms", jint s.(rs_latency_ms)); ("detail", JStr s.(rs_detail))].

(** What an event was about: its subject, or else an id of its payload. *)
Definition id_of (e : AuditEnvelope) (kind : string) (keys : list string) : option string :=
  if bool_decide (e.(subject_type) = kind) && negb (bool_decide (e.(subject_id) = "")) then Some e.(subject_id)
  else head (omap (λ key, match obj_get key e.(payload) JNull with
                          | JStr s => if bool_decide (s = "") then None else Some s
                          | _ => None
                          end) keys).
Definition map_event (r : IndexedAuditEvent) : obj :=
  let e := r.(envelope) in
  let milestone := obj_get "milestone" e.(payload) JNull in
  [("event_id", JStr e.(event_id)); ("ingest_seq", JInt r.(ingest_seq)); ("producer_seq", JInt e.(producer_seq));
   ("ts", stamp (Some e.(occurred_at))); ("source", JStr e.(producer)); ("type", JStr e.(action));
   ("severity", JStr e.(severity)); ("outcome", JStr e.(audit_outcome)); ("privacy", JStr e.(data_classification));
   ("origin", JStr "live"); ("trace_id", jopt e.(trace_id));
   ("companion_id", jopt (id_of e "companion" ["companion_id"])); ("device_id", jopt (id_of e "device" ["device_id"]));
   ("turn_id", jopt (id_of e "turn" ["turn_id"])); ("job_id", jopt (id_of e "job" ["job_id"; "task_id"]));
   ("milestone", JStr (if json_truthy milestone then Upstream.str_of py_str milestone else ""));
   ("summary", JStr (or_str (default "" e.(audit_reason)) e.(action)))].

(** [max((row.ingest_seq for row in indexed), default=None)] *)
Definition cursor_of (indexed : list IndexedAuditEvent) : option Z :=
  match ingest_seq <$> indexed with [] => None | n :: ns => Some (foldl Z.max n ns) end.

Definition lane_of (outcomes : list (string * LaneOutcome)) (lane : string) : LaneOutcome :=
  default (mkOutcome "" "" None None false) (dict_get lane outcomes).

Definition owner_runtime_projection (py_repr : string → string) (snapshot : RuntimeSnapshot) (ledger : LaneLedger) (now : Z)
    (audit_events : list IndexedAuditEvent) : result obj :=
  outs ← outcomes py_repr (Some snapshot.(sn_generated_at)) now ledger;
  let lane name items := (name, JObj (items_lane (lane_of outs name) items name)) in
  Ok ([("contract_version", CONTRACT_VERSION); ("coverage", SNAPSHOT_COVERAGE);
       ("generated_at", stamp (Some snapshot.(sn_generated_at)))] ++
      match cursor_of audit_events with Some c => [("cursor", JObj [(CURSOR_FIELD, JInt c)])] | None => [] end ++
      [lane "devices" (map_device <$> snapshot.(sn_devices)); lane "activities" (map_activity <$> snapshot.(sn_activities));
       lane "turns" (map_turn <$> snapshot.(sn_recent_turns)); lane "jobs" (map_job <$> snapshot.(sn_jobs));
       ("memory", JObj (memory_lane (lane_of outs "memory") snapshot.(sn_memory)));
       lane "services" (map_service <$> snapshot.(sn_services)); lane "events" (map_event <$> audit_events)]).

Definition HISTORY_COVERAGE : string := "owner-interactions".
Definition owner_activity_history (activities : list RuntimeActivity) (next_before : option string) (failure : string) : obj :=
  [("contract_version", CONTRACT_VERSION); ("coverage", JStr HISTORY_COVERAGE);
   ("state", JStr (if bool_decide (failure = "") then "ok" else "unavailable")); ("detail", JStr failure);
   ("items", JList (if bool_decide (failure = "") then (λ a, JObj (map_activity a)) <$> activities else []))] ++
  match next_before with
  | Some b => if bool_decide (b = "") then [] else [("next_cursor", JStr b)]
  | None => []
  end.
End Projection.

(** ** The audit tail *)

Definition AUDIT_TAIL_LIMIT : nat := 120.

Section Tail.
Context {X : Type} `{!Clock X} (py_repr : string → string) (exn_str : exn → string).
(** The indexer's health and the index of the process, where it has them; an
    index's reads may fail. *)
Context (audit_indexer : option AuditIndexerHealth) (audit_index : option (M X audit_rows)).
Abbreviation record := (Lanes.record py_repr).

Definition owner_audit_tail (owner_id : string) : M (LaneLedger * X) (list IndexedAuditEvent) :=
  match audit_indexer with
  | None => record "audit.indexer" false "这台 Host 没有配置审计事件流：没有东西在填充索引" None None
  | Some h => if h.(health_ok) then record "audit.indexer" true "" None None
              else record "audit.indexer" false h.(health_detail) None None
  end ;;
  match audit_index with
  | None => record "audit.index" false "这台 Host 没有审计索引：事件流没有在跑" None None ;; mret []
  | Some read =>
      started ← started_at;
      found ← attempt (rows ← out read; mret (Some (tail_for_owner owner_id None AUDIT_TAIL_LIMIT rows)))
                (λ e, record "audit.index" false (exn_str e) None None ;; mret None);
      match found with
      | None => mret []
      | Some events =>
          record "audit.index" true (pretty (Z.of_nat (length events)) +:+ " events") (Some started) None ;; mret events
      end
  end.
End Tail.

(** ** The join with the inventory *)

(** A [DeviceView], as far as the join reads it. *)
Record DeviceView := mkDeviceView {
  dw_device_id : string; dw_label : string; dw_kind : string; dw_answers_as_companion_id : option string }.

Definition ROLE_ANSWERING : string * string := ("对话身体", "persona").
Definition ROLE_UNBOUND : string * string := ("未绑定", "unbound").
Definition answers (d : DeviceView) : option string := or_id d.(dw_answers_as_companion_id) None.

Definition inventory_row (d : DeviceView) : obj :=
  let '(role, role_kind) := match answers d with Some _ => ROLE_ANSWERING | None => ROLE_UNBOUND end in
  [("device_id", JStr d.(dw_device_id)); ("display_name", JStr (or_str d.(dw_label) d.(dw_device_id)));
   ("device_kind", JStr d.(dw_kind)); ("role", JStr role); ("role_kind", JStr role_kind);
   ("companion_id", jopt d.(dw_answers_as_companion_id)); ("capabilities", JList []);
   ("presence", JObj [("state", JStr "unknown"); ("source", JStr "none"); ("observed_at", JNull)])].

Definition fill_row (d : DeviceView) (row : obj) : obj :=
  let row := if negb (bool_decide (d.(dw_label) = "")) && negb (json_truthy (obj_get "display_name" row JNull))
             then dict_set "display_name" (JStr d.(dw_label)) row else row in
  let row := if negb (bool_decide (d.(dw_kind) = "")) && negb (json_truthy (obj_get "device_kind" row JNull))
             then dict_set "device_kind" (JStr d.(dw_kind)) row else row in
  match answers d with
  | Some c =>
      if json_truthy (obj_get "companion_id" row JNull) then row
      else
        let row := dict_set "companion_id" (JStr c) row in
        if (match obj_get "role_kind" row JNull with
            | JNull => true
            | JStr k => bool_decide (k ∈ [""; "unbound"])
            | _ => false
            end)
        then dict_set "role_kind" (JStr ROLE_ANSWERING.2) (dict_set "role" (JStr ROLE_ANSWERING.1) row)
        else row
  | None => row
  end.

(** [by_id] keeps the last row of an id and knows only the rows the map came
    with; a body listed twice in the inventory is filled or added twice. *)
Definition json_eq_id (v : json) (id : string) : bool := match v with JStr s => bool_decide (s = id) | _ => false end.
Definition has_id (id : string) (row : obj) : bool := json_eq_id (obj_get "device_id" row JNull) id.
Fixpoint update_first (p : obj → bool) (f : obj → obj) (rows : list obj) : list obj :=
  match rows with
  | [] => []
  | r :: rs => if p r then f r :: rs else r :: update_first p f rs
  end.
Definition update_last (p : obj → bool) (f : obj → obj) (rows : list obj) : list obj :=
  reverse (update_first p f (reverse rows)).

Definition join_body (rows : list obj * list obj) (d : DeviceView) : list obj * list obj :=
  let id := d.(dw_device_id) in
  if bool_decide (id = "") then rows
  else if existsb (has_id id) rows.1 then (update_last (has_id id) (fill_row d) rows.1, rows.2)
  else (rows.1, rows.2 ++ [inventory_row d]).

Definition join_health (presence_readable : bool) (presence_detail : string) (existence_readable : bool)
    (existence_detail : string) (degraded : bool) : string * string :=
  let reasons := List.filter (λ t, negb (bool_decide (t = "")))
    [if presence_readable then "" else presence_detail; if existence_readable then "" else existence_detail] in
  match presence_readable, existence_readable with
  | false, false => ("unavailable", or_str (join_with "；" reasons) "身体既读不到在场，也读不到清单")
  | true, true => (if degraded then "degraded" else "ok", presence_detail)
  | _, _ => ("degraded", or_str (join_with "；" reasons) "这条 lane 只读到了一半")
  end.

Definition join_owner_devices (py_str : json → string) (snapshot : obj) (devices : option (list DeviceView)) (failure : string) : obj :=
  match obj_get "devices" snapshot JNull with
  | JObj lane =>
      let state_is s := json_eq_str (obj_get "state" lane JNull) s in
      let joined := foldl join_body (objects (rows_at "items" (JObj lane)), []) (default [] devices) in
      let '(state, detail) :=
        join_health (negb (state_is "unavailable")) (str_or_empty py_str (obj_get "detail" lane JNull))
          (if devices is Some _ then true else false) failure (state_is "degraded") in
      let items := if bool_decide (state = "unavailable") then [] else joined.1 ++ joined.2 in
      dict_set "devices"
        (JObj (dict_set "items" (JList (JObj <$> items))
                 (dict_set "detail" (JStr detail) (dict_set "state" (JStr state) lane)))) snapshot
  | _ => snapshot
  end.

(** What the route passes: the bodies when nothing failed. *)
Definition owner_map (py_str : json → string) (snapshot : obj) (inventory : list DeviceView + string) : obj :=
  let '(rows, inventory_failure) := match inventory with inl rows => (rows, "") | inr f => ([], f) end in
  join_owner_devices py_str snapshot (if bool_decide (inventory_failure = "") then Some rows else None) inventory_failure.
