(* ===== verification/MissionProofs.v ===== *)
(** * Mission Control: what a lane may claim

    The ledger's outcomes over any history of reports; what a composition
    reports and returns whatever its authorities do; the audit tail and the
    cursor of the map; and the join with the Owner's inventory. *)

From stdpp Require Import pretty.
From S2P Require Import Prelude Encoding Json Timestamp AuditIndex AuditProofs Upstream Lanes MissionViews MissionControl.

(** ** The ledger *)

Definition decided (source : string) : list string := default [] (dict_get source SOURCE_LANES).
Definition decides (lane : string) (st : SourceStatus) : bool := bool_decide (lane ∈ decided st.(ss_source)).
Definition filed (lane : string) (l : LaneLedger) : list (string * SourceStatus) := default [] (dict_get lane l.(ll_outcomes)).
(** The statuses that bear on a lane, out of the flat list. *)
Definition deciding (lane : string) (l : LaneLedger) : list SourceStatus := List.filter (decides lane) (statuses l).

Definition keyed (d : list (string * SourceStatus)) : Prop := Forall (λ kv, kv.1 = kv.2.(ss_source)) d.
Definition ledger_ok (l : LaneLedger) : Prop :=
  ∀ lane, filed lane l = List.filter (λ kv, decides lane kv.2) (latest l.(ll_rows)).

Lemma latest_snoc rows st : latest (rows ++ [st]) = dict_set st.(ss_source) st (latest rows).
Proof. unfold latest. by rewrite foldl_app. Qed.

Lemma dict_set_keyed st d : keyed d → keyed (dict_set st.(ss_source) st d).
Proof.
  unfold keyed. induction 1 as [|[k v] d Hk Hd IH]; cbn [dict_set]; [by repeat constructor|].
  case_bool_decide; by constructor.
Qed.
Lemma latest_keyed rows : keyed (latest rows).
Proof.
  induction rows as [|st rows IH] using rev_ind; [constructor|]. rewrite latest_snoc. by apply dict_set_keyed.
Qed.
Lemma latest_NoDup rows : NoDup (latest rows).*1.
Proof.
  induction rows as [|st rows IH] using rev_ind; [constructor|]. rewrite latest_snoc. by apply dict_set_NoDup.
Qed.
Lemma latest_get rows s : dict_get s (latest rows) = last (List.filter (λ st, bool_decide (st.(ss_source) = s)) rows).
Proof.
  induction rows as [|st rows IH] using rev_ind; [done|]. rewrite latest_snoc, dict_get_set, List.filter_app. cbn.
  destruct (decide (st.(ss_source) = s)) as [<-|Hne].
  - by rewrite !bool_decide_eq_true_2, last_snoc.
  - rewrite !bool_decide_eq_false_2, app_nil_r by congruence. done.
Qed.

(** A lane's share of the statuses is fixed by their sources. *)
Lemma decides_source lane a b : a.(ss_source) = b.(ss_source) → decides lane a = decides lane b.
Proof. unfold decides. by intros ->. Qed.

Lemma filter_dict_set lane st d : keyed d →
  List.filter (λ kv, decides lane kv.2) (dict_set st.(ss_source) st d) =
    if decides lane st then dict_set st.(ss_source) st (List.filter (λ kv, decides lane kv.2) d)
    else List.filter (λ kv, decides lane kv.2) d.
Proof.
  induction 1 as [|[k v] d Hk Hd IH]; cbn [dict_set]; [cbn; by destruct (decides lane st)|]. cbn in Hk. subst k.
  case_bool_decide as E.
  - cbn. rewrite (decides_source lane v st) by done. destruct (decides lane st); [|done]. cbn.
    by rewrite bool_decide_eq_true_2.
  - cbn. rewrite IH. destruct (decides lane v), (decides lane st); cbn; by rewrite ?bool_decide_eq_false_2.
Qed.

Lemma filed_fold lane st lanes o : NoDup lanes →
  default [] (dict_get lane (foldl (file_under st) o lanes)) =
    if bool_decide (lane ∈ lanes) then dict_set st.(ss_source) st (default [] (dict_get lane o))
    else default [] (dict_get lane o).
Proof.
  revert o. induction lanes as [|l lanes IH]; intros o Hnd; [done|]. apply NoDup_cons in Hnd as [Hni Hnd].
  cbn. rewrite IH by done. unfold file_under. rewrite dict_get_set.
  destruct (decide (lane = l)) as [->|Hne].
  - rewrite (bool_decide_eq_true_2 (l = l)) by done. rewrite bool_decide_eq_false_2 by done.
    by rewrite bool_decide_eq_true_2 by left.
  - rewrite (bool_decide_eq_false_2 (lane = l)) by done. by rewrite (bool_decide_ext (lane ∈ l :: lanes) (lane ∈ lanes)) by (rewrite elem_of_cons; tauto).
Qed.

Lemma decided_ok source lanes : dict_get source SOURCE_LANES = Some lanes → NoDup lanes ∧ ∀ l, l ∈ lanes → l ∈ LANES.
Proof.
  intros H%dict_get_elem. assert (Forall (λ kv, NoDup kv.2 ∧ Forall (λ l, l ∈ LANES) kv.2) SOURCE_LANES) as Hall.
  { apply (bool_decide_unpack _). by vm_compute. }
  rewrite Forall_forall in Hall. destruct (Hall _ H) as [Hnd Hl]. split; [done|]. by apply Forall_forall.
Qed.

Lemma ledger_ok_new : ledger_ok new_ledger.
Proof. done. Qed.

Section Ledger.
Context {X : Type} `{!Clock X} (py_repr : string → string).
Abbreviation W := (LaneLedger * X)%type.
Abbreviation record := (Lanes.record py_repr).
Abbreviation truncate := (Lanes.truncate py_repr).

(** A report under a registered source is one more row, filed under its lanes. *)
Lemma record_run source ok detail started latency (w : W) : is_Some (dict_get source SOURCE_LANES) → ledger_ok w.1 →
  ∃ st w', record source ok detail started latency w = (Ok st, w') ∧
    st.(ss_source) = source ∧ st.(ss_ok) = ok ∧ st.(ss_detail) = detail ∧
    w'.1.(ll_rows) = w.1.(ll_rows) ++ [st] ∧ w'.1.(ll_truncated) = w.1.(ll_truncated) ∧ ledger_ok w'.1.
Proof.
  intros [lanes E] Hok. unfold Lanes.record. rewrite E.
  destruct (match latency with Some _ => _ | None => _ end) as [ms x].
  eexists (mkStatus source ok detail ms), _. split_and!; [done..|]. intros lane. unfold filed. cbn [fst ll_outcomes ll_rows].
  pose proof (decided_ok _ _ E) as [Hnd _]. rewrite filed_fold by done. rewrite latest_snoc, filter_dict_set by apply latest_keyed.
  rewrite <- !Hok. unfold filed, decides, decided. cbn [ss_source]. rewrite E. reflexivity.
Qed.

Lemma record_refused source ok detail started latency (w : W) : dict_get source SOURCE_LANES = None →
  ∃ msg, record source ok detail started latency w = (Raise (UnregisteredSource msg), w).
Proof. unfold Lanes.record. intros ->. eauto. Qed.

Lemma truncated_row lane detail : decided (lane +:+ ".truncated") = [] →
  ∀ l, decides l (mkStatus (lane +:+ ".truncated") true detail None) = false.
Proof. intros H l. unfold decides. cbn [ss_source]. rewrite H. by apply bool_decide_eq_false_2, not_elem_of_nil. Qed.

Lemma truncate_run lane detail (w : W) : lane ∈ LANES → ledger_ok w.1 →
  ∃ w', truncate lane detail w = (Ok tt, w') ∧ ledger_ok w'.1 ∧
    w'.1.(ll_rows) = w.1.(ll_rows) ++ (if bool_decide (detail = "") then [] else [mkStatus (lane +:+ ".truncated") true detail None]) ∧
    (∀ l, l ∈ w'.1.(ll_truncated) ↔ l = lane ∨ l ∈ w.1.(ll_truncated)).
Proof.
  intros Hl Hok. unfold Lanes.truncate. rewrite bool_decide_eq_true_2 by done. cbn [negb]. eexists. split; [done|]. cbn [fst ll_rows ll_truncated].
  split_and!; [|done|].
  - intros l. unfold filed. cbn [ll_outcomes ll_rows].
    assert (default [] (dict_get l (match dict_get lane w.1.(ll_outcomes) with Some _ => w.1.(ll_outcomes)
                                    | None => dict_set lane [] w.1.(ll_outcomes) end)) = filed l w.1) as ->.
    { unfold filed. destruct (dict_get lane _) eqn:E; [done|]. rewrite dict_get_set. case_bool_decide; [|done]. subst. by rewrite E. }
    rewrite Hok. case_bool_decide; [by rewrite app_nil_r|]. rewrite latest_snoc, filter_dict_set by apply latest_keyed.
    rewrite truncated_row; [done|]. clear -Hl. unfold decided.
    assert (Forall (λ l, dict_get (l +:+ ".truncated") SOURCE_LANES = None) LANES) as Hall by (apply (bool_decide_unpack _); by vm_compute).
    rewrite Forall_forall in Hall. by rewrite (Hall _ Hl).
  - intros l. case_bool_decide as E; [|rewrite elem_of_app, list_elem_of_singleton; tauto].
    split; [tauto|]. by intros [->|].
Qed.

(** *** Any history of reports *)

Inductive report :=
| Recorded (source : string) (ok : bool) (detail : string) (started latency_ms : option Z)
| Cut (lane detail : string).
(** A report that is refused raises where it was made and leaves the ledger. *)
Definition reported (r : report) (w : W) : W :=
  match r with
  | Recorded s ok d t ms => (record s ok d t ms w).2
  | Cut l d => (truncate l d w).2
  end.
Definition run_reports (rs : list report) (w : W) : W := foldl (λ w r, reported r w) w rs.

Lemma reported_ok r w : ledger_ok w.1 → ledger_ok (reported r w).1.
Proof.
  intros Hok. destruct r as [s ok d t ms|l d]; cbn [reported].
  - destruct (dict_get s SOURCE_LANES) eqn:E.
    + destruct (record_run s ok d t ms w) as (st & w' & -> & _ & _ & _ & _ & _ & H); [by eexists|done|done].
    + by destruct (record_refused s ok d t ms w E) as [msg ->].
  - destruct (decide (l ∈ LANES)) as [Hl|Hl].
    + by destruct (truncate_run l d w Hl Hok) as (w' & -> & H & _).
    + unfold Lanes.truncate. by rewrite bool_decide_eq_false_2.
Qed.
Lemma run_reports_ok rs w : ledger_ok w.1 → ledger_ok (run_reports rs w).1.
Proof. revert w. induction rs as [|r rs IH]; intros w H; [done|]. by apply IH, reported_ok. Qed.
End Ledger.

Lemma filed_deciding lane l : ledger_ok l → (filed lane l).*2 = deciding lane l.
Proof.
  intros ->. unfold deciding, statuses. induction (latest l.(ll_rows)) as [|kv d IH]; [done|]. cbn.
  destruct (decides lane kv.2); cbn; by rewrite IH.
Qed.

(** What a history of reports says, source by source, the refused ones left out. *)
Definition told (r : report) : list (string * bool * string) :=
  match r with
  | Recorded s ok d _ _ => if dict_get s SOURCE_LANES is Some _ then [(s, ok, d)] else []
  | Cut l d => if bool_decide (l ∈ LANES ∧ d ≠ "") then [(l +:+ ".truncated", true, d)] else []
  end.
Definition facts (l : LaneLedger) : list (string * bool * string) :=
  (λ st, (st.(ss_source), st.(ss_ok), st.(ss_detail))) <$> l.(ll_rows).

Section Outcome.
Context {X : Type} `{!Clock X} (py_repr : string → string).
Abbreviation W := (LaneLedger * X)%type.

Lemma reported_facts r (w : W) : ledger_ok w.1 →
  facts (reported py_repr r w).1 = facts w.1 ++ told r ∧
  (∀ lane, lane ∈ LANES → lane ∈ (reported py_repr r w).1.(ll_truncated) ↔ (∃ d, r = Cut lane d) ∨ lane ∈ w.1.(ll_truncated)).
Proof.
  intros Hok. unfold facts. destruct r as [s ok d t ms|l d]; cbn [reported told].
  - destruct (dict_get s SOURCE_LANES) eqn:E.
    + destruct (record_run py_repr s ok d t ms w) as (st & w' & Er & <- & <- & <- & Hr & Ht & _); [by eexists|done|].
      rewrite Er. cbn [snd]. rewrite Hr, Ht, fmap_app. split; [done|]. naive_solver.
    + destruct (record_refused py_repr s ok d t ms w E) as [msg ->]. rewrite app_nil_r. split; [done|]. naive_solver.
  - destruct (decide (l ∈ LANES)) as [Hl|Hl].
    + destruct (truncate_run py_repr l d w Hl Hok) as (w' & Er & _ & Hr & H).
      rewrite Er. cbn [snd]. rewrite Hr, fmap_app. split.
      * f_equal. case_bool_decide; [rewrite bool_decide_eq_false_2 by tauto|rewrite bool_decide_eq_true_2 by done]; done.
      * intros lane _. rewrite H. naive_solver.
    + unfold Lanes.truncate. rewrite (bool_decide_eq_false_2 (l ∈ LANES)) by done. rewrite (bool_decide_eq_false_2 (_ ∧ _)) by tauto.
      rewrite app_nil_r. split; [done|]. intros lane HL. split; [by right|]. intros [[d' [= -> ->]]|]; done.
Qed.

Lemma run_facts rs (w : W) : ledger_ok w.1 →
  facts (run_reports py_repr rs w).1 = facts w.1 ++ (rs ≫= told) ∧
  (∀ lane, lane ∈ LANES → lane ∈ (run_reports py_repr rs w).1.(ll_truncated) ↔ (∃ d, Cut lane d ∈ rs) ∨ lane ∈ w.1.(ll_truncated)).
Proof.
  revert w. induction rs as [|r rs IH]; intros w Hok.
  { cbn. rewrite app_nil_r. split; [done|]. intros. split; [by right|]. intros [[d []%not_elem_of_nil]|]; done. }
  destruct (reported_facts r w Hok) as [Hf Ht]. destruct (IH _ (reported_ok py_repr r w Hok)) as [IHf IHt].
  assert (run_reports py_repr (r :: rs) w = run_reports py_repr rs (reported py_repr r w)) as -> by done.
  split; [rewrite IHf, Hf, <- app_assoc; done|]. intros lane Hl. rewrite IHt, Ht by done.
  setoid_rewrite elem_of_cons. naive_solver.
Qed.

(** The three states of a lane, from the statuses that decide it. *)
Lemma outcome_run lane at_ now l : lane ∈ LANES → ledger_ok l →
  ∃ o, outcome py_repr lane (Some at_) now l = Ok o ∧ o.(lo_observed_at) = Some at_ ∧
    o.(lo_state) = (if existsb ss_ok (deciding lane l) then
                      if forallb ss_ok (deciding lane l) && negb (bool_decide (lane ∈ l.(ll_truncated))) then "ok" else "degraded"
                    else "unavailable") ∧
    (deciding lane l ≠ [] →
      o.(lo_detail) = join_with "；" (reason_of <$> List.filter (λ r, negb r.(ss_ok)) (deciding lane l)) ∧
      o.(lo_truncated) = bool_decide (lane ∈ l.(ll_truncated))).
Proof.
  intros Hl Hok. unfold outcome. rewrite bool_decide_eq_true_2 by done. cbn [negb default]. fold (filed lane l). rewrite filed_deciding by done.
  generalize (deciding lane l) as ds. intros ds.
  assert (existsb ss_ok ds = match List.filter ss_ok ds with [] => false | _ => true end) as ->.
  { induction ds as [|d ds IH]; [done|]. cbn. by destruct (ss_ok d). }
  assert (forallb ss_ok ds = match List.filter (λ r, negb r.(ss_ok)) ds with [] => true | _ => false end) as ->.
  { induction ds as [|d ds IH]; [done|]. cbn. by destruct (ss_ok d). }
  assert (ds ≠ [] → List.filter ss_ok ds = [] → List.filter (λ r, negb r.(ss_ok)) ds ≠ []) as Hne.
  { destruct ds as [|d ds]; [done|]. cbn. by destruct (ss_ok d). }
  destruct (List.filter (λ r, negb _) ds) as [|f fs] eqn:Ef, (List.filter ss_ok ds) as [|a ans] eqn:Ea; eexists; (split; [done|]);
    cbn [lo_state lo_detail lo_observed_at lo_truncated fmap list_fmap join_with]; split_and!; try done; [intros []%Hne; done|by case_bool_decide].
Qed.

Lemma forallb_false (ds : list SourceStatus) : forallb ss_ok ds = false → ∃ st, st ∈ ds ∧ st.(ss_ok) = false.
Proof.
  induction ds as [|d ds IH]; [done|]. cbn. destruct (ss_ok d) eqn:E; cbn; [|intros _; exists d; by split; [left|]].
  intros (st & Hin & H)%IH. exists st. by split; [right|].
Qed.

(** What a lane may claim.  Over any history of reports, refused ones
    included, the flat list holds what was told, its latest word of each source
    counting; and a lane is unavailable exactly when no source that decides it
    last answered, ok exactly when some did, none failed and nobody cut it
    short, and otherwise degraded, with every failing source's own words.  A
    report under a source that no lane claims raises and changes nothing. *)
Theorem lane_outcome_exact rs (x : X) lane at_ now : lane ∈ LANES →
  let w := run_reports py_repr rs (new_ledger, x) in
  let ds := deciding lane w.1 in
  let cut := ∃ d, Cut lane d ∈ rs in
  facts w.1 = rs ≫= told ∧
  (∀ s, dict_get s (latest w.1.(ll_rows)) = last (List.filter (λ st, bool_decide (st.(ss_source) = s)) w.1.(ll_rows))) ∧
  (∃ o, outcome py_repr lane (Some at_) now w.1 = Ok o ∧ o.(lo_observed_at) = Some at_ ∧
    (o.(lo_state) = "unavailable" ↔ ∀ st, st ∈ ds → st.(ss_ok) = false) ∧
    (o.(lo_state) = "ok" ↔ ds ≠ [] ∧ (∀ st, st ∈ ds → st.(ss_ok) = true) ∧ ¬ cut) ∧
    (o.(lo_state) = "degraded" ↔ (∃ st, st ∈ ds ∧ st.(ss_ok) = true) ∧ ((∃ st, st ∈ ds ∧ st.(ss_ok) = false) ∨ cut)) ∧
    (ds ≠ [] → o.(lo_detail) = join_with "；" (reason_of <$> List.filter (λ r, negb r.(ss_ok)) ds))) ∧
  (∀ source ok detail started latency, dict_get source SOURCE_LANES = None →
    ∃ msg, Lanes.record py_repr source ok detail started latency w = (Raise (UnregisteredSource msg), w)).
Proof.
  intros Hl w ds cut. assert (ledger_ok w.1) as Hok by by apply run_reports_ok.
  destruct (run_facts rs (new_ledger, x) ledger_ok_new) as [Hf Ht]. specialize (Ht _ Hl). fold w in Hf, Ht.
  split_and!; [done|intros s; apply latest_get| |intros; by apply record_refused].
  destruct (outcome_run lane at_ now w.1 Hl Hok) as (o & Ho & Hat & Hs & Hd). fold ds in Hs, Hd. exists o.
  assert (lane ∈ w.1.(ll_truncated) ↔ cut) as Hcut by (rewrite Ht; subst cut; split; [intros [|[]%not_elem_of_nil]; done|by left]).
  assert (existsb ss_ok ds = true ↔ ∃ st, st ∈ ds ∧ st.(ss_ok) = true) as Hex.
  { rewrite existsb_exists. by setoid_rewrite list_elem_of_In. }
  assert (forallb ss_ok ds = true ↔ ∀ st, st ∈ ds → st.(ss_ok) = true) as Hall.
  { rewrite forallb_forall. by setoid_rewrite list_elem_of_In. }
  clearbody ds cut. split_and!; [done|done|..|intros Hne; by apply Hd]; rewrite Hs; clear -Hcut Hex Hall.
  - destruct (existsb ss_ok ds) eqn:E.
    + destruct (proj1 Hex eq_refl) as (st & Hin & Hst). split; [by destruct (_ && _)|]. intros H. by rewrite H in Hst.
    + split; [|done]. intros _ st Hin. destruct (ss_ok st) eqn:Est; [|done]. destruct (proj2 Hex); [by exists st|done].
  - destruct (existsb ss_ok ds) eqn:E.
    + destruct (proj1 Hex eq_refl) as (st & Hin & Hst). rewrite <- Hcut, <- Hall.
      destruct (forallb ss_ok ds); case_bool_decide; cbn; (split; [try done|naive_solver]).
      intros _. split_and!; [by intros ->; apply not_elem_of_nil in Hin|done|done].
    + split; [done|]. intros (Hne & Ha & _). destruct ds as [|d ds]; [done|].
      assert (false = true); [apply Hex; exists d; split; [left|apply Ha; left]|done].
  - destruct (existsb ss_ok ds) eqn:E.
    + rewrite <- Hcut. destruct (forallb ss_ok ds) eqn:Ea; case_bool_decide; cbn.
      * split; [|done]. intros _. split; [by apply Hex|by right].
      * split; [done|]. intros [_ [(st & Hin & Hst)|]]; [|done]. by rewrite (proj1 Hall eq_refl) in Hst.
      * split; [|done]. intros _. split; [by apply Hex|]. left. by apply forallb_false.
      * split; [|done]. intros _. split; [by apply Hex|]. left. by apply forallb_false.
    + split; [done|]. intros [H _]. by apply Hex in H.
Qed.
End Outcome.

Lemma lane_outcome_exact_witness :
  let w := run_reports (X:=unit) (Clock0:={| perf_counter := λ x, (0%Z, x) |}) id [Recorded "agent.turns" true "" None None] (new_ledger, tt) in
  facts w.1 = [("agent.turns", true, "")].
Proof.
  pose proof (lane_outcome_exact (X:=unit) (Clock0:={| perf_counter := λ x, (0%Z, x) |}) id
    [Recorded "agent.turns" true "" None None] tt "turns" 0 0 ltac:(apply (bool_decide_unpack _); by vm_compute)) as H.
  cbv zeta in H. by destruct H as [H _].
Defined.

(** ** The composition *)

Section Composition.
Context {X : Type} `{!Clock X} `{!RuntimeAuthorities X} `{!Http X}.
Context (py_repr : string → string) (class_name exn_str : exn → string) (py_str : json → string)
  (loads : bytes → result json) (registry : string → option ServiceConfig) (environ : string → option string).
Abbreviation W := (LaneLedger * X)%type.
Abbreviation record := (Lanes.record py_repr).
Abbreviation safe := (MissionControl.safe py_repr class_name exn_str).
Abbreviation unexposed := (MissionControl.unexposed py_repr).
Abbreviation channel_presence := (MissionControl.channel_presence py_repr exn_str py_str loads registry environ).
Abbreviation compose := (compose_readings py_repr class_name exn_str py_str loads registry environ).

(** What has been reported, in order: the source and whether it answered. *)
Definition reports (l : list (string * bool)) (w : W) : Prop :=
  ledger_ok w.1 ∧ (λ st, (st.(ss_source), st.(ss_ok))) <$> w.1.(ll_rows) = l ∧ w.1.(ll_truncated) = [].
(** A read that returns whatever happens, with one report under [name]; what it
    returns when the source did not answer is [none]. *)
Definition reads {A} (name : string) (none : A) (c : M W A) : Prop :=
  ∀ l w, reports l w → ∃ a b w', c w = (Ok a, w') ∧ reports (l ++ [(name, b)]) w' ∧ (b = false → a = none).

Lemma record_reports name ok detail started ms l w : is_Some (dict_get name SOURCE_LANES) → reports l w →
  ∃ st w', record name ok detail started ms w = (Ok st, w') ∧ reports (l ++ [(name, ok)]) w'.
Proof.
  intros Hn (Hok & Hl & Ht). destruct (record_run py_repr name ok detail started ms w Hn Hok) as (st & w' & E & <- & <- & _ & Hr & Ht' & Hok').
  exists st, w'. split; [done|]. split_and!; [done|by rewrite Hr, fmap_app, Hl|by rewrite Ht'].
Qed.

(** A call on the authorities does not touch the ledger. *)
Lemma out_reports {A} (c : M X A) l w : reports l w → ∃ r w', out c w = (r, w') ∧ reports l w'.
Proof. unfold out, zoom. destruct (c w.2) as [r x]. intros H. by exists r, (w.1, x). Qed.
Lemma started_reports l w : reports l w → ∃ t w', started_at w = (Ok t, w') ∧ reports l w'.
Proof. unfold started_at. destruct (perf_counter w.2) as [t x]. intros H. by exists t, (w.1, x). Qed.

Lemma reads_unexposed name reason l w : is_Some (dict_get name SOURCE_LANES) → reports l w →
  ∃ w', unexposed name reason w = (Ok tt, w') ∧ reports (l ++ [(name, false)]) w'.
Proof.
  intros Hn Hw. unfold MissionControl.unexposed. destruct (record_reports name false reason None None l w Hn Hw) as (st & w' & E & H).
  exists w'. by rewrite (bind_ok _ _ _ _ _ E).
Qed.

Lemma reads_safe {A} name (call : M X A) : is_Some (dict_get name SOURCE_LANES) → reads name None (safe name call).
Proof.
  intros Hn l w Hw. unfold MissionControl.safe. destruct (started_reports l w Hw) as (t & w1 & E1 & H1).
  rewrite (bind_ok _ _ _ _ _ E1). unfold attempt, catch. destruct (out_reports call l w1 H1) as (r & w2 & E2 & H2).
  destruct r as [a|e].
  - rewrite (bind_ok _ _ _ _ _ E2). destruct (record_reports name true "" (Some t) None l w2 Hn H2) as (st & w3 & E3 & H3).
    rewrite (bind_ok _ _ _ _ _ E3). by eexists (Some a), true, w3.
  - rewrite (bind_raise _ _ _ _ _ E2). destruct (record_reports name false (describe class_name exn_str e) None None l w2 Hn H2) as (st & w3 & E3 & H3).
    rewrite (bind_ok _ _ _ _ _ E3). by eexists None, false, w3.
Qed.

(** A call that reports only its failure, and carries on with nothing. *)
Lemma attempt_reports {A B} name detail (none : B) (c : M X A) (some : A → B) l w : is_Some (dict_get name SOURCE_LANES) → reports l w →
  (∃ a w', attempt (v ← out c; mret (some v)) (λ e, record name false (detail e) None None ;; mret none) w = (Ok (some a), w') ∧ reports l w') ∨
  (∃ w', attempt (v ← out c; mret (some v)) (λ e, record name false (detail e) None None ;; mret none) w = (Ok none, w') ∧ reports (l ++ [(name, false)]) w').
Proof.
  intros Hn Hw. unfold attempt, catch. destruct (out_reports c l w Hw) as (r & w1 & E1 & H1). destruct r as [a|e].
  - left. rewrite (bind_ok _ _ _ _ _ E1). by exists a, w1.
  - right. rewrite (bind_raise _ _ _ _ _ E1). destruct (record_reports name false (detail e) None None l w1 Hn H1) as (st & w2 & E2 & H2).
    rewrite (bind_ok _ _ _ _ _ E2). by exists w2.
Qed.

Ltac registered := by eexists.

Lemma reads_presence owner : reads "channel.presence" [] (channel_presence owner).
Proof.
  intros l w Hw. unfold MissionControl.channel_presence. destruct (started_reports l w Hw) as (t & w1 & E1 & H1).
  rewrite (bind_ok _ _ _ _ _ E1).
  destruct (attempt_reports "channel.presence" exn_str None (service_json py_repr loads registry environ "channel-provider" "/v1/device-channels/presence" None 2) Some l w1)
    as [(v & w2 & E2 & H2)|(w2 & E2 & H2)]; [registered|done| |].
  2:{ rewrite (bind_ok _ _ _ _ _ E2). by exists [], false, w2. }
  rewrite (bind_ok _ _ _ _ _ E2).
  assert (∀ d, ∃ w', (record "channel.presence" false d (Some t) None ;; mret []) w2 = (Ok (@nil (string * option bool)), w') ∧
    reports (l ++ [("channel.presence", false)]) w') as Hfail.
  { intros d. destruct (record_reports "channel.presence" false d (Some t) None l w2) as (st & w3 & E3 & H3); [registered|done|].
    exists w3. by rewrite (bind_ok _ _ _ _ _ E3). }
  assert (∀ d, ∃ a b w', (record "channel.presence" false d (Some t) None ;; mret []) w2 = (Ok a, w') ∧
    reports (l ++ [("channel.presence", b)]) w' ∧ (b = false → a = (@nil (string * option bool)))) as Hfail'.
  { intros d. destruct (Hfail d) as (w' & ? & ?). by exists [], false, w'. }
  destruct v as [| | | | | | | |o]; try apply Hfail'. destruct (obj_get "bodies" o JNull); try apply Hfail'.
  destruct (_ && _); [apply Hfail'|].
  edestruct (record_reports "channel.presence" true) as (st & w3 & E3 & H3); [registered|exact H2|].
  rewrite (bind_ok _ _ _ _ _ E3). by eexists _, true, w3.
Qed.

Lemma reads_agent name path key what params : is_Some (dict_get name SOURCE_LANES) →
  reads name [] (agent_rows py_repr exn_str loads registry environ name path key what params).
Proof.
  intros Hn l w Hw. unfold agent_rows. destruct (started_reports l w Hw) as (t & w1 & E1 & H1).
  rewrite (bind_ok _ _ _ _ _ E1). unfold attempt, catch. set (call := service_json _ _ _ _ _ _ _ _).
  destruct (out_reports call l w1 H1) as (r & w2 & E2 & H2).
  destruct r as [a|e].
  - rewrite (bind_ok _ _ _ _ _ E2). cbv zeta. edestruct (record_reports name true) as (st & w3 & E3 & H3); [done|exact H2|].
    rewrite (bind_ok _ _ _ _ _ E3). by eexists _, true, w3.
  - rewrite (bind_raise _ _ _ _ _ E2). destruct (record_reports name false (exn_str e) None None l w2 Hn H2) as (st & w3 & E3 & H3).
    rewrite (bind_ok _ _ _ _ _ E3). by eexists [], false, w3.
Qed.

Lemma reads_services : reads "host.services" [] (services py_repr class_name exn_str).
Proof.
  intros l w Hw. unfold services. destruct ra_host_services.
  2:{ edestruct (record_reports "host.services" false) as (st & w1 & E1 & H1); [registered|exact Hw|].
      rewrite (bind_ok _ _ _ _ _ E1). by eexists [], false, w1. }
  destruct (started_reports l w Hw) as (t & w1 & E1 & H1). rewrite (bind_ok _ _ _ _ _ E1).
  destruct (attempt_reports "host.services" (describe class_name exn_str) None ra_list_services Some l w1)
    as [(v & w2 & E2 & H2)|(w2 & E2 & H2)]; [registered|done| |]; rewrite (bind_ok _ _ _ _ _ E2).
  - cbv zeta. edestruct (record_reports "host.services" true) as (st & w3 & E3 & H3); [registered|exact H2|].
    rewrite (bind_ok _ _ _ _ _ E3). by eexists _, true, w3.
  - by exists [], false, w2.
Qed.

(** *** Lanes of a composition *)

Definition said_of (st : SourceStatus) : string * bool := (st.(ss_source), st.(ss_ok)).
Definition latest_pairs (l : list (string * bool)) : list (string * bool) := foldl (λ d kv, dict_set kv.1 kv.2 d) [] l.

Lemma said_dict_set st d : keyed d → said_of <$> (dict_set st.(ss_source) st d).*2 = dict_set st.(ss_source) st.(ss_ok) (said_of <$> d.*2).
Proof.
  induction 1 as [|[k v] d Hk Hd IH]; [done|]. cbn in Hk. subst k. cbn. case_bool_decide; cbn; [done|]. by f_equal.
Qed.
Lemma said_latest rows : said_of <$> (latest rows).*2 = latest_pairs (said_of <$> rows).
Proof.
  induction rows as [|st rows IH] using rev_ind; [done|]. rewrite latest_snoc, said_dict_set by apply latest_keyed.
  rewrite IH, fmap_app. unfold latest_pairs. by rewrite foldl_app.
Qed.

(** The states of a lane, as the flat list of sources decides them. *)
Definition lane_state (lane : string) (l : LaneLedger) : string :=
  match outcome py_repr lane (Some 0%Z) 0 l with Ok o => o.(lo_state) | Raise _ => "" end.
Definition bearing (lane : string) (ps : list (string * bool)) : list bool :=
  (List.filter (λ kv, bool_decide (lane ∈ decided kv.1)) ps).*2.
Definition state_from (oks : list bool) : string :=
  if existsb id oks then if forallb id oks then "ok" else "degraded" else "unavailable".

Lemma bearing_deciding lane l : bearing lane (said_of <$> statuses l) = ss_ok <$> deciding lane l.
Proof.
  unfold bearing, deciding. induction (statuses l) as [|st sts IH]; [done|]. cbn [List.filter fmap list_fmap].
  change (bool_decide (lane ∈ decided (said_of st).1)) with (decides lane st). destruct (decides lane st); [|done].
  cbn [fmap list_fmap]. by f_equal.
Qed.

Lemma forallb_fmap {A} (f : A → bool) l : forallb id (f <$> l) = forallb f l.
Proof. induction l as [|a l IH]; [done|]. cbn. by rewrite IH. Qed.

Lemma lane_state_reports lane rs w : lane ∈ LANES → reports rs w → lane_state lane w.1 = state_from (bearing lane (latest_pairs rs)).
Proof.
  intros Hl (Hok & Hr & Ht). unfold lane_state. destruct (outcome_run py_repr lane 0 0 w.1 Hl Hok) as (o & -> & _ & Ho & _).
  rewrite Ho, Ht, (bool_decide_eq_false_2 (lane ∈ [])), andb_true_r by apply not_elem_of_nil.
  assert (latest_pairs rs = said_of <$> statuses w.1) as -> by (unfold statuses; by rewrite said_latest, <- Hr).
  rewrite bearing_deciding. unfold state_from.
  by rewrite Prelude.existsb_fmap, forallb_fmap.
Qed.

Definition COMPOSED : list string :=
  ["data.companions"; "hub.device_page"; "hub.event_feed"; "data.conversations"; "memory.roster"; "data.jobs";
   "data.guard_bindings"; "memory.runtime"; "runtime.blackboard"; "channel.presence"; "host.services"; "agent.turns";
   "agent.long_tasks"].
(** The word of a source that was asked. *)
Definition answered (source : string) (l : LaneLedger) : bool := default false (dict_get source (said_of <$> statuses l)).

(** What the sources of a reading say in the end, whoever spoke twice. *)
Definition composed_reports (bc bc' br bm bm' bp bs bt bl : bool) : list (string * bool) :=
  [("data.companions", bc); ("hub.device_page", false); ("hub.event_feed", false)] ++
  (if bc' then [("data.companions", false)] else []) ++
  [("data.conversations", false); ("memory.roster", br); ("data.jobs", false); ("data.guard_bindings", false); ("memory.runtime", bm)] ++
  (if bm' then [("memory.runtime", false)] else []) ++
  [("runtime.blackboard", false); ("channel.presence", bp); ("host.services", bs); ("agent.turns", bt); ("agent.long_tasks", bl)].

Definition one_of_two (a b : bool) : string :=
  if a && b then "ok" else if a || b then "degraded" else "unavailable".

Lemma composed_lanes bc bc' br bm bm' bp bs bt bl w : reports (composed_reports bc bc' br bm bm' bp bs bt bl) w →
  (said_of <$> statuses w.1).*1 = COMPOSED ∧
  (answered "channel.presence" w.1, answered "host.services" w.1, answered "agent.turns" w.1, answered "agent.long_tasks" w.1) = (bp, bs, bt, bl) ∧
  lane_state "devices" w.1 = (if bp then "degraded" else "unavailable") ∧
  lane_state "services" w.1 = (if bs then "ok" else "unavailable") ∧
  lane_state "turns" w.1 = (if bt then "degraded" else "unavailable") ∧
  lane_state "jobs" w.1 = (if bl then "degraded" else "unavailable") ∧
  lane_state "activities" w.1 = one_of_two bt bl ∧
  lane_state "memory" w.1 = one_of_two (answered "memory.roster" w.1) (answered "memory.runtime" w.1) ∧
  lane_state "events" w.1 = "unavailable".
Proof.
  intros Hw. assert (said_of <$> statuses w.1 = latest_pairs (composed_reports bc bc' br bm bm' bp bs bt bl)) as Hs.
  { destruct Hw as (_ & Hr & _). unfold statuses. by rewrite said_latest, <- Hr. }
  assert (∀ lane, lane ∈ LANES → lane_state lane w.1 = state_from (bearing lane (latest_pairs (composed_reports bc bc' br bm bm' bp bs bt bl)))) as Hl.
  { intros lane Hlane. by apply lane_state_reports. }
  unfold answered. rewrite Hs, !Hl by (apply (bool_decide_unpack _); by vm_compute). clear.
  destruct bc', bm'; vm_compute; destruct bp, bs, bt, bl; try destruct bm; try destruct br; split_and!; reflexivity.
Qed.

Lemma select_owner_reports owner_id w : reports [] w →
  (∃ o w', select_owner py_repr exn_str owner_id w = (Ok (Some o), w') ∧ reports [] w') ∨
  (∃ w', select_owner py_repr exn_str owner_id w = (Ok None, w') ∧ reports [("data.owners", false)] w').
Proof.
  intros Hw. unfold select_owner.
  assert (∀ d, ∃ w', (MissionControl.unexposed py_repr "data.owners" d ;; mret (@None OwnerRecord)) w = (Ok None, w') ∧ reports [("data.owners", false)] w') as Hno.
  { intros d. edestruct (reads_unexposed "data.owners" d) as (w1 & E1 & H1); [registered|exact Hw|].
    rewrite (bind_ok _ _ _ _ _ E1). by exists w1. }
  destruct owner_id as [o|]; [|right; apply Hno]. destruct (bool_decide _); [right; apply Hno|].
  destruct (attempt_reports "data.owners" exn_str None (ra_get_owner o) Some [] w) as [(a & w' & E & H)|(w' & E & H)];
    [registered|done|left; by exists a, w'|right; by exists w'].
Qed.

(** A report that is made only when there is something to report. *)
Lemma optional_report name reason (b : bool) l w : is_Some (dict_get name SOURCE_LANES) → reports l w →
  ∃ w', (if b then unexposed name reason else mret tt) w = (Ok tt, w') ∧ reports (l ++ if b then [(name, false)] else []) w'.
Proof. intros Hn Hw. destruct b; [by apply reads_unexposed|]. exists w. by rewrite app_nil_r. Qed.

(** One report, and one read, of a composition. *)
Ltac report_step lem w H :=
  let E := fresh "E" in
  edestruct lem as (w & E & H); [registered|eassumption|]; rewrite (bind_ok _ _ _ _ _ E); clear E.
Ltac read_step lem a b w H F :=
  let E := fresh "E" in
  edestruct lem as (a & b & w & E & H & F); [eassumption|]; rewrite (bind_ok _ _ _ _ _ E); clear E.

Lemma compose_found owner_id w o w0 : select_owner py_repr exn_str owner_id w = (Ok (Some o), w0) → reports [] w0 →
  ∃ rg w' bc bc' br bm bm' bp bs bt bl, compose true owner_id w = (Ok rg, w') ∧ rg.(rg_owner) = Some o ∧
    reports (composed_reports bc bc' br bm bm' bp bs bt bl) w' ∧
    (bp = false → rg.(rg_devices) = []) ∧ (bs = false → rg.(rg_services) = []) ∧
    (bt = false → rg.(rg_turns) = []) ∧ (bl = false → rg.(rg_tasks) = []).
Proof.
  intros E H0. unfold compose_readings. cbn [negb]. rewrite (bind_ok _ _ _ _ _ E). clear E. cbv zeta.
  read_step (reads_safe "data.companions" (ra_default_runtime (ow_owner_id o)) ltac:(registered)) snap bc w1 H1 F1.
  report_step (reads_unexposed "hub.device_page") w2 H2. report_step (reads_unexposed "hub.event_feed") w3 H3.
  edestruct (optional_report "data.companions" "only the primary Companion is published; the full roster is not"
    (match snap, companions_from_snapshot snap with Some _, [] => true | _, _ => false end)) as (w4 & E & H4); [registered|exact H3|].
  rewrite (bind_ok _ _ _ tt w4) by (rewrite <- E; by destruct snap as [c|]; [destruct (companions_from_snapshot (Some c))|]). clear E.
  report_step (reads_unexposed "data.conversations") w5 H5.
  read_step (reads_safe "memory.roster" memory_runtime_page ltac:(registered)) realms br w6 H6 F6.
  report_step (reads_unexposed "data.jobs") w7 H7. report_step (reads_unexposed "data.guard_bindings") w8 H8.
  read_step (reads_safe "memory.runtime" (ra_memory_status (ow_owner_id o) (ow_default_companion_id o)) ltac:(registered)) status bm w9 H9 F9.
  edestruct (optional_report "memory.runtime" (from (λ m, or_str m.(mm_degraded_reason) m.(mm_materialization_state)) "" status)
    (match status with Some m => negb m.(mm_ready) | None => false end)) as (w10 & E & H10); [registered|exact H9|].
  rewrite (bind_ok _ _ _ tt w10) by (rewrite <- E; destruct status as [m|]; [destruct (mm_ready m)|]; reflexivity). clear E.
  edestruct (reads_unexposed "runtime.blackboard") as (w11 & E & H11); [registered|exact H10|].
  unfold runtime_blackboard. rewrite bind_assoc, (bind_ok _ _ _ _ _ E), bind_mret. clear E.
  read_step (reads_presence (ow_owner_id o)) presence bp w12 H12 Fp. read_step reads_services svcs bs w13 H13 Fs.
  read_step (reads_agent "agent.turns" "/conversations/turns" "turns" " turns"
    ([("owner_id", ow_owner_id o); ("limit", pretty 20%Z)] ++ []) ltac:(registered)) turns bt w14 H14 Ft.
  read_step (reads_agent "agent.long_tasks" "/long-tasks" "tasks" " tasks" [("owner_id", ow_owner_id o); ("limit", pretty 20%Z)] ltac:(registered))
    tasks bl w15 H15 Fl.
  eexists _, w15, bc, _, br, bm, _, bp, bs, bt, bl. split; [reflexivity|]. split; [done|]. split.
  { rewrite <- !app_assoc in H15. exact H15. }
  cbn [rg_devices rg_services rg_turns rg_tasks]. split_and!; [|done..]. intros ->. by rewrite Fp.
Qed.

Lemma compose_returns control_plane owner_id (x : X) :
  ∃ rg w, compose control_plane owner_id (new_ledger, x) = (Ok rg, w).
Proof.
  assert (reports [] (new_ledger, x)) as H0 by done. destruct control_plane.
  - destruct (select_owner_reports owner_id _ H0) as [(o & w0 & E & H)|(w0 & E & H)].
    + destruct (compose_found owner_id _ o w0 E H) as (rg & w & ? & ? & ? & ? & ? & ? & ? & ? & ? & Ec & _). by exists rg, w.
    + exists no_readings, w0. unfold compose_readings. cbn [negb]. by rewrite (bind_ok _ _ _ _ _ E).
  - unfold compose_readings. cbn [negb]. edestruct (record_reports "control-plane" false) as (st & w & E & H); [registered|exact H0|].
    rewrite (bind_ok _ _ _ _ _ E). by exists no_readings, w.
Qed.

(** C26: one broken source costs only its own lanes.  Whatever its authorities do,
    the reading of a composition (all that [compose_runtime] asks of them, before
    it projects the rows) returns.  With no control plane or no Owner nothing is shown
    and every lane is unavailable.  For an Owner exactly the thirteen sources
    are accounted for, in one order; rows of a source that did not answer are
    not shown; services is ok exactly when the Host answered, activities and
    memory when both of their sources did and degraded when one did; and
    devices, turns and jobs, each of which also names a source this Host never
    asks, are at best degraded. *)
Theorem composition_honest control_plane owner_id (x : X) :
  ∃ rg w, compose control_plane owner_id (new_ledger, x) = (Ok rg, w) ∧
    match rg.(rg_owner) with
    | None => rg = no_readings ∧ Forall (λ lane, lane_state lane w.1 = "unavailable") LANES
    | Some _ =>
        control_plane = true ∧ (said_of <$> statuses w.1).*1 = COMPOSED ∧
        (answered "channel.presence" w.1 = false → rg.(rg_devices) = []) ∧
        (answered "host.services" w.1 = false → rg.(rg_services) = []) ∧
        (answered "agent.turns" w.1 = false → rg.(rg_turns) = []) ∧
        (answered "agent.long_tasks" w.1 = false → rg.(rg_tasks) = []) ∧
        lane_state "services" w.1 = (if answered "host.services" w.1 then "ok" else "unavailable") ∧
        lane_state "activities" w.1 = one_of_two (answered "agent.turns" w.1) (answered "agent.long_tasks" w.1) ∧
        lane_state "memory" w.1 = one_of_two (answered "memory.roster" w.1) (answered "memory.runtime" w.1) ∧
        lane_state "devices" w.1 = (if answered "channel.presence" w.1 then "degraded" else "unavailable") ∧
        lane_state "turns" w.1 = (if answered "agent.turns" w.1 then "degraded" else "unavailable") ∧
        lane_state "jobs" w.1 = (if answered "agent.long_tasks" w.1 then "degraded" else "unavailable") ∧
        lane_state "events" w.1 = "unavailable"
    end.
Proof.
  assert (∀ name w, reports [(name, false)] w → Forall (λ lane, lane_state lane w.1 = "unavailable") LANES) as Hdark.
  { intros name w Hw. apply Forall_forall. intros lane Hl. rewrite (lane_state_reports lane _ w Hl Hw).
    unfold bearing, latest_pairs. cbn. by destruct (bool_decide _). }
  assert (reports [] (new_ledger, x)) as H0 by done. destruct control_plane.
  - destruct (select_owner_reports owner_id _ H0) as [(o & w0 & E & H)|(w0 & E & H)].
    + destruct (compose_found owner_id _ o w0 E H) as (rg & w & bc & bc' & br & bm & bm' & bp & bs & bt & bl & Ec & Ho & Hr & Fp & Fs & Ft & Fl).
      exists rg, w. rewrite Ho. split; [done|].
      destruct (composed_lanes _ _ _ _ _ _ _ _ _ w Hr) as (Hn & Ha & Hdev & Hser & Htur & Hjob & Hact & Hmem & Hev).
      injection Ha as -> -> -> ->. by split_and!.
    + exists no_readings, w0. unfold compose_readings. cbn [negb]. rewrite (bind_ok _ _ _ _ _ E). split; [done|]. split; [done|by eapply Hdark].
  - unfold compose_readings. cbn [negb].
    edestruct (record_reports "control-plane" false) as (st & w & E & H); [registered|exact H0|].
    rewrite (bind_ok _ _ _ _ _ E). exists no_readings, w. split; [done|]. split; [done|by eapply Hdark].
Qed.
End Composition.

(** ** The events lane *)

(** The cursor of a tail is the number of its last event. *)
Lemma cursor_sorted rows : StronglySorted Z.lt (seqs rows) → cursor_of rows = ingest_seq <$> last rows.
Proof.
  unfold cursor_of, seqs. destruct rows as [|r rows]; [done|]. cbn [fmap list_fmap]. intros Hs.
  assert (∀ l n, StronglySorted Z.lt (n :: (ingest_seq <$> l)) → foldl Z.max n (ingest_seq <$> l) = default n (ingest_seq <$> last l)) as H.
  { clear. induction l as [|x l IH]; intros n Hs; [done|]. cbn in Hs |- *. apply StronglySorted_inv in Hs as [Hs Hn].
    apply Forall_cons in Hn as [Hn _]. rewrite Z.max_r by lia. rewrite IH by done. rewrite last_cons.
    by destruct (last l). }
  cbn in H. rewrite (H rows) by done. rewrite last_cons. by destruct (last rows).
Qed.

Lemma tail_is_drop owner limit rows :
  tail_for_owner owner None limit rows = drop (length (of_owner owner rows) - limit) (of_owner owner rows).
Proof. unfold tail_for_owner. by rewrite take_reverse, reverse_involutive. Qed.

Lemma sorted_drop n rows : StronglySorted Z.lt (seqs rows) → StronglySorted Z.lt (seqs (drop n rows)).
Proof.
  revert n. induction rows as [|r rows IH]; intros [|n] H; try done. cbn in *. apply StronglySorted_inv in H as [H _]. by apply IH.
Qed.

Lemma last_of_drop {A} n (l : list A) : n < length l → last (drop n l) = last l.
Proof.
  intros Hn. rewrite <- (take_drop n l) at 2. rewrite last_app. destruct (last (drop n l)) eqn:E; [done|].
  apply last_None in E. apply (f_equal length) in E. rewrite length_drop in E. cbn in E. lia.
Qed.

Lemma tail_resumes owner limit rows more c n : index_ok (rows ++ more) → limit ≠ 0 →
  cursor_of (tail_for_owner owner None limit rows) = Some c →
  tail_for_owner owner (Some c) n (rows ++ more) = take n (of_owner owner more).
Proof.
  intros (Hs & Hp & _) Hlim Hc.
  assert (of_owner owner (rows ++ more) = of_owner owner rows ++ of_owner owner more) as Happ by apply List.filter_app.
  assert (StronglySorted Z.lt (seqs (of_owner owner (rows ++ more)))) as Hso by by apply filter_fmap_sorted.
  assert (StronglySorted Z.lt (seqs (of_owner owner rows))) as Hsr.
  { apply filter_fmap_sorted. unfold seqs in Hs. rewrite fmap_app in Hs. by apply StronglySorted_app_1_l in Hs. }
  rewrite tail_is_drop, cursor_sorted in Hc by by apply sorted_drop.
  assert (cursor_after 0 (of_owner owner rows) = c) as Hca.
  { unfold cursor_after. destruct (decide (of_owner owner rows = [])) as [E|Hne]; [by rewrite E in Hc; destruct (length _ - limit)|].
    rewrite last_of_drop in Hc by (destruct (of_owner owner rows); [done|cbn; lia]).
    destruct (last (of_owner owner rows)); [by injection Hc|done]. }
  unfold tail_for_owner. f_equal. rewrite <- Hca.
  assert (take (length (of_owner owner rows)) (of_owner owner (rows ++ more)) = of_owner owner rows) as Ht
    by (rewrite Happ; apply take_app_length).
  pose proof (filter_after (of_owner owner (rows ++ more)) (length (of_owner owner rows)) 0) as Hf. rewrite Ht in Hf.
  rewrite Hf; [by rewrite Happ, drop_app_length|done|].
  intros r [Hr _]%filter_elem. rewrite Forall_forall in Hp. apply Hp, list_elem_of_fmap. by exists r.
Qed.

Section Events.
Context {X : Type} `{!Clock X} `{!MissionContract}.
Context (py_repr : string → string) (exn_str : exn → string) (py_str : json → string).
Context (audit_indexer : option AuditIndexerHealth) (audit_index : option (M X audit_rows)).
Abbreviation W := (LaneLedger * X)%type.

Lemma outcomes_run at_ now l : ledger_ok l → ∃ outs, outcomes py_repr (Some at_) now l = Ok outs ∧
  ∀ lane, lane ∈ LANES → outcome py_repr lane (Some at_) now l = Ok (lane_of outs lane).
Proof.
  intros Hok. unfold outcomes.
  destruct (outcome_run py_repr "devices" at_ now l ltac:(by apply (bool_decide_unpack _)) Hok) as (o1 & E1 & _).
  destruct (outcome_run py_repr "services" at_ now l ltac:(by apply (bool_decide_unpack _)) Hok) as (o2 & E2 & _).
  destruct (outcome_run py_repr "activities" at_ now l ltac:(by apply (bool_decide_unpack _)) Hok) as (o3 & E3 & _).
  destruct (outcome_run py_repr "turns" at_ now l ltac:(by apply (bool_decide_unpack _)) Hok) as (o4 & E4 & _).
  destruct (outcome_run py_repr "jobs" at_ now l ltac:(by apply (bool_decide_unpack _)) Hok) as (o5 & E5 & _).
  destruct (outcome_run py_repr "memory" at_ now l ltac:(by apply (bool_decide_unpack _)) Hok) as (o6 & E6 & _).
  destruct (outcome_run py_repr "events" at_ now l ltac:(by apply (bool_decide_unpack _)) Hok) as (o7 & E7 & _).
  cbn [mapM LANES mbind result_bind mret result_ret]. rewrite E1, E2, E3, E4, E5, E6, E7. cbn [mbind result_bind mret result_ret].
  eexists. split; [reflexivity|]. intros lane Hl. unfold LANES in Hl. rewrite !elem_of_cons in Hl.
  destruct Hl as [->|[->|[->|[->|[->|[->|[->|[]%not_elem_of_nil]]]]]]]; done.
Qed.

(** The rows of a lane the composition can read are shown up to the limit, and
    one that was cut says so; nothing of a lane it cannot read is shown. *)
Lemma items_lane_exact o items lane :
  let shown := if readable o then take (from id (length items) (dict_get lane LANE_LIMITS)) items else [] in
  obj_get "items" (items_lane o items lane) JNull = JList (JObj <$> shown) ∧
  obj_get "state" (items_lane o items lane) JNull = JStr o.(lo_state) ∧
  obj_get "detail" (items_lane o items lane) JNull = JStr o.(lo_detail) ∧
  (readable o = true → obj_get "truncated" (items_lane o items lane) JNull =
    JBool (o.(lo_truncated) || bool_decide (length shown < length items))).
Proof.
  cbv zeta. unfold items_lane. destruct (readable o); cbn [negb]; [|done].
  assert (∀ b (l : list obj), obj_get "items" (envelope_of o l b) JNull = JList (JObj <$> l) ∧
    obj_get "state" (envelope_of o l b) JNull = JStr o.(lo_state) ∧ obj_get "detail" (envelope_of o l b) JNull = JStr o.(lo_detail) ∧
    obj_get "truncated" (envelope_of o l b) JNull = JBool b) as Henv by done.
  destruct (dict_get lane LANE_LIMITS) as [n|]; cbn [from id].
  - destruct (n <? length items) eqn:E.
    + apply Nat.ltb_lt in E. destruct (Henv true (take n items)) as (-> & -> & -> & ->).
      rewrite length_take_le, bool_decide_eq_true_2, orb_true_r by lia. done.
    + apply Nat.ltb_ge in E. destruct (Henv (lo_truncated o) items) as (-> & -> & -> & ->).
      rewrite take_ge, bool_decide_eq_false_2, orb_false_r by lia. done.
  - destruct (Henv (lo_truncated o) items) as (-> & -> & -> & ->). change (@id nat) with (λ n : nat, n).
    rewrite take_ge, bool_decide_eq_false_2, orb_false_r by lia. done.
Qed.

Lemma latest_pairs_snoc l k b : latest_pairs (l ++ [(k, b)]) = dict_set k b (latest_pairs l).
Proof. unfold latest_pairs. by rewrite foldl_app. Qed.
Lemma bearing_fresh lane k b ps : lane ∈ decided k → k ∉ ps.*1 → bearing lane (dict_set k b ps) = bearing lane ps ++ [b].
Proof.
  intros Hd Hk. rewrite dict_set_fresh by done. unfold bearing. rewrite List.filter_app, fmap_app. cbn.
  by rewrite bool_decide_eq_true_2.
Qed.
Lemma bearing_nil lane k (ps : list (string * bool)) : bearing lane ps = [] → lane ∈ decided k → k ∉ ps.*1.
Proof.
  unfold bearing. intros Hb Hd ([k' b] & -> & Hin)%list_elem_of_fmap. cbn in Hd.
  assert (b ∈ (List.filter (λ kv, bool_decide (lane ∈ decided kv.1)) ps).*2) as Hm; [|rewrite Hb in Hm; by apply not_elem_of_nil in Hm].
  apply list_elem_of_fmap. exists (k', b). split; [done|]. apply list_elem_of_In, filter_In. split; [by apply list_elem_of_In|].
  by apply bool_decide_eq_true_2.
Qed.
Lemma events_bearing l a b : bearing "events" (latest_pairs l) = [] →
  bearing "events" (latest_pairs ((l ++ [("audit.indexer", a)]) ++ [("audit.index", b)])) = [a; b].
Proof.
  intros Hb. assert ("events" ∈ decided "audit.indexer" ∧ "events" ∈ decided "audit.index") as [H1 H2]
    by (split; apply (bool_decide_unpack _); by vm_compute).
  rewrite !latest_pairs_snoc. rewrite (bearing_fresh _ "audit.index"), (bearing_fresh _ "audit.indexer"), Hb; [done|done| |done|].
  - by apply bearing_nil with "events".
  - rewrite dict_set_fresh by by apply bearing_nil with "events". rewrite fmap_app, elem_of_app. cbn. rewrite list_elem_of_singleton.
    intros [Hk|[=]]. by apply bearing_nil with (k:="audit.index") in Hb.
Qed.

Lemma attempt_out {A B} (c : M X A) (some : A → B) h (w : W) : attempt (v ← out c; mret (some v)) h w =
  match c w.2 with (Ok a, x) => (Ok (some a), (w.1, x)) | (Raise e, x) => h e (w.1, x) end.
Proof. unfold attempt, catch, out, zoom, mbind, M_bind. cbn. by destruct (c w.2) as [[a|e] x]. Qed.

Lemma tail_run owner l w : reports l w → ∃ found w',
  owner_audit_tail py_repr exn_str audit_indexer audit_index owner w =
    (Ok (from (tail_for_owner owner None AUDIT_TAIL_LIMIT) [] found), w') ∧
  (∀ rows, found = Some rows → ∃ read x x', audit_index = Some read ∧ read x = (Ok rows, x')) ∧
  reports ((l ++ [("audit.indexer", from health_ok false audit_indexer)]) ++ [("audit.index", if found is Some _ then true else false)]) w'.
Proof.
  intros Hw. unfold owner_audit_tail.
  assert (∃ st w1, (match audit_indexer with
     | None => Lanes.record py_repr "audit.indexer" false "这台 Host 没有配置审计事件流：没有东西在填充索引" None None
     | Some h => if h.(health_ok) then Lanes.record py_repr "audit.indexer" true "" None None
                 else Lanes.record py_repr "audit.indexer" false h.(health_detail) None None end) w = (Ok st, w1) ∧
     reports (l ++ [("audit.indexer", from health_ok false audit_indexer)]) w1) as (st & w1 & E & H1).
  { destruct audit_indexer as [h|]; cbn [from]; [destruct (health_ok h)|]; apply record_reports; (done || by eexists). }
  rewrite (bind_ok _ _ _ _ _ E). clear E. destruct audit_index as [read|].
  2:{ edestruct (record_reports py_repr "audit.index" false) as (st2 & w2 & E2 & H2); [by eexists|exact H1|].
      rewrite (bind_ok _ _ _ _ _ E2). by exists None, w2. }
  destruct (started_reports _ _ H1) as (t & w2 & E2 & H2). rewrite (bind_ok _ _ _ _ _ E2). clear E2.
  destruct (read w2.2) as [[rows|e] x2] eqn:Er.
  - rewrite (bind_ok _ _ _ (Some (tail_for_owner owner None AUDIT_TAIL_LIMIT rows)) (w2.1, x2)) by by rewrite attempt_out, Er.
    edestruct (record_reports py_repr "audit.index" true) as (st3 & w3 & E3 & H3); [by eexists|exact (H2 : reports _ (w2.1, x2))|].
    rewrite (bind_ok _ _ _ _ _ E3). exists (Some rows), w3. split; [done|]. split; [|done]. intros rows' [= <-]. eauto.
  - edestruct (record_reports py_repr "audit.index" false (exn_str e)) as (st3 & w3 & E3 & H3); [by eexists|exact (H2 : reports _ (w2.1, x2))|].
    rewrite (bind_ok _ _ _ None w3) by (rewrite attempt_out, Er; by rewrite (bind_ok _ _ _ _ _ E3)). by exists None, w3.
Qed.

Lemma tail_length owner limit rows : length (tail_for_owner owner None limit rows) ≤ limit.
Proof. rewrite tail_is_drop, length_drop. lia. Qed.

Lemma projected_lane (snapshot : RuntimeSnapshot) l now events : ledger_ok l →
  ∃ m, owner_runtime_projection py_str py_repr snapshot l now events = Ok m ∧
    obj_get "cursor" m JNull = from (λ c, JObj [(CURSOR_FIELD, JInt c)]) JNull (cursor_of events) ∧
    ∃ o, outcome py_repr "events" (Some snapshot.(sn_generated_at)) now l = Ok o ∧
      obj_get "events" m JNull = JObj (items_lane o (map_event py_str <$> events) "events").
Proof.
  intros Hok. unfold owner_runtime_projection. destruct (outcomes_run snapshot.(sn_generated_at) now l Hok) as (outs & -> & Ho).
  cbn [mbind result_bind]. eexists. split; [reflexivity|].
  rewrite (Ho "events") by (apply (bool_decide_unpack _); by vm_compute).
  destruct (cursor_of events) as [c|]; (split; [done|]); by eexists.
Qed.

Lemma events_outcome l (w : W) at_ now a b o : reports ((l ++ [("audit.indexer", a)]) ++ [("audit.index", b)]) w →
  bearing "events" (latest_pairs l) = [] → outcome py_repr "events" (Some at_) now w.1 = Ok o →
  o.(lo_state) = one_of_two a b ∧ (b = true → readable o = true ∧ o.(lo_truncated) = false).
Proof.
  intros Hr Hb Eo. assert (w.1.(ll_truncated) = []) as Htr by apply Hr. assert (ledger_ok w.1) as Hok by apply Hr.
  assert ("events" ∈ LANES) as Hev by (apply (bool_decide_unpack _); by vm_compute).
  pose proof (lane_state_reports py_repr "events" _ w Hev Hr) as Hst. rewrite events_bearing in Hst by done.
  destruct (outcome_run py_repr "events" at_ now w.1 Hev Hok) as (o' & Eo' & _ & Hs' & Hd').
  rewrite Eo in Eo'. injection Eo' as <-.
  destruct (outcome_run py_repr "events" 0 0 w.1 Hev Hok) as (o0 & Eo0 & _ & Hs0 & _).
  unfold lane_state in Hst. rewrite Eo0, Hs0, <- Hs' in Hst. split; [rewrite Hst; by destruct a, b|].
  intros ->. split; [unfold readable; rewrite Hst; by destruct a|].
  destruct Hd' as [_ ->]; [|rewrite Htr; by apply bool_decide_eq_false_2, not_elem_of_nil].
  intros Hdn. rewrite Hdn in Hs'. cbn in Hs'. rewrite Hst in Hs'. by destruct a.
Qed.

(** The events lane is the Owner's tail, and can be resumed.  The tail is
    read once and never raises; the lane is ok when the indexer is well and the
    index could be read, degraded when one of the two holds, unavailable
    otherwise; it shows the last hundred and twenty events of the Owner, or
    nothing when the index could not be read, and is never cut; and a reader
    that asks the index again from the cursor of the map, however much was
    ingested since, gets exactly the events the map did not have yet. *)
Theorem events_lane_resumes owner l (w : W) (snapshot : RuntimeSnapshot) now :
  reports l w → bearing "events" (latest_pairs l) = [] →
  ∃ found w' m lane, let events := from (tail_for_owner owner None AUDIT_TAIL_LIMIT) [] found in
    owner_audit_tail py_repr exn_str audit_indexer audit_index owner w = (Ok events, w') ∧
    (∀ rows, found = Some rows → ∃ read x x', audit_index = Some read ∧ read x = (Ok rows, x')) ∧
    owner_runtime_projection py_str py_repr snapshot w'.1 now events = Ok m ∧ obj_get "events" m JNull = JObj lane ∧
    obj_get "state" lane JNull = JStr (one_of_two (from health_ok false audit_indexer) (if found is Some _ then true else false)) ∧
    obj_get "items" lane JNull = JList (JObj <$> (map_event py_str <$> events)) ∧
    (found ≠ None → obj_get "truncated" lane JNull = JBool false) ∧
    obj_get "cursor" m JNull = from (λ c, JObj [(CURSOR_FIELD, JInt c)]) JNull (cursor_of events) ∧
    (∀ rows more c n, found = Some rows → index_ok (rows ++ more) → cursor_of events = Some c →
       tail_for_owner owner (Some c) n (rows ++ more) = take n (of_owner owner more)).
Proof.
  intros Hw Hb. destruct (tail_run owner l w Hw) as (found & w' & E & Hfound & Hr).
  assert (ledger_ok w'.1) as Hok by apply Hr. set (events := from (tail_for_owner owner None AUDIT_TAIL_LIMIT) [] found).
  destruct (projected_lane snapshot w'.1 now events Hok) as (m & Em & Hc & o & Eo & He).
  destruct (events_outcome _ _ _ _ _ _ _ Hr Hb Eo) as [Hs Ht].
  exists found, w', m, (items_lane o (map_event py_str <$> events) "events"). cbv zeta. fold events.
  destruct (items_lane_exact o (map_event py_str <$> events) "events") as (Hi & Hst & _ & Htrunc). cbv zeta in Hi, Htrunc.
  assert (take 120 (map_event py_str <$> events) = map_event py_str <$> events) as Htake.
  { apply take_ge. rewrite length_fmap. unfold events. destruct found; [apply tail_length|cbn; lia]. }
  change (from id _ (dict_get "events" LANE_LIMITS)) with 120 in Hi, Htrunc. rewrite Htake in Hi, Htrunc.
  split_and!; [done|done|done|done|by rewrite Hst, Hs| | |done|].
  - rewrite Hi. destruct found as [rows|]; [by rewrite (proj1 (Ht eq_refl))|]. by destruct (readable o).
  - destruct found as [rows|]; [|done]. intros _. destruct (Ht eq_refl) as [Hrd Htr].
    by rewrite Htrunc, Hrd, Htr, bool_decide_eq_false_2 by (rewrite ?Hrd; lia).
  - intros rows more c n -> Hi' Hcur. apply (tail_resumes owner AUDIT_TAIL_LIMIT rows more c n Hi'); [by unfold AUDIT_TAIL_LIMIT|done].
Qed.
End Events.

Lemma events_lane_resumes_witness :
  ∃ found w', (from (tail_for_owner "owner-1" None AUDIT_TAIL_LIMIT) [] found, w') = ([] : audit_rows, w' : LaneLedger * unit).
Proof.
  pose proof (events_lane_resumes (X:=unit) (Clock0:={| perf_counter := λ x, (0%Z, x) |})
    (H:={| CONTRACT_VERSION := JNull; SNAPSHOT_COVERAGE := JNull; CURSOR_FIELD := "after"; PRESENCE_SOURCES := []; PRESENCE_SOURCE_NONE := "none";
           PRESENCE_STATES := []; PRESENCE_ONLINE := "online"; PRESENCE_UNKNOWN := "unknown"; ROLE_KINDS := [] |})
    id (λ _, "") (λ _, "") None None "owner-1" [] (new_ledger, tt)
    (empty_snapshot 0 []) 0 ltac:(done) ltac:(done)) as H.
  destruct H as (found & w' & m & lane & _ & Hf & _). exists found, w'. destruct found as [rows|]; [|done].
  by destruct (Hf rows eq_refl) as (? & ? & ? & ? & _).
Defined.
