(* ===== verification/MapProofs.v ===== *)
(** * Mission Control: the bodies on the map

    The join of the Owner's inventory into the devices lane, what becomes of a
    body the channel sees on its way to the map, and a page of history that
    could not be read. *)

From stdpp Require Import pretty.
From S2P Require Import Prelude Encoding Json Timestamp Upstream Lanes MissionViews MissionControl MissionProofs.

Lemma obj_get_set k k' v (d : obj) : obj_get k' (dict_set k v d) JNull = if bool_decide (k' = k) then v else obj_get k' d JNull.
Proof.
  induction d as [|[k1 v1] d IH]; cbn [dict_set obj_get]; [done|]. destruct (decide (k = k1)) as [<-|Hne].
  - rewrite bool_decide_eq_true_2 by done. cbn [obj_get]. by destruct (bool_decide (k' = k)).
  - rewrite bool_decide_eq_false_2 by done. cbn [obj_get]. rewrite IH. destruct (decide (k' = k1)) as [->|].
    + by rewrite bool_decide_eq_true_2, bool_decide_eq_false_2.
    + by rewrite bool_decide_eq_false_2.
Qed.

(** ** The join *)

(** A row that was filled is the same body: only what was missing has changed,
    and never its presence. *)
Definition LENT : list string := ["display_name"; "device_kind"; "companion_id"].
Definition kept (r r' : obj) : Prop :=
  (∀ key, key ∉ LENT ++ ["role"; "role_kind"] → obj_get key r' JNull = obj_get key r JNull) ∧
  (∀ key, key ∈ LENT → json_truthy (obj_get key r JNull) = true → obj_get key r' JNull = obj_get key r JNull).

#[export] Instance kept_refl : Reflexive kept.
Proof. by split. Qed.
#[export] Instance kept_trans : Transitive kept.
Proof.
  intros a b c [H1 H2] [H3 H4]. split; intros key Hk; [by rewrite H3, H1|]. intros Ht.
  rewrite H4; [by apply H2|done|by rewrite H2].
Qed.

Lemma kept_set key v r : key ∈ LENT ++ ["role"; "role_kind"] → (key ∈ LENT → json_truthy (obj_get key r JNull) = false) →
  kept r (dict_set key v r).
Proof.
  intros Hk Hf. split; intros k Hin; rewrite obj_get_set; case_bool_decide as E; subst; try done.
  intros Ht. by rewrite (Hf Hin) in Ht.
Qed.

Lemma fill_row_kept d r : kept r (fill_row d r).
Proof.
  unfold fill_row.
  set (r1 := if negb _ && negb (json_truthy (obj_get "display_name" r JNull)) then _ else r).
  assert (kept r r1) as H1.
  { subst r1. destruct (_ && _) eqn:E; [|reflexivity]. apply andb_true_iff in E as [_ E%negb_true_iff]. by apply kept_set; [set_solver|]. }
  clearbody r1. set (r2 := if negb _ && negb (json_truthy (obj_get "device_kind" r1 JNull)) then _ else r1).
  assert (kept r1 r2) as H2.
  { subst r2. destruct (_ && _) eqn:E; [|reflexivity]. apply andb_true_iff in E as [_ E%negb_true_iff]. by apply kept_set; [set_solver|]. }
  clearbody r2. etrans; [exact H1|]. etrans; [exact H2|]. clear H1 H2. destruct (answers d) as [c|]; [|reflexivity].
  destruct (json_truthy (obj_get "companion_id" r2 JNull)) eqn:E; [reflexivity|].
  assert (kept r2 (dict_set "companion_id" (JStr c) r2)) as H3 by (by apply kept_set; [set_solver|]).
  cbv zeta. destruct (match obj_get "role_kind" _ JNull with JStr _ => _ | _ => _ end); [|exact H3].
  etrans; [exact H3|]. clear. set (r := dict_set "companion_id" _ r2).
  assert (kept r (dict_set "role" (JStr ROLE_ANSWERING.1) r)) as H4 by (apply kept_set; [set_solver|intros H; exfalso; revert H; set_solver]).
  etrans; [exact H4|]. apply kept_set; [set_solver|]. intros H; exfalso; revert H; set_solver.
Qed.

Lemma update_first_kept p f rows : (∀ r, kept r (f r)) → Forall2 kept rows (update_first p f rows).
Proof.
  intros Hf. induction rows as [|r rows IH]; [constructor|]. cbn. destruct (p r); constructor; try done; reflexivity.
Qed.
Lemma update_last_kept p f rows : (∀ r, kept r (f r)) → Forall2 kept rows (update_last p f rows).
Proof.
  intros Hf. unfold update_last. rewrite <- (reverse_involutive rows) at 1. by apply Forall2_reverse, update_first_kept.
Qed.
Lemma kept_has_id id rows rows' : Forall2 kept rows rows' → existsb (has_id id) rows' = existsb (has_id id) rows.
Proof.
  induction 1 as [|r r' rows rows' [H _] _ IH]; [done|]. cbn. rewrite IH. unfold has_id. by rewrite (H "device_id") by set_solver.
Qed.

(** A body the map does not know yet. *)
Definition unseen (rows : list obj) (d : DeviceView) : bool :=
  negb (bool_decide (d.(dw_device_id) = "")) && negb (existsb (has_id d.(dw_device_id)) rows).

Lemma join_fold rows devices : ∃ filled,
  foldl join_body (rows, []) devices = (filled, inventory_row <$> List.filter (unseen rows) devices) ∧ Forall2 kept rows filled.
Proof.
  assert (∀ devices r0 added, Forall2 kept rows r0 → ∃ filled,
    foldl join_body (r0, added) devices = (filled, added ++ (inventory_row <$> List.filter (unseen rows) devices)) ∧ Forall2 kept rows filled) as H.
  { clear devices. induction devices as [|d ds IH]; intros r0 added H0; [exists r0; cbn; by rewrite app_nil_r|].
    cbn [foldl List.filter]. unfold join_body at 2. unfold unseen at 1. cbn [fst snd].
    destruct (bool_decide (dw_device_id d = "")); cbn [negb andb]; [by apply IH|]. rewrite (kept_has_id _ _ _ H0).
    destruct (existsb (has_id _) rows); cbn [negb]; [apply IH|].
    - etrans; [exact H0|]. apply update_last_kept, fill_row_kept.
    - destruct (IH r0 (added ++ [inventory_row d]) H0) as (filled & -> & Hk). exists filled. by rewrite <- app_assoc. }
  apply (H devices rows []). apply Forall_Forall2_diag, Forall_forall. reflexivity.
Qed.

Lemma join_health_state presence_detail failure was (devices : option (list DeviceView)) :
  (join_health (negb (json_eq_str was "unavailable")) presence_detail (if devices is Some _ then true else false) failure
     (json_eq_str was "degraded")).1 =
  match json_eq_str was "unavailable", devices with
  | false, Some _ => if json_eq_str was "degraded" then "degraded" else "ok"
  | true, None => "unavailable"
  | _, _ => "degraded"
  end.
Proof. unfold join_health. by destruct (json_eq_str was "unavailable"), devices. Qed.

Definition UNOBSERVED : json := JObj [("state", JStr "unknown"); ("source", JStr "none"); ("observed_at", JNull)].

(** Existence is never read as presence.  Joining the inventory changes the
    devices lane and nothing else of the map.  Every row that was there stays
    the same body: of a row only a missing name, kind or Companion is filled
    in, never its presence.  Every body of the inventory has a row, and one the
    map did not know is shown as unobserved, with no capabilities.  The lane is
    unavailable, and empty, exactly when neither presence nor existence could
    be read, and degraded when one could not. *)
Theorem owner_map_join py_str snapshot devices failure :
  let m := join_owner_devices py_str snapshot devices failure in
  match obj_get "devices" snapshot JNull with
  | JObj lane =>
      let rows := objects (rows_at "items" (JObj lane)) in
      let added := inventory_row <$> List.filter (unseen rows) (default [] devices) in
      let was := obj_get "state" lane JNull in
      let state := match json_eq_str was "unavailable", devices with
                   | false, Some _ => if json_eq_str was "degraded" then "degraded" else "ok"
                   | true, None => "unavailable"
                   | _, _ => "degraded"
                   end in
      ∃ filled joined,
        (∀ key, obj_get key m JNull = if bool_decide (key = "devices") then JObj joined else obj_get key snapshot JNull) ∧
        Forall2 kept rows filled ∧
        obj_get "state" joined JNull = JStr state ∧
        obj_get "items" joined JNull = JList (JObj <$> if bool_decide (state = "unavailable") then [] else filled ++ added) ∧
        Forall (λ r, obj_get "presence" r JNull = UNOBSERVED ∧ obj_get "capabilities" r JNull = JList []) added ∧
        (∀ d, d ∈ default [] devices → d.(dw_device_id) ≠ "" → existsb (has_id d.(dw_device_id)) (filled ++ added) = true)
  | _ => m = snapshot
  end.
Proof.
  cbv zeta. unfold join_owner_devices. destruct (obj_get "devices" snapshot JNull) as [| | | | | | | |lane]; try done.
  destruct (join_fold (objects (rows_at "items" (JObj lane))) (default [] devices)) as (filled & -> & Hk). cbn [fst snd].
  set (rows := objects _) in *. set (added := inventory_row <$> _). exists filled.
  assert (∀ state detail items, obj_get "state" (dict_set "items" items (dict_set "detail" (JStr detail) (dict_set "state" (JStr state) lane))) JNull = JStr state ∧
    obj_get "items" (dict_set "items" items (dict_set "detail" (JStr detail) (dict_set "state" (JStr state) lane))) JNull = items) as Hget.
  { intros state detail items. split; [|by rewrite obj_get_set].
    rewrite obj_get_set, bool_decide_eq_false_2, obj_get_set, bool_decide_eq_false_2, obj_get_set by done. done. }
  assert (Forall (λ r, obj_get "presence" r JNull = UNOBSERVED ∧ obj_get "capabilities" r JNull = JList []) added) as Hadd.
  { subst added. apply Forall_fmap, Forall_forall. intros d _. unfold inventory_row. cbn. by destruct (answers d). }
  assert (∀ d, d ∈ default [] devices → d.(dw_device_id) ≠ "" → existsb (has_id d.(dw_device_id)) (filled ++ added) = true) as Hall.
  { intros d Hin Hid. rewrite existsb_app, (kept_has_id _ _ _ Hk). destruct (existsb (has_id _) rows) eqn:E; [done|]. apply existsb_exists.
    exists (inventory_row d). split; [|unfold inventory_row, has_id; cbn; destruct (match answers d with Some _ => _ | None => _ end); cbn; by apply bool_decide_eq_true_2].
    apply list_elem_of_In, list_elem_of_fmap. exists d. split; [done|]. apply list_elem_of_In, filter_In. split; [by apply list_elem_of_In|].
    unfold unseen. by rewrite E, bool_decide_eq_false_2. }
  rewrite <- (join_health_state (str_or_empty py_str (obj_get "detail" lane JNull)) failure).
  destruct (join_health _ _ _ _ _) as [state detail]. cbn [fst]. eexists. split; [intros key; by rewrite obj_get_set|].
  split; [done|]. destruct (Hget state detail (JList (JObj <$> (if bool_decide (state = "unavailable") then [] else filled ++ added)))) as [Hs Hi].
  by split_and!.
Qed.

(** ** A body the channel sees *)

Lemma fold_setdefault presence d : NoDup presence.*1 → (∀ id, id ∈ presence.*1 → id ∉ d.*1) →
  foldl (λ d p, match dict_get p.1 d with Some _ => d | None => dict_set p.1 no_parts d end) d presence =
  d ++ ((λ p : string * option bool, (p.1, no_parts)) <$> presence).
Proof.
  revert d. induction presence as [|p ps IH]; intros d Hnd Hf; cbn; [by rewrite app_nil_r|].
  cbn in Hnd. apply NoDup_cons in Hnd as [Hni Hnd]. assert (p.1 ∉ d.*1) as Hp by (apply Hf; left).
  rewrite (proj2 (dict_get_None _ _) Hp), dict_set_fresh by done. rewrite IH, <- app_assoc; [done|done|].
  intros id Hid. rewrite fmap_app, elem_of_app. cbn. rewrite list_elem_of_singleton. intros [H| ->]; [|done].
  by apply (Hf id); [right|].
Qed.

Lemma gather_channel owner presence : NoDup presence.*1 → gather owner [] presence [] [] = (λ p, (p.1, no_parts)) <$> presence.
Proof. intros Hnd. unfold gather. cbn [foldl]. rewrite fold_setdefault; [done|done|]. intros id _. apply not_elem_of_nil. Qed.

Lemma presence_rows_ok py_str owner rows : let p := presence_rows py_str owner rows in
  NoDup p.*1 ∧ ∀ kv, kv ∈ p → kv.1 ≠ "".
Proof.
  cbv zeta. unfold presence_rows. induction rows as [|row rows IH] using rev_ind; [split; [constructor|by intros kv []%not_elem_of_nil]|].
  rewrite foldl_app. cbn [foldl]. destruct IH as [Hnd Hne]. destruct row; try by split.
  destruct (bool_decide _) eqn:E; cbn [orb]; [by split|]. destruct (negb _); [by split|].
  split; [by apply dict_set_NoDup|]. intros kv' Hkv. apply elem_of_dict_set in Hkv as [->|[_ H]]; [|by apply Hne|done].
  by apply bool_decide_eq_false in E.
Qed.

(** What the channel's answer means. *)
Definition channel_verdict (on_channel : option bool) : string :=
  match on_channel with Some true => "online" | Some false => "offline" | None => "unknown" end.

(** The row the merge makes of such a body. *)
Definition channel_row (id : string) (on_channel : option bool) (d : RuntimeDevice) : Prop :=
  d.(rd_device_id) = id ∧ d.(rd_name) = id ∧ d.(rd_kind) = "unknown" ∧ d.(rd_status) = channel_verdict on_channel ∧
  d.(rd_online) = bool_decide (on_channel = Some true) ∧ obj_get "presence_source" d.(rd_signals) JNull = JStr "channel".

Lemma merged_channel owner companions guards bb presence id on_channel : dict_get id presence = Some on_channel →
  channel_row id on_channel (merged_device owner companions guards bb presence id no_parts).
Proof.
  intros Hg. unfold channel_row, merged_device. cbn [no_parts pt_data pt_hub pt_runtime from]. rewrite Hg. destruct (device_role _ _) as [role kind].
  assert (device_presence None None (Said on_channel) = (channel_verdict on_channel, bool_decide (on_channel = Some true), "channel")) as ->
    by by destruct on_channel as [[]|].
  done.
Qed.

(** What the channel's word becomes on the map.  On this Host, where no
    other source names bodies, the bodies of a reading are exactly the ones the
    channel answered about for this Owner, each once; one the channel could not
    see is unknown and not offline, and only one it does see is online; and
    where the contract knows the channel as an authority the map shows that
    verdict.  Each goes by its id and an unknown kind, and the join, which
    fills in what is missing, finds nothing missing: the name and kind the
    inventory holds are never shown for it. *)
Theorem channel_bodies `{!MissionContract} py_str owner companions guards health detail rows :
  let presence := presence_rows py_str owner rows in
  let bodies := merge_devices owner companions guards (mkBlackboard health false detail None) presence [] [] in
  (rd_device_id <$> bodies) ≡ₚ presence.*1 ∧ NoDup presence.*1 ∧
  (∀ d, d ∈ bodies → ∃ on_channel, (d.(rd_device_id), on_channel) ∈ presence ∧
    d.(rd_status) = channel_verdict on_channel ∧ d.(rd_online) = bool_decide (on_channel = Some true) ∧
    ("channel" ∈ PRESENCE_SOURCES → "channel" ≠ PRESENCE_SOURCE_NONE → d.(rd_status) ∈ PRESENCE_STATES →
       presence_of d = (channel_verdict on_channel, "channel")) ∧
    ("channel" ∉ PRESENCE_SOURCES → presence_of d = (PRESENCE_UNKNOWN, PRESENCE_SOURCE_NONE)) ∧
    (∀ v, obj_get "display_name" (fill_row v (map_device d)) JNull = JStr d.(rd_device_id) ∧
          obj_get "device_kind" (fill_row v (map_device d)) JNull = JStr "unknown")).
Proof.
  cbv zeta. destruct (presence_rows_ok py_str owner rows) as [Hnd Hne]. cbv zeta in Hnd, Hne. set (presence := presence_rows _ _ _) in *.
  unfold merge_devices. cbn [bb_available default]. rewrite gather_channel by done. set (bb := mkBlackboard _ _ _ _).
  set (mk := λ p : string * option bool, merged_device owner companions guards bb presence p.1 no_parts).
  rewrite <- list_fmap_compose. fold mk. change (_ ∘ _) with mk. split_and!; [|done|].
  all: assert (∀ id oc, (id, oc) ∈ presence → channel_row id oc (mk (id, oc))) as Hrow
    by (intros id oc Hin; apply merged_channel; by apply dict_get_Some).
  - rewrite sort_by_perm, <- list_fmap_compose. assert (rd_device_id ∘ mk <$> presence = presence.*1) as ->; [|done].
    apply list_fmap_ext. intros i [id oc] Hi%list_elem_of_lookup_2. by destruct (Hrow id oc Hi).
  - intros d Hd. rewrite sort_by_perm in Hd. apply list_elem_of_fmap in Hd as ([id oc] & -> & Hin). exists oc.
    destruct (Hrow id oc Hin) as (Hi & Hn & Hk & Hs & Ho & Hsrc). rewrite Hi, Hs, Ho. assert (id ≠ "") as Hid by by apply (Hne (id, oc)).
    split_and!; [done|done|done| | |].
    + intros H1 H2 H3. unfold presence_of. rewrite Hsrc, Hs, (bool_decide_eq_false_2 ("channel" = "")), (bool_decide_eq_true_2 _ H1) by done.
      by rewrite (bool_decide_eq_false_2 _ H2), bool_decide_eq_true_2.
    + intros H1. unfold presence_of. rewrite Hsrc, (bool_decide_eq_false_2 ("channel" = "")), (bool_decide_eq_false_2 _ H1) by done.
      by rewrite bool_decide_eq_true_2.
    + intros v. destruct (fill_row_kept v (map_device (mk (id, oc)))) as [_ Hkept].
      assert (obj_get "display_name" (map_device (mk (id, oc))) JNull = JStr id ∧ obj_get "device_kind" (map_device (mk (id, oc))) JNull = JStr "unknown") as [Hdn Hdk].
      { unfold map_device. destruct (presence_of _). 
        split; [change (JStr (rd_name (mk (id, oc))) = JStr id); by rewrite Hn|].
        change (JStr (rd_kind (mk (id, oc))) = JStr "unknown"). by rewrite Hk. }
      rewrite !Hkept, Hdn, Hdk; [done|set_solver|by rewrite Hdk|set_solver|]. rewrite Hdn. cbn. by rewrite bool_decide_eq_false_2.
Qed.

(** ** A page of history *)

Section History.
Context {X : Type} `{!Clock X} `{!Http X} `{!MissionContract}.
Context (py_repr : string → string) (exn_str : exn → string) (py_str : json → string)
  (loads : bytes → result json) (registry : string → option ServiceConfig) (environ : string → option string).
Abbreviation turns_page := (agent_turns py_repr exn_str loads registry environ).
Abbreviation history := owner_activity_history.

(** The request a page makes of the Agent. *)
Definition turns_request (owner : string) (limit : Z) (before : option string) : M X json :=
  service_json py_repr loads registry environ "agent" "/conversations/turns"
    (Some ([("owner_id", owner); ("limit", pretty limit)] ++
           match before with Some b => if bool_decide (b = "") then [] else [("before", b)] | None => [] end)) 2.

(** A page of history says when it could not be read, if the error had a
    text.  The page is the Agent's rows and no failure when the Agent answers,
    and no rows and the text of the error when it does not; the history is
    unavailable, and empty, exactly when there is such a text.  So an error
    without one is answered as an Owner who has no history at all. *)
Theorem history_failure owner limit before (x : X) :
  let '(r, w) := turns_page owner limit before (new_ledger, x) in
  let failure := activity_page_failure w.1 in
  match turns_request owner limit before (perf_counter x).2 with
  | (Ok body, _) => r = Ok (objects (rows_at "turns" body)) ∧ failure = ""
  | (Raise e, _) => r = Ok [] ∧ failure = exn_str e
  end ∧
  (∀ activities next,
    obj_get "state" (history activities next failure) JNull = JStr (if bool_decide (failure = "") then "ok" else "unavailable") ∧
    obj_get "detail" (history activities next failure) JNull = JStr failure ∧
    (failure ≠ "" → obj_get "items" (history activities next failure) JNull = JList [])) ∧
  (∀ e, (turns_request owner limit before (perf_counter x).2).1 = Raise e → exn_str e = "" →
    obj_get "state" (history [] None failure) JNull = JStr "ok" ∧ obj_get "items" (history [] None failure) JNull = JList []).
Proof.
  assert (∀ failure activities next,
    obj_get "state" (history activities next failure) JNull = JStr (if bool_decide (failure = "") then "ok" else "unavailable") ∧
    obj_get "detail" (history activities next failure) JNull = JStr failure ∧
    obj_get "items" (history activities next failure) JNull =
      JList (if bool_decide (failure = "") then (λ a, JObj (map_activity a)) <$> activities else [])) as Hh by done.
  assert (∀ (w w' : LaneLedger * X) name ok detail t, w.1 = new_ledger → is_Some (dict_get name SOURCE_LANES) →
    ∃ st w', Lanes.record py_repr name ok detail t None w = (Ok st, w') ∧ activity_page_failure w'.1 = if ok then "" else detail) as Hrec.
  { intros w _ name ok detail t Hw Hn. destruct (record_run py_repr name ok detail t None w Hn) as (st & w' & E & Hs & Ho & Hd & Hr & _); [by rewrite Hw|].
    exists st, w'. split; [done|]. unfold activity_page_failure, statuses. rewrite Hr, Hw. unfold next_or_none, latest. cbn [foldl dict_set fmap list_fmap List.filter snd app ll_rows new_ledger]. rewrite Ho. destruct ok; cbn; by rewrite ?Hd. }
  unfold agent_turns, agent_rows. fold (turns_request owner limit before).
  destruct (perf_counter x) as [t x1] eqn:Et. cbn [snd].
  rewrite (bind_ok started_at _ _ t (new_ledger, x1)) by (unfold started_at; cbn; by rewrite Et).
  unfold attempt, catch. destruct (turns_request owner limit before x1) as [[body|e] x2] eqn:Er; cbn [fst snd].
  - rewrite (bind_ok (out _) _ _ body (new_ledger, x2)) by (unfold out, zoom; cbn [fst snd]; by rewrite Er). cbv zeta.
    edestruct (Hrec (new_ledger, x2) (new_ledger, x2) "agent.turns" true) as (st & w & E & Hf); [done|by eexists|].
    rewrite (bind_ok _ _ _ _ _ E). cbn [mret M_ret]. rewrite Hf. split_and!; [done|done| |done].
    intros activities next. destruct (Hh "" activities next) as (H1 & H2 & H3). by split_and!.
  - rewrite (bind_raise (out _) _ _ e (new_ledger, x2)) by (unfold out, zoom; cbn [fst snd]; by rewrite Er).
    edestruct (Hrec (new_ledger, x2) (new_ledger, x2) "agent.turns" false (exn_str e)) as (st & w & E & Hf); [done|by eexists|].
    rewrite (bind_ok _ _ _ _ _ E). cbn [mret M_ret]. rewrite Hf. split_and!; [done|done| |].
    + intros activities next. destruct (Hh (exn_str e) activities next) as (H1 & H2 & H3). split_and!; [done|done|].
      intros Hne. by rewrite H3, bool_decide_eq_false_2.
    + intros e' [= <-] Hempty. rewrite Hempty. by destruct (Hh "" [] None) as (H1 & _ & H3).
Qed.
End History.
