(* ===== verification/NetworkManager.v ===== *)
(** * The NetworkManager adapter

    [bootstrap/adapters/network/network_manager.py]: the network port over the
    system bus, call by call.  What NetworkManager answers is an interface over
    a state of its own; a call that names an object introspects it first, as
    [_properties] does.  Times are milliseconds of the loop's clock. *)

From S2P Require Import Prelude Domain Network Encoding.

Definition NM_PATH : string := "/org/freedesktop/NetworkManager".
Definition SETTINGS_PATH : string := "/org/freedesktop/NetworkManager/Settings".
Definition WIFI_DEVICE_TYPE : Z := 2.
Definition DEVICE_STATE_ACTIVATED : Z := 100.
Definition DEVICE_STATE_FAILED : Z := 120.

(** The members of an access point [scan] reads; a flag that is not there is 0. *)
Record ApValues := mkAp { av_ssid : bytes; av_strength : Z; av_flags : Z; av_wpa_flags : Z; av_rsn_flags : Z }.

(** A D-Bus value of a profile. *)
Inductive variant := VString (s : string) | VBytes (b : bytes) | VBool (b : bool).
Abbreviation profile := (list (string * list (string * variant))).

Class SystemBus (B : Type) := {
  bus_connect : M B unit;
  bus_introspect : string → M B unit;
  nm_get_devices : M B (list string);
  nm_device_type : string → M B Z;
  nm_device_state : string → M B Z;
  nm_active_access_point : string → M B string;
  nm_ap_ssid : string → M B bytes;
  nm_ap_values : string → M B ApValues;
  nm_request_scan : string → M B unit;
  nm_get_all_access_points : string → M B (list string);
  nm_checkpoints : M B (list string);
  nm_checkpoint_devices : string → M B (list string);
  nm_startup : M B bool;
  nm_checkpoint_create : list string → Z → M B string;
  nm_checkpoint_rollback : string → M B unit;
  nm_checkpoint_destroy : string → M B unit;
  nm_add_and_activate : profile → string → M B unit;
  nm_list_connections : M B (list string);
  nm_connection_type : string → M B (option string);
  nm_delete_connection : string → M B unit;
  nm_disconnect : string → M B unit;
  loop_time : B → Z;
  loop_sleep : Z → B → B;
  fresh_uuid : B → string * B }.

Record ActiveNetworkChange := mkActive {
  ac_operation_id : string; ac_checkpoint_path : string; ac_previous_ssid : option string; ac_staged_ssid : string }.
Record NetworkManagerProvisioning := mkNM {
  nm_bus : bool; nm_manager : bool; nm_device_path : option string; nm_active : option ActiveNetworkChange;
  nm_recovery_complete : bool }.
Definition nm_init : NetworkManagerProvisioning := mkNM false false None None true.

Definition set_bus (n : NetworkManagerProvisioning) : NetworkManagerProvisioning :=
  mkNM true n.(nm_manager) n.(nm_device_path) n.(nm_active) n.(nm_recovery_complete).
Definition set_manager (n : NetworkManagerProvisioning) : NetworkManagerProvisioning :=
  mkNM n.(nm_bus) true n.(nm_device_path) n.(nm_active) n.(nm_recovery_complete).
Definition set_device (p : option string) (n : NetworkManagerProvisioning) : NetworkManagerProvisioning :=
  mkNM n.(nm_bus) n.(nm_manager) p n.(nm_active) n.(nm_recovery_complete).
Definition set_active (a : option ActiveNetworkChange) (n : NetworkManagerProvisioning) : NetworkManagerProvisioning :=
  mkNM n.(nm_bus) n.(nm_manager) n.(nm_device_path) a n.(nm_recovery_complete).
Definition set_recovered (b : bool) (n : NetworkManagerProvisioning) : NetworkManagerProvisioning :=
  mkNM n.(nm_bus) n.(nm_manager) n.(nm_device_path) n.(nm_active) b.

Section Adapter.
Context {B : Type} `{!SystemBus B}.
(** [bytes.decode("utf-8", errors="replace")]; the constructor's times; turns
    enough for the loops that poll. *)
Context (utf8_replace : bytes → string).
Context (scan_settle activation_timeout rollback_timeout manager_startup_timeout manager_startup_poll : Z) (fuel : nat).
Abbreviation W := (NetworkManagerProvisioning * B)%type.

Definition bus {A} (c : M B A) : M W A := zoom snd (λ b w, (w.1, b)) c.
Definition self {A} (f : NetworkManagerProvisioning → A) : M W A := gets (λ w, f w.1).
Definition put (f : NetworkManagerProvisioning → NetworkManagerProvisioning) : M W unit := modify (λ w, (f w.1, w.2)).
Definition now : M W Z := gets (λ w, loop_time w.2).
Definition sleep (t : Z) : M W unit := modify (λ w, (w.1, loop_sleep t w.2)).
(** [except Exception as exc: raise NetworkProvisioningError(msg) from exc] *)
Definition wrap_all {A} (c : M W A) (msg : string) : M W A :=
  catch c (λ _, Some (raise (NetworkProvisioningError msg))).
(** The same, after [except NetworkProvisioningError: raise]. *)
Definition wrap {A} (c : M W A) (msg : string) : M W A :=
  catch c (λ e, match e with NetworkProvisioningError _ => None | _ => Some (raise (NetworkProvisioningError msg)) end).

Definition connect : M W unit :=
  connected ← self nm_bus;
  if connected : bool then mret tt
  else wrap_all (bus bus_connect) "NetworkManager system bus is unavailable" ;; put set_bus.
Definition introspect (path : string) : M W unit := bus (bus_introspect path).
(** [_properties], and a property read through it. *)
Definition properties (path : string) : M W unit := connect ;; introspect path.

(** The first Wi-Fi device. *)
Fixpoint find_wifi (paths : list string) : M W (option string) :=
  match paths with
  | [] => mret None
  | path :: rest =>
      properties path ;;
      t ← bus (nm_device_type path);
      if (t =? WIFI_DEVICE_TYPE)%Z then mret (Some path) else find_wifi rest
  end.

(** [_interfaces]; the device is what its callers use. *)
Definition interfaces : M W string :=
  connect ;;
  manager ← self nm_manager;
  (if manager : bool then mret tt else introspect NM_PATH ;; put set_manager) ;;
  known ← self nm_device_path;
  match known with
  | Some _ => mret tt
  | None => paths ← bus nm_get_devices; found ← find_wifi paths; put (set_device found)
  end ;;
  device ← self nm_device_path;
  match device with
  | None => raise (NetworkProvisioningError "NetworkManager has no Wi-Fi device")
  | Some device => introspect device ;; mret device
  end.

Definition current_ssid : M W (option string) :=
  wrap
    (device ← interfaces;
     properties device ;;
     ap ← bus (nm_active_access_point device);
     if bool_decide (ap = "/") then mret None
     else
       properties ap ;;
       ssid ← bus (nm_ap_ssid ap);
       let name := utf8_replace ssid in
       mret (if bool_decide (name = "") then None else Some name))
    "NetworkManager active network query failed".

Definition nm_get_state : M W NetworkProvisioningSnapshot :=
  current ← current_ssid;
  active ← self nm_active;
  mret (mkSnapshot
          (match active with Some _ => STAGING | None => match current with Some _ => CONNECTED | None => UNCONFIGURED end end)
          (ac_operation_id <$> active) current (ac_staged_ssid <$> active)).

(** ** The polling loops *)

Fixpoint poll_activated (n : nat) (device : string) (deadline : Z) : M W unit :=
  match n with
  | 0 => raise (RuntimeError "still waiting")
  | S n' =>
      t ← now;
      if (t <? deadline)%Z then
        state ← bus (nm_device_state device);
        if (state =? DEVICE_STATE_ACTIVATED)%Z then mret tt
        else if (DEVICE_STATE_FAILED <=? state)%Z then raise (NetworkProvisioningError "Wi-Fi activation failed")
        else sleep 500 ;; poll_activated n' device deadline
      else raise (NetworkProvisioningError "Wi-Fi activation timed out")
  end.
Definition wait_until_activated (device : string) : M W unit :=
  properties device ;; t ← now; poll_activated fuel device (t + activation_timeout)%Z.

Fixpoint poll_startup (n : nat) (deadline : Z) : M W unit :=
  match n with
  | 0 => raise (RuntimeError "still waiting")
  | S n' =>
      starting ← bus nm_startup;
      if starting : bool then
        t ← now;
        let remaining := (deadline - t)%Z in
        if (remaining <=? 0)%Z then raise (NetworkProvisioningError "NetworkManager startup did not complete in time")
        else sleep (Z.min manager_startup_poll remaining) ;; poll_startup n' deadline
      else mret tt
  end.
Definition wait_until_manager_startup_complete : M W unit :=
  t ← now; poll_startup fuel (t + manager_startup_timeout)%Z.

Fixpoint poll_disconnected (n : nat) (deadline : Z) : M W unit :=
  match n with
  | 0 => raise (RuntimeError "still waiting")
  | S n' =>
      current ← current_ssid;
      match current with
      | None => mret tt
      | Some _ =>
          t ← now;
          if (deadline <=? t)%Z then raise (NetworkProvisioningError "Wi-Fi remained connected after profile reset")
          else sleep 100 ;; poll_disconnected n' deadline
      end
  end.

(** ** The port *)

Fixpoint rollback_checkpoints (device : string) (paths : list string) : M W unit :=
  match paths with
  | [] => mret tt
  | path :: rest =>
      properties path ;;
      devices ← bus (nm_checkpoint_devices path);
      (if bool_decide (device ∈ devices) then bus (nm_checkpoint_rollback path) ;; bus (nm_checkpoint_destroy path)
       else mret tt) ;;
      rollback_checkpoints device rest
  end.

Definition nm_recover_interrupted : M W NetworkProvisioningSnapshot :=
  put (set_recovered false) ;;
  device ← interfaces;
  wrap_all
    (properties NM_PATH ;;
     paths ← bus nm_checkpoints;
     rollback_checkpoints device paths ;;
     wait_until_manager_startup_complete ;;
     put (set_active None) ;;
     put (set_recovered true) ;;
     nm_get_state)
    "NetworkManager interrupted checkpoint recovery failed".

Fixpoint read_access_points (paths : list string) : M W (list WifiAccessPoint) :=
  match paths with
  | [] => mret []
  | path :: rest =>
      properties path ;;
      v ← bus (nm_ap_values path);
      let ssid := utf8_replace v.(av_ssid) in
      let secured := negb ((v.(av_flags) =? 0)%Z && (v.(av_wpa_flags) =? 0)%Z && (v.(av_rsn_flags) =? 0)%Z) in
      found ← read_access_points rest;
      mret (if bool_decide (ssid = "") then found else mkAccessPoint ssid v.(av_strength) secured :: found)
  end.

Definition nm_scan : M W (list WifiAccessPoint) :=
  device ← interfaces;
  wrap_all (bus (nm_request_scan device)) "NetworkManager Wi-Fi scan failed" ;;
  (if (scan_settle =? 0)%Z then mret tt else sleep scan_settle) ;;
  wrap_all (paths ← bus (nm_get_all_access_points device); read_access_points paths)
    "NetworkManager access-point query failed".

Definition connection_settings (uuid : string) (r : NetworkChangeRequest) : profile :=
  [("connection", [("id", VString ("Eidolon setup: " +:+ r.(nc_ssid))); ("type", VString "802-11-wireless");
                   ("uuid", VString uuid); ("autoconnect", VBool true)]);
   ("802-11-wireless", [("ssid", VBytes (list_ascii_of_string r.(nc_ssid))); ("mode", VString "infrastructure");
                        ("hidden", VBool r.(nc_hidden))]);
   ("ipv4", [("method", VString "auto")]); ("ipv6", [("method", VString "auto")])] ++
  match r.(nc_passphrase) with
  | Some p => [("802-11-wireless-security", [("key-mgmt", VString "wpa-psk"); ("psk", VString p)])]
  | None => []
  end.

Definition best_effort_rollback (checkpoint : string) : M W unit :=
  catch (bus (nm_checkpoint_rollback checkpoint) ;;
         catch (bus (nm_checkpoint_destroy checkpoint)) (λ _, Some (mret tt)))
    (λ _, Some (mret tt)).

(** The staging of a change once its checkpoint stands. *)
Definition stage (r : NetworkChangeRequest) (operation_id device checkpoint : string) (previous : option string) : M W unit :=
  catch
    (uuid ← (λ w, let '(u, b) := fresh_uuid w.2 in (Ok u, (w.1, b)));
     bus (nm_add_and_activate (connection_settings uuid r) device) ;;
     put (set_active (Some (mkActive operation_id checkpoint previous r.(nc_ssid)))) ;;
     wait_until_activated device)
    (λ e, Some
       ((if bool_decide (checkpoint = "/") then mret tt else best_effort_rollback checkpoint) ;;
        put (set_active None) ;;
        raise (match e with
               | NetworkProvisioningError _ => e
               | _ => NetworkProvisioningError "NetworkManager could not activate the staged network"
               end))).

Definition nm_begin_change (r : NetworkChangeRequest) : M W NetworkProvisioningSnapshot :=
  active ← self nm_active;
  guard_py (bool_decide (is_Some active)) (NetworkProvisioningError "another network change is active") ;;
  recovered ← self nm_recovery_complete;
  guard_py (negb recovered) (NetworkProvisioningError "interrupted network recovery is incomplete") ;;
  let operation_id := strip r.(nc_operation_id) in
  guard_py (bool_decide (operation_id = "") || bool_decide (r.(nc_ssid) = ""))
    (NetworkProvisioningError "operation_id and ssid are required") ;;
  device ← interfaces;
  previous ← current_ssid;
  checkpoint ← wrap_all (bus (nm_checkpoint_create [device] rollback_timeout)) "NetworkManager checkpoint creation failed";
  stage r operation_id device checkpoint previous ;;
  nm_get_state.

Definition require_active (operation_id : string) : M W ActiveNetworkChange :=
  active ← self nm_active;
  match active with
  | Some a =>
      guard_py (negb (bool_decide (a.(ac_operation_id) = operation_id))) (NetworkProvisioningError "network operation does not match") ;;
      mret a
  | None => raise (NetworkProvisioningError "network operation does not match")
  end.

Definition nm_confirm (operation_id : string) : M W NetworkProvisioningSnapshot :=
  active ← require_active operation_id;
  interfaces ;;
  current ← current_ssid;
  guard_py (negb (bool_decide (current = Some active.(ac_staged_ssid)))) (NetworkProvisioningError "staged network is not active") ;;
  wrap_all (bus (nm_checkpoint_destroy active.(ac_checkpoint_path))) "NetworkManager checkpoint confirmation failed" ;;
  put (set_active None) ;;
  nm_get_state.

Definition nm_rollback (operation_id : string) : M W NetworkProvisioningSnapshot :=
  active ← require_active operation_id;
  interfaces ;;
  wrap_all (bus (nm_checkpoint_rollback active.(ac_checkpoint_path)) ;; bus (nm_checkpoint_destroy active.(ac_checkpoint_path)))
    "NetworkManager checkpoint rollback failed" ;;
  put (set_active None) ;;
  nm_get_state.

Fixpoint delete_wifi (paths : list string) : M W unit :=
  match paths with
  | [] => mret tt
  | path :: rest =>
      introspect path ;;
      kind ← bus (nm_connection_type path);
      (if bool_decide (kind = Some "802-11-wireless") then bus (nm_delete_connection path) else mret tt) ;;
      delete_wifi rest
  end.

Definition nm_forget_all_wifi_profiles : M W NetworkProvisioningSnapshot :=
  active ← self nm_active;
  match active with Some a => nm_rollback a.(ac_operation_id) ;; mret tt | None => mret tt end ;;
  connect ;;
  wrap
    (device ← interfaces;
     introspect SETTINGS_PATH ;;
     paths ← bus nm_list_connections;
     delete_wifi paths ;;
     current ← current_ssid;
     match current with Some _ => introspect device ;; bus (nm_disconnect device) | None => mret tt end ;;
     t ← now;
     poll_disconnected fuel (t + 5000)%Z)
    "NetworkManager could not forget saved Wi-Fi profiles" ;;
  put (set_active None) ;;
  mret (mkSnapshot UNCONFIGURED None None None).

#[export] Instance network_manager : NetworkProvisioning W := {
  observes_host_network := true;
  net_recover_interrupted := nm_recover_interrupted;
  net_scan := nm_scan;
  net_get_state := nm_get_state;
  net_begin_change := nm_begin_change;
  net_confirm := nm_confirm;
  net_rollback := nm_rollback;
  net_forget_all_wifi_profiles := nm_forget_all_wifi_profiles }.
End Adapter.
