(* ===== verification/NetworkManagerProofs.v ===== *)
(** * What the NetworkManager adapter does to the Host's network

    The order in which the adapter uses NetworkManager, read off a log of what
    it asks and hears; and where a failed call leaves it. *)

From S2P Require Import Prelude Domain Network Encoding Conversation.
From S2P Require Import StateStore MemoryStore Commissioning CommissioningProofs NetworkManager.

Create HintDb calm.

(** ** Calls that only look

    What holds of the adapter and of the bus, when the bus' queries and the
    adapter's caches do not disturb it, holds after every routine that stages
    nothing. *)

Section Looking.
Context {B : Type} `{SB : !SystemBus B}.
Context (P : NetworkManagerProvisioning * B → Prop).
Abbreviation W := (NetworkManagerProvisioning * B)%type.

Definition calm {A} (c : M W A) : Prop := hoare P c (λ _, P) (λ _, P).

Record unmoved : Prop := {
  un_put f : (∀ n, (f n).(nm_active) = n.(nm_active)) → calm (put f);
  un_sleep t : calm (sleep t);
  un_connect : calm (bus bus_connect);
  un_introspect p : calm (bus (bus_introspect p));
  un_devices : calm (bus nm_get_devices);
  un_type p : calm (bus (nm_device_type p));
  un_state p : calm (bus (nm_device_state p));
  un_access_point p : calm (bus (nm_active_access_point p));
  un_ssid p : calm (bus (nm_ap_ssid p));
  un_values p : calm (bus (nm_ap_values p));
  un_scan p : calm (bus (nm_request_scan p));
  un_access_points p : calm (bus (nm_get_all_access_points p));
  un_checkpoints : calm (bus nm_checkpoints);
  un_checkpoint p : calm (bus (nm_checkpoint_devices p));
  un_startup : calm (bus nm_startup);
  un_connections : calm (bus nm_list_connections);
  un_connection p : calm (bus (nm_connection_type p));
  un_delete p : calm (bus (nm_delete_connection p));
  un_disconnect p : calm (bus (nm_disconnect p)) }.

Lemma calm_bind {A C} (c : M W A) (f : A → M W C) : calm c → (∀ a, calm (f a)) → calm (c ≫= f).
Proof. intros Hc Hf. by eapply hoare_bind. Qed.
Lemma calm_ret {A} (a : A) : calm (mret a).
Proof. intros w Hw. exact Hw. Qed.
Lemma calm_raise {A} e : calm (raise e : M W A).
Proof. intros w Hw. exact Hw. Qed.
Lemma calm_if {A} (b : bool) (c d : M W A) : calm c → calm d → calm (if b then c else d).
Proof. by destruct b. Qed.
Lemma calm_catch {A} (c : M W A) h : calm c → (∀ e k, h e = Some k → calm k) → calm (catch c h).
Proof.
  intros Hc Hh. eapply (hoare_catch _ _ _ _ _ (λ _, P)); [apply Hc|]. intros e.
  specialize (Hh e). destruct (h e) as [k|]; [by apply Hh|done].
Qed.
Lemma calm_wrap_all {A} (c : M W A) msg : calm c → calm (wrap_all c msg).
Proof. intros Hc. apply calm_catch; [done|]. intros e k [= <-]. apply calm_raise. Qed.
Lemma calm_wrap {A} (c : M W A) msg : calm c → calm (wrap c msg).
Proof. intros Hc. apply calm_catch; [done|]. intros e k. destruct e; intros [= <-]; apply calm_raise. Qed.
Lemma calm_guard b e : calm (guard_py b e).
Proof. destruct b; [apply calm_raise|apply calm_ret]. Qed.
Lemma calm_gets {A} (f : W → A) : calm (gets f).
Proof. intros w Hw. exact Hw. Qed.
End Looking.
#[local] Hint Resolve un_sleep un_connect un_introspect un_devices un_type un_state un_access_point un_ssid un_values un_scan
  un_access_points un_checkpoints un_checkpoint un_startup un_connections un_connection un_delete un_disconnect : calm.

Ltac calm := repeat first
  [ progress intros | solve [auto with calm] | apply calm_bind | apply calm_ret | apply calm_raise | apply calm_gets | apply calm_guard
  | apply calm_wrap_all | apply calm_wrap
  | apply un_put; [solve [auto with calm]|reflexivity] | apply calm_if
  | case_goal ].

Section Routines.
Context {B : Type} `{SB : !SystemBus B}.
Context (P : NetworkManagerProvisioning * B → Prop) (K : unmoved P).
Hint Resolve K : calm.
Context (utf8_replace : bytes → string).
Context (scan_settle activation_timeout manager_startup_timeout manager_startup_poll : Z) (fuel : nat).

Lemma calm_connect : calm P connect.
Proof. unfold connect. calm. Qed.
Hint Resolve calm_connect : calm.
Lemma calm_introspect p : calm P (introspect p).
Proof. unfold introspect. calm. Qed.
Hint Resolve calm_introspect : calm.
Lemma calm_properties p : calm P (properties p).
Proof. unfold properties. calm. Qed.
Hint Resolve calm_properties : calm.
Lemma calm_find_wifi ps : calm P (find_wifi ps).
Proof. induction ps as [|p ps IH]; cbn; calm. Qed.
Hint Resolve calm_find_wifi : calm.
Lemma calm_interfaces : calm P interfaces.
Proof. unfold interfaces. calm. Qed.
Hint Resolve calm_interfaces : calm.
Lemma calm_current_ssid : calm P (current_ssid utf8_replace).
Proof. unfold current_ssid. calm. Qed.
Hint Resolve calm_current_ssid : calm.
Lemma calm_get_state : calm P (nm_get_state utf8_replace).
Proof. unfold nm_get_state. calm. Qed.
Hint Resolve calm_get_state : calm.
Lemma calm_activated d : calm P (wait_until_activated activation_timeout fuel d).
Proof.
  assert (∀ n dl, calm P (poll_activated n d dl)) as Hp by (induction n; intros; cbn; unfold now; calm).
  unfold wait_until_activated, now. calm.
Qed.
Hint Resolve calm_activated : calm.
Lemma calm_startup :
  calm P (wait_until_manager_startup_complete manager_startup_timeout manager_startup_poll fuel).
Proof.
  assert (∀ n dl, calm P (poll_startup manager_startup_poll n dl)) as Hp by (induction n; intros; cbn; unfold now; calm).
  unfold wait_until_manager_startup_complete, now. calm.
Qed.
Hint Resolve calm_startup : calm.
Lemma calm_disconnected n dl : calm P (poll_disconnected utf8_replace n dl).
Proof. revert dl. induction n; intros; cbn; unfold now; calm. Qed.
Hint Resolve calm_disconnected : calm.
Lemma calm_scan : calm P (nm_scan utf8_replace scan_settle).
Proof.
  assert (∀ ps, calm P (read_access_points utf8_replace ps)) as Hr by (induction ps; cbn; calm).
  unfold nm_scan. calm.
Qed.
Hint Resolve calm_scan : calm.
Lemma calm_delete_wifi ps : calm P (delete_wifi ps).
Proof. induction ps; cbn; calm. Qed.
Hint Resolve calm_delete_wifi : calm.

End Routines.
#[local] Hint Resolve calm_connect calm_introspect calm_properties calm_interfaces calm_current_ssid calm_get_state
  calm_activated calm_startup calm_disconnected calm_scan calm_delete_wifi calm_ret calm_raise calm_wrap_all : calm.

(** ** What is said to NetworkManager *)

Inductive nm_event :=
| Created (checkpoint : string)
| Activating (p : profile)
| Looked (access_point : string)
| Saw (ssid : bytes)
| RolledBack (checkpoint : string)
| Destroying (checkpoint : string).

#[local] Instance logged_nm {B} `{!SystemBus B} : SystemBus (list nm_event * B) := {|
  bus_connect := quiet bus_connect;
  bus_introspect := λ p, quiet (bus_introspect p);
  nm_get_devices := quiet nm_get_devices;
  nm_device_type := λ p, quiet (nm_device_type p);
  nm_device_state := λ p, quiet (nm_device_state p);
  nm_active_access_point := λ p, hearing Looked (nm_active_access_point p);
  nm_ap_ssid := λ p, hearing Saw (nm_ap_ssid p);
  nm_ap_values := λ p, quiet (nm_ap_values p);
  nm_request_scan := λ p, quiet (nm_request_scan p);
  nm_get_all_access_points := λ p, quiet (nm_get_all_access_points p);
  nm_checkpoints := quiet nm_checkpoints;
  nm_checkpoint_devices := λ p, quiet (nm_checkpoint_devices p);
  nm_startup := quiet nm_startup;
  nm_checkpoint_create := λ ds t, hearing Created (nm_checkpoint_create ds t);
  nm_checkpoint_rollback := λ p, hearing (λ _, RolledBack p) (nm_checkpoint_rollback p);
  nm_checkpoint_destroy := λ p, asking (Destroying p) (nm_checkpoint_destroy p);
  nm_add_and_activate := λ s d, asking (Activating s) (nm_add_and_activate s d);
  nm_list_connections := quiet nm_list_connections;
  nm_connection_type := λ p, quiet (nm_connection_type p);
  nm_delete_connection := λ p, quiet (nm_delete_connection p);
  nm_disconnect := λ p, quiet (nm_disconnect p);
  loop_time := λ s, loop_time s.2;
  loop_sleep := λ t s, (s.1, loop_sleep t s.2);
  fresh_uuid := λ s, let '(u, b) := fresh_uuid s.2 in (u, (s.1, b)) |}.

(** ** The discipline of checkpoints

    A network is staged only under a checkpoint taken for it, and a checkpoint
    is dropped, which makes what stands permanent, only when the last look at
    the Host's network showed the staged one or when the checkpoint was just
    rolled back. *)

Definition group {A} (k : string) (l : list (string * A)) : option A :=
  snd ∘ snd <$> list_find (λ g, g.1 = k) l.
(** The SSID a profile carries. *)
Definition profile_ssid (p : profile) : option string :=
  g ← group "802-11-wireless" p;
  v ← group "ssid" g;
  match v with VBytes b => Some (string_of_list_ascii b) | _ => None end.

Lemma connection_ssid uuid r : profile_ssid (connection_settings uuid r) = Some r.(nc_ssid).
Proof.
  change (Some (string_of_list_ascii (list_ascii_of_string r.(nc_ssid))) = Some r.(nc_ssid)).
  by rewrite string_of_list_ascii_of_string.
Qed.

Record tally := mkTally {
  open_checkpoint : option string; staged_under : option (string * string);
  seen_staged : bool; undone : option string }.
Definition tally_init : tally := mkTally None None false None.

Section Discipline.
Context {B : Type} `{SB : !SystemBus B}.
Context (utf8_replace : bytes → string).
Context (scan_settle activation_timeout rollback_timeout manager_startup_timeout manager_startup_poll : Z) (fuel : nat).
Abbreviation W := (NetworkManagerProvisioning * (list nm_event * B))%type.

(** One event on the tally; [None] where the discipline is broken. *)
Definition tell (t : tally) (e : nm_event) : option tally :=
  match e with
  | Created p => Some (mkTally (Some p) t.(staged_under) t.(seen_staged) t.(undone))
  | Activating pr =>
      p ← t.(open_checkpoint);
      ssid ← profile_ssid pr;
      Some (mkTally None (Some (p, ssid)) false None)
  | Looked _ => Some (mkTally t.(open_checkpoint) t.(staged_under) false t.(undone))
  | Saw b =>
      Some (mkTally t.(open_checkpoint) t.(staged_under)
              (bool_decide (Some (utf8_replace b) = snd <$> t.(staged_under))) t.(undone))
  | RolledBack p => Some (mkTally t.(open_checkpoint) t.(staged_under) t.(seen_staged) (Some p))
  | Destroying p =>
      if bool_decide (t.(undone) = Some p) ||
         (bool_decide (fst <$> t.(staged_under) = Some p) && t.(seen_staged))
      then Some (mkTally t.(open_checkpoint) t.(staged_under) false None) else None
  end.
Definition tally_of (log : list nm_event) : option tally :=
  foldl (λ t e, t ≫= λ t, tell t e) (Some tally_init) log.
Lemma tally_snoc log e : tally_of (log ++ [e]) = tally_of log ≫= λ t, tell t e.
Proof. unfold tally_of. by rewrite foldl_app. Qed.

(** The adapter's own record of the change agrees with the tally. *)
Definition agrees (x : option ActiveNetworkChange) (t : tally) : Prop :=
  match x with
  | Some a => t.(staged_under) = Some (a.(ac_checkpoint_path), a.(ac_staged_ssid))
  | None => True
  end.
Definition lawful (x : option ActiveNetworkChange) (P : tally → Prop) (w : W) : Prop :=
  w.1.(nm_active) = x ∧ ∃ t, tally_of w.2.1 = Some t ∧ agrees x t ∧ P t.
Definition any (t : tally) : Prop := True.
Definition safe (w : W) : Prop := ∃ x, lawful x any w.

Lemma lawful_any x P w : lawful x P w → lawful x any w.
Proof. intros (? & t & ? & ? & ?). split; [done|]. by exists t. Qed.
Lemma lawful_safe x P w : lawful x P w → safe w.
Proof. intros ?. exists x. by eapply lawful_any. Qed.

Lemma calm_quiet {A} x (c : M B A) : calm (lawful x any) (bus (quiet c)).
Proof. intros [n [l b]] Hw. unfold bus, quiet, zoom. cbn. by destruct (c b) as [[a|e] b']. Qed.
Lemma calm_hearing {A} x (e : A → nm_event) (c : M B A) :
  (∀ a t, ∃ t', tell t (e a) = Some t' ∧ t'.(staged_under) = t.(staged_under)) →
  calm (lawful x any) (bus (hearing e c)).
Proof.
  intros He [n [l b]] (H1 & t & H2 & H3 & _). unfold bus, hearing, zoom. cbn [fst snd] in *.
  destruct (c b) as [[a|ex] b'].
  - destruct (He a t) as (t' & E1 & E2). split; [done|]. exists t'. cbn [fst snd].
    rewrite tally_snoc, H2. split_and!; [done|by destruct x; cbn in *; congruence|done].
  - split; [done|]. by exists t.
Qed.
Lemma looking x : unmoved (lawful x any).
Proof.
  split; intros; try apply calm_quiet; try (apply calm_hearing; by repeat esplit).
  - intros w [H1 H2]. split; [|done]. cbn. by rewrite H.
  - intros w Hw. exact Hw.
Qed.
Hint Resolve looking : calm.

(** The calls that move the tally. *)
Definition permitted (p : string) (t : tally) : bool :=
  bool_decide (t.(undone) = Some p) || (bool_decide (fst <$> t.(staged_under) = Some p) && t.(seen_staged)).

Lemma hoare_told {A} x P Q (c : M B A) e :
  (∀ t, agrees x t → P t → ∃ t', tell t e = Some t' ∧ agrees x t' ∧ Q t') →
  hoare (lawful x P) (bus (asking e c)) (λ _, lawful x Q) (λ _, lawful x Q).
Proof.
  intros He [n [l b]] (H1 & t & H2 & H3 & H4). unfold bus, asking, zoom. cbn [fst snd] in *.
  destruct (He t H3 H4) as (t' & E1 & E2 & E3).
  destruct (c b) as [[a|ex] b']; (split; [done|]; exists t'; cbn [fst snd]; by rewrite tally_snoc, H2).
Qed.
Lemma hoare_heard {A} x P Q (c : M B A) e :
  (∀ a t, agrees x t → P t → ∃ t', tell t (e a) = Some t' ∧ agrees x t' ∧ Q a t') →
  hoare (lawful x P) (bus (hearing e c)) (λ a, lawful x (Q a)) (λ _, lawful x P).
Proof.
  intros He [n [l b]] (H1 & t & H2 & H3 & H4). unfold bus, hearing, zoom. cbn [fst snd] in *.
  destruct (c b) as [[a|ex] b']; (split; [done|]).
  - destruct (He a t H3 H4) as (t' & E1 & E2 & E3). exists t'. cbn [fst snd]. by rewrite tally_snoc, H2.
  - by exists t.
Qed.
Lemma hoare_destroy x P p :
  (∀ t, agrees x t → P t → permitted p t = true) →
  hoare (lawful x P) (bus (nm_checkpoint_destroy p)) (λ _, lawful x any) (λ _, lawful x any).
Proof.
  intros Hp. apply hoare_told. intros t Ha Ht. cbn. specialize (Hp t Ha Ht). unfold permitted in Hp.
  rewrite Hp. eexists. split_and!; [done|by destruct x|done].
Qed.
Lemma hoare_rolled_back x p :
  hoare (lawful x any) (bus (nm_checkpoint_rollback p)) (λ _, lawful x (λ t, t.(undone) = Some p)) (λ _, lawful x any).
Proof. apply hoare_heard. intros a t Ha _. eexists. split_and!; [done|by destruct x|done]. Qed.
Lemma undone_permitted x p t : agrees x t → t.(undone) = Some p → permitted p t = true.
Proof. intros Ha E. unfold permitted. by rewrite bool_decide_eq_true_2. Qed.
Hint Resolve undone_permitted : calm.

Lemma calm_undo x p : calm (lawful x any) (bus (nm_checkpoint_rollback p) ;; bus (nm_checkpoint_destroy p)).
Proof.
  eapply hoare_bind; [apply hoare_rolled_back|]. intros ?. apply hoare_destroy. eauto with calm.
Qed.
Hint Resolve calm_undo : calm.
Lemma calm_best_effort x p : calm (lawful x any) (best_effort_rollback p).
Proof.
  unfold best_effort_rollback.
  eapply (hoare_catch _ _ _ _ _ (λ _, lawful x any)); [|intros e w Hw; exact Hw].
  eapply hoare_bind; [apply hoare_rolled_back|]. intros ?.
  eapply (hoare_catch _ _ _ _ _ (λ _, lawful x any)); [|intros e w Hw; exact Hw].
  apply hoare_destroy. eauto with calm.
Qed.
Lemma calm_rollback_checkpoints x d ps : calm (lawful x any) (rollback_checkpoints d ps).
Proof. induction ps; cbn [rollback_checkpoints]; calm. Qed.
Hint Resolve calm_best_effort calm_rollback_checkpoints : calm.

(** What [_current_ssid] answers is what the adapter just saw. *)
Definition shows (r : option string) (t : tally) : Prop :=
  match r with Some n => t.(seen_staged) = bool_decide (Some n = snd <$> t.(staged_under)) | None => True end.
Lemma hoare_saw x ap :
  hoare (lawful x any) (bus (nm_ap_ssid ap)) (λ b, lawful x (shows (Some (utf8_replace b)))) (λ _, lawful x any).
Proof.
  apply (hoare_heard x any (λ b, shows (Some (utf8_replace b)))). intros b t Ha Ht. eexists.
  split; [reflexivity|]. split; [by destruct x|reflexivity].
Qed.
Lemma hoare_current_ssid x :
  hoare (lawful x any) (current_ssid utf8_replace) (λ r, lawful x (shows r)) (λ _, lawful x any).
Proof.
  unfold current_ssid. eapply (hoare_catch _ _ _ _ _ (λ _, lawful x any)).
  2: { intros e. destruct e; intros w Hw; exact Hw. }
  eapply hoare_bind; [by apply calm_interfaces, looking|]. intros d.
  eapply hoare_bind; [by apply calm_properties, looking|]. intros ?.
  eapply (hoare_bind _ _ (λ _, lawful x any)). { apply looking. }
  intros ap. case_bool_decide; [intros w Hw; exact Hw|].
  eapply hoare_bind; [by apply calm_properties, looking|]. intros ?.
  eapply hoare_bind; [apply hoare_saw|]. intros b w Hw. cbn.
  case_bool_decide; [by eapply lawful_any|done].
Qed.

Lemma hoare_set_active (x y : option ActiveNetworkChange) P :
  (∀ t, agrees x t → P t → agrees y t) → hoare (lawful x P) (put (set_active y)) (λ _, lawful y any) (λ _, safe).
Proof. intros Hy w (H1 & t & H2 & H3 & H4). split; [done|]. exists t. split_and!; [done|by apply Hy|done]. Qed.
Lemma hoare_safe {A} x (c : M W A) : calm (lawful x any) c → hoare (lawful x any) c (λ _, safe) (λ _, safe).
Proof. intros Hc. eapply hoare_mono; [exact Hc|done|..]; intros ? w; apply lawful_safe. Qed.
Lemma hoare_drop x {A} (c : M W A) :
  calm (lawful None any) c → hoare (lawful x any) (put (set_active None) ;; c) (λ _, safe) (λ _, safe).
Proof.
  intros Hc. eapply hoare_bind; [by apply (hoare_set_active x None any)|]. intros ?. by apply hoare_safe.
Qed.
Lemma hoare_calm_bind {A C} x (c : M W A) (f : A → M W C) :
  calm (lawful x any) c → (∀ a, hoare (lawful x any) (f a) (λ _, safe) (λ _, safe)) →
  hoare (lawful x any) (c ≫= f) (λ _, safe) (λ _, safe).
Proof.
  intros Hc Hf. eapply (hoare_bind _ _ (λ _, lawful x any)); [|done].
  eapply hoare_mono; [exact Hc|done|done|]. intros ? w. apply lawful_safe.
Qed.

Lemma stage_lawful r oid d p previous :
  hoare (lawful None (λ t, t.(open_checkpoint) = Some p)) (stage activation_timeout fuel r oid d p previous)
    (λ _, safe) (λ _, safe).
Proof.
  unfold stage. eapply (hoare_catch _ _ _ _ _ (λ _, safe)).
  - eapply (hoare_bind _ _ (λ _, lawful None (λ t, t.(open_checkpoint) = Some p))).
    { intros [n [l b]] Hw. cbn. by destruct (fresh_uuid b). }
    intros uuid. eapply (hoare_bind _ _ (λ _, lawful None (λ t, t.(staged_under) = Some (p, r.(nc_ssid))))).
    { eapply hoare_mono; [apply (hoare_told None (λ t, t.(open_checkpoint) = Some p)
        (λ t, t.(staged_under) = Some (p, r.(nc_ssid))))|done|done|intros ? w; apply lawful_safe].
      intros t Ha Ht. cbn [tell]. rewrite Ht. cbn [mbind option_bind]. rewrite connection_ssid.
      eexists. by split_and!. }
    intros ?. eapply hoare_bind; [apply (hoare_set_active None); naive_solver|]. intros ?.
    apply hoare_safe. auto with calm.
  - intros e w [x Hw]. revert w Hw.
    apply (hoare_calm_bind x); [destruct (bool_decide _); auto using calm_ret with calm|].
    intros ?. apply hoare_drop. apply calm_raise.
Qed.

Lemma begin_lawful x r :
  hoare (lawful x any) (nm_begin_change utf8_replace activation_timeout rollback_timeout fuel r) (λ _, safe) (λ _, safe).
Proof.
  intros w Hw. unfold nm_begin_change, self. cbv zeta. rewrite bind_gets, bind_guard.
  assert (safe w) as Hs by by eapply lawful_safe.
  case_bool_decide as Hx; [done|]. destruct x as [a|]; [destruct Hw as [Ha _]; rewrite Ha in Hx; by destruct Hx|].
  rewrite bind_gets, !bind_guard. destruct (negb _); [done|]. destruct (_ || _); [done|].
  clear Hx Hs. revert w Hw.
  apply hoare_calm_bind; [auto with calm|]. intros d. apply hoare_calm_bind; [auto with calm|]. intros previous.
  eapply (hoare_bind _ _ (λ p, lawful None (λ t, t.(open_checkpoint) = Some p))).
  { eapply (hoare_catch _ _ _ _ _ (λ _, lawful None any)); [|intros e w Hw; by eapply lawful_safe].
    apply (hoare_heard None any (λ p t, t.(open_checkpoint) = Some p)). intros p t Ha Ht. by eexists. }
  intros p. eapply hoare_bind; [apply stage_lawful|]. intros ? w [y Hw]. revert w Hw.
  apply hoare_safe. auto with calm.
Qed.

Lemma hoare_require {A} x o (f : ActiveNetworkChange → M W A) :
  (∀ a, x = Some a → hoare (lawful x any) (f a) (λ _, safe) (λ _, safe)) →
  hoare (lawful x any) (require_active o ≫= f) (λ _, safe) (λ _, safe).
Proof.
  intros Hf w Hw. unfold require_active, self. rewrite bind_assoc, bind_gets.
  assert (w.1.(nm_active) = x) as Hx by apply Hw. rewrite Hx.
  destruct x as [a|]; [|by eapply lawful_safe]. rewrite bind_assoc, bind_guard. destruct (negb _); [by eapply lawful_safe|].
  by apply Hf.
Qed.

Lemma confirm_lawful x o : hoare (lawful x any) (nm_confirm utf8_replace o) (λ _, safe) (λ _, safe).
Proof.
  apply hoare_require. intros a ->. apply hoare_calm_bind; [auto with calm|]. intros d.
  eapply hoare_bind; [eapply hoare_mono; [apply hoare_current_ssid|done|done|intros ? w; apply lawful_safe]|].
  intros current w Hw. rewrite bind_guard. case_bool_decide as Hc; [|by eapply lawful_safe]. subst.
  revert w Hw. eapply hoare_bind.
  { eapply (hoare_catch _ _ _ _ _ (λ _, lawful (Some a) any)); [|intros e w Hw; by eapply lawful_safe].
    apply hoare_destroy. intros t Ht Hs. unfold permitted. unfold shows in Hs. cbn in Ht. rewrite Hs, Ht. cbn.
    apply orb_true_intro. right. by rewrite andb_true_iff, !bool_decide_eq_true. }
  intros ?. apply hoare_drop. auto with calm.
Qed.

Lemma rollback_lawful x o : hoare (lawful x any) (nm_rollback utf8_replace o) (λ _, safe) (λ _, safe).
Proof.
  apply hoare_require. intros a ->. apply hoare_calm_bind; [auto with calm|]. intros d.
  apply hoare_calm_bind; [auto using calm_wrap_all with calm|]. intros ?. apply hoare_drop. auto with calm.
Qed.

Lemma forget_lawful x :
  hoare (lawful x any) (nm_forget_all_wifi_profiles utf8_replace fuel) (λ _, safe) (λ _, safe).
Proof.
  unfold nm_forget_all_wifi_profiles. apply hoare_calm_bind; [apply calm_gets|]. intros active.
  eapply (hoare_bind _ _ (λ _, safe)).
  { destruct active; [|by apply hoare_safe, calm_ret].
    eapply hoare_bind; [apply rollback_lawful|]. intros ? w Hw. exact Hw. }
  intros ? w [y Hw]. revert w Hw. apply hoare_calm_bind; [auto with calm|]. intros ?.
  apply hoare_calm_bind; [unfold now; calm|]. intros ?. apply hoare_drop, calm_ret.
Qed.

Lemma recover_lawful x :
  hoare (lawful x any)
    (nm_recover_interrupted utf8_replace manager_startup_timeout manager_startup_poll fuel) (λ _, safe) (λ _, safe).
Proof.
  unfold nm_recover_interrupted. apply hoare_calm_bind; [by apply un_put; [apply looking|]|]. intros ?.
  apply hoare_calm_bind; [auto with calm|]. intros d.
  eapply (hoare_catch _ _ _ _ _ (λ _, safe)); [|intros e w Hw; exact Hw].
  do 4 (apply hoare_calm_bind; [by auto with calm|]; intros ?).
  apply hoare_drop. apply calm_bind; [by apply un_put; [apply looking|]|]. auto with calm.
Qed.
End Discipline.

(** ** The port, call by call *)

Inductive port_call :=
| PRecover | PScan | PState | PBegin (r : NetworkChangeRequest) | PConfirm (o : string) | PRollback (o : string) | PForget.
Definition port {N} (net : NetworkProvisioning N) (c : port_call) : M N unit :=
  match c with
  | PRecover => net_recover_interrupted ;; mret tt
  | PScan => net_scan ;; mret tt
  | PState => net_get_state ;; mret tt
  | PBegin r => net_begin_change r ;; mret tt
  | PConfirm o => net_confirm o ;; mret tt
  | PRollback o => net_rollback o ;; mret tt
  | PForget => net_forget_all_wifi_profiles ;; mret tt
  end.
Definition port_run {N} (net : NetworkProvisioning N) (history : list port_call) (w : N) : N :=
  foldl (λ w c, (port net c w).2) w history.

Section Port.
Context {B : Type} `{SB : !SystemBus B}.
Context (utf8_replace : bytes → string).
Context (scan_settle activation_timeout rollback_timeout manager_startup_timeout manager_startup_poll : Z) (fuel : nat).
Abbreviation adapter BB :=
  (@network_manager BB _ utf8_replace scan_settle activation_timeout rollback_timeout manager_startup_timeout
     manager_startup_poll fuel).

Lemma hoare_forget {S A} (P Q : S → Prop) (c : M S A) :
  hoare P c (λ _, Q) (λ _, Q) → hoare P (c ;; mret tt) (λ _, Q) (λ _, Q).
Proof. intros Hc. eapply hoare_bind; [exact Hc|]. intros ? w Hw. exact Hw. Qed.

Lemma port_lawful c x : hoare (lawful (B:=B) utf8_replace x any) (port (adapter _) c) (λ _, safe utf8_replace) (λ _, safe utf8_replace).
Proof.
  destruct c; apply hoare_forget.
  - apply recover_lawful.
  - apply hoare_safe, calm_scan, looking.
  - apply hoare_safe, calm_get_state, looking.
  - apply begin_lawful.
  - apply confirm_lawful.
  - apply rollback_lawful.
  - apply forget_lawful.
Qed.

(** C27: Over any bus and any history of port calls from a fresh adapter: a network
    is activated only under a checkpoint taken for it, and a checkpoint is
    destroyed only when the last look at the Host's network showed the staged
    network or when that checkpoint was just rolled back; and the change the
    adapter records is the one last staged, under its checkpoint. *)
Theorem checkpoint_discipline history (b : B) :
  let w := port_run (adapter (list nm_event * B)) history (nm_init, ([], b)) in
  ∃ t, tally_of utf8_replace w.2.1 = Some t ∧
    ∀ a, w.1.(nm_active) = Some a → t.(staged_under) = Some (a.(ac_checkpoint_path), a.(ac_staged_ssid)).
Proof.
  intros w. assert (safe (B:=B) utf8_replace w) as (x & Hx & t & H1 & H2 & _).
  { unfold w, port_run. clear w. assert (safe (B:=B) utf8_replace (nm_init, ([], b))) as Hs.
    { exists None. split; [done|]. by exists tally_init. }
    revert Hs. generalize ((nm_init, ([], b)) : NetworkManagerProvisioning * (list nm_event * B)).
    induction history as [|c cs IH]; [done|]. intros w [x Hw]. apply IH.
    pose proof (port_lawful c x w Hw) as Hc. by destruct (port _ c w) as [[?|?] ?]. }
  exists t. split; [done|]. intros a Ha. rewrite Ha in Hx. by subst.
Qed.

(** NetworkManager undoes a checkpoint of its own accord when its time is out,
    and then knows it no more. *)
Definition expired (p : string) : Prop :=
  ∀ b : B, (∃ e b', nm_checkpoint_rollback p b = (Raise e, b')) ∧ (∃ e b', nm_checkpoint_destroy p b = (Raise e, b')).

Definition holding (x : option ActiveNetworkChange) (w : NetworkManagerProvisioning * B) : Prop := w.1.(nm_active) = x.
Lemma holding_unmoved a : unmoved (holding a).
Proof.
  assert (∀ A (c : M B A), calm (holding a) (bus c)) as Hb.
  { intros A c [n b] Hw. unfold bus, zoom. cbn. by destruct (c b) as [[x|e] b']. }
  split; intros; try apply Hb.
  - intros w Hw. unfold holding. cbn. by rewrite H.
  - intros w Hw. exact Hw.
Qed.
Hint Resolve holding_unmoved : calm.


Lemma hoare_hold x y : hoare (holding x) (put (set_active y)) (λ _, holding y) (λ _, holding x).
Proof. by intros w Hw. Qed.
Lemma bus_held {A} x (c : M B A) : calm (holding x) (bus c).
Proof. intros [n b] Hw. unfold bus, zoom. cbn. by destruct (c b) as [[a|e] b']. Qed.
Hint Resolve bus_held : calm.

(** The change [begin_change] records. *)
Definition recorded (r : NetworkChangeRequest) (w : NetworkManagerProvisioning * B) : Prop :=
  ∃ a, w.1.(nm_active) = Some a ∧ a.(ac_operation_id) = strip r.(nc_operation_id) ∧ a.(ac_staged_ssid) = r.(nc_ssid).

Lemma best_effort_answers p :
  hoare (λ w : NetworkManagerProvisioning * B, True) (best_effort_rollback p) (λ _ _, True) (λ _ _, False).
Proof.
  intros [n b] _. unfold best_effort_rollback, catch, bus, zoom, mbind, M_bind. cbn.
  destruct (nm_checkpoint_rollback p b) as [[?|?] b1]; cbn; [|done].
  by destruct (nm_checkpoint_destroy p b1) as [[?|?] b2].
Qed.
Lemma stage_records r d p previous :
  hoare (holding None) (stage activation_timeout fuel r (strip r.(nc_operation_id)) d p previous)
    (λ _, recorded r) (λ _, holding None).
Proof.
  unfold stage. eapply (hoare_catch _ _ _ _ _ (λ _ w, True)).
  - eapply (hoare_bind _ _ (λ _, holding None)). { intros [n b] Hw. cbn. by destruct (fresh_uuid b). }
    intros uuid. eapply (hoare_bind _ _ (λ _, holding None)).
    { eapply hoare_mono; [apply (bus_held None)|done|done|done]. }
    intros ?. eapply hoare_bind; [eapply hoare_mono; [apply hoare_hold|done|intros ? ? H; exact H|done]|]. intros ?.
    eapply hoare_mono; [apply calm_activated, holding_unmoved|intros ? H; exact H| |done].
    intros ? w Hw. eexists. split; [exact Hw|done].
  - intros e. eapply (hoare_bind _ _ (λ _ w, True)); [|by intros ? w ?].
    case_bool_decide; [by intros w ?|]. eapply hoare_mono; [apply best_effort_answers|done|done|by intros ? ? []].
Qed.

(** What a caller of [begin_change] may conclude.  An answer is a staging
    snapshot of the caller's own change, which the adapter then holds.  After a
    raise the adapter holds no change, except where the change was staged and
    only the closing read of the Host's network failed: there the caller hears
    a failure and the adapter goes on holding the change. *)
Theorem begin_outcome r w :
  w.1.(nm_active) = None →
  match nm_begin_change utf8_replace activation_timeout rollback_timeout fuel r w with
  | (Ok s, w') =>
      s.(sn_state) = STAGING ∧ s.(sn_active_operation_id) = Some (strip r.(nc_operation_id)) ∧
      s.(sn_staged_ssid) = Some r.(nc_ssid) ∧ recorded r w'
  | (Raise e, w') =>
      w'.1.(nm_active) = None ∨
      recorded r w' ∧ ∃ w1, recorded r w1 ∧ current_ssid utf8_replace w1 = (Raise e, w')
  end.
Proof.
  set (Q := λ s w', s.(sn_state) = STAGING ∧ s.(sn_active_operation_id) = Some (strip r.(nc_operation_id)) ∧
      s.(sn_staged_ssid) = Some r.(nc_ssid) ∧ recorded r w').
  set (E := λ e w', w'.1.(nm_active) = None ∨
      recorded r w' ∧ ∃ w1, recorded r w1 ∧ current_ssid utf8_replace w1 = (Raise e, w')).
  assert (∀ A C (c : M (NetworkManagerProvisioning * B) A) (f : A → M _ C) Q',
    calm (holding None) c → (∀ a, hoare (holding None) (f a) Q' E) → hoare (holding None) (c ≫= f) Q' E) as Hstep.
  { intros A C c f Q' Hc Hf. eapply (hoare_bind _ _ (λ _, holding None)); [|done].
    eapply hoare_mono; [exact Hc|done|done|]. intros e w' Hw. by left. }
  revert w. change (hoare (holding None) (nm_begin_change utf8_replace activation_timeout rollback_timeout fuel r) Q E).
  unfold nm_begin_change. cbv zeta.
  do 7 (apply Hstep; [first [apply calm_gets|apply calm_guard|by auto with calm]|]; intros ?).
  apply Hstep; [auto with calm|]. intros p.
  eapply hoare_bind; [eapply hoare_mono; [apply stage_records|done|intros ? ? H; exact H|intros ? ? H; by left]|].
  intros _ w (a' & H1 & H2 & H3). unfold nm_get_state.
  assert (calm (holding (Some a')) (current_ssid utf8_replace)) as Hk by auto with calm. specialize (Hk w H1).
  destruct (current_ssid utf8_replace w) as [[x|e] w'] eqn:Ec.
  - rewrite (bind_ok _ _ _ _ _ Ec). unfold self. rewrite bind_gets, Hk. cbn.
    unfold Q. split_and!; cbn; [done|by rewrite H2|by rewrite H3|by exists a'].
  - rewrite (bind_raise _ _ _ _ _ Ec). right. split; [by exists a'|]. exists w. split; [by exists a'|done].
Qed.

(** A call that only raises, and leaves the change held. *)
Definition stuck {A} a (c : M (NetworkManagerProvisioning * B) A) : Prop := hoare (holding (Some a)) c (λ _ _, False) (λ _, holding (Some a)).
Lemma stuck_calm {A} a (c : M (NetworkManagerProvisioning * B) A) : stuck a c → calm (holding (Some a)) c.
Proof. intros Hc. eapply hoare_mono; [exact Hc|done|by intros ? ? []|done]. Qed.
Lemma stuck_after {A C} a (c : M (NetworkManagerProvisioning * B) A) (f : A → M (NetworkManagerProvisioning * B) C) :
  calm (holding (Some a)) c → (∀ x, stuck a (f x)) → stuck a (c ≫= f).
Proof. intros Hc Hf. by eapply hoare_bind. Qed.
Lemma stuck_first {A C} a (c : M (NetworkManagerProvisioning * B) A) (f : A → M (NetworkManagerProvisioning * B) C) :
  stuck a c → stuck a (c ≫= f).
Proof. intros Hc. eapply hoare_bind; [exact Hc|]. by intros ? ? []. Qed.
Lemma stuck_bus {A} a (c : M B A) : (∀ b, ∃ e b', c b = (Raise e, b')) → stuck a (bus c).
Proof. intros Hc [n b] Hw. unfold bus, zoom. cbn. by destruct (Hc b) as (e & b' & ->). Qed.
Lemma stuck_wrap {A} a (c : M (NetworkManagerProvisioning * B) A) msg : stuck a c → stuck a (wrap_all c msg).
Proof. intros Hc. eapply hoare_catch; [exact Hc|]. intros e w Hw. exact Hw. Qed.
Lemma stuck_require {A} a o (f : ActiveNetworkChange → M (NetworkManagerProvisioning * B) A) :
  stuck a (f a) → stuck a (require_active o ≫= f).
Proof.
  intros Hf w Hw. unfold require_active, self. rewrite bind_assoc, bind_gets, Hw, bind_assoc, bind_guard.
  destruct (negb _); [done|]. by apply Hf.
Qed.

Lemma confirm_stuck a o : expired a.(ac_checkpoint_path) → stuck a (nm_confirm utf8_replace o).
Proof.
  intros He. apply stuck_require, stuck_after; [auto with calm|]. intros d.
  apply stuck_after; [auto with calm|]. intros r. apply stuck_after; [apply calm_guard|]. intros ?.
  apply stuck_first, stuck_wrap, stuck_bus. apply He.
Qed.
Lemma rollback_stuck a o : expired a.(ac_checkpoint_path) → stuck a (nm_rollback utf8_replace o).
Proof.
  intros He. apply stuck_require, stuck_after; [auto with calm|]. intros d.
  apply stuck_first, stuck_wrap, stuck_first, stuck_bus. apply He.
Qed.
Lemma begin_stuck a r :
  stuck a (nm_begin_change utf8_replace activation_timeout rollback_timeout fuel r).
Proof.
  intros w Hw. unfold nm_begin_change, self. cbv zeta. rewrite bind_gets, bind_guard, Hw.
  by rewrite bool_decide_eq_true_2.
Qed.
Lemma forget_stuck a : expired a.(ac_checkpoint_path) → stuck a (nm_forget_all_wifi_profiles utf8_replace fuel).
Proof.
  intros He w Hw. unfold nm_forget_all_wifi_profiles, self. rewrite bind_gets, Hw. revert w Hw.
  apply stuck_first, stuck_first. by apply rollback_stuck.
Qed.

Lemma port_held a c : expired a.(ac_checkpoint_path) → c ≠ PRecover → calm (holding (Some a)) (port (adapter B) c).
Proof.
  intros He Hc. destruct c; [done|..]; apply hoare_forget.
  - apply calm_scan. auto with calm.
  - apply calm_get_state. auto with calm.
  - apply stuck_calm, begin_stuck.
  - by apply stuck_calm, confirm_stuck.
  - by apply stuck_calm, rollback_stuck.
  - by apply stuck_calm, forget_stuck.
Qed.

(** Once the checkpoint of the change the adapter holds has expired, the
    adapter holds that change through any history of calls but a recovery:
    confirm, rollback and the reset of the profiles only raise, and every new
    change is refused as [another network change is active]. *)
Theorem expired_checkpoint_wedges a history w :
  expired a.(ac_checkpoint_path) → w.1.(nm_active) = Some a → PRecover ∉ history →
  let w' := port_run (adapter B) history w in
  w'.1.(nm_active) = Some a ∧
  (∀ o, ∃ e, (nm_confirm utf8_replace o w').1 = Raise e) ∧
  (∀ o, ∃ e, (nm_rollback utf8_replace o w').1 = Raise e) ∧
  (∃ e, (nm_forget_all_wifi_profiles utf8_replace fuel w').1 = Raise e) ∧
  ∀ r, nm_begin_change utf8_replace activation_timeout rollback_timeout fuel r w' =
    (Raise (NetworkProvisioningError "another network change is active"), w').
Proof.
  intros He Hw Hh w'. assert (holding (Some a) w') as Hw'.
  { unfold w', port_run. clear w'. revert w Hw. induction history as [|c cs IH]; [done|]. intros w Hw.
    apply not_elem_of_cons in Hh as [Hc Hh]. apply IH; [done|].
    pose proof (port_held a c He (not_eq_sym Hc) w Hw) as H. by destruct (port _ c w) as [[?|?] ?]. }
  assert (∀ A (c : M (NetworkManagerProvisioning * B) A), stuck a c → ∃ e, (c w').1 = Raise e) as Hs.
  { intros A c Hc. specialize (Hc w' Hw'). destruct (c w') as [[?|e] ?]; [done|by exists e]. }
  split_and!; [done|..].
  - intros o. by apply Hs, confirm_stuck.
  - intros o. by apply Hs, rollback_stuck.
  - by apply Hs, forget_stuck.
  - intros r. unfold nm_begin_change, self. cbv zeta. rewrite bind_gets, bind_guard, Hw'.
    by rewrite bool_decide_eq_true_2.
Qed.
End Port.

(** ** The loops end *)

Section Ending.
Context {B : Type} `{SB : !SystemBus B}.
Context (utf8_replace : bytes → string).
Abbreviation W := (NetworkManagerProvisioning * B)%type.

(** What a loop raises when its turns are used up, which the code never does. *)
Definition waiting : exn := RuntimeError "still waiting".
Definition no_earlier (t : Z) (w : W) : Prop := (t <= loop_time w.2)%Z.
(** No call turns the clock back, and a sleep lasts as long as it should. *)
Record clock_moves : Prop := {
  cm_forward t : unmoved (no_earlier t);
  cm_sleep t b : (0 <= t)%Z → (loop_time b + t <= loop_time (loop_sleep t b))%Z }.
Definition ends {A} (P : W → Prop) (c : M W A) : Prop := hoare P c (λ _ _, True) (λ e _, e ≠ waiting).

Context (Hc : clock_moves).
Context (Hstate : ∀ d b, (nm_device_state d b).1 ≠ Raise waiting) (Hstartup : ∀ b, (nm_startup b).1 ≠ Raise waiting)
  (Hlook : ∀ d b, (bus_introspect d b).1 ≠ Raise waiting).

(** A look that raises nothing of the model's own, and the time after it. *)
Lemma bus_looks {A} (c : M B A) : (∀ b, (c b).1 ≠ Raise waiting) → (∀ t, calm (no_earlier t) (bus c)) →
  ∀ t, hoare (no_earlier t) (bus c) (λ _, no_earlier t) (λ e _, e ≠ waiting).
Proof.
  intros Hw Hk t w Ht. pose proof (Hk t w Ht) as H. specialize (Hw w.2). revert H. unfold bus, zoom.
  destruct (c w.2) as [[a|e] b]; cbn in *; [done|]. intros _ ->. done.
Qed.
Lemma ends_wrap {A} P (c : M W A) msg : ends P (wrap c msg).
Proof. intros w Hw. unfold wrap, catch. destruct (c w) as [[a|e] w']; [done|]. by destruct e. Qed.
Lemma ends_wrap_all {A} P (c : M W A) msg : ends P (wrap_all c msg).
Proof. intros w Hw. unfold wrap_all, catch. by destruct (c w) as [[a|e] w']. Qed.
Lemma sleeps k t : (0 <= k)%Z → hoare (no_earlier t) (sleep k) (λ _, no_earlier (t + k)) (λ e _, e ≠ waiting).
Proof. intros Hk w Hw. unfold no_earlier in *. cbn. pose proof (cm_sleep Hc k w.2 Hk). lia. Qed.

Lemma activated_ends n d dl : ∀ t, (dl <= t + 500 * Z.of_nat n)%Z → ends (no_earlier t) (poll_activated (S n) d dl).
Proof.
  induction n as [|n IH]; intros t Hdl; change (poll_activated (S ?k) d dl) with
    (t ← now; if (t <? dl)%Z then
       state ← bus (nm_device_state d);
       if (state =? DEVICE_STATE_ACTIVATED)%Z then mret tt
       else if (DEVICE_STATE_FAILED <=? state)%Z then raise (NetworkProvisioningError "Wi-Fi activation failed")
       else sleep 500 ;; poll_activated k d dl
     else raise (NetworkProvisioningError "Wi-Fi activation timed out")); intros w Hw;
    unfold now; rewrite bind_gets; destruct (Z.ltb_spec (loop_time w.2) dl) as [Hlt|]; try done.
  { unfold no_earlier in Hw. lia. }
  revert w Hw Hlt. intros w Hw _. revert w Hw. eapply hoare_bind; [apply bus_looks; [done|]|].
  { intros s. apply un_state, (cm_forward Hc). }
  intros state. destruct (_ =? _)%Z; [done|]. destruct (_ <=? _)%Z; [done|].
  unfold ends in IH; eapply hoare_bind; [by apply sleeps|]. intros ?. apply IH. lia.
Qed.

Lemma startup_ends poll n dl : (0 < poll)%Z → ∀ t, (dl <= t + poll * Z.of_nat n)%Z →
  ends (no_earlier t) (poll_startup poll (S n) dl).
Proof.
  intros Hp. induction n as [|n IH]; intros t Hdl; change (poll_startup poll (S ?k) dl) with
    (starting ← bus nm_startup;
     if starting : bool then
       t ← now;
       let remaining := (dl - t)%Z in
       if (remaining <=? 0)%Z then raise (NetworkProvisioningError "NetworkManager startup did not complete in time")
       else sleep (Z.min poll remaining) ;; poll_startup poll k dl
     else mret tt);
    unfold ends; (eapply hoare_bind; [apply bus_looks; [done|intros s; apply un_startup, (cm_forward Hc)]|]);
    intros [|]; try done; intros w Hw; unfold now; rewrite bind_gets; cbv zeta;
    destruct (Z.leb_spec (dl - loop_time w.2) 0) as [|Hlt]; try done; unfold no_earlier in Hw; [lia|].
  assert (ends (no_earlier (loop_time w.2)) (sleep (Z.min poll (dl - loop_time w.2)) ;; poll_startup poll (S n) dl)) as H.
  { unfold ends. eapply hoare_bind; [apply sleeps; lia|]. intros ?. apply IH. lia. }
  exact (H w (Z.le_refl _)).
Qed.

Lemma disconnected_ends n dl : ∀ t, (dl <= t + 100 * Z.of_nat n)%Z →
  ends (no_earlier t) (poll_disconnected utf8_replace (S n) dl).
Proof.
  induction n as [|n IH]; intros t Hdl; change (poll_disconnected utf8_replace (S ?k) dl) with
    (current ← current_ssid utf8_replace;
     match current with
     | None => mret tt
     | Some _ =>
         t ← now;
         if (dl <=? t)%Z then raise (NetworkProvisioningError "Wi-Fi remained connected after profile reset")
         else sleep 100 ;; poll_disconnected utf8_replace k dl
     end);
    unfold ends; (eapply (hoare_bind _ _ (λ _, no_earlier t)); [|intros [s|]; [|done]; intros w Hw; unfold now; rewrite bind_gets;
       destruct (Z.leb_spec dl (loop_time w.2)); [done|]]).
  1, 3: intros w Hw; pose proof (calm_current_ssid _ (cm_forward Hc t) utf8_replace w Hw) as Hk;
    pose proof (ends_wrap (no_earlier t) _ _ w Hw : match current_ssid utf8_replace w with (Raise e, _) => _ | _ => _ end) as He;
    destruct (current_ssid utf8_replace w) as [[?|?] ?]; [exact Hk|exact He].
  - unfold no_earlier in Hw. lia.
  - revert w Hw H. intros w Hw _. revert w Hw. eapply hoare_bind; [by apply sleeps|]. intros ?. apply IH. lia.
Qed.

(** With a clock that moves, the loops that wait on NetworkManager end: the
    turns their timeout has room for are enough, whatever it answers. *)
Theorem waiting_ends n device timeout poll w :
  (timeout <= 500 * Z.of_nat n → (wait_until_activated timeout (S n) device w).1 ≠ Raise waiting)%Z ∧
  (0 < poll → timeout <= poll * Z.of_nat n → (wait_until_manager_startup_complete timeout poll (S n) w).1 ≠ Raise waiting)%Z ∧
  (poll_disconnected utf8_replace 51 (loop_time w.2 + 5000) w).1 ≠ Raise waiting.
Proof.
  assert (∀ A (c : M W A) P, ends P c → P w → (c w).1 ≠ Raise waiting) as Hends.
  { intros A c P He Hw. specialize (He w Hw). destruct (c w) as [[?|e] ?]; [done|]. by intros [= ->]. }
  split_and!.
  - intros Ht. apply (Hends _ _ (no_earlier (loop_time w.2))); [|unfold no_earlier; lia].
    unfold ends, wait_until_activated. eapply hoare_bind; [|intros ?; intros w' Hw'; unfold now; rewrite bind_gets].
    + unfold properties. eapply (hoare_bind _ _ (λ _, no_earlier (loop_time w.2))).
      * intros w' Hw'. pose proof (calm_connect _ (cm_forward Hc (loop_time w.2)) w' Hw') as Hk. revert Hk.
        unfold connect, self. rewrite bind_gets. destruct (nm_bus _); [done|].
        assert (ends (no_earlier (loop_time w.2)) (wrap_all (bus bus_connect) "NetworkManager system bus is unavailable" ;; put set_bus)) as He.
        { unfold ends. eapply hoare_bind; [apply ends_wrap_all|]. done. }
        specialize (He w' Hw'). by destruct ((wrap_all _ _ ≫= _) w') as [[?|?] ?].
      * intros ?. apply bus_looks; [done|]. intros s. apply un_introspect, (cm_forward Hc).
    + apply (activated_ends n device _ (loop_time w'.2)); [lia|]. unfold no_earlier. lia.
  - intros Hp Ht. apply (Hends _ _ (no_earlier (loop_time w.2))); [|unfold no_earlier; lia].
    unfold wait_until_manager_startup_complete. intros w' Hw'. unfold now. rewrite bind_gets.
    apply (startup_ends poll n _ Hp (loop_time w'.2)); [lia|]. unfold no_earlier. lia.
  - apply (Hends _ _ (no_earlier (loop_time w.2))); [|unfold no_earlier; lia].
    apply disconnected_ends. lia.
Qed.
End Ending.

(** ** A bus on the desk

    One Wi-Fi device, connected to [cafe]; the nth call answers or raises as
    the script says. *)

Record desk := mkDesk { d_calls : nat; d_clock : Z }.
Definition answer {A} (script : nat → option exn) (a : A) : M desk A := λ d,
  (match script d.(d_calls) with Some e => Raise e | None => Ok a end, mkDesk (S d.(d_calls)) d.(d_clock)).
Definition desk_bus (script : nat → option exn) : SystemBus desk := {|
  bus_connect := answer script tt;
  bus_introspect := λ _, answer script tt;
  nm_get_devices := answer script ["/wlan0"];
  nm_device_type := λ _, answer script 2%Z;
  nm_device_state := λ _, answer script 100%Z;
  nm_active_access_point := λ _, answer script "/ap";
  nm_ap_ssid := λ _, answer script (list_ascii_of_string "cafe");
  nm_ap_values := λ _, answer script (mkAp (list_ascii_of_string "cafe") 60 1 0 0);
  nm_request_scan := λ _, answer script tt;
  nm_get_all_access_points := λ _, answer script ["/ap"];
  nm_checkpoints := answer script [];
  nm_checkpoint_devices := λ _, answer script [];
  nm_startup := answer script false;
  nm_checkpoint_create := λ _ _, answer script "/checkpoint";
  nm_checkpoint_rollback := λ _ d, (Raise (OSError "unknown checkpoint"), d);
  nm_checkpoint_destroy := λ _ d, (Raise (OSError "unknown checkpoint"), d);
  nm_add_and_activate := λ _ _, answer script tt;
  nm_list_connections := answer script [];
  nm_connection_type := λ _, answer script None;
  nm_delete_connection := λ _, answer script tt;
  nm_disconnect := λ _, answer script tt;
  loop_time := d_clock;
  loop_sleep := λ t d, mkDesk d.(d_calls) (d.(d_clock) + t);
  fresh_uuid := λ d, ("uuid", d) |}.
Definition quiet_bus : SystemBus desk := desk_bus (λ _, None).
Definition desk_adapter (script : nat → option exn) : NetworkProvisioning (NetworkManagerProvisioning * desk) :=
  @network_manager desk (desk_bus script) string_of_list_ascii 2000 35000 90 30000 250 100.
Definition cafe : NetworkChangeRequest := mkChange "op" "cafe" None false.

Lemma expired_checkpoint_wedges_witness :
  let a := mkActive "op" "/checkpoint" None "cafe" in
  let w := (nm_init, mkDesk 0 0) in
  let w1 := (set_active (Some a) w.1, w.2) in
  let w' := port_run (desk_adapter (λ _, None)) [PConfirm "op"; PForget; PState] w1 in
  w'.1.(nm_active) = Some a ∧
  (∀ o, ∃ e, (@nm_confirm _ quiet_bus string_of_list_ascii o w').1 = Raise e) ∧
  (∀ o, ∃ e, (@nm_rollback _ quiet_bus string_of_list_ascii o w').1 = Raise e) ∧
  (∃ e, (@nm_forget_all_wifi_profiles _ quiet_bus string_of_list_ascii 100 w').1 = Raise e) ∧
  ∀ r, @nm_begin_change _ quiet_bus string_of_list_ascii 35000 90 100 r w' =
    (Raise (NetworkProvisioningError "another network change is active"), w').
Proof.
  apply (@expired_checkpoint_wedges desk quiet_bus string_of_list_ascii 2000 35000 90 30000 250 100).
  - intros b. split; by repeat eexists.
  - reflexivity.
  - set_solver.
Defined.

Lemma begin_outcome_witness :
  match @nm_begin_change _ quiet_bus string_of_list_ascii 35000 90 100 cafe (nm_init, mkDesk 0 0) with
  | (Ok s, w') =>
      s.(sn_state) = STAGING ∧ s.(sn_active_operation_id) = Some "op" ∧ s.(sn_staged_ssid) = Some "cafe" ∧ recorded cafe w'
  | (Raise e, w') =>
      w'.1.(nm_active) = None ∨
      recorded cafe w' ∧ ∃ w1, recorded cafe w1 ∧ @current_ssid _ quiet_bus string_of_list_ascii w1 = (Raise e, w')
  end.
Proof. apply (@begin_outcome desk quiet_bus string_of_list_ascii 35000 90 100 cafe). reflexivity. Defined.

(** Where the closing read fails the caller is told so, the change is held all
    the same, and the next one is refused. *)
Example answer_lost :
  let bus := desk_bus (λ n, if (n =? 15)%nat then Some (OSError "no reply") else None) in
  let first := @nm_begin_change _ bus string_of_list_ascii 35000 90 100 cafe (nm_init, mkDesk 0 0) in
  let second := @nm_begin_change _ bus string_of_list_ascii 35000 90 100 cafe first.2 in
  first.1 = Raise (NetworkProvisioningError "NetworkManager active network query failed") ∧
  second.1 = Raise (NetworkProvisioningError "another network change is active").
Proof. split; vm_compute; reflexivity. Qed.

(** ** A raw error of the bus *)

Section Raw.
Context {S B : Type} `{!BootstrapStateStore S} `{SB : !SystemBus B}.
Context (utf8_replace : bytes → string).
Context (scan_settle activation_timeout rollback_timeout manager_startup_timeout manager_startup_poll : Z) (fuel : nat).
#[local] Instance raw_adapter : NetworkProvisioning (NetworkManagerProvisioning * B) :=
  network_manager utf8_replace scan_settle activation_timeout rollback_timeout manager_startup_timeout
    manager_startup_poll fuel.

(** An error none of the layers names. *)
Definition raw (e : exn) : Prop :=
  match e with NetworkProvisioningError _ | BootstrapStateConflict _ => False | _ => True end.

Lemma begin_raw r n b device e b' :
  n.(nm_bus) = true → n.(nm_manager) = true → n.(nm_device_path) = Some device → n.(nm_active) = None →
  n.(nm_recovery_complete) = true → strip r.(nc_operation_id) ≠ "" → r.(nc_ssid) ≠ "" →
  bus_introspect device b = (Raise e, b') →
  net_begin_change r (n, b) = (Raise e, (n, b')).
Proof.
  intros H1 H2 H3 H4 H5 H6 H7 H8. cbn [net_begin_change raw_adapter network_manager].
  unfold nm_begin_change, self. cbv zeta. rewrite bind_gets, bind_guard. cbn [fst]. rewrite H4.
  rewrite bool_decide_eq_false_2 by by intros [? ?]. rewrite bind_gets. cbn [fst]. rewrite H5, !bind_guard. cbn [negb].
  rewrite !bool_decide_eq_false_2 by done. cbn [orb].
  apply bind_raise. destruct n. cbn in *. subst.
  unfold interfaces, connect, self, introspect, bus, zoom, mbind, M_bind. cbn. by rewrite H8.
Qed.

(** An error of the bus that [_interfaces] meets outside every [try] reaches
    the caller as it is.  [configure_network] catches only its own kinds, so it
    raises the error and records nothing: the store stands as it was prepared,
    with the operation running and the network staging. *)
Theorem raw_bus_error_strands a payload r previous n b device e b' (w w1 : world S (NetworkManagerProvisioning * B)) :
  configure_prepare a payload w = (Ok (inr (r, previous)), w1) →
  w_net w1 = (n, b) → n.(nm_bus) = true → n.(nm_manager) = true → n.(nm_device_path) = Some device →
  n.(nm_active) = None → n.(nm_recovery_complete) = true → strip r.(nc_operation_id) ≠ "" → r.(nc_ssid) ≠ "" →
  bus_introspect device b = (Raise e, b') → raw e →
  ∃ w2, configure_network a payload w = (Raise e, w2) ∧ w_store w2 = w_store w1.
Proof.
  intros Hp Hn H1 H2 H3 H4 H5 H6 H7 H8 He. exists (put_net (n, b') w1). split; [|done].
  unfold configure_network. rewrite (bind_ok _ _ _ _ _ Hp).
  assert (try_net (net_begin_change r) w1 = (Ok (Raise e), put_net (n, b') w1)) as Ht.
  { unfold try_net, on_net, zoom. rewrite Hn. by rewrite (begin_raw r n b device e b'). }
  rewrite (bind_ok _ _ _ _ _ Ht). unfold configure_finish. apply bind_raise.
  unfold catch. cbn. by destruct e.
Qed.
End Raw.

Definition known : NetworkManagerProvisioning := mkNM true true (Some "/wlan0") None true.
Definition lost_reply : nat → option exn := λ n, if (n =? 0)%nat then Some (OSError "no reply") else None.
Definition deaf_world : world MemoryStore (NetworkManagerProvisioning * desk) :=
  mkWorld (w_store sample_world) (known, mkDesk 0 0) sample_oracle 0.

(** There the operation reads as running, and the one after it is a conflict. *)
Lemma raw_bus_error_strands_witness :
  let configure oid w :=
    @configure_network _ _ memory_store (desk_adapter lost_reply) (ControllerAccess sample_grant)
      [("operation_id", JStr oid); ("ssid", JStr "cafe")] w in
  let prepared := (@configure_prepare _ (NetworkManagerProvisioning * desk) memory_store (ControllerAccess sample_grant) sample_payload deaf_world).2 in
  (∃ w2, configure sample_oid deaf_world = (Raise (OSError "no reply"), w2) ∧ w_store w2 = w_store prepared) ∧
  o_state <$> dict_get sample_oid (w_store prepared).(m_operations) = Some RUNNING ∧
  (∃ msg, (configure "87654321-1234-5678-1234-567812345678" (configure sample_oid deaf_world).2).1 =
     Raise (rejected "operation_conflict" msg)).
Proof.
  split_and!.
  - apply (@raw_bus_error_strands MemoryStore desk memory_store (desk_bus lost_reply) string_of_list_ascii 2000 35000 90
             30000 250 100 (ControllerAccess sample_grant) sample_payload (mkChange sample_oid "cafe" None false)
             UNCONFIGURED known (mkDesk 0 0) "/wlan0" (OSError "no reply") (mkDesk 1 0));
      first [vm_compute; reflexivity|done].
  - vm_compute. reflexivity.
  - eexists. vm_compute. reflexivity.
Defined.
