(* ===== verification/DeviceAdmissions.v ===== *)
(** * The Local API's side of admission and removal

    [local_api/device_admissions.py]: the commands a Controller's session is
    entitled to, the client that carries them to Admin's control plane, the
    removal that goes over the workflow's socket instead, and what a phone is
    told of the outcome. *)

From S2P Require Import Prelude Encoding Json Lifecycle RemovalIntents RemovalWorkflow.
From S2P Require Import Admission Upstream Clients DeviceClients Vouchers.

(** ** Refusals *)

Definition REFUSAL_REASONS : list (string * string) :=
  [("conflict", "主机不接受这台设备当前的状态。请刷新列表后重试。");
   ("not_found", "主机上已经没有这台设备了。");
   ("unauthorized", "主机不再授权这台手机管理设备。");
   ("forbidden", "主机不再授权这台手机管理设备。");
   ("invalid_request", "主机拒绝了这次请求的内容。");
   ("unavailable", "主机的设备权威暂时不可用。");
   ("configuration", "主机的设备权威尚未配置完成。");
   ("upstream_failure", "主机的设备权威没有应答。");
   ("contract_violation", "主机的设备权威返回了不符合契约的应答。")].
Definition WORKFLOW_PROBLEM_KINDS : list (string * string) :=
  [("AUTHN_INVALID", "unauthorized"); ("AUTHZ_DENIED", "forbidden"); ("INVALID_REQUEST", "invalid_request");
   ("WORKFLOW_UNAVAILABLE", "unavailable"); ("WORKFLOW_FAILURE", "upstream_failure")].
Definition workflow_problem_reason (code : string) : option string :=
  dict_get (default "" (dict_get code WORKFLOW_PROBLEM_KINDS)) REFUSAL_REASONS.

(** [raise HTTPException(exc.status_code, device_admission_detail(exc))] *)
Definition device_admission_detail (msg : string) (status : Z) (reason : option string) : exn :=
  match reason with Some r => HTTPReason status r | None => HTTPException status msg end.
Definition device_admission_reason (msg : string) (reason : option string) : string := default msg reason.
(** The text of an [HTTPException]-style detail: [repr] of the dictionary. *)
Definition detail_text (msg : string) (reason : option string) : string :=
  match reason with Some r => "{'reason': '" +:+ r +:+ "'}" | None => msg end.

Definition admission_error (msg : string) : exn := DeviceAdmissionError msg 503 None.

Section Refusal.
Context (loads : bytes → result json).
(** [_refusal]; a kind that is a list or an object cannot be looked up. *)
Definition admission_refusal (operation : string) (r : http_response) : exn :=
  let kind := match loads r.(content) with
              | Ok (JObj document) =>
                  match obj_get "detail" document JNull with JObj detail => obj_get "kind" detail JNull | _ => JNull end
              | _ => JNull
              end in
  let refused reason :=
    DeviceAdmissionError ("Admin Device " +:+ operation +:+ " did not complete")
      (if bool_decide (r.(status_code) ∈ [401; 403; 404; 409; 422; 502; 503]%Z) then r.(status_code) else 503) reason in
  if json_truthy kind then
    match kind with
    | JStr k => refused (dict_get k REFUSAL_REASONS)
    | JList _ => TypeError "unhashable type: 'list'"
    | JObj _ => TypeError "unhashable type: 'dict'"
    | _ => refused None
    end
  else refused (dict_get "" REFUSAL_REASONS).
End Refusal.

(** ** Commands *)

(** The authority of the session's Controller. *)
Definition admission_actor (controller_id owner_domain_id : string) : ControllerActorRef :=
  mkActor controller_id "controller" owner_domain_id
    ["device.read"; "device.claim.approve"; "device.output-policy.write"; "device.shared-session.control";
     "device.conversation.control"] "software".

(** A command is built by pydantic, which checks its authority. *)
Definition build {A} (name required_scope target : string) (actor : ControllerActorRef) (a : A) : result A :=
  controller_command name required_scope target actor ;; Ok a.

Record ControllerQuery := mkControllerQuery {
  cq_actor : ControllerActorRef; cq_business_owner_id : string; cq_query : page_query }.
Definition enrollment_query (controller_id owner_domain_id business_owner_id : string) (q : page_query) : result ControllerQuery :=
  let actor := admission_actor controller_id owner_domain_id in
  build "ControllerEnrollmentQuery" "device.read" q.(pq_owner_domain_id) actor (mkControllerQuery actor business_owner_id q).
Definition claim_query (controller_id owner_domain_id business_owner_id : string) (q : page_query) : result ControllerQuery :=
  let actor := admission_actor controller_id owner_domain_id in
  build "ControllerClaimQuery" "device.read" q.(pq_owner_domain_id) actor (mkControllerQuery actor business_owner_id q).

Definition commissioning_voucher_request (controller_id owner_domain_id business_owner_id operational_spki_sha256 : string)
    : result VoucherRequest :=
  let actor := admission_actor controller_id owner_domain_id in
  build "ControllerCommissioningVoucherRequest" "device.claim.approve" owner_domain_id actor
    (mkVoucherRequest actor business_owner_id owner_domain_id operational_spki_sha256).

(** [ControllerWithdrawalRequest] and [ControllerEnrollmentRecoveryQuery], which
    name a Controller or an Enrollment. *)
Record ControllerSubject := mkSubject {
  su_actor : ControllerActorRef; su_business_owner_id : string; su_owner_domain_id : string; su_id : string }.
Definition controller_withdrawal_request (controller_id owner_domain_id business_owner_id withdrawn : string)
    : result ControllerSubject :=
  let actor := admission_actor controller_id owner_domain_id in
  build "ControllerWithdrawalRequest" "device.claim.approve" owner_domain_id actor
    (mkSubject actor business_owner_id owner_domain_id withdrawn).
Definition enrollment_recovery_query (controller_id owner_domain_id business_owner_id enrollment_id : string)
    : result ControllerSubject :=
  let actor := admission_actor controller_id owner_domain_id in
  build "ControllerEnrollmentRecoveryQuery" "device.read" owner_domain_id actor
    (mkSubject actor business_owner_id owner_domain_id enrollment_id).

Record LocalEnrollmentDecisionRequest (F : Type) := mkLocalDecision {
  ld_request_id : string; ld_expected_proposal_revision : Z; ld_decision : string; ld_reviewed_manifest_ref : F;
  ld_expected_owner_domain_id : string; ld_expected_business_owner_id : string; ld_target_space_id : option string;
  ld_initial_assignment_intent : option doc; ld_initial_capability_policy_refs : list string }.
Arguments mkLocalDecision {F}.
Arguments ld_request_id {F}.
Arguments ld_expected_proposal_revision {F}.
Arguments ld_decision {F}.
Arguments ld_reviewed_manifest_ref {F}.
Arguments ld_expected_owner_domain_id {F}.
Arguments ld_expected_business_owner_id {F}.
Arguments ld_target_space_id {F}.
Arguments ld_initial_assignment_intent {F}.
Arguments ld_initial_capability_policy_refs {F}.

(** [LocalEnrollmentDecisionRequest.to_admin] *)
Definition decision_to_admin {F} (p : LocalEnrollmentDecisionRequest F)
    (enrollment_id owner_domain_id business_owner_id controller_id : string) : result (DecisionRequest F) :=
  if negb (bool_decide (p.(ld_expected_owner_domain_id) = owner_domain_id) &&
           bool_decide (p.(ld_expected_business_owner_id) = business_owner_id)) then
    Raise (DeviceAdmissionError "Decision named an Owner this session does not hold" 409
             (dict_get "conflict" REFUSAL_REASONS))
  else
    let actor := admission_actor controller_id owner_domain_id in
    build "ControllerEnrollmentDecisionIntent" "device.claim.approve" owner_domain_id actor
      (mkDecisionRequest p.(ld_request_id) actor
         (mkDecide enrollment_id p.(ld_expected_proposal_revision) p.(ld_decision) owner_domain_id business_owner_id
            p.(ld_target_space_id) p.(ld_reviewed_manifest_ref) p.(ld_initial_assignment_intent)
            p.(ld_initial_capability_policy_refs))).

(** ** What a removal came to *)

(** What is read of Hub's confirmation beside [HubRevocation]. *)
Class HubConfirmation (D H : Type) := { hub_device_ref : H → D; hub_lifecycle_state : H → string }.

Record LocalDeviceRemovalProgress := mkProgress {
  pr_request_id : string; pr_device_id : string; pr_owner_id : string; pr_intent_id : string; pr_outcome : string;
  pr_conditions : list RemovalCondition }.

Definition REQUIRED_CONDITIONS : list string := ["platform_access_revoked"; "mount_removed"; "device_erase_acknowledged"].

Definition device_removal_progress {D H} `{!DeviceReference D} `{!HubConfirmation D H} (owner_id device_id : string)
    (r : DeviceRemovalResult D H) : result LocalDeviceRemovalProgress :=
  if match r.(res_hub) with
     | Some hub =>
         negb (bool_decide (device_instance_id (hub_device_ref (D:=D) hub) = device_id)) ||
         negb (bool_decide (hub_device_ref hub = r.(res_device_ref))) ||
         negb (bool_decide (hub_lifecycle_state (D:=D) hub = "revoked"))
     | None => false
     end then
    Raise (DeviceAdmissionError "Admin Device removal did not confirm the requested device" 502 None)
  else
    let names := cond_name <$> r.(conditions) in
    if negb (forallb (λ n, bool_decide (n ∈ REQUIRED_CONDITIONS)) names &&
             forallb (λ n, bool_decide (n ∈ names)) REQUIRED_CONDITIONS) then
      Raise (DeviceAdmissionError "Admin Device removal returned an incomplete condition projection" 502 None)
    else
      Ok (mkProgress r.(res_request_id) device_id owner_id r.(res_intent_id)
            (if bool_decide (r.(outcome) = "completed") then "done"
             else if bool_decide (r.(outcome) = "accepted") then "unfinished" else "refused")
            r.(conditions)).

(** ** [AdminDeviceAdmissionClient] *)

(** The workflow's socket: a connection, and what comes back on it for the
    frame that is sent. *)
Class WorkflowSocket (X : Type) := {
  workflow_connect : M X unit;
  workflow_exchange : bytes → M X bytes;
  local_clock : M X Z }.

(** [ValueError] and its subclasses. *)
Definition value_error (e : exn) : bool :=
  match e with ValueError _ | ValidationError _ | JSONDecodeError _ => true | _ => false end.

Section Client.
Context {X F D H : Type} `{!Http X} `{!WorkflowSocket X} `{!DeviceReference D}.
Context (loads : bytes → result json) (validate : string → bytes → result obj).
Context (base_url service_token : string) (timeout : Z).
(** [model_dump(mode="json")] of what the SDK declares. *)
Context (dump_actor : ControllerActorRef → doc) (dump_query : page_query → doc) (dump_decision : DecideEnrollment F → doc).

Definition admission_headers : result (list (string * string)) :=
  let token := strip service_token in
  if bool_decide (token = "") then Raise (admission_error "Local API Admin service credential is not configured")
  else Ok (bearer token).

(** [except (TimeoutException, NetworkError, RemoteProtocolError)] *)
Definition or_unavailable {A} (c : M X A) : M X A :=
  catch c (λ e, match e with
                | HttpxTransportError _ => Some (raise (admission_error "Admin Device admission control plane is unavailable"))
                | _ => None
                end).
(** The answer's model, or the contract is violated. *)
Definition admission_model (model : string) (violation : string) (r : http_response) : result obj :=
  match validate model r.(content) with
  | Raise (ValueError _ | ValidationError _ | JSONDecodeError _ | TypeError _) => Raise (admission_error violation)
  | v => v
  end.

Definition control_plane (path : string) : string := rstrip_slash base_url +:+ "/api/control-plane/v1/" +:+ path.

(** [_post] *)
Definition admission_post (path model : string) (payload : doc) (replay_safe : bool) : M X obj :=
  response ← or_unavailable
    (headers ← lift admission_headers;
     send (mkHttpRequest "POST" (control_plane path) timeout headers None (Some payload) None replay_safe));
  guard_py (negb (response.(status_code) =? 200)%Z) (admission_refusal loads "admission query" response) ;;
  lift (admission_model model "Admin Device admission response violated its contract" response).

Definition command_doc (actor : ControllerActorRef) (members : list (string * doc)) : doc :=
  DObj ([("contract_version", DStr "1"); ("actor", dump_actor actor)] ++ members).
Definition query_doc (q : ControllerQuery) : doc :=
  command_doc q.(cq_actor) [("business_owner_id", DStr q.(cq_business_owner_id)); ("query", dump_query q.(cq_query))].
Definition subject_doc (name : string) (s : ControllerSubject) : doc :=
  command_doc s.(su_actor) [("business_owner_id", DStr s.(su_business_owner_id));
    ("owner_domain_id", DStr s.(su_owner_domain_id)); (name, DStr s.(su_id))].

Definition query_enrollments (q : ControllerQuery) : M X obj :=
  page ← admission_post "admission/enrollment-queries" "EnrollmentProposalPage" (query_doc q) false;
  guard_py (negb (says "owner_domain_id" q.(cq_query).(pq_owner_domain_id) page))
    (DeviceAdmissionError "Admin enrollment query returned another Owner Domain" 502 None) ;;
  mret page.
Definition client_issue_voucher (p : VoucherRequest) : M X obj :=
  admission_post "admission/commissioning-vouchers" "CommissioningVoucherIssued"
    (command_doc p.(vr_actor) [("business_owner_id", DStr p.(vr_business_owner_id));
       ("owner_domain_id", DStr p.(vr_owner_domain_id)); ("operational_spki_sha256", DStr p.(vr_operational_spki_sha256))]) false.
Definition client_withdraw_controller (p : ControllerSubject) : M X obj :=
  withdrawn ← admission_post "admission/controller-withdrawals" "ControllerWithdrawn" (subject_doc "principal_id" p) false;
  guard_py (negb (says "principal_id" p.(su_id) withdrawn) || negb (says "owner_domain_id" p.(su_owner_domain_id) withdrawn))
    (DeviceAdmissionError "Admin Controller withdrawal answered about another Controller" 502 None) ;;
  mret withdrawn.
Definition recover_enrollment (p : ControllerSubject) : M X obj :=
  projection ← admission_post "admission/enrollment-recoveries" "EnrollmentRecoveryProjection" (subject_doc "enrollment_id" p) false;
  guard_py (negb (says "requested_owner_domain_id" p.(su_owner_domain_id) (enrollment_of projection)) ||
            negb (says "enrollment_id" p.(su_id) (enrollment_of projection)))
    (DeviceAdmissionError "Admin Enrollment recovery answered about another Enrollment" 502 None) ;;
  mret projection.
Definition query_claims (q : ControllerQuery) : M X obj :=
  page ← admission_post "admission/claim-queries" "ClaimPage" (query_doc q) true;
  guard_py (negb (says "owner_domain_id" q.(cq_query).(pq_owner_domain_id) page))
    (DeviceAdmissionError "Admin Claim query returned another Owner Domain" 502 None) ;;
  mret page.

Definition client_decide (p : DecisionRequest F) : M X obj :=
  response ← or_unavailable
    (headers ← lift admission_headers;
     send (mk_json "PUT" timeout headers
             (command_doc p.(dr_actor) [("request_id", DStr p.(dr_request_id)); ("decision", dump_decision p.(dr_decision))])
             (control_plane ("admission/decision-intents/" +:+ quote p.(dr_decision).(d_enrollment_id)))));
  guard_py (negb (response.(status_code) =? 200)%Z) (admission_refusal loads "Decision" response) ;;
  result ← lift (admission_model "AdmissionDecisionWorkflowResult" "Admin Device Decision response violated its contract" response);
  guard_py (negb (says "request_id" p.(dr_request_id) result))
    (DeviceAdmissionError "Admin Device Decision returned another request" 409 None) ;;
  mret result.

(** ** [remove] *)

Context (sha1 : bytes → bytes).
(** The SDK's default audience and its checks of a context, [model_dump_json] of
    a call, [model_validate] of a reply. *)
Context (audience : string) (check_context : OwnerAuthorizationContext D → result unit)
        (dump_call : LifecycleRemovalCall D → bytes)
        (validate_reply : obj → result (LifecycleWorkflowReply (DeviceRemovalResult D H))).

Definition remove_over_workflow_socket (call : LifecycleRemovalCall D)
    : M X (LifecycleWorkflowReply (DeviceRemovalResult D H)) :=
  workflow_connect ;;
  frame ← lift (encode_frame (dump_call call));
  answered ← workflow_exchange frame;
  document ← lift (read_frame loads answered).1;
  lift (validate_reply document).

(** The call [remove] builds. *)
Definition removal_call (payload : ControllerDeviceRemovalRequest) (controller_reset_epoch authorization_expires_at now : Z)
    (target : D) : result (LifecycleRemovalCall D) :=
  let domain := owner_domain_id target in
  let context := mkOwnerContext "eidolon-lifecycle-workflow" audience ["device.read"; "device.claim.revoke"]
    payload.(rq_controller_id) "controller" domain (removal_intent_id sha1 payload.(rq_request_id) domain) target now
    authorization_expires_at in
  check_context context ;;
  if (controller_reset_epoch <? 0)%Z then Raise (ValidationError "controller_grant_generation")
  else Ok (mkRemovalCall payload
             (mkRemovalContext "eidolon-local-api" "eidolon-lifecycle-workflow" controller_reset_epoch controller_reset_epoch
                context)).

Definition client_remove (payload : ControllerDeviceRemovalRequest) (controller_reset_epoch authorization_expires_at : Z)
    (target : D) : M X (DeviceRemovalResult D H) :=
  reply ← catch
    (now ← local_clock;
     call ← lift (removal_call payload controller_reset_epoch authorization_expires_at now target);
     remove_over_workflow_socket call)
    (λ e, match e with
          | TimeoutError | OSError _ | PermissionError _ | IncompleteReadError =>
              Some (raise (admission_error "Lifecycle Workflow is unavailable"))
          | _ => if value_error e then Some (raise (admission_error "Lifecycle Workflow is unavailable")) else None
          end);
  match reply with
  | WorkflowProblem p =>
      raise (DeviceAdmissionError p.(problem_detail) p.(problem_status) (workflow_problem_reason p.(problem_code)))
  | WorkflowResult r =>
      guard_py (negb (bool_decide (r.(res_request_id) = payload.(rq_request_id))))
        (DeviceAdmissionError "Lifecycle Workflow returned another request" 409 None) ;;
      mret r
  end.
End Client.
