(* ===== verification/OwnerDevices.v ===== *)
(** * An Owner's devices, as the Local API composes them

    [local_api/devices.py], and the device half of [local_api/app.py]: the
    inventory composed from the Kernel's endpoints, Hub's Claims and Hub's
    output configurations, the commands aimed at a device of it, and the removal
    of one.  The two clients are ports here, as they are in the source; the
    inventory's reads of configurations, which the source gathers, run in
    order. *)

From S2P Require Import Prelude Encoding Json Lifecycle RemovalIntents RemovalWorkflow.
From S2P Require Import Admission Upstream Clients DeviceClients DeviceAdmissions.

(** ** What is read of the SDK *)

Record EndpointAssignment := mkEndpointAssignment {
  ea_revision : Z; ea_effective_companion_id : option string; ea_selection_provenance : option string; ea_updated_at : Z }.
Record BodyEndpoint (D : Type) := mkBodyEndpoint {
  ep_owner_id : string; ep_device_id : string; ep_device_ref : D; ep_present : bool; ep_body_endpoint_id : string;
  ep_mount_revision : Z; ep_assignment : option EndpointAssignment }.
Arguments mkBodyEndpoint {D}.
Arguments ep_owner_id {D}.
Arguments ep_device_id {D}.
Arguments ep_device_ref {D}.
Arguments ep_present {D}.
Arguments ep_body_endpoint_id {D}.
Arguments ep_mount_revision {D}.
Arguments ep_assignment {D}.
Record ClaimRecord (D : Type) := mkClaimRecord {
  cl_device_ref : D; cl_updated_at : Z; cl_state : string; cl_manifest : option (string * option Z) }.
Arguments mkClaimRecord {D}.
Arguments cl_device_ref {D}.
Arguments cl_updated_at {D}.
Arguments cl_state {D}.
Arguments cl_manifest {D}.

(** ** The view *)

Record LocalDeviceBodyView := mkBodyView {
  bv_body_endpoint_id : string; bv_mount_revision : Z; bv_assignment_revision : Z;
  bv_answering_companion_id : option string; bv_selection_provenance : option string; bv_updated_at : Z }.
Record LocalDeviceView (D O : Type) := mkDeviceView {
  dv_claim : ClaimRecord D; dv_body : LocalDeviceBodyView; dv_outputs : O }.
Arguments mkDeviceView {D O}.
Arguments dv_claim {D O}.
Arguments dv_body {D O}.
Arguments dv_outputs {D O}.

Section Inventory.
Context {D O : Type} `{!DeviceReference D}.

Definition dv_device_id (v : LocalDeviceView D O) : string := device_instance_id v.(dv_claim).(cl_device_ref).
(** [{item.device_ref.device_instance_id: item for item in claims.items}] *)
Definition claimed (claims : list (ClaimRecord D)) : list (string * ClaimRecord D) :=
  foldl (λ d c, dict_set (device_instance_id c.(cl_device_ref)) c d) [] claims.
Definition present (endpoints : list (BodyEndpoint D)) : list (BodyEndpoint D) := List.filter ep_present endpoints.
Definition claim_matches (claims : list (ClaimRecord D)) (e : BodyEndpoint D) : bool :=
  match dict_get e.(ep_device_id) (claimed claims) with
  | Some c => bool_decide (c.(cl_device_ref) = e.(ep_device_ref))
  | None => false
  end.

Definition validate_inventory_membership (endpoints : list (BodyEndpoint D)) (bound_owner_id : string)
    (claims : list (ClaimRecord D)) : result unit :=
  if existsb (λ e, negb (bool_decide (e.(ep_owner_id) = bound_owner_id))) endpoints then
    Raise (DeviceInventoryError "Host Owner scope does not match Kernel Device membership" 409)
  else if existsb (λ e, negb (claim_matches claims e)) (present endpoints) then
    Raise (DeviceInventoryError "设备授权已更新，主机正在同步设备配置，请稍候。" 503)
  else Ok tt.

(** What pydantic checks of a body. *)
Definition opt_len (lo hi : nat) (s : option string) : bool :=
  match s with Some s => (lo <=? str_len s)%nat && (str_len s <=? hi)%nat | None => true end.
Definition body_view (b : LocalDeviceBodyView) : result LocalDeviceBodyView :=
  if opt_len 1 128 (Some b.(bv_body_endpoint_id)) && (1 <=? b.(bv_mount_revision))%Z &&
     (0 <=? b.(bv_assignment_revision))%Z && opt_len 1 64 b.(bv_answering_companion_id) &&
     opt_len 0 32 b.(bv_selection_provenance)
  then Ok b else Raise (ValidationError "LocalDeviceBodyView").

(** [_device_view] *)
Definition device_view (e : BodyEndpoint D) (c : ClaimRecord D) (outputs : O) : result (LocalDeviceView D O) :=
  body ← body_view
    (mkBodyView e.(ep_body_endpoint_id) e.(ep_mount_revision)
       (match e.(ep_assignment) with None => 0 | Some a => a.(ea_revision) end)
       (a ← e.(ep_assignment); a.(ea_effective_companion_id)) (a ← e.(ep_assignment); a.(ea_selection_provenance))
       (match e.(ep_assignment) with None => c.(cl_updated_at) | Some a => a.(ea_updated_at) end));
  Ok (mkDeviceView c body outputs).

Fixpoint device_views (claims : list (string * ClaimRecord D)) (outputs : list (string * O)) (endpoints : list (BodyEndpoint D))
    : result (list (LocalDeviceView D O)) :=
  match endpoints with
  | [] => Ok []
  | e :: rest =>
      match dict_get e.(ep_device_id) claims, dict_get e.(ep_device_id) outputs with
      | Some c, Some o => v ← device_view e c o; vs ← device_views claims outputs rest; Ok (v :: vs)
      | _, _ => Raise (KeyError e.(ep_device_id))
      end
  end.

Definition owner_device_inventory_view (endpoints : list (BodyEndpoint D)) (bound_owner_id : string)
    (claims : list (ClaimRecord D)) (outputs : list (string * O)) : result (list (LocalDeviceView D O)) :=
  validate_inventory_membership endpoints bound_owner_id claims ;;
  if existsb (λ e, negb (bool_decide (is_Some (dict_get e.(ep_device_id) outputs)))) (present endpoints) then
    Raise (DeviceInventoryError "Device output configuration is missing for a claimed device" 502)
  else
    views ← device_views (claimed claims) outputs (present endpoints);
    if (100 <? length views)%nat then Raise (ValidationError "LocalDeviceInventoryView") else Ok views.
End Inventory.

(** ** [AdminOwnerDevicesClient] *)

Record ControllerBodyAssignment := mkBodyAssignment {
  as_request_id : string; as_owner_id : string; as_device_id : string; as_companion_id : option string;
  as_expected_assignment_revision : Z; as_origin : string }.
Definition is_name_char (c : ascii) : bool :=
  let n := N_of_ascii c in
  is_digit c || ((65 <=? n) && (n <=? 90))%N || ((97 <=? n) && (n <=? 122))%N || existsb (λ k, n =? k)%N [46; 95; 58; 45]%N.
Definition name_field (hi : nat) (s : string) : bool := opt_len 1 hi (Some s) && str_forallb is_name_char s.
Definition assignment_command (a : ControllerBodyAssignment) : result ControllerBodyAssignment :=
  if name_field 96 a.(as_request_id) && opt_len 1 64 (Some a.(as_owner_id)) && name_field 128 a.(as_device_id) &&
     opt_len 1 64 a.(as_companion_id) && (0 <=? a.(as_expected_assignment_revision))%Z
  then Ok a else Raise (ValidationError "ControllerBodyAssignment").
Definition assignment_doc (a : ControllerBodyAssignment) : doc :=
  DObj [("contract_version", DStr "1"); ("request_id", DStr a.(as_request_id)); ("owner_id", DStr a.(as_owner_id));
        ("device_id", DStr a.(as_device_id)); ("companion_id", dopt a.(as_companion_id));
        ("expected_assignment_revision", DInt a.(as_expected_assignment_revision)); ("origin", DStr a.(as_origin));
        ("change_reason", DNull)].

Definition inventory_error (msg : string) : exn := DeviceInventoryError msg 503.
(** [status_code=response.status_code if ... in allowed else 503] *)
Definition one_of (allowed : list Z) (status : Z) : Z := if bool_decide (status ∈ allowed) then status else 503.

Section Client.
Context {X D : Type} `{!Http X} `{!DeviceReference D}.
Context (loads : bytes → result json) (validate : string → bytes → result obj).
Context (base_url service_token : string) (timeout : Z) (device_ref_of : obj → D).

Definition inventory_token : M X string :=
  let token := strip service_token in
  guard_py (bool_decide (token = "")) (inventory_error "Local API Admin service credential is not configured") ;;
  mret token.
Definition inventory_send (unavailable : string) (r : http_request) : M X http_response :=
  catch (send r) (λ e, match e with HttpxTransportError _ => Some (raise (inventory_error unavailable)) | _ => None end).
Definition inventory_model (model violation : string) (r : http_response) : result obj :=
  match validate model r.(content) with
  | Raise (ValueError _ | ValidationError _ | JSONDecodeError _ | TypeError _) => Raise (inventory_error violation)
  | v => v
  end.
Definition owner_path (owner_id path : string) : string :=
  rstrip_slash base_url +:+ "/api/control-plane/v1/owners/" +:+ quote owner_id +:+ path.

Definition devices_list_body_endpoints (owner_id : string) : M X obj :=
  token ← inventory_token;
  response ← inventory_send "Admin Device membership control plane is unavailable"
    (mk_get timeout (bearer token) None (owner_path owner_id "/body-endpoints"));
  guard_py (negb (response.(status_code) =? 200)%Z)
    (DeviceInventoryError "Admin Device membership control plane is unavailable" (one_of [401; 403; 409]%Z response.(status_code))) ;;
  page ← lift (inventory_model "KernelBodyEndpointPage" "Admin Device membership response violated its contract" response);
  guard_py (negb (all_owned "endpoints" owner_id page))
    (DeviceInventoryError "Admin Device membership response returned another Owner" 409) ;;
  mret page.

Definition devices_set_companion (a : ControllerBodyAssignment) : M X obj :=
  token ← inventory_token;
  response ← inventory_send "Admin Device membership control plane is unavailable"
    (mk_json "PUT" timeout (bearer token) (assignment_doc a)
       (owner_path a.(as_owner_id) ("/body-endpoints/" +:+ quote a.(as_device_id) +:+ "/assignment")));
  guard_py (negb (response.(status_code) =? 200)%Z)
    (DeviceInventoryError "Admin Device Companion assignment did not complete"
       (one_of [401; 403; 404; 409]%Z response.(status_code))) ;;
  endpoint ← lift (inventory_model "KernelBodyEndpoint" "Admin Device Companion assignment response violated its contract" response);
  guard_py (negb (says "device_id" a.(as_device_id) endpoint) || negb (says "owner_id" a.(as_owner_id) endpoint))
    (DeviceInventoryError "Admin Device Companion assignment answered about another device" 502) ;;
  mret endpoint.

(** The body of [_conversation_command] and [shared_session]: what is sent, and
    the reading of what comes back. *)
Definition session_command (business_owner_id resource action : string) (command : doc) (unavailable refused invalid : string)
    (read : http_response → result obj) : M X obj :=
  token ← inventory_token;
  response ← inventory_send unavailable
    (mk_json "POST" 40000000 (bearer token) command (owner_path business_owner_id ("/" +:+ resource +:+ "/" +:+ action)));
  guard_py (negb (is_success response)) (DeviceInventoryError refused response.(status_code)) ;;
  lift (match read response with
        | Raise (ValueError _ | ValidationError _ | JSONDecodeError _) => Raise (inventory_error invalid)
        | v => v
        end).

Definition devices_conversation_command (resource model business_owner_id action session_id : string) (command : doc) : M X obj :=
  guard_py (negb (bool_decide (action ∈ ["open"; "status"; "close"]))) (ValueError "invalid device conversation action") ;;
  session_command business_owner_id resource action command "Device conversation unavailable" "Device conversation refused"
    "Invalid device conversation response"
    (λ r, v ← validate model r.(content);
          if says "session_id" session_id v then Ok v else Raise (ValueError "unexpected device conversation response")).
Definition devices_device_conversation := devices_conversation_command "device-conversations" "DeviceConversationStatus".
Definition devices_role_group := devices_conversation_command "role-groups" "RoleGroupStatus".

Definition devices_shared_session (business_owner_id action session_id : string) (command : doc) : M X obj :=
  guard_py (negb (bool_decide (action ∈ ["open"; "close"]))) (ValueError "invalid shared session action") ;;
  session_command business_owner_id "shared-sessions" action command "Shared device transport unavailable"
    "Shared device transport refused" "Invalid shared device transport response"
    (λ r, v ← loads r.(content);
          match v with
          | JObj o =>
              if says "session_id" session_id o &&
                 says "state" (if bool_decide (action = "open") then "transport_ready" else "closed") o
              then Ok o else Raise (ValueError "unexpected shared session response")
          | _ => Raise (ValueError "unexpected shared session response")
          end).

(** [_device_scoped] *)
Definition device_scoped (verb suffix owner_id device_id model operation : string) (payload : doc) : M X obj :=
  token ← inventory_token;
  response ← inventory_send ("Admin Device " +:+ operation +:+ " is unavailable")
    (mkHttpRequest verb (owner_path owner_id ("/devices/" +:+ quote device_id +:+ "/" +:+ suffix)) timeout (bearer token) None
       (Some payload) None (bool_decide (verb = "POST") && bool_decide (suffix = "output-policy-queries")));
  guard_py (negb (bool_decide (response.(status_code) ∈ [200; 202]%Z)))
    (DeviceInventoryError ("Admin Device " +:+ operation +:+ " did not complete")
       (one_of [401; 403; 404; 409]%Z response.(status_code))) ;;
  lift (inventory_model model ("Admin Device " +:+ operation +:+ " response violated its contract") response).
Definition devices_read_output_configuration (business_owner_id : string) (device_ref : D) (payload : doc) : M X obj :=
  configuration ← device_scoped "POST" "output-policy-queries" business_owner_id (device_instance_id device_ref)
    "DeviceOutputConfiguration" "output configuration" payload;
  guard_py (negb (bool_decide (device_ref_of configuration = device_ref)))
    (DeviceInventoryError "Admin Device output configuration answered about another device" 502) ;;
  mret configuration.
(** [allowed], as the SDK compares it. *)
Definition devices_set_output_policy (business_owner_id : string) (device_ref : D) (payload : doc) (same_allowed : obj → bool)
    : M X obj :=
  policy ← device_scoped "PUT" "output-policy" business_owner_id (device_instance_id device_ref)
    "DeviceOutputPolicy" "output policy decision" payload;
  guard_py (negb (same_allowed policy)) (DeviceInventoryError "Admin Device output policy stored another decision" 502) ;;
  mret policy.
End Client.

(** ** The ports of the Local API *)

Record OutputQuery (D : Type) := mkOutputQuery { oq_actor : ControllerActorRef; oq_business_owner_id : string; oq_device_ref : D }.
Arguments mkOutputQuery {D}.
Arguments oq_actor {D}.
Arguments oq_business_owner_id {D}.
Arguments oq_device_ref {D}.
(** [SetDeviceOutputPolicy] under its authority; what is allowed is the SDK's. *)
Record OutputDecision (D S : Type) := mkOutputDecision {
  od_actor : ControllerActorRef; od_business_owner_id : string; od_device_ref : D; od_expected_revision : Z; od_allowed : S }.
Arguments mkOutputDecision {D S}.
Arguments od_actor {D S}.
Arguments od_business_owner_id {D S}.
Arguments od_device_ref {D S}.
Arguments od_expected_revision {D S}.
Arguments od_allowed {D S}.
Definition output_configuration_query {D} `{!DeviceReference D} (controller_id domain business_owner_id : string) (ref : D)
    : result (OutputQuery D) :=
  let actor := admission_actor controller_id domain in
  build "ControllerDeviceOutputPolicyQuery" "device.read" (owner_domain_id ref) actor (mkOutputQuery actor business_owner_id ref).
Definition output_policy_decision {D S} `{!DeviceReference D} (controller_id domain business_owner_id : string) (ref : D)
    (expected_revision : Z) (allowed : S) : result (OutputDecision D S) :=
  let actor := admission_actor controller_id domain in
  build "ControllerDeviceOutputPolicyUpdate" "device.output-policy.write" (owner_domain_id ref) actor
    (mkOutputDecision actor business_owner_id ref expected_revision allowed).

(** What a session command selects: built and read by the SDK. *)
Class DeviceSelections (D L : Type) := {
  role_selection : string → D → list (option string * D * option string) → string → Z → result L;
  conversation_selection : string → D → D → string → result L;
  shared_selection : string → string → list D → result L;
  selection_domain : L → string }.
Inductive SessionCommand (L : Type) :=
| StartSession (actor : ControllerActorRef) (business_owner_id : string) (selection : L)
| NameSession (actor : ControllerActorRef) (business_owner_id session_id : string).
Arguments StartSession {L}.
Arguments NameSession {L}.

Class AdminOwnerDevices (D O S L X : Type) := {
  port_list_body_endpoints : string → M X (list (BodyEndpoint D));
  port_set_companion : ControllerBodyAssignment → M X unit;
  port_read_output_configuration : OutputQuery D → M X O;
  port_set_output_policy : OutputDecision D S → M X unit;
  (** resource, action, command *)
  port_session_command : string → string → SessionCommand L → M X obj }.
Class AdminDeviceAdmission (D H X : Type) := {
  port_query_claims : ControllerQuery → M X (list (ClaimRecord D));
  port_remove : ControllerDeviceRemovalRequest → Z → Z → D → M X (DeviceRemovalResult D H);
  port_withdraw_controller : ControllerSubject → M X unit }.

(** ** Refusals of the management surface *)

Definition KIND_BY_STATUS : list (Z * string) :=
  [(400, "invalid"); (401, "denied"); (403, "denied"); (404, "not_found"); (409, "conflict"); (412, "conflict");
   (415, "invalid"); (422, "invalid")]%Z.
Definition refusal_for_status (status : Z) (reason : string) (code : option string) : public_refusal :=
  let kind := match next_or_none (λ p, p.1 =? status)%Z KIND_BY_STATUS with
              | Some (_, k) => k
              | None => if (500 <=? status)%Z then "upstream" else "invalid"
              end in
  mkRefusal kind (str_take 512 reason) code (500 <=? status)%Z.
(** [ManagementBackendError(reason, refusal=refusal_for_status(status, reason))] *)
Definition backend_refusal (status : Z) (reason : string) : exn :=
  ManagementBackendError reason status (refusal_for_status status reason None).
Definition from_inventory (e : exn) : option exn :=
  match e with DeviceInventoryError msg status => Some (backend_refusal status msg) | _ => None end.
Definition from_either (e : exn) : option exn :=
  match e with
  | DeviceInventoryError msg status | DeviceAdmissionError msg status _ => Some (backend_refusal status msg)
  | _ => None
  end.

Record DeviceSession := mkDeviceSession {
  ds_owner_id : string; ds_controller_id : string; ds_reset_epoch : Z; ds_expires_at : Z }.
Record RoleGroupStart := mkRoleGroup {
  rg_session_id : string; rg_input_device_id : string; rg_output_device_ids : list string; rg_goal : string;
  rg_reply_budget : Z; rg_roles : list (string * string) }.
Record ConversationStart := mkConversationStart {
  cs_session_id : string; cs_input_device_id : string; cs_output_device_id : string; cs_target_companion_id : string }.
Record SharedStart := mkSharedStart { ss_session_id : string; ss_device_ids : list string; ss_input_device_id : string }.

Section Composition.
Context {X D O S L H : Type} `{!DeviceReference D} `{!DeviceSelections D L} `{!AdminOwnerDevices D O S L X}
        `{!AdminDeviceAdmission D H X} `{!HubConfirmation D H}.
(** [resolved.device_onboarding_target], and what [OwnerDomainId] and
    [BusinessOwnerId] accept. *)
Context (onboarding_target : option string) (valid_domain valid_owner : string → bool).

Definition try_map {A} (h : exn → option exn) (c : M X A) : M X A := catch c (λ e, raise <$> h e).

(** [_admission_scope] *)
Definition admission_scope (owner_id : string) : result (string * string) :=
  match onboarding_target with
  | None => Raise (HTTPReason 503 "这台主机没有配置设备接入所需的 Owner Domain 信任材料，手机这边重试不会有别的结果。要在主机上重新生成配置。")
  | Some domain =>
      if valid_domain domain && valid_owner owner_id then Ok (domain, owner_id)
      else Raise (HTTPException 503 "Host Owner Domain or business Owner identity is invalid")
  end.

(** The Claims of the Owner: one page of 200. *)
Definition owner_claims (controller_id domain business_owner_id : string) : M X (list (ClaimRecord D)) :=
  query ← lift (claim_query controller_id domain business_owner_id
                  (mkPageQuery domain ["active"; "suspended"; "revoked"] 200 None));
  port_query_claims query.

Fixpoint output_queries (controller_id domain business_owner_id : string) (endpoints : list (BodyEndpoint D))
    : result (list (OutputQuery D)) :=
  match endpoints with
  | [] => Ok []
  | e :: rest =>
      q ← output_configuration_query controller_id domain business_owner_id e.(ep_device_ref);
      qs ← output_queries controller_id domain business_owner_id rest;
      Ok (q :: qs)
  end.
Fixpoint read_configurations (queries : list (OutputQuery D)) : M X (list O) :=
  match queries with
  | [] => mret []
  | q :: rest => o ← port_read_output_configuration q; os ← read_configurations rest; mret (o :: os)
  end.

Definition composed_device_inventory (owner_id controller_id : string) : M X (list (LocalDeviceView D O)) :=
  '(domain, business_owner_id) ← lift (admission_scope owner_id);
  endpoints ← port_list_body_endpoints owner_id;
  claims ← owner_claims controller_id domain business_owner_id;
  lift (validate_inventory_membership endpoints owner_id claims) ;;
  queries ← lift (output_queries controller_id domain business_owner_id (present endpoints));
  configurations ← read_configurations queries;
  lift (owner_device_inventory_view endpoints owner_id claims
          (foldl (λ d p, dict_set p.1 p.2 d) [] (zip (ep_device_id <$> present endpoints) configurations))).

(** [owner_device_inventory], of a session that was resolved. *)
Definition owner_device_inventory (owner_id controller_id : string) : M X (list (LocalDeviceView D O)) :=
  try_map (λ e, match e with
                | DeviceInventoryError msg status | DeviceAdmissionError msg status _ => Some (HTTPException status msg)
                | _ => None
                end) (composed_device_inventory owner_id controller_id).

(** [_owned_device_ref] *)
Definition owned_device_ref (owner_id controller_id device_id : string) : M X D :=
  '(domain, business_owner_id) ← lift (admission_scope owner_id);
  claims ← try_map (λ e, match e with DeviceAdmissionError msg status _ => Some (backend_refusal status msg) | _ => None end)
             (owner_claims controller_id domain business_owner_id);
  match next_or_none (λ c, bool_decide (device_instance_id c.(cl_device_ref) = device_id)) claims with
  | Some c => mret c.(cl_device_ref)
  | None => raise (backend_refusal 404 "Device does not exist")
  end.

(** ** [_Devices] *)

Definition list_devices (s : DeviceSession) : M X (list (LocalDeviceView D O)) :=
  try_map from_either (composed_device_inventory s.(ds_owner_id) s.(ds_controller_id)).
(** [{item.device_id: item for item in inventory.devices}] *)
Definition held_devices (views : list (LocalDeviceView D O)) : list (string * LocalDeviceView D O) :=
  foldl (λ d v, dict_set (dv_device_id v) v d) [] views.
Definition view_ref (v : LocalDeviceView D O) : D := v.(dv_claim).(cl_device_ref).
Definition not_owned : exn := backend_refusal 403 "Selected device is not owned and mounted".

(** The devices of the inventory with these ids, or the refusal. *)
Definition select_devices (s : DeviceSession) (ids : list string) : M X (list (LocalDeviceView D O)) :=
  inventory ← list_devices s;
  let held := held_devices inventory in
  match foldr (λ i r, v ← dict_get i held; vs ← r; Some (v :: vs)) (Some []) ids with
  | None => raise not_owned
  | Some views => mret views
  end.

Definition start_command (name scope : string) (actor : ControllerActorRef) (owner : string) (sel : L) : result (SessionCommand L) :=
  build name scope (selection_domain (D:=D) sel) actor (StartSession actor owner sel).
Definition name_command (name scope : string) (actor : ControllerActorRef) (owner session_id : string) : result (SessionCommand L) :=
  build name scope actor.(actor_owner_domain_id) actor (NameSession actor owner session_id).
Definition send_session_command (resource action : string) (command : SessionCommand L) : M X obj :=
  try_map from_inventory (port_session_command (D:=D) (O:=O) (S:=S) resource action command).
(** The authority of a command. *)
Definition session_scope (s : DeviceSession) : result (ControllerActorRef * string) :=
  '(domain, owner) ← admission_scope s.(ds_owner_id); Ok (admission_actor s.(ds_controller_id) domain, owner).

(** [role_group], as "open" and as the other two actions. *)
Definition open_role_group (s : DeviceSession) (p : RoleGroupStart) : M X obj :=
  '(actor, owner) ← lift (session_scope s);
  views ← select_devices s (p.(rg_input_device_id) :: p.(rg_output_device_ids));
  selection ← lift
    (match views with
     | input :: outputs =>
         match role_selection p.(rg_session_id) (view_ref input)
                 (zip_with (λ d v, (v.(dv_body).(bv_answering_companion_id), view_ref v, dict_get d p.(rg_roles)))
                    p.(rg_output_device_ids) outputs) p.(rg_goal) p.(rg_reply_budget) with
         | Raise (ValueError _ | ValidationError _ | JSONDecodeError _ | AttributeError _) =>
             Raise (backend_refusal 409 "Selected outputs require distinct attached Companions")
         | r => r
         end
     | [] => Raise (KeyError p.(rg_input_device_id))
     end);
  command ← lift (start_command "ControllerRoleGroupStart" "device.conversation.control" actor owner selection);
  send_session_command "role-groups" "open" command.
Definition role_group_action (s : DeviceSession) (action session_id : string) : M X obj :=
  '(actor, owner) ← lift (session_scope s);
  command ← lift (name_command "ControllerRoleGroupQuery" "device.conversation.control" actor owner session_id);
  send_session_command "role-groups" action command.

(** [device_conversation], likewise. *)
Definition open_device_conversation (s : DeviceSession) (p : ConversationStart) : M X obj :=
  '(actor, owner) ← lift (session_scope s);
  views ← select_devices s [p.(cs_input_device_id); p.(cs_output_device_id)];
  selection ← lift
    (match views with
     | [input; output] =>
         conversation_selection p.(cs_session_id) (view_ref input) (view_ref output) p.(cs_target_companion_id)
     | _ => Raise (KeyError p.(cs_input_device_id))
     end);
  command ← lift (start_command "ControllerConversationStart" "device.conversation.control" actor owner selection);
  send_session_command "device-conversations" "open" command.
Definition device_conversation_action (s : DeviceSession) (action session_id : string) : M X obj :=
  '(actor, owner) ← lift (session_scope s);
  command ← lift (name_command "ControllerConversationQuery" "device.conversation.control" actor owner session_id);
  send_session_command "device-conversations" action command.

Definition open_shared_session (s : DeviceSession) (p : SharedStart) : M X obj :=
  views ← select_devices s p.(ss_device_ids);
  selection ← lift (shared_selection p.(ss_session_id) p.(ss_input_device_id) (view_ref <$> views));
  '(actor, owner) ← lift (session_scope s);
  command ← lift (start_command "ControllerSharedStart" "device.shared-session.control" actor owner selection);
  send_session_command "shared-sessions" "open" command.
Definition close_shared_session (s : DeviceSession) (session_id : string) : M X obj :=
  '(actor, owner) ← lift (session_scope s);
  command ← lift (name_command "ControllerSharedClose" "device.shared-session.control" actor owner session_id);
  send_session_command "shared-sessions" "close" command.
Definition presence_domain (s : DeviceSession) : result string := '(domain, _) ← admission_scope s.(ds_owner_id); Ok domain.

Definition remove_device (s : DeviceSession) (device_id request_id : string) : M X LocalDeviceRemovalProgress :=
  ref ← owned_device_ref s.(ds_owner_id) s.(ds_controller_id) device_id;
  result ← try_map
    (λ e, match e with
          | DeviceAdmissionError msg status reason =>
              Some (ManagementBackendError (detail_text msg reason) status
                      (refusal_for_status status (device_admission_reason msg reason) None))
          | _ => None
          end)
    (port_remove (mkRemovalRequest request_id s.(ds_owner_id) s.(ds_controller_id) device_id "owner-removed")
       s.(ds_reset_epoch) s.(ds_expires_at) ref);
  lift (device_removal_progress (D:=D) (H:=H) s.(ds_owner_id) device_id result).

(** [_reread] *)
Definition reread (s : DeviceSession) (device_id : string) : M X (LocalDeviceView D O) :=
  refreshed ← list_devices s;
  match next_or_none (λ v, bool_decide (dv_device_id v = device_id)) refreshed with
  | Some v => mret v
  | None => raise (backend_refusal 409 "Device stopped being mounted")
  end.

Definition set_device_outputs (s : DeviceSession) (device_id : string) (allowed : S) (expected_revision : Z)
    : M X (LocalDeviceView D O) :=
  '(domain, business_owner_id) ← lift (admission_scope s.(ds_owner_id));
  inventory ← list_devices s;
  match next_or_none (λ v, bool_decide (dv_device_id v = device_id)) inventory with
  | None => raise (backend_refusal 404 "Device is not mounted")
  | Some held =>
      try_map from_inventory
        (decision ← lift (output_policy_decision s.(ds_controller_id) domain business_owner_id (view_ref held)
                            expected_revision allowed);
         port_set_output_policy (D:=D) (O:=O) (S:=S) (L:=L) decision) ;;
      reread s device_id
  end.

Definition set_device_companion (s : DeviceSession) (device_id : string) (companion_id : option string)
    (expected_assignment_revision : Z) (request_id : string) : M X (LocalDeviceView D O) :=
  inventory ← list_devices s;
  guard_py (forallb (λ v, negb (bool_decide (dv_device_id v = device_id))) inventory)
    (backend_refusal 404 "Device is not mounted") ;;
  try_map from_inventory
    (assignment ← lift (assignment_command
       (mkBodyAssignment request_id s.(ds_owner_id) device_id companion_id expected_assignment_revision "owner"));
     port_set_companion (D:=D) (O:=O) (S:=S) (L:=L) assignment) ;;
  reread s device_id.

(** ** Withdrawing a Controller *)

(** [host_owner_id], and the Host's own grant record. *)
Context (host_owner_id : M X (option string)) (directory_revoke : string → string → M X obj).

Definition withdraw_standing_of (controller_id target_id : string) : M X unit :=
  match onboarding_target with
  | None => mret tt
  | Some _ =>
      owner ← host_owner_id;
      match owner with
      | None => mret tt
      | Some owner_id =>
          '(domain, business_owner_id) ← lift (admission_scope owner_id);
          try_map (λ e, match e with DeviceAdmissionError msg status reason => Some (device_admission_detail msg status reason)
                        | _ => None end)
            (request ← lift (controller_withdrawal_request controller_id domain business_owner_id target_id);
             port_withdraw_controller (D:=D) (H:=H) request)
      end
  end.
(** [_WithdrawingControllers.revoke_controller] *)
Definition revoke_controller (controller_id target_id : string) : M X obj :=
  withdraw_standing_of controller_id target_id ;; directory_revoke controller_id target_id.
End Composition.
