(* ===== verification/OwnerDevicesProofs.v ===== *)
(** * What the Local API does to an Owner's devices

    The removal across the workflow's socket and back, what a phone is told of
    it, what an inventory shows and whom a command may reach. *)

From S2P Require Import Prelude Conversation Encoding Json Lifecycle LifecycleProofs RemovalIntents RemovalWorkflow.
From S2P Require Import RemovalProofs Admission Upstream Clients DeviceClients DeviceAdmissions OwnerDevices.

(** ** Across the socket *)

(** A model's bytes fit a frame and are read back as the model. *)
Definition travels {A} (loads : bytes → result json) (validate : obj → result A) (dumped : bytes) (a : A) : Prop :=
  ∃ f o, encode_frame dumped = Ok f ∧ loads dumped = Ok (JObj o) ∧ validate o = Ok a.

Section Socket.
Context {D H S : Type} `{!DeviceReference D}.
Context (loads : bytes → result json) (sha1 : bytes → bytes) (audience : string)
  (check_context : OwnerAuthorizationContext D → result unit)
  (dump_call : LifecycleRemovalCall D → bytes) (validate_call : obj → result (LifecycleRemovalCall D))
  (dump_reply : LifecycleWorkflowReply (DeviceRemovalResult D H) → bytes)
  (validate_reply : obj → result (LifecycleWorkflowReply (DeviceRemovalResult D H))).
Context (remove : ControllerDeviceRemovalRequest → string → RemovalOwnerAuthorizationContext D → M S (DeviceRemovalResult D H)).
Context (expected_uid : Z) (raw : option bytes) (now_local now_daemon : Z).

(** The other end of the socket is the daemon: it reads one frame, handles the
    connection and writes its reply, if there is one. *)
Definition daemon_socket : WorkflowSocket S := {|
  workflow_connect := mret tt;
  workflow_exchange := λ frame,
    reply ← handle_connection sha1 validate_call remove expected_uid (linux_peer_credential raw)
              (read_frame loads frame).1 now_daemon;
    mret (match reply with
          | Some r => match encode_frame (dump_reply r) with Ok f => f | Raise _ => [] end
          | None => []
          end);
  local_clock := mret now_local |}.

(** The daemon's answer to what the workflow came to, if its wire can carry it. *)
Definition workflow_reply (r : result (DeviceRemovalResult D H)) : option (LifecycleWorkflowReply (DeviceRemovalResult D H)) :=
  match r with Ok x => Some (WorkflowResult x) | Raise e => reply_problem (call_problem e) end.

Lemma read_travelling {A} (validate : obj → result A) dumped a f :
  travels loads validate dumped a → encode_frame dumped = Ok f →
  ∃ o, (read_frame loads f).1 = Ok o ∧ validate o = Ok a.
Proof.
  intros (f' & o & E1 & E2 & E3) E. rewrite E in E1. injection E1 as <-. exists o.
  rewrite <- (app_nil_r f), (read_frame_encoded loads _ _ [] E), E2. done.
Qed.

(** C28: A removal the Local API asks for reaches the workflow and its outcome
    reaches the phone.  The delegation [remove] builds for a device of the
    session's Owner passes the daemon's gate as long as the session lives on the
    daemon's clock; the workflow then runs on exactly that request and context,
    once; and the client answers with the workflow's result, or with the
    daemon's problem for its exception under the sentence of that problem; only
    a problem too long for its model is no answer, and the workflow unavailable. *)
Theorem removal_end_to_end payload epoch expires target call c (s : S) :
  removal_call sha1 audience check_context payload epoch expires now_local target = Ok call →
  travels loads validate_call (dump_call call) call →
  linux_peer_credential raw = Ok c → c.(peer_uid) = expected_uid →
  audience = "eidolon-admission" → device_instance_id target = payload.(rq_device_id) → (now_daemon < expires)%Z →
  let '(r, s') := remove payload "eidolon-local-api" call.(call_context) s in
  (∀ reply, workflow_reply r = Some reply → travels loads validate_reply (dump_reply reply) reply) →
  @client_remove S D H daemon_socket _ loads sha1 audience check_context dump_call validate_reply payload epoch expires
    target s =
    (match r with
     | Ok x =>
         if bool_decide (x.(res_request_id) = payload.(rq_request_id)) then Ok x
         else Raise (DeviceAdmissionError "Lifecycle Workflow returned another request" 409 None)
     | Raise e =>
         let p := call_problem e in
         if problem_fits p
         then Raise (DeviceAdmissionError p.(problem_detail) p.(problem_status) (workflow_problem_reason p.(problem_code)))
         else Raise (admission_error "Lifecycle Workflow is unavailable")
     end, s').
Proof.
  intros Hcall Hgo Hpeer Huid Haud Hdev Hlive. destruct (remove _ _ _ s) as [r s'] eqn:Er. intros Hback.
  assert (call.(call_payload) = payload ∧ delegated sha1 now_daemon call) as [Hp Hd].
  { unfold removal_call in Hcall. cbn [mbind result_bind] in Hcall. destruct (check_context _); [|done].
    cbn [mbind result_bind] in Hcall. destruct (epoch <? 0)%Z; [done|]. injection Hcall as <-. split; [done|].
    split; cbn; try done. intros x. rewrite !elem_of_cons, elem_of_nil. naive_solver. }
  assert (∃ f, encode_frame (dump_call call) = Ok f) as [f Hf] by (destruct Hgo as (f & ? & ? & ?); by exists f).
  destruct (read_travelling _ _ _ _ Hgo Hf) as (o & Ho & Hv).
  assert (handle_connection sha1 validate_call remove expected_uid (linux_peer_credential raw)
    (read_frame loads f).1 now_daemon s = (Ok (workflow_reply r), s')) as Hh.
  { unfold handle_connection. rewrite Hpeer. unfold authorize_peer. cbn [mbind result_bind]. rewrite Huid, Z.eqb_refl. cbn [negb].
    rewrite serve_run by done. rewrite Ho. cbn [mbind result_bind]. rewrite Hv.
    destruct (proj2 (delegation_ok sha1 now_daemon call) Hd) as [-> ->]. rewrite Hp, Er. by destruct r. }
  unfold client_remove, catch, remove_over_workflow_socket, lift, mbind, M_bind. cbn [local_clock daemon_socket mret M_ret].
  rewrite Hcall. cbn [workflow_connect workflow_exchange daemon_socket mret M_ret]. rewrite Hf.
  unfold mbind, M_bind. rewrite Hh. unfold mret, M_ret. destruct (workflow_reply r) as [reply|] eqn:Ew.
  - specialize (Hback _ eq_refl). destruct Hback as (g & o' & Hg & Hl & Hv').
    destruct (read_travelling _ _ _ _ (ex_intro _ g (ex_intro _ o' (conj Hg (conj Hl Hv')))) Hg) as (o2 & Ho2 & Hv2).
    rewrite Hg, Ho2, Hv2. destruct r as [x|e]; cbn [workflow_reply] in Ew; [injection Ew as <-; by destruct (bool_decide _)|].
    unfold reply_problem in Ew. destruct (problem_fits _); [|done]. by injection Ew as <-.
  - destruct r as [x|e]; [done|]. cbn [workflow_reply] in Ew. unfold reply_problem in Ew. by destruct (problem_fits _).
Qed.
End Socket.

(** ** What a phone is told *)

Section Told.
Context {D H L X : Type} `{!DeviceReference D} `{!HubRevocation H} `{!RemovalIntentStore D H L} `{!RemovalAuthorities D H X}.
Context (sha256_hex : bytes → string) (dump_context : RemovalOwnerAuthorizationContext D → doc)
  (hub_credentials : option (string → string → D → string → result string)) (observation_timeout : Z) (fuel : nat).

Lemma hoare_any {S A} (P : S → Prop) (c : M S A) : hoare P c (λ _ _, True) (λ _ _, True).
Proof. intros s _. by destruct (c s) as [[a|e] s']. Qed.
Lemma hoare_after {S A C} (c : M S A) (f : A → M S C) Q :
  (∀ a, hoare (λ _, True) (f a) Q (λ _ _, True)) → hoare (λ _, True) (c ≫= f) Q (λ _ _, True).
Proof. intros Hf. eapply hoare_bind; [apply hoare_any|exact Hf]. Qed.

(** A result a phone can be told of: its three conditions in order, access
    revoked exactly where Hub confirmed it, and the mount removed exactly where
    the removal is complete. *)
Definition stands (c : RemovalCondition) : bool := bool_decide (c.(cond_state) = "true").
Definition tellable (payload : ControllerDeviceRemovalRequest) (r : DeviceRemovalResult D H) : Prop :=
  r.(res_request_id) = payload.(rq_request_id) ∧ cond_name <$> r.(conditions) = REQUIRED_CONDITIONS ∧
  r.(outcome) ∈ ["completed"; "accepted"; "blocked"] ∧
  take 2 (stands <$> r.(conditions)) = [bool_decide (is_Some r.(res_hub)); bool_decide (r.(outcome) = "completed")].

Lemma observed_tellable payload authorization i hub :
  hoare (λ _ : X, True) (observe_removal (D:=D) (H:=H) observation_timeout fuel payload authorization i hub)
    (λ r _, tellable payload r) (λ _ _, True).
Proof.
  unfold observe_removal. apply hoare_after. intros [m|].
  - apply hoare_after. intros [es er]. apply hoare_after. intros t x _. cbn.
    destruct (negb (still_mounted m)); by repeat first [split|constructor].
  - apply hoare_after. intros t x _. cbn. by repeat first [split|constructor].
Qed.

Lemma removal_tellable payload workload context :
  hoare (λ _ : L * X, True)
    (remove_controller_device (D:=D) (H:=H) sha256_hex dump_context hub_credentials observation_timeout fuel payload workload context)
    (λ r _, tellable payload r) (λ _ _, True).
Proof.
  unfold remove_controller_device. destruct hub_credentials as [issue|]; [|done].
  apply hoare_after. intros intent. apply hoare_after. intros authorization. apply hoare_after. intros [[i hub]|failure].
  - unfold in_authorities. intros [l x] _. unfold zoom. cbn [snd].
    pose proof (observed_tellable payload authorization i hub x I) as Ho. by destruct (observe_removal _ _ _ _ _ _ x) as [[y|e] x'].
  - unfold revocation_failed. do 3 (apply hoare_after; intros ?). intros w _. cbn.
    destruct (wf_retryable _); by repeat first [split|constructor].
Qed.

(** Whatever the workflow answers, over any ledger and any authorities, can be
    told to the phone, unless Hub's confirmation is about another device: the
    progress repeats the request and its conditions, says done exactly for a
    completed removal, whose mount is then seen removed and whose access Hub
    confirmed revoked, unfinished for one to be retried and refused for a
    blocked one. *)
Theorem removal_told `{!HubConfirmation D H} payload workload context (w : L * X) owner_id device_id :
  match remove_controller_device (D:=D) (H:=H) sha256_hex dump_context hub_credentials observation_timeout fuel
          payload workload context w with
  | (Raise _, _) => True
  | (Ok r, _) =>
      let confirmed := match r.(res_hub) with
        | Some hub => device_instance_id (hub_device_ref (D:=D) hub) = device_id ∧
                      hub_device_ref hub = r.(res_device_ref) ∧ hub_lifecycle_state (D:=D) hub = "revoked"
        | None => True
        end in
      (confirmed → ∃ p, device_removal_progress owner_id device_id r = Ok p ∧
         p.(pr_request_id) = payload.(rq_request_id) ∧ p.(pr_conditions) = r.(conditions) ∧
         (p.(pr_outcome) = "done" ↔ r.(outcome) = "completed") ∧
         (p.(pr_outcome) = "unfinished" ↔ r.(outcome) = "accepted") ∧
         (p.(pr_outcome) = "refused" ↔ r.(outcome) = "blocked") ∧
         take 2 (stands <$> p.(pr_conditions)) =
           [bool_decide (is_Some r.(res_hub)); bool_decide (p.(pr_outcome) = "done")]) ∧
      (¬ confirmed → device_removal_progress owner_id device_id r =
         Raise (DeviceAdmissionError "Admin Device removal did not confirm the requested device" 502 None))
  end.
Proof.
  pose proof (removal_tellable payload workload context w I) as Ht.
  destruct (remove_controller_device _ _ _ _ _ _ _ _ w) as [[r|e] w']; [|done].
  destruct Ht as (H1 & H2 & H3 & H4). intros confirmed. unfold device_removal_progress. rewrite H2.
  assert (confirmed ∧ match r.(res_hub) with
     | Some hub => negb (bool_decide (device_instance_id (hub_device_ref (D:=D) hub) = device_id)) ||
         negb (bool_decide (hub_device_ref hub = r.(res_device_ref))) ||
         negb (bool_decide (hub_lifecycle_state (D:=D) hub = "revoked"))
     | None => false end = false ∨ ¬ confirmed ∧ match r.(res_hub) with
     | Some hub => negb (bool_decide (device_instance_id (hub_device_ref (D:=D) hub) = device_id)) ||
         negb (bool_decide (hub_device_ref hub = r.(res_device_ref))) ||
         negb (bool_decide (hub_lifecycle_state (D:=D) hub = "revoked"))
     | None => false end = true) as [[Hc ->]|[Hc ->]].
  { unfold confirmed. destruct (res_hub r) as [hub|]; [|by left]. repeat case_bool_decide; naive_solver. }
  - split; [|done]. intros _. cbn. eexists. split; [reflexivity|]. cbn [pr_request_id pr_conditions pr_outcome].
    rewrite H4, !elem_of_cons, elem_of_nil in *. by destruct H3 as [->|[->|[->|[]]]]; split_and!.
  - split; [done|]. by intros _.
Qed.
End Told.

(** ** What an inventory shows *)

(** [{f(x): x for x in l}] *)
Lemma dict_by_get {A} (f : A → string) l k x :
  dict_get k (foldl (λ d x, dict_set (f x) x d) [] l) = Some x → x ∈ l ∧ f x = k.
Proof.
  assert (∀ acc, dict_get k (foldl (λ d x, dict_set (f x) x d) acc l) = Some x →
    dict_get k acc = Some x ∨ x ∈ l ∧ f x = k) as Hacc.
  { induction l as [|y l IH]; cbn; intros acc Hc; [by left|].
    destruct (IH _ Hc) as [Ha|[Hin Hk]]; [|right; split; [by right|done]].
    rewrite dict_get_set in Ha. case_bool_decide; [|by left]. injection Ha as ->. right. split; [by left|done]. }
  intros Hx. by destruct (Hacc [] Hx).
Qed.

Section Shown.
Context {D O : Type} `{!DeviceReference D}.

Lemma claimed_get (cs : list (ClaimRecord D)) k c :
  dict_get k (claimed cs) = Some c → c ∈ cs ∧ device_instance_id c.(cl_device_ref) = k.
Proof. apply (dict_by_get (λ c, device_instance_id c.(cl_device_ref))). Qed.

(** A device of the Owner: a present endpoint of theirs, with the Claim that
    names the same reference. *)
Definition member_of (owner : string) (eps : list (BodyEndpoint D)) (cs : list (ClaimRecord D)) (ref : D) : Prop :=
  ∃ e c, e ∈ eps ∧ e.(ep_present) = true ∧ e.(ep_owner_id) = owner ∧ e.(ep_device_ref) = ref ∧ c ∈ cs ∧
    c.(cl_device_ref) = ref ∧ device_instance_id ref = e.(ep_device_id).

Lemma validated eps owner (cs : list (ClaimRecord D)) :
  validate_inventory_membership eps owner cs = Ok tt →
  (∀ e, e ∈ eps → e.(ep_owner_id) = owner) ∧
  (∀ e, e ∈ present eps → ∃ c, dict_get e.(ep_device_id) (claimed cs) = Some c ∧ c.(cl_device_ref) = e.(ep_device_ref)).
Proof.
  unfold validate_inventory_membership. destruct (existsb _ eps) eqn:E1; [done|]. destruct (existsb _ (present eps)) eqn:E2; [done|].
  intros _. split.
  - intros e He. destruct (decide (ep_owner_id e = owner)) as [|Hne]; [done|]. exfalso.
    apply not_true_iff_false in E1. apply E1, existsb_exists. exists e. split; [by apply list_elem_of_In|].
    by rewrite bool_decide_eq_false_2.
  - intros e He. assert (claim_matches cs e = true) as Hm.
    { destruct (claim_matches cs e) eqn:E; [done|]. exfalso. apply not_true_iff_false in E2. apply E2, existsb_exists.
      exists e. split; [by apply list_elem_of_In|]. by rewrite E. }
    unfold claim_matches in Hm. destruct (dict_get _ _) as [c|]; [|done]. apply bool_decide_eq_true in Hm. by exists c.
Qed.
Lemma present_elem (eps : list (BodyEndpoint D)) e : e ∈ present eps ↔ e ∈ eps ∧ e.(ep_present) = true.
Proof. unfold present. by rewrite !list_elem_of_In, filter_In. Qed.
Lemma validated_member eps owner (cs : list (ClaimRecord D)) e :
  validate_inventory_membership eps owner cs = Ok tt → e ∈ present eps → member_of owner eps cs e.(ep_device_ref).
Proof.
  intros Hv He. destruct (validated _ _ _ Hv) as [Ho Hc]. destruct (Hc e He) as (c & Hg & Hr).
  apply claimed_get in Hg as [Hin Hk]. apply present_elem in He as [He Hp]. exists e, c. split_and!; auto. congruence.
Qed.

(** The view of an endpoint: its Claim, its configuration and its Body. *)
Definition shows_endpoint (cs : list (ClaimRecord D)) (outputs : list (string * O)) (e : BodyEndpoint D) (v : LocalDeviceView D O) : Prop :=
  view_ref v = e.(ep_device_ref) ∧ dv_device_id v = e.(ep_device_id) ∧ v.(dv_claim) ∈ cs ∧
  dict_get e.(ep_device_id) outputs = Some v.(dv_outputs) ∧
  v.(dv_body).(bv_answering_companion_id) = (a ← e.(ep_assignment); a.(ea_effective_companion_id)).

Lemma device_views_shown cs outputs eps vs :
  (∀ e, e ∈ eps → ∃ c, dict_get e.(ep_device_id) (claimed cs) = Some c ∧ c.(cl_device_ref) = e.(ep_device_ref)) →
  device_views (claimed cs) outputs eps = Ok vs → Forall2 (shows_endpoint cs outputs) eps vs.
Proof.
  revert vs. induction eps as [|e eps IH]; intros vs He Hv; cbn in Hv; [by injection Hv as <-|].
  destruct (He e ltac:(by left)) as (c & Hg & Hr). rewrite Hg in Hv. destruct (dict_get (ep_device_id e) outputs) as [o|] eqn:Eo; [|done].
  destruct (device_view e c o) as [v|] eqn:Ev; [|done]. cbn in Hv.
  destruct (device_views (claimed cs) outputs eps) as [ws|] eqn:Ew; [|done]. cbn in Hv. injection Hv as <-.
  constructor; [|apply IH; [|done]; intros e' He'; apply He; by right].
  unfold device_view, body_view in Ev. cbn [mbind result_bind] in Ev. destruct (_ && _); [|done]. cbn in Ev. injection Ev as <-.
  apply claimed_get in Hg as [Hin Hk]. unfold shows_endpoint, view_ref, dv_device_id. cbn. split_and!; auto; congruence.
Qed.

(** An inventory that is shown has exactly the Owner's present endpoints, in
    the Kernel's order, each with the Claim of its own reference, the
    configuration read for it and the Companion in force; no endpoint of the
    page is another Owner's, and there are at most a hundred. *)
Theorem inventory_exact eps owner cs outputs (vs : list (LocalDeviceView D O)) :
  owner_device_inventory_view eps owner cs outputs = Ok vs →
  Forall2 (shows_endpoint cs outputs) (present eps) vs ∧ (∀ e, e ∈ eps → e.(ep_owner_id) = owner) ∧ length vs <= 100.
Proof.
  unfold owner_device_inventory_view. destruct (validate_inventory_membership eps owner cs) as [[]|] eqn:Ev; [|done].
  cbn [mbind result_bind]. destruct (existsb _ _); [done|]. destruct (device_views _ _ _) as [ws|] eqn:Ew; [|done].
  cbn [mbind result_bind]. destruct (Nat.ltb_spec 100 (length ws)); [done|]. intros [= <-].
  destruct (validated _ _ _ Ev) as [Ho Hc]. split_and!; [|done|done]. by apply device_views_shown.
Qed.
End Shown.

(** ** Whom a session's commands reach *)

Inductive device_event (D S L : Type) :=
| Listed (owner : string) (eps : list (BodyEndpoint D))
| ClaimsRead (q : ControllerQuery) (cs : list (ClaimRecord D))
| ReadingOutputs (q : OutputQuery D)
| SettingOutputs (d : OutputDecision D S)
| SettingCompanion (a : ControllerBodyAssignment)
| Commanding (resource action : string) (c : SessionCommand L)
| Removing (p : ControllerDeviceRemovalRequest) (epoch expires : Z) (ref : D)
| Withdrawing (w : ControllerSubject).
Arguments Listed {D S L}.
Arguments ClaimsRead {D S L}.
Arguments ReadingOutputs {D S L}.
Arguments SettingOutputs {D S L}.
Arguments SettingCompanion {D S L}.
Arguments Commanding {D S L}.
Arguments Removing {D S L}.
Arguments Withdrawing {D S L}.

#[local] Instance logged_devices {D O S L X} `{!AdminOwnerDevices D O S L X}
  : AdminOwnerDevices D O S L (list (device_event D S L) * X) := {|
  port_list_body_endpoints := λ o, hearing (Listed o) (port_list_body_endpoints (O:=O) (S:=S) (L:=L) o);
  port_set_companion := λ a, asking (SettingCompanion a) (port_set_companion (D:=D) (O:=O) (S:=S) (L:=L) a);
  port_read_output_configuration := λ q, asking (ReadingOutputs q) (port_read_output_configuration (S:=S) (L:=L) q);
  port_set_output_policy := λ d, asking (SettingOutputs d) (port_set_output_policy (O:=O) (L:=L) d);
  port_session_command := λ r a c, asking (Commanding r a c) (port_session_command (D:=D) (O:=O) (S:=S) r a c) |}.
#[local] Instance logged_admission {D S L H X} `{!AdminDeviceAdmission D H X}
  : AdminDeviceAdmission D H (list (device_event D S L) * X) := {|
  port_query_claims := λ q, hearing (ClaimsRead q) (port_query_claims (H:=H) q);
  port_remove := λ p e x r, asking (Removing p e x r) (port_remove p e x r);
  port_withdraw_controller := λ w, asking (Withdrawing w) (port_withdraw_controller (D:=D) (H:=H) w) |}.

Section Reach.
Context {D O S L H X : Type} `{!DeviceReference D} `{!DeviceSelections D L} `{OD : !AdminOwnerDevices D O S L X}
        `{DA : !AdminDeviceAdmission D H X} `{!HubConfirmation D H}.
Context (onboarding_target : option string) (valid_domain valid_owner : string → bool).
Context (s : DeviceSession).
Abbreviation event := (device_event D S L).
Abbreviation W := (list event * X)%type.

(** A reference the log shows to be a device of the Owner. *)
Definition held (log : list event) (ref : D) : Prop :=
  ∃ eps q cs, Listed s.(ds_owner_id) eps ∈ log ∧ ClaimsRead q cs ∈ log ∧ member_of s.(ds_owner_id) eps cs ref.
Definition session_actor (a : ControllerActorRef) : Prop :=
  ∃ domain, onboarding_target = Some domain ∧ a = admission_actor s.(ds_controller_id) domain.
(** A selection of devices that are all held. *)
Definition selects (log : list event) (sel : L) : Prop :=
  ∃ refs, (∀ r, r ∈ refs → held log r) ∧
    ((∃ sid r members goal budget, role_selection sid r members goal budget = Ok sel ∧ refs = r :: ((λ m, m.1.2) <$> members)) ∨
     (∃ sid r1 r2 c, conversation_selection sid r1 r2 c = Ok sel ∧ refs = [r1; r2]) ∨
     (∃ sid i, shared_selection sid i refs = Ok sel)).

(** What the session may say after this log. *)
Definition may (log : list event) (e : event) : Prop :=
  match e with
  | Listed owner _ => owner = s.(ds_owner_id)
  | ClaimsRead q _ => session_actor q.(cq_actor) ∧ q.(cq_business_owner_id) = s.(ds_owner_id)
  | ReadingOutputs q => session_actor q.(oq_actor) ∧ q.(oq_business_owner_id) = s.(ds_owner_id) ∧ held log q.(oq_device_ref)
  | SettingOutputs d => session_actor d.(od_actor) ∧ d.(od_business_owner_id) = s.(ds_owner_id) ∧ held log d.(od_device_ref)
  | SettingCompanion a =>
      a.(as_owner_id) = s.(ds_owner_id) ∧ a.(as_origin) = "owner" ∧
      ∃ ref, held log ref ∧ device_instance_id ref = a.(as_device_id)
  | Commanding _ _ (StartSession a o sel) => session_actor a ∧ o = s.(ds_owner_id) ∧ selects log sel
  | Commanding _ _ (NameSession a o _) => session_actor a ∧ o = s.(ds_owner_id)
  | Removing p epoch expires ref =>
      p.(rq_owner_id) = s.(ds_owner_id) ∧ p.(rq_controller_id) = s.(ds_controller_id) ∧
      epoch = s.(ds_reset_epoch) ∧ expires = s.(ds_expires_at) ∧ device_instance_id ref = p.(rq_device_id) ∧
      ∃ q cs c, ClaimsRead q cs ∈ log ∧ c ∈ cs ∧ c.(cl_device_ref) = ref
  | Withdrawing _ => False
  end.
Abbreviation spoken := (Conversation.spoken may).
Abbreviation with_log := (Conversation.with_log (X:=X) may).

Lemma held_kept ref : kept (λ log, held log ref).
Proof. intros log e (eps & q & cs & H1 & H2 & H3). exists eps, q, cs. by rewrite !elem_of_app; auto. Qed.

Lemma hoare_try {A} F Q h (c : M W A) :
  hoare F c Q (λ _, with_log any_log) → hoare F (try_map h c) Q (λ _, with_log any_log).
Proof.
  intros Hc. eapply hoare_catch; [exact Hc|]. intros e. destruct (h e) as [e'|]; cbn; [|done]. intros w Hw. exact Hw.
Qed.

Abbreviation composed := (composed_device_inventory (D:=D) (O:=O) (S:=S) (L:=L) (H:=H) (X:=W) onboarding_target valid_domain valid_owner).
Abbreviation claims_of := (owner_claims (D:=D) (H:=H) (X:=W)).

Lemma scope_ok owner domain o :
  admission_scope onboarding_target valid_domain valid_owner owner = Ok (domain, o) → onboarding_target = Some domain ∧ o = owner.
Proof. unfold admission_scope. destruct onboarding_target; [|done]. destruct (_ && _); [|done]. by intros [= -> ->]. Qed.
Lemma build_ok {A} name scope target actor (a b : A) : build name scope target actor a = Ok b → b = a.
Proof. unfold build. destruct (controller_command _ _ _ _); cbn; [by intros [=]|done]. Qed.

Lemma hoare_claims F domain :
  kept F → onboarding_target = Some domain →
  hoare (with_log F) (claims_of s.(ds_controller_id) domain s.(ds_owner_id))
    (λ cs, with_log (λ log, F log ∧ ∃ q, ClaimsRead q cs ∈ log)) (λ _, with_log any_log).
Proof.
  intros Hk Hd. apply hoare_given. intros q Hq%build_ok. subst q.
  apply (hoare_hearing may F (λ cs log, F log ∧ ∃ q, ClaimsRead q cs ∈ log)); [done|..].
  - intros cs log _. split; [by exists domain|done].
  - intros cs log Hf. split; [by apply Hk|]. eexists. apply elem_of_app. right. by left.
Qed.

(** The endpoints and the Claims behind an inventory were heard. *)
Definition informed (eps : list (BodyEndpoint D)) (cs : list (ClaimRecord D)) (log : list event) : Prop :=
  Listed s.(ds_owner_id) eps ∈ log ∧ ∃ q, ClaimsRead q cs ∈ log.
Lemma informed_kept eps cs : kept (informed eps cs).
Proof. intros log e [H1 [q H2]]. split; [|exists q]; apply elem_of_app; by left. Qed.
Lemma informed_held eps cs log ref : informed eps cs log → member_of s.(ds_owner_id) eps cs ref → held log ref.
Proof. intros [H1 [q H2]] Hm. by exists eps, q, cs. Qed.

Lemma queries_members domain owner eps qs :
  output_queries s.(ds_controller_id) domain owner eps = Ok qs →
  ∀ q, q ∈ qs → q.(oq_actor) = admission_actor s.(ds_controller_id) domain ∧ q.(oq_business_owner_id) = owner ∧
    ∃ e, e ∈ eps ∧ q.(oq_device_ref) = e.(ep_device_ref).
Proof.
  revert qs. induction eps as [|e eps IH]; intros qs Hq q Hin; cbn in Hq.
  - injection Hq as <-. by apply not_elem_of_nil in Hin.
  - destruct (output_configuration_query _ _ _ _) as [q0|] eqn:E0; [|done]. cbn in Hq.
    destruct (output_queries _ _ _ eps) as [qs0|]; [|done]. cbn in Hq. injection Hq as <-.
    apply build_ok in E0. subst q0. apply elem_of_cons in Hin as [->|Hin].
    + split_and!; [done|done|]. exists e. split; [by left|done].
    + destruct (IH _ eq_refl q Hin) as (H1 & H2 & e' & H3 & H4). split_and!; [done|done|]. exists e'. split; [by right|done].
Qed.

Lemma hoare_configurations F qs :
  kept F → (∀ q log, q ∈ qs → F log → may log (ReadingOutputs q)) →
  hoare (with_log F) (read_configurations (D:=D) (O:=O) (S:=S) (L:=L) (X:=W) qs) (λ _, with_log F) (λ _, with_log any_log).
Proof.
  intros Hk. induction qs as [|q qs IH]; intros Hq; cbn [read_configurations]; [by intros w Hw|].
  eapply hoare_bind; [apply hoare_asking; [done|]|].
  { intros log Hf. apply Hq; [by left|done]. }
  intros o. eapply hoare_bind; [apply IH; intros q' log Hin; apply Hq; by right|]. intros os w Hw. exact Hw.
Qed.

Lemma hoare_composed :
  hoare (with_log any_log) (composed s.(ds_owner_id) s.(ds_controller_id))
    (λ vs, with_log (λ log, ∀ v, v ∈ vs → held log (view_ref v))) (λ _, with_log any_log).
Proof.
  unfold composed_device_inventory. apply hoare_given. intros [domain o] [Hd ->]%scope_ok.
  eapply hoare_bind; [apply (hoare_hearing may any_log (λ eps log, Listed s.(ds_owner_id) eps ∈ log)); [done|done|]|].
  { intros eps log _. apply elem_of_app. right. by left. }
  intros eps. eapply hoare_bind; [apply hoare_claims; [|done]|].
  { intros log e Hin. apply elem_of_app. by left. }
  intros cs. apply (hoare_given may (informed eps cs)). intros [] Hv.
  apply hoare_given. intros qs Hq. eapply hoare_bind; [apply hoare_configurations; [apply informed_kept|]|].
  { intros q log Hin Hi. destruct (queries_members _ _ _ _ Hq q Hin) as (H1 & H2 & e & H3 & H4).
    split_and!; [by exists domain|done|]. rewrite H4. eapply informed_held; [done|]. by eapply validated_member. }
  intros os w [Hw Hi]. unfold lift. destruct (owner_device_inventory_view _ _ _ _) as [vs|] eqn:Ei; [|by split].
  split; [done|]. intros v Hin. unfold owner_device_inventory_view in Ei. rewrite Hv in Ei. cbn [mbind result_bind] in Ei.
  destruct (existsb _ _); [done|]. destruct (device_views _ _ _) as [ws|] eqn:Ew; [|done]. cbn [mbind result_bind] in Ei.
  destruct (_ <? _); [done|]. injection Ei as ->.
  apply device_views_shown in Ew; [|by eapply validated]. eapply Forall2_flip in Ew. apply list_elem_of_lookup in Hin as [i Hi'].
  destruct (Forall2_lookup_l _ _ _ _ _ Ew Hi') as (e & He & Hs). destruct Hs as (-> & _).
  eapply informed_held; [done|]. eapply validated_member; [done|]. by eapply list_elem_of_lookup_2.
Qed.

(** *** The operations *)

Abbreviation view := (LocalDeviceView D O).
Definition all_held (vs : list view) (log : list event) : Prop := ∀ v, v ∈ vs → held log (view_ref v).
Lemma all_held_kept vs : kept (all_held vs).
Proof. intros log e Hv v Hin. by apply held_kept, Hv. Qed.

Abbreviation list_of := (list_devices (D:=D) (O:=O) (S:=S) (L:=L) (H:=H) (X:=W) onboarding_target valid_domain valid_owner).
Lemma hoare_list : hoare (with_log any_log) (list_of s) (λ vs, with_log (all_held vs)) (λ _, with_log any_log).
Proof. apply hoare_try, hoare_composed. Qed.

Lemma chosen_in inventory ids (views : list view) :
  foldr (λ i r, v ← dict_get i (held_devices inventory); vs ← r; Some (v :: vs)) (Some []) ids = Some views →
  ∀ v, v ∈ views → v ∈ inventory.
Proof.
  revert views. induction ids as [|i ids IH]; intros views Hv v Hin; cbn in Hv.
  - injection Hv as <-. by apply not_elem_of_nil in Hin.
  - destruct (dict_get i _) as [v0|] eqn:E0; [|done]. cbn in Hv. destruct (foldr _ _ _) as [vs|] eqn:E; [|done].
    cbn in Hv. injection Hv as <-. apply elem_of_cons in Hin as [->|Hin]; [by apply (dict_by_get dv_device_id) in E0 as []|by eapply IH].
Qed.
Abbreviation select_of := (select_devices (D:=D) (O:=O) (S:=S) (L:=L) (H:=H) (X:=W) onboarding_target valid_domain valid_owner).
Lemma hoare_select ids :
  hoare (with_log any_log) (select_of s ids) (λ vs, with_log (all_held vs)) (λ _, with_log any_log).
Proof.
  unfold select_devices. eapply hoare_bind; [apply hoare_list|]. intros inventory w [Hw Hi].
  destruct (foldr _ _ ids) as [views|] eqn:E; [|by split]. split; [done|]. intros v Hin. by eapply Hi, chosen_in.
Qed.

Lemma hoare_send F resource action c :
  kept F → (∀ log, F log → may log (Commanding resource action c)) →
  hoare (with_log F) (send_session_command (D:=D) (O:=O) (S:=S) (L:=L) (X:=W) resource action c)
    (λ _, with_log any_log) (λ _, with_log any_log).
Proof.
  intros Hk Hc. apply hoare_try. eapply hoare_mono; [by apply hoare_asking|done| |done]. intros ? w. apply spoken_any.
Qed.
Lemma session_scope_ok a o :
  session_scope onboarding_target valid_domain valid_owner s = Ok (a, o) → session_actor a ∧ o = s.(ds_owner_id).
Proof.
  unfold session_scope. destruct (admission_scope _ _ _ _) as [[d o']|] eqn:E; [|done]. cbn. intros [= <- <-].
  apply scope_ok in E as [Hd ->]. split; [by exists d|done].
Qed.
(** A command that names its session. *)
Lemma hoare_naming name scope resource action session_id :
  hoare (with_log any_log)
    ('(actor, owner) ← lift (session_scope onboarding_target valid_domain valid_owner s);
     command ← lift (name_command name scope actor owner session_id);
     send_session_command (D:=D) (O:=O) (S:=S) (L:=L) (X:=W) resource action command)
    (λ _, with_log any_log) (λ _, with_log any_log).
Proof.
  apply hoare_given. intros [a o] [Ha ->]%session_scope_ok. apply hoare_given. intros c ->%build_ok.
  apply hoare_send; [done|]. by intros log _.
Qed.
(** One that starts it, over devices the inventory has just shown. *)
Lemma hoare_starting name scope resource a o (views : list view) (r : result L) :
  session_actor a → o = s.(ds_owner_id) →
  (∀ sel log, r = Ok sel → all_held views log → selects log sel) →
  hoare (with_log (all_held views))
    (selection ← lift r;
     command ← lift (start_command (D:=D) name scope a o selection);
     send_session_command (D:=D) (O:=O) (S:=S) (L:=L) (X:=W) resource "open" command)
    (λ _, with_log any_log) (λ _, with_log any_log).
Proof.
  intros Ha -> Hr. apply hoare_given. intros sel Hsel. apply hoare_given. intros c ->%build_ok.
  apply hoare_send; [apply all_held_kept|]. intros log Hl. cbn. split_and!; [done|done|]. by apply Hr.
Qed.

Lemma hoare_reread device_id :
  hoare (with_log any_log)
    (reread (D:=D) (O:=O) (S:=S) (L:=L) (H:=H) (X:=W) onboarding_target valid_domain valid_owner s device_id)
    (λ _, with_log any_log) (λ _, with_log any_log).
Proof.
  unfold reread. eapply hoare_bind; [apply hoare_list|]. intros vs w Hw. apply spoken_any in Hw. by destruct (next_or_none _ vs).
Qed.

(** What the surface does with a session's devices. *)
Inductive device_op :=
| DInventory
| DRoleGroup (p : RoleGroupStart) | DRoleGroupAction (action session_id : string)
| DConversation (p : ConversationStart) | DConversationAction (action session_id : string)
| DShared (p : SharedStart) | DSharedClose (session_id : string)
| DRemove (device_id request_id : string)
| DOutputs (device_id : string) (allowed : S) (expected_revision : Z)
| DCompanion (device_id : string) (companion_id : option string) (expected_revision : Z) (request_id : string).
Definition run_device_op (op : device_op) : M W unit :=
  let target := onboarding_target in
  match op with
  | DInventory => list_devices (O:=O) (S:=S) (L:=L) (H:=H) target valid_domain valid_owner s ;; mret tt
  | DRoleGroup p => open_role_group (O:=O) (S:=S) (H:=H) target valid_domain valid_owner s p ;; mret tt
  | DRoleGroupAction action id => role_group_action (O:=O) (S:=S) target valid_domain valid_owner s action id ;; mret tt
  | DConversation p => open_device_conversation (O:=O) (S:=S) (H:=H) target valid_domain valid_owner s p ;; mret tt
  | DConversationAction action id =>
      device_conversation_action (O:=O) (S:=S) target valid_domain valid_owner s action id ;; mret tt
  | DShared p => open_shared_session (O:=O) (S:=S) (H:=H) target valid_domain valid_owner s p ;; mret tt
  | DSharedClose id => close_shared_session (O:=O) (S:=S) target valid_domain valid_owner s id ;; mret tt
  | DRemove d r => remove_device target valid_domain valid_owner s d r ;; mret tt
  | DOutputs d a r => set_device_outputs (O:=O) (L:=L) (H:=H) target valid_domain valid_owner s d a r ;; mret tt
  | DCompanion d c e r => set_device_companion (O:=O) (S:=S) (L:=L) (H:=H) target valid_domain valid_owner s d c e r ;; mret tt
  end.

Lemma hoare_done {A} P (c : M W A) :
  hoare P c (λ _, with_log any_log) (λ _, with_log any_log) →
  hoare P (c ;; mret tt) (λ _, with_log any_log) (λ _, with_log any_log).
Proof. intros Hc. eapply hoare_bind; [exact Hc|]. intros ? w Hw. exact Hw. Qed.

Lemma role_group_spoken p :
  hoare (with_log any_log) (open_role_group (O:=O) (S:=S) (H:=H) (X:=W) onboarding_target valid_domain valid_owner s p)
    (λ _, with_log any_log) (λ _, with_log any_log).
Proof.
  apply hoare_given. intros [a o] [Ha Ho]%session_scope_ok. eapply hoare_bind; [apply hoare_select|]. intros views.
  apply hoare_starting; [done|done|]. intros sel log Hsel Hl. destruct views as [|input outputs]; [done|].
  destruct (role_selection _ _ _ _ _) as [sel'|e] eqn:E; [|by destruct e]. injection Hsel as ->.
  eexists. split; [|left; do 5 eexists; split; [exact E|reflexivity]].
  intros r [->|Hr]%elem_of_cons; [apply Hl; by left|]. apply list_elem_of_fmap in Hr as (m & -> & Hm).
  apply elem_of_lookup_zip_with in Hm as (i & d & v & -> & _ & Hv). cbn. apply Hl. right. by eapply list_elem_of_lookup_2.
Qed.
Lemma conversation_spoken p :
  hoare (with_log any_log)
    (open_device_conversation (O:=O) (S:=S) (H:=H) (X:=W) onboarding_target valid_domain valid_owner s p)
    (λ _, with_log any_log) (λ _, with_log any_log).
Proof.
  apply hoare_given. intros [a o] [Ha Ho]%session_scope_ok. eapply hoare_bind; [apply hoare_select|]. intros views.
  apply hoare_starting; [done|done|]. intros sel log Hsel Hl. destruct views as [|input [|output [|]]]; try done.
  eexists. split; [|right; left; do 4 eexists; split; [exact Hsel|reflexivity]].
  intros r [->|[->|Hr%not_elem_of_nil]%elem_of_cons]%elem_of_cons; [apply Hl; by left|apply Hl; right; by left|done].
Qed.
Lemma shared_spoken p :
  hoare (with_log any_log) (open_shared_session (O:=O) (S:=S) (H:=H) (X:=W) onboarding_target valid_domain valid_owner s p)
    (λ _, with_log any_log) (λ _, with_log any_log).
Proof.
  eapply hoare_bind; [apply hoare_select|]. intros views. apply hoare_given. intros sel Hsel.
  apply hoare_given. intros [a o] [Ha ->]%session_scope_ok. apply hoare_given. intros c ->%build_ok.
  apply hoare_send; [apply all_held_kept|]. intros log Hl. cbn. split_and!; [done|done|].
  eexists. split; [|right; right; by do 2 eexists]. intros r Hr. apply list_elem_of_fmap in Hr as (v & -> & Hv). by apply Hl.
Qed.
Lemma remove_spoken d r :
  hoare (with_log any_log) (remove_device (H:=H) (X:=W) onboarding_target valid_domain valid_owner s d r)
    (λ _, with_log any_log) (λ _, with_log any_log).
Proof.
  unfold remove_device.
  apply (hoare_bind _ _ (λ ref, with_log (λ log, device_instance_id ref = d ∧ ∃ q cs c, ClaimsRead q cs ∈ log ∧ c ∈ cs ∧ c.(cl_device_ref) = ref))).
  - unfold owned_device_ref. apply hoare_given. intros [domain o] [Hd ->]%scope_ok.
    eapply hoare_bind; [apply hoare_try, hoare_claims; done|]. intros cs w [Hw [_ [q Hq]]].
    unfold next_or_none. destruct (List.filter _ cs) as [|c l] eqn:E; [by split|]. split; [done|].
    assert (In c (c :: l)) as Hin by by left. rewrite <- E in Hin. apply filter_In in Hin as [Hin Hc].
    apply bool_decide_eq_true in Hc. split; [done|]. exists q, cs, c. split; [done|]. by split; [apply list_elem_of_In|].
  - intros ref. eapply hoare_bind.
    + apply hoare_try. eapply hoare_mono; [apply hoare_asking|intros w Hw; exact Hw|intros ? w; apply spoken_any|done].
      * intros log e (H1 & q & cs & c & H2 & H3). split; [done|]. exists q, cs, c. split; [apply elem_of_app; by left|done].
      * intros log (H1 & H2). cbn. split_and!; done.
    + intros x w Hw. unfold lift. by destruct (device_removal_progress _ _ _).
Qed.
Lemma outputs_spoken d a r :
  hoare (with_log any_log)
    (set_device_outputs (O:=O) (L:=L) (H:=H) (X:=W) onboarding_target valid_domain valid_owner s d a r)
    (λ _, with_log any_log) (λ _, with_log any_log).
Proof.
  apply hoare_given. intros [domain o] [Hd ->]%scope_ok. eapply hoare_bind; [apply hoare_list|]. intros vs.
  unfold next_or_none. destruct (List.filter _ vs) as [|v l] eqn:E; [by intros w Hw; apply spoken_any in Hw|]. cbn [head].
  assert (v ∈ vs) as Hin. { apply list_elem_of_In. eapply (proj1 (filter_In _ _ _)). rewrite E. by left. }
  eapply hoare_bind; [apply hoare_try, hoare_given; intros dec Hdec%build_ok; subst dec; apply hoare_asking; [apply all_held_kept|]|].
  - intros log Hl. cbn. split_and!; [by exists domain|done|by apply Hl].
  - intros ?. eapply hoare_mono; [apply hoare_reread|apply spoken_any|done|done].
Qed.
Lemma companion_spoken d c e r :
  hoare (with_log any_log)
    (set_device_companion (O:=O) (S:=S) (L:=L) (H:=H) (X:=W) onboarding_target valid_domain valid_owner s d c e r)
    (λ _, with_log any_log) (λ _, with_log any_log).
Proof.
  unfold set_device_companion. eapply hoare_bind; [apply hoare_list|]. intros vs w Hw. rewrite bind_guard.
  destruct (forallb _ vs) eqn:E; [by apply spoken_any in Hw|].
  assert (∃ v, v ∈ vs ∧ dv_device_id v = d) as (v & Hin & Hv).
  { destruct (existsb (λ v, bool_decide (dv_device_id v = d)) vs) eqn:Ex.
    - apply existsb_elem in Ex as (v & Hin & Hv%bool_decide_eq_true). by exists v.
    - exfalso. apply not_true_iff_false in E. apply E, forallb_forall. intros v Hv%list_elem_of_In.
      apply existsb_elem_false with (x := v) in Ex; [|done]. by rewrite Ex. }
  revert w Hw. eapply hoare_bind; [apply hoare_try, hoare_given; intros a Ha|].
  - unfold assignment_command in Ha. destruct (_ && _); [|done]. injection Ha as <-.
    apply hoare_asking; [apply all_held_kept|]. intros log Hl. cbn. split_and!; [done|done|]. exists (view_ref v).
    split; [by apply Hl|done].
  - intros ?. eapply hoare_mono; [apply hoare_reread|apply spoken_any|done|done].
Qed.

Lemma op_spoken op : hoare (with_log any_log) (run_device_op op) (λ _, with_log any_log) (λ _, with_log any_log).
Proof.
  destruct op; apply hoare_done.
  - eapply hoare_mono; [apply hoare_list|done|intros ? w; apply spoken_any|done].
  - apply role_group_spoken.
  - apply hoare_naming.
  - apply conversation_spoken.
  - apply hoare_naming.
  - apply shared_spoken.
  - apply hoare_naming.
  - apply remove_spoken.
  - apply outputs_spoken.
  - apply companion_spoken.
Qed.

(** C29: An identifier in a path is not authority.  Over any clients, whatever a
    session does with its devices, in any order: everything it sends carries its
    own Controller's authority in the configured Owner Domain and its own Owner;
    a configuration is read or decided, a Companion set and a session started
    only for devices that the Kernel's page of that Owner shows present and Hub's
    Claims name under the same reference, both heard before; and a removal names
    a reference of a Claim that was heard, with the session's epoch and expiry. *)
Theorem commands_reach_held ops (x : X) :
  spoken (foldl (λ w op, (run_device_op op w).2) ([], x) ops).1.
Proof.
  assert (∀ w, with_log any_log w → with_log any_log (foldl (λ w op, (run_device_op op w).2) w ops)) as Hall.
  { induction ops as [|op ops IH]; [done|]. intros w Hw. apply IH. pose proof (op_spoken op w Hw) as Ho.
    by destruct (run_device_op op w) as [[?|?] ?]. }
  apply Hall. by split; [constructor|].
Qed.
End Reach.

(** ** Withdrawing before revoking *)

Inductive standing_event := Withdrew (w : ControllerSubject) | Revoking (target_id : string).

Section Standing.
Context {D H X : Type} `{!DeviceReference D} `{DA : !AdminDeviceAdmission D H X}.
Context (onboarding_target : option string) (valid_domain valid_owner : string → bool)
  (host_owner_id : M X (option string)) (directory_revoke : string → string → M X obj).
#[local] Instance logged_withdrawal : AdminDeviceAdmission D H (list standing_event * X) := {|
  port_query_claims := λ q, quiet (port_query_claims (H:=H) q);
  port_remove := λ p e x r, quiet (port_remove p e x r);
  port_withdraw_controller := λ w, hearing (λ _, Withdrew w) (port_withdraw_controller (D:=D) (H:=H) w) |}.

(** C30: A grant is revoked only after Hub has agreed to end what it vouched for: by
    the log of one revocation, the directory is asked last, at most once and for
    the target, and directly after Hub accepted the withdrawal of that same
    Controller in the Host's Owner Domain; it is asked alone only on a Host with
    no Owner Domain or no Workspace. *)
Theorem revocation_after_withdrawal controller_id target_id (x : X) :
  let '(reply, (log, x')) :=
    revoke_controller (D:=D) (H:=H) onboarding_target valid_domain valid_owner (quiet host_owner_id)
      (λ c t, asking (Revoking t) (directory_revoke c t)) controller_id target_id ([], x) in
  log = [] ∧ (∃ e, reply = Raise e) ∨
  log = [Revoking target_id] ∧ (onboarding_target = None ∨ ∃ x1, host_owner_id x = (Ok None, x1)) ∨
  ∃ domain owner x1, log = [Withdrew (mkSubject (admission_actor controller_id domain) owner domain target_id); Revoking target_id] ∧
    onboarding_target = Some domain ∧ host_owner_id x = (Ok (Some owner), x1).
Proof.
  assert (∀ log x1, ∃ r x2, asking (Revoking target_id) (directory_revoke controller_id target_id) (log, x1) =
    (r, (log ++ [Revoking target_id], x2))) as Hd.
  { intros log x1. unfold asking. cbn. destruct (directory_revoke controller_id target_id x1) as [r x2]. by exists r, x2. }
  unfold revoke_controller, withdraw_standing_of. destruct onboarding_target as [domain|].
  2: { rewrite bind_mret. destruct (Hd [] x) as (r & x2 & ->). right. left. split; [done|by left]. }
  rewrite bind_assoc. unfold mbind at 1, M_bind at 1, quiet, zoom. cbn [snd fst].
  destruct (host_owner_id x) as [[[owner|]|e] x1] eqn:Eh.
  - unfold admission_scope. destruct (valid_domain domain && valid_owner owner); [|by left; eauto].
    unfold lift. rewrite bind_assoc, bind_mret_lift. unfold try_map, catch.
    assert (controller_withdrawal_request controller_id domain owner target_id =
      Ok (mkSubject (admission_actor controller_id domain) owner domain target_id)) as ->.
    { unfold controller_withdrawal_request, build, controller_command. cbn. by rewrite bool_decide_eq_true_2. }
    unfold mbind at 1, M_bind at 1. rewrite bind_mret_lift. cbn [port_withdraw_controller logged_withdrawal].
    unfold hearing. cbn [snd fst]. destruct (port_withdraw_controller _ x1) as [[[]|e] x2].
    + destruct (Hd [Withdrew (mkSubject (admission_actor controller_id domain) owner domain target_id)] x2) as (r & x3 & E).
      cbn [app]. rewrite E. right. right. by exists domain, owner, x1.
    + destruct e; cbn; left; eauto.
  - rewrite bind_mret. destruct (Hd [] x1) as (r & x2 & ->). right. left. split; [done|]. right. by exists x1.
  - left. eauto.
Qed.
End Standing.

(** ** One page of Claims *)

Section Page.
Context {D O S L H X : Type} `{!DeviceReference D} `{OD : !AdminOwnerDevices D O S L X} `{DA : !AdminDeviceAdmission D H X}
        `{!HubConfirmation D H}.
Context (domain : string) (valid_domain valid_owner : string → bool) (s : DeviceSession) (all : list (ClaimRecord D)).

(** A Hub that answers a query with as many of the Owner's Claims as it asks
    for, and a cursor for the rest. *)
Definition pages : Prop := ∀ q x,
  port_query_claims (D:=D) (H:=H) q x = (Ok (take (Z.to_nat q.(cq_query).(pq_limit)) all), x).

Lemma owner_claims_page (x : X) :
  pages → owner_claims (D:=D) (H:=H) s.(ds_controller_id) domain s.(ds_owner_id) x = (Ok (take (Z.to_nat 200) all), x).
Proof.
  intros Hp. unfold owner_claims, claim_query, build, controller_command. cbn.
  rewrite bool_decide_eq_true_2 by done. cbn. unfold mbind, M_bind, lift. cbn. exact (Hp (mkControllerQuery _ _ _) x).
Qed.

(** The Claims are read one page of two hundred at a time, the withdrawn ones
    among them, and the cursor is not followed.  A device whose Claim is past
    the page cannot be removed: it does not exist; and while its endpoint is
    present the whole inventory is refused as still synchronising. *)
Theorem claims_beyond_page device_id request_id (x : X) :
  pages → valid_domain domain = true → valid_owner s.(ds_owner_id) = true →
  (∀ c, c ∈ take (Z.to_nat 200) all → device_instance_id c.(cl_device_ref) ≠ device_id) →
  remove_device (H:=H) (Some domain) valid_domain valid_owner s device_id request_id x =
    (Raise (backend_refusal 404 "Device does not exist"), x) ∧
  ∀ eps e, port_list_body_endpoints (O:=O) (S:=S) (L:=L) s.(ds_owner_id) x = (Ok eps, x) →
    (∀ e', e' ∈ eps → e'.(ep_owner_id) = s.(ds_owner_id)) → e ∈ present eps → e.(ep_device_id) = device_id →
    list_devices (O:=O) (S:=S) (L:=L) (H:=H) (Some domain) valid_domain valid_owner s x =
      (Raise (backend_refusal 503 "设备授权已更新，主机正在同步设备配置，请稍候。"), x).
Proof.
  intros Hp Hd Ho Hout. pose proof (owner_claims_page x Hp) as Hc. set (page := take (Z.to_nat 200) all) in *. clearbody page.
  assert (admission_scope (Some domain) valid_domain valid_owner s.(ds_owner_id) = Ok (domain, s.(ds_owner_id))) as Hs.
  { unfold admission_scope. by rewrite Hd, Ho. }
  split.
  - unfold remove_device. apply bind_raise. unfold owned_device_ref. rewrite Hs. unfold lift. rewrite bind_mret_lift.
    unfold try_map, catch, mbind, M_bind. rewrite Hc.
    replace (next_or_none _ page) with (@None (ClaimRecord D)); [done|]. symmetry. unfold next_or_none.
    destruct (List.filter _ page) as [|c l] eqn:E; [done|]. exfalso.
    assert (In c (c :: l)) as Hin by by left. rewrite <- E in Hin. apply filter_In in Hin as [Hin Hcd].
    apply bool_decide_eq_true in Hcd. by apply (Hout c); [apply list_elem_of_In|].
  - intros eps e Heps Howner He Hde. unfold list_devices, try_map, catch, composed_device_inventory. rewrite Hs.
    unfold lift. rewrite bind_mret_lift, (bind_ok _ _ _ _ _ Heps), (bind_ok _ _ _ _ _ Hc).
    assert (validate_inventory_membership eps s.(ds_owner_id) page =
      Raise (DeviceInventoryError "设备授权已更新，主机正在同步设备配置，请稍候。" 503)) as ->; [|done].
    unfold validate_inventory_membership. rewrite (proj2 (existsb_elem_false _ eps)).
    2: { intros e' He'. by rewrite bool_decide_eq_true_2 by auto. }
    rewrite (proj2 (existsb_elem _ (present eps))); [done|]. exists e. split; [done|]. unfold claim_matches.
    destruct (dict_get _ (claimed page)) as [c|] eqn:Ec; [|done].
    apply claimed_get in Ec as [Hin Hk]. exfalso. apply (Hout c Hin). congruence.
Qed.
End Page.

(** ** Witnesses *)

Definition plain_device : DeviceReference string := {|
  device_instance_id := id; owner_domain_id := λ _, "owner-1"; owner_domain_generation := λ _, 1%Z;
  claim_generation := λ _, 1%Z; trust_epoch := λ _, 1%Z |}.
#[local] Existing Instance plain_device.
Definition many_claims : list (ClaimRecord string) := replicate 200 (mkClaimRecord "old" 0 "revoked" None) ++ [mkClaimRecord "lamp" 1 "active" None].
Definition many_devices : AdminOwnerDevices string unit unit unit unit := {|
  port_list_body_endpoints := λ o, mret [mkBodyEndpoint o "lamp" "lamp" true "lamp:body" 1 None];
  port_set_companion := λ _, mret tt; port_read_output_configuration := λ _, mret tt; port_set_output_policy := λ _, mret tt;
  port_session_command := λ _ _ _, mret [] |}.
Definition many_admission : AdminDeviceAdmission string unit unit := {|
  port_query_claims := λ q, mret (take (Z.to_nat q.(cq_query).(pq_limit)) many_claims);
  port_remove := λ _ _ _ _, raise (OSError ""); port_withdraw_controller := λ _, mret tt |}.
Definition unit_confirmation : HubConfirmation string unit := {| hub_device_ref := λ _, ""; hub_lifecycle_state := λ _, "revoked" |}.
Definition a_session : DeviceSession := mkDeviceSession "owner_1" "ectrl-0" 0 10.

Lemma claims_beyond_page_witness :
  (@remove_device unit string unit _ many_admission unit_confirmation (Some "owner-1") (λ _, true) (λ _, true) a_session "lamp" "r1" tt).1 =
    Raise (backend_refusal 404 "Device does not exist") ∧
  (@list_devices unit string unit unit unit unit _ many_devices many_admission (Some "owner-1") (λ _, true) (λ _, true) a_session tt).1 =
    Raise (backend_refusal 503 "设备授权已更新，主机正在同步设备配置，请稍候。").
Proof.
  pose proof (@claims_beyond_page string unit unit unit unit unit _ many_devices many_admission unit_confirmation "owner-1"
    (λ _, true) (λ _, true) a_session many_claims "lamp" "r1" tt) as Hpage.
  destruct Hpage as [H1 H2]; [done..| |].
  - intros c Hc. unfold many_claims in Hc. rewrite take_app_le in Hc by (rewrite length_replicate; lia).
    apply elem_of_take in Hc as (i & Hc & _). apply lookup_replicate in Hc as [-> _]. done.
  - split; [by rewrite H1|].
    rewrite (H2 [mkBodyEndpoint "owner_1" "lamp" "lamp" true "lamp:body" 1 None] (mkBodyEndpoint "owner_1" "lamp" "lamp" true "lamp:body" 1 None)); try done.
    + intros e [->|?%not_elem_of_nil]%elem_of_cons; done.
    + by left.
Defined.

Definition lamp_request : ControllerDeviceRemovalRequest := mkRemovalRequest "r1" "owner_1" "ectrl-0" "lamp" "owner-removed".
Definition lamp_removed : DeviceRemovalResult string unit := mkRemovalResult "r1" "i1" "lamp" "completed" "converged" "none" [] None [].
Definition braces : bytes := list_ascii_of_string "{}".
(** The calls and replies of one conversation. *)
Definition lamp_call : LifecycleRemovalCall string :=
  mkRemovalCall lamp_request
    (mkRemovalContext "eidolon-local-api" "eidolon-lifecycle-workflow" 0 0
       (mkOwnerContext "eidolon-lifecycle-workflow" "eidolon-admission" ["device.read"; "device.claim.revoke"] "ectrl-0" "controller"
          "owner-1" (removal_intent_id (λ b, b) "r1" "owner-1") "lamp" 5 10)).
Definition root_peer : bytes := ascii_of_N <$> [1; 0; 0; 0; 7; 0; 0; 0; 0; 0; 0; 0]%N.

Lemma removal_end_to_end_witness :
  @client_remove nat string unit
    (daemon_socket (D:=string) (H:=unit) (λ _, Ok (JObj [])) (λ b, b) (λ _, Ok lamp_call) (λ _, braces)
       (λ p _ _ n, (Ok lamp_removed, S n)) 7 (Some root_peer) 5 6) _
    (λ _, Ok (JObj [])) (λ b, b) "eidolon-admission" (λ _, Ok tt) (λ _, braces) (λ _, Ok (WorkflowResult lamp_removed))
    lamp_request 0 10 "lamp" 0 = (Ok lamp_removed, 1).
Proof.
  pose proof (removal_end_to_end (D:=string) (H:=unit) (S:=nat) (λ _, Ok (JObj [])) (λ b, b) "eidolon-admission" (λ _, Ok tt)
    (λ _, braces) (λ _, Ok lamp_call) (λ _, braces) (λ _, Ok (WorkflowResult lamp_removed))
    (λ p _ _ n, (Ok lamp_removed, S n)) 7 (Some root_peer) 5 6 lamp_request 0 10 "lamp" lamp_call (mkPeer 1 7 0) 0) as Hr.
  apply Hr; first [done|vm_compute; reflexivity|do 2 eexists; split; [vm_compute; reflexivity|done]
    |intros ? [= <-]; do 2 eexists; split; [vm_compute; reflexivity|done]].
Defined.
