(* ===== verification/ManagementBackend.v ===== *)
(** * The loopback to the management plane

    [local_api/management/backend.py]: the client through which the Local API,
    which holds no authority's credential, asks the process that does; how a
    refusal is relayed and what every call carries. *)

From S2P Require Import Prelude Conversation Encoding Json Lifecycle RemovalIntents RemovalWorkflow.
From S2P Require Import Admission Upstream Clients DeviceClients DeviceAdmissions OwnerDevices.

Definition INTERNAL : string := "/api/internal/v1/management".

(** [s.endswith(t)] *)
Definition ends_with (t s : string) : bool :=
  let lt := rev (list_ascii_of_string t) in
  bool_decide (take (length lt) (rev (list_ascii_of_string s)) = lt).

(** The SDK's [Refusal] with its defaults. *)
Definition not_configured : public_refusal :=
  mkRefusal "not_configured" "this Host is not configured to answer management requests" None false.
Definition not_running : public_refusal :=
  mkRefusal "not_running" "this Host's management service is not answering" None true.
(** [_outside_contract] *)
Definition outside_contract : public_refusal :=
  mkRefusal "upstream" "this Host answered outside its own contract" None true.

Section Backend.
Context {X : Type} `{!Http X}.
Context (loads : bytes → result json) (py_str : json → string).
(** [Refusal.model_validate], and the [ETag] of a response. *)
Context (parse_refusal : obj → result public_refusal) (etag : http_response → option string).
Context (base_url service_token : string) (timeout : Z).

(** [a or b] *)
Definition json_or (a b : json) : json := if json_truthy a then a else b.

(** [_relayed_refusal] *)
Definition relayed_refusal (r : http_response) : public_refusal :=
  let detail := match loads r.(content) with Ok (JObj payload) => obj_get "detail" payload JNull | _ => JNull end in
  let derived :=
    match detail with
    | JObj d =>
        let reason := json_or (json_or (obj_get "detail" d JNull) (obj_get "message" d JNull)) (JStr "") in
        let code := obj_get "code" d JNull in
        refusal_for_status r.(status_code) (str_of py_str reason)
          (if json_truthy code then Some (str_take 64 (str_of py_str code)) else None)
    | JStr s => refusal_for_status r.(status_code) s None
    | _ => refusal_for_status r.(status_code) "" None
    end in
  match detail with
  | JObj d =>
      match obj_get "refusal" d JNull with
      | JObj refusal => match parse_refusal refusal with Ok known => known | Raise _ => derived end
      | _ => derived
      end
  | _ => derived
  end.

(** A refusal that is relayed. *)
Definition relay (r : http_response) : exn :=
  let refusal := relayed_refusal r in
  ManagementBackendError
    (if bool_decide (refusal.(rf_reason) = "") then "Host management backend refused this request" else refusal.(rf_reason))
    (if ((400 <=? r.(status_code)) && (r.(status_code) <? 500))%Z then r.(status_code) else 503) refusal.

(** [_raw] *)
Definition raw (method path : string) (params : list (string * string)) (body : option doc)
    (headers : list (string * string)) (content : option bytes) : M X http_response :=
  guard_py (bool_decide (service_token = ""))
    (ManagementBackendError "Host management backend credential is not configured" 503 not_configured) ;;
  catch
    (send (mkHttpRequest method (rstrip_slash base_url +:+ path)
             (if ends_with "/persona-preview" path then Z.max timeout 40000000 else timeout)
             (foldl (λ d h, dict_set h.1 h.2 d) (bearer service_token) headers) (Some params) body content false))
    (λ e, match e with
          | HttpxTransportError _ =>
              Some (raise (ManagementBackendError "Host management backend is unreachable" 503 not_running))
          | _ => None
          end).

(** [_decoded] *)
Definition decoded (r : http_response) : result obj :=
  let violated := Raise (ManagementBackendError "Host management backend answered outside its contract" 502 outside_contract) in
  if negb (r.(status_code) =? 200)%Z then Raise (relay r)
  else match loads r.(content) with
       | Ok (JObj payload) => Ok payload
       | Ok _ => violated
       | Raise (ValueError _ | JSONDecodeError _) => violated
       | Raise e => Raise e
       end.

(** [_call], [_get] and [_put], under the internal prefix. *)
Definition call (method path : string) (params : list (string * string)) (body : option doc) : M X obj :=
  response ← raw method (INTERNAL +:+ path) params body [] None;
  lift (decoded response).
Definition get (path : string) (params : list (string * string)) : M X obj := call "GET" path params None.
Definition put_as (method path : string) (params : list (string * string)) (body : list (string * doc)) : M X obj :=
  call method path params (Some (DObj body)).

Definition owned (owner_id : string) : list (string * string) := [("owner_id", owner_id)].
Definition number (k : string) (v : option Z) : list (string * string) :=
  match v with Some z => [(k, pretty z)] | None => [] end.
Definition companion_path (companion_id leaf : string) : string := "/companions/" +:+ quote companion_id +:+ leaf.

(** ** The calls *)

Definition smarthome_registry (owner_id method resource : string) (payload : option doc) (expected_revision : option Z) : M X obj :=
  call method ("/smarthome/" +:+ resource) (owned owner_id ++ number "expected_revision" expected_revision) payload.
Definition smarthome_accounts (owner_id method resource : string) (payload : option doc) : M X obj :=
  call method ("/smarthome/" +:+ resource) (owned owner_id) payload.
Definition context (owner_id : string) : M X obj := get "/context" (owned owner_id).
Definition backend_device_presence (domain : string) : M X obj := get "/device-presence" [("owner_domain_id", domain)].
Definition mission_control_snapshot (owner_id : string) : M X obj := get "/mission-control/snapshot" (owned owner_id).
Definition session_traces (owner_id : string) (companion_id since : option string) (limit : Z) : M X obj :=
  get "/session-traces" (owned owner_id ++ [("limit", pretty limit)] ++ given_nonempty "companion_id" companion_id ++
                         given_nonempty "since" since).
Definition session_trace (owner_id session_id : string) : M X obj := get ("/session-traces/" +:+ quote session_id) (owned owner_id).
Definition mission_control_activities (owner_id : string) (before : option string) : M X obj :=
  get "/mission-control/activities" (owned owner_id ++ given "before" before).
Definition backend_roster (owner_id : string) (cursor : option string) : M X obj :=
  get "/companions" (owned owner_id ++ given "cursor" cursor).
Definition companion (owner_id companion_id : string) : M X obj := get (companion_path companion_id "") (owned owner_id).
Definition set_default_companion (owner_id companion_id : string) (expected_revision : Z) : M X obj :=
  put_as "PUT" "/owners/default-companion" (owned owner_id)
    [("companion_id", DStr companion_id); ("expected_revision", DInt expected_revision)].
Definition create_companion (owner_id operation_id display_name kind : string) (persona preferences : option doc)
    (source_preset_id source_preset_revision : option string) : M X obj :=
  put_as "PUT" ("/companion-provisions/" +:+ quote operation_id) (owned owner_id)
    ([("display_name", DStr display_name); ("kind", DStr kind)] ++ given_doc "persona" persona ++
     given_doc "preferences" preferences ++
     match source_preset_id with
     | Some id => [("source_preset_id", DStr id); ("source_preset_revision", dopt source_preset_revision)]
     | None => []
     end).
Definition persona_authoring_template : M X obj := get "/persona-authoring-template" [].
Definition backend_preview_persona (owner_id : string) (payload : list (string * doc)) : M X obj :=
  put_as "POST" "/persona-preview" (owned owner_id) payload.
Definition persona_presets : M X obj := get "/persona-presets" [].
Definition activity (owner_id : string) (limit before : option Z) : M X obj :=
  get "/activity" (owned owner_id ++ number "limit" limit ++ number "before" before).
Definition companion_face_state (owner_id companion_id : string) : M X obj :=
  get (companion_path companion_id "/face-state") (owned owner_id).
Definition companion_face (owner_id companion_id : string) (known_etag : option string) : M X (Z * bytes * option string) :=
  response ← raw "GET" (INTERNAL +:+ companion_path companion_id "/face") (owned owner_id) None
               (given_nonempty "If-None-Match" known_etag) None;
  guard_py (negb (bool_decide (response.(status_code) ∈ [200; 204; 304]%Z))) (relay response) ;;
  mret (response.(status_code), response.(content), etag response).
Definition backend_set_companion_face (owner_id companion_id : string) (face : bytes) : M X obj :=
  response ← raw "PUT" (INTERNAL +:+ companion_path companion_id "/face") (owned owner_id) None
               [("Content-Type", "image/jpeg")] (Some face);
  lift (decoded response).
Definition clear_companion_face (owner_id companion_id : string) : M X obj :=
  put_as "DELETE" (companion_path companion_id "/face") (owned owner_id) [].
Definition backend_rename_companion (owner_id companion_id display_name : string) : M X obj :=
  put_as "PATCH" (companion_path companion_id "") (owned owner_id) [("display_name", DStr display_name)].
Definition backend_rename_owner (owner_id display_name : string) : M X obj :=
  put_as "PATCH" "/owner" (owned owner_id) [("display_name", DStr display_name)].
Definition set_companion_lifecycle (owner_id companion_id lifecycle_state : string) (replacement : option string)
    (expected_revision : option Z) : M X obj :=
  put_as "PUT" (companion_path companion_id "/lifecycle") (owned owner_id)
    ([("lifecycle_state", DStr lifecycle_state)] ++ given_doc "replacement_companion_id" (DStr <$> replacement) ++
     given_doc "expected_revision" (DInt <$> expected_revision)).
Definition memory_library (owner_id : string) (companion_id : option string) : M X obj :=
  get "/memory/library" (owned owner_id ++ given_nonempty "companion_id" companion_id).
Definition memory_graph (owner_id : string) (companion_id cursor : option string) (history : bool) : M X obj :=
  get "/memory/graph" (owned owner_id ++ [("history", if history then "true" else "false")] ++
                       given_nonempty "companion_id" companion_id ++ given_nonempty "cursor" cursor).
Definition memory_entries (owner_id since : string) (limit : option Z) (companion_id cursor : option string) : M X obj :=
  get "/memory/entries" (owned owner_id ++ [("since", since)] ++ given_nonempty "cursor" cursor ++ number "limit" limit ++
                         given_nonempty "companion_id" companion_id).
Definition memory_export (owner_id : string) (companion_id wing room : option string) : M X obj :=
  get "/memory/export" (owned owner_id ++ given_nonempty "companion_id" companion_id ++ given "wing" wing ++ given "room" room).
Definition backend_revoke_runtime_sessions (owner_id : string) : M X obj :=
  put_as "POST" "/owner/runtime-session-revocations" (owned owner_id) [].
Definition conversations (owner_id companion_id : string) (limit : option Z) (cursor : option string) : M X obj :=
  get (companion_path companion_id "/conversations") (owned owner_id ++ number "limit" limit ++ given "cursor" cursor).
Definition transcript (owner_id companion_id conversation_id : string) (limit : option Z) (cursor : option string) : M X obj :=
  get (companion_path companion_id ("/conversations/" +:+ quote conversation_id +:+ "/turns"))
    (owned owner_id ++ number "limit" limit ++ given "cursor" cursor).
Definition backend_tasks (owner_id companion_id : string) (limit : option Z) (status cursor : option string) : M X obj :=
  get (companion_path companion_id "/tasks")
    (owned owner_id ++ number "limit" limit ++ given "status" status ++ given "cursor" cursor).
Definition task (owner_id companion_id task_id : string) : M X obj :=
  get (companion_path companion_id ("/tasks/" +:+ quote task_id)) (owned owner_id).
Definition task_action (owner_id companion_id task_id action : string) : M X obj :=
  put_as "POST" (companion_path companion_id ("/tasks/" +:+ quote task_id +:+ "/" +:+ action)) (owned owner_id) [].
Definition persona_history (owner_id companion_id : string) : M X obj :=
  get (companion_path companion_id "/persona-history") (owned owner_id).
Definition backend_restore_persona (owner_id companion_id chapter_id : string) : M X obj :=
  put_as "PUT" (companion_path companion_id "/persona-restorations") (owned owner_id) [("chapter_id", DStr chapter_id)].
Definition backend_persona (owner_id companion_id : string) : M X obj := get (companion_path companion_id "/persona") (owned owner_id).
Definition author_persona (owner_id companion_id : string) (persona : list (string * doc)) : M X obj :=
  put_as "PUT" (companion_path companion_id "/persona") (owned owner_id) persona.
Definition recollections (owner_id query : string) (limit : Z) (companion_id : option string) : M X obj :=
  get "/memory/recollections" (owned owner_id ++ [("q", query); ("limit", pretty limit)] ++ given_nonempty "companion_id" companion_id).
Definition forget_preview (owner_id target : string) : M X obj :=
  put_as "POST" "/memory/forget/preview" (owned owner_id) [("target", DStr target)].
Definition forget_status (owner_id request_id : string) : M X obj :=
  get "/memory/forget/status" (owned owner_id ++ [("request_id", request_id)]).
Definition forget_confirm (owner_id confirmation_token : string) : M X obj :=
  put_as "POST" "/memory/forget/confirm" (owned owner_id) [("confirmation_token", DStr confirmation_token)].
End Backend.

(** ** What every call carries *)

#[local] Instance logged_requests {X} `{!Http X} : Http (list http_request * X) := {| send := λ r, asking r (send r) |}.

Section Carried.
Context {X : Type} `{NX : !Http X}.
Context (loads : bytes → result json) (py_str : json → string)
  (parse_refusal : obj → result public_refusal) (etag : http_response → option string).
Context (base_url service_token : string) (timeout : Z) (owner : string).
Abbreviation W := (list http_request * X)%type.

(** A call that sends at most one request: to the internal prefix of the one
    process, under the service credential, and as this Owner; and that, unless
    the HTTP library or the JSON reader fails in its own way, only refuses in
    the surface's own envelope. *)
Definition as_owner (r : http_request) : Prop :=
  (∃ path, r.(hr_url) = rstrip_slash base_url +:+ INTERNAL +:+ path) ∧
  (∃ rest, r.(hr_params) = Some (("owner_id", owner) :: rest)) ∧
  dict_get "Authorization" r.(hr_headers) = Some ("Bearer " +:+ service_token).
Definition relayed (e : exn) : Prop := ∃ msg status refusal, e = ManagementBackendError msg status refusal.
Definition asks_as {A} (c : M W A) : Prop := ∀ w,
  let '(r, w') := c w in
  (w'.1 = w.1 ∨ ∃ q, w'.1 = w.1 ++ [q] ∧ as_owner q) ∧
  ((∀ q x e, (send q x).1 = Raise e → ∃ name, e = HttpxTransportError name) →
   (∀ b e, loads b = Raise e → ∃ msg, e = JSONDecodeError msg) → ∀ e, r = Raise e → relayed e).

Abbreviation raw_ := (raw (X:=W) base_url service_token timeout).
Abbreviation call_ := (call (X:=W) loads py_str parse_refusal base_url service_token timeout).

Lemma raw_asks {A} method path rest body headers content (k : http_response → M W A) :
  dict_get "Authorization" (foldl (λ d h, dict_set h.1 h.2 d) (bearer service_token) headers) = Some ("Bearer " +:+ service_token) →
  (∀ a w, (k a w).2 = w) →
  ((∀ b e, loads b = Raise e → ∃ msg, e = JSONDecodeError msg) → ∀ a w e, (k a w).1 = Raise e → relayed e) →
  asks_as (raw_ method (INTERNAL +:+ path) (("owner_id", owner) :: rest) body headers content ≫= k).
Proof.
  intros Hh Hw Hk [log x]. unfold raw. rewrite bind_assoc, bind_guard. case_bool_decide.
  { split; [by left|]. intros _ _ e [= <-]. by do 3 eexists. }
  unfold catch, mbind, M_bind. cbn [send logged_requests]. unfold asking. cbn [fst snd].
  set (q := mkHttpRequest _ _ _ _ _ _ _ _). assert (as_owner q) as Hq by (split_and!; cbn; eauto).
  destruct (send q x) as [[a|e] x'] eqn:Es.
  - specialize (Hw a (log ++ [q], x')). specialize (λ Hl, Hk Hl a (log ++ [q], x')).
    destruct (k a _) as [r w']. cbn in Hw. subst w'. split; [right; by exists q|]. intros _ Hl. by apply Hk.
  - destruct e; cbn; (split; [right; by exists q|]; intros Hs _ ex [= <-]; try by do 3 eexists);
      specialize (Hs q x); rewrite Es in Hs; destruct (Hs _ eq_refl) as [name Hn]; try done.
Qed.

Lemma decoded_relayed a e :
  (∀ b e, loads b = Raise e → ∃ msg, e = JSONDecodeError msg) → decoded loads py_str parse_refusal a = Raise e → relayed e.
Proof.
  intros Hl. unfold decoded. destruct (negb _); [intros [= <-]; by do 3 eexists|].
  destruct (loads (content a)) as [[]|ex] eqn:E; try (intros [= <-]; by do 3 eexists).
  destruct (Hl _ _ E) as [msg ->]. intros [= <-]. by do 3 eexists.
Qed.
Lemma call_asks method path rest body : asks_as (call_ method path (("owner_id", owner) :: rest) body).
Proof. apply raw_asks; [done|done|]. intros Hl a w e. by apply decoded_relayed. Qed.
Lemma given_nonempty_header (k : string) v :
  k ≠ "Authorization" →
  dict_get "Authorization" (foldl (λ d h, dict_set h.1 h.2 d) (bearer service_token) (given_nonempty k v)) =
    Some ("Bearer " +:+ service_token).
Proof.
  intros Hk. destruct v as [v|]; [|done]. cbn. case_bool_decide; [done|]. cbn.
  by rewrite (bool_decide_eq_false_2 (k = "Authorization")).
Qed.

End Carried.
