(* ===== verification/ManagementViews.v ===== *)
(** * The views of the management surface

    The pydantic models [local_api/management/router.py] answers with, as data,
    and what constructing one does: every declared field checked, an undeclared
    one refused, defaults filled in.  What pydantic makes of a value that is not
    already of a field's type, and the SDK's own models, are parameters. *)

From S2P Require Import Prelude.

(** Decides closed propositions where they stand. *)
Ltac names := repeat match goal with
  | |- context [@bool_decide ?P ?i] =>
      let b := eval vm_compute in (@bool_decide P i) in
      lazymatch b with true => idtac | false => idtac end; change (@bool_decide P i) with b
  end.

(** ** Fields and models *)

(** What a field may hold: a text with at least and at most so many characters,
    one of some texts, a text of a pattern, an integer in a range, a truth value, a number, a number from 0 to
    1, something or [None], a list, a dictionary, a model with its fields, and a
    model of the SDK. *)
Inductive field_default := Required | Default (v : json) | SdkDefault (model : string).
Inductive vtype :=
| VStr (min : Z) (max : option Z)
| VLiteral (l : list string)
| VPattern (ok : string → bool)
| VInt (ge le : option Z)
| VBool
| VFloat
| VUnit
| VOpt (t : vtype)
| VList (t : vtype)
| VDict (t : vtype)
| VModel (name : string) (fields : list (string * (vtype * field_default)))
| VSdk (model : string).

Section Vtype_ind.
Context (P : vtype → Prop).
Context (HStr : ∀ lo hi, P (VStr lo hi)) (HLit : ∀ l, P (VLiteral l)) (HPat : ∀ ok, P (VPattern ok)) (HInt : ∀ lo hi, P (VInt lo hi)) (HBool : P VBool)
  (HFloat : P VFloat) (HUnit : P VUnit) (HOpt : ∀ t, P t → P (VOpt t)) (HList : ∀ t, P t → P (VList t)) (HDict : ∀ t, P t → P (VDict t))
  (HModel : ∀ n fs, Forall (λ f, P f.2.1) fs → P (VModel n fs)) (HSdk : ∀ m, P (VSdk m)).
(** Induction that reaches the fields of a model. *)
Fixpoint vtype_nested t : P t :=
  match t with
  | VStr lo hi => HStr lo hi
  | VLiteral l => HLit l
  | VPattern ok => HPat ok
  | VInt lo hi => HInt lo hi
  | VBool => HBool
  | VFloat => HFloat
  | VUnit => HUnit
  | VOpt t => HOpt t (vtype_nested t)
  | VList t => HList t (vtype_nested t)
  | VDict t => HDict t (vtype_nested t)
  | VModel n fs =>
      HModel n fs ((fix go fs : Forall (λ f, P f.2.1) fs :=
        match fs with
        | [] => Forall_nil_2 _
        | f :: rest => Forall_cons_2 _ _ _ (vtype_nested f.2.1) (go rest)
        end) fs)
  | VSdk m => HSdk m
  end.
End Vtype_ind.

(** ** Validation *)

(** A JSON number. *)
Definition is_number (v : json) : bool :=
  match v with JInt _ | JFloat _ _ | JNaN | JInfinity _ => true | _ => false end.
(** A number from 0 to 1. *)
Definition within (lo hi : option Z) (z : Z) : bool :=
  match lo with Some a => (a <=? z)%Z | None => true end && match hi with Some b => (z <=? b)%Z | None => true end.
Definition unit_number (v : json) : bool :=
  match v with
  | JInt z => within (Some 0) (Some 1) z
  | JFloat m e => (0 <=? m)%Z && (if (0 <=? e)%Z then m * 2 ^ e <=? 1 else m <=? 2 ^ (- e))%Z
  | _ => false
  end%Z.

(** What pydantic coerces in its lax mode, and the SDK's models. *)
Class Pydantic := {
  lax_int : json → option Z;
  lax_bool : json → option bool;
  lax_float : json → option json;
  sdk_model : string → json → result json;
  sdk_default : string → json;
  (** The values of a model of the SDK. *)
  sdk_value : string → json → Prop;
  sdk_model_value m v v' : sdk_model m v = Ok v' → sdk_value m v';
  sdk_default_value m : sdk_value m (sdk_default m);
  (** A value of the type itself is taken as it is. *)
  lax_int_int z : lax_int (JInt z) = Some z;
  lax_bool_bool b : lax_bool (JBool b) = Some b;
  lax_float_number v f : lax_float v = Some f → is_number f = true;
  (** Every number is a [float], the same one. *)
  lax_float_of v : is_number v = true → ∃ f, lax_float v = Some f ∧ unit_number f = unit_number v;
  (** What a model of the SDK dumps it reads back. *)
  sdk_model_of m v : sdk_value m v → ∃ v', sdk_model m v = Ok v' }.

Definition text_within (lo : Z) (hi : option Z) (s : string) : bool := within (Some lo) hi (Z.of_nat (str_len s)).
Lemma any_text s : text_within 0 None s = true.
Proof. unfold text_within, within. by rewrite (proj2 (Z.leb_le _ _)) by lia. Qed.
Definition known_fields {A} (fs : list (string * A)) (kv : obj) : bool :=
  forallb (λ p, bool_decide (p.1 ∈ fs.*1)) kv.

Section Validation.
Context `{PY : !Pydantic}.

Definition invalid {A} (what : string) : result A := Raise (ValidationError what).
Definition fill (name : string) (d : field_default) : result json :=
  match d with Required => invalid name | Default v => Ok v | SdkDefault m => Ok (sdk_default m) end.

Fixpoint validate (t : vtype) (v : json) {struct t} : result json :=
  match t with
  | VStr lo hi => match v with JStr s => if text_within lo hi s then Ok v else invalid "str" | _ => invalid "str" end
  | VLiteral l => match v with JStr s => if bool_decide (s ∈ l) then Ok v else invalid "literal" | _ => invalid "literal" end
  | VPattern ok => match v with JStr s => if ok s then Ok v else invalid "str" | _ => invalid "str" end
  | VInt lo hi => match lax_int v with Some z => if within lo hi z then Ok (JInt z) else invalid "int" | None => invalid "int" end
  | VBool => match lax_bool v with Some b => Ok (JBool b) | None => invalid "bool" end
  | VFloat => match lax_float v with Some f => Ok f | None => invalid "float" end
  | VUnit => match lax_float v with Some f => if unit_number f then Ok f else invalid "float" | None => invalid "float" end
  | VOpt t => match v with JNull => Ok JNull | _ => validate t v end
  | VList t =>
      match v with
      | JList l =>
          l' ← (fix go l := match l with
                | [] => Ok []
                | x :: rest => y ← validate t x; ys ← go rest; Ok (y :: ys)
                end) l;
          Ok (JList l')
      | _ => invalid "list"
      end
  | VDict t =>
      match v with
      | JObj kv =>
          kv' ← (fix go kv := match kv with
                 | [] => Ok []
                 | p :: rest => y ← validate t p.2; ys ← go rest; Ok ((p.1, y) :: ys)
                 end) kv;
          Ok (JObj kv')
      | _ => invalid "dict"
      end
  | VModel name fs =>
      match v with
      | JObj kv =>
          if known_fields fs kv then
            kv' ← (fix go fs := match fs with
                   | [] => Ok []
                   | f :: rest =>
                       y ← match dict_get f.1 kv with Some x => validate f.2.1 x | None => fill name f.2.2 end;
                       ys ← go rest; Ok ((f.1, y) :: ys)
                   end) fs;
            Ok (JObj kv')
          else invalid name
      | _ => invalid name
      end
  | VSdk m => sdk_model m v
  end.

(** ** What a view is *)

Inductive conforms : vtype → json → Prop :=
| CStr lo hi s : text_within lo hi s = true → conforms (VStr lo hi) (JStr s)
| CLiteral l s : s ∈ l → conforms (VLiteral l) (JStr s)
| CPattern ok s : ok s = true → conforms (VPattern ok) (JStr s)
| CInt lo hi z : within lo hi z = true → conforms (VInt lo hi) (JInt z)
| CBool b : conforms VBool (JBool b)
| CFloat v : is_number v = true → conforms VFloat v
| CUnit v : unit_number v = true → conforms VUnit v
| CNone t : conforms (VOpt t) JNull
| CSome t v : conforms t v → conforms (VOpt t) v
| CList t l : Forall (conforms t) l → conforms (VList t) (JList l)
| CDict t kv : Forall (λ p, conforms t p.2) kv → conforms (VDict t) (JObj kv)
| CModel n fs kv :
    Forall2 (λ f p, p.1 = f.1 ∧ (fill n f.2.2 = Ok p.2 ∨ conforms f.2.1 p.2)) fs kv → conforms (VModel n fs) (JObj kv)
| CSdk m v : sdk_value m v → conforms (VSdk m) v.

Lemma result_bind_ok {A B} (r : result A) (f : A → result B) b : r ≫= f = Ok b → ∃ a, r = Ok a ∧ f a = Ok b.
Proof. destruct r; [by eexists|done]. Qed.

(** What is constructed from anything is a value of the view. *)
Lemma validate_conforms t : ∀ v v', validate t v = Ok v' → conforms t v'.
Proof.
  induction t as [lo hi|l|ok|lo hi| | | |t IH|t IH|t IH|n fs IH|m] using vtype_nested; intros v v' Hv; cbn in Hv.
  - destruct v; try done. destruct (text_within lo hi s) eqn:E; [|done]. injection Hv as <-. by constructor.
  - destruct v; try done. case_bool_decide; [|done]. injection Hv as <-. by constructor.
  - destruct v; try done. destruct (ok s) eqn:E; [|done]. injection Hv as <-. by constructor.
  - destruct (lax_int v); [|done]. destruct (within lo hi z) eqn:E; [|done]. injection Hv as <-. by constructor.
  - destruct (lax_bool v); [|done]. injection Hv as <-. constructor.
  - destruct (lax_float v) as [f|] eqn:E; [|done]. injection Hv as <-. constructor. by eapply lax_float_number.
  - destruct (lax_float v); [|done]. destruct (unit_number j) eqn:E; [|done]. injection Hv as <-. by constructor.
  - destruct v; first [injection Hv as <-; by constructor|by apply CSome, (IH _ _ Hv)].
  - destruct v as [| | | | | | |l|]; try done. apply result_bind_ok in Hv as (l' & Hl & [= <-]). constructor.
    revert l' Hl. induction l as [|x l IHl]; cbn; intros l' Hl; [by injection Hl as <-|].
    apply result_bind_ok in Hl as (y & Hy & Hl). apply result_bind_ok in Hl as (ys & Hys & [= <-]).
    constructor; [by apply (IH x)|by apply IHl].
  - destruct v as [| | | | | | | |kv]; try done. apply result_bind_ok in Hv as (l' & Hl & [= <-]). constructor.
    revert l' Hl. induction kv as [|x l IHl]; cbn; intros l' Hl; [by injection Hl as <-|].
    apply result_bind_ok in Hl as (y & Hy & Hl). apply result_bind_ok in Hl as (ys & Hys & [= <-]).
    constructor; [by apply (IH x.2)|by apply IHl].
  - destruct v as [| | | | | | | |kv]; try done. destruct (known_fields fs kv); [|done].
    apply result_bind_ok in Hv as (l' & Hl & [= <-]). constructor.
    revert l' Hl. induction IH as [|f fs Hf _ IHf]; intros l' Hl; [by injection Hl as <-|].
    apply result_bind_ok in Hl as (y & Hy & Hl). apply result_bind_ok in Hl as (ys & Hys & [= <-]).
    constructor; [|by apply IHf]. cbn. split; [done|]. destruct (dict_get f.1 kv) as [x|]; [right; by apply (Hf x)|by left].
  - apply CSdk. by apply (sdk_model_value m v).
Qed.

(** ** Constructing a view *)

(** A keyword argument: a value, or an instance that is not looked at again. *)
Inductive argument := Raw (v : json) | Made (v : json).
Fixpoint make_fields (name : string) (fs : list (string * (vtype * field_default))) (args : list (string * argument))
    : result obj :=
  match fs with
  | [] => Ok []
  | f :: rest =>
      y ← match dict_get f.1 args with
          | Some (Raw x) => validate f.2.1 x
          | Some (Made x) => Ok x
          | None => fill name f.2.2
          end;
      ys ← make_fields name rest args;
      Ok ((f.1, y) :: ys)
  end.
Definition make (view : vtype) (args : list (string * argument)) : result json :=
  match view with
  | VModel name fs =>
      if forallb (λ p, bool_decide (p.1 ∈ fs.*1)) args then kv ← make_fields name fs args; Ok (JObj kv) else invalid name
  | _ => invalid "view"
  end.
(** A view of a row, its members as keyword arguments. *)
Definition construct (view : vtype) (row : json) : result json :=
  match row with JObj _ => validate view row | _ => Raise (TypeError "argument after ** must be a mapping") end.
Fixpoint code_points (s : string) : list string :=
  match s with
  | EmptyString => []
  | String c s' =>
      match code_points s' with
      | String c' p :: ps => if is_continuation c' then String c (String c' p) :: ps else String c "" :: String c' p :: ps
      | ps => String c "" :: ps
      end
  end.
(** [for row in v] *)
Definition iterate (v : json) : result (list json) :=
  match v with
  | JList l => Ok l
  | JObj kv => Ok (JStr <$> kv.*1)
  | JStr s => Ok (JStr <$> code_points s)
  | _ => Raise (TypeError "object is not iterable")
  end.
Fixpoint each {A} (f : json → result A) (l : list json) : result (list A) :=
  match l with [] => Ok [] | x :: rest => y ← f x; ys ← each f rest; Ok (y :: ys) end.
(** A view of each row. *)
Definition rows (view : vtype) (v : json) : result json := l ← iterate v; vs ← each (construct view) l; Ok (JList vs).
(** [answer[k]] *)
Definition item (k : string) (o : obj) : result json :=
  match dict_get k o with Some v => Ok v | None => Raise (KeyError k) end.

Lemma construct_conforms view row v : construct view row = Ok v → conforms view v.
Proof. destruct row; try done. apply validate_conforms. Qed.
Lemma each_forall {A} (f : json → result A) (P : A → Prop) l vs :
  (∀ x v, f x = Ok v → P v) → each f l = Ok vs → Forall P vs.
Proof.
  intros Hf. revert vs. induction l as [|x l IH]; cbn; intros vs H; [by injection H as <-|].
  apply result_bind_ok in H as (y & Hy & H). apply result_bind_ok in H as (ys & Hys & [= <-]).
  constructor; [by eapply Hf|by apply IH].
Qed.
Lemma rows_conform view v l : rows view v = Ok l → conforms (VList view) l.
Proof.
  unfold rows. intros H. apply result_bind_ok in H as (xs & _ & H). apply result_bind_ok in H as (vs & Hvs & [= <-]).
  constructor. eapply each_forall; [|exact Hvs]. apply construct_conforms.
Qed.
Lemma make_conforms name fs args v :
  Forall (λ f, ∀ x, dict_get f.1 args = Some (Made x) → conforms f.2.1 x) fs →
  make (VModel name fs) args = Ok v → conforms (VModel name fs) v.
Proof.
  intros Hargs. unfold make. destruct (forallb _ args); [|done]. intros H. apply result_bind_ok in H as (kv & H & [= <-]).
  constructor. revert kv H. induction Hargs as [|f fs Hf _ IH]; cbn; intros kv H; [by injection H as <-|].
  apply result_bind_ok in H as (y & Hy & H). apply result_bind_ok in H as (ys & Hys & [= <-]).
  constructor; [|by apply IH]. cbn. split; [done|]. destruct (dict_get f.1 args) as [[x|x]|] eqn:E.
  - right. by eapply validate_conforms.
  - injection Hy as <-. right. by apply Hf.
  - by left.
Qed.
End Validation.

(** ** The models *)

Definition text (lo hi : Z) : vtype := VStr lo (Some hi).
Definition need (k : string) (t : vtype) : string * (vtype * field_default) := (k, (t, Required)).
Definition may (k : string) (t : vtype) (v : json) : string * (vtype * field_default) := (k, (t, Default v)).
Definition perhaps (k : string) (t : vtype) : string * (vtype * field_default) := may k (VOpt t) JNull.
Definition contract_version : string * (vtype * field_default) := may "contract_version" (VLiteral ["1"]) (JStr "1").
Definition operation (name : string) : string * (vtype * field_default) := may "operation" (VLiteral [name]) (JStr name).
Definition at_least (n : Z) : vtype := VInt (Some n) None.
Definition provenance : string * (vtype * field_default) := ("provenance", (VSdk "MemoryProvenance", SdkDefault "MemoryProvenance")).

#[local] Open Scope Z_scope.
(** [conversation_identity.py] *)
Definition CONVERSATION_ID_MAX_LENGTH : Z := 512.

Definition OwnerContextView : vtype :=
  VModel "OwnerContextView" [need "owner_id" (text 1 64); may "display_name" (text 0 128) (JStr "");
    need "revision" (at_least 1)].
Definition ManagementContextView : vtype :=
  VModel "ManagementContextView" [contract_version; need "owner" OwnerContextView;
    perhaps "default_companion_id" (text 0 64); need "capabilities" (VDict VBool);
    may "unavailable" (VDict (VStr 0 None)) (JObj []); need "limits" (VDict (VOpt (VInt None None)))].
Definition CompanionSummaryView : vtype :=
  VModel "CompanionSummaryView" [perhaps "artwork_id" (text 0 128); need "companion_id" (text 1 64);
    may "display_name" (text 0 128) (JStr ""); need "kind" (text 1 32); need "lifecycle_state" (text 1 32);
    need "revision" (at_least 1); need "created_at" (text 1 64); need "updated_at" (text 1 64);
    perhaps "genome_id" (text 0 64); perhaps "memory_realm_id" (text 0 64);
    may "last_active_at" (text 0 64) (JStr "")].
Definition CompanionRosterView : vtype :=
  VModel "CompanionRosterView" [contract_version; perhaps "default_companion_id" (text 0 64);
    need "companions" (VList CompanionSummaryView); perhaps "next_cursor" (text 0 256);
    may "activity_unavailable" (text 0 64) (JStr "")].
Definition CompanionDetailView : vtype :=
  VModel "CompanionDetailView" [contract_version; need "companion_id" (text 1 64);
    may "display_name" (text 0 128) (JStr ""); need "kind" (text 1 32); need "lifecycle_state" (text 1 32);
    need "revision" (at_least 1); need "is_default" VBool; may "last_active_at" (text 0 64) (JStr "");
    may "activity_unavailable" (text 0 64) (JStr "")].
Definition DefaultCompanionView : vtype :=
  VModel "DefaultCompanionView" [contract_version; perhaps "default_companion_id" (text 0 64)].
Definition CompanionNameView : vtype :=
  VModel "CompanionNameView" [contract_version; need "companion_id" (text 1 64);
    may "display_name" (text 0 128) (JStr ""); need "revision" (at_least 1)].
Definition OwnerNameView : vtype :=
  VModel "OwnerNameView" [contract_version; need "owner_id" (text 1 64); may "display_name" (text 0 128) (JStr "");
    need "revision" (at_least 1)].
Definition CompanionFaceView : vtype :=
  VModel "CompanionFaceView" [contract_version; need "companion_id" (text 1 64); need "has_face" VBool;
    perhaps "sha256" (text 0 128); perhaps "updated_at" (text 0 64)].
Definition CompanionLifecycleView : vtype :=
  VModel "CompanionLifecycleView" [contract_version; need "companion_id" (text 1 64);
    need "lifecycle_state" (text 1 32); need "revision" (at_least 1); perhaps "default_companion_id" (text 0 64);
    may "released_devices" (VList (VStr 0 None)) (JList [])].
Definition CompanionCreatedView : vtype :=
  VModel "CompanionCreatedView" [contract_version; need "companion_id" (text 1 64);
    may "display_name" (text 0 128) (JStr ""); need "kind" (text 1 32); need "lifecycle_state" (text 1 32);
    need "revision" (at_least 1); need "created" VBool; need "memory_ready" VBool].
Definition MemoryRoomView : vtype :=
  VModel "MemoryRoomView" [need "room_id" (text 1 256); need "entry_count" (at_least 0);
    need "titles" (VList (VStr 0 None)); need "more" VBool].
Definition MemoryWingView : vtype :=
  VModel "MemoryWingView" [need "wing_id" (text 1 128); may "display_name" (text 0 256) (JStr "");
    may "description" (text 0 2048) (JStr ""); need "entry_count" (at_least 0); need "rooms" (VList MemoryRoomView)].
Definition MemoryLibraryView : vtype :=
  VModel "MemoryLibraryView" [contract_version; need "audience_scope" (text 1 128);
    need "wings" (VList MemoryWingView); need "entry_count" (at_least 0); need "withheld_count" (at_least 0);
    need "truncated" VBool].
Definition MemoryGraphNodeView : vtype :=
  VModel "MemoryGraphNodeView" [need "node_id" (text 1 256); need "label" (text 1 256); need "degree" (at_least 0)].
Definition MemoryGraphEdgeView : vtype :=
  VModel "MemoryGraphEdgeView" [need "edge_id" (text 1 128); need "subject" (text 1 256);
    need "predicate" (text 1 128); need "object" (text 1 256); need "confidence" VUnit;
    may "recorded_at" (text 0 64) (JStr ""); perhaps "valid_from" (VStr 0 None); perhaps "valid_to" (VStr 0 None)].
Definition MemoryGraphView : vtype :=
  VModel "MemoryGraphView" [contract_version; need "nodes" (VList MemoryGraphNodeView);
    need "edges" (VList MemoryGraphEdgeView); need "truncated" VBool; perhaps "next_cursor" (text 0 1024);
    may "history" VBool (JBool false)].
Definition MemoryEntryView : vtype :=
  VModel "MemoryEntryView" [need "entry_id" (text 1 128); need "recorded_at" (text 1 64);
    may "recorded_at_source" (text 0 64) (JStr ""); may "wing_id" (text 0 128) (JStr "");
    may "room_id" (text 0 256) (JStr ""); may "preview" (text 0 4096) (JStr ""); provenance;
    may "value" (VStr 0 None) (JStr "")].
Definition MemoryDayView : vtype :=
  VModel "MemoryDayView" [contract_version; need "since" (text 1 64); need "entries" (VList MemoryEntryView);
    need "entry_count" (at_least 0); need "more_in_window" VBool; perhaps "next_cursor" (text 0 1024);
    need "undated_count" (at_least 0); need "truncated" VBool].
Definition MemoryExportRecordView : vtype :=
  VModel "MemoryExportRecordView" [need "entry_id" (text 1 128); may "recorded_at" (text 0 64) (JStr "");
    may "recorded_at_source" (text 0 64) (JStr ""); may "wing_id" (text 0 128) (JStr "");
    may "room_id" (text 0 256) (JStr ""); may "memory_type" (text 0 64) (JStr ""); need "value" (VStr 0 None);
    provenance].
Definition MemoryCopyView : vtype :=
  VModel "MemoryCopyView" [contract_version; need "taken_at" (text 1 64);
    need "records" (VList MemoryExportRecordView); need "record_count" (at_least 0);
    need "undated_count" (at_least 0); need "truncated" VBool].
Definition RevokedSessionsView : vtype :=
  VModel "RevokedSessionsView" [contract_version; need "revoked_at" (text 1 64)].
Definition ConversationView : vtype :=
  VModel "ConversationView" [need "conversation_id" (text 1 CONVERSATION_ID_MAX_LENGTH);
    may "started_at" (text 0 64) (JStr ""); may "updated_at" (text 0 64) (JStr ""); perhaps "ended_at" (text 0 64)].
Definition ConversationPageView : vtype :=
  VModel "ConversationPageView" [contract_version; need "companion_id" (text 1 64);
    need "conversations" (VList ConversationView); perhaps "next_cursor" (text 0 256)].
Definition SpokenMessageView : vtype :=
  VModel "SpokenMessageView" [need "role" (text 1 32); may "text" (text 0 1048576) (JStr "")].
Definition TranscriptTurnView : vtype :=
  VModel "TranscriptTurnView" [need "turn_id" (text 1 64); may "started_at" (text 0 64) (JStr "");
    perhaps "finished_at" (text 0 64); may "status" (text 0 32) (JStr ""); need "messages" (VList SpokenMessageView)].
Definition TranscriptView : vtype :=
  VModel "TranscriptView" [contract_version; need "conversation_id" (text 1 CONVERSATION_ID_MAX_LENGTH);
    need "turns" (VList TranscriptTurnView); perhaps "next_cursor" (text 0 256)].
Definition TaskView : vtype :=
  VModel "TaskView" [need "task_id" (text 1 64); need "status" (text 1 32); may "asked" (text 0 8192) (JStr "");
    may "kind" (text 0 64) (JStr ""); may "urgency" (text 0 32) (JStr "");
    may "expected_output" (text 0 4096) (JStr ""); may "progress" (text 0 8192) (JStr "");
    may "result" (text 0 65536) (JStr ""); may "error_code" (text 0 128) (JStr "");
    may "error_message" (text 0 4096) (JStr ""); may "created_at" (text 0 64) (JStr "");
    may "updated_at" (text 0 64) (JStr ""); perhaps "completed_at" (text 0 64)].
Definition TaskPageView : vtype :=
  VModel "TaskPageView" [contract_version; need "companion_id" (text 1 64); need "tasks" (VList TaskView);
    perhaps "next_cursor" (text 0 256)].
Definition PersonaChapterView : vtype :=
  VModel "PersonaChapterView" [need "chapter_id" (text 1 64); need "changed_at" (text 1 64);
    may "what_changed" (text 0 4096) (JStr ""); perhaps "restored_from" (VInt None None);
    may "is_current" VBool (JBool false)].
Definition PersonaHistoryView : vtype :=
  VModel "PersonaHistoryView" [contract_version; need "companion_id" (text 1 64);
    need "chapters" (VList PersonaChapterView)].
Definition RecollectionView : vtype :=
  VModel "RecollectionView" [may "text" (text 0 8192) (JStr ""); perhaps "remembered_at" (text 0 64); provenance].
Definition RecollectionsView : vtype :=
  VModel "RecollectionsView" [contract_version; need "query" (text 1 256);
    need "recollections" (VList RecollectionView)].
Definition ForgetEntryView : vtype :=
  VModel "ForgetEntryView" [need "entry_id" (text 1 128); may "preview" (text 0 4096) (JStr ""); need "score" VUnit].
Definition ForgetProposalView : vtype :=
  VModel "ForgetProposalView" [contract_version; need "status" (VLiteral ["preview"; "not_found"; "too_broad"]);
    need "target" (text 1 512); need "entries" (VList ForgetEntryView); need "needs_confirmation" VBool;
    perhaps "confirmation_token" (text 0 4096); perhaps "expires_at" (VInt None None);
    may "detail" (text 0 1024) (JStr "")].
Definition ForgetResultView : vtype :=
  VModel "ForgetResultView" [contract_version; need "request_id" (text 1 128); need "target" (text 1 512);
    need "entry_count" (at_least 0); need "status" (VLiteral ["accepted"; "retrying"; "applied"; "failed"])].
Definition ForgetProgressView : vtype :=
  VModel "ForgetProgressView" [contract_version; need "request_id" (text 1 128);
    need "status" (VLiteral ["accepted"; "retrying"; "applied"; "failed"])].
Definition HomeCountsView : vtype :=
  VModel "HomeCountsView" [need "total" (at_least 0); need "ready" (at_least 0); need "waiting" (at_least 0);
    need "put_away" (at_least 0)].
Definition HomeView : vtype :=
  VModel "HomeView" [contract_version; may "owner_display_name" (text 0 128) (JStr "");
    need "owner_revision" (at_least 1); may "companions" (VList CompanionSummaryView) (JList []);
    perhaps "default_companion_id" (text 0 64); may "activity_unavailable" (text 0 64) (JStr "");
    may "more_companions" VBool (JBool false); may "memory" (text 0 256) (JStr "");
    need "companion_counts" HomeCountsView; need "devices" HomeCountsView;
    may "machine_attention" (VList (VStr 0 None)) (JList []); may "unavailable" (VDict (VStr 0 None)) (JObj [])].
Definition DevicePresenceView : vtype :=
  VModel "DevicePresenceView" [may "state" (VLiteral ["online"; "offline"; "unknown"]) (JStr "unknown");
    may "source" (VStr 0 None) (JStr "none"); perhaps "observed_at" (VStr 0 None);
    perhaps "valid_until" (VStr 0 None); may "reason" (VStr 0 None) (JStr "尚未观测到设备连接");
    may "remaining_ms" (VInt (Some 0) (Some 15000)) (JInt 0)].
Definition DevicePresenceRow : vtype :=
  VModel "DevicePresenceRow" [need "device_id" (VStr 0 None); need "owner_domain_id" (VStr 0 None);
    need "owner_domain_generation" (VInt None None); need "claim_generation" (VInt None None);
    need "trust_epoch" (VInt None None); need "presence" DevicePresenceView].
Definition DevicePresencesView : vtype :=
  VModel "DevicePresencesView" [need "devices" (VList DevicePresenceRow)].
Definition DeviceOutputsView : vtype :=
  VModel "DeviceOutputsView" [need "capabilities" (VSdk "OutputSelection");
    perhaps "input_capabilities" (VSdk "InputSelection"); perhaps "inputs" (VSdk "InputSelection");
    perhaps "allowed" (VSdk "OutputSelection"); need "revision" (at_least 0)].
Definition DeviceView : vtype :=
  VModel "DeviceView" [need "device_id" (text 1 128); perhaps "owner_domain_id" (VStr 0 None);
    need "label" (text 1 128); may "kind" (text 0 128) (JStr ""); need "state" (text 1 32);
    perhaps "answers_as_companion_id" (text 0 64); may "answers_as_companion_name" (text 0 128) (JStr "");
    may "quiet_because" (text 0 32) (JStr ""); need "revision" (at_least 0); need "mount_revision" (at_least 1);
    need "updated_at" (text 1 64); perhaps "presence" DevicePresenceView; need "claim_state" (text 1 32);
    need "claim_generation" (at_least 0); need "trust_epoch" (at_least 0);
    need "owner_domain_generation" (at_least 0); may "manifest_id" (text 0 128) (JStr "");
    perhaps "manifest_revision" (at_least 0); need "outputs" DeviceOutputsView].
Definition DevicesView : vtype :=
  VModel "DevicesView" [contract_version; need "devices" (VList DeviceView); may "coverage" (text 0 512) (JStr "")].
Definition DeviceRemovalConditionView : vtype :=
  VModel "DeviceRemovalConditionView" [need "name" (text 1 64); need "state" (text 1 32);
    need "authority" (text 1 64); may "observed_at" (text 0 64) (JStr "")].
Definition DeviceRemovalView : vtype :=
  VModel "DeviceRemovalView" [contract_version; need "device_id" (text 1 128); need "request_id" (text 1 128);
    need "outcome" (text 1 32); need "conditions" (VList DeviceRemovalConditionView)].
Definition ActivityMomentView : vtype :=
  VModel "ActivityMomentView" [need "event_id" (text 1 64); need "action" (text 1 128);
    need "subject_type" (text 1 64); need "subject_id" (text 1 128); may "subject_name" (text 0 128) (JStr "");
    need "occurred_at" (text 1 64); need "outcome" (text 1 16); may "detail" (VDict (VStr 0 None)) (JObj [])].
Definition ActivityView : vtype :=
  VModel "ActivityView" [contract_version; need "moments" (VList ActivityMomentView);
    perhaps "next_cursor" (text 0 128)].
Definition ControllerView : vtype :=
  VModel "ControllerView" [need "controller_id" (text 1 64); may "display_name" (text 0 128) (JStr "");
    may "platform" (text 0 64) (JStr ""); need "role" (text 1 32); may "fingerprint" (text 0 128) (JStr "");
    need "claimed_at" (text 1 64); need "is_you" VBool].
Definition ControllersView : vtype :=
  VModel "ControllersView" [contract_version; need "controllers" (VList ControllerView)].
