(* ===== verification/HostMachine.v ===== *)
(** * The machine, as the Local API shows it

    [local_api/host_services.py]: the client of Admin's machine routes, the
    views of services and of what was measured, and which measurements are
    worth acting on; and [local_api/host_release.py].  Numbers are Python's:
    exact integers, and doubles with the rounding of IEEE 754. *)

From Stdlib Require Import Floats.SpecFloat.
From S2P Require Import Prelude Encoding Json Lifecycle Upstream Clients ManagementViews.
#[local] Open Scope Z_scope.

(** ** Numbers *)

Inductive number := Whole (z : Z) | Double (f : spec_float).
(** [isinstance(v, (int, float))]; a truth value is an integer. *)
Definition number_of (v : json) : option number :=
  match v with
  | JInt z => Some (Whole z)
  | JBool b => Some (Whole (Z.b2z b))
  | JFloat m e => Some (Double (binary_normalize 53 1024 m e false))
  | JNaN => Some (Double S754_nan)
  | JInfinity negative => Some (Double (S754_infinity negative))
  | _ => None
  end.
Definition exact (z : Z) : spec_float :=
  match z with Z0 => S754_zero false | Zpos p => S754_finite false p 0 | Zneg p => S754_finite true p 0 end.
Definition too_large (f : spec_float) : bool := match f with S754_infinity _ => true | _ => false end.
(** [float(n)] *)
Definition to_double (n : number) : result spec_float :=
  match n with
  | Double f => Ok f
  | Whole z =>
      let f := binary_normalize 53 1024 z 0 false in
      if too_large f then Raise (OverflowError "int too large to convert to float") else Ok f
  end.
(** [a / b] for a [b] that is not zero; two integers are divided exactly and rounded once. *)
Definition true_div (a b : number) : result spec_float :=
  match a, b with
  | Whole x, Whole y =>
      let q := SFdiv 53 1024 (exact x) (exact y) in
      if too_large q then Raise (OverflowError "integer division result too large for a float") else Ok q
  | _, _ => x ← to_double a; y ← to_double b; Ok (SFdiv 53 1024 x y)
  end.
(** Comparison, exact as Python's. *)
Definition dyadic_le (m1 e1 m2 e2 : Z) : bool :=
  let e := Z.min e1 e2 in m1 * 2 ^ (e1 - e) <=? m2 * 2 ^ (e2 - e).
Definition signed (s : bool) (m : positive) : Z := if s then Zneg m else Zpos m.
Definition num_leb (a b : number) : bool :=
  let side n := match n with
    | Whole z => Some (inl (z, 0)) | Double (S754_finite s m e) => Some (inl (signed s m, e))
    | Double (S754_zero _) => Some (inl (0, 0)) | Double (S754_infinity s) => Some (inr s) | Double S754_nan => None end in
  match side a, side b with
  | Some (inl (m1, e1)), Some (inl (m2, e2)) => dyadic_le m1 e1 m2 e2
  | Some (inr true), Some _ | Some _, Some (inr false) => true
  | _, _ => false
  end.
(** [int(v)] *)
Definition truncate_number (n : number) : result Z :=
  match n with
  | Whole z => Ok z
  | Double (S754_zero _) => Ok 0
  | Double (S754_finite s m e) => Ok (Z.quot (signed s m * 2 ^ Z.max e 0) (2 ^ Z.max (- e) 0))
  | Double (S754_infinity _) => Raise (OverflowError "cannot convert float infinity to integer")
  | Double S754_nan => Raise (ValueError "cannot convert float NaN to integer")
  end.
(** [n / d] to the nearest integer, ties to even. *)
Definition round_half_even (n d : Z) : Z :=
  let q := n / d in let r := n mod d in
  if 2 * r <? d then q else if d <? 2 * r then q + 1 else if Z.even q then q else q + 1.
Fixpoint pad_zeros (w : nat) (n : Z) : string :=
  match w with O => "" | S w' => pad_zeros w' (n / 10) +:+ String (ascii_of_N (48 + Z.to_N (n mod 10))) "" end.
(** [f"{x:.<d>f}"] *)
Definition fixed (d : nat) (f : spec_float) : string :=
  let sign (s : bool) := if s then "-" else "" in
  let show s n := sign s +:+ pretty (n / 10 ^ Z.of_nat d) +:+ "." +:+ pad_zeros d (n mod 10 ^ Z.of_nat d) in
  match f with
  | S754_zero s => show s 0
  | S754_finite s m e => show s (round_half_even (Zpos m * 2 ^ Z.max e 0 * 10 ^ Z.of_nat d) (2 ^ Z.max (- e) 0))
  | S754_infinity s => sign s +:+ "inf"
  | S754_nan => "nan"
  end.

(** The literals of the code. *)
Definition literal (m e : Z) : number := Double (binary_normalize 53 1024 m e false).
Definition DISK_WATCH : number := literal 3602879701896397 (-54).
Definition DISK_ACT : number := literal 5764607523034235 (-56).
Definition MEMORY_WATCH : number := literal 5404319552844595 (-55).
Definition MEMORY_ACT : number := literal 3602879701896397 (-56).
Definition LOAD_WATCH : number := literal 1 0.
Definition LOAD_ACT : number := literal 1 1.
Definition TEMPERATURE_WATCH : number := literal 70 0.
Definition TEMPERATURE_ACT : number := literal 80 0.

(** ** Views *)

Definition RUNTIME_STATES : list string := ["unknown"; "inactive"; "starting"; "ready"; "degraded"; "blocked"; "failed"].
Definition MUTATIONS : list string := ["restart"; "enable"; "disable"].
Definition HostServiceView : vtype :=
  VModel "HostServiceView" [need "service_id" (text 1 128); need "required" VBool; need "enabled" VBool;
    need "revision" (at_least 1); need "runtime_state" (VLiteral RUNTIME_STATES); perhaps "detail" (VStr 0 None);
    need "observed_at" (VSdk "datetime")].
Definition HostServiceInventoryView : vtype :=
  VModel "HostServiceInventoryView" [may "services" (VList HostServiceView) (JList [])].
Definition VitalView : vtype :=
  VModel "VitalView" [need "name" (text 1 64); need "reading" (VStr 0 None);
    may "concern" (VLiteral ["none"; "watch"; "act"]) (JStr "none"); perhaps "unavailable_reason" (VStr 0 None)].
Definition HostVitalsView : vtype :=
  VModel "HostVitalsView" [may "operation" (VLiteral ["host.vitals"]) (JStr "host.vitals"); contract_version;
    need "observed_at" (VStr 0 None); may "vitals" (VList VitalView) (JList [])].
Definition HostServiceMutationView : vtype :=
  VModel "HostServiceMutationView" [need "service_id" (text 1 128); need "operation" (VLiteral MUTATIONS);
    need "enabled" VBool; need "revision" (at_least 1)].

(** [except (KeyError, TypeError, ValidationError)] *)
Definition or_control_error {A} (r : result A) (msg : string) : result A :=
  match r with
  | Raise (KeyError _ | TypeError _ | ValidationError _) => Raise (HostServiceControlError msg 502)
  | r => r
  end.

Section Views.
Context `{PY : !Pydantic} (py_str : json → string).

(** A service of the page; indexing what is not an object is a [TypeError]. *)
Definition service_view (v : json) : result json :=
  match v with
  | JObj o =>
      service_id ← item "service_id" o; required ← item "required" o; enabled ← item "enabled" o;
      revision ← item "revision" o; runtime_state ← item "runtime_state" o;
      let detail := obj_get "detail" o JNull in
      observed_at ← item "observed_at" o;
      make HostServiceView [("service_id", Raw service_id); ("required", Raw required); ("enabled", Raw enabled);
        ("revision", Raw revision); ("runtime_state", Raw runtime_state); ("detail", Raw detail);
        ("observed_at", Raw observed_at)]
  | _ => Raise (TypeError "indices must be integers")
  end.
Definition host_service_inventory (document : obj) : result json :=
  match obj_get "services" document JNull with
  | JList services =>
      or_control_error (vs ← each service_view services; make HostServiceInventoryView [("services", Made (JList vs))])
        "Host service inventory did not match the expected shape"
  | _ => Raise (HostServiceControlError "Host service inventory is unreadable" 502)
  end.
Definition host_service_mutation (document : obj) : result json :=
  or_control_error
    (service_id ← item "service_id" document; operation ← item "operation" document; enabled ← item "enabled" document;
     revision ← item "revision" document;
     make HostServiceMutationView [("service_id", Raw service_id); ("operation", Raw operation); ("enabled", Raw enabled);
       ("revision", Raw revision)])
    "Host service result did not match the expected shape".

(** ** Vitals *)

Definition VITAL_LABELS : list (string * string) :=
  [("disk.state", "存储空间"); ("disk.root", "系统盘"); ("memory.available", "内存"); ("cpu.load1", "处理器负载");
   ("temperature", "温度"); ("uptime", "已运行")].

(** [_ratio_concern] *)
Definition ratio_concern (value : number) (capacity : json) (watch act : number) : result string :=
  match number_of capacity with
  | Some c =>
      if num_leb c (Whole 0) then Ok "none"
      else
        free ← true_div value c;
        Ok (if num_leb (Double free) act then "act" else if num_leb (Double free) watch then "watch" else "none")
  | None => Ok "none"
  end.
(** [_bytes]; nothing is at least a size when it is not a number. *)
Definition UNITS : list (string * Z) := [("TB", 1024 ^ 4); ("GB", 1024 ^ 3); ("MB", 1024 ^ 2)].
Definition bytes_text (v : json) : result string :=
  match number_of v with
  | None => Ok "未知"
  | Some n =>
      match next_or_none (λ u, num_leb (Whole u.2) n) UNITS with
      | Some (unit, size) => q ← true_div n (Whole size); Ok (fixed 1 q +:+ " " +:+ unit)
      | None => z ← truncate_number n; Ok (pretty z +:+ " B")
      end
  end.
(** [_duration] *)
Definition duration (n : number) : result string :=
  seconds ← truncate_number n;
  let days := seconds / 86400 in let rest := seconds mod 86400 in
  let hours := rest / 3600 in let minutes := rest mod 3600 / 60 in
  Ok (if negb (days =? 0) then pretty days +:+ " 天 " +:+ pretty hours +:+ " 小时"
      else if negb (hours =? 0) then pretty hours +:+ " 小时 " +:+ pretty minutes +:+ " 分"
      else pretty minutes +:+ " 分").
Definition graded (value watch act : number) : string :=
  if num_leb act value then "act" else if num_leb watch value then "watch" else "none".
Definition vital_view (label reading : string) (rest : list (string * argument)) : result json :=
  make VitalView ([("name", Raw (JStr label)); ("reading", Raw (JStr reading))] ++ rest).
(** The reading of a space and what it says. *)
Definition space_vital (label : string) (value : number) (v capacity : json) (watch act : number) : result json :=
  free ← bytes_text v; total ← bytes_text capacity;
  concern ← ratio_concern value capacity watch act;
  vital_view label (free +:+ " 可用，共 " +:+ total) [("concern", Raw (JStr concern))].
Definition starts_with (p s : string) : bool :=
  bool_decide (take (String.length p) (list_ascii_of_string s) = list_ascii_of_string p).

(** [_vital] *)
Definition vital (name label : string) (measurement : obj) : result json :=
  let v := obj_get "value" measurement JNull in
  let capacity := obj_get "capacity" measurement JNull in
  match number_of v with
  | None =>
      let reason := obj_get "unavailable_reason" measurement JNull in
      vital_view label "读不到" [("unavailable_reason", Raw (JStr (if json_truthy reason then str_of py_str reason else "")))]
  | Some value =>
      if starts_with "disk." name then space_vital label value v capacity DISK_WATCH DISK_ACT
      else if bool_decide (name = "memory.available") then space_vital label value v capacity MEMORY_WATCH MEMORY_ACT
      else if bool_decide (name = "cpu.load1") then
        let cores := match number_of capacity with Some c => if json_truthy capacity then c else Whole 1 | None => Whole 1 end in
        per_core ← true_div value cores;
        d ← to_double value; n ← truncate_number cores;
        vital_view label (fixed 2 d +:+ "（" +:+ pretty n +:+ " 核）")
          [("concern", Raw (JStr (graded (Double per_core) LOAD_WATCH LOAD_ACT)))]
      else if bool_decide (name = "temperature") then
        d ← to_double value;
        vital_view label (fixed 1 d +:+ "°C") [("concern", Raw (JStr (graded value TEMPERATURE_WATCH TEMPERATURE_ACT)))]
      else reading ← duration value; vital_view label reading []
  end.

(** [host_vitals], of a wire as it dumps. *)
Definition measured (document : obj) : list obj :=
  match obj_get "measurements" document JNull with
  | JList l => omap (λ v, match v with JObj o => Some o | _ => None end) l
  | _ => []
  end.
Definition shown (m : obj) : option (string * string) :=
  match obj_get "name" m JNull with JStr name => label ← dict_get name VITAL_LABELS; Some (name, label) | _ => None end.
Fixpoint vitals_of (ms : list obj) : result (list json) :=
  match ms with
  | [] => Ok []
  | m :: rest =>
      match shown m with
      | Some (name, label) => v ← vital name label m; vs ← vitals_of rest; Ok (v :: vs)
      | None => vitals_of rest
      end
  end.
Definition host_vitals (document : obj) : result json :=
  vs ← vitals_of (measured document);
  observed_at ← item "observed_at" document;
  make HostVitalsView [("observed_at", Raw observed_at); ("vitals", Made (JList vs))].
End Views.

(** ** [AdminHostServicesClient] *)

Section Client.
Context {X : Type} `{!Http X} `{PY : !Pydantic}.
Context (loads : bytes → result json) (base_url service_token : string) (timeout : Z).

Definition control_error (msg : string) (status : Z) : exn := HostServiceControlError msg status.
(** [_request] *)
Definition host_request (method path : string) (body : option doc) : M X obj :=
  response ← catch
    (send (mkHttpRequest method (rstrip_slash base_url +:+ path) timeout (bearer service_token) None body None false))
    (λ e, match e with HttpxTransportError _ => Some (raise (control_error "Host services are unreachable" 503)) | _ => None end);
  let status := response.(status_code) in
  guard_py (status =? 404) (control_error "the Host does not manage this service" 404) ;;
  guard_py (status =? 409) (control_error "the service changed since it was read; refresh and retry" 409) ;;
  guard_py (400 <=? status)
    (control_error "Host service control rejected the request" (if 500 <=? status then 502 else status)) ;;
  match loads response.(content) with
  | Ok (JObj document) => mret document
  | Ok _ => raise (control_error "Host service response was not a JSON object" 502)
  | Raise (ValueError _ | JSONDecodeError _) => raise (control_error "Host service response was not JSON" 502)
  | Raise e => raise e
  end.
(** [Model.model_validate(document)], refused as the contract's violation. *)
Definition wire (model violation : string) (document : obj) : result obj :=
  match sdk_model model (JObj document) with
  | Ok (JObj v) => Ok v
  | Ok _ | Raise (ValidationError _) => Raise (control_error violation 502)
  | Raise e => Raise e
  end.
Definition POWER_VIOLATION : string := "Host power response did not match the shared contract".
Definition read_power : M X obj := document ← host_request "GET" "/api/host/power" None; lift (wire "HostPowerStatusWire" POWER_VIOLATION document).
Definition power_off (request_id : string) : M X obj :=
  document ← host_request "POST" "/api/host/poweroff" (Some (DObj [("request_id", DStr request_id)]));
  accepted ← lift (wire "HostPowerOffAccepted" POWER_VIOLATION document);
  guard_py (negb (says "request_id" request_id accepted)) (control_error POWER_VIOLATION 502) ;;
  mret accepted.
Definition list_services : M X obj := host_request "GET" "/api/host/services" None.
Definition read_monitor : M X obj :=
  document ← host_request "GET" "/api/host/monitor" None;
  lift (wire "HostMonitorWire" "Host monitor did not match the shared contract" document).
Definition read_vitals : M X obj :=
  document ← host_request "GET" "/api/host/vitals" None;
  lift (wire "HostVitalsWire" "Host vitals did not match the shared contract" document).
Definition mutate (service_id operation : string) (expected_revision : Z) : M X obj :=
  host_request "POST" ("/api/host/services/" +:+ quote service_id +:+ "/" +:+ operation)
    (Some (DObj [("expected_revision", DInt expected_revision)])).
End Client.

(** ** host_release.py *)

(** [RELEASE_ID_PATTERN] *)
Definition is_release_char (c : ascii) : bool :=
  let n := N_of_ascii c in
  is_digit c || ((65 <=? n) && (n <=? 90))%N || ((97 <=? n) && (n <=? 122))%N.
Definition is_release_id (s : string) : bool :=
  match list_ascii_of_string s with
  | c :: rest =>
      is_release_char c && (length rest <=? 63)%nat &&
      forallb (λ c, is_release_char c || existsb (λ k, N_of_ascii c =? k)%N [46; 95; 45]%N) rest
  | [] => false
  end.
Definition HostReleaseView : vtype :=
  VModel "HostReleaseView" [may "operation" (VLiteral ["host.release"]) (JStr "host.release"); contract_version;
    need "release_id" (VOpt (VPattern is_release_id))].
Definition RELEASES_ROOT : list string := ["/"; "opt"; "eidolon"; "releases"].
(** [release_of], of the parts of an absolute path. *)
Definition release_of (parts : list string) : option string :=
  if bool_decide (take 4 parts = RELEASES_ROOT) then
    match drop 4 parts with
    | id :: _ :: _ :: _ => if is_release_id id then Some id else None
    | _ => None
    end
  else None.
(** [_loaded_release]: as the path is written, else as it resolves. *)
Definition loaded_release (written resolved : list string) : option string :=
  match release_of written with Some id => Some id | None => release_of resolved end.
