(* ===== verification/ManagementRoutes.v ===== *)
(** * The management surface

    [local_api/management/router.py]: every route of [/api/management/v1], what
    it asks of the management backend, the devices, the machine and the grant
    record, and the view it answers with.  FastAPI's parsing of a request comes
    before; a handler gets what was parsed. *)

From S2P Require Import Prelude Timestamp Encoding Json Lifecycle RemovalIntents RemovalWorkflow Control.
From S2P Require Import Upstream Clients DeviceAdmissions MissionViews MissionControl OwnerDevices.
From S2P Require Import ManagementViews HostMachine.

(** ** Refusals *)

(** [refuse], with the kind its status names. *)
Definition refuse_status (status : Z) (reason : string) : exn := HTTPEnvelope status (refusal_for_status status reason None).
(** [raise _refused(exc)], and what the machine's routes do instead. *)
Definition or_refused {X A} (c : M X A) : M X A :=
  try_map (λ e, match e with ManagementBackendError _ status r => Some (HTTPEnvelope status r) | _ => None end) c.
Definition or_host_refused {X A} (c : M X A) : M X A :=
  try_map (λ e, match e with HostServiceControlError msg status => Some (refuse_status status msg) | _ => None end) c.
(** [_try] *)
Definition try_part {X A} (unavailable : list (string * string)) (part : string) (c : M X A)
    : M X (list (string * string) * option A) :=
  catch (a ← c; mret (unavailable, Some a))
    (λ e, match e with
          | ManagementBackendError msg _ _ | HostServiceControlError msg _ => Some (mret (dict_set part msg unavailable, None))
          | _ => None
          end).

(** ** Parts of the home *)

Section Home.
Context `{PY : !Pydantic} (py_str : json → string).
Abbreviation str_or_empty := (MissionControl.str_or_empty py_str).

(** [row.get(k)]: a row that is not an object has no such method. *)
Definition row_get (k : string) (row : json) : result json :=
  match row with JObj o => Ok (obj_get k o JNull) | _ => Raise (AttributeError "get") end.
(** The rows of a page that may be missing. *)
Definition page_rows (k : string) (page : option obj) : result (list json) :=
  iterate (obj_get k (default [] page) (JList [])).

(** [_last_spoken_at] *)
Definition last_spoken_at (conversations : option obj) : result string :=
  match conversations with
  | None | Some [] => Ok ""
  | Some _ =>
      rows ← page_rows "conversations" conversations;
      match rows with [] => Ok "" | row :: _ => v ← row_get "updated_at" row; Ok (str_or_empty v) end
  end.
(** [int(v or d)] *)
Definition int_or (d : Z) (v : json) : result Z := if json_truthy v then int_of v else Ok d.
(** [_memory_sentence] *)
Definition memory_sentence (library : option obj) : result string :=
  match library with
  | None => Ok ""
  | Some o =>
      entries ← int_or 0 (obj_get "entry_count" o JNull);
      Ok (if (entries =? 0)%Z then "还没记下什么" else "记着 " +:+ pretty entries +:+ " 条")
  end.

Definition tally (p : string → bool) (states : list string) : json := JInt (Z.of_nat (count_where p states)).
Definition counts_view (states : list string) (ready waiting put_away : string → bool) : result json :=
  make HomeCountsView [("total", Raw (JInt (Z.of_nat (length states)))); ("ready", Raw (tally ready states));
    ("waiting", Raw (tally waiting states)); ("put_away", Raw (tally put_away states))].
Definition is_text (t s : string) : bool := bool_decide (s = t).
(** [_companion_counts] *)
Definition companion_counts (roster : option obj) : result json :=
  rows ← page_rows "companions" roster;
  states ← each (λ row, v ← row_get "lifecycle_state" row; Ok (str_or_empty v)) rows;
  counts_view states (is_text "active") (λ s, is_text "retiring" s || is_text "deleting" s) (is_text "archived").

(** [_machine_attention], of the view's vitals. *)
Definition said_of (vital : json) : list string :=
  match vital with
  | JObj v =>
      let name := str_or_empty (obj_get "name" v JNull) in
      if json_truthy (obj_get "unavailable_reason" v JNull) then [name +:+ "：读不到"]
      else match obj_get "concern" v JNull with
           | JStr c => if bool_decide (c ∈ ["watch"; "act"]) then [name +:+ "：" +:+ str_or_empty (obj_get "reading" v JNull)] else []
           | _ => []
           end
  | _ => []
  end.
Definition machine_attention (vitals : option json) : list string :=
  match vitals with
  | Some (JObj view) => match obj_get "vitals" view JNull with JList vs => vs ≫= said_of | _ => [] end
  | _ => []
  end.
End Home.

(** ** Devices *)

(** What is read of the outputs of a device: the SDK's selections, the policy
    once one was decided (inputs, allowed, revision), and its predicate for the
    devices that need one. *)
Class DeviceOutputs (O : Type) `{!Pydantic} := {
  out_capabilities : O → json;
  out_input_capabilities : O → json;
  out_policy : O → option (json * json * Z);
  output_policy_required : O → bool;
  out_capabilities_value o : conforms (VSdk "OutputSelection") (out_capabilities o);
  out_input_value o : conforms (VOpt (VSdk "InputSelection")) (out_input_capabilities o);
  out_policy_value o i a r : out_policy o = Some (i, a, r) →
    conforms (VOpt (VSdk "InputSelection")) i ∧ conforms (VOpt (VSdk "OutputSelection")) a }.

(** [value.isoformat()], and [datetime.fromtimestamp(ms / 1000, UTC)]. *)
Definition isoformat (t : Z) : string :=
  let c := civil_of t in
  string_of_list_ascii (iso_seconds c ++ iso_fraction c.(microsecond)) +:+ "+00:00".
Definition of_unix_ms (ms : Z) : Z := 719162 * 86400000000 + ms * 1000.
(** The last characters of a text. *)
Definition str_last (n : nat) (s : string) : string :=
  let l := code_points s in foldr String.append "" (drop (length l - n) l).
(** [_identifier_tail] *)
Definition identifier_tail (device_id : string) : string :=
  if (str_len device_id <=? 16)%nat then device_id else "…" +:+ str_last 12 device_id.

Definition QUIET_BECAUSE : list (string * string) :=
  [("user_cleared", "you_cleared_it"); ("companion_deleted", "companion_put_away"); ("policy_reconciled", "host_released_it")].

Section Devices.
Context {D O : Type} `{!DeviceReference D} `{PY : !Pydantic} `{OUT : !DeviceOutputs O} (py_str : json → string).
Abbreviation str_or_empty := (MissionControl.str_or_empty py_str).

(** The Companion that answers, when one does. *)
Definition answering (v : LocalDeviceView D O) : option string := or_id v.(dv_body).(bv_answering_companion_id) None.
(** [_device_state] *)
Definition device_state (claim_state : string) (answering : option string) (o : O) : string :=
  if negb (bool_decide (claim_state = "active")) then "access_revoked"
  else match answering with
       | None => "awaiting_companion"
       | Some _ => if bool_decide (out_policy o = None) && output_policy_required o then "awaiting_outputs" else "ready"
       end.
(** [_quiet_because] *)
Definition quiet_because (v : LocalDeviceView D O) : string :=
  match answering v with
  | Some _ => ""
  | None => default "" (dict_get (default "" v.(dv_body).(bv_selection_provenance)) QUIET_BECAUSE)
  end.
(** [_device_counts] *)
Definition home_state (v : LocalDeviceView D O) : string :=
  if negb (bool_decide (v.(dv_claim).(cl_state) = "active")) then "access_revoked"
  else match answering v with Some _ => "ready" | None => "awaiting_companion" end.
Definition device_counts (inventory : option (list (LocalDeviceView D O))) : result json :=
  counts_view (home_state <$> default [] inventory) (is_text "ready") (is_text "awaiting_companion") (is_text "access_revoked").

Definition outputs_view (o : O) : result json :=
  make DeviceOutputsView
    [("capabilities", Made (out_capabilities o)); ("input_capabilities", Made (out_input_capabilities o));
     ("inputs", Made (from (λ p, p.1.1) JNull (out_policy o))); ("allowed", Made (from (λ p, p.1.2) JNull (out_policy o)));
     ("revision", Raw (JInt (from snd 0%Z (out_policy o))))].
(** [_device_view], and the presence [get_devices] puts into it. *)
Definition device_kind (v : LocalDeviceView D O) : string := from fst "" v.(dv_claim).(cl_manifest).
Definition device_view (v : LocalDeviceView D O) (names : list (string * string)) (presence : option json) : result json :=
  let claim := v.(dv_claim) in
  let ref := claim.(cl_device_ref) in
  let id := device_instance_id ref in
  let companion := v.(dv_body).(bv_answering_companion_id) in
  outputs ← outputs_view v.(dv_outputs);
  make DeviceView
    ([("device_id", Raw (JStr id)); ("owner_domain_id", Raw (JStr (owner_domain_id ref)));
      ("label", Raw (JStr (or_str (device_kind v) (identifier_tail id)))); ("kind", Raw (JStr (device_kind v)));
      ("state", Raw (JStr (device_state claim.(cl_state) (answering v) v.(dv_outputs))));
      ("answers_as_companion_id", Raw (jopt companion));
      ("answers_as_companion_name", Raw (JStr (default "" (dict_get (default "" companion) names))));
      ("quiet_because", Raw (JStr (quiet_because v))); ("revision", Raw (JInt v.(dv_body).(bv_assignment_revision)));
      ("mount_revision", Raw (JInt v.(dv_body).(bv_mount_revision))); ("updated_at", Raw (JStr (isoformat claim.(cl_updated_at))));
      ("claim_state", Raw (JStr claim.(cl_state))); ("claim_generation", Raw (JInt (claim_generation ref)));
      ("trust_epoch", Raw (JInt (trust_epoch ref))); ("owner_domain_generation", Raw (JInt (owner_domain_generation ref)));
      ("manifest_id", Raw (JStr (device_kind v)));
      ("manifest_revision", Raw (from (λ m, jint m.2) JNull claim.(cl_manifest))); ("outputs", Made outputs)] ++
     from (λ p, [("presence", Made p)]) [] presence).

(** ** Presence *)

Definition presence_view (args : list (string * argument)) : result json := make DevicePresenceView args.
Definition unseen (reason : string) : result json := presence_view [("reason", Raw (JStr reason))].
(** Every field of the reference that was observed is that of this one. *)
Definition same_reference (ref : D) (v : json) : bool :=
  match v with
  | JObj o =>
      json_eq_str (obj_get "device_instance_id" o JNull) (device_instance_id ref) &&
      json_eq_str (obj_get "owner_domain_id" o JNull) (owner_domain_id ref) &&
      json_eq_int (obj_get "claim_generation" o JNull) (claim_generation ref) &&
      json_eq_int (obj_get "trust_epoch" o JNull) (trust_epoch ref) &&
      json_eq_int (obj_get "owner_domain_generation" o JNull) (owner_domain_generation ref)
  | _ => false
  end.
(** The row speaks for this device and this claim of it. *)
Definition speaks_for (ref : D) (row : json) : option obj :=
  match row with
  | JObj o =>
      if json_eq_str (obj_get "device_id" o JNull) (device_instance_id ref) && same_reference ref (obj_get "device_ref" o JNull)
      then Some o else None
  | _ => None
  end.
Definition FRESH_MS : Z := 15000.
(** One row, at a moment. *)
Definition presence_of_row (now_ms : Z) (o : obj) : result json :=
  match obj_get "observed_at_ms" o JNull with
  | JInt observed =>
      if ((0 <=? now_ms - observed) && (now_ms - observed <? FRESH_MS))%Z then
        match obj_get "on_channel" o JNull with
        | JBool present =>
            presence_view
              [("remaining_ms", Raw (JInt (FRESH_MS - (now_ms - observed))));
               ("state", Raw (JStr (if present : bool then "online" else "offline"))); ("source", Raw (JStr "channel"));
               ("observed_at", Raw (JStr (isoformat (of_unix_ms observed))));
               ("valid_until", Raw (JStr (isoformat (of_unix_ms (observed + FRESH_MS)))));
               ("reason", Raw (JStr (if present : bool then "设备已连接主机" else "设备未连接主机通道")))]
        | _ => presence_view [("source", Raw (JStr "channel")); ("reason", Raw (JStr "暂时无法读取设备通道"))]
        end
      else unseen "设备连接观测已过期"
  | _ => unseen "设备连接观测已过期"
  end.
(** [_reference_presence]; the clock is read when a row speaks for the device. *)
Definition reference_presence {X} (now_ms : M X Z) (ref : D) (observations : obj) : M X json :=
  if json_truthy (obj_get "unavailable" observations JNull) then lift (unseen "设备连接观测暂时不可用")
  else match obj_get "bodies" observations (JList []) with
       | JList rows =>
           match head (omap (speaks_for ref) rows) with
           | Some o => now ← now_ms; lift (presence_of_row now o)
           | None => lift (presence_view [])
           end
       | _ => lift (unseen "设备连接观测格式不兼容")
       end.
End Devices.

(** ** Controllers *)

(** [_controller_view] *)
Definition controller_view `{!Pydantic} (py_str : json → string) (asking : string) (row : json) : result json :=
  match row with
  | JObj o =>
      let text_of k := MissionControl.str_or_empty py_str (obj_get k o JNull) in
      let id := text_of "controller_id" in
      if bool_decide (id = "") then Raise (refuse_status 502 "Host answered with a controller that has no identifier")
      else
        make ControllerView
          [("controller_id", Raw (JStr id)); ("display_name", Raw (JStr (text_of "display_name")));
           ("platform", Raw (JStr (text_of "platform"))); ("role", Raw (JStr (or_str (text_of "role") "unknown")));
           ("fingerprint", Raw (JStr (text_of "public_key_fingerprint"))); ("claimed_at", Raw (JStr (text_of "created_at")));
           ("is_you", Raw (JBool (bool_decide (id = asking))))]
  | _ => Raise (AttributeError "get")
  end.

(** ** The ports *)

(** Arguments in the order of the source; every call is made for the Owner it
    names first. *)
Class ManagementBackendPort (X : Type) := {
  bk_context : string → M X obj;
  bk_device_presence : string → M X obj;
  bk_mission_control_snapshot : string → M X obj;
  bk_session_traces : string → option string → option string → Z → M X obj;
  bk_session_trace : string → string → M X obj;
  bk_mission_control_activities : string → option string → M X obj;
  bk_roster : string → option string → M X obj;
  bk_companion : string → string → M X obj;
  bk_set_default_companion : string → string → Z → M X obj;
  bk_create_companion : string → string → string → string → option doc → option doc → option string → option string → M X obj;
  bk_persona_authoring_template : M X obj;
  bk_preview_persona : string → list (string * doc) → M X obj;
  bk_persona_presets : M X obj;
  bk_activity : string → option Z → option Z → M X obj;
  bk_companion_face_state : string → string → M X obj;
  bk_companion_face : string → string → option string → M X (Z * bytes * option string);
  bk_set_companion_face : string → string → bytes → M X obj;
  bk_clear_companion_face : string → string → M X obj;
  bk_rename_owner : string → string → M X obj;
  bk_set_companion_lifecycle : string → string → string → option string → option Z → M X obj;
  bk_memory_library : string → option string → M X obj;
  bk_memory_graph : string → option string → option string → bool → M X obj;
  bk_memory_entries : string → string → option Z → option string → option string → M X obj;
  bk_memory_export : string → option string → option string → option string → M X obj;
  bk_revoke_runtime_sessions : string → M X obj;
  bk_conversations : string → string → option Z → option string → M X obj;
  bk_transcript : string → string → string → option Z → option string → M X obj;
  bk_tasks : string → string → option Z → option string → option string → M X obj;
  bk_task : string → string → string → M X obj;
  bk_task_action : string → string → string → string → M X obj;
  bk_persona_history : string → string → M X obj;
  bk_persona : string → string → M X obj;
  bk_author_persona : string → string → list (string * doc) → M X obj;
  bk_recollections : string → string → Z → option string → M X obj;
  bk_forget_preview : string → string → M X obj;
  bk_forget_status : string → string → M X obj;
  bk_forget_confirm : string → string → M X obj }.
(** [S]: what a device is allowed to present, with the inputs when they are named. *)
Class OwnerDevicePort (D O S X : Type) := {
  od_presence_domain : DeviceSession → M X string;
  od_list_devices : DeviceSession → M X (list (LocalDeviceView D O));
  od_remove_device : DeviceSession → string → string → M X LocalDeviceRemovalProgress;
  od_set_device_companion : DeviceSession → string → option string → Z → string → M X (LocalDeviceView D O);
  od_set_device_outputs : DeviceSession → string → S → Z → M X (LocalDeviceView D O) }.
Class HostMachinePort (X : Type) := {
  host_list_services : M X obj;
  host_read_vitals : M X obj;
  host_read_monitor : M X obj;
  host_read_power : M X obj;
  host_power_off : string → M X obj;
  host_mutate : string → string → Z → M X obj }.
Class ControllerDirectoryPort (X : Type) := {
  directory_list_controllers : string → M X obj;
  directory_revoke_controller : string → string → M X obj }.
(** What the composition root supplies: the Owner of a request's session, the
    Controller, and the whole device session. *)
Class SurfaceAuthentication (X : Type) := {
  authenticated_owner : option string → M X string;
  authenticated_controller_id : option string → M X string;
  authenticated_controller_session : option string → M X DeviceSession }.

(** What a client gets: a document with the headers set on it, or a response
    of its own. *)
Inductive reply :=
| Answer (headers : list (string * string)) (v : json)
| Response (status : Z) (content : option bytes) (headers : list (string * string)).
Definition answer_with (r : result json) : result reply := v ← r; Ok (Answer [] v).
Definition no_store : list (string * string) := [("Cache-Control", "no-store")].

Record CompanionCreateRequest := mkCreateRequest {
  cq_operation_id : string; cq_display_name : string; cq_kind : string; cq_persona : option doc; cq_preferences : option doc;
  cq_source_preset_id : option string; cq_source_preset_revision : option string }.

(** [RenameRequest._must_be_a_name] *)
Definition must_be_a_name (value : string) : result string :=
  let name := strip value in if bool_decide (name = "") then Raise (ValidationError "display_name cannot be blank") else Ok name.
(** [_position] *)
Definition position (cursor : option string) : result (option Z) :=
  match cursor with None => Ok None | Some s => z ← int_of_str s; Ok (Some z) end.

Definition DEVICE_COVERAGE : string :=
  "只包含已经属于你的设备。还在等你确认的设备是另一份清单。连接状态来自设备通道的实时观测；在线表示设备已连接主机，不代表正在通话。没有可观测通道或观测失败时显示未知。".

Section Routes.
Context {D O S X : Type} `{!DeviceReference D} `{PY : !Pydantic} `{OUT : !DeviceOutputs O}.
Context `{!ManagementBackendPort X} `{DP : !OwnerDevicePort D O S X} `{!HostMachinePort X} `{!ControllerDirectoryPort X}
  `{AU : !SurfaceAuthentication X}.
(** [str] of a JSON value, the wall clock, the reference read back from an
    observation, and the release this process runs. *)
Context (py_str : json → string) (now_ms : M X Z) (device_ref_of : obj → result D) (running_release : option string).

Abbreviation str_or_empty := (MissionControl.str_or_empty py_str).

(** A read or a command for the Owner of the session, and its view. *)
Definition for_owner (authorization : option string) (call : string → M X obj) (view : obj → result json) : M X reply :=
  owner ← authenticated_owner authorization;
  answer ← or_refused (call owner);
  lift (answer_with (view answer)).
(** The same for a document that is passed on as it is. *)
Definition untyped (answer : obj) : result json := Ok (JObj answer).
(** A member that may be missing, and one that may be [None]. *)
Definition opt_item (k : string) (o : obj) : json := obj_get k o JNull.
(** Members taken as they are. *)
Fixpoint items (ks : list string) (o : obj) : result (list (string * argument)) :=
  match ks with [] => Ok [] | k :: rest => v ← item k o; vs ← items rest o; Ok ((k, Raw v) :: vs) end.
Definition made (k : string) (v : json) : list (string * argument) := [(k, Made v)].
Definition raws (k : string) (v : json) : list (string * argument) := [(k, Raw v)].
Definition rows_of (view : vtype) (k : string) (o : obj) : result json := v ← item k o; rows view v.

(** ** Context, maps and traces *)

Definition context_view (answer : obj) : result json :=
  owner_id ← item "owner_id" answer; display_name ← item "owner_display_name" answer; revision ← item "owner_revision" answer;
  owner ← make OwnerContextView (raws "owner_id" owner_id ++ raws "display_name" display_name ++ raws "revision" revision);
  default_id ← item "default_companion_id" answer; capabilities ← item "capabilities" answer;
  let unavailable := obj_get "unavailable" answer JNull in
  limits ← item "limits" answer;
  make ManagementContextView
    (made "owner" owner ++ raws "default_companion_id" default_id ++ raws "capabilities" capabilities ++
     raws "unavailable" (if json_truthy unavailable then unavailable else JObj []) ++ raws "limits" limits).
Definition get_context (a : option string) : M X reply := for_owner a bk_context context_view.

(** A device view as the join reads it. *)
Definition join_row (v : json) : MissionControl.DeviceView :=
  let o := match v with JObj o => o | _ => [] end in
  let text_of k := match obj_get k o JNull with JStr s => s | _ => "" end in
  MissionControl.mkDeviceView (text_of "device_id") (text_of "label") (text_of "kind")
    (match obj_get "answers_as_companion_id" o JNull with JStr s => Some s | _ => None end).
Fixpoint device_views (names : list (string * string)) (devices : list (LocalDeviceView D O)) : result (list json) :=
  match devices with
  | [] => Ok []
  | d :: rest => v ← device_view d names None; vs ← device_views names rest; Ok (v :: vs)
  end.
Definition get_mission_control_snapshot (a : option string) : M X reply :=
  session ← authenticated_controller_session a;
  snapshot ← or_refused (bk_mission_control_snapshot session.(ds_owner_id));
  inventory ← catch (devices ← od_list_devices (D:=D) (O:=O) (S:=S) session; vs ← lift (device_views [] devices); mret (inl (join_row <$> vs)))
                (λ e, match e with ManagementBackendError msg _ _ => Some (mret (inr msg)) | _ => None end);
  mret (Answer [] (JObj (owner_map py_str snapshot inventory))).

Definition for_session (a : option string) (call : string → M X obj) : M X reply :=
  session ← authenticated_controller_session a;
  answer ← or_refused (call session.(ds_owner_id));
  lift (answer_with (untyped answer)).
Definition get_session_traces (companion_id since : option string) (limit : Z) (a : option string) : M X reply :=
  for_session a (λ owner, bk_session_traces owner companion_id since limit).
Definition get_session_trace (session_id : string) (a : option string) : M X reply :=
  for_session a (λ owner, bk_session_trace owner session_id).
Definition get_mission_control_activities (cursor : option string) (a : option string) : M X reply :=
  for_session a (λ owner, bk_mission_control_activities owner cursor).

(** ** The home *)

Definition home_view (context : obj) (unavailable : list (string * string)) (roster : option obj)
    (inventory : option (list (LocalDeviceView D O))) (vitals memory : option obj) : result json :=
  owner_revision ← int_or 1 (obj_get "owner_revision" context JNull);
  companions ← (l ← page_rows "companions" roster; vs ← each (construct CompanionSummaryView) l; Ok (JList vs));
  let default_id := obj_get "default_companion_id" context JNull in
  remembered ← memory_sentence memory;
  companion_counts ← companion_counts py_str roster;
  devices ← device_counts inventory;
  vitals_view ← match vitals with None => Ok None | Some w => v ← host_vitals py_str w; Ok (Some v) end;
  make HomeView
    (raws "owner_display_name" (JStr (str_or_empty (obj_get "owner_display_name" context JNull))) ++
     raws "owner_revision" (JInt owner_revision) ++ made "companions" companions ++
     raws "default_companion_id" (if json_truthy default_id then JStr (Upstream.str_of py_str default_id) else JNull) ++
     raws "activity_unavailable" (JStr (str_or_empty (obj_get "activity_unavailable" (default [] roster) JNull))) ++
     raws "more_companions" (JBool (json_truthy (obj_get "next_cursor" (default [] roster) JNull))) ++
     raws "memory" (JStr remembered) ++ made "companion_counts" companion_counts ++ made "devices" devices ++
     raws "machine_attention" (JList (JStr <$> machine_attention py_str vitals_view)) ++
     raws "unavailable" (JObj ((λ p, (p.1, JStr p.2)) <$> unavailable))).
Definition get_home (a : option string) : M X reply :=
  session ← authenticated_controller_session a;
  let owner := session.(ds_owner_id) in
  context ← or_refused (bk_context owner);
  '(unavailable, roster) ← try_part [] "companions" (bk_roster owner None);
  '(unavailable, inventory) ← try_part unavailable "devices" (od_list_devices (D:=D) (O:=O) (S:=S) session);
  '(unavailable, vitals) ← try_part unavailable "machine" host_read_vitals;
  '(unavailable, memory) ← try_part unavailable "memory" (bk_memory_library owner None);
  lift (answer_with (home_view context unavailable roster inventory vitals memory)).

(** ** Devices *)

(** [_companion_names] *)
Fixpoint names_of (rows : list json) (names : list (string * string)) : result (list (string * string)) :=
  match rows with
  | [] => Ok names
  | row :: rest =>
      id ← row_get "companion_id" row; name ← row_get "display_name" row;
      names_of rest (dict_set (Upstream.str_of py_str id) (str_or_empty name) names)
  end.
Definition companion_names (owner : string) : M X (list (string * string)) :=
  page ← catch (p ← bk_roster owner None; mret (Some p))
           (λ e, match e with ManagementBackendError _ _ _ => Some (mret None) | _ => None end);
  match page with
  | None => mret []
  | Some p => lift (l ← page_rows "companions" (Some p); names_of l [])
  end.

Definition device_domain (v : LocalDeviceView D O) : string := owner_domain_id v.(dv_claim).(cl_device_ref).
(** [sorted({...})] *)
Definition domains_of (inventory : list (LocalDeviceView D O)) : list string :=
  sort_by str_leb (remove_dups (device_domain <$> inventory)).
Definition out_of_sight : obj := [("bodies", JList []); ("unavailable", JBool true)].
Fixpoint observations_of (domains : list string) : M X (list (string * obj)) :=
  match domains with
  | [] => mret []
  | d :: rest =>
      o ← catch (bk_device_presence d)
            (λ e, match e with ManagementBackendError _ _ _ => Some (mret out_of_sight) | _ => None end);
      os ← observations_of rest;
      mret ((d, o) :: os)
  end.
Fixpoint device_rows (names : list (string * string)) (observations : list (string * obj)) (devices : list (LocalDeviceView D O))
    : M X (list json) :=
  match devices with
  | [] => mret []
  | d :: rest =>
      (* constructed before its presence is looked up *)
      lift (device_view d names None) ;;
      o ← lift (match dict_get (device_domain d) observations with Some o => Ok o | None => Raise (KeyError (device_domain d)) end);
      presence ← reference_presence now_ms d.(dv_claim).(cl_device_ref) o;
      v ← lift (device_view d names (Some presence));
      vs ← device_rows names observations rest;
      mret (v :: vs)
  end.
Definition get_devices (a : option string) : M X reply :=
  session ← authenticated_controller_session a;
  inventory ← or_refused (od_list_devices (D:=D) (O:=O) (S:=S) session);
  names ← companion_names session.(ds_owner_id);
  observations ← observations_of (domains_of inventory);
  vs ← device_rows names observations inventory;
  lift (answer_with (make DevicesView (made "devices" (JList vs) ++ raws "coverage" (JStr DEVICE_COVERAGE)))).

(** One row of [get_device_presences]: skipped unless it is of this domain and
    its reference reads. *)
Definition presence_row (domain : string) (row : json) : M X (option json) :=
  match row with
  | JObj o =>
      match obj_get "device_ref" o JNull with
      | JObj raw =>
          if json_eq_str (obj_get "owner_domain_id" raw JNull) domain then
            match device_ref_of raw with
            | Ok ref =>
                presence ← reference_presence now_ms ref [("bodies", JList [row])];
                v ← lift (make DevicePresenceRow
                      (raws "device_id" (JStr (device_instance_id ref)) ++ raws "owner_domain_id" (JStr domain) ++
                       raws "owner_domain_generation" (JInt (owner_domain_generation ref)) ++
                       raws "claim_generation" (JInt (claim_generation ref)) ++ raws "trust_epoch" (JInt (trust_epoch ref)) ++
                       made "presence" presence));
                mret (Some v)
            | Raise (ValidationError _ | ValueError _) => mret None
            | Raise e => raise e
            end
          else mret None
      | _ => mret None
      end
  | _ => mret None
  end.
Fixpoint presence_table (domain : string) (rows : list json) : M X (list json) :=
  match rows with
  | [] => mret []
  | row :: rest =>
      v ← presence_row domain row;
      vs ← presence_table domain rest;
      mret (match v with Some v => v :: vs | None => vs end)
  end.
Definition get_device_presences (a : option string) : M X reply :=
  session ← authenticated_controller_session a;
  domain ← od_presence_domain (D:=D) (O:=O) (S:=S) session;
  observations ← or_refused (bk_device_presence domain);
  l ← lift (iterate (obj_get "bodies" observations (JList [])));
  vs ← presence_table domain l;
  lift (answer_with (make DevicePresencesView (made "devices" (JList vs)))).

(** A command on a device, and the device as it is then. *)
Definition device_reply (session : DeviceSession) (d : LocalDeviceView D O) : M X reply :=
  names ← companion_names session.(ds_owner_id);
  lift (answer_with (device_view d names None)).
Definition put_device_companion (device_id : string) (companion_id : option string) (expected_revision : Z) (request_id : string)
    (a : option string) : M X reply :=
  session ← authenticated_controller_session a;
  device ← or_refused (od_set_device_companion (D:=D) (O:=O) (S:=S) session device_id companion_id expected_revision request_id);
  device_reply session device.
Definition put_device_outputs (device_id : string) (allowed : S) (expected_revision : Z) (a : option string) : M X reply :=
  session ← authenticated_controller_session a;
  device ← or_refused (od_set_device_outputs (D:=D) (O:=O) session device_id allowed expected_revision);
  device_reply session device.

Definition condition_view (c : RemovalCondition) : result json :=
  make DeviceRemovalConditionView
    (raws "name" (JStr c.(cond_name)) ++ raws "state" (JStr c.(cond_state)) ++ raws "authority" (JStr c.(cond_authority)) ++
     raws "observed_at" (JStr (isoformat c.(RemovalWorkflow.observed_at)))).
Fixpoint condition_views (cs : list RemovalCondition) : result (list json) :=
  match cs with [] => Ok [] | c :: rest => v ← condition_view c; vs ← condition_views rest; Ok (v :: vs) end.
Definition removal_view (p : LocalDeviceRemovalProgress) : result json :=
  conditions ← condition_views p.(pr_conditions);
  make DeviceRemovalView
    (raws "device_id" (JStr p.(pr_device_id)) ++ raws "request_id" (JStr p.(pr_request_id)) ++
     raws "outcome" (JStr p.(pr_outcome)) ++ made "conditions" (JList conditions)).
Definition route_remove_device (device_id request_id : string) (a : option string) : M X reply :=
  session ← authenticated_controller_session a;
  progress ← or_refused (od_remove_device (D:=D) (O:=O) (S:=S) session device_id request_id);
  lift (answer_with (removal_view progress)).

(** ** History *)

Definition activity_view (answer : obj) : result json :=
  position ← item "next_cursor" answer;
  moments ← rows_of ActivityMomentView "moments" answer;
  make ActivityView
    (made "moments" moments ++
     raws "next_cursor" (match position with JNull => JNull | v => JStr (Upstream.str_of py_str v) end)).
Definition get_activity (limit : option Z) (cursor : option string) (a : option string) : M X reply :=
  for_owner a (λ owner, before ← lift (position cursor); bk_activity owner limit before) activity_view.

(** ** The machine *)

Definition for_machine (a : option string) (call : M X obj) (headers : list (string * string)) (view : obj → result json) : M X reply :=
  authenticated_controller_id a ;;
  v ← or_host_refused (document ← call; lift (view document));
  mret (Answer headers v).
Definition read_host_power (a : option string) : M X reply := for_machine a host_read_power no_store untyped.
Definition power_off_host (request_id : string) (a : option string) : M X reply :=
  for_machine a (host_power_off request_id) no_store untyped.
Definition read_host_monitor (a : option string) : M X reply := for_machine a host_read_monitor no_store untyped.
Definition read_host_vitals (a : option string) : M X reply := for_machine a host_read_vitals [] (host_vitals py_str).
Definition read_host_release (a : option string) : M X reply :=
  authenticated_controller_id a ;;
  lift (v ← make HostReleaseView (raws "release_id" (jopt running_release)); Ok (Answer no_store v)).
Definition read_host_services (a : option string) : M X reply := for_machine a host_list_services [] host_service_inventory.
Definition operate_host_service (service_id operation : string) (expected_revision : Z) (a : option string) : M X reply :=
  for_machine a (host_mutate service_id operation expected_revision) [] host_service_mutation.

(** ** Controllers *)

Definition list_controllers (a : option string) : M X reply :=
  asking ← authenticated_controller_id a;
  answer ← directory_list_controllers asking;
  lift (answer_with
    (l ← iterate (obj_get "controllers" answer (JList []));
     vs ← each (controller_view py_str asking) l;
     make ControllersView (made "controllers" (JList vs)))).
Definition route_revoke_controller (controller_id : string) (a : option string) : M X reply :=
  asking ← authenticated_controller_id a;
  answer ← directory_revoke_controller asking controller_id;
  lift (answer_with (controller_view py_str asking (obj_get "controller" answer (JObj [])))).

(** ** Companions *)

Definition roster_view (answer : obj) : result json :=
  default_id ← item "default_companion_id" answer; companions ← rows_of CompanionSummaryView "companions" answer;
  next_cursor ← item "next_cursor" answer;
  make CompanionRosterView
    (raws "default_companion_id" default_id ++ made "companions" companions ++ raws "next_cursor" next_cursor ++
     raws "activity_unavailable" (obj_get "activity_unavailable" answer (JStr ""))).
Definition list_companions (cursor : option string) (a : option string) : M X reply :=
  for_owner a (λ owner, bk_roster owner cursor) roster_view.

Definition detail_view (answer : obj) (aside : list (string * string)) (latest : option obj) : result json :=
  fields ← items ["companion_id"; "display_name"; "kind"; "lifecycle_state"; "revision"; "is_default"] answer;
  spoken ← last_spoken_at py_str latest;
  make CompanionDetailView
    (fields ++ raws "last_active_at" (JStr spoken) ++
     raws "activity_unavailable" (JStr (if bool_decide (is_Some (dict_get "conversations" aside)) then "runtime_unreachable" else ""))).
Definition get_companion (companion_id : string) (a : option string) : M X reply :=
  owner ← authenticated_owner a;
  answer ← or_refused (bk_companion owner companion_id);
  '(aside, latest) ← try_part [] "conversations" (bk_conversations owner companion_id (Some 1%Z) None);
  lift (answer_with (detail_view answer aside latest)).

(** A view whose fields are members of the answer. *)
Definition copied (view : vtype) (ks : list string) (answer : obj) : result json := args ← items ks answer; make view args.

Definition put_default_companion (companion_id : string) (expected_revision : Z) (a : option string) : M X reply :=
  for_owner a (λ owner, bk_set_default_companion owner companion_id expected_revision)
    (copied DefaultCompanionView ["default_companion_id"]).

(** What anybody may see who holds the Host, and the SDK's models of a persona. *)
Definition for_holder (a : option string) (call : M X obj) (view : obj → result json) : M X reply :=
  authenticated_controller_id a ;;
  answer ← or_refused call;
  lift (answer_with (view answer)).
Definition of_sdk (model : string) (answer : obj) : result json := validate (VSdk model) (JObj answer).
Definition get_persona_authoring_template (a : option string) : M X reply :=
  for_holder a bk_persona_authoring_template (of_sdk "PersonaAuthoring").
Definition preview_persona (payload : list (string * doc)) (a : option string) : M X reply :=
  for_owner a (λ owner, bk_preview_persona owner payload) (of_sdk "PersonaPreviewResponse").
Definition get_persona_presets (a : option string) : M X reply := for_holder a bk_persona_presets (of_sdk "PersonaPresetCatalog").

Definition create_companion (p : CompanionCreateRequest) (a : option string) : M X reply :=
  for_owner a
    (λ owner, bk_create_companion owner p.(cq_operation_id) p.(cq_display_name) p.(cq_kind) p.(cq_persona) p.(cq_preferences)
                p.(cq_source_preset_id) p.(cq_source_preset_revision))
    (copied CompanionCreatedView
       ["companion_id"; "display_name"; "kind"; "lifecycle_state"; "revision"; "created"; "memory_ready"]).

Definition face_view : obj → result json := copied CompanionFaceView ["companion_id"; "has_face"; "sha256"; "updated_at"].
Definition get_companion_face_state (companion_id : string) (a : option string) : M X reply :=
  for_owner a (λ owner, bk_companion_face_state owner companion_id) face_view.
Definition get_companion_face (companion_id : string) (if_none_match : option string) (a : option string) : M X reply :=
  owner ← authenticated_owner a;
  '(status, content, etag) ← or_refused (bk_companion_face owner companion_id if_none_match);
  let headers := given_nonempty "ETag" etag in
  mret (if (status =? 304)%Z then Response 304 None headers
        else if (status =? 204)%Z || bool_decide (content = []) then Response 204 None []
        else Response 200 (Some content) (("Content-Type", "image/jpeg") :: headers)).
Definition put_companion_face (companion_id : string) (face : bytes) (a : option string) : M X reply :=
  for_owner a (λ owner, bk_set_companion_face owner companion_id face) face_view.
Definition delete_companion_face (companion_id : string) (a : option string) : M X reply :=
  for_owner a (λ owner, bk_clear_companion_face owner companion_id) face_view.
Definition patch_companion (companion_id display_name : string) (a : option string) : M X reply :=
  authenticated_owner a ;; raise (refuse_status 410 "Use versioned PUT /persona with action=rename").
Definition patch_owner (display_name : string) (a : option string) : M X reply :=
  for_owner a (λ owner, bk_rename_owner owner display_name) (copied OwnerNameView ["owner_id"; "display_name"; "revision"]).

Definition lifecycle_view (answer : obj) : result json :=
  fields ← items ["companion_id"; "lifecycle_state"; "revision"; "default_companion_id"] answer;
  released ← iterate (obj_get "released_devices" answer (JList []));
  make CompanionLifecycleView (fields ++ raws "released_devices" (JList released)).
Definition put_companion_lifecycle (companion_id lifecycle_state : string) (replacement : option string)
    (expected_revision : option Z) (a : option string) : M X reply :=
  for_owner a (λ owner, bk_set_companion_lifecycle owner companion_id lifecycle_state replacement expected_revision) lifecycle_view.

(** ** Memory *)

Definition library_view (answer : obj) : result json :=
  scope ← item "audience_scope" answer; wings ← rows_of MemoryWingView "wings" answer;
  rest ← items ["entry_count"; "withheld_count"; "truncated"] answer;
  make MemoryLibraryView (raws "audience_scope" scope ++ made "wings" wings ++ rest).
Definition get_memory_library (companion_id : option string) (a : option string) : M X reply :=
  for_owner a (λ owner, bk_memory_library owner companion_id) library_view.
Definition graph_view (answer : obj) : result json :=
  nodes ← rows_of MemoryGraphNodeView "nodes" answer; edges ← rows_of MemoryGraphEdgeView "edges" answer;
  rest ← items ["truncated"; "next_cursor"; "history"] answer;
  make MemoryGraphView (made "nodes" nodes ++ made "edges" edges ++ rest).
Definition get_memory_graph (companion_id cursor : option string) (history : bool) (a : option string) : M X reply :=
  for_owner a (λ owner, bk_memory_graph owner companion_id cursor history) graph_view.
Definition proposal_view (answer : obj) : result json :=
  head ← items ["status"; "target"] answer; entries ← rows_of ForgetEntryView "entries" answer;
  needed ← items ["needs_confirmation"] answer;
  make ForgetProposalView
    (head ++ made "entries" entries ++ needed ++ raws "confirmation_token" (opt_item "confirmation_token" answer) ++
     raws "expires_at" (opt_item "expires_at" answer) ++ raws "detail" (obj_get "detail" answer (JStr ""))).
Definition preview_forget (target : string) (a : option string) : M X reply :=
  for_owner a (λ owner, bk_forget_preview owner target) proposal_view.
Definition confirm_forget (confirmation_token : string) (a : option string) : M X reply :=
  for_owner a (λ owner, bk_forget_confirm owner confirmation_token)
    (copied ForgetResultView ["request_id"; "target"; "entry_count"; "status"]).
Definition route_forget_status (request_id : string) (a : option string) : M X reply :=
  for_owner a (λ owner, bk_forget_status owner request_id) (copied ForgetProgressView ["request_id"; "status"]).
Definition recollections_view (answer : obj) : result json :=
  query ← item "query" answer; found ← rows_of RecollectionView "recollections" answer;
  make RecollectionsView (raws "query" query ++ made "recollections" found).
Definition get_memory_recollections (q : string) (limit : Z) (companion_id : option string) (a : option string) : M X reply :=
  for_owner a (λ owner, bk_recollections owner q limit companion_id) recollections_view.
Definition copy_view (answer : obj) : result json :=
  taken_at ← item "taken_at" answer; records ← rows_of MemoryExportRecordView "records" answer;
  rest ← items ["record_count"; "undated_count"; "truncated"] answer;
  make MemoryCopyView (raws "taken_at" taken_at ++ made "records" records ++ rest).
Definition get_memory_export (companion_id wing room : option string) (a : option string) : M X reply :=
  for_owner a (λ owner, bk_memory_export owner companion_id wing room) copy_view.
Definition day_view (answer : obj) : result json :=
  since ← item "since" answer;
  let next_cursor := opt_item "next_cursor" answer in
  entries ← rows_of MemoryEntryView "entries" answer;
  rest ← items ["entry_count"; "more_in_window"; "undated_count"; "truncated"] answer;
  make MemoryDayView (raws "since" since ++ raws "next_cursor" next_cursor ++ made "entries" entries ++ rest).
Definition get_memory_entries (since : string) (limit : option Z) (companion_id cursor : option string) (a : option string) : M X reply :=
  for_owner a (λ owner, bk_memory_entries owner since limit companion_id cursor) day_view.

(** ** Sessions, conversations and tasks *)

Definition post_revoke_runtime_sessions (a : option string) : M X reply :=
  for_owner a bk_revoke_runtime_sessions (copied RevokedSessionsView ["revoked_at"]).
Definition conversations_view (answer : obj) : result json :=
  companion_id ← item "companion_id" answer; found ← rows_of ConversationView "conversations" answer;
  make ConversationPageView
    (raws "companion_id" companion_id ++ made "conversations" found ++ raws "next_cursor" (opt_item "next_cursor" answer)).
Definition get_companion_conversations (companion_id : string) (limit : option Z) (cursor : option string) (a : option string)
    : M X reply :=
  for_owner a (λ owner, bk_conversations owner companion_id limit cursor) conversations_view.
(** [turn["turn_id"]] and the rest, of a turn that is an object. *)
Definition transcript_turn (turn : json) : result json :=
  match turn with
  | JObj o =>
      fields ← items ["turn_id"; "started_at"; "finished_at"; "status"] o;
      messages ← rows_of SpokenMessageView "messages" o;
      make TranscriptTurnView (fields ++ made "messages" messages)
  | _ => Raise (TypeError "indices must be integers")
  end.
Definition transcript_view (answer : obj) : result json :=
  conversation_id ← item "conversation_id" answer;
  turns ← item "turns" answer; l ← iterate turns; vs ← each transcript_turn l;
  make TranscriptView
    (raws "conversation_id" conversation_id ++ made "turns" (JList vs) ++ raws "next_cursor" (opt_item "next_cursor" answer)).
Definition get_conversation_transcript (companion_id conversation_id : string) (limit : option Z) (cursor : option string)
    (a : option string) : M X reply :=
  for_owner a (λ owner, bk_transcript owner companion_id conversation_id limit cursor) transcript_view.
(** [_task_page_view] *)
Definition task_page_view (answer : obj) : result json :=
  companion_id ← item "companion_id" answer; found ← rows_of TaskView "tasks" answer;
  make TaskPageView (raws "companion_id" companion_id ++ made "tasks" found ++ raws "next_cursor" (opt_item "next_cursor" answer)).
Definition get_companion_tasks (companion_id : string) (limit : option Z) (status cursor : option string) (a : option string)
    : M X reply :=
  for_owner a (λ owner, bk_tasks owner companion_id limit status cursor) task_page_view.
Definition task_view (answer : obj) : result json := construct TaskView (JObj answer).
Definition get_companion_task (companion_id task_id : string) (a : option string) : M X reply :=
  for_owner a (λ owner, bk_task owner companion_id task_id) task_view.
(** [_task_action] *)
Definition route_task_action (companion_id task_id action : string) (a : option string) : M X reply :=
  for_owner a (λ owner, bk_task_action owner companion_id task_id action) task_view.

(** ** Personas *)

Definition get_persona (companion_id : string) (a : option string) : M X reply :=
  for_owner a (λ owner, bk_persona owner companion_id) (of_sdk "PersonaEditSnapshot").
(** [put_persona], after its dependency authenticated the request once. *)
Definition put_persona (companion_id : string) (payload : list (string * doc)) (a : option string) : M X reply :=
  authenticated_owner a ;;
  for_owner a (λ owner, bk_author_persona owner companion_id payload) (of_sdk "PersonaEditSnapshot").
(** [_persona_history_view] *)
Definition persona_history_view (answer : obj) : result json :=
  companion_id ← item "companion_id" answer; chapters ← rows_of PersonaChapterView "chapters" answer;
  make PersonaHistoryView (raws "companion_id" companion_id ++ made "chapters" chapters).
Definition get_persona_history (companion_id : string) (a : option string) : M X reply :=
  for_owner a (λ owner, bk_persona_history owner companion_id) persona_history_view.
Definition put_persona_restoration (companion_id chapter_id : string) (a : option string) : M X reply :=
  authenticated_owner a ;; raise (refuse_status 410 "Use versioned PUT /persona with action=restore").

(** ** The surface *)

Inductive Route :=
| GetContext | GetMissionControlSnapshot | GetSessionTraces (companion_id since : option string) (limit : Z)
| GetSessionTrace (session_id : string) | GetMissionControlActivities (cursor : option string) | GetHome | GetDevices
| GetDevicePresences | PutDeviceCompanion (device_id : string) (companion_id : option string) (revision : Z) (request_id : string)
| PutDeviceOutputs (device_id : string) (allowed : S) (revision : Z) | RemoveDevice (device_id request_id : string)
| GetActivity (limit : option Z) (cursor : option string) | ReadHostPower | PowerOffHost (request_id : string)
| ReadHostMonitor | ReadHostVitals | ReadHostRelease | ReadHostServices
| OperateHostService (service_id operation : string) (revision : Z) | ListControllers | RevokeController (controller_id : string)
| ListCompanions (cursor : option string) | GetCompanion (companion_id : string)
| PutDefaultCompanion (companion_id : string) (revision : Z) | GetPersonaAuthoringTemplate
| PreviewPersona (payload : list (string * doc)) | GetPersonaPresets | CreateCompanion (p : CompanionCreateRequest)
| GetCompanionFaceState (companion_id : string) | GetCompanionFace (companion_id : string) (if_none_match : option string)
| PutCompanionFace (companion_id : string) (face : bytes) | DeleteCompanionFace (companion_id : string)
| PatchCompanion (companion_id display_name : string) | PatchOwner (display_name : string)
| PutCompanionLifecycle (companion_id state : string) (replacement : option string) (revision : option Z)
| GetMemoryLibrary (companion_id : option string) | GetMemoryGraph (companion_id cursor : option string) (history : bool)
| PreviewForget (target : string) | ConfirmForget (token : string) | ForgetStatus (request_id : string)
| GetMemoryRecollections (q : string) (limit : Z) (companion_id : option string)
| GetMemoryExport (companion_id wing room : option string)
| GetMemoryEntries (since : string) (limit : option Z) (companion_id cursor : option string) | PostRevokeRuntimeSessions
| GetCompanionConversations (companion_id : string) (limit : option Z) (cursor : option string)
| GetConversationTranscript (companion_id conversation_id : string) (limit : option Z) (cursor : option string)
| GetCompanionTasks (companion_id : string) (limit : option Z) (status cursor : option string)
| GetCompanionTask (companion_id task_id : string) | PostCompanionTaskCancel (companion_id task_id : string)
| PostCompanionTaskRetry (companion_id task_id : string) | GetPersona (companion_id : string)
| PutPersona (companion_id : string) (payload : list (string * doc)) | GetPersonaHistory (companion_id : string)
| PutPersonaRestoration (companion_id chapter_id : string).

Definition serve (r : Route) (a : option string) : M X reply :=
  match r with
  | GetContext => get_context a | GetMissionControlSnapshot => get_mission_control_snapshot a
  | GetSessionTraces c s l => get_session_traces c s l a | GetSessionTrace s => get_session_trace s a
  | GetMissionControlActivities c => get_mission_control_activities c a | GetHome => get_home a | GetDevices => get_devices a
  | GetDevicePresences => get_device_presences a | PutDeviceCompanion d c n i => put_device_companion d c n i a
  | PutDeviceOutputs d s n => put_device_outputs d s n a | RemoveDevice d i => route_remove_device d i a
  | GetActivity l c => get_activity l c a | ReadHostPower => read_host_power a | PowerOffHost i => power_off_host i a
  | ReadHostMonitor => read_host_monitor a | ReadHostVitals => read_host_vitals a | ReadHostRelease => read_host_release a
  | ReadHostServices => read_host_services a | OperateHostService s o n => operate_host_service s o n a
  | ListControllers => list_controllers a | RevokeController c => route_revoke_controller c a
  | ListCompanions c => list_companions c a | GetCompanion c => get_companion c a
  | PutDefaultCompanion c n => put_default_companion c n a | GetPersonaAuthoringTemplate => get_persona_authoring_template a
  | PreviewPersona p => preview_persona p a | GetPersonaPresets => get_persona_presets a | CreateCompanion p => create_companion p a
  | GetCompanionFaceState c => get_companion_face_state c a | GetCompanionFace c e => get_companion_face c e a
  | PutCompanionFace c f => put_companion_face c f a | DeleteCompanionFace c => delete_companion_face c a
  | PatchCompanion c n => patch_companion c n a | PatchOwner n => patch_owner n a
  | PutCompanionLifecycle c s p n => put_companion_lifecycle c s p n a
  | GetMemoryLibrary c => get_memory_library c a | GetMemoryGraph c k h => get_memory_graph c k h a
  | PreviewForget t => preview_forget t a | ConfirmForget t => confirm_forget t a | ForgetStatus i => route_forget_status i a
  | GetMemoryRecollections q l c => get_memory_recollections q l c a | GetMemoryExport c w m => get_memory_export c w m a
  | GetMemoryEntries s l c k => get_memory_entries s l c k a | PostRevokeRuntimeSessions => post_revoke_runtime_sessions a
  | GetCompanionConversations c l k => get_companion_conversations c l k a
  | GetConversationTranscript c v l k => get_conversation_transcript c v l k a
  | GetCompanionTasks c l s k => get_companion_tasks c l s k a | GetCompanionTask c t => get_companion_task c t a
  | PostCompanionTaskCancel c t => route_task_action c t "cancel" a | PostCompanionTaskRetry c t => route_task_action c t "retry" a
  | GetPersona c => get_persona c a | PutPersona c p => put_persona c p a | GetPersonaHistory c => get_persona_history c a
  | PutPersonaRestoration c h => put_persona_restoration c h a
  end.
End Routes.
