(* ===== verification/Surface.v ===== *)
(** * The surface as it is assembled

    [create_local_api]: the management routes over the loopback client, the
    devices of the Local API, the client of the machine, and the Host's own
    grant record with revocation preceded by ending the grant's standing. *)

From S2P Require Import Prelude Conversation Encoding Json Lifecycle RemovalIntents RemovalWorkflow.
From S2P Require Import Upstream Clients DeviceClients DeviceAdmissions OwnerDevices ManagementBackend.
From S2P Require Import ManagementViews HostMachine ManagementRoutes.

Section Assembled.
Context {X D O S L H : Type} `{!Http X} `{PY : !Pydantic}.
Context `{!DeviceReference D} `{!DeviceSelections D L} `{!AdminOwnerDevices D O S L X}
        `{!AdminDeviceAdmission D H X} `{!HubConfirmation D H}.
Context (loads : bytes → result json) (py_str : json → string)
        (parse_refusal : obj → result public_refusal) (etag : http_response → option string)
        (base_url service_token : string) (timeout : Z).

(** [AdminManagementClient], as [register_management_routes] is given it. *)
Definition admin_backend : ManagementBackendPort X :=
  let on {A} (c : (bytes → result json) → (json → string) → (obj → result public_refusal) → string → string → Z → A) : A :=
    c loads py_str parse_refusal base_url service_token timeout in
  {| bk_context := on context; bk_device_presence := on backend_device_presence;
     bk_mission_control_snapshot := on mission_control_snapshot; bk_session_traces := on session_traces;
     bk_session_trace := on session_trace; bk_mission_control_activities := on mission_control_activities;
     bk_roster := on backend_roster; bk_companion := on companion; bk_set_default_companion := on set_default_companion;
     bk_create_companion := on ManagementBackend.create_companion;
     bk_persona_authoring_template := on persona_authoring_template; bk_preview_persona := on backend_preview_persona;
     bk_persona_presets := on persona_presets; bk_activity := on activity; bk_companion_face_state := on companion_face_state;
     bk_companion_face := companion_face loads py_str parse_refusal etag base_url service_token timeout;
     bk_set_companion_face := on backend_set_companion_face; bk_clear_companion_face := on clear_companion_face;
     bk_rename_owner := on backend_rename_owner; bk_set_companion_lifecycle := on set_companion_lifecycle;
     bk_memory_library := on memory_library; bk_memory_graph := on memory_graph; bk_memory_entries := on memory_entries;
     bk_memory_export := on memory_export; bk_revoke_runtime_sessions := on backend_revoke_runtime_sessions;
     bk_conversations := on conversations; bk_transcript := on transcript; bk_tasks := on backend_tasks; bk_task := on task;
     bk_task_action := on task_action; bk_persona_history := on persona_history; bk_persona := on backend_persona;
     bk_author_persona := on author_persona; bk_recollections := on recollections; bk_forget_preview := on forget_preview;
     bk_forget_status := on forget_status; bk_forget_confirm := on forget_confirm |}.

(** [AdminHostServicesClient] *)
Definition admin_machine : HostMachinePort X :=
  {| host_list_services := list_services loads base_url service_token timeout;
     host_read_vitals := read_vitals loads base_url service_token timeout;
     host_read_monitor := read_monitor loads base_url service_token timeout;
     host_read_power := read_power loads base_url service_token timeout;
     host_power_off := power_off loads base_url service_token timeout;
     host_mutate := mutate loads base_url service_token timeout |}.

Context (onboarding_target : option string) (valid_domain valid_owner : string → bool).

(** [_Devices] *)
Definition local_devices : OwnerDevicePort D O S X :=
  {| od_presence_domain s := lift (presence_domain onboarding_target valid_domain valid_owner s);
     od_list_devices := list_devices (S:=S) (L:=L) (H:=H) onboarding_target valid_domain valid_owner;
     od_remove_device := remove_device (D:=D) (H:=H) onboarding_target valid_domain valid_owner;
     od_set_device_companion := set_device_companion (S:=S) (L:=L) (H:=H) onboarding_target valid_domain valid_owner;
     od_set_device_outputs := set_device_outputs (L:=L) (H:=H) onboarding_target valid_domain valid_owner |}.

(** [_WithdrawingControllers] *)
Context (host_owner_id : M X (option string)).
Definition withdrawing_controllers (directory : ControllerDirectoryPort X) : ControllerDirectoryPort X :=
  {| directory_list_controllers := directory_list_controllers;
     directory_revoke_controller :=
       revoke_controller (D:=D) (H:=H) onboarding_target valid_domain valid_owner host_owner_id directory_revoke_controller |}.
End Assembled.
