(* ===== verification/ViewProofs.v ===== *)
(** * Values of a view

    What [make] builds from arguments that are of their fields' types is a value
    of its view; with the tactics that find those arguments in the text of a view
    function.  PlaneProofs.v uses them on the models of both planes. *)

From S2P Require Import Prelude Json Upstream ManagementViews ManagementRoutes.

(** ** Views *)

Section Views.
Context `{PY : !Pydantic}.
Implicit Types (args : list (string * argument)).

(** Every instance among the arguments is of its field's type. *)
Definition made_ok (fs : list (string * (vtype * field_default))) args : Prop :=
  ∀ f x, f ∈ fs → dict_get f.1 args = Some (Made x) → conforms f.2.1 x.
Lemma make_view name fs args v : made_ok fs args → make (VModel name fs) args = Ok v → conforms (VModel name fs) v.
Proof. intros Hm. apply make_conforms. apply Forall_forall. intros f Hf x. by apply Hm. Qed.
Lemma dict_get_app {V} k (l1 l2 : list (string * V)) :
  dict_get k (l1 ++ l2) = match dict_get k l1 with Some v => Some v | None => dict_get k l2 end.
Proof. induction l1 as [|[k' v] l1 IH]; cbn; [done|]. by destruct (bool_decide _). Qed.
Lemma made_app fs args args' : made_ok fs args → made_ok fs args' → made_ok fs (args ++ args').
Proof.
  intros H1 H2 f x Hf. rewrite dict_get_app. destruct (dict_get f.1 args) as [a|] eqn:E; [|by apply H2].
  intros [= ->]. by apply (H1 f x).
Qed.
Lemma made_nil fs : made_ok fs [].
Proof. done. Qed.
Lemma made_raw fs k v args : made_ok fs args → made_ok fs ((k, Raw v) :: args).
Proof. intros H f x Hf. cbn. case_bool_decide; [done|]. by apply H. Qed.
Lemma made_raws fs k v : made_ok fs (raws k v).
Proof. by apply made_raw, made_nil. Qed.
Lemma made_cons fs k v args : (∀ t d, (k, (t, d)) ∈ fs → conforms t v) → made_ok fs args → made_ok fs ((k, Made v) :: args).
Proof.
  intros Hv H [k' [t d]] x Hf. cbn. case_bool_decide as E; [|by apply (H (k', (t, d)) x Hf)]. cbn in E. intros [= ->]. subst. by eapply Hv.
Qed.
Lemma made_made fs k v : (∀ t d, (k, (t, d)) ∈ fs → conforms t v) → made_ok fs (made k v).
Proof. intros Hv. by apply made_cons, made_nil. Qed.
Lemma items_raw fs ks o args : items ks o = Ok args → made_ok fs args.
Proof.
  revert args. induction ks as [|k ks IH]; cbn; intros args H; [by injection H as <-|].
  apply result_bind_ok in H as (v & _ & H). apply result_bind_ok in H as (vs & Hvs & [= <-]). by apply made_raw, IH.
Qed.
Lemma rows_of_conform view k o v : rows_of view k o = Ok v → conforms (VList view) v.
Proof. unfold rows_of. intros H. apply result_bind_ok in H as (? & _ & H). by eapply rows_conform. Qed.
Lemma copied_conform name fs ks answer v : copied (VModel name fs) ks answer = Ok v → conforms (VModel name fs) v.
Proof. unfold copied. intros H. apply result_bind_ok in H as (args & Ha & H). eapply make_view; [by eapply items_raw|done]. Qed.
Lemma each_conform {A} (f : A → result json) view l vs :
  (∀ x v, f x = Ok v → conforms view v) →
  (fix go l := match l with [] => Ok [] | x :: rest => y ← f x; ys ← go rest; Ok (y :: ys) end) l = Ok vs →
  conforms (VList view) (JList vs).
Proof.
  intros Hf H. constructor. revert vs H. induction l as [|x l IH]; intros vs H; [by injection H as <-|].
  apply result_bind_ok in H as (y & Hy & H). apply result_bind_ok in H as (ys & Hys & [= <-]).
  constructor; [by eapply Hf|by apply IH].
Qed.
End Views.

Create HintDb views.
#[export] Hint Resolve rows_of_conform copied_conform rows_conform : views.

Ltac binds := repeat match goal with
  | H : _ ≫= _ = Ok _ |- _ => let a := fresh "r" in let E := fresh "E" in apply result_bind_ok in H as (a & E & H)
  end.
(** The types of a field that is among concrete ones. *)
Ltac field_type H := repeat (apply elem_of_cons in H as [H|H]; [first [discriminate H|injection H; clear H; intros; subst]|]);
  try (by apply elem_of_nil in H).
Ltac args_ok := repeat first
  [ apply made_nil | apply made_app | apply made_raws | apply made_raw | (eapply items_raw; eassumption)
  | (apply made_made; let H := fresh "Hf" in intros ? ? H; field_type H)
  | (apply made_cons; [let H := fresh "Hf" in intros ? ? H; field_type H|]) ].
