(* ===== verification/SurfaceProofs.v ===== *)
(** * Whom the management surface speaks for

    Every call a route makes, noted beside what its authentication answered: the
    surface asks for the Owner, the session or the Controller it has itself
    authenticated for this request, of the machine only for somebody it has
    authenticated, and of a device domain only when it is one of the Owner's.
    And a failure of a part leaves it in the one envelope. *)

From S2P Require Import Prelude Conversation Encoding Json Lifecycle RemovalIntents RemovalWorkflow Control.
From S2P Require Import Upstream Clients DeviceClients DeviceAdmissions MissionViews MissionControl OwnerDevices.
From S2P Require Import ManagementViews HostMachine ManagementRoutes.

Inductive surface_event :=
| IsOwner (owner : string) | IsController (controller : string) | IsSession (s : DeviceSession)
| AsOwner (owner : string) | AsController (controller : string) | AsSession (s : DeviceSession)
| OfMachine | OfHolder | OfDomain (domain : string)
| ListedDomains (s : DeviceSession) (domains : list string) | ToldDomain (domain : string).

Section Logged.
Context {D O S X : Type} `{!DeviceReference D}.
Abbreviation W := (list surface_event * X)%type.
#[local] Instance logged_backend `{!ManagementBackendPort X} : ManagementBackendPort W := {|
  bk_context o := asking (AsOwner o) (bk_context o);
  bk_device_presence d := asking (OfDomain d) (bk_device_presence d);
  bk_mission_control_snapshot o := asking (AsOwner o) (bk_mission_control_snapshot o);
  bk_session_traces o c s l := asking (AsOwner o) (bk_session_traces o c s l);
  bk_session_trace o s := asking (AsOwner o) (bk_session_trace o s);
  bk_mission_control_activities o c := asking (AsOwner o) (bk_mission_control_activities o c);
  bk_roster o c := asking (AsOwner o) (bk_roster o c);
  bk_companion o c := asking (AsOwner o) (bk_companion o c);
  bk_set_default_companion o c n := asking (AsOwner o) (bk_set_default_companion o c n);
  bk_create_companion o i n k p q a b := asking (AsOwner o) (bk_create_companion o i n k p q a b);
  bk_persona_authoring_template := asking OfHolder bk_persona_authoring_template;
  bk_preview_persona o p := asking (AsOwner o) (bk_preview_persona o p);
  bk_persona_presets := asking OfHolder bk_persona_presets;
  bk_activity o l b := asking (AsOwner o) (bk_activity o l b);
  bk_companion_face_state o c := asking (AsOwner o) (bk_companion_face_state o c);
  bk_companion_face o c e := asking (AsOwner o) (bk_companion_face o c e);
  bk_set_companion_face o c f := asking (AsOwner o) (bk_set_companion_face o c f);
  bk_clear_companion_face o c := asking (AsOwner o) (bk_clear_companion_face o c);
  bk_rename_owner o n := asking (AsOwner o) (bk_rename_owner o n);
  bk_set_companion_lifecycle o c s p n := asking (AsOwner o) (bk_set_companion_lifecycle o c s p n);
  bk_memory_library o c := asking (AsOwner o) (bk_memory_library o c);
  bk_memory_graph o c k h := asking (AsOwner o) (bk_memory_graph o c k h);
  bk_memory_entries o s l c k := asking (AsOwner o) (bk_memory_entries o s l c k);
  bk_memory_export o c w r := asking (AsOwner o) (bk_memory_export o c w r);
  bk_revoke_runtime_sessions o := asking (AsOwner o) (bk_revoke_runtime_sessions o);
  bk_conversations o c l k := asking (AsOwner o) (bk_conversations o c l k);
  bk_transcript o c v l k := asking (AsOwner o) (bk_transcript o c v l k);
  bk_tasks o c l s k := asking (AsOwner o) (bk_tasks o c l s k);
  bk_task o c t := asking (AsOwner o) (bk_task o c t);
  bk_task_action o c t a := asking (AsOwner o) (bk_task_action o c t a);
  bk_persona_history o c := asking (AsOwner o) (bk_persona_history o c);
  bk_persona o c := asking (AsOwner o) (bk_persona o c);
  bk_author_persona o c p := asking (AsOwner o) (bk_author_persona o c p);
  bk_recollections o q l c := asking (AsOwner o) (bk_recollections o q l c);
  bk_forget_preview o t := asking (AsOwner o) (bk_forget_preview o t);
  bk_forget_status o i := asking (AsOwner o) (bk_forget_status o i);
  bk_forget_confirm o t := asking (AsOwner o) (bk_forget_confirm o t) |}.
#[local] Instance logged_owner_devices `{DP : !OwnerDevicePort D O S X} : OwnerDevicePort D O S W := {|
  od_presence_domain s := exchanging (AsSession s) ToldDomain (od_presence_domain (D:=D) (O:=O) (S:=S) s);
  od_list_devices s := exchanging (AsSession s) (λ vs, ListedDomains s (device_domain <$> vs)) (od_list_devices (S:=S) s);
  od_remove_device s d i := asking (AsSession s) (od_remove_device (D:=D) (O:=O) (S:=S) s d i);
  od_set_device_companion s d c n i := asking (AsSession s) (od_set_device_companion (S:=S) s d c n i);
  od_set_device_outputs s d a n := asking (AsSession s) (od_set_device_outputs s d a n) |}.
#[local] Instance logged_machine `{!HostMachinePort X} : HostMachinePort W := {|
  host_list_services := asking OfMachine host_list_services;
  host_read_vitals := asking OfMachine host_read_vitals;
  host_read_monitor := asking OfMachine host_read_monitor;
  host_read_power := asking OfMachine host_read_power;
  host_power_off i := asking OfMachine (host_power_off i);
  host_mutate s o n := asking OfMachine (host_mutate s o n) |}.
#[local] Instance logged_directory `{!ControllerDirectoryPort X} : ControllerDirectoryPort W := {|
  directory_list_controllers c := asking (AsController c) (directory_list_controllers c);
  directory_revoke_controller c t := asking (AsController c) (directory_revoke_controller c t) |}.
#[local] Instance logged_authentication `{!SurfaceAuthentication X} : SurfaceAuthentication W := {|
  authenticated_owner a := hearing IsOwner (authenticated_owner a);
  authenticated_controller_id a := hearing IsController (authenticated_controller_id a);
  authenticated_controller_session a := hearing IsSession (authenticated_controller_session a) |}.

Definition owner_known (o : string) (log : list surface_event) : Prop :=
  IsOwner o ∈ log ∨ ∃ s, IsSession s ∈ log ∧ s.(ds_owner_id) = o.
Definition session_known (s : DeviceSession) (log : list surface_event) : Prop := IsSession s ∈ log.
Definition controller_known (c : string) (log : list surface_event) : Prop := IsController c ∈ log.
(** What may be asked after this was heard. *)
Definition may_ask (log : list surface_event) (e : surface_event) : Prop :=
  match e with
  | IsOwner _ | IsController _ | IsSession _ => True
  | AsOwner o => owner_known o log
  | AsController c => controller_known c log
  | AsSession s | ListedDomains s _ => session_known s log
  | OfMachine => (∃ c, controller_known c log) ∨ ∃ s, session_known s log
  | OfHolder => ∃ c, controller_known c log
  | ToldDomain _ => ∃ s, session_known s log
  | OfDomain d => ToldDomain d ∈ log ∨ ∃ s ds, session_known s log ∧ ListedDomains s ds ∈ log ∧ d ∈ ds
  end.

Abbreviation loud := (Conversation.loud (X:=X) may_ask).
Abbreviation with_log := (Conversation.with_log (X:=X) may_ask).
Definition speaks {A} (c : M W A) : Prop := loud any_log c.

Lemma kept_in (e : surface_event) : kept (λ log, e ∈ log).
Proof. intros log e' H. apply elem_of_app. by left. Qed.
Lemma kept_owner o : kept (owner_known o).
Proof. intros log e [H|(s & H & <-)]; [left|right; exists s; split; [|done]]; by apply kept_in. Qed.

Context `{PY : !Pydantic} `{OUT : !DeviceOutputs O}.
Context `{MB : !ManagementBackendPort X} `{DP : !OwnerDevicePort D O S X} `{HM : !HostMachinePort X}
  `{CD : !ControllerDirectoryPort X} `{AU : !SurfaceAuthentication X}.
Context (py_str : json → string) (now_ms : M X Z) (device_ref_of : obj → result D) (running_release : option string).

Lemma loud_try {A} F h (c : M W A) : loud F c → loud F (try_map h c).
Proof. intros Hc. apply loud_catch; [done|]. intros e k Hk. destruct (h e); [|done]. cbn in Hk. simplify_eq. apply loud_raise. Qed.
Lemma loud_part {A} F u p (c : M W A) : loud F c → loud F (try_part u p c).
Proof.
  intros Hc. apply loud_catch; [apply loud_bind; [done|]; intros; apply loud_ret|]. intros e k Hk.
  destruct e; simplify_eq; apply loud_ret.
Qed.
(** A call for somebody who is known. *)
Lemma loud_owner {A} o (c : M X A) : loud (owner_known o) (asking (AsOwner o) c).
Proof. apply loud_asking; [apply kept_owner|done]. Qed.
Lemma loud_for_session {A} s (c : M X A) : loud (session_known s) (asking (AsOwner s.(ds_owner_id)) c).
Proof. apply loud_asking; [apply kept_in|]. intros log H. right. by exists s. Qed.
Lemma loud_session {A} s (c : M X A) : loud (session_known s) (asking (AsSession s) c).
Proof. apply loud_asking; [apply kept_in|done]. Qed.
Lemma loud_controller {A} c (k : M X A) : loud (controller_known c) (asking (AsController c) k).
Proof. apply loud_asking; [apply kept_in|done]. Qed.
Lemma loud_holder {A} c (k : M X A) : loud (controller_known c) (asking OfHolder k).
Proof. apply loud_asking; [apply kept_in|]. by exists c. Qed.
Lemma loud_machine {A} c (k : M X A) : loud (controller_known c) (asking OfMachine k).
Proof. apply loud_asking; [apply kept_in|]. left. by exists c. Qed.
Lemma loud_home_machine {A} s (k : M X A) : loud (session_known s) (asking OfMachine k).
Proof. apply loud_asking; [apply kept_in|]. right. by exists s. Qed.

Lemma after_owner {A} a (f : string → M W A) :
  (∀ o, loud (owner_known o) (f o)) → speaks (authenticated_owner (X:=W) a ≫= f).
Proof.
  intros Hf. apply (tells_bind _ _ owner_known); [|done|done]. apply tells_hearing; [done|].
  intros o log _. left. apply elem_of_app. right. by left.
Qed.
Lemma after_controller {A} a (f : string → M W A) :
  (∀ c, loud (controller_known c) (f c)) → speaks (authenticated_controller_id (X:=W) a ≫= f).
Proof.
  intros Hf. apply (tells_bind _ _ controller_known); [|done|done]. apply tells_hearing; [done|].
  intros o log _. apply elem_of_app. right. by left.
Qed.
Lemma after_session {A} a (f : DeviceSession → M W A) :
  (∀ s, loud (session_known s) (f s)) → speaks (authenticated_controller_session (X:=W) a ≫= f).
Proof.
  intros Hf. apply (tells_bind _ _ session_known); [|done|done]. apply tells_hearing; [done|].
  intros o log _. apply elem_of_app. right. by left.
Qed.
Lemma for_owner_speaks a (call : string → M W obj) view :
  (∀ o, loud (owner_known o) (call o)) → speaks (for_owner a call view).
Proof.
  intros Hc. apply after_owner. intros o. apply loud_bind; [by apply loud_try|]. intros answer. apply loud_lift.
Qed.
Lemma for_holder_speaks a (call : M W obj) view :
  (∀ c, loud (controller_known c) call) → speaks (for_holder a call view).
Proof. intros Hc. apply after_controller. intros c. apply loud_bind; [by apply loud_try|]. intros answer. apply loud_lift. Qed.
Lemma for_machine_speaks a (call : M W obj) headers view :
  (∀ c, loud (controller_known c) call) → speaks (for_machine a call headers view).
Proof.
  intros Hc. apply after_controller. intros c. apply loud_bind; [|intros; apply loud_ret].
  apply loud_try, loud_bind; [done|]. intros. apply loud_lift.
Qed.
Lemma for_session_speaks a (call : string → M W obj) :
  (∀ s, loud (session_known s) (call s.(ds_owner_id))) → speaks (for_session a call).
Proof. intros Hc. apply after_session. intros s. apply loud_bind; [by apply loud_try|]. intros answer. apply loud_lift. Qed.

(** The list of a session's devices. *)
Definition listed_known (s : DeviceSession) (vs : list (LocalDeviceView D O)) (log : list surface_event) : Prop :=
  session_known s log ∧ ListedDomains s (device_domain <$> vs) ∈ log.
Lemma kept_listed s vs : kept (listed_known s vs).
Proof. intros log e [H1 H2]. split; by apply kept_in. Qed.
Lemma list_tells s :
  Conversation.tells may_ask (session_known s) (od_list_devices (D:=D) (O:=O) (S:=S) (X:=W) s) (listed_known s).
Proof.
  apply tells_exchanging; [apply kept_in|done|done|]. intros vs log H. split; [by apply kept_in|].
  apply elem_of_app. right. by left.
Qed.
Lemma loud_list s : loud (session_known s) (od_list_devices (D:=D) (O:=O) (S:=S) (X:=W) s).
Proof. eapply hoare_mono; [apply list_tells|done| |done]. intros vs w [H1 [H2 _]]. by split. Qed.
Lemma loud_names F s : kept F → (∀ log, F log → session_known s log) →
  loud F (companion_names (X:=W) py_str s.(ds_owner_id)).
Proof.
  intros Hk HF. apply loud_bind; [|intros [p|]; [apply loud_lift|apply loud_ret]]. apply loud_catch.
  - apply loud_bind; [|intros; apply loud_ret]. apply loud_asking; [done|]. intros log Hl. right. exists s. split; [by apply HF|done].
  - intros e k He. destruct e; simplify_eq; apply loud_ret.
Qed.
Lemma loud_observations s (vs : list (LocalDeviceView D O)) ds :
  (∀ d, d ∈ ds → d ∈ device_domain <$> vs) → loud (listed_known s vs) (observations_of (X:=W) ds).
Proof.
  induction ds as [|d ds IH]; cbn [observations_of]; intros Hd; [apply loud_ret|].
  apply loud_bind; [apply loud_catch|].
  - apply loud_asking; [apply kept_listed|]. intros log [H1 H2]. right. exists s, (device_domain <$> vs).
    split_and!; [done|done|]. apply Hd. by left.
  - intros e k He. destruct e; simplify_eq; apply loud_ret.
  - intros o. apply loud_bind; [apply IH; intros; apply Hd; by right|]. intros os. apply loud_ret.
Qed.
Lemma loud_presence F (ref : D) o : loud F (reference_presence (X:=W) (quiet now_ms) ref o).
Proof.
  unfold reference_presence. repeat case_match; try apply loud_lift. apply loud_bind; [apply loud_quiet|].
  intros t. apply loud_lift.
Qed.
Lemma loud_rows F names os (ds : list (LocalDeviceView D O)) : loud F (device_rows (X:=W) (quiet now_ms) names os ds).
Proof.
  induction ds as [|d ds IH]; cbn [device_rows]; [apply loud_ret|].
  apply loud_bind; [apply loud_lift|]. intros _. apply loud_bind; [apply loud_lift|]. intros o.
  apply loud_bind; [apply loud_presence|]. intros p. apply loud_bind; [apply loud_lift|]. intros v.
  apply loud_bind; [done|]. intros vs. apply loud_ret.
Qed.
Lemma loud_table F domain rows : loud F (presence_table (X:=W) (quiet now_ms) device_ref_of domain rows).
Proof.
  induction rows as [|row rows IH]; cbn [presence_table]; [apply loud_ret|].
  apply loud_bind; [|intros v; apply loud_bind; [done|]; intros vs; apply loud_ret].
  unfold presence_row. repeat case_match; try apply loud_ret; try apply loud_raise.
  apply loud_bind; [apply loud_presence|]. intros p. apply loud_bind; [apply loud_lift|]. intros v. apply loud_ret.
Qed.
Lemma loud_reply s (d : LocalDeviceView D O) : loud (session_known s) (device_reply (X:=W) py_str s d).
Proof. apply loud_bind; [apply loud_names; [apply kept_in|done]|]. intros names. apply loud_lift. Qed.

Ltac known := first [ apply loud_owner | apply loud_controller | apply loud_holder | apply loud_machine | apply loud_session
  | apply loud_for_session | apply loud_home_machine | apply loud_list ].

Lemma home_speaks a : speaks (get_home (D:=D) (O:=O) (S:=S) (X:=W) py_str a).
Proof.
  apply after_session. intros s. apply loud_bind; [apply loud_try; known|]. intros context.
  apply loud_bind; [apply loud_part; known|]. intros [u1 roster].
  apply loud_bind; [apply loud_part; known|]. intros [u2 inventory].
  apply loud_bind; [apply loud_part; known|]. intros [u3 vitals].
  apply loud_bind; [apply loud_part; known|]. intros [u4 memory]. apply loud_lift.
Qed.
Lemma devices_speak a : speaks (get_devices (D:=D) (O:=O) (S:=S) (X:=W) py_str (quiet now_ms) a).
Proof.
  apply after_session. intros s. apply (tells_bind _ _ (listed_known s)); [|by intros ? ? []|].
  - apply tells_catch; [apply list_tells|]. intros e k He. destruct e; cbn in He; simplify_eq. intros w Hw. exact Hw.
  - intros vs. apply loud_bind; [apply loud_names; [apply kept_listed|by intros ? []]|]. intros names.
    apply loud_bind.
    + apply loud_observations. intros d. unfold domains_of. rewrite sort_by_perm. by rewrite elem_of_remove_dups.
    + intros os. apply loud_bind; [apply loud_rows|]. intros rows. apply loud_lift.
Qed.
Lemma presences_speak a :
  speaks (get_device_presences (D:=D) (O:=O) (S:=S) (X:=W) (quiet now_ms) device_ref_of a).
Proof.
  apply after_session. intros s. apply (tells_bind _ _ (λ d log, session_known s log ∧ ToldDomain d ∈ log)); [|by intros ? ? []|].
  - apply tells_exchanging; [apply kept_in|done|by intros ? log H; exists s|]. intros d log H. split; [by apply kept_in|].
    apply elem_of_app. right. by left.
  - intros d. apply loud_bind.
    + apply loud_try, loud_asking; [intros log e [H1 H2]; split; by apply kept_in|]. intros log [_ H]. by left.
    + intros o. apply loud_bind; [apply loud_lift|]. intros l. apply loud_bind; [apply loud_table|]. intros vs. apply loud_lift.
Qed.

(** C32: By the log of one request: whatever the ports answer, the surface asks the
    backend only for the Owner, or the Owner of the session, that it has itself
    authenticated for this request; names no session and no Controller but that
    one; touches the machine, and shows what any holder may see, only for
    somebody authenticated; and looks into a device domain only when the
    session's own devices, or its own scope, named it. *)
Theorem surface_speaks_for_session (r : Route) authorization (x : X) :
  spoken may_ask
    (serve (D:=D) (O:=O) (S:=S) (X:=W) py_str (quiet now_ms) device_ref_of running_release r authorization ([], x)).2.1.
Proof.
  assert (speaks (serve (D:=D) (O:=O) (S:=S) (X:=W) py_str (quiet now_ms) device_ref_of running_release r authorization)) as H.
  2: { specialize (H ([], x)). destruct (serve _ _ _ _ _ _ _) as [[?|?] w]; by apply H. }
  destruct r; unfold serve;
    try (apply for_owner_speaks; intros ?; known; fail); try (apply for_holder_speaks; intros ?; known; fail);
    try (apply for_machine_speaks; intros ?; known; fail); try (apply for_session_speaks; intros ?; known; fail).
  - apply after_session. intros s. apply loud_bind; [apply loud_try; known|]. intros snapshot.
    apply loud_bind; [|intros; apply loud_ret]. apply loud_catch.
    + apply loud_bind; [known|]. intros ds. apply loud_bind; [apply loud_lift|]. intros. apply loud_ret.
    + intros e k He. destruct e; simplify_eq; apply loud_ret.
  - apply home_speaks.
  - apply devices_speak.
  - apply presences_speak.
  - apply after_session. intros s. apply loud_bind; [apply loud_try; known|]. intros d. apply loud_reply.
  - apply after_session. intros s. apply loud_bind; [apply loud_try; known|]. intros d. apply loud_reply.
  - apply after_session. intros s. apply loud_bind; [apply loud_try; known|]. intros p. apply loud_lift.
  - apply for_owner_speaks. intros o. apply loud_bind; [apply loud_lift|]. intros before. known.
  - apply after_controller. intros c. apply loud_lift.
  - apply after_controller. intros c. apply loud_bind; [known|]. intros answer. apply loud_lift.
  - apply after_controller. intros c. apply loud_bind; [known|]. intros answer. apply loud_lift.
  - apply after_owner. intros o. apply loud_bind; [apply loud_try; known|]. intros answer.
    apply loud_bind; [apply loud_part; known|]. intros [? ?]. apply loud_lift.
  - apply after_owner. intros o. apply loud_bind; [apply loud_try; known|]. intros [[? ?] ?]. apply loud_ret.
  - apply after_owner. intros o. apply loud_raise.
  - apply loud_bind; [|intros _; apply for_owner_speaks; intros ?; known].
    apply (tells_hearing may_ask any_log (λ _, any_log)); done.
  - apply after_owner. intros o. apply loud_raise.
Qed.
End Logged.
