(* ===== verification/HomeProofs.v ===== *)
(** * What the surface shows

    The home when a part of it cannot be read, the presence of a device, the
    states of the two device lists, and the cursor of the history. *)

From S2P Require Import Prelude Conversation Timestamp Encoding Json Lifecycle RemovalIntents RemovalWorkflow Control.
From S2P Require Import Upstream Clients DeviceClients DeviceAdmissions MissionViews MissionControl OwnerDevices OwnerDevicesProofs.
From S2P Require Import ManagementViews HostMachine ManagementRoutes Surface ViewProofs.

(** ** The cursor of the history *)

Lemma digit_char n : (n < 10)%N → is_digit (pretty_N_char n) = true ∧ (Z.of_N (N_of_ascii (pretty_N_char n) - 48) = Z.of_N n)%Z.
Proof.
  intros Hn. assert (n = 0 ∨ n = 1 ∨ n = 2 ∨ n = 3 ∨ n = 4 ∨ n = 5 ∨ n = 6 ∨ n = 7 ∨ n = 8 ∨ n = 9)%N as H by lia.
  naive_solver.
Qed.
Lemma int_digits_go x s b (acc := 0%Z) :
  (0 < x)%N → int_digits (list_ascii_of_string (pretty_N_go x s)) 0 b = int_digits (list_ascii_of_string s) (Z.of_N x) true.
Proof.
  clear acc. revert s b. induction (N.lt_wf_0 x) as [x _ IH]; intros s b Hx. rewrite pretty_N_go_step by done.
  destruct (digit_char (x `mod` 10)) as [Hd Hv]; [by apply N.mod_lt|].
  pose proof (N.div_mod x 10 ltac:(done)) as Hdm.
  destruct (decide (x `div` 10 = 0)%N) as [E|E].
  - rewrite E, pretty_N_go_0. cbn [list_ascii_of_string int_digits]. rewrite Hd, Hv. f_equal. lia.
  - rewrite IH by first [by apply N.div_lt|lia]. cbn [list_ascii_of_string int_digits]. rewrite Hd, Hv. f_equal. lia.
Qed.
Lemma go_digits x s : forallb is_digit (list_ascii_of_string s) = true →
  forallb is_digit (list_ascii_of_string (pretty_N_go x s)) = true.
Proof.
  revert s. induction (N.lt_wf_0 x) as [x _ IH]; intros s Hs. destruct (decide (x = 0)%N) as [->|E]; [by rewrite pretty_N_go_0|].
  rewrite pretty_N_go_step by lia. apply IH; [apply N.div_lt; lia|]. cbn. rewrite Hs, andb_true_r. apply digit_char. by apply N.mod_lt.
Qed.
Lemma go_length k x s : (x < 10 ^ N.of_nat k)%N →
  length (list_ascii_of_string (pretty_N_go x s)) ≤ k + length (list_ascii_of_string s).
Proof.
  revert x s. induction k as [|k IH]; intros x s Hx.
  - change (10 ^ N.of_nat 0)%N with 1%N in Hx. assert (x = 0%N) as -> by lia. by rewrite pretty_N_go_0.
  - destruct (decide (x = 0)%N) as [->|E]; [rewrite pretty_N_go_0; lia|]. rewrite pretty_N_go_step by lia.
    etrans; [apply IH|cbn; lia]. apply N.Div0.div_lt_upper_bound. rewrite Nat2N.inj_succ, N.pow_succ_r' in Hx. lia.
Qed.
Lemma strip_digits s : forallb is_digit (list_ascii_of_string s) = true → strip s = s.
Proof.
  intros Hs. rewrite <- (string_of_list_ascii_of_string s). apply strip_hex.
  revert Hs. apply forallb_impl. intros c Hc. unfold hexdash, is_lower_hex. by rewrite Hc.
Qed.

(** A number of at most twenty digits reads back as itself. *)
Lemma int_of_pretty z : (0 <= z < 10 ^ 20)%Z → int_of_str (pretty z) = Ok z.
Proof.
  intros Hz. assert (pretty z = pretty (Z.to_N z)) as ->.
  { unfold pretty at 1, pretty_Z. destruct z; [done|done|lia]. }
  assert (0 ≤ Z.to_N z < 10 ^ 20)%N as Hn by lia. replace (Ok z) with (Ok (Z.of_N (Z.to_N z))) by (f_equal; lia).
  generalize dependent (Z.to_N z). clear z Hz. intros n Hn.
  destruct (decide (n = 0)%N) as [->|E]; [reflexivity|].
  assert (pretty n = pretty_N_go n "") as Ep by (unfold pretty, pretty_N; by rewrite decide_False by done).
  assert (forallb is_digit (list_ascii_of_string (pretty n)) = true) as Hd by (rewrite Ep; by apply go_digits).
  assert (length (list_ascii_of_string (pretty n)) ≤ 20) as Hlen by (rewrite Ep; apply (go_length 20); lia).
  assert (int_digits (list_ascii_of_string (pretty n)) 0 false = Some (Z.of_N n)) as Hi.
  { rewrite Ep, int_digits_go by lia. done. }
  unfold int_of_str. rewrite strip_digits by done. revert Hd Hlen Hi. generalize (list_ascii_of_string (pretty n)).
  intros [|c l] Hd Hlen Hi; [done|].
  assert (is_digit c = true) as Hc by (apply andb_prop in Hd as [? _]; done).
  rewrite !bool_decide_eq_false_2 by (intros ->; done). rewrite Hi.
  assert (length (List.filter is_digit (c :: l)) ≤ length (c :: l)) as Hf.
  { generalize (c :: l). intros k. induction k as [|a k IH]; [done|]. cbn. destruct (is_digit a); cbn; lia. }
  rewrite (proj2 (Nat.ltb_ge _ _)); [done|]. lia.
Qed.

(** ** The fields of a view *)

(** [view.k] *)
Definition shown (k : string) (v : json) : json := match v with JObj o => obj_get k o JNull | _ => JNull end.

Section Shown.
Context `{PY : !Pydantic}.

Ltac build := unfold unseen, presence_view, make, make_fields, DevicePresenceView; cbn [forallb fst snd fmap list_fmap may perhaps dict_get];
  names; cbn -[text_within within isoformat Z.sub Z.add]; rewrite ?any_text, ?lax_int_int.

(** Without a row that speaks for it, a device is of unknown presence. *)
Lemma unseen_unknown reason : ∃ v, unseen reason = Ok v ∧ shown "state" v = JStr "unknown".
Proof. build. by eexists. Qed.
Lemma presence_state (now : Z) (o : obj) :
  ∃ v, presence_of_row now o = Ok v ∧
  shown "state" v =
    match obj_get "observed_at_ms" o JNull, obj_get "on_channel" o JNull with
    | JInt t, JBool present =>
        JStr (if (now - 15000 <? t) && (t <=? now) then if present then "online" else "offline" else "unknown")%Z
    | _, _ => JStr "unknown"
    end.
Proof.
  unfold presence_of_row, FRESH_MS. destruct (obj_get "observed_at_ms" o JNull) as [| |t| | | | | |];
    try (destruct (unseen_unknown "设备连接观测已过期") as (v & Hv & Hs); eauto; fail).
  assert (((0 <=? now - t) && (now - t <? 15000))%Z = ((now - 15000 <? t) && (t <=? now))%Z) as -> by lia.
  destruct ((now - 15000 <? t) && (t <=? now))%Z eqn:Hf.
  - assert (within (Some 0) (Some 15000) (15000 - (now - t)) = true)%Z as Hw by (unfold within; lia).
    destruct (obj_get "on_channel" o JNull) as [|present| | | | | | |]; build; try by eexists.
    rewrite Hw. destruct present; cbn -[text_within isoformat]; rewrite ?any_text; by eexists.
  - destruct (unseen_unknown "设备连接观测已过期") as (v & Hv & Hs). rewrite Hv. exists v. split; [done|].
    rewrite Hs. by destruct (obj_get "on_channel" o JNull).
Qed.

(** ** Presence *)

Context {D : Type} `{!DeviceReference D}.

(** A row of the observations that is about this device under this claim:
    every field of the reference it was made for is the same. *)
Definition about (ref : D) (row : json) (o : obj) : Prop :=
  row = JObj o ∧ json_eq_str (obj_get "device_id" o JNull) (device_instance_id ref) = true ∧
  ∃ r, obj_get "device_ref" o JNull = JObj r ∧
    json_eq_str (obj_get "device_instance_id" r JNull) (device_instance_id ref) = true ∧
    json_eq_str (obj_get "owner_domain_id" r JNull) (owner_domain_id ref) = true ∧
    json_eq_int (obj_get "claim_generation" r JNull) (claim_generation ref) = true ∧
    json_eq_int (obj_get "trust_epoch" r JNull) (trust_epoch ref) = true ∧
    json_eq_int (obj_get "owner_domain_generation" r JNull) (owner_domain_generation ref) = true.
Lemma speaks_about ref row o : speaks_for ref row = Some o ↔ about ref row o.
Proof.
  unfold speaks_for, about, same_reference. destruct row as [| | | | | | | |kv]; try (split; [done|by intros [? _]]).
  split.
  - destruct (_ && _) eqn:E; [|done]. intros [= ->]. apply andb_prop in E as [E1 E2]. destruct (obj_get "device_ref" o JNull); try done.
    rewrite !andb_true_iff in E2. destruct E2 as [[[[? ?] ?] ?] ?]. naive_solver.
  - intros ([= ->] & H1 & r & -> & H2 & H3 & H4 & H5 & H6). by rewrite H1, H2, H3, H4, H5, H6.
Qed.
Lemma first_about ref rows o :
  head (omap (speaks_for ref) rows) = Some o ↔
  ∃ pre row post, rows = pre ++ row :: post ∧ (∀ r o', r ∈ pre → ¬ about ref r o') ∧ about ref row o.
Proof.
  split.
  - induction rows as [|row rows IH]; [done|]. cbn. destruct (speaks_for ref row) as [o'|] eqn:E; cbn.
    + intros [= ->]. exists [], row, rows. split; [done|]. split; [by intros ? ? ?%elem_of_nil|by apply speaks_about].
    + intros (pre & r & post & -> & Hpre & Hr)%IH. exists (row :: pre), r, post. split; [done|]. split; [|done].
      intros r' o' [->|H]%elem_of_cons; [|by apply Hpre]. intros H%speaks_about. congruence.
  - intros (pre & row & post & -> & Hpre & Hr%speaks_about). induction pre as [|r pre IH]; cbn; [by rewrite Hr|].
    destruct (speaks_for ref r) as [o'|] eqn:E; [|apply IH; intros r' o' H; apply Hpre; by right].
    apply speaks_about in E. destruct (Hpre r o'); [by left|done].
Qed.

(** The channel was seen with the device on it, or without: in observations
    that could be made, the first row about the device was made in the fifteen
    seconds up to now and says which. *)
Definition seen (ref : D) (observations : obj) (now : Z) (present : bool) : Prop :=
  json_truthy (obj_get "unavailable" observations JNull) = false ∧
  ∃ rows pre row post o t,
    obj_get "bodies" observations (JList []) = JList rows ∧ rows = pre ++ row :: post ∧
    (∀ r o', r ∈ pre → ¬ about ref r o') ∧ about ref row o ∧
    obj_get "observed_at_ms" o JNull = JInt t ∧ (now - 15000 < t <= now)%Z ∧ obj_get "on_channel" o JNull = JBool present.

(** What a view with this state says of a device that was seen as [P] has it. *)
Definition shows_presence (P : bool → Prop) (v : json) : Prop :=
  (∀ present : bool, shown "state" v = JStr (if present then "online" else "offline") ↔ P present) ∧
  shown "state" v ∈ [JStr "online"; JStr "offline"; JStr "unknown"].
Lemma presence_unknown (P : bool → Prop) v : shown "state" v = JStr "unknown" → (∀ b, ¬ P b) → shows_presence P v.
Proof. intros Hv HP. unfold shows_presence. rewrite Hv. split; [|set_solver]. intros b. split; [by destruct b|by intros ?%HP]. Qed.
Lemma presence_iff (P Q : bool → Prop) v : (∀ b, P b ↔ Q b) → shows_presence P v → shows_presence Q v.
Proof. unfold shows_presence. intros H [H1 H2]. split; [|done]. intros b. by rewrite <- H. Qed.
Lemma row_presence now o v : presence_of_row now o = Ok v →
  shows_presence (λ present, ∃ t, obj_get "observed_at_ms" o JNull = JInt t ∧ (now - 15000 < t <= now)%Z ∧
                        obj_get "on_channel" o JNull = JBool present) v.
Proof.
  destruct (presence_state now o) as (v' & Hv' & Hs). rewrite Hv'. intros [= ->]. revert Hs.
  destruct (obj_get "observed_at_ms" o JNull) as [| |t| | | | | |]; intros Hs;
    try (apply presence_unknown; [done|by intros ? (? & ? & _)]; fail).
  revert Hs. destruct (obj_get "on_channel" o JNull) as [|p| | | | | | |]; intros Hs;
    try (apply presence_unknown; [done|by intros ? (? & _ & _ & ?)]; fail).
  destruct ((now - 15000 <? t) && (t <=? now))%Z eqn:Hf.
  - unfold shows_presence. rewrite Hs. split; [|destruct p; set_solver]. intros b.
    split; [intros Hb; exists t; split; [done|]; split; [lia|]; by destruct p, b|]. by intros (? & _ & _ & [= ->]).
  - apply presence_unknown; [done|]. intros b (? & [= <-] & ? & _). lia.
Qed.
Lemma seen_first ref observations rows o now present :
  json_truthy (obj_get "unavailable" observations JNull) = false → obj_get "bodies" observations (JList []) = JList rows →
  head (omap (speaks_for ref) rows) = Some o →
  (∃ t, obj_get "observed_at_ms" o JNull = JInt t ∧ (now - 15000 < t <= now)%Z ∧ obj_get "on_channel" o JNull = JBool present)
  ↔ seen ref observations now present.
Proof.
  intros Hu Hb Ho. unfold seen. rewrite Hu, Hb. split.
  - apply first_about in Ho as (pre & row & post & -> & Hpre & Hrow). intros (t & Ht). split; [done|].
    by exists (pre ++ row :: post), pre, row, post, o, t.
  - intros (_ & rows' & pre & row & post & o' & t & [= <-] & Hrows & Hpre & Ha & Ht).
    assert (head (omap (speaks_for ref) rows) = Some o') as Ho' by (apply first_about; eauto 6).
    rewrite Ho in Ho'. injection Ho' as <-. eauto.
Qed.

(** C34: A device is shown online, or offline, exactly when the channel was seen so
    within fifteen seconds by the first row about it, the whole reference the
    same; in every other case, a malformed answer or a clock that went back
    included, it is shown unknown. *)
Theorem presence_exact {X} (clock : M X Z) (ref : D) (observations : obj) (x x' : X) (now : Z) :
  clock x = (Ok now, x') →
  ∃ v y, reference_presence clock ref observations x = (Ok v, y) ∧ shows_presence (seen ref observations now) v.
Proof.
  intros Hclock. unfold reference_presence. destruct (json_truthy _) eqn:Hu.
  { destruct (unseen_unknown "设备连接观测暂时不可用") as (v & -> & Hs). exists v, x. split; [done|].
    apply presence_unknown; [done|]. unfold seen. intros b [? _]. congruence. }
  destruct (obj_get "bodies" observations (JList [])) as [| | | | | | |rows|] eqn:Hb;
    try (destruct (unseen_unknown "设备连接观测格式不兼容") as (v & -> & Hs); exists v, x; split; [done|];
         apply presence_unknown; [done|]; unfold seen; intros ? (_ & ? & ? & ? & ? & ? & ? & ? & _); congruence).
  destruct (head (omap (speaks_for ref) rows)) as [o|] eqn:Ho.
  - destruct (presence_state now o) as (v & Hv & _). exists v, x'.
    split. { unfold mbind, M_bind. rewrite Hclock. unfold lift. by rewrite Hv. }
    eapply presence_iff; [|by eapply row_presence]. intros b. by eapply seen_first.
  - eexists _, x. split; [reflexivity|]. apply presence_unknown; [done|].
    intros b (_ & rows' & pre & row & post & o & t & Hr & Hrows & Hpre & Ha & _).
    assert (head (omap (speaks_for ref) rows') = Some o) by (apply first_about; eauto 6). congruence.
Qed.
End Shown.

(** ** The home without its parts *)

Section Home.
Context {X D O S : Type} `{PY : !Pydantic} `{!DeviceReference D} `{OUT : !DeviceOutputs O}.
Context `{MB : !ManagementBackendPort X} `{HM : !HostMachinePort X} `{AU : !SurfaceAuthentication X}.
Context (py_str : json → string).

(** What a part could not be read for, when the failure is one of its own. *)
Definition unreadable (e : exn) : option string :=
  match e with ManagementBackendError msg _ _ | HostServiceControlError msg _ => Some msg | _ => None end.
(** A part that was read, or that failed in that way. *)
Inductive part_read {A} (c : M X A) (x : X) : option string → option A → X → Prop :=
| PartRead a y : c x = (Ok a, y) → part_read c x None (Some a) y
| PartFailed e msg y : c x = (Raise e, y) → unreadable e = Some msg → part_read c x (Some msg) None y.
Definition named (parts : list (string * option string)) : list (string * string) :=
  omap (λ p, (p.1,.) <$> p.2) parts.
Lemma named_app ps qs : named (ps ++ qs) = named ps ++ named qs.
Proof. apply omap_app. Qed.
Lemma try_part_read {A} u p (c : M X A) x m r y :
  part_read c x m r y → dict_get p u = None →
  try_part u p c x = (Ok (u ++ named [(p, m)], r), y).
Proof.
  intros [a y' Hc|e msg y' Hc He] Hu; unfold try_part, catch, mbind, M_bind; rewrite Hc.
  - cbn. by rewrite app_nil_r.
  - assert (dict_set p msg u = u ++ [(p, msg)]) as E.
    { clear -Hu. induction u as [|[k v] u IH]; [done|]. cbn in Hu |- *. case_bool_decide; [done|]. by rewrite IH. }
    destruct e; cbn in He; simplify_eq; unfold mret, M_ret; by rewrite E.
Qed.

(** The home of whatever could be read, with what could not named. *)
Lemma home_of_parts `{DP : !OwnerDevicePort D O S X} a x session x0 context x1 m1 m2 m3 m4 roster inventory vitals memory x2 x3 x4 x5 :
  authenticated_controller_session a x = (Ok session, x0) → bk_context session.(ds_owner_id) x0 = (Ok context, x1) →
  part_read (bk_roster session.(ds_owner_id) None) x1 m1 roster x2 →
  part_read (od_list_devices (D:=D) (O:=O) (S:=S) session) x2 m2 inventory x3 →
  part_read host_read_vitals x3 m3 vitals x4 →
  part_read (bk_memory_library session.(ds_owner_id) None) x4 m4 memory x5 →
  get_home (D:=D) (O:=O) (S:=S) py_str a x =
    (answer_with (home_view py_str context
       (named [("companions", m1); ("devices", m2); ("machine", m3); ("memory", m4)]) roster inventory vitals memory), x5).
Proof.
  intros Ha Hc H1 H2 H3 H4. unfold get_home, or_refused, try_map, catch.
  unfold mbind at 1, M_bind. rewrite Ha. unfold mbind at 1. rewrite Hc.
  pose proof (try_part_read [] "companions" _ _ _ _ _ H1 eq_refl) as E1.
  cbn [app] in E1. unfold mbind at 1. rewrite E1. clear E1.
  pose proof (try_part_read (named [("companions", m1)]) "devices" _ _ _ _ _ H2 ltac:(by destruct m1)) as E2.
  unfold mbind at 1. rewrite E2. clear E2.
  pose proof (try_part_read ((named [("companions", m1)]) ++ named [("devices", m2)]) "machine" _ _ _ _ _ H3
                ltac:(by destruct m1, m2)) as E3.
  unfold mbind at 1. rewrite E3. clear E3.
  pose proof (try_part_read (((named [("companions", m1)]) ++ named [("devices", m2)]) ++ named [("machine", m3)]) "memory"
                _ _ _ _ _ H4 ltac:(by destruct m1, m2, m3)) as E4.
  unfold mbind at 1. rewrite E4. clear E4. by rewrite <- !named_app.
Qed.

Lemma no_counts p q r :
  counts_view [] p q r = Ok (JObj [("total", JInt 0); ("ready", JInt 0); ("waiting", JInt 0); ("put_away", JInt 0)]).
Proof.
  unfold counts_view, make, make_fields, HomeCountsView. cbn [forallb fst snd fmap list_fmap need dict_get]. names.
  unfold tally. cbn -[within]. by rewrite !lax_int_int.
Qed.
Lemma short_text (hi : Z) s : (Z.of_nat (str_len s) <= hi)%Z → text_within 0 (Some hi) s = true.
Proof. intros H. unfold text_within, within. by rewrite !(proj2 (Z.leb_le _ _)) by lia. Qed.

Lemma counts_of states p q r :
  ∃ v, counts_view states p q r = Ok v ∧ shown "total" v = JInt (Z.of_nat (length states)) ∧
    shown "ready" v = JInt (Z.of_nat (count_where p states)) ∧ shown "waiting" v = JInt (Z.of_nat (count_where q states)) ∧
    shown "put_away" v = JInt (Z.of_nat (count_where r states)).
Proof.
  assert (∀ n, within (Some 0%Z) None (Z.of_nat n) = true) as Hw by (intros n; unfold within; by rewrite (proj2 (Z.leb_le _ _)) by lia).
  unfold counts_view, make, make_fields, HomeCountsView. cbn [forallb fst snd fmap list_fmap need dict_get]. names.
  unfold tally. cbn -[within]. rewrite !lax_int_int, !Hw. cbn. eexists. split; [reflexivity|]. by split_and!.
Qed.
Definition state_shown (v : LocalDeviceView D O) : string := device_state v.(dv_claim).(cl_state) (answering v) v.(dv_outputs).
Lemma home_state_shown (v : LocalDeviceView D O) :
  home_state v = (if is_text "awaiting_outputs" (state_shown v) then "ready" else state_shown v) .
Proof.
  unfold home_state, state_shown, device_state. destruct (negb _); [done|]. destruct (answering v); [|done]. by destruct (_ && _).
Qed.
Lemma count_states (p q : string → bool) (vs : list (LocalDeviceView D O)) :
  (∀ v, p (home_state v) = q (state_shown v)) → count_where p (home_state <$> vs) = count_where (λ v, q (state_shown v)) vs.
Proof. intros H. unfold count_where. induction vs as [|v vs IH]; [done|]. cbn. rewrite H. destruct (q _); cbn; by rewrite IH. Qed.

(** The home counts every device once, by the state the device list shows it
    in — except that a device nothing was decided for, which the list shows as
    awaiting its outputs, is counted as ready. *)
Theorem home_counts_exact (vs : list (LocalDeviceView D O)) :
  ∃ v, device_counts (Some vs) = Ok v ∧ shown "total" v = JInt (Z.of_nat (length vs)) ∧
    shown "ready" v = JInt (Z.of_nat (count_where (λ d, is_text "ready" (state_shown d) || is_text "awaiting_outputs" (state_shown d)) vs)) ∧
    shown "waiting" v = JInt (Z.of_nat (count_where (λ d, is_text "awaiting_companion" (state_shown d)) vs)) ∧
    shown "put_away" v = JInt (Z.of_nat (count_where (λ d, is_text "access_revoked" (state_shown d)) vs)).
Proof.
  unfold device_counts. cbn [default].
  destruct (counts_of (home_state <$> vs) (is_text "ready") (is_text "awaiting_companion") (is_text "access_revoked"))
    as (v & Hv & Ht & Hr & Hw & Hp).
  exists v. split; [done|]. rewrite Ht, Hr, Hw, Hp, length_fmap.
  rewrite (count_states (is_text "ready") (λ s, is_text "ready" s || is_text "awaiting_outputs" s)),
    (count_states (is_text "awaiting_companion") (is_text "awaiting_companion")),
    (count_states (is_text "access_revoked") (is_text "access_revoked")); [done|..];
    intros d; rewrite home_state_shown; unfold is_text;
    (destruct (decide (state_shown d = "awaiting_outputs")) as [->|E]; [reflexivity|]);
    rewrite !(bool_decide_eq_false_2 (state_shown d = "awaiting_outputs")) by done; by rewrite ?orb_false_r.
Qed.

(** With nothing but the Owner to say, the home still answers: the four parts
    named with what each failed for, nobody counted, nothing remembered. *)
Theorem home_survives `{DP : !OwnerDevicePort D O S X} a x session x0 context x1 m1 m2 m3 m4 x2 x3 x4 x5 name revision :
  authenticated_controller_session a x = (Ok session, x0) → bk_context session.(ds_owner_id) x0 = (Ok context, x1) →
  obj_get "owner_display_name" context JNull = JStr name → str_len name ≤ 128 →
  obj_get "owner_revision" context JNull = JInt revision → (1 <= revision)%Z →
  obj_get "default_companion_id" context JNull = JNull →
  part_read (bk_roster session.(ds_owner_id) None) x1 (Some m1) None x2 →
  part_read (od_list_devices (D:=D) (O:=O) (S:=S) session) x2 (Some m2) None x3 →
  part_read host_read_vitals x3 (Some m3) None x4 →
  part_read (bk_memory_library session.(ds_owner_id) None) x4 (Some m4) None x5 →
  ∃ v, get_home (D:=D) (O:=O) (S:=S) py_str a x = (Ok (Answer [] v), x5) ∧
    shown "owner_display_name" v = JStr name ∧
    shown "unavailable" v = JObj [("companions", JStr m1); ("devices", JStr m2); ("machine", JStr m3); ("memory", JStr m4)] ∧
    shown "companions" v = JList [] ∧ shown "total" (shown "devices" v) = JInt 0 ∧ shown "memory" v = JStr "".
Proof.
  intros Ha Hc Hn Hl Hr Hr1 Hd H1 H2 H3 H4. rewrite (home_of_parts a x _ _ _ _ _ _ _ _ None None None None _ _ _ _ Ha Hc H1 H2 H3 H4).
  unfold home_view, int_or. rewrite Hn, Hr, Hd. cbn [json_truthy]. rewrite (proj2 (Z.eqb_neq revision 0)) by lia.
  assert (page_rows "companions" None = Ok []) as Hp by done. unfold companion_counts, device_counts. rewrite Hp.
  cbn [negb int_of mbind result_bind memory_sentence each machine_attention default fmap list_fmap]. rewrite !no_counts.
  assert (str_or_empty py_str (JStr name) = name) as -> by by destruct name.
  cbn [mbind result_bind named omap list_omap fst snd fmap list_fmap option_fmap option_map json_truthy app raws made].
  unfold make, make_fields, HomeView. cbn [forallb fst snd fmap list_fmap need may perhaps contract_version dict_get app]. names.
  cbn -[text_within within]. names. cbn -[text_within within]. rewrite ?lax_int_int, ?lax_bool_bool, ?(short_text 128 name) by lia.
  cbn -[text_within within]. rewrite !any_text. assert (within (Some 1%Z) None revision = true) as -> by (unfold within; lia).
  cbn. eexists. split; [reflexivity|]. by split_and!.
Qed.

(** ** Without a device domain *)

Context {L H : Type} `{!DeviceSelections D L} `{!AdminOwnerDevices D O S L X} `{!AdminDeviceAdmission D H X} `{!HubConfirmation D H}.
Context (valid_domain valid_owner : string → bool).
(** The devices of a Host that was never given its Owner Domain. *)
Definition no_domain : OwnerDevicePort D O S X := local_devices (L:=L) (H:=H) None valid_domain valid_owner.
Definition no_trust_material : exn :=
  HTTPReason 503 "这台主机没有配置设备接入所需的 Owner Domain 信任材料，手机这边重试不会有别的结果。要在主机上重新生成配置。".

(** A Host that was never given its Owner Domain cannot show its home: what
    [devices.list_devices] raises there is no [ManagementBackendError], so it is
    not a part that is named and left out, and neither is it put into the one
    envelope.  The machine and the memory are not asked. *)
Theorem home_needs_domain a x session x0 context x1 m1 roster x2 :
  authenticated_controller_session a x = (Ok session, x0) → bk_context session.(ds_owner_id) x0 = (Ok context, x1) →
  part_read (bk_roster session.(ds_owner_id) None) x1 m1 roster x2 →
  get_home (D:=D) (O:=O) (S:=S) (DP:=no_domain) py_str a x = (Raise no_trust_material, x2) ∧
  (∀ now_ms, get_devices (D:=D) (O:=O) (S:=S) (DP:=no_domain) py_str now_ms a x = (Raise no_trust_material, x0)).
Proof.
  intros Ha Hc H1. split.
  - unfold get_home, or_refused, try_map, catch. unfold mbind at 1, M_bind. rewrite Ha. unfold mbind at 1. rewrite Hc.
    pose proof (try_part_read [] "companions" _ _ _ _ _ H1 eq_refl) as E1. cbn [app] in E1. unfold mbind at 1. by rewrite E1.
  - intros now_ms. unfold get_devices. unfold mbind at 1, M_bind. by rewrite Ha.
Qed.

(** ** The history *)

(** A page of the history leads to the next one: the position the plane
    answered with is what the cursor the phone is given reads back as. *)
Theorem cursor_round_trip answer v z :
  dict_get "next_cursor" answer = Some (JInt z) → (0 <= z < 10 ^ 20)%Z → py_str (JInt z) = pretty z →
  activity_view py_str answer = Ok v →
  ∃ s, shown "next_cursor" v = JStr s ∧ position (Some s) = Ok (Some z).
Proof.
  intros Hz Hb Hp Hv. exists (pretty z). split; [|unfold position; by rewrite int_of_pretty].
  unfold activity_view, item in Hv. rewrite Hz in Hv. cbn [mbind result_bind] in Hv. apply result_bind_ok in Hv as (moments & _ & Hv).
  unfold Upstream.str_of in Hv. rewrite Hp in Hv.
  cbv [make raws made app ActivityView] in Hv. destruct (forallb (λ p : string * argument, _) _); [|done].
  apply result_bind_ok in Hv as (kv & Hv & [= <-]). cbn [make_fields contract_version need perhaps may fst snd dict_get] in Hv.
  apply result_bind_ok in Hv as (version & _ & Hv). apply result_bind_ok in Hv as (ys & Hys & [= <-]).
  apply result_bind_ok in Hys as (ms & _ & Hys). apply result_bind_ok in Hys as (zs & Hzs & [= <-]).
  apply result_bind_ok in Hzs as (c & Hc & Hzs). injection Hzs as <-. cbn -[text_within] in Hc.
  rewrite bool_decide_eq_false_2, bool_decide_eq_true_2 in Hc by done.
  destruct (text_within 0 (Some 128%Z) (pretty z)); [|done]. by injection Hc as <-.
Qed.
End Home.

(** ** Witnesses *)

(* Only texts of numbers and of truth values are coerced, and every value is
   one of the SDK's. *)
#[local] Instance strict_pydantic : Pydantic.
Proof.
  refine {| lax_int v := match v with JInt z => Some z | JStr s => match int_of_str s with Ok z => Some z | Raise _ => None end | _ => None end;
            lax_bool v := match v with
                          | JBool b => Some b
                          | JStr s => if bool_decide (s = "true") then Some true else if bool_decide (s = "false") then Some false else None
                          | _ => None
                          end;
            lax_float v := if is_number v then Some v else None; sdk_model _ v := Ok v; sdk_default _ := JNull; sdk_value _ _ := True |};
    try done.
  - intros v f. destruct (is_number v) eqn:E; [|done]. by intros [= <-].
  - intros v ->. by exists v.
  - intros _ v _. by exists v.
Defined.
#[local] Existing Instance plain_device.
#[local] Instance plain_outputs : DeviceOutputs unit.
Proof.
  refine {| out_capabilities _ := JNull; out_input_capabilities _ := JNull; out_policy _ := None; output_policy_required _ := true |}.
  - intros []. by apply CSdk.
  - intros []. apply CNone.
  - done.
Defined.
#[local] Instance one_session : SurfaceAuthentication unit := {|
  authenticated_owner _ := mret "owner_1"; authenticated_controller_id _ := mret "ectrl-0"; authenticated_controller_session _ := mret a_session |}.
#[local] Instance no_directory : ControllerDirectoryPort unit := {|
  directory_list_controllers _ := mret []; directory_revoke_controller _ _ := mret [] |}.
(* A plane that answers only who the Owner is. *)
#[local] Instance context_only : Http unit := {|
  send r := mret (mkHttpResponse (if ManagementBackend.ends_with "/context" r.(hr_url) then 200 else 503) []) |}.
Definition an_owner : obj :=
  [("owner_id", JStr "owner_1"); ("owner_display_name", JStr "小忆"); ("owner_revision", JInt 3); ("default_companion_id", JNull);
   ("capabilities", JObj []); ("limits", JObj [])].
#[local] Instance its_backend : ManagementBackendPort unit :=
  admin_backend (λ _, Ok (JObj an_owner)) (λ _, "") (λ _, Raise (ValidationError "")) (λ _, None) "http://plane" "t" 5.
#[local] Instance its_machine : HostMachinePort unit := admin_machine (λ _, Ok (JObj [])) "http://plane" "t" 5.
Definition its_devices : OwnerDevicePort string unit unit unit :=
  @no_domain unit string unit unit _ unit unit many_devices many_admission unit_confirmation (λ _, true) (λ _, true).
Definition page_devices : OwnerDevicePort string unit unit unit :=
  @local_devices unit string unit unit unit unit _ many_devices many_admission unit_confirmation (Some "owner-1") (λ _, true) (λ _, true).

Lemma presence_exact_witness :
  ∃ v y, reference_presence (λ _, (Ok 20000%Z, tt)) "lamp"
           [("bodies", JList [JObj [("device_id", JStr "lamp"); ("on_channel", JBool true); ("observed_at_ms", JInt 9000);
              ("device_ref", JObj [("device_instance_id", JStr "lamp"); ("owner_domain_id", JStr "owner-1"); ("claim_generation", JInt 1);
                                   ("trust_epoch", JInt 1); ("owner_domain_generation", JInt 1)])]])] tt = (Ok v, y) ∧
         shown "state" v = JStr "online".
Proof.
  destruct (presence_exact (λ _, (Ok 20000%Z, tt)) "lamp"
           [("bodies", JList [JObj [("device_id", JStr "lamp"); ("on_channel", JBool true); ("observed_at_ms", JInt 9000);
              ("device_ref", JObj [("device_instance_id", JStr "lamp"); ("owner_domain_id", JStr "owner-1"); ("claim_generation", JInt 1);
                                   ("trust_epoch", JInt 1); ("owner_domain_generation", JInt 1)])]])] tt tt 20000%Z eq_refl) as (v & y & Hv & Hs & _).
  exists v, y. split; [exact Hv|]. vm_compute in Hv. by injection Hv as <- <-.
Defined.

Lemma home_survives_witness :
  ∃ v, get_home (D:=string) (O:=unit) (S:=unit) (DP:=page_devices) (λ _, "") None tt = (Ok (Answer [] v), tt) ∧
       shown "owner_display_name" v = JStr "小忆".
Proof.
  destruct (home_survives (S:=unit) (λ _, "") (DP:=page_devices) None tt a_session tt an_owner tt
    "Host management backend refused this request" "设备授权已更新，主机正在同步设备配置，请稍候。" "Host service control rejected the request" "Host management backend refused this request"
    tt tt tt tt "小忆" 3) as (v & Hv & Hn & _); [..|by exists v];
    first [lia|vm_compute; reflexivity|vm_compute; repeat constructor; fail|eapply PartFailed; vm_compute; reflexivity].
Defined.

Lemma home_needs_domain_witness :
  get_home (D:=string) (O:=unit) (S:=unit) (DP:=its_devices) (λ _, "") None tt = (Raise no_trust_material, tt).
Proof.
  apply (home_needs_domain (L:=unit) (H:=unit) (λ _, "") (λ _, true) (λ _, true) None tt a_session tt an_owner tt
    (Some "Host management backend refused this request") None tt); [reflexivity|vm_compute; reflexivity|].
  eapply PartFailed; vm_compute; reflexivity.
Defined.

Lemma cursor_round_trip_witness :
  ∃ v, activity_view (λ v, match v with JInt z => pretty z | _ => "" end) [("next_cursor", JInt 40); ("moments", JList [])] = Ok v ∧
  ∃ s, shown "next_cursor" v = JStr s ∧ position (Some s) = Ok (Some 40%Z).
Proof.
  eexists. split; [vm_compute; reflexivity|].
  apply (cursor_round_trip (λ v, match v with JInt z => pretty z | _ => "" end) [("next_cursor", JInt 40); ("moments", JList [])]);
    [reflexivity|lia|reflexivity|vm_compute; reflexivity].
Defined.
