(* ===== verification/ViewContracts.v ===== *)
(** * When one model's values are accepted by another

    A process answers with the values of one model and its client builds values
    of another from them.  [sub] decides that nothing of the first is refused by
    the second, whatever pydantic coerces; it is proved sound against
    [validate]. *)

From S2P Require Import Prelude ManagementViews.

Definition bare (b : vtype) : vtype := match b with VOpt b => b | _ => b end.
(** A bound that is at most as wide. *)
Definition narrower (hi hi' : option Z) : bool :=
  match hi', hi with None, _ => true | Some h', Some h => (h <=? h')%Z | Some _, None => false end.
Definition above (lo lo' : option Z) : bool :=
  match lo', lo with None, _ => true | Some l', Some l => (l' <=? l)%Z | Some _, None => false end.
(** A default that a field takes as it is. *)
Definition checks (b : vtype) (v : json) : bool :=
  match v with
  | JNull => match b with VOpt _ => true | _ => false end
  | JStr s => match bare b with VStr lo hi => text_within lo hi s | VLiteral l => bool_decide (s ∈ l) | _ => false end
  | JBool _ => match bare b with VBool => true | _ => false end
  | JInt z => match bare b with VInt lo hi => within lo hi z | _ => false end
  | JList [] => match bare b with VList _ => true | _ => false end
  | JObj [] => match bare b with VDict _ => true | _ => false end
  | _ => false
  end.
Definition default_fits (d : field_default) (b : vtype) : bool :=
  match d with
  | Required => true
  | Default v => checks b v
  | SdkDefault m => match bare b with VSdk m' => bool_decide (m = m') | _ => false end
  end.
Definition optional (d : field_default) : bool := match d with Required => false | _ => true end.

(** Every value of the first is accepted by the second. *)
Fixpoint sub (a b : vtype) {struct a} : bool :=
  match a with
  | VOpt a => match b with VOpt b => sub a b | _ => false end
  | VStr lo hi => match bare b with VStr lo' hi' => (lo' <=? lo)%Z && narrower hi hi' | _ => false end
  | VLiteral l =>
      match bare b with
      | VStr lo hi => forallb (text_within lo hi) l
      | VLiteral l' => forallb (λ s, bool_decide (s ∈ l')) l
      | _ => false
      end
  | VPattern _ => false
  | VInt lo hi => match bare b with VInt lo' hi' => above lo lo' && narrower hi hi' | _ => false end
  | VBool => match bare b with VBool => true | _ => false end
  | VFloat => match bare b with VFloat => true | _ => false end
  | VUnit => match bare b with VFloat | VUnit => true | _ => false end
  | VList a => match bare b with VList b => sub a b | _ => false end
  | VDict a => match bare b with VDict b => sub a b | _ => false end
  | VModel _ fs =>
      match bare b with
      | VModel _ gs =>
          forallb (λ f, bool_decide (f.1 ∈ gs.*1)) fs &&
          forallb (λ g : string * (vtype * field_default),
            (fix find fs := match fs with
             | [] => optional g.2.2
             | f :: rest => if bool_decide (g.1 = f.1) then sub f.2.1 g.2.1 && default_fits f.2.2 g.2.1 else find rest
             end) fs) gs
      | _ => false
      end
  | VSdk m => match bare b with VSdk m' => bool_decide (m = m') | _ => false end
  end.

Section Sound.
Context `{PY : !Pydantic}.

Definition accepts (b : vtype) (v : json) : Prop := ∃ v', validate b v = Ok v'.
Lemma accepts_bare b v : accepts (bare b) v → accepts b v.
Proof. destruct b; try done. intros [v' Hv]. destruct v; try (by exists v'). by exists JNull. Qed.
Lemma within_weaken lo hi lo' hi' z : above lo lo' = true → narrower hi hi' = true → within lo hi z = true → within lo' hi' z = true.
Proof. unfold above, narrower, within. destruct lo, lo', hi, hi'; intros; try done; lia. Qed.
Lemma checks_accepts b v : checks b v = true → accepts b v.
Proof.
  intros Hc. destruct v as [|x|z| | | |s|l|kv]; cbn in Hc; try done.
  - destruct b; try done. by exists JNull.
  - apply accepts_bare. destruct (bare b); try done. exists (JBool x). cbn. by rewrite lax_bool_bool.
  - apply accepts_bare. destruct (bare b); try done. exists (JInt z). cbn. by rewrite lax_int_int, Hc.
  - apply accepts_bare. destruct (bare b); try done; exists (JStr s); cbn; by rewrite Hc.
  - destruct l; [|done]. apply accepts_bare. destruct (bare b); try done. by exists (JList []).
  - destruct kv; [|done]. apply accepts_bare. destruct (bare b); try done. by exists (JObj []).
Qed.

(** What a field of a value holds is accepted by a field that fits. *)
Definition field_fits (f : vtype * field_default) (b : vtype) : bool := sub f.1 b && default_fits f.2 b.
Lemma find_field (fs : list (string * (vtype * field_default))) (g : string * (vtype * field_default)) :
  (fix find fs := match fs with
   | [] => optional g.2.2
   | f :: rest => if bool_decide (g.1 = f.1) then sub f.2.1 g.2.1 && default_fits f.2.2 g.2.1 else find rest
   end) fs = match dict_get g.1 fs with Some f => field_fits f g.2.1 | None => optional g.2.2 end.
Proof. induction fs as [|[k f] fs IH]; [done|]. cbn. by case_bool_decide. Qed.

Definition held (n : string) (f : string * (vtype * field_default)) (p : string * json) : Prop :=
  p.1 = f.1 ∧ (fill n f.2.2 = Ok p.2 ∨ conforms f.2.1 p.2).
Lemma held_get n fs kv k : Forall2 (held n) fs kv →
  match dict_get k fs with
  | Some f => ∃ v, dict_get k kv = Some v ∧ (fill n f.2 = Ok v ∨ conforms f.1 v)
  | None => dict_get k kv = None
  end.
Proof.
  induction 1 as [|[k' f] [k'' v] fs kv [Hk Hv] _ IH]; [done|]. cbn in Hk |- *. subst. case_bool_decide; [by exists v|done].
Qed.
Lemma fill_accepts n d b v : default_fits d b = true → fill n d = Ok v → accepts b v.
Proof.
  destruct d as [|w|m]; cbn; [done|intros H [= <-]; by apply checks_accepts|]. intros H [= <-]. apply accepts_bare.
  destruct (bare b); try done. apply bool_decide_eq_true in H as ->. apply (sdk_model_of model), sdk_default_value.
Qed.
Lemma validate_model m gs kv :
  known_fields gs kv = true →
  (∀ g, g ∈ gs → match dict_get g.1 kv with Some x => accepts g.2.1 x | None => optional g.2.2 = true end) →
  accepts (VModel m gs) (JObj kv).
Proof.
  intros Hk Hg. unfold accepts. cbn. rewrite Hk. clear Hk.
  assert (∃ kv', (fix go fs := match fs with
                   | [] => Ok []
                   | f :: rest =>
                       y ← match dict_get f.1 kv with Some x => validate f.2.1 x | None => fill m f.2.2 end;
                       ys ← go rest; Ok ((f.1, y) :: ys)
                   end) gs = Ok kv') as [kv' ->]; [|by exists (JObj kv')].
  induction gs as [|g gs IH]; [by eexists|]. destruct IH as [ys ->]; [intros g' Hg'; apply Hg; by right|].
  specialize (Hg g ltac:(by left)). destruct (dict_get g.1 kv) as [x|].
  - destruct Hg as [y ->]. by eexists.
  - destruct g as [k [t d]]. destruct d; [done|by eexists..].
Qed.

Lemma accepts_list b l : Forall (accepts b) l → accepts (VList b) (JList l).
Proof.
  intros Hl. unfold accepts. cbn.
  assert (∃ l', (fix go l := match l with [] => Ok [] | x :: rest => y ← validate b x; ys ← go rest; Ok (y :: ys) end) l = Ok l')
    as [l' ->]; [|by eexists].
  induction Hl as [|x l [y ->] _ [ys ->]]; by eexists.
Qed.
Lemma accepts_dict b kv : Forall (λ p, accepts b p.2) kv → accepts (VDict b) (JObj kv).
Proof.
  intros Hl. unfold accepts. cbn.
  assert (∃ l', (fix go (kv : obj) : result obj := match kv with [] => Ok [] | p :: rest => y ← validate b p.2; ys ← go rest; Ok ((p.1, y) :: ys) end) kv = Ok l')
    as [l' ->]; [|by eexists].
  induction Hl as [|x l [y ->] _ [ys ->]]; by eexists.
Qed.

(** [sub] is sound. *)
Lemma sub_accepts a : ∀ b v, sub a b = true → conforms a v → accepts b v.
Proof.
  induction a as [lo hi|l|ok|lo hi| | | |t IH|t IH|t IH|n fs IH|m] using vtype_nested; intros b v Hs Hc; inversion Hc; subst; clear Hc;
    cbn in Hs.
  - apply accepts_bare. destruct (bare b) as [lo' hi'| | | | | | | | | | |]; try done. apply andb_prop in Hs as [Hs1 Hs2].
    pose proof (within_weaken (Some lo) hi (Some lo') hi' _ Hs1 Hs2 H2) as Hw. exists (JStr s). cbn. unfold text_within. by rewrite Hw.
  - apply accepts_bare. destruct (bare b) as [lo hi|l'| | | | | | | | | |]; try done; rewrite forallb_forall in Hs; exists (JStr s); cbn;
      rewrite Hs by (by apply list_elem_of_In); done.
  - done.
  - apply accepts_bare. destruct (bare b) as [| | |lo' hi'| | | | | | | |]; try done. apply andb_prop in Hs as [Hs1 Hs2].
    pose proof (within_weaken lo hi lo' hi' _ Hs1 Hs2 H2) as Hw. exists (JInt z). cbn. by rewrite lax_int_int, Hw.
  - apply accepts_bare. destruct (bare b); try done. eexists. cbn. by rewrite lax_bool_bool.
  - apply accepts_bare. destruct (bare b); try done. destruct (lax_float_of v) as (f & Hf & _); [done|]. exists f. cbn. by rewrite Hf.
  - assert (is_number v = true) as Hn by (by destruct v). destruct (lax_float_of v Hn) as (f & Hf & Hu).
    apply accepts_bare. destruct (bare b); try done; exists f; cbn; rewrite Hf; [done|].
    match goal with H : unit_number v = true |- _ => by rewrite Hu, H end.
  - destruct b; try done. by exists JNull.
  - destruct b as [| | | | | | |b| | | |]; try done. apply (accepts_bare (VOpt b)). by apply IH.
  - apply accepts_bare. destruct (bare b); try done. apply accepts_list. eapply Forall_impl; [done|]. intros x. by apply IH.
  - apply accepts_bare. destruct (bare b); try done. apply accepts_dict. eapply Forall_impl; [done|]. intros x. by apply IH.
  - apply accepts_bare. destruct (bare b) as [| | | | | | | | | |m gs|]; try done. apply andb_prop in Hs as [Hk Hs].
    match goal with H : Forall2 _ fs kv |- _ => rename H into Hkv end. change (Forall2 (held n) fs kv) in Hkv. apply validate_model.
    + unfold known_fields. apply forallb_forall. intros p Hp%list_elem_of_In. rewrite forallb_forall in Hk.
      apply list_elem_of_lookup_1 in Hp as [i Hi]. destruct (Forall2_lookup_r _ _ _ _ _ Hkv Hi) as (f & Hf & Hpf & _).
      rewrite Hpf. apply Hk, list_elem_of_In. by eapply list_elem_of_lookup_2.
    + intros g Hg. rewrite forallb_forall in Hs. specialize (Hs g ltac:(by apply list_elem_of_In)). rewrite find_field in Hs.
      pose proof (held_get n fs kv g.1 Hkv) as Hget. destruct (dict_get g.1 fs) as [f|] eqn:Ef; [|by rewrite Hget].
      destruct Hget as (v & -> & Hv). apply andb_prop in Hs as [Hs1 Hs2].
      destruct Hv as [Hv|Hv]; [by eapply fill_accepts|].
      assert ((g.1, f) ∈ fs) as Hin.
      { revert Ef. clear. induction fs as [|[k f'] fs IH]; [done|]. cbn. case_bool_decide; [intros [= ->]; subst; by left|].
        intros H'. right. by apply IH. }
      rewrite Forall_forall in IH. exact (IH _ Hin _ _ Hs1 Hv).
  - apply accepts_bare. destruct (bare b); try done. apply bool_decide_eq_true in Hs as ->. by apply (sdk_model_of model).
Qed.
End Sound.
