(* ===== verification/PlaneViews.v ===== *)
(** * The models of the internal plane

    [app/management/router.py]: what the Admin process answers the Local API
    with, and what it takes in a body.  Three of them, those of the graph, drop
    what they do not know instead of refusing it. *)

From S2P Require Import Prelude ManagementViews.
#[local] Open Scope Z_scope.

Definition ManagementContextInternal : vtype :=
  VModel "ManagementContextInternal" [contract_version; operation "management.context";
    need "owner_id" (text 1 64); may "owner_display_name" (text 0 128) (JStr "");
    need "owner_revision" (at_least 1); perhaps "default_companion_id" (text 0 64);
    need "capabilities" (VDict VBool); may "unavailable" (VDict (VStr 0 None)) (JObj []);
    need "limits" (VDict (VOpt (VInt None None)))].
Definition CompanionSummaryInternal : vtype :=
  VModel "CompanionSummaryInternal" [perhaps "artwork_id" (text 0 128); need "companion_id" (text 1 64);
    may "display_name" (text 0 128) (JStr ""); need "kind" (text 1 32); need "lifecycle_state" (text 1 32);
    need "revision" (at_least 1); need "created_at" (text 1 64); need "updated_at" (text 1 64);
    perhaps "genome_id" (text 0 64); perhaps "memory_realm_id" (text 0 64);
    may "last_active_at" (text 0 64) (JStr "")].
Definition CompanionRosterInternal : vtype :=
  VModel "CompanionRosterInternal" [contract_version; operation "companion.roster";
    need "owner_id" (text 1 64); perhaps "default_companion_id" (text 0 64);
    need "companions" (VList CompanionSummaryInternal); may "activity_unavailable" (text 0 64) (JStr "");
    perhaps "next_cursor" (text 0 256)].
Definition CompanionDetailInternal : vtype :=
  VModel "CompanionDetailInternal" [contract_version; operation "companion.detail";
    need "companion_id" (text 1 64); may "display_name" (text 0 128) (JStr ""); need "kind" (text 1 32);
    need "lifecycle_state" (text 1 32); need "revision" (at_least 1); need "is_default" VBool].
Definition DefaultCompanionRequestInternal : vtype :=
  VModel "DefaultCompanionRequestInternal" [need "companion_id" (text 1 64);
    need "expected_revision" (at_least 1)].
Definition DefaultCompanionResponseInternal : vtype :=
  VModel "DefaultCompanionResponseInternal" [contract_version; operation "owner.default-companion";
    perhaps "default_companion_id" (text 0 64)].
Definition CompanionCreateRequestInternal : vtype :=
  VModel "CompanionCreateRequestInternal" [need "display_name" (text 1 128);
    may "kind" (text 1 32) (JStr "conversational"); perhaps "source_preset_id" (text 1 64);
    perhaps "source_preset_revision" (text 1 32); perhaps "persona" (VSdk "PersonaAuthoring");
    perhaps "preferences" (VSdk "ConversationPreferences")].
Definition CompanionCreateResponseInternal : vtype :=
  VModel "CompanionCreateResponseInternal" [contract_version; operation "companion.created";
    need "companion_id" (text 1 64); may "display_name" (text 0 128) (JStr ""); need "kind" (text 1 32);
    need "lifecycle_state" (text 1 32); need "revision" (at_least 1); need "created" VBool;
    need "memory_ready" VBool].
Definition RenameRequestInternal : vtype :=
  VModel "RenameRequestInternal" [need "display_name" (text 1 128)].
Definition CompanionNameInternal : vtype :=
  VModel "CompanionNameInternal" [contract_version; operation "companion.name";
    need "companion_id" (text 1 64); may "display_name" (text 0 128) (JStr ""); need "revision" (at_least 1)].
Definition OwnerNameInternal : vtype :=
  VModel "OwnerNameInternal" [contract_version; operation "owner.name"; need "owner_id" (text 1 64);
    may "display_name" (text 0 128) (JStr ""); need "revision" (at_least 1)].
Definition ActivityMomentInternal : vtype :=
  VModel "ActivityMomentInternal" [need "event_id" (text 1 64); need "action" (text 1 128);
    need "subject_type" (text 1 64); need "subject_id" (text 1 128);
    may "subject_name" (text 0 128) (JStr ""); need "occurred_at" (text 1 64); need "outcome" (text 1 16);
    may "detail" (VDict (VStr 0 None)) (JObj [])].
Definition ActivityFeedInternal : vtype :=
  VModel "ActivityFeedInternal" [contract_version; operation "owner.activity";
    need "moments" (VList ActivityMomentInternal); perhaps "next_cursor" (at_least 1)].
Definition CompanionFaceInternal : vtype :=
  VModel "CompanionFaceInternal" [contract_version; operation "companion.face";
    need "companion_id" (text 1 64); need "has_face" VBool; perhaps "sha256" (text 0 128);
    perhaps "updated_at" (text 0 64)].
Definition CompanionLifecycleRequestInternal : vtype :=
  VModel "CompanionLifecycleRequestInternal" [need "lifecycle_state" (VLiteral ["archived"; "active"]);
    perhaps "replacement_companion_id" (text 1 64); perhaps "expected_revision" (at_least 1)].
Definition CompanionLifecycleResponseInternal : vtype :=
  VModel "CompanionLifecycleResponseInternal" [contract_version; operation "companion.lifecycle";
    need "companion_id" (text 1 64); need "lifecycle_state" (text 1 32); need "revision" (at_least 1);
    perhaps "default_companion_id" (text 0 64); may "released_devices" (VList (VStr 0 None)) (JList [])].
Definition MemoryRoomInternal : vtype :=
  VModel "MemoryRoomInternal" [need "room_id" (text 1 256); need "entry_count" (at_least 0);
    need "titles" (VList (VStr 0 None)); need "more" VBool].
Definition MemoryWingInternal : vtype :=
  VModel "MemoryWingInternal" [need "wing_id" (text 1 128); may "display_name" (text 0 256) (JStr "");
    may "description" (text 0 2048) (JStr ""); need "entry_count" (at_least 0);
    need "rooms" (VList MemoryRoomInternal)].
Definition MemoryLibraryInternal : vtype :=
  VModel "MemoryLibraryInternal" [contract_version; operation "memory.library";
    need "audience_scope" (text 1 128); need "wings" (VList MemoryWingInternal);
    need "entry_count" (at_least 0); need "withheld_count" (at_least 0); need "truncated" VBool].
Definition MemoryGraphNodeInternal : vtype :=
  VModel "MemoryGraphNodeInternal" [need "node_id" (VStr 0 None); need "label" (VStr 0 None);
    need "degree" (VInt None None)].
Definition MemoryGraphEdgeInternal : vtype :=
  VModel "MemoryGraphEdgeInternal" [need "edge_id" (VStr 0 None); need "subject" (VStr 0 None);
    need "predicate" (VStr 0 None); need "object" (VStr 0 None); need "confidence" VFloat;
    may "recorded_at" (VStr 0 None) (JStr ""); perhaps "valid_from" (VStr 0 None);
    perhaps "valid_to" (VStr 0 None)].
Definition MemoryGraphInternal : vtype :=
  VModel "MemoryGraphInternal" [contract_version; operation "memory.graph";
    need "nodes" (VList MemoryGraphNodeInternal); need "edges" (VList MemoryGraphEdgeInternal);
    need "truncated" VBool; perhaps "next_cursor" (VStr 0 None); may "history" VBool (JBool false)].
Definition MemoryEntryInternal : vtype :=
  VModel "MemoryEntryInternal" [need "entry_id" (text 1 128); need "recorded_at" (text 1 64);
    may "recorded_at_source" (text 0 64) (JStr ""); may "wing_id" (text 0 128) (JStr "");
    may "room_id" (text 0 256) (JStr ""); may "preview" (text 0 4096) (JStr ""); provenance;
    may "value" (VStr 0 None) (JStr "")].
Definition MemoryDayInternal : vtype :=
  VModel "MemoryDayInternal" [contract_version; operation "memory.day"; need "since" (text 1 64);
    need "entries" (VList MemoryEntryInternal); need "entry_count" (at_least 0); need "more_in_window" VBool;
    perhaps "next_cursor" (text 0 1024); need "undated_count" (at_least 0); need "truncated" VBool].
Definition RevokedSessionsInternal : vtype :=
  VModel "RevokedSessionsInternal" [contract_version; operation "owner.runtime-sessions-revoked";
    need "revoked_at" (text 1 64)].
Definition ConversationInternal : vtype :=
  VModel "ConversationInternal" [need "conversation_id" (text 1 CONVERSATION_ID_MAX_LENGTH);
    may "started_at" (text 0 64) (JStr ""); may "updated_at" (text 0 64) (JStr "");
    perhaps "ended_at" (text 0 64)].
Definition ConversationPageInternal : vtype :=
  VModel "ConversationPageInternal" [contract_version; operation "companion.conversations";
    need "companion_id" (text 1 64); need "conversations" (VList ConversationInternal);
    perhaps "next_cursor" (text 0 256)].
Definition SpokenMessageInternal : vtype :=
  VModel "SpokenMessageInternal" [need "role" (text 1 32); may "text" (text 0 1048576) (JStr "")].
Definition TranscriptTurnInternal : vtype :=
  VModel "TranscriptTurnInternal" [need "turn_id" (text 1 64); may "started_at" (text 0 64) (JStr "");
    perhaps "finished_at" (text 0 64); may "status" (text 0 32) (JStr "");
    need "messages" (VList SpokenMessageInternal)].
Definition TranscriptInternal : vtype :=
  VModel "TranscriptInternal" [contract_version; operation "companion.transcript";
    need "conversation_id" (text 1 CONVERSATION_ID_MAX_LENGTH); need "turns" (VList TranscriptTurnInternal);
    perhaps "next_cursor" (text 0 256)].
Definition TaskInternal : vtype :=
  VModel "TaskInternal" [need "task_id" (text 1 64); need "status" (text 1 32);
    may "asked" (text 0 8192) (JStr ""); may "kind" (text 0 64) (JStr "");
    may "urgency" (text 0 32) (JStr ""); may "expected_output" (text 0 4096) (JStr "");
    may "progress" (text 0 8192) (JStr ""); may "result" (text 0 65536) (JStr "");
    may "error_code" (text 0 128) (JStr ""); may "error_message" (text 0 4096) (JStr "");
    may "created_at" (text 0 64) (JStr ""); may "updated_at" (text 0 64) (JStr "");
    perhaps "completed_at" (text 0 64)].
Definition TaskPageInternal : vtype :=
  VModel "TaskPageInternal" [contract_version; operation "companion.tasks"; need "companion_id" (text 1 64);
    need "tasks" (VList TaskInternal); perhaps "next_cursor" (text 0 256)].
Definition PersonaChapterInternal : vtype :=
  VModel "PersonaChapterInternal" [need "chapter_id" (text 1 64); need "changed_at" (text 1 64);
    may "what_changed" (text 0 4096) (JStr ""); perhaps "restored_from" (VInt None None);
    may "is_current" VBool (JBool false)].
Definition PersonaHistoryInternal : vtype :=
  VModel "PersonaHistoryInternal" [contract_version; operation "companion.persona-history";
    need "companion_id" (text 1 64); need "chapters" (VList PersonaChapterInternal)].
Definition PersonaRestoreInternal : vtype :=
  VModel "PersonaRestoreInternal" [need "chapter_id" (text 1 64)].
Definition RecollectionInternal : vtype :=
  VModel "RecollectionInternal" [may "text" (text 0 8192) (JStr ""); perhaps "remembered_at" (text 0 64);
    provenance].
Definition RecollectionsInternal : vtype :=
  VModel "RecollectionsInternal" [contract_version; operation "memory.recollections";
    need "query" (text 1 256); need "recollections" (VList RecollectionInternal)].
Definition MemoryExportRecordInternal : vtype :=
  VModel "MemoryExportRecordInternal" [need "entry_id" (text 1 128); may "recorded_at" (text 0 64) (JStr "");
    may "recorded_at_source" (text 0 64) (JStr ""); may "wing_id" (text 0 128) (JStr "");
    may "room_id" (text 0 256) (JStr ""); may "memory_type" (text 0 64) (JStr ""); need "value" (VStr 0 None);
    provenance].
Definition MemoryCopyInternal : vtype :=
  VModel "MemoryCopyInternal" [contract_version; operation "memory.copy"; need "taken_at" (text 1 64);
    need "records" (VList MemoryExportRecordInternal); need "record_count" (at_least 0);
    need "undated_count" (at_least 0); need "truncated" VBool].
Definition ForgetTargetInternal : vtype :=
  VModel "ForgetTargetInternal" [need "target" (text 1 512)].
Definition ForgetConfirmInternal : vtype :=
  VModel "ForgetConfirmInternal" [need "confirmation_token" (text 1 4096)].
Definition ForgetEntryInternal : vtype :=
  VModel "ForgetEntryInternal" [need "entry_id" (text 1 128); may "preview" (text 0 4096) (JStr "");
    need "score" VUnit].
Definition ForgetProposalInternal : vtype :=
  VModel "ForgetProposalInternal" [contract_version; operation "memory.forget-proposal";
    need "status" (VLiteral ["preview"; "not_found"; "too_broad"]); need "target" (text 1 512);
    need "entries" (VList ForgetEntryInternal); need "needs_confirmation" VBool;
    perhaps "confirmation_token" (text 0 4096); perhaps "expires_at" (VInt None None);
    may "detail" (text 0 1024) (JStr "")].
Definition ForgetResultInternal : vtype :=
  VModel "ForgetResultInternal" [contract_version; operation "memory.forgotten";
    need "request_id" (text 1 128); need "target" (text 1 512); need "entry_count" (at_least 0);
    need "status" (VLiteral ["accepted"; "retrying"; "applied"; "failed"])].
Definition ForgetProgressInternal : vtype :=
  VModel "ForgetProgressInternal" [contract_version; operation "memory.forget-progress";
    need "request_id" (text 1 128); need "status" (VLiteral ["accepted"; "retrying"; "applied"; "failed"])].
