(* ===== verification/MemoryRelays.v ===== *)
(** * The management plane: what is remembered

    [app/management/memory.py], [recollecting.py], [forgetting.py] and
    [sessions.py]: what a realm answers, and what of it a person is told.  The
    realm's own models are the SDK's; of each, what these modules read. *)

From S2P Require Import Prelude Encoding Json RemovalWorkflow Upstream ManagementViews.

(** An instance of a model of the SDK, as it dumps. *)
Record sdk `{PY : !Pydantic} (model : string) := mkSdk { sdk_json : json; sdk_ok : sdk_value model sdk_json }.
Arguments mkSdk {_ _} _ _.
Arguments sdk_json {_ _} _.
Arguments sdk_ok {_ _} _.

Section Relays.
Context `{PY : !Pydantic}.

(** ** memory.py *)

(** What the realm answers. *)
Record MemoryRoom := mkRoom { rm_room_id : string; rm_drawer_count : Z; rm_drawers_preview : list obj; rm_preview_truncated : bool }.
Record MemoryWing := mkWing {
  wg_wing_id : string; wg_display_name : string; wg_description : string; wg_drawer_count : Z; wg_rooms : list MemoryRoom }.
Record MemoryBrowse := mkBrowse {
  br_audience_scope : string; br_wings : list MemoryWing; br_entry_count : Z; br_withheld_count : Z; br_truncated : bool }.
Record MemoryEntry := mkEntry {
  en_entry_id : string; en_recorded_at : string; en_recorded_at_source : string; en_wing_id : string; en_room_id : string;
  en_preview : string; en_provenance : sdk "MemoryProvenance"; en_value : string }.
Record MemoryEntries := mkEntries {
  es_since : string; es_entries : list MemoryEntry; es_entry_count : Z; es_more_in_window : bool;
  es_next_cursor : option string; es_undated_count : Z; es_truncated : bool }.
Record MemoryExportRecord := mkExportRecord {
  ex_entry_id : string; ex_recorded_at : string; ex_recorded_at_source : string; ex_wing_id : string; ex_room_id : string;
  ex_memory_type : string; ex_value : string; ex_provenance : sdk "MemoryProvenance" }.
Record MemoryExport := mkExport {
  xp_taken_at : string; xp_records : list MemoryExportRecord; xp_record_count : Z; xp_undated_count : Z; xp_truncated : bool }.
(** Nodes and edges as [model_dump] gives them. *)
Record MemoryGraph := mkGraph {
  gr_nodes : list obj; gr_edges : list obj; gr_truncated : bool; gr_next_cursor : option string; gr_history : bool }.

Class MemoryBrowser (X : Type) := {
  (** Owner, Companion *)
  realm_browse : string → option string → M X MemoryBrowse;
  (** Owner, since, limit, Companion, cursor *)
  realm_entries : string → string → option Z → option string → option string → M X MemoryEntries;
  (** Owner, Companion, cursor, history *)
  realm_graph : string → option string → option string → bool → M X MemoryGraph;
  (** Owner, Companion, wing, room *)
  realm_export : string → option string → option string → option string → M X MemoryExport }.

(** What a person is told. *)
Record MemoryRoomView := mkRoomView { rw_room_id : string; rw_entry_count : Z; rw_titles : list string; rw_more : bool }.
Record MemoryWingView := mkWingView {
  wv_wing_id : string; wv_display_name : string; wv_description : string; wv_entry_count : Z; wv_rooms : list MemoryRoomView }.
Record MemoryLibrary := mkLibrary {
  ml_audience_scope : string; ml_wings : list MemoryWingView; ml_entry_count : Z; ml_withheld_count : Z; ml_truncated : bool }.
Record MemoryEntryView := mkEntryView {
  ev_entry_id : string; ev_recorded_at : string; ev_recorded_at_source : string; ev_wing_id : string; ev_room_id : string;
  ev_preview : string; ev_provenance : sdk "MemoryProvenance"; ev_value : string }.
Record MemoryDay := mkDay {
  dy_since : string; dy_entries : list MemoryEntryView; dy_entry_count : Z; dy_more_in_window : bool;
  dy_next_cursor : option string; dy_undated_count : Z; dy_truncated : bool }.
Record MemoryExportRecordView := mkRecordView {
  xv_entry_id : string; xv_recorded_at : string; xv_recorded_at_source : string; xv_wing_id : string; xv_room_id : string;
  xv_memory_type : string; xv_value : string; xv_provenance : sdk "MemoryProvenance" }.
Record MemoryCopy := mkCopy {
  cy_taken_at : string; cy_records : list MemoryExportRecordView; cy_record_count : Z; cy_undated_count : Z; cy_truncated : bool }.
Record MemoryGraphView := mkGraphView {
  gv_nodes : list obj; gv_edges : list obj; gv_truncated : bool; gv_next_cursor : option string; gv_history : bool }.

(** [str] of a JSON value that is not a string. *)
Context (py_str : json → string).

(** [str(drawer.get("preview") or drawer.get("key") or "")] *)
Definition drawer_title (drawer : obj) : string :=
  let preview := obj_get "preview" drawer JNull in
  let key := obj_get "key" drawer JNull in
  str_of py_str (if json_truthy preview then preview else if json_truthy key then key else JStr "").
Definition room_view (r : MemoryRoom) : MemoryRoomView :=
  mkRoomView r.(rm_room_id) r.(rm_drawer_count) (drawer_title <$> r.(rm_drawers_preview)) r.(rm_preview_truncated).
Definition wing_view (w : MemoryWing) : MemoryWingView :=
  mkWingView w.(wg_wing_id) w.(wg_display_name) w.(wg_description) w.(wg_drawer_count) (room_view <$> w.(wg_rooms)).
Definition entry_view (e : MemoryEntry) : MemoryEntryView :=
  mkEntryView e.(en_entry_id) e.(en_recorded_at) e.(en_recorded_at_source) e.(en_wing_id) e.(en_room_id) e.(en_preview)
    e.(en_provenance) e.(en_value).
Definition record_view (r : MemoryExportRecord) : MemoryExportRecordView :=
  mkRecordView r.(ex_entry_id) r.(ex_recorded_at) r.(ex_recorded_at_source) r.(ex_wing_id) r.(ex_room_id) r.(ex_memory_type)
    r.(ex_value) r.(ex_provenance).

Context {X : Type}.
Definition read_graph `{!MemoryBrowser X} (owner : string) (companion cursor : option string) (history : bool) : M X MemoryGraphView :=
  graph ← realm_graph owner companion cursor history;
  mret (mkGraphView graph.(gr_nodes) graph.(gr_edges) graph.(gr_truncated) graph.(gr_next_cursor) graph.(gr_history)).
Definition read_library `{!MemoryBrowser X} (owner : string) (companion : option string) : M X MemoryLibrary :=
  page ← realm_browse owner companion;
  mret (mkLibrary page.(br_audience_scope) (wing_view <$> page.(br_wings)) page.(br_entry_count) page.(br_withheld_count)
          page.(br_truncated)).
Definition read_day `{!MemoryBrowser X} (owner since : string) (limit : option Z) (companion cursor : option string) : M X MemoryDay :=
  page ← realm_entries owner since limit companion cursor;
  mret (mkDay page.(es_since) (entry_view <$> page.(es_entries)) page.(es_entry_count) page.(es_more_in_window)
          page.(es_next_cursor) page.(es_undated_count) page.(es_truncated)).
Definition read_copy `{!MemoryBrowser X} (owner : string) (companion wing room : option string) : M X MemoryCopy :=
  page ← realm_export owner companion wing room;
  mret (mkCopy page.(xp_taken_at) (record_view <$> page.(xp_records)) page.(xp_record_count) page.(xp_undated_count)
          page.(xp_truncated)).

(** ** recollecting.py *)

Record MemoryRecollection := mkRecollection {
  rc_text : string; rc_remembered_at : option string; rc_provenance : sdk "MemoryProvenance" }.
(** Owner, query, limit, Companion *)
Class MemoryRecollector (X : Type) := {
  realm_recollections : string → string → Z → option string → M X (list MemoryRecollection) }.
Record RecollectionView := mkRecollectionView {
  rl_text : string; rl_remembered_at : option string; rl_provenance : sdk "MemoryProvenance" }.
Record Recollections := mkRecollections { rs_query : string; rs_recollections : list RecollectionView }.

(** [_view]: an empty time is none. *)
Definition recollection_view (r : MemoryRecollection) : RecollectionView :=
  mkRecollectionView r.(rc_text) (match r.(rc_remembered_at) with Some t => if bool_decide (t = "") then None else Some t | None => None end) r.(rc_provenance).
Definition recall `{!MemoryRecollector X} (owner query : string) (limit : Z) (companion : option string) : M X Recollections :=
  found ← realm_recollections owner query limit companion;
  mret (mkRecollections query (recollection_view <$> found)).

(** ** forgetting.py *)

Record OwnerForgetEntry := mkForgetEntry { fe_entry_id : string; fe_preview : string; fe_score : json }.
Record OwnerForgetPreview := mkForgetPreview {
  fp_status : string; fp_target : string; fp_entries : list OwnerForgetEntry; fp_needs_confirmation : bool;
  fp_confirmation_token : option string; fp_expires_at : option Z; fp_detail : string }.
Record OwnerForgetOutcome := mkForgetOutcome { fo_request_id : string; fo_target : string; fo_entry_count : Z; fo_status : string }.
Record OwnerForgetProgress := mkForgetProgress { fg_request_id : string; fg_status : string }.
Class MemoryForgetter (X : Type) := {
  realm_forget_preview : string → string → M X OwnerForgetPreview;
  realm_forget_confirm : string → string → M X OwnerForgetOutcome;
  realm_forget_status : string → string → M X OwnerForgetProgress }.

Record ForgetEntryView := mkForgetEntryView { fv_entry_id : string; fv_preview : string; fv_score : json }.
Record ForgetProposal := mkProposal {
  pp_status : string; pp_target : string; pp_entries : list ForgetEntryView; pp_needs_confirmation : bool;
  pp_confirmation_token : option string; pp_expires_at : option Z; pp_detail : string }.
Record ForgetResult := mkForgetResult { fr_request_id : string; fr_target : string; fr_entry_count : Z; fr_status : string }.
Record ForgetProgress := mkProgress { fs_request_id : string; fs_status : string }.

Definition propose_forget `{!MemoryForgetter X} (owner target : string) : M X ForgetProposal :=
  preview ← realm_forget_preview owner target;
  mret (mkProposal preview.(fp_status) preview.(fp_target)
          ((λ e, mkForgetEntryView e.(fe_entry_id) e.(fe_preview) e.(fe_score)) <$> preview.(fp_entries))
          preview.(fp_needs_confirmation) preview.(fp_confirmation_token) preview.(fp_expires_at) preview.(fp_detail)).
Definition apply_forget `{!MemoryForgetter X} (owner confirmation_token : string) : M X ForgetResult :=
  outcome ← realm_forget_confirm owner confirmation_token;
  mret (mkForgetResult outcome.(fo_request_id) outcome.(fo_target) outcome.(fo_entry_count) outcome.(fo_status)).
Definition read_forget_progress `{!MemoryForgetter X} (owner request_id : string) : M X ForgetProgress :=
  progress ← realm_forget_status owner request_id;
  mret (mkProgress progress.(fg_request_id) progress.(fg_status)).

(** ** sessions.py *)

Record RuntimeSessionRevocation := mkRevocation { rv_owner_id : string; rv_revoked : bool; rv_revoked_at : string }.
Class RuntimeSessionRevoker (X : Type) := { agent_revoke_sessions : string → M X RuntimeSessionRevocation }.
Definition revoke_runtime_sessions `{!RuntimeSessionRevoker X} (owner : string) : M X string :=
  answer ← agent_revoke_sessions owner;
  mret answer.(rv_revoked_at).
End Relays.
