(* ===== verification/PlaneRoutes.v ===== *)
(** * The internal management plane

    [app/management/router.py] behind [app/service_auth.py] and in front of
    [app/control_plane/failure_handler.py]: who is let in, what each route does
    with what it was sent, how it answers, and how a refusal leaves. *)

From S2P Require Import Prelude Encoding Json LocalApi Upstream ManagementViews PlaneViews MemoryRelays.
From S2P Require Import RemovalWorkflow OperatorAdmission Management Activity.

(** ** service_auth.py *)

Definition is_ascii (s : string) : bool := forallb (λ c, (N_of_ascii c <? 128)%N) (list_ascii_of_string s).
(** [hmac.compare_digest] of two texts. *)
Definition compare_digest (a b : string) : result bool :=
  if is_ascii a && is_ascii b then Ok (bool_decide (a = b))
  else Raise (TypeError "comparing strings with non-ASCII characters is not supported").
(** [(authorization or "").partition(" ")]: the scheme, and the token when there is a space. *)
Definition authorization_parts (authorization : option string) : string * option string :=
  let l := list_ascii_of_string (default "" authorization) in
  match partition_space l with
  | Some (scheme, token) => (string_of_list_ascii scheme, Some (string_of_list_ascii token))
  | None => (string_of_list_ascii l, None)
  end.
Definition lower_text (s : string) : string := string_of_list_ascii (lower_ascii <$> list_ascii_of_string s).
Definition authentication_failed : exn := HTTPException 401 "Local API service authentication failed".
Definition require_local_api_credential (local_api_service_token : string) (authorization : option string) : result unit :=
  let expected := strip local_api_service_token in
  if bool_decide (expected = "") then Raise (HTTPException 503 "Local API service credential is not configured")
  else match authorization_parts authorization with
       | (scheme, Some token) =>
           if bool_decide (lower_text scheme = "bearer") then
             same ← compare_digest token expected;
             if same : bool then Ok tt else Raise authentication_failed
           else Raise authentication_failed
       | (_, None) => Raise authentication_failed
       end.

(** ** failure_handler.py *)

Definition OPERATOR_ACTIONABLE : list string :=
  ["configuration"; "unavailable"; "runtime_missing"; "upstream_failure"; "contract_violation"].
(** What is logged: whether it is a warning, and the line's arguments. *)
Record log_line := mkLogLine { ll_warning : bool; ll_failure : authority_failure; ll_method : string; ll_path : string }.
Definition logged (f : authority_failure) (method path : string) : log_line :=
  mkLogLine (bool_decide (f.(af_kind) ∈ OPERATOR_ACTIONABLE)) f method path.

Definition jopt (v : option string) : json := match v with Some s => JStr s | None => JNull end.
Definition jopt_int (v : option Z) : json := match v with Some z => JInt z | None => JNull end.
(** [to_wire().model_dump()] *)
Definition wire_failure (w : WorkflowFailure) : json :=
  JObj [("authority", JStr w.(wf_authority)); ("kind", JStr w.(wf_kind)); ("detail", JStr w.(wf_detail));
        ("refusal", JObj [("kind", JStr w.(wf_refusal_kind)); ("reason", JStr w.(wf_detail)); ("code", jopt w.(wf_code));
                          ("retryable", JBool w.(wf_retryable))]);
        ("code", jopt w.(wf_code)); ("upstream_status", jopt_int w.(wf_upstream_status)); ("retryable", JBool w.(wf_retryable))].

(** What leaves: a document, or bytes with the headers set on them. *)
Inductive plane_reply :=
| Document (status : Z) (v : json)
| Bytes (status : Z) (content : option bytes) (headers : list (string * string)).
(** A refusal, as the handler and FastAPI answer it; anything else is an error
    of the server, which answers with no document. *)
Definition refused (e : exn) : plane_reply :=
  match e with
  | AuthorityFailure f =>
      match to_wire f with
      | Ok w => Document f.(af_status_code) (JObj [("detail", wire_failure w)])
      | Raise _ => Bytes 500 (Some (list_ascii_of_string "Internal Server Error")) []
      end
  | HTTPException status detail => Document status (JObj [("detail", JStr detail)])
  | _ => Bytes 500 (Some (list_ascii_of_string "Internal Server Error")) []
  end.

(** ** Arguments of a model *)

Definition txt (s : string) : argument := Raw (JStr s).
Definition otxt (v : option string) : argument := Raw (jopt v).
Definition num (z : Z) : argument := Raw (JInt z).
Definition onum (v : option Z) : argument := Raw (jopt_int v).
Definition flag (b : bool) : argument := Raw (JBool b).
Definition txts (l : list string) : json := JList (JStr <$> l).
Definition table {A} (f : A → json) (l : list (string * A)) : json := JObj ((λ p, (p.1, f p.2)) <$> l).

Section Models.
Context `{PY : !Pydantic}.
Fixpoint every {A} (f : A → result json) (l : list A) : result (list json) :=
  match l with [] => Ok [] | x :: rest => y ← f x; ys ← every f rest; Ok (y :: ys) end.
Definition context_internal (c : ManagementContext) : result json :=
  make ManagementContextInternal
    [("owner_id", txt c.(mc_owner_id)); ("owner_display_name", txt c.(mc_owner_display_name));
     ("owner_revision", num c.(mc_owner_revision)); ("default_companion_id", otxt c.(mc_default_companion_id));
     ("capabilities", Raw (table JBool c.(capabilities))); ("unavailable", Raw (table JStr c.(unavailable)));
     ("limits", Raw (table jopt_int c.(limits)))].
Definition summary_internal (r : CompanionRow) : result json :=
  let s := r.(row_of) in
  make CompanionSummaryInternal
    [("companion_id", txt s.(cs_companion_id)); ("display_name", txt s.(cs_display_name)); ("kind", txt s.(cs_kind));
     ("lifecycle_state", txt s.(cs_lifecycle_state)); ("revision", num s.(cs_revision)); ("created_at", txt s.(cs_created_at));
     ("updated_at", txt s.(cs_updated_at)); ("artwork_id", otxt s.(cs_artwork_id)); ("genome_id", otxt s.(cs_genome_id));
     ("memory_realm_id", otxt s.(cs_memory_realm_id)); ("last_active_at", txt r.(last_active_at))].
Definition roster_internal (r : Roster) : result json :=
  companions ← every summary_internal r.(ro_companions);
  make CompanionRosterInternal
    [("owner_id", txt r.(ro_owner_id)); ("default_companion_id", otxt r.(ro_default_companion_id));
     ("companions", Made (JList companions)); ("next_cursor", otxt r.(ro_next_cursor));
     ("activity_unavailable", txt r.(activity_unavailable))].
Definition detail_internal (d : CompanionDetail) : result json :=
  let c := d.(detail_of) in
  make CompanionDetailInternal
    [("companion_id", txt c.(ci_companion_id)); ("display_name", txt c.(ci_display_name)); ("kind", txt c.(ci_kind));
     ("lifecycle_state", txt c.(ci_lifecycle_state)); ("revision", num c.(ci_revision)); ("is_default", flag d.(is_default))].
Definition created_internal (c : CreatedCompanion) : result json :=
  make CompanionCreateResponseInternal
    [("companion_id", txt c.(cc_companion_id)); ("display_name", txt c.(cc_display_name)); ("kind", txt c.(cc_kind));
     ("lifecycle_state", txt c.(cc_lifecycle_state)); ("revision", num c.(cc_revision)); ("created", flag c.(created));
     ("memory_ready", flag c.(memory_ready))].
Definition room_internal (r : MemoryRoomView) : result json :=
  make MemoryRoomInternal
    [("room_id", txt r.(rw_room_id)); ("entry_count", num r.(rw_entry_count)); ("titles", Raw (txts r.(rw_titles)));
     ("more", flag r.(rw_more))].
Definition wing_internal (w : MemoryWingView) : result json :=
  rooms ← every room_internal w.(wv_rooms);
  make MemoryWingInternal
    [("wing_id", txt w.(wv_wing_id)); ("display_name", txt w.(wv_display_name)); ("description", txt w.(wv_description));
     ("entry_count", num w.(wv_entry_count)); ("rooms", Made (JList rooms))].
Definition library_internal (l : MemoryLibrary) : result json :=
  wings ← every wing_internal l.(ml_wings);
  make MemoryLibraryInternal
    [("audience_scope", txt l.(ml_audience_scope)); ("wings", Made (JList wings)); ("entry_count", num l.(ml_entry_count));
     ("withheld_count", num l.(ml_withheld_count)); ("truncated", flag l.(ml_truncated))].
(** The models of the graph drop what they do not know. *)
Definition keep_known (view : vtype) (o : obj) : list (string * argument) :=
  match view with
  | VModel _ fs => (λ p, (p.1, Raw p.2)) <$> List.filter (λ p : string * json, bool_decide (p.1 ∈ fs.*1)) o
  | _ => []
  end.
Definition loose (view : vtype) (o : obj) : result json := make view (keep_known view o).
Definition graph_internal (g : MemoryGraphView) : result json :=
  nodes ← every (loose MemoryGraphNodeInternal) g.(gv_nodes);
  edges ← every (loose MemoryGraphEdgeInternal) g.(gv_edges);
  make MemoryGraphInternal
    [("nodes", Made (JList nodes)); ("edges", Made (JList edges)); ("truncated", flag g.(gv_truncated));
     ("next_cursor", otxt g.(gv_next_cursor)); ("history", flag g.(gv_history))].
Definition proposal_internal (p : ForgetProposal) : result json :=
  entries ← every (λ e, make ForgetEntryInternal
              [("entry_id", txt e.(fv_entry_id)); ("preview", txt e.(fv_preview)); ("score", Raw e.(fv_score))]) p.(pp_entries);
  make ForgetProposalInternal
    [("status", txt p.(pp_status)); ("target", txt p.(pp_target)); ("entries", Made (JList entries));
     ("needs_confirmation", flag p.(pp_needs_confirmation)); ("confirmation_token", otxt p.(pp_confirmation_token));
     ("expires_at", onum p.(pp_expires_at)); ("detail", txt p.(pp_detail))].
Definition forgotten_internal (r : ForgetResult) : result json :=
  make ForgetResultInternal
    [("request_id", txt r.(fr_request_id)); ("target", txt r.(fr_target)); ("entry_count", num r.(fr_entry_count));
     ("status", txt r.(fr_status))].
Definition progress_internal (p : ForgetProgress) : result json :=
  make ForgetProgressInternal [("request_id", txt p.(fs_request_id)); ("status", txt p.(fs_status))].
Definition conversations_internal (companion_id : string) (page : list ConversationView * option string) : result json :=
  conversations ← every (λ r, make ConversationInternal
    [("conversation_id", txt r.(conversation_id)); ("started_at", txt r.(started_at)); ("updated_at", txt r.(updated_at));
     ("ended_at", otxt r.(ended_at))]) page.1;
  make ConversationPageInternal
    [("companion_id", txt companion_id); ("conversations", Made (JList conversations)); ("next_cursor", otxt page.2)].
Definition turn_internal (t : TranscriptTurn) : result json :=
  messages ← every (λ m, make SpokenMessageInternal [("role", txt m.(role)); ("text", txt m.(text))]) t.(turn_messages);
  make TranscriptTurnInternal
    [("turn_id", txt t.(turn_id)); ("started_at", txt t.(turn_started_at)); ("finished_at", otxt t.(turn_finished_at));
     ("status", txt t.(turn_status)); ("messages", Made (JList messages))].
Definition transcript_internal (t : Transcript) : result json :=
  turns ← every turn_internal t.(turns);
  make TranscriptInternal
    [("conversation_id", txt t.(transcript_conversation_id)); ("turns", Made (JList turns));
     ("next_cursor", otxt t.(transcript_next_cursor))].
(** [_task_internal] *)
Definition task_internal (t : TaskView) : result json :=
  make TaskInternal
    [("task_id", txt t.(task_id)); ("status", txt t.(task_status)); ("asked", txt t.(asked)); ("kind", txt t.(task_kind));
     ("urgency", txt t.(urgency)); ("expected_output", txt t.(expected_output)); ("progress", txt t.(progress));
     ("result", txt t.(task_result)); ("error_code", txt t.(error_code)); ("error_message", txt t.(error_message));
     ("created_at", txt t.(task_created_at)); ("updated_at", txt t.(task_updated_at)); ("completed_at", otxt t.(completed_at))].
(** [_task_page_internal] *)
Definition task_page_internal (companion_id : string) (page : list TaskView * option string) : result json :=
  tasks ← every task_internal page.1;
  make TaskPageInternal [("companion_id", txt companion_id); ("tasks", Made (JList tasks)); ("next_cursor", otxt page.2)].
(** [_persona_history_internal] *)
Definition persona_history_internal (h : PersonaHistory) : result json :=
  chapters ← every (λ c, make PersonaChapterInternal
    [("chapter_id", txt c.(chapter_id)); ("changed_at", txt c.(changed_at)); ("what_changed", txt c.(what_changed));
     ("restored_from", onum c.(restored_from)); ("is_current", flag c.(is_current))]) h.(chapters);
  make PersonaHistoryInternal [("companion_id", txt h.(ph_companion_id)); ("chapters", Made (JList chapters))].
Definition activity_internal (f : ActivityFeed) : result json :=
  moments ← every (λ m, make ActivityMomentInternal
    [("event_id", txt m.(am_event_id)); ("action", txt m.(am_action)); ("subject_type", txt m.(am_subject_type));
     ("subject_id", txt m.(am_subject_id)); ("subject_name", txt m.(subject_name)); ("occurred_at", txt m.(am_occurred_at));
     ("outcome", txt m.(am_outcome)); ("detail", Raw (table JStr m.(am_detail)))]) f.(moments);
  make ActivityFeedInternal [("moments", Made (JList moments)); ("next_cursor", onum f.(feed_next_cursor))].
(** [_face_internal] *)
Definition face_internal (f : CompanionFace) : result json :=
  make CompanionFaceInternal
    [("companion_id", txt f.(fc_companion_id)); ("has_face", flag f.(has_face)); ("sha256", otxt f.(fc_sha256));
     ("updated_at", otxt f.(fc_updated_at))].
Definition owner_name_internal (o : OwnerIdentity) : result json :=
  make OwnerNameInternal
    [("owner_id", txt o.(oi_owner_id)); ("display_name", txt o.(oi_display_name)); ("revision", num o.(oi_revision))].
Definition lifecycle_internal (v : CompanionLifecycleView) : result json :=
  make CompanionLifecycleResponseInternal
    [("companion_id", txt v.(lv_companion_id)); ("lifecycle_state", txt v.(lv_lifecycle_state)); ("revision", num v.(lv_revision));
     ("default_companion_id", otxt v.(lv_default_companion_id)); ("released_devices", Raw (txts v.(released_devices)))].
Definition recollections_internal (r : Recollections) : result json :=
  recollections ← every (λ e, make RecollectionInternal
    [("text", txt e.(rl_text)); ("remembered_at", otxt e.(rl_remembered_at)); ("provenance", Made (sdk_json e.(rl_provenance)))])
    r.(rs_recollections);
  make RecollectionsInternal [("query", txt r.(rs_query)); ("recollections", Made (JList recollections))].
Definition copy_internal (c : MemoryCopy) : result json :=
  records ← every (λ r, make MemoryExportRecordInternal
    [("entry_id", txt r.(xv_entry_id)); ("recorded_at", txt r.(xv_recorded_at)); ("recorded_at_source", txt r.(xv_recorded_at_source));
     ("wing_id", txt r.(xv_wing_id)); ("room_id", txt r.(xv_room_id)); ("memory_type", txt r.(xv_memory_type));
     ("value", txt r.(xv_value)); ("provenance", Made (sdk_json r.(xv_provenance)))]) c.(cy_records);
  make MemoryCopyInternal
    [("taken_at", txt c.(cy_taken_at)); ("records", Made (JList records)); ("record_count", num c.(cy_record_count));
     ("undated_count", num c.(cy_undated_count)); ("truncated", flag c.(cy_truncated))].
Definition day_internal (d : MemoryDay) : result json :=
  entries ← every (λ e, make MemoryEntryInternal
    [("entry_id", txt e.(ev_entry_id)); ("recorded_at", txt e.(ev_recorded_at)); ("recorded_at_source", txt e.(ev_recorded_at_source));
     ("wing_id", txt e.(ev_wing_id)); ("room_id", txt e.(ev_room_id)); ("preview", txt e.(ev_preview));
     ("provenance", Made (sdk_json e.(ev_provenance))); ("value", txt e.(ev_value))]) d.(dy_entries);
  make MemoryDayInternal
    [("since", txt d.(dy_since)); ("next_cursor", otxt d.(dy_next_cursor)); ("entries", Made (JList entries));
     ("entry_count", num d.(dy_entry_count)); ("more_in_window", flag d.(dy_more_in_window));
     ("undated_count", num d.(dy_undated_count)); ("truncated", flag d.(dy_truncated))].
End Models.

(** ** The routes *)

(** The SDK's documents that the plane passes on: the template and the presets
    of Data, and the preview of the Agent. *)
Class PersonaCatalog (X : Type) `{PY : !Pydantic} := {
  data_persona_authoring_template : M X (sdk "PersonaAuthoring");
  data_persona_presets : M X (sdk "PersonaPresetCatalog");
  agent_preview_persona : sdk "PersonaPreviewRequest" → string → M X (sdk "PersonaPreviewResponse") }.

(** The quotation mark, and [s.strip] of one character. *)
Definition dquote : ascii := ascii_of_N 34.
Fixpoint drop_char (c : ascii) (l : list ascii) : list ascii :=
  match l with x :: l' => if bool_decide (x = c) then drop_char c l' else l | [] => [] end.
Definition strip_char (c : ascii) (s : string) : string :=
  string_of_list_ascii (rev (drop_char c (rev (drop_char c (list_ascii_of_string s))))).
(** [s[len(p):] if s.startswith(p) else None] *)
Definition after_prefix (p s : string) : option string :=
  let lp := list_ascii_of_string p in let ls := list_ascii_of_string s in
  if bool_decide (take (length lp) ls = lp) then Some (string_of_list_ascii (drop (length lp) ls)) else None.
(** [_face_etag] *)
Definition face_etag (digest : option string) : list (string * string) :=
  match digest with
  | Some d => if bool_decide (d = "") then [] else [("ETag", String dquote ("sha256:" +:+ d +:+ String dquote ""))]
  | None => []
  end.
(** [_etag_digest] *)
Definition etag_digest (header : option string) : option string :=
  match header with
  | None => None
  | Some h => if bool_decide (h = "") then None else after_prefix "sha256:" (strip_char dquote (strip h))
  end.

Section Routes.
Context {X : Type} `{PY : !Pydantic}.
Context `{!OwnerReader X} `{!RosterReader X} `{!DefaultCompanionWriter X} `{!CompanionProvisioner X} `{!OwnerNamer X}
  `{!CompanionLifecycleWriter X} `{!CompanionBodyRegistrar X} `{!CompanionFaceKeeper X} `{!GovernanceHistorian X}
  `{!PersonaHistorian (sdk "PersonaEditRequest") (sdk "PersonaEditSnapshot") X} `{!CompanionActivityReader X} `{!PersonaCatalog X}
  `{!MemoryBrowser X} `{!MemoryRecollector X} `{!MemoryForgetter X} `{!RuntimeSessionRevoker X}.
(** The digest, the SDK's words for the two states, [str] of a JSON value, and
    an instance of the SDK as its dump is sent on; the credentials this Host
    holds, the Agent when it is configured, and the supervisor when it is. *)
Context (sha256_hex : bytes → string) (LIFECYCLE_ACTIVE LIFECYCLE_ARCHIVED : string) (py_str : json → string) (as_doc : json → doc).
Context (held : list string) (activity : option (ActivityReader X)) (reconcile : option (M X bool)).

Definition answer (r : result json) : M X plane_reply := v ← lift r; mret (Document 200 v).
Definition answer_sdk {m} (c : M X (sdk m)) : M X plane_reply := v ← c; mret (Document 200 (sdk_json v)).

Definition get_context (owner_id : string) : M X plane_reply :=
  context ← read_context owner_id held; answer (context_internal context).
Definition list_companions (owner_id : string) (cursor : option string) : M X plane_reply :=
  roster ← read_roster activity owner_id cursor; answer (roster_internal roster).
Definition get_companion (companion_id owner_id : string) : M X plane_reply :=
  detail ← read_companion owner_id companion_id; answer (detail_internal detail).
Definition put_default_companion (owner_id companion_id : string) (expected_revision : Z) : M X plane_reply :=
  default_companion_id ← move_default_companion owner_id companion_id expected_revision;
  answer (make DefaultCompanionResponseInternal [("default_companion_id", otxt default_companion_id)]).
Definition get_persona_authoring_template : M X plane_reply := answer_sdk data_persona_authoring_template.
Definition preview_persona (payload : sdk "PersonaPreviewRequest") (owner_id : string) : M X plane_reply :=
  answer_sdk (agent_preview_persona payload owner_id).
Definition get_persona_presets : M X plane_reply := answer_sdk data_persona_presets.

Record CompanionCreateRequest := mkCreateRequest {
  cq_display_name : string; cq_kind : string; cq_source_preset_id : option string; cq_source_preset_revision : option string;
  cq_persona : option json; cq_preferences : option json }.
Definition put_companion_provision (operation_id owner_id : string) (payload : CompanionCreateRequest) : M X plane_reply :=
  created ← create_companion reconcile owner_id
    (mkProvisionRequest operation_id payload.(cq_display_name) payload.(cq_kind) (as_doc <$> payload.(cq_persona))
       (as_doc <$> payload.(cq_preferences)) payload.(cq_source_preset_id)
       (if payload.(cq_source_preset_id) is Some _ then payload.(cq_source_preset_revision) else None));
  answer (created_internal created).
Definition get_memory_library (owner_id : string) (companion_id : option string) : M X plane_reply :=
  library ← read_library py_str owner_id companion_id; answer (library_internal library).
Definition get_memory_graph (owner_id : string) (companion_id cursor : option string) (history : bool) : M X plane_reply :=
  graph ← read_graph owner_id companion_id cursor history; answer (graph_internal graph).
Definition post_forget_preview (owner_id target : string) : M X plane_reply :=
  proposal ← propose_forget owner_id target; answer (proposal_internal proposal).
Definition post_forget_confirm (owner_id confirmation_token : string) : M X plane_reply :=
  result ← apply_forget owner_id confirmation_token; answer (forgotten_internal result).
Definition get_forget_status (owner_id request_id : string) : M X plane_reply :=
  progress ← read_forget_progress owner_id request_id; answer (progress_internal progress).
Definition post_runtime_session_revocation (owner_id : string) : M X plane_reply :=
  revoked_at ← revoke_runtime_sessions owner_id;
  answer (make RevokedSessionsInternal [("revoked_at", txt revoked_at)]).
Definition get_companion_conversations (companion_id owner_id : string) (limit : option Z) (cursor : option string) : M X plane_reply :=
  page ← read_conversations owner_id companion_id limit cursor; answer (conversations_internal companion_id page).
Definition get_conversation_transcript (companion_id conversation_id owner_id : string) (limit : option Z) (cursor : option string)
    : M X plane_reply :=
  transcript ← read_transcript owner_id companion_id conversation_id limit cursor; answer (transcript_internal transcript).
Definition get_companion_tasks (companion_id owner_id : string) (limit : option Z) (status cursor : option string) : M X plane_reply :=
  page ← read_tasks owner_id companion_id limit status cursor; answer (task_page_internal companion_id page).
(** The Companion is in the path of a task for its shape. *)
Definition get_companion_task (companion_id task_id owner_id : string) : M X plane_reply :=
  task ← read_task owner_id task_id; answer (task_internal task).
Definition post_task_cancel (companion_id task_id owner_id : string) : M X plane_reply :=
  task ← stop_task owner_id task_id; answer (task_internal task).
Definition post_task_retry (companion_id task_id owner_id : string) : M X plane_reply :=
  task ← repeat_task owner_id task_id; answer (task_internal task).
Definition get_persona (companion_id owner_id : string) : M X plane_reply := answer_sdk (read_persona owner_id companion_id).
Definition put_persona (companion_id owner_id : string) (payload : sdk "PersonaEditRequest") : M X plane_reply :=
  answer_sdk (write_persona owner_id companion_id payload).
Definition get_persona_history (companion_id owner_id : string) : M X plane_reply :=
  history ← read_history owner_id companion_id; answer (persona_history_internal history).
Definition put_persona_restoration (companion_id owner_id chapter_id : string) : M X plane_reply :=
  raise (HTTPException 410 "Use versioned PUT /persona with action=restore").
Definition get_activity (owner_id : string) (limit before : option Z) : M X plane_reply :=
  feed ← read_activity py_str owner_id limit before; answer (activity_internal feed).
Definition get_companion_face_state (companion_id owner_id : string) : M X plane_reply :=
  view ← read_face_state owner_id companion_id; answer (face_internal view).
Definition get_companion_face (companion_id owner_id : string) (if_none_match : option string) : M X plane_reply :=
  face ← read_face sha256_hex owner_id companion_id (etag_digest if_none_match);
  mret (if face.(unchanged) then Bytes 304 None (face_etag face.(fb_sha256))
        else match face.(fb_content) with
             | None => Bytes 204 None []
             | Some content => Bytes 200 (Some content) (("Content-Type", "image/jpeg") :: face_etag face.(fb_sha256))
             end).
Definition put_companion_face (companion_id owner_id : string) (face : bytes) : M X plane_reply :=
  view ← set_face owner_id companion_id face; answer (face_internal view).
Definition delete_companion_face (companion_id owner_id : string) : M X plane_reply :=
  view ← clear_face owner_id companion_id; answer (face_internal view).
Definition patch_companion (companion_id owner_id display_name : string) : M X plane_reply :=
  raise (HTTPException 410 "Use versioned PUT /persona with action=rename").
Definition patch_owner (owner_id display_name : string) : M X plane_reply :=
  owner ← give_owner_name owner_id display_name; answer (owner_name_internal owner).
Definition put_companion_lifecycle (companion_id owner_id lifecycle_state : string) (replacement : option string)
    (expected_revision : option Z) : M X plane_reply :=
  view ← (if bool_decide (lifecycle_state = "archived")
          then put_away sha256_hex LIFECYCLE_ARCHIVED owner_id companion_id replacement expected_revision
          else bring_back LIFECYCLE_ACTIVE owner_id companion_id expected_revision);
  answer (lifecycle_internal view).
Definition get_memory_recollections (owner_id q : string) (limit : Z) (companion_id : option string) : M X plane_reply :=
  found ← recall owner_id q limit companion_id; answer (recollections_internal found).
Definition get_memory_export (owner_id : string) (companion_id wing room : option string) : M X plane_reply :=
  copy ← read_copy owner_id companion_id wing room; answer (copy_internal copy).
Definition get_memory_entries (owner_id since : string) (limit : option Z) (companion_id cursor : option string) : M X plane_reply :=
  day ← read_day owner_id since limit companion_id cursor; answer (day_internal day).

(** ** What a route is sent *)

(** A request of one of the routes, as FastAPI hands it to the handler. *)
Inductive plane_call :=
| GetContext (owner_id : string)
| ListCompanions (owner_id : string) (cursor : option string)
| GetCompanion (companion_id owner_id : string)
| PutDefaultCompanion (owner_id companion_id : string) (expected_revision : Z)
| GetPersonaAuthoringTemplate
| PreviewPersona (payload : sdk "PersonaPreviewRequest") (owner_id : string)
| GetPersonaPresets
| PutCompanionProvision (operation_id owner_id : string) (payload : CompanionCreateRequest)
| GetMemoryLibrary (owner_id : string) (companion_id : option string)
| GetMemoryGraph (owner_id : string) (companion_id cursor : option string) (history : bool)
| PostForgetPreview (owner_id target : string)
| PostForgetConfirm (owner_id confirmation_token : string)
| GetForgetStatus (owner_id request_id : string)
| PostRuntimeSessionRevocation (owner_id : string)
| GetCompanionConversations (companion_id owner_id : string) (limit : option Z) (cursor : option string)
| GetConversationTranscript (companion_id conversation_id owner_id : string) (limit : option Z) (cursor : option string)
| GetCompanionTasks (companion_id owner_id : string) (limit : option Z) (status cursor : option string)
| GetCompanionTask (companion_id task_id owner_id : string)
| PostTaskCancel (companion_id task_id owner_id : string)
| PostTaskRetry (companion_id task_id owner_id : string)
| GetPersona (companion_id owner_id : string)
| PutPersona (companion_id owner_id : string) (payload : sdk "PersonaEditRequest")
| GetPersonaHistory (companion_id owner_id : string)
| PutPersonaRestoration (companion_id owner_id chapter_id : string)
| GetActivity (owner_id : string) (limit before : option Z)
| GetCompanionFaceState (companion_id owner_id : string)
| GetCompanionFace (companion_id owner_id : string) (if_none_match : option string)
| PutCompanionFace (companion_id owner_id : string) (face : bytes)
| DeleteCompanionFace (companion_id owner_id : string)
| PatchCompanion (companion_id owner_id display_name : string)
| PatchOwner (owner_id display_name : string)
| PutCompanionLifecycle (companion_id owner_id lifecycle_state : string) (replacement : option string) (expected_revision : option Z)
| GetMemoryRecollections (owner_id q : string) (limit : Z) (companion_id : option string)
| GetMemoryExport (owner_id : string) (companion_id wing room : option string)
| GetMemoryEntries (owner_id since : string) (limit : option Z) (companion_id cursor : option string).

Definition handle (c : plane_call) : M X plane_reply :=
  match c with
  | GetContext o => get_context o
  | ListCompanions o k => list_companions o k
  | GetCompanion c o => get_companion c o
  | PutDefaultCompanion o c n => put_default_companion o c n
  | GetPersonaAuthoringTemplate => get_persona_authoring_template
  | PreviewPersona p o => preview_persona p o
  | GetPersonaPresets => get_persona_presets
  | PutCompanionProvision i o p => put_companion_provision i o p
  | GetMemoryLibrary o c => get_memory_library o c
  | GetMemoryGraph o c k h => get_memory_graph o c k h
  | PostForgetPreview o t => post_forget_preview o t
  | PostForgetConfirm o t => post_forget_confirm o t
  | GetForgetStatus o i => get_forget_status o i
  | PostRuntimeSessionRevocation o => post_runtime_session_revocation o
  | GetCompanionConversations c o l k => get_companion_conversations c o l k
  | GetConversationTranscript c v o l k => get_conversation_transcript c v o l k
  | GetCompanionTasks c o l s k => get_companion_tasks c o l s k
  | GetCompanionTask c t o => get_companion_task c t o
  | PostTaskCancel c t o => post_task_cancel c t o
  | PostTaskRetry c t o => post_task_retry c t o
  | GetPersona c o => get_persona c o
  | PutPersona c o p => put_persona c o p
  | GetPersonaHistory c o => get_persona_history c o
  | PutPersonaRestoration c o h => put_persona_restoration c o h
  | GetActivity o l b => get_activity o l b
  | GetCompanionFaceState c o => get_companion_face_state c o
  | GetCompanionFace c o e => get_companion_face c o e
  | PutCompanionFace c o f => put_companion_face c o f
  | DeleteCompanionFace c o => delete_companion_face c o
  | PatchCompanion c o n => patch_companion c o n
  | PatchOwner o n => patch_owner o n
  | PutCompanionLifecycle c o s r n => put_companion_lifecycle c o s r n
  | GetMemoryRecollections o q l c => get_memory_recollections o q l c
  | GetMemoryExport o c w r => get_memory_export o c w r
  | GetMemoryEntries o s l c k => get_memory_entries o s l c k
  end.
End Routes.
