(* ===== verification/PlaneWire.v ===== *)
(** * The internal management plane on the wire

    The routes of [app/management/router.py] as their decorators and signatures
    declare them, mounted where [app/main.py] mounts them: which request reaches
    which route, what is read of its path, its query, its headers and its body,
    and what is answered.  How FastAPI reads what is declared, one segment of the path, the
    last of a name in the query, a body that is decoded before the credential is
    asked for and then checked by its model, is its own behaviour. *)

From S2P Require Import Prelude Encoding Json LocalApi Upstream ClientProofs ManagementViews PlaneViews MemoryRelays.
From S2P Require Import RemovalWorkflow OperatorAdmission Management Activity PlaneRoutes.
#[local] Open Scope Z_scope.

(** What arrives: the path still encoded, the query decoded. *)
Record plane_request := mkPlaneRequest {
  pq_method : string; pq_path : string; pq_query : list (string * string); pq_headers : list (string * string); pq_body : bytes }.

(** ** Paths *)

Definition slash : ascii := "/"%char.
Definition segments (l : list ascii) : list string := string_of_list_ascii <$> split_on slash l.
Definition path_segments (encoded : string) : list string := segments (unquote_chars (list_ascii_of_string encoded)).
(** A segment of a template that names a parameter. *)
Definition is_param (t : string) : bool := match t with String c _ => bool_decide (c = "{"%char) | EmptyString => false end.
Fixpoint match_segments (template path : list string) : option (list string) :=
  match template, path with
  | [], [] => Some []
  | t :: ts, s :: ss =>
      if is_param t then
        if bool_decide (s = "") then None
        else match match_segments ts ss with Some found => Some (s :: found) | None => None end
      else if bool_decide (t = s) then match_segments ts ss else None
  | _, _ => None
  end.

(** ** Parameters *)

Section Parameters.
Context `{PY : !Pydantic}.
(** The last value of a name. *)
Definition last_of (k : string) (q : list (string * string)) : option string := dict_get k (rev q).
Definition parameter (k : string) (t : vtype) (d : field_default) (q : list (string * string)) : result json :=
  match last_of k q with Some s => validate t (JStr s) | None => fill k d end.
Definition as_text (v : json) : string := match v with JStr s => s | _ => "" end.
Definition as_opt_text (v : json) : option string := match v with JStr s => Some s | _ => None end.
Definition as_int (v : json) : Z := match v with JInt z => z | _ => 0 end.
Definition as_opt_int (v : json) : option Z := match v with JInt z => Some z | _ => None end.
Definition as_bool (v : json) : bool := match v with JBool b => b | _ => false end.
(** [k: str], [k: str | None = None], [k: int | None = None], [k: int = d], [k: bool = False] *)
Definition text_query (k : string) (lo : Z) (hi : option Z) q : result string := v ← parameter k (VStr lo hi) Required q; Ok (as_text v).
Definition maybe_text (k : string) q : result (option string) :=
  v ← parameter k (VOpt (VStr 0 None)) (Default JNull) q; Ok (as_opt_text v).
Definition maybe_int (k : string) (ge le : option Z) q : result (option Z) :=
  v ← parameter k (VOpt (VInt ge le)) (Default JNull) q; Ok (as_opt_int v).
Definition int_query (k : string) (ge le : option Z) (d : Z) q : result Z :=
  v ← parameter k (VInt ge le) (Default (JInt d)) q; Ok (as_int v).
Definition flag_query (k : string) q : result bool := v ← parameter k VBool (Default (JBool false)) q; Ok (as_bool v).
Definition owner_query q : result string := text_query "owner_id" 0 None q.

Definition read_sdk (m : string) (v : json) : result (sdk m) :=
  match sdk_model m v as r return sdk_model m v = r → result (sdk m) with
  | Ok v' => λ H, Ok (mkSdk v' (sdk_model_value m v v' H))
  | Raise e => λ _, Raise e
  end eq_refl.
Definition members (v : json) : obj := match v with JObj o => o | _ => [] end.
End Parameters.

(** ** The table *)

Section Table.
Context `{PY : !Pydantic}.

(** A body as FastAPI hands it on: none, or a JSON null, which counts as none;
    one that does not come as JSON, which stays bytes; or a document. *)
Inductive request_body := NoBody | RawBody | JsonBody (v : json).
(** A declared body is required, and bytes fit no model. *)
Definition payload (b : request_body) : result json :=
  match b with
  | NoBody => Raise (ValidationError "Field required")
  | RawBody => Raise (ValidationError "Input should be a valid dictionary or object to extract fields from")
  | JsonBody v => Ok v
  end.
(** A body, checked by its model. *)
Definition body_of (model : vtype) (b : request_body) : result obj :=
  v ← payload b; w ← validate model v; Ok (members w).
Definition sdk_of (m : string) (b : request_body) : result (sdk m) := v ← payload b; read_sdk m v.
Definition member (k : string) (o : obj) : json := obj_get k o JNull.

(** [rt_body]: the signature declares a body.  [rt_read]: what the route is
    called with, of the path, the request and the body. *)
Record route := mkRoute {
  rt_method : string; rt_template : string; rt_body : bool;
  rt_read : list string → plane_request → request_body → result plane_call }.
Definition arg (path : list string) (i : nat) : string := default "" (path !! i).
Definition create_request (o : obj) : CompanionCreateRequest :=
  let given_sdk k := match member k o with JNull => None | v => Some v end in
  mkCreateRequest (as_text (member "display_name" o)) (as_text (member "kind" o)) (as_opt_text (member "source_preset_id" o))
    (as_opt_text (member "source_preset_revision" o)) (given_sdk "persona") (given_sdk "preferences").

(** In the order the routes are declared. *)
Definition plane_routes : list route :=
  [mkRoute "GET" "/context" false (λ p r _, o ← owner_query r.(pq_query); Ok (GetContext o));
   mkRoute "GET" "/companions" false (λ p r _,
     o ← owner_query r.(pq_query); k ← maybe_text "cursor" r.(pq_query); Ok (ListCompanions o k));
   mkRoute "GET" "/companions/{companion_id}" false (λ p r _, o ← owner_query r.(pq_query); Ok (GetCompanion (arg p 0) o));
   mkRoute "PUT" "/owners/default-companion" true (λ p r given,
     o ← owner_query r.(pq_query); b ← body_of DefaultCompanionRequestInternal given;
     Ok (PutDefaultCompanion o (as_text (member "companion_id" b)) (as_int (member "expected_revision" b))));
   mkRoute "GET" "/persona-authoring-template" false (λ p r _, Ok GetPersonaAuthoringTemplate);
   mkRoute "POST" "/persona-preview" true (λ p r given,
     o ← owner_query r.(pq_query); b ← sdk_of "PersonaPreviewRequest" given; Ok (PreviewPersona b o));
   mkRoute "GET" "/persona-presets" false (λ p r _, Ok GetPersonaPresets);
   mkRoute "PUT" "/companion-provisions/{operation_id}" true (λ p r given,
     o ← owner_query r.(pq_query); b ← body_of CompanionCreateRequestInternal given;
     Ok (PutCompanionProvision (arg p 0) o (create_request b)));
   mkRoute "GET" "/memory/library" false (λ p r _,
     o ← owner_query r.(pq_query); c ← maybe_text "companion_id" r.(pq_query); Ok (GetMemoryLibrary o c));
   mkRoute "GET" "/memory/graph" false (λ p r _,
     o ← owner_query r.(pq_query); c ← maybe_text "companion_id" r.(pq_query); k ← maybe_text "cursor" r.(pq_query);
     h ← flag_query "history" r.(pq_query); Ok (GetMemoryGraph o c k h));
   mkRoute "POST" "/memory/forget/preview" true (λ p r given,
     o ← owner_query r.(pq_query); b ← body_of ForgetTargetInternal given; Ok (PostForgetPreview o (as_text (member "target" b))));
   mkRoute "POST" "/memory/forget/confirm" true (λ p r given,
     o ← owner_query r.(pq_query); b ← body_of ForgetConfirmInternal given;
     Ok (PostForgetConfirm o (as_text (member "confirmation_token" b))));
   mkRoute "GET" "/memory/forget/status" false (λ p r _,
     o ← owner_query r.(pq_query); i ← text_query "request_id" 0 None r.(pq_query); Ok (GetForgetStatus o i));
   mkRoute "POST" "/owner/runtime-session-revocations" false (λ p r _,
     o ← owner_query r.(pq_query); Ok (PostRuntimeSessionRevocation o));
   mkRoute "GET" "/companions/{companion_id}/conversations" false (λ p r _,
     o ← owner_query r.(pq_query); l ← maybe_int "limit" None None r.(pq_query); k ← maybe_text "cursor" r.(pq_query);
     Ok (GetCompanionConversations (arg p 0) o l k));
   mkRoute "GET" "/companions/{companion_id}/conversations/{conversation_id}/turns" false (λ p r _,
     o ← owner_query r.(pq_query); l ← maybe_int "limit" None None r.(pq_query); k ← maybe_text "cursor" r.(pq_query);
     Ok (GetConversationTranscript (arg p 0) (arg p 1) o l k));
   mkRoute "GET" "/companions/{companion_id}/tasks" false (λ p r _,
     o ← owner_query r.(pq_query); l ← maybe_int "limit" None None r.(pq_query); s ← maybe_text "status" r.(pq_query);
     k ← maybe_text "cursor" r.(pq_query); Ok (GetCompanionTasks (arg p 0) o l s k));
   mkRoute "GET" "/companions/{companion_id}/tasks/{task_id}" false (λ p r _,
     o ← owner_query r.(pq_query); Ok (GetCompanionTask (arg p 0) (arg p 1) o));
   mkRoute "POST" "/companions/{companion_id}/tasks/{task_id}/cancel" false (λ p r _,
     o ← owner_query r.(pq_query); Ok (PostTaskCancel (arg p 0) (arg p 1) o));
   mkRoute "POST" "/companions/{companion_id}/tasks/{task_id}/retry" false (λ p r _,
     o ← owner_query r.(pq_query); Ok (PostTaskRetry (arg p 0) (arg p 1) o));
   mkRoute "GET" "/companions/{companion_id}/persona" false (λ p r _, o ← owner_query r.(pq_query); Ok (GetPersona (arg p 0) o));
   mkRoute "PUT" "/companions/{companion_id}/persona" true (λ p r given,
     o ← owner_query r.(pq_query); b ← sdk_of "PersonaEditRequest" given; Ok (PutPersona (arg p 0) o b));
   mkRoute "GET" "/companions/{companion_id}/persona-history" false (λ p r _,
     o ← owner_query r.(pq_query); Ok (GetPersonaHistory (arg p 0) o));
   mkRoute "PUT" "/companions/{companion_id}/persona-restorations" true (λ p r given,
     o ← owner_query r.(pq_query); b ← body_of PersonaRestoreInternal given;
     Ok (PutPersonaRestoration (arg p 0) o (as_text (member "chapter_id" b))));
   mkRoute "GET" "/activity" false (λ p r _,
     o ← owner_query r.(pq_query); l ← maybe_int "limit" (Some 1) (Some 100) r.(pq_query);
     b ← maybe_int "before" (Some 1) None r.(pq_query); Ok (GetActivity o l b));
   mkRoute "GET" "/companions/{companion_id}/face-state" false (λ p r _,
     o ← owner_query r.(pq_query); Ok (GetCompanionFaceState (arg p 0) o));
   mkRoute "GET" "/companions/{companion_id}/face" false (λ p r _,
     o ← owner_query r.(pq_query); Ok (GetCompanionFace (arg p 0) o (dict_get "If-None-Match" r.(pq_headers))));
   mkRoute "PUT" "/companions/{companion_id}/face" false (λ p r _,
     o ← owner_query r.(pq_query); Ok (PutCompanionFace (arg p 0) o r.(pq_body)));
   mkRoute "DELETE" "/companions/{companion_id}/face" false (λ p r _,
     o ← owner_query r.(pq_query); Ok (DeleteCompanionFace (arg p 0) o));
   mkRoute "PATCH" "/companions/{companion_id}" true (λ p r given,
     o ← owner_query r.(pq_query); b ← body_of RenameRequestInternal given;
     Ok (PatchCompanion (arg p 0) o (as_text (member "display_name" b))));
   mkRoute "PATCH" "/owner" true (λ p r given,
     o ← owner_query r.(pq_query); b ← body_of RenameRequestInternal given; Ok (PatchOwner o (as_text (member "display_name" b))));
   mkRoute "PUT" "/companions/{companion_id}/lifecycle" true (λ p r given,
     o ← owner_query r.(pq_query); b ← body_of CompanionLifecycleRequestInternal given;
     Ok (PutCompanionLifecycle (arg p 0) o (as_text (member "lifecycle_state" b))
           (as_opt_text (member "replacement_companion_id" b)) (as_opt_int (member "expected_revision" b))));
   mkRoute "GET" "/memory/recollections" false (λ p r _,
     o ← owner_query r.(pq_query); q ← text_query "q" 1 (Some 256) r.(pq_query);
     l ← int_query "limit" (Some 1) (Some 50) 10 r.(pq_query); c ← maybe_text "companion_id" r.(pq_query);
     Ok (GetMemoryRecollections o q l c));
   mkRoute "GET" "/memory/export" false (λ p r _,
     o ← owner_query r.(pq_query); c ← maybe_text "companion_id" r.(pq_query); w ← maybe_text "wing" r.(pq_query);
     m ← maybe_text "room" r.(pq_query); Ok (GetMemoryExport o c w m));
   mkRoute "GET" "/memory/entries" false (λ p r _,
     o ← owner_query r.(pq_query); s ← text_query "since" 0 None r.(pq_query); l ← maybe_int "limit" None None r.(pq_query);
     c ← maybe_text "companion_id" r.(pq_query); k ← maybe_text "cursor" r.(pq_query); Ok (GetMemoryEntries o s l c k))].

(** ** Which route a request reaches *)

(** Where the application mounts the router. *)
Definition MOUNTED : string := "/api/internal/v1/management".
Definition template_of (t : route) : list string := segments (list_ascii_of_string (MOUNTED +:+ t.(rt_template))).
Inductive reached := NotFound | NotAllowed | Reached (t : route) (path : list string).
(** The first route whose path and method fit; a path that only fits with
    another method is not allowed. *)
Fixpoint find_route (method : string) (path : list string) (table : list route) : reached :=
  match table with
  | [] => NotFound
  | t :: rest =>
      match match_segments (template_of t) path with
      | Some found =>
          if bool_decide (t.(rt_method) = method) then Reached t found
          else match find_route method path rest with NotFound => NotAllowed | r => r end
      | None => find_route method path rest
      end
  end.
(** What a request asks of the plane. *)
Definition reach (r : plane_request) : reached := find_route r.(pq_method) (path_segments r.(pq_path)) plane_routes.
End Table.

(** ** Answering *)

Section Serve.
Context {X : Type} `{PY : !Pydantic}.
Context `{!OwnerReader X} `{!RosterReader X} `{!DefaultCompanionWriter X} `{!CompanionProvisioner X} `{!OwnerNamer X}
  `{!CompanionLifecycleWriter X} `{!CompanionBodyRegistrar X} `{!CompanionFaceKeeper X} `{!GovernanceHistorian X}
  `{!PersonaHistorian (sdk "PersonaEditRequest") (sdk "PersonaEditSnapshot") X} `{!CompanionActivityReader X} `{!PersonaCatalog X}
  `{!MemoryBrowser X} `{!MemoryRecollector X} `{!MemoryForgetter X} `{!RuntimeSessionRevoker X}.
Context (sha256_hex : bytes → string) (LIFECYCLE_ACTIVE LIFECYCLE_ARCHIVED : string) (py_str : json → string) (as_doc : json → doc).
Context (held : list string) (activity : option (ActivityReader X)) (reconcile : option (M X bool)).
(** [json.loads], whether a body comes as JSON by its Content-Type, FastAPI's
    account of what does not fit, and the credential of this Host's settings. *)
Context (loads : bytes → result json) (declares_json : list (string * string) → bool) (errors : exn → list json)
  (local_api_service_token : string).

Definition http_detail (status : Z) (detail : json) : plane_reply := Document status (JObj [("detail", detail)]).
(** A call, its failure answered. *)
Definition answered (c : plane_call) : M X plane_reply :=
  catch (handle sha256_hex LIFECYCLE_ACTIVE LIFECYCLE_ARCHIVED py_str as_doc held activity reconcile c)
    (λ e, Some (mret (refused e))).
(** A declared body is decoded before any dependency is resolved. *)
Definition decoded_body (t : route) (r : plane_request) : result request_body :=
  if negb t.(rt_body) || bool_decide (r.(pq_body) = []) then Ok NoBody
  else if declares_json r.(pq_headers)
  then v ← loads r.(pq_body); Ok (match v with JNull => NoBody | _ => JsonBody v end)
  else Ok RawBody.
Definition undecodable (e : exn) : plane_reply :=
  match e with
  | JSONDecodeError _ => http_detail 422 (JList (errors e))
  | _ => http_detail 400 (JStr "There was an error parsing the body")
  end.
(** Then the router's dependency, before anything else of the route. *)
Definition serve (r : plane_request) : M X plane_reply :=
  match reach r with
  | NotFound => mret (http_detail 404 (JStr "Not Found"))
  | NotAllowed => mret (http_detail 405 (JStr "Method Not Allowed"))
  | Reached t path =>
      match decoded_body t r with
      | Raise e => mret (undecodable e)
      | Ok body =>
          match require_local_api_credential local_api_service_token (dict_get "Authorization" r.(pq_headers)) with
          | Raise e => mret (refused e)
          | Ok _ =>
              match t.(rt_read) path r body with
              | Raise e => mret (http_detail 422 (JList (errors e)))
              | Ok c => answered c
              end
          end
      end
  end.
End Serve.
