(* ===== verification/PlaneProofs.v ===== *)
(** * The internal plane, proved

    What every answer of the plane is a value of; that the surface in front of
    it accepts every such answer; and who is let in. *)

From S2P Require Import Prelude Encoding Json LocalApi Upstream Clients OwnerDevices ManagementBackend ManagementRoutes.
From S2P Require Import ViewProofs HomeProofs ManagementViews ViewContracts PlaneViews MemoryRelays.
From S2P Require Import RemovalWorkflow OperatorAdmission Management Activity PlaneRoutes PlaneWire.
#[local] Open Scope Z_scope.

(** ** What the plane answers with *)

Create HintDb plane.
Section Models.
Context `{PY : !Pydantic}.

Lemma every_conform {A} (f : A → result json) view l vs :
  (∀ x v, f x = Ok v → conforms view v) → every f l = Ok vs → conforms (VList view) (JList vs).
Proof.
  intros Hf H. constructor. revert vs H. induction l as [|x l IH]; cbn; intros vs H; [by injection H as <-|].
  apply result_bind_ok in H as (y & Hy & H). apply result_bind_ok in H as (ys & Hys & [= <-]).
  constructor; [by eapply Hf|by apply IH].
Qed.
Lemma loose_ok name fs o v : loose (VModel name fs) o = Ok v → conforms (VModel name fs) v.
Proof.
  unfold loose. intros H. eapply make_view; [|exact H]. cbn [keep_known].
  induction (List.filter _ o) as [|[k x] l IH]; [apply made_nil|by apply made_raw].
Qed.
#[local] Hint Resolve loose_ok : plane.
(* The lists among the parts are of their models. *)
Ltac listed := repeat match goal with
  | H : every ?f ?l = Ok ?vs |- _ =>
      let T := fresh "T" in eassert (conforms (VList _) (JList vs)) as T
        by (eapply (every_conform f); [intros; first [solve [eauto with plane]|eapply make_view; [|eassumption]; args_ok; by apply CSdk, sdk_ok]|exact H]); clear H
  end.
Ltac internal := intros; binds; listed; eapply make_view; [|eassumption]; args_ok; eauto with views; try by apply CSdk, sdk_ok.
Lemma context_internal_ok x v : context_internal x = Ok v → conforms ManagementContextInternal v.
Proof. unfold context_internal. internal. Qed.
#[local] Hint Resolve context_internal_ok : plane.
Lemma summary_internal_ok x v : summary_internal x = Ok v → conforms CompanionSummaryInternal v.
Proof. unfold summary_internal. internal. Qed.
#[local] Hint Resolve summary_internal_ok : plane.
Lemma roster_internal_ok x v : roster_internal x = Ok v → conforms CompanionRosterInternal v.
Proof. unfold roster_internal. internal. Qed.
#[local] Hint Resolve roster_internal_ok : plane.
Lemma detail_internal_ok x v : detail_internal x = Ok v → conforms CompanionDetailInternal v.
Proof. unfold detail_internal. internal. Qed.
#[local] Hint Resolve detail_internal_ok : plane.
Lemma created_internal_ok x v : created_internal x = Ok v → conforms CompanionCreateResponseInternal v.
Proof. unfold created_internal. internal. Qed.
#[local] Hint Resolve created_internal_ok : plane.
Lemma room_internal_ok x v : room_internal x = Ok v → conforms MemoryRoomInternal v.
Proof. unfold room_internal. internal. Qed.
#[local] Hint Resolve room_internal_ok : plane.
Lemma wing_internal_ok x v : wing_internal x = Ok v → conforms MemoryWingInternal v.
Proof. unfold wing_internal. internal. Qed.
#[local] Hint Resolve wing_internal_ok : plane.
Lemma library_internal_ok x v : library_internal x = Ok v → conforms MemoryLibraryInternal v.
Proof. unfold library_internal. internal. Qed.
#[local] Hint Resolve library_internal_ok : plane.
Lemma graph_internal_ok x v : graph_internal x = Ok v → conforms MemoryGraphInternal v.
Proof. unfold graph_internal. internal. Qed.
#[local] Hint Resolve graph_internal_ok : plane.
Lemma proposal_internal_ok x v : proposal_internal x = Ok v → conforms ForgetProposalInternal v.
Proof. unfold proposal_internal. internal. Qed.
#[local] Hint Resolve proposal_internal_ok : plane.
Lemma forgotten_internal_ok x v : forgotten_internal x = Ok v → conforms ForgetResultInternal v.
Proof. unfold forgotten_internal. internal. Qed.
#[local] Hint Resolve forgotten_internal_ok : plane.
Lemma progress_internal_ok x v : progress_internal x = Ok v → conforms ForgetProgressInternal v.
Proof. unfold progress_internal. internal. Qed.
#[local] Hint Resolve progress_internal_ok : plane.
Lemma conversations_internal_ok companion_id x v : conversations_internal companion_id x = Ok v → conforms ConversationPageInternal v.
Proof. unfold conversations_internal. internal. Qed.
#[local] Hint Resolve conversations_internal_ok : plane.
Lemma turn_internal_ok x v : turn_internal x = Ok v → conforms TranscriptTurnInternal v.
Proof. unfold turn_internal. internal. Qed.
#[local] Hint Resolve turn_internal_ok : plane.
Lemma transcript_internal_ok x v : transcript_internal x = Ok v → conforms TranscriptInternal v.
Proof. unfold transcript_internal. internal. Qed.
#[local] Hint Resolve transcript_internal_ok : plane.
Lemma task_internal_ok x v : task_internal x = Ok v → conforms TaskInternal v.
Proof. unfold task_internal. internal. Qed.
#[local] Hint Resolve task_internal_ok : plane.
Lemma task_page_internal_ok companion_id x v : task_page_internal companion_id x = Ok v → conforms TaskPageInternal v.
Proof. unfold task_page_internal. internal. Qed.
#[local] Hint Resolve task_page_internal_ok : plane.
Lemma persona_history_internal_ok x v : persona_history_internal x = Ok v → conforms PersonaHistoryInternal v.
Proof. unfold persona_history_internal. internal. Qed.
#[local] Hint Resolve persona_history_internal_ok : plane.
Lemma activity_internal_ok x v : activity_internal x = Ok v → conforms ActivityFeedInternal v.
Proof. unfold activity_internal. internal. Qed.
#[local] Hint Resolve activity_internal_ok : plane.
Lemma face_internal_ok x v : face_internal x = Ok v → conforms CompanionFaceInternal v.
Proof. unfold face_internal. internal. Qed.
#[local] Hint Resolve face_internal_ok : plane.
Lemma owner_name_internal_ok x v : owner_name_internal x = Ok v → conforms OwnerNameInternal v.
Proof. unfold owner_name_internal. internal. Qed.
#[local] Hint Resolve owner_name_internal_ok : plane.
Lemma lifecycle_internal_ok x v : lifecycle_internal x = Ok v → conforms CompanionLifecycleResponseInternal v.
Proof. unfold lifecycle_internal. internal. Qed.
#[local] Hint Resolve lifecycle_internal_ok : plane.
Lemma recollections_internal_ok x v : recollections_internal x = Ok v → conforms RecollectionsInternal v.
Proof. unfold recollections_internal. internal. Qed.
#[local] Hint Resolve recollections_internal_ok : plane.
Lemma copy_internal_ok x v : copy_internal x = Ok v → conforms MemoryCopyInternal v.
Proof. unfold copy_internal. internal. Qed.
#[local] Hint Resolve copy_internal_ok : plane.
Lemma day_internal_ok x v : day_internal x = Ok v → conforms MemoryDayInternal v.
Proof. unfold day_internal. internal. Qed.
#[local] Hint Resolve day_internal_ok : plane.
End Models.
#[export] Hint Resolve
  loose_ok context_internal_ok summary_internal_ok roster_internal_ok detail_internal_ok created_internal_ok
  room_internal_ok wing_internal_ok library_internal_ok graph_internal_ok proposal_internal_ok
  forgotten_internal_ok progress_internal_ok conversations_internal_ok turn_internal_ok transcript_internal_ok
  task_internal_ok task_page_internal_ok persona_history_internal_ok activity_internal_ok face_internal_ok
  owner_name_internal_ok lifecycle_internal_ok recollections_internal_ok copy_internal_ok day_internal_ok : plane.

(** ** What is offered is accepted *)

Section Offered.
Context `{PY : !Pydantic} (py_str : json → string).

(** What a member of a value of a model may be. *)
Definition offered (n : string) (f : vtype * field_default) (v : json) : Prop := fill n f.2 = Ok v ∨ conforms f.1 v.
Lemma offered_accepts n f b v : field_fits f b = true → offered n f v → accepts b v.
Proof. intros [Hs Hd]%andb_prop [Hv|Hv]; [by eapply fill_accepts|by eapply sub_accepts]. Qed.
Lemma members_of n fs o : conforms (VModel n fs) (JObj o) → Forall2 (held n) fs o.
Proof. intros H. inversion H; subst. done. Qed.
Lemma item_offered n fs o k f :
  dict_get k fs = Some f → Forall2 (held n) fs o → ∃ v, item k o = Ok v ∧ offered n f v.
Proof. intros Hf Ho. pose proof (held_get n fs o k Ho) as H. rewrite Hf in H. destruct H as (v & Hv & H). exists v. unfold item. by rewrite Hv. Qed.
Lemma obj_get_dict k (o : obj) d : obj_get k o d = default d (dict_get k o).
Proof. induction o as [|[k' v] o IH]; [done|]. cbn. by case_bool_decide. Qed.
Lemma member_offered n fs o k f d :
  dict_get k fs = Some f → Forall2 (held n) fs o → ∃ v, obj_get k o d = v ∧ offered n f v.
Proof. intros Hf Ho. pose proof (held_get n fs o k Ho) as H. rewrite Hf in H. destruct H as (v & Hv & H). exists v. by rewrite obj_get_dict, Hv. Qed.

(** Every field of a view gets something it takes. *)
Fixpoint args_fit (gs : list (string * (vtype * field_default))) (args : list (string * argument)) : Prop :=
  match gs with
  | [] => True
  | g :: rest =>
      match dict_get g.1 args with
      | Some (Raw x) => accepts g.2.1 x
      | Some (Made _) => True
      | None => optional g.2.2 = true
      end ∧ args_fit rest args
  end.
Lemma make_ok m gs args :
  forallb (λ p, bool_decide (p.1 ∈ gs.*1)) args = true → args_fit gs args → ∃ o, make (VModel m gs) args = Ok (JObj o).
Proof.
  intros Hk Hg. unfold make. rewrite Hk. clear Hk.
  assert (∃ kv, make_fields m gs args = Ok kv) as [kv ->]; [|by eexists].
  induction gs as [|[k [t d]] gs IH]; [by eexists|]. destruct Hg as [Hg Hgs]. destruct (IH Hgs) as [kv Hkv]. cbn in Hg |- *.
  destruct (dict_get k args) as [[x|x]|].
  - destruct Hg as [y ->]. rewrite Hkv. by eexists.
  - rewrite Hkv. by eexists.
  - destruct d; [done|..]; cbn; rewrite Hkv; by eexists.
Qed.
Lemma rows_offered n m fs d view v :
  field_fits (VList (VModel m fs), d) (VList view) = true → d = Required → offered n (VList (VModel m fs), d) v →
  ∃ l, rows view v = Ok l.
Proof.
  intros Hf -> [Hv|Hv]; [done|]. apply andb_prop in Hf as [Hs _]. cbn in Hv. inversion Hv as [| | | | | | | | |t l Hl| | |]; subst.
  unfold rows. cbn [iterate mbind result_bind].
  assert (∃ vs, each (construct view) l = Ok vs) as [vs ->]; [|by eexists].
  clear Hv. induction Hl as [|x l Hx _ [vs IH]]; [by eexists|]. inversion Hx; subst. cbn.
  assert (accepts view (JObj kv)) as [y Hy] by (by eapply sub_accepts; [|exact Hx]). rewrite Hy, IH. by eexists.
Qed.

(* Every member that is read is there, and every list of rows is taken. *)
Ltac field_of Ho k tac :=
  lazymatch type of Ho with
  | Forall2 (held ?n) ?fs _ =>
      let f := eval vm_compute in (dict_get k fs) in
      lazymatch f with Some ?f => tac n fs f end
  end.
Ltac offers Ho :=
  unfold rows_of, copied, opt_item; cbn [items mbind result_bind];
  repeat (first
    [ match goal with |- context [item ?k ?o] =>
        field_of Ho k ltac:(fun n fs f =>
          let v := fresh "v" in let E := fresh "E" in let H := fresh "Hv" in
          destruct (item_offered n fs o k f eq_refl Ho) as (v & E & H); rewrite E; clear E)
      end
    | match goal with |- context [obj_get ?k ?o ?d] =>
        field_of Ho k ltac:(fun n fs f =>
          let v := fresh "v" in let E := fresh "E" in let H := fresh "Hv" in
          destruct (member_offered n fs o k f d eq_refl Ho) as (v & E & H); rewrite E; clear E)
      end
    | match goal with H : offered ?n (VList (VModel ?m ?fs), ?d) ?v |- context [rows ?view ?v] =>
        let l := fresh "l" in let E := fresh "E" in
        destruct (rows_offered n m fs d view v eq_refl eq_refl H) as (l & E); rewrite E; clear E
      end ]; cbn [items mbind result_bind]).
(* And every field of the view takes it. *)
Ltac fits := apply make_ok; [reflexivity|]; cbn [args_fit fst snd need may perhaps]; names; cbn;
  split_and!; first [exact I|reflexivity|apply checks_accepts; reflexivity|eapply offered_accepts; [|eassumption]; vm_compute; reflexivity].
Ltac accepted Ho := intros Ho%members_of; offers Ho; fits.

Lemma context_accepted o : conforms ManagementContextInternal (JObj o) → ∃ v, context_view o = Ok (JObj v).
Proof.
  unfold context_view. intros Ho%members_of. offers Ho.
  match goal with |- context [make OwnerContextView ?args] => assert (∃ w, make OwnerContextView args = Ok (JObj w)) as [w ->] by fits end.
  cbn [mbind result_bind]. destruct (json_truthy _); fits.
Qed.
Lemma roster_accepted o : conforms CompanionRosterInternal (JObj o) → ∃ v, roster_view o = Ok (JObj v).
Proof. unfold roster_view. accepted Ho. Qed.
Lemma default_accepted o : conforms DefaultCompanionResponseInternal (JObj o) → ∃ v, copied DefaultCompanionView ["default_companion_id"] o = Ok (JObj v).
Proof. accepted Ho. Qed.
Lemma created_accepted o : conforms CompanionCreateResponseInternal (JObj o) → ∃ v, copied CompanionCreatedView
    ["companion_id"; "display_name"; "kind"; "lifecycle_state"; "revision"; "created"; "memory_ready"] o = Ok (JObj v).
Proof. accepted Ho. Qed.
Lemma face_accepted o : conforms CompanionFaceInternal (JObj o) → ∃ v, face_view o = Ok (JObj v).
Proof. unfold face_view. accepted Ho. Qed.
Lemma owner_name_accepted o : conforms OwnerNameInternal (JObj o) → ∃ v, copied OwnerNameView ["owner_id"; "display_name"; "revision"] o = Ok (JObj v).
Proof. accepted Ho. Qed.
Lemma library_accepted o : conforms MemoryLibraryInternal (JObj o) → ∃ v, library_view o = Ok (JObj v).
Proof. unfold library_view. accepted Ho. Qed.
Lemma proposal_accepted o : conforms ForgetProposalInternal (JObj o) → ∃ v, proposal_view o = Ok (JObj v).
Proof. unfold proposal_view. accepted Ho. Qed.
Lemma forgotten_accepted o : conforms ForgetResultInternal (JObj o) → ∃ v, copied ForgetResultView ["request_id"; "target"; "entry_count"; "status"] o = Ok (JObj v).
Proof. accepted Ho. Qed.
Lemma progress_accepted o : conforms ForgetProgressInternal (JObj o) → ∃ v, copied ForgetProgressView ["request_id"; "status"] o = Ok (JObj v).
Proof. accepted Ho. Qed.
Lemma recollections_accepted o : conforms RecollectionsInternal (JObj o) → ∃ v, recollections_view o = Ok (JObj v).
Proof. unfold recollections_view. accepted Ho. Qed.
Lemma copy_accepted o : conforms MemoryCopyInternal (JObj o) → ∃ v, copy_view o = Ok (JObj v).
Proof. unfold copy_view. accepted Ho. Qed.
Lemma day_accepted o : conforms MemoryDayInternal (JObj o) → ∃ v, day_view o = Ok (JObj v).
Proof. unfold day_view. accepted Ho. Qed.
Lemma revoked_accepted o : conforms RevokedSessionsInternal (JObj o) → ∃ v, copied RevokedSessionsView ["revoked_at"] o = Ok (JObj v).
Proof. accepted Ho. Qed.
Lemma conversations_accepted o : conforms ConversationPageInternal (JObj o) → ∃ v, conversations_view o = Ok (JObj v).
Proof. unfold conversations_view. accepted Ho. Qed.
Lemma task_page_accepted o : conforms TaskPageInternal (JObj o) → ∃ v, task_page_view o = Ok (JObj v).
Proof. unfold task_page_view. accepted Ho. Qed.
Lemma persona_history_accepted o : conforms PersonaHistoryInternal (JObj o) → ∃ v, persona_history_view o = Ok (JObj v).
Proof. unfold persona_history_view. accepted Ho. Qed.
Lemma companion_name_accepted o :
  conforms CompanionNameInternal (JObj o) → ∃ v, copied CompanionNameView ["companion_id"; "display_name"; "revision"] o = Ok (JObj v).
Proof. accepted Ho. Qed.
Lemma task_accepted o : conforms TaskInternal (JObj o) → ∃ v, ManagementRoutes.task_view o = Ok v.
Proof. intros Ho. unfold ManagementRoutes.task_view, construct. by apply (sub_accepts TaskInternal ManagementViews.TaskView). Qed.
Lemma lifecycle_accepted o : conforms CompanionLifecycleResponseInternal (JObj o) → ∃ v, ManagementRoutes.lifecycle_view o = Ok (JObj v).
Proof.
  unfold ManagementRoutes.lifecycle_view. intros Ho%members_of. offers Ho.
  match goal with |- context [iterate ?v] => assert (∃ l, v = JList l) as [l ->] end.
  { match goal with H : offered _ (VList _, _) _ |- _ => destruct H as [[= <-]|H]; [by eexists|inversion H; subst; by eexists] end. }
  cbn [iterate mbind result_bind]. fits.
Qed.
Lemma turn_accepted x : conforms TranscriptTurnInternal x → ∃ v, transcript_turn x = Ok v.
Proof.
  intros Hx. inversion Hx; subst. revert Hx. unfold transcript_turn. intros Ho%members_of. offers Ho.
  match goal with |- ∃ v, make ?t ?args = Ok v => cut (∃ w, make t args = Ok (JObj w)); [intros [w Hw]; by eexists|] end. fits.
Qed.
Lemma transcript_accepted o : conforms TranscriptInternal (JObj o) → ∃ v, transcript_view o = Ok (JObj v).
Proof.
  unfold transcript_view. intros Ho%members_of. offers Ho.
  match goal with H : offered _ (VList _, _) ?x |- _ => destruct H as [H|H]; [done|]; inversion H as [| | | | | | | | |? l Hl| | |]; subst end.
  cbn [iterate mbind result_bind].
  assert (∃ vs, each transcript_turn l = Ok vs) as [vs ->].
  { clear -Hl. induction Hl as [|x l Hx _ [vs IH]]; [by eexists|]. destruct (turn_accepted x Hx) as [v Hv]. cbn. rewrite Hv, IH. by eexists. }
  cbn [mbind result_bind]. fits.
Qed.
(** What was said last, of a page of the plane. *)
Lemma last_spoken_fits p : conforms ConversationPageInternal (JObj p) →
  ∃ t, last_spoken_at py_str (Some p) = Ok t ∧ text_within 0 (Some 64) t = true.
Proof.
  intros Ho%members_of. destruct p as [|q p]; [by inversion Ho|]. unfold last_spoken_at, page_rows. cbn [default from_option id].
  revert Ho. generalize (q :: p). intros o Ho. offers Ho.
  match goal with H : offered _ (VList _, _) ?x |- _ => destruct H as [H|H]; [done|]; inversion H as [| | | | | | | | |? l Hl| | |]; subst end.
  cbn [iterate mbind result_bind]. destruct Hl as [|row l Hrow _]; [by exists ""|].
  inversion Hrow; subst. clear Ho. revert Hrow. intros Ho%members_of. cbn [row_get mbind result_bind]. offers Ho.
  match goal with H : offered _ (_, Default _) ?x |- _ => destruct H as [[= <-]|H]; [by exists ""|]; inversion H; subst end.
  eexists. split; [reflexivity|]. unfold MissionControl.str_or_empty, json_truthy, Upstream.str_of. by case_bool_decide; subst.
Qed.
Definition page_of_plane (latest : option obj) : Prop := from_option (λ p, conforms ConversationPageInternal (JObj p)) True latest.
Lemma detail_accepted o aside latest :
  conforms CompanionDetailInternal (JObj o) → page_of_plane latest → ∃ v, detail_view py_str o aside latest = Ok (JObj v).
Proof.
  intros Ho%members_of Hl.
  assert (∃ t, last_spoken_at py_str latest = Ok t ∧ text_within 0 (Some 64) t = true) as (t & Ht & Hw).
  { destruct latest as [p|]; [by apply last_spoken_fits|by exists ""]. }
  unfold detail_view. rewrite Ht. offers Ho. apply make_ok; [reflexivity|]. cbn [args_fit fst snd need may perhaps]. names. cbn.
  split_and!; try first [exact I|reflexivity|eapply offered_accepts; [|eassumption]; vm_compute; reflexivity].
  - by apply checks_accepts.
  - apply checks_accepts. by case_bool_decide.
Qed.
(** A position in the history, as the text a client gets. *)
Definition position_fits (o : obj) : Prop :=
  ∀ z, obj_get "next_cursor" o JNull = JInt z → text_within 0 (Some 128) (Upstream.str_of py_str (JInt z)) = true.
Lemma activity_accepted o : conforms ActivityFeedInternal (JObj o) → position_fits o → ∃ v, activity_view py_str o = Ok (JObj v).
Proof.
  intros Ho%members_of Hp. unfold activity_view.
  pose proof (λ H, item_offered _ _ o "next_cursor" (VOpt (at_least 1), Default JNull) H Ho) as Hn.
  destruct (Hn eq_refl) as (cursor & E & Hc).
  assert (obj_get "next_cursor" o JNull = cursor) as Hcur.
  { revert E. rewrite obj_get_dict. unfold item. destruct (dict_get "next_cursor" o); cbn; congruence. }
  unfold position_fits in Hp. rewrite Hcur in Hp. clear Hcur. rewrite E. clear Hn E. offers Ho.
  assert (accepts (VOpt (ManagementViews.text 0 128)) (match cursor with JNull => JNull | v => JStr (Upstream.str_of py_str v) end)) as Ha.
  { destruct Hc as [[= <-]|Hc]; [by exists JNull|]. inversion Hc; subst; [by exists JNull|].
    match goal with H : conforms (at_least _) ?x |- _ => inversion H; subst end. specialize (Hp _ eq_refl).
    apply accepts_bare, checks_accepts. exact Hp. }
  apply make_ok; [reflexivity|]. cbn [args_fit fst snd need may perhaps]. names. cbn -[accepts]. split_and!; try done.
Qed.
(** What the surface takes of a graph; the plane answers any. *)
Definition BoundedGraph : vtype :=
  VModel "MemoryGraphInternal" [contract_version; operation "memory.graph";
    need "nodes" (VList (VModel "MemoryGraphNodeInternal" [need "node_id" (ManagementViews.text 1 256);
      need "label" (ManagementViews.text 1 256); need "degree" (at_least 0)]));
    need "edges" (VList (VModel "MemoryGraphEdgeInternal" [need "edge_id" (ManagementViews.text 1 128);
      need "subject" (ManagementViews.text 1 256); need "predicate" (ManagementViews.text 1 128);
      need "object" (ManagementViews.text 1 256); need "confidence" VUnit;
      may "recorded_at" (ManagementViews.text 0 64) (JStr ""); perhaps "valid_from" (VStr 0 None); perhaps "valid_to" (VStr 0 None)]));
    need "truncated" VBool; perhaps "next_cursor" (ManagementViews.text 0 1024); may "history" VBool (JBool false)].
Lemma graph_accepted o : conforms BoundedGraph (JObj o) → ∃ v, graph_view o = Ok (JObj v).
Proof. unfold graph_view. accepted Ho. Qed.
Lemma sdk_accepted m o : conforms (VSdk m) (JObj o) → ∃ v, of_sdk m o = Ok v.
Proof. intros Ho. inversion Ho; subst. by apply (sdk_model_of m). Qed.
End Offered.

(** ** Every route *)

(** The declared model of what a call is answered with, when it is answered with one. *)
Definition answer_model `{PY : !Pydantic} (c : plane_call) : vtype :=
  match c with
  | GetContext _ => ManagementContextInternal
  | ListCompanions _ _ => CompanionRosterInternal
  | GetCompanion _ _ => CompanionDetailInternal
  | PutDefaultCompanion _ _ _ => DefaultCompanionResponseInternal
  | GetPersonaAuthoringTemplate => VSdk "PersonaAuthoring"
  | PreviewPersona _ _ => VSdk "PersonaPreviewResponse"
  | GetPersonaPresets => VSdk "PersonaPresetCatalog"
  | PutCompanionProvision _ _ _ => CompanionCreateResponseInternal
  | GetMemoryLibrary _ _ => MemoryLibraryInternal
  | GetMemoryGraph _ _ _ _ => MemoryGraphInternal
  | PostForgetPreview _ _ => ForgetProposalInternal
  | PostForgetConfirm _ _ => ForgetResultInternal
  | GetForgetStatus _ _ => ForgetProgressInternal
  | PostRuntimeSessionRevocation _ => RevokedSessionsInternal
  | GetCompanionConversations _ _ _ _ => ConversationPageInternal
  | GetConversationTranscript _ _ _ _ _ => TranscriptInternal
  | GetCompanionTasks _ _ _ _ _ => TaskPageInternal
  | GetCompanionTask _ _ _ | PostTaskCancel _ _ _ | PostTaskRetry _ _ _ => TaskInternal
  | GetPersona _ _ | PutPersona _ _ _ => VSdk "PersonaEditSnapshot"
  | GetPersonaHistory _ _ | PutPersonaRestoration _ _ _ => PersonaHistoryInternal
  | GetActivity _ _ _ => ActivityFeedInternal
  | GetCompanionFaceState _ _ | GetCompanionFace _ _ _ | PutCompanionFace _ _ _ | DeleteCompanionFace _ _ => CompanionFaceInternal
  | PatchCompanion _ _ _ => CompanionNameInternal
  | PatchOwner _ _ => OwnerNameInternal
  | PutCompanionLifecycle _ _ _ _ _ => CompanionLifecycleResponseInternal
  | GetMemoryRecollections _ _ _ _ => RecollectionsInternal
  | GetMemoryExport _ _ _ _ => MemoryCopyInternal
  | GetMemoryEntries _ _ _ _ _ => MemoryDayInternal
  end.
(** What the surface makes of the answer; of a Companion, with the page of its
    conversations beside it. *)
Definition surface_view `{PY : !Pydantic} (py_str : json → string) (aside : list (string * string)) (latest : option obj)
    (c : plane_call) : obj → result json :=
  match c with
  | GetContext _ => context_view
  | ListCompanions _ _ => roster_view
  | GetCompanion _ _ => λ o, detail_view py_str o aside latest
  | PutDefaultCompanion _ _ _ => copied DefaultCompanionView ["default_companion_id"]
  | GetPersonaAuthoringTemplate => of_sdk "PersonaAuthoring"
  | PreviewPersona _ _ => of_sdk "PersonaPreviewResponse"
  | GetPersonaPresets => of_sdk "PersonaPresetCatalog"
  | PutCompanionProvision _ _ _ =>
      copied CompanionCreatedView ["companion_id"; "display_name"; "kind"; "lifecycle_state"; "revision"; "created"; "memory_ready"]
  | GetMemoryLibrary _ _ => library_view
  | GetMemoryGraph _ _ _ _ => graph_view
  | PostForgetPreview _ _ => proposal_view
  | PostForgetConfirm _ _ => copied ForgetResultView ["request_id"; "target"; "entry_count"; "status"]
  | GetForgetStatus _ _ => copied ForgetProgressView ["request_id"; "status"]
  | PostRuntimeSessionRevocation _ => copied RevokedSessionsView ["revoked_at"]
  | GetCompanionConversations _ _ _ _ => conversations_view
  | GetConversationTranscript _ _ _ _ _ => transcript_view
  | GetCompanionTasks _ _ _ _ _ => task_page_view
  | GetCompanionTask _ _ _ | PostTaskCancel _ _ _ | PostTaskRetry _ _ _ => ManagementRoutes.task_view
  | GetPersona _ _ | PutPersona _ _ _ => of_sdk "PersonaEditSnapshot"
  | GetPersonaHistory _ _ | PutPersonaRestoration _ _ _ => persona_history_view
  | GetActivity _ _ _ => activity_view py_str
  | GetCompanionFaceState _ _ | GetCompanionFace _ _ _ | PutCompanionFace _ _ _ | DeleteCompanionFace _ _ => face_view
  | PatchCompanion _ _ _ => copied CompanionNameView ["companion_id"; "display_name"; "revision"]
  | PatchOwner _ _ => copied OwnerNameView ["owner_id"; "display_name"; "revision"]
  | PutCompanionLifecycle _ _ _ _ _ => ManagementRoutes.lifecycle_view
  | GetMemoryRecollections _ _ _ _ => recollections_view
  | GetMemoryExport _ _ _ _ => copy_view
  | GetMemoryEntries _ _ _ _ _ => day_view
  end.
(** Two answers the surface bounds and the plane does not: a graph, and the
    length of a position in the history. *)
Definition surface_bounds `{PY : !Pydantic} (py_str : json → string) (c : plane_call) (o : obj) : Prop :=
  match c with
  | GetMemoryGraph _ _ _ _ => conforms BoundedGraph (JObj o)
  | GetActivity _ _ _ => position_fits py_str o
  | _ => True
  end.

(** ** Credentials *)

Definition status_of (r : plane_reply) : Z := match r with Document n _ | Bytes n _ _ => n end.
(** The header holds a bearer's token. *)
Definition bears (r : plane_request) (given : string) : Prop :=
  ∃ scheme, dict_get "Authorization" r.(pq_headers) = Some (scheme +:+ " " +:+ given) ∧ lower_text scheme = "bearer".

Lemma partition_space_spec l :
  match partition_space l with Some (a, b) => l = a ++ " "%char :: b ∧ " "%char ∉ a | None => " "%char ∉ l end.
Proof.
  induction l as [|c l IH]; cbn; [set_solver|]. case_bool_decide as E; [subst; split; [done|set_solver]|].
  destruct (partition_space l) as [[a b]|]; [destruct IH as [-> Ha]; split; [done|]|]; set_solver.
Qed.
Lemma partition_space_first a b : " "%char ∉ a → partition_space (a ++ " "%char :: b) = Some (a, b).
Proof.
  induction a as [|c a IH]; cbn; [by rewrite bool_decide_eq_true_2|]. intros [Hc Ha]%not_elem_of_cons.
  rewrite bool_decide_eq_false_2 by congruence. by rewrite IH.
Qed.
Lemma bearer_no_space scheme : lower_text scheme = "bearer" → " "%char ∉ list_ascii_of_string scheme.
Proof.
  intros H Hin. assert (" "%char ∈ list_ascii_of_string (lower_text scheme)) as Hl.
  { unfold lower_text. rewrite list_ascii_of_string_of_list_ascii. apply list_elem_of_fmap. by exists " "%char. }
  rewrite H in Hl. by apply (bool_decide_eq_true_2 _) in Hl.
Qed.
Lemma bears_parts r given : bears r given ↔
  ∃ scheme, authorization_parts (dict_get "Authorization" r.(pq_headers)) = (scheme, Some given) ∧ lower_text scheme = "bearer".
Proof.
  unfold bears, authorization_parts. split.
  - intros (scheme & -> & Hs). exists scheme. split; [|done]. cbn [default from_option id].
    rewrite !list_ascii_app. cbn [list_ascii_of_string app]. rewrite partition_space_first by by apply bearer_no_space.
    by rewrite !string_of_list_ascii_of_string.
  - intros (scheme & Hp & Hs). pose proof (partition_space_spec (list_ascii_of_string (default "" (dict_get "Authorization" (pq_headers r))))) as H.
    destruct (partition_space _) as [[a b]|]; [|done]. injection Hp as <- <-. destruct H as [H _].
    exists (string_of_list_ascii a). split; [|done].
    destruct (dict_get "Authorization" (pq_headers r)) as [h|]; cbn in H; [|by destruct a].
    f_equal. rewrite <- (string_of_list_ascii_of_string h), H. rewrite <- (string_of_list_ascii_of_string (_ +:+ _)), !list_ascii_app.
    by rewrite !list_ascii_of_string_of_list_ascii.
Qed.


Section Answers.
Context {X : Type} `{PY : !Pydantic}.
Context `{!OwnerReader X} `{!RosterReader X} `{!DefaultCompanionWriter X} `{!CompanionProvisioner X} `{!OwnerNamer X}
  `{!CompanionLifecycleWriter X} `{!CompanionBodyRegistrar X} `{!CompanionFaceKeeper X} `{!GovernanceHistorian X}
  `{!PersonaHistorian (sdk "PersonaEditRequest") (sdk "PersonaEditSnapshot") X} `{!CompanionActivityReader X} `{!PersonaCatalog X}
  `{!MemoryBrowser X} `{!MemoryRecollector X} `{!MemoryForgetter X} `{!RuntimeSessionRevoker X}.
Context (sha256_hex : bytes → string) (LIFECYCLE_ACTIVE LIFECYCLE_ARCHIVED : string) (py_str : json → string) (as_doc : json → doc).
Context (held : list string) (activity : option (ActivityReader X)) (reconcile : option (M X bool)).
Abbreviation handle_ := (handle sha256_hex LIFECYCLE_ACTIVE LIFECYCLE_ARCHIVED py_str as_doc held activity reconcile).

Definition answers (T : vtype) (c : M X plane_reply) : Prop := ∀ s n v, (c s).1 = Ok (Document n v) → conforms T v.
Lemma gives_answer_bind {A} T (c : M X A) k : (∀ a, answers T (k a)) → answers T (c ≫= k).
Proof. intros Hk s. unfold mbind, M_bind. destruct (c s) as [[a|e] s']; [apply Hk|done]. Qed.
Lemma answers_answer T r : (∀ v, r = Ok v → conforms T v) → answers T (answer r).
Proof. intros Hr s n v. destruct r as [w|e]; cbn; [|done]. intros [= _ <-]. by apply Hr. Qed.
Lemma answers_sdk {m} (c : M X (sdk m)) : answers (VSdk m) (answer_sdk c).
Proof. apply gives_answer_bind. intros a s n v [= _ <-]. apply CSdk, sdk_ok. Qed.
Lemma answers_raise T e : answers T (raise e).
Proof. by intros s n v. Qed.
Lemma answers_bytes T (b : M X plane_reply) : (∀ s n v, (b s).1 ≠ Ok (Document n v)) → answers T b.
Proof. intros Hb s n v H. by destruct (Hb s n v). Qed.

(** What a call is answered with is of its declared model. *)
Lemma handle_answers c : answers (answer_model c) (handle_ c).
Proof.
  destruct c; cbn [handle answer_model]; unfold
    PlaneRoutes.get_context, PlaneRoutes.list_companions, PlaneRoutes.get_companion,
    PlaneRoutes.put_default_companion, PlaneRoutes.get_persona_authoring_template, PlaneRoutes.preview_persona,
    PlaneRoutes.get_persona_presets, PlaneRoutes.put_companion_provision, PlaneRoutes.get_memory_library,
    PlaneRoutes.get_memory_graph, PlaneRoutes.post_forget_preview, PlaneRoutes.post_forget_confirm,
    PlaneRoutes.get_forget_status, PlaneRoutes.post_runtime_session_revocation,
    PlaneRoutes.get_companion_conversations, PlaneRoutes.get_conversation_transcript, PlaneRoutes.get_companion_tasks,
    PlaneRoutes.get_companion_task, PlaneRoutes.post_task_cancel, PlaneRoutes.post_task_retry,
    PlaneRoutes.get_persona, PlaneRoutes.put_persona, PlaneRoutes.get_persona_history,
    PlaneRoutes.put_persona_restoration, PlaneRoutes.get_activity, PlaneRoutes.get_companion_face_state,
    PlaneRoutes.get_companion_face, PlaneRoutes.put_companion_face, PlaneRoutes.delete_companion_face,
    PlaneRoutes.patch_companion, PlaneRoutes.patch_owner, PlaneRoutes.put_companion_lifecycle,
    PlaneRoutes.get_memory_recollections, PlaneRoutes.get_memory_export, PlaneRoutes.get_memory_entries;
    lazymatch goal with
    | |- answers _ (answer_sdk _) => apply answers_sdk
    | |- answers _ (raise _) => apply answers_raise
    | |- _ => apply gives_answer_bind; intros ?
    end; try apply answers_answer.
  all: try (intros ?; eauto with plane; fail).
  all: try (intros ? H; eapply make_view; [|exact H]; args_ok).
  (* the face is no document *)
  intros s n v. cbn. by destruct (unchanged _); [|destruct (fb_content _)].
Qed.

(** C36: The surface takes what the plane answers.  Whatever the authorities say, an
    answer the plane gives to any of its routes is accepted by the view of the
    surface's route: no field is missing, no text too long, no number out of
    range, no member unknown.  Only a graph, which the plane does not bound, and
    a position in the history, which becomes a text, are bounded by the surface
    alone.  Beside a Companion, a page of its conversations is one the plane
    answered, or none. *)
Theorem plane_answers_accepted aside latest c s o :
  page_of_plane latest → surface_bounds py_str c o → (handle_ c s).1 = Ok (Document 200 (JObj o)) →
  ∃ v, surface_view py_str aside latest c o = Ok v.
Proof.
  intros Hl Hb Hc%handle_answers.
  assert (∀ r : result json, (∃ v, r = Ok (JObj v)) → ∃ v, r = Ok v) as Hweak by (intros r [v Hv]; by eexists).
  destruct c; cbn [answer_model surface_view surface_bounds] in *;
    first [by apply sdk_accepted | by apply task_accepted | apply Hweak];
    eauto using context_accepted, roster_accepted, detail_accepted, default_accepted, created_accepted, face_accepted,
      owner_name_accepted, library_accepted, proposal_accepted, forgotten_accepted, progress_accepted, recollections_accepted,
      copy_accepted, day_accepted, revoked_accepted, conversations_accepted, task_page_accepted, persona_history_accepted,
      lifecycle_accepted, transcript_accepted, activity_accepted, graph_accepted, companion_name_accepted.
Qed.

(** ** Who is let in *)

Context (loads : bytes → result json) (declares_json : list (string * string) → bool) (errors : exn → list json) (token : string).
Abbreviation serve_ := (serve sha256_hex LIFECYCLE_ACTIVE LIFECYCLE_ARCHIVED py_str as_doc held activity reconcile loads declares_json
                          errors token).
Abbreviation answered_ := (answered sha256_hex LIFECYCLE_ACTIVE LIFECYCLE_ARCHIVED py_str as_doc held activity reconcile).
Abbreviation decoded_body_ := (decoded_body loads declares_json).
(** The credential decides, once the body is read. *)
Lemma serve_reached r s t path body :
  reach r = Reached t path → decoded_body_ t r = Ok body →
  let expected := strip token in
  (expected ≠ "" → is_ascii expected = true → bears r expected →
   serve_ r s = match t.(rt_read) path r body with
                | Ok c => answered_ c s
                | Raise e => (Ok (http_detail 422 (JList (errors e))), s)
                end) ∧
  (¬ (expected ≠ "" ∧ is_ascii expected = true ∧ bears r expected) →
   ∃ reply, serve_ r s = (Ok reply, s) ∧
     (status_of reply = 503 ↔ expected = "") ∧
     (status_of reply = 500 ↔ expected ≠ "" ∧ ∃ given, bears r given ∧ is_ascii given && is_ascii expected = false) ∧
     status_of reply ∈ [401; 500; 503]) ∧
  ∃ reply, (serve_ r s).1 = Ok reply.
Proof.
  intros Hr Hbody expected. unfold serve. rewrite Hr, Hbody. unfold require_local_api_credential. fold expected.
  assert (∀ c, ∃ reply, (answered_ c s).1 = Ok reply) as Hans.
  { intros c. unfold answered, catch. destruct (handle _ _ _ _ _ _ _ _ c s) as [[a|e] s']; by eexists. }
  assert (∃ reply, (match t.(rt_read) path r body with Ok c => answered_ c s | Raise e => (Ok (http_detail 422 (JList (errors e))), s) end).1
          = Ok reply) as Hin by (destruct (rt_read t path r body); [by apply Hans|by eexists]).
  destruct (decide (expected = "")) as [He|He].
  { rewrite bool_decide_eq_true_2 by done. split_and!; [done| |by eexists]. intros _. eexists. split; [reflexivity|]. cbn. split_and!; [done| |set_solver]. split; [done|by intros []]. }
  rewrite bool_decide_eq_false_2 by done.
  destruct (authorization_parts _) as [scheme [given|]] eqn:Ep.
  2:{ split_and!; [intros _ _ (? & Hp & _)%bears_parts; by rewrite Ep in Hp| |by eexists].
      intros _. eexists. split; [reflexivity|]. cbn. split_and!; [done| |set_solver]. split; [done|].
      intros (_ & g & (? & Hp & _)%bears_parts & _). by rewrite Ep in Hp. }
  case_bool_decide as Hs.
  2:{ split_and!; [intros _ _ (? & Hp & ?)%bears_parts; rewrite Ep in Hp; by injection Hp as -> _| |by eexists].
      intros _. eexists. split; [reflexivity|]. cbn. split_and!; [done| |set_solver]. split; [done|].
      intros (_ & g & (? & Hp & ?)%bears_parts & _). rewrite Ep in Hp. by injection Hp as -> _. }
  assert (bears r given) as Hb by (apply bears_parts; by exists scheme).
  assert (∀ g, bears r g → g = given) as Hone by (intros g (? & Hp & _)%bears_parts; rewrite Ep in Hp; by injection Hp).
  unfold compare_digest. destruct (is_ascii given && is_ascii expected) eqn:Ea; cbn [mbind result_bind].
  - apply andb_prop in Ea as [Eg Ee]. case_bool_decide as Heq.
    + assert (∀ A (x : result A) (f : A → M X plane_reply) (g : exn → M X plane_reply),
        (match x with Ok c => f c | Raise e => g e end) s = match x with Ok c => f c s | Raise e => g e s end) as Happ by (by intros ? []).
      rewrite Happ. split_and!; [done| |done]. intros []. by rewrite <- Heq in He |- *.
    + split_and!; [intros _ _ Hx; by rewrite (Hone _ Hx) in Heq| |by eexists]. intros _. eexists. split; [reflexivity|]. cbn.
      split_and!; [done| |set_solver]. split; [done|]. intros (_ & g & Hg & Hf). rewrite (Hone _ Hg), Eg, Ee in Hf. done.
  - split_and!; [intros _ Hx Hy; by rewrite <- (Hone _ Hy), Hx in Ea| |by eexists].
    intros _. eexists. split; [reflexivity|]. cbn. split_and!; [done| |set_solver]. split; [|done]. intros _. split; [done|]. by exists given.
Qed.
(** C37: Nobody else is let in.  A body that a route declares and that comes as
    JSON is decoded before anything is asked: when it cannot be, whoever sent it
    is answered 422 for malformed JSON and 400 for any other failure, and no
    authority is asked.
    Otherwise a request that reaches a route is answered by it only when its
    header is a bearer's and its token is the credential of this Host, to the
    character; nothing is asked of any authority for another, and the answer is
    503 exactly when this Host holds no credential, a server error exactly when
    one of the two compared is not ASCII, and 401 in every other case.  And no
    failure of any authority leaves as anything but a response. *)
Theorem plane_admits_local_api r s t path :
  reach r = Reached t path →
  let expected := strip token in
  match decoded_body_ t r with
  | Raise e =>
      t.(rt_body) = true ∧ declares_json r.(pq_headers) = true ∧ loads r.(pq_body) = Raise e ∧
      ∃ reply, serve_ r s = (Ok reply, s) ∧ status_of reply = match e with JSONDecodeError _ => 422 | _ => 400 end
  | Ok body =>
      (expected ≠ "" → is_ascii expected = true → bears r expected →
       serve_ r s = match t.(rt_read) path r body with
                    | Ok c => answered_ c s
                    | Raise e => (Ok (http_detail 422 (JList (errors e))), s)
                    end) ∧
      (¬ (expected ≠ "" ∧ is_ascii expected = true ∧ bears r expected) →
       ∃ reply, serve_ r s = (Ok reply, s) ∧
         (status_of reply = 503 ↔ expected = "") ∧
         (status_of reply = 500 ↔ expected ≠ "" ∧ ∃ given, bears r given ∧ is_ascii given && is_ascii expected = false) ∧
         status_of reply ∈ [401; 500; 503]) ∧
      ∃ reply, (serve_ r s).1 = Ok reply
  end.
Proof.
  intros Hr expected. destruct (decoded_body_ t r) as [body|e] eqn:E; [by apply serve_reached|].
  unfold serve. rewrite Hr, E. revert E. unfold decoded_body.
  destruct (rt_body t), (bool_decide (pq_body r = [])), (declares_json (pq_headers r)); cbn [negb orb]; try done.
  destruct (loads (pq_body r)) as [v|e']; cbn [mbind result_bind]; [done|]. intros [= ->].
  split_and!; try done. eexists. split; [reflexivity|]. by destruct e.
Qed.
End Answers.

(** ** Witnesses *)

(* A Host with an Owner, an authority of names, and nothing else. *)
Definition absent {A} : M unit A := raise (AttributeError "absent").
Definition the_owner : OwnerIdentity := mkOwner "owner_1" "小忆" 3 None.
#[local] Existing Instance strict_pydantic.
#[local] Instance one_owner : OwnerReader unit := {| authority_get_owner o := mret the_owner |}.
#[local] Instance no_roster : RosterReader unit := {| authority_list_companions _ _ := absent; authority_get_companion _ _ := absent |}.
#[local] Instance no_default : DefaultCompanionWriter unit := {| authority_set_default _ _ _ := absent |}.
#[local] Instance no_provisioner : CompanionProvisioner unit := {| authority_provision _ _ := absent |}.
#[local] Instance one_namer : OwnerNamer unit := {| authority_rename_owner o n := mret (mkOwner o n 4 None) |}.
#[local] Instance no_lifecycle : CompanionLifecycleWriter unit := {| authority_set_lifecycle _ _ _ _ _ := absent |}.
#[local] Instance no_bodies : CompanionBodyRegistrar unit := {| registrar_endpoints _ := absent; registrar_release _ _ _ _ _ := absent |}.
#[local] Instance no_faces : CompanionFaceKeeper unit :=
  {| authority_face_state _ := absent; authority_face _ := absent; authority_set_face _ _ := absent; authority_clear_face _ := absent |}.
#[local] Instance no_history : GovernanceHistorian unit := {| authority_governance_events _ _ _ := absent |}.
#[local] Instance no_persona : PersonaHistorian (sdk "PersonaEditRequest") (sdk "PersonaEditSnapshot") unit :=
  {| authority_persona_timeline _ := absent; authority_restore_persona _ _ _ := absent; authority_get_persona _ := absent;
     authority_author_persona _ _ _ := absent |}.
#[local] Instance no_agent : CompanionActivityReader unit :=
  {| agent_conversations _ _ _ _ := absent; agent_tasks _ _ _ _ _ := absent; agent_transcript _ _ _ _ _ := absent;
     agent_task _ _ := absent; agent_cancel_task _ _ := absent; agent_retry_task _ _ := absent |}.
#[local] Instance no_catalog : PersonaCatalog unit :=
  {| data_persona_authoring_template := absent; data_persona_presets := absent; agent_preview_persona _ _ := absent |}.
#[local] Instance no_memory : MemoryBrowser unit :=
  {| realm_browse _ _ := absent; realm_entries _ _ _ _ _ := absent; realm_graph _ _ _ _ := absent; realm_export _ _ _ _ := absent |}.
#[local] Instance no_recollector : MemoryRecollector unit := {| realm_recollections _ _ _ _ := absent |}.
#[local] Instance no_forgetter : MemoryForgetter unit :=
  {| realm_forget_preview _ _ := absent; realm_forget_confirm _ _ := absent; realm_forget_status _ _ := absent |}.
#[local] Instance no_revoker : RuntimeSessionRevoker unit := {| agent_revoke_sessions _ := absent |}.
Definition nothing_known (v : json) : string := "".
Definition their_plane : plane_call → M unit plane_reply :=
  handle (λ _, "") "active" "archived" nothing_known (λ _, DNull) ["memory"] None None.

Definition the_answer : obj :=
  match (their_plane (GetContext "owner_1") tt).1 with Ok (Document _ (JObj o)) => o | _ => [] end.
Lemma their_context : their_plane (GetContext "owner_1") tt = (Ok (Document 200 (JObj the_answer)), tt).
Proof. vm_compute. reflexivity. Qed.

Lemma plane_answers_accepted_witness :
  ∃ v, (their_plane (GetContext "owner_1") tt).1 = Ok (Document 200 (JObj the_answer)) ∧
    surface_view nothing_known [] None (GetContext "owner_1") the_answer = Ok v.
Proof.
  assert ((their_plane (GetContext "owner_1") tt).1 = Ok (Document 200 (JObj the_answer))) as Ho by (by rewrite their_context).
  destruct (plane_answers_accepted (λ _, "") "active" "archived" nothing_known (λ _, DNull) ["memory"] None None [] None
    (GetContext "owner_1") tt the_answer I I Ho) as [v Hv]. exists v. split; [exact Ho|exact Hv].
Defined.

Lemma plane_admits_local_api_witness :
  let r authorization := mkPlaneRequest "GET" "/api/internal/v1/management/context" [("owner_id", "owner_1")] authorization [] in
  let garbled := mkPlaneRequest "PATCH" "/api/internal/v1/management/owner" [("owner_id", "owner_1")] [] ["{"%char] in
  let serve_ := serve (λ _, "") "active" "archived" nothing_known (λ _, DNull) ["memory"] None None
                  (λ _, Raise (JSONDecodeError "")) (λ _, true) (λ _, []) " s3cret " in
  serve_ (r [("Authorization", "BEARER s3cret")]) tt =
    answered (λ _, "") "active" "archived" nothing_known (λ _, DNull) ["memory"] None None (GetContext "owner_1") tt ∧
  (∃ reply, serve_ (r [("Authorization", "Bearer s3cre")]) tt = (Ok reply, tt) ∧ status_of reply = 401) ∧
  ∃ reply, serve_ garbled tt = (Ok reply, tt) ∧ status_of reply = 422.
Proof.
  intros r garbled serve_.
  pose proof (plane_admits_local_api (λ _, "") "active" "archived" nothing_known (λ _, DNull) ["memory"] None None
    (λ _, Raise (JSONDecodeError "")) (λ _, true) (λ _, []) " s3cret ") as Hp.
  assert (∀ a, ∃ t path, reach (r a) = Reached t path ∧ t.(rt_body) = false ∧
    t.(rt_read) path (r a) NoBody = Ok (GetContext "owner_1")) as Hr
    by (intros a; do 2 eexists; split_and!; [reflexivity|reflexivity|vm_compute; reflexivity]).
  split_and!.
  - destruct (Hr [("Authorization", "BEARER s3cret")]) as (t & path & Ht & Hn & Hc).
    specialize (Hp _ tt t path Ht). unfold decoded_body in Hp. rewrite Hn in Hp. destruct Hp as (H & _ & _).
    rewrite Hc in H. apply H; [done|done|]. exists "BEARER". split; vm_compute; reflexivity.
  - destruct (Hr [("Authorization", "Bearer s3cre")]) as (t & path & Ht & Hn & _).
    specialize (Hp _ tt t path Ht). unfold decoded_body in Hp. rewrite Hn in Hp. destruct Hp as (_ & H & _).
    destruct H as (reply & H & Hs).
    + intros (_ & _ & Hb). apply bears_parts in Hb as (scheme & Hb & _). vm_compute in Hb. discriminate Hb.
    + exists reply. split; [exact H|]. destruct Hs as (H503 & H500 & Hin).
      apply elem_of_cons in Hin as [Hin|Hin]; [exact Hin|]. apply elem_of_cons in Hin as [Hin|Hin].
      * apply H500 in Hin as (_ & given & Hb & Ha). apply bears_parts in Hb as (scheme & Hb & _). vm_compute in Hb.
        injection Hb as _ <-. discriminate Ha.
      * apply list_elem_of_singleton, H503 in Hin. discriminate Hin.
  - assert (∃ t path, reach garbled = Reached t path ∧ t.(rt_body) = true) as (t & path & Ht & Hb)
      by (do 2 eexists; split; reflexivity).
    specialize (Hp _ tt t path Ht). unfold decoded_body in Hp. rewrite Hb in Hp. by destruct Hp as (_ & _ & _ & H).
Defined.
