(* ===== verification/Loopback.v ===== *)
(** * The Local API and the plane, over the loopback

    The client of [local_api/management/backend.py] against the routes of
    [app/management/router.py]: every request the client sends reaches the route
    it is meant for with the arguments it was given, what the route answers is
    what the caller gets, and a refusal of an authority comes through in the
    words that authority used. *)

From S2P Require Import Prelude Encoding Json LocalApi Upstream Clients ClientProofs OwnerDevices ManagementBackend HomeProofs.
From S2P Require Import ManagementViews ViewProofs PlaneViews MemoryRelays PlaneProofs.
From S2P Require Import RemovalWorkflow OperatorAdmission Management Activity PlaneRoutes PlaneWire.
#[local] Open Scope Z_scope.

(** ** Paths *)

Definition joined (parts : list string) : string := foldr (λ s acc, "/" +:+ quote s +:+ acc) "" parts.
Definition has_slash (s : string) : Prop := slash ∈ list_ascii_of_string s.

Lemma unquote_app_quoted l r : unquote_chars ((l ≫= quote_char) ++ r) = l ++ unquote_chars r.
Proof.
  induction l as [|c l IH]; [done|]. rewrite bind_cons, <- app_assoc.
  destruct (quote_char_cases c) as [(_ & -> & H & _)|(a & b & x & y & -> & _ & _ & Ha & Hb & Hc)].
  - cbn [app]. by rewrite unquote_head, IH.
  - cbn [app unquote_chars]. by rewrite bool_decide_eq_true_2, Ha, Hb, IH, Hc by done.
Qed.
Lemma split_on_app sep (l r : list ascii) : sep ∉ l → split_on sep (l ++ sep :: r) = l :: split_on sep r.
Proof.
  induction l as [|c l IH]; cbn; [by rewrite bool_decide_eq_true_2|]. intros [Hc Hl]%not_elem_of_cons.
  rewrite bool_decide_eq_false_2 by congruence. by rewrite IH.
Qed.
Lemma split_on_none sep (l : list ascii) : sep ∉ l → split_on sep l = [l].
Proof.
  induction l as [|c l IH]; cbn; [done|]. intros [Hc Hl]%not_elem_of_cons.
  rewrite bool_decide_eq_false_2 by congruence. by rewrite IH.
Qed.
Lemma unquote_joined parts :
  unquote_chars (list_ascii_of_string (joined parts)) = parts ≫= λ s, slash :: list_ascii_of_string s.
Proof.
  induction parts as [|s parts IH]; [done|]. rewrite bind_cons. cbn [joined foldr]. rewrite !list_ascii_app.
  unfold quote. rewrite list_ascii_of_string_of_list_ascii. cbn [list_ascii_of_string app].
  rewrite unquote_head by done. rewrite unquote_app_quoted. cbn [app]. do 2 f_equal. exact IH.
Qed.
(** An encoded path is its parts, none of which holds a slash. *)
Lemma path_segments_joined parts :
  parts ≠ [] → Forall (λ s, ¬ has_slash s) parts → path_segments (joined parts) = "" :: parts.
Proof.
  intros Hne Hp. unfold path_segments, segments. rewrite unquote_joined.
  assert (∀ l : list ascii, slash ∉ l →
    split_on slash (l ++ (parts ≫= λ s, slash :: list_ascii_of_string s)) = l :: (list_ascii_of_string <$> parts)) as H.
  { clear Hne. induction Hp as [|s parts Hs _ IH]; intros l Hl; [by rewrite app_nil_r, split_on_none|].
    rewrite bind_cons. cbn [app]. rewrite split_on_app by done. by rewrite IH. }
  specialize (H [] ltac:(set_solver)). cbn [app] in H. rewrite H. cbn. f_equal. rewrite <- list_fmap_compose.
  rewrite <- (list_fmap_id parts) at 2. apply list_fmap_ext. intros i s _. apply string_of_list_ascii_of_string.
Qed.
Lemma after_prefix_app p s : after_prefix p (p +:+ s) = Some s.
Proof.
  unfold after_prefix. rewrite list_ascii_app, take_app_length, drop_app_length, bool_decide_eq_true_2 by done.
  by rewrite string_of_list_ascii_of_string.
Qed.

Lemma append_empty s : s +:+ "" = s.
Proof. induction s as [|c s IH]; [done|]. by apply (f_equal (String c)). Qed.

(** ** What both ends share *)

(** What [json.loads] makes of a document that was dumped. *)
Fixpoint json_of (d : doc) : json :=
  match d with
  | DNull => JNull
  | DBool b => JBool b
  | DInt z => JInt z
  | DStr s => JStr s
  | DList l => JList (json_of <$> l)
  | DObj kv => JObj ((λ p, (p.1, json_of p.2)) <$> kv)
  end.
(** pydantic reads a number of at most twenty digits, and a truth value, from
    its text. *)
Class ReadsText `{PY : !Pydantic} : Prop := {
  lax_int_text z : 0 ≤ z < 10 ^ 20 → lax_int (JStr (pretty z)) = Some z;
  lax_bool_text b : lax_bool (JStr (if b : bool then "true" else "false")) = Some b }.
(** An identifier that stays one segment of a path. *)
Definition segment (s : string) : Prop := s ≠ "" ∧ s ≠ "." ∧ s ≠ ".." ∧ ¬ has_slash s.
#[export] Instance has_slash_dec s : Decision (has_slash s) := ltac:(unfold has_slash; apply _).
(* Every part is a literal, or an identifier that is a segment. *)
Ltac one_segments :=
  repeat (apply Forall_cons_2; [first [by apply (bool_decide_unpack _)|match goal with H : segment ?s |- ¬ has_slash ?s => apply H end]|]);
  apply Forall_nil_2.
(* The route of a path of these parts. *)
Ltac reaching parts :=
  unfold reach; cbn [pq_method pq_path hr_method];
  lazymatch goal with
  | |- context [path_segments ?p] =>
      replace p with (joined (["api"; "internal"; "v1"; "management"] ++ parts))
        by first [reflexivity|cbn [joined foldr app]; rewrite ?append_empty; reflexivity]
  end;
  rewrite path_segments_joined; [|done|cbn [app]; one_segments];
  repeat match goal with H : segment ?s |- _ => destruct H as (H & _); destruct s as [|? ?]; [done|] end;
  eexists _, _, _; split; [reflexivity|].
(** [s or None] *)
Definition nonempty (v : option string) : option string :=
  match v with Some s => if bool_decide (s = "") then None else Some s | None => None end.
Lemma within_from lo hi n : lo ≤ n → from_option (λ h, n ≤ h) True hi → within (Some lo) hi n = true.
Proof. intros H1 H2. unfold within. destruct hi; cbn in H2; lia. Qed.
(* What the route reads of it. *)
Ltac reads :=
  cbn [rt_read]; unfold owner_query, text_query, maybe_text, maybe_int, int_query, flag_query, parameter, last_of, owned,
    ManagementBackend.number, given, given_nonempty, nonempty, arg;
  repeat match goal with |- context [match ?v with Some _ => _ | None => _ end] => is_var v; destruct v as [?|] end;
  cbn [from_option] in *;
  repeat match goal with |- context [bool_decide (?s = "")] => is_var s; case_bool_decide end;
  cbn; names; cbn -[text_within within]; rewrite ?any_text, ?lax_bool_text; rewrite ?lax_int_text by lia; cbn -[text_within within].
Section Loopback.
Context {X : Type} `{PY : !Pydantic} `{!ReadsText}.
Context `{!OwnerReader X} `{!RosterReader X} `{!DefaultCompanionWriter X} `{!CompanionProvisioner X} `{!OwnerNamer X}
  `{!CompanionLifecycleWriter X} `{!CompanionBodyRegistrar X} `{!CompanionFaceKeeper X} `{!GovernanceHistorian X}
  `{!PersonaHistorian (sdk "PersonaEditRequest") (sdk "PersonaEditSnapshot") X} `{!CompanionActivityReader X} `{!PersonaCatalog X}
  `{!MemoryBrowser X} `{!MemoryRecollector X} `{!MemoryForgetter X} `{!RuntimeSessionRevoker X}.
Context (sha256_hex : bytes → string) (LIFECYCLE_ACTIVE LIFECYCLE_ARCHIVED : string) (py_str : json → string) (as_doc : json → doc).
Context (held : list string) (activity : option (ActivityReader X)) (reconcile : option (M X bool)).
(** One JSON library: what is sent and answered, and how it is read back. *)
Context (loads : bytes → result json) (render : json → bytes) (encode : doc → bytes) (errors : exn → list json).
(** FastAPI takes a body for JSON that says it is. *)
Context (declares_json : list (string * string) → bool)
  (json_declared : ∀ h, dict_get "Content-Type" h = Some "application/json" → declares_json h = true).
Context (parse_refusal : obj → result public_refusal) (etag : http_response → option string).
(** The credential as the plane's settings hold it, and as the client does. *)
Context (local_api_service_token : string) (base_url service_token : string) (timeout : Z).

Abbreviation handle_ := (handle sha256_hex LIFECYCLE_ACTIVE LIFECYCLE_ARCHIVED py_str as_doc held activity reconcile).
Abbreviation serve_ := (serve sha256_hex LIFECYCLE_ACTIVE LIFECYCLE_ARCHIVED py_str as_doc held activity reconcile loads declares_json errors
                          local_api_service_token).

(** ** The loopback *)

Definition response_of (r : plane_reply) : http_response :=
  match r with
  | Document status v => mkHttpResponse status (render v)
  | Bytes status content _ => mkHttpResponse status (default [] content)
  end.
Definition body_sent (q : http_request) : bytes :=
  match q.(hr_content), q.(hr_json) with Some b, _ => b | None, Some d => encode d | None, None => [] end.
(** httpx names the type of a body it encodes itself. *)
Definition headers_sent (q : http_request) : list (string * string) :=
  q.(hr_headers) ++ match q.(hr_content), q.(hr_json) with None, Some _ => [("Content-Type", "application/json")] | _, _ => [] end.
Definition arrives (path : string) (q : http_request) : plane_request :=
  mkPlaneRequest q.(hr_method) path (default [] q.(hr_params)) (headers_sent q) (body_sent q).
#[local] Instance over_loopback : Http X := {|
  send q := match after_prefix (rstrip_slash base_url) q.(hr_url) with
            | Some path => reply ← serve_ (arrives path q); mret (response_of reply)
            | None => raise (HttpxTransportError "ConnectError")
            end |}.

(** What the caller is told of what the plane did. *)
Definition relayed_as (status : Z) (rf : public_refusal) : exn :=
  ManagementBackendError
    (if bool_decide (rf.(rf_reason) = "") then "Host management backend refused this request" else rf.(rf_reason))
    (if (400 <=? status) && (status <? 500) then status else 503) rf.
Definition server_error : exn := relayed_as 500 (refusal_for_status 500 "" None).
Definition told (r : result plane_reply) : result obj :=
  match r with
  | Ok (Document _ (JObj o)) => Ok o
  | Ok _ => Raise (ManagementBackendError "Host management backend answered outside its contract" 502 outside_contract)
  | Raise (AuthorityFailure f) =>
      match to_wire f with
      | Ok w => Raise (relayed_as f.(af_status_code) (mkRefusal w.(wf_refusal_kind) f.(af_detail) f.(af_code) f.(af_retryable)))
      | Raise _ => Raise server_error
      end
  | Raise (HTTPException status detail) => Raise (relayed_as status (refusal_for_status status detail None))
  | Raise _ => Raise server_error
  end.

(** ** Who asks for what *)

Abbreviation via f := (f loads py_str parse_refusal base_url service_token timeout).
(** The body is read back as it was sent, and is what the route's model takes. *)
Definition reads_back (d : list (string * doc)) : Prop :=
  encode (DObj d) ≠ [] ∧ loads (encode (DObj d)) = Ok (json_of (DObj d)).
Definition takes (model : vtype) (d : list (string * doc)) (b : obj) : Prop :=
  reads_back d ∧ validate model (json_of (DObj d)) = Ok (JObj b).
Definition takes_sdk {m} (d : list (string * doc)) (b : sdk m) : Prop :=
  reads_back d ∧ read_sdk m (json_of (DObj d)) = Ok b.

(** What the client is asked for, and the call of the plane that is meant: one
    line for each route that answers with a document.  An identifier of the path
    is one segment, and a value the route bounds is within its bounds; a call
    outside them is refused by the route, or is no such request.  The client's
    other calls (the smart home, the presence of devices, mission control, the
    traces of a session) are not for these routes, and the face itself is no
    document. *)
Inductive asks : plane_call → M X obj → Prop :=
| AskContext o : asks (GetContext o) (via ManagementBackend.context o)
| AskRoster o k : asks (ListCompanions o k) (via backend_roster o k)
| AskCompanion o c : segment c → asks (GetCompanion c o) (via companion o c)
| AskDefault o c n : text_within 1 (Some 64) c = true → 1 ≤ n →
    reads_back [("companion_id", DStr c); ("expected_revision", DInt n)] →
    asks (PutDefaultCompanion o c n) (via ManagementBackend.set_default_companion o c n)
| AskTemplate : asks GetPersonaAuthoringTemplate (via ManagementBackend.persona_authoring_template)
| AskPreview o d b : takes_sdk d b → asks (PreviewPersona b o) (via backend_preview_persona o d)
| AskPresets : asks GetPersonaPresets (via ManagementBackend.persona_presets)
| AskCreate o i name kind persona preferences preset revision b : segment i →
    takes CompanionCreateRequestInternal
      ([("display_name", DStr name); ("kind", DStr kind)] ++ given_doc "persona" persona ++ given_doc "preferences" preferences ++
       match preset with
       | Some id => [("source_preset_id", DStr id); ("source_preset_revision", dopt revision)]
       | None => []
       end) b →
    asks (PutCompanionProvision i o (create_request b))
      (via ManagementBackend.create_companion o i name kind persona preferences preset revision)
| AskActivity o l b : from_option (λ n, 1 ≤ n ≤ 100) True l → from_option (λ n, 1 ≤ n < 10 ^ 20) True b →
    asks (GetActivity o l b) (via ManagementBackend.activity o l b)
| AskFaceState o c : segment c → asks (GetCompanionFaceState c o) (via companion_face_state o c)
| AskSetFace o c f : segment c → asks (PutCompanionFace c o f) (via backend_set_companion_face o c f)
| AskClearFace o c : segment c → asks (DeleteCompanionFace c o) (via ManagementBackend.clear_companion_face o c)
| AskRename o c name : segment c → text_within 1 (Some 128) name = true → reads_back [("display_name", DStr name)] →
    asks (PatchCompanion c o name) (via backend_rename_companion o c name)
| AskRenameOwner o name : text_within 1 (Some 128) name = true → reads_back [("display_name", DStr name)] →
    asks (PatchOwner o name) (via backend_rename_owner o name)
| AskLifecycle o c state replacement n : segment c → state = "archived" ∨ state = "active" →
    from_option (λ r, text_within 1 (Some 64) r = true) True replacement → from_option (λ n, 1 ≤ n) True n →
    reads_back ([("lifecycle_state", DStr state)] ++ given_doc "replacement_companion_id" (DStr <$> replacement) ++
                given_doc "expected_revision" (DInt <$> n)) →
    asks (PutCompanionLifecycle c o state replacement n) (via ManagementBackend.set_companion_lifecycle o c state replacement n)
| AskLibrary o c : asks (GetMemoryLibrary o (nonempty c)) (via memory_library o c)
| AskGraph o c k h : asks (GetMemoryGraph o (nonempty c) (nonempty k) h) (via memory_graph o c k h)
| AskEntries o since l c k : from_option (λ n, 0 ≤ n < 10 ^ 20) True l →
    asks (GetMemoryEntries o since l (nonempty c) (nonempty k)) (via memory_entries o since l c k)
| AskExport o c w r : asks (GetMemoryExport o (nonempty c) w r) (via memory_export o c w r)
| AskRevoke o : asks (PostRuntimeSessionRevocation o) (via backend_revoke_runtime_sessions o)
| AskConversations o c l k : segment c → from_option (λ n, 0 ≤ n < 10 ^ 20) True l →
    asks (GetCompanionConversations c o l k) (via conversations o c l k)
| AskTranscript o c v l k : segment c → segment v → from_option (λ n, 0 ≤ n < 10 ^ 20) True l →
    asks (GetConversationTranscript c v o l k) (via transcript o c v l k)
| AskTasks o c l st k : segment c → from_option (λ n, 0 ≤ n < 10 ^ 20) True l →
    asks (GetCompanionTasks c o l st k) (via backend_tasks o c l st k)
| AskTask o c t : segment c → segment t → asks (GetCompanionTask c t o) (via task o c t)
| AskCancel o c t : segment c → segment t → asks (PostTaskCancel c t o) (via task_action o c t "cancel")
| AskRetry o c t : segment c → segment t → asks (PostTaskRetry c t o) (via task_action o c t "retry")
| AskHistory o c : segment c → asks (GetPersonaHistory c o) (via persona_history o c)
| AskRestore o c h : segment c → text_within 1 (Some 64) h = true → reads_back [("chapter_id", DStr h)] →
    asks (PutPersonaRestoration c o h) (via backend_restore_persona o c h)
| AskPersona o c : segment c → asks (GetPersona c o) (via backend_persona o c)
| AskAuthor o c d b : segment c → takes_sdk d b → asks (PutPersona c o b) (via author_persona o c d)
| AskRecollections o q l c : text_within 1 (Some 256) q = true → 1 ≤ l ≤ 50 →
    asks (GetMemoryRecollections o q l (nonempty c)) (via ManagementBackend.recollections o q l c)
| AskForget o t : text_within 1 (Some 512) t = true → reads_back [("target", DStr t)] →
    asks (PostForgetPreview o t) (via ManagementBackend.forget_preview o t)
| AskForgetStatus o i : asks (GetForgetStatus o i) (via ManagementBackend.forget_status o i)
| AskForgetConfirm o t : text_within 1 (Some 4096) t = true → reads_back [("confirmation_token", DStr t)] →
    asks (PostForgetConfirm o t) (via ManagementBackend.forget_confirm o t).

(** ** One call *)

Context (token_shared : strip local_api_service_token = service_token) (token_given : service_token ≠ "")
  (token_ascii : is_ascii service_token = true).

Lemma credential_accepted : require_local_api_credential local_api_service_token (Some ("Bearer " +:+ service_token)) = Ok tt.
Proof using token_shared token_given token_ascii.
  unfold require_local_api_credential. rewrite token_shared, bool_decide_eq_false_2 by done.
  assert (authorization_parts (Some ("Bearer " +:+ service_token)) = ("Bearer", Some service_token)) as ->.
  { unfold authorization_parts. cbn [default from_option id]. rewrite list_ascii_app.
    change (partition_space (list_ascii_of_string "Bearer " ++ list_ascii_of_string service_token)) with
      (Some (list_ascii_of_string "Bearer", list_ascii_of_string service_token)). cbn iota.
    by rewrite !string_of_list_ascii_of_string. }
  change (lower_text "Bearer") with "bearer". rewrite bool_decide_eq_true_2 by done. unfold compare_digest. rewrite token_ascii. cbn [andb].
  by rewrite bool_decide_eq_true_2.
Qed.

(** A reply that both ends read the same. *)
Definition understood (r : result plane_reply) : Prop :=
  match r with
  | Ok (Document _ v) => loads (render v) = Ok v
  | Ok (Bytes _ _ _) => True
  | Raise e =>
      match refused e with
      | Document status v => status ≠ 200 ∧ loads (render v) = Ok v
      | Bytes _ content _ => ∀ o, loads (default [] content) ≠ Ok (JObj o)
      end ∧
      match e with
      | AuthorityFailure f => ∀ w, to_wire f = Ok w →
          parse_refusal [("kind", JStr w.(wf_refusal_kind)); ("reason", JStr w.(wf_detail)); ("code", jopt w.(wf_code));
                         ("retryable", JBool w.(wf_retryable))] =
            Ok (mkRefusal w.(wf_refusal_kind) w.(wf_detail) w.(wf_code) w.(wf_retryable))
      | _ => True
      end
  end.
Definition documented (r : result plane_reply) : Prop := ∀ reply, r = Ok reply → ∃ v, reply = Document 200 v.

Lemma decoded_told r :
  documented r → understood r →
  decoded loads py_str parse_refusal (response_of (match r with Ok reply => reply | Raise e => refused e end)) = told r.
Proof.
  intros Hd Hu. destruct r as [reply|e].
  - destruct (Hd _ eq_refl) as [v ->]. cbn in Hu |- *. unfold decoded. cbn. rewrite Hu. by destruct v.
  - destruct Hu as [Hu Hp].
    assert (∀ b, (∀ o, loads b ≠ Ok (JObj o)) →
      decoded loads py_str parse_refusal (mkHttpResponse 500 b) = Raise server_error) as H500.
    { intros b Hb. unfold decoded, relay, relayed_refusal. cbn.
      destruct (loads b) as [[| | | | | | | |o]|] eqn:E; try done. by destruct (Hb o). }
    destruct e; try (by apply H500).
    + cbn in Hu |- *. destruct Hu as [Hs Hl]. unfold decoded, relay, relayed_refusal. cbn.
      rewrite (proj2 (Z.eqb_neq _ _) Hs), Hl. done.
    + cbn in Hu |- *. destruct (to_wire f) as [w|] eqn:Ew; [|by apply H500].
      destruct Hu as [Hs Hl]. specialize (Hp _ eq_refl). unfold decoded, relay. cbn [status_code content response_of].
      rewrite (proj2 (Z.eqb_neq _ _) Hs). cbn [negb].
      eassert (relayed_refusal loads py_str parse_refusal (mkHttpResponse (af_status_code f) (render (JObj [("detail", wire_failure w)]))) =
        match parse_refusal _ with Ok known => known | Raise _ => _ end) as ->.
      { unfold relayed_refusal. cbn [content]. rewrite Hl. reflexivity. }
      rewrite Hp. unfold to_wire in Ew. destruct (dict_get _ _); [|done]. by injection Ew as <-.
Qed.

(** Everything but the face itself is answered with a document. *)
Definition documents (c : M X plane_reply) : Prop := ∀ s, documented (c s).1.
Lemma documents_bind {A} (c : M X A) k : (∀ a, documents (k a)) → documents (c ≫= k).
Proof. intros Hk s. unfold mbind, M_bind. destruct (c s) as [[a|e] s']; [apply Hk|done]. Qed.
Lemma documents_answer r : documents (answer r).
Proof. intros s reply. destruct r as [v|e]; cbn; [|done]. intros [= <-]. by eexists. Qed.
Lemma documents_sdk {m} (c : M X (sdk m)) : documents (answer_sdk c).
Proof. apply documents_bind. intros a s reply [= <-]. by eexists. Qed.
Lemma documents_raise e : documents (raise e).
Proof. by intros s reply. Qed.
Lemma handle_documents c : (∀ i o e, c ≠ GetCompanionFace i o e) → documents (handle_ c).
Proof.
  intros Hc. destruct c; try by destruct (Hc companion_id owner_id if_none_match).
  all: cbn [handle]; unfold
    get_context, list_companions, get_companion, put_default_companion, get_persona_authoring_template,
    preview_persona, get_persona_presets, put_companion_provision, get_memory_library, get_memory_graph,
    post_forget_preview, post_forget_confirm, get_forget_status, post_runtime_session_revocation,
    get_companion_conversations, get_conversation_transcript, get_companion_tasks, get_companion_task,
    post_task_cancel, post_task_retry, get_persona, put_persona, get_persona_history, put_persona_restoration,
    get_activity, get_companion_face_state, get_companion_face, put_companion_face, delete_companion_face,
    patch_companion, patch_owner, put_companion_lifecycle, get_memory_recollections, get_memory_export,
    get_memory_entries;
    lazymatch goal with
    | |- documents (answer_sdk _) => apply documents_sdk
    | |- documents (raise _) => apply documents_raise
    | |- _ => apply documents_bind; intros ?; apply documents_answer
    end.
Qed.

(** What a request reaches, and what is read of it. *)
Definition reaches (q : plane_request) (c : plane_call) : Prop :=
  ∃ t p b, reach q = Reached t p ∧ decoded_body loads declares_json t q = Ok b ∧ t.(rt_read) p q b = Ok c.

(** What is sent is what arrives. *)
Lemma sent_told method path params body headers content c s :
  let q := mkHttpRequest method (rstrip_slash base_url +:+ (INTERNAL +:+ path))
             (if ends_with "/persona-preview" (INTERNAL +:+ path) then Z.max timeout 40000000 else timeout)
             (foldl (λ d h, dict_set h.1 h.2 d) (bearer service_token) headers) (Some params) body content false in
  dict_get "Authorization" q.(hr_headers) = Some ("Bearer " +:+ service_token) →
  reaches (arrives (INTERNAL +:+ path) q) c →
  (∀ i o e, c ≠ GetCompanionFace i o e) →
  understood (handle_ c s).1 →
  (response ← raw base_url service_token timeout method (INTERNAL +:+ path) params body headers content;
   lift (decoded loads py_str parse_refusal response)) s = (told (handle_ c s).1, (handle_ c s).2).
Proof using token_shared token_given token_ascii.
  intros q Hh (t & p & b & Hr & Hb & Hc) Hf Hu. unfold raw. rewrite bind_assoc, bind_guard, bool_decide_eq_false_2 by done.
  fold q. unfold catch, mbind, M_bind. cbn [send over_loopback]. change (hr_url q) with (rstrip_slash base_url +:+ (INTERNAL +:+ path)).
  rewrite after_prefix_app. unfold serve, mbind, M_bind.
  rewrite Hr, Hb. change (pq_headers (arrives (INTERNAL +:+ path) q)) with (headers_sent q).
  unfold headers_sent. rewrite dict_get_app, Hh, credential_accepted, Hc. unfold answered, catch.
  pose proof (decoded_told _ (handle_documents c Hf s) Hu) as Hd.
  destruct (handle_ c s) as [[reply|e] s']; cbn in Hd |- *; by rewrite Hd.
Qed.

Definition base : list string := ["api"; "internal"; "v1"; "management"].

(** The body of a request is decoded as it was meant, and is what the route
    takes. *)
Lemma body_decoded d t q :
  rt_body t = true → pq_body q = encode (DObj d) → dict_get "Content-Type" q.(pq_headers) = Some "application/json" →
  reads_back d → decoded_body loads declares_json t q = Ok (JsonBody (json_of (DObj d))).
Proof using json_declared.
  intros Ht Hq Hh [He Hl]. unfold decoded_body. by rewrite Ht, Hq, bool_decide_eq_false_2, (json_declared _ Hh), Hl.
Qed.
Lemma body_taken model d b : takes model d b → body_of model (JsonBody (json_of (DObj d))) = Ok b.
Proof. intros [_ Hv]. unfold body_of. cbn [payload mbind result_bind]. by rewrite Hv. Qed.
Lemma sdk_taken {m} d (b : sdk m) : takes_sdk d b → sdk_of m (JsonBody (json_of (DObj d))) = Ok b.
Proof. by intros [_ Hv]. Qed.

(* The body of a request, by its model. *)
Ltac checked :=
  cbn -[text_within within]; names; cbn -[text_within within];
  rewrite ?lax_int_int; rewrite ?(within_from 1 None) by done;
  repeat match goal with H : text_within _ _ _ = true |- _ => rewrite H; clear H end; cbn; reflexivity.
Ltac no_body := split; [reflexivity|].
Ltac decodes :=
  split; [eapply body_decoded;
    [reflexivity|reflexivity|reflexivity|first [eassumption|match goal with H : takes _ _ _ |- _ => apply H | H : takes_sdk _ _ |- _ => apply H end]]|].
Ltac takes_body :=
  decodes; cbn [rt_read]; erewrite body_taken; [|first [eassumption|split; [eassumption|checked]]].
Ltac takes_sdk_body := decodes; cbn [rt_read]; erewrite sdk_taken by eassumption.
(** C35: The loopback is faithful.  Take any call that [asks] lists: a call of the
    Local API's client for which a route of [management/router.py] answers with a
    document, its identifiers each one segment of a path and its values within
    the bounds that route declares.  The one request the client sends passes the
    plane's credential, reaches the route it is meant for and is read as exactly
    that call, through the encoding of its path, the names of its query, and the
    model of its body; what the route's document says is what the caller gets,
    in the state the route leaves; and when the route fails, the caller is told
    so in the plane's own words: the kind, the reason, the code and whether to
    try again that the refusing authority gave, under the status it chose.  Each
    end reads back what the other wrote. *)
Theorem loopback_faithful c ask s :
  asks c ask → understood (handle_ c s).1 → ask s = (told (handle_ c s).1, (handle_ c s).2).
Proof.
  destruct 1; intros Hu; (apply sent_told; [done| |done|done]);
    unfold reaches, arrives, headers_sent, body_sent; cbn [hr_method hr_params hr_headers hr_json hr_content].
  - reaching ["context"]. no_body. by reads.
  - reaching ["companions"]. no_body. by reads.
  - reaching ["companions"; c]. no_body. by reads.
  - reaching ["owners"; "default-companion"]. takes_body. by reads.
  - reaching ["persona-authoring-template"]. no_body. by reads.
  - reaching ["persona-preview"]. takes_sdk_body. by reads.
  - reaching ["persona-presets"]. no_body. by reads.
  - reaching ["companion-provisions"; i]. takes_body. by reads.
  - reaching ["activity"]. no_body. reads; rewrite ?within_from by (cbn; lia); done.
  - reaching ["companions"; c; "face-state"]. no_body. by reads.
  - reaching ["companions"; c; "face"]. no_body. by reads.
  - reaching ["companions"; c; "face"]. no_body. by reads.
  - reaching ["companions"; c]. takes_body. by reads.
  - reaching ["owner"]. takes_body. by reads.
  - reaching ["companions"; c; "lifecycle"]. destruct replacement, n; cbn [from_option] in *;
      (match goal with H : _ ∨ _ |- _ => destruct H as [->| ->] end); takes_body; by reads.
  - reaching ["memory"; "library"]. no_body. by reads.
  - reaching ["memory"; "graph"]. no_body. by reads.
  - reaching ["memory"; "entries"]. no_body. by reads.
  - reaching ["memory"; "export"]. no_body. by reads.
  - reaching ["owner"; "runtime-session-revocations"]. no_body. by reads.
  - reaching ["companions"; c; "conversations"]. no_body. by reads.
  - reaching ["companions"; c; "conversations"; v; "turns"]. no_body. by reads.
  - reaching ["companions"; c; "tasks"]. no_body. by reads.
  - reaching ["companions"; c; "tasks"; t]. no_body. by reads.
  - reaching ["companions"; c; "tasks"; t; "cancel"]. no_body. by reads.
  - reaching ["companions"; c; "tasks"; t; "retry"]. no_body. by reads.
  - reaching ["companions"; c; "persona-history"]. no_body. by reads.
  - reaching ["companions"; c; "persona-restorations"]. takes_body. by reads.
  - reaching ["companions"; c; "persona"]. no_body. by reads.
  - reaching ["companions"; c; "persona"]. takes_sdk_body. by reads.
  - reaching ["memory"; "recollections"]. no_body. match goal with H : text_within _ _ _ = true |- _ => rename H into Hq end.
    reads; rewrite Hq; cbn -[within]; by rewrite within_from by (cbn; lia).
  - reaching ["memory"; "forget"; "preview"]. takes_body. by reads.
  - reaching ["memory"; "forget"; "status"]. no_body. by reads.
  - reaching ["memory"; "forget"; "confirm"]. takes_body. by reads.
Qed.
End Loopback.

(** ** A witness *)

#[local] Existing Instances strict_pydantic one_owner no_roster no_default no_provisioner one_namer no_lifecycle no_bodies no_faces
  no_history no_persona no_agent no_catalog no_memory no_recollector no_forgetter no_revoker.
#[local] Instance strict_reads : ReadsText.
Proof. split; [intros z Hz; cbn; by rewrite int_of_pretty|by intros []]. Qed.
(* Both ends know one document. *)
Definition one_document (b : bytes) : result json := if bool_decide (b = []) then Ok (JObj the_answer) else Raise (JSONDecodeError "").

Definition json_by_header (h : list (string * string)) : bool := bool_decide (dict_get "Content-Type" h = Some "application/json").

Lemma loopback_faithful_witness :
  let http := over_loopback (λ _, "") "active" "archived" nothing_known (λ _, DNull) ["memory"] None None one_document (λ _, [])
                (λ _, []) (λ _, []) json_by_header " s3cret " "http://127.0.0.1:8000/" in
  let ask := ManagementBackend.context (Http0:=http) one_document nothing_known (λ _, Raise (ValidationError ""))
               "http://127.0.0.1:8000/" "s3cret" 5 "owner_1" in
  ask tt = (Ok the_answer, tt) ∧ obj_get "owner_display_name" the_answer JNull = JStr "小忆".
Proof.
  intros http ask.
  split; [|vm_compute; reflexivity].
  pose proof (loopback_faithful (λ _, "") "active" "archived" nothing_known (λ _, DNull) ["memory"] None None one_document (λ _, [])
    (λ _, []) (λ _, []) json_by_header ltac:(intros h Hh; unfold json_by_header; by rewrite Hh)
    (λ _, Raise (ValidationError "")) " s3cret " "http://127.0.0.1:8000/" "s3cret" 5 eq_refl ltac:(done) eq_refl
    (GetContext "owner_1") ask tt ltac:(apply AskContext)) as H.
  change (handle _ _ _ _ _ _ _ _ (GetContext "owner_1") tt) with (their_plane (GetContext "owner_1") tt) in H.
  rewrite their_context in H. by apply H.
Defined.
