(* ===== verification/IsoFormat.v ===== *)
(** * Reading a time

    [datetime.fromisoformat], as the C implementation of Python 3.13 reads its
    ISO 8601 formats, byte by byte; and the two readings the code puts around
    it.  What [isoformat] writes reads back as the same instant. *)

From S2P Require Import Prelude Timestamp.
#[local] Open Scope Z_scope.

(** ** Digits *)

(** [parse_digits]: exactly so many, and what follows them. *)
Fixpoint take_digits (n : nat) (l : list ascii) (acc : Z) : option (Z * list ascii) :=
  match n, l with
  | O, _ => Some (acc, l)
  | S n', c :: l' => if is_digit c then take_digits n' l' (acc * 10 + (Z.of_N (N_of_ascii c) - 48)) else None
  | S _, [] => None
  end.
Definition at_ (l : list ascii) (i : nat) (c : ascii) : bool :=
  match l !! i with Some c' => bool_decide (c' = c) | None => false end.

(** ** The date *)

Fixpoint digits_from (l : list ascii) (i : nat) : nat :=
  match l with c :: l' => if is_digit c then digits_from l' (S i) else i | [] => i end.
(** [_find_isoformat_datetime_separator] *)
Definition find_separator (l : list ascii) : option nat :=
  let n := length l in
  if bool_decide (n = 7%nat) then Some 7%nat
  else if at_ l 4 "-"%char then
    if at_ l 5 "W"%char then
      if at_ l 8 "-"%char then
        if bool_decide (n = 9%nat) then None
        else if (match l !! 10%nat with Some c => is_digit c | None => false end) then Some 8%nat else Some 10%nat
      else Some 8%nat
    else Some 10%nat
  else if at_ l 4 "W"%char then
    let idx := digits_from (drop 7 l) 7 in
    if bool_decide (idx < 9)%nat then Some idx else if Nat.even idx then Some 7%nat else Some 8%nat
  else Some 8%nat.

(** Days since the year 1, for a date there is. *)
Definition ordinal (y m d : Z) : option Z :=
  if (1 <=? y) && (y <=? 9999) && (1 <=? m) && (m <=? 12) && (1 <=? d) && (d <=? month_length y m)
  then Some (ymd2ord y m d) else None.
Definition MAX_ORDINAL : Z := 3652059.
(** [iso_to_ymd] *)
Definition week_ordinal (y w d : Z) : option Z :=
  let first := ymd2ord y 1 1 in
  let weekday := (first + 6) mod 7 in
  let long := (weekday =? 3) || ((weekday =? 2) && is_leap y) in
  if (1 <=? y) && (y <=? 9999) && (1 <=? w) && ((w <=? 52) || ((w =? 53) && long)) && (1 <=? d) && (d <=? 7) then
    let monday := first - weekday + (if 3 <? weekday then 7 else 0) in
    let o := monday + (w - 1) * 7 + d - 1 in
    if o <=? MAX_ORDINAL then Some o else None
  else None.
Definition past (c : ascii) (l : list ascii) : option (list ascii) :=
  match l with c' :: l' => if bool_decide (c' = c) then Some l' else None | [] => None end.
(** A dash that is there when the year was followed by one. *)
Definition dash (sep : bool) (l : list ascii) : option (list ascii) := if sep then past "-"%char l else Some l.
(** [parse_isoformat_date] *)
Definition iso_date (l : list ascii) : option Z :=
  '(y, l) ← take_digits 4 l 0;
  let sep := at_ l 0 "-"%char in
  let l := if sep then drop 1 l else l in
  match past "W"%char l with
  | Some l =>
      '(w, l) ← take_digits 2 l 0;
      match l with
      | [] => week_ordinal y w 1
      | _ => l ← dash sep l; '(d, _) ← take_digits 1 l 0; week_ordinal y w d
      end
  | None =>
      '(m, l) ← take_digits 2 l 0; l ← dash sep l; '(d, _) ← take_digits 2 l 0; ordinal y m d
  end.

(** ** The time *)

Record clock_time := mkClockTime { ct_hour : Z; ct_minute : Z; ct_second : Z; ct_microsecond : Z }.
Definition of_fields (l : list Z) (us : Z) : clock_time :=
  mkClockTime (default 0 (l !! 0%nat)) (default 0 (l !! 1%nat)) (default 0 (l !! 2%nat)) us.
(** The fraction: at most six digits count, and whether anything is left. *)
Definition iso_microseconds (l : list ascii) : option (Z * bool) :=
  let n := Nat.min 6 (length l) in
  '(v, l) ← take_digits n l 0;
  Some (v * 10 ^ Z.of_nat (6 - n), negb (bool_decide (digits_from l 0 = length l))).
(** [parse_hh_mm_ss_ff] on the bytes up to a zone, with the byte after them. *)
Fixpoint iso_fields (n : nat) (got : list Z) (sep : option bool) (l : list ascii) (next : bool)
    : option (clock_time * bool) :=
  let fraction l := '(us, more) ← iso_microseconds l; Some (of_fields got us, more || next) in
  match n with
  | O => fraction l
  | S n' =>
      '(v, l) ← take_digits 2 l 0;
      let got := got ++ [v] in
      match l with
      | [] => Some (of_fields got 0, next)
      | [_] => Some (of_fields got 0, true)
      | c :: rest =>
          let colon := bool_decide (c = ":"%char) in
          let sep := default colon sep in
          if sep && colon then iso_fields n' got (Some sep) rest next
          else if bool_decide (c = "."%char) || bool_decide (c = ","%char) then
            '(us, more) ← iso_microseconds rest; Some (of_fields got us, more || next)
          else if sep then None
          else iso_fields n' got (Some sep) l next
      end
  end.
Definition is_zone (c : ascii) : bool :=
  bool_decide (c = "+"%char) || bool_decide (c = "-"%char) || bool_decide (c = "Z"%char).
Fixpoint until_zone (l : list ascii) : list ascii * list ascii :=
  match l with
  | c :: l' => if is_zone c then ([], l) else let '(a, b) := until_zone l' in (c :: a, b)
  | [] => ([], [])
  end.
Definition span_of (t : clock_time) : Z :=
  ((t.(ct_hour) * 3600 + t.(ct_minute) * 60 + t.(ct_second)) * 1000000 + t.(ct_microsecond)).
Definition a_day : Z := 86400000000.
(** A time of day, and its offset from UTC when it names a zone. *)
Definition iso_time (l : list ascii) : option (clock_time * option Z) :=
  let '(body, zone) := until_zone l in
  '(t, more) ← iso_fields 3 [] None body (negb (bool_decide (zone = [])));
  match zone with
  | [] => if more : bool then None else Some (t, None)
  | c :: rest =>
      if bool_decide (c = "Z"%char) then if bool_decide (rest = []) then Some (t, Some 0) else None
      else
        '(o, more) ← iso_fields 3 [] None rest false;
        if more : bool then None
        else let offset := span_of o in
             if offset <? a_day then Some (t, Some (if bool_decide (c = "-"%char) then - offset else offset)) else None
  end.

(** ** [datetime.fromisoformat] *)

(** What follows a separator of one character. *)
Definition past_separator (l : list ascii) : list ascii :=
  match l with
  | c :: _ =>
      let n := N_of_ascii c in
      if (n <? 128)%N then drop 1 l else if (N.land n 240 =? 224)%N then drop 3 l
      else if (N.land n 240 =? 240)%N then drop 4 l else drop 2 l
  | [] => []
  end.
Definition valid_time (t : clock_time) : bool :=
  (t.(ct_hour) <? 24) && (t.(ct_minute) <? 60) && (t.(ct_second) <? 60).
(** The local time since the year 1, and the offset. *)
Definition fromisoformat (s : string) : option (Z * option Z) :=
  let l := list_ascii_of_string s in
  if (length l <? 7)%nat then None
  else
    at_sep ← find_separator l;
    o ← iso_date (take at_sep l);
    let day := (o - 1) * a_day in
    if (1 <? length l - at_sep)%nat then
      '(t, zone) ← iso_time (past_separator (drop at_sep l));
      if valid_time t then Some (day + span_of t, zone) else None
    else Some (day, None).

Example fromisoformat_samples :
  fromisoformat "2026-05-02" = Some (739737 * a_day, None) ∧
  fromisoformat "20260502T120000" = Some (739737 * a_day + 43200000000, None) ∧
  fromisoformat "2026-W18-6 12:00:00,5+02:00" = Some (739737 * a_day + 43200500000, Some 7200000000) ∧
  fromisoformat "2026-05-02T24:00" = None ∧ fromisoformat "2026-02-29" = None ∧ fromisoformat "later" = None.
Proof. by vm_compute. Qed.

(** ** What the code reads *)

(** [_as_utc(datetime.fromisoformat(...))]: a time without a zone is UTC;
    leaving the years there are is an error nobody catches. *)
Definition as_utc (t : Z * option Z) : result Z :=
  let u := t.1 - default 0 t.2 in
  if (0 <=? u) && (u <? MAX_DATETIME) then Ok u else Raise (OverflowError "date value out of range").
(** [value.replace("Z", "+00:00")] *)
Definition zulu (s : string) : string :=
  string_of_list_ascii (list_ascii_of_string s ≫= λ c,
    if bool_decide (c = "Z"%char) then list_ascii_of_string "+00:00" else [c]).
(** [_parse_dt] *)
Definition parse_dt (v : json) : result (option Z) :=
  match v with
  | JStr s =>
      if bool_decide (s = "") then Ok None
      else match fromisoformat (zulu s) with Some t => u ← as_utc t; Ok (Some u) | None => Ok None end
  | _ => Ok None
  end.

(** ** What is written reads back *)

Lemma take_digits_app m n l acc :
  take_digits (m + n) l acc = ('(a, l') ← take_digits m l acc; take_digits n l' a).
Proof.
  revert l acc. induction m as [|m IH]; intros l acc; [done|]. cbn. destruct l as [|c l]; [done|]. destruct (is_digit c); [apply IH|done].
Qed.
Lemma digit_value n : 0 <= n < 10 →
  is_digit (ascii_of_N (48 + Z.to_N n)) = true ∧ Z.of_N (N_of_ascii (ascii_of_N (48 + Z.to_N n))) - 48 = n.
Proof.
  intros Hn. assert (n = 0 ∨ n = 1 ∨ n = 2 ∨ n = 3 ∨ n = 4 ∨ n = 5 ∨ n = 6 ∨ n = 7 ∨ n = 8 ∨ n = 9) as H by lia.
  by repeat destruct H as [->|H]; subst.
Qed.
Lemma take_digits_pad w a l acc : 0 <= a < 10 ^ Z.of_nat w →
  take_digits w (pad_dec w a ++ l) acc = Some (acc * 10 ^ Z.of_nat w + a, l).
Proof.
  revert a l. induction w as [|w IH]; intros a l Ha; [cbn in *; do 2 f_equal; lia|].
  rewrite Nat2Z.inj_succ, Z.pow_succ_r in Ha by lia. pose proof (Z.mod_pos_bound a 10 eq_refl).
  change (pad_dec (S w) a) with (pad_dec w (a / 10) ++ [ascii_of_N (48 + Z.to_N (a mod 10))]).
  rewrite <- Nat.add_1_r, take_digits_app, <- app_assoc, IH.
  2:{ split; [apply Z.div_pos; lia|apply Z.div_lt_upper_bound; lia]. }
  cbn. destruct (digit_value (a mod 10) H) as [-> ->]. rewrite Nat.add_1_r, Nat2Z.inj_succ, Z.pow_succ_r by lia.
  do 2 f_equal. pose proof (Z.div_mod a 10). lia.
Qed.

Lemma pad_dec_digits w a : Forall (λ c, is_digit c = true) (pad_dec w a).
Proof.
  revert a. induction w as [|w IH]; intros a; [constructor|]. apply Forall_app. split; [apply IH|].
  constructor; [|constructor]. by apply digit_value, Z.mod_pos_bound.
Qed.
Lemma digit_not c c' : is_digit c = true → is_digit c' = false → c ≠ c'.
Proof. by intros H H' ->; rewrite H in H'. Qed.
(** The digits of a number, one by one. *)
Ltac pads := repeat match goal with
  | |- context [pad_dec ?w ?a] =>
      let H := fresh "D" in let L := fresh "L" in let p := fresh "p" in
      pose proof (pad_dec_digits w a) as H; pose proof (pad_dec_length w a) as L; set (p := pad_dec w a) in *; clearbody p
  end.
Lemma find_separator_dashed y m d l :
  find_separator (pad_dec 4 y ++ "-"%char :: pad_dec 2 m ++ "-"%char :: pad_dec 2 d ++ "T"%char :: l) = Some 10%nat.
Proof.
  pads. destruct p as [|? [|? [|? [|? [|]]]]], p0 as [|? [|? [|]]], p1 as [|? [|? [|]]]; try done.
  rewrite Forall_cons in D0. destruct D0 as [D0 _]. unfold find_separator.
  rewrite bool_decide_eq_false_2 by (cbn; lia). unfold at_. cbn [app lookup list_lookup].
  rewrite (bool_decide_eq_true_2 ("-"%char = _)), (bool_decide_eq_false_2 (_ = "W"%char)) by (done || by apply digit_not).
  done.
Qed.
Lemma past_digits c w a l : is_digit c = false → (0 < w)%nat → past c (pad_dec w a ++ l) = None.
Proof.
  intros Hc Hw. pose proof (pad_dec_digits w a) as D. pose proof (pad_dec_length w a) as L.
  destruct (pad_dec w a) as [|x p]; [cbn in L; lia|]. rewrite Forall_cons in D. destruct D as [D _].
  cbn [past app]. by rewrite bool_decide_eq_false_2 by (by apply digit_not).
Qed.
Lemma iso_date_dashed y m d :
  1 <= y <= 9999 → 1 <= m <= 12 → 1 <= d <= month_length y m →
  iso_date (pad_dec 4 y ++ "-"%char :: pad_dec 2 m ++ "-"%char :: pad_dec 2 d) = Some (ymd2ord y m d).
Proof.
  intros Hy Hm Hd. pose proof (month_length_bound y m Hm) as Hl. unfold iso_date.
  rewrite take_digits_pad by lia. cbn [mbind option_bind].
  change (at_ ("-"%char :: _) 0 "-"%char) with true. cbv iota zeta. rewrite !skipn_cons, !drop_0.
  rewrite past_digits by (done || lia).
  rewrite take_digits_pad by lia. cbn [mbind option_bind dash past]. rewrite bool_decide_eq_true_2 by done. cbn [mbind option_bind].
  rewrite <- (app_nil_r (pad_dec 2 d)), take_digits_pad by lia. cbn [mbind option_bind].
  rewrite !Z.mul_0_l, !Z.add_0_l. unfold ordinal. by rewrite !(proj2 (Z.leb_le _ _)) by lia.
Qed.
Lemma digits_from_shift l i : digits_from l i = (digits_from l 0 + i)%nat.
Proof.
  revert i. induction l as [|c l IH]; intros i; [done|]. cbn. destruct (is_digit c); [|done]. rewrite IH, (IH 1%nat). lia.
Qed.
Lemma iso_microseconds_pad us : 0 <= us < 1000000 → iso_microseconds (pad_dec 6 us) = Some (us, false).
Proof.
  intros Hu. unfold iso_microseconds. rewrite pad_dec_length. rewrite <- (app_nil_r (pad_dec 6 us)) at 1.
  change (Nat.min 6 6) with 6%nat. rewrite take_digits_pad by done. cbn [mbind option_bind].
  do 2 f_equal. rewrite Z.mul_1_r. lia.
Qed.
Lemma iso_fields_more n got sep v rest next :
  0 <= v < 100 → sep ≠ Some false → rest ≠ [] →
  iso_fields (S n) got sep (pad_dec 2 v ++ ":"%char :: rest) next = iso_fields n (got ++ [v]) (Some true) rest next.
Proof.
  intros Hv Hs Hr. cbn [iso_fields]. rewrite take_digits_pad by lia. rewrite Z.mul_0_l, Z.add_0_l.
  cbn [mbind option_bind]. destruct rest as [|c l]; [done|]. by destruct sep as [[]|].
Qed.
(** A fraction of six digits, or none. *)
Lemma iso_fields_end got v us next : 0 <= v < 100 → 0 <= us < 1000000 →
  iso_fields 1 got (Some true) (pad_dec 2 v ++ iso_fraction us) next = Some (of_fields (got ++ [v]) us, next).
Proof.
  intros Hv Hu. cbn [iso_fields]. rewrite take_digits_pad by lia. rewrite Z.mul_0_l, Z.add_0_l. cbn [mbind option_bind].
  unfold iso_fraction. destruct (us =? 0) eqn:E; [by apply Z.eqb_eq in E as ->|].
  pose proof (iso_microseconds_pad us Hu) as H. pose proof (pad_dec_length 6 us) as L.
  destruct (pad_dec 6 us) as [|c l]; [done|]. rewrite H. done.
Qed.
Lemma until_zone_digits w a l : until_zone (pad_dec w a ++ l) = (pad_dec w a ++ (until_zone l).1, (until_zone l).2).
Proof.
  pose proof (pad_dec_digits w a) as D. induction D as [|c p D _ IH]; cbn; [by destruct (until_zone l)|].
  replace (is_zone c) with false; [by rewrite IH|]. unfold is_zone.
  by rewrite !bool_decide_eq_false_2 by (by apply digit_not).
Qed.
Definition iso_clock (c : civil) : list ascii :=
  pad_dec 2 c.(hour) ++ ":"%char :: pad_dec 2 c.(minute) ++ ":"%char :: pad_dec 2 c.(second) ++ iso_fraction c.(microsecond).
Lemma iso_time_written c :
  0 <= c.(hour) < 24 → 0 <= c.(minute) < 60 → 0 <= c.(second) < 60 → 0 <= c.(microsecond) < 1000000 →
  iso_time (iso_clock c ++ list_ascii_of_string "+00:00") =
  Some (mkClockTime c.(hour) c.(minute) c.(second) c.(microsecond), Some 0).
Proof.
  intros Hh Hm Hs Hu. unfold iso_time.
  assert (until_zone (iso_clock c ++ list_ascii_of_string "+00:00") = (iso_clock c, list_ascii_of_string "+00:00")) as ->.
  { unfold iso_clock. rewrite <- app_assoc. cbn [app]. rewrite <- app_assoc. cbn [app]. rewrite <- app_assoc.
    rewrite until_zone_digits. cbn [until_zone]. change (is_zone ":"%char) with false. cbv iota.
    rewrite until_zone_digits. cbn [until_zone]. change (is_zone ":"%char) with false. cbv iota.
    rewrite until_zone_digits. unfold iso_fraction. destruct (_ =? 0); [done|]. cbn [app until_zone].
    change (is_zone "."%char) with false. cbv iota. rewrite until_zone_digits.
    change (until_zone (list_ascii_of_string "+00:00")) with ([] : list ascii, list_ascii_of_string "+00:00").
    cbn [fst snd]. by rewrite !app_nil_r. }
  unfold iso_clock. rewrite !iso_fields_more; [|lia|done| |lia|done|].
  2,3: intros E; apply (f_equal length) in E; rewrite !length_app, ?pad_dec_length in E; cbn in E; lia.
  rewrite iso_fields_end by lia. done.
Qed.
Lemma zulu_plain l : Forall (λ c, c ≠ "Z"%char) l → zulu (string_of_list_ascii (l ++ ["Z"%char])) =
  string_of_list_ascii (l ++ list_ascii_of_string "+00:00").
Proof.
  intros H. unfold zulu. rewrite list_ascii_of_string_of_list_ascii, bind_app. do 2 f_equal.
  induction H as [|c l Hc _ IH]; [done|]. cbn [mbind list_bind]. by rewrite bool_decide_eq_false_2, IH.
Qed.
Lemma written_plain c us : Forall (λ c, c ≠ "Z"%char) (iso_seconds c ++ iso_fraction us).
Proof.
  assert (∀ w a, Forall (λ c, c ≠ "Z"%char) (pad_dec w a)) as P.
  { intros w a. eapply Forall_impl; [apply pad_dec_digits|]. intros x Hx. by apply digit_not. }
  unfold iso_seconds, iso_fraction.
  destruct (us =? 0); repeat first [apply P | apply Forall_app_2 | apply Forall_cons_2 | apply Forall_nil_2 | done].
Qed.

(** Every instant the Host writes reads back as itself. *)
Lemma parse_timestamp t : 0 <= t < MAX_DATETIME → parse_dt (JStr (timestamp t)) = Ok (Some t).
Proof.
  intros Ht. pose proof (civil_bounds t ltac:(lia)) as C. pose proof (year_bound t Ht) as Y. cbv zeta in C.
  destruct C as (? & ? & ? & Ho & ? & ? & ? & Hc & Hu). set (c := civil_of t) in *.
  unfold parse_dt, timestamp. fold c. rewrite app_assoc.
  rewrite bool_decide_eq_false_2.
  2:{ intros E. apply (f_equal list_ascii_of_string) in E. rewrite list_ascii_of_string_of_list_ascii in E.
      apply (f_equal length) in E. rewrite !length_app in E. cbn in E. lia. }
  rewrite zulu_plain by apply written_plain. unfold fromisoformat. rewrite list_ascii_of_string_of_list_ascii.
  assert ((iso_seconds c ++ iso_fraction c.(microsecond)) ++ list_ascii_of_string "+00:00" =
    (pad_dec 4 c.(year) ++ "-"%char :: pad_dec 2 c.(month) ++ "-"%char :: pad_dec 2 c.(day)) ++
    "T"%char :: iso_clock c ++ list_ascii_of_string "+00:00") as ->.
  { unfold iso_seconds, iso_clock. by repeat (rewrite <- app_assoc || rewrite <- app_comm_cons). }
  set (d := pad_dec 4 _ ++ _). set (r := iso_clock c ++ _).
  assert (length d = 10%nat) as Ld by (unfold d; repeat (rewrite length_app || cbn [length]); by rewrite !pad_dec_length).
  assert (find_separator (d ++ "T"%char :: r) = Some 10%nat) as ->.
  { unfold d. repeat (rewrite <- app_assoc || rewrite <- app_comm_cons). apply find_separator_dashed. }
  cbn [mbind option_bind].
  assert (take 10 (d ++ "T"%char :: r) = d) as -> by (by rewrite <- Ld, take_app_length).
  assert (drop 10 (d ++ "T"%char :: r) = "T"%char :: r) as -> by (by rewrite <- Ld, drop_app_length).
  rewrite length_app, Ld.
  replace (_ <? 7)%nat with false by (symmetry; apply Nat.ltb_ge; lia).
  unfold d at 1. rewrite iso_date_dashed by lia. cbn [mbind option_bind].
  replace (1 <? _)%nat with true.
  2:{ symmetry. apply Nat.ltb_lt. unfold r. cbn [length]. rewrite length_app. cbn [list_ascii_of_string length]. lia. }
  change (past_separator _) with r. unfold r. rewrite iso_time_written by lia. cbn [mbind option_bind].
  unfold valid_time. cbn [ct_hour ct_minute ct_second]. rewrite !(proj2 (Z.ltb_lt _ _)) by lia. cbn [andb].
  rewrite Ho. unfold as_utc, span_of, a_day. cbn [fst snd default ct_hour ct_minute ct_second ct_microsecond from_option].
  rewrite Hc, Hu. unfold id. replace ((t / 86400000000 + 1 - 1) * 86400000000 + _ - 0) with t.
  - rewrite (proj2 (Z.leb_le _ _)), (proj2 (Z.ltb_lt _ _)) by lia. done.
  - lia.
Qed.
