(* ===== verification/MissionText.v ===== *)
(** * Mission Control: the words on the screen

    The small readings of [app/mission_control/service.py]: values of a row that
    may be anything, what is redacted, and the words a status, a capability, a
    source or an event is shown in. *)

From stdpp Require Import pretty.
From S2P Require Import Prelude Encoding Control Upstream ManagementViews MissionViews MissionControl.

(** ** Texts *)

Fixpoint prefix_of (p l : list ascii) : bool :=
  match p, l with
  | [], _ => true
  | c :: p', c' :: l' => bool_decide (c = c') && prefix_of p' l'
  | _ :: _, [] => false
  end.
Fixpoint infix_of (p l : list ascii) : bool :=
  prefix_of p l || match l with _ :: l' => infix_of p l' | [] => false end.
(** [token in text] *)
Definition contains (token text : string) : bool := infix_of (list_ascii_of_string token) (list_ascii_of_string text).
Definition contains_any (tokens : list string) (text : string) : bool := existsb (λ t, contains t text) tokens.
Definition begins (token text : string) : bool := prefix_of (list_ascii_of_string token) (list_ascii_of_string text).
Fixpoint after_last_of (p l : list ascii) : option (list ascii) :=
  match (match l with _ :: l' => after_last_of p l' | [] => None end) with
  | Some r => Some r
  | None => if prefix_of p l then Some (drop (length p) l) else None
  end.
(** [text.rsplit(sep, 1)\[-1\]] *)
Definition after_last (sep text : string) : string :=
  match after_last_of (list_ascii_of_string sep) (list_ascii_of_string text) with
  | Some r => string_of_list_ascii r | None => text
  end.
(** [text.replace(".", " ")] *)
Definition spaced (text : string) : string :=
  string_of_list_ascii ((λ c, if bool_decide (c = "."%char) then " "%char else c) <$> list_ascii_of_string text).
Definition flushed (word : list ascii) : list (list ascii) := if bool_decide (word = []) then [] else [word].
(** [text.split()]; each turn takes a character or white space away. *)
Fixpoint words_with (fuel : nat) (l word : list ascii) : list (list ascii) :=
  match fuel with
  | 0 => flushed (word ++ l)
  | S n =>
      match drop_any ws_sequences l with
      | Some r => flushed word ++ words_with n r []
      | None => match l with c :: l' => words_with n l' (word ++ [c]) | [] => flushed word end
      end
  end.
Definition words (text : string) : list string :=
  let l := list_ascii_of_string text in string_of_list_ascii <$> words_with (length l) l [].

Example words_sample : words "  a b c  " = ["a"; "b"; "c"].
Proof. by vm_compute. Qed.

(** ** Values that may be anything *)

(** [a or b] *)
Definition json_or (a b : json) : json := if json_truthy a then a else b.
Definition get (key : string) (o : obj) : json := obj_get key o JNull.
(** [_dict_or_empty] *)
Definition dict_or_empty (v : json) : obj := match v with JObj o => o | _ => [] end.
(** [v or {}], whose attributes are read next. *)
Definition mapping (v : json) : result obj :=
  match v with
  | JObj o => Ok o
  | _ => if json_truthy v then Raise (AttributeError "object has no attribute 'get'") else Ok []
  end.
(** [_int_or_none] *)
Definition int_or_none (v : json) : result (option Z) :=
  match int_of v with
  | Ok z => Ok (Some z)
  | Raise (TypeError _ | ValueError _) => Ok None
  | Raise e => Raise e
  end.
(** [int(v or 0)] *)
Definition count_of (v : json) : result Z := int_of (json_or v (JInt 0)).

(** The results of a call on each element, in order; the first error stops. *)
Fixpoint for_each {A B} (f : A → result B) (l : list A) : result (list B) :=
  match l with [] => Ok [] | x :: l' => y ← f x; ys ← for_each f l'; Ok (y :: ys) end.
Fixpoint fold_result {A B} (f : A → B → result A) (a : A) (l : list B) : result A :=
  match l with [] => Ok a | x :: l' => a' ← f a x; fold_result f a' l' end.

Section Text.
(** [str] of a JSON value that is not a string, and the digest. *)
Context (py_str : json → string) (sha1_hexdigest : bytes → string).

(** [str(v or d)] *)
Definition text_or (d : string) (v : json) : string := if json_truthy v then Upstream.str_of py_str v else d.
(** [_str_or_none] *)
Definition str_or_none (v : json) : option string :=
  match v with
  | JNull => None
  | _ => let s := Upstream.str_of py_str v in if bool_decide (s = "") then None else Some s
  end.
(** [\[str(item) for item in v or \[\]\]] *)
Definition text_list (v : json) : result (list string) :=
  match v with
  | JList l => Ok (Upstream.str_of py_str <$> l)
  | JObj o => Ok o.*1
  | JStr s => Ok (code_points s)
  | _ => if json_truthy v then Raise (TypeError "object is not iterable") else Ok []
  end.

(** ** Redaction *)

Definition TEXT_KEYS : list string :=
  ["content"; "text"; "transcript"; "user_text"; "assistant_text"; "prompt"; "image"; "image_url"; "raw_image"; "audio"].
Fixpoint joined_by (sep : string) (l : list string) : string :=
  match l with [] => "" | [s] => s | s :: l' => s +:+ sep +:+ joined_by sep l' end.
Definition redact_text (text : string) (keep : nat) : string :=
  if bool_decide (text = "") then ""
  else
    let digest := str_take 8 (sha1_hexdigest (list_ascii_of_string text)) in
    let compact := joined_by " " (words text) in
    str_take keep compact +:+ (if bool_decide (keep < str_len compact) then "..." else "") +:+
      " [redacted:" +:+ digest +:+ "]".
(** [\[f(item) for item in l\[:n\]\]] *)
Definition first_items {A B} (f : A → B) : nat → list A → list B :=
  fix go n l {struct l} := match l, n with x :: rest, S n' => f x :: go n' rest | _, _ => [] end.
Fixpoint safe_payload (v : json) : json :=
  match v with
  | JObj kv =>
      JObj (List.map (λ p : string * json, let (key, item) := p in
        (key, if bool_decide (lower key ∈ TEXT_KEYS) then JStr (redact_text (Upstream.str_of py_str item) 40)
              else safe_payload item)) kv)
  | JList l => JList (first_items safe_payload 20 l)
  | JStr s => if bool_decide (160 < str_len s) then JStr (redact_text s 40) else v
  | _ => v
  end.
Definition safe_object (o : obj) : obj := dict_or_empty (safe_payload (JObj o)).
End Text.

(** ** The words of the screen *)

(** [str(value or "").lower()] *)
Definition lowered (py_str : json → string) (v : json) : string := lower (text_or py_str "" v).
Definition one_of (words : list string) (s : string) : bool := bool_decide (s ∈ words).

(** [_stage_status] *)
Definition stage_status (py_str : json → string) (status : json) : string :=
  let value := lowered py_str status in
  if one_of ["ok"; "done"; "succeeded"; "completed"] value then "done"
  else if one_of ["failed"; "errored"; "error"] value then "failed"
  else if one_of ["running"; "pending"; "queued"] value then "running"
  else if bool_decide (value = "") then "pending" else "done".
Definition ACTIVE_ACTIVITY_STATES : list string :=
  ["running"; "active"; "pending"; "queued"; "accepted"; "processing"; "generating"; "speaking"; "deferred"].
Definition activity_is_active (status : string) : bool := one_of ACTIVE_ACTIVITY_STATES (lower status).

Definition friendly_status (py_str : json → string) (value : json) : string :=
  let status := lowered py_str value in
  if one_of ["ok"; "done"; "succeeded"; "completed"; "success"] status then "已完成"
  else if one_of ["running"; "processing"; "in_progress"] status then "进行中"
  else if one_of ["pending"; "queued"; "created"] status then "排队中"
  else if one_of ["failed"; "error"; "errored"; "timeout"] status then "需要关注"
  else if one_of ["degraded"; "warn"; "warning"] status then "部分可用"
  else if bool_decide (status = "info") then "有新信号"
  else text_or py_str "等待中" value.
Definition friendly_memory_write (py_str : json → string) (value : json) : string :=
  let disposition := lowered py_str value in
  if one_of ["write"; "written"; "accepted"; "fanout"] disposition then "允许写入"
  else if one_of ["ignore"; "ignored"; "skip"; "skipped"] disposition then "本轮不写入"
  else if one_of ["pending"; "queued"] disposition then "等待判断"
  else if one_of ["denied"; "blocked"; "private"] disposition then "隐私保护"
  else text_or py_str "等待判断" value.
Definition friendly_capability (value : string) : string :=
  default value (dict_get value
    [("voice", "听说"); ("speaker", "播放"); ("display", "显示"); ("sensor", "传感"); ("ptt", "按键说话");
     ("touch", "触控"); ("camera.snapshot", "拍照"); ("vision", "视觉"); ("control", "控制")]).
Definition friendly_source (value : string) : string :=
  default value (dict_get value
    [("hub", "身体/设备"); ("channel", "语音通道"); ("agent", "智能体引擎"); ("memory", "记忆系统"); ("data", "事实账本");
     ("admin", "控制台"); ("mission_control", "飞控台")]).
Definition friendly_event_type (value : string) : string :=
  let lowered := lower value in
  if contains "camera" lowered then "视觉请求"
  else if contains "command" lowered then "设备控制"
  else if contains_any ["probe"; "presence"] lowered then "设备在线探测"
  else if contains_any ["memory"; "fanout"] lowered then "记忆同步"
  else if contains "turn" lowered then "一次对话"
  else if contains_any ["job"; "task"] lowered then "后台任务"
  else spaced value.
Definition friendly_service_name (service_id name : string) : string :=
  default (or_str name service_id) (dict_get service_id
    [("admin", "控制台"); ("agent", "智能体引擎"); ("hub", "身体中枢"); ("memory", "记忆系统"); ("channel", "语音通道");
     ("mementos", "后台协作者"); ("client-web", "Web 身体")]).
Definition event_source (event_type : string) : string :=
  let lowered := lower event_type in
  if contains_any ["memory"; "fanout"; "steward"] lowered then "memory"
  else if contains_any ["audio"; "stt"; "tts"; "livekit"; "room."] lowered then "channel"
  else if contains_any ["device"; "camera"; "sensor"; "command"] lowered then "hub"
  else if contains_any ["turn"; "tool"; "job"; "task"] lowered then "agent"
  else "data".
