(* ===== verification/MissionTurns.v ===== *)
(** * Mission Control: turns

    [app/mission_control/service.py]: one turn of the Agent as it is shown, with
    the journey it makes and where its time went; what the channel reported of
    turns; and the two merged by trace. *)

From Stdlib Require Import Floats.SpecFloat.
From stdpp Require Import pretty.
From S2P Require Import Prelude Encoding Timestamp IsoFormat Control Upstream ManagementViews HostMachine MissionViews.
From S2P Require Import MissionControl MissionText.

(** ** One turn of the Agent *)

Definition stage (key label status : string) (latency_ms : json) : obj :=
  [("key", JStr key); ("label", JStr label); ("status", JStr status); ("latency_ms", latency_ms)].
Definition BREAKDOWN : list (string * string) :=
  [("guard", "检查这句话能不能处理"); ("triage", "判断这轮怎么走"); ("compile", "组装上下文");
   ("first_delta", "等到第一个字"); ("output", "把话说完")].

Section Turns.
Context (py_str : json → string) (sha1_hexdigest : bytes → string) (float_text : string → result spec_float).
Abbreviation text_or := (MissionText.text_or py_str).
Abbreviation str_or_none := (MissionText.str_or_none py_str).
Abbreviation text_list := (MissionText.text_list py_str).
Abbreviation stage_status := (MissionText.stage_status py_str).
Abbreviation friendly_status := (MissionText.friendly_status py_str).
(** [f"{v or 0}"] *)
Definition shown_count (v : json) : string := Upstream.str_of py_str (json_or v (JInt 0)).

Definition tool_stage_status (tools : obj) (running : bool) : result string :=
  if json_truthy (get "error_count" tools) then Ok "failed"
  else
    count ← count_of (get "count" tools);
    open ← match get "completed" tools with
           | JNull => Ok false
           | completed => n ← int_of completed; Ok (n <? count)%Z
           end;
    Ok (if open : bool then "running"
        else if negb (count =? 0)%Z then "done" else if running then "pending" else "done").
Definition response_stage_status (row : obj) (first_delta : option Z) (running : bool) : string :=
  match first_delta with
  | None => if running then "pending" else stage_status (get "status" row)
  | Some _ => if running then "running" else stage_status (get "status" row)
  end.
Definition friendly_first_delta (first_delta : option Z) (running : bool) : string :=
  match first_delta with
  | None => if running then "进行中" else "没有出声"
  | Some n => pretty n +:+ " 毫秒后开口"
  end.

Definition turn_stages (row obs : obj) : result (list obj) :=
  let running := bool_decide (stage_status (get "status" row) = "running") in
  latency ← mapping (get "latency" obs);
  first_delta ← int_or_none (json_or (get "first_delta_ms" latency) (get "latency_first_delta_ms" row));
  memory ← mapping (get "memory" obs);
  tools ← mapping (get "tools" obs);
  tool_status ← tool_stage_status tools running;
  write ← mapping (get "memory_write" obs);
  Ok [stage "input" "确认是谁在和哪个身体说话" "done" JNull;
      stage "memory_recall" ("查找相关记忆：" +:+ shown_count (get "hit_count" memory) +:+ " 条")
        (if json_truthy (get "degraded" memory) then "degraded"
         else if json_truthy (get "attempted" memory) then "done" else "pending") JNull;
      stage "agent_turn" ("智能体处理这一轮：" +:+ friendly_status (get "status" row)) (stage_status (get "status" row))
        (json_or (get "total_ms" latency) (get "total_latency_ms" row));
      stage "tools" ("调用工具或外部能力：" +:+ shown_count (get "count" tools) +:+ " 次") tool_status
        (get "total_latency_ms" tools);
      stage "response" ("开口回应：" +:+ friendly_first_delta first_delta running)
        (response_stage_status row first_delta running) (jint first_delta);
      stage "memory_write" ("决定是否写入长期记忆：" +:+ friendly_memory_write py_str (get "disposition" write))
        (if json_truthy (get "fanout_allowed" write) then "done" else "pending") JNull].

Definition measured (key label : string) (latency_ms : option Z) : obj :=
  [("key", JStr key); ("label", JStr label); ("latency_ms", jint latency_ms)].
Definition turn_breakdown (latency tools : obj) : result (list obj) :=
  rows ← for_each (λ p, ms ← int_or_none (get (p.1 +:+ "_ms") latency); Ok (measured p.1 p.2 ms)) BREAKDOWN;
  tool_ms ← int_or_none (get "tool_ms" latency);
  count ← count_of (get "count" tools);
  Ok (if (count =? 0)%Z then rows
      else rows ++ [measured "tools" ("调用工具（" +:+ pretty count +:+ " 次）") tool_ms]).

(** [_turn] *)
Definition turn (row : obj) : result RuntimeTurn :=
  obs ← mapping (get "observability_summary" row);
  stages ← turn_stages row obs;
  memory ← mapping (get "memory" obs); tools ← mapping (get "tools" obs); latency ← mapping (get "latency" obs);
  let agent_turn_id := text_or "" (get "turn_id" row) in
  started_at ← parse_dt (get "started_at" row);
  finished_at ← parse_dt (get "finished_at" row);
  latency_ms ← int_or_none (json_or (get "total_ms" latency) (get "total_latency_ms" row));
  memory_hits ← count_of (get "hit_count" memory);
  tool_names ← text_list (get "names" tools);
  breakdown ← turn_breakdown latency tools;
  Ok {| rt_turn_id := agent_turn_id; rt_trace_id := str_or_none (get "trace_id" row); rt_channel_turn_id := None;
        rt_agent_turn_id := Some agent_turn_id; rt_conversation_id := text_or "" (get "conversation_id" row);
        rt_runtime_session_id := str_or_none (get "runtime_session_id" row); rt_owner_id := text_or "" (get "owner_id" row);
        rt_companion_id := text_or "" (get "companion_id" row); rt_device_id := str_or_none (get "device_id" row);
        rt_status := text_or "unknown" (get "status" row); rt_trigger := text_or "" (get "trigger" row);
        rt_started_at := started_at; rt_finished_at := finished_at; rt_latency_ms := latency_ms;
        rt_memory_hits := memory_hits; rt_tool_names := tool_names; rt_privacy_mode := str_or_none (get "privacy_mode" obs);
        rt_phase := "agent_turn";
        rt_outcome := if one_of ["failed"; "errored"; "error"] (lowered py_str (get "status" row)) then "failure" else "success";
        rt_terminal_reason := ""; rt_event_ids := []; rt_missing_milestones := []; rt_stages := stages;
        rt_breakdown := breakdown |}.

(** ** What the channel reported of a turn *)

Definition CHANNEL_TERMINAL_TYPES : list string := ["channel.turn.completed"; "channel.turn.rejected"; "channel.turn.failed"].
Definition CHANNEL_STAGE_META : list (string * (string * string)) :=
  [("user_speech_open", ("speech", "用户说话")); ("provisional_duck", ("duck", "暂时压低播放"));
   ("evidence_arbitration", ("eot", "判断打断与轮次结束")); ("accepted_interruption", ("interrupt", "接受打断"));
   ("rejected_interruption", ("interrupt", "恢复原播放")); ("user_turn_pending", ("eot", "等待完整轮次"));
   ("user_turn_committed", ("commit", "轮次已提交")); ("user_turn_rejected", ("commit", "轮次未进入大脑"));
   ("generating", ("brain", "大脑开始生成")); ("brain_request_sent", ("brain", "请求已送达大脑"));
   ("brain_first_delta", ("response", "大脑首个响应")); ("brain_done", ("response", "大脑响应完成"));
   ("brain_cancelled", ("response", "大脑响应被取消")); ("brain_error", ("response", "大脑响应失败"));
   ("llm_error", ("response", "生成失败")); ("tts_provider_first_audio", ("tts", "TTS 首个音频"));
   ("tts_error", ("tts", "TTS 生成失败")); ("session_error", ("response", "会话运行失败"));
   ("first_audio", ("playback", "开始播放")); ("playback_done", ("playback", "播放完成"))].

(** [float(v)] and [round(f)] *)
Definition float_of (v : json) : result spec_float :=
  match v with
  | JStr s => float_text s
  | _ => match number_of v with
         | Some n => to_double n
         | None => Raise (TypeError "float() argument must be a string or a real number")
         end
  end.
Definition rounded (f : spec_float) : result Z :=
  match f with
  | S754_zero _ => Ok 0%Z
  | S754_finite s m e => Ok (round_half_even (signed s m * 2 ^ Z.max e 0) (2 ^ Z.max (- e) 0))
  | S754_infinity _ => Raise (OverflowError "cannot convert float infinity to integer")
  | S754_nan => Raise (ValueError "cannot convert float NaN to integer")
  end.
Definition later_of (a b : spec_float) : spec_float :=
  if num_leb (Double a) (Double b) && negb (num_leb (Double b) (Double a)) then b else a.

Definition semantic_of (e : RuntimeEvent) : string :=
  if bool_decide (e.(ev_type) = "channel.turn.phase_changed") then text_or "" (get "phase" e.(ev_payload))
  else if bool_decide (e.(ev_type) = "channel.turn.milestone") then text_or "" (get "milestone" e.(ev_payload))
  else "".
(** The rows by key, in the order the keys appeared: a label and a latency. *)
Abbreviation stage_rows := (list (string * (string * Z))).
Definition channel_stage (acc : stage_rows * spec_float) (e : RuntimeEvent) : result (stage_rows * spec_float) :=
  let '(rows, previous) := acc in
  match dict_get (semantic_of e) CHANNEL_STAGE_META with
  | None => Ok acc
  | Some (key, label) =>
      let v := get "elapsed_ms" e.(ev_payload) in
      elapsed ← if json_truthy v then float_of v else Ok previous;
      span ← rounded (SFsub 53 1024 elapsed previous);
      let latency := Z.max 0 span in
      Ok (dict_set key (label, default 0%Z (snd <$> dict_get key rows) + latency)%Z rows, later_of previous elapsed)
  end.
Fixpoint mark_last (status : string) (l : list obj) : list obj :=
  match l with
  | [] => []
  | [o] => [dict_set "status" (JStr status) o]
  | o :: l' => o :: mark_last status l'
  end.
Definition channel_turn_stages (events : list RuntimeEvent) (terminal : option RuntimeEvent) (orphaned : bool) :
    result (list obj) :=
  acc ← fold_result channel_stage ([], S754_zero false) events;
  let stages := (λ kv, stage kv.1 kv.2.1 "done" (JInt kv.2.2)) <$> acc.1 in
  Ok (if orphaned then mark_last "degraded" stages
      else match terminal with
           | None => mark_last "running" stages
           | Some t =>
               if bool_decide (t.(ev_outcome) = "failure") then mark_last "failed" stages
               else if bool_decide (t.(ev_outcome) = "denied") then mark_last "degraded" stages
               else stages
           end).

Definition stage_key (o : obj) : string := text_or "" (get "key" o).
Definition merge_agent_stages (channel_stages agent_stages : list obj) : list obj :=
  match channel_stages with
  | [] => agent_stages
  | _ =>
      let seen := stage_key <$> channel_stages in
      channel_stages ++
      List.filter (λ o, one_of ["memory_recall"; "tools"; "memory_write"] (stage_key o) && negb (one_of seen (stage_key o)))
        agent_stages
  end.

(** ** The two, merged by trace *)

Definition earliest_first (a b : RuntimeEvent) : bool := (a.(ev_ts) <=? b.(ev_ts))%Z.
(** [setdefault(key, \[\]).append(event)] *)
Definition filed (key : string) (e : RuntimeEvent) (d : list (string * list RuntimeEvent)) : list (string * list RuntimeEvent) :=
  dict_set key (default [] (dict_get key d) ++ [e]) d.
Definition room_of (e : RuntimeEvent) : string := text_or "" (get "room_name" e.(ev_payload)).
Definition is_boundary (e : RuntimeEvent) : bool := one_of ["channel.session.ended"; "channel.session.failed"] e.(ev_type).
Definition channel_turn_of (e : RuntimeEvent) : string :=
  text_or "" (json_or (get "channel_turn_id" e.(ev_payload)) (jopt e.(ev_turn_id))).
(** The events of each turn of the channel, and the ends of sessions by room. *)
Definition grouping (events : list RuntimeEvent) :
    list (string * list RuntimeEvent) * list (string * list RuntimeEvent) :=
  foldl (λ acc e,
    let '(grouped, boundaries) := acc in
    if negb (bool_decide (e.(ev_source) = "channel")) then acc
    else if is_boundary e then
      if bool_decide (room_of e = "") then acc else (grouped, filed (room_of e) e boundaries)
    else if negb (begins "channel.turn." e.(ev_type)) then acc
    else if bool_decide (channel_turn_of e = "") then acc
    else (filed (channel_turn_of e) e grouped, boundaries)) ([], []) events.

Definition nonempty (o : option string) : option string :=
  match o with Some s => if bool_decide (s = "") then None else Some s | None => None end.
Definition first_some {A B} (f : A → option B) (l : list A) : option B := head (omap f l).
Definition agent_by_trace (agent_turns : list RuntimeTurn) : list (string * RuntimeTurn) :=
  foldl (λ d t, match nonempty t.(rt_trace_id) with Some i => dict_set i t d | None => d end) [] agent_turns.

(** [int((finished - started).total_seconds() * 1000)] *)
Definition span_ms (span : Z) : result Z :=
  seconds ← true_div (Whole span) (Whole 1000000);
  truncate_number (Double (SFmul 53 1024 seconds (binary_normalize 53 1024 1000 0 false))).

Definition SESSION_FAILED : string := "channel.session.failed".
Definition boundary_after (boundaries : list (string * list RuntimeEvent)) (ordered : list RuntimeEvent)
    (terminal : option RuntimeEvent) : option RuntimeEvent :=
  let room := default "" (first_some (λ e, nonempty (Some (room_of e))) ordered) in
  match terminal, last ordered with
  | None, Some e =>
      if bool_decide (room = "") then None
      else next_or_none (λ b, (e.(ev_ts) <=? b.(ev_ts))%Z)
             (sort_by earliest_first (default [] (dict_get room boundaries)))
  | _, _ => None
  end.
Definition trace_of (channel_turn_id : string) (ordered : list RuntimeEvent) : string :=
  default channel_turn_id (first_some (λ e, nonempty e.(ev_trace_id)) ordered).

Definition channel_turn (boundaries : list (string * list RuntimeEvent)) (by_trace : list (string * RuntimeTurn))
    (channel_turn_id : string) (turn_events : list RuntimeEvent) : result RuntimeTurn :=
  let ordered := sort_by earliest_first turn_events in
  let trace_id := trace_of channel_turn_id ordered in
  let agent := dict_get trace_id by_trace in
  let terminal := next_or_none (λ e, one_of CHANNEL_TERMINAL_TYPES e.(ev_type)) (rev ordered) in
  let boundary := boundary_after boundaries ordered terminal in
  let phases := List.filter (λ e, bool_decide (e.(ev_type) = "channel.turn.phase_changed")) ordered in
  let failed := from (λ b, bool_decide (b.(ev_type) = SESSION_FAILED)) false boundary in
  let '(status, outcome) :=
    match terminal, boundary with
    | Some t, _ => (text_or "completed" (get "status" t.(ev_payload)), t.(ev_outcome))
    | None, Some _ => (if failed then "failed" else "orphaned", "failure")
    | None, None => ("running", "deferred")
    end in
  let started_at := ev_ts <$> head ordered in
  let finished_at := match terminal with Some t => Some t.(ev_ts) | None => ev_ts <$> boundary end in
  elapsed_ms ← match started_at, finished_at with
               | Some s, Some f => ms ← span_ms (f - s)%Z; Ok (Some ms)
               | _, _ => Ok None
               end;
  stages ← channel_turn_stages ordered terminal (if boundary is Some _ then true else false);
  missing ← match terminal with
            | Some t => text_list (get "missing_milestones" t.(ev_payload))
            | None => Ok (if boundary is Some _ then ["terminal_event"] else [])
            end;
  Ok {| rt_turn_id := channel_turn_id; rt_trace_id := Some trace_id; rt_channel_turn_id := Some channel_turn_id;
        rt_agent_turn_id := from rt_agent_turn_id None agent;
        rt_conversation_id :=
          match agent with
          | Some a => a.(rt_conversation_id)
          | None => default "" (first_some (λ e, let v := get "conversation_id" e.(ev_payload) in
                                                 if json_truthy v then Some (Upstream.str_of py_str v) else None) (rev ordered))
          end;
        rt_runtime_session_id := from rt_runtime_session_id None agent;
        rt_owner_id := or_str (default "" (from ev_owner_id None (last ordered))) (from rt_owner_id "" agent);
        rt_companion_id := or_str (default "" (from ev_companion_id None (last ordered))) (from rt_companion_id "" agent);
        rt_device_id := or_some (first_some (λ e, nonempty e.(ev_device_id)) ordered) (from rt_device_id None agent);
        rt_status := status; rt_trigger := "voice.full_duplex"; rt_started_at := started_at; rt_finished_at := finished_at;
        rt_latency_ms := match elapsed_ms with
                         | Some ms => if (ms =? 0)%Z then from rt_latency_ms None agent else Some ms
                         | None => from rt_latency_ms None agent
                         end;
        rt_memory_hits := from rt_memory_hits 0%Z agent; rt_tool_names := from rt_tool_names [] agent;
        rt_privacy_mode := from rt_privacy_mode (Some "safe") agent;
        rt_phase := from (λ e, text_or "" (get "phase" e.(ev_payload))) "" (last phases); rt_outcome := outcome;
        rt_terminal_reason :=
          match terminal, boundary with
          | Some t, _ => text_or "" (get "terminal_reason" t.(ev_payload))
          | None, Some _ => if failed then "session_failed_without_turn_terminal" else "session_ended_without_turn_terminal"
          | None, None => ""
          end;
        rt_event_ids := (ev_event_id <$> ordered) ++ from (λ b, [b.(ev_event_id)]) [] boundary;
        rt_missing_milestones := missing;
        rt_stages := match agent with Some a => merge_agent_stages stages a.(rt_stages) | None => stages end;
        rt_breakdown := [] |}.

(** [datetime.min] stands for a time there is none of. *)
Definition instant (t : option Z) : Z := default 0%Z t.
Definition newest_first (a b : RuntimeTurn) : bool := (instant b.(rt_started_at) <=? instant a.(rt_started_at))%Z.
(** The agent turns that a turn of the channel stands for. *)
Definition used_agent_ids (by_trace : list (string * RuntimeTurn)) (grouped : list (string * list RuntimeEvent)) : list string :=
  omap (λ g, rt_turn_id <$> dict_get (trace_of g.1 (sort_by earliest_first g.2)) by_trace) grouped.
Definition project_runtime_turns (events : list RuntimeEvent) (agent_turns : list RuntimeTurn) : result (list RuntimeTurn) :=
  let '(grouped, boundaries) := grouping events in
  let by_trace := agent_by_trace agent_turns in
  let used := used_agent_ids by_trace grouped in
  channel ← for_each (λ g, channel_turn boundaries by_trace g.1 g.2) grouped;
  Ok (sort_by newest_first (channel ++ List.filter (λ t, negb (one_of used t.(rt_turn_id))) agent_turns)).

(** [_primary_active_voice_turn] *)
Definition primary_active_voice_turn (turns : list RuntimeTurn) : option RuntimeTurn :=
  next_or_none (λ t, activity_is_active t.(rt_status)) turns.
(** [_enrich_event_scope] *)
Definition enrich_event_scope (events : list RuntimeEvent) (devices : list RuntimeDevice) : list RuntimeEvent :=
  let by_id := foldl (λ d v, dict_set v.(rd_device_id) v d) [] devices in
  (λ e,
     match dict_get (default "" e.(ev_device_id)) by_id with
     | None => e
     | Some v =>
         mkEvent e.(ev_event_id) e.(ev_ts) e.(ev_source) e.(ev_type) e.(ev_severity) e.(ev_outcome) e.(ev_event_origin)
           e.(ev_trace_id) (or_id e.(ev_owner_id) v.(rd_owner_id)) (or_id e.(ev_companion_id) v.(rd_companion_id))
           e.(ev_device_id) e.(ev_conversation_id) e.(ev_turn_id) e.(ev_job_id) e.(ev_summary) e.(ev_payload)
     end) <$> events.
End Turns.
