(* ===== verification/MissionActivities.v ===== *)
(** * Mission Control: activities, jobs and events

    [app/mission_control/service.py]: the jobs behind long tasks, the events
    that stand for rows, turns and jobs, and everything that goes on as
    activities with the nodes they visit, bounded so that a noisy body leaves
    room for the others. *)

From Stdlib Require Import Floats.SpecFloat.
From stdpp Require Import pretty.
From S2P Require Import Prelude Encoding Timestamp IsoFormat Control Upstream ManagementViews HostMachine MissionViews.
From S2P Require Import MissionControl MissionText MissionTurns.

(** [datetime.now(UTC)] *)
Class UtcClock (X : Type) := { utc_now : X → Z * X }.

(** A row of Data's job list, and of its event list: what is read of them.  A
    time is UTC, as [_as_utc] makes it. *)
Record DataJobRow := mkJobRow {
  jr_job_id : string; jr_owner_id : string; jr_companion_id : option string; jr_conversation_id : option string;
  jr_turn_id : option string; jr_provider : string; jr_kind : string; jr_status : string; jr_progress_json : obj;
  jr_result_json : obj; jr_created_at : option Z; jr_updated_at : option Z; jr_completed_at : option Z }.
Record DataEventRow := mkEventRow {
  er_event_id : string; er_event_type : string; er_source : option string; er_severity : option string;
  er_outcome : option string; er_trace_id : option string; er_owner_id : option string; er_companion_id : option string;
  er_subject_type : string; er_subject_id : string; er_payload_json : obj; er_occurred_at : option Z;
  er_created_at : option Z }.

(** [f"{a}:{b}"] of an event of Data *)
Definition event_summary (event_type subject_type subject_id : string) : string :=
  spaced event_type +:+ " · " +:+ subject_type +:+ ":" +:+ subject_id.

Section Activities.
Context {X : Type} `{!UtcClock X}.
Context (py_str : json → string) (sha1_hexdigest : bytes → string) (float_text : string → result spec_float).
Abbreviation text_or := (MissionText.text_or py_str).
Abbreviation str_or_none := (MissionText.str_or_none py_str).
Abbreviation stage_status := (MissionText.stage_status py_str).
Abbreviation redact_text := (MissionText.redact_text sha1_hexdigest).
Abbreviation safe_object := (MissionText.safe_object py_str sha1_hexdigest).
Abbreviation turn := (MissionTurns.turn py_str).

Definition now : M X Z := λ x, let '(t, x') := utc_now x in (Ok t, x').
(** [t or datetime.now(UTC)] *)
Definition or_now (t : option Z) : M X Z := match t with Some t => mret t | None => now end.
Fixpoint visit {A B} (f : A → M X B) (l : list A) : M X (list B) :=
  match l with [] => mret [] | x :: l' => y ← f x; ys ← visit f l'; mret (y :: ys) end.

(** ** Jobs *)

Definition first_text (keys : list string) (o : obj) : option string :=
  first_some (λ k, let v := get k o in
    if json_truthy v then Some (redact_text (Upstream.str_of py_str v) 80) else None) keys.
Definition compact_result (res : obj) : string :=
  match res with
  | [] => ""
  | _ => default (pretty (Z.of_nat (length res)) +:+ " result field(s)")
           (first_text ["summary"; "result_text"; "title"; "path"; "artifact"] res)
  end.
Definition job_summary (kind : string) (progress res : obj) : string :=
  default (or_str (compact_result res) kind) (first_text ["summary"; "progress_summary"; "message"; "title"] progress).
Definition job (row : DataJobRow) : RuntimeJob :=
  {| rj_job_id := row.(jr_job_id); rj_owner_id := row.(jr_owner_id); rj_companion_id := row.(jr_companion_id);
     rj_conversation_id := row.(jr_conversation_id); rj_turn_id := row.(jr_turn_id); rj_provider := row.(jr_provider);
     rj_kind := row.(jr_kind); rj_status := row.(jr_status);
     rj_summary := job_summary row.(jr_kind) row.(jr_progress_json) row.(jr_result_json);
     rj_progress := safe_object row.(jr_progress_json); rj_result_summary := compact_result row.(jr_result_json);
     rj_created_at := row.(jr_created_at); rj_updated_at := row.(jr_updated_at);
     rj_completed_at := row.(jr_completed_at) |}.
Definition long_task_job (row : obj) : result RuntimeJob :=
  let task := text_or "Long task" (json_or (get "task" row) (get "task_type" row)) in
  created_at ← parse_dt (get "created_at" row);
  updated_at ← parse_dt (get "updated_at" row);
  completed_at ← parse_dt (get "completed_at" row);
  Ok {| rj_job_id := text_or "" (get "task_id" row); rj_owner_id := text_or "" (get "owner_id" row);
        rj_companion_id := str_or_none (get "companion_id" row);
        rj_conversation_id := str_or_none (get "conversation_id" row); rj_turn_id := str_or_none (get "turn_id" row);
        rj_provider := text_or "mementos" (get "provider" row); rj_kind := text_or "long_task" (get "task_type" row);
        rj_status := text_or "unknown" (get "status" row); rj_summary := redact_text task 64;
        rj_progress := safe_object [("summary", get "progress_summary" row); ("external_status", get "external_status" row)];
        rj_result_summary := redact_text (text_or "" (json_or (get "result_tts_summary" row) (get "result_text" row))) 80;
        rj_created_at := created_at; rj_updated_at := updated_at; rj_completed_at := completed_at |}.
Definition job_time (j : RuntimeJob) : option Z := or_some j.(rj_updated_at) j.(rj_created_at).
Definition latest_first (a b : RuntimeJob) : bool := (instant (job_time b) <=? instant (job_time a))%Z.
Definition dedupe_jobs (jobs : list RuntimeJob) : list RuntimeJob :=
  (foldl (λ d j, match dict_get j.(rj_job_id) d with Some _ => d | None => dict_set j.(rj_job_id) j d end) []
     (sort_by latest_first jobs)).*2.

(** ** Events *)

Definition runtime_event_summary (event_type subject_type subject_id : string) (payload : obj) : string :=
  let because key := let reason := text_or "" (get key payload) in
    if bool_decide (reason = "") then "" else " · " +:+ reason in
  if bool_decide (event_type = "channel.turn.phase_changed") then
    "Turn phase · " +:+ text_or "unknown" (get "phase" payload) +:+ because "transition_event"
  else if bool_decide (event_type = "channel.turn.milestone") then
    "Turn milestone · " +:+ text_or "unknown" (get "milestone" payload)
  else if one_of CHANNEL_TERMINAL_TYPES event_type then
    "Turn " +:+ text_or (after_last "." event_type) (get "status" payload) +:+ because "terminal_reason"
  else event_summary event_type subject_type subject_id.
Definition event_of_data (row : DataEventRow) : M X RuntimeEvent :=
  let raw := row.(er_payload_json) in
  ts ← or_now (or_some row.(er_occurred_at) row.(er_created_at));
  lift (checked_event
    {| ev_event_id := row.(er_event_id); ev_ts := ts;
       ev_source := or_str (default "" row.(er_source)) (event_source row.(er_event_type));
       ev_type := row.(er_event_type);
       ev_severity := or_str (default "" row.(er_severity))
                        (if contains_any ["revoked"; "cancel"] row.(er_event_type) then "warn" else "info");
       ev_outcome := or_str (default "" row.(er_outcome)) "success"; ev_event_origin := "polling";
       ev_trace_id := row.(er_trace_id); ev_owner_id := row.(er_owner_id); ev_companion_id := row.(er_companion_id);
       ev_device_id := if bool_decide (row.(er_subject_type) = "device") then Some row.(er_subject_id)
                       else str_or_none (get "device_id" raw);
       ev_conversation_id := str_or_none (get "conversation_id" raw);
       ev_turn_id := if bool_decide (row.(er_subject_type) = "turn") then Some row.(er_subject_id) else None;
       ev_job_id := if bool_decide (row.(er_subject_type) = "job") then Some row.(er_subject_id) else None;
       ev_summary := runtime_event_summary row.(er_event_type) row.(er_subject_type) row.(er_subject_id) raw;
       ev_payload := safe_object raw |}).
Definition events_from_data (rows : list DataEventRow) : M X (list RuntimeEvent) := visit event_of_data rows.
Definition event_of_turn (row : obj) : M X RuntimeEvent :=
  t ← lift (turn row);
  ts ← or_now t.(rt_started_at);
  mret {| ev_event_id := "turn-" +:+ t.(rt_turn_id); ev_ts := ts; ev_source := "agent"; ev_type := "agent.turn.observed";
          ev_severity := if one_of ["errored"; "failed"] t.(rt_status) then "error" else "info"; ev_outcome := "success";
          ev_event_origin := "polling"; ev_trace_id := t.(rt_trace_id); ev_owner_id := Some t.(rt_owner_id);
          ev_companion_id := Some t.(rt_companion_id); ev_device_id := t.(rt_device_id);
          ev_conversation_id := Some t.(rt_conversation_id); ev_turn_id := Some t.(rt_turn_id); ev_job_id := None;
          ev_summary := "Turn " +:+ t.(rt_status) +:+ ": " +:+ pretty t.(rt_memory_hits) +:+ " memory hit(s), " +:+
                        pretty (Z.of_nat (length t.(rt_tool_names))) +:+ " tool(s)";
          ev_payload := [("status", JStr t.(rt_status)); ("latency_ms", jint t.(rt_latency_ms));
                         ("tool_names", strs t.(rt_tool_names)); ("privacy_mode", jopt t.(rt_privacy_mode))] |}.
Definition events_from_turns (turns : list obj) : M X (list RuntimeEvent) := visit event_of_turn turns.
Definition event_of_job (j : RuntimeJob) : M X RuntimeEvent :=
  ts ← or_now (job_time j);
  mret {| ev_event_id := "job-" +:+ j.(rj_job_id); ev_ts := ts; ev_source := "agent"; ev_type := "task.job.updated";
          ev_severity := if one_of ["failed"; "errored"] j.(rj_status) then "error" else "info"; ev_outcome := "success";
          ev_event_origin := "polling"; ev_trace_id := None; ev_owner_id := Some j.(rj_owner_id);
          ev_companion_id := j.(rj_companion_id); ev_device_id := None; ev_conversation_id := j.(rj_conversation_id);
          ev_turn_id := j.(rj_turn_id); ev_job_id := Some j.(rj_job_id);
          ev_summary := j.(rj_provider) +:+ ":" +:+ j.(rj_kind) +:+ " -> " +:+ j.(rj_status);
          ev_payload := [("summary", JStr j.(rj_summary)); ("result_summary", JStr j.(rj_result_summary))] |}.
Definition events_from_jobs (jobs : list RuntimeJob) : M X (list RuntimeEvent) := visit event_of_job jobs.

(** ** Activities *)

Definition voice_stage_node (stage : string) (device_id : option string) : string * string * string :=
  match bool_decide (stage = "playback"), nonempty device_id with
  | true, Some id => ("device", id, "out")
  | _, _ =>
      if one_of ["memory_recall"; "memory_write"] stage then ("memory", "memory", "out")
      else if one_of ["agent_turn"; "brain"; "response"; "tools"] stage then ("service", "agent", "internal")
      else ("service", "channel", if bool_decide (stage = "tts") then "out" else "in")
  end.
Definition stage_hop (t : RuntimeTurn) (index : nat) (o : obj) : result RuntimeRouteHop :=
  let number := pretty (Z.of_nat index) in
  let key := text_or ("stage-" +:+ number) (get "key" o) in
  let '(node_type, node_id, direction) := voice_stage_node key t.(rt_device_id) in
  latency_ms ← int_or_none (get "latency_ms" o);
  Ok (mkHop ("voice:" +:+ t.(rt_turn_id) +:+ ":" +:+ key +:+ ":" +:+ number) node_type node_id
        (text_or key (get "label" o)) key (text_or "pending" (get "status" o)) direction None latency_ms).
Definition is_running (o : obj) : bool := json_eq_str (get "status" o) "running".
Definition voice_activity_summary (t : RuntimeTurn) : string :=
  if activity_is_active t.(rt_status) then
    match next_or_none is_running (rev t.(rt_stages)) with
    | Some o => text_or "" (get "label" o)
    | None => "语音轮次进行中"
    end
  else if bool_decide (t.(rt_status) = "interrupted") then "语音轮次已被用户打断"
  else if bool_decide (t.(rt_outcome) = "failure") then "语音轮次失败"
  else "语音轮次已完成".
Definition voice_activity (t : RuntimeTurn) : result RuntimeActivity :=
  stages ← for_each (λ p, stage_hop t p.1 p.2) (imap pair t.(rt_stages));
  let body := match nonempty t.(rt_device_id) with
    | Some id => [mkHop ("voice:" +:+ t.(rt_turn_id) +:+ ":device-in") "device" id id "input" "done" "in" t.(rt_started_at) None]
    | None => [] end in
  let companion := if bool_decide (t.(rt_companion_id) = "") then [] else
    [mkHop ("voice:" +:+ t.(rt_turn_id) +:+ ":companion") "companion" t.(rt_companion_id) "Companion" "identity" "done" "in"
       t.(rt_started_at) None] in
  let route := body ++ companion ++ stages in
  let running := hp_hop_id <$> next_or_none (λ h, bool_decide (h.(hp_status) = "running")) (rev route) in
  let current := match running with
    | Some _ => running
    | None => if activity_is_active t.(rt_status) then hp_hop_id <$> last route else None end in
  let playback_seen := existsb (λ h, one_of ["tts"; "playback"] h.(hp_stage)) route in
  Ok {| av_activity_id := "voice:" +:+ t.(rt_turn_id); av_kind := "voice_turn"; av_owner_id := t.(rt_owner_id);
        av_companion_id := nonempty (Some t.(rt_companion_id)); av_trace_id := t.(rt_trace_id);
        av_turn_id := Some t.(rt_turn_id); av_job_id := None; av_origin_device_id := t.(rt_device_id);
        av_target_device_ids := match nonempty t.(rt_device_id) with
                                | Some id => if playback_seen then [id] else [] | None => [] end;
        av_status := t.(rt_status); av_outcome := t.(rt_outcome); av_summary := voice_activity_summary t;
        av_current_hop_id := current; av_started_at := t.(rt_started_at);
        av_updated_at := or_some t.(rt_finished_at) t.(rt_started_at); av_finished_at := t.(rt_finished_at);
        av_event_ids := t.(rt_event_ids); av_route := route |}.

Definition job_activity (j : RuntimeJob) : RuntimeActivity :=
  let active := activity_is_active j.(rj_status) in
  let dispatch := mkHop ("job:" +:+ j.(rj_job_id) +:+ ":agent") "service" "agent" "智能体任务编排" "dispatch"
                    (if active then "running" else "done") "out" j.(rj_created_at) None in
  let provider_id := or_str (lower j.(rj_provider)) "agent" in
  let route :=
    if bool_decide (provider_id = "agent") then [dispatch]
    else [dispatch; mkHop ("job:" +:+ j.(rj_job_id) +:+ ":provider") "provider" provider_id
                      (or_str j.(rj_provider) (or_str j.(rj_kind) "后台执行器")) "execute"
                      (if active then "running" else stage_status (JStr j.(rj_status))) "out" (job_time j) None] in
  {| av_activity_id := "job:" +:+ j.(rj_job_id); av_kind := "background_job"; av_owner_id := j.(rj_owner_id);
     av_companion_id := j.(rj_companion_id); av_trace_id := None; av_turn_id := j.(rj_turn_id);
     av_job_id := Some j.(rj_job_id); av_origin_device_id := None; av_target_device_ids := [];
     av_status := j.(rj_status);
     av_outcome := if active then "deferred"
                   else if one_of ["failed"; "error"; "errored"] (lower j.(rj_status)) then "failure" else "success";
     av_summary := or_str j.(rj_summary) (j.(rj_provider) +:+ ":" +:+ j.(rj_kind));
     av_current_hop_id := if active then hp_hop_id <$> last route else None; av_started_at := j.(rj_created_at);
     av_updated_at := job_time j; av_finished_at := j.(rj_completed_at); av_event_ids := []; av_route := route |}.

(** What kind of activity an event is, and whether it goes out to a body. *)
Definition event_kind (e : RuntimeEvent) : option (string * bool) :=
  let lowered := lower e.(ev_type) in
  if contains "command" lowered then Some ("device_command", true)
  else if begins "guard." lowered || contains ".guard." lowered then Some ("guard_event", false)
  else if (if nonempty e.(ev_device_id) is Some _ then true else false) &&
          (bool_decide (e.(ev_source) = "hub") || begins "device." lowered) then Some ("device_event", false)
  else None.
Definition event_activity (e : RuntimeEvent) : option RuntimeActivity :=
  '(kind, outbound) ← event_kind e;
  let direction := if outbound : bool then "out" else "in" in
  let device := match nonempty e.(ev_device_id) with Some id => [("device", id, id)] | None => [] end in
  let companion := match nonempty e.(ev_companion_id) with Some id => [("companion", id, "Companion")] | None => [] end in
  let endpoints := (if outbound then companion else device) ++ [("service", "hub", "设备中枢")] ++
                   (if outbound then device else companion) in
  let status := text_or "completed" (get "status" e.(ev_payload)) in
  let active := activity_is_active status in
  let route := imap (λ index n,
    mkHop ("event:" +:+ e.(ev_event_id) +:+ ":" +:+ pretty (Z.of_nat index)) n.1.1 n.1.2 n.2
      (if outbound then "command" else "observe")
      (if active && bool_decide (S index = length endpoints) then "running" else "done") direction (Some e.(ev_ts)) None)
    endpoints in
  Some {| av_activity_id := "event:" +:+ e.(ev_event_id); av_kind := kind; av_owner_id := default "" e.(ev_owner_id);
          av_companion_id := e.(ev_companion_id); av_trace_id := e.(ev_trace_id); av_turn_id := e.(ev_turn_id);
          av_job_id := e.(ev_job_id); av_origin_device_id := if outbound then None else e.(ev_device_id);
          av_target_device_ids := match nonempty e.(ev_device_id) with
                                  | Some id => if outbound then [id] else [] | None => [] end;
          av_status := status; av_outcome := if active then "deferred" else e.(ev_outcome); av_summary := e.(ev_summary);
          av_current_hop_id := if active then hp_hop_id <$> last route else None; av_started_at := Some e.(ev_ts);
          av_updated_at := Some e.(ev_ts); av_finished_at := if active then None else Some e.(ev_ts);
          av_event_ids := [e.(ev_event_id)]; av_route := route |}.

(** ** Room for everybody *)

Definition is_active (a : RuntimeActivity) : bool := activity_is_active a.(av_status).
Definition activity_time (a : RuntimeActivity) : Z := instant (or_some a.(av_updated_at) a.(av_started_at)).
(** Active ones first, then the latest. *)
Definition activity_first (a b : RuntimeActivity) : bool :=
  if Bool.eqb (is_active a) (is_active b) then (activity_time b <=? activity_time a)%Z else is_active a.
Definition scope_of (a : RuntimeActivity) : string :=
  default ("owner:" +:+ a.(av_owner_id)) (nonempty a.(av_companion_id)).
Definition PER_SCOPE : nat := 12.
Definition IN_ALL : nat := 48.
Fixpoint bounded (l : list RuntimeActivity) (per_scope : list (string * nat)) (shown : nat) : list RuntimeActivity :=
  match l with
  | [] => []
  | a :: l' =>
      let seen := default 0 (dict_get (scope_of a) per_scope) in
      if bool_decide (PER_SCOPE ≤ seen) && negb (is_active a) then bounded l' per_scope shown
      else a :: (if bool_decide (IN_ALL ≤ S shown) then []
                 else bounded l' (dict_set (scope_of a) (S seen) per_scope) (S shown))
  end.
Definition all_activities (turns : list RuntimeTurn) (jobs : list RuntimeJob) (events : list RuntimeEvent) :
    result (list RuntimeActivity) :=
  voices ← for_each voice_activity turns;
  Ok (voices ++ (job_activity <$> jobs) ++ omap event_activity events).
Definition project_runtime_activities (turns : list RuntimeTurn) (jobs : list RuntimeJob) (events : list RuntimeEvent) :
    result (list RuntimeActivity) :=
  activities ← all_activities turns jobs events;
  Ok (bounded (sort_by activity_first activities) [] 0).
End Activities.
