(* ===== verification/MissionConsole.v ===== *)
(** * Mission Control: the console

    [app/mission_control/service.py]: what the composition makes of its
    readings, from the memory summary to the panels of the operator's screen,
    and a page of the Owner's history. *)

From Stdlib Require Import Floats.SpecFloat.
From stdpp Require Import pretty.
From S2P Require Import Prelude Encoding Timestamp IsoFormat Control Upstream ManagementViews HostMachine Lanes MissionViews.
From S2P Require Import MissionControl MissionText MissionTurns MissionActivities.

Abbreviation shown_nat := (λ n : nat, pretty (Z.of_nat n)).
(** [round(done / total * 100)] *)
Definition percent (done total : nat) : Z := round_half_even (Z.of_nat (100 * done)) (Z.of_nat total).
(** As the doubles of the code have it, for the totals it uses. *)
Example percent_double :
  forallb (λ total, forallb (λ done,
    match q ← true_div (Whole (Z.of_nat done)) (Whole (Z.of_nat total));
          rounded (SFmul 53 1024 q (binary_normalize 53 1024 100 0 false)) with
    | Ok z => (z =? percent done total)%Z
    | Raise _ => false
    end) (seq 0 (S total))) [3; 4; 10] = true.
Proof. by vm_compute. Qed.

(** Whether there are any, and whether there is one. *)
Definition some {A} (l : list A) : bool := if l is [] then false else true.
Definition known {A} (o : option A) : bool := if o is Some _ then true else false.

(** ** Permissions *)

Definition PERMISSION_KINDS : list (list string * (string * string * string)) :=
  [(["camera"; "photo"; "vision"], ("camera.take_photo", "sensitive", "not_stored"));
   (["room.join"], ("room.join", "operation", "n/a")); (["identify"], ("device.identify", "operation", "n/a"));
   (["volume"], ("device.volume", "operation", "n/a")); (["brightness"], ("device.brightness", "operation", "n/a"));
   (["command"], ("device.command", "operation", "n/a"))].
Definition permission_of (e : RuntimeEvent) : option PermissionLedgerItem :=
  let blob := lower (e.(ev_type) +:+ " " +:+ e.(ev_summary)) in
  '(_, (kind, privacy_level, retention)) ← next_or_none (λ m, contains_any m.1 blob) PERMISSION_KINDS;
  Some (mkPermission (Some e.(ev_ts)) kind e.(ev_device_id)
          (if contains "->" e.(ev_summary) then strip (after_last "->" e.(ev_summary)) else "") privacy_level retention
          e.(ev_summary)).
Definition permission_ledger (events : list RuntimeEvent) : list PermissionLedgerItem := take 20 (omap permission_of events).

(** ** Evidence *)

Definition chain (key title claim : string) (steps : list EvidenceStep) : EvidenceChain :=
  let done := count_where es_done steps in
  let total := length steps in
  mkChain key title claim (if bool_decide (done = total) then "proven" else if bool_decide (done = 0) then "pending" else "partial")
    (percent done total) steps.
Definition is_online (d : RuntimeDevice) : bool := d.(rd_online).
Definition evidence_chains (companion : option CompanionRef) (devices : list RuntimeDevice) (memory : RuntimeMemory)
    (jobs : list RuntimeJob) (ledger : list PermissionLedgerItem) : list EvidenceChain :=
  let online := count_where is_online devices in
  let has_camera := existsb (λ d, one_of d.(rd_capabilities) "camera.snapshot" || contains "camera" (lower d.(rd_kind))) devices in
  let camera_grant := next_or_none (λ i, bool_decide (i.(pm_kind) = "camera.take_photo")) ledger in
  let granted := known camera_grant in
  let active_jobs := List.filter (λ j, one_of ["running"; "queued"; "accepted"; "pending"; "active"] (lower j.(rj_status))) jobs in
  let done_jobs := List.filter (λ j, one_of ["succeeded"; "done"; "completed"] (lower j.(rj_status))) jobs in
  let written := known memory.(me_last_write_disposition) in
  [chain "cross_body_memory" "跨身体记忆" "同一伙伴的身份与记忆不绑定任何单一硬件。"
     [mkStep "bodies" "多身体在线" (bool_decide (2 ≤ length devices)) (shown_nat online +:+ "/" +:+ shown_nat (length devices) +:+ " 在线");
      mkStep "identity" "同一身份与记忆域" (known companion && (0 <? memory.(me_realms_total))%Z) "";
      mkStep "write" "记忆写入" written "";
      mkStep "recall" "跨身体召回命中" (0 <? memory.(me_last_recall_hits))%Z (pretty memory.(me_last_recall_hits) +:+ " hit")];
   chain "vision_permission" "视觉授权" "摄像头是受权限管理的视觉身体，默认只留摘要、不扩散原图。"
     [mkStep "capability" "视觉身体" has_camera "";
      mkStep "authorized" "授权调用摄像头" granted (from pm_summary "" camera_grant);
      mkStep "retention" "仅摘要 · 不留原图" granted ""];
   chain "coworker_task" "Coworker 任务" "前台对话可把上下文交给后台数字员工并回报产物。"
     [mkStep "delegate" "任务交办" (some jobs) "";
      mkStep "running" "后台执行" (some active_jobs || some done_jobs) "";
      mkStep "artifact" "产物完成" (existsb (λ j, negb (bool_decide (j.(rj_result_summary) = ""))) done_jobs) "";
      mkStep "report" "回报 / 落库" (some done_jobs) ""]].

Section Console.
Context (py_str : json → string).
Abbreviation text_or := (MissionText.text_or py_str).
Abbreviation stage_status := (MissionText.stage_status py_str).
Abbreviation friendly_status := (MissionText.friendly_status py_str).
Abbreviation friendly_memory_write := (λ o, MissionText.friendly_memory_write py_str (jopt o)).

(** ** Spans *)

Definition trace_spans (t : RuntimeTurn) : result (list RuntimeTraceSpan) :=
  stages ← for_each (λ o,
    let key := text_or "stage" (get "key" o) in
    latency_ms ← int_or_none (get "latency_ms" o);
    Ok (mkSpan (t.(rt_turn_id) +:+ ":" +:+ key) t.(rt_turn_id) (text_or key (get "label" o)) key
          (text_or "done" (get "status" o)) latency_ms (text_or "" (get "detail" o)))) t.(rt_stages);
  Ok (stages ++ imap (λ i tool,
    mkSpan (t.(rt_turn_id) +:+ ":tool:" +:+ shown_nat i) t.(rt_turn_id) tool "tool" "done" None "tool call") t.(rt_tool_names)).

(** ** Events that matter to a panel *)

Definition is_sensor_event (e : RuntimeEvent) : bool :=
  contains_any ["camera"; "sensor"; "photo"; "vision"; "command"; "device.command"]
    (lower (e.(ev_type) +:+ " " +:+ e.(ev_summary) +:+ " " +:+ default "" e.(ev_device_id))).
Definition latest_event (token : string) (events : list RuntimeEvent) : option RuntimeEvent :=
  next_or_none (λ e, contains (lower token) (lower (e.(ev_type) +:+ " " +:+ e.(ev_summary) +:+ " "))) events.

(** ** Bodies *)

Definition is_prepared_web_body (d : RuntimeDevice) : bool :=
  let source := lower (text_or "" (get "source" d.(rd_signals))) in
  negb d.(rd_online) && bool_decide (lower d.(rd_kind) = "web") &&
  (bool_decide (d.(rd_status) = "active") || one_of ["data"; "hub+data"] source).
Definition device_lane_status (d : RuntimeDevice) : string :=
  if d.(rd_online) then "done"
  else if is_prepared_web_body d then "idle"
  else if bool_decide (d.(rd_status) = "degraded") then "degraded" else "idle".
Definition device_lane_detail (d : RuntimeDevice) : string :=
  let caps := joined_by "、" (friendly_capability <$> take 4 d.(rd_capabilities)) in
  let suffix := if bool_decide (caps = "") then "" else " · " +:+ caps in
  if is_prepared_web_body d then "已准备，可启动" +:+ suffix
  else if d.(rd_online) then "在线" +:+ suffix
  else or_str caps "等待连接".

(** ** The panels *)

Definition experience_completion (devices : list RuntimeDevice) (services : list RuntimeService)
    (activities : list RuntimeActivity) (memory : RuntimeMemory) (jobs : list RuntimeJob) (events : list RuntimeEvent) : Z :=
  let checks :=
    [some devices; existsb is_online devices; some services && existsb rs_online services;
     existsb is_active activities; (0 <? memory.(me_realms_total))%Z;
     (0 <? memory.(me_last_recall_hits))%Z || (known memory.(me_last_write_disposition));
     some jobs; existsb is_sensor_event events; existsb (λ e, bool_decide (e.(ev_source) = "hub")) events;
     existsb (λ e, one_of ["agent"; "memory"; "channel"] e.(ev_source)) events] in
  percent (count_where id checks) (length checks).

Definition storyline (devices : list RuntimeDevice) (voice : option RuntimeTurn) (memory : RuntimeMemory)
    (jobs : list RuntimeJob) (events : list RuntimeEvent) : list RuntimeStoryStep :=
  let latest_device := or_some (next_or_none is_online devices) (head devices) in
  let camera_event := next_or_none is_sensor_event events in
  let turn_event := latest_event "turn" events in
  let job := head jobs in
  let latest_ts := ev_ts <$> head events in
  [mkStoryStep "body" "身体接入"
     (from (λ d, or_str d.(rd_name) d.(rd_device_id) +:+ " 可以作为输入/输出身体") "还没有检测到可展示的身体" latest_device)
     (if known latest_device then "done" else "pending") "hub" (from rd_last_seen_at None latest_device);
   mkStoryStep "identity" "身份归一" "无论从哪个身体进入，都会解析到同一个 owner、companion 和记忆空间。" "done" "data" latest_ts;
   mkStoryStep "turn" "智能体处理"
     (match voice, turn_event with
      | Some t, _ => "最近一次交互状态：" +:+ friendly_status (JStr t.(rt_status))
      | None, Some e => "最近一次交互事件：" +:+ e.(ev_summary)
      | None, None => "等待一次真实对话或 PTT 输入"
      end)
     (match voice with Some t => stage_status (JStr t.(rt_status)) | None => if known turn_event then "done" else "pending" end)
     "agent" (match voice with Some t => t.(rt_started_at) | None => ev_ts <$> turn_event end);
   mkStoryStep "memory" "记忆参与"
     ("本轮召回 " +:+ pretty memory.(me_last_recall_hits) +:+ " 条记忆，写入策略：" +:+
      friendly_memory_write memory.(me_last_write_disposition) +:+ "。")
     (if (memory.(me_realms_total) =? 0)%Z then "pending" else "done") "memory" latest_ts;
   mkStoryStep "tools" "行动调度"
     (from (λ j, j.(rj_provider) +:+ ":" +:+ j.(rj_kind) +:+ " 最近更新，状态 " +:+ friendly_status (JStr j.(rj_status)) +:+ "。")
        "整理资料、拍照、控制设备等行动会进入这里。" job)
     (from (λ j, stage_status (JStr j.(rj_status))) "pending" job) "agent" (from job_time None job);
   mkStoryStep "permission" "权限可见"
     (from (λ e, "最近一次设备/传感器事件：" +:+ e.(ev_summary)) "摄像头、麦克风和设备控制默认只展示授权与摘要。" camera_event)
     (if known camera_event then "done" else "pending") "hub" (ev_ts <$> camera_event)].

(** [f"{v} ms"], when there is one *)
Definition stage_item (o : obj) : RuntimeLaneItem :=
  mkLaneItem (text_or "" (get "label" o)) (friendly_status (get "status" o)) (text_or "pending" (get "status" o))
    (match get "latency_ms" o with JNull => "" | v => Upstream.str_of py_str v +:+ " ms" end).
Definition experience_lanes (devices : list RuntimeDevice) (services : list RuntimeService) (voice : option RuntimeTurn)
    (memory : RuntimeMemory) (jobs : list RuntimeJob) (events : list RuntimeEvent) (degraded : list SourceStatus) : list RuntimeLane :=
  let online := count_where is_online devices in
  let sensor_events := List.filter is_sensor_event events in
  let service_online := count_where rs_online services in
  [mkLane "body" "身体网络" (shown_nat online +:+ "/" +:+ shown_nat (length devices) +:+ " 个身体在线")
     "2.06、BOX-3、摄像头板和 Web body 都可以成为同一个 companion 的入口。"
     (if bool_decide (online = 0) then (if some devices then "idle" else "pending") else "done")
     ((λ d, mkLaneItem d.(rd_role) (or_str d.(rd_name) d.(rd_device_id)) (device_lane_status d) (device_lane_detail d)) <$> take 5 devices);
   mkLane "turn" "一次交互"
     (from (λ t, "最近一次交互：" +:+ friendly_status (JStr t.(rt_status))) "等待用户开口" voice)
     "这里展示从身体输入到智能体回应的关键步骤，不展示私密原文。"
     (from (λ t, stage_status (JStr t.(rt_status))) "pending" voice) (stage_item <$> from rt_stages [] voice);
   mkLane "memory" "记忆"
     ("召回 " +:+ pretty memory.(me_last_recall_hits) +:+ " 条，" +:+ pretty memory.(me_realms_total) +:+ " 个记忆空间")
     "记忆用于让 companion 跨身体保持连续，但默认只显示数量、策略和摘要。"
     (if (memory.(me_realms_total) =? 0)%Z then "pending" else "done")
     [mkLaneItem "活跃记忆空间" (or_str memory.(me_active_realm_id) "未配置")
        (if bool_decide (memory.(me_active_realm_id) = "") then "pending" else "done") "";
      mkLaneItem "写入策略" (friendly_memory_write memory.(me_last_write_disposition))
        (if memory.(me_fanout_allowed) then "done" else "idle") "";
      mkLaneItem "记忆后台" (pretty memory.(me_runners_online) +:+ "/" +:+ pretty memory.(me_runners_total) +:+ " 在线")
        (if (memory.(me_runners_online) =? 0)%Z then "idle" else "done") ""];
   mkLane "task" "行动调度" (if some jobs then shown_nat (length jobs) +:+ " 个任务可见" else "还没有后台任务")
     "整理、查询、生成和委托类行动会在这里持续推进。"
     (if existsb (λ j, bool_decide (stage_status (JStr j.(rj_status)) = "running")) jobs then "running"
      else if some jobs then "done" else "pending")
     ((λ j, mkLaneItem j.(rj_kind) (friendly_status (JStr j.(rj_status))) (stage_status (JStr j.(rj_status))) j.(rj_summary)) <$> take 4 jobs);
   mkLane "permission" "权限与传感器"
     (if some sensor_events then shown_nat (length sensor_events) +:+ " 条设备/传感器摘要" else "高敏能力默认可审计")
     "摄像头、麦克风和设备控制不会把原始内容直接摊在大屏上。" (if some sensor_events then "done" else "pending")
     ((λ e, mkLaneItem (friendly_event_type e.(ev_type)) (friendly_source e.(ev_source)) (stage_status (JStr e.(ev_severity)))
              e.(ev_summary)) <$> take 4 sensor_events);
   mkLane "runtime" "运行底座" (shown_nat service_online +:+ "/" +:+ shown_nat (length services) +:+ " 个服务在线")
     "这些服务共同支撑身份解析、设备连接、Agent 推理、记忆和任务。" (if some degraded then "degraded" else "done")
     ((λ s, mkLaneItem (friendly_service_name s.(rs_service_id) s.(rs_name))
              (if s.(rs_online) then "在线" else if s.(rs_checked) then "离线" else "未配置")
              (if s.(rs_online) then "done" else "degraded") s.(rs_detail)) <$> take 7 services)].

Definition capability_cards (devices : list RuntimeDevice) (services : list RuntimeService) (voice : option RuntimeTurn)
    (memory : RuntimeMemory) (jobs : list RuntimeJob) (events : list RuntimeEvent) : list RuntimeCapabilityCard :=
  let snapshots := existsb (λ d, one_of d.(rd_capabilities) "camera.snapshot") devices in
  [mkCard "multi_body" "多身体" (if some devices then "done" else "pending")
     (shown_nat (count_where is_online devices) +:+ "/" +:+ shown_nat (length devices)) "同一个 companion 可以通过不同硬件出现。";
   mkCard "memory" "主权记忆" (if (memory.(me_realms_total) =? 0)%Z then "pending" else "done")
     (pretty memory.(me_last_recall_hits)) "记忆跟随 owner，而不是绑死在某台设备。";
   mkCard "voice" "语音链路" (if known voice then "done" else "pending") (if known voice then "已接入" else "待触发")
     "语音输入会进入身份解析、Agent 和记忆链路。";
   mkCard "vision" "视觉/传感器" (if snapshots then "done" else "pending")
     (if snapshots || existsb is_sensor_event events then "可见" else "待接入") "高敏输入默认展示授权和摘要，不展示原始图像。";
   mkCard "tasks" "后台任务" (if some jobs then "done" else "pending") (shown_nat (length jobs)) "复杂任务可以离开当前对话独立执行。";
   mkCard "services" "运行底座"
     (if some services && forallb (λ s, s.(rs_online) || negb s.(rs_checked)) services then "done" else "degraded")
     (shown_nat (count_where rs_online services) +:+ "/" +:+ shown_nat (length services))
     "Hub、Agent、Memory、Admin 等服务共同构成 Agent OS。"].

(** [_experience]; the Owner and the Companion by the name they are shown with. *)
Definition SETTLED_JOB_STATES : list string := ["ok"; "done"; "succeeded"; "completed"; "failed"; "errored"].
Definition experience (owner : OwnerRecord) (companion : option CompanionRef) (devices : list RuntimeDevice)
    (services : list RuntimeService) (activities : list RuntimeActivity) (voice : option RuntimeTurn) (memory : RuntimeMemory)
    (jobs : list RuntimeJob) (events : list RuntimeEvent) (source_status : list SourceStatus) : RuntimeExperience :=
  let online := count_where is_online devices in
  let companion_name := or_str (from cr_display_name "" companion) (or_str (from cr_companion_id "" companion) "伙伴") in
  let owner_name := or_str owner.(ow_display_name) (or_str owner.(ow_owner_id) "当前用户") in
  let running_jobs := List.filter (λ j, negb (one_of SETTLED_JOB_STATES j.(rj_status))) jobs in
  let degraded := List.filter (λ s, negb s.(ss_ok)) source_status in
  let active := List.filter is_active activities in
  let '(headline, subheadline) :=
    if known voice then (companion_name +:+ " 正在处理一次来自身体的交互", "身份、记忆、工具和设备状态正在被串成一条可见链路。")
    else if some active then
      (owner_name +:+ " 有 " +:+ shown_nat (length active) +:+ " 条运行活动", "Guard、设备事件、指令和后台任务各自保留独立路径，不依赖语音轮次。")
    else if some running_jobs then
      (companion_name +:+ " 有后台任务正在推进", "前台可以继续交流，后台任务会独立执行并在完成后回到同一个 companion。")
    else if known (latest_event "turn" events) then
      (companion_name +:+ " 最近完成了一次跨系统交互", "身体、身份、记忆、行动和权限状态已经汇入当前运行视图。")
    else if negb (bool_decide (online = 0)) then
      (companion_name +:+ " 已连接 " +:+ shown_nat online +:+ " 个身体", "这些身体共享同一个身份、记忆和权限边界，不是彼此孤立的聊天入口。")
    else (companion_name +:+ " 的 Agent OS 待命中", "连接硬件或发起一次对话后，这里会显示系统如何调度身体、记忆和任务。") in
  {| xp_headline := headline; xp_subheadline := subheadline;
     xp_plain_summary :=
       owner_name +:+ " 面前看到的是一个 companion；这块屏幕展示的是背后的 Agent OS：" +:+ shown_nat (length devices) +:+
       " 个身体、" +:+ pretty memory.(me_realms_total) +:+ " 个记忆空间、" +:+ shown_nat (length services) +:+
       " 个运行服务，以及最近 " +:+ shown_nat (length events) +:+ " 条安全摘要事件。";
     xp_system_state := if some active then "active" else if some running_jobs then "working"
                        else if some events then "watching" else "standby";
     xp_completion := experience_completion devices services activities memory jobs events;
     xp_storyline := storyline devices voice memory jobs events;
     xp_lanes := experience_lanes devices services voice memory jobs events degraded;
     xp_capability_cards := capability_cards devices services voice memory jobs events;
     xp_next_best_action :=
       if some degraded then "有 " +:+ shown_nat (length degraded) +:+ " 个信息源暂时不可用；当前链路仍会持续显示已接入的实时状态。"
       else if negb (some devices) then "先绑定或启动一个硬件身体，大屏会立刻出现身体拓扑。"
       else if negb (some active) then "对 2.06、BOX-3 或 Web body 说一句话，观察身份、记忆和任务链路如何亮起。"
       else "继续观察这次交互：回应完成后，记忆写入和任务状态会回到这里。" |}.

(** ** The memory *)

(** [_memory_summary], of the realms that are the Owner's. *)
Definition memory_summary (realms : list MemoryRealm) (status : option MemoryStatus) (turns : list obj) : result RuntimeMemory :=
  latest ← match turns with row :: _ => t ← turn py_str row; Ok (Some t) | [] => Ok None end;
  let observability := from (λ row, dict_or_empty (get "observability_summary" row)) [] (head turns) in
  let recalled := dict_or_empty (get "memory" observability) in
  let written := dict_or_empty (get "memory_write" observability) in
  let realm_id r := text_or "" (get "memory_realm_id" r.(rl_spec)) in
  let active := from realm_id "" (next_or_none (λ r, json_truthy (get "enabled" r.(rl_spec))) realms) in
  hits ← int_of (json_or (get "hit_count" recalled) (JInt (from rt_memory_hits 0%Z latest)));
  let state := from mm_materialization_state "unavailable" status in
  let pending := from mm_projection_pending 0%Z status in
  Ok {| me_realms_total := Z.of_nat (length realms);
        me_active_realm_id := or_str active (from realm_id "" (head realms));
        me_runners_total := Z.of_nat (length realms);
        me_runners_online := Z.of_nat (count_where (λ r, json_truthy (get "worker_running" r.(rl_health))) realms);
        me_audience_scope := from mm_audience_scope "" status; me_data_readable := from mm_data_readable false status;
        me_materialization_state := or_str state "unavailable"; me_projection_pending := pending;
        me_last_materialized_at := from mm_last_materialized_at None status;
        me_degraded_reason := from mm_degraded_reason "" status; me_last_recall_hits := hits;
        me_last_write_disposition := str_or_none py_str (get "disposition" written);
        me_fanout_allowed := json_truthy (get "fanout_allowed" written);
        me_privacy_mode := str_or_none py_str (get "privacy_mode" observability);
        me_summary := state +:+ "; " +:+ pretty pending +:+ " pending" |}.
End Console.

(** ** The composition *)

Definition runtime_companion (c : CompanionRef) : RuntimeCompanion :=
  mkRuntimeCompanion c.(cr_companion_id) c.(cr_display_name) c.(cr_kind) c.(cr_lifecycle_state) c.(cr_current_genome_id)
    c.(cr_default_memory_realm_id).
Definition event_latest_first (a b : RuntimeEvent) : bool := (b.(ev_ts) <=? a.(ev_ts))%Z.

Section Composition.
Context {X : Type} `{!UtcClock X}.
Context (py_str : json → string) (sha1_hexdigest : bytes → string) (float_text : string → result spec_float).

(** What becomes of the readings of a known Owner.  Data's jobs and events are
    read by nobody: both are empty here, as they are in the code. *)
Definition snapshot_of (generated_at : Z) (demo_mode : string) (r : Readings) (owner : OwnerRecord)
    (source_status : list SourceStatus) : M X RuntimeSnapshot :=
  let jobs : list DataJobRow := [] in
  let data_events : list DataEventRow := [] in
  memory ← lift (memory_summary py_str r.(rg_realms) r.(rg_memory_status) r.(rg_turns));
  tasks ← lift (for_each (long_task_job py_str sha1_hexdigest) r.(rg_tasks));
  let runtime_jobs := dedupe_jobs ((job py_str sha1_hexdigest <$> jobs) ++ tasks) in
  events ← events_from_data py_str sha1_hexdigest data_events;
  let data_runtime_events := enrich_event_scope events r.(rg_devices) in
  of_turns ← events_from_turns py_str (take 5 r.(rg_turns));
  of_jobs ← events_from_jobs (take 5 runtime_jobs);
  let recent_events := take 120 (sort_by event_latest_first (data_runtime_events ++ of_turns ++ of_jobs)) in
  agent_turns ← lift (for_each (turn py_str) r.(rg_turns));
  runtime_turns ← lift (project_runtime_turns py_str float_text data_runtime_events agent_turns);
  let voice := primary_active_voice_turn runtime_turns in
  activities ← lift (project_runtime_activities py_str runtime_turns runtime_jobs recent_events);
  let experience := experience py_str owner r.(rg_default_companion) r.(rg_devices) r.(rg_services) activities voice memory
                      runtime_jobs recent_events source_status in
  spans ← lift (for_each (trace_spans py_str) (take 12 runtime_turns));
  let ledger := permission_ledger recent_events in
  mret {| sn_generated_at := generated_at;
          sn_owner := Some (mkRuntimeOwner owner.(ow_owner_id) owner.(ow_display_name) "" owner.(ow_lifecycle_state));
          sn_companion := runtime_companion <$> r.(rg_default_companion);
          sn_companions := runtime_companion <$> r.(rg_companions);
          sn_default_companion_id := owner.(ow_default_companion_id); sn_devices := r.(rg_devices);
          sn_services := r.(rg_services); sn_activities := activities; sn_recent_turns := runtime_turns;
          sn_memory := memory; sn_jobs := runtime_jobs; sn_recent_events := recent_events;
          sn_source_status := source_status; sn_runtime_blackboard := r.(rg_blackboard); sn_experience := experience;
          sn_trace_spans := concat spans;
          sn_evidence_chains := evidence_chains r.(rg_default_companion) r.(rg_devices) memory runtime_jobs ledger;
          sn_permission_ledger := ledger; sn_demo_mode := demo_mode |}.

Context `{!Clock X} `{!RuntimeAuthorities X} `{!Http X}.
Context (py_repr : string → string) (class_name exn_str : exn → string)
  (loads : bytes → result json) (registry : string → option ServiceConfig) (environ : string → option string).
Abbreviation W := (LaneLedger * X)%type.

(** [compose_runtime], to its end *)
Definition composition (control_plane : bool) (owner_id : option string) (demo_mode : string) : M W RuntimeSnapshot :=
  generated_at ← out now;
  readings ← compose_readings py_repr class_name exn_str py_str loads registry environ control_plane owner_id;
  source_status ← gets (λ w : W, statuses w.1);
  match readings.(rg_owner) with
  | None => mret (empty_snapshot generated_at source_status)
  | Some owner => out (snapshot_of generated_at demo_mode readings owner source_status)
  end.
Definition build_snapshot (control_plane : bool) (owner_id : option string) (demo_mode : string) : M X RuntimeSnapshot := λ x,
  let '(r, w) := composition control_plane owner_id demo_mode (new_ledger, x) in (r, w.2).

(** ** A page of history *)

(** [_stamp_iso] *)
Definition stamp_iso (t : Z) : string := timestamp t.
Definition owner_activity_page (owner_id : string) (before : option string) (limit : Z) :
    M X (list RuntimeActivity * option string * string) := λ x,
  let '(r, w) := (rows ← agent_turns py_repr exn_str loads registry environ owner_id limit before;
    l ← gets fst;
    activities ← lift (for_each (λ row, t ← turn py_str row; voice_activity py_str t) rows);
    let cursor :=
      match last activities with
      | Some oldest => if (Z.of_nat (length rows) =? limit)%Z then stamp_iso <$> oldest.(av_started_at) else None
      | None => None
      end in
    mret (activities, cursor, activity_page_failure l)) (new_ledger, x) in (r, w.2).
End Composition.
