(* ===== verification/MissionStream.v ===== *)
(** * Mission Control: the stream and the raw blackboard

    [app/mission_control/router.py], [blackboard.py] and [replay.py]: the frames
    of the operator's event stream, where a reader resumes, one poll of the
    audit tail, one line of Hub's stream, recorded frames, and the blackboard
    read as it stands. *)

From stdpp Require Import pretty.
From S2P Require Import Prelude Encoding Timestamp IsoFormat Control Upstream ManagementViews MissionViews.
From S2P Require Import MissionControl MissionText MissionTurns MissionActivities.

(** [uuid4().hex] *)
Class Uuid4 (X : Type) := { uuid4_hex : X → string * X }.
(** [DEVICE_BLACKBOARD_BUCKET] read by key; the names are the SDK's. *)
Class BlackboardStore (X : Type) := {
  kv_available : bool;
  kv_open_bucket : string → M X unit;
  kv_list_keys : string → string → M X (list string);
  kv_get : string → string → M X (option bytes) }.

(** A frame of the stream: a comment, or an event with where it stands. *)
Inductive frame := Comment (text : string) | EventFrame (e : RuntimeEvent) (position : option Z).

Section Stream.
Context {X : Type} `{!UtcClock X} `{!Uuid4 X}.
Context (py_str : json → string) (sha1_hexdigest : bytes → string) (exn_str : exn → string) (loads : bytes → result json).
Abbreviation text_or := (MissionText.text_or py_str).
Abbreviation str_or_none := (MissionText.str_or_none py_str).
Abbreviation safe_object := (MissionText.safe_object py_str sha1_hexdigest).

Definition fresh (prefix : string) : M X string := λ x, let '(h, x') := uuid4_hex x in (Ok (prefix +:+ h), x').
(** An event of nobody in particular. *)
Definition plain_event (event_id : string) (ts : Z) (source origin type severity : string) (device_id : option string)
    (summary : string) (payload : obj) : RuntimeEvent :=
  {| ev_event_id := event_id; ev_ts := ts; ev_source := source; ev_type := type; ev_severity := severity;
     ev_outcome := "success"; ev_event_origin := origin; ev_trace_id := None; ev_owner_id := None; ev_companion_id := None;
     ev_device_id := device_id; ev_conversation_id := None; ev_turn_id := None; ev_job_id := None; ev_summary := summary;
     ev_payload := payload |}.

(** [hub_event_to_runtime] *)
Definition hub_event_to_runtime (raw : obj) : M X RuntimeEvent :=
  arrived ← now;
  let event_type := text_or "hub.event" (get "type" raw) in
  if bool_decide (event_type = "probe_cycle") then
    detected ← lift (count_of (get "detected" raw));
    ignored ← lift (count_of (get "ignored" raw));
    event_id ← fresh "mc-hub-";
    at_time ← lift (parse_dt (get "at" raw));
    mret (plain_event event_id (default arrived at_time) "hub" "live" "device.presence.probe_cycle" "info" None
            ("Hub probe detected " +:+ pretty detected +:+ " known device(s)")
            [("detected", JInt detected); ("ignored", JInt ignored)])
  else if bool_decide (event_type = "command_updated") then
    let status := text_or "unknown" (get "status" raw) in
    let op := text_or "device.command"
                (json_or (get "op" raw) (match get "payload" raw with JObj p => get "op" p | _ => JStr "" end)) in
    let severity := if one_of ["failed"; "timeout"; "rejected"] status then "error" else "info" in
    event_id ← (let v := get "command_id" raw in
                if json_truthy v then mret (Upstream.str_of py_str v) else fresh "mc-hub-");
    at_time ← lift (parse_dt (json_or (get "updated_at" raw) (get "created_at" raw)));
    mret (plain_event event_id (default arrived at_time) "hub" "live" "device.command.updated" severity
            (str_or_none (get "device_id" raw)) (op +:+ " -> " +:+ status)
            (safe_object [("command_id", get "command_id" raw); ("op", JStr op); ("status", JStr status); ("qos", get "qos" raw);
                          ("priority", get "priority" raw); ("error", get "error" raw)]))
  else
    event_id ← fresh "mc-hub-";
    mret (plain_event event_id arrived "hub" "polling" ("hub." +:+ event_type) "info" None ("Hub event: " +:+ event_type)
            (safe_object raw)).

(** [enrich_runtime_event]: nothing to resolve it against. *)
Definition enrich_runtime_event (e : RuntimeEvent) : RuntimeEvent := e.
Definition event_in_owner_scope (e : RuntimeEvent) (owner_id : option string) : bool :=
  match owner_id with None => true | Some o => bool_decide (e.(ev_owner_id) = Some o) end.
Definition startup_event (origin : string) : M X RuntimeEvent :=
  event_id ← fresh "mc-start-"; ts ← now;
  mret (plain_event event_id ts "mission_control" origin "mission_control.connected" "info" None
          "Mission Control event stream connected" []).

(** [_cursor]: where a reader says it stopped. *)
Definition cursor (last_event_id : option string) : result (option Z) :=
  let s := strip (default "" last_event_id) in
  if bool_decide (s = "") then Ok None
  else match fromisoformat s with Some t => u ← as_utc t; Ok (Some u) | None => Ok None end.

(** One line of Hub's stream, for a reader who selected an Owner or nobody. *)
Definition hub_line (owner_id : option string) (line : string) : M X (option frame) :=
  if bool_decide (line = "") then mret None
  else if begins ":" line then mret (Some (Comment "hub keepalive"))
  else if negb (begins "data:" line) then mret None
  else
    let raw_text := strip (string_of_list_ascii (drop 5 (list_ascii_of_string line))) in
    if bool_decide (raw_text = "") || bool_decide (raw_text = "{}") then mret (Some (Comment "hub ping"))
    else
      match loads (list_ascii_of_string raw_text) with
      | Raise (JSONDecodeError _ | ValueError _) => mret None
      | Raise e => raise e
      | Ok raw =>
          e ← hub_event_to_runtime (match raw with JObj o => o | v => [("payload", v)] end);
          let e := enrich_runtime_event e in
          mret (if event_in_owner_scope e owner_id then Some (EventFrame e None) else None)
      end.
(** What is shown while Hub cannot be reached. *)
Definition hub_degraded (e : exn) : M X frame :=
  event_id ← fresh "mc-sse-"; ts ← now;
  mret (EventFrame (plain_event event_id ts "mission_control" "live" "source.hub.degraded" "warn" None
          ("Hub stream unavailable: " +:+ exn_str e) []) None).

(** ** The audit tail *)

(** The position reached, and the events already sent since the set was last emptied. *)
Record tail_state := mkTail { tl_cursor : Z; tl_seen : list string }.
Definition tail_row (acc : list frame * tail_state) (row : DataEventRow) : M X (list frame * tail_state) :=
  let '(frames, st) := acc in
  if bool_decide (row.(er_event_id) ∈ st.(tl_seen)) then mret acc
  else
    let position := match row.(er_created_at) with
                    | Some t => if (st.(tl_cursor) <? t)%Z then t else st.(tl_cursor) | None => st.(tl_cursor) end in
    let st' := mkTail position (row.(er_event_id) :: st.(tl_seen)) in
    events ← events_from_data py_str sha1_hexdigest [row];
    mret (frames ++ ((λ e, EventFrame (enrich_runtime_event e) row.(er_created_at)) <$> events), st').
Fixpoint tail_rows (acc : list frame * tail_state) (rows : list DataEventRow) : M X (list frame * tail_state) :=
  match rows with [] => mret acc | row :: rest => acc' ← tail_row acc row; tail_rows acc' rest end.
(** One poll; a store that fails is a poll without rows. *)
Definition tail_poll (list_for_owner_since : Z → Z → M X (list DataEventRow)) (st : tail_state) : M X (list frame * tail_state) :=
  rows ← catch (list_for_owner_since st.(tl_cursor) 200%Z) (λ _, Some (mret []));
  '(frames, st') ← tail_rows ([], st) rows;
  mret (frames, if bool_decide (2048 < length st'.(tl_seen)) then mkTail st'.(tl_cursor) [] else st').

(** ** Recorded frames *)

(** [frame.get(key)] of an optional text; anything else is refused by the event. *)
Definition text_member (key : string) (f : obj) : result (option string) :=
  match get key f with JNull => Ok None | JStr s => Ok (Some s) | _ => Raise (ValidationError "RuntimeEvent") end.
Definition frame_to_event (f : obj) : M X RuntimeEvent :=
  event_id ← fresh "replay-"; ts ← now;
  device_id ← lift (text_member "device_id" f); companion_id ← lift (text_member "companion_id" f);
  turn_id ← lift (text_member "turn_id" f); job_id ← lift (text_member "job_id" f);
  source ← lift (match obj_get "source" f (JStr "mission_control") with JStr s => Ok s | _ => Raise (ValidationError "RuntimeEvent") end);
  severity ← lift (match obj_get "severity" f (JStr "info") with JStr s => Ok s | _ => Raise (ValidationError "RuntimeEvent") end);
  payload ← lift (match json_or (get "payload" f) (JObj []) with JObj o => Ok o | _ => Raise (ValidationError "RuntimeEvent") end);
  lift (checked_event
    {| ev_event_id := event_id; ev_ts := ts; ev_source := source;
       ev_type := Upstream.str_of py_str (obj_get "type" f (JStr "replay.event")); ev_severity := severity;
       ev_outcome := "success"; ev_event_origin := "replay"; ev_trace_id := None; ev_owner_id := None;
       ev_companion_id := companion_id; ev_device_id := device_id; ev_conversation_id := None; ev_turn_id := turn_id;
       ev_job_id := job_id; ev_summary := Upstream.str_of py_str (obj_get "summary" f (JStr "")); ev_payload := payload |}).

(** ** The raw blackboard *)

Context `{!BlackboardStore X} (bucket : string) (owner_device_blackboard_key : string → string).
Definition entry_of (key : string) (expected : option string) (raw : bytes) : result RuntimeBlackboardEntry :=
  match loads raw with
  | Raise ((JSONDecodeError _ | ValueError _) as e) => Ok (mkBlackboardEntry key None None ("invalid JSON: " +:+ exn_str e))
  | Raise e => Raise e
  | Ok (JObj value) =>
      let actual := match get "owner_id" value with JStr s => Some s | _ => None end in
      let foreign := match expected with Some o => negb (bool_decide (actual = Some o)) | None => false end in
      if foreign then Ok (mkBlackboardEntry key actual None "snapshot owner does not match the owner-scoped key")
      else
        let key_error := match actual with
          | None => "snapshot owner_id is missing or invalid"
          | Some o => if bool_decide (owner_device_blackboard_key o = key) then ""
                      else "snapshot owner does not match the owner-scoped key" end in
        Ok (mkBlackboardEntry key actual (Some value) key_error)
  | Ok _ => Ok (mkBlackboardEntry key None None "snapshot is not a JSON object")
  end.
Fixpoint read_entries (keys : list string) (expected : option string) : M X (list RuntimeBlackboardEntry) :=
  match keys with
  | [] => mret []
  | key :: rest =>
      raw ← kv_get bucket key;
      match raw with
      | None => read_entries rest expected
      | Some raw => e ← lift (entry_of key expected raw); es ← read_entries rest expected; mret (e :: es)
      end
  end.
Definition ends (t s : string) : bool := prefix_of (rev (list_ascii_of_string t)) (rev (list_ascii_of_string s)).
Definition blackboard_keys (owner_id : option string) : M X (list string) :=
  match nonempty owner_id with
  | Some o => mret [owner_device_blackboard_key o]
  | None => keys ← kv_list_keys bucket "owner."; mret (sort_by str_leb (List.filter (ends ".current") keys))
  end.
Definition read_runtime_blackboard (owner_id : option string) : M X RuntimeBlackboardResponse :=
  if negb kv_available then raise (HTTPException 503 "Runtime Blackboard KV client unavailable")
  else
    entries ← catch (kv_open_bucket bucket ;; keys ← blackboard_keys owner_id; read_entries keys owner_id)
                (λ e, match e with
                      | HTTPException _ _ => None
                      | _ => Some (raise (HTTPException 503 ("Runtime Blackboard unavailable: " +:+ exn_str e)))
                      end);
    generated_at ← now;
    mret (mkBlackboardResponse generated_at bucket owner_id entries).
End Stream.
