(* ===== verification/MissionConsoleProofs.v ===== *)
(** * Mission Control: the console, proved

    What is bounded and what never gives way, whose turns are shown, what a
    running turn may claim, what leaves redacted, and when a composition can be
    lost. *)

From Stdlib Require Import Floats.SpecFloat.
From stdpp Require Import pretty.
From S2P Require Import Prelude Encoding Timestamp IsoFormat Control Upstream ManagementViews HostMachine Lanes MissionViews.
From S2P Require Import MissionControl MissionProofs MissionText MissionTurns MissionActivities MissionConsole MissionStream.

(** ** Calls on every element *)

Lemma for_each_ok {A B} (f : A → result B) l ys : for_each f l = Ok ys → Forall2 (λ x y, f x = Ok y) l ys.
Proof.
  revert ys. induction l as [|x l IH]; intros ys; cbn; [intros [= <-]; constructor|].
  intros H. apply result_bind_ok in H as (y & Hy & H). apply result_bind_ok in H as (ys' & Hys & [= <-]).
  constructor; [done|by apply IH].
Qed.
Lemma for_each_in {A B} (f : A → result B) l ys x : for_each f l = Ok ys → x ∈ l → ∃ y, y ∈ ys ∧ f x = Ok y.
Proof.
  revert ys. induction l as [|z l IH]; intros ys H Hx; [by apply elem_of_nil in Hx|]. cbn in H.
  apply result_bind_ok in H as (y & Hy & H). apply result_bind_ok in H as (ys' & Hys & [= <-]).
  apply elem_of_cons in Hx as [->|Hx]; [by exists y; split; [left|]|].
  destruct (IH ys' Hys Hx) as (w & Hw & ?). exists w. split; [by right|done].
Qed.
Lemma for_each_all {A B} (f : A → result B) l : (∀ x, x ∈ l → ∃ y, f x = Ok y) → ∃ ys, for_each f l = Ok ys.
Proof.
  induction l as [|x l IH]; intros H; [by exists []|]. destruct (H x) as [y Hy]; [left|].
  destruct IH as [ys Hys]; [intros z Hz; apply H; by right|]. exists (y :: ys). cbn. rewrite Hy. cbn. by rewrite Hys.
Qed.

Lemma sublist_sorted {A} (R : A → A → Prop) l k : l `sublist_of` k → StronglySorted R k → StronglySorted R l.
Proof.
  intros Hl. induction Hl as [|x l k Hl IH|x l k Hl IH]; intros H; [done|..]; apply StronglySorted_inv in H as [H Hx]; [|by apply IH].
  constructor; [by apply IH|]. rewrite Forall_forall in *. intros y Hy. apply Hx. eapply elem_of_submseteq; [done|by apply sublist_submseteq].
Qed.

(** ** Room for everybody *)

Definition in_scope (s : string) (a : RuntimeActivity) : bool := bool_decide (scope_of a = s).
Definition idle_in (s : string) (a : RuntimeActivity) : bool := negb (is_active a) && in_scope s a.

Lemma activity_first_total a b : activity_first a b = true ∨ activity_first b a = true.
Proof. unfold activity_first. destruct (is_active a), (is_active b); cbn; try tauto; rewrite !Z.leb_le; lia. Qed.
Lemma activity_first_trans a b c : activity_first a b = true → activity_first b c = true → activity_first a c = true.
Proof. unfold activity_first. destruct (is_active a), (is_active b), (is_active c); cbn; rewrite ?Z.leb_le; try done; lia. Qed.

(** One element of the loop: left out, the last, or one of several. *)
Ltac bounding := cbn [bounded]; repeat case_match;
  repeat match goal with
  | H : bool_decide _ && _ = true |- _ => apply andb_prop in H as [H%bool_decide_eq_true ?]
  | H : bool_decide _ = true |- _ => apply bool_decide_eq_true in H
  | H : bool_decide _ = false |- _ => apply bool_decide_eq_false in H
  end.

Lemma bounded_sublist l per n : bounded l per n `sublist_of` l.
Proof.
  revert per n. induction l as [|a l IH]; intros per n; [done|].
  bounding; [by apply sublist_cons|apply sublist_skip, sublist_nil_l|by apply sublist_skip].
Qed.
Lemma bounded_length l per n : n < IN_ALL → n + length (bounded l per n) ≤ IN_ALL.
Proof.
  revert per n. induction l as [|a l IH]; intros per n Hn; [cbn; lia|]. bounding; cbn [length]; [by apply IH|lia|].
  specialize (IH (dict_set (scope_of a) (S (default 0 (dict_get (scope_of a) per))) per) (S n)). lia.
Qed.
Lemma count_where_cons {A} (p : A → bool) x l : count_where p (x :: l) = (if p x then 1 else 0) + count_where p l.
Proof. unfold count_where. cbn. by destruct (p x). Qed.
Definition seen_of (s : string) (per : list (string * nat)) : nat := default 0 (dict_get s per).
Lemma seen_set s s' k per : seen_of s (dict_set s' k per) = if bool_decide (s = s') then k else seen_of s per.
Proof. unfold seen_of. rewrite dict_get_set. by case_bool_decide. Qed.
Lemma kept_room a k : bool_decide (PER_SCOPE ≤ k) && negb (is_active a) = false → is_active a = false → S k ≤ PER_SCOPE.
Proof. intros H Ha. rewrite Ha, andb_true_r in H. apply bool_decide_eq_false in H. lia. Qed.
Lemma bounded_idle s l per n : count_where (idle_in s) (bounded l per n) ≤ PER_SCOPE - seen_of s per.
Proof.
  revert per n. induction l as [|a l IH]; intros per n; [cbn; lia|]. cbn [bounded]. fold (seen_of (scope_of a) per).
  destruct (_ && _) eqn:E; [apply IH|]. pose proof (kept_room _ _ E) as K.
  assert (count_where (idle_in s) (if bool_decide (IN_ALL ≤ S n) then [] else
            bounded l (dict_set (scope_of a) (S (seen_of (scope_of a) per)) per) (S n)) ≤
          PER_SCOPE - (if bool_decide (s = scope_of a) then S (seen_of (scope_of a) per) else seen_of s per)) as Hr.
  { destruct (bool_decide (IN_ALL ≤ S n)); [cbn; lia|]. rewrite <- seen_set. apply IH. }
  rewrite count_where_cons. unfold idle_in at 1, in_scope. destruct (decide (s = scope_of a)) as [->|Es].
  - rewrite (bool_decide_eq_true_2 (scope_of a = scope_of a)) in Hr by done.
    rewrite (bool_decide_eq_true_2 (scope_of a = scope_of a)) by done.
    destruct (is_active a); cbn [negb andb]; [lia|]. specialize (K eq_refl). lia.
  - rewrite (bool_decide_eq_false_2 (s = _)) in Hr by done. rewrite (bool_decide_eq_false_2 (_ = s)) by congruence.
    rewrite andb_false_r. lia.
Qed.
Lemma bounded_missing l per n a :
  n + length (bounded l per n) < IN_ALL → a ∈ l → a ∉ bounded l per n →
  is_active a = false ∧ PER_SCOPE ≤ seen_of (scope_of a) per + count_where (in_scope (scope_of a)) (bounded l per n).
Proof.
  revert per n. induction l as [|x l IH]; intros per n; [intros _ []%elem_of_nil|].
  bounding; cbn [length]; intros Hn Ha Hno; fold (seen_of (scope_of x) per) in *.
  - apply elem_of_cons in Ha as [->|Ha]; [|by apply IH]. split; [by apply negb_true_iff|lia].
  - lia.
  - apply elem_of_cons in Ha as [->|Ha]; [by destruct Hno; left|].
    destruct (IH (dict_set (scope_of x) (S (seen_of (scope_of x) per)) per) (S n)) as [Hi Hc];
      [lia|done|by intros ?; apply Hno; right|]. split; [done|]. rewrite seen_set in Hc. rewrite count_where_cons.
    unfold in_scope at 1. rewrite (bool_decide_ext (scope_of x = _) (scope_of a = scope_of x)) by (split; congruence).
    case_bool_decide as E; [rewrite E in *|]; lia.
Qed.
Lemma bounded_active l per n a :
  StronglySorted (λ x y, activity_first x y = true) l → a ∈ l → is_active a = true → a ∉ bounded l per n →
  Forall (λ b, is_active b = true) (bounded l per n).
Proof.
  intros Hs. revert per n. induction Hs as [|x l Hs IH Hx]; intros per n; [intros []%elem_of_nil|].
  intros Ha Hact. assert (is_active x = true) as Hxa.
  { apply elem_of_cons in Ha as [->|Ha]; [done|]. rewrite Forall_forall in Hx. specialize (Hx a Ha).
    unfold activity_first in Hx. rewrite Hact in Hx. by destruct (is_active x). }
  bounding; [by rewrite Hxa in *|by repeat constructor|].
  intros Hno. constructor; [done|]. apply elem_of_cons in Ha as [->|Ha]; [by destruct Hno; left|].
  apply IH; [done..|]. by intros ?; apply Hno; right.
Qed.

(** C39: What is shown of everything that goes on is at most forty-eight activities,
    in order: the active ones, then the latest.  At most twelve idle ones are
    shown of any Companion.  An idle activity is left out only when its
    Companion has twelve shown or the screen is full, and an active one only
    when the screen is full of active ones. *)
Theorem activities_bounded py_str turns jobs events l all :
  all_activities py_str turns jobs events = Ok all →
  project_runtime_activities py_str turns jobs events = Ok l →
  length l ≤ 48 ∧ l `sublist_of` sort_by activity_first all ∧
  StronglySorted (λ x y, activity_first x y = true) l ∧
  (∀ s, count_where (idle_in s) l ≤ 12) ∧
  (∀ a, a ∈ all → a ∉ l →
    if is_active a then length l = 48 ∧ Forall (λ b, is_active b = true) l
    else length l = 48 ∨ 12 ≤ count_where (in_scope (scope_of a)) l).
Proof.
  intros Hall. unfold project_runtime_activities. rewrite Hall. intros [= <-].
  pose proof (sort_by_sorted activity_first all activity_first_total activity_first_trans) as Hs.
  pose proof (bounded_length (sort_by activity_first all) [] 0 ltac:(unfold IN_ALL; lia)) as Hlen.
  split_and!; [done|apply bounded_sublist| |intros s; apply (bounded_idle s _ [] 0)|].
  - eapply sublist_sorted; [apply bounded_sublist|done].
  - intros a Ha Hno. rewrite <- (sort_by_perm activity_first all) in Ha.
    destruct (decide (length (bounded (sort_by activity_first all) [] 0) = 48)) as [E|E].
    + destruct (is_active a) eqn:Ea; [split; [done|]; by eapply bounded_active|by left].
    + destruct (bounded_missing (sort_by activity_first all) [] 0 a) as [Hi Hc]; [unfold IN_ALL in *; cbn in *; lia|done..|].
      rewrite Hi. by right.
Qed.

(** ** What leaves redacted *)

Lemma str_len_app s t : str_len (s +:+ t) = str_len s + str_len t.
Proof.
  induction s as [|c s IH]; [done|]. change (String c s +:+ t) with (String c (s +:+ t)). cbn [str_len]. rewrite IH.
  destruct (is_continuation c); lia.
Qed.
Lemma str_len_take n s : str_len (str_take n s) ≤ n.
Proof.
  revert n. induction s as [|c s IH]; intros n; cbn [str_take]; [cbn; lia|]. destruct (is_continuation c) eqn:E.
  - cbn [str_len]. rewrite E. apply IH.
  - destruct n as [|n]; cbn [str_len]; [cbn; lia|]. rewrite E. specialize (IH n). lia.
Qed.
Lemma str_take_all n s : str_len s ≤ n → str_take n s = s.
Proof.
  revert n. induction s as [|c s IH]; intros n; [done|]. cbn [str_take str_len].
  destruct (is_continuation c); [intros H; by rewrite IH|]. destruct n as [|n]; [lia|]. intros H. by rewrite IH by lia.
Qed.
Lemma redact_length sha1 text keep : str_len (redact_text sha1 text keep) ≤ keep + 23.
Proof.
  unfold redact_text. case_bool_decide; [cbn; lia|]. rewrite !str_len_app. set (compact := joined_by _ _).
  pose proof (str_len_take keep compact). pose proof (str_len_take 8 (sha1 (list_ascii_of_string text))).
  assert (∀ b : bool, str_len (if b then "..." else "") ≤ 3) as D by (intros []; vm_compute; lia).
  specialize (D (bool_decide (keep < str_len compact))).
  change (str_len " [redacted:") with 11. change (str_len "]") with 1. lia.
Qed.

(** A document with no long text, no long list, and under the name of a text
    only what a redaction leaves. *)
Definition all_of {A} (P : A → Prop) : list A → Prop :=
  fix go l := match l with [] => True | x :: rest => P x ∧ go rest end.
Fixpoint modest (v : json) : Prop :=
  match v with
  | JObj kv => all_of (λ p : string * json, let (key, x) := p in
      if bool_decide (lower key ∈ TEXT_KEYS) then ∃ s, x = JStr s ∧ str_len s ≤ 63 else modest x) kv
  | JList l => length l ≤ 20 ∧ all_of modest l
  | JStr s => str_len s ≤ 160
  | _ => True
  end.
Lemma safe_payload_modest py_str sha1 v : modest (safe_payload py_str sha1 v).
Proof.
  revert v. fix IH 1. intros [| | | | | |s|l|kv]; try exact I.
  - cbn. case_bool_decide; cbn; [pose proof (redact_length sha1 s 40); lia|lia].
  - cbn [safe_payload modest]. generalize 20 as n. revert l. fix IHl 1. intros [|x l] [|n]; try (cbn; split; [lia|done]).
    destruct (IHl l n) as [? ?]. cbn. split_and!; [lia|apply IH|done].
  - cbn [safe_payload modest]. revert kv. fix IHkv 1. intros [|[k x] kv]; [exact I|]. cbn. split; [|apply IHkv].
    case_bool_decide; [|apply IH]. eexists. split; [done|]. apply (redact_length sha1 _ 40).
Qed.

(** A text of no more than forty characters, with nothing for [split] to join,
    is shown whole: what the redaction adds is a digest. *)
Lemma short_text_shown sha1 text :
  text ≠ "" → joined_by " " (words text) = text → str_len text ≤ 40 →
  redact_text sha1 text 40 = text +:+ " [redacted:" +:+ str_take 8 (sha1 (list_ascii_of_string text)) +:+ "]".
Proof.
  intros Hne Hw Hl. unfold redact_text. rewrite bool_decide_eq_false_2 by done. rewrite Hw.
  rewrite bool_decide_eq_false_2 by lia. by rewrite str_take_all.
Qed.
Lemma safe_object_modest py_str sha1 o : modest (JObj (safe_object py_str sha1 o)).
Proof. exact (safe_payload_modest py_str sha1 (JObj o)). Qed.

(** Of what a task was asked and answered, and of what Hub reports, only
    bounded texts leave: the documents hold no long text, no long list and
    nothing under the name of a text but a redaction. *)
Theorem shown_redacted {X} `{!UtcClock X, !Uuid4 X} py_str sha1 :
  (∀ row j, long_task_job py_str sha1 row = Ok j →
     str_len j.(rj_summary) ≤ 87 ∧ str_len j.(rj_result_summary) ≤ 103 ∧ modest (JObj j.(rj_progress))) ∧
  (∀ raw (x x' : X) e, hub_event_to_runtime py_str sha1 raw x = (Ok e, x') → modest (JObj e.(ev_payload))).
Proof.
  split.
  - intros row j H. unfold long_task_job in H. repeat (apply result_bind_ok in H as (? & ? & H)). injection H as <-.
    cbn [rj_summary rj_result_summary rj_progress]. split_and!; [apply (redact_length sha1 _ 64)|apply (redact_length sha1 _ 80)|].
    apply safe_object_modest.
  - intros raw x x' e H. unfold hub_event_to_runtime in H. apply bind_ok_inv in H as (t & x1 & _ & H). cbv zeta in H.
    case_bool_decide; [|case_bool_decide];
      repeat (apply bind_ok_inv in H as (? & ? & _ & H)); injection H as <- <-; [done|apply safe_object_modest..].
Qed.

(** ** Whose turns are shown *)

(** An event that reports of a turn of the channel. *)
Definition reports_turn (e : RuntimeEvent) (py_str : json → string) : Prop :=
  e.(ev_source) = "channel" ∧ is_boundary e = false ∧ begins "channel.turn." e.(ev_type) = true ∧ channel_turn_of py_str e ≠ "".

Section Projected.
Context (py_str : json → string) (float_text : string → result spec_float).
Abbreviation grouping := (MissionTurns.grouping py_str).
Abbreviation channel_turn_of := (MissionTurns.channel_turn_of py_str).

Lemma filed_get k e key d :
  dict_get k (filed key e d) = if bool_decide (k = key) then Some (default [] (dict_get key d) ++ [e]) else dict_get k d.
Proof. apply dict_get_set. Qed.
Lemma grouping_snoc events e :
  (grouping (events ++ [e])).1 = (grouping events).1 ∨
  (grouping (events ++ [e])).1 = filed (channel_turn_of e) e (grouping events).1.
Proof.
  unfold MissionTurns.grouping. rewrite foldl_app. cbn [foldl]. destruct (foldl _ _ events) as [g b].
  repeat case_match; auto.
Qed.
Lemma grouping_reports events e :
  reports_turn e py_str → (grouping (events ++ [e])).1 = filed (channel_turn_of e) e (grouping events).1.
Proof.
  intros (Hs & Hb & Ht & Hc). unfold MissionTurns.grouping. rewrite foldl_app. cbn [foldl].
  destruct (foldl _ _ events) as [g b]. rewrite Hs, Hb, Ht. rewrite bool_decide_eq_true_2, bool_decide_eq_false_2 by done. done.
Qed.
Lemma grouping_keys events : NoDup (grouping events).1.*1.
Proof.
  induction events as [|e events IH] using rev_ind; [constructor|].
  destruct (grouping_snoc events e) as [->| ->]; [done|by apply dict_set_NoDup].
Qed.
Lemma grouping_holds events e : e ∈ events → reports_turn e py_str →
  ∃ evs, (channel_turn_of e, evs) ∈ (grouping events).1 ∧ e ∈ evs.
Proof.
  intros He Hr. cut (∃ evs, dict_get (channel_turn_of e) (grouping events).1 = Some evs ∧ e ∈ evs).
  { intros (evs & H%dict_get_elem & ?). eauto. }
  induction events as [|e' events IH] using rev_ind; [by apply elem_of_nil in He|].
  apply elem_of_app in He as [He| ->%list_elem_of_singleton].
  - destruct (IH He) as (evs & Hg & Hi). destruct (grouping_snoc events e') as [->| ->]; [eauto|].
    rewrite filed_get. case_bool_decide as E; [|eauto]. rewrite <- E, Hg. eexists. split; [done|]. apply elem_of_app. by left.
  - rewrite grouping_reports by done. rewrite filed_get, bool_decide_eq_true_2 by done. eexists. split; [done|].
    apply elem_of_app. right. by apply list_elem_of_singleton.
Qed.
Lemma by_trace_in agents tr a : dict_get tr (agent_by_trace agents) = Some a → a ∈ agents ∧ a.(rt_trace_id) = Some tr.
Proof.
  unfold agent_by_trace. induction agents as [|b agents IH] using rev_ind; [done|]. rewrite foldl_app. cbn [foldl].
  assert (∀ P, a ∈ agents ∧ P → a ∈ agents ++ [b] ∧ P) as Hw by (intros P [? ?]; split; [apply elem_of_app; by left|done]).
  destruct (nonempty b.(rt_trace_id)) as [i|] eqn:E; [|intros H; by apply Hw, IH].
  rewrite dict_get_set. case_bool_decide as Ei; [|intros H; by apply Hw, IH]. intros [= ->]. subst i.
  split; [apply elem_of_app; right; by apply list_elem_of_singleton|].
  unfold nonempty in E. destruct (rt_trace_id a) as [s|]; [|done]. by destruct (bool_decide (s = "")).
Qed.
Lemma channel_turn_spec boundaries by_trace id evs t :
  channel_turn py_str float_text boundaries by_trace id evs = Ok t →
  t.(rt_turn_id) = id ∧ t.(rt_channel_turn_id) = Some id ∧
  t.(rt_trace_id) = Some (trace_of id (sort_by earliest_first evs)) ∧
  t.(rt_agent_turn_id) = from rt_agent_turn_id None (dict_get (trace_of id (sort_by earliest_first evs)) by_trace) ∧
  ∀ e, e ∈ evs → e.(ev_event_id) ∈ t.(rt_event_ids).
Proof.
  unfold channel_turn. destruct (match next_or_none _ _ with Some _ => _ | None => _ end) as [status outcome].
  intros H. repeat (apply result_bind_ok in H as (? & _ & H)). injection H as <-. cbn. split_and!; [done..|].
  intros e He. apply elem_of_app. left. apply list_elem_of_fmap. exists e. split; [done|]. by rewrite sort_by_perm.
Qed.

Lemma newest_first_total a b : newest_first a b = true ∨ newest_first b a = true.
Proof. unfold newest_first. rewrite !Z.leb_le. lia. Qed.
Lemma newest_first_trans a b c : newest_first a b = true → newest_first b c = true → newest_first a c = true.
Proof. unfold newest_first. rewrite !Z.leb_le. lia. Qed.

(** C38: The merge of what the channel reported with the rows of the Agent loses
    nothing: the turns are in order, the latest first; every turn of the Agent
    is shown, alone or as the turn of the channel that carries its trace; every
    event of a turn of the channel stands in the one turn of its identifier;
    and a turn of the channel says only of an Agent turn of its own trace that
    it is that turn. *)
Theorem projected_turns_complete events agents l :
  (∀ a, a ∈ agents → a.(rt_agent_turn_id) = Some a.(rt_turn_id) ∧ a.(rt_channel_turn_id) = None) →
  project_runtime_turns py_str float_text events agents = Ok l →
  StronglySorted (λ x y, newest_first x y = true) l ∧
  NoDup (omap rt_channel_turn_id l) ∧
  (∀ a, a ∈ agents → ∃ t, t ∈ l ∧ t.(rt_agent_turn_id) = Some a.(rt_turn_id)) ∧
  (∀ e, e ∈ events → reports_turn e py_str →
     ∃ t, t ∈ l ∧ t.(rt_channel_turn_id) = Some (channel_turn_of e) ∧ e.(ev_event_id) ∈ t.(rt_event_ids)) ∧
  (∀ t, t ∈ l → t ∈ agents ∨
     t.(rt_channel_turn_id) = Some t.(rt_turn_id) ∧
     ∀ i, t.(rt_agent_turn_id) = Some i → ∃ a, a ∈ agents ∧ a.(rt_turn_id) = i ∧ a.(rt_trace_id) = t.(rt_trace_id)).
Proof.
  intros Hag. unfold project_runtime_turns. pose proof (grouping_keys events) as Hk. pose proof (grouping_holds events) as Hh.
  destruct (grouping events) as [grouped boundaries]. cbn [fst] in *.
  intros H. apply result_bind_ok in H as (channel & Hch & [= <-]). set (used := used_agent_ids _ _).
  assert (∀ g, g ∈ grouped → ∃ t, t ∈ channel ∧
    channel_turn py_str float_text boundaries (agent_by_trace agents) g.1 g.2 = Ok t) as Hin by (intros g Hg; by eapply for_each_in in Hch).
  pose proof (for_each_ok _ _ _ Hch) as Hf.
  split; [apply sort_by_sorted; [apply newest_first_total|apply newest_first_trans]|].
  setoid_rewrite (sort_by_perm newest_first). setoid_rewrite elem_of_app. split_and!.
  - assert (omap rt_channel_turn_id (List.filter (λ t, negb (one_of used t.(rt_turn_id))) agents) = []) as E.
    { revert Hag. generalize (λ t, negb (one_of used t.(rt_turn_id))). clear. intros p Hag.
      induction agents as [|a agents IH]; [done|]. assert (rt_channel_turn_id a = None) as Ha by (apply Hag; left).
      cbn [List.filter]. destruct (p a); cbn; rewrite ?Ha; apply IH; intros b Hb; apply Hag; by right. }
    rewrite omap_app, E, app_nil_r. replace (omap rt_channel_turn_id channel) with grouped.*1; [done|].
    clear -Hf. induction Hf as [|g t gs ts Hg _ IH]; [done|]. apply channel_turn_spec in Hg as (_ & Hg & _). cbn. by rewrite Hg, IH.
  - intros a Ha. destruct (Hag a Ha) as [Hid _]. destruct (decide (a.(rt_turn_id) ∈ used)) as [Hu|Hu].
    + apply list_elem_of_omap in Hu as (g & Hg & Hu). destruct (dict_get _ _) as [b|] eqn:Eb; [|done]. injection Hu as Hu.
      destruct (Hin g Hg) as (t & Ht & Hc). exists t. split; [by left|].
      apply channel_turn_spec in Hc as (_ & _ & _ & -> & _). rewrite Eb. cbn. apply by_trace_in in Eb as [Eb _].
      destruct (Hag b Eb) as [-> _]. by rewrite Hu.
    + exists a. split; [right|done]. apply list_elem_of_In, filter_In. split; [by apply list_elem_of_In|].
      unfold one_of. by rewrite bool_decide_eq_false_2.
  - intros e He Hr. destruct (Hh e He Hr) as (evs & Hg & Hi). destruct (Hin _ Hg) as (t & Ht & Hc). exists t. split; [by left|].
    apply channel_turn_spec in Hc as (_ & Hc & _ & _ & He'). split; [done|by apply He'].
  - intros t [Ht|Ht].
    + right. apply list_elem_of_lookup in Ht as (k & Hk'). destruct (Forall2_lookup_r _ _ _ _ _ Hf Hk') as (g & _ & Hg).
      apply channel_turn_spec in Hg as (-> & -> & -> & Ha & _). split; [done|]. intros i Hi. rewrite Hi in Ha.
      destruct (dict_get _ _) as [b|] eqn:Eb; [|done]. apply by_trace_in in Eb as [Hb Htr]. cbn in Ha.
      destruct (Hag b Hb) as [Hid _]. exists b. split_and!; [done|congruence|done].
    + left. apply list_elem_of_In, filter_In in Ht as [Ht _]. by apply list_elem_of_In.
Qed.
End Projected.

(** ** When a composition can be lost *)

(** What the readings need of a value: a part, a count, a measurement, a list,
    a time. *)
Definition is_part (v : json) : bool := match v with JNull | JObj _ => true | _ => false end.
Definition is_count (v : json) : bool := match v with JNull | JInt _ => true | _ => false end.
Definition is_finite (v : json) : bool := match v with JInfinity _ => false | _ => true end.
Definition is_names (v : json) : bool := match v with JNull | JList _ => true | _ => false end.
Definition is_time (v : json) : bool := match parse_dt v with Ok _ => true | Raise _ => false end.
Definition part (key : string) (o : obj) : obj := dict_or_empty (get key o).
Definition MEASURED : list string :=
  ["total_ms"; "first_delta_ms"; "guard_ms"; "triage_ms"; "compile_ms"; "output_ms"; "tool_ms"].
(** A row of the Agent's turns, and one of its tasks, in the shape they are
    read in. *)
Definition row_fits (row : obj) : bool :=
  let obs := part "observability_summary" row in
  is_part (get "observability_summary" row) &&
  forallb (λ k, is_part (get k obs)) ["memory"; "tools"; "latency"; "memory_write"] &&
  is_count (get "hit_count" (part "memory" obs)) && is_count (get "count" (part "tools" obs)) &&
  is_count (get "completed" (part "tools" obs)) && is_names (get "names" (part "tools" obs)) &&
  is_finite (get "total_latency_ms" (part "tools" obs)) && forallb (λ k, is_finite (get k (part "latency" obs))) MEASURED &&
  is_finite (get "latency_first_delta_ms" row) && is_finite (get "total_latency_ms" row) &&
  is_time (get "started_at" row) && is_time (get "finished_at" row).
Definition task_fits (row : obj) : bool := forallb (λ k, is_time (get k row)) ["created_at"; "updated_at"; "completed_at"].

(** A call that returns something of a kind. *)
Definition gives {A} (P : A → Prop) (c : result A) : Prop := ∃ a, c = Ok a ∧ P a.
Definition anything {A} (_ : A) : Prop := True.
Lemma gives_bind_any {A B} (P : A → Prop) (Q : B → Prop) (c : result A) (f : A → result B) :
  gives P c → (∀ a, P a → gives Q (f a)) → gives Q (c ≫= f).
Proof. intros (a & -> & Ha) Hf. exact (Hf a Ha). Qed.
Lemma gives_ok {A} (P : A → Prop) a : P a → gives P (Ok a).
Proof. by exists a. Qed.
Lemma gives_part v : is_part v = true → gives (λ o, o = dict_or_empty v) (mapping v).
Proof. by destruct v; [exists []|..|eexists]. Qed.
Lemma gives_int v : is_finite v = true → gives anything (int_or_none v).
Proof.
  unfold int_or_none, gives, anything. destruct v as [| | | | | |s| |]; cbn; eauto; try done. intros _.
  assert ((∃ z, int_of_str s = Ok z) ∨ ∃ m, int_of_str s = Raise (ValueError m)) as [[z ->]|[m ->]]; eauto.
  unfold int_of_str, bad_int. repeat case_match; eauto.
Qed.
Lemma finite_or a b : is_finite a = true → is_finite b = true → is_finite (json_or a b) = true.
Proof. unfold json_or. by destruct (json_truthy a). Qed.
Lemma gives_count v : is_count v = true → gives anything (count_of v).
Proof.
  unfold count_of, json_or, gives, anything. destruct v; try done; cbn; [eauto|]. intros _. destruct (negb _); cbn; eauto.
Qed.
Lemma gives_names py_str v : is_names v = true → gives anything (text_list py_str v).
Proof. unfold gives, anything. destruct v; cbn; eauto; done. Qed.
Lemma gives_time v : is_time v = true → gives anything (parse_dt v).
Proof. unfold is_time, gives, anything. destruct (parse_dt v); eauto; done. Qed.
Lemma gives_tool_status tools running : is_count (get "count" tools) = true → is_count (get "completed" tools) = true →
  gives anything (tool_stage_status tools running).
Proof.
  intros Hc Hd. unfold tool_stage_status. destruct (json_truthy _); [by apply gives_ok|].
  eapply gives_bind_any; [by apply gives_count|]. intros z _. eapply (gives_bind_any anything); [|intros; by apply gives_ok].
  destruct (get "completed" tools); try done; by eexists.
Qed.
Lemma gives_each {A B} (P : B → Prop) (f : A → result B) l : (∀ x, x ∈ l → gives P (f x)) → gives (Forall P) (for_each f l).
Proof.
  induction l as [|x l IH]; intros H; [apply gives_ok; constructor|]. cbn. eapply gives_bind_any; [apply H; left|]. intros y Hy.
  eapply gives_bind_any; [apply IH; intros z Hz; apply H; by right|]. intros ys Hys. apply gives_ok. by constructor.
Qed.
(** Every stage has a measurement that reads. *)
Definition stages_read (stages : list obj) : Prop := Forall (λ o, is_finite (get "latency_ms" o) = true) stages.

Lemma stages_fit py_str row obs :
  (∀ k, k ∈ ["memory"; "tools"; "latency"; "memory_write"] → is_part (get k obs) = true) →
  is_count (get "count" (part "tools" obs)) = true → is_count (get "completed" (part "tools" obs)) = true →
  is_finite (get "total_latency_ms" (part "tools" obs)) = true → is_finite (get "total_ms" (part "latency" obs)) = true →
  is_finite (get "first_delta_ms" (part "latency" obs)) = true → is_finite (get "latency_first_delta_ms" row) = true →
  is_finite (get "total_latency_ms" row) = true →
  gives stages_read (turn_stages py_str row obs).
Proof.
  intros Hp Hc Hd Ht Hl Hf Hfr Hr. unfold turn_stages.
  eapply gives_bind_any; [apply gives_part, Hp; set_solver|]. intros ? ->.
  eapply gives_bind_any; [apply gives_int; by apply finite_or|]. intros first_delta _.
  eapply gives_bind_any; [apply gives_part, Hp; set_solver|]. intros ? ->.
  eapply gives_bind_any; [apply gives_part, Hp; set_solver|]. intros ? ->.
  eapply gives_bind_any; [by apply gives_tool_status|]. intros tool_status _.
  eapply gives_bind_any; [apply gives_part, Hp; set_solver|]. intros ? ->.
  apply gives_ok. unfold stages_read, stage, get. repeat constructor; cbn; try done; [by apply finite_or|by destruct first_delta].
Qed.
Lemma breakdown_fits latency tools :
  (∀ k, k ∈ MEASURED → is_finite (get k latency) = true) → is_count (get "count" tools) = true →
  gives anything (turn_breakdown latency tools).
Proof.
  intros Hm Hc. unfold turn_breakdown. eapply gives_bind_any.
  { apply (gives_each anything). intros p Hp. eapply gives_bind_any; [|intros; by apply gives_ok]. apply gives_int, Hm.
    revert p Hp. apply Forall_forall. repeat constructor; apply (bool_decide_unpack _); by vm_compute. }
  intros rows _. eapply gives_bind_any; [apply gives_int, Hm; set_solver|]. intros ms _.
  eapply gives_bind_any; [by apply gives_count|]. intros z _. by apply gives_ok.
Qed.
Lemma forallb_all {A} (p : A → bool) l x : forallb p l = true → x ∈ l → p x = true.
Proof. rewrite forallb_forall. intros H Hx. by apply H, list_elem_of_In. Qed.
Lemma turn_fits py_str row : row_fits row = true → gives (λ t, stages_read t.(rt_stages)) (turn py_str row).
Proof.
  intros H. unfold row_fits in H. repeat match goal with H : _ && _ = true |- _ => apply andb_prop in H as [? ?] end.
  repeat match goal with H : forallb _ _ = true |- _ => pose proof (λ k, forallb_all _ _ k H); clear H end. cbn beta in *.
  unfold turn. eapply gives_bind_any; [by apply gives_part|]. intros ? ->. fold (part "observability_summary" row).
  set (obs := part _ row) in *.
  eapply gives_bind_any; [apply stages_fit; eauto; set_solver|]. intros stages Hs.
  eapply gives_bind_any; [apply gives_part; set_solver|]. intros ? ->.
  eapply gives_bind_any; [apply gives_part; set_solver|]. intros ? ->.
  eapply gives_bind_any; [apply gives_part; set_solver|]. intros ? ->.
  eapply gives_bind_any; [by apply gives_time|]. intros ? _. eapply gives_bind_any; [by apply gives_time|]. intros ? _.
  eapply gives_bind_any; [apply gives_int, finite_or; [set_solver|done]|]. intros ? _.
  eapply gives_bind_any; [by apply gives_count|]. intros ? _. eapply gives_bind_any; [by apply gives_names|]. intros ? _.
  eapply gives_bind_any; [by apply breakdown_fits|]. intros ? _. by apply gives_ok.
Qed.

Lemma voice_fits py_str t : stages_read t.(rt_stages) → gives anything (voice_activity py_str t).
Proof.
  intros Hs. unfold voice_activity. eapply gives_bind_any; [|intros; by apply gives_ok].
  apply (gives_each anything). intros [i o] Hp. apply elem_of_lookup_imap in Hp as (j & o' & E & Hj). injection E as _ ->.
  cbn [fst snd]. unfold stage_hop. destruct (voice_stage_node _ _) as [[? ?] ?].
  eapply gives_bind_any; [|intros; by apply gives_ok]. apply gives_int. unfold stages_read in Hs. rewrite Forall_forall in Hs.
  apply Hs. by eapply list_elem_of_lookup_2.
Qed.
Lemma spans_fit py_str t : stages_read t.(rt_stages) → gives anything (trace_spans py_str t).
Proof.
  intros Hs. unfold trace_spans. eapply gives_bind_any; [|intros; by apply gives_ok]. apply (gives_each anything). intros o Ho.
  eapply gives_bind_any; [|intros; by apply gives_ok]. apply gives_int. unfold stages_read in Hs. rewrite Forall_forall in Hs. by apply Hs.
Qed.
Lemma task_job_fits py_str sha1 row : task_fits row = true → gives anything (long_task_job py_str sha1 row).
Proof.
  intros H. unfold task_fits in H. pose proof (λ k, forallb_all _ _ k H) as Hk. cbn beta in Hk. unfold long_task_job.
  repeat (eapply gives_bind_any; [apply gives_time, Hk; set_solver|intros ? _]). by apply gives_ok.
Qed.
Lemma memory_fits py_str realms status turns : forallb row_fits turns = true → gives anything (memory_summary py_str realms status turns).
Proof.
  intros H. unfold memory_summary. eapply (gives_bind_any anything).
  { destruct turns as [|row turns]; [by apply gives_ok|]. cbn in H. apply andb_prop in H as [H _].
    eapply gives_bind_any; [by apply turn_fits|]. intros t _. by apply gives_ok. }
  intros latest _. eapply (gives_bind_any anything); [|intros; by apply gives_ok].
  destruct turns as [|row turns]; [by eexists|]. cbn in H. apply andb_prop in H as [H _]. unfold row_fits in H.
  repeat match goal with H : _ && _ = true |- _ => apply andb_prop in H as [? ?] end. cbn [head hd_error from fmap option_fmap option_map].
  unfold part in *. unfold json_or. destruct (get "hit_count" _); try done; cbn; [by eexists|]. destruct (negb _); by eexists.
Qed.

Lemma points_any {A} (P : A → Prop) c : gives P c → gives anything c.
Proof. intros (a & -> & _). by exists a. Qed.
Lemma in_take {A} n (l : list A) x : x ∈ take n l → x ∈ l.
Proof. intros (i & Hi & _)%elem_of_take. by eapply list_elem_of_lookup_2. Qed.

(** What returns, whatever the state. *)
Definition returns {X A} (P : A → Prop) (c : M X A) : Prop := ∀ x, ∃ a x', c x = (Ok a, x') ∧ P a.
Lemma returns_bind {X A B} (P : A → Prop) (Q : B → Prop) (c : M X A) (f : A → M X B) :
  returns P c → (∀ a, P a → returns Q (f a)) → returns Q (c ≫= f).
Proof. intros Hc Hf x. destruct (Hc x) as (a & x' & E & Ha). rewrite (bind_ok _ _ _ _ _ E). by apply Hf. Qed.
Lemma returns_ret {X A} (P : A → Prop) (a : A) : P a → returns P (mret a : M X A).
Proof. intros Ha x. by exists a, x. Qed.
Lemma returns_lift {X A} (P : A → Prop) (r : result A) : gives P r → returns P (lift r : M X A).
Proof. intros (a & -> & Ha) x. by exists a, x. Qed.
Lemma returns_visit {X A B} (f : A → M X B) l : (∀ a, a ∈ l → returns anything (f a)) → returns anything (visit f l).
Proof.
  induction l as [|a l IH]; intros H; [by apply returns_ret|]. cbn. eapply returns_bind; [apply H; left|]. intros b _.
  eapply returns_bind; [apply IH; intros c Hc; apply H; by right|]. intros bs _. by apply returns_ret.
Qed.
Lemma returns_or_now {X} `{!UtcClock X} t : returns anything (or_now t : M X Z).
Proof. destruct t as [t|]; [by apply returns_ret|]. intros x. unfold or_now, now. destruct (utc_now x) as [u x']. by exists u, x'. Qed.

Lemma snapshot_returns {X} `{!UtcClock X} py_str sha1 float_text generated_at demo_mode r owner statuses :
  forallb row_fits r.(rg_turns) = true → forallb task_fits r.(rg_tasks) = true →
  returns anything (snapshot_of (X := X) py_str sha1 float_text generated_at demo_mode r owner statuses).
Proof.
  intros Ht Hk. unfold snapshot_of.
  eapply returns_bind; [by apply returns_lift, memory_fits|]. intros memory _.
  eapply returns_bind; [apply returns_lift, (gives_each anything); intros row Hr; by eapply task_job_fits, forallb_all|]. intros tasks _.
  eapply (returns_bind (λ l, l = [])); [by apply returns_ret|]. intros ? ->.
  eapply returns_bind.
  { apply returns_visit. intros row Hr. unfold event_of_turn. eapply returns_bind.
    - apply returns_lift, turn_fits. by eapply forallb_all, in_take.
    - intros t _. eapply returns_bind; [apply returns_or_now|]. intros ts _. by apply returns_ret. }
  intros of_turns _. eapply returns_bind.
  { apply returns_visit. intros j _. unfold event_of_job. eapply returns_bind; [apply returns_or_now|]. intros ts _. by apply returns_ret. }
  intros of_jobs _.
  eapply (returns_bind (Forall (λ t, stages_read t.(rt_stages)))).
  { apply returns_lift, gives_each. intros row Hr. by eapply turn_fits, forallb_all. }
  intros agents Hag.
  eapply (returns_bind (Forall (λ t, stages_read t.(rt_stages)))).
  { apply returns_lift. unfold project_runtime_turns. cbn. apply gives_ok. rewrite sort_by_perm.
    rewrite Forall_forall in *. intros t Ht'. apply Hag. apply list_elem_of_In, filter_In in Ht' as [Ht' _]. by apply list_elem_of_In. }
  intros turns Hturns. eapply (returns_bind anything).
  { apply returns_lift. unfold project_runtime_activities, all_activities.
    eapply (gives_bind_any anything); [|intros; by apply gives_ok].
    eapply gives_bind_any; [|intros; by apply gives_ok]. apply (gives_each anything). intros t Ht'. apply voice_fits.
    rewrite Forall_forall in Hturns. by apply Hturns. }
  intros activities _. eapply (returns_bind anything).
  { apply returns_lift. eapply points_any, (gives_each anything). intros t Ht'. apply spans_fit.
    rewrite Forall_forall in Hturns. by eapply Hturns, in_take. }
  intros spans _. by apply returns_ret.
Qed.

(** C40: When the Agent's rows have the shape they are read in, the console gets its
    snapshot, whatever every other authority does. *)
Theorem composition_returns {X} `{!UtcClock X, !Clock X, !RuntimeAuthorities X, !Http X}
    py_str sha1 float_text py_repr class_name exn_str loads registry environ control_plane owner_id demo_mode (x : X) :
  (∀ x' rg w, compose_readings py_repr class_name exn_str py_str loads registry environ control_plane owner_id (new_ledger, x') = (Ok rg, w) →
     forallb row_fits rg.(rg_turns) = true ∧ forallb task_fits rg.(rg_tasks) = true) →
  ∃ sn x', build_snapshot py_str sha1 float_text py_repr class_name exn_str loads registry environ control_plane owner_id demo_mode x =
             (Ok sn, x').
Proof.
  intros Hfit. unfold build_snapshot, composition. destruct (utc_now x) as [t x1] eqn:Et.
  rewrite (bind_ok _ _ _ t (new_ledger, x1)) by (unfold out, zoom, now; cbn; by rewrite Et).
  edestruct (MissionProofs.compose_returns py_repr class_name exn_str py_str loads registry environ control_plane owner_id x1)
    as (rg & w & E).
  rewrite (bind_ok _ _ _ _ _ E), bind_gets. destruct (Hfit x1 rg w E) as [Ht Hk]. destruct (rg_owner rg) as [o|].
  - destruct (snapshot_returns py_str sha1 float_text t demo_mode rg o (statuses w.1) Ht Hk w.2) as (sn & x' & Es & _).
    unfold out, zoom. rewrite Es. by exists sn, x'.
  - by eexists _, w.2.
Qed.

(** One row of the Agent that carries a text where its summary belongs costs the
    whole map: the composition raises, although the Agent's lane said it was
    read. *)
Theorem malformed_row_loses_map {X} `{!UtcClock X} py_str sha1 float_text generated_at demo_mode r owner statuses row s (x : X) :
  row ∈ r.(rg_turns) → get "observability_summary" row = JStr s → s ≠ "" →
  ∃ e x', snapshot_of py_str sha1 float_text generated_at demo_mode r owner statuses x = (Raise e, x').
Proof.
  intros Hr Hs Hne. destruct (snapshot_of _ _ _ _ _ _ _ _ _) as [[sn|e] x'] eqn:E; [exfalso|by exists e, x'].
  unfold snapshot_of in E. do 5 (apply bind_ok_inv in E as (? & ? & _ & E)).
  apply bind_ok_inv in E as (agents & ? & E & _). injection E as E _.
  destruct (for_each_in _ _ _ _ E Hr) as (t & _ & Ht). unfold turn in Ht. rewrite Hs in Ht. cbn in Ht.
  by rewrite bool_decide_eq_false_2 in Ht.
Qed.

(** ** What a running turn may claim *)

Lemma running_active py_str v : stage_status py_str v = "running" → activity_is_active (MissionText.text_or py_str "unknown" v) = true.
Proof.
  unfold stage_status, lowered, activity_is_active, text_or. destruct (json_truthy v); [|done].
  set (s := lower _). unfold one_of. repeat case_bool_decide; try done. intros _.
  match goal with H : s ∉ ACTIVE_ACTIVITY_STATES |- _ => destruct H end. unfold ACTIVE_ACTIVITY_STATES. set_solver.
Qed.
(** The hops of a turn that is still running. *)
Lemma running_stages py_str row obs stages : turn_stages py_str row obs = Ok stages → stage_status py_str (get "status" row) = "running" →
  (∃ o, o ∈ stages ∧ get "key" o = JStr "agent_turn" ∧ get "status" o = JStr "running") ∧
  Forall (λ o, ∃ k s, get "key" o = JStr k ∧ k ≠ "" ∧ get "status" o = JStr s ∧
    (k ∈ ["agent_turn"; "response"] → s ∈ ["running"; "pending"])) stages.
Proof.
  intros H Hrun. unfold turn_stages in H. rewrite Hrun in H. change (bool_decide ("running" = "running")) with true in H.
  cbv zeta in H. repeat (apply result_bind_ok in H as (? & _ & H)). injection H as <-. split.
  - eexists. split; [do 2 right; left|]. done.
  - unfold stage, get. repeat constructor; cbn; do 2 eexists; split_and!; try done; try set_solver.
    intros _. unfold response_stage_status. destruct x0; set_solver.
Qed.
Lemma hop_of_stage py_str t i o h k s : stage_hop py_str t i o = Ok h → get "key" o = JStr k → k ≠ "" → get "status" o = JStr s →
  h.(hp_stage) = k ∧ (s ≠ "" → h.(hp_status) = s).
Proof.
  intros H Hk Hne Hs. unfold stage_hop in H. rewrite Hk in H. unfold text_or in H. rewrite Hs in H. cbn [json_truthy] in H.
  rewrite (bool_decide_eq_false_2 (k = "")) in H by done. cbn [negb Upstream.str_of] in H. destruct (voice_stage_node _ _) as [[? ?] ?].
  apply result_bind_ok in H as (? & _ & [= <-]). cbn. split; [done|]. intros Hsn. by rewrite bool_decide_eq_false_2.
Qed.
(** A turn the Agent is still working on is shown as active and points at a hop
    of its own route that is running; what the Agent does and says in it is
    running or pending, never done. *)
Theorem running_turn_points py_str row t a :
  turn py_str row = Ok t → stage_status py_str (get "status" row) = "running" → voice_activity py_str t = Ok a →
  is_active a = true ∧
  (∃ h, h ∈ a.(av_route) ∧ a.(av_current_hop_id) = Some h.(hp_hop_id) ∧ h.(hp_status) = "running") ∧
  (∀ h, h ∈ a.(av_route) → h.(hp_stage) ∈ ["agent_turn"; "response"] → h.(hp_status) ∈ ["running"; "pending"]).
Proof.
  intros Ht Hrun Ha. unfold turn in Ht. apply result_bind_ok in Ht as (obs & _ & Ht).
  apply result_bind_ok in Ht as (stages & Hst & Ht). repeat (apply result_bind_ok in Ht as (? & _ & Ht)). injection Ht as <-.
  destruct (running_stages _ _ _ _ Hst Hrun) as [(o & Ho & Hok & Hos) Hall]. rewrite Forall_forall in Hall.
  unfold voice_activity in Ha. cbn [rt_stages rt_device_id rt_companion_id rt_status rt_turn_id] in Ha. cbv zeta in Ha.
  apply result_bind_ok in Ha as (hops & Hh & [= <-]). unfold is_active. cbn [av_status av_route av_current_hop_id].
  rewrite (running_active _ _ Hrun).
  assert (∀ h, h ∈ hops → ∃ k s, h.(hp_stage) = k ∧ (k ∈ ["agent_turn"; "response"] → h.(hp_status) = s ∧ s ∈ ["running"; "pending"])) as Hhop.
  { intros h Hin. apply for_each_ok in Hh. apply list_elem_of_lookup in Hin as (j & Hj).
    destruct (Forall2_lookup_r _ _ _ _ _ Hh Hj) as ([i o'] & Hp & Hs). cbn in Hs. apply list_elem_of_lookup_2 in Hp.
    apply elem_of_lookup_imap in Hp as (j' & o'' & E & Hj'). injection E as _ ->.
    destruct (Hall o'' ltac:(by eapply list_elem_of_lookup_2)) as (k & s & Hk & Hne & Hs' & Hks).
    destruct (hop_of_stage _ _ _ _ _ _ _ Hs Hk Hne Hs') as [Hstage Hstat]. exists k, s. split; [done|]. intros Hkin.
    specialize (Hks Hkin). split; [|done]. apply Hstat. set_solver. }
  assert (∃ h, h ∈ hops ∧ h.(hp_status) = "running") as (hr & Hr & Hrs).
  { apply list_elem_of_lookup in Ho as (j & Hj).
    destruct (for_each_in _ _ _ (j, o) Hh) as (h & Hin & Hs).
    { apply elem_of_lookup_imap. by exists j, o. }
    cbn in Hs. destruct (hop_of_stage _ _ _ _ _ _ _ Hs Hok ltac:(done) Hos) as [_ Hstat]. exists h. split; [done|by apply Hstat]. }
  split_and!; [done| |].
  - set (route := _ ++ _ ++ hops). assert (hr ∈ route) as Hrin by (apply elem_of_app; right; apply elem_of_app; by right).
    destruct (next_or_none (λ h, bool_decide (h.(hp_status) = "running")) (rev route)) as [h|] eqn:E.
    + apply next_or_none_Some in E as [Hin Hst']. apply bool_decide_eq_true in Hst'. exists h. split; [|done].
      apply list_elem_of_In, in_rev. by apply list_elem_of_In.
    + rewrite next_or_none_None in E. specialize (E hr). rewrite Hrs in E. exfalso. cbn in E. discriminate E.
      apply list_elem_of_In. rewrite <- in_rev. by apply list_elem_of_In.
  - intros h Hin Hk. apply elem_of_app in Hin as [Hin|[Hin|Hin]%elem_of_app].
    + destruct (nonempty _); [|by apply elem_of_nil in Hin]. apply list_elem_of_singleton in Hin as ->. cbn in Hk. set_solver.
    + case_bool_decide; [by apply elem_of_nil in Hin|]. apply list_elem_of_singleton in Hin as ->. cbn in Hk. set_solver.
    + destruct (Hhop h Hin) as (k & s & Hk' & Hs). rewrite Hk' in Hk. destruct (Hs Hk) as [-> ?]. done.
Qed.

(** ** Jobs, one row each *)

Lemma latest_first_total a b : latest_first a b = true ∨ latest_first b a = true.
Proof. unfold latest_first. rewrite !Z.leb_le. lia. Qed.
Lemma latest_first_trans a b c : latest_first a b = true → latest_first b c = true → latest_first a c = true.
Proof. unfold latest_first. rewrite !Z.leb_le. lia. Qed.
Definition kept_jobs (l : list RuntimeJob) : list (string * RuntimeJob) :=
  foldl (λ d j, match dict_get j.(rj_job_id) d with Some _ => d | None => dict_set j.(rj_job_id) j d end) [] l.
Lemma kept_jobs_spec l : StronglySorted (λ a b, latest_first a b = true) l →
  NoDup (kept_jobs l).*1 ∧ (kept_jobs l).*1 = rj_job_id <$> (kept_jobs l).*2 ∧ (kept_jobs l).*2 `sublist_of` l ∧
  ∀ j, j ∈ l → ∃ j', dict_get j.(rj_job_id) (kept_jobs l) = Some j' ∧ latest_first j' j = true.
Proof.
  induction l as [|x l IH] using rev_ind; intros Hs; [split_and!; [constructor|done|done|by intros ? ?%elem_of_nil]|].
  apply StronglySorted_app in Hs as (Hx & Hs & _). destruct (IH Hs) as (Hn & Hk & Hl & Hall).
  assert (kept_jobs (l ++ [x]) = match dict_get x.(rj_job_id) (kept_jobs l) with Some _ => kept_jobs l | None => kept_jobs l ++ [(x.(rj_job_id), x)] end) as ->.
  { unfold kept_jobs. rewrite foldl_app. cbn [foldl]. destruct (dict_get _ _) eqn:E; [done|]. by apply dict_set_fresh, dict_get_None. }
  assert (latest_first x x = true) as Hxx by (unfold latest_first; lia).
  destruct (dict_get x.(rj_job_id) (kept_jobs l)) as [k|] eqn:E.
  - split_and!; [done|done|by apply sublist_inserts_r|]. intros j [Hj| ->%list_elem_of_singleton]%elem_of_app; [by apply Hall|].
    exists k. split; [done|]. apply Hx; [|by left]. eapply elem_of_submseteq; [|by apply sublist_submseteq].
    apply dict_get_elem in E. apply list_elem_of_fmap. by exists (x.(rj_job_id), k).
  - rewrite !fmap_app. cbn. split_and!.
    + apply NoDup_app. split_and!; [done| |apply NoDup_singleton]. intros k Hkin ->%list_elem_of_singleton. by apply dict_get_None in E.
    + by rewrite Hk.
    + by apply sublist_app.
    + assert (∀ i, dict_get i (kept_jobs l ++ [(x.(rj_job_id), x)]) =
        match dict_get i (kept_jobs l) with Some j => Some j | None => if bool_decide (i = x.(rj_job_id)) then Some x else None end) as Hg.
      { intros i. rewrite <- dict_set_fresh by (by apply dict_get_None). rewrite dict_get_set. case_bool_decide as Ei; [subst i; by rewrite E|].
        by destruct (dict_get i _). }
      intros j [Hj| ->%list_elem_of_singleton]%elem_of_app; rewrite Hg; [|rewrite E, bool_decide_eq_true_2 by done; eauto].
      destruct (Hall j Hj) as (j' & -> & ?). eauto.
Qed.
(** Each job is shown once, in the row that says the latest about it, and the
    jobs stand in the order of what they say, the latest first. *)
Theorem jobs_shown_once jobs :
  NoDup (rj_job_id <$> dedupe_jobs jobs) ∧ StronglySorted (λ a b, latest_first a b = true) (dedupe_jobs jobs) ∧
  (∀ j, j ∈ dedupe_jobs jobs → j ∈ jobs) ∧
  (∀ j, j ∈ jobs → ∃ j', j' ∈ dedupe_jobs jobs ∧ j'.(rj_job_id) = j.(rj_job_id) ∧ latest_first j' j = true).
Proof.
  pose proof (sort_by_sorted latest_first jobs latest_first_total latest_first_trans) as Hs.
  destruct (kept_jobs_spec _ Hs) as (Hn & Hk & Hl & Hall). change (dedupe_jobs jobs) with (kept_jobs (sort_by latest_first jobs)).*2.
  rewrite <- Hk. split_and!; [done|by eapply sublist_sorted| |].
  - intros j Hj. rewrite <- (sort_by_perm latest_first jobs). eapply elem_of_submseteq; [done|by apply sublist_submseteq].
  - intros j Hj. rewrite <- (sort_by_perm latest_first jobs) in Hj. destruct (Hall j Hj) as (j' & Hg%dict_get_elem & Hle). exists j'.
    split; [apply list_elem_of_fmap; by exists (j.(rj_job_id), j')|]. split; [|done].
    apply list_elem_of_lookup in Hg as (i & Hi). pose proof (f_equal (λ m, m !! i) Hk) as Hi'. cbn in Hi'.
    rewrite !list_lookup_fmap, Hi in Hi'. by injection Hi'.
Qed.

(** ** History *)

Lemma parse_dt_range v t : parse_dt v = Ok (Some t) → (0 <= t < MAX_DATETIME)%Z.
Proof.
  unfold parse_dt. destruct v as [| | | | | |s| |]; try done. case_bool_decide; [done|]. destruct (fromisoformat _) as [u|]; [|done].
  unfold as_utc. destruct (_ && _) eqn:E; [|done]. cbn. intros [= <-]. lia.
Qed.
Lemma voice_started py_str row t a : turn py_str row = Ok t → voice_activity py_str t = Ok a →
  ∀ u, a.(av_started_at) = Some u → (0 <= u < MAX_DATETIME)%Z.
Proof.
  intros Ht Ha u Hu. unfold voice_activity in Ha. apply result_bind_ok in Ha as (? & _ & [= <-]). cbn in Hu. unfold turn in Ht.
  do 5 (apply result_bind_ok in Ht as (? & _ & Ht)). apply result_bind_ok in Ht as (o & Ho & Ht).
  repeat (apply result_bind_ok in Ht as (? & _ & Ht)). injection Ht as <-. cbn in Hu. subst o. by eapply parse_dt_range.
Qed.
(** A page of the history that is not the last ends in a cursor, and the cursor
    reads back as the instant the oldest activity of the page began. *)
Theorem history_cursor_reads_back {X} `{!UtcClock X, !Clock X, !Http X} py_str py_repr exn_str loads registry environ
    owner_id before limit (x x' : X) activities cursor failure :
  owner_activity_page py_str py_repr exn_str loads registry environ owner_id before limit x = (Ok (activities, Some cursor, failure), x') →
  ∃ oldest, last activities = Some oldest ∧ parse_dt (JStr cursor) = Ok oldest.(av_started_at).
Proof.
  unfold owner_activity_page. match goal with |- (let '(_, _) := ?c in _) = _ → _ => destruct c as [r w] eqn:E end. intros [= -> <-].
  apply bind_ok_inv in E as (rows & w1 & _ & E). apply bind_ok_inv in E as (l & w2 & _ & E).
  apply bind_ok_inv in E as (acts & w3 & Ea & E). injection E as <- Ec _ _. injection Ea as Ea _.
  destruct (last acts) as [oldest|] eqn:El; [|done]. exists oldest. split; [done|]. case_match; [|done].
  destruct (av_started_at oldest) as [u|] eqn:Eu; [|done]. injection Ec as <-. unfold stamp_iso. apply parse_timestamp.
  assert (oldest ∈ acts) as Hin by (by apply last_Some_elem_of).
  apply for_each_ok in Ea. apply list_elem_of_lookup in Hin as (i & Hi). destruct (Forall2_lookup_r _ _ _ _ _ Ea Hi) as (row & _ & Hrow).
  apply result_bind_ok in Hrow as (t & Ht & Ha). by eapply voice_started.
Qed.

(** ** The stream and the blackboard *)

Lemma hub_event_unowned {X} `{!UtcClock X, !Uuid4 X} py_str sha1 raw (x x' : X) e :
  hub_event_to_runtime py_str sha1 raw x = (Ok e, x') → e.(ev_owner_id) = None.
Proof.
  unfold hub_event_to_runtime. intros H. apply bind_ok_inv in H as (t & x1 & _ & H). cbv zeta in H.
  case_bool_decide; [|case_bool_decide]; repeat (apply bind_ok_inv in H as (? & ? & _ & H)); by injection H as <- _.
Qed.
(** Nothing says whose a frame of Hub is, so a reader who selected an Owner is
    shown none: only comments pass. *)
Theorem scoped_stream_silent {X} `{!UtcClock X, !Uuid4 X} py_str sha1 loads owner line (x x' : X) f :
  hub_line py_str sha1 loads (Some owner) line x = (Ok (Some f), x') → ∃ c, f = Comment c.
Proof.
  unfold hub_line. case_bool_decide; [done|]. destruct (begins ":" line); [intros [= <- <-]; eauto|].
  destruct (begins "data:" line); [|done]. cbn [negb]. cbv zeta. destruct (_ || _); [intros [= <- <-]; eauto|].
  destruct (loads _) as [raw|e]; [|by destruct e]. intros Hl. apply bind_ok_inv in Hl as (e & x1 & He & Hl).
  apply hub_event_unowned in He. unfold event_in_owner_scope, enrich_runtime_event in Hl. rewrite He in Hl. cbn in Hl.
  by rewrite bool_decide_eq_false_2 in Hl.
Qed.

(** The blackboard read for an Owner is one entry at most, under that Owner's
    key; a document in it is one that names the Owner, and is shown as it is. *)
Theorem blackboard_scoped {X} `{!UtcClock X, !BlackboardStore X} exn_str loads bucket key_of owner (x x' : X) r :
  owner ≠ "" → read_runtime_blackboard exn_str loads bucket key_of (Some owner) x = (Ok r, x') →
  length r.(br_entries) ≤ 1 ∧
  ∀ e, e ∈ r.(br_entries) → e.(be_key) = key_of owner ∧
    match e.(be_snapshot) with
    | Some d => get "owner_id" d = JStr owner ∧ e.(be_owner_id) = Some owner ∧ e.(be_error) = ""
    | None => e.(be_error) ≠ ""
    end.
Proof.
  intros Hne H. unfold read_runtime_blackboard in H. destruct kv_available; [|done]. cbn [negb] in H.
  apply bind_ok_inv in H as (entries & x1 & Hc & H). apply bind_ok_inv in H as (t & x2 & _ & H). injection H as <- _. cbn [br_entries].
  unfold catch in Hc. match type of Hc with context [match ?c with _ => _ end] => destruct c as [[es|e] y] eqn:E end.
  2:{ by destruct e. }
  injection Hc as <- <-. apply bind_ok_inv in E as (? & ? & _ & E). unfold blackboard_keys, nonempty in E.
  rewrite bool_decide_eq_false_2 in E by done. rewrite bind_mret in E. cbn [read_entries] in E.
  apply bind_ok_inv in E as (raw & x4 & _ & E). destruct raw as [raw|].
  2:{ injection E as <- _. split; [cbn; lia|by intros e ?%elem_of_nil]. }
  apply bind_ok_inv in E as (e & x5 & He & E). injection E as <- _. split; [cbn; lia|].
  intros e' ->%list_elem_of_singleton. injection He as He _. unfold entry_of in He.
  destruct (loads raw) as [v|ex]; [|destruct ex; try done; by injection He as <-]. destruct v as [| | | | | | | |d]; try by injection He as <-.
  destruct (negb _) eqn:Ef; [by injection He as <-|]. apply negb_false_iff, bool_decide_eq_true in Ef.
  cbv zeta in He. rewrite Ef in He. rewrite bool_decide_eq_true_2 in He by done. injection He as <-. cbn. split; [done|].
  destruct (get "owner_id" d); by simplify_eq.
Qed.

(** ** At concrete inputs *)

Definition a_job (n : Z) : RuntimeJob :=
  mkJob (pretty n) "owner-1" (Some "companion-1") None None "agent" "long_task" "done" "Asked" [] "" (Some n) None None.
Lemma activities_bounded_witness :
  ∃ l, project_runtime_activities (λ _, "") [] (a_job <$> seqZ 0 13) [] = Ok l ∧ length l ≤ 48 ∧
    count_where (idle_in "companion-1") l ≤ 12.
Proof.
  eexists. split; [vm_compute; reflexivity|].
  edestruct (activities_bounded (λ _, "") [] (a_job <$> seqZ 0 13) []) as (H1 & _ & _ & H2 & _);
    [vm_compute; reflexivity|vm_compute; reflexivity|].
  split; [exact H1|apply H2].
Defined.

Definition an_event : RuntimeEvent :=
  mkEvent "event-1" 5 "channel" "channel.turn.completed" "info" "success" "live" (Some "trace-1") (Some "owner-1") None None None
    None None "Turn completed" [("channel_turn_id", JStr "channel-turn-1")].
Definition a_row : obj :=
  [("turn_id", JStr "turn-1"); ("trace_id", JStr "trace-1"); ("status", JStr "running"); ("owner_id", JStr "owner-1");
   ("started_at", JStr "2026-05-02T12:00:00Z"); ("observability_summary", JObj [("tools", JObj [("count", JInt 1)])])].
Definition an_agent_turn : RuntimeTurn :=
  mkTurn "turn-1" (Some "trace-1") None (Some "turn-1") "" None "owner-1" "" None "running" "" (Some 3%Z) None None 0 [] None
    "agent_turn" "success" "" [] [] [] [].
Lemma projected_turns_complete_witness :
  ∃ l, project_runtime_turns (λ _, "") (λ _, Raise AssertionError) [an_event] [an_agent_turn] = Ok l ∧
    ∃ t, t ∈ l ∧ t.(rt_agent_turn_id) = Some "turn-1".
Proof.
  eexists. split; [vm_compute; reflexivity|].
  edestruct (projected_turns_complete (λ _, "") (λ _, Raise AssertionError) [an_event] [an_agent_turn]) as (_ & _ & Ha & _);
    [|vm_compute; reflexivity|exact (Ha an_agent_turn ltac:(left))].
  by intros a ->%list_elem_of_singleton.
Defined.

#[local] Instance one_clock : UtcClock unit := {| utc_now x := (0%Z, x) |}.
#[local] Instance one_counter : Clock unit := {| perf_counter x := (0%Z, x) |}.
#[local] Instance one_http : Http unit := {| send _ := mret (mkHttpResponse 200 []) |}.
#[local] Instance one_authority : RuntimeAuthorities unit :=
  {| ra_get_owner o := mret (mkOwnerRecord o "" "active" None); ra_default_runtime _ := raise TimeoutError; ra_supervisor := false;
     ra_list_realms := raise TimeoutError; ra_memory_status _ _ := raise TimeoutError; ra_host_services := false;
     ra_list_services := raise TimeoutError |}.
Definition one_page (_ : bytes) : result json := Ok (JObj [("turns", JList [JObj a_row]); ("tasks", JList [])]).
Definition one_service (_ : string) : option ServiceConfig := Some (mkServiceConfig "http://agent" None "" None).
Lemma composition_returns_witness :
  ∃ sn x, build_snapshot (λ _, "") (λ _, "") (λ _, Raise AssertionError) id (λ _, "") (λ _, "") one_page one_service (λ _, None)
    true (Some "owner-1") "live" tt = (Ok sn, x).
Proof.
  apply (composition_returns (X := unit)). intros [] rg w E. vm_compute in E. injection E as <- _. split; vm_compute; reflexivity.
Defined.
